(* ===== verification/_CoqProject ===== *)
-Q . S2P
Prelude.v
GoStd.v
GoFacts.v
Version.v
PciAddress.v
Pool.v
Backend.v
PciDevice.v
Resources.v
Drivers.v
Disks.v
Cdroms.v
NetIfaces.v
HostDevices.v
Peripherals.v
Json.v
InstanceProperties.v
InstanceConf.v
CommandLine.v
ConfInvariant.v
ConfTheorems.v
CommandLineFacts.v
ConfJson.v
ConfJsonFacts.v
Monitor.v
InstanceQemu.v
InstanceQemuFacts.v
InstanceQemuTheorems.v
Server.v
ServerFacts.v
ServerTheorems.v
Ip.v
IpFacts.v
Dotenv.v
DotenvFacts.v
PciIds.v
PciIdsFacts.v
OsUser.v
Services.v
HostNet.v
Netstat.v
Cgroups.v
Lifecycle.v
Network.v
NetworkServer.v
NetstatFacts.v
CgroupsFacts.v
Listing.v
ListingFacts.v
CloudInit.v
CloudInitFacts.v
NetworkFacts.v
LifecycleFacts.v
LifecycleTheorems.v
Incoming.v
IncomingFacts.v
HostNetFacts.v
NetworkServerFacts.v
Migration.v
Said.v
Tasks.v
Launcher.v
System.v
Backup.v
LauncherFacts.v
TasksFacts.v
LauncherTheorems.v
BackupFacts.v
Transfer.v
TransferFacts.v
MigrationFacts.v
MigrationTheorems.v
Api.v
ApiFacts.v
Flags.v
Client.v
ClientFacts.v
Progress.v
Tools.v
Daemon.v
