(* ===== verification/Prelude.v ===== *)
(** * kvmrun in Rocq

    kvmrun runs virtual machines under QEMU on a Linux host.  A daemon, [kvmrund], keeps
    a configuration file for each machine, starts and stops it through systemd, changes it
    while it runs over QEMU's monitor (QMP), backs it up, moves it to other servers and
    configures its network.  systemd starts a machine with [launcher], which becomes QEMU.
    [vmm] and [vnetctl] are the commands an administrator types; they speak gRPC with the
    daemon.

    Every definition is a translation of Go code of the repository and runs; a theorem is
    about these definitions.  This file holds what all others share; this comment describes
    the whole.

    ** From a command to a machine

    [Flags] and [Client] turn a command line into requests; [Api] answers them with the
    handlers of [Server] and [Lifecycle] (a machine), [NetworkServer] (its network),
    [Backup], [Migration] and [Incoming] (longer tasks).  A handler loads the machine's
    file ([ConfJson]), changes the running machine first ([InstanceQemu] over [Monitor])
    and then the configuration ([InstanceConf]), and saves the file.  Both are made of the
    same devices ([Disks] to [Peripherals]), kept in ordered pools ([Pool]).  To start a
    machine, [Launcher] reads the file, has [CommandLine] make QEMU's arguments, tells the
    daemon ([System]) and executes QEMU.

    ** The files

    - Foundations.  [Prelude]: errors, panics, outcomes.  [GoStd], [GoFacts]: Go's standard
      library.  [Json]: [encoding/json].  [Said]: operations whose requests are a log.
    - Data.  [Version] (internal/version, internal/qemu), [PciAddress], [PciDevice] and
      [PciIds] (internal/pci), [Pool] (kvmrun/internal/pool), [Backend] (kvmrun/backend),
      [Ip] (internal/ipmath, internal/utils/network.go).
    - Parts of a machine, one file for each of kvmrun/: [Resources], [Drivers], [Disks],
      [Cdroms], [NetIfaces], [HostDevices], [Peripherals], [InstanceProperties].
    - A machine.  [InstanceConf] (kvmrun/instance_conf.go), [ConfInvariant] and
      [ConfTheorems]: its operations as a transition system, and what holds of it;
      [ConfJson] and [ConfJsonFacts]: its file; [CommandLine], [CommandLineFacts]
      (kvmrun/cmdline_qemu_i440fx.go); [Monitor], [InstanceQemu] and their facts
      (kvmrun/instance_qemu.go, instance_qemu_i440fx.go).
    - The daemon's handlers.  [Server], [ServerFacts], [ServerTheorems] (server/machine);
      [Services], [OsUser], [Lifecycle] and their facts (creating, deleting, power);
      [Listing] (lists of machines and PCI devices); [Tasks] (background tasks, the pool of
      monitors); [System] (server/system); [Daemon] (its configuration and start, systemd's
      properties, what it tells of devices, how long a machine runs).
    - Long tasks.  [Backup]; [Migration], [Transfer] (sending); [Incoming] (receiving), with
      their facts in [BackupFacts], [MigrationFacts], [TransferFacts], [IncomingFacts] and
      [MigrationTheorems].
    - The host.  [HostNet] (internal/hostnet), [Network], [NetworkServer] (server/network),
      [Cgroups], [Netstat], [CloudInit], [Dotenv], [Launcher] (cmd/launcher), [Tools]
      (internal/osprober, updater, garp, qemu, cmd/netinit), with their facts.
    - Clients.  [Api], [ApiFacts] (services/, the messages); [Flags], [Client],
      [ClientFacts] (client/, cmd/vmm, cmd/vnetctl); [Progress] (client/progress_bar).

    A [Module] of a file is a Go type or a Go package; operations have the names of their
    methods, [_] following a name that Rocq or another definition has taken.

    ** How code is translated

    A Go function that can only fail is an [outcome]: a value, an error or a panic.  A
    method with a pointer receiver is an [op S A], a function of the state to an outcome and
    the state that is left, also after an error.  Integers are [Z]; where a result can leave
    Go's width the wrap-around is written ([wrap64], [uint32]).  Strings are sequences of
    bytes, maps are [gmap]s, pools are lists of keys with a map.

    What is outside the repository is asked: QEMU, the kernel, systemd, D-Bus, the file
    system, other servers, programs.  Each request and its type of answer is a constructor;
    an operation appends what it asks to a log, and a strategy, a parameter, answers from
    all that was asked before.  So any request may fail at any time, and answers may change.
    The classes of what is outside are [Host] and [Env] (in [Backend]), [Sysfs] and [PciBus]
    ([PciDevice]), [Outside] ([Monitor]: QEMU), [Accounts] and [Services] ([Services]),
    [Network], [LinkJson] ([HostNet]), [Netlink] ([Ip]), [Launch] ([Launcher]), [Daemon],
    [StatJson] and [Uuid] ([Tasks]), [ProcFs] ([Netstat]), [CgroupFs] ([Cgroups]),
    [IdsFiles] ([PciIds]), [IsoHost] and [Yaml] ([CloudInit]), [Process] ([CommandLine]),
    [Kvmrund] and [Shell] ([Client]), [ToolHost] ([Tools]), [Files], [Startup] and
    [TimeText] ([Daemon]).  A theorem that needs one of them to behave says how, in a
    hypothesis or a class of laws, and its witness has a strategy that does.

    Go visits a map in an order of its own: [HostNet.MapOrder] is that order, one for each
    map, and theorems hold of every order.  Where an order is visible and the code sorts
    nothing, association lists keep it.

    ** Concurrency

    Methods that hold a mutex are steps.  Goroutines that meet on channels are states with a
    step for each channel operation, call and access: [Transfer] (sending a machine: the
    mirroring of disks, the machine's state, cancellation), [Listing] (the lists that
    workers gather) and [Progress] (the bars of a watched task).  Their theorems hold of
    every schedule, by induction on the steps.  The readers of a running machine's devices
    share only what [InstanceQemu] runs in their order of appearance; the two orders of the
    reader of cdroms and that of disks are compared in [InstanceQemuTheorems].  The
    goroutines of a registration are operations of their own ([System]), and share nothing.

    ** What is shown

    - A configuration: every one that can be reached is well-formed, a failed operation
      changes nothing - both but for a flash file that is set when the working directory
      of the daemon can not be told -, the one panic is named, and what is saved is loaded, as
      far as its texts are UTF-8 ([ConfTheorems], [ConfJsonFacts]); pools refine ordered
      association lists ([Pool]).
    - Requests: no file is changed but the machine's, which then has a well-formed
      configuration of its name, and, when a firmware is set, the two images next to it
      ([ServerFacts]); what was asked of a disk is what is told of it, and a request to
      reconfigure a missing machine is answered with NotFound ([ApiFacts]).
    - A running machine: what a failed call leaves behind, and when it is undone
      ([InstanceQemuFacts]); when it has a command line, and which ([CommandLineFacts]); what
      QEMU is executed with, out of the configuration that this start has read
      ([LauncherTheorems]).
    - Life: new machines have what was asked for, within what a machine may have, and the
      least free user id ([LifecycleFacts], [OsUser]).
    - Moving and copying: order of disks and state, what leaves and what is removed, what
      arrives under a valid name, what is left of a machine that does not, when a backup
      counts as done ([TransferFacts], [MigrationFacts], [IncomingFacts], [BackupFacts]).
    - The host: schemes, their addresses and the files they touch ([NetworkFacts],
      [NetworkServerFacts]), quotas, sockets, images, files of variables ([CgroupsFacts],
      [NetstatFacts], [CloudInitFacts], [DotenvFacts]).
    - Lists: that of the machines gets complete unless asking for one panics, which ends
      the daemon; that of the devices does not with one processor ([ListingFacts]).
    - Commands: what the daemon is asked for, and that watching ends ([ClientFacts],
      [Progress]).
    - What goes wrong: theorems whose name or comment says so are of code that does not do
      what it means to, with a run in which it happens.

    ** Termination and fuel

    Loops over data are structural.  A recursion without a bound in the code runs on fuel:
    the consumer links of PCI devices (any fuel above the longest path is enough, in [PciDevice]),
    the parser of variables ([parse_ends]: one step more than the text has bytes is enough,
    for a result, an error, or the panic of a value that begins with a hash), the watching
    of a task by a command ([backup_watch] says when it ends and shows when it does not).
    A command that runs out of fuel is [Unfinished], which no theorem takes for an end.
    Polls of the daemon take the ticks that come before the code's timer, or what each tick
    is told.  A host command that is repeated until it is refused is one request
    ([HostNet.UntilRefused]).

    ** What is simplified

    Texts of JSON are the values they denote, with numbers that are integers; bytes that are
    not UTF-8 are replaced when a value is printed ([Json.marshalled]), except in schemes,
    whose texts are taken to be UTF-8.  An error keeps
    what the code distinguishes by it (sentinels, types, what [os.IsNotExist] says), not the
    rest of its text; gRPC statuses come from the sentinels only.  Modes of files, umasks,
    logs and printed lines are left out, as is the capacity of slices of runes ([PciIds]).
    sysfs and /proc are those of one moment.  The parser of command lines is third-party:
    [Command] is what it says.

    ** Not modelled

    [api/]: what protoc generates (the messages that handlers use are records of [Api]).
    [cmd/gencert]: calls of crypto/x509.  [cmd/kvmrund], the main function of
    [cmd/launcher] and [services/*/service.go]: they hand what is modelled to the libraries'
    servers.  [internal/flock], [internal/randstring], [internal/grpc]: one call of the
    system or a library each.  Libraries (QMP client, netlink, go-task, gRPC, gcfg, yaml, cli)
    are parameters. *)

From Stdlib Require Export ZArith Lia.
From stdpp Require Export base strings gmap fin_maps numbers list.

#[export] Set Default Goal Selector "!".
#[export] Set Warnings "-clear-no-such-hyp".

(** * Errors and panics

    A Go function of the repository ends in one of three ways: it returns, it
    returns a non-nil [error], or the runtime panics.  [goerr] keeps the error
    values the code distinguishes (sentinels tested with [errors.Is], error
    types tested by assertion) apart from the plain [fmt.Errorf] texts. *)
Inductive goerr : Type :=
  | PoolAlreadyExists (key : string)       (* pool.ErrAlreadyExists *)
  | PoolNotFound (key : string)            (* pool.ErrNotFound *)
  | ErrAlreadyExists (what : string)       (* kvmrun.ErrAlreadyExists *)
  | ErrNotFound (what : string)            (* kvmrun.ErrNotFound *)
  | ErrNotRunning (what : string)          (* kvmrun.ErrNotRunning *)
  | ErrNotImplemented                      (* kvmrun.ErrNotImplemented *)
  | AlreadyConnectedError (source object : string)
  | NotConnectedError (source object : string)
  | UnknownBackendError (path : string)
  | NumError (input : string)              (* strconv.NumError *)
  | ErrNotExist (path : string)            (* os.ErrNotExist *)
  | ErrExist (path : string)               (* os.ErrExist *)
  | DeadlineExceeded                       (* context.DeadlineExceeded *)
  | DeviceNotActive                        (* qmp.DeviceNotActive *)
  | DeviceNotFound                         (* qmp.DeviceNotFound *)
  | SocketNotAvailable                     (* qmp.IsSocketNotAvailable *)
  | SocketClosed                           (* qmp.IsSocketClosed *)
  | NetOpError                             (* net.OpError *)
  | ErrHost (what : string)                (* any other error of the host *)
  | ErrMsg (msg : string).                 (* fmt.Errorf without a sentinel *)

Inductive panic : Type :=
  | DivideByZero
  | IndexOutOfRange
  | NilDereference
  | NonPositiveInterval.

#[export] Instance goerr_eq_dec : EqDecision goerr.
Proof. solve_decision. Defined.
#[export] Instance panic_eq_dec : EqDecision panic.
Proof. solve_decision. Defined.

(** * Outcomes *)
Inductive outcome (A : Type) : Type :=
  | Ret (a : A)
  | Throw (e : goerr)
  | Panic (p : panic).
Arguments Ret {A} _.
Arguments Throw {A} _.
Arguments Panic {A} _.

#[export] Instance outcome_ret : MRet outcome := @Ret.
#[export] Instance outcome_bind : MBind outcome := λ A B f m,
  match m with Ret a => f a | Throw e => Throw e | Panic p => Panic p end.

#[export] Instance outcome_fmap : FMap outcome := λ A B f m,
  match m with Ret a => Ret (f a) | Throw e => Throw e | Panic p => Panic p end.

#[export] Instance outcome_eq_dec {A} `{EqDecision A} : EqDecision (outcome A).
Proof. solve_decision. Defined.

Definition is_ret {A} (o : outcome A) : bool :=
  match o with Ret _ => true | _ => false end.

(** * Operations on a mutable object

    [op S A] is a Go method with a pointer receiver of type [*S] and results
    [(A, error)]: the object is kept on every outcome, so what a method wrote
    before it failed is still there afterwards. *)
Definition op (S A : Type) : Type := S → outcome A * S.

#[export] Instance op_ret {S} : MRet (op S) := λ A a s, (Ret a, s).
#[export] Instance op_bind {S} : MBind (op S) := λ A B f m s,
  match m s with
  | (Ret a, s') => f a s'
  | (Throw e, s') => (Throw e, s')
  | (Panic p, s') => (Panic p, s')
  end.

Definition throw {S A} (e : goerr) : op S A := λ s, (Throw e, s).
Definition lift {S A} (o : outcome A) : op S A := λ s, (o, s).
Definition get {S} : op S S := λ s, (Ret s, s).
Definition modify {S} (f : S → S) : op S unit := λ s, (Ret (), f s).

(** [if cond { return err }] *)
Definition fail_if {S} (cond : bool) (e : goerr) : op S unit :=
  if cond then throw e else mret ().

(** [if err := m; err != nil { return f(err) }] *)
Definition map_err {S A} (f : goerr → goerr) (m : op S A) : op S A := λ s,
  match m s with
  | (Throw e, s') => (Throw (f e), s')
  | r => r
  end.

(** A method called on a local copy: the copy's final value is the result. *)
Definition locally {S T} (m : op T unit) (t : T) : op S T := λ s,
  match m t with
  | (Ret _, t') => (Ret t', s)
  | (Throw e, _) => (Throw e, s)
  | (Panic p, _) => (Panic p, s)
  end.

(** A method of a field of the receiver. *)
Definition zoom {S T A} (g : S → T) (p : T → S → S) (m : op T A) : op S A :=
  λ s, let '(r, t) := m (g s) in (r, p t s).

(** * Reasoning about operations *)

(** Running a sequence whose first step is known. *)
Lemma op_bind_run {S A B} (m : op S A) (k : A → op S B) s a s' :
  m s = (Ret a, s') → (m ≫= k) s = k a s'.
Proof. intros Hm. unfold mbind, op_bind. by rewrite Hm. Qed.

(** A step that fails ends the sequence. *)
Lemma op_bind_throw {S A B} (m : op S A) (k : A → op S B) s e s' :
  m s = (Throw e, s') → (m ≫= k) s = (Throw e, s').
Proof. intros Hm. unfold mbind, op_bind. by rewrite Hm. Qed.
(** What a sequence that returned went through. *)
Lemma op_bind_Ret {S A B} (m : op S A) (k : A → op S B) s b s' :
  (m ≫= k) s = (Ret b, s') → ∃ a s1, m s = (Ret a, s1) ∧ k a s1 = (Ret b, s').
Proof. unfold mbind, op_bind. destruct (m s) as [[a|e|p] s1]; naive_solver. Qed.

(** [preserves I m]: whatever way [m] ends, it leaves an object satisfying
    [I] if it was called on one. *)
Definition preserves {S A} (I : S → Prop) (m : op S A) : Prop :=
  ∀ s, I s → I (m s).2.

(** [ensures I m Q]: as [preserves], and the value returned satisfies [Q]. *)
Definition ensures {S A} (I : S → Prop) (m : op S A) (Q : A → Prop) : Prop :=
  ∀ s, I s → I (m s).2 ∧ ∀ a, (m s).1 = Ret a → Q a.

(** [readonly m]: [m] never writes.  [atomic m]: [m] leaves the object alone
    unless it returns without an error. *)
Definition readonly {S A} (m : op S A) : Prop := ∀ s, (m s).2 = s.
Definition atomic {S A} (m : op S A) : Prop :=
  ∀ s, is_ret (m s).1 = false → (m s).2 = s.

(** [no_panic m]: [m] never panics. *)
Definition no_panic {S A} (m : op S A) : Prop := ∀ s p, (m s).1 ≠ Panic p.

Create HintDb golang discriminated.
#[export] Hint Constants Opaque : golang.
#[export] Hint Variables Opaque : golang.

(** Split a run of an operation into the cases of its guards and calls. *)
Ltac go_unfold :=
  unfold fail_if, map_err, locally, zoom, throw, lift, get, modify,
    mbind, mret, op_bind, op_ret, outcome_bind, outcome_ret in *;
  cbn beta iota in *.
Ltac go_cases :=
  repeat (case_match; simplify_eq/=; try done).

(** Run an operation whose guards are comparisons, and close what is left by
    arithmetic. *)
Ltac go_run := go_unfold; repeat (case_match; simplify_eq/=); try done.

(** Close a decidable goal on concrete data by evaluation. *)
Ltac by_compute := apply (bool_decide_unpack _); vm_compute; exact I.

Section preserves.
Context {S : Type} (I : S → Prop).

Lemma ensures_preserves {A} (m : op S A) Q : ensures I m Q → preserves I m.
Proof. intros H s Hs. by destruct (H s Hs). Qed.

Lemma preserves_ensures {A} (m : op S A) :
  preserves I m → ensures I m (λ _, True).
Proof. intros H s Hs. split; [by apply H | done]. Qed.

Lemma ensures_bind {A B} (m : op S A) (k : A → op S B) P Q :
  ensures I m P → (∀ a, P a → ensures I (k a) Q) → ensures I (m ≫= k) Q.
Proof.
  intros Hm Hk s Hs. go_unfold. destruct (Hm s Hs) as [H1 H2].
  destruct (m s) as [[a|e|p] s']; simpl in *; [|done..].
  apply (Hk a); [by apply H2|done].
Qed.

Lemma preserves_bind {A B} (m : op S A) (k : A → op S B) :
  preserves I m → (∀ a, preserves I (k a)) → preserves I (m ≫= k).
Proof.
  intros Hm Hk s Hs. go_unfold. specialize (Hm s Hs).
  destruct (m s) as [[a|e|p] s']; simpl in *; [|done..]. by apply Hk.
Qed.

Lemma preserves_bind_ensures {A B} (m : op S A) (k : A → op S B) P :
  ensures I m P → (∀ a, P a → preserves I (k a)) → preserves I (m ≫= k).
Proof.
  intros Hm Hk. eapply ensures_preserves, ensures_bind; [done|].
  intros a Ha. by apply preserves_ensures, Hk.
Qed.

Lemma preserves_ret {A} (a : A) : preserves I (mret a : op S A).
Proof. by intros s. Qed.
Lemma preserves_throw {A} e : preserves I (throw e : op S A).
Proof. by intros s. Qed.
Lemma preserves_lift {A} (o : outcome A) : preserves I (lift o).
Proof. by intros s. Qed.
Lemma preserves_get : preserves I get.
Proof. by intros s. Qed.
Lemma preserves_fail_if c e : preserves I (fail_if c e).
Proof. by destruct c; intros s. Qed.
Lemma preserves_locally {T} (m : op T unit) t : preserves I (locally m t).
Proof. intros s Hs. unfold locally. by destruct (m t) as [[] ?]. Qed.
Lemma preserves_map_err {A} f (m : op S A) :
  preserves I m → preserves I (map_err f m).
Proof. intros H s Hs. specialize (H s Hs). unfold map_err.
  by destruct (m s) as [[] ?]. Qed.
Lemma preserves_modify f : (∀ s, I s → I (f s)) → preserves I (modify f).
Proof. intros H s Hs. by apply H. Qed.
Lemma preserves_zoom {T A} (g : S → T) (p : T → S → S) (J : T → Prop)
    (m : op T A) :
  preserves J m → (∀ s, I s → J (g s)) → (∀ s t, I s → J t → I (p t s)) →
  preserves I (zoom g p m).
Proof.
  intros Hm Hg Hp s Hs. unfold zoom. specialize (Hm (g s) (Hg s Hs)).
  destruct (m (g s)) as [r t]. by apply Hp.
Qed.

Lemma ensures_lift {A} (o : outcome A) (Q : A → Prop) :
  (∀ a, o = Ret a → Q a) → ensures I (lift o) Q.
Proof. intros H s Hs. split; [done|]. simpl. auto. Qed.
Lemma ensures_get : ensures I get I.
Proof. intros s Hs. split; [done|]. by intros ? [= <-]. Qed.
Lemma ensures_fail_if c e : ensures I (fail_if c e) (λ _, c = false).
Proof. intros s Hs. destruct c; (split; [done|]); by intros ? [=]. Qed.
Lemma ensures_locally {T} (m : op T unit) t (Q : T → Prop) :
  (∀ t', m t = (Ret tt, t') → Q t') → ensures I (locally m t) Q.
Proof.
  intros H s Hs. unfold locally. destruct (m t) as [[[]|e|p] t'];
    (split; [done|]); intros ? [=]; subst. by apply H.
Qed.
End preserves.

Section atomic.
Context {S : Type}.

Lemma readonly_atomic {A} (m : op S A) : readonly m → atomic m.
Proof. intros H s _. apply H. Qed.

Lemma readonly_bind {A B} (m : op S A) (k : A → op S B) :
  readonly m → (∀ a, readonly (k a)) → readonly (m ≫= k).
Proof.
  intros Hm Hk s. go_unfold. specialize (Hm s).
  destruct (m s) as [[a|e|p] s']; simpl in *; subst; [apply Hk|done..].
Qed.

(** Checks first, one write last: the shape of every setter. *)
Lemma atomic_bind {A B} (m : op S A) (k : A → op S B) :
  readonly m → (∀ a, atomic (k a)) → atomic (m ≫= k).
Proof.
  intros Hm Hk s. go_unfold. specialize (Hm s).
  destruct (m s) as [[a|e|p] s']; simpl in *; subst; [apply Hk|done..].
Qed.

(** ... or a call that is atomic itself, followed by steps that cannot
    fail. *)
Lemma atomic_bind_total {A B} (m : op S A) (k : A → op S B) :
  atomic m → (∀ a s, is_ret (k a s).1 = true) → atomic (m ≫= k).
Proof.
  intros Hm Hk s. go_unfold. specialize (Hm s).
  destruct (m s) as [[a|e|p] s'] eqn:E; simpl in *; auto.
  intros H. by rewrite Hk in H.
Qed.

Lemma readonly_ret {A} (a : A) : readonly (mret a : op S A).
Proof. done. Qed.
Lemma readonly_throw {A} e : readonly (throw e : op S A).
Proof. done. Qed.
Lemma readonly_lift {A} (o : outcome A) : readonly (lift o : op S A).
Proof. done. Qed.
Lemma readonly_get : readonly (get : op S S).
Proof. done. Qed.
Lemma readonly_fail_if c e : readonly (fail_if c e : op S unit).
Proof. by destruct c. Qed.
Lemma readonly_locally {T} (m : op T unit) t : readonly (locally m t : op S T).
Proof. intros s. unfold locally. by destruct (m t) as [[] ?]. Qed.
Lemma atomic_modify f : atomic (modify f : op S unit).
Proof. intros s H. done. Qed.
Lemma atomic_map_err {A} f (m : op S A) : atomic m → atomic (map_err f m).
Proof. intros H s. specialize (H s). unfold map_err.
  by destruct (m s) as [[] ?]. Qed.
Lemma atomic_zoom {T A} (g : S → T) (p : T → S → S) (m : op T A) :
  atomic m → (∀ s, p (g s) s = s) → atomic (zoom g p m).
Proof.
  intros Hm Hp s. unfold zoom. specialize (Hm (g s)).
  destruct (m (g s)) as [r t]. simpl in *. intros H.
  rewrite Hm by done. apply Hp.
Qed.
End atomic.

Section no_panic.
Context {S : Type}.

Lemma no_panic_bind {A B} (m : op S A) (k : A → op S B) :
  no_panic m → (∀ a, no_panic (k a)) → no_panic (m ≫= k).
Proof.
  intros Hm Hk s p. go_unfold. specialize (Hm s).
  destruct (m s) as [[a|e|q] s']; simpl in *; [apply Hk|done|by destruct (Hm q)].
Qed.
Lemma no_panic_ret {A} (a : A) : no_panic (mret a : op S A).
Proof. done. Qed.
Lemma no_panic_throw {A} e : no_panic (throw e : op S A).
Proof. done. Qed.
Lemma no_panic_lift {A} (o : outcome A) : (∀ p, o ≠ Panic p) → no_panic (lift o : op S A).
Proof. intros H s p. apply H. Qed.
Lemma no_panic_get : no_panic (get : op S S).
Proof. done. Qed.
Lemma no_panic_modify f : no_panic (modify f : op S unit).
Proof. done. Qed.
Lemma no_panic_fail_if c e : no_panic (fail_if c e : op S unit).
Proof. by destruct c. Qed.
Lemma no_panic_map_err {A} f (m : op S A) : no_panic m → no_panic (map_err f m).
Proof. intros H s p. specialize (H s p). unfold map_err. by destruct (m s) as [[] ?]. Qed.
Lemma no_panic_zoom {T A} (g : S → T) (p : T → S → S) (m : op T A) :
  no_panic m → no_panic (zoom g p m).
Proof. intros H s q. specialize (H (g s) q). unfold zoom. by destruct (m (g s)). Qed.
End no_panic.

#[export] Hint Resolve preserves_bind preserves_ret preserves_throw
  preserves_lift preserves_get preserves_fail_if preserves_locally
  preserves_map_err : golang.
#[export] Hint Resolve readonly_bind readonly_ret readonly_throw readonly_lift
  readonly_get readonly_fail_if readonly_locally : golang.
#[export] Hint Resolve atomic_modify atomic_map_err : golang.

(** Guards and reads up to the last write. *)
Ltac go_atomic :=
  repeat (first [ apply atomic_modify
                | apply readonly_atomic; solve [eauto 8 with golang]
                | apply atomic_bind; [solve [eauto 8 with golang]|intros ?] ]).

(** Successful outcomes of a sequence. *)
Lemma outcome_bind_Ret {A B} (m : outcome A) (k : A → outcome B) b :
  m ≫= k = Ret b ↔ ∃ a, m = Ret a ∧ k a = Ret b.
Proof. destruct m; simpl; naive_solver. Qed.
Lemma outcome_fmap_Ret {A B} (f : A → B) (m : outcome A) b :
  f <$> m = Ret b ↔ ∃ a, m = Ret a ∧ f a = b.
Proof. destruct m; simpl; naive_solver. Qed.

Lemma map_err_Ret {S A} f (m : op S A) s a s' : map_err f m s = (Ret a, s') → m s = (Ret a, s').
Proof. unfold map_err. by destruct (m s) as [[] ?]. Qed.
Lemma fail_if_Ret {S} c e (s s' : S) u : fail_if c e s = (Ret u, s') → c = false ∧ s' = s.
Proof. destruct c; [done|]. by intros [= _ <-]. Qed.

(** * Generic lemmas *)

Lemma NoDup_insert_at {A} (l : list A) (i : nat) (x : A) :
  NoDup l → x ∉ l → NoDup (take i l ++ x :: drop i l).
Proof.
  intros Hl Hx. rewrite <- (take_drop i l) in Hl, Hx.
  apply list.NoDup_app in Hl as (H1 & H2 & H3). apply not_elem_of_app in Hx as [Hx1 Hx2].
  apply list.NoDup_app. split_and!; [done| |by constructor].
  intros y Hy [->|Hy']%elem_of_cons; [done|]. by apply (H2 y).
Qed.

Lemma elem_of_insert_at {A} (l : list A) (i : nat) (x y : A) :
  y ∈ take i l ++ x :: drop i l ↔ y = x ∨ y ∈ l.
Proof.
  rewrite <- (take_drop i l) at 3. rewrite !elem_of_app, elem_of_cons. tauto.
Qed.

Lemma NoDup_delete_at {A} (l : list A) (i : nat) (x : A) :
  NoDup l → l !! i = Some x →
  NoDup (delete i l) ∧ ∀ y, y ∈ delete i l ↔ y ≠ x ∧ y ∈ l.
Proof.
  intros Hl Hx. rewrite delete_take_drop. pose proof (take_drop_middle _ _ _ Hx) as Hd.
  assert (∀ y, y ∈ l ↔ y ∈ take i l ∨ y = x ∨ y ∈ drop (S i) l) as Hin
    by (intros y; rewrite <- Hd at 1; by rewrite elem_of_app, elem_of_cons).
  rewrite <- Hd in Hl. apply list.NoDup_app in Hl as (H1 & H2 & [H3 H4]%NoDup_cons).
  split.
  - apply list.NoDup_app. split_and!; [done| |done]. intros y Hy ?. apply (H2 y Hy). by right.
  - intros y. rewrite elem_of_app, Hin. split; [|naive_solver].
    intros Hy. split; [|tauto]. intros ->. destruct Hy as [Hy|Hy]; [|done].
    apply (H2 x Hy). by left.
Qed.

(** Go's 64-bit [int]. *)
Definition int_min : Z := - 2 ^ 63.
Definition int_max : Z := 2 ^ 63 - 1.
Definition is_int (z : Z) : bool := (int_min <=? z)%Z && (z <=? int_max)%Z.
Definition wrap64 (z : Z) : Z := ((z + 2 ^ 63) mod 2 ^ 64 - 2 ^ 63)%Z.

Lemma wrap64_id z : is_int z = true → wrap64 z = z.
Proof.
  unfold is_int, wrap64, int_min, int_max. intros [H1 H2]%andb_true_iff.
  apply Z.leb_le in H1, H2. rewrite Z.mod_small; lia.
Qed.
