(* ===== verification/GoStd.v ===== *)
(** GoStd: the functions of Go's standard library that the modelled code calls
    ([strings], [strconv], [fmt] verbs, [path/filepath], [net], [crypto/md5]).  A Go string is
    a sequence of bytes, a Rocq [string] a sequence of 8-bit [ascii]s.
    [Strings.ToLower] follows Go on ASCII letters and on the two non-ASCII runes
    whose lower case is an ASCII letter (U+0130 and U+212A); other multi-byte
    runes are left alone, so it is exact wherever its result is compared with an
    ASCII constant. *)

From Stdlib Require Export Ascii.
From S2P Require Import Prelude.

Declare Scope go_scope.
Delimit Scope go_scope with go.
Open Scope Z_scope.

Definition char (n : N) : ascii := ascii_of_N n.
Definition bytes (l : list N) : string :=
  foldr (λ n s, String (char n) s) "" l.
Definition to_list : string → list ascii := String.list_ascii_of_string.
Definition of_list : list ascii → string := String.string_of_list_ascii.

Module Strings.
(** The UTF-8 encodings of the runes [unicode.IsSpace] accepts. *)
Definition spaces : list (list ascii) := map (map char)
  [[9]; [10]; [11]; [12]; [13]; [32]; [194; 133]; [194; 160];
   [225; 154; 128]; [226; 128; 128]; [226; 128; 129]; [226; 128; 130];
   [226; 128; 131]; [226; 128; 132]; [226; 128; 133]; [226; 128; 134];
   [226; 128; 135]; [226; 128; 136]; [226; 128; 137]; [226; 128; 138];
   [226; 128; 168]; [226; 128; 169]; [226; 128; 175]; [226; 129; 159];
   [227; 128; 128]]%N.

Fixpoint strip (e l : list ascii) : option (list ascii) :=
  match e, l with
  | [], _ => Some l
  | a :: e, b :: l => if decide (a = b) then strip e l else None
  | _ :: _, [] => None
  end.

Fixpoint strip_any (es : list (list ascii)) (l : list ascii) :=
  match es with
  | [] => None
  | e :: es => match strip e l with Some l' => Some l' | None => strip_any es l end
  end.

Fixpoint trim_go (es : list (list ascii)) (fuel : nat) (l : list ascii) :=
  match fuel with
  | O => l
  | S fuel => match strip_any es l with
              | Some l' => trim_go es fuel l'
              | None => l
              end
  end.
Definition trim_left es l := trim_go es (length l) l.
Definition trim_right es l := rev (trim_left (map (@rev ascii) es) (rev l)).

Definition TrimSpace (s : string) : string :=
  of_list (trim_right spaces (trim_left spaces (to_list s))).

(** [strings.Trim] with a cutset of ASCII bytes. *)
Definition Trim (s cutset : string) : string :=
  let es := map (λ c, [c]) (to_list cutset) in
  of_list (trim_right es (trim_left es (to_list s))).

Definition lower_byte (a : ascii) : ascii :=
  let n := N_of_ascii a in
  if ((65 <=? n) && (n <=? 90))%N then char (n + 32) else a.

Fixpoint to_lower (l : list ascii) : list ascii :=
  match l with
  | [] => []
  | a :: l1 =>
      match l1 with
      | b :: l2 =>
          if bool_decide (a = char 196 ∧ b = char 176) then char 105 :: to_lower l2
          else match l2 with
               | c :: l3 =>
                   if bool_decide (a = char 226 ∧ b = char 132 ∧ c = char 170)
                   then char 107 :: to_lower l3
                   else lower_byte a :: to_lower l1
               | [] => lower_byte a :: to_lower l1
               end
      | [] => [lower_byte a]
      end
  end.
Definition ToLower (s : string) : string := of_list (to_lower (to_list s)).

Definition HasPrefix (s p : string) : bool := String.prefix p s.
Definition HasSuffix (s p : string) : bool :=
  match strip (rev (to_list p)) (rev (to_list s)) with Some _ => true | None => false end.
Definition TrimPrefix (s p : string) : string :=
  match strip (to_list p) (to_list s) with Some l => of_list l | None => s end.

(** [strings.Split] with a one-byte separator. *)
Fixpoint Split (s : string) (c : ascii) : list string :=
  match s with
  | "" => [""]
  | String a s =>
      if decide (a = c) then "" :: Split s c
      else match Split s c with
           | [] => [String a ""]
           | h :: t => String a h :: t
           end
  end.

Fixpoint Join (l : list string) (sep : string) : string :=
  match l with
  | [] => ""
  | [s] => s
  | s :: l => s +:+ sep +:+ Join l sep
  end.

(** [s[:i], s[i+1:]] for [i = strings.Index(s, c)], when [c] occurs. *)
Fixpoint cut (s : string) (c : ascii) : option (string * string) :=
  match s with
  | "" => None
  | String a s =>
      if decide (a = c) then Some ("", s)
      else match cut s c with
           | Some (h, t) => Some (String a h, t)
           | None => None
           end
  end.

(** The same at [strings.LastIndex(s, c)]. *)
Fixpoint cut_last (s : string) (c : ascii) : option (string * string) :=
  match s with
  | "" => None
  | String a s =>
      match cut_last s c with
      | Some (h, t) => Some (String a h, t)
      | None => if decide (a = c) then Some ("", s) else None
      end
  end.

Fixpoint mem (c : ascii) (s : string) : bool :=
  match s with
  | "" => false
  | String a s => if decide (a = c) then true else mem c s
  end.

Fixpoint all (f : ascii → bool) (s : string) : bool :=
  match s with
  | "" => true
  | String a s => f a && all f s
  end.

(** [strings.ReplaceAll] of one byte by another. *)
Fixpoint replace (a b : ascii) (s : string) : string :=
  match s with
  | "" => ""
  | String x s => String (if decide (x = a) then b else x) (replace a b s)
  end.
End Strings.

Module Strconv.
Definition digit_char (d : Z) : ascii :=
  char (Z.to_N (if d <? 10 then 48 + d else 87 + d)).

(** The value of a digit of a base up to 16; letters in either case. *)
Definition digit_val (a : ascii) : option Z :=
  let n := Z.of_N (N_of_ascii a) in
  if (48 <=? n) && (n <=? 57) then Some (n - 48)
  else if (97 <=? n) && (n <=? 102) then Some (n - 87)
  else if (65 <=? n) && (n <=? 70) then Some (n - 55)
  else None.

Fixpoint parse_digits (base : Z) (s : string) (acc : Z) : option Z :=
  match s with
  | "" => Some acc
  | String a s =>
      match digit_val a with
      | Some d => if d <? base then parse_digits base s (acc * base + d) else None
      | None => None
      end
  end.

(** [strconv.ParseUint(s, base, bits)] for an explicit base. *)
Definition ParseUint (s : string) (base bits : Z) : outcome Z :=
  match s with
  | "" => Throw (NumError s)
  | _ => match parse_digits base s 0 with
         | Some n => if n <? 2 ^ bits then Ret n else Throw (NumError s)
         | None => Throw (NumError s)
         end
  end.

(** [strconv.Atoi] and [strconv.ParseInt(s, 10, 64)]. *)
Definition Atoi (s : string) : outcome Z :=
  let unsigned r :=
    match r with "" => None | _ => parse_digits 10 r 0 end in
  let z :=
    match s with
    | String a r =>
        if decide (a = "-"%char) then Z.opp <$> unsigned r
        else if decide (a = "+"%char) then unsigned r
        else unsigned s
    | "" => None
    end in
  match z with
  | Some z => if is_int z then Ret z else Throw (NumError s)
  | None => Throw (NumError s)
  end.

Fixpoint format_go (base : Z) (fuel : nat) (n : Z) (acc : string) : string :=
  let acc' := String (digit_char (n mod base)) acc in
  match fuel with
  | O => acc'
  | S fuel => if n <? base then acc' else format_go base fuel (n / base) acc'
  end.
(** Digits of a non-negative number; [Z.log2 n] rounds suffice for any base. *)
Definition format (base n : Z) : string :=
  format_go base (Z.to_nat (Z.log2 n)) n "".

(** [fmt.Sprintf("%d", n)] and [strconv.Itoa]. *)
Definition Itoa (n : Z) : string :=
  if n <? 0 then String "-" (format 10 (- n)) else format 10 n.

Fixpoint zeros (n : nat) : string :=
  match n with O => "" | S n => String "0" (zeros n) end.
(** [%.wx]: lower-case hexadecimal with at least [w] digits. *)
Definition hex (w : nat) (n : Z) : string :=
  let s := format 16 n in zeros (w - String.length s) +:+ s.
End Strconv.

Module Filepath.
Import Strings.
Definition slash : ascii := "/".

Definition IsAbs (p : string) : bool := HasPrefix p "/".

(** The components kept by [filepath.Clean], innermost first. *)
Definition clean_step (rooted : bool) (st : list string) (e : string) : list string :=
  if decide (e = "" ∨ e = ".") then st
  else if decide (e = "..") then
    match st with
    | [] => if rooted then [] else [".."]
    | h :: t => if decide (h = "..") then ".." :: st else t
    end
  else e :: st.

Definition Clean (p : string) : string :=
  let rooted := IsAbs p in
  let body := Join (rev (foldl (clean_step rooted) [] (Split p slash))) "/" in
  if rooted then String slash body
  else match body with "" => "." | _ => body end.

Definition Join (elems : list string) : string :=
  match list_find (λ e, e ≠ "") elems with
  | Some (i, _) => Clean (Strings.Join (drop i elems) "/")
  | None => ""
  end.

(** The last element, after removing trailing slashes. *)
Definition Base (p : string) : string :=
  match p with
  | "" => "."
  | _ =>
      let q := of_list (trim_right [[slash]] (to_list p)) in
      let r := match cut_last q slash with Some (_, t) => t | None => q end in
      match r with "" => "/" | _ => r end
  end.

Definition Dir (p : string) : string :=
  match cut_last p slash with
  | Some (h, _) => Clean (h +:+ "/")
  | None => "."
  end.
End Filepath.

Module Net.
Import Strings.
(** [net.SplitHostPort]. *)
Definition SplitHostPort (hostport : string) : outcome (string * string) :=
  let err why := Throw (ErrMsg (hostport +:+ ": " +:+ why)) in
  match cut_last hostport ":" with
  | None => err "missing port in address"
  | Some (h, port) =>
      match hostport with
      | String "[" r =>
          match cut r "]" with
          | None => err "missing ']' in address"
          | Some (host, "") => err "missing port in address"
          | Some (host, rest) =>
              if bool_decide (rest = String ":" port) then
                if mem "[" host || mem "[" port then err "unexpected '[' in address"
                else if mem "]" port then err "unexpected ']' in address"
                else Ret (host, port)
              else if HasPrefix rest ":" then err "too many colons in address"
              else err "missing port in address"
          end
      | _ =>
          if mem ":" h then err "too many colons in address"
          else if mem "[" hostport then err "unexpected '[' in address"
          else if mem "]" hostport then err "unexpected ']' in address"
          else Ret (h, port)
      end
  end.

Definition hex_byte (a b : ascii) : bool :=
  match Strconv.digit_val a, Strconv.digit_val b with
  | Some _, Some _ => true
  | _, _ => false
  end.

(** Pairs of digits separated by [sep]; how many there are. *)
Fixpoint mac_pairs (sep : ascii) (l : list ascii) : option nat :=
  match l with
  | [a; b] => if hex_byte a b then Some 1%nat else None
  | a :: b :: c :: l =>
      if hex_byte a b && bool_decide (c = sep) then S <$> mac_pairs sep l else None
  | _ => None
  end.

(** Groups of four digits separated by dots; how many bytes they make. *)
Fixpoint mac_quads (l : list ascii) : option nat :=
  match l with
  | [a; b; c; d] => if hex_byte a b && hex_byte c d then Some 2%nat else None
  | a :: b :: c :: d :: e :: l =>
      if hex_byte a b && hex_byte c d && bool_decide (e = "."%char)
      then (λ n, S (S n)) <$> mac_quads l else None
  | _ => None
  end.

(** [net.ParseMAC] succeeds: an EUI-48, EUI-64 or 20-octet address. *)
Definition ParseMAC (s : string) : bool :=
  let l := to_list s in
  let ok n := match n with Some n => bool_decide (n = 6 ∨ n = 8 ∨ n = 20)%nat | None => false end in
  match l !! 2%nat, l !! 4%nat with
  | Some c, Some d =>
      if bool_decide (c = ":"%char ∨ c = "-"%char) then ok (mac_pairs c l)
      else if bool_decide (d = "."%char) then ok (mac_quads l)
      else false
  | _, _ => false
  end.
End Net.

(** [sort] *)
Module Sort.
Fixpoint insert_by {A} (less : A → A → bool) (x : A) (l : list A) : list A :=
  match l with
  | [] => [x]
  | y :: l => if less x y then x :: y :: l else y :: insert_by less x l
  end.
Definition SliceStable {A} (less : A → A → bool) (l : list A) : list A :=
  foldl (λ acc x, insert_by less x acc) [] l.
Definition Ints : list Z → list Z := SliceStable Z.ltb.
End Sort.

Example trim_1 : Strings.TrimSpace (bytes [32; 97; 32; 98; 194; 160; 10]%N) = "a b".
Proof. reflexivity. Qed.
Example base_1 : map Filepath.Base [""; "/"; "//"; "/dev/vda"; "a/b/"; "c"] =
  ["."; "/"; "/"; "vda"; "b"; "c"].
Proof. reflexivity. Qed.
Example clean_1 : map Filepath.Clean [""; "/.."; "a//b/../c/."; "../a/../.."; "/a/b/../../.."; "./"] =
  ["."; "/"; "a/c"; "../.."; "/"; "."].
Proof. reflexivity. Qed.
Example join_dir_1 : (Filepath.Join [""; "a"; ""; "b"], Filepath.Dir "/a/b", Filepath.Dir "a", Filepath.Dir "/a/b/") =
  ("a/b", "/a", ".", "/a/b").
Proof. reflexivity. Qed.
Example itoa_1 : map Strconv.Itoa [0; 7; 10; -42; 9223372036854775807] = ["0"; "7"; "10"; "-42"; "9223372036854775807"].
Proof. reflexivity. Qed.
Example hex_1 : (Strconv.hex 4 1, Strconv.hex 2 255, Strconv.hex 1 7) = ("0001", "ff", "7").
Proof. reflexivity. Qed.
Example atoi_1 : map Strconv.Atoi ["12"; "+3"; "-0"; ""; "-"; "1_0"; "9223372036854775808"] =
  [Ret 12; Ret 3; Ret 0; Throw (NumError ""); Throw (NumError "-"); Throw (NumError "1_0");
   Throw (NumError "9223372036854775808")].
Proof. reflexivity. Qed.
Example mac_1 : map Net.ParseMAC ["54:52:00:aa:bb:0c"; "54-52-00-aa-bb-0c"; "5452.00aa.bb0c"; "54:52:00:aa:bb"; "zz:52:00:aa:bb:0c"; "54:52-00:aa:bb:0c"] =
  [true; true; true; false; false; false].
Proof. reflexivity. Qed.
Example hostport_1 : map Net.SplitHostPort ["h:80"; "[::1]:80"; "h"; "a:b:c"] =
  [Ret ("h", "80"); Ret ("::1", "80"); Throw (ErrMsg "h: missing port in address"); Throw (ErrMsg "a:b:c: too many colons in address")].
Proof. reflexivity. Qed.

(** ** The hash of [crypto/md5], on bytes given as numbers *)

Module Md5.
(** Words of 32 bits. *)
Definition w32 (x : Z) : Z := Z.land x (Z.ones 32).
Definition rol (x k : Z) : Z := w32 (Z.lor (Z.shiftl x k) (Z.shiftr x (32 - k))).

(** The whole part of [2^32 |sin (i + 1)|]. *)
Definition K : list Z :=
  [3614090360; 3905402710; 606105819; 3250441966; 4118548399; 1200080426; 2821735955; 4249261313;
   1770035416; 2336552879; 4294925233; 2304563134; 1804603682; 4254626195; 2792965006; 1236535329;
   4129170786; 3225465664; 643717713; 3921069994; 3593408605; 38016083; 3634488961; 3889429448;
   568446438; 3275163606; 4107603335; 1163531501; 2850285829; 4243563512; 1735328473; 2368359562;
   4294588738; 2272392833; 1839030562; 4259657740; 2763975236; 1272893353; 4139469664; 3200236656;
   681279174; 3936430074; 3572445317; 76029189; 3654602809; 3873151461; 530742520; 3299628645;
   4096336452; 1126891415; 2878612391; 4237533241; 1700485571; 2399980690; 4293915773; 2240044497;
   1873313359; 4264355552; 2734768916; 1309151649; 4149444226; 3174756917; 718787259; 3951481745].
Definition shifts : list (list Z) := [[7; 12; 17; 22]; [5; 9; 14; 20]; [4; 11; 16; 23]; [6; 10; 15; 21]].

Record regs := { A : Z; B : Z; C : Z; D : Z }.

Definition round (block : list Z) (i : nat) (r : regs) : regs :=
  let '(f, g) :=
    match (i / 16)%nat with
    | 0%nat => (Z.lor (Z.land (B r) (C r)) (Z.land (w32 (Z.lnot (B r))) (D r)), i)
    | 1%nat => (Z.lor (Z.land (D r) (B r)) (Z.land (w32 (Z.lnot (D r))) (C r)), (5 * i + 1) mod 16)%nat
    | 2%nat => (Z.lxor (B r) (Z.lxor (C r) (D r)), (3 * i + 5) mod 16)%nat
    | _ => (Z.lxor (C r) (Z.lor (B r) (w32 (Z.lnot (D r)))), (7 * i) mod 16)%nat
    end in
  let s := nth (i mod 4) (nth (i / 16) shifts []) 0 in
  let x := w32 (A r + f + nth i K 0 + nth g block 0) in
  {| A := D r; B := w32 (B r + rol x s); C := B r; D := C r |}.

Definition compress (r : regs) (block : list Z) : regs :=
  let r' := foldl (λ r i, round block i r) r (seq 0 64) in
  {| A := w32 (A r + A r'); B := w32 (B r + B r'); C := w32 (C r + C r'); D := w32 (D r + D r') |}.

(** Little-endian words. *)
Definition le_word (l : list Z) : Z := foldr (λ b acc, b + 256 * acc) 0 l.
Fixpoint chunks {T} (fuel n : nat) (l : list T) : list (list T) :=
  match fuel, l with
  | S fuel, _ :: _ => take n l :: chunks fuel n (drop n l)
  | _, _ => []
  end.
Fixpoint le_bytes (n : nat) (x : Z) : list Z :=
  match n with O => [] | S n => x mod 256 :: le_bytes n (x / 256) end.

Definition pad (msg : list Z) : list Z :=
  let n := length msg in
  let zeros := (63 - (n + 8) mod 64)%nat in
  msg ++ 128 :: replicate zeros 0 ++ le_bytes 8 (8 * Z.of_nat n).

Definition digest (msg : list Z) : list Z :=
  let m := pad msg in
  let blocks := chunks (length m) 64 m in
  let r := foldl (λ r b, compress r (map le_word (chunks 16 4 b)))
    {| A := 1732584193; B := 4023233417; C := 2562383102; D := 271733878 |} blocks in
  le_bytes 4 (A r) ++ le_bytes 4 (B r) ++ le_bytes 4 (C r) ++ le_bytes 4 (D r).

(** [big.Int.SetBytes] of the hash of a string. *)
Definition sum (s : string) : Z :=
  foldl (λ acc b, 256 * acc + b) 0 (digest (map (λ a, Z.of_N (N_of_ascii a)) (to_list s))).
End Md5.

Example md5_1 : map (λ s, Strconv.format 16 (Md5.sum s)) ["abc"; "message digest";
    "12345678901234567890123456789012345678901234567890123456789012345678901234567890"] =
  ["900150983cd24fb0d6963f7d28e17f72"; "f96b697d7cb7938d525a2f31aaf161d0"; "57edf4a22be3c955ac49da2e2107b67a"].
Proof. vm_compute. reflexivity. Qed.
