(* ===== verification/GoFacts.v ===== *)
(** GoFacts: lemmas on the standard-library functions of [GoStd]: trimming is
    idempotent, numbers round-trip through their printed forms, splitting
    inverts joining. *)

From S2P Require Import Prelude.
From S2P Require Import GoStd.

Open Scope Z_scope.

(** * Conversions *)

Lemma of_to_list s : of_list (to_list s) = s.
Proof. apply String.string_of_list_ascii_of_string. Qed.
Lemma to_of_list l : to_list (of_list l) = l.
Proof. apply String.list_ascii_of_string_of_list_ascii. Qed.

Lemma to_list_app s t : to_list (s +:+ t) = to_list s ++ to_list t.
Proof. induction s as [|a s IH]; [done|]. apply (f_equal (cons a) IH). Qed.

Lemma append_nil_r (s : string) : s +:+ "" = s.
Proof. induction s as [|a s IH]; [done|]. exact (f_equal (String a) IH). Qed.

Lemma append_assoc (s t u : string) : s +:+ t +:+ u = (s +:+ t) +:+ u.
Proof. induction s as [|a s IH]; [done|]. exact (f_equal (String a) IH). Qed.

#[global] Arguments Strings.TrimSpace : simpl never.
#[global] Arguments Strings.ToLower : simpl never.
#[global] Arguments Strconv.Itoa : simpl never.
#[global] Arguments Strconv.Atoi : simpl never.
#[global] Arguments Filepath.Clean : simpl never.
#[global] Arguments Filepath.Join : simpl never.
#[global] Arguments Filepath.Base : simpl never.
#[global] Arguments Filepath.Dir : simpl never.
#[global] Arguments Net.ParseMAC : simpl never.

(** * Trimming *)
Section trim.
Import Strings.
Implicit Types (e l : list ascii) (es : list (list ascii)).

Lemma strip_Some e l l' : strip e l = Some l' ↔ l = e ++ l'.
Proof.
  revert l. induction e as [|a e IH]; intros l; simpl.
  { split; congruence. }
  destruct l as [|b l]; [split; discriminate|].
  case_decide; subst; [|split; congruence].
  rewrite IH. split; congruence.
Qed.

Lemma strip_any_Some es l l' :
  strip_any es l = Some l' → ∃ e, e ∈ es ∧ l = e ++ l'.
Proof.
  induction es as [|e es IH]; simpl; [done|].
  destruct (strip e l) eqn:E; intros H; simplify_eq.
  - apply strip_Some in E as ->. exists e. by split; [left|].
  - destruct (IH H) as (e' & ? & ->). exists e'. by split; [right|].
Qed.

Lemma strip_any_None es l :
  strip_any es l = None ↔ ∀ e l', e ∈ es → l ≠ e ++ l'.
Proof.
  induction es as [|e es IH]; simpl.
  { split; [|done]. by intros _ e l' ?%elem_of_nil. }
  destruct (strip e l) eqn:E.
  - split; [done|]. intros H. apply strip_Some in E as ->.
    exfalso. by apply (H e l0); [left|].
  - rewrite IH. split; [|by intros H e' l' He; apply H; right].
    intros H e' l' [->|?]%elem_of_cons; [|by apply H].
    intros ->. assert (strip e (e ++ l') = Some l') by by apply strip_Some.
    congruence.
Qed.

Lemma strip_any_prefix es l l2 :
  strip_any es (l ++ l2) = None → strip_any es l = None.
Proof.
  rewrite !strip_any_None. intros H e l' He ->.
  apply (H e (l' ++ l2) He). by rewrite app_assoc.
Qed.

Definition nonempty es := ∀ e, e ∈ es → e ≠ [].

Lemma trim_go_done es fuel l :
  nonempty es → (length l ≤ fuel)%nat → strip_any es (trim_go es fuel l) = None.
Proof.
  intros Hes. revert l. induction fuel as [|fuel IH]; intros l Hl; simpl.
  { destruct l; [|simpl in Hl; lia]. apply strip_any_None.
    intros [|? ?] l' He; [by destruct (Hes [])|done]. }
  destruct (strip_any es l) as [l'|] eqn:E; [|done].
  apply IH. apply strip_any_Some in E as (e & He & ->).
  specialize (Hes e He). rewrite length_app in Hl. destruct e; simpl in *; [done|lia].
Qed.

Lemma trim_left_done es l : nonempty es → strip_any es (trim_left es l) = None.
Proof. intros. by apply trim_go_done. Qed.

Lemma trim_left_id es l : strip_any es l = None → trim_left es l = l.
Proof. unfold trim_left. destruct (length l); simpl; [done|]. by intros ->. Qed.

Lemma trim_left_suffix es l : ∃ l0, l = l0 ++ trim_left es l.
Proof.
  unfold trim_left. generalize (length l) as n.
  intros n. revert l. induction n as [|n IH]; intros l; simpl; [by exists []|].
  destruct (strip_any es l) as [l'|] eqn:E; [|by exists []].
  apply strip_any_Some in E as (e & _ & ->). destruct (IH l') as [l0 H].
  exists (e ++ l0). by rewrite <- app_assoc, <- H.
Qed.

Lemma trim_right_prefix es l : ∃ l2, l = trim_right es l ++ l2.
Proof.
  unfold trim_right. destruct (trim_left_suffix (map (@rev ascii) es) (rev l)) as [l0 H].
  exists (rev l0). apply (f_equal (@rev _)) in H.
  by rewrite rev_involutive, rev_app_distr in H.
Qed.

Lemma trim_right_id es l :
  strip_any (map (@rev ascii) es) (rev l) = None → trim_right es l = l.
Proof. intros H. unfold trim_right. by rewrite trim_left_id, rev_involutive. Qed.

Lemma nonempty_rev es : nonempty es → nonempty (map (@rev ascii) es).
Proof.
  intros H e He. apply list_elem_of_In, in_map_iff in He as (e' & <- & He').
  apply list_elem_of_In, H in He'. intros E. apply (f_equal (@rev _)) in E.
  by rewrite rev_involutive in E.
Qed.

Lemma trim_idem es l :
  nonempty es →
  trim_right es (trim_left es (trim_right es (trim_left es l)))
  = trim_right es (trim_left es l).
Proof.
  intros Hes. set (m := trim_left es l).
  rewrite (trim_left_id es (trim_right es m)).
  - apply trim_right_id. unfold trim_right. rewrite rev_involutive.
    by apply trim_left_done, nonempty_rev.
  - destruct (trim_right_prefix es m) as [l2 H].
    apply (strip_any_prefix _ _ l2). rewrite <- H. by apply trim_left_done.
Qed.

Lemma spaces_nonempty : nonempty spaces.
Proof.
  intros e He. unfold spaces in He.
  repeat (apply elem_of_cons in He as [->|He]; [done|]). by apply not_elem_of_nil in He.
Qed.

Lemma TrimSpace_idem s : TrimSpace (TrimSpace s) = TrimSpace s.
Proof.
  unfold TrimSpace. rewrite to_of_list. f_equal.
  apply trim_idem, spaces_nonempty.
Qed.

(** A visible ASCII byte is not part of the encoding of a space at either
    end. *)
Definition graphic (a : ascii) : bool :=
  let n := N_of_ascii a in ((33 <=? n) && (n <=? 126))%N.

Lemma strip_any_head es a l :
  (∀ e, e ∈ es → ∃ b e', e = b :: e' ∧ graphic b = false) →
  graphic a = true → strip_any es (a :: l) = None.
Proof.
  intros Hes Ha. apply strip_any_None. intros e l' He Heq.
  destruct (Hes e He) as (b & e' & -> & Hb). simplify_eq/=. congruence.
Qed.

Lemma spaces_head e :
  e ∈ spaces ∨ e ∈ map (@rev ascii) spaces → ∃ b e', e = b :: e' ∧ graphic b = false.
Proof.
  intros He.
  assert (forallb (λ e, match e with b :: _ => negb (graphic b) | [] => false end)
    (spaces ++ map (@rev ascii) spaces) = true) as H by reflexivity.
  rewrite forallb_forall in H. specialize (H e).
  rewrite <- list_elem_of_In, elem_of_app in H. specialize (H He).
  destruct e as [|b e]; [done|]. exists b, e. by destruct (graphic b).
Qed.

Lemma TrimSpace_graphic s :
  Forall (λ a, graphic a = true) (to_list s) → TrimSpace s = s.
Proof.
  intros H. unfold TrimSpace. rewrite trim_left_id.
  - rewrite trim_right_id, of_to_list; [done|].
    assert (Forall (λ a, graphic a = true) (rev (to_list s))) as H'
      by (apply List.Forall_rev; exact H).
    destruct (rev (to_list s)) as [|a l]; [done|].
    apply Forall_cons in H' as [Ha _].
    apply strip_any_head; [|done]. intros. apply spaces_head. by right.
  - destruct (to_list s) as [|a l]; [done|].
    apply Forall_cons in H as [Ha _].
    apply strip_any_head; [|done]. intros. apply spaces_head. by left.
Qed.
End trim.

(** * Numbers *)
Section numbers.
Import Strconv.

Lemma digit_val_char d : 0 ≤ d < 16 → digit_val (digit_char d) = Some d.
Proof.
  intros Hd. assert (d ∈ seqZ 0 16) as H by (apply elem_of_seqZ; lia).
  assert (forallb (λ d, bool_decide (digit_val (digit_char d) = Some d)) (seqZ 0 16) = true)
    as Hall by reflexivity.
  rewrite forallb_forall in Hall. apply list_elem_of_In in H.
  by apply Hall, bool_decide_eq_true in H.
Qed.

(** What a printed digit is, for the separators used in the code. *)
Definition is_digit (a : ascii) : bool :=
  match digit_val a with Some _ => true | None => false end.

Lemma is_digit_char d : 0 ≤ d < 16 → is_digit (digit_char d) = true.
Proof. intros. unfold is_digit. by rewrite digit_val_char. Qed.

Lemma parse_format_go base fuel n acc a :
  2 ≤ base ≤ 16 → 0 ≤ n → Z.log2 n ≤ Z.of_nat fuel →
  ∃ k, parse_digits base (format_go base fuel n acc) a
       = parse_digits base acc (a * base ^ Z.of_nat k + n).
Proof.
  intros Hb. revert n acc a. induction fuel as [|fuel IH]; intros n acc a Hn Hlog; simpl.
  - assert (n < 2) by (destruct (decide (n < 2)); [done|];
      assert (0 < Z.log2 n) by (apply Z.log2_pos; lia); lia).
    exists 1%nat. rewrite Z.mod_small by lia. rewrite digit_val_char by lia.
    rewrite (proj2 (Z.ltb_lt n base)) by lia. f_equal; lia.
  - destruct (Z.ltb_spec n base).
    + exists 1%nat. simpl. rewrite Z.mod_small by lia. rewrite digit_val_char by lia.
      rewrite (proj2 (Z.ltb_lt n base)) by lia. f_equal; lia.
    + assert (0 ≤ n / base) by (apply Z.div_pos; lia).
      assert (Z.log2 (n / base) ≤ Z.of_nat fuel).
      { assert (n / base ≤ n / 2) by (apply Z.div_le_compat_l; lia).
        assert (Z.log2 (n / base) ≤ Z.log2 (n / 2)) by by apply Z.log2_le_mono.
        rewrite <- Z.div2_div, Z.div2_spec, Z.log2_shiftr in * by lia. lia. }
      destruct (IH (n / base) (String (digit_char (n mod base)) acc) a) as [k Hk]; [done..|].
      exists (S k). rewrite Hk. simpl.
      pose proof (Z.mod_pos_bound n base ltac:(lia)).
      rewrite digit_val_char by lia.
      rewrite (proj2 (Z.ltb_lt (n mod base) base)) by lia. f_equal.
      rewrite Nat2Z.inj_succ, Z.pow_succ_r by lia.
      pose proof (Z.div_mod n base ltac:(lia)). nia.
Qed.

Lemma parse_format base n :
  2 ≤ base ≤ 16 → 0 ≤ n → parse_digits base (format base n) 0 = Some n.
Proof.
  intros Hb Hn. unfold format.
  destruct (parse_format_go base (Z.to_nat (Z.log2 n)) n "" 0) as [k ->]; [done..| |].
  - pose proof (Z.log2_nonneg n). lia.
  - simpl. f_equal; lia.
Qed.

Lemma format_go_digits base fuel n acc :
  2 ≤ base ≤ 16 → 0 ≤ n →
  Forall (λ a, is_digit a = true) (to_list acc) →
  Forall (λ a, is_digit a = true) (to_list (format_go base fuel n acc))
  ∧ format_go base fuel n acc ≠ "".
Proof.
  intros Hb. revert n acc. induction fuel as [|fuel IH]; intros n acc Hn Hacc; simpl.
  all: pose proof (Z.mod_pos_bound n base ltac:(lia)).
  - split; [|done]. constructor; [|done]. apply is_digit_char. lia.
  - case_match.
    + split; [|done]. constructor; [|done]. apply is_digit_char. lia.
    + apply IH; [apply Z.div_pos; lia|]. constructor; [|done]. apply is_digit_char. lia.
Qed.

Lemma format_digits base n :
  2 ≤ base ≤ 16 → 0 ≤ n →
  Forall (λ a, is_digit a = true) (to_list (format base n)) ∧ format base n ≠ "".
Proof. intros. by apply format_go_digits. Qed.

Lemma parse_zeros base k s :
  2 ≤ base → parse_digits base (zeros k +:+ s) 0 = parse_digits base s 0.
Proof.
  intros Hb. induction k as [|k IH]; [done|].
  change (zeros (S k) +:+ s) with (String "0" (zeros k +:+ s)). cbn [parse_digits].
  change (digit_val "0") with (Some 0). cbn.
  by rewrite (proj2 (Z.ltb_lt 0 base)) by lia.
Qed.

Lemma hex_digits w n :
  0 ≤ n → Forall (λ a, is_digit a = true) (to_list (hex w n)) ∧ hex w n ≠ "".
Proof.
  intros Hn. unfold hex. destruct (format_digits 16 n ltac:(lia) Hn) as [Hd Hne].
  induction (w - String.length (format 16 n))%nat as [|k [IH _]]; [done|].
  split; [|done]. by constructor.
Qed.

Lemma ParseUint_hex w n bits :
  0 ≤ n < 2 ^ bits → ParseUint (hex w n) 16 bits = Ret n.
Proof.
  intros Hn. destruct (hex_digits w n ltac:(lia)) as [_ Hne].
  assert (parse_digits 16 (hex w n) 0 = Some n) as Hp.
  { unfold hex. rewrite parse_zeros by lia. apply parse_format; lia. }
  unfold ParseUint. rewrite Hp. destruct (hex w n); [done|].
  by rewrite (proj2 (Z.ltb_lt n (2 ^ bits))) by lia.
Qed.

Lemma format_go_length base fuel n acc k :
  2 ≤ base → 0 ≤ n < base ^ (Z.of_nat (S k)) →
  (String.length (format_go base fuel n acc) ≤ S k + String.length acc)%nat.
Proof.
  intros Hb. revert n acc k. induction fuel as [|fuel IH]; intros n acc k Hn; simpl; [lia|].
  destruct (Z.ltb_spec n base); [simpl; lia|]. destruct k as [|k].
  { rewrite Z.pow_1_r in Hn. lia. }
  rewrite Nat2Z.inj_succ, Z.pow_succ_r in Hn by lia.
  assert (0 ≤ n / base < base ^ Z.of_nat (S k)) as Hd.
  { split; [apply Z.div_pos; lia|]. apply Z.div_lt_upper_bound; lia. }
  specialize (IH _ (String (digit_char (n mod base)) acc) _ Hd). simpl in *. lia.
Qed.

(** A number of at most [w] hexadecimal digits is padded to exactly [w]. *)
Lemma hex_length w n :
  0 ≤ n < 16 ^ Z.of_nat (S w) → String.length (hex (S w) n) = S w.
Proof.
  intros Hn. pose proof (format_go_length 16 (Z.to_nat (Z.log2 n)) n "" w ltac:(lia) Hn) as Hl.
  change (format_go 16 (Z.to_nat (Z.log2 n)) n "") with (format 16 n) in Hl.
  change (String.length "") with 0%nat in Hl. unfold hex.
  assert (∀ k s, String.length (zeros k +:+ s) = (k + String.length s)%nat) as Hz.
  { intros k s. induction k as [|k IH]; [done|].
    change (String.length (zeros (S k) +:+ s)) with (S (String.length (zeros k +:+ s))). lia. }
  rewrite Hz. lia.
Qed.

Lemma length_to_list s : String.length s = length (to_list s).
Proof. induction s as [|a s IH]; [done|]. simpl. by rewrite IH. Qed.

Lemma TrimPrefix_app p s : Strings.TrimPrefix (p +:+ s) p = s.
Proof.
  unfold Strings.TrimPrefix. rewrite to_list_app.
  rewrite (proj2 (strip_Some (to_list p) _ (to_list s))) by done. apply of_to_list.
Qed.

Lemma is_digit_not_sign a : is_digit a = true → a ≠ "-"%char ∧ a ≠ "+"%char.
Proof. by intros H; split; intros ->. Qed.

Lemma Atoi_Itoa_cases n : Atoi (Itoa n) = if is_int n then Ret n else Throw (NumError (Itoa n)).
Proof.
  unfold Atoi, Itoa. destruct (Z.ltb_spec n 0).
  - rewrite decide_True by done.
    destruct (format_digits 10 (- n) ltac:(lia) ltac:(lia)) as [_ Hne].
    pose proof (parse_format 10 (- n) ltac:(lia) ltac:(lia)) as Hp.
    destruct (format 10 (- n)); [done|]. rewrite Hp. simpl.
    by rewrite Z.opp_involutive.
  - destruct (format_digits 10 n ltac:(lia) ltac:(lia)) as [Hd Hne].
    pose proof (parse_format 10 n ltac:(lia) ltac:(lia)) as Hp.
    destruct (format 10 n) as [|a r]; [done|].
    apply Forall_cons in Hd as [Ha _]. apply is_digit_not_sign in Ha as [? ?].
    rewrite !decide_False by done. by rewrite Hp.
Qed.
Lemma Atoi_Itoa n : is_int n = true → Atoi (Itoa n) = Ret n.
Proof. intros Hn. by rewrite Atoi_Itoa_cases, Hn. Qed.

Lemma Itoa_chars n :
  Forall (λ a, is_digit a = true ∨ a = "-"%char) (to_list (Itoa n)).
Proof.
  unfold Itoa. case_match; [constructor; [by right|]|];
    (eapply Forall_impl; [apply format_digits; lia|]; tauto).
Qed.
End numbers.

(** * Lower case *)

(** A visible ASCII byte other than a capital letter. *)
Definition lower (a : ascii) : bool :=
  graphic a && negb (let n := N_of_ascii a in ((65 <=? n) && (n <=? 90))%N).

Lemma ToLower_lower s : Forall (λ a, lower a = true) (to_list s) → Strings.ToLower s = s.
Proof.
  intros Hs. unfold Strings.ToLower. rewrite <- (of_to_list s) at 2. f_equal.
  induction (to_list s) as [|a l IH]; [done|]. apply Forall_cons in Hs as [Ha Hl]. specialize (IH Hl).
  assert (Strings.lower_byte a = a ∧ a ≠ char 196 ∧ a ≠ char 226) as (Hb & H1 & H2).
  { split_and!; [|by intros ->..]. unfold lower in Ha. apply andb_true_iff in Ha as [_ Hn]. unfold Strings.lower_byte.
    by destruct (_ && _)%N. }
  cbn [Strings.to_lower]. destruct l as [|b l]; [by rewrite Hb|].
  rewrite bool_decide_false by tauto. destruct l as [|c l]; [by rewrite Hb, IH|].
  rewrite bool_decide_false by tauto. by rewrite Hb, IH.
Qed.

Lemma TrimSpace_lower s : Forall (λ a, lower a = true) (to_list s) → Strings.TrimSpace s = s.
Proof.
  intros Hs. apply TrimSpace_graphic. eapply Forall_impl; [exact Hs|].
  intros a Ha. by apply andb_true_iff in Ha as [? _].
Qed.

Lemma format_lower base n : 2 ≤ base ≤ 16 → 0 ≤ n → Forall (λ a, lower a = true) (to_list (Strconv.format base n)).
Proof.
  intros Hb Hn. unfold Strconv.format.
  assert (∀ fuel n acc, 0 ≤ n → Forall (λ a, lower a = true) (to_list acc) →
    Forall (λ a, lower a = true) (to_list (Strconv.format_go base fuel n acc))) as Hf; [|by apply Hf].
  clear n Hn. assert (∀ d, 0 ≤ d < 16 → lower (Strconv.digit_char d) = true) as Hd.
  { intros d Hd. assert (d ∈ seqZ 0 16) as H by (apply elem_of_seqZ; lia).
    assert (forallb (λ d, lower (Strconv.digit_char d)) (seqZ 0 16) = true) as Hall by reflexivity.
    rewrite forallb_forall in Hall. by apply Hall, list_elem_of_In. }
  induction fuel as [|fuel IH]; intros n acc Hn Ha; cbn [Strconv.format_go];
    pose proof (Z.mod_pos_bound n base ltac:(lia)).
  - constructor; [apply Hd; lia|done].
  - destruct (n <? base); [constructor; [apply Hd; lia|done]|].
    apply IH; [apply Z.div_pos; lia|]. constructor; [apply Hd; lia|done].
Qed.

(** * Splitting *)
Section split.
Import Strings.

Lemma Split_none s c : c ∉ to_list s → Split s c = [s].
Proof.
  induction s as [|a s IH]; simpl; [done|]. intros [Ha Hs]%not_elem_of_cons.
  rewrite decide_False by done. by rewrite IH.
Qed.

Lemma Split_app s t c :
  c ∉ to_list s → Split (s +:+ String c t) c = s :: Split t c.
Proof.
  induction s as [|a s IH]; intros H.
  { simpl. by rewrite decide_True. }
  apply not_elem_of_cons in H as [Ha Hs].
  change (String a s +:+ String c t) with (String a (s +:+ String c t)).
  simpl. rewrite decide_False by done. by rewrite IH.
Qed.

Lemma Split_app_sep s t c :
  c ∉ to_list s → Split (s +:+ String c "" +:+ t) c = s :: Split t c.
Proof. exact (Split_app s t c). Qed.

Lemma cut_app s t c :
  c ∉ to_list s → cut (s +:+ String c "" +:+ t) c = Some (s, t).
Proof.
  induction s as [|a s IH]; intros H.
  { simpl. by rewrite decide_True. }
  apply not_elem_of_cons in H as [Ha Hs].
  change (String a s +:+ String c "" +:+ t) with (String a (s +:+ String c "" +:+ t)).
  simpl. rewrite decide_False by done. by rewrite IH.
Qed.

Lemma cut_none s c : c ∉ to_list s → cut s c = None.
Proof.
  induction s as [|a s IH]; [done|]. intros [Ha Hs]%not_elem_of_cons.
  simpl. rewrite decide_False by done. by rewrite IH.
Qed.

Lemma cut_None_inv s c : cut s c = None → c ∉ to_list s.
Proof.
  induction s as [|a s IH]; simpl; [intros; apply not_elem_of_nil|].
  case_decide; [done|]. destruct (cut s c) as [[]|] eqn:E; [done|].
  intros _. apply not_elem_of_cons. split; [congruence|by apply IH].
Qed.

Lemma cut_last_none s c : c ∉ to_list s → cut_last s c = None.
Proof.
  induction s as [|a s IH]; [done|]. intros [Ha Hs]%not_elem_of_cons.
  simpl. by rewrite IH, decide_False.
Qed.

Lemma cut_last_app s t c :
  c ∉ to_list t → cut_last (s +:+ String c "" +:+ t) c = Some (s, t).
Proof.
  intros H. induction s as [|a s IH].
  { change ("" +:+ String c "" +:+ t) with (String c t).
    simpl. by rewrite cut_last_none, decide_True. }
  change (String a s +:+ String c "" +:+ t) with (String a (s +:+ String c "" +:+ t)).
  cbn [cut_last]. by rewrite IH.
Qed.

Lemma Split_nonempty s c : Split s c ≠ [].
Proof. destruct s; simpl; [done|]. case_decide; [done|]. by destruct (Split s c). Qed.

Lemma digits_no_sep s c :
  Forall (λ a, is_digit a = true) (to_list s) → is_digit c = false → c ∉ to_list s.
Proof. intros H Hc Hin. eapply Forall_forall in H; [|done]. congruence. Qed.

Lemma is_digit_graphic a : is_digit a = true → graphic a = true.
Proof. by destruct a as [[] [] [] [] [] [] [] []]. Qed.

Lemma digits_graphic s :
  Forall (λ a, is_digit a = true) (to_list s) → Forall (λ a, graphic a = true) (to_list s).
Proof. intros H. eapply Forall_impl; [exact H|apply is_digit_graphic]. Qed.
End split.

(** * Where a byte can come from *)
Section chars.
Import Strings.

Lemma Split_elem s c e : e ∈ Split s c → c ∉ to_list e.
Proof.
  revert e. induction s as [|a s IH]; intros e; simpl.
  { intros ->%list_elem_of_singleton. apply not_elem_of_nil. }
  case_decide as Ha.
  { intros [->|He]%elem_of_cons; [apply not_elem_of_nil|by apply IH]. }
  destruct (Split s c) as [|h t] eqn:E; [by destruct (Split_nonempty s c)|].
  intros [->|He]%elem_of_cons; [|apply IH; by right].
  apply not_elem_of_cons. split; [done|]. apply IH. by left.
Qed.

Lemma cut_Some s c h t : cut s c = Some (h, t) → s = h +:+ String c t.
Proof.
  revert h t. induction s as [|a s IH]; intros h t; simpl; [done|].
  case_decide; [intros [= <- <-]; by subst|].
  destruct (cut s c) as [[h' t']|]; [|done]. intros [= <- <-].
  by rewrite (IH h' t').
Qed.

Lemma cut_last_None_inv s c : cut_last s c = None → c ∉ to_list s.
Proof.
  induction s as [|a s IH]; simpl; [intros; apply not_elem_of_nil|].
  destruct (cut_last s c) as [[]|]; [done|]. case_decide; [done|].
  intros _. apply not_elem_of_cons. auto.
Qed.

Lemma cut_last_tail s c h t : cut_last s c = Some (h, t) → c ∉ to_list t.
Proof.
  revert h t. induction s as [|a s IH]; intros h t; simpl; [done|].
  destruct (cut_last s c) as [[h' t']|] eqn:E.
  - intros [= <- <-]. by apply (IH h').
  - case_decide; [|done]. intros [= <- <-]. by apply cut_last_None_inv.
Qed.

Lemma Base_slash p : Filepath.Base p = "/" ∨ Filepath.slash ∉ to_list (Filepath.Base p).
Proof.
  unfold Filepath.Base. destruct p as [|a p].
  { right. apply (bool_decide_unpack _). by vm_compute. }
  set (q := of_list _). destruct (cut_last q Filepath.slash) as [[h t]|] eqn:E.
  - destruct t as [|b t]; [by left|]. right. by apply (cut_last_tail q _ h).
  - destruct q as [|b q']; [by left|]. right. by apply cut_last_None_inv.
Qed.

Lemma TrimSpace_elem a s : a ∈ to_list (TrimSpace s) → a ∈ to_list s.
Proof.
  unfold TrimSpace. rewrite to_of_list. intros H.
  destruct (trim_left_suffix spaces (to_list s)) as [l0 H0].
  destruct (trim_right_prefix spaces (trim_left spaces (to_list s))) as [l2 H2].
  rewrite H0. apply elem_of_app. right. rewrite H2. apply elem_of_app. by left.
Qed.

Lemma HasPrefix_Some s p : HasPrefix s p = true → ∃ t, s = p +:+ t.
Proof.
  unfold HasPrefix. revert s. induction p as [|a p IH]; intros s; [by exists s|].
  destruct s as [|b s]; [done|]. simpl. destruct (Ascii.ascii_dec a b) as [->|]; [|done].
  intros H. destruct (IH s H) as [t ->]. by exists t.
Qed.

Lemma HasPrefix_app p t : HasPrefix (p +:+ t) p = true.
Proof.
  unfold HasPrefix. induction p as [|a p IH]; [by destruct t|].
  change (String a p +:+ t) with (String a (p +:+ t)). simpl.
  by destruct (Ascii.ascii_dec a a).
Qed.
End chars.

(** * Paths of ordinary components *)
Section paths.
Import Strings.

Definition plain (e : string) : Prop :=
  ("/"%char ∉ to_list e) ∧ e ≠ "" ∧ e ≠ "." ∧ e ≠ "..".

Lemma Split_Join l :
  l ≠ [] → Forall (λ e, "/"%char ∉ to_list e) l → Split (Strings.Join l "/") "/" = l.
Proof.
  intros Hl H. induction H as [|e l He H IH]; [done|]. destruct l as [|e' l].
  { simpl. by apply Split_none. }
  change (Strings.Join (e :: e' :: l) "/") with (e +:+ String "/" "" +:+ Strings.Join (e' :: l) "/").
  rewrite Split_app_sep by done. by rewrite IH.
Qed.

Lemma Clean_rooted l :
  l ≠ [] → Forall plain l →
  Filepath.Clean ("/" +:+ Strings.Join l "/") = "/" +:+ Strings.Join l "/".
Proof.
  intros Hl H. unfold Filepath.Clean. 
  assert (Filepath.IsAbs ("/" +:+ Strings.Join l "/") = true) as -> by apply HasPrefix_app.
  cbv iota zeta.
  assert (Split ("/" +:+ Strings.Join l "/") Filepath.slash = "" :: l) as ->.
  { rewrite <- (Split_Join l) at 2; [|done|].
    - apply (Split_app_sep "" _ "/"), not_elem_of_nil.
    - eapply Forall_impl; [exact H|]. by intros e []. }
  change (foldl (Filepath.clean_step true) [] ("" :: l)) with (foldl (Filepath.clean_step true) [] l).
  enough (∀ st, foldl (Filepath.clean_step true) st l = rev l ++ st) as E
    by (rewrite E, app_nil_r, rev_involutive; done).
  clear Hl. induction H as [|e l (_ & H1 & H2 & H3) H IH]; intros st; [done|]. cbn [foldl].
  replace (Filepath.clean_step true st e) with (e :: st)
    by (unfold Filepath.clean_step; by rewrite !decide_False by naive_solver).
  rewrite IH. simpl. by rewrite <- app_assoc.
Qed.
End paths.
