(* ===== verification/Version.v ===== *)
(** Version: the version numbers of [internal/version] and the table of machine
    types per QEMU release of [internal/qemu/machines.go], [qemu.go].

    A value of type [interface{}] given to [Parse] is a string, an int, or
    something else.  Go's [int] arithmetic wraps at 64 bits; [/] and [%]
    truncate towards zero. *)

From S2P Require Import Prelude.
From S2P Require Import GoStd.
From S2P Require Import GoFacts.

Open Scope Z_scope.

Module Version.
Record t := { Major : Z; Minor : Z; Micro : Z }.

#[global] Instance t_eq_dec : EqDecision t.
Proof. solve_decision. Defined.

Inductive any := AString (s : string) | AInt (v : Z) | AOther (type : string).

Definition errInvalidValue (s : string) : goerr := ErrMsg ("invalid value: " +:+ s).
Definition errInvalidValueType (ty : string) : goerr :=
  ErrMsg ("invalid value type: " +:+ ty).

(** The loop over the dot-separated parts. *)
Fixpoint atoi_all (parts : list string) : outcome (list Z) :=
  match parts with
  | [] => Ret []
  | p :: parts => v ← Strconv.Atoi p; vv ← atoi_all parts; Ret (v :: vv)
  end.

Definition parseString (s : string) : outcome t :=
  let parts := Strings.Split (Strings.TrimSpace s) "." in
  if (3 <? length parts)%nat then Throw (errInvalidValue s)
  else
    vv ← atoi_all parts;
    let vv := vv ++ replicate (4 - length parts) 0 in
    match vv !! 0%nat, vv !! 1%nat, vv !! 2%nat with
    | Some a, Some b, Some c => Ret {| Major := a; Minor := b; Micro := c |}
    | _, _, _ => Panic IndexOutOfRange
    end.

Definition parseInt (v : Z) : outcome t :=
  Ret {| Major := Z.quot v 10000;
         Minor := Z.quot (Z.rem v 10000) 100;
         Micro := Z.rem (Z.rem v 10000) 100 |}.

Definition parse (a : any) : outcome t :=
  match a with
  | AString s => parseString s
  | AInt v => parseInt v
  | AOther ty => Throw (errInvalidValueType ty)
  end.

Definition Parse (a : any) : outcome t := parse a.

Definition MustParse (a : any) : t :=
  match parse a with Ret v => v | _ => {| Major := 0; Minor := 0; Micro := 0 |} end.

Definition Int (v : t) : Z := wrap64 (Major v * 10000 + Minor v * 100 + Micro v).

Definition to_string (v : t) : string :=
  Strconv.Itoa (Major v) +:+ "." +:+ Strconv.Itoa (Minor v) +:+ "." +:+ Strconv.Itoa (Micro v).

(** The components are 64-bit ints. *)
Definition is_version (v : t) : Prop :=
  is_int (Major v) = true ∧ is_int (Minor v) = true ∧ is_int (Micro v) = true.

(** The versions [Int] encodes without collision. *)
Definition small (v : t) : Prop :=
  0 ≤ Major v < 2 ^ 40 ∧ 0 ≤ Minor v < 100 ∧ 0 ≤ Micro v < 100.

Definition lex_lt (v w : t) : Prop :=
  Major v < Major w ∨
  (Major v = Major w ∧ (Minor v < Minor w ∨ (Minor v = Minor w ∧ Micro v < Micro w))).

Lemma Itoa_no_dot n : "."%char ∉ to_list (Strconv.Itoa n).
Proof.
  intros H. pose proof (Itoa_chars n) as Hc. rewrite Forall_forall in Hc.
  by destruct (Hc _ H).
Qed.

Lemma to_string_graphic v : Strings.TrimSpace (to_string v) = to_string v.
Proof.
  apply TrimSpace_graphic. unfold to_string. rewrite !to_list_app.
  assert (∀ n, Forall (λ a, graphic a = true) (to_list (Strconv.Itoa n))) as H.
  { intros n. eapply Forall_impl; [apply Itoa_chars|].
    intros a [?| ->]; [by apply is_digit_graphic|done]. }
  repeat (apply Forall_app; split); try apply H; by repeat constructor.
Qed.

Lemma to_string_split v :
  Strings.Split (to_string v) "."
  = [Strconv.Itoa (Major v); Strconv.Itoa (Minor v); Strconv.Itoa (Micro v)].
Proof.
  unfold to_string. rewrite !Split_app_sep by apply Itoa_no_dot.
  by rewrite Split_none by apply Itoa_no_dot.
Qed.

(** printing a version and parsing it back is the identity, for all
    64-bit components. *)
Theorem parse_to_string v : is_version v → Parse (AString (to_string v)) = Ret v.
Proof.
  intros (Ha & Hb & Hc). unfold Parse, parse, parseString.
  rewrite to_string_graphic, to_string_split. simpl.
  rewrite !Atoi_Itoa by done. simpl. by destruct v.
Qed.

Lemma Int_small v : small v → Int v = Major v * 10000 + Minor v * 100 + Micro v.
Proof.
  intros (? & ? & ?). unfold Int. apply wrap64_id. unfold is_int, int_min, int_max.
  apply andb_true_iff. split; apply Z.leb_le; lia.
Qed.

(** on versions with two-digit minor and micro numbers, [Int] compares as
    the versions do and [parseInt] undoes it: the tests of the form
    [QemuVersion().Int() < 21200] mean what they say. *)
Theorem Int_order v w :
  small v → small w →
  (Int v < Int w ↔ lex_lt v w) ∧ Parse (AInt (Int v)) = Ret v.
Proof.
  intros Hv Hw. rewrite !Int_small by done. destruct Hv as (?&?&?), Hw as (?&?&?).
  split; [unfold lex_lt; lia|].
  unfold Parse, parse, parseInt. destruct v as [a b c]; simpl in *. f_equal.
  rewrite !Z.quot_div_nonneg, !Z.rem_mod_nonneg by (try rewrite Z.rem_mod_nonneg by lia;
    try apply Z.mod_pos_bound; lia).
  assert ((a * 10000 + b * 100 + c) mod 10000 = b * 100 + c) as ->
    by (symmetry; apply (Z.mod_unique _ _ a); lia).
  f_equal.
  - symmetry; apply (Z.div_unique _ _ _ (b * 100 + c)); lia.
  - symmetry; apply (Z.div_unique _ _ _ c); lia.
  - symmetry; apply (Z.mod_unique _ _ b); lia.
Qed.
End Version.

Module Qemu.
Record machineType := { Name : string; Default : bool }.

#[global] Instance machineType_eq_dec : EqDecision machineType.
Proof. solve_decision. Defined.

(** [machines]: both entries of a release are marked as default. *)
Definition release (n : Z) (name : string) : Z * list machineType :=
  (n, [{| Name := "pc"; Default := true |}; {| Name := name; Default := true |}]).
Definition machines : gmap Z (list machineType) := list_to_map [
  release 30100 "pc-i440fx-3.1"; release 40000 "pc-i440fx-4.0";
  release 40001 "pc-i440fx-4.0.1"; release 40100 "pc-i440fx-4.1";
  release 40200 "pc-i440fx-4.2"; release 50000 "pc-i440fx-5.0";
  release 50100 "pc-i440fx-5.1"; release 50200 "pc-i440fx-5.2";
  release 60000 "pc-i440fx-6.0"; release 60100 "pc-i440fx-6.1";
  release 60200 "pc-i440fx-6.2"; release 70000 "pc-i440fx-7.0";
  release 70100 "pc-i440fx-7.1"; release 70200 "pc-i440fx-7.2";
  release 80000 "pc-i440fx-8.0"; release 80100 "pc-i440fx-8.1";
  release 80200 "pc-i440fx-8.2"; release 90000 "pc-i440fx-9.0";
  release 90100 "pc-i440fx-9.1"; release 90200 "pc-i440fx-9.2"].

(** The recursive call has [Micro = 0], so it does not recurse again. *)
Definition getSuitableTypes (v : Version.t) : option (list machineType) :=
  match machines !! Version.Int v with
  | Some x => Some x
  | None =>
      if Version.Micro v =? 0 then None
      else machines !! Version.Int
             {| Version.Major := Version.Major v; Version.Minor := Version.Minor v;
                Version.Micro := 0 |}
  end.

Definition errUnsupportedVersion (s : string) : goerr :=
  ErrMsg ("unsupported QEMU version: " +:+ s).

Definition GetDefaultMachineType (strver : string) : outcome machineType :=
  v ← Version.Parse (Version.AString strver);
  match getSuitableTypes v with
  | Some mtypes =>
      match List.find (λ t, negb (bool_decide (Name t = "pc")) && Default t) mtypes with
      | Some t => Ret t
      | None => match mtypes with
                | t :: _ => Ret t
                | [] => Throw (errUnsupportedVersion strver)
                end
      end
  | None => Throw (errUnsupportedVersion strver)
  end.

Definition IsDefaultMachineType (strver mtype : string) : bool :=
  match getSuitableTypes (Version.MustParse (Version.AString strver)) with
  | Some mtypes => existsb (λ t, Default t && bool_decide (Name t = mtype)) mtypes
  | None => false
  end.

Definition VerifyVersion (strver : string) : outcome () :=
  v ← Version.Parse (Version.AString strver);
  match getSuitableTypes v with
  | Some _ => Ret ()
  | None => Throw (errUnsupportedVersion strver)
  end.

Lemma machines_shape k l :
  machines !! k = Some l →
  ∃ name, l = [{| Name := "pc"; Default := true |}; {| Name := name; Default := true |}]
          ∧ name ≠ "pc".
Proof.
  intros H. apply elem_of_list_to_map_2 in H.
  repeat (apply elem_of_cons in H as [H|H]; [injection H as _ ->; by eexists|]).
  by apply not_elem_of_nil in H.
Qed.

Lemma getSuitableTypes_shape v l :
  getSuitableTypes v = Some l →
  ∃ name, l = [{| Name := "pc"; Default := true |}; {| Name := name; Default := true |}]
          ∧ name ≠ "pc".
Proof. unfold getSuitableTypes. intros. go_cases; by eapply machines_shape. Qed.

(** a version passes [VerifyVersion] exactly when it has a default machine
    type, which is a concrete type (not the alias "pc") that
    [IsDefaultMachineType] recognises for the same version. *)
Theorem VerifyVersion_default strver :
  (VerifyVersion strver = Ret () ↔ ∃ t, GetDefaultMachineType strver = Ret t) ∧
  ∀ t, GetDefaultMachineType strver = Ret t →
    Name t ≠ "pc" ∧ IsDefaultMachineType strver (Name t) = true.
Proof.
  unfold VerifyVersion, GetDefaultMachineType, IsDefaultMachineType,
    Version.MustParse, Version.Parse, mbind, outcome_bind.
  destruct (Version.parse (Version.AString strver)) as [v|e|p];
    [|split; [split; [discriminate|by intros [? [=]]]|discriminate]..].
  destruct (getSuitableTypes v) as [l|] eqn:Hl;
    [|split; [split; [discriminate|by intros [? [=]]]|discriminate]].
  apply getSuitableTypes_shape in Hl as (name & -> & Hname).
  simpl. rewrite (bool_decide_false (name = "pc")) by done. simpl.
  split; [by split; eauto|]. intros t [= <-]. simpl.
  rewrite (bool_decide_true (name = name)) by done. by rewrite orb_true_r.
Qed.
End Qemu.

Example tests_string : map (λ s, Version.to_string <$> (match Version.Parse (Version.AString s) with Ret v => Some v | _ => None end))
  [" 1.2.3"; "0.0.6 "; "  0.9 "; "  35  "; "3.4.5.6"; "3.a.5"] =
  [Some "1.2.3"; Some "0.0.6"; Some "0.9.0"; Some "35.0.0"; None; None].
Proof. reflexivity. Qed.
Example tests_int : map (λ z, Version.to_string (Version.MustParse (Version.AInt z)))
  [10203; 21101; 1101; 6; 900; 23970000] = ["1.2.3"; "2.11.1"; "0.11.1"; "0.0.6"; "0.9.0"; "2397.0.0"].
Proof. reflexivity. Qed.

Example parse_to_string_witness :
  Version.Parse (Version.AString "6.2.15") = Ret (Version.Build_t 6 2 15).
Proof. apply (Version.parse_to_string (Version.Build_t 6 2 15)). repeat split. Defined.

Example Int_order_witness :
  Version.Int (Version.Build_t 2 7 0) < Version.Int (Version.Build_t 2 12 0).
Proof.
  apply (Version.Int_order (Version.Build_t 2 7 0) (Version.Build_t 2 12 0)).
  - unfold Version.small; simpl; lia.
  - unfold Version.small; simpl; lia.
  - unfold Version.lex_lt; simpl; lia.
Defined.
