(* ===== verification/PciAddress.v ===== *)
(** PciAddress: PCI addresses and their hexadecimal notation
    ([internal/pci/address.go]). *)

From S2P Require Import Prelude.
From S2P Require Import GoStd.
From S2P Require Import GoFacts.

Open Scope Z_scope.

Module Pci.
(** uint16, uint8, uint8, uint8 *)
Record Address := { Domain : Z; Bus : Z; Device : Z; Function : Z }.

#[global] Instance Address_eq_dec : EqDecision Address.
Proof. solve_decision. Defined.

(** The switch on [len(ff2)]: with more than one dot no case applies and both
    numbers keep their zero value. *)
Definition device_function (s : string) : outcome (Z * Z) :=
  let device s :=
    v ← Strconv.ParseUint s 16 8;
    if 31 <? v then Throw (ErrMsg "a slot cannot be a number larger than 0x1f")
    else Ret v in
  match Strings.Split s "." with
  | [d; f] =>
      v ← Strconv.ParseUint f 16 8;
      if 7 <? v then Throw (ErrMsg "a function cannot be a number larger than 0x7")
      else d ← device d; Ret (d, v)
  | [d] => d ← device d; Ret (d, 0)
  | _ => Ret (0, 0)
  end.

(** The part shared by the cases 3 and 2 of the outer switch. *)
Definition bus_device (domain : Z) (bus rest : string) : outcome Address :=
  b ← Strconv.ParseUint bus 16 8;
  df ← device_function rest;
  Ret {| Domain := domain; Bus := b; Device := df.1; Function := df.2 |}.

Definition AddressFromHex (s : string) : outcome Address :=
  match Strings.Split s ":" with
  | [domain; bus; rest] =>
      let domain := Strings.TrimSpace domain in
      d ← (if bool_decide (domain = "") then Ret 0 else Strconv.ParseUint domain 16 16);
      bus_device d bus rest
  | [bus; rest] => bus_device 0 bus rest
  | _ => Throw (ErrMsg ("bad pci address format: want '[domain:]bus:device.function', given '"
                        +:+ s +:+ "'"))
  end.

(** [%.4x:%.2x:%.2x] *)
Definition Prefix (a : Address) : string :=
  Strconv.hex 4 (Domain a) +:+ ":" +:+ Strconv.hex 2 (Bus a) +:+ ":" +:+ Strconv.hex 2 (Device a).

(** [%.4x:%.2x:%.2x.%x] *)
Definition to_string (a : Address) : string :=
  Strconv.hex 4 (Domain a) +:+ ":" +:+ Strconv.hex 2 (Bus a) +:+ ":" +:+
  Strconv.hex 2 (Device a) +:+ "." +:+ Strconv.hex 1 (Function a).

Definition valid (a : Address) : Prop :=
  0 ≤ Domain a < 2 ^ 16 ∧ 0 ≤ Bus a < 2 ^ 8 ∧ 0 ≤ Device a < 32 ∧ 0 ≤ Function a < 8.

Lemma parse_digits_nonneg base s acc n :
  2 ≤ base → 0 ≤ acc → Strconv.parse_digits base s acc = Some n → 0 ≤ n.
Proof.
  intros Hb. revert acc. induction s as [|a s IH]; intros acc Ha; simpl; [naive_solver|].
  destruct (Strconv.digit_val a) as [d|] eqn:Hd; [|done]. case_match; [|done].
  apply IH. assert (0 ≤ d); [|nia]. revert Hd. unfold Strconv.digit_val.
  destruct (Z.leb_spec 48 (Z.of_N (N_of_ascii a))), (Z.leb_spec (Z.of_N (N_of_ascii a)) 57),
    (Z.leb_spec 97 (Z.of_N (N_of_ascii a))), (Z.leb_spec (Z.of_N (N_of_ascii a)) 102),
    (Z.leb_spec 65 (Z.of_N (N_of_ascii a))), (Z.leb_spec (Z.of_N (N_of_ascii a)) 70);
    simpl; intros ?; simplify_eq; lia.
Qed.

Lemma ParseUint_range s bits n :
  Strconv.ParseUint s 16 bits = Ret n → 0 ≤ n < 2 ^ bits.
Proof.
  unfold Strconv.ParseUint. destruct s as [|a s]; [done|].
  destruct (Strconv.parse_digits 16 _ 0) eqn:E; [|done].
  apply parse_digits_nonneg in E; [|lia..]. destruct (Z.ltb_spec z (2 ^ bits)); [|done].
  intros ?; simplify_eq. lia.
Qed.

Lemma device_function_range s d f :
  device_function s = Ret (d, f) → 0 ≤ d < 32 ∧ 0 ≤ f < 8.
Proof.
  unfold device_function. go_unfold.
  destruct (Strings.Split s ".") as [|x [|y [|z l]]]; try (intros ?; simplify_eq; lia).
  - destruct (Strconv.ParseUint x 16 8) eqn:E; [|done..].
    apply ParseUint_range in E. destruct (Z.ltb_spec 31 a); [done|].
    intros ?; simplify_eq. lia.
  - destruct (Strconv.ParseUint y 16 8) eqn:E; [|done..].
    apply ParseUint_range in E. destruct (Z.ltb_spec 7 a); [done|].
    destruct (Strconv.ParseUint x 16 8) eqn:E'; [|done..].
    apply ParseUint_range in E'. destruct (Z.ltb_spec 31 a0); [done|].
    intros ?; simplify_eq. lia.
Qed.

Lemma bus_device_valid d b r a :
  0 ≤ d < 2 ^ 16 → bus_device d b r = Ret a → valid a.
Proof.
  intros Hd. unfold bus_device. go_unfold.
  destruct (Strconv.ParseUint b 16 8) as [v|?|?] eqn:E; [|done..].
  destruct (device_function r) as [[dv f]|?|?] eqn:E'; [|done..].
  intros ?; simplify_eq. apply ParseUint_range in E. apply device_function_range in E'.
  unfold valid; simpl. lia.
Qed.

Lemma AddressFromHex_range s a : AddressFromHex s = Ret a → valid a.
Proof.
  unfold AddressFromHex. destruct (Strings.Split s ":") as [|x [|y [|z [|? ?]]]]; try done.
  - by apply bus_device_valid.
  - go_unfold. case_bool_decide; [by apply bus_device_valid|].
    destruct (Strconv.ParseUint _ 16 16) eqn:E; [|done..].
    apply ParseUint_range in E. by apply bus_device_valid.
Qed.

Lemma hex_no_sep w n c : 0 ≤ n → is_digit c = false → c ∉ to_list (Strconv.hex w n).
Proof. intros. by apply digits_no_sep; [apply hex_digits|]. Qed.

Lemma hex_trim w n : 0 ≤ n → Strings.TrimSpace (Strconv.hex w n) = Strconv.hex w n.
Proof. intros. by apply TrimSpace_graphic, digits_graphic, hex_digits. Qed.

Lemma address_split a :
  valid a →
  Strings.Split (to_string a) ":"
  = [Strconv.hex 4 (Domain a); Strconv.hex 2 (Bus a);
     Strconv.hex 2 (Device a) +:+ "." +:+ Strconv.hex 1 (Function a)].
Proof.
  intros (?&?&?&?). unfold to_string.
  rewrite !Split_app_sep by (apply hex_no_sep; [lia|done]).
  rewrite Split_none; [done|]. rewrite !to_list_app, !not_elem_of_app.
  split_and!; [apply hex_no_sep; [lia|done]| |apply hex_no_sep; [lia|done]].
  by intros ?%list_elem_of_singleton.
Qed.

Lemma device_function_format d f :
  0 ≤ d < 32 → 0 ≤ f < 8 →
  device_function (Strconv.hex 2 d +:+ "." +:+ Strconv.hex 1 f) = Ret (d, f).
Proof.
  intros Hd Hf. unfold device_function.
  rewrite Split_app_sep by (apply hex_no_sep; [lia|done]).
  rewrite Split_none by (apply hex_no_sep; [lia|done]).
  rewrite !ParseUint_hex by lia. simpl.
  rewrite (proj2 (Z.ltb_ge 7 f)) by lia. by rewrite (proj2 (Z.ltb_ge 31 d)) by lia.
Qed.

Lemma ParseUint_panic s base bits p : Strconv.ParseUint s base bits ≠ Panic p.
Proof. unfold Strconv.ParseUint. by repeat case_match. Qed.

Lemma AddressFromHex_panic s p : AddressFromHex s ≠ Panic p.
Proof.
  unfold AddressFromHex, bus_device, device_function, mbind, outcome_bind. intros H.
  repeat (case_match; simplify_eq/=; try discriminate);
    by match goal with H : Strconv.ParseUint _ _ _ = Panic _ |- _ => apply ParseUint_panic in H end.
Qed.

Lemma AddressFromHex_to_string a : valid a → AddressFromHex (to_string a) = Ret a.
Proof.
  intros Ha. unfold AddressFromHex. rewrite address_split by done.
  destruct Ha as (Hd&Hb&Hdv&Hf).
  rewrite hex_trim by lia.
  rewrite bool_decide_false by (apply hex_digits; lia).
  rewrite ParseUint_hex by lia. simpl. unfold bus_device.
  rewrite ParseUint_hex by lia. simpl. rewrite device_function_format by done.
  by destruct a.
Qed.

Lemma to_string_trimmed a : valid a → Strings.TrimSpace (to_string a) = to_string a.
Proof.
  intros (?&?&?&?). apply TrimSpace_graphic. unfold to_string. rewrite !to_list_app.
  repeat (apply Forall_app; split);
    first [by apply digits_graphic, hex_digits; lia | by repeat constructor].
Qed.

(** the canonical notation round-trips, hence is injective on the addresses
    in range: a pool keyed by [addr.String()] never merges two devices. *)
Theorem to_string_roundtrip a b :
  valid a → valid b →
  AddressFromHex (to_string a) = Ret a ∧ (to_string a = to_string b → a = b).
Proof.
  intros Ha Hb. split; [by apply AddressFromHex_to_string|]. intros H.
  apply AddressFromHex_to_string in Ha, Hb. congruence.
Qed.

(** parsing normalises.  An accepted string denotes an address in range,
    and the printed form of that address is accepted, denotes the same
    device, and is its own normal form. *)
Theorem AddressFromHex_normal s a :
  AddressFromHex s = Ret a →
  valid a ∧ AddressFromHex (to_string a) = Ret a ∧
  to_string <$> AddressFromHex (to_string a) = Ret (to_string a).
Proof.
  intros H%AddressFromHex_range. split; [done|].
  by rewrite AddressFromHex_to_string.
Qed.

(** a device part with two dots is not refused: whatever stands around
    them, the address returned is slot 0, function 0 of the bus. *)
Theorem AddressFromHex_two_dots bus b x y z :
  ":"%char ∉ to_list bus → ":"%char ∉ to_list (x +:+ "." +:+ y +:+ "." +:+ z) →
  "."%char ∉ to_list x → "."%char ∉ to_list y →
  Strconv.ParseUint bus 16 8 = Ret b →
  AddressFromHex (bus +:+ ":" +:+ x +:+ "." +:+ y +:+ "." +:+ z)
  = Ret {| Domain := 0; Bus := b; Device := 0; Function := 0 |}.
Proof.
  intros Hbus Hrest Hx Hy Hb. unfold AddressFromHex.
  rewrite Split_app_sep by done. rewrite Split_none by done.
  unfold bus_device. rewrite Hb. simpl. unfold device_function.
  rewrite !Split_app_sep by done.
  destruct (Strings.Split z ".") eqn:E; [by destruct (Split_nonempty z ".")|done].
Qed.
End Pci.

Example tests_hex :
  map Pci.AddressFromHex [":00:00.0"; "1:03:00.0"; "0001:ff:00.0"; "ffff:af:1f.7"] =
  map Ret [Pci.Build_Address 0 0 0 0; Pci.Build_Address 1 3 0 0;
           Pci.Build_Address 1 255 0 0; Pci.Build_Address 65535 175 31 7].
Proof. reflexivity. Qed.
Example tests_bad :
  map (is_ret ∘ Pci.AddressFromHex)
    ["z:03:00.0"; "qwerty:03:00.0"; "0000:03:yy.0"; "0000:03:00.nn"; "0000:03:2f.0"; "0000:03:1f.8"] =
  [false; false; false; false; false; false].
Proof. reflexivity. Qed.

Example AddressFromHex_normal_witness :
  Pci.valid (Pci.Build_Address 0 3 31 7) ∧
  Pci.AddressFromHex "0000:03:1f.7" = Ret (Pci.Build_Address 0 3 31 7).
Proof.
  destruct (Pci.AddressFromHex_normal "3:1f.7" (Pci.Build_Address 0 3 31 7)) as (H1 & H2 & _);
    [reflexivity|]. exact (conj H1 H2).
Defined.
Example to_string_roundtrip_witness :
  Pci.AddressFromHex "0000:0a:1f.7" = Ret (Pci.Build_Address 0 10 31 7).
Proof.
  apply (Pci.to_string_roundtrip (Pci.Build_Address 0 10 31 7) (Pci.Build_Address 0 10 31 7));
    unfold Pci.valid; simpl; lia.
Defined.
Example AddressFromHex_two_dots_witness :
  Pci.AddressFromHex "03:1f.2.3" = Ret (Pci.Build_Address 0 3 0 0).
Proof.
  apply (Pci.AddressFromHex_two_dots "03" 3 "1f" "2" "3");
    first [reflexivity | by_compute].
Defined.
