(* ===== verification/Pool.v ===== *)
(** Pool: the ordered container behind every device list of a machine
    ([kvmrun/internal/pool/pool.go]).

    Every method but [Len] takes the mutex for its whole body, so a concurrent
    history of calls is a sequence of them.  The typed pools only ever store
    values of their own pointer type, so the reflective type checks of [GetAs]
    cannot fail and are left out; its target is always the address of a local
    variable.  [Values] returns [None] for the nil interface read at a missing
    key. *)

From S2P Require Import Prelude.

Open Scope Z_scope.

Module Pool.
Section pool.
Context {V : Type}.

(** [items] is nil until the first write. *)
Record t := { items : option (gmap string V); keys : list string }.

Definition zero : t := {| items := None; keys := [] |}.

Definition init (p : t) : t :=
  match items p with
  | None => {| items := Some ∅; keys := [] |}
  | Some _ => p
  end.

(** [p.items[key]] *)
Definition lookup (key : string) (p : t) : option V :=
  match items p with Some m => m !! key | None => None end.

Definition Keys (p : t) : list string := keys p.

Definition values (p : t) (ks : list string) : list (option V) :=
  map (λ k, lookup k p) (match ks with [] => keys p | _ => ks end).
Definition Values := values.

Definition Len (p : t) : Z := Z.of_nat (length (keys p)).

Definition GetAs (key : string) : op t V := λ p,
  match items p with
  | None => (Throw (PoolNotFound key), p)
  | Some m => match m !! key with
              | None => (Throw (PoolNotFound key), p)
              | Some v => (Ret v, p)
              end
  end.

Definition Exists (key : string) (p : t) : bool :=
  match items p with
  | None => false
  | Some m => bool_decide (is_Some (m !! key))
  end.

(** [p.items[key] = value] on an initialised pool. *)
Definition store (key : string) (v : V) (p : t) : t :=
  {| items := insert key v <$> items p; keys := keys p |}.
Definition set_keys (ks : list string) (p : t) : t :=
  {| items := items p; keys := ks |}.

Definition Append (key : string) (v : V) (replace : bool) : op t () :=
  fail_if (bool_decide (key = "")) (ErrMsg "key cannot be empty");;
  modify init;;
  p ← get;
  fail_if (Exists key p && negb replace) (PoolAlreadyExists key);;
  modify (store key v);;
  modify (λ p, set_keys (keys p ++ [key]) p).

Definition Insert (key : string) (v : V) (position : Z) : op t () :=
  fail_if (bool_decide (key = "")) (ErrMsg "key cannot be empty");;
  let position := if position <? 0 then 0 else position in
  modify init;;
  p ← get;
  fail_if (Exists key p) (PoolAlreadyExists key);;
  modify (store key v);;
  let n := Len p in
  let i := Z.to_nat (if n <? position then n else position) in
  modify (λ p, set_keys (take i (keys p) ++ key :: drop i (keys p)) p);;
  modify (store key v).

Definition Remove (key : string) : op t () := λ p,
  match items p with
  | Some m =>
      match m !! key with
      | Some _ => (Ret (), {| items := Some (delete key m);
                              keys := filter (λ k, k ≠ key) (keys p) |})
      | None => (Throw (PoolNotFound key), p)
      end
  | None => (Throw (PoolNotFound key), p)
  end.

Definition RemoveN (idx : Z) : op t () :=
  fail_if (idx <? 0) (ErrMsg "idx cannot be less than 0");;
  p ← get;
  fail_if (Len p <? idx) (ErrMsg "idx cannot be greater than pool length");;
  match items p with
  | None => mret ()
  | Some m =>
      match keys p !! Z.to_nat idx with
      | None => lift (Panic IndexOutOfRange)
      | Some key =>
          modify (λ _, {| items := Some (delete key m);
                          keys := delete (Z.to_nat idx) (keys p) |})
      end
  end.

(** The values handed to [json.Marshal]. *)
Definition MarshalJSON (p : t) : list (option V) := values p [].

(** A write through the pointer stored at [key]. *)
Definition update (key : string) (f : V → V) (p : t) : t :=
  {| items := alter f key <$> items p; keys := keys p |}.

(** ** Representation invariant

    [wf Pk p]: the key list has no duplicates and lists exactly the keys of
    the map, none of them empty, and the value at [k] satisfies [Pk k]. *)
Record wf (Pk : string → V → Prop) (p : t) : Prop := {
  wf_nodup : NoDup (keys p);
  wf_dom : ∀ k, k ∈ keys p ↔ is_Some (lookup k p);
  wf_nonempty : "" ∉ keys p;
  wf_values : ∀ k v, lookup k p = Some v → Pk k v;
}.

(** The pool as an ordered association list. *)
Definition entries (p : t) : list (string * V) :=
  omap (λ k, pair k <$> lookup k p) (keys p).
End pool.
Arguments t : clear implicits.
End Pool.

(** The ordered association list the pool is meant to be. *)
Module PoolSpec.
Section spec.
Context {V : Type}.
Definition t := list (string * V).

Definition get (k : string) (l : t) : option V := (list_to_map l : gmap string V) !! k.

Definition append (k : string) (v : V) : op t () :=
  fail_if (bool_decide (k = "")) (ErrMsg "key cannot be empty");;
  l ← Prelude.get;
  fail_if (bool_decide (k ∈ l.*1)) (PoolAlreadyExists k);;
  modify (λ l, l ++ [(k, v)]).

Definition insert (k : string) (v : V) (position : Z) : op t () :=
  fail_if (bool_decide (k = "")) (ErrMsg "key cannot be empty");;
  l ← Prelude.get;
  fail_if (bool_decide (k ∈ l.*1)) (PoolAlreadyExists k);;
  let i := Z.to_nat position in
  modify (λ l, take i l ++ (k, v) :: drop i l).

Definition remove (k : string) : op t () :=
  l ← Prelude.get;
  fail_if (negb (bool_decide (k ∈ l.*1))) (PoolNotFound k);;
  modify (filter (λ e, e.1 ≠ k)).
End spec.
Arguments t : clear implicits.
End PoolSpec.

(** The mutating calls the repository makes on pools. *)
Inductive pool_call (V : Type) : Type :=
  | CAppend (key : string) (v : V)
  | CInsert (key : string) (v : V) (position : Z)
  | CRemove (key : string).
Arguments CAppend {V} _ _.
Arguments CInsert {V} _ _ _.
Arguments CRemove {V} _.

Definition pool_exec {V} (c : pool_call V) : op (Pool.t V) () :=
  match c with
  | CAppend k v => Pool.Append k v false
  | CInsert k v i => Pool.Insert k v i
  | CRemove k => Pool.Remove k
  end.

Definition spec_exec {V} (c : pool_call V) : op (PoolSpec.t V) () :=
  match c with
  | CAppend k v => PoolSpec.append k v
  | CInsert k v i => PoolSpec.insert k v i
  | CRemove k => PoolSpec.remove k
  end.

(** A history of calls and the outcomes its callers see. *)
Fixpoint run {S C} (exec : C → op S ()) (cs : list C) (s : S) : list (outcome ()) * S :=
  match cs with
  | [] => ([], s)
  | c :: cs => let '(r, s) := exec c s in
               let '(rs, s) := run exec cs s in (r :: rs, s)
  end.

Module PoolFacts.
Section facts.
Context {V : Type} (Pk : string → V → Prop).
Implicit Types (p : Pool.t V) (m : gmap string V) (k : string) (v : V).

Lemma lookup_default k p : Pool.lookup k p = default ∅ (Pool.items p) !! k.
Proof. unfold Pool.lookup. by destruct (Pool.items p). Qed.

Lemma Exists_lookup k p : Pool.Exists k p = bool_decide (is_Some (Pool.lookup k p)).
Proof.
  unfold Pool.Exists, Pool.lookup. destruct (Pool.items p); [done|].
  by rewrite bool_decide_false by apply is_Some_None.
Qed.

Lemma wf_zero : Pool.wf Pk Pool.zero.
Proof.
  split; simpl; [constructor| |apply not_elem_of_nil|done].
  intros k. split; [by intros ?%elem_of_nil|by intros []].
Qed.

Lemma wf_nil p : Pool.wf Pk p → Pool.items p = None → p = Pool.zero.
Proof.
  intros Hp Hi. destruct p as [i ks]; simpl in *. subst. unfold Pool.zero. f_equal.
  destruct ks as [|k ks]; [done|]. assert (k ∈ k :: ks) as Hk by left.
  by apply (Pool.wf_dom _ _ Hp) in Hk as [].
Qed.

(** The result of storing [k ↦ v] with the key list [ks]. *)
Definition put k v ks p : Pool.t V :=
  {| Pool.items := Some (<[k := v]> (default ∅ (Pool.items p))); Pool.keys := ks |}.

Lemma lookup_put k v ks p k' :
  Pool.lookup k' (put k v ks p) = if decide (k = k') then Some v else Pool.lookup k' p.
Proof. rewrite !lookup_default. simpl. rewrite lookup_insert. by case_decide. Qed.

Lemma wf_put k v ks p :
  Pool.wf Pk p → k ≠ "" → Pk k v →
  NoDup ks → (∀ k', k' ∈ ks ↔ k' = k ∨ k' ∈ Pool.keys p) → Pool.wf Pk (put k v ks p).
Proof.
  intros Hp Hk Hv Hnd Hks. split; simpl; [done|..].
  - intros k'. rewrite lookup_put, Hks, (Pool.wf_dom _ _ Hp).
    case_decide; naive_solver.
  - rewrite Hks. intros [?|H]; [done|by apply (Pool.wf_nonempty _ _ Hp)].
  - intros k' v'. rewrite lookup_put. case_decide; [naive_solver|]. apply Hp.
Qed.

Lemma Append_run k v p :
  Pool.wf Pk p →
  Pool.Append k v false p =
    if bool_decide (k = "") then (Throw (ErrMsg "key cannot be empty"), p)
    else if Pool.Exists k p then (Throw (PoolAlreadyExists k), p)
    else (Ret (), put k v (Pool.keys p ++ [k]) p).
Proof.
  intros Hp. unfold Pool.Append. go_unfold.
  destruct (bool_decide (k = "")); [done|].
  destruct (Pool.items p) as [m|] eqn:Hi.
  - assert (Pool.init p = p) as -> by (unfold Pool.init; by rewrite Hi).
    destruct (Pool.Exists k p); [done|]. simpl. unfold put, Pool.store, Pool.set_keys.
    by rewrite Hi.
  - apply wf_nil in Hi; [|done]. by subst.
Qed.

Lemma Insert_run k v pos p :
  Pool.wf Pk p →
  Pool.Insert k v pos p =
    if bool_decide (k = "") then (Throw (ErrMsg "key cannot be empty"), p)
    else if Pool.Exists k p then (Throw (PoolAlreadyExists k), p)
    else let i := Z.to_nat pos in
         (Ret (), put k v (take i (Pool.keys p) ++ k :: drop i (Pool.keys p)) p).
Proof.
  intros Hp. unfold Pool.Insert. go_unfold.
  destruct (bool_decide (k = "")); [done|].
  set (pos' := if pos <? 0 then 0 else pos).
  assert (∀ q, Pool.items q ≠ None → Pool.Exists k q = false →
    (let i := Z.to_nat (if Pool.Len q <? pos' then Pool.Len q else pos') in
     Pool.store k v (Pool.set_keys (take i (Pool.keys q) ++ k :: drop i (Pool.keys q))
       (Pool.store k v q)))
    = put k v (take (Z.to_nat pos) (Pool.keys q) ++ k :: drop (Z.to_nat pos) (Pool.keys q)) q)
    as Hins.
  { intros q Hq _. unfold Pool.store, Pool.set_keys, put, Pool.Len. simpl.
    destruct (Pool.items q) as [m|]; [|done]. simpl. rewrite insert_insert_eq. f_equal.
    subst pos'. destruct (Z.ltb_spec pos 0); [|destruct (Z.ltb_spec (Z.of_nat (length (Pool.keys q))) pos)].
    - destruct (Z.ltb_spec (Z.of_nat (length (Pool.keys q))) 0); [lia|].
      by replace (Z.to_nat pos) with 0%nat by lia.
    - rewrite Nat2Z.id, !take_ge, !drop_ge by lia. done.
    - done. }
  destruct (Pool.items p) as [m|] eqn:Hi.
  - assert (Pool.init p = p) as -> by (unfold Pool.init; by rewrite Hi).
    destruct (Pool.Exists k p) eqn:Hx; [done|]. simpl.
    rewrite <- Hins by (done || congruence). done.
  - apply wf_nil in Hi; [|done]. subst.
    exact (f_equal (pair (Ret ())) (Hins (Pool.init Pool.zero) ltac:(done) eq_refl)).
Qed.
(** ** Every operation keeps the invariant *)

Lemma Exists_keys k p : Pool.wf Pk p → Pool.Exists k p = bool_decide (k ∈ Pool.keys p).
Proof. intros Hp. rewrite Exists_lookup. apply bool_decide_ext. by rewrite (Pool.wf_dom _ _ Hp). Qed.

Lemma preserves_Append k v :
  Pk k v → preserves (Pool.wf Pk) (Pool.Append k v false).
Proof.
  intros Hv p Hp. rewrite Append_run by done. case_bool_decide; [done|].
  rewrite Exists_keys by done. case_bool_decide as Hk; [done|].
  apply wf_put; [done..| |].
  - apply list.NoDup_app. split_and!; [apply Hp|set_solver|apply NoDup_singleton].
  - set_solver.
Qed.

Lemma preserves_Insert k v i :
  Pk k v → preserves (Pool.wf Pk) (Pool.Insert k v i).
Proof.
  intros Hv p Hp. rewrite Insert_run by done. case_bool_decide; [done|].
  rewrite Exists_keys by done. case_bool_decide as Hk; [done|].
  apply wf_put; [done..| |].
  - apply NoDup_insert_at; [apply Hp|done].
  - intros k'. apply elem_of_insert_at.
Qed.

Lemma wf_delete k m ks p :
  Pool.wf Pk p → Pool.items p = Some m → NoDup ks →
  (∀ k', k' ∈ ks ↔ k' ≠ k ∧ k' ∈ Pool.keys p) →
  Pool.wf Pk {| Pool.items := Some (delete k m); Pool.keys := ks |}.
Proof.
  intros Hp Hm Hnd Hks.
  assert (∀ k', Pool.lookup k' {| Pool.items := Some (delete k m); Pool.keys := ks |}
                = if decide (k = k') then None else Pool.lookup k' p) as Hl.
  { intros k'. unfold Pool.lookup. simpl. rewrite Hm, lookup_delete. by case_decide. }
  split; simpl; [done|..].
  - intros k'. rewrite Hl, Hks, (Pool.wf_dom _ _ Hp). case_decide; [|naive_solver].
    split; [naive_solver|by intros []].
  - rewrite Hks. intros [_ H]. by apply (Pool.wf_nonempty _ _ Hp).
  - intros k' v'. rewrite Hl. case_decide; [done|]. apply Hp.
Qed.

(** The pool without [k]. *)
Definition removed k p : Pool.t V :=
  {| Pool.items := delete k <$> Pool.items p; Pool.keys := filter (λ k', k' ≠ k) (Pool.keys p) |}.

Lemma Remove_run k p :
  Pool.Remove k p =
    match Pool.lookup k p with
    | Some _ => (Ret (), removed k p)
    | None => (Throw (PoolNotFound k), p)
    end.
Proof.
  unfold Pool.Remove, Pool.lookup, removed. destruct (Pool.items p) as [m|]; [|done].
  by destruct (m !! k).
Qed.

Lemma lookup_removed k k' p :
  Pool.lookup k' (removed k p) = if decide (k = k') then None else Pool.lookup k' p.
Proof.
  unfold Pool.lookup, removed. simpl. destruct (Pool.items p); simpl; [|by case_decide].
  by rewrite lookup_delete.
Qed.

Lemma atomic_Remove k : atomic (@Pool.Remove V k).
Proof. intros p. rewrite Remove_run. by destruct (Pool.lookup k p). Qed.

(** [init] only replaces the nil map, in which no key exists. *)
Lemma init_id p k : Pool.Exists k (Pool.init p) = true → Pool.init p = p.
Proof.
  unfold Pool.init. destruct (Pool.items p) eqn:Hi; [done|].
  unfold Pool.Exists. simpl. rewrite bool_decide_false; [done|].
  rewrite lookup_empty. apply is_Some_None.
Qed.

Lemma atomic_Append k v : atomic (Pool.Append k v false).
Proof.
  intros p. unfold Pool.Append. go_unfold. case_bool_decide; [done|]. rewrite andb_true_r.
  destruct (Pool.Exists k (Pool.init p)) eqn:Hx; simpl; [|done].
  intros _. by apply init_id in Hx.
Qed.

Lemma atomic_Insert k v i : atomic (Pool.Insert k v i).
Proof.
  intros p. unfold Pool.Insert. go_unfold. case_bool_decide; [done|].
  destruct (Pool.Exists k (Pool.init p)) eqn:Hx; simpl; [|done].
  intros _. by apply init_id in Hx.
Qed.

Lemma Append_panic k v r p q : (Pool.Append k v r p).1 ≠ Panic q.
Proof. unfold Pool.Append. go_unfold. repeat (case_match; simplify_eq/=; try done). Qed.
Lemma Insert_panic k v i p q : (Pool.Insert k v i p).1 ≠ Panic q.
Proof. unfold Pool.Insert. go_unfold. repeat (case_match; simplify_eq/=; try done). Qed.
Lemma Remove_panic k p q : (@Pool.Remove V k p).1 ≠ Panic q.
Proof. rewrite Remove_run. by destruct (Pool.lookup k p). Qed.

Lemma lookup_update k f p k' :
  Pool.lookup k' (Pool.update k f p)
  = if decide (k = k') then f <$> Pool.lookup k' p else Pool.lookup k' p.
Proof.
  unfold Pool.lookup, Pool.update. simpl. destruct (Pool.items p); simpl.
  - rewrite lookup_alter. by case_decide; subst.
  - by case_decide.
Qed.

Lemma preserves_Remove k : preserves (Pool.wf Pk) (Pool.Remove k).
Proof.
  intros p Hp. unfold Pool.Remove. destruct (Pool.items p) as [m|] eqn:Hm; [|done].
  destruct (m !! k); [|done]. simpl. eapply wf_delete; [done..| |].
  - apply list.NoDup_filter, Hp.
  - intros k'. by rewrite list_elem_of_filter.
Qed.

Lemma wf_update k f p :
  Pool.wf Pk p → (∀ v, Pk k v → Pk k (f v)) → Pool.wf Pk (Pool.update k f p).
Proof.
  intros Hp Hf. pose proof (lookup_update k f p) as Hl.
  split; simpl; [apply Hp|..].
  - intros k'. rewrite Hl, (Pool.wf_dom _ _ Hp). case_decide; [|done]. by rewrite fmap_is_Some.
  - apply Hp.
  - intros k' v. rewrite Hl. case_decide; [|apply Hp]. subst.
    intros (v' & Hv & ->)%fmap_Some. by apply Hf, Hp.
Qed.

Lemma wf_lookup k v p : Pool.wf Pk p → Pool.lookup k p = Some v → Pk k v.
Proof. intros Hp. apply Hp. Qed.

Lemma GetAs_lookup k p :
  Pool.GetAs k p =
    (match Pool.lookup k p with Some v => Ret v | None => Throw (PoolNotFound k) end, p).
Proof. unfold Pool.GetAs, Pool.lookup. by destruct (Pool.items p) as [m|]; [destruct (m !! k)|]. Qed.

(** ** The pool as an association list *)

Lemma entries_run ks p :
  (∀ k, k ∈ ks → is_Some (Pool.lookup k p)) →
  (omap (λ k, pair k <$> Pool.lookup k p) ks).*1 = ks.
Proof.
  induction ks as [|k ks IH]; intros H; [done|]. csimpl.
  destruct (H k) as [v ->]; [by left|]. csimpl. f_equal. apply IH.
  intros k' Hk'. apply H. by right.
Qed.

Lemma entries_keys p : Pool.wf Pk p → (Pool.entries p).*1 = Pool.keys p.
Proof. intros Hp. apply entries_run. intros k. by apply Hp. Qed.

Lemma omap_ext_in {A B} (f g : A → option B) (l : list A) :
  (∀ x, x ∈ l → f x = g x) → omap f l = omap g l.
Proof.
  induction l as [|x l IH]; intros H; [done|]. csimpl. rewrite (H x) by by left.
  case_match; [f_equal|]; apply IH; intros y Hy; apply H; by right.
Qed.

Lemma entries_put k v l1 l2 p :
  k ∉ l1 → k ∉ l2 →
  Pool.entries (put k v (l1 ++ k :: l2) p)
  = omap (λ k, pair k <$> Pool.lookup k p) l1 ++ (k, v) ::
    omap (λ k, pair k <$> Pool.lookup k p) l2.
Proof.
  intros H1 H2. unfold Pool.entries. simpl. rewrite omap_app. csimpl.
  rewrite lookup_put, decide_True by done. csimpl. f_equal; [|f_equal];
    apply omap_ext_in; intros k' Hk'; rewrite lookup_put, decide_False; congruence.
Qed.

Lemma omap_take_drop i p :
  Pool.wf Pk p →
  let f k := pair k <$> Pool.lookup k p in
  omap f (take i (Pool.keys p)) = take i (Pool.entries p) ∧
  omap f (drop i (Pool.keys p)) = drop i (Pool.entries p).
Proof.
  intros Hp f. assert (Pool.entries p = omap f (take i (Pool.keys p)) ++ omap f (drop i (Pool.keys p))) as He.
  { rewrite <- omap_app, take_drop. done. }
  assert (length (omap f (take i (Pool.keys p))) = length (take i (Pool.keys p))) as Hl.
  { rewrite <- (length_fmap fst). unfold f. rewrite entries_run; [done|].
    intros k Hk. apply Hp. rewrite <- (take_drop i). apply elem_of_app. by left. }
  rewrite length_take in Hl.
  destruct (decide (i ≤ length (Pool.keys p))%nat).
  - rewrite He. split; [rewrite take_app_length'|rewrite drop_app_length']; (done || lia).
  - rewrite (take_ge (Pool.keys p)), (drop_ge (Pool.keys p)) by lia.
    assert (length (Pool.entries p) = length (Pool.keys p)) as Hl'
      by (rewrite <- (entries_keys p), length_fmap by done; done).
    by rewrite take_ge, drop_ge by lia.
Qed.

Lemma entries_delete k m p :
  Pool.items p = Some m →
  Pool.entries {| Pool.items := Some (delete k m); Pool.keys := filter (λ k', k' ≠ k) (Pool.keys p) |}
  = filter (λ e, e.1 ≠ k) (Pool.entries p).
Proof.
  intros Hm. unfold Pool.entries, Pool.lookup. simpl. rewrite Hm.
  induction (Pool.keys p) as [|k' ks IH]; [done|]. csimpl. rewrite filter_cons.
  case_decide as Hk; csimpl.
  - rewrite lookup_delete_ne by done. destruct (m !! k') as [v|]; csimpl; [|done].
    rewrite filter_cons_True by done. by f_equal.
  - destruct (m !! k') as [v|]; csimpl; [|done].
    rewrite filter_cons_False by (intros H; by apply H). apply IH.
Qed.

Lemma entries_removed k p :
  Pool.wf Pk p → filter (λ e, e.1 ≠ k) (Pool.entries p) = Pool.entries (removed k p).
Proof.
  intros Hp. unfold removed. destruct (Pool.items p) as [m|] eqn:Hm.
  - simpl. by rewrite entries_delete.
  - apply wf_nil in Hm; [|done]. by subst.
Qed.

Lemma filter_entries_id k (l : list (string * V)) :
  k ∉ l.*1 → filter (λ e, e.1 ≠ k) l = l.
Proof.
  induction l as [|[k' v] l IH]; [done|]. csimpl. intros [Hk Hl]%not_elem_of_cons.
  rewrite filter_cons_True by (simpl; congruence). by rewrite IH.
Qed.

(** One call on the pool is the same call on its association list. *)
Lemma simulation c p :
  Pool.wf Pk p →
  spec_exec c (Pool.entries p) = (λ q, (q.1, Pool.entries q.2)) (pool_exec c p).
Proof.
  intros Hp. destruct c as [k v|k v i|k]; simpl.
  - rewrite Append_run by done. unfold PoolSpec.append. go_unfold.
    case_bool_decide; [done|]. rewrite entries_keys, Exists_keys by done.
    case_bool_decide; [done|]. csimpl. f_equal. symmetry.
    rewrite entries_put by (set_solver). csimpl. done.
  - rewrite Insert_run by done. unfold PoolSpec.insert. go_unfold.
    case_bool_decide; [done|]. rewrite entries_keys, Exists_keys by done.
    case_bool_decide as Hk; [done|]. csimpl. f_equal. symmetry.
    rewrite <- (take_drop (Z.to_nat i) (Pool.keys p)) in Hk.
    apply not_elem_of_app in Hk as [??]. rewrite entries_put by done.
    by destruct (omap_take_drop (Z.to_nat i) p Hp) as [-> ->].
  - unfold Pool.Remove, PoolSpec.remove. go_unfold. rewrite entries_keys by done.
    pose proof (Pool.wf_dom _ _ Hp k) as Hd. unfold Pool.lookup in Hd.
    destruct (Pool.items p) as [m|] eqn:Hm.
    + destruct (m !! k) as [v|] eqn:Hk.
      * rewrite bool_decide_true by (apply Hd; eauto). csimpl.
        by rewrite <- (entries_delete k m p Hm).
      * rewrite bool_decide_false by (rewrite Hd; apply is_Some_None). done.
    + rewrite bool_decide_false by (rewrite Hd; apply is_Some_None). done.
Qed.

Lemma PoolSpec_get_lookup k p :
  Pool.wf Pk p → PoolSpec.get k (Pool.entries p) = Pool.lookup k p.
Proof.
  intros Hp. unfold PoolSpec.get. pose proof (entries_keys p Hp) as Hk.
  destruct (Pool.lookup k p) as [v|] eqn:Hl.
  - apply elem_of_list_to_map_1; [rewrite Hk; apply Hp|].
    unfold Pool.entries. apply list_elem_of_omap. exists k. rewrite Hl. split; [|done].
    apply Hp. eauto.
  - apply not_elem_of_list_to_map_1. rewrite Hk, (Pool.wf_dom _ _ Hp), Hl. apply is_Some_None.
Qed.

Lemma Values_entries p :
  Pool.wf Pk p → Pool.Values p [] = Some <$> (Pool.entries p).*2.
Proof.
  intros Hp. unfold Pool.Values, Pool.values, Pool.entries.
  assert (∀ k, k ∈ Pool.keys p → is_Some (Pool.lookup k p)) as H by (intros k; apply Hp).
  induction (Pool.keys p) as [|k ks IH]; [done|]. csimpl.
  destruct (H k) as [v ->]; [by left|]. csimpl. f_equal. apply IH.
  intros k' Hk'. apply H. by right.
Qed.
Lemma lookup_Values p k v :
  Pool.wf Pk p → Pool.lookup k p = Some v → v ∈ omap id (Pool.Values p []).
Proof.
  intros Hp Hl. apply list_elem_of_omap. exists (Some v). split; [|done].
  unfold Pool.Values, Pool.values. apply list_elem_of_In, in_map_iff. exists k. split; [done|].
  apply list_elem_of_In, Hp. eauto.
Qed.

Lemma Values_ok p v : Pool.wf Pk p → v ∈ omap id (Pool.Values p []) → ∃ k, Pk k v.
Proof.
  intros Hp (o & Ho & Hv)%list_elem_of_omap. unfold id in Hv. subst o.
  unfold Pool.Values, Pool.values in Ho. apply list_elem_of_In, in_map_iff in Ho as (k & Hk & _).
  exists k. by apply Hp.
Qed.
End facts.
End PoolFacts.

#[export] Hint Resolve PoolFacts.atomic_Append PoolFacts.atomic_Insert
  PoolFacts.atomic_Remove : golang.
#[export] Hint Resolve PoolFacts.preserves_Append PoolFacts.preserves_Insert
  PoolFacts.preserves_Remove PoolFacts.wf_zero : golang.

Definition anything {V} (_ : string) (_ : V) : Prop := True.

Section pool_properties.
Context {V : Type}.

Lemma run_simulation (cs : list (pool_call V)) p :
  Pool.wf anything p →
  let '(rs, p') := run pool_exec cs p in
  run spec_exec cs (Pool.entries p) = (rs, Pool.entries p') ∧ Pool.wf anything p'.
Proof.
  revert p. induction cs as [|c cs IH]; intros p Hp; simpl; [done|].
  rewrite (PoolFacts.simulation anything) by done.
  assert (Pool.wf anything (pool_exec c p).2) as Hp'.
  { destruct c; [apply PoolFacts.preserves_Append|apply PoolFacts.preserves_Insert|
      apply PoolFacts.preserves_Remove]; done. }
  destruct (pool_exec c p) as [r p1]; simpl in *. specialize (IH p1 Hp').
  destruct (run pool_exec cs p1) as [rs p2]. destruct IH as [-> ?]. done.
Qed.

(** C17: a pool refines an ordered association list.  After any history of
    [Append] without [replace], [Insert] and [Remove] calls on a zero pool, every
    caller has seen the outcome the list gives, and the pool answers [Keys],
    [Values], [Len], [Exists] and [GetAs] as the list does.  [Append] with
    [replace], which no caller uses, does not ([Append_replace_duplicates]). *)
Theorem pool_refines_list (cs : list (pool_call V)) :
  let '(rs, p) := run pool_exec cs Pool.zero in
  let '(rs', l) := run spec_exec cs [] in
  rs = rs' ∧ NoDup l.*1 ∧
  Pool.Keys p = l.*1 ∧ Pool.Values p [] = Some <$> l.*2 ∧
  Pool.Len p = Z.of_nat (length l) ∧
  ∀ k, Pool.Exists k p = bool_decide (k ∈ l.*1) ∧
       (Pool.GetAs k p).1 =
         match PoolSpec.get k l with Some v => Ret v | None => Throw (PoolNotFound k) end.
Proof.
  pose proof (run_simulation cs Pool.zero (PoolFacts.wf_zero _)) as H.
  destruct (run pool_exec cs Pool.zero) as [rs p]. destruct H as [H Hp].
  change (Pool.entries Pool.zero) with (@nil (string * V)) in H. rewrite H.
  pose proof (PoolFacts.entries_keys anything p Hp) as Hk.
  split_and!; [done|rewrite Hk; apply Hp|done| | |].
  - by eapply PoolFacts.Values_entries.
  - unfold Pool.Len. by rewrite <- Hk, length_fmap.
  - intros k. rewrite Hk, (PoolFacts.Exists_keys anything) by done. split; [done|].
    by rewrite PoolFacts.GetAs_lookup, (PoolFacts.PoolSpec_get_lookup anything).
Qed.

(** [RemoveN] removes the entry at an index inside the pool, but its upper
    guard lets [idx = Len] through, where the key lookup panics. *)
Theorem RemoveN_bounds (p : Pool.t V) (idx : Z) :
  Pool.wf anything p → Pool.items p ≠ None →
  (idx < 0 → (Pool.RemoveN idx p).1 = Throw (ErrMsg "idx cannot be less than 0")) ∧
  (0 ≤ idx < Pool.Len p →
     (Pool.RemoveN idx p).1 = Ret () ∧ Pool.wf anything (Pool.RemoveN idx p).2 ∧
     Pool.Keys (Pool.RemoveN idx p).2 = delete (Z.to_nat idx) (Pool.Keys p)) ∧
  (idx = Pool.Len p → (Pool.RemoveN idx p).1 = Panic IndexOutOfRange) ∧
  (Pool.Len p < idx →
     (Pool.RemoveN idx p).1 = Throw (ErrMsg "idx cannot be greater than pool length")).
Proof.
  intros Hp Hi. assert (0 ≤ Pool.Len p) by (unfold Pool.Len; lia).
  unfold Pool.RemoveN. go_unfold.
  destruct (Z.ltb_spec idx 0); [split_and!; intros; first [done|exfalso; lia]|].
  destruct (Z.ltb_spec (Pool.Len p) idx); [split_and!; intros; first [done|exfalso; lia]|].
  destruct (Pool.items p) as [m|] eqn:Hm; [|done].
  split_and!; [intros; exfalso; lia| | |intros; exfalso; lia].
  - intros [_ Hlt]. unfold Pool.Len in Hlt.
    destruct (lookup_lt_is_Some_2 (Pool.keys p) (Z.to_nat idx)) as [k Hk]; [lia|].
    destruct (NoDup_delete_at _ _ _ (Pool.wf_nodup _ _ Hp) Hk).
    rewrite Hk. split_and!; [done| |done]. simpl. by eapply PoolFacts.wf_delete.
  - intros ->. rewrite lookup_ge_None_2; [done|]. unfold Pool.Len. lia.
Qed.

(** [Append] with [replace] keeps the old position of an existing key and
    appends it again: the key is listed twice and [Values] returns the new
    value at both places. *)
Theorem Append_replace_duplicates (p : Pool.t V) (k : string) (v : V) :
  Pool.wf anything p → Pool.Exists k p = true →
  let p' := (Pool.Append k v true p).2 in
  (Pool.Append k v true p).1 = Ret () ∧
  Pool.Keys p' = Pool.Keys p ++ [k] ∧ ¬ NoDup (Pool.Keys p') ∧
  Pool.Len p' = Pool.Len p + 1 ∧ (Pool.GetAs k p').1 = Ret v.
Proof.
  intros Hp Hk. unfold Pool.Append. go_unfold.
  pose proof Hk as Hin. rewrite (PoolFacts.Exists_keys anything) in Hin by done.
  apply bool_decide_eq_true in Hin.
  rewrite bool_decide_false by (intros ->; by apply (Pool.wf_nonempty _ _ Hp)).
  rewrite andb_false_r. simpl.
  destruct (Pool.items p) as [m|] eqn:Hm;
    [|apply (PoolFacts.wf_nil anything) in Hm; [by subst|done]].
  assert (Pool.init p = p) as -> by (unfold Pool.init; by rewrite Hm).
  unfold Pool.store, Pool.set_keys, Pool.Len, Pool.Keys; simpl. rewrite Hm.
  split_and!; [done|done| | |].
  - intros (_ & H & _)%list.NoDup_app. apply (H k Hin). by left.
  - rewrite length_app. simpl. lia.
  - rewrite PoolFacts.GetAs_lookup. unfold Pool.lookup. simpl. by rewrite lookup_insert_eq.
Qed.
End pool_properties.

Definition pool_sample : Pool.t Z :=
  (run pool_exec [CAppend "a" 1; CAppend "b" 2; CInsert "c" 3 0] Pool.zero).2.
Example pool_sample_wf : Pool.wf anything pool_sample.
Proof. apply (run_simulation [CAppend "a" 1; CAppend "b" 2; CInsert "c" 3 0] Pool.zero), PoolFacts.wf_zero. Qed.

Example RemoveN_bounds_witness :
  (Pool.RemoveN 3 pool_sample).1 = Panic IndexOutOfRange ∧
  Pool.Keys (Pool.RemoveN 1 pool_sample).2 = ["c"; "b"].
Proof.
  split.
  - by apply (RemoveN_bounds pool_sample 3 pool_sample_wf).
  - by apply (RemoveN_bounds pool_sample 1 pool_sample_wf).
Defined.
Example Append_replace_duplicates_witness :
  Pool.Keys (Pool.Append "a" 9 true pool_sample).2 = ["c"; "a"; "b"; "a"].
Proof. by apply (Append_replace_duplicates pool_sample "a" 9 pool_sample_wf). Defined.
