(* ===== verification/Backend.v ===== *)
(** Backend: the host environment, and the block, file, iSCSI and NBD backends
    of disks ([kvmrun/backend]) with the functions that choose one from a path
    ([NewDiskBackend] of [disks.go], [NewCdromBackend] of [cdroms.go],
    [NewCloudInitDriveBackend] of [cloudinit.go], [NewFirmwareFlashBackend] of
    [machine_firmware.go]). *)

From S2P Require Import Prelude.
From S2P Require Import GoStd.
From S2P Require Import GoFacts.

Open Scope Z_scope.

(** What the modelled code asks of the operating system. *)
Inductive file_mode := ModeRegular | ModeDir | ModeBlockDevice | ModeOther.

Record url := { url_Scheme : string; url_Host : string; url_Path : string }.

(** A system or library call returns a value or an error; it does not panic. *)
Definition sys (A : Type) : Type := A + goerr.
Definition call {A} (r : sys A) : outcome A :=
  match r with inl a => Ret a | inr e => Throw e end.

Class Host := {
(** [stat(2)] and [lstat(2)]: mode and size, [ErrNotExist] when there is no
    such file, another error otherwise *)
os_Stat : string → sys (file_mode * Z);
os_Lstat : string → sys (file_mode * Z);
(** the size of a block device, by ioctl *)
BLKGETSIZE64 : string → sys Z;
}.

(** What does not change while the process runs: its working directory and
    the parser of [net/url]. *)
Class Env := {
  os_Getwd : sys string;
  url_Parse : string → sys url;
}.

Definition filepath_Abs `{Env} (p : string) : outcome string :=
  if Filepath.IsAbs p then Ret (Filepath.Clean p)
  else wd ← call os_Getwd; Ret (Filepath.Join [wd; p]).

(** [os.Stat] followed by the error cases of the strict validations. *)
Definition check_file `{Host} (what fname : string) : outcome () :=
  match os_Stat fname with
  | inl _ => Ret ()
  | inr (ErrNotExist p) => Throw (ErrNotExist p)
  | inr _ => Throw (ErrMsg ("failed to check " +:+ what))
  end.

(** The [DiskBackend] interface. *)
Class DiskBackend (D : Type) := {
  FullPath : D → string;
  BaseName : D → string;
  QdevID : D → string;
  Size : ∀ `{Host}, D → outcome Z;
  IsLocal : D → bool;
  IsAvailable : ∀ `{Host}, D → outcome bool;
  Copy : D → D;
}.

Module Block.
Record Device := { Path : string }.
#[global] Instance Device_eq_dec : EqDecision Device.
Proof. solve_decision. Defined.

Definition New (p : string) : outcome Device := Ret {| Path := p |}.

Definition device_BaseName (d : Device) : string := Filepath.Base (Path d).

Definition device_IsAvailable `{Host} (d : Device) : outcome bool :=
  match os_Stat (Path d) with
  | inl (mode, _) =>
      match mode with
      | ModeBlockDevice => Ret true
      | _ => Throw (ErrMsg ("not a block device: " +:+ Path d))
      end
  | inr (ErrNotExist _) => Throw (ErrNotExist (Path d))
  | inr e => Throw e
  end.

#[global] Instance Device_backend : DiskBackend Device := {|
  FullPath := Path;
  BaseName := device_BaseName;
  QdevID d := "blk_" +:+ device_BaseName d;
  Size _ d := call (BLKGETSIZE64 (Path d));
  IsLocal _ := true;
  IsAvailable _ := device_IsAvailable;
  Copy d := {| Path := Path d |};
|}.
End Block.

Module File.
Record Device := { Path : string }.
#[global] Instance Device_eq_dec : EqDecision Device.
Proof. solve_decision. Defined.

Definition New `{Env} (p : string) : outcome Device :=
  v ← filepath_Abs p; Ret {| Path := v |}.

Definition device_BaseName (d : Device) : string := Filepath.Base (Path d).

(** [Size] and [IsAvailable] share their checks. *)
Definition regular `{Host} (d : Device) : outcome Z :=
  match os_Lstat (Path d) with
  | inl (ModeRegular, size) => Ret size
  | inl _ => Throw (ErrMsg ("not a regular file: " +:+ Path d))
  | inr (ErrNotExist _) => Throw (ErrNotExist (Path d))
  | inr e => Throw e
  end.

#[global] Instance Device_backend : DiskBackend Device := {|
  FullPath := Path;
  BaseName := device_BaseName;
  QdevID d := "blk_" +:+ device_BaseName d;
  Size _ := regular;
  IsLocal _ := true;
  IsAvailable _ d := _ ← regular d; Ret true;
  Copy d := {| Path := Path d |};
|}.
End File.

Module Iscsi.
Import Strings.

Record URI := {
  Portal : string; Host_ : string; Port : Z; Iqn : string;
  UniqueName : string; Lun : Z; User : string; Pass : string;
}.
Record Device := { Path : string; uri : URI }.

#[global] Instance URI_eq_dec : EqDecision URI.
Proof. solve_decision. Defined.
#[global] Instance Device_eq_dec : EqDecision Device.
Proof. solve_decision. Defined.

(** CHAP user and password before the first ['@']. *)
Definition parse_authority (rest : string) : (string * string) * string :=
  match cut rest "@" with
  | Some (authority, rest) =>
      match cut authority "%" with
      | Some (user, pass) => ((user, pass), rest)
      | None => ((authority, ""), rest)
      end
  | None => (("", ""), rest)
  end.

Definition parse_port (portal : string) : outcome (string * Z) :=
  match cut_last portal ":" with
  | Some (host, port) =>
      match Strconv.Atoi port with
      | Ret i => if bool_decide (port = "") then Throw (ErrMsg "unable to parse host/port")
                 else Ret (host, i)
      | _ => Throw (ErrMsg "unable to parse host/port")
      end
  | None => Ret (portal, 0)
  end.

Definition strip_brackets (host : string) : outcome string :=
  if HasPrefix host "[" then
    if negb (HasSuffix host "]") then Throw (ErrMsg "missing ']' in host")
    else Ret (Trim host "[]")
  else Ret host.

Definition ParseURI (rawuri : string) : outcome URI :=
  if negb (HasPrefix rawuri "iscsi://") then Throw (ErrMsg "unknown scheme")
  else
    let rest := TrimPrefix rawuri "iscsi://" in
    let '((user, pass), rest) := parse_authority rest in
    match Split rest "/" with
    | [portal; iqn; lun] =>
        hp ← parse_port portal;
        host ← strip_brackets hp.1;
        let unique := match cut iqn ":" with Some (_, n) => n | None => "" end in
        match Strconv.Atoi lun with
        | Ret i => Ret {| Portal := ""; Host_ := host; Port := hp.2; Iqn := iqn;
                          UniqueName := unique; Lun := i; User := user; Pass := pass |}
        | _ => Throw (ErrMsg "lun should be an integer")
        end
    | _ => Throw (ErrMsg "incorrect format")
    end.

Definition New (p : string) : outcome Device :=
  u ← ParseURI p; Ret {| Path := p; uri := u |}.

#[global] Instance Device_backend : DiskBackend Device := {|
  FullPath := Path;
  BaseName d := UniqueName (uri d);
  QdevID d := "blk_" +:+ UniqueName (uri d);
  Size _ _ := Throw ErrNotImplemented;
  IsLocal _ := false;
  IsAvailable _ _ := Ret true;
  Copy d := {| Path := Path d; uri := uri d |};
|}.
End Iscsi.

Module Nbd.
Record URI := {
  Scheme : string; Authority : string; Host_ : string; Port : Z; ExportName : string;
}.
Record Device := { Path : string; uri : URI }.

#[global] Instance URI_eq_dec : EqDecision URI.
Proof. solve_decision. Defined.
#[global] Instance Device_eq_dec : EqDecision Device.
Proof. solve_decision. Defined.

Definition ParseURI `{Env} (rawuri : string) : outcome URI :=
  u ← call (url_Parse rawuri);
  if bool_decide (url_Scheme u = "nbd" ∨ url_Scheme u = "nbds") then
    hp ← Net.SplitHostPort (url_Host u);
    match Strconv.Atoi hp.2 with
    | Ret i => Ret {| Scheme := url_Scheme u; Authority := url_Host u; Host_ := hp.1;
                      Port := i; ExportName := Filepath.Base (url_Path u) |}
    | _ => Throw (ErrMsg "NBD port should be an integer")
    end
  else Throw (ErrMsg ("unknown NBD scheme: " +:+ rawuri)).

Definition New `{Env} (p : string) : outcome Device :=
  u ← ParseURI p; Ret {| Path := p; uri := u |}.

#[global] Instance Device_backend : DiskBackend Device := {|
  FullPath := Path;
  BaseName d := ExportName (uri d);
  QdevID d := "blk_" +:+ ExportName (uri d);
  Size _ _ := Throw ErrNotImplemented;
  IsLocal _ := false;
  IsAvailable _ _ := Ret true;
  Copy d := {| Path := Path d; uri := uri d |};
|}.
End Nbd.

(** A non-nil value of the interface type; [FirmwareFlash] is
    [FirmwareFlashBackend], which overrides two methods of the backend it
    embeds. *)
Inductive backend :=
  | BlockDevice (d : Block.Device)
  | FileDevice (d : File.Device)
  | IscsiDevice (d : Iscsi.Device)
  | NbdDevice (d : Nbd.Device)
  | FirmwareFlash (b : backend).

#[export] Instance backend_eq_dec : EqDecision backend.
Proof. intros b1 b2. hnf. decide equality; apply (decide (_ = _)). Defined.

(** Dynamic dispatch through the instances. *)
Fixpoint dispatch {A} (f : ∀ D, DiskBackend D → D → A) (b : backend) : A :=
  match b with
  | BlockDevice d => f _ _ d
  | FileDevice d => f _ _ d
  | IscsiDevice d => f _ _ d
  | NbdDevice d => f _ _ d
  | FirmwareFlash b => dispatch f b
  end.

Fixpoint backend_Copy (b : backend) : backend :=
  match b with
  | BlockDevice d => BlockDevice (Copy d)
  | FileDevice d => FileDevice (Copy d)
  | IscsiDevice d => IscsiDevice (Copy d)
  | NbdDevice d => NbdDevice (Copy d)
  | FirmwareFlash b => backend_Copy b
  end.

#[export] Instance backend_backend : DiskBackend backend := {|
  FullPath := dispatch (λ D _, FullPath);
  BaseName b := match b with
                | FirmwareFlash _ => "fwflash"
                | _ => dispatch (λ D _, BaseName) b
                end;
  QdevID b := match b with
              | FirmwareFlash _ => "fwflash"
              | _ => dispatch (λ D _, QdevID) b
              end;
  Size _ := dispatch (λ D _, Size);
  IsLocal := dispatch (λ D _, IsLocal);
  IsAvailable _ := dispatch (λ D _, IsAvailable);
  Copy := backend_Copy;
|}.

Section constructors.
Context `{Env}.
Import Strings.

(** The switch [NewDiskBackend] and [NewCdromBackend] share. *)
Definition remote_or_block (p : string) : outcome backend :=
  if HasPrefix p "iscsi://" then IscsiDevice <$> Iscsi.New p
  else if HasPrefix p "nbd://" then NbdDevice <$> Nbd.New p
  else if HasPrefix p "/dev/" then BlockDevice <$> Block.New p
  else Throw (UnknownBackendError p).

Definition NewDiskBackend (p : string) : outcome backend :=
  remote_or_block (TrimSpace p).

Definition NewCdromBackend (media : string) : outcome backend :=
  remote_or_block media.

Definition NewCloudInitDriveBackend (media : string) : outcome backend :=
  if HasPrefix media "iscsi://" then Throw (UnknownBackendError media)
  else if HasPrefix media "nbd://" then Throw (UnknownBackendError media)
  else if HasPrefix media "/dev/" then BlockDevice <$> Block.New media
  else FileDevice <$> File.New media.

Definition NewFirmwareFlashBackend (p : string) : outcome backend :=
  b ← (if HasPrefix p "/dev/" then BlockDevice <$> Block.New p
       else FileDevice <$> File.New p);
  Ret (FirmwareFlash b).
End constructors.

Module BackendFacts.
Section facts.
Context `{Env}.
Import Strings.

Lemma call_panic {A} (r : sys A) p : call r ≠ Panic p.
Proof. by destruct r. Qed.

Lemma bind_panic {A B} (m : outcome A) (k : A → outcome B) p :
  (∀ q, m ≠ Panic q) → (∀ a q, k a ≠ Panic q) → m ≫= k ≠ Panic p.
Proof. intros Hm Hk. destruct m; [apply Hk|done|]. by destruct (Hm p0). Qed.

Lemma fmap_panic {A B} (f : A → B) (m : outcome A) p :
  (∀ q, m ≠ Panic q) → f <$> m ≠ Panic p.
Proof. intros Hm. destruct m as [| |q]; [done..|]. by destruct (Hm q). Qed.

Lemma ParseURI_iscsi_panic s p : Iscsi.ParseURI s ≠ Panic p.
Proof.
  unfold Iscsi.ParseURI, Iscsi.parse_port, Iscsi.strip_brackets, mbind, outcome_bind.
  intros Hp. repeat (case_match; simplify_eq/=; try discriminate).
Qed.

Lemma remote_or_block_panic s p : remote_or_block s ≠ Panic p.
Proof.
  unfold remote_or_block, Iscsi.New, Nbd.New, Nbd.ParseURI. intros Hp.
  repeat case_match; try done; revert Hp;
    apply fmap_panic; intros q; try done; apply bind_panic; try done.
  - apply ParseURI_iscsi_panic.
  - intros q'. apply bind_panic; [apply call_panic|]. intros u q2.
    case_match; [|done]. apply bind_panic.
    + intros q3. unfold Net.SplitHostPort. intros Hs. repeat (case_match; simplify_eq/=; try discriminate).
    + intros. by repeat case_match.
Qed.

(** A backend remembers the trimmed path it was made from. *)
Lemma remote_or_block_FullPath s b : remote_or_block s = Ret b → FullPath b = s.
Proof.
  unfold remote_or_block, Iscsi.New, Nbd.New, Block.New, mbind, outcome_bind, fmap, outcome_fmap.
  intros Hb. by repeat (case_match; simplify_eq/=).
Qed.

Lemma NewDiskBackend_TrimSpace s : NewDiskBackend (TrimSpace s) = NewDiskBackend s.
Proof. unfold NewDiskBackend. by rewrite GoFacts.TrimSpace_idem. Qed.

Lemma NewDiskBackend_FullPath s b : NewDiskBackend s = Ret b → FullPath b = TrimSpace s.
Proof. apply remote_or_block_FullPath. Qed.

(** [Copy] keeps everything of the backends these constructors make. *)
Definition plain (b : backend) : Prop :=
  match b with FirmwareFlash _ => False | _ => True end.

Lemma remote_or_block_plain s b : remote_or_block s = Ret b → plain b.
Proof.
  unfold remote_or_block, Iscsi.New, Nbd.New, Block.New, mbind, outcome_bind, fmap, outcome_fmap.
  intros Hb. by repeat (case_match; simplify_eq/=).
Qed.

Lemma Copy_plain b : plain b → Copy b = b.
Proof. by destruct b as [[]|[]|[]|[]|]. Qed.

(** Names and paths are told apart by the slash. *)
Lemma HasPrefix_slash s p :
  HasPrefix s p = true → Filepath.slash ∈ to_list p → Filepath.slash ∈ to_list s.
Proof.
  intros (t & ->)%GoFacts.HasPrefix_Some Hp. rewrite GoFacts.to_list_app.
  apply elem_of_app. by left.
Qed.

Lemma NewDiskBackend_slash s b :
  NewDiskBackend s = Ret b → Filepath.slash ∈ to_list s ∧ s ≠ "/".
Proof.
  intros Hb. split.
  - apply GoFacts.TrimSpace_elem. revert Hb. unfold NewDiskBackend, remote_or_block.
    intros Hb. repeat case_match; try done;
      (eapply HasPrefix_slash; [done|by_compute]).
  - intros ->. by vm_compute in Hb.
Qed.

Lemma UniqueName_slash s u :
  Iscsi.ParseURI s = Ret u → Filepath.slash ∉ to_list (Iscsi.UniqueName u).
Proof.
  unfold Iscsi.ParseURI. intros Hu. case_match; [done|].
  destruct (Iscsi.parse_authority _) as [[user pass] rest].
  destruct (Split rest "/") as [|portal [|iqn [|lun [|]]]] eqn:Es; try done.
  assert (Filepath.slash ∉ to_list iqn) as Hi
    by (apply GoFacts.Split_elem with rest; change Filepath.slash with "/"%char; rewrite Es; right; by left).
  unfold mbind, outcome_bind in Hu. repeat (case_match; simplify_eq/=).
  - intros Hin. apply Hi. erewrite (GoFacts.cut_Some iqn) by done.
    rewrite GoFacts.to_list_app. apply elem_of_app. right. by right.
  - apply not_elem_of_nil.
Qed.

Lemma BaseName_slash s b :
  NewDiskBackend s = Ret b → BaseName b = "/" ∨ Filepath.slash ∉ to_list (BaseName b).
Proof.
  unfold NewDiskBackend, remote_or_block, Iscsi.New, Nbd.New, Nbd.ParseURI, Block.New.
  intros Hb. repeat case_match; try done.
  - destruct (Iscsi.ParseURI (TrimSpace s)) as [u| |] eqn:Hu; [|done..].
    injection Hb as <-. right. by apply UniqueName_slash in Hu.
  - unfold fmap, outcome_fmap, mbind, outcome_bind in Hb.
    repeat (case_match; simplify_eq/=). apply GoFacts.Base_slash.
  - injection Hb as <-. apply GoFacts.Base_slash.
Qed.

(** No pool key is a path that has a backend. *)
Lemma BaseName_ne_path s b s' b' :
  NewDiskBackend s = Ret b → NewDiskBackend s' = Ret b' → BaseName b ≠ s'.
Proof.
  intros [H1|H1]%BaseName_slash [H2 H3]%NewDiskBackend_slash; congruence.
Qed.
End facts.
End BackendFacts.

#[global] Arguments FullPath : simpl never.
#[global] Arguments BaseName : simpl never.
#[global] Arguments QdevID : simpl never.
#[global] Arguments Size : simpl never.
#[global] Arguments IsLocal : simpl never.
#[global] Arguments IsAvailable : simpl never.
#[global] Arguments Copy : simpl never.
