(* ===== verification/PciDevice.v ===== *)
(** PciDevice: PCI devices as sysfs describes them, and the names of the PCI ID
    database ([internal/pci/device.go], [internal/pci/init.go],
    [internal/pci/idsdb/db.go]).

    Files of sysfs are read through the [Sysfs] parameter.  [lookup] follows the
    consumer links of a multifunction device.  The source has no bound on that
    recursion; here it runs on fuel, [None] meaning that the fuel ran out, and
    [lookup_terminates] shows that any fuel above the length of the longest
    chain of consumers is enough (the kernel keeps device links acyclic). *)

#[local] Set Warnings "-register-all".

From S2P Require Import Prelude.
From S2P Require Import GoStd.
From S2P Require Import GoFacts.
From S2P Require Import PciAddress.
From S2P Require Import Backend.

Open Scope Z_scope.

Class Sysfs := {
  os_ReadFile : string → sys string;
  (** names in a directory, in order *)
  os_ReadDir : string → sys (list string);
  EvalSymlinks : string → sys string;
}.

(** The PCI ID database. *)
Module IdsDb.
Record Named := { ID : string; Name : string }.
Record Subclass := { subclass : Named; ProgrammingInterfaces : list Named }.
Record Class_ := { class : Named; Subclasses : list Subclass }.
Record Product := { VendorID : string; product : Named }.
Record DB := {
  Classes : option (gmap string Class_);
  Vendors : option (gmap string Named);
  Products : option (gmap string Product);
}.

(** [s[i:j]] *)
Definition slice (i j : nat) (s : string) : string := String.substring i (j - i) s.

(** The receiver may be nil; [len] is tested before it is dereferenced. *)
Definition FindClass (db : option DB) (hexnum : string) : outcome (option Class_) :=
  let hexnum := Strings.TrimPrefix hexnum "0x" in
  if negb (String.length hexnum =? 6)%nat then Ret None
  else match db with
       | None => Panic NilDereference
       | Some db =>
           match Classes db with
           | None => Ret None
           | Some m =>
               match m !! slice 0 2 hexnum with
               | None => Ret None
               | Some c =>
                   let subs := filter (λ s, ID (subclass s) = slice 2 4 hexnum) (Subclasses c) in
                   Ret (Some {| class := class c;
                                Subclasses := map (λ s,
                                  {| subclass := subclass s;
                                     ProgrammingInterfaces :=
                                       filter (λ i, ID i = slice 4 6 hexnum)
                                         (ProgrammingInterfaces s) |}) subs |})
               end
           end
       end.

Definition FindVendor (db : option DB) (hexvendor : string) : outcome (option Named) :=
  let hexvendor := Strings.TrimPrefix hexvendor "0x" in
  if negb (String.length hexvendor =? 4)%nat then Ret None
  else match db with
       | None => Panic NilDereference
       | Some db => Ret (Vendors db ≫= lookup hexvendor)
       end.

Definition FindProduct (db : option DB) (hexvendor hexdevice : string) : outcome (option Product) :=
  let hexvendor := Strings.TrimPrefix hexvendor "0x" in
  let hexdevice := Strings.TrimPrefix hexdevice "0x" in
  if negb (String.length hexvendor =? 4)%nat || negb (String.length hexdevice =? 4)%nat
  then Ret None
  else match db with
       | None => Panic NilDereference
       | Some db => Ret (Products db ≫= lookup (hexvendor +:+ hexdevice))
       end.

(** The package variable after [init], given what [idsdb.Load] returned: the
    stub assigned on an error is overwritten by the nil result. *)
Definition init (loaded : outcome DB) : option DB :=
  let stub := {| Classes := Some ∅; Vendors := Some ∅; Products := Some ∅ |} in
  let db := match loaded with Ret db => Some db | _ => None end in
  let DB := match loaded with Ret _ => None | _ => Some stub end in
  let DB := db in DB.
End IdsDb.

Module PciDevice.
Import Strings.

(** The pointer to the parent device is kept as its address. *)
Inductive Device := MkDevice {
  addr : Pci.Address;
  parent : option Pci.Address;
  subdevices : list Device;
  driver : string;
  enabled : bool;
  classID : Z; vendorID : Z; deviceID : Z;
  className : string; subclassName : string; vendorName : string; deviceName : string;
  multifunction : bool;
}.

Definition FullPath (a : Pci.Address) : string :=
  Filepath.Join ["/sys/bus/pci/devices"; Pci.to_string a].

Definition VendorHex (vendorID : Z) : string := "0x" +:+ Strconv.hex 4 vendorID.
Definition ClassHex (classID : Z) : string := "0x" +:+ Strconv.hex 6 classID.
Definition DeviceHex (deviceID : Z) : string := "0x" +:+ Strconv.hex 4 deviceID.

Definition to_string (d : Device) : string := Pci.to_string (addr d).
Definition HasMultifunctionFeature (d : Device) : bool := multifunction d.
Definition AddrFunction (d : Device) : Z := Pci.Function (addr d).
Definition Subdevices (d : Device) : list Device := subdevices d.

Definition set_parent (p : option Pci.Address) (d : Device) : Device :=
  MkDevice (addr d) p (subdevices d) (driver d) (enabled d) (classID d) (vendorID d)
    (deviceID d) (className d) (subclassName d) (vendorName d) (deviceName d) (multifunction d).

Section sysfs.
Context `{Sysfs} (DB : option IdsDb.DB).

(** One [Read] of at most [count] bytes: at the end of the file, an error. *)
Definition readHeadBytes (dirname fname : string) (count : nat) : outcome (list ascii) :=
  s ← call (os_ReadFile (Filepath.Join [dirname; fname]));
  match take count (to_list s) with
  | [] => Throw (ErrHost "EOF")
  | b => Ret b
  end.

Definition readString (dirname fname : string) : outcome string :=
  TrimSpace <$> call (os_ReadFile (Filepath.Join [dirname; fname])).

Definition readUint (dirname fname : string) (base bits : Z) : outcome Z :=
  s ← readString dirname fname;
  Strconv.ParseUint (TrimPrefix s "0x") base bits.

(** [config[0x0E] & 0x80] *)
Definition header_multifunction (config : list ascii) : outcome bool :=
  match config !! 14%nat with
  | None => Panic IndexOutOfRange
  | Some b => Ret (Z.testbit (Z.of_N (N_of_ascii b)) 7)
  end.

(** The attributes of a device, without its links. *)
Definition attributes (a : Pci.Address) : outcome Device :=
  let dir := FullPath a in
  config ← readHeadBytes dir "config" 64;
  multi ← header_multifunction config;
  en ← readString dir "enable";
  class ← readUint dir "class" 16 32;
  c ← IdsDb.FindClass DB (ClassHex class);
  vendor ← readUint dir "vendor" 16 16;
  v ← IdsDb.FindVendor DB (VendorHex vendor);
  device ← readUint dir "device" 16 16;
  p ← IdsDb.FindProduct DB (VendorHex vendor) (DeviceHex device);
  drv ← match EvalSymlinks (Filepath.Join [dir; "driver"]) with
        | inl s => Ret (Filepath.Base s)
        | inr (ErrNotExist _) => Ret ""
        | inr e => Throw e
        end;
  Ret (MkDevice a None [] drv (bool_decide (en = "1")) class vendor device
    (match c with Some c => IdsDb.Name (IdsDb.class c) | None => "" end)
    (match c with
     | Some c => foldl (λ _ s, IdsDb.Name (IdsDb.subclass s)) "" (IdsDb.Subclasses c)
     | None => ""
     end)
    (match v with Some v => IdsDb.Name v | None => "" end)
    (match p with Some p => IdsDb.Name (IdsDb.product p) | None => "" end)
    multi).

Definition add_sub (d sub : Device) : Device :=
  MkDevice (addr d) (parent d) (subdevices d ++ [sub]) (driver d) (enabled d) (classID d)
    (vendorID d) (deviceID d) (className d) (subclassName d) (vendorName d) (deviceName d)
    (multifunction d).

(** The links [consumer:pci:...] of a directory, as addresses. *)
Definition links (prefix : string) (files : list string) : list string :=
  map (λ f, TrimPrefix f prefix) (filter (λ f, HasPrefix f prefix = true) files).

(** The loop over the consumers: nested devices are taken as they are, others
    looked up with [find]. *)
Fixpoint consumers (find : string → option (outcome Device)) (nested : list Device)
    (hexaddrs : list string) (d : Device) : option (outcome Device) :=
  match hexaddrs with
  | [] => Some (Ret d)
  | hexaddr :: hexaddrs =>
      match filter (λ v, to_string v = hexaddr) nested with
      | [] =>
          match find hexaddr with
          | None => None
          | Some (Ret sub) =>
              consumers find nested hexaddrs (add_sub d (set_parent (Some (addr d)) sub))
          | Some (Throw e) => Some (Throw e)
          | Some (Panic p) => Some (Panic p)
          end
      | found => consumers find nested hexaddrs (foldl add_sub d found)
      end
  end.

(** [None]: out of fuel. *)
Fixpoint lookup (fuel : nat) (hexaddr : string) (nested : list Device) : option (outcome Device) :=
  match fuel with
  | O => None
  | S fuel =>
      match (a ← Pci.AddressFromHex hexaddr; attributes a) with
      | Ret d =>
          if bool_decide (Pci.Function (addr d) = 0) && multifunction d then
            match os_ReadDir (FullPath (addr d)) with
            | inr e => Some (Throw e)
            | inl files =>
                consumers (λ hexaddr, lookup fuel hexaddr []) nested (links "consumer:pci:" files) d
            end
          else Some (Ret d)
      | r => Some r
      end
  end.

(** The parent of a function above 0: the last supplier that can be read. *)
Fixpoint suppliers (fuel : nat) (self : Device) (hexaddrs : list string) (p : option Pci.Address)
    : option (outcome (option Pci.Address)) :=
  match hexaddrs with
  | [] => Some (Ret p)
  | hexaddr :: hexaddrs =>
      match lookup fuel hexaddr [self] with
      | None => None
      | Some (Ret d) => suppliers fuel self hexaddrs (Some (addr d))
      | Some (Throw e) => Some (Throw e)
      | Some (Panic q) => Some (Panic q)
      end
  end.

Definition find_device (fuel : nat) (hexaddr : string) : option (outcome Device) :=
  match lookup fuel hexaddr [] with
  | Some (Ret d) =>
      if 0 <? Pci.Function (addr d) then
        match os_ReadDir (FullPath (addr d)) with
        | inr e => Some (Throw e)
        | inl files =>
            match suppliers fuel d (links "supplier:pci:" files) None with
            | None => None
            | Some (Ret p) => Some (Ret (set_parent p d))
            | Some (Throw e) => Some (Throw e)
            | Some (Panic q) => Some (Panic q)
            end
        end
      else Some (Ret d)
  | r => r
  end.

Definition LookupDevice (fuel : nat) (hexaddr : string) : option (outcome Device) :=
  match find_device fuel hexaddr with
  | Some (Throw (ErrNotExist _)) => Some (Throw (ErrNotFound hexaddr))
  | Some (Throw _) => Some (Throw (ErrMsg ("read error (device: " +:+ hexaddr +:+ ")")))
  | r => r
  end.
End sysfs.
End PciDevice.

(** What the host devices of a machine ask of the PCI bus. *)
Class PciBus := pci_LookupDevice : string → outcome PciDevice.Device.

(** * Lemmas *)

Module PciDeviceFacts.
Section facts.
Context `{Sysfs} (DB : option IdsDb.DB).
Import PciDevice.

(** Device links have no cycle: a consumer ranks below its supplier. *)
Definition acyclic (rank : Pci.Address → nat) : Prop :=
  ∀ a files h b, os_ReadDir (FullPath a) = inl files → h ∈ links "consumer:pci:" files →
    Pci.AddressFromHex h = Ret b → (rank b < rank a)%nat.

Lemma attributes_addr a d : attributes DB a = Ret d → addr d = a ∧ subdevices d = [].
Proof.
  unfold attributes.
  intros (? & _ & (? & _ & (? & _ & (? & _ & (? & _ & (? & _ & (? & _ & (? & _ & (? & _ &
    (? & _ & [= <-])%outcome_bind_Ret)%outcome_bind_Ret)%outcome_bind_Ret)%outcome_bind_Ret
    )%outcome_bind_Ret)%outcome_bind_Ret)%outcome_bind_Ret)%outcome_bind_Ret)%outcome_bind_Ret
    )%outcome_bind_Ret.
  done.
Qed.

Lemma consumers_terminates find nested hs d :
  (∀ h, h ∈ hs → find h ≠ None) → consumers find nested hs d ≠ None.
Proof.
  revert d. induction hs as [|h hs IH]; intros d Hf; [done|].
  assert (∀ d', consumers find nested hs d' ≠ None) as IH'.
  { intros d'. apply IH. intros h' ?. apply Hf. by right. }
  simpl. case_match; [|apply IH'].
  destruct (find h) as [[]|] eqn:E; [apply IH'|done|done|].
  exfalso. eapply (Hf h); [by left|done].
Qed.

(** A chain of consumers is at most as long as the rank of its head. *)
Lemma lookup_fuel rank fuel h nested :
  acyclic rank → (∀ a, Pci.AddressFromHex h = Ret a → (rank a + 1 < fuel)%nat) → (0 < fuel)%nat →
  lookup DB fuel h nested ≠ None.
Proof.
  intros Hrank. revert h nested. induction fuel as [|fuel IH]; [lia|].
  intros h nested Hh _. simpl. destruct (_ ≫= _) as [d|e|p] eqn:E; [|done..].
  apply outcome_bind_Ret in E as (a & Ha & Hd). apply attributes_addr in Hd as [Hd _].
  case_match; [|done]. destruct (os_ReadDir _) as [files|] eqn:Hf; [|done].
  apply consumers_terminates. intros h' Hh'. rewrite Hd in Hf.
  specialize (Hh _ Ha). apply IH; [|lia].
  intros b Hb. specialize (Hrank _ _ _ _ Hf Hh' Hb). lia.
Qed.

Lemma suppliers_terminates rank fuel self hs p :
  acyclic rank → (∀ a, (rank a + 1 < fuel)%nat) → suppliers DB fuel self hs p ≠ None.
Proof.
  intros Hr Hf. revert p. induction hs as [|h hs IH]; intros p; [done|]. simpl.
  destruct (lookup DB fuel h [self]) as [[]|] eqn:E; [apply IH|done|done|].
  exfalso. apply (lookup_fuel rank fuel h [self]); [done|auto| |done].
  specialize (Hf (Pci.Build_Address 0 0 0 0)). lia.
Qed.

(** The subdevices found at a list of links: one per link, in their order,
    each knowing its parent. *)
Definition found_at (d : Device) (h : string) (sub : Device) : Prop :=
  Pci.AddressFromHex h = Ret (addr sub) ∧ parent sub = Some (addr d).

Lemma consumers_cons find h hs d :
  consumers find [] (h :: hs) d =
    match find h with
    | Some (Ret sub) => consumers find [] hs (add_sub d (set_parent (Some (addr d)) sub))
    | r => r
    end.
Proof. simpl. by destruct (find h) as [[]|]. Qed.

Lemma consumers_found fuel hs d d' :
  consumers (λ h, lookup DB fuel h []) [] hs d = Some (Ret d') →
  (∀ h sub, lookup DB fuel h [] = Some (Ret sub) → Pci.AddressFromHex h = Ret (addr sub)) →
  addr d' = addr d ∧ multifunction d' = multifunction d ∧
  ∃ subs, subdevices d' = subdevices d ++ subs ∧ Forall2 (found_at d) hs subs.
Proof.
  intros Hc Hl. revert d Hc. induction hs as [|h hs IH]; intros d Hc.
  { injection Hc as <-. split_and!; [done|done|]. exists []. rewrite app_nil_r. by split. }
  rewrite consumers_cons in Hc.
  destruct (lookup DB fuel h []) as [[sub|e|q]|] eqn:E; [|done..].
  apply IH in Hc as (Ha & Hm & subs & Hs & Hf). split_and!; [done|done|].
  exists (set_parent (Some (addr d)) sub :: subs). split.
  - rewrite Hs. simpl. by rewrite <- (assoc_L (++)).
  - constructor; [|done]. split; [|done]. exact (Hl _ _ E).
Qed.

Lemma lookup_addr fuel h d :
  lookup DB fuel h [] = Some (Ret d) → Pci.AddressFromHex h = Ret (addr d) ∧
  if bool_decide (Pci.Function (addr d) = 0) && multifunction d
  then ∃ files, os_ReadDir (FullPath (addr d)) = inl files ∧
       Forall2 (found_at d) (links "consumer:pci:" files) (subdevices d)
  else subdevices d = [].
Proof.
  revert h d. induction fuel as [|fuel IH]; [done|]. intros h d. simpl.
  destruct (_ ≫= _) as [d0|e|p] eqn:E; [|done..].
  apply outcome_bind_Ret in E as (a & Ha & Hd). apply attributes_addr in Hd as [Hd Hs].
  destruct (_ && _) eqn:Hm.
  - destruct (os_ReadDir _) as [files|] eqn:Hf; [|done]. intros Hc.
    apply consumers_found in Hc as (Ha' & Hm' & subs & Hsub & HF); [|naive_solver].
    rewrite Ha', Hm', Hm, Hd. split; [done|]. exists files. rewrite <- Hd. split; [done|].
    rewrite Hsub, Hs. simpl. eapply Forall2_impl; [done|]. intros ?? [? Hp]. split; [done|].
    by rewrite Hp, Ha'.
  - intros [= <-]. rewrite Hm, Hd. by split.
Qed.

(** More fuel does not change a result. *)
Lemma consumers_mono (find find' : string → option (outcome Device)) nested hs d r :
  (∀ h r, find h = Some r → find' h = Some r) →
  consumers find nested hs d = Some r → consumers find' nested hs d = Some r.
Proof.
  intros Hf. revert d. induction hs as [|h hs IH]; intros d; [done|]. simpl.
  case_match; [|apply IH]. destruct (find h) as [x|] eqn:E; [|done].
  rewrite (Hf _ _ E). destruct x; [apply IH|done|done].
Qed.

Lemma lookup_S fuel h nested r :
  lookup DB fuel h nested = Some r → lookup DB (S fuel) h nested = Some r.
Proof.
  revert h nested r. induction fuel as [|fuel IH]; [done|]. intros h nested r.
  rewrite (eq_refl : lookup DB (S (S fuel)) h nested = match (a ← Pci.AddressFromHex h; attributes DB a) with
    | Ret d => if bool_decide (Pci.Function (addr d) = 0) && multifunction d then
        match os_ReadDir (FullPath (addr d)) with
        | inr e => Some (Throw e)
        | inl files => consumers (λ h, lookup DB (S fuel) h []) nested (links "consumer:pci:" files) d
        end else Some (Ret d)
    | r => Some r end).
  cbn [lookup]. destruct (_ ≫= _); [|done..]. case_match; [|done].
  destruct (os_ReadDir _); [|done]. apply consumers_mono. intros ??. apply IH.
Qed.

Lemma lookup_mono fuel fuel' h nested r :
  (fuel ≤ fuel')%nat → lookup DB fuel h nested = Some r → lookup DB fuel' h nested = Some r.
Proof. induction 1; [done|]. intros. apply lookup_S. auto. Qed.

Lemma suppliers_mono fuel fuel' self hs p r :
  (fuel ≤ fuel')%nat → suppliers DB fuel self hs p = Some r →
  suppliers DB fuel' self hs p = Some r.
Proof.
  intros Hf. revert p. induction hs as [|h hs IH]; intros p; [done|]. simpl.
  destruct (lookup DB fuel h [self]) as [x|] eqn:E; [|done].
  rewrite (lookup_mono _ _ _ _ _ Hf E). destruct x; [apply IH|done|done].
Qed.

Lemma find_device_mono fuel fuel' h r :
  (fuel ≤ fuel')%nat → find_device DB fuel h = Some r → find_device DB fuel' h = Some r.
Proof.
  intros Hf. unfold find_device. destruct (lookup DB fuel h []) as [x|] eqn:E; [|done].
  rewrite (lookup_mono _ _ _ _ _ Hf E). destruct x; [|done..]. case_match; [|done].
  destruct (os_ReadDir _); [|done].
  destruct (suppliers DB fuel _ _ _) as [y|] eqn:E'; [|done].
  by rewrite (suppliers_mono _ _ _ _ _ _ Hf E').
Qed.

Lemma find_device_fuel rank fuel h :
  acyclic rank → (∀ a, (rank a + 1 < fuel)%nat) → find_device DB fuel h ≠ None.
Proof.
  intros Hr Hf. unfold find_device.
  assert (lookup DB fuel h [] ≠ None) as Hl.
  { eapply lookup_fuel; [done|auto|]. specialize (Hf (Pci.Build_Address 0 0 0 0)). lia. }
  destruct (lookup DB fuel h []) as [[d|e|p]|]; [|done..]. case_match; [|done].
  destruct (os_ReadDir _); [|done].
  destruct (suppliers DB fuel _ _ _) as [[]|] eqn:E; [done..|].
  by apply suppliers_terminates with (rank := rank) in E.
Qed.

Lemma readHeadBytes_config a config :
  os_ReadFile (Filepath.Join [FullPath a; "config"]) = inl config →
  (0 < String.length config)%nat →
  readHeadBytes (FullPath a) "config" 64 = Ret (take 64 (to_list config)).
Proof.
  intros Hc Hl. unfold readHeadBytes. rewrite Hc. simpl. rewrite length_to_list in Hl.
  destruct (to_list config); [simpl in Hl; lia|done].
Qed.

Lemma header_config config :
  (14 < String.length config)%nat →
  ∃ m, header_multifunction (take 64 (to_list config)) = Ret m.
Proof.
  intros Hl. rewrite length_to_list in Hl. unfold header_multifunction.
  destruct (_ !! 14%nat) eqn:E; [by eexists|]. apply lookup_ge_None in E.
  rewrite length_take in E. lia.
Qed.

Lemma FindClass_nil n :
  0 ≤ n < 2 ^ 24 → IdsDb.FindClass None (ClassHex n) = Panic NilDereference.
Proof.
  intros Hn. unfold IdsDb.FindClass, ClassHex. rewrite TrimPrefix_app.
  rewrite (hex_length 5); [done|]. simpl. lia.
Qed.
End facts.
End PciDeviceFacts.

(** * Theorems *)

(** A host with a graphics card of two functions. *)
Module PciSample.
Definition dir (a : string) : string := "/sys/bus/pci/devices/" +:+ a.
Definition header (multi : bool) : string :=
  of_list (repeat (char 0) 14 ++ [char (if multi then 128 else 0)] ++ repeat (char 0) 49).

Definition files : gmap string string := list_to_map
  (concat (map (λ '(a, h, v, c), [(dir a +:+ "/config", h); (dir a +:+ "/enable", "1" +:+ bytes [10%N]);
     (dir a +:+ "/class", c); (dir a +:+ "/vendor", "0x10de"); (dir a +:+ "/device", v)])
   [("0000:01:00.0", header true, "0x1b80", "0x030000");
    ("0000:01:00.1", header true, "0x10f0", "0x040300");
    ("0000:02:00.0", header false, "0x1533", "0x020000")])).

Definition dirs : gmap string (list string) := list_to_map
  [(dir "0000:01:00.0", ["class"; "config"; "consumer:pci:0000:01:00.1"]);
   (dir "0000:01:00.1", ["class"; "config"; "supplier:pci:0000:01:00.0"])].

#[export] Instance sysfs : Sysfs := {
  os_ReadFile f := match files !! f with Some s => inl s | None => inr (ErrNotExist f) end;
  os_ReadDir d := match dirs !! d with Some l => inl l | None => inr (ErrNotExist d) end;
  EvalSymlinks f :=
    if bool_decide (f = dir "0000:01:00.0/driver") then inl "/sys/bus/pci/drivers/vfio-pci"
    else inr (ErrNotExist f);
}.

Definition DB : IdsDb.DB := {|
  IdsDb.Classes := Some {[ "03" := {| IdsDb.class := {| IdsDb.ID := "03"; IdsDb.Name := "Display controller" |};
    IdsDb.Subclasses := [{| IdsDb.subclass := {| IdsDb.ID := "00"; IdsDb.Name := "VGA compatible controller" |};
      IdsDb.ProgrammingInterfaces := [] |}] |} ]};
  IdsDb.Vendors := Some {[ "10de" := {| IdsDb.ID := "10de"; IdsDb.Name := "NVIDIA Corporation" |} ]};
  IdsDb.Products := Some ∅;
|}.

(** The longest chain of consumers has one link. *)
Definition rank (a : Pci.Address) : nat :=
  if bool_decide (PciDevice.FullPath a = dir "0000:01:00.0") then 1 else 0.
End PciSample.

Section theorems.
Context `{Sysfs} (DB : option IdsDb.DB).
Import PciDeviceFacts.

(** looking a device up ends, with a result that does not depend on how
    much fuel the model is given, whenever device links have no cycle and
    their chains are of bounded length. *)
Theorem LookupDevice_terminates (rank : Pci.Address → nat) (n : nat) (hexaddr : string) :
  acyclic rank → (∀ a, (rank a ≤ n)%nat) →
  ∃ r, ∀ fuel, (n + 2 ≤ fuel)%nat → PciDevice.LookupDevice DB fuel hexaddr = Some r.
Proof.
  intros Hr Hn. unfold PciDevice.LookupDevice.
  assert (PciDevice.find_device DB (n + 2) hexaddr ≠ None) as Hf.
  { apply find_device_fuel with (rank := rank); [done|]. intros a. specialize (Hn a). lia. }
  destruct (PciDevice.find_device DB (n + 2) hexaddr) as [r|] eqn:E; [|done].
  destruct r as [|[]|]; (eexists; intros fuel Hfuel;
    by rewrite (find_device_mono _ _ _ _ _ Hfuel E)).
Qed.

(** a device found by its address, in any notation, has that address; the
    subdevices of a multifunction function 0 are its PCI consumers, in the
    order of the directory and with the device as parent, and other devices
    have none. *)
Theorem LookupDevice_device fuel hexaddr d :
  PciDevice.LookupDevice DB fuel hexaddr = Some (Ret d) →
  Pci.AddressFromHex hexaddr = Ret (PciDevice.addr d) ∧
  if bool_decide (Pci.Function (PciDevice.addr d) = 0) && PciDevice.multifunction d
  then ∃ files, os_ReadDir (PciDevice.FullPath (PciDevice.addr d)) = inl files ∧
       Forall2 (λ h sub, Pci.AddressFromHex h = Ret (PciDevice.addr sub) ∧ PciDevice.parent sub = Some (PciDevice.addr d))
         (PciDevice.links "consumer:pci:" files) (PciDevice.subdevices d)
  else PciDevice.subdevices d = [].
Proof.
  unfold PciDevice.LookupDevice. destruct (PciDevice.find_device DB fuel hexaddr) as [r|] eqn:E; [|done].
  destruct r as [d'|[]|]; intros Hd; simplify_eq. revert E. unfold PciDevice.find_device.
  destruct (PciDevice.lookup DB fuel hexaddr []) as [[d0|e|p]|] eqn:El; [|done..].
  apply lookup_addr in El. destruct (Z.ltb_spec 0 (Pci.Function (PciDevice.addr d0))) as [Hfn|Hfn].
  - destruct (os_ReadDir _); [|done]. destruct (PciDevice.suppliers _ _ _ _ _) as [[]|]; intros; simplify_eq.
    destruct El as [Ha Hs]. split; [exact Ha|].
    rewrite bool_decide_false in Hs by lia. rewrite bool_decide_false by (simpl; lia). exact Hs.
  - intros [= ->]. done.
Qed.

(** when the ID database cannot be loaded, [init] leaves a nil pointer in
    place of the stub it has just made, and looking up any device whose
    attributes can be read panics. *)
Theorem init_error_panics fuel e hexaddr a config en class n :
  Pci.AddressFromHex hexaddr = Ret a →
  os_ReadFile (Filepath.Join [PciDevice.FullPath a; "config"]) = inl config →
  (14 < String.length config)%nat →
  os_ReadFile (Filepath.Join [PciDevice.FullPath a; "enable"]) = inl en →
  os_ReadFile (Filepath.Join [PciDevice.FullPath a; "class"]) = inl class →
  Strconv.ParseUint (Strings.TrimPrefix (Strings.TrimSpace class) "0x") 16 32 = Ret n →
  n < 2 ^ 24 →
  PciDevice.LookupDevice (IdsDb.init (Throw e)) (S fuel) hexaddr = Some (Panic NilDereference).
Proof.
  intros Ha Hc Hl He Hcl Hn Hn24. unfold PciDevice.LookupDevice, PciDevice.find_device. simpl.
  rewrite Ha. simpl. unfold PciDevice.attributes.
  rewrite (readHeadBytes_config _ _ Hc ltac:(lia)). simpl.
  destruct (header_config _ Hl) as [m ->]. simpl.
  unfold PciDevice.readUint, PciDevice.readString. rewrite He, Hcl. simpl. rewrite Hn. simpl.
  rewrite FindClass_nil; [done|]. split; [|exact Hn24].
  apply Pci.ParseUint_range in Hn. apply Hn.
Qed.

(** a device whose [config] file has fewer than 15 bytes makes the lookup
    panic. *)
Theorem short_config_panics fuel hexaddr a config :
  Pci.AddressFromHex hexaddr = Ret a →
  os_ReadFile (Filepath.Join [PciDevice.FullPath a; "config"]) = inl config →
  (0 < String.length config < 15)%nat →
  PciDevice.LookupDevice DB (S fuel) hexaddr = Some (Panic IndexOutOfRange).
Proof.
  intros Ha Hc Hl. unfold PciDevice.LookupDevice, PciDevice.find_device. simpl.
  rewrite Ha. simpl. unfold PciDevice.attributes.
  rewrite (readHeadBytes_config _ _ Hc ltac:(lia)). simpl.
  unfold PciDevice.header_multifunction. rewrite length_to_list in Hl.
  rewrite lookup_ge_None_2; [done|]. rewrite length_take. lia.
Qed.
End theorems.

Section witnesses.
Import PciSample.

Example LookupDevice_1 :
  fmap (M := option) (fmap (M := outcome) (λ d, (PciDevice.className d, PciDevice.subclassName d, PciDevice.vendorName d, PciDevice.driver d,
         PciDevice.enabled d, map PciDevice.to_string (PciDevice.subdevices d))))
    (PciDevice.LookupDevice (Some DB) 3 "01:00.0")
  = Some (Ret ("Display controller", "VGA compatible controller", "NVIDIA Corporation", "vfio-pci", true,
         ["0000:01:00.1"])).
Proof. vm_compute. reflexivity. Qed.
Example LookupDevice_2 :
  map (λ a, PciDevice.LookupDevice (Some DB) 3 a) ["0000:07:00.0"; "07"] =
  [Some (Throw (ErrNotFound "0000:07:00.0")); Some (Throw (ErrMsg "read error (device: 07)"))].
Proof. vm_compute. reflexivity. Qed.

Lemma sample_acyclic : PciDeviceFacts.acyclic rank.
Proof.
  intros a files h b Hd Hh Hb. simpl in Hd.
  destruct (dirs !! _) as [l|] eqn:E; [|done]. injection Hd as ->.
  apply elem_of_list_to_map_2 in E.
  apply elem_of_cons in E as [E|[E|[]%elem_of_nil]%elem_of_cons];
    pose proof (f_equal fst E : PciDevice.FullPath a = _) as Ha;
    pose proof (f_equal snd E : files = _) as ->.
  - vm_compute in Hh. apply elem_of_cons in Hh as [->|[]%elem_of_nil].
    injection Hb as <-. unfold rank. rewrite Ha. vm_compute. lia.
  - vm_compute in Hh. by apply elem_of_nil in Hh.
Qed.

Example LookupDevice_terminates_witness :
  ∃ r, ∀ fuel, (3 ≤ fuel)%nat → PciDevice.LookupDevice (Some DB) fuel "01:00.0" = Some r.
Proof.
  apply (LookupDevice_terminates (Some DB) rank 1 "01:00.0" sample_acyclic).
  intros a. unfold rank. case_bool_decide; lia.
Defined.

Example LookupDevice_device_witness :
  ∃ d, PciDevice.LookupDevice (Some DB) 3 "01:00.0" = Some (Ret d) ∧
       Pci.AddressFromHex "01:00.0" = Ret (PciDevice.addr d).
Proof.
  assert (is_Some (PciDevice.LookupDevice (Some DB) 3 "01:00.0" ≫= λ r,
            match r with Ret d => Some d | _ => None end)) as [d Hd] by (vm_compute; by eexists).
  assert (PciDevice.LookupDevice (Some DB) 3 "01:00.0" = Some (Ret d)) as Hl.
  { destruct (PciDevice.LookupDevice (Some DB) 3 "01:00.0") as [[]|]; simpl in Hd; congruence. }
  exists d. split; [exact Hl|]. apply (LookupDevice_device _ _ _ _ Hl).
Defined.

Example short_config_panics_witness :
  @PciDevice.LookupDevice {| os_ReadFile _ := inl "short"; os_ReadDir _ := inl []; EvalSymlinks p := inr (ErrNotExist p) |}
    (Some DB) 1 "01:00.0" = Some (Panic IndexOutOfRange).
Proof. eapply short_config_panics; [reflexivity|reflexivity|simpl; lia]. Defined.

Example init_error_panics_witness :
  PciDevice.LookupDevice (IdsDb.init (Throw (ErrHost "failed to parse"))) 1 "01:00.0" = Some (Panic NilDereference).
Proof.
  apply (init_error_panics 0 _ "01:00.0" (Pci.Build_Address 0 1 0 0) (header true)
           ("1" +:+ bytes [10%N]) "0x030000" 196608);
    [vm_compute; reflexivity|vm_compute; reflexivity|apply Nat.ltb_lt; vm_compute; reflexivity
    |vm_compute; reflexivity|vm_compute; reflexivity|vm_compute; reflexivity|lia].
Defined.
End witnesses.
