(* ===== verification/Resources.v ===== *)
(** Resources: guest memory, virtual CPUs, external kernel and machine type
    ([kvmrun/resources.go], [kvmrun/external_kernel.go],
    [kvmrun/machine_type.go]).  Integers are Go [int]s; none of these methods
    computes a value that could leave the 64-bit range. *)

From S2P Require Import Prelude.
From S2P Require Import GoStd.
From S2P Require Import GoFacts.
From S2P Require Import Backend.

Open Scope Z_scope.

Module Memory.
Record t := { Actual : Z; Total : Z }.
#[global] Instance t_eq_dec : EqDecision t.
Proof. solve_decision. Defined.

Definition set_Actual (v : Z) (m : t) : t := {| Actual := v; Total := Total m |}.
Definition set_Total (v : Z) (m : t) : t := {| Actual := Actual m; Total := v |}.

Definition Validate : op t () :=
  m ← get;
  fail_if ((Actual m <? 0) || (Total m <? 0))
    (ErrMsg "invalid memory value: cannot be less than 0");;
  fail_if (Total m <? Actual m)
    (ErrMsg "invalid memory value: total cannot be less than actual").

Definition Copy (m : t) : t := {| Actual := Actual m; Total := Total m |}.

Definition SetActual (value : Z) : op t () :=
  fail_if (value <? 1) (ErrMsg "invalid memory size: cannot be less than 1");;
  m ← get;
  fail_if (Total m <? value)
    (ErrMsg ("invalid actual memory: cannot be large than total memory ("
             +:+ Strconv.Itoa (Total m) +:+ ")"));;
  modify (set_Actual value).

Definition SetTotal (value : Z) : op t () :=
  fail_if (value <? 1) (ErrMsg "invalid memory size: cannot be less than 1");;
  m ← get;
  fail_if (value <? Actual m)
    (ErrMsg ("invalid total memory: cannot be less than actual memory ("
             +:+ Strconv.Itoa (Actual m) +:+ ")"));;
  modify (set_Total value).

Definition wf (m : t) : Prop := 1 ≤ Actual m ≤ Total m.
End Memory.

Module VirtCPU.
Record t := { Actual : Z; Total : Z; Sockets : Z; Quota : Z; Model : string }.
#[global] Instance t_eq_dec : EqDecision t.
Proof. solve_decision. Defined.

Definition set_Actual (v : Z) (c : t) : t :=
  {| Actual := v; Total := Total c; Sockets := Sockets c; Quota := Quota c; Model := Model c |}.
Definition set_Total (v : Z) (c : t) : t :=
  {| Actual := Actual c; Total := v; Sockets := Sockets c; Quota := Quota c; Model := Model c |}.
Definition set_Sockets (v : Z) (c : t) : t :=
  {| Actual := Actual c; Total := Total c; Sockets := v; Quota := Quota c; Model := Model c |}.
Definition set_Quota (v : Z) (c : t) : t :=
  {| Actual := Actual c; Total := Total c; Sockets := Sockets c; Quota := v; Model := Model c |}.
Definition set_Model (v : string) (c : t) : t :=
  {| Actual := Actual c; Total := Total c; Sockets := Sockets c; Quota := Quota c; Model := v |}.

Definition Validate : op t () :=
  v ← get;
  fail_if ((Actual v <? 0) || (Total v <? 0))
    (ErrMsg "invalid vCPU value: cannot be less than 0");;
  fail_if (Total v <? Actual v)
    (ErrMsg "invalid vCPU value: total cannot be less than actual");;
  fail_if (Sockets v <? 0)
    (ErrMsg "invalid vCPU socket count value: cannot be less than 0");;
  fail_if (Quota v <? 0)
    (ErrMsg "invalid vCPU quota value: cannot be less than 0");;
  modify (set_Model (Strings.TrimSpace (Model v))).

Definition Copy (v : t) : t :=
  {| Actual := Actual v; Total := Total v; Sockets := Sockets v; Quota := Quota v;
     Model := Model v |}.

Definition SetActual (value : Z) : op t () :=
  fail_if (value <? 1) (ErrMsg "invalid cpu count: cannot be less than 1");;
  v ← get;
  fail_if (Total v <? value)
    (ErrMsg ("invalid actual cpu: cannot be large than total cpu ("
             +:+ Strconv.Itoa (Total v) +:+ ")"));;
  modify (set_Actual value).

Definition SetTotal (value : Z) : op t () :=
  fail_if (value <? 1) (ErrMsg "invalid cpu count: cannot be less than 1");;
  v ← get;
  fail_if (value <? Actual v)
    (ErrMsg ("invalid total cpu: cannot be less than actual cpu ("
             +:+ Strconv.Itoa (Actual v) +:+ ")"));;
  modify (set_Total value).

(** Go's [a % b] truncates towards zero and panics on [b = 0]. *)
Definition rem (a b : Z) : outcome Z :=
  if b =? 0 then Panic DivideByZero else Ret (Z.rem a b).

Definition SetSockets (value : Z) : op t () :=
  fail_if (value <? 0)
    (ErrMsg "invalid number of processor sockets: cannot be less than 0");;
  v ← get;
  r ← lift (rem (Total v) value);
  fail_if (negb (r =? 0))
    (ErrMsg ("invalid number of processor sockets: total cpu count must be multiple of "
             +:+ Strconv.Itoa value));;
  modify (set_Sockets value).

Definition SetModel (value : string) : op t () :=
  modify (set_Model (Strings.TrimSpace value)).

Definition SetQuota (value : Z) : op t () :=
  fail_if (value <? 5)
    (ErrMsg "invalid number of cpu quota: cannot be less than 5");;
  modify (set_Quota value).

(** What the setters maintain; a quota of 0 means no quota. *)
Definition wf (v : t) : Prop :=
  1 ≤ Actual v ≤ Total v ∧ 0 ≤ Sockets v ∧ (Quota v = 0 ∨ 5 ≤ Quota v) ∧
  Strings.TrimSpace (Model v) = Model v.
End VirtCPU.

Module ExtKernel.
Record t := { Image : string; Cmdline : string; Initrd : string; Modiso : string }.
#[global] Instance t_eq_dec : EqDecision t.
Proof. solve_decision. Defined.

Definition zero : t := {| Image := ""; Cmdline := ""; Initrd := ""; Modiso := "" |}.

Definition set_Image (v : string) (k : t) : t :=
  {| Image := v; Cmdline := Cmdline k; Initrd := Initrd k; Modiso := Modiso k |}.
Definition set_Cmdline (v : string) (k : t) : t :=
  {| Image := Image k; Cmdline := v; Initrd := Initrd k; Modiso := Modiso k |}.
Definition set_Initrd (v : string) (k : t) : t :=
  {| Image := Image k; Cmdline := Cmdline k; Initrd := v; Modiso := Modiso k |}.
Definition set_Modiso (v : string) (k : t) : t :=
  {| Image := Image k; Cmdline := Cmdline k; Initrd := Initrd k; Modiso := v |}.

Definition normalize (k : t) : t :=
  {| Image := Strings.TrimSpace (Image k); Cmdline := Strings.TrimSpace (Cmdline k);
     Initrd := Strings.TrimSpace (Initrd k); Modiso := Strings.TrimSpace (Modiso k) |}.

(** The loop over the file names. *)
Definition check_files `{Host} : list string → outcome () :=
  fix go (fnames : list string) : outcome () :=
    match fnames with
    | [] => Ret ()
    | fname :: fnames =>
        _ ← (if bool_decide (fname = "") then Ret () else check_file fname fname);
        go fnames
    end.

Definition Validate `{Host} (strict : bool) : op t () :=
  modify normalize;;
  k ← get;
  fail_if (bool_decide (Image k = "")) (ErrMsg "empty kernel image path");;
  lift (if strict then check_files [Image k; Initrd k; Modiso k] else Ret ()).

Definition NewExtKernel `{Host} (image cmdline initrd modiso : string) : outcome t :=
  (locally (Validate false)
     {| Image := image; Cmdline := cmdline; Initrd := initrd; Modiso := modiso |} ()).1.

Definition Copy (k : t) : t :=
  {| Image := Image k; Cmdline := Cmdline k; Initrd := Initrd k; Modiso := Modiso k |}.

Definition SetImage (value : string) : op t () := modify (set_Image (Strings.TrimSpace value)).
Definition SetCmdline (value : string) : op t () :=
  modify (set_Cmdline (Strings.TrimSpace value)).
Definition SetInitrd (value : string) : op t () :=
  modify (set_Initrd (Strings.TrimSpace value)).
Definition SetModiso (value : string) : op t () :=
  modify (set_Modiso (Strings.TrimSpace value)).
Definition Reset : op t () :=
  modify (set_Image "");; modify (set_Cmdline "");;
  modify (set_Initrd "");; modify (set_Modiso "").

Definition wf (k : t) : Prop := normalize k = k.
End ExtKernel.

Inductive QemuChipset :=
  QEMU_CHIPSET_UNKNOWN | QEMU_CHIPSET_I440FX | QEMU_CHIPSET_Q35 | QEMU_CHIPSET_MICROVM.
#[export] Instance QemuChipset_eq_dec : EqDecision QemuChipset.
Proof. solve_decision. Defined.

Module MachineType.
Record t := { name : string; Chipset : QemuChipset }.
#[global] Instance t_eq_dec : EqDecision t.
Proof. solve_decision. Defined.

Definition ParseMachineType (typename : string) : outcome t :=
  let chipset :=
    match Strings.Split typename "-" with
    | [_; c; _] => c
    | [c] => c
    | _ => ""
    end in
  let eq s := bool_decide (chipset = s) in
  if eq "" || eq "pc" || eq "i440fx" then Ret {| name := typename; Chipset := QEMU_CHIPSET_I440FX |}
  else if eq "q35" then Ret {| name := typename; Chipset := QEMU_CHIPSET_Q35 |}
  else if eq "microvm" then Ret {| name := typename; Chipset := QEMU_CHIPSET_MICROVM |}
  else Throw (ErrMsg ("unsupported machine type: " +:+ typename)).

Definition to_string (m : t) : string := name m.
End MachineType.

(** * Lemmas *)

Module MemoryFacts.
Import Memory.

Lemma atomic_Memory_SetActual v : atomic (SetActual v).
Proof. unfold SetActual. go_atomic. Qed.
Lemma atomic_Memory_SetTotal v : atomic (SetTotal v).
Proof. unfold SetTotal. go_atomic. Qed.

Lemma preserves_Memory_SetActual v : preserves wf (SetActual v).
Proof. intros m Hm. unfold wf, SetActual in *. go_run; lia. Qed.
Lemma preserves_Memory_SetTotal v : preserves wf (SetTotal v).
Proof. intros m Hm. unfold wf, SetTotal in *. go_run; lia. Qed.

Lemma Memory_SetActual_run v m :
  wf m →
  is_ret (SetActual v m).1 = bool_decide (1 ≤ v ≤ Total m) ∧
  (is_ret (SetActual v m).1 = true → (SetActual v m).2 = set_Actual v m).
Proof. intros Hm. unfold wf, SetActual in *. go_run; (split; [|done]); symmetry;
  rewrite ?bool_decide_eq_true, ?bool_decide_eq_false; lia. Qed.

Lemma Memory_SetTotal_run v m :
  wf m →
  is_ret (SetTotal v m).1 = bool_decide (Actual m ≤ v) ∧
  (is_ret (SetTotal v m).1 = true → (SetTotal v m).2 = set_Total v m).
Proof. intros Hm. unfold wf, SetTotal in *. go_run; (split; [|done]); symmetry;
  rewrite ?bool_decide_eq_true, ?bool_decide_eq_false; lia. Qed.
End MemoryFacts.

Module VirtCPUFacts.
Import VirtCPU.

Lemma atomic_CPU_SetActual v : atomic (SetActual v).
Proof. unfold SetActual. go_atomic. Qed.
Lemma atomic_CPU_SetTotal v : atomic (SetTotal v).
Proof. unfold SetTotal. go_atomic. Qed.
Lemma atomic_SetSockets v : atomic (SetSockets v).
Proof. unfold SetSockets. go_atomic. Qed.
Lemma atomic_SetQuota v : atomic (SetQuota v).
Proof. unfold SetQuota. go_atomic. Qed.
Lemma atomic_SetModel v : atomic (SetModel v).
Proof. unfold SetModel. go_atomic. Qed.

Lemma preserves_CPU_SetActual v : preserves wf (SetActual v).
Proof. intros c Hc. unfold wf, SetActual in *. go_run; naive_solver lia. Qed.
Lemma preserves_CPU_SetTotal v : preserves wf (SetTotal v).
Proof. intros c Hc. unfold wf, SetTotal in *. go_run; naive_solver lia. Qed.
Lemma preserves_SetSockets v : preserves wf (SetSockets v).
Proof. intros c Hc. unfold wf, SetSockets, rem in *. go_run; naive_solver lia. Qed.
Lemma preserves_SetQuota v : preserves wf (SetQuota v).
Proof. intros c Hc. unfold wf, SetQuota in *. go_run; naive_solver lia. Qed.
Lemma preserves_SetModel v : preserves wf (SetModel v).
Proof.
  intros c Hc. unfold wf, SetModel in *. go_run. cbn.
  rewrite GoFacts.TrimSpace_idem. naive_solver.
Qed.

Lemma SetSockets_run v c :
  (SetSockets v c).1 =
    if v <? 0 then
      Throw (ErrMsg "invalid number of processor sockets: cannot be less than 0")
    else if v =? 0 then Panic DivideByZero
    else if Z.rem (Total c) v =? 0 then Ret ()
    else Throw (ErrMsg ("invalid number of processor sockets: total cpu count must be multiple of "
             +:+ Strconv.Itoa v)).
Proof. unfold SetSockets, rem. by go_run. Qed.

Lemma CPU_SetActual_panic v c p : (SetActual v c).1 ≠ Panic p.
Proof. unfold SetActual. by go_run. Qed.
Lemma CPU_SetTotal_panic v c p : (SetTotal v c).1 ≠ Panic p.
Proof. unfold SetTotal. by go_run. Qed.
Lemma SetQuota_panic v c p : (SetQuota v c).1 ≠ Panic p.
Proof. unfold SetQuota. by go_run. Qed.
End VirtCPUFacts.

Module ExtKernelFacts.
Import ExtKernel.

Lemma kernel_wf_zero : wf zero.
Proof. done. Qed.

Lemma normalize_idem k : normalize (normalize k) = normalize k.
Proof. unfold normalize. simpl. by rewrite !GoFacts.TrimSpace_idem. Qed.

Ltac kernel_setter :=
  apply preserves_modify; intros [????]; unfold wf, normalize; simpl; intros [= ????];
  rewrite GoFacts.TrimSpace_idem; unfold set_Image, set_Cmdline, set_Initrd, set_Modiso;
  simpl; congruence.

Lemma preserves_Kernel_SetImage v : preserves wf (SetImage v).
Proof. kernel_setter. Qed.
Lemma preserves_SetCmdline v : preserves wf (SetCmdline v).
Proof. kernel_setter. Qed.
Lemma preserves_SetInitrd v : preserves wf (SetInitrd v).
Proof. kernel_setter. Qed.
Lemma preserves_SetModiso v : preserves wf (SetModiso v).
Proof. kernel_setter. Qed.

Lemma Reset_run k : Reset k = (Ret (), zero).
Proof. done. Qed.
Lemma preserves_Reset : preserves wf Reset.
Proof. intros k Hk. by rewrite Reset_run. Qed.
End ExtKernelFacts.

Module MachineTypeFacts.
Import MachineType.

(** The parsed type keeps the name it was given. *)
Lemma ParseMachineType_name s m : ParseMachineType s = Ret m → name m = s ∧ Chipset m ≠ QEMU_CHIPSET_UNKNOWN.
Proof. unfold ParseMachineType. simpl. intros H. repeat (case_match; simplify_eq/=); done. Qed.

Lemma ParseMachineType_panic s p : ParseMachineType s ≠ Panic p.
Proof. unfold ParseMachineType. simpl. repeat case_match; done. Qed.
End MachineTypeFacts.

#[export] Hint Resolve MemoryFacts.preserves_Memory_SetActual MemoryFacts.preserves_Memory_SetTotal
  VirtCPUFacts.preserves_CPU_SetActual VirtCPUFacts.preserves_CPU_SetTotal
  VirtCPUFacts.preserves_SetSockets VirtCPUFacts.preserves_SetQuota
  VirtCPUFacts.preserves_SetModel ExtKernelFacts.preserves_Kernel_SetImage
  ExtKernelFacts.preserves_SetCmdline ExtKernelFacts.preserves_SetInitrd
  ExtKernelFacts.preserves_SetModiso ExtKernelFacts.preserves_Reset : golang.
