(* ===== verification/Drivers.v ===== *)
(** Drivers: the driver enumerations of disks, cdroms, network interfaces and
    the cloud-init drive ([disks.go], [cdroms.go], [network.go],
    [cloudinit.go]) behind one interface, and the validation of the driver
    field that every property record repeats. *)

From S2P Require Import Prelude.
From S2P Require Import GoStd.
From S2P Require Import GoFacts.

(** What a driver enumeration offers.  [DriverType_UNKNOWN] is the value 0 of
    the underlying integer type. *)
Class DriverType (D : Type) := {
  DriverType_UNKNOWN : D;
  driver_String : D → string;
  HotPluggable : D → bool;
  DriverTypeValue : string → D;
  DefaultDriver : D;
}.

(** The contract its clients rely on: names determine drivers, the default is
    a driver, and a name is recognised whatever its case. *)
Class DriverTypeLaws (D : Type) `{DriverType D} := {
  driver_eq_dec :: EqDecision D;
  DriverTypeValue_String : ∀ d : D, DriverTypeValue (driver_String d) = d;
  DriverTypeValue_lower :
    ∀ s, (DriverTypeValue s : D) ≠ DriverType_UNKNOWN →
         driver_String (DriverTypeValue s : D) = Strings.ToLower s;
  DefaultDriver_known : (DefaultDriver : D) ≠ DriverType_UNKNOWN;
  driver_String_trimmed : ∀ d : D, Strings.TrimSpace (driver_String d) = driver_String d;
  driver_String_nonempty : ∀ d : D, driver_String d ≠ "";
}.

Inductive DiskDriverType :=
  | DiskDriverType_VIRTIO_BLK_PCI | DiskDriverType_SCSI_HD | DiskDriverType_IDE_HD
  | DiskDriverType_UNKNOWN.

Module DiskDriver.
Definition String (t : DiskDriverType) : string :=
  match t with
  | DiskDriverType_VIRTIO_BLK_PCI => "virtio-blk-pci"
  | DiskDriverType_SCSI_HD => "scsi-hd"
  | DiskDriverType_IDE_HD => "ide-hd"
  | DiskDriverType_UNKNOWN => "UNKNOWN"
  end.
Definition HotPluggable (t : DiskDriverType) : bool :=
  match t with
  | DiskDriverType_VIRTIO_BLK_PCI => true
  | DiskDriverType_SCSI_HD => true
  | _ => false
  end.
Definition Value (s : string) : DiskDriverType :=
  let s := Strings.ToLower s in
  if bool_decide (s = "virtio-blk-pci") then DiskDriverType_VIRTIO_BLK_PCI
  else if bool_decide (s = "scsi-hd") then DiskDriverType_SCSI_HD
  else if bool_decide (s = "ide-hd") then DiskDriverType_IDE_HD
  else DiskDriverType_UNKNOWN.
Definition Default : DiskDriverType := DiskDriverType_VIRTIO_BLK_PCI.
End DiskDriver.

#[export] Instance DiskDriverType_driver : DriverType DiskDriverType := {|
  DriverType_UNKNOWN := DiskDriverType_UNKNOWN;
  driver_String := DiskDriver.String;
  HotPluggable := DiskDriver.HotPluggable;
  DriverTypeValue := DiskDriver.Value;
  DefaultDriver := DiskDriver.Default;
|}.

Inductive CdromDriverType :=
  | CdromDriverType_SCSI_CD | CdromDriverType_IDE_CD | CdromDriverType_UNKNOWN.

Module CdromDriver.
Definition String (t : CdromDriverType) : string :=
  match t with
  | CdromDriverType_SCSI_CD => "scsi-cd"
  | CdromDriverType_IDE_CD => "ide-cd"
  | CdromDriverType_UNKNOWN => "UNKNOWN"
  end.
Definition HotPluggable (t : CdromDriverType) : bool :=
  match t with
  | CdromDriverType_SCSI_CD => true
  | _ => false
  end.
Definition Value (s : string) : CdromDriverType :=
  let s := Strings.ToLower s in
  if bool_decide (s = "scsi-cd") then CdromDriverType_SCSI_CD
  else if bool_decide (s = "ide-cd") then CdromDriverType_IDE_CD
  else CdromDriverType_UNKNOWN.
Definition Default : CdromDriverType := CdromDriverType_IDE_CD.
End CdromDriver.

#[export] Instance CdromDriverType_driver : DriverType CdromDriverType := {|
  DriverType_UNKNOWN := CdromDriverType_UNKNOWN;
  driver_String := CdromDriver.String;
  HotPluggable := CdromDriver.HotPluggable;
  DriverTypeValue := CdromDriver.Value;
  DefaultDriver := CdromDriver.Default;
|}.

Inductive NetDriverType :=
  | NetDriverType_VIRTIO_NET_PCI | NetDriverType_RTL8139 | NetDriverType_E1000
  | NetDriverType_UNKNOWN.

Module NetDriver.
Definition String (t : NetDriverType) : string :=
  match t with
  | NetDriverType_VIRTIO_NET_PCI => "virtio-net-pci"
  | NetDriverType_RTL8139 => "rtl8139"
  | NetDriverType_E1000 => "e1000"
  | NetDriverType_UNKNOWN => "UNKNOWN"
  end.
Definition HotPluggable (t : NetDriverType) : bool :=
  match t with
  | NetDriverType_VIRTIO_NET_PCI => true
  | _ => false
  end.
Definition Value (s : string) : NetDriverType :=
  let s := Strings.ToLower s in
  if bool_decide (s = "virtio-net-pci") then NetDriverType_VIRTIO_NET_PCI
  else if bool_decide (s = "rtl8139") then NetDriverType_RTL8139
  else if bool_decide (s = "e1000") then NetDriverType_E1000
  else NetDriverType_UNKNOWN.
Definition Default : NetDriverType := NetDriverType_VIRTIO_NET_PCI.
End NetDriver.

#[export] Instance NetDriverType_driver : DriverType NetDriverType := {|
  DriverType_UNKNOWN := NetDriverType_UNKNOWN;
  driver_String := NetDriver.String;
  HotPluggable := NetDriver.HotPluggable;
  DriverTypeValue := NetDriver.Value;
  DefaultDriver := NetDriver.Default;
|}.

Inductive NetLinkState := NetLinkState_UP | NetLinkState_DOWN | NetLinkState_UNKNOWN.

Module LinkState.
Definition String (s : NetLinkState) : string :=
  match s with
  | NetLinkState_UP => "UP"
  | NetLinkState_DOWN => "DOWN"
  | NetLinkState_UNKNOWN => "UNKNOWN"
  end.
Definition Value (s : string) : NetLinkState :=
  let s := Strings.ToLower s in
  if bool_decide (s = "up") then NetLinkState_UP
  else if bool_decide (s = "down") then NetLinkState_DOWN
  else NetLinkState_UNKNOWN.
End LinkState.

Inductive CloudInitDriverType :=
  | CloudInitDriverType_IDE_CD | CloudInitDriverType_FLOPPY | CloudInitDriverType_UNKNOWN.

Module CloudInitDriver.
Definition String (t : CloudInitDriverType) : string :=
  match t with
  | CloudInitDriverType_IDE_CD => "ide-cd"
  | CloudInitDriverType_FLOPPY => "floppy"
  | CloudInitDriverType_UNKNOWN => "UNKNOWN"
  end.
Definition HotPluggable (t : CloudInitDriverType) : bool := false.
Definition Value (s : string) : CloudInitDriverType :=
  let s := Strings.ToLower s in
  if bool_decide (s = "ide-cd") then CloudInitDriverType_IDE_CD
  else if bool_decide (s = "floppy") then CloudInitDriverType_FLOPPY
  else CloudInitDriverType_UNKNOWN.
Definition Default : CloudInitDriverType := CloudInitDriverType_IDE_CD.
End CloudInitDriver.

#[export] Instance CloudInitDriverType_driver : DriverType CloudInitDriverType := {|
  DriverType_UNKNOWN := CloudInitDriverType_UNKNOWN;
  driver_String := CloudInitDriver.String;
  HotPluggable := CloudInitDriver.HotPluggable;
  DriverTypeValue := CloudInitDriver.Value;
  DefaultDriver := CloudInitDriver.Default;
|}.

(** The driver block of the [Validate] methods, for a device called [what]. *)
Definition validate_driver (D : Type) `{DriverTypeLaws D} (what : string) (strict : bool)
    (name : string) : outcome string :=
  let name := Strings.TrimSpace name in
  if bool_decide (name = "") then
    if strict then Throw (ErrMsg ("undefined " +:+ what +:+ " driver"))
    else Ret (driver_String (DefaultDriver : D))
  else if bool_decide ((DriverTypeValue name : D) = DriverType_UNKNOWN) && strict then
    Throw (ErrMsg ("unknown " +:+ what +:+ " driver: " +:+ name))
  else Ret name.

(** * The contract holds *)

Ltac driver_laws :=
  split; [solve_decision|..];
  [ intros []; reflexivity
  | intros s; cbn; unfold DiskDriver.Value, CdromDriver.Value, NetDriver.Value,
      CloudInitDriver.Value; generalize (Strings.ToLower s); intros l;
    repeat (case_bool_decide; [by subst|]); done
  | done
  | intros []; reflexivity
  | intros []; discriminate ].

#[export] Instance DiskDriverType_laws : DriverTypeLaws DiskDriverType.
Proof. driver_laws. Defined.
#[export] Instance CdromDriverType_laws : DriverTypeLaws CdromDriverType.
Proof. driver_laws. Defined.
#[export] Instance NetDriverType_laws : DriverTypeLaws NetDriverType.
Proof. driver_laws. Defined.
#[export] Instance CloudInitDriverType_laws : DriverTypeLaws CloudInitDriverType.
Proof. driver_laws. Defined.

Section validate_driver.
Context {D : Type} `{DriverTypeLaws D}.

(** A strictly validated name is trimmed and denotes a known driver. *)
Lemma validate_driver_strict what name name' :
  validate_driver D what true name = Ret name' →
  name' = Strings.TrimSpace name ∧ (DriverTypeValue name' : D) ≠ DriverType_UNKNOWN.
Proof.
  unfold validate_driver. case_bool_decide; [done|]. case_bool_decide; [done|].
  simpl. by intros [= <-].
Qed.

Lemma validate_driver_trimmed what strict name name' :
  validate_driver D what strict name = Ret name' →
  Strings.TrimSpace name' = name' ∧ name' ≠ "".
Proof.
  unfold validate_driver. intros Hv. repeat (case_match; simplify_eq/=).
  - split; [apply driver_String_trimmed|apply driver_String_nonempty].
  - split; [apply GoFacts.TrimSpace_idem|]. by eapply bool_decide_eq_false_1.
Qed.

Lemma validate_driver_panic what strict name p : validate_driver D what strict name ≠ Panic p.
Proof. unfold validate_driver. by repeat case_match. Qed.
End validate_driver.
