(* ===== verification/Disks.v ===== *)
(** Disks: disk properties, disks and the pool of disks of a machine
    ([kvmrun/disks.go]). *)

From S2P Require Import Prelude.
From S2P Require Import GoStd.
From S2P Require Import GoFacts.
From S2P Require Import Pool.
From S2P Require Import Backend.
From S2P Require Import Drivers.

Open Scope Z_scope.

Module Disk.
Import Strings.

Record Properties := {
  Path : string; Driver : string; IopsRd : Z; IopsWr : Z; Bootindex : Z;
}.
#[global] Instance Properties_eq_dec : EqDecision Properties.
Proof. solve_decision. Defined.

(** [Validate] normalises its receiver, which every caller reads only when it
    succeeded: the result is the new value. *)
Definition Validate (strict : bool) (p : Properties) : outcome Properties :=
  let path := TrimSpace (Path p) in
  if bool_decide (path = "") then Throw (ErrMsg "empty disk path")
  else
    driver ← validate_driver DiskDriverType "disk" strict (Driver p);
    if (IopsRd p <? 0) || (IopsWr p <? 0) then
      Throw (ErrMsg "invalid iops value: cannot be less than 0")
    else if Bootindex p <? 0 then
      Throw (ErrMsg "invalid bootindex value: cannot be less than 0")
    else Ret {| Path := path; Driver := driver; IopsRd := IopsRd p; IopsWr := IopsWr p;
                Bootindex := Bootindex p |}.

(** [driver] is the parsed [Driver]; [Backend] is nil when the path has none. *)
Record t := {
  props : Properties;
  driver : DiskDriverType;
  Backend : option backend;
  QemuAddr : string;
  QemuVirtualSize : Z;
  HasBitmap : bool;
}.
#[global] Instance t_eq_dec : EqDecision t.
Proof. solve_decision. Defined.

(** A literal [Disk{DiskProperties: p, driver: d, Backend: b}]. *)
Definition make (p : Properties) (d : DiskDriverType) (b : option backend) : t :=
  {| props := p; driver := d; Backend := b; QemuAddr := ""; QemuVirtualSize := 0;
     HasBitmap := false |}.

Definition NewDisk `{Env} (p : string) : outcome t :=
  be ← NewDiskBackend p;
  props ← Validate false {| Path := p; Driver := driver_String (DefaultDriver : DiskDriverType);
                            IopsRd := 0; IopsWr := 0; Bootindex := 0 |};
  Ret (make props DefaultDriver (Some be)).

Definition Copy (d : t) : t :=
  {| props := props d; driver := driver d; Backend := backend_Copy <$> Backend d;
     QemuAddr := QemuAddr d; QemuVirtualSize := QemuVirtualSize d; HasBitmap := HasBitmap d |}.

(** Methods that go through the backend dereference it. *)
Definition with_backend {A} (f : backend → A) (d : t) : outcome A :=
  match Backend d with Some b => Ret (f b) | None => Panic NilDereference end.
Definition QdevID : t → outcome string := with_backend QdevID.
Definition BaseName : t → outcome string := with_backend BaseName.
Definition IsLocal : t → outcome bool := with_backend IsLocal.
Definition IsAvailable `{Host} (d : t) : outcome bool :=
  b ← with_backend id d; IsAvailable b.

Definition set_IopsRd (v : Z) (d : t) : t :=
  {| props := {| Path := Path (props d); Driver := Driver (props d); IopsRd := v;
                 IopsWr := IopsWr (props d); Bootindex := Bootindex (props d) |};
     driver := driver d; Backend := Backend d; QemuAddr := QemuAddr d;
     QemuVirtualSize := QemuVirtualSize d; HasBitmap := HasBitmap d |}.
Definition set_IopsWr (v : Z) (d : t) : t :=
  {| props := {| Path := Path (props d); Driver := Driver (props d);
                 IopsRd := IopsRd (props d); IopsWr := v; Bootindex := Bootindex (props d) |};
     driver := driver d; Backend := Backend d; QemuAddr := QemuAddr d;
     QemuVirtualSize := QemuVirtualSize d; HasBitmap := HasBitmap d |}.
End Disk.

Module DiskPool.
Section diskpool.
Context `{Env}.

(** [Get] returns the pointer stored in the pool; here, the key it is stored
    at and its value. *)
Definition Get (diskname : string) (p : Pool.t Disk.t) : option (string * Disk.t) :=
  match (Pool.GetAs diskname p).1 with
  | Ret d => Some (diskname, d)
  | Throw (PoolNotFound _) =>
      match NewDiskBackend diskname with
      | Ret be =>
          match (Pool.GetAs (BaseName be) p).1 with
          | Ret d => Some (BaseName be, d)
          | _ => None
          end
      | _ => None
      end
  | _ => None
  end.

Definition Exists (diskname : string) (p : Pool.t Disk.t) : bool :=
  if Pool.Exists diskname p then true
  else match NewDiskBackend diskname with
       | Ret be => Pool.Exists (BaseName be) p
       | _ => false
       end.

(** The disks whose path or name is asked for, in pool order; a nil backend
    is dereferenced only when the path does not match. *)
Fixpoint select (disknames : list string) (all : list Disk.t) : outcome (list Disk.t) :=
  match all with
  | [] => Ret []
  | d :: all =>
      keep ← (if bool_decide (Disk.Path (Disk.props d) ∈ disknames) then Ret true
              else name ← Disk.BaseName d; Ret (bool_decide (name ∈ disknames)));
      valid ← select disknames all;
      Ret (if keep : bool then d :: valid else valid)
  end.

Definition Values (disknames : list string) (p : Pool.t Disk.t) : outcome (list Disk.t) :=
  let all := omap id (Pool.Values p []) in
  match disknames with
  | [] => Ret all
  | _ => select disknames all
  end.

(** The key of a disk: its path when it has no backend. *)
Definition diskname (d : Disk.t) : string :=
  match Disk.Backend d with None => Disk.Path (Disk.props d) | Some b => BaseName b end.

Definition Append (d : Disk.t) : op (Pool.t Disk.t) () := Pool.Append (diskname d) d false.

Definition Insert (d : Disk.t) (idx : Z) : op (Pool.t Disk.t) () :=
  Pool.Insert (diskname d) d idx.

Definition Remove (diskname : string) : op (Pool.t Disk.t) () := λ p,
  match Pool.Remove diskname p with
  | (Throw err, p) =>
      match NewDiskBackend diskname with
      | Ret be => Pool.Remove (BaseName be) p
      | _ => (Throw err, p)
      end
  | r => r
  end.

(** [UnmarshalJSON] appends the decoded disks one by one; a [null] among them
    is a nil pointer. *)
Fixpoint load (disks : list (option Disk.t)) : op (Pool.t Disk.t) () :=
  match disks with
  | [] => mret ()
  | None :: _ => lift (Panic NilDereference)
  | Some d :: disks =>
      let drv := DriverTypeValue (Disk.Driver (Disk.props d)) in
      match NewDiskBackend (Disk.Path (Disk.props d)) with
      | Ret be =>
          Pool.Append (BaseName be)
            {| Disk.props := Disk.props d; Disk.driver := drv; Disk.Backend := Some be;
               Disk.QemuAddr := Disk.QemuAddr d;
               Disk.QemuVirtualSize := Disk.QemuVirtualSize d;
               Disk.HasBitmap := Disk.HasBitmap d |} false
      | _ =>
          Pool.Append (Disk.Path (Disk.props d))
            {| Disk.props := Disk.props d; Disk.driver := drv; Disk.Backend := Disk.Backend d;
               Disk.QemuAddr := Disk.QemuAddr d;
               Disk.QemuVirtualSize := Disk.QemuVirtualSize d;
               Disk.HasBitmap := Disk.HasBitmap d |} false
      end;;
      load disks
  end.
End diskpool.
End DiskPool.

(** [ParseSCSIAddr]: bus name, bus address and lun of [scsi0:0x10/1]. *)
Definition ParseSCSIAddr (s : string) : string * string * string :=
  let parse_bus x :=
    let parts := Strings.Split x ":" in
    let first := default "" (parts !! 0%nat) in
    let name := if bool_decide (first = "") then "scsi0" else first in
    (name, default "" (parts !! 1%nat)) in
  let parts := Strings.Split s "/" in
  let '(busName, busAddr) := parse_bus (default "" (parts !! 0%nat)) in
  (busName, busAddr, default "" (parts !! 1%nat)).

(** * Lemmas *)

Module DiskFacts.
Section facts.
Context `{Env}.
Import Strings.

(** A normalised properties record. *)
Record props_ok (p : Disk.Properties) : Prop := {
  props_path : TrimSpace (Disk.Path p) = Disk.Path p;
  props_driver : TrimSpace (Disk.Driver p) = Disk.Driver p;
  props_iops : 0 ≤ Disk.IopsRd p ∧ 0 ≤ Disk.IopsWr p;
  props_bootindex : 0 ≤ Disk.Bootindex p;
}.

(** A disk of a machine configuration stored at key [k]. *)
Record ok (k : string) (d : Disk.t) : Prop := {
  ok_props : props_ok (Disk.props d);
  ok_driver : Disk.driver d = DriverTypeValue (Disk.Driver (Disk.props d));
  ok_known : Disk.driver d ≠ DiskDriverType_UNKNOWN;
  ok_backend : ∃ b, Disk.Backend d = Some b ∧
    NewDiskBackend (Disk.Path (Disk.props d)) = Ret b ∧ k = BaseName b;
  ok_runtime : Disk.QemuVirtualSize d = 0 ∧ Disk.HasBitmap d = false;
}.

Lemma disk_Validate_ok strict p p' :
  Disk.Validate strict p = Ret p' →
  props_ok p' ∧ Disk.Path p' = TrimSpace (Disk.Path p) ∧
  (strict = true → (DriverTypeValue (Disk.Driver p') : DiskDriverType) ≠ DriverType_UNKNOWN).
Proof.
  unfold Disk.Validate. case_bool_decide; [done|].
  intros (drv & Hd & Hv)%outcome_bind_Ret.
  destruct (_ || _) eqn:Hi; [done|]. destruct (Disk.Bootindex p <? 0) eqn:Hb; [done|].
  injection Hv as <-. simpl. apply orb_false_iff in Hi as [??].
  split_and!; [|done|].
  - split; simpl; [apply GoFacts.TrimSpace_idem|exact (proj1 (validate_driver_trimmed _ _ _ _ Hd))|lia|lia].
  - intros ->. exact (proj2 (validate_driver_strict _ _ _ Hd)).
Qed.

Lemma disk_Validate_panic strict p q : Disk.Validate strict p ≠ Panic q.
Proof.
  unfold Disk.Validate. case_match; [done|]. apply BackendFacts.bind_panic.
  - apply validate_driver_panic.
  - intros a q'. by repeat case_match.
Qed.

Lemma disk_ok_make p p' b :
  Disk.Validate true p = Ret p' → NewDiskBackend (Disk.Path p') = Ret b →
  ok (BaseName b) (Disk.make p' (DriverTypeValue (Disk.Driver p')) (Some b)).
Proof.
  intros Hv Hb. destruct (disk_Validate_ok _ _ _ Hv) as (Hp & _ & Hd).
  split; simpl; eauto.
Qed.

Lemma ok_set_IopsRd k d v : 0 ≤ v → ok k d → ok k (Disk.set_IopsRd v d).
Proof. intros Hv [[?? [??] ?]]. split; simpl; [|done..]. split; simpl; [done..|lia|done]. Qed.
Lemma ok_set_IopsWr k d v : 0 ≤ v → ok k d → ok k (Disk.set_IopsWr v d).
Proof. intros Hv [[?? [??] ?]]. split; simpl; [|done..]. split; simpl; [done..|lia|done]. Qed.

(** ** The pool of disks *)

Lemma disk_Get_lookup k d p : Pool.lookup k p = Some d → DiskPool.Get k p = Some (k, d).
Proof. intros Hl. unfold DiskPool.Get. by rewrite PoolFacts.GetAs_lookup, Hl. Qed.

Lemma disk_Get_inv n k d p : DiskPool.Get n p = Some (k, d) → Pool.lookup k p = Some d.
Proof.
  unfold DiskPool.Get. rewrite PoolFacts.GetAs_lookup. intros Hg.
  destruct (Pool.lookup n p) eqn:Hl; simplify_eq/=; [done|].
  destruct (NewDiskBackend n) as [b| |]; [|done..].
  rewrite PoolFacts.GetAs_lookup in Hg.
  by destruct (Pool.lookup (BaseName b) p) eqn:Hl'; simplify_eq/=.
Qed.

Lemma Exists_Get n p : DiskPool.Exists n p = bool_decide (is_Some (DiskPool.Get n p)).
Proof.
  unfold DiskPool.Exists, DiskPool.Get. rewrite PoolFacts.GetAs_lookup, PoolFacts.Exists_lookup.
  destruct (Pool.lookup n p) as [d|]; [done|]. csimpl.
  destruct (NewDiskBackend n) as [b| |]; [|done..].
  rewrite PoolFacts.GetAs_lookup, PoolFacts.Exists_lookup.
  by destruct (Pool.lookup (BaseName b) p).
Qed.

(** A path with a backend is never a key. *)
Lemma path_not_key s b p :
  Pool.wf ok p → NewDiskBackend s = Ret b → Pool.lookup s p = None.
Proof.
  intros Hp Hb. destruct (Pool.lookup s p) as [d|] eqn:Hl; [|done].
  destruct (ok_backend _ _ (PoolFacts.wf_lookup ok _ _ _ Hp Hl)) as (b' & _ & Hb' & ->).
  by destruct (BackendFacts.BaseName_ne_path _ _ _ _ Hb' Hb).
Qed.

Lemma Get_by_path s b p :
  Pool.wf ok p → NewDiskBackend s = Ret b →
  DiskPool.Get s p = DiskPool.Get (BaseName b) p.
Proof.
  intros Hp Hb. unfold DiskPool.Get. rewrite PoolFacts.GetAs_lookup.
  rewrite (path_not_key s b) by done. csimpl. rewrite Hb, PoolFacts.GetAs_lookup.
  destruct (Pool.lookup (BaseName b) p) eqn:Hl; [done|]. csimpl.
  destruct (NewDiskBackend (BaseName b)) eqn:Hb2; [|done..].
  by destruct (BackendFacts.BaseName_ne_path _ _ _ _ Hb Hb2).
Qed.

Lemma disk_preserves_Append d :
  ok (DiskPool.diskname d) d → preserves (Pool.wf ok) (DiskPool.Append d).
Proof. intros. by apply PoolFacts.preserves_Append. Qed.

Lemma disk_preserves_Insert d i :
  ok (DiskPool.diskname d) d → preserves (Pool.wf ok) (DiskPool.Insert d i).
Proof. intros. by apply PoolFacts.preserves_Insert. Qed.

(** [Remove] removes the entry [Get] finds. *)
Lemma disk_Remove_run n p :
  DiskPool.Remove n p =
    match DiskPool.Get n p with
    | Some (k, _) => Pool.Remove k p
    | None => (Throw (PoolNotFound (match Pool.lookup n p, NewDiskBackend n with
                                    | None, Ret be => BaseName be
                                    | _, _ => n
                                    end)), p)
    end.
Proof.
  unfold DiskPool.Remove, DiskPool.Get.
  rewrite PoolFacts.GetAs_lookup, !PoolFacts.Remove_run.
  destruct (Pool.lookup n p) eqn:Hl; csimpl; [by rewrite PoolFacts.Remove_run, Hl|].
  destruct (NewDiskBackend n) as [b| |]; [|done..].
  rewrite PoolFacts.GetAs_lookup, PoolFacts.Remove_run.
  destruct (Pool.lookup (BaseName b) p) eqn:Hl'; csimpl; [|done].
  by rewrite PoolFacts.Remove_run, Hl'.
Qed.

Lemma disk_atomic_Remove n : atomic (DiskPool.Remove n).
Proof.
  intros p. rewrite disk_Remove_run. destruct (DiskPool.Get n p) as [[k d]|]; [|done].
  apply PoolFacts.atomic_Remove.
Qed.

Lemma disk_preserves_Remove n : preserves (Pool.wf ok) (DiskPool.Remove n).
Proof.
  intros p Hp. rewrite disk_Remove_run. destruct (DiskPool.Get n p) as [[k d]|]; [|done].
  by apply PoolFacts.preserves_Remove.
Qed.
End facts.
End DiskFacts.
