(* ===== verification/Cdroms.v ===== *)
(** Cdroms: cdrom properties, cdroms and the pool of cdroms of a machine
    ([kvmrun/cdroms.go]). *)

From S2P Require Import Prelude.
From S2P Require Import GoStd.
From S2P Require Import GoFacts.
From S2P Require Import Pool.
From S2P Require Import Backend.
From S2P Require Import Drivers.

Open Scope Z_scope.

Module Cdrom.
Import Strings.

Record Properties := {
  Name : string; Media : string; Driver : string; Bootindex : Z; Readonly : bool;
}.
#[global] Instance Properties_eq_dec : EqDecision Properties.
Proof. solve_decision. Defined.

Definition Validate (strict : bool) (p : Properties) : outcome Properties :=
  let name := TrimSpace (Name p) in
  if bool_decide (name = "") then Throw (ErrMsg "empty cdrom name")
  else
    driver ← validate_driver CdromDriverType "cdrom" strict (Driver p);
    let media := TrimSpace (Media p) in
    if Bootindex p <? 0 then
      Throw (ErrMsg "invalid bootindex value: cannot be less than 0")
    else Ret {| Name := name; Media := media; Driver := driver; Bootindex := Bootindex p;
                Readonly := Readonly p |}.

Record t := {
  props : Properties;
  driver : CdromDriverType;
  MediaBackend : option backend;
  QemuAddr : string;
}.
#[global] Instance t_eq_dec : EqDecision t.
Proof. solve_decision. Defined.

(** A literal [Cdrom{CdromProperties: p, driver: d}] with its backend. *)
Definition make (p : Properties) (d : CdromDriverType) (b : option backend) : t :=
  {| props := p; driver := d; MediaBackend := b; QemuAddr := "" |}.

Definition NewCdrom `{Env} (name media : string) : outcome t :=
  let media := TrimSpace media in
  be ← (if bool_decide (media = "") then Ret None else Some <$> NewCdromBackend media);
  props ← Validate false {| Name := name; Media := media;
                            Driver := driver_String (DefaultDriver : CdromDriverType);
                            Bootindex := 0; Readonly := false |};
  Ret (make props DefaultDriver be).

Definition Copy (d : t) : t :=
  {| props := props d; driver := driver d; MediaBackend := backend_Copy <$> MediaBackend d;
     QemuAddr := QemuAddr d |}.

Definition QdevID (d : t) : string := "cdrom_" +:+ Name (props d).

Definition IsLocal (d : t) : outcome bool :=
  match MediaBackend d with Some b => Ret (IsLocal b) | None => Panic NilDereference end.

Definition set_media (media : string) (be : option backend) (d : t) : t :=
  {| props := {| Name := Name (props d); Media := media; Driver := Driver (props d);
                 Bootindex := Bootindex (props d); Readonly := Readonly (props d) |};
     driver := driver d; MediaBackend := be; QemuAddr := QemuAddr d |}.
End Cdrom.

Module CdromPool.
Section cdrompool.
Context `{Env}.

(** The pointer stored in the pool: its key is the name asked for. *)
Definition Get (devname : string) (p : Pool.t Cdrom.t) : option Cdrom.t :=
  match (Pool.GetAs devname p).1 with Ret cd => Some cd | _ => None end.

Definition Exists (devname : string) (p : Pool.t Cdrom.t) : bool := Pool.Exists devname p.

Definition Values (devnames : list string) (p : Pool.t Cdrom.t) : list Cdrom.t :=
  omap id (Pool.Values p devnames).

Definition Append (cd : Cdrom.t) : op (Pool.t Cdrom.t) () :=
  Pool.Append (Cdrom.Name (Cdrom.props cd)) cd false.

Definition Insert (cd : Cdrom.t) (idx : Z) : op (Pool.t Cdrom.t) () :=
  Pool.Insert (Cdrom.Name (Cdrom.props cd)) cd idx.

Definition Remove (devname : string) : op (Pool.t Cdrom.t) () := Pool.Remove devname.

(** [UnmarshalJSON] appends the decoded cdroms one by one; a [null] among them
    is a nil pointer. *)
Fixpoint load (cdroms : list (option Cdrom.t)) : op (Pool.t Cdrom.t) () :=
  match cdroms with
  | [] => mret ()
  | None :: _ => lift (Panic NilDereference)
  | Some cd :: cdroms =>
      let be := match NewDiskBackend (Cdrom.Media (Cdrom.props cd)) with
                | Ret be => Some be
                | _ => Cdrom.MediaBackend cd
                end in
      Pool.Append (Cdrom.Name (Cdrom.props cd))
        {| Cdrom.props := Cdrom.props cd;
           Cdrom.driver := DriverTypeValue (Cdrom.Driver (Cdrom.props cd));
           Cdrom.MediaBackend := be; Cdrom.QemuAddr := Cdrom.QemuAddr cd |} false;;
      load cdroms
  end.
End cdrompool.
End CdromPool.

(** * Lemmas *)

Module CdromFacts.
Section facts.
Context `{Env}.
Import Strings.

Record props_ok (p : Cdrom.Properties) : Prop := {
  props_name : TrimSpace (Cdrom.Name p) = Cdrom.Name p;
  props_media : TrimSpace (Cdrom.Media p) = Cdrom.Media p;
  props_driver : TrimSpace (Cdrom.Driver p) = Cdrom.Driver p;
  props_bootindex : 0 ≤ Cdrom.Bootindex p;
}.

(** The backend of a medium: none for the empty one. *)
Definition media_backend (media : string) (be : option backend) : Prop :=
  match be with
  | None => media = ""
  | Some b => media ≠ "" ∧ NewDiskBackend media = Ret b
  end.

Record ok (k : string) (cd : Cdrom.t) : Prop := {
  ok_props : props_ok (Cdrom.props cd);
  ok_name : k = Cdrom.Name (Cdrom.props cd);
  ok_driver : Cdrom.driver cd = DriverTypeValue (Cdrom.Driver (Cdrom.props cd));
  ok_known : Cdrom.driver cd ≠ CdromDriverType_UNKNOWN;
  ok_backend : media_backend (Cdrom.Media (Cdrom.props cd)) (Cdrom.MediaBackend cd);
}.

Lemma cdrom_Validate_ok strict p p' :
  Cdrom.Validate strict p = Ret p' →
  props_ok p' ∧ Cdrom.Name p' = TrimSpace (Cdrom.Name p) ∧
  (strict = true → (DriverTypeValue (Cdrom.Driver p') : CdromDriverType) ≠ DriverType_UNKNOWN).
Proof.
  unfold Cdrom.Validate. case_bool_decide; [done|].
  intros (drv & Hd & Hv)%outcome_bind_Ret.
  destruct (Cdrom.Bootindex p <? 0) eqn:Hb; [done|].
  injection Hv as <-. simpl. split_and!; [|done|].
  - split; simpl; [apply GoFacts.TrimSpace_idem..| |lia].
    exact (proj1 (validate_driver_trimmed _ _ _ _ Hd)).
  - intros ->. exact (proj2 (validate_driver_strict _ _ _ Hd)).
Qed.

Lemma cdrom_Validate_panic strict p q : Cdrom.Validate strict p ≠ Panic q.
Proof.
  unfold Cdrom.Validate. case_match; [done|]. apply BackendFacts.bind_panic.
  - apply validate_driver_panic.
  - intros a q'. by repeat case_match.
Qed.

Lemma cdrom_ok_make p p' be :
  Cdrom.Validate true p = Ret p' → media_backend (Cdrom.Media p') be →
  ok (Cdrom.Name p') (Cdrom.make p' (DriverTypeValue (Cdrom.Driver p')) be).
Proof. intros Hv Hb. destruct (cdrom_Validate_ok _ _ _ Hv) as (Hp & _ & Hd). split; simpl; eauto. Qed.

Lemma ok_set_media k cd media be :
  TrimSpace media = media → media_backend media be → ok k cd → ok k (Cdrom.set_media media be cd).
Proof. intros Ht Hm [[] ????]. split; simpl; [|done..]. by split. Qed.

Lemma cdrom_Get_lookup k p : CdromPool.Get k p = Pool.lookup k p.
Proof. unfold CdromPool.Get. rewrite PoolFacts.GetAs_lookup. by destruct (Pool.lookup k p). Qed.
End facts.
End CdromFacts.
