(* ===== verification/NetIfaces.v ===== *)
(** NetIfaces: network interface properties, interfaces and their pool
    ([kvmrun/network.go]).  The tap device calls at the end of that file
    are in [Monitor]. *)

From S2P Require Import Prelude.
From S2P Require Import GoStd.
From S2P Require Import GoFacts.
From S2P Require Import Pool.
From S2P Require Import Backend.
From S2P Require Import Drivers.

Open Scope Z_scope.

Definition ValidateLinkName (ifname : string) : outcome () :=
  if ((3 <=? String.length ifname) && (String.length ifname <=? 16))%nat then Ret ()
  else Throw (ErrMsg "invalid link-name: min length = 3, max length = 16").

(** [GenHwAddr], given what [rand.Read] delivers: three random bytes. *)
Definition GenHwAddr (rnd : sys (Z * Z * Z)) : outcome string :=
  b ← call rnd;
  Ret ("54:52:00:" +:+ Strconv.hex 2 b.1.1 +:+ ":" +:+ Strconv.hex 2 b.1.2 +:+ ":"
       +:+ Strconv.hex 2 b.2).

Module NetIface.
Import Strings.

Record Properties := {
  Ifname : string; Driver : string; HwAddr : string; Queues : Z; Bootindex : Z;
  Ifup : string; Ifdown : string;
}.
#[global] Instance Properties_eq_dec : EqDecision Properties.
Proof. solve_decision. Defined.

Definition check_script `{Host} (fname : string) : outcome () :=
  if bool_decide (fname = "") then Ret () else check_file fname fname.

Definition Validate `{Host} (rnd : sys (Z * Z * Z)) (strict : bool) (p : Properties)
    : outcome Properties :=
  let ifname := TrimSpace (Ifname p) in
  _ ← ValidateLinkName ifname;
  let hwaddr := TrimSpace (HwAddr p) in
  hwaddr ← (if bool_decide (hwaddr = "") then GenHwAddr rnd
            else if strict && negb (Net.ParseMAC hwaddr) then
              Throw (ErrMsg ("address " +:+ hwaddr +:+ ": invalid MAC address"))
            else Ret hwaddr);
  driver ← validate_driver NetDriverType "net interface" strict (Driver p);
  if Queues p <? 0 then Throw (ErrMsg "invalid queues value: cannot be less than 0")
  else if Bootindex p <? 0 then
    Throw (ErrMsg "invalid bootindex value: cannot be less than 0")
  else
    let ifup := TrimSpace (Ifup p) in
    let ifdown := TrimSpace (Ifdown p) in
    _ ← (if strict then _ ← check_script ifup; check_script ifdown else Ret ());
    Ret {| Ifname := ifname; Driver := driver; HwAddr := hwaddr; Queues := Queues p;
           Bootindex := Bootindex p; Ifup := ifup; Ifdown := ifdown |}.

Record t := { props : Properties; driver : NetDriverType; QemuAddr : string }.
#[global] Instance t_eq_dec : EqDecision t.
Proof. solve_decision. Defined.

(** A literal [NetIface{NetIfaceProperties: p, driver: d}]. *)
Definition make (p : Properties) (d : NetDriverType) : t :=
  {| props := p; driver := d; QemuAddr := "" |}.

Definition NewNetIface `{Host} (rnd : sys (Z * Z * Z)) (ifname hwaddr : string) : outcome t :=
  props ← Validate rnd false
    {| Ifname := ifname; Driver := driver_String (DefaultDriver : NetDriverType);
       HwAddr := hwaddr; Queues := 0; Bootindex := 0; Ifup := ""; Ifdown := "" |};
  Ret (make props DefaultDriver).

Definition Copy (n : t) : t :=
  {| props := props n; driver := driver n; QemuAddr := QemuAddr n |}.

Definition QdevID (n : t) : string := "net_" +:+ Ifname (props n).

Definition set_Queues (v : Z) (n : t) : t :=
  {| props := {| Ifname := Ifname (props n); Driver := Driver (props n);
                 HwAddr := HwAddr (props n); Queues := v; Bootindex := Bootindex (props n);
                 Ifup := Ifup (props n); Ifdown := Ifdown (props n) |};
     driver := driver n; QemuAddr := QemuAddr n |}.
Definition set_Ifup (v : string) (n : t) : t :=
  {| props := {| Ifname := Ifname (props n); Driver := Driver (props n);
                 HwAddr := HwAddr (props n); Queues := Queues (props n);
                 Bootindex := Bootindex (props n); Ifup := v; Ifdown := Ifdown (props n) |};
     driver := driver n; QemuAddr := QemuAddr n |}.
Definition set_Ifdown (v : string) (n : t) : t :=
  {| props := {| Ifname := Ifname (props n); Driver := Driver (props n);
                 HwAddr := HwAddr (props n); Queues := Queues (props n);
                 Bootindex := Bootindex (props n); Ifup := Ifup (props n); Ifdown := v |};
     driver := driver n; QemuAddr := QemuAddr n |}.
End NetIface.

Module NetIfacePool.
Definition Get (ifname : string) (p : Pool.t NetIface.t) : option NetIface.t :=
  match (Pool.GetAs ifname p).1 with Ret n => Some n | _ => None end.

Definition Exists (ifname : string) (p : Pool.t NetIface.t) : bool := Pool.Exists ifname p.

Definition Values (ifnames : list string) (p : Pool.t NetIface.t) : list NetIface.t :=
  omap id (Pool.Values p ifnames).

Definition Append (n : NetIface.t) : op (Pool.t NetIface.t) () :=
  Pool.Append (NetIface.Ifname (NetIface.props n)) n false.

Definition Insert (n : NetIface.t) (idx : Z) : op (Pool.t NetIface.t) () :=
  Pool.Insert (NetIface.Ifname (NetIface.props n)) n idx.

Definition Remove (ifname : string) : op (Pool.t NetIface.t) () := Pool.Remove ifname.

(** [UnmarshalJSON] appends the decoded interfaces one by one. *)
Fixpoint load (ifaces : list (option NetIface.t)) : op (Pool.t NetIface.t) () :=
  match ifaces with
  | [] => mret ()
  | None :: _ => lift (Panic NilDereference)
  | Some n :: ifaces =>
      Pool.Append (NetIface.Ifname (NetIface.props n))
        {| NetIface.props := NetIface.props n;
           NetIface.driver := DriverTypeValue (NetIface.Driver (NetIface.props n));
           NetIface.QemuAddr := NetIface.QemuAddr n |} false;;
      load ifaces
  end.
End NetIfacePool.

(** * Lemmas *)

Module NetIfaceFacts.
Section facts.
Import Strings.

Record props_ok (p : NetIface.Properties) : Prop := {
  props_ifname : TrimSpace (NetIface.Ifname p) = NetIface.Ifname p ∧
                 (3 ≤ String.length (NetIface.Ifname p) ≤ 16)%nat;
  props_hwaddr : NetIface.HwAddr p ≠ "";
  props_driver : TrimSpace (NetIface.Driver p) = NetIface.Driver p;
  props_queues : 0 ≤ NetIface.Queues p;
  props_bootindex : 0 ≤ NetIface.Bootindex p;
}.

Record ok (k : string) (n : NetIface.t) : Prop := {
  ok_props : props_ok (NetIface.props n);
  ok_name : k = NetIface.Ifname (NetIface.props n);
  ok_driver : NetIface.driver n = DriverTypeValue (NetIface.Driver (NetIface.props n));
  ok_known : NetIface.driver n ≠ NetDriverType_UNKNOWN;
}.

Context `{Host}.

Lemma ValidateLinkName_Ret s u :
  ValidateLinkName s = Ret u → (3 ≤ String.length s ≤ 16)%nat.
Proof.
  unfold ValidateLinkName. destruct (_ && _) eqn:E; [|done]. intros _.
  apply andb_true_iff in E as [?%Nat.leb_le ?%Nat.leb_le]. lia.
Qed.

Lemma netif_Validate_ok rnd strict p p' :
  NetIface.Validate rnd strict p = Ret p' →
  props_ok p' ∧ NetIface.Ifname p' = TrimSpace (NetIface.Ifname p) ∧
  (strict = true → (DriverTypeValue (NetIface.Driver p') : NetDriverType) ≠ DriverType_UNKNOWN).
Proof.
  unfold NetIface.Validate.
  intros (u & Hn & (hw & Hh & (drv & Hd & Hv)%outcome_bind_Ret)%outcome_bind_Ret)%outcome_bind_Ret.
  destruct (NetIface.Queues p <? 0) eqn:Hq; [done|].
  destruct (NetIface.Bootindex p <? 0) eqn:Hb; [done|].
  apply outcome_bind_Ret in Hv as (u' & _ & [= <-]). simpl. split_and!; [|done|].
  - split; simpl; [| | |lia..].
    + split; [apply GoFacts.TrimSpace_idem|by eapply ValidateLinkName_Ret].
    + case_bool_decide.
      * apply outcome_bind_Ret in Hh as (b & _ & [= <-]). done.
      * destruct (strict && _); [done|]. by injection Hh as <-.
    + exact (proj1 (validate_driver_trimmed _ _ _ _ Hd)).
  - intros ->. exact (proj2 (validate_driver_strict _ _ _ Hd)).
Qed.

Lemma check_script_panic fname q : NetIface.check_script fname ≠ Panic q.
Proof. unfold NetIface.check_script, check_file. by repeat case_match. Qed.

Lemma netif_Validate_panic rnd strict p q : NetIface.Validate rnd strict p ≠ Panic q.
Proof.
  unfold NetIface.Validate. apply BackendFacts.bind_panic.
  { unfold ValidateLinkName. by case_match. }
  intros _ q1. apply BackendFacts.bind_panic.
  { intros q2. case_match; [|by case_match]. apply BackendFacts.bind_panic; [|done].
    apply BackendFacts.call_panic. }
  intros hw q2. apply BackendFacts.bind_panic; [apply validate_driver_panic|].
  intros drv q3. repeat case_match; try done. all: apply BackendFacts.bind_panic; try done.
  intros q4. apply BackendFacts.bind_panic; intros; apply check_script_panic.
Qed.

Lemma netif_ok_make rnd p p' :
  NetIface.Validate rnd true p = Ret p' →
  ok (NetIface.Ifname p') (NetIface.make p' (DriverTypeValue (NetIface.Driver p'))).
Proof. intros Hv. destruct (netif_Validate_ok _ _ _ _ Hv) as (Hp & _ & Hd). split; simpl; eauto. Qed.

Lemma ok_set_Queues k n v : 0 ≤ v → ok k n → ok k (NetIface.set_Queues v n).
Proof. intros Hv [[]]. split; simpl; [|done..]. by split. Qed.
Lemma ok_set_Ifup k n v : ok k n → ok k (NetIface.set_Ifup v n).
Proof. intros [[]]. split; simpl; [|done..]. by split. Qed.
Lemma ok_set_Ifdown k n v : ok k n → ok k (NetIface.set_Ifdown v n).
Proof. intros [[]]. split; simpl; [|done..]. by split. Qed.

Lemma netif_Get_lookup k p : NetIfacePool.Get k p = Pool.lookup k p.
Proof. unfold NetIfacePool.Get. rewrite PoolFacts.GetAs_lookup. by destruct (Pool.lookup k p). Qed.
End facts.
End NetIfaceFacts.
