(* ===== verification/HostDevices.v ===== *)
(** HostDevices: PCI devices passed through to the guest and their pool
    ([kvmrun/hostpci_devices.go]). *)

From S2P Require Import Prelude.
From S2P Require Import GoStd.
From S2P Require Import GoFacts.
From S2P Require Import PciAddress.
From S2P Require Import Pool.
From S2P Require Import Backend.
From S2P Require Import PciDevice.

Open Scope Z_scope.

Module HostDevice.
Record Properties := { PCIAddr : string; PrimaryGPU : bool; Multifunction : bool }.
#[global] Instance Properties_eq_dec : EqDecision Properties.
Proof. solve_decision. Defined.

(** The address in its normal form. *)
Definition normalize (p : Properties) : outcome Properties :=
  v ← Pci.AddressFromHex (Strings.TrimSpace (PCIAddr p));
  Ret {| PCIAddr := Pci.to_string v; PrimaryGPU := PrimaryGPU p;
         Multifunction := Multifunction p |}.

Definition Validate `{PciBus} (strict : bool) (p : Properties) : outcome Properties :=
  p ← normalize p;
  _ ← (if strict then (λ _, ()) <$> pci_LookupDevice (PCIAddr p) else Ret ());
  Ret p.

Record t := { props : Properties; BackendAddr : option Pci.Address }.
#[global] Instance t_eq_dec : EqDecision t.
Proof. solve_decision. Defined.

(** [dev.Validate(false)] does not look the device up. *)
Definition NewHostDevice (hexaddr : string) : outcome t :=
  p ← normalize {| PCIAddr := hexaddr; PrimaryGPU := false; Multifunction := false |};
  addr ← Pci.AddressFromHex (PCIAddr p);
  Ret {| props := p; BackendAddr := Some addr |}.

Definition Copy (d : t) : t :=
  {| props := props d;
     BackendAddr := (λ a, {| Pci.Domain := Pci.Domain a; Pci.Bus := Pci.Bus a;
                             Pci.Device := Pci.Device a; Pci.Function := Pci.Function a |})
                    <$> BackendAddr d |}.

Definition set_PrimaryGPU (v : bool) (d : t) : t :=
  {| props := {| PCIAddr := PCIAddr (props d); PrimaryGPU := v;
                 Multifunction := Multifunction (props d) |};
     BackendAddr := BackendAddr d |}.
Definition set_Multifunction (v : bool) (d : t) : t :=
  {| props := {| PCIAddr := PCIAddr (props d); PrimaryGPU := PrimaryGPU (props d);
                 Multifunction := v |};
     BackendAddr := BackendAddr d |}.
End HostDevice.

Module HostDevicePool.
(** The key an address in any notation stands for. *)
Definition key (hexaddr : string) : outcome string :=
  Pci.to_string <$> Pci.AddressFromHex (Strings.TrimSpace hexaddr).

Definition Get (hexaddr : string) (p : Pool.t HostDevice.t) : option (string * HostDevice.t) :=
  match key hexaddr with
  | Ret k => match (Pool.GetAs k p).1 with Ret d => Some (k, d) | _ => None end
  | _ => None
  end.

Definition Exists (hexaddr : string) (p : Pool.t HostDevice.t) : bool :=
  match key hexaddr with Ret k => Pool.Exists k p | _ => false end.

(** Addresses that do not parse are left out of the request. *)
Definition Values (hexaddrs : list string) (p : Pool.t HostDevice.t) : list HostDevice.t :=
  let validAddrs := omap (λ s, match key s with Ret k => Some k | _ => None end) hexaddrs in
  omap id (Pool.Values p validAddrs).

Definition Append (dev : HostDevice.t) : op (Pool.t HostDevice.t) () :=
  match HostDevice.BackendAddr dev with
  | None => throw (ErrMsg "invalid host-pci addr")
  | Some a => Pool.Append (Pci.to_string a) dev false
  end.

Definition Insert (dev : HostDevice.t) (idx : Z) : op (Pool.t HostDevice.t) () :=
  match HostDevice.BackendAddr dev with
  | None => throw (ErrMsg "invalid host-pci addr")
  | Some a => Pool.Insert (Pci.to_string a) dev idx
  end.

Definition Remove (hexaddr : string) : op (Pool.t HostDevice.t) () :=
  k ← lift (key hexaddr);
  Pool.Remove k.

(** [UnmarshalJSON] dereferences the address even when it did not parse. *)
Fixpoint load (devices : list (option HostDevice.t)) : op (Pool.t HostDevice.t) () :=
  match devices with
  | [] => mret ()
  | None :: _ => lift (Panic NilDereference)
  | Some dev :: devices =>
      match Pci.AddressFromHex (HostDevice.PCIAddr (HostDevice.props dev)) with
      | Ret addr =>
          Pool.Append (Pci.to_string addr)
            {| HostDevice.props :=
                 {| HostDevice.PCIAddr := Pci.to_string addr;
                    HostDevice.PrimaryGPU := HostDevice.PrimaryGPU (HostDevice.props dev);
                    HostDevice.Multifunction := HostDevice.Multifunction (HostDevice.props dev) |};
               HostDevice.BackendAddr := Some addr |} false
      | _ =>
          match HostDevice.BackendAddr dev with
          | None => lift (Panic NilDereference)
          | Some addr => Pool.Append (Pci.to_string addr) dev false
          end
      end;;
      load devices
  end.
End HostDevicePool.

(** * Lemmas *)

Module HostDeviceFacts.
(** A device stored at key [k]: its address is valid and [k] is its normal
    form. *)
Record ok (k : string) (d : HostDevice.t) : Prop := {
  ok_addr : ∃ a, HostDevice.BackendAddr d = Some a ∧ Pci.valid a ∧ k = Pci.to_string a ∧
                 HostDevice.PCIAddr (HostDevice.props d) = Pci.to_string a;
}.

Lemma NewHostDevice_run s :
  HostDevice.NewHostDevice s =
    (a ← Pci.AddressFromHex (Strings.TrimSpace s);
     Ret {| HostDevice.props := {| HostDevice.PCIAddr := Pci.to_string a;
                                   HostDevice.PrimaryGPU := false;
                                   HostDevice.Multifunction := false |};
            HostDevice.BackendAddr := Some a |}).
Proof.
  unfold HostDevice.NewHostDevice, HostDevice.normalize. simpl.
  destruct (Pci.AddressFromHex (Strings.TrimSpace s)) as [a| |] eqn:Ha; [|done..].
  apply Pci.AddressFromHex_range in Ha. simpl. by rewrite Pci.AddressFromHex_to_string.
Qed.

Lemma ok_new s d :
  HostDevice.NewHostDevice s = Ret d → ∃ a, HostDevice.BackendAddr d = Some a ∧
  HostDevicePool.key s = Ret (Pci.to_string a) ∧ ok (Pci.to_string a) d.
Proof.
  rewrite NewHostDevice_run. intros (a & Ha & [= <-])%outcome_bind_Ret. exists a.
  split; [done|]. unfold HostDevicePool.key. rewrite Ha. split; [done|].
  split. exists a. split_and!; [done|by eapply Pci.AddressFromHex_range|done..].
Qed.

Lemma ok_set_PrimaryGPU k d v : ok k d → ok k (HostDevice.set_PrimaryGPU v d).
Proof. intros [(a & ?)]. split. by exists a. Qed.
Lemma ok_set_Multifunction k d v : ok k d → ok k (HostDevice.set_Multifunction v d).
Proof. intros [(a & ?)]. split. by exists a. Qed.

Lemma hostdev_Get_inv s k d p : HostDevicePool.Get s p = Some (k, d) → Pool.lookup k p = Some d.
Proof.
  unfold HostDevicePool.Get. destruct (HostDevicePool.key s); [|done..].
  rewrite PoolFacts.GetAs_lookup. by destruct (Pool.lookup a p) eqn:?; intros; simplify_eq/=.
Qed.

Lemma hostdev_preserves_Remove s : preserves (Pool.wf ok) (HostDevicePool.Remove s).
Proof.
  unfold HostDevicePool.Remove. apply preserves_bind; [apply preserves_lift|].
  intros. apply PoolFacts.preserves_Remove.
Qed.

Lemma hostdev_atomic_Remove s : atomic (HostDevicePool.Remove s).
Proof.
  unfold HostDevicePool.Remove. apply atomic_bind; [apply readonly_lift|].
  intros. apply PoolFacts.atomic_Remove.
Qed.
End HostDeviceFacts.
