(* ===== verification/Peripherals.v ===== *)
(** Peripherals: input devices, the vsock channel, the cloud-init drive and the
    firmware of a machine ([input_devices.go], [channels.go], [cloudinit.go],
    [machine_firmware.go]). *)

From S2P Require Import Prelude.
From S2P Require Import GoStd.
From S2P Require Import GoFacts.
From S2P Require Import Pool.
From S2P Require Import Backend.
From S2P Require Import Drivers.
From S2P Require Import Disks.

Open Scope Z_scope.

Module InputDevice.
Record Properties := { Type_ : string }.
#[global] Instance Properties_eq_dec : EqDecision Properties.
Proof. solve_decision. Defined.

Definition Validate (p : Properties) : outcome Properties :=
  Ret {| Type_ := Strings.TrimSpace (Type_ p) |}.

Record t := { props : Properties }.
#[global] Instance t_eq_dec : EqDecision t.
Proof. solve_decision. Defined.

Definition NewInputDevice (devtype : string) : outcome t :=
  p ← Validate {| Type_ := devtype |}; Ret {| props := p |}.

Definition Copy (d : t) : t := {| props := props d |}.
End InputDevice.

Module InputDevicePool.
Definition Get (devtype : string) (p : Pool.t InputDevice.t) : option InputDevice.t :=
  match (Pool.GetAs devtype p).1 with Ret d => Some d | _ => None end.

Definition Exists (devtype : string) (p : Pool.t InputDevice.t) : bool := Pool.Exists devtype p.

Definition Values (devtypes : list string) (p : Pool.t InputDevice.t) : list InputDevice.t :=
  omap id (Pool.Values p devtypes).

Definition Append (dev : InputDevice.t) : op (Pool.t InputDevice.t) () :=
  Pool.Append (InputDevice.Type_ (InputDevice.props dev)) dev false.

Definition Insert (dev : InputDevice.t) (idx : Z) : op (Pool.t InputDevice.t) () :=
  Pool.Insert (InputDevice.Type_ (InputDevice.props dev)) dev idx.

Definition Remove (devtype : string) : op (Pool.t InputDevice.t) () := Pool.Remove devtype.

Fixpoint load (devices : list (option InputDevice.t)) : op (Pool.t InputDevice.t) () :=
  match devices with
  | [] => mret ()
  | None :: _ => lift (Panic NilDereference)
  | Some dev :: devices =>
      Pool.Append (InputDevice.Type_ (InputDevice.props dev)) dev false;; load devices
  end.
End InputDevicePool.

Module ChannelVSock.
(** [ContextID] is a uint32. *)
Record Properties := { ContextID : Z }.
#[global] Instance Properties_eq_dec : EqDecision Properties.
Proof. solve_decision. Defined.

Definition Validate (p : Properties) : outcome () :=
  if (0 <? ContextID p) && (ContextID p <? 3) then
    Throw (ErrMsg "incorrect context ID (allowed range is from 3 to 0xffffffff - 1)")
  else Ret ().

Record t := { props : Properties; QemuAddr : string }.
#[global] Instance t_eq_dec : EqDecision t.
Proof. solve_decision. Defined.

Definition NewChannelVSock (contextID : Z) : outcome t :=
  _ ← Validate {| ContextID := contextID |};
  Ret {| props := {| ContextID := contextID |}; QemuAddr := "" |}.

Definition Copy (d : t) : t := {| props := props d; QemuAddr := QemuAddr d |}.

(** 0 lets the launcher choose the identifier. *)
Definition ok (d : t) : Prop := ContextID (props d) ≤ 0 ∨ 3 ≤ ContextID (props d).
End ChannelVSock.

Module CloudInitDrive.
Import Strings.

Record Properties := { Media : string; Driver : string }.
#[global] Instance Properties_eq_dec : EqDecision Properties.
Proof. solve_decision. Defined.

Definition Validate (strict : bool) (p : Properties) : outcome Properties :=
  let media := TrimSpace (Media p) in
  if bool_decide (media = "") then Throw (ErrMsg "empty cloud-init media path")
  else
    driver ← validate_driver CloudInitDriverType "cloud-init" strict (Driver p);
    Ret {| Media := media; Driver := driver |}.

Record t := { props : Properties; driver : CloudInitDriverType; Backend : option backend }.
#[global] Instance t_eq_dec : EqDecision t.
Proof. solve_decision. Defined.

Definition NewCloudInitDrive `{Env} (media : string) : outcome t :=
  let media := TrimSpace media in
  if bool_decide (media = "") then Throw (ErrMsg "empty cloud-init media path")
  else
    be ← NewCloudInitDriveBackend media;
    p ← Validate false
          {| Media := media; Driver := driver_String (DefaultDriver : CloudInitDriverType) |};
    Ret {| props := p; driver := DefaultDriver; Backend := Some be |}.

Definition Copy (d : t) : t :=
  {| props := props d; driver := driver d; Backend := backend_Copy <$> Backend d |}.

Definition QdevID (_ : t) : string := "cidata".

Definition IsLocal (d : t) : outcome bool :=
  match Backend d with Some b => Ret (IsLocal b) | None => Panic NilDereference end.

(** Both forms of the driver are written together. *)
Definition set_Driver (v : CloudInitDriverType) (d : t) : t :=
  {| props := {| Media := Media (props d); Driver := driver_String v |};
     driver := v; Backend := Backend d |}.

(** [UnmarshalJSON], given the decoded properties. *)
Definition load `{Env} (opts : Properties) (d : t) : t :=
  {| props := opts; driver := DriverTypeValue (Driver opts);
     Backend := match NewCloudInitDriveBackend (Media opts) with
                | Ret be => Some be | _ => Backend d end |}.

Record ok `{Env} (d : t) : Prop := {
  ok_media : TrimSpace (Media (props d)) = Media (props d) ∧ Media (props d) ≠ "";
  ok_driver : Driver (props d) = driver_String (driver d);
  ok_known : driver d ≠ CloudInitDriverType_UNKNOWN;
  ok_backend : ∃ b, Backend d = Some b ∧ NewCloudInitDriveBackend (Media (props d)) = Ret b;
}.
End CloudInitDrive.

Module Firmware.
Import Strings.

Record Properties := { Image : string; Flash : string }.
#[global] Instance Properties_eq_dec : EqDecision Properties.
Proof. solve_decision. Defined.

Definition Validate `{Host} (strict : bool) (p : Properties) : outcome Properties :=
  let image := TrimSpace (Image p) in
  let flash := TrimSpace (Flash p) in
  if bool_decide (image = "") then Throw (ErrMsg "empty firmware image path")
  else
    _ ← (if strict then
           _ ← check_file "image file" image;
           if bool_decide (flash = "") then Ret () else check_file "flash file" flash
         else Ret ());
    Ret {| Image := image; Flash := flash |}.

Record t := { props : Properties; flashDisk : option Disk.t }.
#[global] Instance t_eq_dec : EqDecision t.
Proof. solve_decision. Defined.

Definition newFirmwareFlashDisk `{Env} (p : string) : outcome Disk.t :=
  be ← NewFirmwareFlashBackend p;
  Ret (Disk.make {| Disk.Path := p; Disk.Driver := "pflash"; Disk.IopsRd := 0;
                    Disk.IopsWr := 0; Disk.Bootindex := 0 |}
         DiskDriverType_UNKNOWN (Some be)).

Definition NewFirmware `{Env, Host} (image flash : string) : outcome t :=
  p ← Validate false {| Image := image; Flash := flash |};
  d ← (if bool_decide (Flash p = "") then Ret None
       else Some <$> newFirmwareFlashDisk (Flash p));
  Ret {| props := p; flashDisk := d |}.

Definition Copy (fw : t) : t :=
  {| props := props fw; flashDisk := Disk.Copy <$> flashDisk fw |}.

Definition set_Image (v : string) (fw : t) : t :=
  {| props := {| Image := v; Flash := Flash (props fw) |}; flashDisk := flashDisk fw |}.
Definition set_Flash (v : string) (fw : t) : t :=
  {| props := {| Image := Image (props fw); Flash := v |}; flashDisk := flashDisk fw |}.
Definition set_flashDisk (d : option Disk.t) (fw : t) : t :=
  {| props := props fw; flashDisk := d |}.

Definition SetImage (image : string) : op t () :=
  let image := TrimSpace image in
  fail_if (bool_decide (image = "")) (ErrMsg "empty firmware image path");;
  modify (set_Image image).

Definition SetFlash `{Env} (flash : string) : op t () :=
  let flash := TrimSpace flash in
  fail_if (bool_decide (flash = "")) (ErrMsg "empty firmware pflash path");;
  modify (set_Flash flash);;
  d ← lift (newFirmwareFlashDisk flash);
  modify (set_flashDisk (Some d)).

(** [UnmarshalJSON], given the decoded properties. *)
Definition load `{Env} (opts : Properties) (fw : t) : t :=
  let flash := TrimSpace (Flash opts) in
  {| props := {| Image := Image opts; Flash := flash |};
     flashDisk := if bool_decide (flash = "") then flashDisk fw
                  else match newFirmwareFlashDisk flash with
                       | Ret d => Some d | _ => flashDisk fw end |}.

Record ok `{Env} (fw : t) : Prop := {
  ok_image : TrimSpace (Image (props fw)) = Image (props fw) ∧ Image (props fw) ≠ "";
  ok_flash : TrimSpace (Flash (props fw)) = Flash (props fw);
  ok_disk : match flashDisk fw with
            | None => Flash (props fw) = ""
            | Some d => Flash (props fw) ≠ "" ∧ newFirmwareFlashDisk (Flash (props fw)) = Ret d
            end;
}.

(** Normal texts, with or without the disk of the flash file. *)
Record written (fw : t) : Prop := {
  written_image : TrimSpace (Image (props fw)) = Image (props fw) ∧ Image (props fw) ≠ "";
  written_flash : TrimSpace (Flash (props fw)) = Flash (props fw);
}.
End Firmware.

(** * Lemmas *)

Module PeripheralFacts.
Section facts.
Context `{Env}.
Import Strings.

Definition input_ok (k : string) (d : InputDevice.t) : Prop :=
  k = InputDevice.Type_ (InputDevice.props d) ∧ TrimSpace k = k.

Lemma NewCloudInitDriveBackend_panic s p : NewCloudInitDriveBackend s ≠ Panic p.
Proof.
  unfold NewCloudInitDriveBackend. repeat case_match; try done.
  all: apply BackendFacts.fmap_panic; intros q; try done.
  apply BackendFacts.bind_panic; [|done]. intros q'. unfold filepath_Abs.
  case_match; [done|]. apply BackendFacts.bind_panic; [apply BackendFacts.call_panic|done].
Qed.

Lemma NewCloudInitDrive_ok media d :
  CloudInitDrive.NewCloudInitDrive media = Ret d →
  CloudInitDrive.ok d ∧ CloudInitDrive.driver d = DefaultDriver.
Proof.
  unfold CloudInitDrive.NewCloudInitDrive. case_bool_decide as Hm; [done|].
  intros (be & Hb & (p & Hp & [= <-])%outcome_bind_Ret)%outcome_bind_Ret.
  unfold CloudInitDrive.Validate in Hp. simpl in Hp. rewrite GoFacts.TrimSpace_idem in Hp.
  rewrite bool_decide_false in Hp by done.
  unfold validate_driver, mbind, outcome_bind in Hp. vm_compute (bool_decide _) in Hp.
  simpl in Hp. injection Hp as <-.
  split; [|done]. split; simpl; [|done..|by eauto].
  split; [apply GoFacts.TrimSpace_idem|done].
Qed.

Lemma ok_set_Driver d v :
  v ≠ CloudInitDriverType_UNKNOWN → CloudInitDrive.ok d → CloudInitDrive.ok (CloudInitDrive.set_Driver v d).
Proof. intros Hv []. by split. Qed.

Lemma newFirmwareFlashDisk_panic s p : Firmware.newFirmwareFlashDisk s ≠ Panic p.
Proof.
  unfold Firmware.newFirmwareFlashDisk, NewFirmwareFlashBackend.
  apply BackendFacts.bind_panic; [|done]. intros q. apply BackendFacts.bind_panic; [|done].
  intros q'. case_match; apply BackendFacts.fmap_panic; intros q2; [done|].
  apply BackendFacts.bind_panic; [|done]. intros q3. unfold filepath_Abs.
  case_match; [done|]. apply BackendFacts.bind_panic; [apply BackendFacts.call_panic|done].
Qed.

Lemma NewFirmware_ok `{Host} image flash fw :
  Firmware.NewFirmware image flash = Ret fw →
  Firmware.ok fw ∧ Firmware.Image (Firmware.props fw) = TrimSpace image.
Proof.
  unfold Firmware.NewFirmware, Firmware.Validate. simpl.
  intros (p & Hp & (d & Hd & [= <-])%outcome_bind_Ret)%outcome_bind_Ret.
  destruct (bool_decide (TrimSpace image = "")) eqn:Hi; [done|].
  apply bool_decide_eq_false in Hi. injection Hp as <-. simpl in *.
  split; [|done]. split; simpl.
  - split; [apply GoFacts.TrimSpace_idem|done].
  - apply GoFacts.TrimSpace_idem.
  - case_bool_decide as Hf; [by injection Hd as <-|].
    apply outcome_fmap_Ret in Hd as (d' & Hd & <-). done.
Qed.

Lemma preserves_Firmware_SetImage image : preserves Firmware.ok (Firmware.SetImage image).
Proof.
  intros fw [[] ? ?]. unfold Firmware.SetImage. go_unfold.
  case_bool_decide; [done|]. split; simpl; [|done..].
  split; [apply GoFacts.TrimSpace_idem|done].
Qed.

Lemma SetImage_run image fw :
  Firmware.SetImage image fw =
    if bool_decide (TrimSpace image = "") then (Throw (ErrMsg "empty firmware image path"), fw)
    else (Ret (), Firmware.set_Image (TrimSpace image) fw).
Proof. unfold Firmware.SetImage. go_unfold. by case_bool_decide. Qed.

(** [SetFlash] writes the path before it makes the disk. *)
Lemma SetFlash_run flash fw :
  Firmware.SetFlash flash fw =
    if bool_decide (TrimSpace flash = "") then (Throw (ErrMsg "empty firmware pflash path"), fw)
    else match Firmware.newFirmwareFlashDisk (TrimSpace flash) with
         | Ret d => (Ret (), Firmware.set_flashDisk (Some d) (Firmware.set_Flash (TrimSpace flash) fw))
         | Throw e => (Throw e, Firmware.set_Flash (TrimSpace flash) fw)
         | Panic p => (Panic p, Firmware.set_Flash (TrimSpace flash) fw)
         end.
Proof.
  unfold Firmware.SetFlash. go_unfold. case_bool_decide; [done|].
  by destruct (Firmware.newFirmwareFlashDisk _).
Qed.

(** A path that has a backend makes the flash disk. *)
Definition flash_available : Prop :=
  ∀ p, is_ret (Firmware.newFirmwareFlashDisk p) = true.

Lemma flash_available_getwd : is_ret (call os_Getwd) = true → flash_available.
Proof.
  intros Hw p. unfold Firmware.newFirmwareFlashDisk, NewFirmwareFlashBackend, File.New, filepath_Abs.
  destruct os_Getwd as [wd|e]; [|done]. by repeat case_match.
Qed.

Lemma preserves_SetFlash flash :
  flash_available → preserves Firmware.ok (Firmware.SetFlash flash).
Proof.
  intros Ha fw [[] ? ?]. rewrite SetFlash_run. case_bool_decide; [done|].
  specialize (Ha (TrimSpace flash)).
  destruct (Firmware.newFirmwareFlashDisk (TrimSpace flash)) as [d| |] eqn:Hd; [|done..].
  split; simpl; [done|apply GoFacts.TrimSpace_idem|done].
Qed.

Lemma ok_written fw : Firmware.ok fw → Firmware.written fw.
Proof. intros []. by split. Qed.
Lemma written_SetImage image : preserves Firmware.written (Firmware.SetImage image).
Proof.
  intros fw []. rewrite SetImage_run. case_bool_decide; [done|]. split; simpl; [|done].
  split; [apply GoFacts.TrimSpace_idem|done].
Qed.
Lemma written_SetFlash flash : preserves Firmware.written (Firmware.SetFlash flash).
Proof.
  intros fw []. rewrite SetFlash_run. case_bool_decide; [done|].
  destruct (Firmware.newFirmwareFlashDisk _); (split; simpl; [done|apply GoFacts.TrimSpace_idem]).
Qed.
End facts.
End PeripheralFacts.
