(* ===== verification/Json.v ===== *)
(** Json: JSON values and the part of [encoding/json] the repository relies on:
    struct fields matched by name whatever the case, later keys overriding
    earlier ones, unknown keys skipped, [null] leaving a value as it is,
    [omitempty].  Texts are taken as the values they denote: [json.Marshal]
    prints and [json.Unmarshal] parses the same grammar; bytes that are not
    UTF-8 are replaced when a value is printed ([marshalled]).  A value of the wrong
    type ends the decoding here, where Go decodes the rest before it returns the
    same error. *)

From S2P Require Import Prelude.
From S2P Require Import GoStd.
From S2P Require Import GoFacts.

Open Scope Z_scope.
#[local] Set Warnings "-register-all".

Inductive json :=
  | JNull
  | JBool (b : bool)
  | JNum (n : Z)
  | JStr (s : string)
  | JArr (l : list json)
  | JObj (l : list (string * json)).

Module Json.
(** ** Strings

    [json.Marshal] walks a string by runes; a byte that starts none is written as
    U+FFFD. *)
Definition byte_in (lo hi : N) (a : ascii) : bool := (lo <=? N_of_ascii a)%N && (N_of_ascii a <=? hi)%N.
Definition cont : ascii → bool := byte_in 128 191.
Definition two_bytes (a b : ascii) : bool := byte_in 194 223 a && cont b.
Definition three_bytes (a b c : ascii) : bool :=
  (bool_decide (a = ascii_of_N 224) && byte_in 160 191 b
   || (byte_in 225 236 a || byte_in 238 239 a) && cont b
   || bool_decide (a = ascii_of_N 237) && byte_in 128 159 b) && cont c.
Definition four_bytes (a b c d : ascii) : bool :=
  (bool_decide (a = ascii_of_N 240) && byte_in 144 191 b
   || byte_in 241 243 a && cont b
   || bool_decide (a = ascii_of_N 244) && byte_in 128 143 b) && cont c && cont d.
Definition RuneError : list ascii := map ascii_of_N [239; 191; 189]%N.
Fixpoint valid_runes (l : list ascii) : list ascii :=
  match l with
  | [] => []
  | a :: l1 =>
      if byte_in 0 127 a then a :: valid_runes l1
      else match l1 with
           | b :: l2 =>
               if two_bytes a b then a :: b :: valid_runes l2
               else match l2 with
                    | c :: l3 =>
                        if three_bytes a b c then a :: b :: c :: valid_runes l3
                        else match l3 with
                             | d :: l4 => if four_bytes a b c d then a :: b :: c :: d :: valid_runes l4
                                          else RuneError ++ valid_runes l1
                             | [] => RuneError ++ valid_runes l1
                             end
                    | [] => RuneError ++ valid_runes l1
                    end
           | [] => RuneError
           end
  end.
Definition coerced (s : string) : string := of_list (valid_runes (to_list s)).
Definition utf8 (s : string) : Prop := coerced s = s.
#[global] Instance utf8_dec s : Decision (utf8 s) := decide (coerced s = s).

(** A value as it is printed. *)
Fixpoint marshalled (j : json) : json :=
  match j with
  | JStr s => JStr (coerced s)
  | JArr l => JArr (map marshalled l)
  | JObj l => JObj (map (λ kv, match kv with (k, v) => (coerced k, marshalled v) end) l)
  | _ => j
  end.
Definition plain_text (j : json) : Prop := marshalled j = j.

(** [errors] of the decoder; callers only pass them on. *)
Definition type_error : goerr := ErrMsg "json: cannot unmarshal value".

(** Decoding writes into an existing value. *)
Definition decoder (T : Type) : Type := json → T → outcome T.

Definition dec_string : decoder string := λ j old,
  match j with JNull => Ret old | JStr s => Ret s | _ => Throw type_error end.
Definition dec_bool : decoder bool := λ j old,
  match j with JNull => Ret old | JBool b => Ret b | _ => Throw type_error end.
Definition dec_int : decoder Z := λ j old,
  match j with
  | JNull => Ret old
  | JNum n => if is_int n then Ret n else Throw type_error
  | _ => Throw type_error
  end.
Definition dec_uint32 : decoder Z := λ j old,
  match j with
  | JNull => Ret old
  | JNum n => if (0 <=? n) && (n <? 2 ^ 32) then Ret n else Throw type_error
  | _ => Throw type_error
  end.

(** A pointer: [null] makes it nil; otherwise the value it points to, freshly
    allocated if it was nil, is decoded. *)
Definition dec_ptr {T} (zero : T) (d : decoder T) : decoder (option T) := λ j old,
  match j with
  | JNull => Ret None
  | _ => v ← d j (default zero old); Ret (Some v)
  end.

(** A slice of pointers, decoded into a nil slice. *)
Fixpoint dec_ptrs {T} (zero : T) (d : decoder T) (l : list json) : outcome (list (option T)) :=
  match l with
  | [] => Ret []
  | j :: l => v ← dec_ptr zero d j None; vs ← dec_ptrs zero d l; Ret (v :: vs)
  end.
Definition dec_slice {T} (zero : T) (d : decoder T) (j : json) : outcome (list (option T)) :=
  match j with
  | JNull => Ret []
  | JArr l => dec_ptrs zero d l
  | _ => Throw type_error
  end.

(** A field of a struct, by getter and setter. *)
Definition on {S T} (g : S → T) (p : T → S → S) (d : decoder T) : decoder S := λ j s,
  v ← d j (g s); Ret (p v s).

Definition find_field {S} (fields : list (string * decoder S)) (k : string) : option (decoder S) :=
  snd <$> (list_find (λ f, Strings.ToLower f.1 = Strings.ToLower k) fields ≫= λ x, Some x.2).

Fixpoint dec_fields {S} (fields : list (string * decoder S)) (kvs : list (string * json))
    (s : S) : outcome S :=
  match kvs with
  | [] => Ret s
  | (k, v) :: kvs =>
      s ← match find_field fields k with Some d => d v s | None => Ret s end;
      dec_fields fields kvs s
  end.

Definition dec_struct {S} (fields : list (string * decoder S)) : decoder S := λ j s,
  match j with
  | JNull => Ret s
  | JObj kvs => dec_fields fields kvs s
  | _ => Throw type_error
  end.

(** ** Encoding *)

Definition enc_struct (fields : list (option (string * json))) : json := JObj (omap id fields).
Definition field (k : string) (j : json) : option (string * json) := Some (k, j).

(** [omitempty] on strings, integers, booleans and pointers. *)
Definition opt_string (k s : string) : option (string * json) :=
  if bool_decide (s = "") then None else Some (k, JStr s).
Definition opt_int (k : string) (n : Z) : option (string * json) :=
  if n =? 0 then None else Some (k, JNum n).
Definition opt_bool (k : string) (b : bool) : option (string * json) :=
  if b then Some (k, JBool true) else None.
Definition opt_ptr {T} (k : string) (enc : T → json) (v : option T) : option (string * json) :=
  (λ v, (k, enc v)) <$> v.

(** ** Lemmas *)

Lemma valid_runes_ascii l : Forall (λ a, byte_in 0 127 a = true) l → valid_runes l = l.
Proof. induction 1 as [|a l Ha _ IH]; [done|]. cbn [valid_runes]. by rewrite Ha, IH. Qed.
Lemma utf8_ascii s : Forall (λ a, byte_in 0 127 a = true) (to_list s) → utf8 s.
Proof. intros Hs. unfold utf8, coerced. rewrite valid_runes_ascii by done. apply of_to_list. Qed.

Definition plain_field (f : option (string * json)) : Prop :=
  match f with Some (k, v) => utf8 k ∧ plain_text v | None => True end.
Lemma map_fixed {T} (f : T → T) l : map f l = l ↔ Forall (λ x, f x = x) l.
Proof.
  induction l as [|x l IH]; cbn; [by split|]. rewrite Forall_cons, <- IH. split; [by intros [=]|]. by intros [-> ->].
Qed.
Lemma plain_object l : plain_text (JObj l) ↔ Forall (λ kv, utf8 kv.1 ∧ plain_text kv.2) l.
Proof.
  transitivity (map (λ kv : string * json, match kv with (k, v) => (coerced k, marshalled v) end) l = l).
  { unfold plain_text. cbn [marshalled]. split; [by intros [=]|by intros ->]. }
  rewrite map_fixed. apply Forall_iff. intros [k v]. unfold utf8, plain_text. cbn [fst snd]. split; [by intros [=]|].
  intros [Hk Hv]. by rewrite Hk, Hv.
Qed.
Lemma plain_struct l : plain_text (enc_struct l) ↔ Forall plain_field l.
Proof.
  unfold enc_struct. rewrite plain_object. induction l as [|[[k v]|] l IH]; csimpl; [by split|..].
  - by rewrite !Forall_cons, IH.
  - rewrite Forall_cons, IH. naive_solver.
Qed.
Lemma plain_array l : plain_text (JArr l) ↔ Forall plain_text l.
Proof.
  transitivity (map marshalled l = l); [|apply map_fixed].
  unfold plain_text. cbn [marshalled]. split; [by intros [=]|by intros ->].
Qed.
Lemma plain_opt_int k n : utf8 k → plain_field (opt_int k n).
Proof. intros Hk. unfold opt_int. by destruct (n =? 0). Qed.
Lemma plain_opt_string k s : utf8 k → utf8 s → plain_field (opt_string k s).
Proof. intros Hk Hs. unfold opt_string. case_bool_decide; [done|]. split; [done|]. unfold plain_text. cbn [marshalled]. by rewrite Hs. Qed.
Lemma plain_string s : plain_text (JStr s) ↔ utf8 s.
Proof. unfold plain_text, utf8. cbn. split; [by intros [=]|by intros ->]. Qed.

Section facts.
Context {S : Type} (fields : list (string * decoder S)).

Lemma dec_fields_cons k v kvs d s :
  find_field fields k = Some d →
  dec_fields fields ((k, v) :: kvs) s = d v s ≫= dec_fields fields kvs.
Proof. intros Hf. simpl. by rewrite Hf. Qed.

(** What decoding makes of one encoded field, present or omitted. *)
Definition dec_one (f : option (string * json)) (s : S) : outcome S :=
  match f with
  | None => Ret s
  | Some (k, v) => match find_field fields k with Some d => d v s | None => Ret s end
  end.

Lemma dec_omap l s :
  dec_fields fields (omap id l) s = foldl (λ r f, r ≫= dec_one f) (Ret s) l.
Proof.
  assert (∀ r, (∀ s', r ≠ Ret s') → foldl (λ r f, r ≫= dec_one f) r l = r) as Hbad.
  { induction l as [|f l IH]; intros r Hr; simpl; [done|].
    assert (r ≫= dec_one f = r) as -> by (destruct r as [s'| |]; [by destruct (Hr s')|done..]).
    by apply IH. }
  revert s Hbad. induction l as [|f l IH]; intros s Hbad; [done|]. csimpl.
  assert (∀ r, (∀ s', r ≠ Ret s') → foldl (λ r f, r ≫= dec_one f) r l = r) as Hbad'.
  { intros r Hr. specialize (Hbad r Hr). simpl in Hbad.
    assert (r ≫= dec_one f = r) as E by (destruct r as [s'| |]; [by destruct (Hr s')|done..]).
    by rewrite E in Hbad. }
  destruct f as [[k v]|]; csimpl; [|by apply IH].
  destruct (find_field fields k) as [d|]; [|by apply IH]. simpl.
  destruct (d v s) as [s'|e|p]; simpl; [by apply IH|by rewrite Hbad'..].
Qed.

Lemma dec_enc_struct l s :
  dec_struct fields (enc_struct l) s = foldl (λ r f, r ≫= dec_one f) (Ret s) l.
Proof. apply dec_omap. Qed.
End facts.

(** Each kind of field, decoded into a zero value. *)
Section one.
Context {S : Type} (fields : list (string * decoder S)).

Lemma one_string k v s g p :
  find_field fields k = Some (on g p dec_string) →
  dec_one fields (field k (JStr v)) s = Ret (p v s).
Proof. intros Hf. simpl. by rewrite Hf. Qed.

Lemma one_int k v s g p :
  find_field fields k = Some (on g p dec_int) → is_int v = true →
  dec_one fields (field k (JNum v)) s = Ret (p v s).
Proof. intros Hf Hv. simpl. rewrite Hf. unfold on. simpl. by rewrite Hv. Qed.

Lemma one_bool k v s g p :
  find_field fields k = Some (on g p dec_bool) →
  dec_one fields (field k (JBool v)) s = Ret (p v s).
Proof. intros Hf. simpl. by rewrite Hf. Qed.

Lemma one_opt_string k v s g p :
  find_field fields k = Some (on g p dec_string) → p "" s = s →
  dec_one fields (opt_string k v) s = Ret (p v s).
Proof.
  intros Hf Hs. unfold opt_string. case_bool_decide; [subst; by rewrite Hs|].
  simpl. by rewrite Hf.
Qed.

Lemma one_opt_int k v s g p :
  find_field fields k = Some (on g p dec_int) → is_int v = true → p 0 s = s →
  dec_one fields (opt_int k v) s = Ret (p v s).
Proof.
  intros Hf Hv Hs. unfold opt_int. destruct (Z.eqb_spec v 0); [subst; by rewrite Hs|].
  simpl. rewrite Hf. unfold on. simpl. by rewrite Hv.
Qed.

Lemma one_opt_bool k v s g p :
  find_field fields k = Some (on g p dec_bool) → p false s = s →
  dec_one fields (opt_bool k v) s = Ret (p v s).
Proof. intros Hf Hs. unfold opt_bool. destruct v; simpl; [by rewrite Hf|by rewrite Hs]. Qed.

Lemma one_field {T} k v s (g : S → T) p d x :
  find_field fields k = Some (on g p d) → d v (g s) = Ret x →
  dec_one fields (field k v) s = Ret (p x s).
Proof. intros Hf Hv. simpl. rewrite Hf. unfold on. by rewrite Hv. Qed.

Lemma one_opt_ptr {T} k (enc : T → json) v s (g : S → option T) p zero d x :
  find_field fields k = Some (on g p (dec_ptr zero d)) → p None s = s → g s = None →
  (∀ w, v = Some w → enc w ≠ JNull ∧ ∃ w', d (enc w) zero = Ret w' ∧ x = Some w') →
  (v = None → x = None) →
  dec_one fields (opt_ptr k enc v) s = Ret (p x s).
Proof.
  intros Hf Hn Hg Hs Hx. destruct v as [w|]; simpl; [|by rewrite Hx, Hn].
  destruct (Hs w eq_refl) as (He & w' & Hd & ->). rewrite Hf. unfold on, dec_ptr. rewrite Hg. simpl.
  by destruct (enc w) eqn:E; rewrite ?Hd.
Qed.
End one.

(** Every element decodes: the slice decodes. *)
Lemma dec_slice_enc {T} (zero : T) (d : decoder T) (enc : T → json) (raw : T → T) (l : list T) :
  (∀ v, v ∈ l → enc v ≠ JNull ∧ d (enc v) zero = Ret (raw v)) →
  dec_slice zero d (JArr (map enc l)) = Ret (Some <$> (raw <$> l)).
Proof.
  simpl. induction l as [|v l IH]; intros Hl; [done|]. csimpl.
  destruct (Hl v) as [Hn Hv]; [by left|].
  assert (dec_ptr zero d (enc v) None = Ret (Some (raw v))) as ->
    by (unfold dec_ptr; simpl; rewrite Hv; by destruct (enc v)).
  simpl. rewrite IH; [done|]. intros v' Hv'. apply Hl. by right.
Qed.
End Json.

(** One field of a struct after the other, on a value whose fields are variables;
    the struct decoded so far is kept in normal form. *)
Ltac json_step :=
  match goal with
  | |- context [Json.dec_one ?f (Json.field ?k (JStr ?v)) ?s] =>
      rewrite (Json.one_string f k v s _ _ eq_refl)
  | |- context [Json.dec_one ?f (Json.field ?k (JBool ?v)) ?s] =>
      rewrite (Json.one_bool f k v s _ _ eq_refl)
  | |- context [Json.dec_one ?f (Json.field ?k (JNum ?v)) ?s] =>
      rewrite (Json.one_int f k v s _ _ eq_refl) by assumption
  | |- context [Json.dec_one ?f (Json.opt_string ?k ?v) ?s] =>
      rewrite (Json.one_opt_string f k v s _ _ eq_refl eq_refl)
  | |- context [Json.dec_one ?f (Json.opt_int ?k ?v) ?s] =>
      rewrite (Json.one_opt_int f k v s _ _ eq_refl) by (assumption || reflexivity)
  | |- context [Json.dec_one ?f (Json.opt_bool ?k ?v) ?s] =>
      rewrite (Json.one_opt_bool f k v s _ _ eq_refl eq_refl)
  end;
  try match goal with
    | |- context [mbind ?k (Ret ?t)] => let t' := eval cbv in t in change (Ret t) with (Ret t')
    end;
  cbn [mbind outcome_bind].
