(* ===== verification/InstanceProperties.v ===== *)
(** InstanceProperties: everything a machine is configured with, and the getters
    that configurations and running instances share
    ([kvmrun/instance_properties.go]).  Getters return copies. *)

From S2P Require Import Prelude.
From S2P Require Import GoStd.
From S2P Require Import GoFacts.
From S2P Require Import Pool.
From S2P Require Import Version.
From S2P Require Import PciAddress.
From S2P Require Import Backend.
From S2P Require Import Resources.
From S2P Require Import Drivers.
From S2P Require Import Disks.
From S2P Require Import Cdroms.
From S2P Require Import NetIfaces.
From S2P Require Import HostDevices.
From S2P Require Import Peripherals.

Open Scope Z_scope.

(** [^[0-9A-Za-z_]{3,16}$] *)
Definition machine_name_char (a : ascii) : bool :=
  let n := N_of_ascii a in
  ((48 <=? n) && (n <=? 57) || (65 <=? n) && (n <=? 90) || (97 <=? n) && (n <=? 122)
   || (n =? 95))%N.

Definition ValidateMachineName (name : string) : outcome () :=
  if (Strings.all machine_name_char name && (3 <=? String.length name)%nat
      && (String.length name <=? 16)%nat)
  then Ret ()
  else Throw (ErrMsg "invalid machine name: only [0-9A-Za-z_] are allowed, min length is 3 and max length is 16").

Module InstanceProperties.
Record t := {
  name : string;
  uid : Z;
  MachineType_ : string;
  Firmware_ : option Firmware.t;
  Memory_ : Memory.t;
  CPU : VirtCPU.t;
  InputDevices : Pool.t InputDevice.t;
  Cdroms : Pool.t Cdrom.t;
  Disks : Pool.t Disk.t;
  NetIfaces : Pool.t NetIface.t;
  VSockDevice : option ChannelVSock.t;
  CloudInitDrive_ : option CloudInitDrive.t;
  Kernel : ExtKernel.t;
  HostDevices : Pool.t HostDevice.t;
}.

Definition set_name (v : string) (p : t) : t :=
  {| name := v; uid := uid p; MachineType_ := MachineType_ p; Firmware_ := Firmware_ p;
     Memory_ := Memory_ p; CPU := CPU p; InputDevices := InputDevices p; Cdroms := Cdroms
     p; Disks := Disks p; NetIfaces := NetIfaces p; VSockDevice := VSockDevice p;
     CloudInitDrive_ := CloudInitDrive_ p; Kernel := Kernel p; HostDevices := HostDevices
     p |}.
Definition set_uid (v : Z) (p : t) : t :=
  {| name := name p; uid := v; MachineType_ := MachineType_ p; Firmware_ := Firmware_ p;
     Memory_ := Memory_ p; CPU := CPU p; InputDevices := InputDevices p; Cdroms := Cdroms
     p; Disks := Disks p; NetIfaces := NetIfaces p; VSockDevice := VSockDevice p;
     CloudInitDrive_ := CloudInitDrive_ p; Kernel := Kernel p; HostDevices := HostDevices
     p |}.
Definition set_MachineType_ (v : string) (p : t) : t :=
  {| name := name p; uid := uid p; MachineType_ := v; Firmware_ := Firmware_ p; Memory_ :=
     Memory_ p; CPU := CPU p; InputDevices := InputDevices p; Cdroms := Cdroms p; Disks :=
     Disks p; NetIfaces := NetIfaces p; VSockDevice := VSockDevice p; CloudInitDrive_ :=
     CloudInitDrive_ p; Kernel := Kernel p; HostDevices := HostDevices p |}.
Definition set_Firmware_ (v : option Firmware.t) (p : t) : t :=
  {| name := name p; uid := uid p; MachineType_ := MachineType_ p; Firmware_ := v; Memory_
     := Memory_ p; CPU := CPU p; InputDevices := InputDevices p; Cdroms := Cdroms p; Disks
     := Disks p; NetIfaces := NetIfaces p; VSockDevice := VSockDevice p; CloudInitDrive_
     := CloudInitDrive_ p; Kernel := Kernel p; HostDevices := HostDevices p |}.
Definition set_Memory_ (v : Memory.t) (p : t) : t :=
  {| name := name p; uid := uid p; MachineType_ := MachineType_ p; Firmware_ := Firmware_
     p; Memory_ := v; CPU := CPU p; InputDevices := InputDevices p; Cdroms := Cdroms p;
     Disks := Disks p; NetIfaces := NetIfaces p; VSockDevice := VSockDevice p;
     CloudInitDrive_ := CloudInitDrive_ p; Kernel := Kernel p; HostDevices := HostDevices
     p |}.
Definition set_CPU (v : VirtCPU.t) (p : t) : t :=
  {| name := name p; uid := uid p; MachineType_ := MachineType_ p; Firmware_ := Firmware_
     p; Memory_ := Memory_ p; CPU := v; InputDevices := InputDevices p; Cdroms := Cdroms
     p; Disks := Disks p; NetIfaces := NetIfaces p; VSockDevice := VSockDevice p;
     CloudInitDrive_ := CloudInitDrive_ p; Kernel := Kernel p; HostDevices := HostDevices
     p |}.
Definition set_InputDevices (v : Pool.t InputDevice.t) (p : t) : t :=
  {| name := name p; uid := uid p; MachineType_ := MachineType_ p; Firmware_ := Firmware_
     p; Memory_ := Memory_ p; CPU := CPU p; InputDevices := v; Cdroms := Cdroms p; Disks
     := Disks p; NetIfaces := NetIfaces p; VSockDevice := VSockDevice p; CloudInitDrive_
     := CloudInitDrive_ p; Kernel := Kernel p; HostDevices := HostDevices p |}.
Definition set_Cdroms (v : Pool.t Cdrom.t) (p : t) : t :=
  {| name := name p; uid := uid p; MachineType_ := MachineType_ p; Firmware_ := Firmware_
     p; Memory_ := Memory_ p; CPU := CPU p; InputDevices := InputDevices p; Cdroms := v;
     Disks := Disks p; NetIfaces := NetIfaces p; VSockDevice := VSockDevice p;
     CloudInitDrive_ := CloudInitDrive_ p; Kernel := Kernel p; HostDevices := HostDevices
     p |}.
Definition set_Disks (v : Pool.t Disk.t) (p : t) : t :=
  {| name := name p; uid := uid p; MachineType_ := MachineType_ p; Firmware_ := Firmware_
     p; Memory_ := Memory_ p; CPU := CPU p; InputDevices := InputDevices p; Cdroms :=
     Cdroms p; Disks := v; NetIfaces := NetIfaces p; VSockDevice := VSockDevice p;
     CloudInitDrive_ := CloudInitDrive_ p; Kernel := Kernel p; HostDevices := HostDevices
     p |}.
Definition set_NetIfaces (v : Pool.t NetIface.t) (p : t) : t :=
  {| name := name p; uid := uid p; MachineType_ := MachineType_ p; Firmware_ := Firmware_
     p; Memory_ := Memory_ p; CPU := CPU p; InputDevices := InputDevices p; Cdroms :=
     Cdroms p; Disks := Disks p; NetIfaces := v; VSockDevice := VSockDevice p;
     CloudInitDrive_ := CloudInitDrive_ p; Kernel := Kernel p; HostDevices := HostDevices
     p |}.
Definition set_VSockDevice (v : option ChannelVSock.t) (p : t) : t :=
  {| name := name p; uid := uid p; MachineType_ := MachineType_ p; Firmware_ := Firmware_
     p; Memory_ := Memory_ p; CPU := CPU p; InputDevices := InputDevices p; Cdroms :=
     Cdroms p; Disks := Disks p; NetIfaces := NetIfaces p; VSockDevice := v;
     CloudInitDrive_ := CloudInitDrive_ p; Kernel := Kernel p; HostDevices := HostDevices
     p |}.
Definition set_CloudInitDrive_ (v : option CloudInitDrive.t) (p : t) : t :=
  {| name := name p; uid := uid p; MachineType_ := MachineType_ p; Firmware_ := Firmware_
     p; Memory_ := Memory_ p; CPU := CPU p; InputDevices := InputDevices p; Cdroms :=
     Cdroms p; Disks := Disks p; NetIfaces := NetIfaces p; VSockDevice := VSockDevice p;
     CloudInitDrive_ := v; Kernel := Kernel p; HostDevices := HostDevices p |}.
Definition set_Kernel (v : ExtKernel.t) (p : t) : t :=
  {| name := name p; uid := uid p; MachineType_ := MachineType_ p; Firmware_ := Firmware_
     p; Memory_ := Memory_ p; CPU := CPU p; InputDevices := InputDevices p; Cdroms :=
     Cdroms p; Disks := Disks p; NetIfaces := NetIfaces p; VSockDevice := VSockDevice p;
     CloudInitDrive_ := CloudInitDrive_ p; Kernel := v; HostDevices := HostDevices p |}.
Definition set_HostDevices (v : Pool.t HostDevice.t) (p : t) : t :=
  {| name := name p; uid := uid p; MachineType_ := MachineType_ p; Firmware_ := Firmware_
     p; Memory_ := Memory_ p; CPU := CPU p; InputDevices := InputDevices p; Cdroms :=
     Cdroms p; Disks := Disks p; NetIfaces := NetIfaces p; VSockDevice := VSockDevice p;
     CloudInitDrive_ := CloudInitDrive_ p; Kernel := Kernel p; HostDevices := v |}.

(** A literal [InstanceProperties{name: n, uid: u}]. *)
Definition zero (n : string) (u : Z) : t :=
  {| name := n; uid := u; MachineType_ := ""; Firmware_ := None;
     Memory_ := {| Memory.Actual := 0; Memory.Total := 0 |};
     CPU := {| VirtCPU.Actual := 0; VirtCPU.Total := 0; VirtCPU.Sockets := 0;
               VirtCPU.Quota := 0; VirtCPU.Model := "" |};
     InputDevices := Pool.zero; Cdroms := Pool.zero; Disks := Pool.zero;
     NetIfaces := Pool.zero; VSockDevice := None; CloudInitDrive_ := None;
     Kernel := ExtKernel.zero; HostDevices := Pool.zero |}.

(** The firmware paths are trimmed in place. *)
Definition trim_firmware (fw : Firmware.t) : Firmware.t :=
  Firmware.set_Flash (Strings.TrimSpace (Firmware.Flash (Firmware.props fw)))
    (Firmware.set_Image (Strings.TrimSpace (Firmware.Image (Firmware.props fw))) fw).

Definition Validate (strict : bool) : op t () :=
  modify (λ p, set_MachineType_ (Strings.TrimSpace (MachineType_ p)) p);;
  p ← get;
  _ ← lift (if negb (bool_decide (MachineType_ p = "")) && strict
            then (λ _, ()) <$> MachineType.ParseMachineType (MachineType_ p) else Ret ());
  modify (λ p, set_Firmware_ (trim_firmware <$> Firmware_ p) p);;
  zoom Memory_ set_Memory_ Memory.Validate;;
  zoom CPU set_CPU VirtCPU.Validate.

Section getters.
Context `{Env}.

Definition Name (p : t) : string := name p.
Definition UID (p : t) : Z := uid p.
Definition PID (_ : t) : Z := 0.
Definition QemuVersion (_ : t) : Version.t := Version.MustParse (Version.AInt 0).

Definition MachineTypeGet (p : t) : MachineType.t :=
  match MachineType.ParseMachineType (MachineType_ p) with
  | Ret m => m
  | _ => {| MachineType.name := MachineType_ p;
            MachineType.Chipset := QEMU_CHIPSET_UNKNOWN |}
  end.

Definition FirmwareGet (p : t) : option Firmware.t := Firmware.Copy <$> Firmware_ p.
Definition FirmwareGetImage (p : t) : string :=
  match Firmware_ p with None => "" | Some fw => Firmware.Image (Firmware.props fw) end.
Definition FirmwareGetFlash (p : t) : option Disk.t :=
  match Firmware_ p with
  | Some fw => Disk.Copy <$> Firmware.flashDisk fw
  | None => None
  end.

Definition MemoryGetActual (p : t) : Z := Memory.Actual (Memory_ p).
Definition MemoryGetTotal (p : t) : Z := Memory.Total (Memory_ p).
Definition CPUGetActual (p : t) : Z := VirtCPU.Actual (CPU p).
Definition CPUGetTotal (p : t) : Z := VirtCPU.Total (CPU p).
Definition CPUGetSockets (p : t) : Z := VirtCPU.Sockets (CPU p).
Definition CPUGetModel (p : t) : string := VirtCPU.Model (CPU p).
Definition CPUGetQuota (p : t) : Z := VirtCPU.Quota (CPU p).

Definition InputDeviceGet (devtype : string) (p : t) : option InputDevice.t :=
  InputDevice.Copy <$> InputDevicePool.Get devtype (InputDevices p).
Definition InputDeviceGetList (devtypes : list string) (p : t) : list InputDevice.t :=
  InputDevice.Copy <$> InputDevicePool.Values devtypes (InputDevices p).

Definition CdromGet (devname : string) (p : t) : option Cdrom.t :=
  Cdrom.Copy <$> CdromPool.Get devname (Cdroms p).
Definition CdromGetList (devnames : list string) (p : t) : list Cdrom.t :=
  Cdrom.Copy <$> CdromPool.Values devnames (Cdroms p).
Definition CdromGetMedia (devname : string) (p : t) : outcome string :=
  match CdromPool.Get devname (Cdroms p) with
  | None => Throw (NotConnectedError "instance" devname)
  | Some cd => Ret (Cdrom.Media (Cdrom.props cd))
  end.

Definition DiskGet (diskname : string) (p : t) : option Disk.t :=
  (λ kd, Disk.Copy kd.2) <$> DiskPool.Get diskname (Disks p).
Definition DiskGetList (disknames : list string) (p : t) : outcome (list Disk.t) :=
  map Disk.Copy <$> DiskPool.Values disknames (Disks p).

Definition NetIfaceGet (ifname : string) (p : t) : option NetIface.t :=
  NetIface.Copy <$> NetIfacePool.Get ifname (NetIfaces p).
Definition NetIfaceGetList (ifnames : list string) (p : t) : list NetIface.t :=
  NetIface.Copy <$> NetIfacePool.Values ifnames (NetIfaces p).

Definition VSockDeviceGet (p : t) : option ChannelVSock.t :=
  ChannelVSock.Copy <$> VSockDevice p.
Definition CloudInitGetDrive (p : t) : option CloudInitDrive.t :=
  CloudInitDrive.Copy <$> CloudInitDrive_ p.

Definition KernelGetImage (p : t) : string := ExtKernel.Image (Kernel p).
Definition KernelGetCmdline (p : t) : string := ExtKernel.Cmdline (Kernel p).
Definition KernelGetInitrd (p : t) : string := ExtKernel.Initrd (Kernel p).
Definition KernelGetModiso (p : t) : string := ExtKernel.Modiso (Kernel p).

Definition HostDeviceGet (hexaddr : string) (p : t) : option HostDevice.t :=
  (λ kd, HostDevice.Copy kd.2) <$> HostDevicePool.Get hexaddr (HostDevices p).
Definition HostDeviceGetList (hexaddrs : list string) (p : t) : list HostDevice.t :=
  HostDevice.Copy <$> HostDevicePool.Values hexaddrs (HostDevices p).
End getters.
End InstanceProperties.
