(* ===== verification/InstanceConf.v ===== *)
(** InstanceConf: a machine's configuration and every operation on it
    ([kvmrun/instance_conf.go]).

    The configuration is the [InstanceProperties] an [InstanceConf] points to;
    no operation writes the name of its file, [confname].  A pointer read from
    a pool and written through is [Pool.update] at its key. *)

From S2P Require Import Prelude.
From S2P Require Import GoStd.
From S2P Require Import GoFacts.
From S2P Require Import Pool.
From S2P Require Import PciAddress.
From S2P Require Import Backend.
From S2P Require Import Resources.
From S2P Require Import Drivers.
From S2P Require Import Disks.
From S2P Require Import Cdroms.
From S2P Require Import NetIfaces.
From S2P Require Import HostDevices.
From S2P Require Import Peripherals.
From S2P Require Import InstanceProperties.

Open Scope Z_scope.

Definition CONFDIR : string := "/etc/kvmrun".
Definition CHROOTDIR : string := "/var/lib/kvmrun/chroot".

Module InstanceConf.
Import InstanceProperties.

Record InstanceConf := { props : InstanceProperties.t; confname : string }.

Definition newInstanceConf (vmname : string) : InstanceConf :=
  {| props := set_Memory_ {| Memory.Actual := 128; Memory.Total := 128 |}
                (set_CPU {| VirtCPU.Actual := 1; VirtCPU.Total := 1; VirtCPU.Sockets := 0;
                            VirtCPU.Quota := 0; VirtCPU.Model := "" |} (zero vmname 0));
     confname := "config" |}.

Definition NewIncomingConf (vmname : string) : InstanceConf :=
  {| props := zero vmname 0; confname := "incoming_config" |}.

Definition config (c : InstanceConf) : string :=
  Filepath.Join [CONFDIR; name (props c); confname c].

(** [StartupConf] overrides [config]. *)
Definition startup_config (c : InstanceConf) : string :=
  Filepath.Join [CHROOTDIR; name (props c); "run"; confname c].

Definition IsIncoming (c : InstanceConf) : bool :=
  bool_decide (confname c = "incoming_config").

(** [errors.Is(err, pool.ErrAlreadyExists)], [errors.Is(err, pool.ErrNotFound)] *)
Definition already_connected (object : string) (e : goerr) : goerr :=
  match e with PoolAlreadyExists _ => AlreadyConnectedError "instance_conf" object | _ => e end.
Definition not_connected (object : string) (e : goerr) : goerr :=
  match e with PoolNotFound _ => NotConnectedError "instance_conf" object | _ => e end.

Section operations.
Context `{Env, Host}.
Abbreviation conf := InstanceProperties.t.

Definition MachineTypeSet (typename : string) : op conf () :=
  t ← lift (MachineType.ParseMachineType typename);
  modify (set_MachineType_ (MachineType.name t)).

(** A method of the firmware the configuration points to. *)
Definition on_firmware (m : op Firmware.t ()) : op conf () :=
  c ← get;
  match Firmware_ c with
  | None => lift (Panic NilDereference)
  | Some fw => zoom (λ _, fw) (λ fw, set_Firmware_ (Some fw)) m
  end.

Definition FirmwareSetImage (image : string) : op conf () :=
  c ← get;
  match Firmware_ c with
  | None => fw ← lift (Firmware.NewFirmware image ""); modify (set_Firmware_ (Some fw))
  | Some _ => mret ()
  end;;
  on_firmware (Firmware.SetImage image).

Definition FirmwareSetFlash (flash : string) : op conf () :=
  c ← get;
  fail_if (bool_decide (Firmware_ c = None))
    (ErrMsg "firmware image must be set before this operation");;
  on_firmware (Firmware.SetFlash flash).

Definition FirmwareRemoveConf : op conf () := modify (set_Firmware_ None).

Definition MemorySetActual (value : Z) : op conf () :=
  zoom Memory_ set_Memory_ (Memory.SetActual value).
Definition MemorySetTotal (value : Z) : op conf () :=
  zoom Memory_ set_Memory_ (Memory.SetTotal value).
Definition CPUSetActual (value : Z) : op conf () :=
  zoom CPU set_CPU (VirtCPU.SetActual value).
Definition CPUSetTotal (value : Z) : op conf () :=
  zoom CPU set_CPU (VirtCPU.SetTotal value).
Definition CPUSetSockets (value : Z) : op conf () :=
  zoom CPU set_CPU (VirtCPU.SetSockets value).
Definition CPUSetModel (value : string) : op conf () :=
  zoom CPU set_CPU (VirtCPU.SetModel value).
Definition CPUSetQuota (value : Z) : op conf () :=
  zoom CPU set_CPU (VirtCPU.SetQuota value).

Definition InputDeviceAppend (opts : InputDevice.Properties) : op conf () :=
  opts ← lift (InputDevice.Validate opts);
  let dev := {| InputDevice.props := opts |} in
  map_err (already_connected (InputDevice.Type_ opts))
    (zoom InputDevices set_InputDevices (InputDevicePool.Append dev)).

Definition InputDeviceRemove (devtype : string) : op conf () :=
  map_err (not_connected devtype)
    (zoom InputDevices set_InputDevices (InputDevicePool.Remove devtype)).

(** The part [CdromAppend] and [CdromInsert] share. *)
Definition new_cdrom (opts : Cdrom.Properties) : outcome Cdrom.t :=
  opts ← Cdrom.Validate true opts;
  be ← (if bool_decide (Cdrom.Media opts = "") then Ret None
        else Some <$> NewDiskBackend (Cdrom.Media opts));
  Ret (Cdrom.make opts (DriverTypeValue (Cdrom.Driver opts)) be).

Definition CdromAppend (opts : Cdrom.Properties) : op conf () :=
  cd ← lift (new_cdrom opts);
  map_err (already_connected (Cdrom.Name (Cdrom.props cd)))
    (zoom Cdroms set_Cdroms (CdromPool.Append cd)).

Definition CdromInsert (opts : Cdrom.Properties) (position : Z) : op conf () :=
  cd ← lift (new_cdrom opts);
  map_err (already_connected (Cdrom.Name (Cdrom.props cd)))
    (zoom Cdroms set_Cdroms (CdromPool.Insert cd position)).

Definition CdromRemove (devname : string) : op conf () :=
  map_err (not_connected devname) (zoom Cdroms set_Cdroms (CdromPool.Remove devname)).

Definition update_cdrom (devname : string) (f : Cdrom.t → Cdrom.t) : op conf () :=
  modify (λ c, set_Cdroms (Pool.update devname f (Cdroms c)) c).

Definition CdromChangeMedia (devname media : string) : op conf () :=
  let media := Strings.TrimSpace media in
  fail_if (bool_decide (media = "")) (ErrMsg "empty cdrom media");;
  c ← get;
  match CdromPool.Get devname (Cdroms c) with
  | None => throw (NotConnectedError "instance_conf" devname)
  | Some cd =>
      fail_if (bool_decide (Cdrom.Media (Cdrom.props cd) = media))
        (AlreadyConnectedError "instance_conf" media);;
      be ← lift (NewCdromBackend media);
      update_cdrom devname (Cdrom.set_media media (Some be))
  end.

Definition CdromRemoveMedia (devname : string) : op conf () :=
  c ← get;
  match CdromPool.Get devname (Cdroms c) with
  | None => throw (NotConnectedError "instance_conf" devname)
  | Some _ => update_cdrom devname (Cdrom.set_media "" None)
  end.

(** The part [DiskAppend] and [DiskInsert] share. *)
Definition new_disk (opts : Disk.Properties) : outcome Disk.t :=
  opts ← Disk.Validate true opts;
  be ← NewDiskBackend (Disk.Path opts);
  Ret (Disk.make opts (DriverTypeValue (Disk.Driver opts)) (Some be)).

Definition DiskAppend (opts : Disk.Properties) : op conf () :=
  d ← lift (new_disk opts);
  map_err (already_connected (Disk.Path (Disk.props d)))
    (zoom Disks set_Disks (DiskPool.Append d)).

Definition DiskInsert (opts : Disk.Properties) (position : Z) : op conf () :=
  d ← lift (new_disk opts);
  map_err (already_connected (Disk.Path (Disk.props d)))
    (zoom Disks set_Disks (DiskPool.Insert d position)).

Definition DiskRemove (diskname : string) : op conf () :=
  map_err (not_connected diskname) (zoom Disks set_Disks (DiskPool.Remove diskname)).

Definition update_disk (k : string) (f : Disk.t → Disk.t) : op conf () :=
  modify (λ c, set_Disks (Pool.update k f (Disks c)) c).

Definition DiskSetReadIops (diskname : string) (iops : Z) : op conf () :=
  fail_if (iops <? 0) (ErrMsg "invalid iops value: cannot be less than 0");;
  c ← get;
  match DiskPool.Get diskname (Disks c) with
  | None => throw (NotConnectedError "instance_conf" diskname)
  | Some (k, _) => update_disk k (Disk.set_IopsRd iops)
  end.

Definition DiskSetWriteIops (diskname : string) (iops : Z) : op conf () :=
  fail_if (iops <? 0) (ErrMsg "invalid iops value: cannot be less than 0");;
  c ← get;
  match DiskPool.Get diskname (Disks c) with
  | None => throw (NotConnectedError "instance_conf" diskname)
  | Some (k, _) => update_disk k (Disk.set_IopsWr iops)
  end.

Definition DiskRemoveQemuBitmap (_ : string) : op conf () := throw ErrNotImplemented.
Definition DiskResizeQemuBlockdev (_ : string) : op conf () := throw ErrNotImplemented.

Definition NetIfaceAppend (rnd : sys (Z * Z * Z)) (opts : NetIface.Properties) : op conf () :=
  opts ← lift (NetIface.Validate rnd true opts);
  let n := NetIface.make opts (DriverTypeValue (NetIface.Driver opts)) in
  map_err (already_connected (NetIface.Ifname opts))
    (zoom NetIfaces set_NetIfaces (NetIfacePool.Append n)).

Definition NetIfaceRemove (ifname : string) : op conf () :=
  map_err (not_connected ifname) (zoom NetIfaces set_NetIfaces (NetIfacePool.Remove ifname)).

Definition update_netif (ifname : string) (f : NetIface.t → NetIface.t) : op conf () :=
  c ← get;
  match NetIfacePool.Get ifname (NetIfaces c) with
  | None => throw (NotConnectedError "instance_conf" ifname)
  | Some _ => modify (λ c, set_NetIfaces (Pool.update ifname f (NetIfaces c)) c)
  end.

Definition NetIfaceSetQueues (ifname : string) (queues : Z) : op conf () :=
  fail_if (queues <? 1) (ErrMsg "invalid queues value: cannot be less than 1");;
  update_netif ifname (NetIface.set_Queues queues).

Definition NetIfaceSetUpScript (ifname scriptPath : string) : op conf () :=
  _ ← lift (check_file scriptPath scriptPath);
  update_netif ifname (NetIface.set_Ifup scriptPath).

Definition NetIfaceSetDownScript (ifname scriptPath : string) : op conf () :=
  _ ← lift (check_file scriptPath scriptPath);
  update_netif ifname (NetIface.set_Ifdown scriptPath).

Definition NetIfaceSetLinkUp (_ : string) : op conf () := throw ErrNotImplemented.
Definition NetIfaceSetLinkDown (_ : string) : op conf () := throw ErrNotImplemented.

Definition VSockDeviceAppend (opts : ChannelVSock.Properties) : op conf () :=
  c ← get;
  fail_if (negb (bool_decide (VSockDevice c = None)))
    (AlreadyConnectedError "instance_conf" "vsock device");;
  _ ← lift (ChannelVSock.Validate opts);
  modify (set_VSockDevice (Some {| ChannelVSock.props := opts; ChannelVSock.QemuAddr := "" |})).

Definition VSockDeviceRemove : op conf () :=
  c ← get;
  fail_if (bool_decide (VSockDevice c = None))
    (NotConnectedError "instance_conf" "vsock device");;
  modify (set_VSockDevice None).

(** A medium in a file must lie in the machine's home directory; the driver
    of an existing drive is kept. *)
Definition CloudInitSetMedia (media : string) : op conf () :=
  newdrive ← lift (CloudInitDrive.NewCloudInitDrive media);
  c ← get;
  let home := Filepath.Join [CONFDIR; name c] in
  fail_if (match CloudInitDrive.Backend newdrive with
           | Some (FileDevice _) =>
               negb (bool_decide
                 (Filepath.Dir (CloudInitDrive.Media (CloudInitDrive.props newdrive)) = home))
           | _ => false
           end)
    (ErrMsg ("must be placed in the machine home directory: " +:+ home +:+ "/"));;
  modify (set_CloudInitDrive_
    (Some match CloudInitDrive_ c with
          | Some old => CloudInitDrive.set_Driver (CloudInitDrive.driver old) newdrive
          | None => newdrive
          end)).

Definition CloudInitSetDriver (driverName : string) : op conf () :=
  c ← get;
  match CloudInitDrive_ c with
  | None => throw (NotConnectedError "instance_conf" "cloud-init drive")
  | Some drive =>
      let driver : CloudInitDriverType := DriverTypeValue (Strings.TrimSpace driverName) in
      fail_if (bool_decide (driver = DriverType_UNKNOWN))
        (ErrMsg ("unknown cloud-init driver: " +:+ driverName));;
      modify (set_CloudInitDrive_ (Some (CloudInitDrive.set_Driver driver drive)))
  end.

Definition CloudInitRemoveConf : op conf () := modify (set_CloudInitDrive_ None).

Definition KernelSetImage (value : string) : op conf () :=
  zoom Kernel set_Kernel (ExtKernel.SetImage value).
Definition KernelSetCmdline (value : string) : op conf () :=
  zoom Kernel set_Kernel (ExtKernel.SetCmdline value).
Definition KernelSetInitrd (value : string) : op conf () :=
  zoom Kernel set_Kernel (ExtKernel.SetInitrd value).
Definition KernelSetModiso (value : string) : op conf () :=
  zoom Kernel set_Kernel (ExtKernel.SetModiso value).
Definition KernelRemoveConf : op conf () := zoom Kernel set_Kernel ExtKernel.Reset.

Definition HostDeviceAppend (opts : HostDevice.Properties) : op conf () :=
  dev ← lift (HostDevice.NewHostDevice (HostDevice.PCIAddr opts));
  let dev := HostDevice.set_Multifunction (HostDevice.Multifunction opts)
               (HostDevice.set_PrimaryGPU (HostDevice.PrimaryGPU opts) dev) in
  map_err (already_connected (HostDevice.PCIAddr (HostDevice.props dev)))
    (zoom HostDevices set_HostDevices (HostDevicePool.Append dev)).

Definition HostDeviceRemove (hexaddr : string) : op conf () :=
  map_err (not_connected hexaddr)
    (zoom HostDevices set_HostDevices (HostDevicePool.Remove hexaddr)).

Definition update_hostdev (hexaddr : string) (f : HostDevice.t → HostDevice.t) : op conf () :=
  c ← get;
  match HostDevicePool.Get hexaddr (HostDevices c) with
  | None => throw (NotConnectedError "instance_conf" hexaddr)
  | Some (k, _) => modify (λ c, set_HostDevices (Pool.update k f (HostDevices c)) c)
  end.

Definition HostDeviceSetMultifunctionOption (hexaddr : string) (enabled : bool) : op conf () :=
  update_hostdev hexaddr (HostDevice.set_Multifunction enabled).
Definition HostDeviceSetPrimaryGPUOption (hexaddr : string) (enabled : bool) : op conf () :=
  update_hostdev hexaddr (HostDevice.set_PrimaryGPU enabled).

Definition VNCSetPassword (_ : string) : op conf () := throw ErrNotImplemented.
End operations.
End InstanceConf.
