(* ===== verification/CommandLine.v ===== *)
(** CommandLine: the QEMU command line of a machine ([kvmrun/cmdline_qemu.go],
    [kvmrun/cmdline_qemu_i440fx.go]).

    [gen] is split at the comments of the source: one definition per section of
    the argument list, each returning the arguments it appends, bound in the
    source's order so that the first error is the one returned.  The devices come
    from the getters, which return copies, so validating one in place changes
    nothing but the copy. *)

From S2P Require Import Prelude.
From S2P Require Import GoStd.
From S2P Require Import GoFacts.
From S2P Require Import Pool.
From S2P Require Import PciAddress.
From S2P Require Import Backend.
From S2P Require Import PciDevice.
From S2P Require Import Resources.
From S2P Require Import Drivers.
From S2P Require Import Disks.
From S2P Require Import Cdroms.
From S2P Require Import NetIfaces.
From S2P Require Import HostDevices.
From S2P Require Import Peripherals.
From S2P Require Import InstanceProperties.
From S2P Require Import InstanceConf.

Open Scope Z_scope.

Definition FIRST_INCOMING_PORT : Z := 30000.
Definition FIRST_WS_PORT : Z := 10700.
Definition QEMU_BINARY : string := "/usr/lib/kvmrun/qemu.wrapper".
Definition VMNETINIT : string := "/usr/lib/kvmrun/netinit".
Definition QMPMONDIR : string := "/var/run/kvm-monitor".
Definition KERNELSDIR : string := "/var/lib/kvmrun/kernels".
Definition MODULESDIR : string := "/var/lib/kvmrun/modules".

(** What the launcher's process has besides its [Host]: its pid, the contents
    of files, and the bytes its [n]-th call of [rand.Read] delivers. *)
Class Process := {
  os_Getpid : Z;
  read_file : string → sys string;
  rand_Read : nat → sys (Z * Z * Z);
}.

Record CommandLineFeatures := { NoReboot : bool; feature_IncomingHost : string; feature_VNCHost : string }.

Module CommandLine.
Import Strings.

(** [fmt.Sprintf("%d", n)], [fmt.Sprintf("0x%x", n)] *)
Definition d (n : Z) : string := Strconv.Itoa n.
Definition x (n : Z) : string := "0x" +:+ Strconv.hex 1 n.
Definition comma (opts : list string) : string := Join opts ",".

Definition IncomingHost (f : CommandLineFeatures) : string :=
  if bool_decide (feature_IncomingHost f = "") then "0.0.0.0" else feature_IncomingHost f.
Definition VNCHost (f : CommandLineFeatures) : string :=
  if bool_decide (feature_VNCHost f = "") then "127.0.0.2" else feature_VNCHost f.

Definition bootindex_opt (n : Z) : list string :=
  if 0 <? n then ["bootindex=" +:+ d n] else [].

(** The options of a device on a SCSI bus: its channel, bus and lun. *)
Definition scsi_opts (QemuAddr : string) : list string :=
  let '(bus, _, lun) := ParseSCSIAddr QemuAddr in
  ["channel=0,scsi-id=1"; "bus=" +:+ bus +:+ ".0"]
  ++ (if bool_decide (lun = "") then [] else ["lun=" +:+ lun]).

Definition pci_opts (QemuAddr : string) : list string :=
  "bus=pci.0" :: (if bool_decide (QemuAddr = "") then [] else ["addr=" +:+ QemuAddr]).

Definition cdromArgs (dev : Cdrom.t) : list string :=
  let p := Cdrom.props dev in
  let backendOpts :=
    (if bool_decide (TrimSpace (Cdrom.Media p) = "") then
       ["id=" +:+ Cdrom.Name p; "if=none"; "aio=native"; "detect-zeroes=on"]
     else
       ["file=" +:+ Cdrom.Media p; "id=" +:+ Cdrom.Name p; "format=raw"; "if=none"; "aio=native";
        "cache=none"; "detect-zeroes=on"])
    ++ (if Cdrom.Readonly p then ["readonly"] else []) in
  let deviceOpts :=
    [driver_String (Cdrom.driver dev); "drive=" +:+ Cdrom.Name p; "id=" +:+ Cdrom.QdevID dev]
    ++ (match Cdrom.driver dev with
        | CdromDriverType_SCSI_CD => scsi_opts (Cdrom.QemuAddr dev)
        | _ => []
        end)
    ++ bootindex_opt (Cdrom.Bootindex p) in
  ["-drive"; comma backendOpts; "-device"; comma deviceOpts].

Definition diskArgs (disk : Disk.t) : outcome (list string) :=
  let p := Disk.props disk in
  name ← Disk.BaseName disk;
  id ← Disk.QdevID disk;
  let backendOpts :=
    ["file=" +:+ Disk.Path p; "id=" +:+ name; "format=raw"; "if=none"; "aio=native"; "cache=none";
     "detect-zeroes=on"; "iops_rd=" +:+ d (Disk.IopsRd p); "iops_wr=" +:+ d (Disk.IopsWr p)] in
  let deviceOpts :=
    [driver_String (Disk.driver disk); "drive=" +:+ name; "id=" +:+ id]
    ++ (match Disk.driver disk with
        | DiskDriverType_VIRTIO_BLK_PCI => pci_opts (Disk.QemuAddr disk)
        | DiskDriverType_SCSI_HD => scsi_opts (Disk.QemuAddr disk)
        | _ => []
        end)
    ++ bootindex_opt (Disk.Bootindex p) in
  Ret ["-drive"; comma backendOpts; "-device"; comma deviceOpts].

Definition netIfaceArgs (iface : NetIface.t) : list string :=
  let p := NetIface.props iface in
  let mq := bool_decide (NetIface.driver iface = NetDriverType_VIRTIO_NET_PCI)
            && (1 <? NetIface.Queues p) in
  let backendOpts :=
    ["tap"; "ifname=" +:+ NetIface.Ifname p; "id=" +:+ NetIface.Ifname p; "vhost=on";
     "script=" +:+ VMNETINIT; "downscript=no"]
    ++ (if mq then ["queues=" +:+ d (wrap64 (2 * NetIface.Queues p))] else []) in
  let deviceOpts :=
    [driver_String (NetIface.driver iface); "netdev=" +:+ NetIface.Ifname p;
     "id=" +:+ NetIface.QdevID iface; "mac=" +:+ NetIface.HwAddr p]
    ++ (if HotPluggable (NetIface.driver iface) then pci_opts (NetIface.QemuAddr iface) else [])
    ++ bootindex_opt (NetIface.Bootindex p)
    ++ (if mq then ["mq=on,vectors=" +:+ d (wrap64 (2 * NetIface.Queues p + 2))] else []) in
  ["-netdev"; comma backendOpts; "-device"; comma deviceOpts].

(** The closure [opts]. *)
Definition hostpci_opts (num : Z) (dev : HostDevice.t) (hexaddr : string) (fn : Z) : list string :=
  let p := HostDevice.props dev in
  ["vfio-pci"; "host=" +:+ hexaddr; "bus=pci.1"]
  ++ (if HostDevice.Multifunction p
      then ["id=hostpci" +:+ d num +:+ "." +:+ d fn; "addr=" +:+ x num +:+ "." +:+ x fn]
      else ["id=hostpci" +:+ d num; "addr=" +:+ x num])
  ++ (if fn =? 0 then
        (if HostDevice.PrimaryGPU p then ["x-vga=on"] else [])
        ++ (if HostDevice.Multifunction p then ["multifunction=on"] else [])
      else []).

Definition hostpciArgs (num : Z) (dev : HostDevice.t) (be : PciDevice.Device) : list string :=
  ["-device"; comma (hostpci_opts num dev (PciDevice.to_string be) 0)]
  ++ (if HostDevice.Multifunction (HostDevice.props dev) then
        concat (map (λ sub, ["-device"; comma (hostpci_opts num dev (PciDevice.to_string sub)
                                                 (PciDevice.AddrFunction sub))])
                  (PciDevice.Subdevices be))
      else []).

(** [fmt.Errorf("... '%s' validation error: %w", what, err)]: sentinels stay
    recognisable, and the text around them is not kept. *)
Definition validated {P} (what : string) (v : outcome P) : outcome P :=
  match v with
  | Throw (ErrMsg m) => Throw (ErrMsg (what +:+ " validation error: " +:+ m))
  | r => r
  end.
Definition quote (s : string) : string := "'" +:+ s +:+ "'".

Section gen.
Context `{Env, Host, Process, PciBus}.
Context (vmconf : InstanceConf.InstanceConf).
Abbreviation vm := (InstanceConf.props vmconf).
Import InstanceProperties.

Definition qmp_socket (suffix : string) : string :=
  Filepath.Join [QMPMONDIR; Name vm] +:+ suffix.

Definition machine_args : list string :=
  let t := MachineType.to_string (MachineTypeGet vm) in
  [QEMU_BINARY; "-machine"; "accel=kvm:tcg"; "-name"; Name vm]
  ++ (if bool_decide (t = "") then [] else ["-M"; t])
  ++ ["-nodefaults"; "-no-user-config"].

Definition firmware_args : list string :=
  match FirmwareGet vm with
  | None => []
  | Some fw =>
      if bool_decide (Firmware.Image (Firmware.props fw) = "") then []
      else
        ["-drive"; "if=pflash,unit=0,id=fwloader,format=raw,readonly=on,file="
                   +:+ Firmware.Image (Firmware.props fw)]
        ++ match FirmwareGetFlash vm with
           | None => []
           | Some fwflash => ["-drive"; "if=pflash,unit=1,id=fwflash,format=raw,file="
                                        +:+ Disk.Path (Disk.props fwflash)]
           end
  end.

Definition memory_args : list string := ["-m"; d (MemoryGetTotal vm) +:+ "M"].

Definition cpu_args : outcome (list string) :=
  let model := CPUGetModel vm in
  let total := CPUGetTotal vm in
  let sockets := CPUGetSockets vm in
  smp ← (if 1 <? total then
           if 0 <? sockets then
             if negb (Z.rem total sockets =? 0) then
               Throw (ErrMsg ("total CPU count must be multiple of socket count: "
                              +:+ d total +:+ " % " +:+ d sockets +:+ " != 0"))
             else Ret ["-smp"; "cpus=" +:+ d (CPUGetActual vm) +:+ ",sockets=" +:+ d sockets
                       +:+ ",cores=" +:+ d (Z.quot total sockets) +:+ ",maxcpus=" +:+ d total]
           else Ret ["-smp"; "cpus=" +:+ d (CPUGetActual vm) +:+ ",maxcpus=" +:+ d total]
         else Ret []);
  Ret ((if bool_decide (model = "") then [] else ["-cpu"; model]) ++ smp).

(** Ballooning, serial bus and virtual console. *)
Definition common_args : list string :=
  ["-device"; "virtio-balloon-pci,id=balloon0,bus=pci.0,addr=0x3";
   "-device"; "virtio-serial-pci,bus=pci.0,addr=0x4";
   "-chardev"; "socket,id=virtcon,path=" +:+ qmp_socket ".virtcon" +:+ ",server,nowait";
   "-device"; "virtconsole,chardev=virtcon,name=console.0"].

(** The loop over the host devices; [num] is the index of the first. *)
Fixpoint hostpci_loop (num : Z) (devices : list HostDevice.t) : outcome (list string) :=
  match devices with
  | [] => Ret []
  | dev :: devices =>
      let shown := match HostDevicePool.key (HostDevice.PCIAddr (HostDevice.props dev)) with
                   | Ret k => k
                   | _ => HostDevice.PCIAddr (HostDevice.props dev)
                   end in
      p ← validated ("host-pci device " +:+ quote shown)
            (HostDevice.Validate true (HostDevice.props dev));
      be ← pci_LookupDevice (HostDevice.PCIAddr p);
      if HostDevice.Multifunction p && negb (PciDevice.HasMultifunctionFeature be) then
        Throw (ErrMsg ("multifunction is not supported: " +:+ PciDevice.to_string be))
      else
        let dev := {| HostDevice.props := p; HostDevice.BackendAddr := HostDevice.BackendAddr dev |} in
        args ← hostpci_loop (num + 1) devices;
        Ret (hostpciArgs num dev be ++ args)
  end.

Definition hostpci_args : outcome (list string) :=
  match HostDeviceGetList [] vm with
  | [] => Ret []
  | devices =>
      args ← hostpci_loop 0 devices;
      Ret (["-device"; "pci-bridge,id=pci.1,chassis_nr=1,bus=pci.0,addr=0x7"] ++ args)
  end.

Definition vga_args : list string :=
  if existsb (λ dev, HostDevice.PrimaryGPU (HostDevice.props dev)) (HostDeviceGetList [] vm)
  then ["-vga"; "none"; "-nographic"]
  else ["-vga"; "cirrus"].

Definition input_args : list string :=
  concat (map (λ dev,
    if bool_decide (InputDevice.Type_ (InputDevice.props dev) = "usb-tablet") then
      ["-device"; "piix3-usb-uhci,id=uhci,bus=pci.0,addr=0x6";
       "-device"; "usb-tablet,id=tablet,bus=uhci.0"]
    else []) (InputDeviceGetList [] vm)).

(** The driver of a drive without a known one is replaced, its name is not. *)
Definition cloudinit_args : outcome (list string) :=
  match CloudInitGetDrive vm with
  | None => Ret []
  | Some cidrive =>
      let driver := if bool_decide (CloudInitDrive.driver cidrive = CloudInitDriverType_UNKNOWN)
                    then CloudInitDriverType_FLOPPY else CloudInitDrive.driver cidrive in
      p ← validated "cloud-init" (CloudInitDrive.Validate true (CloudInitDrive.props cidrive));
      Ret (["-smbios"; "type=1,serial=ds=nocloud";
            "-drive"; "file=" +:+ CloudInitDrive.Media p
                      +:+ ",id=cidata,format=raw,media=cdrom,if=none,aio=native,cache=none,readonly"]
           ++ match driver with
              | CloudInitDriverType_FLOPPY => ["-device"; "floppy,drive=cidata,id=cidata"]
              | CloudInitDriverType_IDE_CD =>
                  ["-device"; "ide-cd,bus=ide.0,unit=1,drive=cidata,id=cidata"]
              | CloudInitDriverType_UNKNOWN => []
              end)
  end.

Definition guest_agent_args : list string :=
  ["-chardev"; "socket,id=qga0,path=" +:+ qmp_socket ".qga" +:+ ",server,nowait";
   "-device"; "virtio-serial-pci,id=virtio-serial-qga0,bus=pci.0,addr=0x5";
   "-device"; "virtserialport,chardev=qga0,name=org.guest-agent.0"].

(** A context ID of 0 stands for the process ID, as a uint32. *)
Definition vsock_args : outcome (list string) :=
  match VSockDeviceGet vm with
  | None => Ret []
  | Some dev =>
      _ ← validated "virtio-vsock" (ChannelVSock.Validate (ChannelVSock.props dev));
      let cid := if ChannelVSock.ContextID (ChannelVSock.props dev) =? 0
                 then os_Getpid mod 2 ^ 32
                 else ChannelVSock.ContextID (ChannelVSock.props dev) in
      Ret ["-device"; "vhost-vsock-pci,id=vsock_device,guest-cid=" +:+ d cid
           +:+ (if bool_decide (ChannelVSock.QemuAddr dev = "") then ""
                else ",addr=" +:+ ChannelVSock.QemuAddr dev)]
  end.

(** The block that declares a SCSI bus at its first use; [scsiBuses] is the
    set of the names declared so far. *)
Definition bus_args (QemuAddr : string) (scsiBuses : gset string) : list string * gset string :=
  let '(busName, busAddr, _) := ParseSCSIAddr QemuAddr in
  if bool_decide (busName ∈ scsiBuses) then ([], scsiBuses)
  else (["-device"; "virtio-scsi-pci,id=" +:+ busName +:+ ",bus=pci.0"
         +:+ (if bool_decide (busAddr = "") then "" else ",addr=" +:+ busAddr)],
        {[busName]} ∪ scsiBuses).

Fixpoint cdroms_loop (cdroms : list Cdrom.t) (scsiBuses : gset string)
    : outcome (list string * gset string) :=
  match cdroms with
  | [] => Ret ([], scsiBuses)
  | dev :: cdroms =>
      p ← validated ("cdrom " +:+ quote (TrimSpace (Cdrom.Name (Cdrom.props dev))))
            (Cdrom.Validate true (Cdrom.props dev));
      let dev := {| Cdrom.props := p; Cdrom.driver := Cdrom.driver dev;
                    Cdrom.MediaBackend := Cdrom.MediaBackend dev;
                    Cdrom.QemuAddr := Cdrom.QemuAddr dev |} in
      let '(bus, scsiBuses) :=
        match Cdrom.driver dev with
        | CdromDriverType_SCSI_CD => bus_args (Cdrom.QemuAddr dev) scsiBuses
        | _ => ([], scsiBuses)
        end in
      rest ← cdroms_loop cdroms scsiBuses;
      Ret (bus ++ cdromArgs dev ++ rest.1, rest.2)
  end.

Fixpoint disks_loop (disks : list Disk.t) (scsiBuses : gset string)
    : outcome (list string * gset string) :=
  match disks with
  | [] => Ret ([], scsiBuses)
  | disk :: disks =>
      p ← validated ("disk " +:+ quote (TrimSpace (Disk.Path (Disk.props disk))))
            (Disk.Validate true (Disk.props disk));
      let disk := {| Disk.props := p; Disk.driver := Disk.driver disk;
                     Disk.Backend := Disk.Backend disk; Disk.QemuAddr := Disk.QemuAddr disk;
                     Disk.QemuVirtualSize := Disk.QemuVirtualSize disk;
                     Disk.HasBitmap := Disk.HasBitmap disk |} in
      let '(bus, scsiBuses) :=
        match Disk.driver disk with
        | DiskDriverType_SCSI_HD => bus_args (Disk.QemuAddr disk) scsiBuses
        | _ => ([], scsiBuses)
        end in
      args ← diskArgs disk;
      rest ← disks_loop disks scsiBuses;
      Ret (bus ++ args ++ rest.1, rest.2)
  end.

Definition storage_args : outcome (list string) :=
  cd ← cdroms_loop (CdromGetList [] vm) ∅;
  disks ← DiskGetList [] vm;
  dk ← disks_loop disks cd.2;
  Ret (cd.1 ++ dk.1).

Definition kernel_args : list string :=
  let kernImage := KernelGetImage vm in
  let initrd := KernelGetInitrd vm in
  let cmdline := KernelGetCmdline vm in
  let modiso := KernelGetModiso vm in
  if bool_decide (kernImage = "") then []
  else
    ["-kernel"; Filepath.Join [KERNELSDIR; kernImage]]
    ++ (if bool_decide (initrd = "") then [] else ["-initrd"; Filepath.Join [KERNELSDIR; initrd]])
    ++ ["-append"; Join ("root=/dev/vda" :: (if bool_decide (cmdline = "") then []
                                              else [replace ";" " " cmdline])) " "]
    ++ (if bool_decide (modiso = "") then []
        else ["-drive"; "file=" +:+ Filepath.Join [MODULESDIR; modiso]
                        +:+ ",if=none,media=cdrom,id=modiso,format=raw,aio=native,cache=none";
              "-device"; "virtio-blk-pci,drive=modiso,id=modiso,bus=pci.0,addr=0x1f"]).

Fixpoint net_loop (draw : nat) (ifaces : list NetIface.t) : outcome (list string) :=
  match ifaces with
  | [] => Ret []
  | n :: ifaces =>
      p ← validated ("net interface " +:+ quote (TrimSpace (NetIface.Ifname (NetIface.props n))))
            (NetIface.Validate (rand_Read draw) true (NetIface.props n));
      args ← net_loop (S draw) ifaces;
      Ret (netIfaceArgs {| NetIface.props := p; NetIface.driver := NetIface.driver n;
                           NetIface.QemuAddr := NetIface.QemuAddr n |} ++ args)
  end.

Definition net_args : outcome (list string) :=
  match NetIfaceGetList [] vm with
  | [] => Ret ["-net"; "none"]
  | netIfaces => net_loop 0 netIfaces
  end.

(** VNC, monitors, and what depends on the features asked for. *)
Definition control_args (features : CommandLineFeatures) : list string :=
  ["-vnc"; VNCHost features +:+ ":" +:+ d (UID vm) +:+ ",password,websocket="
           +:+ d (wrap64 (FIRST_WS_PORT + UID vm));
   "-qmp"; "unix:" +:+ qmp_socket ".qmp0" +:+ ",server,nowait";
   "-qmp"; "unix:" +:+ qmp_socket ".qmp1" +:+ ",server,nowait"]
  ++ (if NoReboot features then ["-no-reboot"] else [])
  ++ ["-runas"; Name vm]
  ++ (if InstanceConf.IsIncoming vmconf
      then ["-incoming"; "tcp:" +:+ IncomingHost features +:+ ":"
                         +:+ d (wrap64 (FIRST_INCOMING_PORT + UID vm))]
      else []).

(** The lines of the file [extra], if it is there. *)
Definition extra_args : outcome (list string) :=
  match os_Stat "extra" with
  | inr _ => Ret []
  | inl _ => b ← call (read_file "extra"); Ret (Split b (char 10))
  end.

Definition gen (features : CommandLineFeatures) : outcome (list string) :=
  cpu ← cpu_args;
  hostpci ← hostpci_args;
  cloudinit ← cloudinit_args;
  vsock ← vsock_args;
  storage ← storage_args;
  net ← net_args;
  extra ← extra_args;
  Ret (machine_args ++ firmware_args ++ memory_args ++ cpu ++ common_args ++ hostpci ++ vga_args
       ++ input_args ++ cloudinit ++ guest_agent_args ++ vsock
       ++ ["-iscsi"; "initiator-name=iqn.2008-11.org.linux-kvm:kvmrun"]
       ++ storage ++ kernel_args ++ net ++ control_args features ++ extra).

(** [features] may be nil. *)
Definition GetCommandLine (features : option CommandLineFeatures) : outcome (list string) :=
  let features := default {| NoReboot := false; feature_IncomingHost := "";
                             feature_VNCHost := "" |} features in
  match MachineType.Chipset (MachineTypeGet vm) with
  | QEMU_CHIPSET_I440FX => gen features
  | _ => Throw (ErrMsg ("unsupported machine type: " +:+ MachineType.to_string (MachineTypeGet vm)))
  end.
End gen.
End CommandLine.
