(* ===== verification/ConfInvariant.v ===== *)
(** ConfInvariant: the operations on a configuration as one transition system,
    and the invariant, the atomicity and the freedom from panics of every
    operation. *)

From S2P Require Import Prelude.
From S2P Require Import GoStd.
From S2P Require Import GoFacts.
From S2P Require Import Pool.
From S2P Require Import PciAddress.
From S2P Require Import Backend.
From S2P Require Import Resources.
From S2P Require Import Drivers.
From S2P Require Import Disks.
From S2P Require Import Cdroms.
From S2P Require Import NetIfaces.
From S2P Require Import HostDevices.
From S2P Require Import Peripherals.
From S2P Require Import InstanceProperties.
From S2P Require Import InstanceConf.

Open Scope Z_scope.

(** The calls of the [Instance] interface that change a configuration. *)
Inductive conf_op :=
  | MachineTypeSet (typename : string)
  | FirmwareSetImage (image : string)
  | FirmwareSetFlash (flash : string)
  | FirmwareRemoveConf
  | MemorySetActual (value : Z)
  | MemorySetTotal (value : Z)
  | CPUSetActual (value : Z)
  | CPUSetTotal (value : Z)
  | CPUSetSockets (value : Z)
  | CPUSetModel (value : string)
  | CPUSetQuota (value : Z)
  | InputDeviceAppend (opts : InputDevice.Properties)
  | InputDeviceRemove (devtype : string)
  | CdromAppend (opts : Cdrom.Properties)
  | CdromInsert (opts : Cdrom.Properties) (position : Z)
  | CdromRemove (devname : string)
  | CdromChangeMedia (devname media : string)
  | CdromRemoveMedia (devname : string)
  | DiskAppend (opts : Disk.Properties)
  | DiskInsert (opts : Disk.Properties) (position : Z)
  | DiskRemove (diskname : string)
  | DiskSetReadIops (diskname : string) (iops : Z)
  | DiskSetWriteIops (diskname : string) (iops : Z)
  | DiskRemoveQemuBitmap (diskname : string)
  | DiskResizeQemuBlockdev (diskname : string)
  | NetIfaceAppend (opts : NetIface.Properties)
  | NetIfaceRemove (ifname : string)
  | NetIfaceSetQueues (ifname : string) (queues : Z)
  | NetIfaceSetUpScript (ifname scriptPath : string)
  | NetIfaceSetDownScript (ifname scriptPath : string)
  | NetIfaceSetLinkUp (ifname : string)
  | NetIfaceSetLinkDown (ifname : string)
  | VSockDeviceAppend (opts : ChannelVSock.Properties)
  | VSockDeviceRemove
  | CloudInitSetMedia (media : string)
  | CloudInitSetDriver (driverName : string)
  | CloudInitRemoveConf
  | KernelSetImage (value : string)
  | KernelSetCmdline (value : string)
  | KernelSetInitrd (value : string)
  | KernelSetModiso (value : string)
  | KernelRemoveConf
  | HostDeviceAppend (opts : HostDevice.Properties)
  | HostDeviceRemove (hexaddr : string)
  | HostDeviceSetMultifunctionOption (hexaddr : string) (enabled : bool)
  | HostDeviceSetPrimaryGPUOption (hexaddr : string) (enabled : bool)
  | VNCSetPassword (s : string).

(** A call, with the state of the file system and the random bytes it meets. *)
Record call_at := { host : Host; rnd : sys (Z * Z * Z); the_op : conf_op }.

Definition exec `{Env} (c : call_at) : op InstanceProperties.t () :=
  let _ := host c in
  match the_op c with
  | MachineTypeSet s => InstanceConf.MachineTypeSet s
  | FirmwareSetImage s => InstanceConf.FirmwareSetImage s
  | FirmwareSetFlash s => InstanceConf.FirmwareSetFlash s
  | FirmwareRemoveConf => InstanceConf.FirmwareRemoveConf
  | MemorySetActual v => InstanceConf.MemorySetActual v
  | MemorySetTotal v => InstanceConf.MemorySetTotal v
  | CPUSetActual v => InstanceConf.CPUSetActual v
  | CPUSetTotal v => InstanceConf.CPUSetTotal v
  | CPUSetSockets v => InstanceConf.CPUSetSockets v
  | CPUSetModel s => InstanceConf.CPUSetModel s
  | CPUSetQuota v => InstanceConf.CPUSetQuota v
  | InputDeviceAppend o => InstanceConf.InputDeviceAppend o
  | InputDeviceRemove s => InstanceConf.InputDeviceRemove s
  | CdromAppend o => InstanceConf.CdromAppend o
  | CdromInsert o i => InstanceConf.CdromInsert o i
  | CdromRemove s => InstanceConf.CdromRemove s
  | CdromChangeMedia s m => InstanceConf.CdromChangeMedia s m
  | CdromRemoveMedia s => InstanceConf.CdromRemoveMedia s
  | DiskAppend o => InstanceConf.DiskAppend o
  | DiskInsert o i => InstanceConf.DiskInsert o i
  | DiskRemove s => InstanceConf.DiskRemove s
  | DiskSetReadIops s v => InstanceConf.DiskSetReadIops s v
  | DiskSetWriteIops s v => InstanceConf.DiskSetWriteIops s v
  | DiskRemoveQemuBitmap s => InstanceConf.DiskRemoveQemuBitmap s
  | DiskResizeQemuBlockdev s => InstanceConf.DiskResizeQemuBlockdev s
  | NetIfaceAppend o => InstanceConf.NetIfaceAppend (rnd c) o
  | NetIfaceRemove s => InstanceConf.NetIfaceRemove s
  | NetIfaceSetQueues s v => InstanceConf.NetIfaceSetQueues s v
  | NetIfaceSetUpScript s f => InstanceConf.NetIfaceSetUpScript s f
  | NetIfaceSetDownScript s f => InstanceConf.NetIfaceSetDownScript s f
  | NetIfaceSetLinkUp s => InstanceConf.NetIfaceSetLinkUp s
  | NetIfaceSetLinkDown s => InstanceConf.NetIfaceSetLinkDown s
  | VSockDeviceAppend o => InstanceConf.VSockDeviceAppend o
  | VSockDeviceRemove => InstanceConf.VSockDeviceRemove
  | CloudInitSetMedia s => InstanceConf.CloudInitSetMedia s
  | CloudInitSetDriver s => InstanceConf.CloudInitSetDriver s
  | CloudInitRemoveConf => InstanceConf.CloudInitRemoveConf
  | KernelSetImage s => InstanceConf.KernelSetImage s
  | KernelSetCmdline s => InstanceConf.KernelSetCmdline s
  | KernelSetInitrd s => InstanceConf.KernelSetInitrd s
  | KernelSetModiso s => InstanceConf.KernelSetModiso s
  | KernelRemoveConf => InstanceConf.KernelRemoveConf
  | HostDeviceAppend o => InstanceConf.HostDeviceAppend o
  | HostDeviceRemove s => InstanceConf.HostDeviceRemove s
  | HostDeviceSetMultifunctionOption s b => InstanceConf.HostDeviceSetMultifunctionOption s b
  | HostDeviceSetPrimaryGPUOption s b => InstanceConf.HostDeviceSetPrimaryGPUOption s b
  | VNCSetPassword s => InstanceConf.VNCSetPassword s
  end.

(** Configurations reached from a new one by any calls, failed ones included. *)
Inductive reachable `{Env} : InstanceProperties.t → Prop :=
  | reachable_new vmname :
      reachable (InstanceConf.props (InstanceConf.newInstanceConf vmname))
  | reachable_step c p : reachable p → reachable (exec c p).2.

Module Conf.
Section wf.
Context `{Env}.
Import InstanceProperties.
Abbreviation conf := InstanceProperties.t.

(** What is asked of the firmware is a parameter: the disk of its flash file is there
    only if it could be made. *)
Context {F : Firmware.t → Prop}.
Record shape (c : conf) : Prop := {
  wf_memory : Memory.wf (Memory_ c);
  wf_cpu : VirtCPU.wf (CPU c);
  wf_firmware : ∀ fw, Firmware_ c = Some fw → F fw;
  wf_inputs : Pool.wf PeripheralFacts.input_ok (InputDevices c);
  wf_cdroms : Pool.wf CdromFacts.ok (Cdroms c);
  wf_disks : Pool.wf DiskFacts.ok (Disks c);
  wf_netifs : Pool.wf NetIfaceFacts.ok (NetIfaces c);
  wf_vsock : ∀ v, VSockDevice c = Some v → ChannelVSock.ok v;
  wf_cloudinit : ∀ d, CloudInitDrive_ c = Some d → CloudInitDrive.ok d;
  wf_kernel : ExtKernel.wf (Kernel c);
  wf_hostdevs : Pool.wf HostDeviceFacts.ok (HostDevices c);
}.

Lemma wf_new vmname : shape (InstanceConf.props (InstanceConf.newInstanceConf vmname)).
Proof.
  split; simpl; try apply PoolFacts.wf_zero; try done.
  - unfold VirtCPU.wf. simpl. split_and!; [lia..| |]; [by left|done].
Qed.

(** A method of one field. *)
Ltac field := intros; eapply preserves_zoom; [eauto with golang|..];
  [by intros ? []|by intros ? ? [] ?; split].

Lemma on_memory (m : op _ ()) : preserves Memory.wf m → preserves shape (zoom Memory_ set_Memory_ m).
Proof. field. Qed.
Lemma on_cpu (m : op _ ()) : preserves VirtCPU.wf m → preserves shape (zoom CPU set_CPU m).
Proof. field. Qed.
Lemma on_inputs (m : op _ ()) : preserves (Pool.wf PeripheralFacts.input_ok) m →
  preserves shape (zoom InputDevices set_InputDevices m).
Proof. field. Qed.
Lemma on_cdroms (m : op _ ()) : preserves (Pool.wf CdromFacts.ok) m →
  preserves shape (zoom Cdroms set_Cdroms m).
Proof. field. Qed.
Lemma on_disks (m : op _ ()) : preserves (Pool.wf DiskFacts.ok) m → preserves shape (zoom Disks set_Disks m).
Proof. field. Qed.
Lemma on_netifs (m : op _ ()) : preserves (Pool.wf NetIfaceFacts.ok) m →
  preserves shape (zoom NetIfaces set_NetIfaces m).
Proof. field. Qed.
Lemma on_kernel (m : op _ ()) : preserves ExtKernel.wf m → preserves shape (zoom Kernel set_Kernel m).
Proof. field. Qed.
Lemma on_hostdevs (m : op _ ()) : preserves (Pool.wf HostDeviceFacts.ok) m →
  preserves shape (zoom HostDevices set_HostDevices m).
Proof. field. Qed.

(** ** Each operation *)

Ltac lifted := eapply preserves_bind_ensures;
  [ apply ensures_lift; intros ? Hx; exact Hx | simpl; intros ? Hx ].

Lemma preserves_MachineTypeSet s : preserves shape (InstanceConf.MachineTypeSet s).
Proof.
  apply preserves_bind; [apply preserves_lift|]. intros m. apply preserves_modify.
  by intros c []; split.
Qed.

Lemma preserves_on_firmware m :
  preserves F m → preserves shape (InstanceConf.on_firmware m).
Proof.
  intros Hm c Hc. unfold InstanceConf.on_firmware. go_unfold.
  destruct (Firmware_ c) as [fw|] eqn:Hf; [|done].
  specialize (Hm fw (wf_firmware _ Hc fw Hf)). destruct (m fw) as [r fw'].
  destruct Hc. split; try done. by intros ? [= <-].
Qed.

Lemma preserves_FirmwareSetImage `{Host} s :
  (∀ fw, Firmware.ok fw → F fw) → (∀ image, preserves F (Firmware.SetImage image)) →
  preserves shape (InstanceConf.FirmwareSetImage s).
Proof.
  intros Hok Hset. unfold InstanceConf.FirmwareSetImage. apply preserves_bind; [apply preserves_get|]. intros c.
  apply preserves_bind.
  - destruct (Firmware_ c); [apply preserves_ret|]. lifted.
    apply PeripheralFacts.NewFirmware_ok in Hx as [Hx _]. apply preserves_modify.
    intros c' []; split; try done. intros ? [= <-]. by apply Hok.
  - intros _. by apply preserves_on_firmware.
Qed.

Lemma preserves_FirmwareSetFlash s :
  (∀ flash, preserves F (Firmware.SetFlash flash)) → preserves shape (InstanceConf.FirmwareSetFlash s).
Proof.
  intros Hf. unfold InstanceConf.FirmwareSetFlash.
  apply preserves_bind; [apply preserves_get|]. intros c.
  apply preserves_bind; [apply preserves_fail_if|]. intros _.
  by apply preserves_on_firmware.
Qed.

Lemma preserves_InputDeviceAppend o : preserves shape (InstanceConf.InputDeviceAppend o).
Proof.
  unfold InstanceConf.InputDeviceAppend. lifted. injection Hx as <-.
  apply preserves_map_err, on_inputs, PoolFacts.preserves_Append. split; [done|].
  apply GoFacts.TrimSpace_idem.
Qed.

Lemma new_cdrom_ok o cd :
  InstanceConf.new_cdrom o = Ret cd → CdromFacts.ok (Cdrom.Name (Cdrom.props cd)) cd.
Proof.
  intros (p & Hp & (be & Hb & [= <-])%outcome_bind_Ret)%outcome_bind_Ret.
  apply (CdromFacts.cdrom_ok_make _ _ _ Hp). case_bool_decide as Hm; [by injection Hb as <-|].
  apply outcome_fmap_Ret in Hb as (b & Hb & <-). done.
Qed.

Lemma preserves_CdromAppend o : preserves shape (InstanceConf.CdromAppend o).
Proof.
  unfold InstanceConf.CdromAppend. lifted.
  by apply preserves_map_err, on_cdroms, PoolFacts.preserves_Append, (new_cdrom_ok o).
Qed.
Lemma preserves_CdromInsert o i : preserves shape (InstanceConf.CdromInsert o i).
Proof.
  unfold InstanceConf.CdromInsert. lifted.
  by apply preserves_map_err, on_cdroms, PoolFacts.preserves_Insert, (new_cdrom_ok o).
Qed.

(** A write through a pointer kept in a pool. *)
Lemma preserves_update_cdrom k f :
  (∀ cd, CdromFacts.ok k cd → CdromFacts.ok k (f cd)) →
  preserves shape (InstanceConf.update_cdrom k f).
Proof.
  intros Hf. apply preserves_modify. intros c []; split; try done.
  by apply PoolFacts.wf_update.
Qed.
Lemma preserves_update_disk k f :
  (∀ d, DiskFacts.ok k d → DiskFacts.ok k (f d)) → preserves shape (InstanceConf.update_disk k f).
Proof.
  intros Hf. apply preserves_modify. intros c []; split; try done.
  by apply PoolFacts.wf_update.
Qed.
Lemma preserves_update_netif k f :
  (∀ n, NetIfaceFacts.ok k n → NetIfaceFacts.ok k (f n)) →
  preserves shape (InstanceConf.update_netif k f).
Proof.
  intros Hf. unfold InstanceConf.update_netif. apply preserves_bind; [apply preserves_get|].
  intros c. destruct (NetIfacePool.Get _ _); [|apply preserves_throw].
  apply preserves_modify. intros c' []; split; try done. by apply PoolFacts.wf_update.
Qed.
Lemma preserves_update_hostdev k f :
  (∀ k d, HostDeviceFacts.ok k d → HostDeviceFacts.ok k (f d)) →
  preserves shape (InstanceConf.update_hostdev k f).
Proof.
  intros Hf. unfold InstanceConf.update_hostdev. apply preserves_bind; [apply preserves_get|].
  intros c. destruct (HostDevicePool.Get _ _) as [[k' ?]|]; [|apply preserves_throw].
  apply preserves_modify. intros c' []; split; try done. apply PoolFacts.wf_update; auto.
Qed.

Lemma preserves_CdromChangeMedia k m : preserves shape (InstanceConf.CdromChangeMedia k m).
Proof.
  unfold InstanceConf.CdromChangeMedia. simpl.
  eapply preserves_bind_ensures; [apply ensures_fail_if|].
  intros [] Hm. apply bool_decide_eq_false in Hm.
  apply preserves_bind; [apply preserves_get|]. intros c.
  destruct (CdromPool.Get _ _) as [cd|]; [|apply preserves_throw].
  apply preserves_bind; [apply preserves_fail_if|]. intros _. lifted.
  apply preserves_update_cdrom. intros cd'. apply CdromFacts.ok_set_media.
  - apply GoFacts.TrimSpace_idem.
  - split; [done|]. by rewrite BackendFacts.NewDiskBackend_TrimSpace.
Qed.

Lemma preserves_CdromRemoveMedia k : preserves shape (InstanceConf.CdromRemoveMedia k).
Proof.
  unfold InstanceConf.CdromRemoveMedia. apply preserves_bind; [apply preserves_get|]. intros c.
  destruct (CdromPool.Get _ _) as [cd|]; [|apply preserves_throw].
  apply preserves_update_cdrom. intros cd'. by apply CdromFacts.ok_set_media.
Qed.

Lemma new_disk_ok o d :
  InstanceConf.new_disk o = Ret d → DiskFacts.ok (DiskPool.diskname d) d.
Proof.
  intros (p & Hp & (be & Hb & [= <-])%outcome_bind_Ret)%outcome_bind_Ret.
  by apply (DiskFacts.disk_ok_make _ _ _ Hp).
Qed.

Lemma preserves_DiskAppend o : preserves shape (InstanceConf.DiskAppend o).
Proof.
  unfold InstanceConf.DiskAppend. lifted.
  by apply preserves_map_err, on_disks, DiskFacts.disk_preserves_Append, (new_disk_ok o).
Qed.
Lemma preserves_DiskInsert o i : preserves shape (InstanceConf.DiskInsert o i).
Proof.
  unfold InstanceConf.DiskInsert. lifted.
  by apply preserves_map_err, on_disks, DiskFacts.disk_preserves_Insert, (new_disk_ok o).
Qed.
Lemma preserves_DiskRemove n : preserves shape (InstanceConf.DiskRemove n).
Proof. by apply preserves_map_err, on_disks, DiskFacts.disk_preserves_Remove. Qed.

Lemma preserves_DiskSetIops set n v :
  (∀ k d, DiskFacts.ok k d → 0 ≤ v → DiskFacts.ok k (set d)) →
  preserves shape
    (fail_if (v <? 0) (ErrMsg "invalid iops value: cannot be less than 0");;
     c ← get;
     match DiskPool.Get n (Disks c) with
     | None => throw (NotConnectedError "instance_conf" n)
     | Some (k, _) => InstanceConf.update_disk k set
     end).
Proof.
  intros Hset. eapply preserves_bind_ensures; [apply ensures_fail_if|]. intros [] Hv.
  apply preserves_bind; [apply preserves_get|]. intros c.
  destruct (DiskPool.Get _ _) as [[k d]|]; [|apply preserves_throw].
  apply preserves_update_disk. intros d' Hd. apply Hset; [done|lia].
Qed.

Lemma preserves_NetIfaceAppend `{Host} r o : preserves shape (InstanceConf.NetIfaceAppend r o).
Proof.
  unfold InstanceConf.NetIfaceAppend. lifted.
  apply preserves_map_err, on_netifs, PoolFacts.preserves_Append.
  by apply (NetIfaceFacts.netif_ok_make r o).
Qed.

Lemma preserves_NetIfaceSetQueues k v : preserves shape (InstanceConf.NetIfaceSetQueues k v).
Proof.
  eapply preserves_bind_ensures; [apply ensures_fail_if|]. intros [] Hv.
  apply preserves_update_netif. intros n. apply NetIfaceFacts.ok_set_Queues. lia.
Qed.
Lemma preserves_NetIfaceSetUpScript `{Host} k f :
  preserves shape (InstanceConf.NetIfaceSetUpScript k f).
Proof.
  apply preserves_bind; [apply preserves_lift|]. intros _.
  apply preserves_update_netif. intros n. apply NetIfaceFacts.ok_set_Ifup.
Qed.
Lemma preserves_NetIfaceSetDownScript `{Host} k f :
  preserves shape (InstanceConf.NetIfaceSetDownScript k f).
Proof.
  apply preserves_bind; [apply preserves_lift|]. intros _.
  apply preserves_update_netif. intros n. apply NetIfaceFacts.ok_set_Ifdown.
Qed.

Lemma preserves_VSockDeviceAppend o : preserves shape (InstanceConf.VSockDeviceAppend o).
Proof.
  apply preserves_bind; [apply preserves_get|]. intros c.
  apply preserves_bind; [apply preserves_fail_if|]. intros _. lifted.
  unfold ChannelVSock.Validate in Hx. destruct (_ && _) eqn:Ho; [done|].
  apply preserves_modify. intros c' []; split; try done.
  intros ? [= <-]. unfold ChannelVSock.ok. simpl. lia.
Qed.
Lemma preserves_VSockDeviceRemove : preserves shape InstanceConf.VSockDeviceRemove.
Proof.
  apply preserves_bind; [apply preserves_get|]. intros c.
  apply preserves_bind; [apply preserves_fail_if|]. intros _.
  apply preserves_modify. by intros c' []; split.
Qed.

Lemma preserves_CloudInitSetMedia s : preserves shape (InstanceConf.CloudInitSetMedia s).
Proof.
  unfold InstanceConf.CloudInitSetMedia. lifted.
  apply PeripheralFacts.NewCloudInitDrive_ok in Hx as [Hx _].
  eapply preserves_bind_ensures; [apply ensures_get|]. intros c Hc.
  apply preserves_bind; [apply preserves_fail_if|]. intros _.
  apply preserves_modify. intros c' []; split; try done. simpl. intros ? [= <-].
  destruct (CloudInitDrive_ c) as [old|] eqn:Ho; [|done].
  apply PeripheralFacts.ok_set_Driver; [|done]. by apply (wf_cloudinit _ Hc).
Qed.
Lemma preserves_CloudInitSetDriver s : preserves shape (InstanceConf.CloudInitSetDriver s).
Proof.
  eapply preserves_bind_ensures; [apply ensures_get|]. intros c Hc.
  destruct (CloudInitDrive_ c) as [old|] eqn:Ho; [|apply preserves_throw].
  eapply preserves_bind_ensures; [apply ensures_fail_if|]. intros [] Hd.
  apply bool_decide_eq_false in Hd. apply preserves_modify. intros c' []; split; try done.
  intros ? [= <-]. apply PeripheralFacts.ok_set_Driver; [done|].
  by apply (wf_cloudinit _ Hc).
Qed.

Lemma preserves_HostDeviceAppend o : preserves shape (InstanceConf.HostDeviceAppend o).
Proof.
  unfold InstanceConf.HostDeviceAppend. lifted.
  apply HostDeviceFacts.ok_new in Hx as (a' & Ha & _ & Hok).
  apply preserves_map_err, on_hostdevs. unfold HostDevicePool.Append. simpl. rewrite Ha.
  apply PoolFacts.preserves_Append.
  by apply HostDeviceFacts.ok_set_Multifunction, HostDeviceFacts.ok_set_PrimaryGPU.
Qed.
End wf.
Arguments shape {_} F c.
(** Everything is there, the disk of the flash file too. *)
Definition wf `{Env} : InstanceProperties.t → Prop := shape Firmware.ok.
End Conf.

#[export] Hint Resolve Conf.on_memory Conf.on_cpu Conf.on_inputs Conf.on_cdroms Conf.on_disks
  Conf.on_netifs Conf.on_kernel Conf.on_hostdevs HostDeviceFacts.hostdev_preserves_Remove
  Conf.preserves_MachineTypeSet
  Conf.preserves_InputDeviceAppend Conf.preserves_CdromAppend Conf.preserves_CdromInsert
  Conf.preserves_CdromChangeMedia Conf.preserves_CdromRemoveMedia Conf.preserves_DiskAppend
  Conf.preserves_DiskInsert Conf.preserves_DiskRemove Conf.preserves_NetIfaceAppend
  Conf.preserves_NetIfaceSetQueues Conf.preserves_NetIfaceSetUpScript
  Conf.preserves_NetIfaceSetDownScript Conf.preserves_VSockDeviceAppend
  Conf.preserves_VSockDeviceRemove Conf.preserves_CloudInitSetMedia
  Conf.preserves_CloudInitSetDriver Conf.preserves_HostDeviceAppend : golang.

Section theorems.
Context `{Env}.

Lemma preserves_exec_shape F c :
  (∀ fw, Firmware.ok fw → F fw) → (∀ image, preserves F (Firmware.SetImage image)) →
  (∀ flash, preserves F (Firmware.SetFlash flash)) → preserves (Conf.shape F) (exec c).
Proof.
  intros Hok Hi Hf. destruct c as [h r []]; cbv beta iota zeta delta [exec the_op host rnd];
    eauto with golang.
  all: try (by apply Conf.preserves_FirmwareSetImage || by apply Conf.preserves_FirmwareSetFlash).
  all: try (apply preserves_throw).
  all: try (apply preserves_modify; by intros p []; split).
  all: try (apply Conf.on_memory || apply Conf.on_cpu || apply Conf.on_kernel; by eauto with golang).
  all: try (apply preserves_map_err; (apply Conf.on_inputs || apply Conf.on_cdroms ||
    apply Conf.on_netifs || apply Conf.on_hostdevs);
    first [apply PoolFacts.preserves_Remove|apply HostDeviceFacts.hostdev_preserves_Remove]).
  - by apply Conf.preserves_DiskSetIops; intros; apply DiskFacts.ok_set_IopsRd.
  - by apply Conf.preserves_DiskSetIops; intros; apply DiskFacts.ok_set_IopsWr.
  - apply Conf.preserves_update_hostdev. intros. by apply HostDeviceFacts.ok_set_Multifunction.
  - apply Conf.preserves_update_hostdev. intros. by apply HostDeviceFacts.ok_set_PrimaryGPU.
Qed.

Lemma preserves_exec c : PeripheralFacts.flash_available → preserves Conf.wf (exec c).
Proof.
  intros Hf. apply preserves_exec_shape; [done|apply PeripheralFacts.preserves_Firmware_SetImage|].
  intros flash. by apply PeripheralFacts.preserves_SetFlash.
Qed.
Lemma preserves_exec_written c : preserves (Conf.shape Firmware.written) (exec c).
Proof.
  apply preserves_exec_shape; [apply PeripheralFacts.ok_written|apply PeripheralFacts.written_SetImage
  |apply PeripheralFacts.written_SetFlash].
Qed.
Lemma wf_written p : Conf.wf p → Conf.shape Firmware.written p.
Proof. intros []. split; try done. intros fw Hfw. by apply PeripheralFacts.ok_written, wf_firmware. Qed.

(** ** Atomicity *)

Ltac read :=
  lazymatch goal with
  | |- readonly (lift _) => apply readonly_lift
  | |- readonly get => apply readonly_get
  | |- readonly (fail_if _ _) => apply readonly_fail_if
  | |- readonly (throw _) => apply readonly_throw
  end.
Ltac conf_atomic :=
  repeat lazymatch goal with
    | |- atomic (mbind _ (lift _)) => apply atomic_bind; [read|intros ?]
    | |- atomic (mbind _ get) => apply atomic_bind; [read|intros ?]
    | |- atomic (mbind _ (fail_if _ _)) => apply atomic_bind; [read|intros ?]
    | |- atomic (throw _) => apply readonly_atomic, readonly_throw
    | |- atomic (modify _) => apply atomic_modify
    | |- atomic (map_err _ _) => apply atomic_map_err
    | |- atomic (zoom _ _ _) => apply atomic_zoom; [|by intros []]
    | |- atomic (Pool.Append _ _ _) => apply PoolFacts.atomic_Append
    | |- atomic (Pool.Insert _ _ _) => apply PoolFacts.atomic_Insert
    | |- atomic (Pool.Remove _) => apply PoolFacts.atomic_Remove
    | |- atomic (DiskPool.Remove _) => apply DiskFacts.disk_atomic_Remove
    | |- atomic (HostDevicePool.Remove _) => apply HostDeviceFacts.hostdev_atomic_Remove
    | |- atomic (InstanceConf.update_cdrom _ _) => apply atomic_modify
    | |- atomic (InstanceConf.update_disk _ _) => apply atomic_modify
    | |- atomic (match ?x with _ => _ end) => destruct x
    | |- atomic (let _ := _ in _) => cbv zeta
    end.

(** The firmware is created only when the image it is given is accepted. *)
Lemma atomic_FirmwareSetImage `{Host} s : atomic (InstanceConf.FirmwareSetImage s).
Proof.
  intros c. unfold InstanceConf.FirmwareSetImage, InstanceConf.on_firmware. go_unfold.
  destruct (InstanceProperties.Firmware_ c) as [fw|] eqn:Hf.
  - rewrite Hf. rewrite PeripheralFacts.SetImage_run. case_bool_decide; [|done].
    intros _. destruct c. simpl in *. by subst.
  - destruct (Firmware.NewFirmware s "") as [fw| |] eqn:Hn; [|done..]. simpl.
    rewrite PeripheralFacts.SetImage_run.
    apply PeripheralFacts.NewFirmware_ok in Hn as [[[_ Hi] ? ?] Hs].
    rewrite bool_decide_false by congruence. done.
Qed.

Lemma atomic_FirmwareSetFlash s :
  PeripheralFacts.flash_available → atomic (InstanceConf.FirmwareSetFlash s).
Proof.
  intros Hf c. unfold InstanceConf.FirmwareSetFlash, InstanceConf.on_firmware. go_unfold.
  destruct (InstanceProperties.Firmware_ c) as [fw|] eqn:Hc; [|done].
  simpl. rewrite Hc, PeripheralFacts.SetFlash_run. specialize (Hf (Strings.TrimSpace s)).
  case_bool_decide; [intros _; destruct c; simpl in *; by subst|].
  by destruct (Firmware.newFirmwareFlashDisk _).
Qed.

Lemma exec_is_atomic c :
  (∀ s, the_op c = FirmwareSetFlash s → PeripheralFacts.flash_available) → atomic (exec c).
Proof.
  intros Hf. destruct c as [h r []]; cbv beta iota zeta delta [exec the_op host rnd].
  all: try (by apply readonly_atomic, readonly_throw).
  all: try apply atomic_modify.
  all: try (apply atomic_zoom; [|by intros []];
    first [ apply MemoryFacts.atomic_Memory_SetActual | apply MemoryFacts.atomic_Memory_SetTotal
          | apply VirtCPUFacts.atomic_CPU_SetActual | apply VirtCPUFacts.atomic_CPU_SetTotal
          | apply VirtCPUFacts.atomic_SetSockets | apply VirtCPUFacts.atomic_SetModel
          | apply VirtCPUFacts.atomic_SetQuota | by intros [] ]).
  - unfold InstanceConf.MachineTypeSet. conf_atomic.
  - apply atomic_FirmwareSetImage.
  - by eapply atomic_FirmwareSetFlash, Hf.
  - unfold InstanceConf.InputDeviceAppend, InputDevicePool.Append. conf_atomic.
  - unfold InstanceConf.InputDeviceRemove, InputDevicePool.Remove. conf_atomic.
  - unfold InstanceConf.CdromAppend, CdromPool.Append. conf_atomic.
  - unfold InstanceConf.CdromInsert, CdromPool.Insert. conf_atomic.
  - unfold InstanceConf.CdromRemove, CdromPool.Remove. conf_atomic.
  - unfold InstanceConf.CdromChangeMedia. conf_atomic.
  - unfold InstanceConf.CdromRemoveMedia. conf_atomic.
  - unfold InstanceConf.DiskAppend, DiskPool.Append. conf_atomic.
  - unfold InstanceConf.DiskInsert, DiskPool.Insert. conf_atomic.
  - unfold InstanceConf.DiskRemove. conf_atomic.
  - unfold InstanceConf.DiskSetReadIops. conf_atomic.
  - unfold InstanceConf.DiskSetWriteIops. conf_atomic.
  - unfold InstanceConf.NetIfaceAppend, NetIfacePool.Append. conf_atomic.
  - unfold InstanceConf.NetIfaceRemove, NetIfacePool.Remove. conf_atomic.
  - unfold InstanceConf.NetIfaceSetQueues, InstanceConf.update_netif. conf_atomic.
  - unfold InstanceConf.NetIfaceSetUpScript, InstanceConf.update_netif. conf_atomic.
  - unfold InstanceConf.NetIfaceSetDownScript, InstanceConf.update_netif. conf_atomic.
  - unfold InstanceConf.VSockDeviceAppend. conf_atomic.
  - unfold InstanceConf.VSockDeviceRemove. conf_atomic.
  - unfold InstanceConf.CloudInitSetMedia. conf_atomic.
  - unfold InstanceConf.CloudInitSetDriver. conf_atomic.
  - unfold InstanceConf.HostDeviceAppend, HostDevicePool.Append. conf_atomic.
  - unfold InstanceConf.HostDeviceRemove. conf_atomic.
  - unfold InstanceConf.HostDeviceSetMultifunctionOption, InstanceConf.update_hostdev. conf_atomic.
  - unfold InstanceConf.HostDeviceSetPrimaryGPUOption, InstanceConf.update_hostdev. conf_atomic.
Qed.
(** ** Panics *)

Lemma new_cdrom_panic o p : InstanceConf.new_cdrom o ≠ Panic p.
Proof.
  apply BackendFacts.bind_panic; [apply CdromFacts.cdrom_Validate_panic|]. intros a q.
  apply BackendFacts.bind_panic; [|done]. intros q'. case_match; [done|].
  apply BackendFacts.fmap_panic, BackendFacts.remote_or_block_panic.
Qed.
Lemma new_disk_panic o p : InstanceConf.new_disk o ≠ Panic p.
Proof.
  apply BackendFacts.bind_panic; [apply DiskFacts.disk_Validate_panic|]. intros a q.
  apply BackendFacts.bind_panic; [|done]. apply BackendFacts.remote_or_block_panic.
Qed.
Lemma NewCloudInitDrive_panic s p : CloudInitDrive.NewCloudInitDrive s ≠ Panic p.
Proof.
  unfold CloudInitDrive.NewCloudInitDrive. case_match; [done|].
  apply BackendFacts.bind_panic; [apply PeripheralFacts.NewCloudInitDriveBackend_panic|].
  intros b q. apply BackendFacts.bind_panic; [|done]. intros q'.
  unfold CloudInitDrive.Validate. case_match; [done|].
  apply BackendFacts.bind_panic; [apply validate_driver_panic|done].
Qed.
Lemma check_file_panic `{Host} w f p : check_file w f ≠ Panic p.
Proof. unfold check_file. by repeat case_match. Qed.
Lemma NewHostDevice_panic s p : HostDevice.NewHostDevice s ≠ Panic p.
Proof.
  rewrite HostDeviceFacts.NewHostDevice_run.
  apply BackendFacts.bind_panic; [apply Pci.AddressFromHex_panic|done].
Qed.
Lemma DiskPool_Remove_panic n : no_panic (DiskPool.Remove n).
Proof.
  intros p q. rewrite DiskFacts.disk_Remove_run. case_match; [case_match|done].
  apply PoolFacts.Remove_panic.
Qed.
Lemma HostDevicePool_Remove_panic n : no_panic (HostDevicePool.Remove n).
Proof.
  apply no_panic_bind; [apply no_panic_lift|intros k p q; apply PoolFacts.Remove_panic].
  intros p. apply BackendFacts.fmap_panic, Pci.AddressFromHex_panic.
Qed.

Ltac conf_panic :=
  repeat lazymatch goal with
    | |- no_panic (lift _) => apply no_panic_lift; intros ?
    | |- no_panic get => apply no_panic_get
    | |- no_panic (fail_if _ _) => apply no_panic_fail_if
    | |- no_panic (mbind _ _) => apply no_panic_bind; [|intros ?]
    | |- no_panic (throw _) => apply no_panic_throw
    | |- no_panic (modify _) => apply no_panic_modify
    | |- no_panic (map_err _ _) => apply no_panic_map_err
    | |- no_panic (zoom _ _ _) => apply no_panic_zoom
    | |- no_panic (Pool.Append _ _ _) => intros ??; apply PoolFacts.Append_panic
    | |- no_panic (Pool.Insert _ _ _) => intros ??; apply PoolFacts.Insert_panic
    | |- no_panic (Pool.Remove _) => intros ??; apply PoolFacts.Remove_panic
    | |- no_panic (DiskPool.Remove _) => apply DiskPool_Remove_panic
    | |- no_panic (HostDevicePool.Remove _) => apply HostDevicePool_Remove_panic
    | |- no_panic (InstanceConf.update_cdrom _ _) => apply no_panic_modify
    | |- no_panic (InstanceConf.update_disk _ _) => apply no_panic_modify
    | |- no_panic (match ?x with _ => _ end) => destruct x
    | |- no_panic (let _ := _ in _) => cbv zeta
    end.

Lemma FirmwareSetImage_panic `{Host} s : no_panic (InstanceConf.FirmwareSetImage s).
Proof.
  intros c p. unfold InstanceConf.FirmwareSetImage, InstanceConf.on_firmware. go_unfold.
  destruct (InstanceProperties.Firmware_ c) as [fw|] eqn:Hf.
  - rewrite Hf, PeripheralFacts.SetImage_run. by case_bool_decide.
  - destruct (Firmware.NewFirmware s "") as [fw| |q] eqn:Hn; simpl; [|done|].
    + rewrite PeripheralFacts.SetImage_run. by case_bool_decide.
    + exfalso. revert Hn. unfold Firmware.NewFirmware, Firmware.Validate. simpl.
      apply BackendFacts.bind_panic; [by case_match|]. intros a q'.
      apply BackendFacts.bind_panic; [|done]. intros q2. case_match; [done|].
      apply BackendFacts.fmap_panic, PeripheralFacts.newFirmwareFlashDisk_panic.
Qed.

Lemma FirmwareSetFlash_panic s : no_panic (InstanceConf.FirmwareSetFlash s).
Proof.
  intros c p. unfold InstanceConf.FirmwareSetFlash, InstanceConf.on_firmware. go_unfold.
  destruct (InstanceProperties.Firmware_ c) as [fw|] eqn:Hc; [|done].
  simpl. rewrite Hc, PeripheralFacts.SetFlash_run.
  pose proof (PeripheralFacts.newFirmwareFlashDisk_panic (Strings.TrimSpace s)) as Hn.
  case_bool_decide; [done|].
  destruct (Firmware.newFirmwareFlashDisk _) as [| |q]; [done..|]. by destruct (Hn q).
Qed.

Lemma exec_quiet c :
  (∀ v, the_op c ≠ CPUSetSockets v) → no_panic (exec c).
Proof.
  intros Hc. destruct c as [h r []]; cbv beta iota zeta delta [exec the_op host rnd] in *.
  all: try (apply no_panic_throw || apply no_panic_modify).
  - unfold InstanceConf.MachineTypeSet. conf_panic. apply MachineTypeFacts.ParseMachineType_panic.
  - apply FirmwareSetImage_panic.
  - apply FirmwareSetFlash_panic.
  - unfold InstanceConf.MemorySetActual, Memory.SetActual. conf_panic.
  - unfold InstanceConf.MemorySetTotal, Memory.SetTotal. conf_panic.
  - unfold InstanceConf.CPUSetActual, VirtCPU.SetActual. conf_panic.
  - unfold InstanceConf.CPUSetTotal, VirtCPU.SetTotal. conf_panic.
  - by destruct (Hc value).
  - unfold InstanceConf.CPUSetQuota, VirtCPU.SetQuota. conf_panic.
  - unfold InstanceConf.InputDeviceAppend, InputDevicePool.Append. conf_panic. done.
  - unfold InstanceConf.InputDeviceRemove, InputDevicePool.Remove. conf_panic.
  - unfold InstanceConf.CdromAppend, CdromPool.Append. conf_panic. apply new_cdrom_panic.
  - unfold InstanceConf.CdromInsert, CdromPool.Insert. conf_panic. apply new_cdrom_panic.
  - unfold InstanceConf.CdromRemove, CdromPool.Remove. conf_panic.
  - unfold InstanceConf.CdromChangeMedia. conf_panic. apply BackendFacts.remote_or_block_panic.
  - unfold InstanceConf.CdromRemoveMedia. conf_panic.
  - unfold InstanceConf.DiskAppend, DiskPool.Append. conf_panic. apply new_disk_panic.
  - unfold InstanceConf.DiskInsert, DiskPool.Insert. conf_panic. apply new_disk_panic.
  - unfold InstanceConf.DiskRemove. conf_panic.
  - unfold InstanceConf.DiskSetReadIops. conf_panic.
  - unfold InstanceConf.DiskSetWriteIops. conf_panic.
  - unfold InstanceConf.NetIfaceAppend, NetIfacePool.Append. conf_panic.
    apply NetIfaceFacts.netif_Validate_panic.
  - unfold InstanceConf.NetIfaceRemove, NetIfacePool.Remove. conf_panic.
  - unfold InstanceConf.NetIfaceSetQueues, InstanceConf.update_netif. conf_panic.
  - unfold InstanceConf.NetIfaceSetUpScript, InstanceConf.update_netif. conf_panic.
    apply check_file_panic.
  - unfold InstanceConf.NetIfaceSetDownScript, InstanceConf.update_netif. conf_panic.
    apply check_file_panic.
  - unfold InstanceConf.VSockDeviceAppend. conf_panic. unfold ChannelVSock.Validate. by case_match.
  - unfold InstanceConf.VSockDeviceRemove. conf_panic.
  - unfold InstanceConf.CloudInitSetMedia. conf_panic. apply NewCloudInitDrive_panic.
  - unfold InstanceConf.CloudInitSetDriver. conf_panic.
  - unfold InstanceConf.HostDeviceAppend, HostDevicePool.Append. conf_panic.
    apply NewHostDevice_panic.
  - unfold InstanceConf.HostDeviceRemove. conf_panic.
  - unfold InstanceConf.HostDeviceSetMultifunctionOption, InstanceConf.update_hostdev. conf_panic.
  - unfold InstanceConf.HostDeviceSetPrimaryGPUOption, InstanceConf.update_hostdev. conf_panic.
Qed.
End theorems.
