(* ===== verification/ConfTheorems.v ===== *)
(** ConfTheorems: what holds of a machine's configuration: the invariant of
    every reachable one, failures that change nothing, but for one, the only panic, and the
    behaviour of the device operations on every branch. *)

From S2P Require Import Prelude.
From S2P Require Import GoStd.
From S2P Require Import GoFacts.
From S2P Require Import Pool.
From S2P Require Import PciAddress.
From S2P Require Import Backend.
From S2P Require Import Resources.
From S2P Require Import Drivers.
From S2P Require Import Disks.
From S2P Require Import Cdroms.
From S2P Require Import NetIfaces.
From S2P Require Import HostDevices.
From S2P Require Import Peripherals.
From S2P Require Import InstanceProperties.
From S2P Require Import InstanceConf.
From S2P Require Import ConfInvariant.

Open Scope Z_scope.

(** An environment and a file system for the witnesses: no URL parses, and the
    only file is [/bin/true]. *)
Definition sample_env : Env :=
  {| os_Getwd := inl "/root"; url_Parse s := inr (ErrMsg "parse") |}.
Definition sample_host : Host :=
  {| os_Stat s := if bool_decide (s = "/bin/true") then inl (ModeRegular, 1)
                  else inr (ErrNotExist s);
     os_Lstat s := inr (ErrNotExist s);
     BLKGETSIZE64 s := inr (ErrHost s) |}.
Definition sample_call (o : conf_op) : call_at :=
  {| host := sample_host; rnd := inl (1, 2, 255); the_op := o |}.
Definition sample_run (os : list conf_op) : list (outcome ()) * InstanceProperties.t :=
  run (@exec sample_env) (map sample_call os)
    (InstanceConf.props (InstanceConf.newInstanceConf "vm1")).

Section helpers.
Context `{Env}.

Lemma reachable_ind_wf p :
  PeripheralFacts.flash_available → reachable p → Conf.wf p.
Proof.
  intros Hf Hp. induction Hp as [vmname|c p Hp IH]; [exact (Conf.wf_new vmname)|].
  exact (preserves_exec c Hf p IH).
Qed.

Lemma reachable_run cs p : reachable p → reachable (run exec cs p).2.
Proof.
  revert p. induction cs as [|c cs IH]; intros p Hp; [done|]. simpl.
  destruct (exec c p) as [r p1] eqn:E.
  assert (reachable p1) as Hp1 by (replace p1 with (exec c p).2 by (by rewrite E); by constructor).
  specialize (IH p1 Hp1). by destruct (run exec cs p1).
Qed.

(** A method of the disk pool, its errors mapped, on a configuration. *)
Lemma zoom_disks_run f (m : op (Pool.t Disk.t) ()) c :
  map_err f (zoom InstanceProperties.Disks InstanceProperties.set_Disks m) c =
    let '(r, p) := m (InstanceProperties.Disks c) in
    (match r with Throw e => Throw (f e) | _ => r end, InstanceProperties.set_Disks p c).
Proof. unfold map_err, zoom. by destruct (m _) as [[] ?]. Qed.

Lemma set_Disks_id c : InstanceProperties.set_Disks (InstanceProperties.Disks c) c = c.
Proof. by destruct c. Qed.

Lemma DiskAppend_run o c :
  Conf.wf c →
  InstanceConf.DiskAppend o c =
    match InstanceConf.new_disk o with
    | Ret d =>
        let n := DiskPool.diskname d in
        if bool_decide (n = "") then (Throw (ErrMsg "key cannot be empty"), c)
        else if bool_decide (n ∈ Pool.Keys (InstanceProperties.Disks c)) then
          (Throw (AlreadyConnectedError "instance_conf" (Disk.Path (Disk.props d))), c)
        else (Ret (), InstanceProperties.set_Disks
               (PoolFacts.put n d (Pool.Keys (InstanceProperties.Disks c) ++ [n])
                  (InstanceProperties.Disks c)) c)
    | Throw e => (Throw e, c)
    | Panic p => (Panic p, c)
    end.
Proof.
  intros Hc. unfold InstanceConf.DiskAppend, lift, mbind, op_bind.
  destruct (InstanceConf.new_disk o) as [d| |]; [|done..].
  rewrite zoom_disks_run. unfold DiskPool.Append.
  rewrite (PoolFacts.Append_run DiskFacts.ok) by apply Hc. simpl.
  case_bool_decide; [by rewrite set_Disks_id|].
  rewrite (PoolFacts.Exists_keys DiskFacts.ok) by apply Hc.
  unfold Pool.Keys. by case_bool_decide; [rewrite set_Disks_id|].
Qed.

Lemma new_disk_path o d :
  InstanceConf.new_disk o = Ret d → ∃ b,
  Disk.Backend d = Some b ∧ NewDiskBackend (Disk.Path (Disk.props d)) = Ret b ∧
  Disk.Path (Disk.props d) = Strings.TrimSpace (Disk.Path o) ∧ Disk.Copy d = d.
Proof.
  intros (p & Hp & (be & Hb & [= <-])%outcome_bind_Ret)%outcome_bind_Ret. exists be. simpl.
  apply DiskFacts.disk_Validate_ok in Hp as (_ & Hp & _). split_and!; [done..|].
  unfold Disk.Copy. simpl. apply BackendFacts.remote_or_block_plain in Hb.
  by destruct be as [[]|[]|[]|[]|].
Qed.

(** Setting a flash file either leaves all as it was, or has written its path. *)
Lemma SetFlash_failed c s p : the_op c = FirmwareSetFlash s → is_ret (exec c p).1 = false →
  (exec c p).2 = p ∨
  ∃ fw, InstanceProperties.Firmware_ p = Some fw ∧
    (exec c p).2 = InstanceProperties.set_Firmware_ (Some (Firmware.set_Flash (Strings.TrimSpace s) fw)) p.
Proof.
  intros Hc. destruct c as [h r o]. simpl in Hc. subst o.
  cbv beta iota zeta delta [exec the_op host rnd InstanceConf.FirmwareSetFlash InstanceConf.on_firmware].
  go_unfold. destruct (InstanceProperties.Firmware_ p) as [fw|] eqn:Hf; [|by left].
  simpl. rewrite Hf, PeripheralFacts.SetFlash_run. case_bool_decide.
  - intros _. left. destruct p. simpl in *. by subst.
  - destruct (Firmware.newFirmwareFlashDisk _); simpl; [done|by right; exists fw..].
Qed.
End helpers.

Section theorems.
Context `{Env}.

(** C1: every configuration reached from a new one, by any calls in any order,
    failed ones included, on whatever file system they run, is well formed:
    memory and CPU counts in range, every pool a set of distinct non-empty
    keys each naming its device, every device with a known driver and the
    backend its path denotes, firmware, cloud-init drive, vsock and kernel
    normalised.  Only the disk of a flash file may be missing, or be that of
    another path, and that only if the working directory of the process can not
    be told. *)
Theorem reachable_wf (p : InstanceProperties.t) : reachable p →
  Conf.shape Firmware.written p ∧ (is_ret (call os_Getwd) = true → Conf.wf p).
Proof.
  intros Hp. split; [|intros Hw; by apply reachable_ind_wf; [apply PeripheralFacts.flash_available_getwd|]].
  induction Hp as [vmname|c p Hp IH]; [apply Conf.wf_new|exact (preserves_exec_written c p IH)].
Qed.

(** C4: an operation that does not succeed leaves the configuration as it was.  The
    one that does not is setting a flash file when the working directory of the
    process can not be told: the path is then written although its disk could
    not be made. *)
Theorem exec_atomic (c : call_at) (p : InstanceProperties.t) : is_ret (exec c p).1 = false →
  (exec c p).2 = p ∨
  ∃ s fw, the_op c = FirmwareSetFlash s ∧ is_ret (call os_Getwd) = false ∧ InstanceProperties.Firmware_ p = Some fw ∧
    (exec c p).2 = InstanceProperties.set_Firmware_ (Some (Firmware.set_Flash (Strings.TrimSpace s) fw)) p.
Proof.
  intros Hr. destruct (is_ret (call os_Getwd)) eqn:Hw.
  { left. apply exec_is_atomic; [|done]. intros s _. by apply PeripheralFacts.flash_available_getwd. }
  assert ((∃ s, the_op c = FirmwareSetFlash s) ∨ ∀ s, the_op c ≠ FirmwareSetFlash s) as [[s Hs]|Hs]
    by (destruct (the_op c); eauto).
  - destruct (SetFlash_failed c s p Hs Hr) as [?|(fw & Hf & He)]; [by left|]. right. by exists s, fw.
  - left. apply exec_is_atomic; [|done]. intros s Hc. by destruct (Hs s).
Qed.

(** exactly one operation panics, on any configuration: setting the number
    of CPU sockets to 0 divides by it. *)
Theorem exec_panics (c : call_at) (p : InstanceProperties.t) (q : panic) :
  (exec c p).1 = Panic q ↔ the_op c = CPUSetSockets 0 ∧ q = DivideByZero.
Proof.
  split.
  - intros Hq. assert ((∀ v, the_op c ≠ CPUSetSockets v) ∨ ∃ v, the_op c = CPUSetSockets v) as [Ho|[v Ho]]
      by (destruct (the_op c); eauto).
    { by apply exec_quiet in Hq. }
    destruct c as [h r o]. simpl in Ho. subst o.
    cbv beta iota zeta delta [exec the_op host rnd InstanceConf.CPUSetSockets] in Hq.
    unfold zoom in Hq. destruct (VirtCPU.SetSockets v _) as [r1 c1] eqn:Hs.
    simpl in Hq. subst r1. apply (f_equal fst) in Hs. rewrite VirtCPUFacts.SetSockets_run in Hs.
    simpl in *. destruct (v <? 0); [done|]. destruct (Z.eqb_spec v 0); [|by case_match].
    subst. by injection Hs as <-.
  - intros [Ho ->]. destruct c as [h r o]. simpl in Ho. subst o. reflexivity.
Qed.

(** C2: the life of a disk.  On a well-formed configuration a successful
    [DiskAppend] adds the disk at the end of the list and touches nothing
    else; the disk is then found by its path and by its short name, appending
    it again is refused, and removing it by either gives the list back. *)
Theorem disk_lifecycle (o : Disk.Properties) (c c' : InstanceProperties.t) :
  Conf.wf c → InstanceConf.DiskAppend o c = (Ret (), c') →
  ∃ d, let k := DiskPool.diskname d in let path := Strings.TrimSpace (Disk.Path o) in
    c' = InstanceProperties.set_Disks (InstanceProperties.Disks c') c ∧
    Pool.entries (InstanceProperties.Disks c')
      = Pool.entries (InstanceProperties.Disks c) ++ [(k, d)] ∧
    InstanceProperties.DiskGet path c' = Some d ∧ InstanceProperties.DiskGet k c' = Some d ∧
    InstanceConf.DiskAppend o c' = (Throw (AlreadyConnectedError "instance_conf" path), c') ∧
    ∀ n, n = path ∨ n = k → ∃ c'', InstanceConf.DiskRemove n c' = (Ret (), c'') ∧
      Pool.entries (InstanceProperties.Disks c'') = Pool.entries (InstanceProperties.Disks c).
Proof.
  intros Hc Ha. assert (Conf.wf c') as Hc'
    by (pose proof (Conf.preserves_DiskAppend o c Hc) as Hp; by rewrite Ha in Hp).
  rewrite DiskAppend_run in Ha by done.
  destruct (InstanceConf.new_disk o) as [d| |] eqn:Hd; [|done..]. simpl in Ha.
  destruct (bool_decide (DiskPool.diskname d = "")) eqn:Hn; [done|].
  destruct (bool_decide (DiskPool.diskname d ∈ _)) eqn:Hin; [done|].
  injection Ha as Ha. apply bool_decide_eq_false in Hin.
  destruct (new_disk_path o d Hd) as (b & Hb & Hpath & Hp & Hcopy).
  set (k := DiskPool.diskname d) in *. exists d. fold k. cbv zeta.
  assert (k = BaseName b) as Hk by (unfold k, DiskPool.diskname; by rewrite Hb).
  assert (Pool.lookup k (InstanceProperties.Disks c') = Some d) as Hl.
  { rewrite <- Ha. simpl. rewrite PoolFacts.lookup_put. by rewrite decide_True. }
  assert (Pool.entries (InstanceProperties.Disks c')
    = Pool.entries (InstanceProperties.Disks c) ++ [(k, d)]) as He.
  { rewrite <- Ha. simpl. rewrite PoolFacts.entries_put; [done|done|apply not_elem_of_nil]. }
  assert (∀ n, n = Strings.TrimSpace (Disk.Path o) ∨ n = k →
    DiskPool.Get n (InstanceProperties.Disks c') = Some (k, d)) as Hg.
  { intros n [->| ->]; [|by apply DiskFacts.disk_Get_lookup]. rewrite <- Hp.
    rewrite (DiskFacts.Get_by_path _ b) by (done || apply Hc').
    rewrite <- Hk. by apply DiskFacts.disk_Get_lookup. }
  split_and!; [by rewrite <- Ha|done| | | |].
  - unfold InstanceProperties.DiskGet. rewrite Hg by by left. simpl. by rewrite Hcopy.
  - unfold InstanceProperties.DiskGet. rewrite Hg by by right. simpl. by rewrite Hcopy.
  - rewrite DiskAppend_run by done. rewrite Hd. cbv zeta. fold k. rewrite Hn.
    rewrite bool_decide_true; [by rewrite Hp|]. rewrite <- Ha. simpl.
    apply elem_of_app. right. by left.
  - intros n Hn'. unfold InstanceConf.DiskRemove. rewrite zoom_disks_run.
    rewrite DiskFacts.disk_Remove_run, Hg by done. rewrite PoolFacts.Remove_run, Hl.
    eexists. split; [done|]. simpl. rewrite <- (PoolFacts.entries_removed DiskFacts.ok) by apply Hc'.
    rewrite He, filter_app, filter_cons_False, filter_nil, app_nil_r by naive_solver.
    apply PoolFacts.filter_entries_id. by rewrite (PoolFacts.entries_keys DiskFacts.ok) by apply Hc.
Qed.

(** throttling a disk changes that limit of that disk and nothing else,
    whichever name it was given by. *)
Theorem DiskSetReadIops_frame (n : string) (v : Z) (c c' : InstanceProperties.t) :
  InstanceConf.DiskSetReadIops n v c = (Ret (), c') →
  0 ≤ v ∧ c' = InstanceProperties.set_Disks (InstanceProperties.Disks c') c ∧
  Pool.Keys (InstanceProperties.Disks c') = Pool.Keys (InstanceProperties.Disks c) ∧
  ∃ k d, DiskPool.Get n (InstanceProperties.Disks c) = Some (k, d) ∧
    ∀ k', Pool.lookup k' (InstanceProperties.Disks c') =
      if decide (k = k') then Some (Disk.set_IopsRd v d)
      else Pool.lookup k' (InstanceProperties.Disks c).
Proof.
  unfold InstanceConf.DiskSetReadIops, InstanceConf.update_disk. go_unfold.
  destruct (Z.ltb_spec v 0); [done|]. intros Hs.
  destruct (DiskPool.Get n (InstanceProperties.Disks c)) as [[k d]|] eqn:Hg; [|done].
  injection Hs as <-. split_and!; [done..|]. exists k, d. split; [done|].
  intros k'. simpl. rewrite PoolFacts.lookup_update. case_decide; [|done]. subst.
  by rewrite (DiskFacts.disk_Get_inv _ _ _ _ Hg).
Qed.

(** a PCI device is one device in every notation.  Once attached, it is
    found, and attaching it again is refused, under any string that parses to
    the same address. *)
Theorem hostdev_notation (o : HostDevice.Properties) (s : string) (a : Pci.Address)
    (c c' : InstanceProperties.t) :
  Conf.wf c →
  Pci.AddressFromHex (Strings.TrimSpace (HostDevice.PCIAddr o)) = Ret a →
  Pci.AddressFromHex (Strings.TrimSpace s) = Ret a →
  InstanceConf.HostDeviceAppend o c = (Ret (), c') →
  let o' := {| HostDevice.PCIAddr := s; HostDevice.PrimaryGPU := false;
               HostDevice.Multifunction := false |} in
  (∃ d, InstanceProperties.HostDeviceGet s c' = Some d ∧
        HostDevice.PCIAddr (HostDevice.props d) = Pci.to_string a ∧
        HostDevice.PrimaryGPU (HostDevice.props d) = HostDevice.PrimaryGPU o) ∧
  InstanceConf.HostDeviceAppend o' c'
    = (Throw (AlreadyConnectedError "instance_conf" (Pci.to_string a)), c').
Proof.
  intros Hc Ho Hs Ha. unfold InstanceConf.HostDeviceAppend, lift, mbind, op_bind in *.
  rewrite HostDeviceFacts.NewHostDevice_run in *. simpl. rewrite Ho in Ha. rewrite Hs. simpl in *.
  unfold map_err, zoom, HostDevicePool.Append in *. simpl in *.
  assert (Pool.wf HostDeviceFacts.ok (InstanceProperties.HostDevices c)) as Hw by apply Hc.
  rewrite (PoolFacts.Append_run HostDeviceFacts.ok) in Ha by done.
  case_bool_decide as Hn; [done|].
  rewrite (PoolFacts.Exists_keys HostDeviceFacts.ok) in Ha by done.
  case_bool_decide as Hin; [done|]. injection Ha as <-. split.
  - unfold InstanceProperties.HostDeviceGet, HostDevicePool.Get, HostDevicePool.key. rewrite Hs.
    simpl. rewrite PoolFacts.GetAs_lookup, PoolFacts.lookup_put, decide_True by done. by eexists.
  - unfold Pool.Append. go_unfold. rewrite bool_decide_false by done. simpl.
    unfold Pool.Exists. simpl. rewrite bool_decide_true; [done|]. rewrite lookup_insert_eq. eauto.
Qed.

(** a request that names only unparsable PCI addresses is answered with
    every device of the machine, not with none. *)
Theorem HostDeviceGetList_bad (ss : list string) (c : InstanceProperties.t) :
  (∀ s, s ∈ ss → is_ret (Pci.AddressFromHex (Strings.TrimSpace s)) = false) →
  InstanceProperties.HostDeviceGetList ss c = InstanceProperties.HostDeviceGetList [] c.
Proof.
  intros Hs. unfold InstanceProperties.HostDeviceGetList, HostDevicePool.Values.
  replace (omap _ ss) with (@nil string); [done|]. symmetry.
  induction ss as [|s ss IH]; [done|]. csimpl. unfold HostDevicePool.key at 1.
  specialize (Hs s ltac:(by left)) as Hs'.
  destruct (Pci.AddressFromHex _); [done|..]; apply IH; intros s' ?; apply Hs; by right.
Qed.

(** the flash disk a configuration returns is not the one it holds.  The
    stored disk is called [fwflash]; [FirmwareGetFlash] returns a copy without
    the wrapper, named after the file like an ordinary disk. *)
Theorem FirmwareGetFlash_name (flash : string) (c c' : InstanceProperties.t) :
  InstanceConf.FirmwareSetFlash flash c = (Ret (), c') →
  ∃ fw d d', InstanceProperties.Firmware_ c' = Some fw ∧ Firmware.flashDisk fw = Some d ∧
    Disk.QdevID d = Ret "fwflash" ∧ InstanceProperties.FirmwareGetFlash c' = Some d' ∧
    (∃ s, Disk.QdevID d' = Ret ("blk_" +:+ s)) ∧ Disk.QdevID d' ≠ Disk.QdevID d.
Proof.
  unfold InstanceConf.FirmwareSetFlash, InstanceConf.on_firmware. go_unfold.
  destruct (InstanceProperties.Firmware_ c) as [fw|] eqn:Hc; [|done]. simpl. rewrite Hc.
  rewrite PeripheralFacts.SetFlash_run. case_bool_decide; [done|].
  destruct (Firmware.newFirmwareFlashDisk _) as [d| |] eqn:Hd; [|done..]. intros [= <-].
  unfold Firmware.newFirmwareFlashDisk, NewFirmwareFlashBackend in Hd.
  apply outcome_bind_Ret in Hd as (be & (b & Hb & [= <-])%outcome_bind_Ret & [= <-]).
  eexists _, _, _. split_and!; [done..| |].
  - case_match; apply outcome_fmap_Ret in Hb as (x & _ & <-); by eexists.
  - case_match; apply outcome_fmap_Ret in Hb as (x & _ & <-); done.
Qed.
End theorems.

(** the number of CPUs can be changed under the sockets: after 4 CPUs on 2
    sockets, 3 CPUs are accepted although [SetSockets] would refuse 2 sockets
    then. *)
Theorem sockets_not_kept :
  let '(rs, c) := sample_run [CPUSetTotal 4; CPUSetSockets 2; CPUSetTotal 3] in
  rs = [Ret (); Ret (); Ret ()] ∧
  InstanceProperties.CPUGetTotal c = 3 ∧ InstanceProperties.CPUGetSockets c = 2 ∧
  is_ret (InstanceConf.CPUSetSockets 2 c).1 = false.
Proof. vm_compute. done. Qed.

(** * Witnesses *)

Definition sample_disk (path : string) : Disk.Properties :=
  {| Disk.Path := path; Disk.Driver := "virtio-blk-pci"; Disk.IopsRd := 0; Disk.IopsWr := 0;
     Disk.Bootindex := 1 |}.
Definition sample_hostdev (addr : string) : HostDevice.Properties :=
  {| HostDevice.PCIAddr := addr; HostDevice.PrimaryGPU := true;
     HostDevice.Multifunction := false |}.

(** A machine with two disks, firmware with a flash file and a PCI device. *)
Definition sample_conf : InstanceProperties.t :=
  (sample_run [DiskAppend (sample_disk "/dev/vg/root");
               DiskInsert (sample_disk "iscsi://u%p@10.0.0.1:3260/iqn.2010:data/1") 0;
               FirmwareSetImage "/bin/ovmf"; FirmwareSetFlash "/var/flash.fd";
               NetIfaceAppend {| NetIface.Ifname := "eth0"; NetIface.Driver := "E1000";
                                 NetIface.HwAddr := ""; NetIface.Queues := 0;
                                 NetIface.Bootindex := 0; NetIface.Ifup := "/bin/true";
                                 NetIface.Ifdown := "" |};
               HostDeviceAppend (sample_hostdev "0a:00.1")]).2.

Example sample_outcomes :
  (sample_run [DiskAppend (sample_disk "/dev/vg/root"); DiskAppend (sample_disk "/dev/lvm/root");
               DiskAppend (sample_disk "data.img"); CPUSetSockets 0; DiskRemove "/dev/vg/root";
               DiskRemove "root"]).1
  = [Ret (); Throw (AlreadyConnectedError "instance_conf" "/dev/lvm/root");
     Throw (UnknownBackendError "data.img"); Panic DivideByZero; Ret ();
     Throw (NotConnectedError "instance_conf" "root")].
Proof. by vm_compute. Qed.

Example sample_conf_reachable : @reachable sample_env sample_conf.
Proof. apply reachable_run, reachable_new. Qed.

Example reachable_wf_witness : @Conf.wf sample_env sample_conf.
Proof. exact (proj2 (@reachable_wf sample_env sample_conf sample_conf_reachable) eq_refl). Defined.

Example exec_atomic_witness :
  (@exec sample_env (sample_call (DiskAppend (sample_disk "/dev/lvm/root"))) sample_conf).2
  = sample_conf.
Proof.
  destruct (@exec_atomic sample_env (sample_call (DiskAppend (sample_disk "/dev/lvm/root"))) sample_conf)
    as [He|(s & fw & Hs & _)]; [vm_compute; reflexivity|exact He|discriminate Hs].
Defined.

Lemma sample_conf_wf : @Conf.wf sample_env sample_conf.
Proof.
  apply reachable_ind_wf, sample_conf_reachable. apply PeripheralFacts.flash_available_getwd.
  reflexivity.
Qed.

Example disk_lifecycle_witness :
  Disk.Path <$> (Disk.props <$>
    @InstanceProperties.DiskGet sample_env "/dev/vg/home"
      (@InstanceConf.DiskAppend sample_env (sample_disk " /dev/vg/home ") sample_conf).2)
  = Some "/dev/vg/home".
Proof.
  destruct (@disk_lifecycle sample_env (sample_disk " /dev/vg/home ") sample_conf
    (@InstanceConf.DiskAppend sample_env (sample_disk " /dev/vg/home ") sample_conf).2
    sample_conf_wf) as (d & _ & _ & _ & _ & _ & _).
  - vm_compute. reflexivity.
  - vm_compute. reflexivity.
Defined.

Example DiskSetReadIops_frame_witness :
  Pool.Keys (InstanceProperties.Disks
    (@InstanceConf.DiskSetReadIops sample_env "/dev/vg/root" 500 sample_conf).2) = ["data"; "root"].
Proof.
  destruct (@DiskSetReadIops_frame sample_env "/dev/vg/root" 500 sample_conf
    (@InstanceConf.DiskSetReadIops sample_env "/dev/vg/root" 500 sample_conf).2)
    as (_ & _ & -> & _); vm_compute; reflexivity.
Defined.

Example hostdev_notation_witness :
  (InstanceConf.HostDeviceAppend
     {| HostDevice.PCIAddr := "0000:0B:00.0"; HostDevice.PrimaryGPU := false;
        HostDevice.Multifunction := false |}
     (InstanceConf.HostDeviceAppend (sample_hostdev " b:0 ") sample_conf).2).1
  = Throw (AlreadyConnectedError "instance_conf" "0000:0b:00.0").
Proof.
  destruct (@hostdev_notation sample_env (sample_hostdev " b:0 ") "0000:0B:00.0"
    (Pci.Build_Address 0 11 0 0) sample_conf
    (InstanceConf.HostDeviceAppend (sample_hostdev " b:0 ") sample_conf).2 sample_conf_wf)
    as [_ ->]; vm_compute; reflexivity.
Defined.

Example HostDeviceGetList_bad_witness :
  InstanceProperties.HostDeviceGetList ["bad"; ""] sample_conf
  = InstanceProperties.HostDeviceGetList [] sample_conf ∧
  length (InstanceProperties.HostDeviceGetList ["bad"; ""] sample_conf) = 1%nat.
Proof.
  rewrite (HostDeviceGetList_bad ["bad"; ""] sample_conf); [split; [reflexivity|vm_compute; reflexivity]|].
  intros s Hs. repeat (apply elem_of_cons in Hs as [->|Hs]; [reflexivity|]).
  by apply not_elem_of_nil in Hs.
Defined.

Example FirmwareGetFlash_name_witness :
  ∃ d', InstanceProperties.FirmwareGetFlash sample_conf = Some d' ∧
        Disk.QdevID d' ≠ Ret "fwflash".
Proof.
  assert (@InstanceConf.FirmwareSetFlash sample_env "/var/flash.fd" sample_conf = (Ret (), sample_conf))
    as H by (vm_compute; reflexivity).
  destruct (@FirmwareGetFlash_name sample_env "/var/flash.fd" sample_conf sample_conf H)
    as (fw & d & d' & _ & _ & Hd & Hg & _ & Hne).
  exists d'. split; [exact Hg|]. by rewrite <- Hd.
Defined.
