(* ===== verification/CommandLineFacts.v ===== *)
(** CommandLineFacts: what holds of the command line made from a configuration:
    when it is made at all, how the buses and devices of the storage section
    follow each other, which identifiers can clash, and what the driver fallback
    of cloud-init drives comes to. *)

From S2P Require Import Prelude.
From S2P Require Import GoStd.
From S2P Require Import GoFacts.
From S2P Require Import Pool.
From S2P Require Import PciAddress.
From S2P Require Import Backend.
From S2P Require Import PciDevice.
From S2P Require Import Resources.
From S2P Require Import Drivers.
From S2P Require Import Disks.
From S2P Require Import Cdroms.
From S2P Require Import NetIfaces.
From S2P Require Import HostDevices.
From S2P Require Import Peripherals.
From S2P Require Import InstanceProperties.
From S2P Require Import InstanceConf.
From S2P Require Import CommandLine.
From S2P Require Import ConfInvariant.
From S2P Require Import ConfTheorems.

Open Scope Z_scope.

(** * The devices of a well-formed configuration *)

Section lists.
Context `{Env}.
Import InstanceProperties.

Lemma Values_list {V} (Pk : string → V → Prop) p :
  Pool.wf Pk p → omap id (Pool.Values p []) = (Pool.entries p).*2.
Proof.
  intros Hp. rewrite (PoolFacts.Values_entries Pk) by done.
  induction (Pool.entries p) as [|[k v] l IH]; [done|]. csimpl. by rewrite IH.
Qed.

Lemma entries_ok {V} (Pk : string → V → Prop) p :
  Pool.wf Pk p → Forall (λ kv, Pk kv.1 kv.2) (Pool.entries p).
Proof.
  intros Hp. apply Forall_forall. intros [k v] (k' & _ & Hk)%list_elem_of_omap.
  destruct (Pool.lookup k' p) eqn:Hl; simplify_eq/=. by apply Hp.
Qed.

Lemma wf_keys {V} (Pk : string → V → Prop) p :
  Pool.wf Pk p → Pool.wf (λ k v, Pk k v ∧ k ≠ "") p.
Proof.
  intros []. split; [done..|]. intros k v Hl. split; [auto|]. intros ->.
  apply wf_nonempty, wf_dom. by eexists.
Qed.

Lemma map_id_Forall {V} (f : V → V) (l : list V) : Forall (λ v, f v = v) l → map f l = l.
Proof. induction 1 as [|v l Hv _ IH]; [done|]. csimpl. by rewrite Hv, IH. Qed.

(** A copying getter of a pool lists its values. *)
Lemma copied_values {V} (Pk : string → V → Prop) (f : V → V) p :
  Pool.wf Pk p → (∀ k v, Pk k v → f v = v) →
  map f (omap id (Pool.Values p [])) = (Pool.entries p).*2 ∧
  Forall (λ v, ∃ k, Pk k v) (Pool.entries p).*2.
Proof.
  intros Hp Hf. rewrite (Values_list Pk) by done. pose proof (entries_ok Pk p Hp) as He.
  assert (Forall (λ v, ∃ k, Pk k v) (Pool.entries p).*2) as Hk.
  { apply Forall_fmap. eapply Forall_impl; [done|]. intros [k v] ?. by exists k. }
  split; [|done]. apply map_id_Forall. eapply Forall_impl; [done|]. intros v (k & Hv). eauto.
Qed.

Lemma Copy_backend s b : NewDiskBackend s = Ret b → backend_Copy b = b.
Proof. intros Hb. by eapply BackendFacts.Copy_plain, BackendFacts.remote_or_block_plain. Qed.

Lemma disk_Copy k d : DiskFacts.ok k d → Disk.Copy d = d.
Proof.
  intros [? ? ? (b & Hb & Hn & _) ?]. destruct d; unfold Disk.Copy; simpl in *. subst.
  simpl. by rewrite (Copy_backend _ _ Hn).
Qed.

Lemma cdrom_Copy k cd : CdromFacts.ok k cd → Cdrom.Copy cd = cd.
Proof.
  intros [? ? ? ? Hb]. destruct cd as [? ? [b|] ?]; unfold Cdrom.Copy; simpl in *; [|done].
  destruct Hb as [_ Hb]. by rewrite (Copy_backend _ _ Hb).
Qed.

Lemma netif_Copy n : NetIface.Copy n = n.
Proof. by destruct n. Qed.
Lemma hostdev_Copy dev : HostDevice.Copy dev = dev.
Proof. by destruct dev as [? [[]|]]. Qed.

Context (c : InstanceProperties.t) (Hc : Conf.wf c).

Lemma disk_list :
  DiskGetList [] c = Ret (Pool.entries (Disks c)).*2 ∧
  Forall (λ d, ∃ k, DiskFacts.ok k d) (Pool.entries (Disks c)).*2.
Proof.
  destruct (copied_values DiskFacts.ok Disk.Copy (Disks c)) as [H1 H2];
    [apply Hc|apply disk_Copy|]. split; [|done].
  unfold DiskGetList, DiskPool.Values. simpl. by rewrite H1.
Qed.

Lemma cdrom_list :
  CdromGetList [] c = (Pool.entries (Cdroms c)).*2 ∧
  Forall (λ cd, ∃ k, CdromFacts.ok k cd) (Pool.entries (Cdroms c)).*2.
Proof. apply (copied_values CdromFacts.ok Cdrom.Copy); [apply Hc|apply cdrom_Copy]. Qed.

Lemma netif_list :
  NetIfaceGetList [] c = (Pool.entries (NetIfaces c)).*2 ∧
  Forall (λ n, ∃ k, NetIfaceFacts.ok k n) (Pool.entries (NetIfaces c)).*2.
Proof. apply (copied_values NetIfaceFacts.ok NetIface.Copy); [apply Hc|intros; apply netif_Copy]. Qed.

Lemma hostdev_list :
  HostDeviceGetList [] c = (Pool.entries (HostDevices c)).*2 ∧
  Forall (λ v, ∃ k, HostDeviceFacts.ok k v) (Pool.entries (HostDevices c)).*2.
Proof.
  apply (copied_values HostDeviceFacts.ok HostDevice.Copy); [apply Hc|intros; apply hostdev_Copy].
Qed.
End lists.

(** * The storage section *)

Module Storage.
Import CommandLine.

(** What the section is made of, before it is printed. *)
Inductive item :=
  | BusDecl (busName busAddr : string)
  | CdromDev (cd : Cdrom.t)
  | DiskDev (d : Disk.t).

Definition render (i : item) : list string :=
  match i with
  | BusDecl n a => ["-device"; "virtio-scsi-pci,id=" +:+ n +:+ ",bus=pci.0"
                    +:+ (if bool_decide (a = "") then "" else ",addr=" +:+ a)]
  | CdromDev cd => cdromArgs cd
  | DiskDev disk => match diskArgs disk with Ret args => args | _ => [] end
  end.

(** The SCSI bus a device sits on. *)
Definition on_bus (i : item) : option string :=
  match i with
  | BusDecl _ _ => None
  | CdromDev cd => match Cdrom.driver cd with
                   | CdromDriverType_SCSI_CD => Some (ParseSCSIAddr (Cdrom.QemuAddr cd)).1.1
                   | _ => None
                   end
  | DiskDev disk => match Disk.driver disk with
                    | DiskDriverType_SCSI_HD => Some (ParseSCSIAddr (Disk.QemuAddr disk)).1.1
                    | _ => None
                    end
  end.

Definition decl (i : item) : option string :=
  match i with BusDecl n _ => Some n | _ => None end.
Definition the_cdrom (i : item) : option Cdrom.t :=
  match i with CdromDev cd => Some cd | _ => None end.
Definition the_disk (i : item) : option Disk.t :=
  match i with DiskDev disk => Some disk | _ => None end.

(** [dev'] is [dev] after a successful strict validation. *)
Definition cdrom_validated (dev dev' : Cdrom.t) : Prop :=
  Cdrom.Validate true (Cdrom.props dev) = Ret (Cdrom.props dev') ∧
  Cdrom.driver dev' = Cdrom.driver dev ∧ Cdrom.QemuAddr dev' = Cdrom.QemuAddr dev.
Definition disk_validated (disk disk' : Disk.t) : Prop :=
  Disk.Validate true (Disk.props disk) = Ret (Disk.props disk') ∧
  Disk.driver disk' = Disk.driver disk ∧ Disk.QemuAddr disk' = Disk.QemuAddr disk ∧
  Disk.Backend disk' = Disk.Backend disk.

(** With [B] declared before: each bus is declared once, and before its first
    device; the buses declared after are [B']. *)
Fixpoint ordered (B : gset string) (items : list item) (B' : gset string) : Prop :=
  match items with
  | [] => B' = B
  | i :: items =>
      match decl i, on_bus i with
      | Some n, _ => (n ∉ B) ∧ ordered ({[n]} ∪ B) items B'
      | None, Some n => (n ∈ B) ∧ ordered B items B'
      | None, None => ordered B items B'
      end
  end.

Lemma ordered_app B i1 B1 i2 B2 : ordered B i1 B1 → ordered B1 i2 B2 → ordered B (i1 ++ i2) B2.
Proof.
  revert B. induction i1 as [|i i1 IH]; intros B; simpl; [by intros ->|].
  destruct (decl i); [|destruct (on_bus i)]; naive_solver.
Qed.

Lemma decl_Some i n : decl i = Some n → ∃ a, i = BusDecl n a.
Proof. destruct i; intros ?; simplify_eq/=. by eexists. Qed.

Lemma ordered_spec B items B' :
  ordered B items B' →
  NoDup (omap decl items) ∧ (∀ n, n ∈ omap decl items → n ∉ B) ∧
  ∀ i dev b, items !! i = Some dev → on_bus dev = Some b →
    b ∈ B ∨ ∃ j a, (j < i)%nat ∧ items !! j = Some (BusDecl b a).
Proof.
  revert B. induction items as [|it items IH]; intros B Ho; simpl in *.
  { split_and!; [constructor|by intros ? ?%elem_of_nil|done]. }
  destruct (decl it) as [n|] eqn:Hd.
  - destruct Ho as [Hn (H1 & H2 & H3)%IH]. split_and!.
    + constructor; [|done]. intros ?%H2. set_solver.
    + intros m [->|Hm]%elem_of_cons; [done|]. apply H2 in Hm. set_solver.
    + apply decl_Some in Hd as [a ->]. intros [|i] dev b Hi Hb; simplify_eq/=.
      destruct (H3 _ _ _ Hi Hb) as [Hin|(j & a' & ? & ?)].
      * apply elem_of_union in Hin as [->%elem_of_singleton|]; [|by left].
        right. exists 0%nat, a. split; [lia|done].
      * right. exists (S j), a'. split; [lia|done].
  - assert (ordered B items B' ∧ ∀ n, on_bus it = Some n → n ∈ B) as [Ho' Hon].
    { destruct (on_bus it); [|done]. destruct Ho. split; [done|]. by intros ? [= <-]. }
    apply IH in Ho' as (H1 & H2 & H3). split_and!; [done|done|].
    intros [|i] dev b Hi Hb; simplify_eq/=; [left; by apply Hon|].
    destruct (H3 _ _ _ Hi Hb) as [?|(j & a & ? & ?)]; [by left|].
    right. exists (S j), a. split; [lia|done].
Qed.

Lemma validated_Ret {P} what (v : outcome P) p : validated what v = Ret p ↔ v = Ret p.
Proof. by destruct v as [|[]|]. Qed.

(** The declaration made, if any, for a device with address [addr]. *)
Lemma bus_args_items addr B bus B' :
  bus_args addr B = (bus, B') →
  ∃ decls, bus = concat (map render decls) ∧ ordered B decls B' ∧
           (ParseSCSIAddr addr).1.1 ∈ B' ∧
           omap the_cdrom decls = [] ∧ omap the_disk decls = [].
Proof.
  unfold bus_args. destruct (ParseSCSIAddr addr) as [[n a] lun]. case_bool_decide as Hn.
  - intros [= <- <-]. by exists [].
  - intros [= <- <-]. exists [BusDecl n a]. simpl.
    split_and!; [done|done|done|set_solver|done|done].
Qed.

(** A device and the declaration before it. *)
Lemma device_items (scsi : bool) addr B bus B' i rest B'' :
  (if scsi then bus_args addr B else ([], B)) = (bus, B') →
  decl i = None → on_bus i = (if scsi then Some (ParseSCSIAddr addr).1.1 else None) →
  ordered B' rest B'' →
  ∃ items, bus ++ render i ++ concat (map render rest) = concat (map render items) ∧
           ordered B items B'' ∧
           omap the_cdrom items = omap the_cdrom (i :: rest) ∧
           omap the_disk items = omap the_disk (i :: rest).
Proof.
  intros Hb Hd Ho Hr.
  assert (∃ decls, bus = concat (map render decls) ∧ ordered B decls B' ∧
            (scsi = true → (ParseSCSIAddr addr).1.1 ∈ B') ∧
            omap the_cdrom decls = [] ∧ omap the_disk decls = []) as (ds & -> & Hds & Hin & H1 & H2).
  { destruct scsi; [|injection Hb as <- <-; by exists []].
    destruct (bus_args_items _ _ _ _ Hb) as (ds & ? & ? & ? & ? & ?). by exists ds. }
  exists (ds ++ i :: rest). rewrite map_app, concat_app. simpl. split_and!; [done| | |].
  - eapply ordered_app; [done|]. simpl. rewrite Hd, Ho. destruct scsi; [|done]. by split; [apply Hin|].
  - by rewrite omap_app, H1.
  - by rewrite omap_app, H2.
Qed.

Section loops.
Context `{Env}.

Lemma cdroms_loop_items devs B args B' :
  cdroms_loop devs B = Ret (args, B') →
  ∃ items, args = concat (map render items) ∧ ordered B items B' ∧
           Forall2 cdrom_validated devs (omap the_cdrom items) ∧ omap the_disk items = [].
Proof.
  revert B args. induction devs as [|dev devs IH]; intros B args.
  { intros [= <- <-]. by exists []. }
  simpl. intros (p & Hp%validated_Ret & Hrest)%outcome_bind_Ret.
  destruct (match Cdrom.driver dev with CdromDriverType_SCSI_CD => _ | _ => _ end)
    as [bus B1] eqn:Hbus.
  apply outcome_bind_Ret in Hrest as ([rest B2] & Hl & [= <- <-]).
  apply IH in Hl as (items & -> & Hord & Hv & Hnd).
  set (dev' := Cdrom.Build_t p (Cdrom.driver dev) (Cdrom.MediaBackend dev) (Cdrom.QemuAddr dev)) in *.
  assert ((if bool_decide (Cdrom.driver dev = CdromDriverType_SCSI_CD)
           then bus_args (Cdrom.QemuAddr dev) B else ([], B)) = (bus, B1)) as Hbus'
    by (rewrite <- Hbus; by destruct (Cdrom.driver dev)).
  destruct (device_items _ _ _ _ _ (CdromDev dev') items B2 Hbus') as (its & Hr & Ho & Hcd & Hdk);
    [done|simpl; by destruct (Cdrom.driver dev)|done|].
  exists its. split_and!; [exact Hr|done| |by rewrite Hdk]. rewrite Hcd. by constructor.
Qed.

Lemma disks_loop_items disks B args B' :
  disks_loop disks B = Ret (args, B') →
  ∃ items, args = concat (map render items) ∧ ordered B items B' ∧
           Forall2 disk_validated disks (omap the_disk items) ∧ omap the_cdrom items = [].
Proof.
  revert B args. induction disks as [|disk disks IH]; intros B args.
  { intros [= <- <-]. by exists []. }
  simpl. intros (p & Hp%validated_Ret & Hrest)%outcome_bind_Ret.
  destruct (match Disk.driver disk with DiskDriverType_SCSI_HD => _ | _ => _ end)
    as [bus B1] eqn:Hbus.
  apply outcome_bind_Ret in Hrest as (dargs & Hargs & ([rest B2] & Hl & [= <- <-])%outcome_bind_Ret).
  apply IH in Hl as (items & -> & Hord & Hv & Hnd).
  set (disk' := Disk.Build_t p _ _ _ _ _) in *.
  assert ((if bool_decide (Disk.driver disk = DiskDriverType_SCSI_HD)
           then bus_args (Disk.QemuAddr disk) B else ([], B)) = (bus, B1)) as Hbus'
    by (rewrite <- Hbus; by destruct (Disk.driver disk)).
  destruct (device_items _ _ _ _ _ (DiskDev disk') items B2 Hbus') as (its & Hr & Ho & Hcd & Hdk);
    [done|simpl; by destruct (Disk.driver disk)|done|].
  simpl in Hr. rewrite Hargs in Hr. rewrite Hr.
  exists its. split_and!; [done|done| |by rewrite Hcd]. rewrite Hdk. by constructor.
Qed.

(** the storage section of a command line lists, after the declarations of
    buses, the configured cdroms and then the disks, validated and in the
    order of the configuration; every SCSI bus is declared exactly once, before
    the first device on it. *)
Theorem storage_section vmconf args :
  storage_args vmconf = Ret args →
  ∃ items disks,
    args = concat (map render items) ∧
    InstanceProperties.DiskGetList [] (InstanceConf.props vmconf) = Ret disks ∧
    Forall2 cdrom_validated (InstanceProperties.CdromGetList [] (InstanceConf.props vmconf))
      (omap the_cdrom items) ∧
    Forall2 disk_validated disks (omap the_disk items) ∧
    NoDup (omap decl items) ∧
    ∀ i dev b, items !! i = Some dev → on_bus dev = Some b →
      ∃ j a, (j < i)%nat ∧ items !! j = Some (BusDecl b a).
Proof.
  intros ([cargs B1] & Hcd & (disks & Hd & ([dargs B2] & Hdk & [= <-])%outcome_bind_Ret)%outcome_bind_Ret)%outcome_bind_Ret.
  apply cdroms_loop_items in Hcd as (i1 & -> & Ho1 & Hv1 & Hn1).
  apply disks_loop_items in Hdk as (i2 & -> & Ho2 & Hv2 & Hn2).
  destruct (ordered_spec _ _ _ (ordered_app _ _ _ _ _ Ho1 Ho2)) as (Hnd & _ & Hbus).
  exists (i1 ++ i2), disks. rewrite map_app, concat_app, !omap_app, Hn1, Hn2, app_nil_r.
  rewrite omap_app in Hnd. split_and!; try done.
  intros i dev b Hi Hb. by destruct (Hbus i dev b Hi Hb) as [?%elem_of_empty|].
Qed.
End loops.
End Storage.

(** * When there is a command line *)

Module Launch.
Import CommandLine InstanceProperties.

Lemma is_ret_true {A} (o : outcome A) : is_ret o = true ↔ ∃ a, o = Ret a.
Proof. destruct o; naive_solver. Qed.

(** Sequences of calls whose results do not matter for success. *)
Lemma is_ret_bind {A B} (m : outcome A) (k : A → outcome B) (P : Prop) :
  (∀ a, m = Ret a → is_ret (k a) = true ↔ P) →
  is_ret (m ≫= k) = true ↔ is_ret m = true ∧ P.
Proof. intros Hk. destruct m as [a| |]; simpl; [|naive_solver..]. rewrite Hk by done. tauto. Qed.

Lemma is_ret_validated {P} what (v : outcome P) : is_ret (validated what v) = is_ret v.
Proof. by destruct v as [|[]|]. Qed.

(** A strict validation accepts what a reachable configuration holds. *)
Lemma validate_driver_known {D} `{DriverTypeLaws D} what name :
  Strings.TrimSpace name = name → (DriverTypeValue name : D) ≠ DriverType_UNKNOWN →
  (DriverTypeValue "" : D) = DriverType_UNKNOWN →
  validate_driver D what true name = Ret name.
Proof.
  intros Ht Hk Hu. unfold validate_driver. rewrite Ht.
  rewrite bool_decide_false by (by intros ->).
  by rewrite (bool_decide_false (DriverTypeValue name = _)) by done.
Qed.

Section launch.
Context `{Env, Host, Process, PciBus}.

Lemma cdrom_strict k cd :
  CdromFacts.ok k cd → k ≠ "" → is_ret (Cdrom.Validate true (Cdrom.props cd)) = true.
Proof.
  intros [[Hn Hm Hd Hb] -> Hdrv Hk _] Hne. unfold Cdrom.Validate. rewrite Hn.
  rewrite bool_decide_false by done. rewrite Hdrv in Hk.
  rewrite validate_driver_known by done. simpl. by rewrite (proj2 (Z.ltb_ge _ _)) by done.
Qed.

Lemma disk_strict k d : DiskFacts.ok k d → is_ret (Disk.Validate true (Disk.props d)) = true.
Proof.
  intros [[Hp Hd [Hr Hw] Hb] Hdrv Hk (b & _ & Hbe & _) _]. unfold Disk.Validate. rewrite Hp.
  rewrite bool_decide_false by (intros Hs; rewrite Hs in Hbe; done). rewrite Hdrv in Hk.
  rewrite validate_driver_known by done. simpl.
  by rewrite !(proj2 (Z.ltb_ge _ 0)) by done.
Qed.

Lemma cloudinit_strict d :
  CloudInitDrive.ok d → is_ret (CloudInitDrive.Validate true (CloudInitDrive.props d)) = true.
Proof.
  intros [[Ht Hne] Hd Hk _]. unfold CloudInitDrive.Validate. rewrite Ht.
  rewrite bool_decide_false by done.
  rewrite validate_driver_known; [done| |by rewrite Hd, DriverTypeValue_String|done].
  rewrite Hd. apply driver_String_trimmed.
Qed.

Context (Hrand : ∀ n, ∃ b, rand_Read n = inl b).

(** A script of an interface is unset or there. *)
Definition script_found (fname : string) : Prop :=
  Strings.TrimSpace fname = "" ∨ ∃ st, os_Stat (Strings.TrimSpace fname) = inl st.

Definition netif_launchable (n : NetIface.t) : Prop :=
  (let mac := Strings.TrimSpace (NetIface.HwAddr (NetIface.props n)) in
   mac = "" ∨ Net.ParseMAC mac = true) ∧
  script_found (NetIface.Ifup (NetIface.props n)) ∧
  script_found (NetIface.Ifdown (NetIface.props n)).

(** A host device is on the bus, with the functions asked for. *)
Definition hostdev_launchable (dev : HostDevice.t) : Prop :=
  ∃ be, pci_LookupDevice (HostDevice.PCIAddr (HostDevice.props dev)) = Ret be ∧
        (HostDevice.Multifunction (HostDevice.props dev) = true →
         PciDevice.HasMultifunctionFeature be = true).

(** What the host and the settings have to offer for a machine to start. *)
Record launchable (vm : InstanceProperties.t) : Prop := {
  la_chipset : MachineType.Chipset (MachineTypeGet vm) = QEMU_CHIPSET_I440FX;
  la_sockets : CPUGetTotal vm ≤ 1 ∨ CPUGetSockets vm = 0 ∨ (CPUGetSockets vm | CPUGetTotal vm);
  la_hostdevs : Forall hostdev_launchable (HostDeviceGetList [] vm);
  la_netifs : Forall netif_launchable (NetIfaceGetList [] vm);
  la_extra : ∀ st, os_Stat "extra" = inl st → ∃ s, read_file "extra" = inl s;
}.

Lemma check_script_found fname :
  is_ret (NetIface.check_script (Strings.TrimSpace fname)) = true ↔ script_found fname.
Proof.
  unfold NetIface.check_script, check_file, script_found. case_bool_decide as Hf; [tauto|].
  destruct (os_Stat _) as [st|[]]; simpl; naive_solver.
Qed.

Lemma netif_strict k n i :
  NetIfaceFacts.ok k n →
  is_ret (NetIface.Validate (rand_Read i) true (NetIface.props n)) = true ↔ netif_launchable n.
Proof.
  intros [[[Hn Hl] _ Hd Hq Hb] _ Hdrv Hk]. unfold NetIface.Validate, netif_launchable. rewrite Hn.
  unfold ValidateLinkName. rewrite (proj2 (Nat.leb_le 3 _)), (proj2 (Nat.leb_le _ 16)) by lia. simpl.
  rewrite Hdrv in Hk. rewrite validate_driver_known by done. simpl.
  rewrite (proj2 (Z.ltb_ge (NetIface.Queues _) 0)), (proj2 (Z.ltb_ge (NetIface.Bootindex _) 0)) by done.
  rewrite <- !check_script_found. destruct (Hrand i) as [b Hr].
  rewrite (is_ret_bind _ _ (is_ret (NetIface.check_script (Strings.TrimSpace (NetIface.Ifup (NetIface.props n)))) = true
    ∧ is_ret (NetIface.check_script (Strings.TrimSpace (NetIface.Ifdown (NetIface.props n)))) = true)).
  - apply and_iff_compat_r. case_bool_decide as Hm; [unfold GenHwAddr; rewrite Hr; by split; [left|]|].
    destruct (Net.ParseMAC _); simpl; intuition congruence.
  - intros hw _.
    destruct (NetIface.check_script (Strings.TrimSpace (NetIface.Ifup _))); simpl; [|intuition congruence..].
    destruct (NetIface.check_script (Strings.TrimSpace (NetIface.Ifdown _))); simpl; intuition congruence.
Qed.

Lemma hostdev_strict k dev :
  HostDeviceFacts.ok k dev →
  HostDevice.Validate true (HostDevice.props dev) =
    (λ _, HostDevice.props dev) <$> pci_LookupDevice (HostDevice.PCIAddr (HostDevice.props dev)).
Proof.
  intros [(a & _ & Ha & _ & Hp)]. unfold HostDevice.Validate, HostDevice.normalize.
  rewrite Hp, Pci.to_string_trimmed, Pci.AddressFromHex_to_string by done. simpl.
  destruct dev as [[p g m] be]; simpl in *. subst p.
  by destruct (pci_LookupDevice (Pci.to_string a)).
Qed.

(** ** The loops succeed *)

Lemma cdroms_loop_total cds B :
  Forall (λ cd, is_ret (Cdrom.Validate true (Cdrom.props cd)) = true) cds →
  is_ret (cdroms_loop cds B) = true.
Proof.
  intros Hv. revert B. induction Hv as [|cd cds Hcd _ IH]; intros B; [done|]. simpl.
  destruct (Cdrom.Validate true (Cdrom.props cd)) as [p| |]; [|done..]. simpl.
  destruct (match Cdrom.driver cd with CdromDriverType_SCSI_CD => _ | _ => _ end) as [bus B1].
  specialize (IH B1). by destruct (cdroms_loop cds B1).
Qed.

Lemma disks_loop_total ds B :
  Forall (λ d, is_ret (Disk.Validate true (Disk.props d)) = true ∧ is_Some (Disk.Backend d)) ds →
  is_ret (disks_loop ds B) = true.
Proof.
  intros Hv. revert B. induction Hv as [|d ds [Hd [b Hb]] _ IH]; intros B; [done|]. simpl.
  destruct (Disk.Validate true (Disk.props d)) as [p| |]; [|done..]. simpl.
  destruct (match Disk.driver d with DiskDriverType_SCSI_HD => _ | _ => _ end) as [bus B1].
  unfold diskArgs, Disk.BaseName, Disk.QdevID, Disk.with_backend. simpl. rewrite Hb. simpl.
  specialize (IH B1). by destruct (disks_loop ds B1).
Qed.

Lemma net_loop_iff i ns :
  Forall (λ n, ∃ k, NetIfaceFacts.ok k n) ns →
  is_ret (net_loop i ns) = true ↔ Forall netif_launchable ns.
Proof.
  intros Hns. revert i. induction Hns as [|n ns [k Hn] _ IH]; intros i; [done|]. simpl.
  rewrite Forall_cons, <- (netif_strict _ _ i Hn), <- (IH (S i)).
  rewrite (is_ret_bind _ _ (is_ret (net_loop (S i) ns) = true)), is_ret_validated; [done|].
  intros p _. by destruct (net_loop (S i) ns).
Qed.

Lemma hostpci_loop_iff num devs :
  Forall (λ dev, ∃ k, HostDeviceFacts.ok k dev) devs →
  is_ret (hostpci_loop num devs) = true ↔ Forall hostdev_launchable devs.
Proof.
  intros Hd. revert num. induction Hd as [|dev devs [k Hdev] _ IH]; intros num; [done|]. simpl.
  rewrite Forall_cons, <- (IH (num + 1)), (hostdev_strict _ _ Hdev). unfold hostdev_launchable.
  destruct (pci_LookupDevice _) as [be|e|q] eqn:Hbe; simpl.
  - rewrite Hbe. simpl. destruct (HostDevice.Multifunction _) eqn:Hm, (PciDevice.HasMultifunctionFeature be) eqn:Hf; simpl.
    2: { split; [done|]. intros [(be' & [= <-] & Hf') _]. rewrite Hf' in Hf by done. done. }
    all: destruct (hostpci_loop _ _); simpl; (split; [intros ?; split; [by exists be|done]|by intros []]).
  - split; [by destruct e|]. by intros [(? & [=] & _) _].
  - split; [done|]. by intros [(? & [=] & _) _].
Qed.

Lemma is_ret_final {A B} (m : outcome A) (f : A → B) (P : Prop) :
  P → is_ret (m ≫= λ a, Ret (f a)) = true ↔ is_ret m = true ∧ P.
Proof. intros HP. destruct m; simpl; naive_solver. Qed.

(** ** The sections of the argument list *)

Lemma cpu_args_iff vmconf :
  VirtCPU.wf (CPU (InstanceConf.props vmconf)) →
  is_ret (cpu_args vmconf) = true ↔
    CPUGetTotal (InstanceConf.props vmconf) ≤ 1 ∨ CPUGetSockets (InstanceConf.props vmconf) = 0 ∨
    (CPUGetSockets (InstanceConf.props vmconf) | CPUGetTotal (InstanceConf.props vmconf)).
Proof.
  unfold cpu_args. set (total := CPUGetTotal _). set (sockets := CPUGetSockets _).
  intros (_ & Hs & _). fold sockets in Hs. change (VirtCPU.Sockets _) with sockets in Hs.
  destruct (Z.ltb_spec 1 total); simpl; [|split; [by left|done]].
  destruct (Z.ltb_spec 0 sockets); simpl; [|split; [right; left; lia|done]].
  destruct (Z.eqb_spec (Z.rem total sockets) 0) as [Hr|Hr]; simpl.
  - split; [|done]. intros _. right. right. by apply Z.rem_divide; [lia|].
  - split; [done|]. intros [?|[?|Hd]]; [lia..|]. apply Z.rem_divide in Hd; [done|lia].
Qed.

Lemma storage_args_total vmconf :
  Conf.wf (InstanceConf.props vmconf) → is_ret (storage_args vmconf) = true.
Proof.
  intros Hc. unfold storage_args.
  destruct (cdrom_list _ Hc) as [-> _], (disk_list _ Hc) as [-> Hd].
  pose proof (entries_ok _ _ (wf_keys _ _ (Conf.wf_cdroms _ Hc))) as Hcd.
  destruct (proj1 (is_ret_true (cdroms_loop (Pool.entries (Cdroms (InstanceConf.props vmconf))).*2 ∅)))
    as [[cargs B] ->].
  { apply cdroms_loop_total, Forall_fmap. eapply Forall_impl; [exact Hcd|].
    intros [k cd] [? ?]. by apply (cdrom_strict k). }
  simpl. destruct (proj1 (is_ret_true (disks_loop (Pool.entries (Disks (InstanceConf.props vmconf))).*2 B)))
    as [r ->]; [|done].
  apply disks_loop_total. eapply Forall_impl; [exact Hd|]. intros d [k Hk].
  split; [by eapply disk_strict|]. destruct Hk as [_ _ _ (b & -> & _) _]. by eexists.
Qed.

Lemma vsock_args_total vmconf :
  Conf.wf (InstanceConf.props vmconf) → is_ret (vsock_args vmconf) = true.
Proof.
  intros Hc. unfold vsock_args, VSockDeviceGet.
  destruct (VSockDevice (InstanceConf.props vmconf)) as [v|] eqn:Hv; [|done]. simpl.
  apply (Conf.wf_vsock _ Hc) in Hv. unfold ChannelVSock.ok in Hv. unfold ChannelVSock.Validate.
  destruct (Z.ltb_spec 0 (ChannelVSock.ContextID (ChannelVSock.props v))),
    (Z.ltb_spec (ChannelVSock.ContextID (ChannelVSock.props v)) 3); simpl; try done. lia.
Qed.

Lemma cloudinit_args_total vmconf :
  Conf.wf (InstanceConf.props vmconf) → is_ret (cloudinit_args vmconf) = true.
Proof.
  intros Hc. unfold cloudinit_args, CloudInitGetDrive.
  destruct (CloudInitDrive_ (InstanceConf.props vmconf)) as [v|] eqn:Hv; [|done]. simpl.
  apply (Conf.wf_cloudinit _ Hc), cloudinit_strict in Hv.
  by destruct (CloudInitDrive.Validate true _).
Qed.

Lemma hostpci_args_iff vmconf :
  Conf.wf (InstanceConf.props vmconf) →
  is_ret (hostpci_args vmconf) = true ↔
    Forall hostdev_launchable (HostDeviceGetList [] (InstanceConf.props vmconf)).
Proof.
  intros Hc. unfold hostpci_args. destruct (hostdev_list _ Hc) as [-> Hd].
  rewrite <- (hostpci_loop_iff 0) by done.
  destruct (Pool.entries _).*2 as [|dev devs]; [done|].
  by destruct (hostpci_loop 0 (dev :: devs)).
Qed.

Lemma net_args_iff vmconf :
  Conf.wf (InstanceConf.props vmconf) →
  is_ret (net_args vmconf) = true ↔
    Forall netif_launchable (NetIfaceGetList [] (InstanceConf.props vmconf)).
Proof.
  intros Hc. unfold net_args. destruct (netif_list _ Hc) as [-> Hd].
  rewrite <- (net_loop_iff 0) by done. by destruct (Pool.entries _).*2.
Qed.

Lemma extra_args_iff :
  is_ret extra_args = true ↔
    ∀ st, os_Stat "extra" = inl st → ∃ s, read_file "extra" = inl s.
Proof.
  unfold extra_args. destruct (os_Stat "extra") as [st|e]; [|done].
  destruct (read_file "extra") as [s|e]; simpl; [naive_solver|]. split; [done|].
  intros Hx. by destruct (Hx st eq_refl).
Qed.

(** C36: a well-formed configuration (every reachable one is) gets a command line
    exactly when the chipset is supported, the sockets divide the CPUs, the host
    devices are on the bus with the functions asked for, the interfaces have
    valid addresses and scripts that exist, and the file [extra], if any, can
    be read. *)
Theorem GetCommandLine_iff vmconf features :
  Conf.wf (InstanceConf.props vmconf) →
  is_ret (GetCommandLine vmconf features) = true ↔ launchable (InstanceConf.props vmconf).
Proof.
  intros Hc. set (vm := InstanceConf.props vmconf).
  assert (is_ret (gen vmconf (default (Build_CommandLineFeatures false "" "") features)) = true ↔
    (CPUGetTotal vm ≤ 1 ∨ CPUGetSockets vm = 0 ∨ (CPUGetSockets vm | CPUGetTotal vm)) ∧
    Forall hostdev_launchable (HostDeviceGetList [] vm) ∧
    Forall netif_launchable (NetIfaceGetList [] vm) ∧
    ∀ st, os_Stat "extra" = inl st → ∃ s, read_file "extra" = inl s) as Hgen.
  { unfold gen, vm. rewrite <- cpu_args_iff, <- hostpci_args_iff, <- net_args_iff, <- extra_args_iff
      by (done || apply Hc).
    destruct (proj1 (is_ret_true _) (cloudinit_args_total _ Hc)) as [ci ->].
    destruct (proj1 (is_ret_true _) (vsock_args_total _ Hc)) as [vs ->].
    destruct (proj1 (is_ret_true _) (storage_args_total _ Hc)) as [st ->].
    destruct (cpu_args vmconf); simpl; [|intuition congruence..].
    destruct (hostpci_args vmconf); simpl; [|intuition congruence..].
    destruct (net_args vmconf); simpl; [|intuition congruence..].
    destruct extra_args; simpl; intuition congruence. }
  unfold GetCommandLine. fold vm. destruct (MachineType.Chipset (MachineTypeGet vm)) eqn:Ht.
  2: { rewrite Hgen. split; [intros (?&?&?&?); by split|intros []; tauto]. }
  all: split; [done|intros []; congruence].
Qed.

Lemma GetCommandLine_gen vmconf features args :
  GetCommandLine vmconf features = Ret args →
  is_ret (cpu_args vmconf) = true ∧ is_ret (cloudinit_args vmconf) = true.
Proof.
  unfold GetCommandLine. destruct (MachineType.Chipset _); [done| |done..].
  intros (cpu & -> & (hp & _ & (ci & -> & _)%outcome_bind_Ret)%outcome_bind_Ret)%outcome_bind_Ret.
  done.
Qed.

(** adding one CPU to a machine with several sockets is accepted, and leaves
    a configuration that has no command line. *)
Theorem sockets_launch vmconf features :
  Conf.wf (InstanceConf.props vmconf) →
  1 < CPUGetSockets (InstanceConf.props vmconf) →
  (CPUGetSockets (InstanceConf.props vmconf) | CPUGetTotal (InstanceConf.props vmconf)) →
  let '(r, p) := InstanceConf.CPUSetTotal (CPUGetTotal (InstanceConf.props vmconf) + 1)
                   (InstanceConf.props vmconf) in
  r = Ret () ∧
  is_ret (GetCommandLine (InstanceConf.Build_InstanceConf p (InstanceConf.confname vmconf)) features)
    = false.
Proof.
  intros Hc Hs Hd. set (vm := InstanceConf.props vmconf) in *.
  pose proof (Conf.wf_cpu _ Hc) as Hcpu. change (CPU _) with (CPU vm) in Hcpu.
  assert (InstanceConf.CPUSetTotal (CPUGetTotal vm + 1) vm =
    (Ret (), set_CPU (VirtCPU.set_Total (CPUGetTotal vm + 1) (CPU vm)) vm)) as ->.
  { unfold InstanceConf.CPUSetTotal, VirtCPU.SetTotal, CPUGetTotal. destruct Hcpu as ([??]&_).
    go_unfold. rewrite (proj2 (Z.ltb_ge _ 1)) by lia. by rewrite (proj2 (Z.ltb_ge _ _)) by lia. }
  split; [done|]. set (vm' := set_CPU _ vm).
  destruct (is_ret _) eqn:E; [|done]. apply is_ret_true in E as [args E].
  apply GetCommandLine_gen in E as [E _]. apply cpu_args_iff in E; simpl in E.
  2: { destruct Hcpu as ([??]&?&?&?). unfold VirtCPU.wf. simpl. unfold CPUGetTotal. by split_and!; [lia..| |]. }
  change (CPUGetTotal vm') with (CPUGetTotal vm + 1) in E.
  change (CPUGetSockets vm') with (CPUGetSockets vm) in E.
  destruct Hcpu as ([??]&_). change (VirtCPU.Total (CPU vm)) with (CPUGetTotal vm) in *.
  destruct E as [?|[?|Hd']]; [|lia|].
  - apply Z.divide_pos_le in Hd; lia.
  - assert (CPUGetSockets vm | 1) as Hone%Z.divide_1_r_nonneg; [|lia..].
    replace 1 with (CPUGetTotal vm + 1 - CPUGetTotal vm) by lia. by apply Z.divide_sub_r.
Qed.

(** the fallback for cloud-init drives of an unknown driver never makes a
    command line: the driver is replaced by a floppy, but its name is still
    refused by the validation that follows. *)
Theorem cloudinit_no_fallback vmconf features drive :
  CloudInitGetDrive (InstanceConf.props vmconf) = Some drive →
  (DriverTypeValue (Strings.TrimSpace (CloudInitDrive.Driver (CloudInitDrive.props drive)))
    : CloudInitDriverType) = DriverType_UNKNOWN →
  is_ret (GetCommandLine vmconf features) = false.
Proof.
  intros Hd Hu. destruct (is_ret _) eqn:E; [|done]. apply is_ret_true in E as [args E].
  apply GetCommandLine_gen in E as [_ E]. unfold cloudinit_args in E. rewrite Hd in E.
  assert (∃ e, CloudInitDrive.Validate true (CloudInitDrive.props drive) = Throw (ErrMsg e)) as [e Hv];
    [|by rewrite Hv in E].
  unfold CloudInitDrive.Validate. destruct (bool_decide (_ = "")); [by eexists|].
  unfold validate_driver. destruct (bool_decide (_ = "")); [by eexists|].
  rewrite bool_decide_true by done. by eexists.
Qed.
End launch.
End Launch.

(** * Identifiers *)

Module Ids.
Import CommandLine InstanceProperties.

(** The qdev identifiers of the devices that can be unplugged or migrated,
    after the ones the command line fixes. *)
Definition fixed_ids : list string :=
  ["balloon0"; "pci.1"; "uhci"; "tablet"; "cidata"; "virtio-serial-qga0"; "vsock_device"; "modiso"].
Definition qdev_ids (vm : InstanceProperties.t) : outcome (list string) :=
  disks ← DiskGetList [] vm;
  ids ← mapM Disk.QdevID disks;
  Ret (fixed_ids ++ map Cdrom.QdevID (CdromGetList [] vm) ++ ids
       ++ map NetIface.QdevID (NetIfaceGetList [] vm)).

(** The identifiers of the [-drive] options of an argument list. *)
Definition option_id (opts : string) : option string :=
  list_find (λ o, Strings.HasPrefix o "id=" = true) (Strings.Split opts ",") ≫= λ o,
    Some (Strings.TrimPrefix o.2 "id=").
Fixpoint drive_ids (args : list string) : list string :=
  match args with
  | a :: ((b :: _) as rest) =>
      (if bool_decide (a = "-drive") then match option_id b with Some i => [i] | None => [] end
       else []) ++ drive_ids rest
  | _ => []
  end.

Section ids.
Context `{Env}.

Lemma BaseName_QdevID s b : NewDiskBackend s = Ret b → QdevID b = "blk_" +:+ BaseName b.
Proof.
  intros Hb%BackendFacts.remote_or_block_plain. by destruct b as [[]|[]|[]|[]|].
Qed.

Lemma disk_QdevID k d : DiskFacts.ok k d → Disk.QdevID d = Ret ("blk_" +:+ k).
Proof.
  intros [_ _ _ (b & Hb & Hn & ->) _]. unfold Disk.QdevID, Disk.with_backend. rewrite Hb.
  by rewrite (BaseName_QdevID _ _ Hn).
Qed.

Lemma mapM_QdevID (l : list (string * Disk.t)) :
  Forall (λ kv, DiskFacts.ok kv.1 kv.2) l →
  mapM Disk.QdevID l.*2 = Ret (map (λ k, "blk_" +:+ k) l.*1).
Proof.
  induction 1 as [|[k d] l Hd _ IH]; [done|].
  change (mapM Disk.QdevID ((k, d) :: l).*2)
    with (y ← Disk.QdevID d; ys ← mapM Disk.QdevID l.*2; Ret (y :: ys)).
  simpl in Hd. by rewrite (disk_QdevID _ _ Hd), IH.
Qed.

(** Identifiers with a common prefix are as distinct as what follows it. *)
Lemma NoDup_prefixed p (l : list string) : NoDup l → NoDup (map (λ k, p +:+ k) l).
Proof. apply (NoDup_fmap_2 (λ k, p +:+ k)). Qed.

(** The values of a pool named after their keys. *)
Lemma map_prefixed {V} (Pk : string → V → Prop) (f : V → string) pre p :
  Pool.wf Pk p → (∀ k v, Pk k v → f v = pre +:+ k) →
  map f (Pool.entries p).*2 = map (λ k, pre +:+ k) (Pool.keys p).
Proof.
  intros Hp Hf. rewrite <- (PoolFacts.entries_keys Pk) by done.
  pose proof (entries_ok Pk p Hp) as He. induction He as [|[k v] l Hv _ IH]; [done|].
  simpl in Hv. csimpl. by rewrite IH, (Hf _ _ Hv).
Qed.

Lemma fixed_ids_prefix pre (l : list string) x :
  Forall (λ i, Strings.HasPrefix i pre = false) fixed_ids →
  x ∈ fixed_ids → x ∉ map (λ k, pre +:+ k) l.
Proof.
  intros Hp Hx (k & -> & _)%list_elem_of_fmap. rewrite Forall_forall in Hp.
  apply Hp in Hx. by rewrite GoFacts.HasPrefix_app in Hx.
Qed.

(** the devices of a well-formed configuration have distinct qdev
    identifiers, distinct as well from those the command line gives out
    itself. *)
Theorem qdev_ids_unique vm :
  Conf.wf vm → ∃ ids, qdev_ids vm = Ret ids ∧ NoDup ids.
Proof.
  intros Hc. unfold qdev_ids.
  destruct (disk_list _ Hc) as [-> _], (cdrom_list _ Hc) as [-> _], (netif_list _ Hc) as [-> _]. simpl.
  rewrite mapM_QdevID by apply entries_ok, Hc. simpl. eexists. split; [done|].
  rewrite (map_prefixed CdromFacts.ok Cdrom.QdevID "cdrom_"), (map_prefixed NetIfaceFacts.ok NetIface.QdevID "net_"),
    (PoolFacts.entries_keys DiskFacts.ok) by (apply Hc || by intros k v [? -> ? ?] || by intros k v [? ->]).
  apply (list.NoDup_app fixed_ids). split_and!; [by_compute| |].
  - intros x Hx. rewrite !elem_of_app. intros [Hin|[Hin|Hin]]; revert Hin;
      (apply fixed_ids_prefix; [by_compute|done]).
  - apply list.NoDup_app. split_and!; [apply NoDup_prefixed, Hc| |].
    + intros x (k & -> & _)%list_elem_of_fmap. rewrite elem_of_app.
      by intros [(k' & Hk & _)%list_elem_of_fmap|(k' & Hk & _)%list_elem_of_fmap].
    + apply list.NoDup_app. split_and!; [apply NoDup_prefixed, Hc| |apply NoDup_prefixed, Hc].
      intros x (k & -> & _)%list_elem_of_fmap. by intros (k' & Hk & _)%list_elem_of_fmap.
Qed.
End ids.
End Ids.

(** * Witnesses *)

Definition sample_process : Process :=
  {| os_Getpid := 4242; read_file f := inr (ErrNotExist f); rand_Read _ := inl (1, 2, 3) |}.
Definition sample_bus : PciBus := λ hexaddr,
  addr ← Pci.AddressFromHex hexaddr;
  Ret (PciDevice.MkDevice addr None [] "vfio-pci" true 0 0 0 "" "" "" "" false).
Definition in_file (c : InstanceProperties.t) : InstanceConf.InstanceConf :=
  {| InstanceConf.props := c; InstanceConf.confname := "config" |}.
Definition sample_GetCommandLine (c : InstanceProperties.t) : outcome (list string) :=
  @CommandLine.GetCommandLine sample_host sample_process sample_bus (in_file c) None.

(** A cdrom and a disk on one SCSI bus, and a second bus. *)
Definition scsi_conf : InstanceProperties.t :=
  (sample_run [CdromAppend {| Cdrom.Name := "cd0"; Cdrom.Media := ""; Cdrom.Driver := "scsi-cd";
                              Cdrom.Bootindex := 1; Cdrom.Readonly := false |};
               DiskAppend {| Disk.Path := "/dev/vg/root"; Disk.Driver := "scsi-hd"; Disk.IopsRd := 0;
                             Disk.IopsWr := 100; Disk.Bootindex := 0 |};
               CPUSetTotal 4; CPUSetSockets 2]).2.

Lemma scsi_conf_wf : @Conf.wf sample_env scsi_conf.
Proof.
  apply reachable_ind_wf; [by apply PeripheralFacts.flash_available_getwd|].
  apply reachable_run, reachable_new.
Qed.

Example scsi_storage :
  CommandLine.storage_args (in_file scsi_conf) =
  Ret ["-device"; "virtio-scsi-pci,id=scsi0,bus=pci.0";
       "-drive"; "id=cd0,if=none,aio=native,detect-zeroes=on";
       "-device"; "scsi-cd,drive=cd0,id=cdrom_cd0,channel=0,scsi-id=1,bus=scsi0.0,bootindex=1";
       "-drive"; "file=/dev/vg/root,id=root,format=raw,if=none,aio=native,cache=none,detect-zeroes=on,iops_rd=0,iops_wr=100";
       "-device"; "scsi-hd,drive=root,id=blk_root,channel=0,scsi-id=1,bus=scsi0.0"].
Proof. vm_compute. reflexivity. Qed.

Example storage_section_witness :
  ∃ items, CommandLine.storage_args (in_file scsi_conf) = Ret (concat (map Storage.render items)) ∧
           NoDup (omap Storage.decl items).
Proof.
  destruct (Storage.storage_section (in_file scsi_conf) _ scsi_storage)
    as (items & disks & Ha & _ & _ & _ & Hn & _).
  exists items. split; [|exact Hn]. rewrite <- Ha. exact scsi_storage.
Defined.

Example GetCommandLine_iff_witness : is_ret (sample_GetCommandLine sample_conf) = true.
Proof.
  apply (@Launch.GetCommandLine_iff sample_env sample_host sample_process sample_bus);
    [intros n; by eexists|exact sample_conf_wf|].
  split.
  - vm_compute. reflexivity.
  - left. vm_compute. discriminate.
  - vm_compute. repeat constructor; eexists; (split; [vm_compute; reflexivity|done]).
  - let l := eval vm_compute in (InstanceProperties.NetIfaceGetList [] sample_conf) in
      replace (InstanceProperties.NetIfaceGetList [] _) with l by (vm_compute; reflexivity).
    apply Forall_cons. split; [|by constructor]. split_and!.
    + right. vm_compute. reflexivity.
    + right. eexists. vm_compute. reflexivity.
    + left. vm_compute. reflexivity.
  - intros st Hs. vm_compute in Hs. discriminate Hs.
Defined.

Example sockets_launch_witness :
  is_ret (sample_GetCommandLine scsi_conf) = true ∧
  (InstanceConf.CPUSetTotal 5 scsi_conf).1 = Ret () ∧
  is_ret (sample_GetCommandLine (InstanceConf.CPUSetTotal 5 scsi_conf).2) = false.
Proof.
  pose proof (@Launch.sockets_launch sample_env sample_host sample_process sample_bus
    (in_file scsi_conf) None scsi_conf_wf) as Hl.
  split; [vm_compute; reflexivity|].
  assert (1 < InstanceProperties.CPUGetSockets scsi_conf) as Hs by by_compute.
  assert (InstanceProperties.CPUGetSockets scsi_conf | InstanceProperties.CPUGetTotal scsi_conf) as Hd
    by (exists 2; vm_compute; reflexivity).
  specialize (Hl Hs Hd).
  assert (InstanceProperties.CPUGetTotal scsi_conf + 1 = 5) as Ht by (vm_compute; reflexivity).
  change (InstanceConf.props (in_file scsi_conf)) with scsi_conf in Hl. rewrite Ht in Hl.
  destruct (InstanceConf.CPUSetTotal 5 scsi_conf) as [r p]. exact Hl.
Defined.

(** A configuration file of an earlier version, with a driver no longer known. *)
Definition cloudinit_conf : InstanceProperties.t :=
  InstanceProperties.set_CloudInitDrive_
    (Some (@CloudInitDrive.load sample_env
             {| CloudInitDrive.Media := "/dev/vg/cidata"; CloudInitDrive.Driver := "virtio-blk-pci" |}
             {| CloudInitDrive.props := {| CloudInitDrive.Media := ""; CloudInitDrive.Driver := "" |};
                CloudInitDrive.driver := CloudInitDriverType_UNKNOWN; CloudInitDrive.Backend := None |}))
    scsi_conf.

Example cloudinit_no_fallback_witness :
  sample_GetCommandLine cloudinit_conf
    = Throw (ErrMsg "cloud-init validation error: unknown cloud-init driver: virtio-blk-pci") ∧
  is_ret (sample_GetCommandLine cloudinit_conf) = false.
Proof.
  split; [vm_compute; reflexivity|].
  eapply (@Launch.cloudinit_no_fallback sample_host sample_process sample_bus);
    vm_compute; reflexivity.
Defined.

Example qdev_ids_unique_witness :
  ∃ ids, Ids.qdev_ids scsi_conf = Ret (Ids.fixed_ids ++ ids) ∧ NoDup (Ids.fixed_ids ++ ids).
Proof.
  destruct (@Ids.qdev_ids_unique sample_env scsi_conf scsi_conf_wf) as (ids & Hi & Hn).
  exists ["cdrom_cd0"; "blk_root"].
  assert (Ids.qdev_ids scsi_conf = Ret (Ids.fixed_ids ++ ["cdrom_cd0"; "blk_root"])) as Hc
    by (vm_compute; reflexivity).
  split; [exact Hc|]. rewrite Hc in Hi. injection Hi as <-. exact Hn.
Defined.

(** A cdrom called like a disk. *)
Definition clash_conf : InstanceProperties.t :=
  (sample_run [CdromAppend {| Cdrom.Name := "vda"; Cdrom.Media := ""; Cdrom.Driver := "ide-cd";
                              Cdrom.Bootindex := 0; Cdrom.Readonly := false |};
               DiskAppend (sample_disk "/dev/vda")]).2.

(** nothing keeps the name of a cdrom apart from that of a disk, and the
    command line uses both as drive identifiers: a reachable configuration
    gives the same identifier to two drives. *)
Theorem drive_ids_clash :
  ∃ c, @reachable sample_env c ∧
       ∃ args, sample_GetCommandLine c = Ret args ∧ Ids.drive_ids args = ["vda"; "vda"].
Proof.
  exists clash_conf. split; [apply reachable_run, reachable_new|].
  destruct (proj1 (Launch.is_ret_true (sample_GetCommandLine clash_conf))) as [args Ha];
    [vm_compute; reflexivity|].
  exists args. split; [done|].
  assert (Ids.drive_ids <$> sample_GetCommandLine clash_conf = Ret ["vda"; "vda"]) as Hi
    by (vm_compute; reflexivity).
  rewrite Ha in Hi. by injection Hi.
Qed.
