(* ===== verification/ConfJson.v ===== *)
(** ConfJson: how a configuration is written to its file and read back: the
    JSON form of every record (the struct tags and [UnmarshalJSON] methods of
    [kvmrun/*.go]), [Save], [SaveStartupConfig], [GetInstanceConf],
    [GetIncomingConf] and [GetStartupConf] of [instance_conf.go]. *)

From S2P Require Import Prelude.
From S2P Require Import GoStd.
From S2P Require Import GoFacts.
From S2P Require Import Pool.
From S2P Require Import Backend.
From S2P Require Import Resources.
From S2P Require Import Drivers.
From S2P Require Import Disks.
From S2P Require Import Cdroms.
From S2P Require Import NetIfaces.
From S2P Require Import HostDevices.
From S2P Require Import Peripherals.
From S2P Require Import Json.
From S2P Require Import InstanceProperties.
From S2P Require Import InstanceConf.

Open Scope Z_scope.

Module ConfJson.
Import Json.

(** ** Records *)

Definition enc_memory (m : Memory.t) : json :=
  enc_struct [field "actual" (JNum (Memory.Actual m)); field "total" (JNum (Memory.Total m))].
Definition memory_fields : list (string * decoder Memory.t) :=
  [("actual", on Memory.Actual Memory.set_Actual dec_int);
   ("total", on Memory.Total Memory.set_Total dec_int)].

Definition enc_cpu (c : VirtCPU.t) : json :=
  enc_struct [field "actual" (JNum (VirtCPU.Actual c)); field "total" (JNum (VirtCPU.Total c));
              opt_int "sockets" (VirtCPU.Sockets c); opt_int "quota" (VirtCPU.Quota c);
              opt_string "model" (VirtCPU.Model c)].
Definition cpu_fields : list (string * decoder VirtCPU.t) :=
  [("actual", on VirtCPU.Actual VirtCPU.set_Actual dec_int);
   ("total", on VirtCPU.Total VirtCPU.set_Total dec_int);
   ("sockets", on VirtCPU.Sockets VirtCPU.set_Sockets dec_int);
   ("quota", on VirtCPU.Quota VirtCPU.set_Quota dec_int);
   ("model", on VirtCPU.Model VirtCPU.set_Model dec_string)].

Definition enc_kernel (k : ExtKernel.t) : json :=
  enc_struct [opt_string "image" (ExtKernel.Image k); opt_string "cmdline" (ExtKernel.Cmdline k);
              opt_string "initrd" (ExtKernel.Initrd k); opt_string "modiso" (ExtKernel.Modiso k)].
Definition kernel_fields : list (string * decoder ExtKernel.t) :=
  [("image", on ExtKernel.Image ExtKernel.set_Image dec_string);
   ("cmdline", on ExtKernel.Cmdline ExtKernel.set_Cmdline dec_string);
   ("initrd", on ExtKernel.Initrd ExtKernel.set_Initrd dec_string);
   ("modiso", on ExtKernel.Modiso ExtKernel.set_Modiso dec_string)].

(** Embedded properties are fields of the record itself. *)
Definition on_props {S P T} (get : S → P) (set : P → S → S) (g : P → T) (p : T → P → P)
    (d : decoder T) : decoder S :=
  on (λ s, g (get s)) (λ v s, set (p v (get s)) s) d.

Definition enc_disk (d : Disk.t) : json :=
  let p := Disk.props d in
  enc_struct [field "path" (JStr (Disk.Path p)); field "driver" (JStr (Disk.Driver p));
              field "iops_rd" (JNum (Disk.IopsRd p)); field "iops_wr" (JNum (Disk.IopsWr p));
              opt_int "bootindex" (Disk.Bootindex p); opt_string "addr" (Disk.QemuAddr d)].
Definition disk_zero : Disk.t :=
  Disk.make (Disk.Build_Properties "" "" 0 0 0) DiskDriverType_UNKNOWN None.
Definition disk_set_props (p : Disk.Properties) (d : Disk.t) : Disk.t :=
  Disk.Build_t p (Disk.driver d) (Disk.Backend d) (Disk.QemuAddr d) (Disk.QemuVirtualSize d)
    (Disk.HasBitmap d).
Definition disk_fields : list (string * decoder Disk.t) :=
  let prop {T} := @on_props _ _ T Disk.props disk_set_props in
  [("path", prop Disk.Path (λ v p, Disk.Build_Properties v (Disk.Driver p) (Disk.IopsRd p)
      (Disk.IopsWr p) (Disk.Bootindex p)) dec_string);
   ("driver", prop Disk.Driver (λ v p, Disk.Build_Properties (Disk.Path p) v (Disk.IopsRd p)
      (Disk.IopsWr p) (Disk.Bootindex p)) dec_string);
   ("iops_rd", prop Disk.IopsRd (λ v p, Disk.Build_Properties (Disk.Path p) (Disk.Driver p) v
      (Disk.IopsWr p) (Disk.Bootindex p)) dec_int);
   ("iops_wr", prop Disk.IopsWr (λ v p, Disk.Build_Properties (Disk.Path p) (Disk.Driver p)
      (Disk.IopsRd p) v (Disk.Bootindex p)) dec_int);
   ("bootindex", prop Disk.Bootindex (λ v p, Disk.Build_Properties (Disk.Path p) (Disk.Driver p)
      (Disk.IopsRd p) (Disk.IopsWr p) v) dec_int);
   ("addr", on Disk.QemuAddr (λ v d, Disk.Build_t (Disk.props d) (Disk.driver d) (Disk.Backend d)
      v (Disk.QemuVirtualSize d) (Disk.HasBitmap d)) dec_string)].

Definition enc_cdrom (d : Cdrom.t) : json :=
  let p := Cdrom.props d in
  enc_struct [field "name" (JStr (Cdrom.Name p)); field "media" (JStr (Cdrom.Media p));
              field "driver" (JStr (Cdrom.Driver p)); opt_int "bootindex" (Cdrom.Bootindex p);
              opt_bool "readonly" (Cdrom.Readonly p); opt_string "addr" (Cdrom.QemuAddr d)].
Definition cdrom_zero : Cdrom.t :=
  Cdrom.make (Cdrom.Build_Properties "" "" "" 0 false) CdromDriverType_UNKNOWN None.
Definition cdrom_set_props (p : Cdrom.Properties) (d : Cdrom.t) : Cdrom.t :=
  Cdrom.Build_t p (Cdrom.driver d) (Cdrom.MediaBackend d) (Cdrom.QemuAddr d).
Definition cdrom_fields : list (string * decoder Cdrom.t) :=
  let prop {T} := @on_props _ _ T Cdrom.props cdrom_set_props in
  [("name", prop Cdrom.Name (λ v p, Cdrom.Build_Properties v (Cdrom.Media p) (Cdrom.Driver p)
      (Cdrom.Bootindex p) (Cdrom.Readonly p)) dec_string);
   ("media", prop Cdrom.Media (λ v p, Cdrom.Build_Properties (Cdrom.Name p) v (Cdrom.Driver p)
      (Cdrom.Bootindex p) (Cdrom.Readonly p)) dec_string);
   ("driver", prop Cdrom.Driver (λ v p, Cdrom.Build_Properties (Cdrom.Name p) (Cdrom.Media p) v
      (Cdrom.Bootindex p) (Cdrom.Readonly p)) dec_string);
   ("bootindex", prop Cdrom.Bootindex (λ v p, Cdrom.Build_Properties (Cdrom.Name p)
      (Cdrom.Media p) (Cdrom.Driver p) v (Cdrom.Readonly p)) dec_int);
   ("readonly", prop Cdrom.Readonly (λ v p, Cdrom.Build_Properties (Cdrom.Name p)
      (Cdrom.Media p) (Cdrom.Driver p) (Cdrom.Bootindex p) v) dec_bool);
   ("addr", on Cdrom.QemuAddr (λ v d, Cdrom.Build_t (Cdrom.props d) (Cdrom.driver d)
      (Cdrom.MediaBackend d) v) dec_string)].

Definition enc_netif (n : NetIface.t) : json :=
  let p := NetIface.props n in
  enc_struct [field "ifname" (JStr (NetIface.Ifname p)); field "driver" (JStr (NetIface.Driver p));
              field "hwaddr" (JStr (NetIface.HwAddr p)); field "queues" (JNum (NetIface.Queues p));
              opt_int "bootindex" (NetIface.Bootindex p); opt_string "ifup" (NetIface.Ifup p);
              opt_string "ifdown" (NetIface.Ifdown p); opt_string "addr" (NetIface.QemuAddr n)].
Definition netif_zero : NetIface.t :=
  NetIface.make (NetIface.Build_Properties "" "" "" 0 0 "" "") NetDriverType_UNKNOWN.
Definition netif_set_props (p : NetIface.Properties) (n : NetIface.t) : NetIface.t :=
  NetIface.Build_t p (NetIface.driver n) (NetIface.QemuAddr n).
Definition netif_fields : list (string * decoder NetIface.t) :=
  let prop {T} := @on_props _ _ T NetIface.props netif_set_props in
  [("ifname", prop NetIface.Ifname (λ v p, NetIface.Build_Properties v (NetIface.Driver p)
      (NetIface.HwAddr p) (NetIface.Queues p) (NetIface.Bootindex p) (NetIface.Ifup p)
      (NetIface.Ifdown p)) dec_string);
   ("driver", prop NetIface.Driver (λ v p, NetIface.Build_Properties (NetIface.Ifname p) v
      (NetIface.HwAddr p) (NetIface.Queues p) (NetIface.Bootindex p) (NetIface.Ifup p)
      (NetIface.Ifdown p)) dec_string);
   ("hwaddr", prop NetIface.HwAddr (λ v p, NetIface.Build_Properties (NetIface.Ifname p)
      (NetIface.Driver p) v (NetIface.Queues p) (NetIface.Bootindex p) (NetIface.Ifup p)
      (NetIface.Ifdown p)) dec_string);
   ("queues", prop NetIface.Queues (λ v p, NetIface.Build_Properties (NetIface.Ifname p)
      (NetIface.Driver p) (NetIface.HwAddr p) v (NetIface.Bootindex p) (NetIface.Ifup p)
      (NetIface.Ifdown p)) dec_int);
   ("bootindex", prop NetIface.Bootindex (λ v p, NetIface.Build_Properties (NetIface.Ifname p)
      (NetIface.Driver p) (NetIface.HwAddr p) (NetIface.Queues p) v (NetIface.Ifup p)
      (NetIface.Ifdown p)) dec_int);
   ("ifup", prop NetIface.Ifup (λ v p, NetIface.Build_Properties (NetIface.Ifname p)
      (NetIface.Driver p) (NetIface.HwAddr p) (NetIface.Queues p) (NetIface.Bootindex p) v
      (NetIface.Ifdown p)) dec_string);
   ("ifdown", prop NetIface.Ifdown (λ v p, NetIface.Build_Properties (NetIface.Ifname p)
      (NetIface.Driver p) (NetIface.HwAddr p) (NetIface.Queues p) (NetIface.Bootindex p)
      (NetIface.Ifup p) v) dec_string);
   ("addr", on NetIface.QemuAddr (λ v n, NetIface.Build_t (NetIface.props n) (NetIface.driver n)
      v) dec_string)].

Definition enc_input (d : InputDevice.t) : json :=
  enc_struct [field "type" (JStr (InputDevice.Type_ (InputDevice.props d)))].
Definition input_zero : InputDevice.t := InputDevice.Build_t (InputDevice.Build_Properties "").
Definition input_fields : list (string * decoder InputDevice.t) :=
  [("type", on (λ d, InputDevice.Type_ (InputDevice.props d))
              (λ v _, InputDevice.Build_t (InputDevice.Build_Properties v)) dec_string)].

Definition enc_hostdev (d : HostDevice.t) : json :=
  let p := HostDevice.props d in
  enc_struct [field "addr" (JStr (HostDevice.PCIAddr p));
              field "primary_gpu" (JBool (HostDevice.PrimaryGPU p));
              field "multifunction" (JBool (HostDevice.Multifunction p))].
Definition hostdev_zero : HostDevice.t :=
  HostDevice.Build_t (HostDevice.Build_Properties "" false false) None.
Definition hostdev_set_addr (v : string) (d : HostDevice.t) : HostDevice.t :=
  HostDevice.Build_t (HostDevice.Build_Properties v (HostDevice.PrimaryGPU (HostDevice.props d))
    (HostDevice.Multifunction (HostDevice.props d))) (HostDevice.BackendAddr d).
Definition hostdev_fields : list (string * decoder HostDevice.t) :=
  [("addr", on (λ d, HostDevice.PCIAddr (HostDevice.props d)) hostdev_set_addr dec_string);
   ("primary_gpu", on (λ d, HostDevice.PrimaryGPU (HostDevice.props d))
      HostDevice.set_PrimaryGPU dec_bool);
   ("multifunction", on (λ d, HostDevice.Multifunction (HostDevice.props d))
      HostDevice.set_Multifunction dec_bool)].

Definition enc_vsock (v : ChannelVSock.t) : json :=
  enc_struct [opt_int "context_id" (ChannelVSock.ContextID (ChannelVSock.props v));
              opt_string "addr" (ChannelVSock.QemuAddr v)].
Definition vsock_zero : ChannelVSock.t :=
  ChannelVSock.Build_t (ChannelVSock.Build_Properties 0) "".
Definition vsock_fields : list (string * decoder ChannelVSock.t) :=
  [("context_id", on (λ v, ChannelVSock.ContextID (ChannelVSock.props v))
      (λ n v, ChannelVSock.Build_t (ChannelVSock.Build_Properties n) (ChannelVSock.QemuAddr v))
      dec_uint32);
   ("addr", on ChannelVSock.QemuAddr (λ s v, ChannelVSock.Build_t (ChannelVSock.props v) s)
      dec_string)].
(** [ChannelVSock.UnmarshalJSON] decodes into a fresh value and copies it. *)
Definition dec_vsock : decoder ChannelVSock.t := λ j _, dec_struct vsock_fields j vsock_zero.

Definition enc_cloudinit (d : CloudInitDrive.t) : json :=
  enc_struct [opt_string "path" (CloudInitDrive.Media (CloudInitDrive.props d));
              opt_string "driver" (CloudInitDrive.Driver (CloudInitDrive.props d))].
Definition cloudinit_zero : CloudInitDrive.t :=
  CloudInitDrive.Build_t (CloudInitDrive.Build_Properties "" "") CloudInitDriverType_UNKNOWN None.
Definition cloudinit_fields : list (string * decoder CloudInitDrive.Properties) :=
  [("path", on CloudInitDrive.Media
      (λ v p, CloudInitDrive.Build_Properties v (CloudInitDrive.Driver p)) dec_string);
   ("driver", on CloudInitDrive.Driver
      (λ v p, CloudInitDrive.Build_Properties (CloudInitDrive.Media p) v) dec_string)].

Definition enc_firmware (fw : Firmware.t) : json :=
  enc_struct [opt_string "image" (Firmware.Image (Firmware.props fw));
              opt_string "flash" (Firmware.Flash (Firmware.props fw))].
Definition firmware_zero : Firmware.t := Firmware.Build_t (Firmware.Build_Properties "" "") None.
Definition firmware_fields : list (string * decoder Firmware.Properties) :=
  [("image", on Firmware.Image
      (λ v p, Firmware.Build_Properties v (Firmware.Flash p)) dec_string);
   ("flash", on Firmware.Flash
      (λ v p, Firmware.Build_Properties (Firmware.Image p) v) dec_string)].

(** ** The configuration *)

Definition enc_pool {V} (enc : V → json) (p : Pool.t V) : json :=
  JArr (map (λ v, match v with Some v => enc v | None => JNull end) (Pool.MarshalJSON p)).

(** The value that is printed, and what its text denotes. *)
Definition conf_json (c : InstanceProperties.t) : json :=
  enc_struct
    [opt_string "machine_type" (InstanceProperties.MachineType_ c);
     opt_ptr "firmware" enc_firmware (InstanceProperties.Firmware_ c);
     field "memory" (enc_memory (InstanceProperties.Memory_ c));
     field "cpu" (enc_cpu (InstanceProperties.CPU c));
     field "inputs" (enc_pool enc_input (InstanceProperties.InputDevices c));
     field "cdrom" (enc_pool enc_cdrom (InstanceProperties.Cdroms c));
     field "storage" (enc_pool enc_disk (InstanceProperties.Disks c));
     field "network" (enc_pool enc_netif (InstanceProperties.NetIfaces c));
     opt_ptr "vsock_device" enc_vsock (InstanceProperties.VSockDevice c);
     opt_ptr "cloudinit_drive" enc_cloudinit (InstanceProperties.CloudInitDrive_ c);
     field "kernel" (enc_kernel (InstanceProperties.Kernel c));
     field "hostpci" (enc_pool enc_hostdev (InstanceProperties.HostDevices c))].
Definition enc_conf (c : InstanceProperties.t) : json := marshalled (conf_json c).

(** The regular files the daemon writes and reads: a JSON value, or a text that
    is none. *)
Abbreviation files := (gmap string (option json)).

Section decode.
Context `{Env}.

Definition dec_cloudinit : decoder CloudInitDrive.t := λ j d,
  opts ← dec_struct cloudinit_fields j (CloudInitDrive.Build_Properties "" "");
  Ret (CloudInitDrive.load opts d).
Definition dec_firmware : decoder Firmware.t := λ j fw,
  opts ← dec_struct firmware_fields j (Firmware.Build_Properties "" "");
  Ret (Firmware.load opts fw).

(** [UnmarshalJSON] of a pool. *)
Definition dec_pool {V} (zero : V) (d : decoder V) (load : list (option V) → op (Pool.t V) ())
    : decoder (Pool.t V) := λ j p,
  vs ← dec_slice zero d j;
  (locally (load vs) p ()).1.

Definition conf_fields : list (string * decoder InstanceProperties.t) :=
  [("machine_type", on InstanceProperties.MachineType_ InstanceProperties.set_MachineType_ dec_string);
   ("firmware", on InstanceProperties.Firmware_ InstanceProperties.set_Firmware_
      (dec_ptr firmware_zero dec_firmware));
   ("memory", on InstanceProperties.Memory_ InstanceProperties.set_Memory_
      (dec_struct memory_fields));
   ("cpu", on InstanceProperties.CPU InstanceProperties.set_CPU (dec_struct cpu_fields));
   ("inputs", on InstanceProperties.InputDevices InstanceProperties.set_InputDevices
      (dec_pool input_zero (dec_struct input_fields) InputDevicePool.load));
   ("cdrom", on InstanceProperties.Cdroms InstanceProperties.set_Cdroms
      (dec_pool cdrom_zero (dec_struct cdrom_fields) CdromPool.load));
   ("storage", on InstanceProperties.Disks InstanceProperties.set_Disks
      (dec_pool disk_zero (dec_struct disk_fields) DiskPool.load));
   ("network", on InstanceProperties.NetIfaces InstanceProperties.set_NetIfaces
      (dec_pool netif_zero (dec_struct netif_fields) NetIfacePool.load));
   ("vsock_device", on InstanceProperties.VSockDevice InstanceProperties.set_VSockDevice
      (dec_ptr vsock_zero dec_vsock));
   ("cloudinit_drive", on InstanceProperties.CloudInitDrive_ InstanceProperties.set_CloudInitDrive_
      (dec_ptr cloudinit_zero dec_cloudinit));
   ("kernel", on InstanceProperties.Kernel InstanceProperties.set_Kernel
      (dec_struct kernel_fields));
   ("hostpci", on InstanceProperties.HostDevices InstanceProperties.set_HostDevices
      (dec_pool hostdev_zero (dec_struct hostdev_fields) HostDevicePool.load))].

Definition dec_conf : decoder InstanceProperties.t := dec_struct conf_fields.

(** ** Files *)

(** What [os.WriteFile] may do: write the file, or fail and leave something
    else there. *)
Inductive write_result := Written | Failed (e : goerr) (remains : option (option json)).

Definition WriteFile (w : write_result) (path : string) (j : json) : op files () :=
  match w with
  | Written => modify (<[path := Some j]>)
  | Failed e remains => modify (partial_alter (λ _, remains) path);; throw e
  end.

Definition Save (w : write_result) (c : InstanceConf.InstanceConf) : op files () :=
  _ ← lift (ValidateMachineName (InstanceProperties.Name (InstanceConf.props c)));
  WriteFile w (InstanceConf.config c) (enc_conf (InstanceConf.props c)).

Definition SaveStartupConfig (w : write_result) (c : InstanceConf.InstanceConf) : op files () :=
  _ ← lift (ValidateMachineName (InstanceProperties.Name (InstanceConf.props c)));
  WriteFile w
    (Filepath.Join [CHROOTDIR; InstanceProperties.name (InstanceConf.props c); "run/startup_config"])
    (enc_conf (InstanceConf.props c)).

(** Reading and decoding one file. *)
Definition read_conf (fs : files) (path : string) (c : InstanceProperties.t)
    : outcome InstanceProperties.t :=
  match fs !! path with
  | None => Throw (ErrNotExist path)
  | Some None => Throw (ErrMsg "json: syntax error")
  | Some (Some j) => dec_conf j c
  end.

(** The checks that follow: everything that needs a backend has one. *)
Definition check_firmware (c : InstanceProperties.t) : outcome () :=
  match InstanceProperties.Firmware_ c with
  | Some fw =>
      if bool_decide (Firmware.Flash (Firmware.props fw) ≠ "" ∧ Firmware.flashDisk fw = None)
      then Throw (UnknownBackendError (Firmware.Flash (Firmware.props fw))) else Ret ()
  | None => Ret ()
  end.
Fixpoint check_cdroms (l : list Cdrom.t) : outcome () :=
  match l with
  | [] => Ret ()
  | cd :: l =>
      if bool_decide (Cdrom.Media (Cdrom.props cd) ≠ "" ∧ Cdrom.MediaBackend cd = None)
      then Throw (UnknownBackendError (Cdrom.Media (Cdrom.props cd))) else check_cdroms l
  end.
Fixpoint check_disks (l : list Disk.t) : outcome () :=
  match l with
  | [] => Ret ()
  | d :: l =>
      if bool_decide (Disk.Backend d = None)
      then Throw (UnknownBackendError (Disk.Path (Disk.props d))) else check_disks l
  end.
Definition check_cloudinit (c : InstanceProperties.t) : outcome () :=
  match InstanceProperties.CloudInitDrive_ c with
  | Some d =>
      if bool_decide (CloudInitDrive.Backend d = None)
      then Throw (UnknownBackendError (CloudInitDrive.Media (CloudInitDrive.props d))) else Ret ()
  | None => Ret ()
  end.
Fixpoint check_hostdevs (l : list HostDevice.t) : outcome () :=
  match l with
  | [] => Ret ()
  | dev :: l =>
      if bool_decide (HostDevice.BackendAddr dev = None)
      then Throw (ErrMsg ("invalid host-pci addr: " +:+ HostDevice.PCIAddr (HostDevice.props dev)))
      else check_hostdevs l
  end.

Definition check_backends (c : InstanceProperties.t) : outcome () :=
  _ ← check_firmware c;
  _ ← check_cdroms (CdromPool.Values [] (InstanceProperties.Cdroms c));
  ds ← DiskPool.Values [] (InstanceProperties.Disks c);
  _ ← check_disks ds;
  check_cloudinit c.

Definition check_hostpci (c : InstanceProperties.t) : outcome () :=
  check_hostdevs (HostDevicePool.Values [] (InstanceProperties.HostDevices c)).

(** [user.Lookup]: the uid of a user, as text. *)
Definition lookup_uid (users : string → sys string) (vmname : string) : outcome Z :=
  u ← call (users vmname); Strconv.Atoi u.

Definition GetInstanceConf (users : string → sys string) (fs : files) (vmname : string)
    : outcome InstanceConf.InstanceConf :=
  let vmname := Strings.TrimSpace vmname in
  if bool_decide (vmname = "") then Throw (ErrMsg "empty machine name")
  else
    let vmc := InstanceConf.newInstanceConf vmname in
    c ← match read_conf fs (InstanceConf.config vmc) (InstanceConf.props vmc) with
        | Throw (ErrNotExist _) => Throw (ErrNotFound vmname)
        | r => r
        end;
    let c := InstanceProperties.set_MachineType_
               (Strings.TrimSpace (Strings.ToLower (InstanceProperties.MachineType_ c))) c in
    _ ← check_backends c;
    _ ← check_hostpci c;
    uid ← lookup_uid users vmname;
    Ret {| InstanceConf.props := InstanceProperties.set_uid uid c;
           InstanceConf.confname := InstanceConf.confname vmc |}.

Definition GetIncomingConf (users : string → sys string) (fs : files) (vmname : string)
    : outcome InstanceConf.InstanceConf :=
  uid ← lookup_uid users vmname;
  let vmc := {| InstanceConf.props := InstanceProperties.zero vmname uid;
                InstanceConf.confname := "incoming_config" |} in
  c ← read_conf fs (InstanceConf.config vmc) (InstanceConf.props vmc);
  _ ← check_backends c;
  Ret {| InstanceConf.props := c; InstanceConf.confname := "incoming_config" |}.

Definition GetStartupConf (fs : files) (vmname : string) : outcome InstanceConf.InstanceConf :=
  let vmc := {| InstanceConf.props := InstanceProperties.zero vmname 0;
                InstanceConf.confname := "startup_config" |} in
  c ← read_conf fs (InstanceConf.startup_config vmc) (InstanceConf.props vmc);
  _ ← check_backends c;
  _ ← check_hostpci c;
  Ret {| InstanceConf.props := c; InstanceConf.confname := "startup_config" |}.
End decode.
End ConfJson.
