(* ===== verification/ConfJsonFacts.v ===== *)
(** ConfJsonFacts: what is written is read back: the round trip of every record,
    of the pools, of the configuration, and of the files. *)

From S2P Require Import Prelude.
From S2P Require Import GoStd.
From S2P Require Import GoFacts.
From S2P Require Import Pool.
From S2P Require Import PciAddress.
From S2P Require Import Backend.
From S2P Require Import Resources.
From S2P Require Import Drivers.
From S2P Require Import Disks.
From S2P Require Import Cdroms.
From S2P Require Import NetIfaces.
From S2P Require Import HostDevices.
From S2P Require Import Peripherals.
From S2P Require Import Json.
From S2P Require Import InstanceProperties.
From S2P Require Import InstanceConf.
From S2P Require Import ConfInvariant.
From S2P Require Import ConfTheorems.
From S2P Require Import ConfJson.

Open Scope Z_scope.

Module JsonFacts.
Import Json ConfJson.

(** What a Go program can hold at all, and a file: integers of 64 bits, and texts
    that are UTF-8. *)
Record fits (c : InstanceProperties.t) : Prop := {
  fits_memory : is_int (Memory.Actual (InstanceProperties.Memory_ c)) = true ∧
                is_int (Memory.Total (InstanceProperties.Memory_ c)) = true;
  fits_cpu : is_int (VirtCPU.Actual (InstanceProperties.CPU c)) = true ∧
             is_int (VirtCPU.Total (InstanceProperties.CPU c)) = true ∧
             is_int (VirtCPU.Sockets (InstanceProperties.CPU c)) = true ∧
             is_int (VirtCPU.Quota (InstanceProperties.CPU c)) = true;
  fits_disks : ∀ k d, Pool.lookup k (InstanceProperties.Disks c) = Some d →
    let p := Disk.props d in
    is_int (Disk.IopsRd p) = true ∧ is_int (Disk.IopsWr p) = true ∧ is_int (Disk.Bootindex p) = true;
  fits_cdroms : ∀ k d, Pool.lookup k (InstanceProperties.Cdroms c) = Some d →
    is_int (Cdrom.Bootindex (Cdrom.props d)) = true;
  fits_netifs : ∀ k n, Pool.lookup k (InstanceProperties.NetIfaces c) = Some n →
    is_int (NetIface.Queues (NetIface.props n)) = true ∧
    is_int (NetIface.Bootindex (NetIface.props n)) = true;
  fits_vsock : ∀ v, InstanceProperties.VSockDevice c = Some v →
    0 ≤ ChannelVSock.ContextID (ChannelVSock.props v) < 2 ^ 32;
  fits_text : plain_text (conf_json c);
}.

(** ** Records *)

Lemma dec_enc_memory m s :
  is_int (Memory.Actual m) = true → is_int (Memory.Total m) = true →
  dec_struct memory_fields (enc_memory m) s = Ret m.
Proof.
  intros. destruct m, s. unfold enc_memory. rewrite dec_enc_struct. cbn [foldl mbind outcome_bind].
  repeat json_step. reflexivity.
Qed.

(** The optional fields of the CPU must be unset in the value decoded into. *)
Lemma dec_enc_cpu c s :
  is_int (VirtCPU.Actual c) = true → is_int (VirtCPU.Total c) = true →
  is_int (VirtCPU.Sockets c) = true → is_int (VirtCPU.Quota c) = true →
  VirtCPU.Sockets s = 0 → VirtCPU.Quota s = 0 → VirtCPU.Model s = "" →
  dec_struct cpu_fields (enc_cpu c) s = Ret c.
Proof.
  intros ???? Hs Hq Hm. destruct s as [sa st ss sq sm]. simpl in Hs, Hq, Hm. subst.
  destruct c. unfold enc_cpu. rewrite dec_enc_struct. cbn [foldl mbind outcome_bind].
  repeat json_step. reflexivity.
Qed.

Lemma dec_enc_kernel k : dec_struct kernel_fields (enc_kernel k) ExtKernel.zero = Ret k.
Proof.
  destruct k. unfold enc_kernel. rewrite dec_enc_struct. cbn [foldl mbind outcome_bind].
  repeat json_step. reflexivity.
Qed.

(** What decoding leaves of a device: the fields that are not in the file are
    zero until [UnmarshalJSON] of its pool fills them. *)
Definition raw_disk (d : Disk.t) : Disk.t :=
  Disk.Build_t (Disk.props d) DiskDriverType_UNKNOWN None (Disk.QemuAddr d) 0 false.
Definition raw_cdrom (d : Cdrom.t) : Cdrom.t :=
  Cdrom.Build_t (Cdrom.props d) CdromDriverType_UNKNOWN None (Cdrom.QemuAddr d).
Definition raw_netif (n : NetIface.t) : NetIface.t :=
  NetIface.Build_t (NetIface.props n) NetDriverType_UNKNOWN (NetIface.QemuAddr n).
Definition raw_hostdev (d : HostDevice.t) : HostDevice.t := HostDevice.Build_t (HostDevice.props d) None.

Lemma dec_enc_disk d :
  is_int (Disk.IopsRd (Disk.props d)) = true → is_int (Disk.IopsWr (Disk.props d)) = true →
  is_int (Disk.Bootindex (Disk.props d)) = true →
  dec_struct disk_fields (enc_disk d) disk_zero = Ret (raw_disk d).
Proof.
  intros. destruct d as [[] ? ? ? ? ?]. unfold enc_disk. cbn [Disk.props]. rewrite dec_enc_struct. cbn [foldl mbind outcome_bind].
  repeat json_step. reflexivity.
Qed.

Lemma dec_enc_cdrom d :
  is_int (Cdrom.Bootindex (Cdrom.props d)) = true →
  dec_struct cdrom_fields (enc_cdrom d) cdrom_zero = Ret (raw_cdrom d).
Proof.
  intros. destruct d as [[] ? ? ?]. unfold enc_cdrom. cbn [Cdrom.props]. rewrite dec_enc_struct. cbn [foldl mbind outcome_bind].
  repeat json_step. reflexivity.
Qed.

Lemma dec_enc_netif n :
  is_int (NetIface.Queues (NetIface.props n)) = true →
  is_int (NetIface.Bootindex (NetIface.props n)) = true →
  dec_struct netif_fields (enc_netif n) netif_zero = Ret (raw_netif n).
Proof.
  intros. destruct n as [[] ? ?]. unfold enc_netif. cbn [NetIface.props]. rewrite dec_enc_struct. cbn [foldl mbind outcome_bind].
  repeat json_step. reflexivity.
Qed.

Lemma dec_enc_input d : dec_struct input_fields (enc_input d) input_zero = Ret d.
Proof.
  destruct d as [[]]. unfold enc_input. cbn [InputDevice.props]. rewrite dec_enc_struct. cbn [foldl mbind outcome_bind].
  repeat json_step. reflexivity.
Qed.

Lemma dec_enc_hostdev d : dec_struct hostdev_fields (enc_hostdev d) hostdev_zero = Ret (raw_hostdev d).
Proof.
  destruct d as [[] ?]. unfold enc_hostdev. cbn [HostDevice.props]. rewrite dec_enc_struct. cbn [foldl mbind outcome_bind].
  repeat json_step. reflexivity.
Qed.

Lemma dec_enc_vsock v s :
  0 ≤ ChannelVSock.ContextID (ChannelVSock.props v) < 2 ^ 32 →
  dec_vsock (enc_vsock v) s = Ret v.
Proof.
  intros Hv. unfold dec_vsock, enc_vsock. destruct v as [[n] a]. cbn in Hv.
  rewrite dec_enc_struct. cbn [foldl ChannelVSock.ContextID ChannelVSock.props ChannelVSock.QemuAddr].
  assert (dec_one vsock_fields (opt_int "context_id" n) vsock_zero
    = Ret (ChannelVSock.Build_t (ChannelVSock.Build_Properties n) "")) as Hn.
  { unfold opt_int. destruct (Z.eqb_spec n 0) as [->|Hn]; [done|].
    change (Some ("context_id", JNum n)) with (field "context_id" (JNum n)).
    rewrite (one_field vsock_fields "context_id" (JNum n) vsock_zero _ _ _ n eq_refl); [done|].
    simpl. destruct (Z.leb_spec 0 n), (Z.ltb_spec n (2 ^ 32)); done || lia. }
  cbn [mbind outcome_bind]. rewrite Hn. cbn [mbind outcome_bind]. json_step. done.
Qed.

Section env.
Context `{Env}.

(** The drive is read back whatever it is decoded into: its backend exists. *)
Lemma dec_enc_cloudinit d s : CloudInitDrive.ok d → dec_cloudinit (enc_cloudinit d) s = Ret d.
Proof.
  intros [_ Hd _ (b & Hb & Hn)]. unfold dec_cloudinit, enc_cloudinit. rewrite dec_enc_struct.
  destruct d as [[m drv] t be]. simpl in Hd, Hb, Hn. subst.
  cbn [foldl mbind outcome_bind CloudInitDrive.Media CloudInitDrive.Driver CloudInitDrive.props].
  do 2 json_step. unfold CloudInitDrive.load. simpl. rewrite Hn.
  by destruct t.
Qed.

(** So is the firmware, into one without a flash disk. *)
Lemma dec_enc_firmware fw :
  Firmware.ok fw → dec_firmware (enc_firmware fw) firmware_zero = Ret fw.
Proof.
  intros [_ Hf Hd]. unfold dec_firmware, enc_firmware. rewrite dec_enc_struct.
  destruct fw as [[i f] d]. simpl in Hf, Hd.
  cbn [foldl mbind outcome_bind Firmware.Image Firmware.Flash Firmware.props].
  do 2 json_step. unfold Firmware.load. simpl. rewrite Hf.
  destruct d as [d|].
  - destruct Hd as [Hne ->]. by rewrite bool_decide_false.
  - subst. done.
Qed.

(** ** Pools *)

(** A pool whose values are stored under [key] after [fix] completes them. *)
Section pools.
Context {V : Type} (Pk : string → V → Prop).
Context (enc : V → json) (dec : decoder V) (zero : V) (load : list (option V) → op (Pool.t V) ()).
Context (raw : V → V).
Hypothesis load_nil : load [] = mret ().
Hypothesis load_cons : ∀ k v vs, Pk k v →
  load (Some (raw v) :: vs) = (Pool.Append k v false;; load vs).

Lemma load_entries (l : list (string * V)) p :
  Pool.wf Pk p → NoDup (Pool.entries p ++ l).*1 → (∀ k v, (k, v) ∈ l → k ≠ "" ∧ Pk k v) →
  ∃ p', load (Some <$> (raw <$> l.*2)) p = (Ret (), p') ∧ Pool.wf Pk p' ∧
        Pool.entries p' = Pool.entries p ++ l.
Proof.
  revert p. induction l as [|[k v] l IH]; intros p Hp Hnd Hl.
  { exists p. rewrite app_nil_r. csimpl. by rewrite load_nil. }
  destruct (Hl k v) as [Hk Hv]; [by left|]. csimpl. rewrite load_cons with (k := k) by done.
  rewrite fmap_app in Hnd. csimpl in Hnd.
  assert (k ∉ Pool.keys p) as Hin.
  { rewrite <- (PoolFacts.entries_keys Pk p Hp).
    apply list.NoDup_app in Hnd as (_ & Hd & _). intros Hk'. apply (Hd k Hk'). by left. }
  unfold mbind, op_bind. rewrite (PoolFacts.Append_run Pk) by done.
  rewrite bool_decide_false by done. rewrite (PoolFacts.Exists_keys Pk), bool_decide_false by done.
  set (p1 := PoolFacts.put k v (Pool.keys p ++ [k]) p).
  assert (Pool.entries p1 = Pool.entries p ++ [(k, v)]) as He.
  { unfold p1. rewrite PoolFacts.entries_put; [done|done|apply not_elem_of_nil]. }
  assert (Pool.wf Pk p1) as Hp1.
  { pose proof (PoolFacts.preserves_Append Pk k v Hv p Hp) as Hw.
    rewrite (PoolFacts.Append_run Pk) in Hw by done.
    rewrite bool_decide_false in Hw by done.
    by rewrite (PoolFacts.Exists_keys Pk), bool_decide_false in Hw by done. }
  destruct (IH p1 Hp1) as (p' & Hload & Hw & He').
  - rewrite He, fmap_app, fmap_app. csimpl. by rewrite <- app_assoc.
  - intros k' v' Hin'. apply Hl. by right.
  - exists p'. split_and!; [done..|]. by rewrite He', He, <- app_assoc.
Qed.

Lemma dec_enc_pool p :
  Pool.wf Pk p →
  (∀ k v, Pool.lookup k p = Some v → enc v ≠ JNull ∧ dec (enc v) zero = Ret (raw v)) →
  ∃ p', dec_pool zero dec load (enc_pool enc p) Pool.zero = Ret p' ∧
        Pool.wf Pk p' ∧ Pool.entries p' = Pool.entries p.
Proof.
  intros Hp Hd. unfold dec_pool, enc_pool, Pool.MarshalJSON.
  change (Pool.values p []) with (Pool.Values p []). rewrite (PoolFacts.Values_entries Pk) by done.
  assert (∀ l : list V, map (λ v, match v with Some v => enc v | None => JNull end) (Some <$> l)
    = map enc l) as -> by (induction l as [|v l IH]; [done|]; csimpl; by rewrite IH).
  assert (∀ k v, (k, v) ∈ Pool.entries p → Pool.lookup k p = Some v) as Hin.
  { intros k v (k' & Hk & Hv)%list_elem_of_omap.
    apply fmap_Some in Hv as (v' & Hv' & [= <- <-]). done. }
  rewrite (dec_slice_enc zero dec enc raw).
  - destruct (load_entries (Pool.entries p) Pool.zero) as (p' & Hl & Hw & He).
    + apply PoolFacts.wf_zero.
    + simpl. rewrite (PoolFacts.entries_keys Pk) by done. apply Hp.
    + intros k v Hkv. split; [|by apply Hp, Hin].
      intros ->. apply (Pool.wf_nonempty _ _ Hp), Hp. apply Hin in Hkv. eauto.
    + exists p'. simpl. unfold locally. rewrite Hl. done.
  - intros v ([k v'] & -> & Hkv)%list_elem_of_fmap. by apply (Hd k), Hin.
Qed.
End pools.

(** ** The pools of a configuration *)

Lemma load_disk k v vs :
  DiskFacts.ok k v →
  DiskPool.load (Some (raw_disk v) :: vs) = (Pool.Append k v false;; DiskPool.load vs).
Proof.
  intros [_ Hd _ (b & Hb & Hn & ->) [Hq Hm]]. destruct v as [p drv be a q m].
  simpl in *. subst. simpl. by rewrite Hn.
Qed.
Lemma load_cdrom k v vs :
  CdromFacts.ok k v →
  CdromPool.load (Some (raw_cdrom v) :: vs) = (Pool.Append k v false;; CdromPool.load vs).
Proof.
  intros [_ -> Hd _ Hb]. destruct v as [p drv be a]. simpl in *. subst. simpl.
  destruct be as [b|]; simpl in Hb; [by destruct Hb as [_ ->]|]. by rewrite Hb.
Qed.
Lemma load_netif k v vs :
  NetIfaceFacts.ok k v →
  NetIfacePool.load (Some (raw_netif v) :: vs) = (Pool.Append k v false;; NetIfacePool.load vs).
Proof. intros [_ -> Hd _]. destruct v as [p drv a]. simpl in *. by subst. Qed.
Lemma load_input k v vs :
  PeripheralFacts.input_ok k v →
  InputDevicePool.load (Some v :: vs) = (Pool.Append k v false;; InputDevicePool.load vs).
Proof. by intros [-> _]. Qed.
Lemma load_hostdev k v vs :
  HostDeviceFacts.ok k v →
  HostDevicePool.load (Some (raw_hostdev v) :: vs) = (Pool.Append k v false;; HostDevicePool.load vs).
Proof.
  intros [(a & Ha & Hv & -> & Hp)]. destruct v as [[pa g m] be]. simpl in *. subst.
  simpl. by rewrite Pci.AddressFromHex_to_string.
Qed.

(** Equal configurations, but for the name, the uid and how the pools are
    represented. *)
Record same (c c' : InstanceProperties.t) : Prop := {
  same_machine : InstanceProperties.MachineType_ c' = InstanceProperties.MachineType_ c;
  same_firmware : InstanceProperties.Firmware_ c' = InstanceProperties.Firmware_ c;
  same_memory : InstanceProperties.Memory_ c' = InstanceProperties.Memory_ c;
  same_cpu : InstanceProperties.CPU c' = InstanceProperties.CPU c;
  same_inputs : Pool.entries (InstanceProperties.InputDevices c')
                = Pool.entries (InstanceProperties.InputDevices c);
  same_cdroms : Pool.entries (InstanceProperties.Cdroms c')
                = Pool.entries (InstanceProperties.Cdroms c);
  same_disks : Pool.entries (InstanceProperties.Disks c')
               = Pool.entries (InstanceProperties.Disks c);
  same_netifs : Pool.entries (InstanceProperties.NetIfaces c')
                = Pool.entries (InstanceProperties.NetIfaces c);
  same_vsock : InstanceProperties.VSockDevice c' = InstanceProperties.VSockDevice c;
  same_cloudinit : InstanceProperties.CloudInitDrive_ c' = InstanceProperties.CloudInitDrive_ c;
  same_kernel : InstanceProperties.Kernel c' = InstanceProperties.Kernel c;
  same_hostdevs : Pool.entries (InstanceProperties.HostDevices c')
                  = Pool.entries (InstanceProperties.HostDevices c);
}.

Lemma enc_pool_inputs c : Conf.wf c → ∃ p',
  dec_pool input_zero (dec_struct input_fields) InputDevicePool.load
    (enc_pool enc_input (InstanceProperties.InputDevices c)) Pool.zero = Ret p' ∧
  Pool.wf PeripheralFacts.input_ok p' ∧
  Pool.entries p' = Pool.entries (InstanceProperties.InputDevices c).
Proof.
  intros Hc. apply (dec_enc_pool _ _ _ _ _ id); [done|apply load_input|apply Hc|].
  intros k v _. split; [done|apply dec_enc_input].
Qed.
Lemma enc_pool_cdroms c : Conf.wf c → fits c → ∃ p',
  dec_pool cdrom_zero (dec_struct cdrom_fields) CdromPool.load
    (enc_pool enc_cdrom (InstanceProperties.Cdroms c)) Pool.zero = Ret p' ∧
  Pool.wf CdromFacts.ok p' ∧ Pool.entries p' = Pool.entries (InstanceProperties.Cdroms c).
Proof.
  intros Hc Hf. apply (dec_enc_pool _ _ _ _ _ raw_cdrom); [done|apply load_cdrom|apply Hc|].
  intros k v Hl. split; [done|]. eapply dec_enc_cdrom, Hf, Hl.
Qed.
Lemma enc_pool_disks c : Conf.wf c → fits c → ∃ p',
  dec_pool disk_zero (dec_struct disk_fields) DiskPool.load
    (enc_pool enc_disk (InstanceProperties.Disks c)) Pool.zero = Ret p' ∧
  Pool.wf DiskFacts.ok p' ∧ Pool.entries p' = Pool.entries (InstanceProperties.Disks c).
Proof.
  intros Hc Hf. apply (dec_enc_pool _ _ _ _ _ raw_disk); [done|apply load_disk|apply Hc|].
  intros k v Hl. split; [done|]. destruct (fits_disks _ Hf k v Hl) as (?&?&?). by apply dec_enc_disk.
Qed.
Lemma enc_pool_netifs c : Conf.wf c → fits c → ∃ p',
  dec_pool netif_zero (dec_struct netif_fields) NetIfacePool.load
    (enc_pool enc_netif (InstanceProperties.NetIfaces c)) Pool.zero = Ret p' ∧
  Pool.wf NetIfaceFacts.ok p' ∧ Pool.entries p' = Pool.entries (InstanceProperties.NetIfaces c).
Proof.
  intros Hc Hf. apply (dec_enc_pool _ _ _ _ _ raw_netif); [done|apply load_netif|apply Hc|].
  intros k v Hl. split; [done|]. destruct (fits_netifs _ Hf k v Hl). by apply dec_enc_netif.
Qed.
Lemma enc_pool_hostdevs c : Conf.wf c → ∃ p',
  dec_pool hostdev_zero (dec_struct hostdev_fields) HostDevicePool.load
    (enc_pool enc_hostdev (InstanceProperties.HostDevices c)) Pool.zero = Ret p' ∧
  Pool.wf HostDeviceFacts.ok p' ∧ Pool.entries p' = Pool.entries (InstanceProperties.HostDevices c).
Proof.
  intros Hc. apply (dec_enc_pool _ _ _ _ _ raw_hostdev); [done|apply load_hostdev|apply Hc|].
  intros k v _. split; [done|apply dec_enc_hostdev].
Qed.

(** ** The configuration *)

Tactic Notation "step_field" uconstr(H) :=
  cbn [mbind outcome_bind];
  match goal with |- context [dec_one conf_fields (field ?k ?v) ?s] =>
    erewrite (one_field conf_fields k v s); [|reflexivity|first [eapply H; (assumption || reflexivity)|exact H]] end.
Ltac step_ptr H :=
  cbn [mbind outcome_bind];
  match goal with |- context [dec_one conf_fields (opt_ptr ?k ?enc ?x) ?s] =>
    rewrite (one_opt_ptr conf_fields k enc x s _ _ _ _ x eq_refl eq_refl eq_refl);
    [|intros w Hw; split; [done|]; exists w; split; [exact (H w Hw)|done]|done] end.

(** The configurations a file or a manifest is decoded into. *)
Definition blank (n : string) (m : Memory.t) (a t : Z) : InstanceProperties.t :=
  InstanceProperties.set_Memory_ m (InstanceProperties.set_CPU
    {| VirtCPU.Actual := a; VirtCPU.Total := t; VirtCPU.Sockets := 0; VirtCPU.Quota := 0; VirtCPU.Model := "" |}
    (InstanceProperties.zero n 0)).

Lemma dec_enc_blank n m a t c :
  Conf.wf c → fits c →
  ∃ c', dec_conf (enc_conf c) (blank n m a t) = Ret c' ∧
        same c c' ∧ Conf.wf c' ∧ InstanceProperties.name c' = n ∧ InstanceProperties.uid c' = 0.
Proof.
  intros Hc Hf. unfold enc_conf. rewrite (fits_text _ Hf). unfold dec_conf, conf_json. rewrite dec_enc_struct.
  destruct (enc_pool_inputs c Hc) as (pi & Hi & Hwi & Hei).
  destruct (enc_pool_cdroms c Hc Hf) as (pc & Hcd & Hwc & Hec).
  destruct (enc_pool_disks c Hc Hf) as (pd & Hd & Hwd & Hed).
  destruct (enc_pool_netifs c Hc Hf) as (pn & Hn & Hwn & Hen).
  destruct (enc_pool_hostdevs c Hc) as (ph & Hh & Hwh & Heh).
  destruct (fits_memory _ Hf) as [Hm1 Hm2]. destruct (fits_cpu _ Hf) as (Hc1 & Hc2 & Hc3 & Hc4).
  cbn [foldl mbind outcome_bind].
  match goal with |- context [dec_one conf_fields (opt_string ?k ?v) ?s] =>
    rewrite (one_opt_string conf_fields k v s _ _ eq_refl eq_refl) end.
  step_ptr (λ w Hw, dec_enc_firmware w (Conf.wf_firmware c Hc w Hw)).
  step_field dec_enc_memory.
  step_field dec_enc_cpu.
  step_field Hi. step_field Hcd. step_field Hd. step_field Hn.
  step_ptr (λ w Hw, dec_enc_vsock w vsock_zero (fits_vsock c Hf w Hw)).
  step_ptr (λ w Hw, dec_enc_cloudinit w cloudinit_zero (Conf.wf_cloudinit c Hc w Hw)).
  step_field dec_enc_kernel.
  step_field Hh.
  eexists. split; [reflexivity|]. split; [by split|].
  split; [|done]. destruct Hc. by split.
Qed.

Lemma dec_enc_conf n c :
  Conf.wf c → fits c →
  ∃ c', dec_conf (enc_conf c) (InstanceConf.props (InstanceConf.newInstanceConf n)) = Ret c' ∧
        same c c' ∧ Conf.wf c' ∧ InstanceProperties.name c' = n ∧ InstanceProperties.uid c' = 0.
Proof. exact (dec_enc_blank n {| Memory.Actual := 128; Memory.Total := 128 |} 1 1 c). Qed.

(** ** Files *)

Lemma valid_name n : ValidateMachineName n = Ret () → Strings.TrimSpace n = n ∧ n ≠ "".
Proof.
  unfold ValidateMachineName. destruct (_ && _) eqn:E; [|done]. intros _.
  apply andb_true_iff in E as [E _]. apply andb_true_iff in E as [E El]. split.
  - apply GoFacts.TrimSpace_graphic. clear El. induction n as [|a n IH]; [constructor|].
    simpl in E. apply andb_true_iff in E as [Ea En]. constructor; [|by apply IH].
    by destruct a as [[] [] [] [] [] [] [] []].
  - intros ->. done.
Qed.

Lemma check_backends_wf c : Conf.wf c → check_backends c = Ret () ∧ check_hostpci c = Ret ().
Proof.
  intros Hc. unfold check_backends. split.
  - assert (check_firmware c = Ret ()) as ->.
    { unfold check_firmware. destruct (InstanceProperties.Firmware_ c) as [fw|] eqn:Hf; [|done].
      destruct (Conf.wf_firmware c Hc fw Hf) as [_ _ Hd].
      destruct (Firmware.flashDisk fw); rewrite bool_decide_false; naive_solver. }
    simpl. assert (∀ l, (∀ cd, cd ∈ l → ∃ k, CdromFacts.ok k cd) → check_cdroms l = Ret ()) as Hcd.
    { induction l as [|cd l IH]; intros Hl; [done|]. simpl.
      destruct (Hl cd) as [k Hk]; [by left|].
      pose proof (CdromFacts.ok_backend _ _ Hk) as Hb.
      rewrite bool_decide_false; [apply IH; intros; apply Hl; by right|].
      intros [Hm Hn]. by rewrite Hn in Hb. }
    rewrite Hcd; [|intros cd Hin; exact (PoolFacts.Values_ok _ _ _ (Conf.wf_cdroms c Hc) Hin)].
    simpl. assert (∀ l, (∀ d, d ∈ l → ∃ k, DiskFacts.ok k d) → check_disks l = Ret ()) as Hd.
    { induction l as [|d l IH]; intros Hl; [done|]. simpl.
      destruct (Hl d) as [k Hk]; [by left|].
      destruct (DiskFacts.ok_backend _ _ Hk) as (b & Hb & _).
      rewrite bool_decide_false by (by rewrite Hb). apply IH. intros. apply Hl. by right. }
    rewrite Hd; [|intros d Hin; exact (PoolFacts.Values_ok _ _ _ (Conf.wf_disks c Hc) Hin)].
    simpl. unfold check_cloudinit.
    destruct (InstanceProperties.CloudInitDrive_ c) as [d|] eqn:Hci; [|done].
    destruct (CloudInitDrive.ok_backend _ (Conf.wf_cloudinit c Hc d Hci)) as (b & Hb & _).
    by rewrite bool_decide_false by (by rewrite Hb).
  - unfold check_hostpci, HostDevicePool.Values. simpl.
    assert (∀ l, (∀ d, d ∈ l → ∃ k, HostDeviceFacts.ok k d) → check_hostdevs l = Ret ()) as Hd.
    { induction l as [|d l IH]; intros Hl; [done|]. simpl.
      destruct (Hl d) as [k Hk]; [by left|].
      destruct (HostDeviceFacts.ok_addr _ _ Hk) as (a & Ha & _).
      rewrite bool_decide_false by (by rewrite Ha). apply IH. intros. apply Hl. by right. }
    apply Hd. intros d Hin. exact (PoolFacts.Values_ok _ _ _ (Conf.wf_hostdevs c Hc) Hin).
Qed.

Lemma same_set_machine c c' :
  same c c' → same c (InstanceProperties.set_MachineType_ (InstanceProperties.MachineType_ c) c').
Proof. intros []. by split. Qed.

Lemma wf_set_machine m c : Conf.wf c → Conf.wf (InstanceProperties.set_MachineType_ m c).
Proof. intros []. by split. Qed.
Lemma fits_set_machine m c :
  fits c → plain_text (conf_json (InstanceProperties.set_MachineType_ m c)) → fits (InstanceProperties.set_MachineType_ m c).
Proof. intros [] Ht. by split. Qed.

Lemma machine_name_elem n a :
  ValidateMachineName n = Ret () → a ∈ to_list n → machine_name_char a = true.
Proof.
  unfold ValidateMachineName. destruct (_ && _) eqn:E; [|done]. intros _.
  apply andb_true_iff in E as [[Hn _]%andb_true_iff _]. revert Hn.
  induction n as [|b n IH]; [by intros _ ?%elem_of_nil|].
  simpl. intros [Hb Hn]%andb_true_iff [->|Ha]%elem_of_cons; [done|by apply IH].
Qed.

Lemma machine_name_plain n : ValidateMachineName n = Ret () → plain n.
Proof.
  intros Hn. split_and!; try (intros ->; by vm_compute in Hn).
  intros Hi. by specialize (machine_name_elem _ _ Hn Hi).
Qed.

(** The files of a machine. *)
Lemma conf_path n rest :
  ValidateMachineName n = Ret () → Forall plain rest →
  Filepath.Join (CONFDIR :: n :: rest) = "/etc/kvmrun/" +:+ Strings.Join (n :: rest) "/".
Proof.
  intros Hn Hr.
  change (Filepath.Clean ("/" +:+ Strings.Join ("etc" :: "kvmrun" :: n :: rest) "/")
    = "/" +:+ Strings.Join ("etc" :: "kvmrun" :: n :: rest) "/").
  apply Clean_rooted; [done|].
  assert (plain "etc" ∧ plain "kvmrun") as [He Hk]
    by (split; (split_and!; [apply (bool_decide_unpack _); by vm_compute|done..])).
  constructor; [done|]. constructor; [done|]. constructor; [by apply machine_name_plain|done].
Qed.

(** The machine type is brought to a normal form when it is read. *)
Definition read_type (p : InstanceProperties.t) : string :=
  Strings.TrimSpace (Strings.ToLower (InstanceProperties.MachineType_ p)).

(** Reading the file of a well-formed configuration. *)
Lemma load_typed (users : string → sys string) (fs : files) p (u : string) (uid : Z) :
  let n := InstanceProperties.name p in
  Conf.wf p → fits p → ValidateMachineName n = Ret () →
  fs !! InstanceConf.config (InstanceConf.newInstanceConf n) = Some (Some (enc_conf p)) →
  users n = inl u → Strconv.Atoi u = Ret uid →
  ∃ c', GetInstanceConf users fs n = Ret c' ∧
    same (InstanceProperties.set_MachineType_ (read_type p) p) (InstanceConf.props c') ∧
    Conf.wf (InstanceConf.props c') ∧ InstanceProperties.name (InstanceConf.props c') = n ∧
    InstanceProperties.uid (InstanceConf.props c') = uid ∧ InstanceConf.confname c' = "config".
Proof.
  intros n Hp Hfit Hname Hfs Hu Huid. destruct (valid_name n Hname) as [Ht Hne].
  destruct (dec_enc_conf n p Hp Hfit) as (c' & Hdec & Hsame & Hwf & Hn & _).
  assert (read_conf fs (InstanceConf.config (InstanceConf.newInstanceConf n))
    (InstanceConf.props (InstanceConf.newInstanceConf n)) = Ret c') as Hread
    by (unfold read_conf; by rewrite Hfs).
  unfold GetInstanceConf. rewrite Ht, bool_decide_false, Hread by done. cbn [mbind outcome_bind].
  rewrite (same_machine _ _ Hsame). fold (read_type p).
  set (c2 := InstanceProperties.set_MachineType_ _ c').
  assert (Conf.wf c2) as Hwf2 by (destruct Hwf; by split).
  destruct (check_backends_wf c2 Hwf2) as [-> ->]. unfold lookup_uid. rewrite Hu. simpl.
  rewrite Huid. simpl. eexists. split_and!; [done| | |done|done|done]; simpl.
  - destruct Hsame. by split.
  - destruct Hwf2. by split.
Qed.
Lemma load_saved (users : string → sys string) (fs : files) p (u : string) (uid : Z) :
  let n := InstanceProperties.name p in
  Conf.wf p → fits p → ValidateMachineName n = Ret () → read_type p = InstanceProperties.MachineType_ p →
  fs !! InstanceConf.config (InstanceConf.newInstanceConf n) = Some (Some (enc_conf p)) →
  users n = inl u → Strconv.Atoi u = Ret uid →
  ∃ c', GetInstanceConf users fs n = Ret c' ∧
    same p (InstanceConf.props c') ∧ Conf.wf (InstanceConf.props c') ∧
    InstanceProperties.name (InstanceConf.props c') = n ∧
    InstanceProperties.uid (InstanceConf.props c') = uid ∧ InstanceConf.confname c' = "config".
Proof.
  intros n Hp Hfit Hname Hmt Hfs Hu Huid.
  destruct (load_typed users fs p u uid Hp Hfit Hname Hfs Hu Huid) as (c' & Hg & Hs & Hr).
  exists c'. split; [done|]. split; [|done]. rewrite Hmt in Hs. destruct Hs. by split.
Qed.

(** C3: a saved configuration is read back.  Saving a well-formed configuration
    under a valid machine name that has a user, and loading that name, gives the
    same configuration - same scalar settings, same devices in the same order,
    with their drivers and backends rebuilt - under the user's uid.  Its texts
    must be UTF-8, which a file keeps, and its integers Go's; the machine type is
    read in lower case and trimmed. *)
Theorem save_load (users : string → sys string) (fs : files) (c : InstanceConf.InstanceConf) (u : string) (uid : Z) :
  let p := InstanceConf.props c in let n := InstanceProperties.name p in
  Conf.wf p → fits p → InstanceConf.confname c = "config" →
  ValidateMachineName n = Ret () → users n = inl u → Strconv.Atoi u = Ret uid →
  ∃ c', (Save Written c fs).1 = Ret () ∧
    GetInstanceConf users (Save Written c fs).2 n = Ret c' ∧
    same (InstanceProperties.set_MachineType_ (read_type p) p) (InstanceConf.props c') ∧ Conf.wf (InstanceConf.props c') ∧
    InstanceProperties.name (InstanceConf.props c') = n ∧
    InstanceProperties.uid (InstanceConf.props c') = uid ∧ InstanceConf.confname c' = "config".
Proof.
  intros p n Hp Hfit Hcn Hname Hu Huid.
  unfold Save, InstanceProperties.Name. fold p n. rewrite Hname. simpl.
  destruct (load_typed users (<[InstanceConf.config c := Some (enc_conf p)]> fs) p u uid)
    as (c' & Hc'); try done.
  - replace (InstanceConf.config (InstanceConf.newInstanceConf _)) with (InstanceConf.config c)
      by (unfold InstanceConf.config; by rewrite Hcn).
    by rewrite lookup_insert_eq.
  - exists c'. by split.
Qed.

Lemma dec_conf_one {T} k j c (g : InstanceProperties.t → T) p d :
  find_field conf_fields k = Some (on g p d) →
  dec_conf (JObj [(k, j)]) c = (v ← d j (g c); Ret (p v c)).
Proof.
  intros Hf. unfold dec_conf, dec_struct. rewrite (dec_fields_cons _ _ _ _ _ _ Hf).
  unfold on. by destruct (d j (g c)).
Qed.

(** one unparsable PCI address in a configuration file does not give the
    error [invalid host-pci addr] meant for it: loading the machine panics. *)
Theorem bad_hostpci_panics (users : string → sys string) (fs : files) (n addr : string) :
  Strings.TrimSpace n = n → n ≠ "" →
  fs !! InstanceConf.config (InstanceConf.newInstanceConf n)
    = Some (Some (JObj [("hostpci", JArr [JObj [("addr", JStr addr)]])])) →
  is_ret (Pci.AddressFromHex addr) = false →
  GetInstanceConf users fs n = Panic NilDereference.
Proof.
  intros Ht Hn Hfs Ha. unfold GetInstanceConf, read_conf. rewrite Ht, Hfs, bool_decide_false by done.
  rewrite dec_conf_one with (d := dec_pool hostdev_zero (dec_struct hostdev_fields) HostDevicePool.load)
    (g := InstanceProperties.HostDevices) (p := InstanceProperties.set_HostDevices) by reflexivity.
  unfold dec_pool.
  change (dec_slice _ _ _) with (Ret [Some (hostdev_set_addr addr hostdev_zero)]). simpl.
  by destruct (Pci.AddressFromHex addr).
Qed.

(** a configuration file that names a disk without a known backend is
    refused with that path, before anything else of the machine is looked at. *)
Theorem bad_disk_refused (users : string → sys string) (fs : files) (n path : string) :
  Strings.TrimSpace n = n → n ≠ "" → path ≠ "" →
  fs !! InstanceConf.config (InstanceConf.newInstanceConf n)
    = Some (Some (JObj [("storage", JArr [JObj [("path", JStr path)]])])) →
  is_ret (NewDiskBackend path) = false →
  GetInstanceConf users fs n = Throw (UnknownBackendError path).
Proof.
  intros Ht Hn Hpath Hfs Hb. unfold GetInstanceConf, read_conf.
  rewrite Ht, Hfs, bool_decide_false by done.
  rewrite dec_conf_one with (d := dec_pool disk_zero (dec_struct disk_fields) DiskPool.load)
    (g := InstanceProperties.Disks) (p := InstanceProperties.set_Disks) by reflexivity.
  unfold dec_pool. change (dec_slice _ _ _) with
    (Ret [Some (disk_set_props (Disk.Build_Properties path "" 0 0 0) disk_zero)]). simpl.
  assert (∀ b, NewDiskBackend path ≠ Ret b) as Hnb by (intros b E; by rewrite E in Hb).
  assert (match NewDiskBackend path with Ret be => None | _ => Some () end = Some ()) as Hm
    by (destruct (NewDiskBackend path) as [b| |]; [by destruct (Hnb b)|done..]).
  unfold locally, mbind, op_bind, outcome_bind.
  destruct (NewDiskBackend path) as [b| |]; [done| |];
    (rewrite (PoolFacts.Append_run anything) by apply PoolFacts.wf_zero;
     rewrite bool_decide_false by done; simpl; unfold check_backends; simpl;
     unfold DiskPool.Values, Pool.Values, Pool.values, Pool.lookup; simpl;
     by rewrite lookup_insert_eq).
Qed.
End env.
End JsonFacts.

(** * Witnesses *)

Definition sample_users (n : string) : sys string :=
  if bool_decide (n = "vm1") then inl "1001" else inr (ErrNotFound n).

(** A property of every value of a pool, checked on the list of its values. *)
Lemma pool_forall {V} (Pk : string → V → Prop) (Q : V → Prop) (p : Pool.t V) :
  Pool.wf Pk p → Forall Q (omap id (Pool.Values p [])) →
  ∀ k v, Pool.lookup k p = Some v → Q v.
Proof.
  intros Hp HQ k v Hl. eapply Forall_forall; [exact HQ|]. by eapply PoolFacts.lookup_Values.
Qed.

Lemma sample_conf_fits : JsonFacts.fits sample_conf.
Proof.
  split.
  - vm_compute. split; reflexivity.
  - vm_compute. repeat split.
  - apply (pool_forall (@DiskFacts.ok sample_env)); [apply sample_conf_wf|]. by_compute.
  - apply (pool_forall (@CdromFacts.ok sample_env)); [apply sample_conf_wf|]. by_compute.
  - apply (pool_forall NetIfaceFacts.ok); [apply sample_conf_wf|]. by_compute.
  - intros v Hv. vm_compute in Hv. discriminate Hv.
  - vm_compute. reflexivity.
Qed.

(** A machine whose type was set in capitals. *)
Definition typed_conf : InstanceProperties.t := InstanceProperties.set_MachineType_ "PC" sample_conf.
Example save_load_witness : ∃ c',
  @ConfJson.GetInstanceConf sample_env sample_users
    (ConfJson.Save ConfJson.Written
       {| InstanceConf.props := typed_conf; InstanceConf.confname := "config" |} ∅).2 "vm1"
    = Ret c' ∧ JsonFacts.same (InstanceProperties.set_MachineType_ "pc" sample_conf) (InstanceConf.props c') ∧
  InstanceProperties.uid (InstanceConf.props c') = 1001.
Proof.
  destruct (@JsonFacts.save_load sample_env sample_users ∅
    {| InstanceConf.props := typed_conf; InstanceConf.confname := "config" |} "1001" 1001)
    as (c' & _ & Hg & Hs & _ & _ & Hu & _).
  - exact (JsonFacts.wf_set_machine _ _ sample_conf_wf).
  - apply JsonFacts.fits_set_machine; [exact sample_conf_fits|]. vm_compute. reflexivity.
  - reflexivity.
  - vm_compute. reflexivity.
  - vm_compute. reflexivity.
  - vm_compute. reflexivity.
  - exists c'. split_and!; [exact Hg|exact Hs|exact Hu].
Defined.

Definition sample_file (j : json) : gmap string (option json) :=
  {["/etc/kvmrun/vm1/config" := Some j]}.

Example bad_hostpci_panics_witness :
  @ConfJson.GetInstanceConf sample_env sample_users
    (sample_file (JObj [("hostpci", JArr [JObj [("addr", JStr "nonsense")]])])) "vm1"
  = Panic NilDereference.
Proof.
  apply (@JsonFacts.bad_hostpci_panics sample_env) with "nonsense"; vm_compute; done.
Defined.
Example bad_disk_refused_witness :
  @ConfJson.GetInstanceConf sample_env sample_users
    (sample_file (JObj [("storage", JArr [JObj [("path", JStr "data.img")]])])) "vm1"
  = Throw (UnknownBackendError "data.img").
Proof.
  apply (@JsonFacts.bad_disk_refused sample_env); vm_compute; done.
Defined.
