(* ===== verification/Monitor.v ===== *)
(** Monitor: what surrounds a running machine: the commands QEMU takes on its
    monitor and their answers (the structures of [internal/qemu/types]), the
    events waited for, and the calls made to the host on the machine's behalf.

    QEMU, the kernel and the file system answer as they like: [answer] is any
    function of what was asked before.  What the code itself relies on is kept
    as state: the files of the chroot and the tap interfaces it created. *)

From S2P Require Import Prelude.
From S2P Require Import GoStd.
From S2P Require Import Version.
From S2P Require Import Backend.
From S2P Require Import Disks.
From S2P Require Import Json.
From S2P Require Import ConfJson.

Open Scope Z_scope.
#[local] Set Warnings "-register-all".

(** ** [internal/qemu/types] *)
Module QemuTypes.
Record PCIDevice := { QdevID : string; Slot : Z; Class_ : Z; ID_Device : Z; ID_Vendor : Z }.
Record PCIInfo := { Bus : Z; Devices : list PCIDevice }.

Record Image := { Filename : string; VirtualSize : Z; BackingImage_VirtualSize : Z }.
Record InsertedInfo := {
  File : string; BackingFile : string; BackingFileDepth : Z; ReadOnly : bool;
  IopsRd : Z; IopsWr : Z; Image_ : Image; InsertedDirtyBitmaps : list string;
}.
Record BlockInfo := {
  Device : string; DirtyBitmaps : list string; Inserted : InsertedInfo; QdevPath : string;
}.
Record InsertedFileOptions := {
  FileDriver : string; Portal : string; Target : string; Lun : string; User : string;
  Password : string;
}.
Record HotpluggableCPU := { CoreID : Z; SocketID : Z; QomPath : string; Type_ : string }.
Record MigrateInfo := { MigrStatus : string; TotalTime : Z }.

Record CPUDeviceOptions := { cpu_Driver : string; cpu_SocketID : Z; cpu_CoreID : Z; cpu_ThreadID : Z }.
Record VSockDeviceOptions := { vsock_Driver : string; vsock_ID : string; GuestCID : Z }.
Record SCSIHostBusDeviceOptions := { bus_Driver : string; bus_ID : string }.
Record CdromDeviceOptions := {
  cdrom_Driver : string; cdrom_ID : string; cdrom_Bus : string; cdrom_Drive : string;
  cdrom_SCSI_ID : Z;
}.
Record BlockDeviceOptions := {
  blk_Driver : string; blk_ID : string; blk_Bus : string; blk_Drive : string; blk_SCSI_ID : Z;
}.
Record NetDeviceOptions := {
  net_Driver : string; net_ID : string; Netdev : string; Mac : string; MQ : bool; Vectors : Z;
}.
Record NetdevTapOptions := {
  tap_Type : string; tap_ID : string; tap_Ifname : string; Vhost : bool; Queues : Z;
  Script : string; Downscript : string;
}.
Record BlockIOThrottle := { thr_Device : string; thr_IopsRd : Z; thr_IopsWr : Z }.

(** The argument of [device_add]. *)
Inductive device_options :=
  | CPUDev (o : CPUDeviceOptions)
  | VSockDev (o : VSockDeviceOptions)
  | SCSIHostBus (o : SCSIHostBusDeviceOptions)
  | CdromDev (o : CdromDeviceOptions)
  | BlockDev (o : BlockDeviceOptions)
  | NetDev (o : NetDeviceOptions).
End QemuTypes.
Import QemuTypes.

(** ** What is asked *)

Inductive command :=
  | query_status | query_migrate | query_block_jobs | query_version | query_balloon
  | query_cpus | query_cpus_fast | query_hotpluggable_cpus | query_pci | query_block
  | qom_get_string (path property : string)
  | qom_get_int (path property : string)
  | qom_get_bool (path property : string)
  | balloon (value : Z)
  | device_add (o : device_options)
  | device_del (id : string)
  | netdev_add (o : NetdevTapOptions)
  | netdev_del (id : string)
  | blockdev_open_tray (id : string)
  | blockdev_change_medium (id filename : string)
  | blockdev_remove_medium (id : string)
  | block_set_io_throttle (o : BlockIOThrottle)
  | block_resize (device : string) (size : Z)
  | block_dirty_bitmap_remove (node name : string)
  | set_link (name : string) (up : bool)
  | change_vnc_password (password : string)
  | human (command_line : string).

Inductive tray_event := TrayOpened | TrayClosed | DeviceDeleted.

(** The steps taken outside the program, in the order of their requests.  A
    wait ends after 60 seconds with [DeadlineExceeded]. *)
Inductive action :=
  | Run (c : command)
  | Wait (ev : tray_event) (id : string)
  | StatRdev (path : string)
  | MkdirAll (dir : string)
  | Mknod (path : string) (rdev : Z)
  | Chown (path : string) (uid : Z)
  | RemoveFile (path : string)
  | CopyFile (src dst : string)
  | WriteText (path : string)
  | ReadProcStatus (pid : Z)
  | LoadManager (pid : Z)
  | GetCpuQuota (pid : Z)
  | SetCpuQuota (pid value : Z)
  | TapFeatures
  | LinkAdd (name : string) (owner : Z) (multi_queue vnet_hdr : bool)
  | LinkSetUp (name : string)
  | LinkByName (name : string)
  | LinkDel (name : string).

Definition answer_to (c : command) : Type :=
  match c with
  | query_status => string
  | query_migrate => MigrateInfo
  | query_block_jobs => list string (* the [Device] of each job *)
  | query_version => Version.t
  | query_balloon => Z
  | query_cpus | query_cpus_fast => list Z (* the thread of each CPU *)
  | query_hotpluggable_cpus => list HotpluggableCPU
  | query_pci => list PCIInfo
  | query_block => list BlockInfo
  | qom_get_string _ _ => string
  | qom_get_int _ _ => Z
  | qom_get_bool _ _ => bool
  | human _ => string
  | _ => ()
  end.

Definition reply (a : action) : Type :=
  match a with
  | Run c => answer_to c
  | StatRdev _ => Z
  | ReadProcStatus _ => list string (* its lines *)
  | GetCpuQuota _ => Z
  | TapFeatures => bool (* TUNTAP_VNET_HDR is among them *)
  | LinkByName _ => bool (* false: LinkNotFoundError *)
  | _ => ()
  end.

Class Outside := {
  answer : list action → ∀ a : action, sys (reply a);
(** the parser of [encoding/json], on the [json:] names of block devices *)
  Unmarshal_file : string → sys InsertedFileOptions;
}.

(** ** The state kept on the machine's behalf *)

Inductive node :=
  | DeviceNode (rdev : Z)
  | TextFile (contents : option json)
  | CopyOf (path : string).

Record surroundings := {
  chroot : gmap string node;
  taps : gset string;
  trace : list action;
}.

(** The text files among the nodes. *)
Definition texts (nodes : gmap string node) : gmap string (option json) :=
  (λ n, match n with TextFile c => c | _ => None end) <$> nodes.

(** *** Calls *)
Section calls.
Context `{Outside}.
Abbreviation call A := (op surroundings A).

Definition ask (a : action) : call (reply a) := λ w,
  (Backend.call (answer (trace w) a),
   {| chroot := chroot w; taps := taps w; trace := trace w ++ [a] |}).

Definition run (c : command) : call (answer_to c) := ask (Run c).

Definition set_chroot (f : gmap string node → gmap string node) : call () :=
  modify (λ w, {| chroot := f (chroot w); taps := taps w; trace := trace w |}).
Definition set_taps (f : gset string → gset string) : call () :=
  modify (λ w, {| chroot := chroot w; taps := f (taps w); trace := trace w |}).

(** [syscall.Mknod] *)
Definition mknod (path : string) (rdev : Z) : call () :=
  w ← get;
  fail_if (bool_decide (is_Some (chroot w !! path))) (ErrExist path);;
  ask (Mknod path rdev);;
  set_chroot <[path := DeviceNode rdev]>.

(** [os.Remove] *)
Definition remove (path : string) : call () :=
  w ← get;
  fail_if (bool_decide (chroot w !! path = None)) (ErrNotExist path);;
  ask (RemoveFile path);;
  set_chroot (delete path).

(** [os.WriteFile] of a JSON text. *)
Definition write_text (path : string) (j : json) : call () :=
  ask (WriteText path);;
  set_chroot <[path := TextFile (Some j)]>.

(** A copy through a temporary file that is renamed at the end: it is there as
    a whole or not at all. *)
Definition copy_file (src dst : string) : call () :=
  ask (CopyFile src dst);;
  set_chroot <[dst := CopyOf src]>.

(** [AddTapInterface] does not look at [uid]. *)
Definition AddTapInterface (ifname : string) (uid : Z) (mq : bool) : call () :=
  vnet_hdr ← ask TapFeatures;
  ask (LinkAdd ifname 1024 mq vnet_hdr);;
  set_taps (λ t, {[ifname]} ∪ t).

Definition DelTapInterface (ifname : string) : call () :=
  found ← map_err (λ _, ErrMsg "netlink") (ask (LinkByName ifname));
  if found : bool then ask (LinkDel ifname);; set_taps (λ t, t ∖ {[ifname]}) else mret ().

Definition SetInterfaceUp (ifname : string) : call () := ask (LinkSetUp ifname).
End calls.

(** [err := m; if IsX(err) {...}]: the error as a value. *)
Definition try {S A} (m : op S A) : op S (A + goerr) := λ s,
  match m s with
  | (Ret a, s') => (Ret (inl a), s')
  | (Throw e, s') => (Ret (inr e), s')
  | (Panic p, s') => (Panic p, s')
  end.

(** [defer func() { if !success { h } }()] around the rest of a function. *)
Definition on_failure {S A} (h : op S ()) (m : op S A) : op S A := λ s,
  match m s with
  | (Ret a, s') => (Ret a, s')
  | (r, s') => (r, (h s').2)
  end.
(** [defer func() { if success { h } }()] *)
Definition on_success {S A} (h : op S ()) (m : op S A) : op S A := λ s,
  match m s with
  | (Ret a, s') => (match (h s').1 with Panic p => Panic p | _ => Ret a end, (h s').2)
  | r => r
  end.
