(* ===== verification/InstanceQemu.v ===== *)
(** InstanceQemu: a running machine ([kvmrun/instance_qemu.go] and
    [kvmrun/instance_qemu_i440fx.go]): how its view is read from the monitor,
    and what each call of the [Instance] interface asks of QEMU and the host. *)

From S2P Require Import Prelude.
From S2P Require Import GoStd.
From S2P Require Import GoFacts.
From S2P Require Import Version.
From S2P Require Import Pool.
From S2P Require Import PciAddress.
From S2P Require Import Backend.
From S2P Require Import PciDevice.
From S2P Require Import Resources.
From S2P Require Import Drivers.
From S2P Require Import Disks.
From S2P Require Import Cdroms.
From S2P Require Import NetIfaces.
From S2P Require Import HostDevices.
From S2P Require Import Peripherals.
From S2P Require Import Json.
From S2P Require Import InstanceProperties.
From S2P Require Import InstanceConf.
From S2P Require Import ConfInvariant.
From S2P Require Import ConfJson.
From S2P Require Import Monitor.

Open Scope Z_scope.
#[local] Set Warnings "-register-all".

(** [kvmrun/instance_states.go] *)
Inductive InstanceState :=
  | StateNoState | StateStarting | StateRunning | StatePaused | StateShutdown
  | StateInactive | StateCrashed | StateIncoming | StateMigrating | StateMigrated.
#[export] Instance InstanceState_eq_dec : EqDecision InstanceState.
Proof. solve_decision. Defined.

Module InstanceQemu.
Import Sort Monitor.QemuTypes.

Record SCSIBusInfo := { BusType : string; Addr : string }.

Record t := {
  props : InstanceProperties.t;
  startupConf : InstanceConf.InstanceConf;
  pid : Z;
  qemuVer : Version.t;
  scsiBuses : gmap string SCSIBusInfo;
  pciDevs : list PCIInfo;
  blkDevs : list BlockInfo;
  world : surroundings;
}.

Definition set_props (v : InstanceProperties.t) (r : t) : t :=
  {| props := v; startupConf := startupConf r; pid := pid r; qemuVer := qemuVer r;
     scsiBuses := scsiBuses r; pciDevs := pciDevs r; blkDevs := blkDevs r; world := world r |}.
Definition set_startupConf (v : InstanceConf.InstanceConf) (r : t) : t :=
  {| props := props r; startupConf := v; pid := pid r; qemuVer := qemuVer r;
     scsiBuses := scsiBuses r; pciDevs := pciDevs r; blkDevs := blkDevs r; world := world r |}.
Definition set_pid (v : Z) (r : t) : t :=
  {| props := props r; startupConf := startupConf r; pid := v; qemuVer := qemuVer r;
     scsiBuses := scsiBuses r; pciDevs := pciDevs r; blkDevs := blkDevs r; world := world r |}.
Definition set_qemuVer (v : Version.t) (r : t) : t :=
  {| props := props r; startupConf := startupConf r; pid := pid r; qemuVer := v;
     scsiBuses := scsiBuses r; pciDevs := pciDevs r; blkDevs := blkDevs r; world := world r |}.
Definition set_scsiBuses (v : gmap string SCSIBusInfo) (r : t) : t :=
  {| props := props r; startupConf := startupConf r; pid := pid r; qemuVer := qemuVer r;
     scsiBuses := v; pciDevs := pciDevs r; blkDevs := blkDevs r; world := world r |}.
Definition set_pciDevs (v : list PCIInfo) (r : t) : t :=
  {| props := props r; startupConf := startupConf r; pid := pid r; qemuVer := qemuVer r;
     scsiBuses := scsiBuses r; pciDevs := v; blkDevs := blkDevs r; world := world r |}.
Definition set_blkDevs (v : list BlockInfo) (r : t) : t :=
  {| props := props r; startupConf := startupConf r; pid := pid r; qemuVer := qemuVer r;
     scsiBuses := scsiBuses r; pciDevs := pciDevs r; blkDevs := v; world := world r |}.
Definition set_world (v : surroundings) (r : t) : t :=
  {| props := props r; startupConf := startupConf r; pid := pid r; qemuVer := qemuVer r;
     scsiBuses := scsiBuses r; pciDevs := pciDevs r; blkDevs := blkDevs r; world := v |}.

(** [fmt.Sprintf("0x%x", n)] *)
Definition hex_addr (n : Z) : string :=
  "0x" +:+ (if n <? 0 then "-" +:+ Strconv.format 16 (- n) else Strconv.format 16 n).
(** [strings.Split(s, ".")[0]] *)
Definition before_dot (s : string) : string := default "" (Strings.Split s "." !! 0%nat).


Section instance.
Context `{Env} {hst : Host} `{Outside}.
Abbreviation call := (op t).

Definition outside {A} (m : op surroundings A) : call A := zoom world set_world m.
Definition mon_Run (c : command) : call (answer_to c) := outside (run c).
Definition on_props (m : op InstanceProperties.t ()) : call () := zoom props set_props m.
Definition set (f : InstanceProperties.t → InstanceProperties.t) : call () := on_props (modify f).
Definition the_name : call string := r ← get; mret (InstanceProperties.name (props r)).

(** [fmt.Errorf("what: %s", err)]: the text of the error, without its kind. *)
Definition flat {A} (what : string) : call A → call A := map_err (λ _, ErrMsg what).

(** [filepath.Join(CHROOTDIR, r.name, p)] *)
Definition in_chroot (p : string) : call string :=
  n ← the_name; mret (Filepath.Join [InstanceConf.CHROOTDIR; n; p]).

(** ** Status *)

Definition Status : call InstanceState :=
  st ← mon_Run query_status;
  let status := if bool_decide (st ∈ ["inmigrate"; "postmigrate"; "finish-migrate"]) then StateIncoming
                else if bool_decide (st = "running") then StateRunning
                else if bool_decide (st = "paused") then StatePaused
                else StateNoState in
  mi ← mon_Run query_migrate;
  let status := if bool_decide (MigrStatus mi ∈ ["setup"; "cancelling"; "active"; "postcopy-active";
                                   "pre-switchover"; "device"]) then StateMigrating
                else if bool_decide (MigrStatus mi = "completed" ∧ TotalTime mi ≠ 0) then StateMigrated
                else status in
  jobs ← mon_Run query_block_jobs;
  mret (if existsb (λ j, Strings.HasPrefix j "migr_") jobs then StateMigrating else status).

(** ** Memory *)

Definition MemorySetActual (value : Z) : call () :=
  r ← get;
  on_failure (set (λ p, InstanceProperties.set_Memory_
                    (Memory.set_Actual (Memory.Actual (InstanceProperties.Memory_ (props r)))
                       (InstanceProperties.Memory_ p)) p))
    (on_props (InstanceConf.MemorySetActual value);;
     mon_Run (balloon (wrap64 (Z.shiftl value 20)))).

(** ** CPUs *)

Definition less_cpu (a b : HotpluggableCPU) : bool :=
  if SocketID a <? SocketID b then true
  else if SocketID b <? SocketID a then false
  else CoreID a <? CoreID b.

Definition cpu_actual : call Z := r ← get; mret (VirtCPU.Actual (InstanceProperties.CPU (props r))).
Definition set_cpu_actual (f : Z → Z) : call () :=
  set (λ p, InstanceProperties.set_CPU
              (VirtCPU.set_Actual (f (VirtCPU.Actual (InstanceProperties.CPU p)))
                 (InstanceProperties.CPU p)) p).

(** From the last CPU to the first, until enough are gone. *)
Fixpoint unplug (value : Z) (cpus : list HotpluggableCPU) : call () :=
  match cpus with
  | [] => mret ()
  | cpu :: cpus =>
      if bool_decide (QomPath cpu = "") then unplug value cpus
      else n ← cpu_actual;
           if n =? value then mret ()
           else mon_Run (device_del (QomPath cpu));; set_cpu_actual Z.pred;; unplug value cpus
  end.

Fixpoint plug (cpuType : string) (value : Z) (cpus : list HotpluggableCPU) : call () :=
  match cpus with
  | [] => mret ()
  | cpu :: cpus =>
      if negb (bool_decide (QomPath cpu = "")) then plug cpuType value cpus
      else n ← cpu_actual;
           if n =? value then mret ()
           else
             mon_Run (device_add (CPUDev {| cpu_Driver := cpuType; cpu_SocketID := SocketID cpu;
                                               cpu_CoreID := CoreID cpu; cpu_ThreadID := 0 |}));;
             set_cpu_actual Z.succ;;
             plug cpuType value cpus
  end.

Definition CPUSetActual (value : Z) : call () :=
  fail_if (value <? 1) (ErrMsg "invalid cpu count: cannot be less than 1");;
  r ← get;
  let total := VirtCPU.Total (InstanceProperties.CPU (props r)) in
  fail_if (total <? value) (ErrMsg ("invalid actual cpu: cannot be large than total cpu ("
    +:+ Strconv.Itoa total +:+ ")"));;
  availableCPUs ← mon_Run query_hotpluggable_cpus;
  let availableCPUs := SliceStable less_cpu availableCPUs in
  match availableCPUs with
  | [] => lift (Panic IndexOutOfRange)
  | first :: _ =>
      n ← cpu_actual;
      if value <? n then
        fail_if (Version.Int (qemuVer r) <? 20700)
          (ErrMsg ("hot-unplug operation is not supported in QEMU " +:+ Version.to_string (qemuVer r)));;
        unplug value (rev availableCPUs)
      else if n <? value then plug (Type_ first) value availableCPUs
      else mret ()
  end.

Definition CPUSetQuota (value : Z) : call () :=
  r ← get;
  on_failure (set (λ p, InstanceProperties.set_CPU
                    (VirtCPU.set_Quota (VirtCPU.Quota (InstanceProperties.CPU (props r)))
                       (InstanceProperties.CPU p)) p))
    (on_props (InstanceConf.CPUSetQuota value);;
     outside (ask (LoadManager (pid r)));;
     outside (ask (SetCpuQuota (pid r) value))).

(** ** Waiting for events *)

(** The closures [wait] differ in the text of the timeout error. *)
Definition wait (what : string) (ev : tray_event) (id : string) : call () :=
  map_err (λ e, match e with
                | DeadlineExceeded => ErrMsg (what +:+ " timeout error: failed to complete within 60 seconds")
                | e => e
                end)
    (outside (ask (Wait ev id))).

Definition is_block (be : option backend) : bool :=
  match be with Some (BlockDevice _) => true | _ => false end.

(** Mapping a block device of the host into the chroot: the steps between the
    registration of the cleanup and the changes in QEMU. *)
Definition map_device (path chrootDevPath : string) : call () :=
  r ← get;
  rdev ← outside (ask (StatRdev path));
  _ ← outside (try (ask (MkdirAll (Filepath.Dir chrootDevPath))));
  map_err (λ e, match e with
                | ErrExist _ => ErrMsg ("device is already in use: " +:+ path)
                | e => e
                end) (outside (mknod chrootDevPath rdev));;
  outside (ask (Chown chrootDevPath (InstanceProperties.uid (props r)))).

(** ** Cdroms *)

Definition open_tray (what id : string) : call () :=
  mon_Run (blockdev_open_tray id);; wait what TrayOpened id.

Definition CdromChangeMedia (devname media : string) : call () :=
  let media := Strings.TrimSpace media in
  fail_if (bool_decide (media = "")) (ErrMsg "empty cdrom media");;
  r ← get;
  match CdromPool.Get devname (InstanceProperties.Cdroms (props r)) with
  | None => throw (NotConnectedError "instance_qemu" devname)
  | Some cd =>
      fail_if (bool_decide (Cdrom.Media (Cdrom.props cd) = media))
        (AlreadyConnectedError "instance_qemu" media);;
      be ← lift (NewCdromBackend media);
      let update m := on_props (InstanceConf.update_cdrom devname (Cdrom.set_media m (Some be))) in
      let oldMedia := Cdrom.Media (Cdrom.props cd) in
      update oldMedia;;
      (* taken from the new backend, which is already in place *)
      let oldMediaLocal := is_block (Some be) in
      old ← in_chroot oldMedia;
      on_success (if oldMediaLocal then _ ← outside (try (remove old)); mret () else mret ()) (
        update media;;
        chrootDevPath ← in_chroot media;
        let change :=
          open_tray "change medium" (Cdrom.QdevID cd);;
          mon_Run (blockdev_change_medium (Cdrom.QdevID cd) media);;
          wait "change medium" TrayClosed (Cdrom.QdevID cd) in
        if is_block (Some be) then
          on_failure (_ ← outside (try (remove chrootDevPath)); mret ())
            (map_device media chrootDevPath;; change)
        else change)
  end.

(** Removing the node of a block device, if there is one. *)
Definition unmap_device (be : option backend) (path : string) : call () :=
  if is_block be then
    p ← in_chroot path;
    res ← outside (try (remove p));
    match res with
    | inl _ | inr (ErrNotExist _) => mret ()
    | inr e => throw e
    end
  else mret ().

Definition CdromRemoveMedia (devname : string) : call () :=
  r ← get;
  match CdromPool.Get devname (InstanceProperties.Cdroms (props r)) with
  | None => throw (NotConnectedError "instance_conf" devname)
  | Some cd =>
      if bool_decide (Cdrom.Media (Cdrom.props cd) = "") then mret ()
      else
        unmap_device (Cdrom.MediaBackend cd) (Cdrom.Media (Cdrom.props cd));;
        open_tray "remove medium" (Cdrom.QdevID cd);;
        mon_Run (blockdev_remove_medium (Cdrom.QdevID cd));;
        wait "remove medium" TrayClosed (Cdrom.QdevID cd);;
        on_props (InstanceConf.update_cdrom devname (Cdrom.set_media "" None))
  end.

(** The bus a hot-plugged SCSI device asks for, created if it is not known. *)
Definition ensure_bus (QemuAddr : string) : call string :=
  let busName := (ParseSCSIAddr QemuAddr).1.1 in
  r ← get;
  (if bool_decide (scsiBuses r !! busName = None) then
     flat "device_add failed"
       (mon_Run (device_add (SCSIHostBus {| bus_Driver := "virtio-scsi-pci"; bus_ID := busName |})))
   else mret ());;
  mret (busName +:+ ".0").

Definition CdromAppend (opts : Cdrom.Properties) : call () :=
  opts ← lift (Cdrom.Validate true opts);
  let driver : CdromDriverType := DriverTypeValue (Cdrom.Driver opts) in
  fail_if (negb (HotPluggable driver))
    (ErrMsg ("cdrom driver is not hot-pluggable: " +:+ Cdrom.Driver opts));;
  r ← get;
  fail_if (CdromPool.Exists (Cdrom.Name opts) (InstanceProperties.Cdroms (props r)))
    (AlreadyConnectedError "instance_qemu" (Cdrom.Name opts));;
  let requestedMedia := Cdrom.Media opts in
  let cd := Cdrom.set_media "" None (Cdrom.make opts driver None) in
  bus ← (if bool_decide (driver = CdromDriverType_SCSI_CD)
         then b ← ensure_bus (Cdrom.QemuAddr cd); mret (b, 1)
         else mret ("", 0));
  _ ← flat "drive_add failed"
        (mon_Run (human ("drive_add auto " +:+ bytes [34%N] +:+ "id=" +:+ Cdrom.Name opts
           +:+ ",if=none,aio=threads,detect-zeroes=on"
           +:+ (if Cdrom.Readonly opts then ",readonly=on" else "") +:+ bytes [34%N])));
  flat "device_add failed"
    (mon_Run (device_add (CdromDev {| cdrom_Driver := driver_String driver;
       cdrom_ID := Cdrom.QdevID cd; cdrom_Bus := bus.1; cdrom_Drive := Cdrom.Name opts;
       cdrom_SCSI_ID := bus.2 |})));;
  _ ← try (on_props (zoom InstanceProperties.Cdroms InstanceProperties.set_Cdroms (CdromPool.Append cd)));
  if bool_decide (requestedMedia = "") then mret ()
  else CdromChangeMedia (Cdrom.Name opts) requestedMedia.

(** [drive_del] for every block device of that name. *)
Fixpoint drive_dels (name : string) (devs : list BlockInfo) : call () :=
  match devs with
  | [] => mret ()
  | dev :: devs =>
      (if bool_decide (Device dev = name) then
         _ ← flat "drive_del error" (mon_Run (human ("drive_del " +:+ name))); mret ()
       else mret ());;
      drive_dels name devs
  end.

Definition CdromRemove (devname : string) : call () :=
  r ← get;
  match CdromPool.Get devname (InstanceProperties.Cdroms (props r)) with
  | None => throw (NotConnectedError "instance_qemu" devname)
  | Some cd =>
      fail_if (negb (HotPluggable (Cdrom.driver cd)))
        (ErrMsg ("cdrom driver is not hot-pluggable: " +:+ driver_String (Cdrom.driver cd)));;
      unmap_device (Cdrom.MediaBackend cd) (Cdrom.Media (Cdrom.props cd));;
      (if bool_decide (Cdrom.driver cd = CdromDriverType_SCSI_CD)
       then flat "device_del error" (mon_Run (device_del (Cdrom.QdevID cd))) else mret ());;
      wait "device_del" DeviceDeleted (Cdrom.QdevID cd);;
      blkDevs ← mon_Run query_block;
      drive_dels (Cdrom.Name (Cdrom.props cd)) blkDevs;;
      on_props (zoom InstanceProperties.Cdroms InstanceProperties.set_Cdroms
                  (CdromPool.Remove (Cdrom.Name (Cdrom.props cd))))
  end.

(** ** Disks *)

Definition get_disk (diskname : string) (r : t) : option (string * Disk.t) :=
  DiskPool.Get diskname (InstanceProperties.Disks (props r)).

Definition set_iops (diskname : string) (iops : Z) (limits : Disk.t → Z * Z)
    (upd : Z → Disk.t → Disk.t) : call () :=
  fail_if (iops <? 0) (ErrMsg "invalid iops value: cannot be less than 0");;
  r ← get;
  match get_disk diskname r with
  | None => throw (NotConnectedError "instance_qemu" diskname)
  | Some (k, d) =>
      name ← lift (Disk.BaseName d);
      mon_Run (block_set_io_throttle {| thr_Device := name; thr_IopsRd := (limits d).1;
                                        thr_IopsWr := (limits d).2 |});;
      on_props (InstanceConf.update_disk k (upd iops))
  end.
Definition DiskSetReadIops (diskname : string) (iops : Z) : call () :=
  set_iops diskname iops (λ d, (iops, Disk.IopsWr (Disk.props d))) Disk.set_IopsRd.
Definition DiskSetWriteIops (diskname : string) (iops : Z) : call () :=
  set_iops diskname iops (λ d, (Disk.IopsRd (Disk.props d), iops)) Disk.set_IopsWr.

Definition DiskResizeQemuBlockdev (dpath : string) : call () :=
  r ← get;
  match get_disk dpath r with
  | None => throw (NotConnectedError "instance_qemu" dpath)
  | Some (_, d) => name ← lift (Disk.BaseName d); mon_Run (block_resize name 1)
  end.

Definition DiskRemoveQemuBitmap (diskname : string) : call () :=
  r ← get;
  match get_disk diskname r with
  | None => throw (NotConnectedError "instance_qemu" diskname)
  | Some (_, d) =>
      if Disk.HasBitmap d then
        name ← lift (Disk.BaseName d); mon_Run (block_dirty_bitmap_remove name "backup")
      else mret ()
  end.

(** The backend of a new disk, which must be available. *)
Definition available_disk (path : string) : outcome backend :=
  be ← NewDiskBackend path;
  match IsAvailable be with
  | Ret true => Ret be
  | Ret false => Throw (ErrMsg ("disk is not available: " +:+ path))
  | Throw (ErrMsg m) => Throw (ErrMsg ("failed to check disk: " +:+ m))
  | Throw e => Throw e
  | Panic p => Panic p
  end.

Definition drive_add (d : Disk.t) (name : string) : string :=
  "drive_add auto " +:+ bytes [34%N] +:+ "file=" +:+ Disk.Path (Disk.props d) +:+ ",id=" +:+ name
    +:+ ",format=raw,if=none,aio=native,cache=none,detect-zeroes=on,iops_rd="
    +:+ Strconv.Itoa (Disk.IopsRd (Disk.props d)) +:+ ",iops_wr="
    +:+ Strconv.Itoa (Disk.IopsWr (Disk.props d)) +:+ bytes [34%N].

(** The changes in QEMU, ending with the disk in the pool. *)
Definition attach_disk (d : Disk.t) (be : backend) : call () :=
  bus ← (if bool_decide (Disk.driver d = DiskDriverType_SCSI_HD)
         then b ← ensure_bus (Disk.QemuAddr d); mret (b, 1) else mret ("", 0));
  _ ← flat "drive_add failed" (mon_Run (human (drive_add d (BaseName be))));
  flat "device_add failed"
    (mon_Run (device_add (BlockDev {| blk_Driver := driver_String (Disk.driver d);
       blk_ID := Backend.QdevID be; blk_Bus := bus.1; blk_Drive := BaseName be; blk_SCSI_ID := bus.2 |})));;
  _ ← try (on_props (zoom InstanceProperties.Disks InstanceProperties.set_Disks (DiskPool.Append d)));
  mret ().

Definition DiskAppend (opts : Disk.Properties) : call () :=
  opts ← lift (Disk.Validate true opts);
  let driver : DiskDriverType := DriverTypeValue (Disk.Driver opts) in
  fail_if (negb (HotPluggable driver))
    (ErrMsg ("disk driver is not hot-pluggable: " +:+ Disk.Driver opts));;
  be ← lift (available_disk (Disk.Path opts));
  let d := Disk.make opts driver (Some be) in
  r ← get;
  fail_if (DiskPool.Exists (BaseName be) (InstanceProperties.Disks (props r)))
    (AlreadyConnectedError "instance_qemu" (Disk.Path opts));;
  if is_block (Some be) then
    chrootDevPath ← in_chroot (Disk.Path opts);
    on_failure (_ ← outside (try (remove chrootDevPath)); mret ())
      (map_device (Disk.Path opts) chrootDevPath;; attach_disk d be)
  else attach_disk d be.

Definition DiskRemove (diskname : string) : call () :=
  r ← get;
  match get_disk diskname r with
  | None => throw (NotConnectedError "instance_qemu" diskname)
  | Some (_, d) =>
      fail_if (negb (HotPluggable (Disk.driver d)))
        (ErrMsg ("disk driver is not hot-pluggable: " +:+ driver_String (Disk.driver d)));;
      unmap_device (Disk.Backend d) (Disk.Path (Disk.props d));;
      id ← lift (Disk.QdevID d);
      match Disk.driver d with
      | DiskDriverType_VIRTIO_BLK_PCI =>
          flat "device_del error" (mon_Run (device_del id));; wait "device_del" DeviceDeleted id
      | DiskDriverType_SCSI_HD => flat "device_del error" (mon_Run (device_del id))
      | _ => mret ()
      end;;
      blkDevs ← mon_Run query_block;
      name ← lift (Disk.BaseName d);
      drive_dels name blkDevs;;
      on_props (zoom InstanceProperties.Disks InstanceProperties.set_Disks (DiskPool.Remove name))
  end.

(** ** Network interfaces *)

Definition set_carrier (ifname : string) (up : bool) : call () :=
  r ← get;
  match NetIfacePool.Get ifname (InstanceProperties.NetIfaces (props r)) with
  | None => throw (NotConnectedError "instance_qemu" ifname)
  | Some n => mon_Run (set_link (NetIface.QdevID n) up)
  end.
Definition NetIfaceSetLinkUp (ifname : string) : call () := set_carrier ifname true.
Definition NetIfaceSetLinkDown (ifname : string) : call () := set_carrier ifname false.

(** [filepath.Join(CHROOTDIR, r.name, "run/net", ifname)] *)
Definition iface_conf (ifname : string) : call string :=
  n ← the_name; mret (Filepath.Join [InstanceConf.CHROOTDIR; n; "run/net"; ifname]).

Definition multi_queue (n : NetIface.t) : bool :=
  bool_decide (NetIface.driver n = NetDriverType_VIRTIO_NET_PCI) && (1 <? NetIface.Queues (NetIface.props n)).

Definition NetIfaceAppend (rnd : sys (Z * Z * Z)) (opts : NetIface.Properties) : call () :=
  opts ← lift (NetIface.Validate rnd true opts);
  let driver : NetDriverType := DriverTypeValue (NetIface.Driver opts) in
  fail_if (negb (HotPluggable driver))
    (ErrMsg ("net interface driver is not hot-pluggable: " +:+ NetIface.Driver opts));;
  let n := NetIface.make opts driver in
  let ifname := NetIface.Ifname opts in
  r ← get;
  fail_if (NetIfacePool.Exists ifname (InstanceProperties.NetIfaces (props r)))
    (AlreadyConnectedError "instance_qemu" ifname);;
  let mq := multi_queue n in
  let queues := 2 * NetIface.Queues opts in
  outside (AddTapInterface ifname (InstanceProperties.uid (props r)) mq);;
  outside (SetInterfaceUp ifname);;
  mon_Run (netdev_add {| tap_Type := "tap"; tap_ID := ifname; tap_Ifname := ifname; Vhost := true;
                         Queues := if mq then wrap64 queues else 0; Script := "no";
                         Downscript := "no" |});;
  mon_Run (device_add (NetDev {| net_Driver := driver_String driver; net_ID := NetIface.QdevID n;
                                 Netdev := ifname; Mac := NetIface.HwAddr opts; MQ := mq;
                                 Vectors := if mq then wrap64 (queues + 2) else 0 |}));;
  path ← iface_conf ifname;
  outside (write_text path (ConfJson.enc_netif n));;
  _ ← try (on_props (zoom InstanceProperties.NetIfaces InstanceProperties.set_NetIfaces
                       (NetIfacePool.Append n)));
  mret ().

Definition NetIfaceRemove (ifname : string) : call () :=
  r ← get;
  match NetIfacePool.Get ifname (InstanceProperties.NetIfaces (props r)) with
  | None => throw (NotConnectedError "instance_qemu" ifname)
  | Some n =>
      fail_if (negb (HotPluggable (NetIface.driver n)))
        (ErrMsg ("net interface driver is not hot-pluggable: " +:+ driver_String (NetIface.driver n)));;
      mon_Run (device_del (NetIface.QdevID n));;
      wait "device_del" DeviceDeleted (NetIface.QdevID n);;
      let name := NetIface.Ifname (NetIface.props n) in
      mon_Run (netdev_del name);;
      on_props (zoom InstanceProperties.NetIfaces InstanceProperties.set_NetIfaces
                  (NetIfacePool.Remove name));;
      flat "cannot remove the tap interface" (outside (DelTapInterface name));;
      path ← iface_conf name;
      res ← outside (try (remove path));
      match res with
      | inl _ | inr (ErrNotExist _) => mret ()
      | inr e => throw e
      end
  end.

(** ** Virtio-vsock *)

Definition VSockDeviceAppend (opts : ChannelVSock.Properties) : call () :=
  r ← get;
  fail_if (negb (bool_decide (InstanceProperties.VSockDevice (props r) = None)))
    (AlreadyConnectedError "instance_conf" "vsock device");;
  _ ← lift (ChannelVSock.Validate opts);
  mon_Run (device_add (VSockDev {| vsock_Driver := "vhost-vsock-pci"; vsock_ID := "vsock_device";
                                   GuestCID := ChannelVSock.ContextID opts |}));;
  set (InstanceProperties.set_VSockDevice
         (Some {| ChannelVSock.props := opts; ChannelVSock.QemuAddr := "" |})).

Definition VSockDeviceRemove : call () :=
  r ← get;
  fail_if (bool_decide (InstanceProperties.VSockDevice (props r) = None))
    (NotConnectedError "instance_conf" "vsock device");;
  mon_Run (device_del "vsock_device");;
  set (InstanceProperties.set_VSockDevice None).

(** ** Cloud-init drive *)

Definition available_media (media : string) (d : CloudInitDrive.t) : outcome backend :=
  match CloudInitDrive.Backend d with
  | None => Panic NilDereference
  | Some be =>
      match IsAvailable be with
      | Ret true => Ret be
      | Ret false => Throw (ErrMsg ("cloud-init media is not available: " +:+ media))
      | Throw (ErrMsg m) => Throw (ErrMsg ("failed to check cloud-init media: " +:+ m))
      | Throw e => Throw e
      | Panic p => Panic p
      end
  end.

(** The medium in the chroot: a node for a block device, which may be there
    already, a copy of a file. *)
Definition install_media (newdrive : CloudInitDrive.t) (be : backend) (dst : string) : call () :=
  r ← get;
  match be with
  | Backend.BlockDevice _ =>
      rdev ← outside (ask (StatRdev (FullPath be)));
      res ← outside (try (mknod dst rdev));
      match res with
      | inl _ | inr (ErrExist _) => mret ()
      | inr e => throw e
      end
  | Backend.FileDevice _ =>
      flat "failed to copy cloud-init drive into the chroot directory"
        (outside (copy_file (FullPath be) dst))
  | _ => throw (UnknownBackendError (CloudInitDrive.Media (CloudInitDrive.props newdrive)))
  end;;
  outside (ask (Chown dst (InstanceProperties.uid (props r)))).

Definition change_cidata (driver : CloudInitDriverType) (filename : string) : call () :=
  match driver with
  | CloudInitDriverType_IDE_CD =>
      open_tray "change medium" "cidata";;
      mon_Run (blockdev_change_medium "cidata" filename);;
      wait "change medium" TrayClosed "cidata"
  | CloudInitDriverType_FLOPPY => mon_Run (blockdev_change_medium "cidata" filename)
  | CloudInitDriverType_UNKNOWN => mret ()
  end.

Definition CloudInitSetMedia (media : string) : call () :=
  r ← get;
  match InstanceProperties.CloudInitDrive_ (props r) with
  | None => throw (NotConnectedError "instance_qemu" "cloud-init drive")
  | Some curdrive =>
      newdrive ← lift (CloudInitDrive.NewCloudInitDrive media);
      let newdrive := CloudInitDrive.set_Driver (CloudInitDrive.driver curdrive) newdrive in
      let media_of d := CloudInitDrive.Media (CloudInitDrive.props d) in
      let home := Filepath.Join [InstanceConf.CONFDIR; InstanceProperties.name (props r)] in
      fail_if (match CloudInitDrive.Backend newdrive with
               | Some (FileDevice _) => negb (bool_decide (Filepath.Dir (media_of newdrive) = home))
               | _ => false
               end) (ErrMsg ("must be placed in the machine home directory: " +:+ home +:+ "/"));;
      be ← lift (available_media media newdrive);
      let other := negb (bool_decide (media_of newdrive = media_of curdrive)) in
      on_success (if other then
                    match CloudInitDrive.Backend curdrive with
                    | None => lift (Panic NilDereference)
                    | Some old => p ← in_chroot (FullPath old); _ ← outside (try (remove p)); mret ()
                    end
                  else mret ()) (
        dst ← in_chroot (FullPath be);
        let change := change_cidata (CloudInitDrive.driver curdrive) (FullPath be) in
        (if IsLocal be then
           outside (ask (MkdirAll (Filepath.Dir dst)));;
           on_failure (if other then _ ← outside (try (remove dst)); mret () else mret ())
             (install_media newdrive be dst;; change)
         else change);;
        set (InstanceProperties.set_CloudInitDrive_ (Some newdrive)))
  end.

Definition VNCSetPassword (s : string) : call () :=
  fail_if (bool_decide (s = "")) (ErrMsg "empty password string");;
  mon_Run (change_vnc_password s).

(** ** The [Instance] interface *)

Definition exec (o : conf_op) (rnd : sys (Z * Z * Z)) : call () :=
  match o with
  | ConfInvariant.MemorySetActual v => MemorySetActual v
  | ConfInvariant.CPUSetActual v => CPUSetActual v
  | ConfInvariant.CPUSetQuota v => CPUSetQuota v
  | ConfInvariant.CdromAppend o => CdromAppend o
  | ConfInvariant.CdromRemove s => CdromRemove s
  | ConfInvariant.CdromChangeMedia s m => CdromChangeMedia s m
  | ConfInvariant.CdromRemoveMedia s => CdromRemoveMedia s
  | ConfInvariant.DiskAppend o => DiskAppend o
  | ConfInvariant.DiskRemove s => DiskRemove s
  | ConfInvariant.DiskSetReadIops s v => DiskSetReadIops s v
  | ConfInvariant.DiskSetWriteIops s v => DiskSetWriteIops s v
  | ConfInvariant.DiskRemoveQemuBitmap s => DiskRemoveQemuBitmap s
  | ConfInvariant.DiskResizeQemuBlockdev s => DiskResizeQemuBlockdev s
  | ConfInvariant.NetIfaceAppend o => NetIfaceAppend rnd o
  | ConfInvariant.NetIfaceRemove s => NetIfaceRemove s
  | ConfInvariant.NetIfaceSetLinkUp s => NetIfaceSetLinkUp s
  | ConfInvariant.NetIfaceSetLinkDown s => NetIfaceSetLinkDown s
  | ConfInvariant.VSockDeviceAppend o => VSockDeviceAppend o
  | ConfInvariant.VSockDeviceRemove => VSockDeviceRemove
  | ConfInvariant.CloudInitSetMedia m => CloudInitSetMedia m
  | ConfInvariant.VNCSetPassword s => VNCSetPassword s
  | _ => throw ErrNotImplemented
  end.

(** ** Reading the view of a machine *)

Definition initMachine : call () :=
  mtype ← mon_Run (qom_get_string "/machine" "type");
  let mtype := Strings.ToLower mtype in
  set (InstanceProperties.set_MachineType_
         (if Strings.HasSuffix mtype "-machine"
          then String.substring 0 (String.length mtype - 8) mtype else mtype));;
  ver ← mon_Run query_version;
  modify (set_qemuVer ver).

Fixpoint for_each {A} (f : A → call ()) (l : list A) : call () :=
  match l with [] => mret () | a :: l => f a;; for_each f l end.

Definition startup : call InstanceProperties.t :=
  r ← get; mret (InstanceConf.props (startupConf r)).

Definition initFirmware : call () :=
  c ← startup; set (InstanceProperties.set_Firmware_ (InstanceProperties.FirmwareGet c)).

Definition initMemory : call () :=
  c ← startup;
  info ← try (mon_Run query_balloon);
  actual ← match info with
           | inl bytes => mret (Z.shiftr bytes 20)
           | inr DeviceNotActive => mret (InstanceProperties.MemoryGetActual c)
           | inr e => throw e
           end;
  set (InstanceProperties.set_Memory_
         {| Memory.Actual := actual; Memory.Total := InstanceProperties.MemoryGetTotal c |}).

(** [bytes.Fields] of a line that starts with [Tgid:], from its second field. *)
Definition fields (s : string) : list string :=
  filter (λ f, f ≠ "") (Strings.Split (Strings.replace "009" " " s) " ").
Fixpoint tgid (lines : list string) : outcome Z :=
  match lines with
  | [] => Ret 0
  | l :: lines =>
      if Strings.HasPrefix l "Tgid:" then
        match fields l with
        | _ :: f :: _ => Strconv.Atoi f
        | _ => tgid lines
        end
      else tgid lines
  end.

Definition initCPU : call () :=
  r ← get;
  threads ← (if Version.Int (qemuVer r) <? 21200 then mon_Run query_cpus else mon_Run query_cpus_fast);
  match threads with
  | [] => lift (Panic IndexOutOfRange)
  | firstThreadID :: _ =>
      c ← startup;
      set (InstanceProperties.set_CPU
        {| VirtCPU.Actual := Z.of_nat (length threads);
           VirtCPU.Total := InstanceProperties.CPUGetTotal c;
           VirtCPU.Sockets := InstanceProperties.CPUGetSockets c;
           VirtCPU.Quota := VirtCPU.Quota (InstanceProperties.CPU (props r));
           VirtCPU.Model := InstanceProperties.CPUGetModel c |});;
      lines ← outside (ask (ReadProcStatus firstThreadID));
      p ← lift (tgid lines);
      modify (set_pid p);;
      mgr ← outside (try (ask (LoadManager p)));
      match mgr with
      | inl _ =>
          v ← outside (ask (GetCpuQuota p));
          set (λ q, InstanceProperties.set_CPU (VirtCPU.set_Quota v (InstanceProperties.CPU q)) q)
      | inr _ => mret ()
      end
  end.

(** The startup configuration is always a [StartupConf]. *)
Definition initInputDevicePool : call () :=
  c ← startup;
  for_each (λ d, _ ← try (on_props (zoom InstanceProperties.InputDevices
                       InstanceProperties.set_InputDevices (InputDevicePool.Append d))); mret ())
    (InputDevicePool.Values [] (InstanceProperties.InputDevices c)).

Definition initHostDevicePool : call () :=
  c ← startup;
  for_each (λ d, _ ← try (on_props (zoom InstanceProperties.HostDevices
                       InstanceProperties.set_HostDevices (HostDevicePool.Append d))); mret ())
    (HostDevicePool.Values [] (InstanceProperties.HostDevices c)).

Definition initVSockDevice : call () :=
  cid ← try (mon_Run (qom_get_int "vsock_device" "guest-cid"));
  match cid with
  | inr DeviceNotFound => mret ()
  | inr e => throw e
  | inl cid =>
      addr ← try (mon_Run (qom_get_string "vsock_device" "legacy-addr"));
      set (InstanceProperties.set_VSockDevice
        (Some {| ChannelVSock.props := {| ChannelVSock.ContextID := cid |};
                 ChannelVSock.QemuAddr := match addr with
                                          | inl a => "0x" +:+ before_dot a
                                          | inr _ => ""
                                          end |}))
  end.

Definition initExtKernel : call () :=
  c ← startup;
  set (InstanceProperties.set_Kernel
    {| ExtKernel.Image := InstanceProperties.KernelGetImage c;
       ExtKernel.Cmdline := InstanceProperties.KernelGetCmdline c;
       ExtKernel.Initrd := InstanceProperties.KernelGetInitrd c;
       ExtKernel.Modiso := InstanceProperties.KernelGetModiso c |}).

(** ** The devices of an i440fx machine *)

(** The path behind an inserted medium. *)
Definition device_path (ins : InsertedInfo) : outcome string :=
  path ← (if Strings.HasPrefix (File ins) "json:" then
            b ← Backend.call (Unmarshal_file (Strings.TrimPrefix (File ins) "json:"));
            if bool_decide (FileDriver b = "iscsi") then
              Ret ("iscsi://" +:+ User b +:+ "%" +:+ Password b +:+ "@" +:+ Portal b +:+ "/"
                   +:+ Target b +:+ "/" +:+ Lun b)
            else Throw (ErrMsg ("unknown backing device driver: " +:+ FileDriver b))
          else Ret (File ins));
  Ret (if 0 <? BackingFileDepth ins then
         if bool_decide (BackingFile ins = "") then Filename (Image_ ins) else BackingFile ins
       else path).

Definition pci_slot (id : string) : call string :=
  a ← try (mon_Run (qom_get_string id "legacy-addr"));
  mret match a with inl a => "0x" +:+ before_dot a | inr _ => "" end.

(** Bus, bus address and lun; the bus is looked up among those found so far, a
    bus that is not there is a nil pointer. *)
Definition scsi_addr (id : string) : call string :=
  parentBus ← mon_Run (qom_get_string id "parent_bus");
  let parentBusName := before_dot (Filepath.Base parentBus) in
  lun ← mon_Run (qom_get_int id "lun");
  r ← get;
  match scsiBuses r !! parentBusName with
  | None => lift (Panic NilDereference)
  | Some b => mret (parentBusName +:+ ":" +:+ Addr b +:+ "/" +:+ Strconv.Itoa lun)
  end.

Definition append_cdrom (cd : Cdrom.t) : call () :=
  _ ← try (on_props (zoom InstanceProperties.Cdroms InstanceProperties.set_Cdroms (CdromPool.Append cd)));
  mret ().
Definition append_disk (d : Disk.t) : call () :=
  _ ← try (on_props (zoom InstanceProperties.Disks InstanceProperties.set_Disks (DiskPool.Append d)));
  mret ().

Definition init_cdrom (dev : BlockInfo) : call () :=
  if negb (Strings.HasPrefix (QdevPath dev) "cdrom_") then mret ()
  else
    devicePath ← lift (device_path (Inserted dev));
    cdrom ← lift (Cdrom.NewCdrom (Device dev) devicePath);
    let id := Cdrom.QdevID cdrom in
    ty ← try (mon_Run (qom_get_string id "type"));
    match ty with
    | inr DeviceNotFound => mret ()
    | inr e => throw e
    | inl ty =>
        let driver : CdromDriverType := DriverTypeValue ty in
        addr ← match driver with
               | CdromDriverType_IDE_CD => a ← pci_slot id; mret (Some a)
               | CdromDriverType_SCSI_CD => a ← scsi_addr id; mret (Some a)
               | CdromDriverType_UNKNOWN => mret None
               end;
        match addr with
        | None => mret ()
        | Some addr =>
            let p := Cdrom.props cdrom in
            append_cdrom
              {| Cdrom.props := Cdrom.Build_Properties (Cdrom.Name p) (Cdrom.Media p) ty
                                  (Cdrom.Bootindex p) (ReadOnly (Inserted dev));
                 Cdrom.driver := driver; Cdrom.MediaBackend := Cdrom.MediaBackend cdrom;
                 Cdrom.QemuAddr := addr |}
        end
    end.

Definition initCdromPool : call () := r ← get; for_each init_cdrom (blkDevs r).

Definition first_bus (r : t) : outcome (list PCIDevice) :=
  match pciDevs r with [] => Panic IndexOutOfRange | b :: _ => Ret (Devices b) end.

Definition virtio_scsi (dev : PCIDevice) : bool := (Class_ dev =? 256) && (ID_Device dev =? 4100).

Definition init_disk (dev : BlockInfo) : call () :=
  let ins := Inserted dev in
  if bool_decide (Device dev ∈ ["modiso"; "cidata"; "fwloader"; "fwflash"]) then mret ()
  else if bool_decide (File ins = "") then mret ()
  else
    devicePath ← lift (device_path ins);
    disk ← lift (Disk.NewDisk devicePath);
    id ← lift (Disk.QdevID disk);
    ty ← try (mon_Run (qom_get_string id "type"));
    match ty with
    | inr DeviceNotFound =>
        if Strings.HasPrefix (QdevPath dev) "cdrom_" then mret () else throw DeviceNotFound
    | inr e => throw e
    | inl ty =>
        let driver : DiskDriverType := DriverTypeValue ty in
        addr ← match driver with
               | DiskDriverType_VIRTIO_BLK_PCI | DiskDriverType_IDE_HD => a ← pci_slot id; mret (Some a)
               | DiskDriverType_SCSI_HD => a ← scsi_addr id; mret (Some a)
               | DiskDriverType_UNKNOWN => mret None
               end;
        match addr with
        | None => mret ()
        | Some addr =>
            let p := Disk.props disk in
            be ← lift (NewDiskBackend (Disk.Path p));
            append_disk
              {| Disk.props := Disk.Build_Properties (Disk.Path p) ty (IopsRd ins) (IopsWr ins)
                                 (Disk.Bootindex p);
                 Disk.driver := driver; Disk.Backend := Some be; Disk.QemuAddr := addr;
                 Disk.QemuVirtualSize := if 0 <? BackingFileDepth ins
                                         then BackingImage_VirtualSize (Image_ ins)
                                         else VirtualSize (Image_ ins);
                 Disk.HasBitmap := bool_decide ("backup" ∈ DirtyBitmaps dev ++ InsertedDirtyBitmaps ins) |}
        end
    end.

Definition initDiskPool : call () :=
  r ← get;
  devices ← lift (first_bus r);
  modify (set_scsiBuses (foldl (λ m dev,
    if virtio_scsi dev then <[QdevID dev := {| BusType := "virtio-scsi-pci"; Addr := hex_addr (Slot dev) |}]> m
    else m) ∅ devices));;
  for_each init_disk (blkDevs r).

(** The scripts kept in the chroot, from the JSON text of an interface. *)
Definition scripts (n : node) : outcome (string * string) :=
  match n with
  | TextFile (Some j) =>
      match Json.dec_struct
              [("ifup", Json.on fst (λ v s, (v, s.2)) Json.dec_string);
               ("ifdown", Json.on snd (λ v s, (s.1, v)) Json.dec_string)] j ("", "") with
      | Ret s => Ret s
      | Throw e => Throw e
      | Panic p => Panic p
      end
  | _ => Throw (ErrMsg "invalid JSON")
  end.

Definition init_netif (dev : PCIDevice) : call () :=
  if negb (Class_ dev =? 512) then mret ()
  else
    ty ← mon_Run (qom_get_string (QdevID dev) "type");
    let driver : NetDriverType := DriverTypeValue ty in
    if bool_decide (driver = DriverType_UNKNOWN) then mret ()
    else
      mac ← mon_Run (qom_get_string (QdevID dev) "mac");
      queues ← (if bool_decide (driver = NetDriverType_VIRTIO_NET_PCI) then
                  mq ← mon_Run (qom_get_bool (QdevID dev) "mq");
                  if mq : bool then
                    vectors ← mon_Run (qom_get_int (QdevID dev) "vectors");
                    mret (if 4 <? vectors then (vectors - 2) ÷ 2 else 0)
                  else mret 0
                else mret 0);
      ifname ← lift (if (String.length (QdevID dev) <? 4)%nat then Panic IndexOutOfRange
                     else Ret (String.substring 4 (String.length (QdevID dev) - 4) (QdevID dev)));
      path ← iface_conf ifname;
      r ← get;
      s ← lift (match chroot (world r) !! path with
                | None => Throw (ErrNotExist path)
                | Some n => scripts n
                end);
      let n := {| NetIface.props := {| NetIface.Ifname := ifname; NetIface.Driver := ty;
                                       NetIface.HwAddr := mac; NetIface.Queues := queues;
                                       NetIface.Bootindex := 0; NetIface.Ifup := s.1;
                                       NetIface.Ifdown := s.2 |};
                  NetIface.driver := driver; NetIface.QemuAddr := hex_addr (Slot dev) |} in
      _ ← try (on_props (zoom InstanceProperties.NetIfaces InstanceProperties.set_NetIfaces
                           (NetIfacePool.Append n)));
      mret ().

Definition initNetIfacePool : call () :=
  r ← get; devices ← lift (first_bus r); for_each init_netif devices.

Definition init_cidata (dev : BlockInfo) : call () :=
  if bool_decide (Device dev = "cidata" ∧ File (Inserted dev) ≠ "") then
    d ← lift (CloudInitDrive.NewCloudInitDrive (File (Inserted dev)));
    ty ← try (mon_Run (qom_get_string "cidata" "type"));
    match ty with
    | inr DeviceNotFound => mret ()
    | inr e => throw e
    | inl ty =>
        set (InstanceProperties.set_CloudInitDrive_
          (Some {| CloudInitDrive.props := {| CloudInitDrive.Media :=
                                                CloudInitDrive.Media (CloudInitDrive.props d);
                                              CloudInitDrive.Driver := ty |};
                   CloudInitDrive.driver := DriverTypeValue ty;
                   CloudInitDrive.Backend := CloudInitDrive.Backend d |}))
    end
  else mret ().
Definition initCloudInitDrive : call () := r ← get; for_each init_cidata (blkDevs r).

(** ** Goroutines *)

(** [errgroup.Group]: the tasks all run, here one after the other in the order
    they happen to be scheduled; the first error is the group's, a panic ends
    the process. *)
Fixpoint group (tasks : list (call ())) (first : option goerr) : call () :=
  match tasks with
  | [] => match first with None => mret () | Some e => throw e end
  | m :: tasks =>
      res ← try m;
      group tasks match first, res with
                  | None, inr e => Some e
                  | _, _ => first
                  end
  end.

Inductive pool_task := CdromPoolTask | DiskPoolTask | NetIfacePoolTask | CloudInitDriveTask.
Inductive view_task :=
  | FirmwareTask | CPUTask | MemoryTask | HostDevicePoolTask | InputDevicePoolTask
  | VSockDeviceTask | ExtKernelTask | InitTask.
Record schedule := { view_order : list view_task; pool_order : list pool_task }.
(** The order of the [go] statements. *)
Definition go_order : schedule :=
  {| view_order := [FirmwareTask; CPUTask; MemoryTask; HostDevicePoolTask; InputDevicePoolTask;
                    VSockDeviceTask; ExtKernelTask; InitTask];
     pool_order := [CdromPoolTask; DiskPoolTask; NetIfacePoolTask; CloudInitDriveTask] |}.

Definition pool_init (k : pool_task) : call () :=
  match k with
  | CdromPoolTask => initCdromPool
  | DiskPoolTask => initDiskPool
  | NetIfacePoolTask => initNetIfacePool
  | CloudInitDriveTask => initCloudInitDrive
  end.

Definition init (s : schedule) : call () :=
  devs ← mon_Run query_pci;
  modify (set_pciDevs devs);;
  blks ← mon_Run query_block;
  modify (set_blkDevs blks);;
  group (pool_init <$> pool_order s) None.

Definition view_init (s : schedule) (k : view_task) : call () :=
  match k with
  | FirmwareTask => initFirmware
  | CPUTask => initCPU
  | MemoryTask => initMemory
  | HostDevicePoolTask => initHostDevicePool
  | InputDevicePoolTask => initInputDevicePool
  | VSockDeviceTask => initVSockDevice
  | ExtKernelTask => initExtKernel
  | InitTask => init s
  end.

(** A monitor that does not answer means that the machine is not running. *)
Definition not_running (vmname : string) {A} : call A → call A :=
  map_err (λ e, match e with SocketNotAvailable | SocketClosed => ErrNotRunning vmname | e => e end).

(** The object before it is filled; the startup configuration and the version are
    set before they are read. *)
Definition fresh (vmname : string) (uid : Z) (w : surroundings) : t :=
  {| props := InstanceProperties.zero vmname uid;
     startupConf := InstanceConf.newInstanceConf vmname; pid := 0;
     qemuVer := Version.MustParse (Version.AInt 0); scsiBuses := ∅; pciDevs := []; blkDevs := [];
     world := w |}.

(** [GetInstanceQemu] on a machine that has a monitor, from a fresh object. *)
Definition inspect (s : schedule) (users : string → sys string) (vmname : string) : call () :=
  uid ← lift (ConfJson.lookup_uid users vmname);
  modify (λ r, fresh vmname uid (world r));;
  not_running vmname initMachine;;
  r ← get;
  match ConfJson.GetStartupConf (texts (chroot (world r))) vmname with
  | Ret c => modify (set_startupConf c)
  | Throw _ => throw (ErrMsg "unable to load startup config")
  | Panic p => lift (Panic p)
  end;;
  r ← get;
  fail_if (negb (bool_decide (MachineType.Chipset (InstanceProperties.MachineTypeGet (props r))
                              = QEMU_CHIPSET_I440FX)))
    (ErrMsg ("unsupported machine type: " +:+ InstanceProperties.MachineType_ (props r)));;
  not_running vmname (group (view_init s <$> view_order s) None).

Definition GetInstanceQemu (s : schedule) (users : string → sys string) (vmname : string)
    (mon : option t) : outcome t :=
  let vmname := Strings.TrimSpace vmname in
  if bool_decide (vmname = "") then Throw (ErrMsg "empty machine name")
  else match mon with
       | None => Throw (ErrNotRunning vmname)
       | Some p => match inspect s users vmname p with
                   | (Ret _, r) => Ret r
                   | (Throw e, _) => Throw e
                   | (Panic q, _) => Panic q
                   end
       end.
End instance.
End InstanceQemu.
