(* ===== verification/InstanceQemuFacts.v ===== *)
(** InstanceQemuFacts: what the calls of a running machine guarantee: what they
    never change, what is left when they fail, in QEMU, in the chroot and on the
    host, and where that is not what is meant. *)

#[local] Set Warnings "-register-all".

From S2P Require Import Prelude.
From S2P Require Import GoStd.
From S2P Require Import GoFacts.
From S2P Require Import Version.
From S2P Require Import Pool.
From S2P Require Import PciAddress.
From S2P Require Import Backend.
From S2P Require Import PciDevice.
From S2P Require Import Resources.
From S2P Require Import Drivers.
From S2P Require Import Disks.
From S2P Require Import Cdroms.
From S2P Require Import NetIfaces.
From S2P Require Import HostDevices.
From S2P Require Import Peripherals.
From S2P Require Import Json.
From S2P Require Import InstanceProperties.
From S2P Require Import InstanceConf.
From S2P Require Import ConfInvariant.
From S2P Require Import ConfJson.
From S2P Require Import Monitor.
From S2P Require Import InstanceQemu.

Open Scope Z_scope.

Module QemuFacts.
Import InstanceQemu Monitor.QemuTypes.

(** ** Rules *)

Section rules.
Context {S : Type}.
Lemma on_failure_Ret {A} h (m : op S A) s a s' : on_failure h m s = (Ret a, s') → m s = (Ret a, s').
Proof. unfold on_failure. by destruct (m s) as [[] ?]. Qed.
Lemma preserves_try {A} (I : S → Prop) (m : op S A) : preserves I m → preserves I (try m).
Proof. intros Hm s Hs. specialize (Hm s Hs). unfold try. by destruct (m s) as [[] ?]. Qed.
Lemma preserves_on_failure {A} (I : S → Prop) h (m : op S A) :
  preserves I h → preserves I m → preserves I (on_failure h m).
Proof.
  intros Hh Hm s Hs. specialize (Hm s Hs). unfold on_failure.
  destruct (m s) as [[] ?]; simpl in *; [done|by apply Hh..].
Qed.
Lemma preserves_on_success {A} (I : S → Prop) h (m : op S A) :
  preserves I h → preserves I m → preserves I (on_success h m).
Proof.
  intros Hh Hm s Hs. specialize (Hm s Hs). unfold on_success.
  destruct (m s) as [[] ?]; simpl in *; [by apply Hh|done..].
Qed.
End rules.

Section facts.
Context `{Env} {hst : Host} `{Outside}.
Abbreviation call := (op t).

(** ** A predicate of the view, or of the surroundings *)
Section kept.
Context {X : Type} (f : t → X) (I : X → Prop).
Definition kept {A} (m : call A) : Prop := preserves (λ r, I (f r)) m.

Lemma kept_bind {A B} (m : call A) (k : A → call B) :
  kept m → (∀ a, kept (k a)) → kept (m ≫= k).
Proof. apply preserves_bind. Qed.
Lemma kept_lift {A} (o : outcome A) : kept (lift o).
Proof. apply preserves_lift. Qed.
Lemma kept_get : kept get.
Proof. apply preserves_get. Qed.
Lemma kept_throw {A} e : kept (throw e : call A).
Proof. apply preserves_throw. Qed.
Lemma kept_ret {A} (a : A) : kept (mret a).
Proof. apply preserves_ret. Qed.
Lemma kept_fail_if c e : kept (fail_if c e).
Proof. apply preserves_fail_if. Qed.
Lemma kept_map_err {A} g (m : call A) : kept m → kept (map_err g m).
Proof. apply preserves_map_err. Qed.
Lemma kept_try {A} (m : call A) : kept m → kept (try m).
Proof. apply preserves_try. Qed.
Lemma kept_on_failure {A} h (m : call A) : kept h → kept m → kept (on_failure h m).
Proof. apply preserves_on_failure. Qed.
Lemma kept_on_success {A} h (m : call A) : kept h → kept m → kept (on_success h m).
Proof. apply preserves_on_success. Qed.
Lemma kept_drive_dels name devs : (∀ c, kept (mon_Run c)) → kept (drive_dels name devs).
Proof.
  intros Hc. induction devs as [|dev devs IH]; simpl; [apply kept_ret|]. apply kept_bind; [|done].
  case_bool_decide; [|apply kept_ret]. apply kept_bind; [|intros ?; apply kept_ret].
  apply kept_map_err, Hc.
Qed.
End kept.

Lemma kept_outside I {A} (m : op surroundings A) : kept props I (outside m).
Proof. intros r Hr. unfold outside, zoom. by destruct (m (world r)). Qed.
Lemma kept_on_props I m : preserves I m → kept props I (on_props m).
Proof.
  intros Hm r Hr. specialize (Hm (props r) Hr). unfold on_props, zoom. by destruct (m (props r)).
Qed.
Lemma kept_set I f : (∀ p, I p → I (f p)) → kept props I (set f).
Proof. intros Hf. by apply kept_on_props, preserves_modify. Qed.

Lemma world_outside I {A} (m : op surroundings A) : preserves I m → kept world I (outside m).
Proof.
  intros Hm r Hr. specialize (Hm (world r) Hr). unfold outside, zoom. by destruct (m (world r)).
Qed.
Lemma world_on_props I m : kept world I (on_props m).
Proof. intros r Hr. unfold on_props, zoom. by destruct (m (props r)). Qed.

End facts.

(** The steps of an operation, down to its writes. *)
Ltac steps :=
  repeat lazymatch goal with
    | |- kept _ _ (mbind _ _) => apply kept_bind; [|intros ?]
    | |- kept _ _ (lift _) => apply kept_lift
    | |- kept _ _ get => apply kept_get
    | |- kept _ _ (throw _) => apply kept_throw
    | |- kept _ _ (mret _) => apply kept_ret
    | |- kept _ _ (fail_if _ _) => apply kept_fail_if
    | |- kept _ _ (map_err _ _) => apply kept_map_err
    | |- kept _ _ (flat _ _) => apply kept_map_err
    | |- kept _ _ (wait _ _ _) => apply kept_map_err
    | |- kept _ _ (try _) => apply kept_try
    | |- kept _ _ (on_failure _ _) => apply kept_on_failure
    | |- kept _ _ (on_success _ _) => apply kept_on_success
    | |- kept props _ (outside _) => apply kept_outside
    | |- kept props _ (mon_Run _) => apply kept_outside
    | |- kept world _ (on_props _) => apply world_on_props
    | |- kept world _ (set _) => apply world_on_props
    | |- kept _ _ (open_tray _ _) => unfold open_tray
    | |- kept _ _ (in_chroot _) => unfold in_chroot, the_name
    | |- kept _ _ (iface_conf _) => unfold iface_conf, the_name
    | |- kept _ _ cpu_actual => unfold cpu_actual
    | |- kept _ _ (map_device _ _) => unfold map_device
    | |- kept _ _ (unmap_device _ _) => unfold unmap_device
    | |- kept _ _ (ensure_bus _) => unfold ensure_bus
    | |- kept _ _ (attach_disk _ _) => unfold attach_disk
    | |- kept _ _ (install_media _ _ _) => unfold install_media
    | |- kept _ _ (change_cidata _ _) => unfold change_cidata
    | |- kept _ _ (drive_dels _ _) => apply kept_drive_dels; intros ?
    | |- kept _ _ (match ?x with _ => _ end) => destruct x
    end.

Section fixed.
Context `{Env} {hst : Host} `{Outside}.
Abbreviation call := (op t).

Lemma kept_unplug I value cpus : kept props I (set_cpu_actual Z.pred) → kept props I (unplug value cpus).
Proof. intros Hc. induction cpus as [|cpu cpus IH]; simpl; steps; [done..]. Qed.
Lemma kept_plug I ty value cpus : kept props I (set_cpu_actual Z.succ) → kept props I (plug ty value cpus).
Proof. intros Hc. induction cpus as [|cpu cpus IH]; simpl; steps; [done..]. Qed.

(** What a running machine cannot change. *)
Definition fixed (p : InstanceProperties.t) :=
  (InstanceProperties.name p, InstanceProperties.uid p, InstanceProperties.MachineType_ p,
   InstanceProperties.Firmware_ p, Memory.Total (InstanceProperties.Memory_ p),
   (VirtCPU.Total (InstanceProperties.CPU p), VirtCPU.Sockets (InstanceProperties.CPU p),
    VirtCPU.Model (InstanceProperties.CPU p)),
   InstanceProperties.InputDevices p, InstanceProperties.Kernel p, InstanceProperties.HostDevices p).

Ltac writes :=
  first
    [ apply kept_set; by intros []
    | apply kept_on_props;
      try (apply (preserves_zoom _ _ _ (λ _, True)); [done|done|by intros []]);
      apply preserves_modify; by intros [] ].

Lemma MemorySetActual_fixed value v : preserves (λ p, fixed p = v) (InstanceConf.MemorySetActual value).
Proof.
  intros p <-. unfold InstanceConf.MemorySetActual, Memory.SetActual. go_unfold. destruct p.
  by repeat case_match; simplify_eq/=.
Qed.
Lemma CPUSetQuota_fixed value v : preserves (λ p, fixed p = v) (InstanceConf.CPUSetQuota value).
Proof.
  intros p <-. unfold InstanceConf.CPUSetQuota, VirtCPU.SetQuota. go_unfold. destruct p.
  by repeat case_match; simplify_eq/=.
Qed.

(** no call changes what is fixed at the start of a machine: its name and
    user, machine type, firmware, kernel, total memory, vCPU topology and model,
    input devices and host devices. *)
Theorem exec_fixed o rnd r : fixed (props (InstanceQemu.exec o rnd r).2) = fixed (props r).
Proof.
  enough (∀ v, kept props (λ p, fixed p = v) (InstanceQemu.exec o rnd)) as Hk by by apply Hk.
  intros v. destruct o; simpl; unfold InstanceQemu.MemorySetActual, InstanceQemu.CPUSetActual,
    InstanceQemu.CPUSetQuota, InstanceQemu.CdromRemoveMedia,
    InstanceQemu.CdromAppend, InstanceQemu.CdromRemove, InstanceQemu.DiskAppend, InstanceQemu.DiskRemove,
    InstanceQemu.DiskSetReadIops, InstanceQemu.DiskSetWriteIops, InstanceQemu.DiskRemoveQemuBitmap,
    InstanceQemu.DiskResizeQemuBlockdev, InstanceQemu.NetIfaceAppend, InstanceQemu.NetIfaceRemove,
    InstanceQemu.NetIfaceSetLinkUp, InstanceQemu.NetIfaceSetLinkDown, InstanceQemu.VSockDeviceAppend,
    InstanceQemu.VSockDeviceRemove, InstanceQemu.CloudInitSetMedia, InstanceQemu.VNCSetPassword,
    set_iops, set_carrier; unfold InstanceQemu.CdromChangeMedia; cbv zeta; steps.
  all: try writes.
  - by apply kept_on_props, MemorySetActual_fixed.
  - by apply kept_unplug; writes.
  - by apply kept_plug; writes.
  - by apply kept_on_props, CPUSetQuota_fixed.
Qed.
(** ** Failed calls *)

(** [still m]: [m] does not touch the view.  [undone m]: nor does it when it
    fails. *)
Definition still {A} (m : call A) : Prop := ∀ v, kept props (λ p, p = v) m.
Definition undone {A} (m : call A) : Prop := ∀ r e, (m r).1 = Throw e → props (m r).2 = props r.

Lemma still_run {A} (m : call A) r : still m → props (m r).2 = props r.
Proof. intros Hm. by apply Hm. Qed.
Lemma still_undone {A} (m : call A) : still m → undone m.
Proof. intros Hm r e _. by apply still_run. Qed.
Lemma undone_bind {A B} (m : call A) (k : A → call B) :
  still m → (∀ a, undone (k a)) → undone (m ≫= k).
Proof.
  intros Hm Hk r e. specialize (still_run m r Hm). go_unfold.
  destruct (m r) as [[a|e'|q] r']; simpl; intros <-; [apply Hk|done..].
Qed.
Lemma undone_try {A} (m : call A) : undone (try m).
Proof. intros r e. unfold try. by destruct (m r) as [[] ?]. Qed.
(** Nothing after the last write can fail. *)
Lemma undone_bind_total {A B} (m : call A) (k : A → call B) :
  undone m → (∀ a r e, (k a r).1 ≠ Throw e) → undone (m ≫= k).
Proof.
  intros Hm Hk r e. specialize (Hm r). go_unfold. destruct (m r) as [[a|e'|q] r']; simpl in *.
  - intros He. by apply Hk in He.
  - intros [= ->]. by apply (Hm e).
  - done.
Qed.
Lemma undone_map_err {A} f (m : call A) : undone m → undone (map_err f m).
Proof.
  intros Hm r e. specialize (Hm r). unfold map_err. destruct (m r) as [[a|e'|q] r']; simpl in *;
    [done| |done]. intros _. by apply (Hm e').
Qed.
Lemma undone_on_failure {A} h (m : call A) : still h → undone m → undone (on_failure h m).
Proof.
  intros Hh Hm r e. specialize (Hm r). unfold on_failure. destruct (m r) as [[a|e'|q] r']; simpl in *;
    [done| |done]. intros _. rewrite still_run by done. by apply (Hm e').
Qed.
Lemma undone_on_success {A} h (m : call A) : undone m → undone (on_success h m).
Proof.
  intros Hm r e. specialize (Hm r). unfold on_success. destruct (m r) as [[a|e'|q] r']; simpl in *.
  - by destruct (h r').1.
  - intros _. by apply (Hm e').
  - done.
Qed.
Lemma undone_on_props m : atomic m → undone (on_props m).
Proof.
  intros Hm r e. specialize (Hm (props r)). unfold on_props, zoom.
  destruct (m (props r)) as [[] p]; simpl in *; [done|intros _; by apply Hm|done].
Qed.

End fixed.

Ltac still_steps := intros ?; steps.
Ltac undo :=
  repeat first
    [ apply still_undone; solve [still_steps]
    | apply undone_try
    | apply undone_on_success
    | apply undone_on_failure; [solve [still_steps]|]
    | apply undone_map_err
    | apply undone_on_props
    | apply undone_bind; [solve [still_steps]|intros ?]
    | match goal with |- undone (match ?x with _ => _ end) => destruct x end ].

Section undone.
Context `{Env} {hst : Host} `{Outside}.
Abbreviation call := (op t).

(** The shape of the calls that put a value back: [defer] on the way out. *)
Lemma undone_restore (f : t → InstanceProperties.t → InstanceProperties.t) (m : t → call ()) :
  (∀ r, f r (props r) = props r) → (∀ r, kept props (λ p, f r p = props r) (m r)) →
  undone (r ← get; on_failure (set (f r)) (m r)).
Proof.
  intros Hf Hm r e. specialize (Hm r r (Hf r)). go_unfold. unfold on_failure.
  destruct (m r r) as [[] r']; simpl in *; [done|intros _|done]. done.
Qed.
(** A device goes to the pool in the last step. *)
Lemma undone_appended {A} (m : call A) : undone (_ ← try m; mret ()).
Proof. by apply undone_bind_total; [apply undone_try|]. Qed.
Lemma undone_attach_disk d be : undone (attach_disk d be).
Proof. unfold attach_disk. undo. apply undone_appended. Qed.

(** The calls that can fail after they changed the view: one command per vCPU
    may have been taken, a cdrom may be there without its medium, an interface
    may be gone before its tap device. *)
Definition partial (o : conf_op) : bool :=
  match o with
  | ConfInvariant.CPUSetActual _ | ConfInvariant.CdromAppend _ | ConfInvariant.CdromChangeMedia _ _
  | ConfInvariant.NetIfaceRemove _ => true
  | _ => false
  end.

(** C15: the other calls leave the view as it was when they fail, wherever QEMU or
    the host refuses to go on. *)
Theorem exec_undone o rnd r e :
  partial o = false → (InstanceQemu.exec o rnd r).1 = Throw e →
  props (InstanceQemu.exec o rnd r).2 = props r.
Proof.
  intros Ho. enough (undone (InstanceQemu.exec o rnd)) as Hk by apply Hk.
  destruct o; try done; simpl; try (apply still_undone; solve [still_steps]).
  1: { apply undone_restore; [by intros r0; destruct (props r0) as [????[]]|].
       intros r0. steps. apply kept_on_props. intros p <-.
       unfold InstanceConf.MemorySetActual, Memory.SetActual. go_unfold.
       destruct p as [????[]]. by repeat case_match; simplify_eq/=. }
  1: { apply undone_restore; [by intros r0; destruct (props r0) as [?????[]]|].
       intros r0. steps. apply kept_on_props. intros p <-.
       unfold InstanceConf.CPUSetQuota, VirtCPU.SetQuota. go_unfold.
       destruct p as [?????[]]. by repeat case_match; simplify_eq/=. }
  all:
    unfold InstanceQemu.CdromRemoveMedia, InstanceQemu.CdromRemove, InstanceQemu.DiskAppend, InstanceQemu.DiskRemove, InstanceQemu.DiskSetReadIops, InstanceQemu.DiskSetWriteIops,
    InstanceQemu.DiskRemoveQemuBitmap, InstanceQemu.DiskResizeQemuBlockdev,
    InstanceQemu.NetIfaceAppend, InstanceQemu.NetIfaceSetLinkUp, InstanceQemu.NetIfaceSetLinkDown,
    InstanceQemu.VSockDeviceAppend, InstanceQemu.VSockDeviceRemove, InstanceQemu.CloudInitSetMedia,
    InstanceQemu.VNCSetPassword, set_iops, set_carrier; cbv zeta; undo.
  all: try apply undone_appended.
  all: try (apply atomic_zoom; [|by intros []]).
  all: first [ apply PoolFacts.atomic_Remove | apply DiskFacts.disk_atomic_Remove | apply atomic_modify ].
Qed.
(** ** The chroot *)

(** The nodes of the chroot and the tap devices. *)
Definition kit (w : surroundings) : gmap string node * gset string := (chroot w, taps w).

Lemma preserves_ask (J : gmap string node * gset string → Prop) a : preserves (λ w, J (kit w)) (ask a).
Proof. by intros w Hw. Qed.
Lemma world_ask J a : kept world (λ w, J (kit w)) (outside (ask a)).
Proof. apply world_outside, preserves_ask. Qed.
Lemma world_run J c : kept world (λ w, J (kit w)) (mon_Run c).
Proof. apply world_ask. Qed.
Lemma world_try_ask J a : kept world (λ w, J (kit w)) (outside (try (ask a))).
Proof. apply world_outside, preserves_try, preserves_ask. Qed.

End undone.

Ltac world_steps :=
  steps; try first [apply world_ask | apply world_run | apply world_try_ask].

Section nodes.
Context `{Env} {hst : Host} `{Outside}.
Abbreviation call := (op t).

(** The node at [path] may be the only difference. *)
Definition beside (nodes : gmap string node) (path : string) (k : gmap string node * gset string) : Prop :=
  delete path k.1 = delete path nodes.

Lemma preserves_mknod nodes path rdev : preserves (λ w, beside nodes path (kit w)) (mknod path rdev).
Proof.
  intros [c tt tr] Hc. unfold beside in *. cbn in *. unfold mknod. go_unfold.
  case_bool_decide; [done|]. unfold ask, Backend.call. cbn. destruct (answer tr (Mknod path rdev)) as [u|e]; [|done].
  cbn. by rewrite delete_insert_eq.
Qed.

Lemma kept_map_device nodes path chrootDevPath :
  kept world (λ w, beside nodes chrootDevPath (kit w)) (map_device path chrootDevPath).
Proof. unfold map_device. world_steps. by apply world_outside, preserves_mknod. Qed.

Lemma kept_attach_disk J d be : kept world (λ w, J (kit w)) (attach_disk d be).
Proof. unfold attach_disk, ensure_bus. world_steps. Qed.

(** Removing the node again: it is gone, or the host has refused. *)
Definition node_gone (path : string) (w : surroundings) : Prop :=
  chroot w !! path = None ∨
  ∃ l e, trace w = l ++ [RemoveFile path] ∧ answer l (RemoveFile path) = inr e.
Lemma remove_beside nodes path w :
  beside nodes path (kit w) → beside nodes path (kit (remove path w).2) ∧ node_gone path (remove path w).2.
Proof.
  destruct w as [c tt tr]. unfold beside, node_gone, remove. go_unfold. cbn. intros Hc.
  case_bool_decide; [by split; [|left]|]. unfold ask, Backend.call. cbn.
  destruct (answer tr (RemoveFile path)) as [[]|e] eqn:E; cbn.
  - split; [by rewrite delete_delete_eq|]. left. by rewrite lookup_delete_eq.
  - split; [done|]. right. by exists tr, e.
Qed.

(** A file under the machine's chroot. *)
Abbreviation chroot_path r p :=
  (Filepath.Join [InstanceConf.CHROOTDIR; InstanceProperties.name (props r); p]).

Lemma in_chroot_run p r : in_chroot p r = (Ret (chroot_path r p), r).
Proof. reflexivity. Qed.

(** The work between a node's creation and the end of the call leaves nothing
    behind when it fails. *)
Lemma cleanup_failed {A} (m : call A) path r res r' :
  (∀ nodes, kept world (λ w, beside nodes path (kit w)) m) →
  on_failure (_ ← outside (try (remove path)); mret ()) m r = (res, r') → is_ret res = false →
  delete path (chroot (world r')) = delete path (chroot (world r)) ∧ node_gone path (world r').
Proof.
  intros Hm. specialize (Hm (chroot (world r)) r eq_refl).
  assert (∀ r0, beside (chroot (world r)) path (kit (world r0)) →
    let w := world ((_ ← outside (try (remove path)); mret ()) r0).2 in
    beside (chroot (world r)) path (kit w) ∧ node_gone path w) as Hrm.
  { intros r0 H0'%remove_beside. revert H0'. unfold outside, zoom, try. go_unfold. by destruct (remove path (world r0)) as [[] w]. }
  unfold on_failure. destruct (m r) as [[a|e|q] r1]; simpl in *; intros [= <- <-] Hres; [done|..]; by apply Hrm.
Qed.

Lemma map_device_Ret path p r u r' :
  map_device path p r = (Ret u, r') →
  ∃ rdev, chroot (world r') = <[p := DeviceNode rdev]> (chroot (world r)) ∧ props r' = props r.
Proof.
  intros Hr. assert (props r' = props r) as Hp.
  { change r' with (Ret u, r').2. rewrite <- Hr. apply still_run. unfold map_device. still_steps. }
  unfold map_device in Hr. apply op_bind_Ret in Hr as (r0 & r1 & [= -> ->] & Hr).
  apply op_bind_Ret in Hr as (rdev & r2 & H2' & Hr).
  apply op_bind_Ret in Hr as (u3 & r3 & H3' & Hr).
  apply op_bind_Ret in Hr as (u4 & r4 & H4' & H5').
  exists rdev. split; [|done]. apply map_err_Ret in H4'.
  assert (∀ a x, chroot (world (outside (ask a) x).2) = chroot (world x)) as Hask by done.
  pose proof (Hask (StatRdev path) r1) as H2''. rewrite H2' in H2''.
  epose proof (Hask _ r4) as H5''. rewrite H5' in H5''. simpl in H2'', H5''.
  assert (chroot (world r3) = chroot (world r2)) as H3''
    by (revert H3'; unfold outside, zoom, try, ask; simpl; by destruct (Backend.call _); intros [= _ <-]).
  rewrite H5'', <- H2'', <- H3''. revert H4'. unfold outside, zoom, mknod. go_unfold.
  case_bool_decide; [by intros [=]|]. unfold ask. destruct (Backend.call _) as [[]| |]; [|by intros [=]..].
  by intros [= _ <-].
Qed.

Lemma attach_disk_Ret d be r u r' :
  attach_disk d be r = (Ret u, r') →
  chroot (world r') = chroot (world r) ∧
  props r' = InstanceProperties.set_Disks (DiskPool.Append d (InstanceProperties.Disks (props r))).2 (props r).
Proof.
  intros Hr. split.
  { change r' with (Ret u, r').2. rewrite <- Hr.
    by apply (kept_attach_disk (λ k, k.1 = chroot (world r))). }
  unfold attach_disk in Hr. apply op_bind_Ret in Hr as (bus & r1 & H1' & Hr).
  apply op_bind_Ret in Hr as (u2 & r2 & H2' & Hr). apply op_bind_Ret in Hr as (u3 & r3 & H3' & Hr).
  assert (props r3 = props r) as Hp.
  { transitivity (props r2); [|transitivity (props r1)].
    - change r3 with (Ret u3, r3).2. rewrite <- H3'. apply still_run. still_steps.
    - change r2 with (Ret u2, r2).2. rewrite <- H2'. apply still_run. still_steps.
    - change r1 with (Ret bus, r1).2. rewrite <- H1'. apply still_run. still_steps. }
  revert Hr. unfold try, on_props, zoom. go_unfold. rewrite <- Hp.
  by destruct (DiskPool.Append d _) as [[] p]; intros [= _ <-].
Qed.

Lemma available_disk_Ret path be be' :
  available_disk path = Ret be → NewDiskBackend path = Ret be' → be = be'.
Proof.
  unfold available_disk. intros Ha Hb. rewrite Hb in Ha. simpl in Ha.
  by repeat (case_match; simplify_eq/=).
Qed.

Lemma no_panic_on_failure {A} h (m : call A) : no_panic m → no_panic (on_failure h m).
Proof. intros Hm r q. specialize (Hm r q). unfold on_failure. by destruct (m r) as [[] ?]. Qed.
Lemma no_panic_ask a : no_panic (outside (ask a)).
Proof. intros r q. unfold outside, zoom, ask, Backend.call. simpl. by destruct (answer _ a). Qed.
Lemma no_panic_try {A} (m : call A) : no_panic m → no_panic (try m).
Proof. intros Hm r q. specialize (Hm r q). unfold try. destruct (m r) as [[] ?]; simpl in *; congruence. Qed.

Lemma no_panic_mknod p d : no_panic (mknod p d).
Proof.
  intros w q. unfold mknod. go_unfold. case_bool_decide; [done|]. unfold ask, Backend.call. simpl.
  by destruct (answer _ _).
Qed.
Lemma no_panic_mapped path p d be : no_panic (map_device path p;; attach_disk d be).
Proof.
  apply no_panic_bind; [|intros _]; unfold map_device, attach_disk, ensure_bus;
  repeat lazymatch goal with
    | |- no_panic (mbind _ _) => apply no_panic_bind; [|intros ?]
    | |- no_panic (mret _) => apply no_panic_ret
    | |- no_panic get => apply no_panic_get
    | |- no_panic (map_err _ _) => apply no_panic_map_err
    | |- no_panic (flat _ _) => apply no_panic_map_err
    | |- no_panic (mon_Run _) => apply no_panic_ask
    | |- no_panic (outside (ask _)) => apply no_panic_ask
    | |- no_panic (match ?x with _ => _ end) => destruct x
    end.
  all: first
    [ apply no_panic_ask
    | apply no_panic_zoom, no_panic_mknod
    | intros r q; unfold outside, zoom, try, ask, Backend.call; simpl; by destruct (answer _ _)
    | apply no_panic_try, no_panic_zoom, no_panic_zoom; intros pool q;
      unfold DiskPool.Append, Pool.Append; go_unfold; by repeat case_match ].
Qed.

(** C16: attaching a block device to a running machine.  On success the device's
    node is in the machine's chroot and the disk is in its list; a failure, of
    the host or of QEMU, at any point leaves the list as it was and all other
    nodes, and no node of the device, unless it failed before it made one or the
    host refused to remove it again.  It never panics. *)
Theorem DiskAppend_outcome opts o dev r :
  Disk.Validate true opts = Ret o → NewDiskBackend (Disk.Path o) = Ret (BlockDevice dev) →
  let path := chroot_path r (Disk.Path o) in
  match InstanceQemu.DiskAppend opts r with
  | (Ret _, r') =>
      (∃ rdev, chroot (world r') = <[path := DeviceNode rdev]> (chroot (world r))) ∧
      props r' = InstanceProperties.set_Disks
        (DiskPool.Append (Disk.make o (DriverTypeValue (Disk.Driver o)) (Some (BlockDevice dev)))
           (InstanceProperties.Disks (props r))).2 (props r)
  | (Throw _, r') =>
      props r' = props r ∧ delete path (chroot (world r')) = delete path (chroot (world r)) ∧
      (chroot (world r') = chroot (world r) ∨ node_gone path (world r'))
  | (Panic _, _) => False
  end.
Proof.
  intros Hv Hb path.
  destruct (InstanceQemu.DiskAppend opts r) as [res r'] eqn:Hr. revert Hr.
  unfold InstanceQemu.DiskAppend. rewrite (op_bind_run _ _ r o r) by (unfold lift; by rewrite Hv).
  set (d := Disk.make _ _ _). set (guard := negb _).
  destruct guard; [(intros [= <- <-]; by auto)|]. rewrite (op_bind_run _ _ r () r) by done.
  destruct (available_disk (Disk.Path o)) as [be|e|q] eqn:Hav.
  2: (intros [= <- <-]; by auto).
  2: { intros [= <- <-]. revert Hav. unfold available_disk. rewrite Hb. simpl.
       change (IsAvailable (BlockDevice dev)) with (Block.device_IsAvailable dev).
       unfold Block.device_IsAvailable. intros Hav. by repeat (case_match; simplify_eq/=). }
  rewrite (op_bind_run _ _ r be r) by done.
  assert (be = BlockDevice dev) as -> by (eapply available_disk_Ret; [exact Hav|done]).
  rewrite (op_bind_run get _ r r r) by done.
  destruct (DiskPool.Exists _ _); [(intros [= <- <-]; by auto)|]. rewrite (op_bind_run _ _ r () r) by done.
  cbn [is_block]. rewrite (op_bind_run _ _ _ _ _ (in_chroot_run _ r)). fold path.
  intros Hr. destruct res as [[]|e|q].
  1: { apply on_failure_Ret, op_bind_Ret in Hr as (u & r1 & H1' & H2').
       destruct (map_device_Ret _ _ _ _ _ H1') as (rdev & Hc & Hp).
       destruct (attach_disk_Ret _ _ _ _ _ H2') as (Hc' & Hp').
       rewrite Hc', Hp', Hp, Hc. split; [by exists rdev|done]. }
  - split.
    { change r' with (Throw (A := ()) e, r').2. rewrite <- Hr.
      eapply (undone_on_failure _ (map_device _ _;; attach_disk _ _)); [still_steps| |by rewrite Hr].
      apply undone_bind; [still_steps|intros ?; apply undone_attach_disk]. }
    apply cleanup_failed in Hr as [Hd Hg]; [by auto| |done].
    intros nodes. apply kept_bind; [apply kept_map_device|intros ?; apply kept_attach_disk].
  - apply (f_equal fst) in Hr. revert Hr. simpl.
    apply no_panic_on_failure, no_panic_mapped.
Qed.
End nodes.
End QemuFacts.
