(* ===== verification/InstanceQemuTheorems.v ===== *)
(** InstanceQemuTheorems: hot-plugging of vCPUs, what goes wrong with device
    nodes and tap devices, the race between the readers of the cdroms and of
    the disks; and the theorems of [InstanceQemuFacts] on a sample machine. *)

#[local] Set Warnings "-register-all".

From S2P Require Import Prelude.
From S2P Require Import GoStd.
From S2P Require Import GoFacts.
From S2P Require Import Version.
From S2P Require Import Pool.
From S2P Require Import PciAddress.
From S2P Require Import Backend.
From S2P Require Import PciDevice.
From S2P Require Import Resources.
From S2P Require Import Drivers.
From S2P Require Import Disks.
From S2P Require Import Cdroms.
From S2P Require Import NetIfaces.
From S2P Require Import HostDevices.
From S2P Require Import Peripherals.
From S2P Require Import Json.
From S2P Require Import InstanceProperties.
From S2P Require Import InstanceConf.
From S2P Require Import ConfInvariant.
From S2P Require Import ConfTheorems.
From S2P Require Import ConfJson.
From S2P Require Import ConfJsonFacts.
From S2P Require Import Monitor.
From S2P Require Import InstanceQemu.
From S2P Require Import InstanceQemuFacts.

Open Scope Z_scope.

Module QemuTheorems.
Import Sort InstanceQemu QemuFacts Monitor.QemuTypes.

Section theorems.
Context `{Env} {hst : Host} `{Outside}.
Abbreviation call := (op t).
Abbreviation chroot_path r p :=
  (Filepath.Join [InstanceConf.CHROOTDIR; InstanceProperties.name (props r); p]).

(** ** Hot-plugging vCPUs *)

Abbreviation actual r := (VirtCPU.Actual (InstanceProperties.CPU (props r))).
Definition plugged (cpu : HotpluggableCPU) : bool := negb (bool_decide (QomPath cpu = "")).

(** The number of CPUs [l] has that satisfy [f]. *)
Definition count (f : HotpluggableCPU → bool) (l : list HotpluggableCPU) : Z :=
  Z.of_nat (length (List.filter f l)).
Lemma count_nonneg f l : 0 ≤ count f l.
Proof. unfold count. lia. Qed.
Lemma count_cons f x l : count f (x :: l) = (if f x then 1 else 0) + count f l.
Proof. unfold count. simpl. destruct (f x); simpl; lia. Qed.
Lemma count_app f l k : count f (l ++ k) = count f l + count f k.
Proof. induction l as [|x l IH]; [done|]. rewrite <- app_comm_cons, !count_cons. lia. Qed.
Lemma count_rev f l : count f (rev l) = count f l.
Proof.
  induction l as [|x l IH]; [done|]. simpl. rewrite count_app, count_cons, IH, count_cons.
  unfold count at 2. simpl. lia.
Qed.
Lemma count_insert f less x l : count f (insert_by less x l) = (if f x then 1 else 0) + count f l.
Proof.
  induction l as [|y l IH]; simpl; [by rewrite count_cons|].
  destruct (less x y); rewrite !count_cons; [done|]. rewrite IH. lia.
Qed.
Lemma count_sort f less l : count f (SliceStable less l) = count f l.
Proof.
  unfold SliceStable. enough (∀ acc, count f (foldl (λ a x, insert_by less x a) acc l) =
    count f acc + count f l) as ->. { unfold count at 1. simpl. lia. }
  induction l as [|x l IH]; intros acc; simpl; [unfold count at 3; simpl; lia|].
  rewrite IH, count_insert, count_cons. lia.
Qed.

(** How many commands a loop has sent: all were taken, or the last was not. *)
Definition sent (r r' : t) : Z := Z.of_nat (length (trace (world r'))) - Z.of_nat (length (trace (world r))).

Lemma mon_Run_run c r :
  mon_Run c r = (Backend.call (answer (trace (world r)) (Run c)),
    set_world {| chroot := chroot (world r); taps := taps (world r); trace := trace (world r) ++ [Run c] |} r).
Proof. reflexivity. Qed.

Lemma sent_run c r : sent r (mon_Run c r).2 = 1.
Proof. unfold sent. rewrite mon_Run_run. simpl. rewrite length_app. simpl. lia. Qed.

Lemma set_cpu_actual_run g r :
  ∃ r', set_cpu_actual g r = (Ret (), r') ∧ actual r' = g (actual r) ∧ world r' = world r.
Proof. eexists. split; [reflexivity|]. done. Qed.

Lemma plug_run ty value cpus r res r' :
  actual r ≤ value → plug ty value cpus r = (res, r') →
  actual r ≤ actual r' ∧
  match res with
  | Ret _ => actual r' = Z.min value (actual r + count (λ c, negb (plugged c)) cpus) ∧
             sent r r' = actual r' - actual r
  | Throw _ => actual r' < value ∧ sent r r' = actual r' - actual r + 1
  | Panic _ => False
  end.
Proof.
  revert r res r'. induction cpus as [|cpu cpus IH]; intros r res r' Hv; cbn [plug].
  { intros [= <- <-]. unfold count, sent. simpl. lia. }
  rewrite count_cons. unfold plugged at 1. rewrite negb_involutive.
  case_bool_decide as Hq; cbn [negb]; cbv iota.
  2: { intros Hr. by apply IH. }
  rewrite (op_bind_run cpu_actual _ r (actual r) r) by done.
  pose proof (count_nonneg (λ c, negb (plugged c)) cpus) as Hc.
  destruct (Z.eqb_spec (actual r) value) as [Heq|Hne].
  { intros [= <- <-]. unfold sent. lia. }
  set (c := device_add _). destruct (mon_Run c r) as [a r1] eqn:H1'.
  pose proof (sent_run c r) as Hs. rewrite H1' in Hs. simpl in Hs.
  assert (actual r1 = actual r) as Ha1 by (by rewrite mon_Run_run in H1'; injection H1' as _ <-).
  destruct a as [[]|e|q].
  - rewrite (op_bind_run _ _ _ _ _ H1').
    destruct (set_cpu_actual_run Z.succ r1) as (r2 & H2' & Ha2 & Hw).
    rewrite (op_bind_run _ _ _ _ _ H2'). intros Hr. apply IH in Hr; [|lia].
    unfold sent in *. rewrite Hw, Ha2, Ha1 in *. destruct res; lia.
  - unfold mbind at 1, op_bind at 1. rewrite H1'. intros [= <- <-]. unfold sent in *. lia.
  - rewrite mon_Run_run in H1'. injection H1' as H1' _. by destruct (answer _ _).
Qed.

Lemma unplug_run value cpus r res r' :
  value ≤ actual r → unplug value cpus r = (res, r') →
  actual r' ≤ actual r ∧
  match res with
  | Ret _ => actual r' = Z.max value (actual r - count plugged cpus) ∧
             sent r r' = actual r - actual r'
  | Throw _ => value < actual r' ∧ sent r r' = actual r - actual r' + 1
  | Panic _ => False
  end.
Proof.
  revert r res r'. induction cpus as [|cpu cpus IH]; intros r res r' Hv; cbn [unplug].
  { intros [= <- <-]. unfold count, sent. simpl. lia. }
  rewrite count_cons. unfold plugged at 1.
  case_bool_decide as Hq; cbn [negb]; cbv iota.
  { intros Hr. by apply IH. }
  rewrite (op_bind_run cpu_actual _ r (actual r) r) by done.
  pose proof (count_nonneg plugged cpus) as Hc.
  destruct (Z.eqb_spec (actual r) value) as [Heq|Hne].
  { intros [= <- <-]. unfold sent. lia. }
  set (c := device_del _). destruct (mon_Run c r) as [a r1] eqn:H1'.
  pose proof (sent_run c r) as Hs. rewrite H1' in Hs. simpl in Hs.
  assert (actual r1 = actual r) as Ha1 by (by rewrite mon_Run_run in H1'; injection H1' as _ <-).
  destruct a as [[]|e|q].
  - rewrite (op_bind_run _ _ _ _ _ H1').
    destruct (set_cpu_actual_run Z.pred r1) as (r2 & H2' & Ha2 & Hw).
    rewrite (op_bind_run _ _ _ _ _ H2'). intros Hr. apply IH in Hr; [|lia].
    unfold sent in *. rewrite Hw, Ha2, Ha1 in *. destruct res; lia.
  - unfold mbind at 1, op_bind at 1. rewrite H1'. intros [= <- <-]. unfold sent in *. lia.
  - rewrite mon_Run_run in H1'. injection H1' as H1' _. by destruct (answer _ _).
Qed.

Lemma count_both l : count plugged l + count (λ c, negb (plugged c)) l = Z.of_nat (length l).
Proof.
  induction l as [|x l IH]; [done|]. rewrite !count_cons. simpl length.
  destruct (plugged x); simpl; lia.
Qed.

(** changing the number of vCPUs of a running machine, when QEMU lists a slot
    for every vCPU of the machine and those in use are the ones counted: on
    success the count is exactly what was asked for, one command for each vCPU
    having been sent after the query; when a command is refused the count is
    still that of the commands that were taken. *)
Theorem CPUSetActual_outcome value cpus r :
  answer (trace (world r)) (Run query_hotpluggable_cpus) = inl cpus →
  count plugged cpus = actual r →
  VirtCPU.Total (InstanceProperties.CPU (props r)) ≤ Z.of_nat (length cpus) →
  match InstanceQemu.CPUSetActual value r with
  | (Ret _, r') =>
      1 ≤ value ≤ VirtCPU.Total (InstanceProperties.CPU (props r)) ∧ actual r' = value ∧
      sent r r' = 1 + Z.abs (value - actual r)
  | (Throw _, r') =>
      actual r' = actual r ∧ sent r r' ≤ 1 ∨
      Z.min value (actual r) ≤ actual r' ≤ Z.max value (actual r) ∧ actual r' ≠ value ∧
      sent r r' = 2 + Z.abs (actual r' - actual r)
  | (Panic _, _) => False
  end.
Proof.
  intros Ha Hc Ht. destruct (InstanceQemu.CPUSetActual value r) as [res r'] eqn:Hr. revert Hr.
  unfold InstanceQemu.CPUSetActual. assert (sent r r = 0) as H00 by (unfold sent; lia).
  destruct (Z.ltb_spec value 1) as [|Hv1]; [intros [= <- <-]; left; lia|].
  rewrite (op_bind_run _ _ r () r) by done. rewrite (op_bind_run get _ r r r) by done. cbv zeta.
  set (total := VirtCPU.Total _) in *.
  destruct (Z.ltb_spec total value) as [|Hv2]; [intros [= <- <-]; left; lia|].
  rewrite (op_bind_run _ _ r () r) by done.
  destruct (mon_Run query_hotpluggable_cpus r) as [a r1] eqn:H1'.
  pose proof (sent_run query_hotpluggable_cpus r) as Hs. rewrite H1' in Hs. simpl in Hs.
  rewrite mon_Run_run, Ha in H1'. injection H1' as <- Hr1.
  assert (actual r1 = actual r) as Ha1 by by subst r1.
  rewrite (op_bind_run _ _ r cpus r1) by (by rewrite mon_Run_run, Ha, Hr1).
  clear Hr1. pose proof (count_both cpus) as Hb.
  set (l := SliceStable less_cpu cpus).
  assert (count plugged l = count plugged cpus) as Hl1 by apply count_sort.
  assert (count (λ c, negb (plugged c)) l = count (λ c, negb (plugged c)) cpus) as Hl2 by apply count_sort.
  destruct l as [|first l'] eqn:El; [change (0 = count plugged cpus) in Hl1; change (0 = count (λ c, negb (plugged c)) cpus) in Hl2; lia|].
  rewrite (op_bind_run cpu_actual _ r1 (actual r1) r1) by done. rewrite <- El in *. clear El.
  destruct (Z.ltb_spec value (actual r1)) as [Hlt|Hge].
  - destruct (Version.Int (qemuVer r) <? 20700); [intros [= <- <-]; left; lia|].
    rewrite (op_bind_run _ _ r1 () r1) by done. intros Hr. apply unplug_run in Hr; [|lia].
    rewrite count_rev in Hr. unfold sent in *. destruct res; lia.
  - destruct (Z.ltb_spec (actual r1) value) as [Hlt|Hge'].
    + intros Hr. apply plug_run in Hr; [|lia]. unfold sent in *. destruct res; lia.
    + intros [= <- <-]. unfold sent in *. lia.
Qed.

(** ** Device nodes that were there before *)

Lemma ask_run a v w : answer (trace w) a = inl v →
  ask a w = (Ret v, {| chroot := chroot w; taps := taps w; trace := trace w ++ [a] |}).
Proof. intros Ha. unfold ask. by rewrite Ha. Qed.

(** The host answers every request on its files. *)
Definition obliging : Prop :=
  (∀ h p, ∃ rdev, answer h (StatRdev p) = inl rdev) ∧ (∀ h p, answer h (RemoveFile p) = inl ()).

Lemma remove_obliging path w :
  obliging → chroot (remove path w).2 = delete path (chroot w).
Proof.
  intros [_ Ha]. unfold remove. go_unfold. case_bool_decide as Hn; simpl.
  - by rewrite delete_id.
  - unfold ask, Backend.call. simpl. by rewrite Ha.
Qed.

Lemma mknod_exists path rdev n w : chroot w !! path = Some n → mknod path rdev w = (Throw (ErrExist path), w).
Proof. intros Hn. unfold mknod. go_unfold. by rewrite bool_decide_true by (rewrite Hn; eauto). Qed.

(** Mapping a device over an existing node fails, and the cleanup removes the
    node that was there. *)
Lemma mapped_in_use path chrootDevPath n (k : call ()) r :
  obliging → chroot (world r) !! chrootDevPath = Some n →
  ∃ r', on_failure (_ ← outside (try (remove chrootDevPath)); mret ())
          (map_device path chrootDevPath;; k) r
        = (Throw (ErrMsg ("device is already in use: " +:+ path)), r') ∧
    chroot (world r') = delete chrootDevPath (chroot (world r)) ∧ props r' = props r.
Proof.
  intros Ho Hn. destruct (proj1 Ho (trace (world r)) path) as [rdev Hs].
  set (w1 := {| chroot := chroot (world r); taps := taps (world r); trace := trace (world r) ++ [StatRdev path] |}).
  set (w2 := {| chroot := chroot w1; taps := taps w1; trace := trace w1 ++ [MkdirAll (Filepath.Dir chrootDevPath)] |}).
  assert (map_device path chrootDevPath r
    = (Throw (ErrMsg ("device is already in use: " +:+ path)), set_world w2 r)) as Hm.
  { unfold map_device. rewrite (op_bind_run get _ r r r) by done.
    rewrite (op_bind_run _ _ r rdev (set_world w1 r)) by (unfold outside, zoom; by rewrite (ask_run _ _ _ Hs)).
    set (a := Backend.call (answer (trace w1) (MkdirAll (Filepath.Dir chrootDevPath)))).
    rewrite (op_bind_run _ _ _ (match a with Ret v => inl v | Throw e => inr e | Panic _ => inl () end) (set_world w2 r)).
    2: { unfold outside, zoom, try, ask, a, Backend.call. simpl.
         by destruct (answer (_ ++ _) (MkdirAll (Filepath.Dir chrootDevPath))). }
    apply op_bind_throw. unfold map_err, outside, zoom. by rewrite mknod_exists with (n := n). }
  unfold on_failure. rewrite (op_bind_throw _ _ _ _ _ Hm).
  eexists. split; [reflexivity|]. unfold outside, zoom, try. go_unfold. simpl.
  pose proof (remove_obliging chrootDevPath w2 Ho) as Hd.
  destruct (remove chrootDevPath w2) as [[] w']; simpl in *; by rewrite Hd.
Qed.

Lemma cdrom_map_run r devname media cd dev n :
  obliging → Strings.TrimSpace media = media → media ≠ "" →
  CdromPool.Get devname (InstanceProperties.Cdroms (props r)) = Some cd →
  Cdrom.Media (Cdrom.props cd) ≠ media → NewCdromBackend media = Ret (BlockDevice dev) →
  chroot (world r) !! chroot_path r media = Some n →
  ∃ r', InstanceQemu.CdromChangeMedia devname media r
        = (Throw (ErrMsg ("device is already in use: " +:+ media)), r') ∧
    chroot (world r') = delete (chroot_path r media) (chroot (world r)).
Proof.
  intros Ho Ht Hne Hg Hm Hb Hn. unfold InstanceQemu.CdromChangeMedia. rewrite Ht. cbv zeta.
  rewrite bool_decide_false by done. rewrite (op_bind_run _ _ r () r) by done.
  rewrite (op_bind_run get _ r r r) by done. rewrite Hg, bool_decide_false by done.
  rewrite (op_bind_run _ _ r () r) by done.
  rewrite (op_bind_run _ _ r (BlockDevice dev) r) by (unfold lift; by rewrite Hb).
  set (upd m := on_props (InstanceConf.update_cdrom devname (Cdrom.set_media m (Some (BlockDevice dev))))).
  assert (∀ m x, ∃ x', upd m x = (Ret (), x') ∧ world x' = world x ∧
    InstanceProperties.name (props x') = InstanceProperties.name (props x)) as Hu
    by (intros m x; eexists; split_and!; [reflexivity|done..]).
  destruct (Hu (Cdrom.Media (Cdrom.props cd)) r) as (r1 & E1 & Hw1 & Hn1).
  fold (upd (Cdrom.Media (Cdrom.props cd))). rewrite (op_bind_run _ _ _ _ _ E1).
  rewrite (op_bind_run _ _ _ _ _ (in_chroot_run _ r1)). cbn [is_block]. unfold on_success.
  destruct (Hu media r1) as (r2 & E2 & Hw2 & Hn2). fold (upd media).
  rewrite (op_bind_run _ _ _ _ _ E2). rewrite (op_bind_run _ _ _ _ _ (in_chroot_run _ r2)).
  rewrite Hn2, Hn1. edestruct (mapped_in_use media (chroot_path r media) n) with (r := r2)
    as (r3 & E3 & Hc3 & _); [done|by rewrite Hw2, Hw1|].
  rewrite E3. eexists. split; [reflexivity|]. by rewrite Hc3, Hw2, Hw1.
Qed.

(** *** A medium outside the chroot *)

Definition outside_medium : string := "/dev/../../../../../../etc/passwd".

Lemma chroot_escape n :
  ValidateMachineName n = Ret () →
  Filepath.Join [InstanceConf.CHROOTDIR; n; outside_medium] = "/etc/passwd".
Proof.
  intros Hn. assert ("/"%char ∉ to_list n) as Hs by (intros Hi; by specialize (JsonFacts.machine_name_elem _ _ Hn Hi)).
  assert (n ≠ "" ∧ n ≠ "." ∧ n ≠ "..") as (Hn1 & Hn2 & Hn3)
    by (split_and!; intros ->; by vm_compute in Hn).
  assert (Strings.Split (Strings.Join [InstanceConf.CHROOTDIR; n; outside_medium] "/") "/"
    = [""; "var"; "lib"; "kvmrun"; "chroot"; n; ""; "dev"; ".."; ".."; ".."; ".."; ".."; ".."; "etc"; "passwd"]) as Hp.
  { change (Strings.Join _ "/") with ("" +:+ String "/" "" +:+ "var" +:+ String "/" "" +:+ "lib" +:+ String "/" ""
      +:+ "kvmrun" +:+ String "/" "" +:+ "chroot" +:+ String "/" "" +:+ n +:+ String "/" "" +:+ outside_medium).
    do 5 (rewrite GoFacts.Split_app_sep by by_compute). by rewrite GoFacts.Split_app_sep by done. }
  change (Filepath.Join _) with (Filepath.Clean (Strings.Join [InstanceConf.CHROOTDIR; n; outside_medium] "/")).
  unfold Filepath.Clean, Filepath.slash. rewrite Hp.
  change (Filepath.IsAbs _) with true. cbv iota.
  set (F := Filepath.clean_step true). set (st := ["chroot"; "kvmrun"; "lib"; "var"]).
  assert (F (F (F (F (F [] "") "var") "lib") "kvmrun") "chroot" = st) as E1 by reflexivity.
  assert (F st n = n :: st) as E2
    by (unfold F, Filepath.clean_step; rewrite !decide_False by tauto; done).
  assert (F (n :: st) "" = n :: st) as E3 by reflexivity.
  assert (F (n :: st) "dev" = "dev" :: n :: st) as E4 by reflexivity.
  assert (F ("dev" :: n :: st) ".." = n :: st) as E5 by reflexivity.
  assert (F (n :: st) ".." = st) as E6 by (unfold F, Filepath.clean_step; simpl; by rewrite decide_False).
  cbn [foldl]. by rewrite E1, E2, E3, E4, E5, E6.
Qed.

(** a medium name that climbs out of the chroot makes the cleanup of the failed
    call remove a file of the host: the password file, for any machine with a
    cdrom. *)
Theorem CdromChangeMedia_escapes devname cd r n :
  obliging → ValidateMachineName (InstanceProperties.name (props r)) = Ret () →
  CdromPool.Get devname (InstanceProperties.Cdroms (props r)) = Some cd →
  Cdrom.Media (Cdrom.props cd) ≠ outside_medium → chroot (world r) !! "/etc/passwd" = Some n →
  ∃ r', InstanceQemu.CdromChangeMedia devname outside_medium r
        = (Throw (ErrMsg ("device is already in use: " +:+ outside_medium)), r') ∧
    chroot (world r') = delete "/etc/passwd" (chroot (world r)).
Proof.
  intros Ho Hn Hg Hm Hp. destruct (cdrom_map_run r devname outside_medium cd
    {| Block.Path := outside_medium |} n) as (r' & Hr & Hc); try done.
  - by rewrite chroot_escape.
  - exists r'. split; [done|]. by rewrite Hc, chroot_escape.
Qed.

(** *** A medium put back *)

Lemma cdrom_remote_run r devname media cd be r' :
  Strings.TrimSpace media = media → media ≠ "" →
  CdromPool.Get devname (InstanceProperties.Cdroms (props r)) = Some cd →
  NewCdromBackend media = Ret be → is_block (Some be) = false →
  InstanceQemu.CdromChangeMedia devname media r = (Ret (), r') →
  chroot (world r') = chroot (world r) ∧
  InstanceProperties.name (props r') = InstanceProperties.name (props r) ∧
  CdromPool.Get devname (InstanceProperties.Cdroms (props r')) = Some (Cdrom.set_media media (Some be) cd).
Proof.
  intros Ht Hne Hg Hb Hl. unfold InstanceQemu.CdromChangeMedia. rewrite Ht. cbv zeta.
  rewrite bool_decide_false by done. rewrite (op_bind_run _ _ r () r) by done.
  rewrite (op_bind_run get _ r r r) by done. rewrite Hg.
  case_bool_decide; [done|]. rewrite (op_bind_run _ _ r () r) by done.
  rewrite (op_bind_run _ _ r be r) by (unfold lift; by rewrite Hb). rewrite Hl.
  set (upd m := on_props (InstanceConf.update_cdrom devname (Cdrom.set_media m (Some be)))).
  fold (upd (Cdrom.Media (Cdrom.props cd))). fold (upd media). intros Hr.
  apply op_bind_Ret in Hr as ([] & r1 & E1 & Hr).
  rewrite (op_bind_run _ _ _ _ _ (in_chroot_run _ r1)) in Hr. unfold on_success in Hr.
  destruct (mbind _ (upd media) r1) as [[[]| |] r2] eqn:E2 in Hr; [|done..]. injection Hr as <-.
  apply op_bind_Ret in E2 as ([] & r3 & E3 & Hr).
  rewrite (op_bind_run _ _ _ _ _ (in_chroot_run _ r3)) in Hr.
  set (change := _ ;; _) in Hr.
  assert (still change) as Hst by (intros v; unfold change; steps).
  assert (∀ J, kept world (λ w, J (kit w)) change) as Hkt by (intros J; unfold change; world_steps).
  assert (props r2 = props r3) as Hp
    by (change r2 with (Ret (), r2).2; rewrite <- Hr; by apply still_run).
  assert (kit (world r2) = kit (world r3)) as Hk
    by (change r2 with (Ret (), r2).2; rewrite <- Hr; by apply (Hkt (λ k, k = kit (world r3)))).
  unfold upd, on_props, zoom, InstanceConf.update_cdrom, modify in E1, E3. simpl in E1, E3.
  injection E1 as <-. injection E3 as <-. rewrite Hp. injection Hk as Hk _. split; [done|].
  split; [done|]. simpl. unfold CdromPool.Get in *. rewrite !PoolFacts.GetAs_lookup in *. simpl in *.
  rewrite !PoolFacts.lookup_update, !decide_True by done.
  destruct (Pool.lookup devname _) as [cd0|]; simpl in *; [|done]. by injection Hg as ->.
Qed.

(** exchanging the medium of a cdrom that reads a block device for a remote
    one leaves the device's node in the chroot, so the old medium can not be put
    back: that fails, as the device were in use. *)
Theorem CdromChangeMedia_no_return devname cd dev n m be r r1 :
  obliging → CdromPool.Get devname (InstanceProperties.Cdroms (props r)) = Some cd →
  let old := Cdrom.Media (Cdrom.props cd) in
  Strings.TrimSpace old = old → NewCdromBackend old = Ret (BlockDevice dev) →
  chroot (world r) !! chroot_path r old = Some n →
  Strings.TrimSpace m = m → NewCdromBackend m = Ret be → is_block (Some be) = false →
  InstanceQemu.CdromChangeMedia devname m r = (Ret (), r1) →
  chroot (world r1) = chroot (world r) ∧
  (InstanceQemu.CdromChangeMedia devname old r1).1 = Throw (ErrMsg ("device is already in use: " +:+ old)).
Proof.
  intros Ho Hg old Ht Hb Hn Htm Hbm Hl Hr.
  assert (old ≠ "") as Hne by (intros E; by rewrite E in Hb).
  assert (m ≠ "") as Hnm by (intros E; by rewrite E in Hbm).
  destruct (cdrom_remote_run r devname m cd be r1) as (Hc & Hname & Hg1); try done.
  split; [done|]. destruct (cdrom_map_run r1 devname old (Cdrom.set_media m (Some be) cd) dev n)
    as (r2 & -> & _); try done.
  - simpl. intros E. subst m. rewrite Hb in Hbm. injection Hbm as <-. done.
  - by rewrite Hc, Hname.
Qed.

(** ** Tap devices *)

Lemma add_tap_run ifname uid mq w :
  (∀ h, is_Some (match answer h TapFeatures with inl b => Some b | _ => None end)) →
  (∀ h o q v, answer h (LinkAdd ifname o q v) = inl ()) →
  ∃ w', AddTapInterface ifname uid mq w = (Ret (), w') ∧ ifname ∈ taps w'.
Proof.
  intros Ht Hl. destruct (Ht (trace w)) as [b Hb]. destruct (answer (trace w) TapFeatures) as [b'|] eqn:E; [|done].
  unfold AddTapInterface. rewrite (op_bind_run _ _ _ _ _ (ask_run _ _ _ E)).
  rewrite (op_bind_run _ _ _ () _ (ask_run _ _ _ (Hl _ _ _ _))). eexists. split; [reflexivity|]. simpl. set_solver.
Qed.

(** once the tap device of an interface is made, an interface that can not be
    attached leaves it on the host: no failure of a later step removes it. *)
Theorem NetIfaceAppend_leaks rnd opts o r :
  NetIface.Validate rnd true opts = Ret o →
  HotPluggable (DriverTypeValue (NetIface.Driver o) : NetDriverType) = true →
  NetIfacePool.Exists (NetIface.Ifname o) (InstanceProperties.NetIfaces (props r)) = false →
  (∀ h, is_Some (match answer h TapFeatures with inl b => Some b | _ => None end)) →
  (∀ h a q v, answer h (LinkAdd (NetIface.Ifname o) a q v) = inl ()) →
  NetIface.Ifname o ∈ taps (world (InstanceQemu.NetIfaceAppend rnd opts r).2).
Proof.
  intros Hv Hd Hx Ht Hl. unfold InstanceQemu.NetIfaceAppend.
  rewrite (op_bind_run _ _ r o r) by (unfold lift; by rewrite Hv). cbv zeta. rewrite Hd.
  rewrite (op_bind_run _ _ r () r) by done. rewrite (op_bind_run get _ r r r) by done. rewrite Hx.
  rewrite (op_bind_run _ _ r () r) by done.
  destruct (add_tap_run (NetIface.Ifname o) (InstanceProperties.uid (props r))
    (multi_queue (NetIface.make o (DriverTypeValue (NetIface.Driver o)))) (world r) Ht Hl) as (w' & Hw & Hin).
  rewrite (op_bind_run _ _ r () (set_world w' r)) by (unfold outside, zoom; by rewrite Hw).
  set (J := λ k : gmap string node * gset string, NetIface.Ifname o ∈ k.2).
  match goal with |- context [mbind ?k ?m _] =>
    assert (kept world (λ w, J (kit w)) (mbind k m)) as Hk end.
  { unfold SetInterfaceUp. world_steps. apply world_outside. unfold write_text.
    apply preserves_bind; [apply preserves_ask|intros _]. by apply preserves_modify. }
  by apply (Hk (set_world w' r)).
Qed.

(** ** Two readers at once *)

(** the cdroms and the disks of a machine are read at the same time; when the
    cdroms come first, a SCSI cdrom is looked up on a bus that is not known yet,
    and the daemon panics, whatever QEMU answers. *)
Theorem scsi_cdrom_race s r rest pci dev more path cd ty bus lun :
  pool_order s = CdromPoolTask :: rest → scsiBuses r = ∅ →
  (∀ h, answer h (Run query_pci) = inl pci) → (∀ h, answer h (Run query_block) = inl (dev :: more)) →
  Strings.HasPrefix (QdevPath dev) "cdrom_" = true →
  device_path (Inserted dev) = Ret path → Cdrom.NewCdrom (Device dev) path = Ret cd →
  (∀ h, answer h (Run (qom_get_string (Cdrom.QdevID cd) "type")) = inl ty) →
  DriverTypeValue ty = CdromDriverType_SCSI_CD →
  (∀ h, answer h (Run (qom_get_string (Cdrom.QdevID cd) "parent_bus")) = inl bus) →
  (∀ h, answer h (Run (qom_get_int (Cdrom.QdevID cd) "lun")) = inl lun) →
  (init s r).1 = Panic NilDereference.
Proof.
  intros Hs Hb Hpci Hblk Hpre Hpath Hcd Hty Hdrv Hbus Hlun.
  assert (∀ c v x, (∀ h, answer h (Run c) = inl v) → ∃ x', mon_Run c x = (Ret v, x') ∧
    blkDevs x' = blkDevs x ∧ scsiBuses x' = scsiBuses x) as Hrun
    by (intros c v x Ha; eexists; split_and!; [rewrite mon_Run_run, Ha; reflexivity|done..]).
  unfold init. destruct (Hrun _ _ r Hpci) as (r1 & E1 & Hb1 & Hs1).
  rewrite (op_bind_run _ _ _ _ _ E1). rewrite (op_bind_run _ _ _ () (set_pciDevs pci r1)) by done.
  destruct (Hrun _ _ (set_pciDevs pci r1) Hblk) as (r2 & E2 & Hb2 & Hs2).
  rewrite (op_bind_run _ _ _ _ _ E2). rewrite (op_bind_run _ _ _ () (set_blkDevs (dev :: more) r2)) by done.
  rewrite Hs. simpl. set (r3 := set_blkDevs _ r2).
  assert ((initCdromPool r3).1 = Panic NilDereference) as Hp.
  2: { unfold try, mbind, op_bind. destruct (initCdromPool r3) as [[] ?]; simpl in *; by simplify_eq. }
  change (initCdromPool r3) with (for_each init_cdrom (dev :: more) r3). cbn [for_each].
  assert (∀ (m k : call ()) x p, (m x).1 = Panic p → ((m;; k) x).1 = Panic p) as Hseq
    by (intros m k x p Hm; go_unfold; destruct (m x) as [[] ?]; simpl in *; congruence).
  apply Hseq. unfold init_cdrom. rewrite Hpre. cbn [negb]. rewrite Hpath.
  rewrite (op_bind_run (lift _) _ r3 path r3) by done. rewrite Hcd. rewrite !(op_bind_run (lift _) _ r3 _ r3) by done. cbv zeta.
  destruct (Hrun _ _ r3 Hty) as (r4 & E4 & Hb4 & Hs4).
  rewrite (op_bind_run (try _) _ r3 (inl ty) r4) by (unfold try; by rewrite E4).
  rewrite Hdrv. unfold scsi_addr.
  destruct (Hrun _ _ r4 Hbus) as (r5 & E5 & Hb5 & Hs5). destruct (Hrun _ _ r5 Hlun) as (r6 & E6 & Hb6 & Hs6).
  unfold mbind, op_bind. rewrite E5, E6. unfold get. simpl.
  rewrite Hs6, Hs5, Hs4. unfold r3. simpl. rewrite Hs2. simpl. rewrite Hs1, Hb. by rewrite lookup_empty.
Qed.
End theorems.

(** ** A sample machine *)

Definition nothing (a : action) : reply a :=
  match a with
  | Run c => match c with
             | query_status => "running"
             | query_migrate => {| MigrStatus := ""; TotalTime := 0 |}
             | query_version => Version.MustParse (Version.AInt 40200)
             | query_balloon | qom_get_int _ _ => 0
             | qom_get_bool _ _ => false
             | query_block_jobs | query_cpus | query_cpus_fast | query_hotpluggable_cpus
             | query_pci | query_block => []
             | qom_get_string _ _ | human _ => ""
             | _ => ()
             end
  | StatRdev _ | GetCpuQuota _ => 0
  | ReadProcStatus _ => []
  | TapFeatures | LinkByName _ => true
  | _ => ()
  end.

(** Four slots, two of them in use. *)
Definition slots : list HotpluggableCPU :=
  [{| CoreID := 1; SocketID := 1; QomPath := ""; Type_ := "host" |};
   {| CoreID := 0; SocketID := 1; QomPath := ""; Type_ := "host" |};
   {| CoreID := 1; SocketID := 0; QomPath := "/cpu1"; Type_ := "host" |};
   {| CoreID := 0; SocketID := 0; QomPath := "/cpu0"; Type_ := "host" |}].

Definition scsi_cdrom : BlockInfo :=
  {| Device := "cd0"; DirtyBitmaps := []; QdevPath := "cdrom_cd0";
     Inserted := {| File := "/dev/vg/iso"; BackingFile := ""; BackingFileDepth := 0; ReadOnly := true;
                    IopsRd := 0; IopsWr := 0; InsertedDirtyBitmaps := [];
                    Image_ := {| Filename := ""; VirtualSize := 0; BackingImage_VirtualSize := 0 |} |} |}.
Definition scsi_bus : PCIInfo :=
  {| Bus := 0; Devices := [{| QdevID := "scsi0"; Slot := 16; Class_ := 256; ID_Device := 4100;
                              ID_Vendor := 0 |}] |}.

(** QEMU and a host that agree to everything, but for new block devices. *)
#[local] Instance sample_outside : Outside := {|
  answer _ a :=
    match a with
    | Run query_hotpluggable_cpus => inl slots
    | Run query_pci => inl [scsi_bus]
    | Run query_block => inl [scsi_cdrom]
    | Run (qom_get_string path "type") =>
        if bool_decide (path = "cdrom_cd0") then inl "scsi-cd" else inr DeviceNotFound
    | Run (qom_get_string _ "parent_bus") => inl "/machine/peripheral/scsi0/virtio-backend/scsi0.0"
    | Run (device_add (BlockDev _)) => inr (ErrHost "no slot")
    | a => inl (nothing a)
    end;
  Unmarshal_file s := inr (ErrHost s);
|}.
#[local] Instance block_host : Host := {|
  os_Stat s := inl (ModeBlockDevice, 0);
  os_Lstat s := inr (ErrNotExist s);
  BLKGETSIZE64 s := inl 0;
|}.
#[local] Existing Instance sample_env.

Definition sample_cdrom : Cdrom.t :=
  {| Cdrom.props := {| Cdrom.Name := "cd0"; Cdrom.Media := "/dev/vg/iso"; Cdrom.Driver := "scsi-cd";
                       Cdrom.Bootindex := 0; Cdrom.Readonly := true |};
     Cdrom.driver := CdromDriverType_SCSI_CD;
     Cdrom.MediaBackend := Some (BlockDevice {| Block.Path := "/dev/vg/iso" |});
     Cdrom.QemuAddr := "scsi0:0x10/1" |}.

Definition sample_nodes : gmap string node :=
  {[ "/etc/passwd" := TextFile None; "/var/lib/kvmrun/chroot/vm1/dev/vg/iso" := DeviceNode 1 ]}.

(** A running machine with two vCPUs of four and a SCSI cdrom. *)
Definition sample_running : t :=
  let r := fresh "vm1" 1001 {| chroot := sample_nodes; taps := ∅; trace := [] |} in
  set_qemuVer (Version.MustParse (Version.AInt 40200)) (set_props
    (InstanceProperties.set_CPU {| VirtCPU.Actual := 2; VirtCPU.Total := 4; VirtCPU.Sockets := 2;
                                   VirtCPU.Quota := 0; VirtCPU.Model := "" |}
    (InstanceProperties.set_Memory_ {| Memory.Actual := 512; Memory.Total := 1024 |}
    (InstanceProperties.set_Cdroms (CdromPool.Append sample_cdrom Pool.zero).2 (props r)))) r).

Lemma sample_obliging : obliging.
Proof. split; [by exists 0|done]. Qed.

(** The last device of the request is refused. *)
Definition refused_disk : Disk.Properties := sample_disk "/dev/vg/data".

Example exec_undone_witness :
  props (InstanceQemu.exec (ConfInvariant.DiskAppend refused_disk) (inl (1, 2, 255)) sample_running).2
  = props sample_running.
Proof. by apply exec_undone with (e := ErrMsg "device_add failed"); vm_compute. Defined.

Example DiskAppend_outcome_witness :
  let node := "/var/lib/kvmrun/chroot/vm1/dev/vg/data" in
  match InstanceQemu.DiskAppend refused_disk sample_running with
  | (Throw _, r') => props r' = props sample_running ∧
      delete node (chroot (world r')) = delete node sample_nodes ∧
      (chroot (world r') = sample_nodes ∨ node_gone node (world r'))
  | _ => False
  end.
Proof.
  pose proof (DiskAppend_outcome refused_disk refused_disk {| Block.Path := "/dev/vg/data" |} sample_running
    eq_refl eq_refl) as Hd.
  assert ((InstanceQemu.DiskAppend refused_disk sample_running).1 = Throw (ErrMsg "device_add failed")) as Hr
    by (vm_compute; reflexivity).
  destruct (InstanceQemu.DiskAppend refused_disk sample_running) as [[]]; simpl in Hr; [discriminate| |discriminate].
  exact Hd.
Defined.

(** The device is the medium of a cdrom: the disk is refused, and the node of the
    cdrom is removed. *)
Example DiskAppend_in_use :
  let '(res, r') := InstanceQemu.DiskAppend (sample_disk "/dev/vg/iso") sample_running in
  res = Throw (ErrMsg "device is already in use: /dev/vg/iso") ∧
  sample_nodes !! "/var/lib/kvmrun/chroot/vm1/dev/vg/iso" = Some (DeviceNode 1) ∧
  chroot (world r') !! "/var/lib/kvmrun/chroot/vm1/dev/vg/iso" = None.
Proof. vm_compute. split_and!; reflexivity. Qed.

Example CPUSetActual_outcome_witness :
  VirtCPU.Actual (InstanceProperties.CPU (props (InstanceQemu.CPUSetActual 4 sample_running).2)) = 4.
Proof.
  pose proof (CPUSetActual_outcome 4 slots sample_running eq_refl eq_refl ltac:(by_compute)) as Hd.
  assert ((InstanceQemu.CPUSetActual 4 sample_running).1 = Ret ()) as Hr by (vm_compute; reflexivity).
  destruct (InstanceQemu.CPUSetActual 4 sample_running) as [[]]; simpl in Hr; [|discriminate..].
  exact (proj1 (proj2 Hd)).
Defined.

Example CdromChangeMedia_escapes_witness :
  ∃ r', (InstanceQemu.CdromChangeMedia "cd0" outside_medium sample_running).2 = r' ∧
    sample_nodes !! "/etc/passwd" = Some (TextFile None) ∧ chroot (world r') !! "/etc/passwd" = None.
Proof.
  destruct (CdromChangeMedia_escapes "cd0" sample_cdrom sample_running (TextFile None)) as (r' & Hr & Hc).
  - exact sample_obliging.
  - reflexivity.
  - reflexivity.
  - discriminate.
  - reflexivity.
  - exists r'. rewrite Hr, Hc. split_and!; [reflexivity..|apply lookup_delete_eq].
Defined.

Definition remote_medium : string := "iscsi://u%p@10.0.0.1:3260/iqn.2010:data/1".

Example CdromChangeMedia_no_return_witness :
  let r1 := (InstanceQemu.CdromChangeMedia "cd0" remote_medium sample_running).2 in
  (InstanceQemu.CdromChangeMedia "cd0" "/dev/vg/iso" r1).1
  = Throw (ErrMsg "device is already in use: /dev/vg/iso").
Proof.
  intros r1. destruct (NewCdromBackend remote_medium) as [be| |] eqn:Hb; [|vm_compute in Hb; discriminate..].
  eapply (CdromChangeMedia_no_return "cd0" sample_cdrom {| Block.Path := "/dev/vg/iso" |} (DeviceNode 1)
    remote_medium be sample_running r1); try reflexivity.
  - exact sample_obliging.
  - exact Hb.
  - vm_compute in Hb. injection Hb as <-. reflexivity.
Defined.

Definition sample_netif : NetIface.Properties :=
  {| NetIface.Ifname := "eth0"; NetIface.Driver := "virtio-net-pci"; NetIface.HwAddr := "54:52:00:aa:bb:cc";
     NetIface.Queues := 0; NetIface.Bootindex := 0; NetIface.Ifup := ""; NetIface.Ifdown := "" |}.

Example NetIfaceAppend_leaks_witness :
  "eth0" ∈ taps (world (InstanceQemu.NetIfaceAppend (inl (1, 2, 3)) sample_netif sample_running).2).
Proof.
  apply (NetIfaceAppend_leaks (inl (1, 2, 3)) sample_netif sample_netif sample_running);
    [reflexivity..|by eexists|reflexivity].
Defined.

(** In the other order the same machine is read without trouble. *)
Example scsi_cdrom_race_witness :
  (init go_order sample_running).1 = Panic NilDereference ∧
  (init {| view_order := []; pool_order := [DiskPoolTask; CdromPoolTask] |}
     (set_props (InstanceProperties.zero "vm1" 1001) sample_running)).1 = Ret ().
Proof.
  split; [|vm_compute; reflexivity].
  eapply (scsi_cdrom_race go_order sample_running [DiskPoolTask; NetIfacePoolTask; CloudInitDriveTask]
    [scsi_bus] scsi_cdrom [] "/dev/vg/iso" _ "scsi-cd"
    "/machine/peripheral/scsi0/virtio-backend/scsi0.0" 0); reflexivity.
Defined.
End QemuTheorems.
