(* ===== verification/Server.v ===== *)
(** Server: the daemon's handlers that change a machine
    ([server/machine/disks.go], [cdroms.go], [network.go], [channels.go],
    [resources.go], [hostpci_devices.go], [input_devices.go], [cloudinit.go],
    [configuration.go]), with what they share of [server/machine.go] and
    [server/background_tasks.go].

    A handler loads the configuration from its file, changes the running
    instance first if it is asked to and there is one, then the configuration,
    and saves it.  The running instance is reached through the [Runtime]
    interface: the same calls as a configuration, on a state of its own. *)

From S2P Require Import Prelude.
From S2P Require Import GoStd.
From S2P Require Import GoFacts.
From S2P Require Import Pool.
From S2P Require Import PciAddress.
From S2P Require Import Backend.
From S2P Require Import PciDevice.
From S2P Require Import Resources.
From S2P Require Import Drivers.
From S2P Require Import Disks.
From S2P Require Import Cdroms.
From S2P Require Import NetIfaces.
From S2P Require Import HostDevices.
From S2P Require Import Peripherals.
From S2P Require Import Json.
From S2P Require Import InstanceProperties.
From S2P Require Import InstanceConf.
From S2P Require Import ConfInvariant.
From S2P Require Import ConfJson.

Open Scope Z_scope.
#[local] Set Warnings "-register-all".

(** The [Instance] interface of a running machine: the view [GetInstanceQemu]
    takes of it through its monitor, the getters of that view, and the calls. *)
Class Runtime (P : Type) := {
  GetInstanceQemu : (string → sys string) → string → option P → outcome P;
  inst_props : P → InstanceProperties.t;
  inst_exec : call_at → op P ();
}.

(** What a task keeps others from doing to its targets; [go-task] compares
    these masks, and its verdict is a parameter of the handlers. *)
Inductive OperationMode := ModeNoBlock | ModeBlockConf | ModeBlockBackup | ModeBlockAll.
Abbreviation targets := (gmap string OperationMode).

Definition NoBlockOperations (name : string) : targets := {[ name := ModeNoBlock ]}.
Definition BlockAnyOperations (main : string) (names : list string) : targets :=
  foldl (λ t n, <[main +:+ ":" +:+ n := ModeBlockAll]> t) {[ main := ModeBlockAll ]} names.
Definition BlockConfOperations (vmname : string) : targets := {[ vmname := ModeBlockConf ]}.
Definition BlockBackupOperations (vmname diskname : string) : targets :=
  <[vmname +:+ ":" +:+ diskname := ModeBlockAll]> {[ vmname := ModeBlockConf ]}.

(** What [fsutil.Copy] may do to the file it is to make: make it, with the contents
    of the other, or fail and leave something else, or nothing, there. *)
Inductive copied := Copied (content : option json) | CopyFailed (e : goerr) (remains : option (option json)).

Module Server.
Import Strings ConfJson.

(** The files of the machines, and the QEMU process of the machine at hand as
    its monitor shows it. *)
Record world (P : Type) := { fs : files; mon : option P }.
Arguments fs {P} _.
Arguments mon {P} _.
Arguments Build_world {P} _ _.

(** What a handler works on: the files, the configuration it has loaded and the
    running instance. *)
Record session (P : Type) := { s_fs : files; C : InstanceConf.InstanceConf; R : option P }.
Arguments s_fs {P} _.
Arguments C {P} _.
Arguments R {P} _.
Arguments Build_session {P} _ _ _.

Definition IsAlreadyConnectedError (e : goerr) : bool :=
  match e with AlreadyConnectedError _ _ => true | _ => false end.
Definition IsNotConnectedError (e : goerr) : bool :=
  match e with NotConnectedError _ _ => true | _ => false end.

(** [if err := m; err != nil && !tolerated(err) { return err }] *)
Definition unless {S} (tolerated : goerr → bool) (m : op S ()) : op S () := λ s,
  match m s with
  | (Throw e, s') => if tolerated e then (Ret (), s') else (Throw e, s')
  | r => r
  end.

(** [if err := m; err != nil { if IsX(err) { return h } else { return err } }] *)
Definition on_error {S} (handled : goerr → bool) (m h : op S ()) : op S () := λ s,
  match m s with
  | (Throw e, s') => if handled e then h s' else (Throw e, s')
  | r => r
  end.

(** [if err := m; err != nil { if IsX(err) { return nil } else { return err } }; k] *)
Definition or_return {S} (done : goerr → bool) (m k : op S ()) : op S () := λ s,
  match m s with
  | (Ret _, s') => k s'
  | (Throw e, s') => if done e then (Ret (), s') else (Throw e, s')
  | (Panic p, s') => (Panic p, s')
  end.

(** A call whose error nobody looks at. *)
Definition ignored {S} (m : op S ()) : op S () := unless (λ _, true) m.

(** [fmt.Errorf("cannot ...: %w", err)] *)
Definition wrap {S A} (what : string) : op S A → op S A :=
  map_err (λ e, match e with ErrMsg m => ErrMsg (what +:+ ": " +:+ m) | _ => e end).

Section handlers.
Context {P : Type} `{Env} {hst : Host} `{PciBus, Runtime P}.
Context (users : string → sys string) (rand : sys (Z * Z * Z)) (written : write_result)
        (refuse : targets → option goerr).
Abbreviation handler := (op (world P) ()).
Abbreviation body := (op (session P) ()).

(** [TaskRunFunc] with [wait]: the closure runs unless the pool refuses its
    targets. *)
Definition TaskRunFunc (tgt : targets) (fn : handler) : handler :=
  match refuse tgt with Some e => throw e | None => fn end.

(** The running side of [MachineGet]: it is asked again without the monitor when
    the monitor's socket fails, and a machine that is not running has none. *)
Definition GetRunning (vmname : string) (runtime : bool) (m : option P) : outcome (option P) :=
  let get m :=
    match GetInstanceQemu users vmname m with
    | Ret r => Ret (Some r)
    | Throw (ErrNotRunning _) => Ret None
    | Throw e => Throw e
    | Panic p => Panic p
    end in
  match get (if runtime then m else None) with
  | Throw NetOpError => get None
  | r => r
  end.

(** [vm, err := s.MachineGet(vmname, runtime)], and the rest of the closure. *)
Definition with_machine (vmname : string) (runtime : bool) (fn : body) : handler := λ w,
  match (c ← GetInstanceConf users (fs w) vmname; r ← GetRunning vmname runtime (mon w); Ret (c, r)) with
  | Ret (c, r) =>
      let '(res, s) := fn {| s_fs := fs w; C := c; R := r |} in
      (res, {| fs := s_fs s; mon := match r with Some _ => R s | None => mon w end |})
  | Throw e => (Throw e, w)
  | Panic p => (Panic p, w)
  end.

Definition at_call (o : conf_op) : call_at := {| host := hst; rnd := rand; the_op := o |}.

(** A call of [vm.C]. *)
Definition on_C (o : conf_op) : body := λ s,
  let '(r, p) := exec (at_call o) (InstanceConf.props (C s)) in
  (r, {| s_fs := s_fs s; C := {| InstanceConf.props := p; InstanceConf.confname := InstanceConf.confname (C s) |};
         R := R s |}).

(** A call of [vm.R]. *)
Definition on_R (o : conf_op) : body := λ s,
  match R s with
  | None => (Panic NilDereference, s)
  | Some p =>
      let '(r, p) := inst_exec (at_call o) p in
      (r, {| s_fs := s_fs s; C := C s; R := Some p |})
  end.

(** [if live && vm.R != nil { m }] *)
Definition if_live (live : bool) (m : body) : body :=
  s ← get;
  if live && bool_decide (is_Some (R s)) then m else mret ().

(** What is done to the files. *)
Definition on_files {A} (m : op files A) : op (session P) A :=
  zoom s_fs (λ f s, {| s_fs := f; C := C s; R := R s |}) m.

Definition save_conf : body := λ s,
  let '(r, f) := Save written (C s) (s_fs s) in
  (r, {| s_fs := f; C := C s; R := R s |}).

(** ** Disks *)

Definition DiskAttach (vmname : string) (opts : option Disk.Properties) (position : Z)
    (live : bool) : handler :=
  match opts with
  | None => throw (ErrMsg "empty disk opts")
  | Some opts =>
      opts ← lift (Disk.Validate true opts);
      wrap "cannot attach or update disk" (
      TaskRunFunc (BlockAnyOperations vmname []) (
      with_machine vmname true (
        let limits on :=
          on (DiskSetReadIops (Disk.Path opts) (Disk.IopsRd opts));;
          on (DiskSetWriteIops (Disk.Path opts) (Disk.IopsWr opts)) in
        if_live live (
          fail_if (0 <=? position) (ErrMsg ("unable to insert at the '" +:+ Strconv.Itoa position
            +:+ "' position while the machine is running"));;
          on_error IsAlreadyConnectedError (on_R (DiskAppend opts)) (limits on_R));;
        on_error IsAlreadyConnectedError
          (if 0 <=? position then on_C (DiskInsert opts position) else on_C (DiskAppend opts))
          (limits on_C);;
        save_conf)))
  end.

(** A name that is not empty once trimmed. *)
Definition nonempty (what name : string) : op (world P) string :=
  let name := TrimSpace name in
  if bool_decide (name = "") then throw (ErrMsg ("empty " +:+ what)) else mret name.

Definition DiskDetach (vmname diskname : string) (live : bool) : handler :=
  diskname ← nonempty "disk name" diskname;
  wrap "cannot detach disk" (
  TaskRunFunc (BlockAnyOperations vmname []) (
  with_machine vmname true (
    if_live live (unless IsNotConnectedError (on_R (DiskRemove diskname)));;
    unless IsNotConnectedError (on_C (DiskRemove diskname));;
    save_conf))).

Definition DiskSetReadLimit (vmname diskname : string) (limit : Z) (live : bool) : handler :=
  diskname ← nonempty "disk name" diskname;
  wrap "cannot update disk read limit" (
  TaskRunFunc (BlockAnyOperations vmname []) (
  with_machine vmname true (
    if_live live (on_R (DiskSetReadIops diskname limit));;
    on_C (DiskSetReadIops diskname limit);;
    save_conf))).

Definition DiskSetWriteLimit (vmname diskname : string) (limit : Z) (live : bool) : handler :=
  diskname ← nonempty "disk name" diskname;
  wrap "cannot update disk read limit" (
  TaskRunFunc (BlockAnyOperations vmname []) (
  with_machine vmname true (
    if_live live (on_R (DiskSetWriteIops diskname limit));;
    on_C (DiskSetWriteIops diskname limit);;
    save_conf))).

Definition DiskRemoveQemuBitmap (vmname diskname : string) : handler :=
  diskname ← nonempty "disk name" diskname;
  wrap "cannot remove disk bitmap" (
  TaskRunFunc (BlockAnyOperations (vmname +:+ ":" +:+ diskname) []) (
  with_machine vmname true (if_live true (on_R (DiskRemoveQemuBitmap diskname))))).

Definition DiskResizeQemuBlockdev (vmname diskname : string) : handler :=
  diskname ← nonempty "disk name" diskname;
  wrap "cannot send block-resize event" (
  TaskRunFunc (NoBlockOperations vmname) (
  with_machine vmname true (if_live true (on_R (DiskResizeQemuBlockdev diskname))))).

(** ** Memory and CPUs *)

(** [err != kvmrun.ErrNotImplemented] *)
Definition not_implemented (e : goerr) : bool :=
  match e with ErrNotImplemented => true | _ => false end.

(** The closure [set], for either instance; it assigns to the [total] it
    captures, which is the value it returns here. *)
Definition set_limits (get_total : session P → Z) (set_total set_actual : Z → body)
    (actual total : Z) : op (session P) Z :=
  s ← get;
  let total := if total =? 0 then get_total s else total in
  (if get_total s <? actual then
     unless not_implemented (set_total total);; set_actual actual
   else
     set_actual actual;; unless not_implemented (set_total total));;
  mret total.

(** The two handlers, which differ in the fields they touch. *)
Definition SetLimits (vmname : string) (actual total : Z) (live : bool) (refusal what : string)
    (total_of : InstanceProperties.t → Z) (set_total set_actual : Z → conf_op) : handler :=
  let C_total s := total_of (InstanceConf.props (C s)) in
  let R_total s := match R s with Some p => total_of (inst_props p) | None => 0 end in
  wrap what (
  TaskRunFunc (BlockAnyOperations vmname []) (
  with_machine vmname true (
    s ← get;
    total ← (if live && bool_decide (is_Some (R s)) then
               fail_if ((0 <? total) && negb (total =? R_total s)) (ErrMsg refusal);;
               set_limits R_total (λ v, on_R (set_total v)) (λ v, on_R (set_actual v)) actual total
             else mret total);
    _ ← set_limits C_total (λ v, on_C (set_total v)) (λ v, on_C (set_actual v)) actual total;
    save_conf))).

Definition MemorySetLimits (vmname : string) (actual total : Z) (live : bool) : handler :=
  SetLimits vmname actual total live "unable to change total memory while the machine is running"
    "cannot set memory limits" InstanceProperties.MemoryGetTotal MemorySetTotal MemorySetActual.

Definition CPUSetLimits (vmname : string) (actual total : Z) (live : bool) : handler :=
  SetLimits vmname actual total live
    "unable to change total vCPU count while the machine is running"
    "cannot set vCPU limits" InstanceProperties.CPUGetTotal CPUSetTotal CPUSetActual.

(** A handler that changes the configuration only. *)
Definition conf_task (what vmname : string) (fn : body) : handler :=
  wrap what (TaskRunFunc (BlockConfOperations vmname) (with_machine vmname false (fn;; save_conf))).

Definition CPUSetSockets (vmname : string) (count : Z) : handler :=
  conf_task "cannot set vCPU socket count" vmname (on_C (CPUSetSockets count)).

Definition CPUSetQuota (vmname : string) (quota : Z) (live : bool) : handler :=
  wrap "cannot set vCPU quota" (
  TaskRunFunc (BlockConfOperations vmname) (
  with_machine vmname true (
    if_live live (on_R (CPUSetQuota quota));;
    on_C (CPUSetQuota quota);;
    save_conf))).

Definition CPUSetModel (vmname model : string) : handler :=
  model ← nonempty "model name" model;
  conf_task "cannot set vCPU model" vmname (on_C (CPUSetModel model)).

(** ** Cdroms *)

Definition CdromAttach (vmname : string) (opts : option Cdrom.Properties) (position : Z)
    (live : bool) : handler :=
  match opts with
  | None => throw (ErrMsg "empty cdrom opts")
  | Some opts =>
      opts ← lift (Cdrom.Validate true opts);
      wrap "cannot attach cdrom" (
      TaskRunFunc (BlockAnyOperations vmname []) (
      with_machine vmname true (
        if_live live (
          fail_if (0 <=? position) (ErrMsg ("unable to insert at the '" +:+ Strconv.Itoa position
            +:+ "' position while the machine is running"));;
          unless IsAlreadyConnectedError (on_R (CdromAppend opts)));;
        unless IsAlreadyConnectedError
          (if 0 <=? position then on_C (CdromInsert opts position) else on_C (CdromAppend opts));;
        save_conf)))
  end.

Definition CdromDetach (vmname devname : string) (live : bool) : handler :=
  devname ← nonempty "cdrom name" devname;
  wrap "cannot detach cdrom" (
  TaskRunFunc (BlockAnyOperations vmname []) (
  with_machine vmname true (
    if_live live (unless IsNotConnectedError (on_R (CdromRemove devname)));;
    unless IsNotConnectedError (on_C (CdromRemove devname));;
    save_conf))).

(** An unchanged medium ends the handler without saving. *)
Definition CdromChangeMedia (vmname devname media : string) (live : bool) : handler :=
  devname ← nonempty "cdrom name" devname;
  wrap "cannot update cdrom media" (
  TaskRunFunc (BlockAnyOperations vmname []) (
  with_machine vmname true (
    if_live live (unless IsNotConnectedError (on_R (CdromChangeMedia devname media)));;
    or_return IsAlreadyConnectedError (on_C (CdromChangeMedia devname media)) save_conf))).

Definition CdromRemoveMedia (vmname devname : string) (live : bool) : handler :=
  devname ← nonempty "cdrom name" devname;
  wrap "cannot remove cdrom media" (
  TaskRunFunc (BlockAnyOperations vmname []) (
  with_machine vmname true (
    if_live live (on_R (CdromRemoveMedia devname));;
    on_C (CdromRemoveMedia devname);;
    save_conf))).

(** ** Network interfaces *)

Definition NetIfaceAttach (vmname : string) (opts : option NetIface.Properties) (live : bool)
    : handler :=
  match opts with
  | None => throw (ErrMsg "empty network interface opts")
  | Some opts =>
      opts ← lift (NetIface.Validate rand true opts);
      wrap "cannot attach network interface" (
      TaskRunFunc (BlockAnyOperations vmname []) (
      with_machine vmname true (
        if_live live (unless IsAlreadyConnectedError (on_R (NetIfaceAppend opts)));;
        unless IsAlreadyConnectedError (on_C (NetIfaceAppend opts));;
        save_conf)))
  end.

Definition NetIfaceDetach (vmname ifname : string) (live : bool) : handler :=
  ifname ← nonempty "interface name" ifname;
  wrap "cannot detach network interface" (
  TaskRunFunc (BlockAnyOperations vmname []) (
  with_machine vmname true (
    if_live live (unless IsNotConnectedError (on_R (NetIfaceRemove ifname)));;
    unless IsNotConnectedError (on_C (NetIfaceRemove ifname));;
    save_conf))).

Definition NetIfaceSetLinkState (vmname ifname : string) (state : NetLinkState) : handler :=
  ifname ← nonempty "interface name" ifname;
  wrap "cannot set network interface link state" (
  TaskRunFunc (NoBlockOperations vmname) (
  with_machine vmname true (
    s ← get;
    fail_if (bool_decide (R s = None)) (ErrMsg ("not running: " +:+ vmname));;
    match state with
    | NetLinkState_UP => on_R (NetIfaceSetLinkUp ifname)
    | NetLinkState_DOWN => on_R (NetIfaceSetLinkDown ifname)
    | NetLinkState_UNKNOWN => throw (ErrMsg "incorrect link state: 0")
    end))).

Definition NetIfaceSetUpScript (vmname ifname script : string) : handler :=
  ifname ← nonempty "interface name" ifname;
  script ← nonempty "script path" script;
  conf_task "cannot set network interface if-up script" vmname
    (on_C (NetIfaceSetUpScript ifname script)).

Definition NetIfaceSetDownScript (vmname ifname script : string) : handler :=
  ifname ← nonempty "interface name" ifname;
  script ← nonempty "script path" script;
  conf_task "cannot set network interface if-down script" vmname
    (on_C (NetIfaceSetDownScript ifname script)).

Definition NetIfaceSetQueues (vmname ifname : string) (queues : Z) : handler :=
  ifname ← nonempty "interface name" ifname;
  conf_task "cannot set network interface queues" vmname (on_C (NetIfaceSetQueues ifname queues)).

(** ** Channels *)

Definition ChannelAttach_VSock (vmname : string) (opts : option ChannelVSock.Properties)
    (live : bool) : handler :=
  match opts with
  | None => throw (ErrMsg "empty virtio-vsock opts")
  | Some opts =>
      _ ← lift (ChannelVSock.Validate opts);
      wrap "cannot attach virtio-vsock channel" (
      TaskRunFunc (BlockAnyOperations vmname []) (
      with_machine vmname true (
        if_live live (unless IsAlreadyConnectedError (on_R (VSockDeviceAppend opts)));;
        unless IsAlreadyConnectedError (on_C (VSockDeviceAppend opts));;
        save_conf)))
  end.

Definition ChannelDetach_VSock (vmname : string) (live : bool) : handler :=
  wrap "cannot detach virtio-vsock channel" (
  TaskRunFunc (BlockAnyOperations vmname []) (
  with_machine vmname true (
    if_live live (unless IsNotConnectedError (on_R VSockDeviceRemove));;
    unless IsNotConnectedError (on_C VSockDeviceRemove);;
    save_conf))).

Definition ChannelAttach_SerialPort : handler := throw ErrNotImplemented.
Definition ChannelDetach_SerialPort : handler := throw ErrNotImplemented.

(** ** Host and input devices *)

Definition HostDeviceAttach (vmname : string) (opts : option HostDevice.Properties) : handler :=
  match opts with
  | None => throw (ErrMsg "empty host-PCI-device opts")
  | Some opts =>
      opts ← lift (HostDevice.Validate true opts);
      conf_task "cannot attach host-PCI-device" vmname
        (unless IsAlreadyConnectedError (on_C (HostDeviceAppend opts)))
  end.

Definition HostDeviceDetach (vmname hexaddr : string) : handler :=
  conf_task "cannot detach host-PCI-device" vmname
    (unless IsNotConnectedError (on_C (HostDeviceRemove hexaddr))).

Definition HostDeviceSetMultifunctionOption (vmname hexaddr : string) (enabled : bool) : handler :=
  conf_task "cannot change host-PCI-device multifunction option" vmname
    (on_C (HostDeviceSetMultifunctionOption hexaddr enabled)).

Definition HostDeviceSetPrimaryGpuOption (vmname hexaddr : string) (enabled : bool) : handler :=
  conf_task "cannot change host-PCI-device primaryGPU option" vmname
    (on_C (HostDeviceSetPrimaryGPUOption hexaddr enabled)).

Definition InputDeviceAttach (vmname : string) (opts : option InputDevice.Properties) : handler :=
  match opts with
  | None => throw (ErrMsg "empty input device opts")
  | Some opts =>
      opts ← lift (InputDevice.Validate opts);
      conf_task "cannot attach input device" vmname
        (unless IsAlreadyConnectedError (on_C (InputDeviceAppend opts)))
  end.

Definition InputDeviceDetach (vmname deviceType : string) : handler :=
  deviceType ← nonempty "device type" deviceType;
  conf_task "cannot detach input device" vmname
    (unless IsNotConnectedError (on_C (InputDeviceRemove deviceType))).

(** ** Cloud-init drive *)

Definition CloudInitDriveAttach (vmname : string) (opts : option CloudInitDrive.Properties)
    : handler :=
  match opts with
  | None => throw (ErrMsg "empty cloud-init opts")
  | Some opts =>
      opts ← lift (CloudInitDrive.Validate true opts);
      conf_task "cannot attach cloud-init drive" vmname (
        on_C (CloudInitSetMedia (CloudInitDrive.Media opts));;
        on_C (CloudInitSetDriver (CloudInitDrive.Driver opts)))
  end.

Definition CloudInitDriveDetach (vmname : string) : handler :=
  conf_task "cannot detach cloud-init drive" vmname (on_C CloudInitRemoveConf).

Definition CloudInitDriveChangeMedia (vmname media : string) (live : bool) : handler :=
  wrap "cannot update cloud-init media" (
  TaskRunFunc (BlockAnyOperations vmname []) (
  with_machine vmname true (
    if_live live (on_R (CloudInitSetMedia media));;
    s ← get;
    match InstanceProperties.CloudInitGetDrive (InstanceConf.props (C s)) with
    | None => throw (NotConnectedError "instance_conf" "cloud-init drive")
    | Some drive =>
        if bool_decide (media = CloudInitDrive.Media (CloudInitDrive.props drive)) then mret ()
        else on_C (CloudInitSetMedia media);; save_conf
    end))).

(** ** Firmware and external kernel *)

(** [utils.LookForFile] *)
Fixpoint LookForFile (basename : string) (dirs : list string) : outcome string :=
  match dirs with
  | [] => Throw (ErrNotExist basename)
  | d :: dirs =>
      let fullname := Filepath.Join [d; basename] in
      match os_Stat fullname with
      | inl (ModeDir, _) => Throw (ErrMsg ("not a file: " +:+ fullname))
      | inl _ => Ret (Filepath.Clean fullname)
      | inr (ErrNotExist _) => LookForFile basename dirs
      | inr e => Throw e
      end
  end.

(** [fsutil.Copy], a copy of a file of the host among those of the machines. *)
Context (fsutil_Copy : string → string → copied).

Definition install (basename dst : string) (dirs : list string) : op files string :=
  fname ← lift (LookForFile basename dirs);
  match fsutil_Copy fname dst with
  | Copied content => modify <[dst := content]>;; mret dst
  | CopyFailed _ remains =>
      modify (partial_alter (λ _, remains) dst);; throw (ErrMsg ("failed to copy " +:+ Filepath.Base dst))
  end.

(** A flash file that cannot be examined is dropped; names stand for the images
    that come with QEMU, which are copied next to the configuration. *)
Definition prepare_firmware (vmname qemuRootDir : string) (opts : Firmware.Properties)
    : op files Firmware.Properties :=
  let vmdir := Filepath.Join [CONFDIR; vmname] in
  let dirs := map (λ d, Filepath.Join [qemuRootDir; d])
                ["usr/share/OVMF"; "usr/share/ovmf"; "usr/share/qemu"] in
  let image := Firmware.Image opts in
  let one_of l := bool_decide (image ∈ (l : list string)) in
  flash ← lift (if bool_decide (Firmware.Flash opts = "") then Ret ""
                else match os_Stat (Firmware.Flash opts) with
                     | inl (ModeDir, _) => Throw (ErrMsg ("not a file: " +:+ Firmware.Flash opts))
                     | inl _ => Ret (Firmware.Flash opts)
                     | inr (ErrNotExist p) => Throw (ErrNotExist p)
                     | inr _ => Ret ""
                     end);
  if one_of ["bios"; "legacy"] then mret {| Firmware.Image := ""; Firmware.Flash := "" |}
  else if one_of ["efi"; "uefi"; "ovmf"] then
    code ← install "OVMF_CODE.fd" (Filepath.Join [vmdir; "config_eficode"]) dirs;
    vars ← (if bool_decide (flash = "")
            then install "OVMF_VARS.fd" (Filepath.Join [vmdir; "config_efivars"]) dirs
            else mret flash);
    mret {| Firmware.Image := code; Firmware.Flash := vars |}
  else mret {| Firmware.Image := image; Firmware.Flash := flash |}.

(** The default directory is the one of the application's configuration. *)
Context (appconf_QemuRootDir : string).
Definition root_dir (qemuRootDir : string) : string :=
  let d := TrimSpace qemuRootDir in if bool_decide (d = "") then appconf_QemuRootDir else d.

Definition FirmwareSet (vmname : string) (opts : option Firmware.Properties) (qemuRootDir : string)
    : handler :=
  match opts with
  | None => throw (ErrMsg "empty firmware opts")
  | Some opts =>
      opts ← lift (Firmware.Validate false opts);
      conf_task "cannot set firmware" vmname (
        opts ← on_files (prepare_firmware vmname (root_dir qemuRootDir) opts);
        ignored (on_C (FirmwareSetImage (Firmware.Image opts)));;
        ignored (on_C (FirmwareSetFlash (Firmware.Flash opts))))
  end.

Definition FirmwareRemove (vmname : string) : handler :=
  conf_task "cannot remove firmware" vmname (on_C FirmwareRemoveConf).

(** The properties given, one by one; whether anything was set. *)
Definition set_given (value : string) (o : string → conf_op) : op (session P) bool :=
  if bool_decide (value = "") then mret false else on_C (o value);; mret true.

Definition ExternalKernelSet (vmname : string) (opts : option ExtKernel.t) : handler :=
  match opts with
  | None => throw (ErrMsg "empty external kernel opts")
  | Some opts =>
      opts ← locally (ExtKernel.Validate true) opts;
      wrap "cannot update external kernel properties" (
      TaskRunFunc (BlockConfOperations vmname) (
      with_machine vmname false (
        a ← set_given (ExtKernel.Image opts) KernelSetImage;
        b ← set_given (ExtKernel.Cmdline opts) KernelSetCmdline;
        c ← set_given (ExtKernel.Initrd opts) KernelSetInitrd;
        d ← set_given (ExtKernel.Modiso opts) KernelSetModiso;
        if a || b || c || d then save_conf else mret ())))
  end.

Definition ExternalKernelRemove (vmname : string) : handler :=
  conf_task "cannot update external kernel properties" vmname (on_C KernelRemoveConf).
End handlers.

(** ** The requests as one type *)

Inductive request :=
  | ReqDiskAttach (opts : option Disk.Properties) (position : Z) (live : bool)
  | ReqDiskDetach (diskname : string) (live : bool)
  | ReqDiskSetReadLimit (diskname : string) (limit : Z) (live : bool)
  | ReqDiskSetWriteLimit (diskname : string) (limit : Z) (live : bool)
  | ReqDiskRemoveQemuBitmap (diskname : string)
  | ReqDiskResizeQemuBlockdev (diskname : string)
  | ReqMemorySetLimits (actual total : Z) (live : bool)
  | ReqCPUSetLimits (actual total : Z) (live : bool)
  | ReqCPUSetSockets (count : Z)
  | ReqCPUSetQuota (quota : Z) (live : bool)
  | ReqCPUSetModel (model : string)
  | ReqCdromAttach (opts : option Cdrom.Properties) (position : Z) (live : bool)
  | ReqCdromDetach (devname : string) (live : bool)
  | ReqCdromChangeMedia (devname media : string) (live : bool)
  | ReqCdromRemoveMedia (devname : string) (live : bool)
  | ReqNetIfaceAttach (opts : option NetIface.Properties) (live : bool)
  | ReqNetIfaceDetach (ifname : string) (live : bool)
  | ReqNetIfaceSetLinkState (ifname : string) (state : NetLinkState)
  | ReqNetIfaceSetUpScript (ifname script : string)
  | ReqNetIfaceSetDownScript (ifname script : string)
  | ReqNetIfaceSetQueues (ifname : string) (queues : Z)
  | ReqChannelAttach_VSock (opts : option ChannelVSock.Properties) (live : bool)
  | ReqChannelDetach_VSock (live : bool)
  | ReqChannelAttach_SerialPort
  | ReqChannelDetach_SerialPort
  | ReqHostDeviceAttach (opts : option HostDevice.Properties)
  | ReqHostDeviceDetach (hexaddr : string)
  | ReqHostDeviceSetMultifunctionOption (hexaddr : string) (enabled : bool)
  | ReqHostDeviceSetPrimaryGpuOption (hexaddr : string) (enabled : bool)
  | ReqInputDeviceAttach (opts : option InputDevice.Properties)
  | ReqInputDeviceDetach (deviceType : string)
  | ReqCloudInitDriveAttach (opts : option CloudInitDrive.Properties)
  | ReqCloudInitDriveDetach
  | ReqCloudInitDriveChangeMedia (media : string) (live : bool)
  | ReqFirmwareSet (opts : option Firmware.Properties) (qemuRootDir : string)
  | ReqFirmwareRemove
  | ReqExternalKernelSet (opts : option ExtKernel.t)
  | ReqExternalKernelRemove.

(** The host as one request meets it. *)
Record circumstances := {
  the_users : string → sys string;
  the_rand : sys (Z * Z * Z);
  the_write : write_result;
  the_refusal : targets → option goerr;
  the_copy : string → string → copied;
  the_QemuRootDir : string;
}.

Section serve.
Context {P : Type} `{Env} {hst : Host} `{PciBus, Runtime P} (e : circumstances).
Abbreviation run f := (f (the_users e) (the_rand e) (the_write e) (the_refusal e)).

Definition serve (vmname : string) (q : request) : op (world P) () :=
  match q with
  | ReqDiskAttach o i l => run DiskAttach vmname o i l
  | ReqDiskDetach n l => run DiskDetach vmname n l
  | ReqDiskSetReadLimit n v l => run DiskSetReadLimit vmname n v l
  | ReqDiskSetWriteLimit n v l => run DiskSetWriteLimit vmname n v l
  | ReqDiskRemoveQemuBitmap n => DiskRemoveQemuBitmap (the_users e) (the_rand e) (the_refusal e) vmname n
  | ReqDiskResizeQemuBlockdev n => DiskResizeQemuBlockdev (the_users e) (the_rand e) (the_refusal e) vmname n
  | ReqMemorySetLimits a t l => run MemorySetLimits vmname a t l
  | ReqCPUSetLimits a t l => run CPUSetLimits vmname a t l
  | ReqCPUSetSockets v => run CPUSetSockets vmname v
  | ReqCPUSetQuota v l => run CPUSetQuota vmname v l
  | ReqCPUSetModel s => run CPUSetModel vmname s
  | ReqCdromAttach o i l => run CdromAttach vmname o i l
  | ReqCdromDetach n l => run CdromDetach vmname n l
  | ReqCdromChangeMedia n m l => run CdromChangeMedia vmname n m l
  | ReqCdromRemoveMedia n l => run CdromRemoveMedia vmname n l
  | ReqNetIfaceAttach o l => run NetIfaceAttach vmname o l
  | ReqNetIfaceDetach n l => run NetIfaceDetach vmname n l
  | ReqNetIfaceSetLinkState n st =>
      NetIfaceSetLinkState (the_users e) (the_rand e) (the_refusal e) vmname n st
  | ReqNetIfaceSetUpScript n f => run NetIfaceSetUpScript vmname n f
  | ReqNetIfaceSetDownScript n f => run NetIfaceSetDownScript vmname n f
  | ReqNetIfaceSetQueues n v => run NetIfaceSetQueues vmname n v
  | ReqChannelAttach_VSock o l => run ChannelAttach_VSock vmname o l
  | ReqChannelDetach_VSock l => run ChannelDetach_VSock vmname l
  | ReqChannelAttach_SerialPort => ChannelAttach_SerialPort
  | ReqChannelDetach_SerialPort => ChannelDetach_SerialPort
  | ReqHostDeviceAttach o => run HostDeviceAttach vmname o
  | ReqHostDeviceDetach a => run HostDeviceDetach vmname a
  | ReqHostDeviceSetMultifunctionOption a b => run HostDeviceSetMultifunctionOption vmname a b
  | ReqHostDeviceSetPrimaryGpuOption a b => run HostDeviceSetPrimaryGpuOption vmname a b
  | ReqInputDeviceAttach o => run InputDeviceAttach vmname o
  | ReqInputDeviceDetach t => run InputDeviceDetach vmname t
  | ReqCloudInitDriveAttach o => run CloudInitDriveAttach vmname o
  | ReqCloudInitDriveDetach => run CloudInitDriveDetach vmname
  | ReqCloudInitDriveChangeMedia m l => run CloudInitDriveChangeMedia vmname m l
  | ReqFirmwareSet o d => run FirmwareSet (the_copy e) (the_QemuRootDir e) vmname o d
  | ReqFirmwareRemove => run FirmwareRemove vmname
  | ReqExternalKernelSet o => run ExternalKernelSet vmname o
  | ReqExternalKernelRemove => run ExternalKernelRemove vmname
  end.
End serve.
End Server.
