(* ===== verification/ServerFacts.v ===== *)
(** ServerFacts: what the handlers guarantee: the file of a machine changes only
    when a handler succeeds or its very write fails, and then to a well-formed
    configuration or what that write has left, and no other file but the images of
    a firmware; what
    happens on repeated attachments, new limits and resets of the firmware. *)

#[local] Set Warnings "-register-all".

From S2P Require Import Prelude.
From S2P Require Import GoStd.
From S2P Require Import GoFacts.
From S2P Require Import Pool.
From S2P Require Import PciAddress.
From S2P Require Import Backend.
From S2P Require Import PciDevice.
From S2P Require Import Resources.
From S2P Require Import Drivers.
From S2P Require Import Disks.
From S2P Require Import Cdroms.
From S2P Require Import NetIfaces.
From S2P Require Import HostDevices.
From S2P Require Import Peripherals.
From S2P Require Import Json.
From S2P Require Import InstanceProperties.
From S2P Require Import InstanceConf.
From S2P Require Import ConfInvariant.
From S2P Require Import ConfTheorems.
From S2P Require Import ConfJson.
From S2P Require Import Server.

Open Scope Z_scope.

Module ServerFacts.
Import Server ConfJson.
Section facts.
Context {P : Type} `{Env} {hst : Host} `{PciBus, Runtime P}.
Abbreviation conf := InstanceProperties.t.
Abbreviation confs s := (InstanceConf.props (C s)).
Implicit Types s : session P.

(** The files that a request may copy next to the configuration. *)
Definition firmware_files (vmname : string) : list string :=
  let vmdir := Filepath.Join [CONFDIR; vmname] in
  [Filepath.Join [vmdir; "config_eficode"]; Filepath.Join [vmdir; "config_efivars"]].
Definition copies (vmname : string) (q : request) : list string :=
  match q with ReqFirmwareSet _ _ => firmware_files vmname | _ => [] end.

(** What a request that has come to write the configuration [c] leaves in its file. *)
Definition stored {A} (w : write_result) (r : outcome A) (c : InstanceConf.InstanceConf) (v : option (option json)) : Prop :=
  match w with
  | Written => is_ret r = true ∧ v = Some (Some (enc_conf (InstanceConf.props c)))
  | Failed _ remains => is_ret r = false ∧ v = remains
  end.

(** [I] holds of the configuration while a body runs; the files but those of [X]
    are left alone, or one of them gets the encoding of such a configuration at
    the very end. *)
Section bodies.
Context (X : list string) (I : conf → Prop) (HI : ∀ c, preserves I (exec c)) (wr : write_result).
Definition alike (f f' : files) : Prop := ∀ path, path ∉ X → f !! path = f' !! path.

(** A body that works on the instances, and on the files of [X]. *)
Definition quiet {A} (m : op (session P) A) : Prop :=
  ∀ s, I (confs s) → alike (s_fs (m s).2) (s_fs s) ∧ I (confs (m s).2) ∧
       InstanceConf.confname (C (m s).2) = InstanceConf.confname (C s).

(** A body that may end by saving. *)
Definition kept_or_stored {A} (r : outcome A) (name : string) (f f' : files) : Prop :=
  ∀ path, path ∉ X → f' !! path = f !! path ∨
    ∃ c, I (InstanceConf.props c) ∧ InstanceConf.confname c = name ∧ path = InstanceConf.config c ∧ stored wr r c (f' !! path).
Definition tidy {A} (m : op (session P) A) : Prop :=
  ∀ s, I (confs s) → kept_or_stored (m s).1 (InstanceConf.confname (C s)) (s_fs s) (s_fs (m s).2).

Lemma kept {A} (r : outcome A) name f f' : alike f' f → kept_or_stored r name f f'.
Proof. intros Hf path Hp. left. by apply Hf. Qed.
Lemma kept_on {A} (r : outcome A) name f f1 f' : alike f1 f → kept_or_stored r name f1 f' → kept_or_stored r name f f'.
Proof. intros Hf Hs path Hp. rewrite <- (Hf path Hp). by apply Hs. Qed.

Lemma quiet_tidy {A} (m : op (session P) A) : quiet m → tidy m.
Proof. intros Hm s Hs. by apply kept, Hm. Qed.

Lemma quiet_ret {A} (a : A) : quiet (mret a).
Proof. by intros s. Qed.
Lemma quiet_throw {A} e : quiet (throw e : op (session P) A).
Proof. by intros s. Qed.
Lemma quiet_get : quiet get.
Proof. by intros s. Qed.
Lemma quiet_lift {A} (o : outcome A) : quiet (lift o).
Proof. by intros s. Qed.
Lemma quiet_fail_if c e : quiet (fail_if c e).
Proof. by destruct c; intros s. Qed.

Lemma quiet_bind {A B} (m : op (session P) A) (k : A → op (session P) B) :
  quiet m → (∀ a, quiet (k a)) → quiet (m ≫= k).
Proof.
  intros Hm Hk s Hs. go_unfold. destruct (Hm s Hs) as (H1' & H2' & H3').
  destruct (m s) as [[a|e|p] s1]; simpl in *; [|done..].
  destruct (Hk a s1 H2') as (H4 & H5 & H6). rewrite H6. split; [|done]. intros path Hp. by rewrite (H4 path Hp), (H1' path Hp).
Qed.

Lemma tidy_bind {A B} (m : op (session P) A) (k : A → op (session P) B) :
  quiet m → (∀ a, tidy (k a)) → tidy (m ≫= k).
Proof.
  intros Hm Hk s Hs. go_unfold. destruct (Hm s Hs) as (Hf & Hc & Hn).
  destruct (m s) as [[a|e|p] s1]; simpl in *; [|by apply kept..].
  rewrite <- Hn. by eapply kept_on, Hk.
Qed.

Lemma quiet_unless b m : quiet m → quiet (unless b m).
Proof.
  intros Hm s Hs. specialize (Hm s Hs). unfold unless. destruct (m s) as [[] s1]; try done.
  by destruct (b e).
Qed.
Lemma quiet_on_error b m h : quiet m → quiet h → quiet (on_error b m h).
Proof.
  intros Hm Hh s Hs. specialize (Hm s Hs). unfold on_error. destruct (m s) as [[u|e|p] s1]; try done.
  destruct (b e); [|done]. destruct Hm as (H1' & H2' & H3').
  destruct (Hh s1 H2') as (H4 & H5 & H6). simpl in *. rewrite H6. split; [|done]. intros path Hp. by rewrite (H4 path Hp), (H1' path Hp).
Qed.
Lemma tidy_or_return b m k : quiet m → tidy k → tidy (or_return b m k).
Proof.
  intros Hm Hk s Hs. destruct (Hm s Hs) as (Hf & Hc & Hn). unfold or_return.
  destruct (m s) as [[u|e|p] s1]; simpl in *.
  2: { by destruct (b e); apply kept. }
  2: { by apply kept. }
  rewrite <- Hn. by eapply kept_on, Hk.
Qed.

Lemma quiet_if_live live m : quiet m → quiet (if_live live m).
Proof.
  intros Hm. apply quiet_bind; [apply quiet_get|]. intros s. by destruct (_ && _); [|apply quiet_ret].
Qed.
Lemma quiet_on_C rand o : quiet (on_C rand o).
Proof.
  intros s Hs. unfold on_C. specialize (HI (at_call rand o) _ Hs).
  by destruct (exec _ _) as [r p].
Qed.
Lemma quiet_on_R rand o : quiet (on_R rand o).
Proof. intros s Hs. unfold on_R. destruct (R s); [|done]. by destruct (inst_exec _ _). Qed.
Lemma quiet_on_files {A} (m : op files A) : (∀ f, alike (m f).2 f) → quiet (on_files m).
Proof. intros Hm s Hs. unfold on_files, zoom. specialize (Hm (s_fs s)). by destruct (m (s_fs s)). Qed.
Lemma tidy_save : tidy (save_conf wr).
Proof.
  intros s Hs path Hp. unfold save_conf, Save, lift. go_unfold.
  destruct (ValidateMachineName _) as [[]| |]; simpl; [|by left..].
  destruct wr as [|e remains] eqn:Hw; simpl.
  - destruct (decide (path = InstanceConf.config (C s))) as [->|Hne].
    + right. exists (C s). split_and!; [done..|]. by rewrite lookup_insert_eq.
    + left. by rewrite lookup_insert_ne.
  - destruct (decide (path = InstanceConf.config (C s))) as [->|Hne].
    + right. exists (C s). split_and!; [done..|]. by rewrite lookup_partial_alter_eq.
    + left. by rewrite lookup_partial_alter_ne.
Qed.

(** ** Handlers *)

(** The same of the files a handler finds and leaves. *)
Definition careful (vmname : string) (users : string → sys string) (h : op (world P) ()) : Prop :=
  ∀ w c, GetInstanceConf users (fs w) vmname = Ret c → I (InstanceConf.props c) →
    kept_or_stored (h w).1 (InstanceConf.confname c) (fs w) (fs (h w).2).

Lemma same_kept {A} (r : outcome A) name f : kept_or_stored r name f f.
Proof. by apply kept. Qed.
Hint Resolve same_kept : core.
Lemma careful_machine vmname users runtime m :
  tidy m → careful vmname users (with_machine users vmname runtime m).
Proof.
  intros Hm w c Hg Hc. unfold with_machine. rewrite Hg. cbn [mbind outcome_bind].
  destruct (GetRunning users vmname runtime (mon w)) as [r|e|p]; simpl; [|auto..].
  specialize (Hm {| s_fs := fs w; C := c; R := r |} Hc). by destruct (m _) as [res s].
Qed.

Lemma careful_throw vmname users e : careful vmname users (throw e).
Proof. intros w c _ _. simpl. auto. Qed.
Lemma careful_task vmname users refuse tgt h :
  careful vmname users h → careful vmname users (TaskRunFunc refuse tgt h).
Proof. intros Hh. unfold TaskRunFunc. destruct (refuse tgt); [apply careful_throw|done]. Qed.
Lemma stored_ret {A B} (r : outcome A) (r' : outcome B) c v : is_ret r = is_ret r' → stored wr r c v → stored wr r' c v.
Proof. unfold stored. destruct wr; intros ->; done. Qed.
Lemma careful_wrap vmname users what h :
  careful vmname users h → careful vmname users (wrap what h).
Proof.
  intros Hh w c Hg Hc path Hp. specialize (Hh w c Hg Hc path Hp). unfold wrap, map_err.
  destruct (h w) as [r w']; simpl in *. destruct Hh as [Hh|(c' & Hi & Hn & He & Hs)].
  - by destruct r; left.
  - right. exists c'. split_and!; [done..|by destruct r|]. by destruct r.
Qed.
Lemma careful_bind_lift {A} vmname users (o : outcome A) k :
  (∀ a, careful vmname users (k a)) → careful vmname users (lift o ≫= k).
Proof.
  intros Hk w c Hg Hc. go_unfold. destruct o as [a|e|p]; [by apply Hk|simpl; auto..].
Qed.
Lemma careful_nonempty vmname users what name k :
  (∀ a, careful vmname users (k a)) → careful vmname users (nonempty what name ≫= k).
Proof.
  intros Hk w c Hg Hc. unfold nonempty. go_unfold. case_bool_decide; [simpl; auto|by apply Hk].
Qed.
Lemma careful_locally {T} vmname users (m : op T ()) t k :
  (∀ a, careful vmname users (k a)) → careful vmname users (locally m t ≫= k).
Proof.
  intros Hk w c Hg Hc. unfold locally. go_unfold.
  destruct (m t) as [[u|e|p] t']; [by apply Hk|simpl; auto..].
Qed.
End bodies.

(** The preparation of a firmware makes no other file. *)
Lemma install_files copy basename dst dirs X f : dst ∈ X → alike X (install copy basename dst dirs f).2 f.
Proof.
  intros Hd path Hp. unfold install. go_unfold. destruct (LookForFile _ _); [|done..].
  assert (path ≠ dst) by set_solver. destruct (copy _ _); simpl; by rewrite ?lookup_insert_ne, ?lookup_partial_alter_ne.
Qed.
Lemma alike_trans X f f1 f2 : alike X f2 f1 → alike X f1 f → alike X f2 f.
Proof. intros Ha Hb path Hp. by rewrite (Ha path Hp), (Hb path Hp). Qed.
Lemma alike_bind {A B} X (m : op files A) (k : A → op files B) f :
  (∀ f, alike X (m f).2 f) → (∀ a f, alike X (k a f).2 f) → alike X ((m ≫= k) f).2 f.
Proof.
  intros Hm Hk. go_unfold. specialize (Hm f). destruct (m f) as [[a|e|p] f1]; simpl in *; [|done..].
  by eapply alike_trans.
Qed.
Lemma prepare_firmware_files copy vmname root opts f :
  alike (firmware_files vmname) (prepare_firmware copy vmname root opts f).2 f.
Proof.
  unfold prepare_firmware. cbv zeta. apply alike_bind; [done|intros flash f'].
  destruct (bool_decide (Firmware.Image opts ∈ ["bios"; "legacy"])); [done|].
  destruct (bool_decide (Firmware.Image opts ∈ ["efi"; "uefi"; "ovmf"])); [|done].
  apply alike_bind; [intros ?; apply install_files; left|intros code f2].
  apply alike_bind; [intros f3|done]. destruct (bool_decide (flash = "")); [apply install_files; right; left|done].
Qed.

Section serve.
Context (I : conf → Prop) (HI : ∀ c, preserves I (exec c)).

Ltac handle :=
  repeat lazymatch goal with
    | |- careful _ _ _ _ _ (throw _) => apply careful_throw
    | |- careful _ _ _ _ _ (wrap _ _) => apply careful_wrap
    | |- careful _ _ _ _ _ (TaskRunFunc _ _ _) => apply careful_task
    | |- careful _ _ _ _ _ (mbind _ (lift _)) => apply careful_bind_lift; intros ?
    | |- careful _ _ _ _ _ (mbind _ (locally _ _)) => apply careful_locally; intros ?
    | |- careful _ _ _ _ _ (mbind _ (nonempty _ _)) => apply careful_nonempty; intros ?
    | |- careful _ _ _ _ _ (with_machine _ _ _ _) => apply careful_machine
    | |- careful _ _ _ _ _ (match ?x with _ => _ end) => destruct x
    | |- tidy _ _ _ (save_conf _) => apply tidy_save
    | |- tidy _ _ _ (or_return _ _ _) => apply tidy_or_return
    | |- tidy _ _ _ (mbind _ _) => apply tidy_bind; [|intros ?]
    | |- tidy _ _ _ (match ?x with _ => _ end) => destruct x
    | |- tidy _ _ _ _ => apply quiet_tidy
    | |- quiet _ _ (mret _) => apply quiet_ret
    | |- quiet _ _ (throw _) => apply quiet_throw
    | |- quiet _ _ get => apply quiet_get
    | |- quiet _ _ (lift _) => apply quiet_lift
    | |- quiet _ _ (fail_if _ _) => apply quiet_fail_if
    | |- quiet _ _ (on_C _ _) => by apply quiet_on_C
    | |- quiet _ _ (on_files (prepare_firmware _ _ _ _)) => apply quiet_on_files; intros ?; apply prepare_firmware_files
    | |- quiet _ _ (on_R _ _) => apply quiet_on_R
    | |- quiet _ _ (unless _ _) => apply quiet_unless
    | |- quiet _ _ (ignored _) => apply quiet_unless
    | |- quiet _ _ (on_error _ _ _) => apply quiet_on_error
    | |- quiet _ _ (if_live _ _) => apply quiet_if_live
    | |- quiet _ _ (mbind _ _) => apply quiet_bind; [|intros ?]
    | |- quiet _ _ (match ?x with _ => _ end) => destruct x
    end.

Lemma serve_careful e vmname q :
  careful (copies vmname q) I (the_write e) vmname (the_users e) (serve e vmname q).
Proof.
  destruct q; unfold serve, copies; unfold
    DiskAttach, DiskDetach, DiskSetReadLimit, DiskSetWriteLimit, DiskRemoveQemuBitmap,
    DiskResizeQemuBlockdev,  MemorySetLimits, CPUSetLimits, conf_task,
    CPUSetSockets, CPUSetQuota, CPUSetModel, CdromAttach, CdromDetach, CdromChangeMedia,
    CdromRemoveMedia, NetIfaceAttach, NetIfaceDetach, NetIfaceSetLinkState,
    NetIfaceSetUpScript, NetIfaceSetDownScript, NetIfaceSetQueues, ChannelAttach_VSock,
    ChannelDetach_VSock, ChannelAttach_SerialPort, ChannelDetach_SerialPort,
    HostDeviceAttach, HostDeviceDetach, HostDeviceSetMultifunctionOption,
    HostDeviceSetPrimaryGpuOption, InputDeviceAttach, InputDeviceDetach,
    CloudInitDriveAttach, CloudInitDriveDetach, CloudInitDriveChangeMedia, FirmwareSet,
    FirmwareRemove, ExternalKernelSet, ExternalKernelRemove;
    unfold conf_task, SetLimits, set_given; unfold set_limits; cbv zeta; handle.
Qed.
End serve.

(** ** What a call leaves alone *)

Ltac field_preserved :=
  repeat lazymatch goal with
    | |- preserves _ (mbind _ _) => apply preserves_bind; [|intros ?]
    | |- preserves _ (lift _) => apply preserves_lift
    | |- preserves _ get => apply preserves_get
    | |- preserves _ (throw _) => apply preserves_throw
    | |- preserves _ (mret _) => apply preserves_ret
    | |- preserves _ (fail_if _ _) => apply preserves_fail_if
    | |- preserves _ (map_err _ _) => apply preserves_map_err
    | |- preserves _ (modify _) => apply preserves_modify; by intros []
    | |- preserves _ (zoom _ _ _) =>
        apply (preserves_zoom _ _ _ (λ _, True)); [done|done|by intros []]
    | |- preserves _ (match ?x with _ => _ end) => destruct x
    end.

Lemma preserves_on_firmware_name n m :
  preserves (λ p, InstanceProperties.name p = n) (InstanceConf.on_firmware m).
Proof.
  intros p Hp. unfold InstanceConf.on_firmware. go_unfold.
  destruct (InstanceProperties.Firmware_ p) as [fw|]; [|done]. by destruct (m fw).
Qed.

(** No call renames a configuration. *)
Lemma preserves_exec_name n c : preserves (λ p, InstanceProperties.name p = n) (exec c).
Proof.
  destruct c as [h r []]; cbv beta iota zeta delta [exec the_op host rnd].
  all: unfold
    InstanceConf.MachineTypeSet, InstanceConf.FirmwareSetImage,
    InstanceConf.FirmwareSetFlash, InstanceConf.FirmwareRemoveConf,
    InstanceConf.MemorySetActual, InstanceConf.MemorySetTotal, InstanceConf.CPUSetActual,
    InstanceConf.CPUSetTotal, InstanceConf.CPUSetSockets, InstanceConf.CPUSetModel,
    InstanceConf.CPUSetQuota, InstanceConf.InputDeviceAppend,
    InstanceConf.InputDeviceRemove, InstanceConf.CdromAppend, InstanceConf.CdromInsert,
    InstanceConf.CdromRemove, InstanceConf.update_cdrom, InstanceConf.CdromChangeMedia,
    InstanceConf.CdromRemoveMedia, InstanceConf.DiskAppend, InstanceConf.DiskInsert,
    InstanceConf.DiskRemove, InstanceConf.update_disk, InstanceConf.DiskSetReadIops,
    InstanceConf.DiskSetWriteIops, InstanceConf.DiskRemoveQemuBitmap,
    InstanceConf.DiskResizeQemuBlockdev, InstanceConf.NetIfaceAppend,
    InstanceConf.NetIfaceRemove, InstanceConf.update_netif, InstanceConf.NetIfaceSetQueues,
    InstanceConf.NetIfaceSetUpScript, InstanceConf.NetIfaceSetDownScript,
    InstanceConf.NetIfaceSetLinkUp, InstanceConf.NetIfaceSetLinkDown,
    InstanceConf.VSockDeviceAppend, InstanceConf.VSockDeviceRemove,
    InstanceConf.CloudInitSetMedia, InstanceConf.CloudInitSetDriver,
    InstanceConf.CloudInitRemoveConf, InstanceConf.KernelSetImage,
    InstanceConf.KernelSetCmdline, InstanceConf.KernelSetInitrd,
    InstanceConf.KernelSetModiso, InstanceConf.KernelRemoveConf,
    InstanceConf.HostDeviceAppend, InstanceConf.HostDeviceRemove,
    InstanceConf.update_hostdev, InstanceConf.HostDeviceSetMultifunctionOption,
    InstanceConf.HostDeviceSetPrimaryGPUOption, InstanceConf.VNCSetPassword;
    unfold InstanceConf.update_cdrom, InstanceConf.update_disk, InstanceConf.update_netif,
      InstanceConf.update_hostdev; cbv zeta; field_preserved; apply preserves_on_firmware_name.
Qed.


(** ** Memory limits *)

Definition with_C (p : conf) (s : session P) : session P :=
  {| s_fs := s_fs s; C := {| InstanceConf.props := p; InstanceConf.confname := InstanceConf.confname (C s) |};
     R := R s |}.
Definition memory (a t : Z) (p : conf) : conf :=
  InstanceProperties.set_Memory_ {| Memory.Actual := a; Memory.Total := t |} p.

Abbreviation C_total := (λ s, InstanceProperties.MemoryGetTotal (confs s)).
Abbreviation limits_on rand on :=
  (λ total_of, set_limits total_of (λ v, on rand (MemorySetTotal v)) (λ v, on rand (MemorySetActual v))).

Lemma on_C_MemorySetTotal rand v s :
  1 ≤ v → InstanceProperties.MemoryGetActual (confs s) ≤ v →
  on_C rand (MemorySetTotal v) s =
    (Ret (), with_C (memory (InstanceProperties.MemoryGetActual (confs s)) v (confs s)) s).
Proof.
  intros Hv Ha. unfold InstanceProperties.MemoryGetActual in *. unfold on_C.
  change (exec _) with (InstanceConf.MemorySetTotal v).
  unfold InstanceConf.MemorySetTotal, Memory.SetTotal. go_unfold.
  rewrite (proj2 (Z.ltb_ge v 1)) by lia. by rewrite (proj2 (Z.ltb_ge v _)) by lia.
Qed.

Lemma on_C_MemorySetActual rand v s :
  1 ≤ v → v ≤ InstanceProperties.MemoryGetTotal (confs s) →
  on_C rand (MemorySetActual v) s =
    (Ret (), with_C (memory v (InstanceProperties.MemoryGetTotal (confs s)) (confs s)) s).
Proof.
  intros Hv Ha. unfold InstanceProperties.MemoryGetTotal in *. unfold on_C.
  change (exec _) with (InstanceConf.MemorySetActual v).
  unfold InstanceConf.MemorySetActual, Memory.SetActual. go_unfold.
  rewrite (proj2 (Z.ltb_ge v 1)) by lia. by rewrite (proj2 (Z.ltb_ge _ v)) by lia.
Qed.

(** The order of the two calls makes room for the new values first. *)
Lemma set_limits_C rand actual total s :
  Memory.wf (InstanceProperties.Memory_ (confs s)) →
  let total' := if total =? 0 then C_total s else total in
  1 ≤ actual ≤ total' →
  limits_on rand on_C C_total actual total s = (Ret total', with_C (memory actual total' (confs s)) s).
Proof.
  intros Hm total' Ha. unfold set_limits, unless. go_unfold. fold total'.
  unfold Memory.wf in Hm. unfold InstanceProperties.MemoryGetTotal in *.
  destruct (Z.ltb_spec (Memory.Total (InstanceProperties.Memory_ (confs s))) actual) as [Hlt|Hge].
  - assert ((total =? 0) = false) as Ht by (destruct (total =? 0); simpl in *; lia).
    rewrite on_C_MemorySetTotal by (unfold InstanceProperties.MemoryGetActual; lia).
    by rewrite on_C_MemorySetActual by (unfold InstanceProperties.MemoryGetTotal; simpl; lia).
  - rewrite on_C_MemorySetActual by (unfold InstanceProperties.MemoryGetTotal; lia).
    by rewrite on_C_MemorySetTotal by (unfold InstanceProperties.MemoryGetActual; simpl; lia).
Qed.

Lemma save_conf_run s :
  ValidateMachineName (InstanceProperties.name (confs s)) = Ret () →
  save_conf Written s =
    (Ret (), {| s_fs := <[InstanceConf.config (C s) := Some (enc_conf (confs s))]> (s_fs s);
                C := C s; R := R s |}).
Proof.
  intros Hn. unfold save_conf, Save, lift. go_unfold. unfold InstanceProperties.Name.
  by rewrite Hn.
Qed.

(** new memory limits for a machine that is not running, or not to be
    changed while it runs, are accepted whenever 1 <= actual <= total, whatever
    the current ones, and saved; a total of 0 stands for the current one. *)
Theorem MemorySetLimits_accepted users rand refuse vmname actual total live w c r :
  GetInstanceConf users (fs w) vmname = Ret c → Conf.wf (InstanceConf.props c) →
  ValidateMachineName (InstanceProperties.name (InstanceConf.props c)) = Ret () →
  refuse (BlockAnyOperations vmname []) = None →
  GetRunning users vmname true (mon w) = Ret r → (live = true → r = None) →
  let total' := if total =? 0 then InstanceProperties.MemoryGetTotal (InstanceConf.props c) else total in
  1 ≤ actual ≤ total' →
  (MemorySetLimits users rand Written refuse vmname actual total live w).1 = Ret () ∧
  fs (MemorySetLimits users rand Written refuse vmname actual total live w).2 =
    <[InstanceConf.config c := Some (enc_conf (memory actual total' (InstanceConf.props c)))]> (fs w).
Proof.
  intros Hg Hc Hn Hrf Hr Hlive total' Ha.
  unfold MemorySetLimits, SetLimits, wrap, TaskRunFunc, with_machine, map_err. rewrite Hrf, Hg.
  cbn [mbind outcome_bind]. rewrite Hr. cbn [mbind outcome_bind].
  set (s := Build_session (fs w) c r).
  assert (live && bool_decide (is_Some (R s)) = false) as Hl.
  { destruct live; [|done]. unfold s. simpl. by rewrite (Hlive eq_refl). }
  rewrite (op_bind_run get _ s s s) by done. rewrite Hl.
  rewrite (op_bind_run (mret total) _ s total s) by done.
  rewrite (op_bind_run _ _ _ _ _ (set_limits_C rand actual total s (Conf.wf_memory _ Hc) Ha)).
  rewrite save_conf_run by exact Hn. done.
Qed.
End facts.
End ServerFacts.
