(* ===== verification/ServerTheorems.v ===== *)
(** ServerTheorems: the handlers over a machine that runs in QEMU, and requests
    that end otherwise than they are meant to. *)

#[local] Set Warnings "-register-all".

From S2P Require Import Prelude.
From S2P Require Import GoStd.
From S2P Require Import GoFacts.
From S2P Require Import Pool.
From S2P Require Import PciAddress.
From S2P Require Import Backend.
From S2P Require Import PciDevice.
From S2P Require Import Resources.
From S2P Require Import Drivers.
From S2P Require Import Disks.
From S2P Require Import Cdroms.
From S2P Require Import NetIfaces.
From S2P Require Import HostDevices.
From S2P Require Import Peripherals.
From S2P Require Import Json.
From S2P Require Import InstanceProperties.
From S2P Require Import InstanceConf.
From S2P Require Import ConfInvariant.
From S2P Require Import ConfTheorems.
From S2P Require Import ConfJson.
From S2P Require Import Monitor.
From S2P Require Import InstanceQemu.
From S2P Require Import InstanceQemuFacts.
From S2P Require Import InstanceQemuTheorems.
From S2P Require Import Server.
From S2P Require Import ServerFacts.

Open Scope Z_scope.

(** QEMU as the running side of the handlers. *)
Definition qemu_runtime `{Env, Outside} (s : InstanceQemu.schedule) : Runtime InstanceQemu.t := {|
  GetInstanceQemu := InstanceQemu.GetInstanceQemu s;
  inst_props := InstanceQemu.props;
  inst_exec c := let _ := host c in InstanceQemu.exec (the_op c) (rnd c);
|}.

Module ServerTheorems.
Import Server ServerFacts ConfJson.

Section live.
Context `{Env} {hst : Host} `{PciBus, Outside} (sched : InstanceQemu.schedule).
#[local] Instance live : Runtime InstanceQemu.t := qemu_runtime sched.
Abbreviation session := (session InstanceQemu.t).

(** The total of the running machine is what is saved. *)
Lemma set_limits_R rand actual total (s : session) r :
  R s = Some r →
  let R_total s := match R s with Some p => InstanceProperties.MemoryGetTotal (inst_props p) | None => 0 end in
  (total = 0 ∨ total = InstanceProperties.MemoryGetTotal (InstanceQemu.props r)) →
  1 ≤ actual ≤ InstanceProperties.MemoryGetTotal (InstanceQemu.props r) →
  (∀ h v, answer h (Run (balloon v)) = inl ()) →
  ∃ r', set_limits R_total (λ v, on_R rand (MemorySetTotal v)) (λ v, on_R rand (MemorySetActual v))
          actual total s
        = (Ret (InstanceProperties.MemoryGetTotal (InstanceQemu.props r)),
           {| s_fs := s_fs s; C := C s; R := Some r' |}).
Proof.
  intros Hr R_total Ht Ha Hb. unfold set_limits. rewrite (op_bind_run get _ s s s) by done.
  assert (R_total s = InstanceProperties.MemoryGetTotal (InstanceQemu.props r)) as Hrt
    by (unfold R_total; by rewrite Hr).
  rewrite Hrt. assert ((if total =? 0 then InstanceProperties.MemoryGetTotal (InstanceQemu.props r) else total)
    = InstanceProperties.MemoryGetTotal (InstanceQemu.props r)) as -> by (destruct (Z.eqb_spec total 0); lia).
  set (T := InstanceProperties.MemoryGetTotal _) in *.
  rewrite (proj2 (Z.ltb_ge T actual)) by lia.
  assert (∃ r1, on_R rand (MemorySetActual actual) s
    = (Ret (), {| s_fs := s_fs s; C := C s; R := Some r1 |})) as [r1 E1].
  { unfold on_R. rewrite Hr. simpl. unfold InstanceQemu.MemorySetActual.
    rewrite (op_bind_run get _ r r r) by done. unfold on_failure.
    unfold InstanceQemu.on_props, zoom, InstanceConf.MemorySetActual, Memory.SetActual, zoom. go_unfold.
    rewrite (proj2 (Z.ltb_ge actual 1)) by lia. simpl.
    assert ((Memory.Total (InstanceProperties.Memory_ (InstanceQemu.props r)) <? actual) = false) as ->
      by (apply Z.ltb_ge; unfold T, InstanceProperties.MemoryGetTotal in Ha; lia).
    simpl. unfold Backend.call. rewrite Hb. by eexists. }
  rewrite (op_bind_run _ _ s () {| s_fs := s_fs s; C := C s; R := Some r1 |}).
  2: { by rewrite (op_bind_run _ _ _ _ _ E1). }
  by exists r1.
Qed.

(** new memory limits for a machine while it runs: the total can only be named
    as it is, or left out with 0, and then the one the machine was started with
    replaces the configured one, whatever that is. *)
Theorem MemorySetLimits_live users rand refuse vmname actual total w c r :
  GetInstanceConf users (fs w) vmname = Ret c → Conf.wf (InstanceConf.props c) →
  ValidateMachineName (InstanceProperties.name (InstanceConf.props c)) = Ret () →
  refuse (BlockAnyOperations vmname []) = None →
  GetRunning users vmname true (mon w) = Ret (Some r) →
  let running := InstanceProperties.MemoryGetTotal (InstanceQemu.props r) in
  (total = 0 ∨ total = running) → 1 ≤ actual ≤ running →
  (∀ h v, answer h (Run (balloon v)) = inl ()) →
  (MemorySetLimits users rand Written refuse vmname actual total true w).1 = Ret () ∧
  fs (MemorySetLimits users rand Written refuse vmname actual total true w).2 =
    <[InstanceConf.config c := Some (enc_conf (memory actual running (InstanceConf.props c)))]> (fs w).
Proof.
  intros Hg Hc Hn Hrf Hr running Ht Ha Hb.
  unfold MemorySetLimits, SetLimits, wrap, TaskRunFunc, with_machine, map_err. rewrite Hrf, Hg.
  cbn [mbind outcome_bind]. rewrite Hr. cbn [mbind outcome_bind].
  set (s := Build_session (fs w) c (Some r)).
  rewrite (op_bind_run get _ s s s) by done. rewrite bool_decide_true by by exists r. cbn [andb].
  destruct (set_limits_R rand actual total s r eq_refl Ht Ha Hb) as [r' E].
  set (s' := {| s_fs := s_fs s; C := C s; R := Some r' |}).
  rewrite (op_bind_run _ _ s running s').
  2: { rewrite (op_bind_run _ _ s () s); [exact E|]. unfold fail_if.
       assert ((0 <? total) && negb (total =? running) = false) as Hf
         by (destruct Ht as [->| ->]; [done|rewrite Z.eqb_refl; apply andb_false_r]).
       unfold running in Hf. simpl. unfold s. simpl. by rewrite Hf. }
  pose proof (set_limits_C rand actual running s' (Conf.wf_memory _ Hc)) as HC. simpl in HC.
  assert ((running =? 0) = false) as Hnz by (apply Z.eqb_neq; lia). rewrite Hnz in HC.
  rewrite (op_bind_run _ _ _ _ _ (HC Ha)).
  rewrite save_conf_run by exact Hn. done.
Qed.
End live.

(** ** Requests that succeed without doing what they say *)
Section requests.
Context {P : Type} `{Env} {hst : Host} `{PciBus, Runtime P}.
Context (users : string → sys string) (rand : sys (Z * Z * Z)) (refuse : targets → option goerr).
Implicit Types s : session P.
Abbreviation confs s := (InstanceConf.props (C s)).

Lemma disk_Validate_again o o' : Disk.Validate true o = Ret o' → Disk.Validate true o' = Ret o'.
Proof.
  intros Hv. destruct (DiskFacts.disk_Validate_ok _ _ _ Hv) as ([Hp Hd [Hr Hw] Hb] & Hpath & Hk).
  unfold Disk.Validate in Hv |- *. case_bool_decide as Hne; [done|]. rewrite <- Hpath in Hne.
  rewrite Hp, bool_decide_false by done.
  assert (validate_driver DiskDriverType "disk" true (Disk.Driver o') = Ret (Disk.Driver o')) as ->.
  { unfold validate_driver. rewrite Hd. specialize (Hk eq_refl).
    rewrite bool_decide_false by (intros E; rewrite E in Hk; done).
    by rewrite bool_decide_false by done. }
  simpl. rewrite !(proj2 (Z.ltb_ge _ 0)) by done. by destruct o'.
Qed.

(** A disk of the same short name stands in the way of the new one. *)
Section known.
Context (o : Disk.Properties) (be : backend).
Context (Hv : Disk.Validate true o = Ret o) (Hb : NewDiskBackend (Disk.Path o) = Ret be).
Abbreviation k := (BaseName be).

Lemma DiskAppend_known c :
  Conf.wf c → is_Some (Pool.lookup k (InstanceProperties.Disks c)) →
  InstanceConf.DiskAppend o c = (Throw (AlreadyConnectedError "instance_conf" (Disk.Path o)), c).
Proof.
  intros Hc [d Hl]. unfold InstanceConf.DiskAppend.
  set (nd := Disk.make o (DriverTypeValue (Disk.Driver o)) (Some be)).
  rewrite (op_bind_run _ _ c nd c) by (unfold lift, InstanceConf.new_disk; by rewrite Hv; simpl; rewrite Hb).
  unfold map_err, zoom. unfold DiskPool.Append, DiskPool.diskname. simpl Disk.Backend. cbv iota.
  rewrite (PoolFacts.Append_run DiskFacts.ok) by apply Hc.
  rewrite bool_decide_false.
  2: { intros E. destruct (Conf.wf_disks _ Hc) as [_ Hd Hne _]. apply Hne. rewrite <- E. apply Hd. by exists d. }
  rewrite PoolFacts.Exists_lookup, Hl. simpl. by destruct c.
Qed.

Lemma DiskSetIops_known c set (upd : Z → Disk.t → Disk.t) v :
  Conf.wf c → is_Some (Pool.lookup k (InstanceProperties.Disks c)) → 0 ≤ v →
  (set = InstanceConf.DiskSetReadIops ∧ upd = Disk.set_IopsRd ∨
   set = InstanceConf.DiskSetWriteIops ∧ upd = Disk.set_IopsWr) →
  set (Disk.Path o) v c
  = (Ret (), InstanceProperties.set_Disks (Pool.update k (upd v) (InstanceProperties.Disks c)) c).
Proof.
  intros Hc [d Hl] Hv0 [[-> ->]|[-> ->]]; unfold InstanceConf.DiskSetReadIops, InstanceConf.DiskSetWriteIops.
  all: rewrite (op_bind_run _ _ c () c) by (unfold fail_if; by rewrite (proj2 (Z.ltb_ge v 0)) by done).
  all: rewrite (op_bind_run get _ c c c) by done.
  all: rewrite (DiskFacts.Get_by_path _ be) by (first [apply Hc|done]).
  all: by rewrite (DiskFacts.disk_Get_lookup _ _ _ Hl).
Qed.
End known.

(** A call of [vm.C] whose effect is known. *)
Lemma on_C_run o s res p : exec (at_call rand o) (confs s) = (res, p) → on_C rand o s = (res, with_C p s).
Proof. intros He. unfold on_C. by rewrite He. Qed.

(** attaching a disk whose short name a disk of the configuration already has
    succeeds without attaching anything, even if it is a different disk: the
    limits meant for the new one are given to the old one. *)
Theorem DiskAttach_same_name vmname opts o be w c r :
  GetInstanceConf users (fs w) vmname = Ret c → Conf.wf (InstanceConf.props c) →
  ValidateMachineName (InstanceProperties.name (InstanceConf.props c)) = Ret () →
  refuse (BlockAnyOperations vmname []) = None → GetRunning users vmname true (mon w) = Ret r →
  Disk.Validate true opts = Ret o → NewDiskBackend (Disk.Path o) = Ret be →
  is_Some (Pool.lookup (BaseName be) (InstanceProperties.Disks (InstanceConf.props c))) →
  let disks := InstanceProperties.Disks (InstanceConf.props c) in
  let disks' := Pool.update (BaseName be) (Disk.set_IopsWr (Disk.IopsWr o))
                  (Pool.update (BaseName be) (Disk.set_IopsRd (Disk.IopsRd o)) disks) in
  let h := DiskAttach users rand Written refuse vmname (Some opts) (-1) false w in
  h.1 = Ret () ∧ Pool.keys disks' = Pool.keys disks ∧
  fs h.2 = <[InstanceConf.config c := Some (enc_conf (InstanceProperties.set_Disks disks'
                                               (InstanceConf.props c)))]> (fs w).
Proof.
  intros Hg Hc Hn Hrf Hr Hv Hb Hl disks disks' h. set (p := InstanceConf.props c) in *.
  pose proof (disk_Validate_again _ _ Hv) as Hv'.
  destruct (DiskFacts.disk_Validate_ok _ _ _ Hv) as ([_ _ [Hio1 Hio2] _] & _ & _).
  set (s := Build_session (fs w) c r).
  assert (on_C rand (DiskAppend o) s = (Throw (AlreadyConnectedError "instance_conf" (Disk.Path o)), with_C p s)) as E1.
  { apply on_C_run. by apply (DiskAppend_known o be). }
  set (p1 := InstanceProperties.set_Disks (Pool.update (BaseName be) (Disk.set_IopsRd (Disk.IopsRd o)) disks) p).
  assert (Conf.wf p1) as Hc1.
  { apply (Conf.preserves_update_disk (BaseName be) (Disk.set_IopsRd (Disk.IopsRd o))); [|done].
    intros d. by apply DiskFacts.ok_set_IopsRd. }
  assert (is_Some (Pool.lookup (BaseName be) (InstanceProperties.Disks p1))) as Hl1
    by (simpl; rewrite PoolFacts.lookup_update, decide_True by done; by apply fmap_is_Some).
  set (s1 := with_C p s). set (s2 := with_C p1 s1). set (p2 := InstanceProperties.set_Disks disks' p).
  assert (on_C rand (DiskSetReadIops (Disk.Path o) (Disk.IopsRd o)) s1 = (Ret (), s2)) as E2
    by (apply on_C_run, (DiskSetIops_known o be Hb); auto).
  assert (on_C rand (DiskSetWriteIops (Disk.Path o) (Disk.IopsWr o)) s2 = (Ret (), with_C p2 s2)) as E3.
  { apply on_C_run.
    change (exec _ _) with (InstanceConf.DiskSetWriteIops (Disk.Path o) (Disk.IopsWr o) p1).
    rewrite (DiskSetIops_known o be Hb p1 InstanceConf.DiskSetWriteIops Disk.set_IopsWr) by auto. done. }
  assert (h = (Ret (), {| fs := <[InstanceConf.config c := Some (enc_conf p2)]> (fs w);
                          mon := match r with Some _ => r | None => mon w end |})) as ->; [|done].
  unfold h, DiskAttach. rewrite (op_bind_run _ _ w o w) by (unfold lift; by rewrite Hv).
  unfold wrap, TaskRunFunc, with_machine, map_err. rewrite Hrf, Hg. cbn [mbind outcome_bind].
  rewrite Hr. cbn [mbind outcome_bind]. fold s.
  rewrite (op_bind_run (if_live false _) _ s () s) by done.
  rewrite (op_bind_run _ _ s () (with_C p2 s2)).
  2: { unfold on_error. change (0 <=? -1) with false. cbv iota. rewrite E1. simpl IsAlreadyConnectedError. cbv iota.
       fold s1. by rewrite (op_bind_run _ _ _ _ _ E2). }
  rewrite save_conf_run by exact Hn. simpl. done.
Qed.

(** asking for the BIOS firmware by one of its names succeeds and changes
    nothing: a machine that has another firmware keeps it. *)
Theorem FirmwareSet_bios fsutil_Copy appconf vmname image root w c :
  GetInstanceConf users (fs w) vmname = Ret c →
  ValidateMachineName (InstanceProperties.name (InstanceConf.props c)) = Ret () →
  refuse (BlockConfOperations vmname) = None → GetRunning users vmname false (mon w) = Ret None →
  InstanceProperties.Firmware_ (InstanceConf.props c) ≠ None → image = "bios" ∨ image = "legacy" →
  let h := FirmwareSet users rand Written refuse fsutil_Copy appconf vmname
             (Some {| Firmware.Image := image; Firmware.Flash := "" |}) root w in
  h.1 = Ret () ∧
  fs h.2 = <[InstanceConf.config c := Some (enc_conf (InstanceConf.props c))]> (fs w).
Proof.
  intros Hg Hn Hrf Hr Hfw Hi h.
  set (s := Build_session (fs w) c (None : option P)).
  assert (h = (Ret (), {| fs := <[InstanceConf.config c := Some (enc_conf (InstanceConf.props c))]> (fs w);
                          mon := mon w |})) as ->; [|done].
  unfold h, FirmwareSet, conf_task.
  set (o := {| Firmware.Image := image; Firmware.Flash := "" |}).
  assert (Firmware.Validate false o = Ret o) as Hv by (destruct Hi; subst image; reflexivity).
  rewrite (op_bind_run _ _ w o w) by (unfold lift; by rewrite Hv).
  unfold wrap, TaskRunFunc, with_machine, map_err. rewrite Hrf, Hg. cbn [mbind outcome_bind].
  rewrite Hr. cbn [mbind outcome_bind]. fold s.
  set (o' := {| Firmware.Image := ""; Firmware.Flash := "" |}).
  assert (on_files (prepare_firmware fsutil_Copy vmname (root_dir appconf root) o) s = (Ret o', s)) as Hp.
  { unfold on_files, zoom, prepare_firmware, o. go_unfold.
    by destruct Hi; subst image; destruct s. }
  assert (∀ x, (x = FirmwareSetImage "" ∨ x = FirmwareSetFlash "") → ignored (on_C rand x) s = (Ret (), s)) as Hx.
  { destruct (InstanceProperties.Firmware_ (InstanceConf.props c)) as [fw|] eqn:Ef; [|done].
    assert (∀ x, exec (at_call rand x) (confs s) = (Throw (ErrMsg "empty firmware image path"), confs s) ∨
      exec (at_call rand x) (confs s) = (Throw (ErrMsg "empty firmware pflash path"), confs s) →
      ignored (on_C rand x) s = (Ret (), s)) as Hi'.
    { intros x Hx. unfold ignored, unless.
      assert (with_C (confs s) s = s) as Hs by (unfold s, with_C; simpl; by destruct c).
      destruct Hx as [Hx|Hx]; by rewrite (on_C_run _ _ _ _ Hx), Hs. }
    intros x Hx. apply Hi'. destruct Hx as [-> | ->]; [left|right].
    - change (exec _ _) with (InstanceConf.FirmwareSetImage "" (confs s)).
      unfold InstanceConf.FirmwareSetImage, InstanceConf.on_firmware. go_unfold. simpl. rewrite Ef.
      simpl. rewrite Ef. simpl. destruct (InstanceConf.props c); simpl in *. by subst.
    - change (exec _ _) with (InstanceConf.FirmwareSetFlash "" (confs s)).
      unfold InstanceConf.FirmwareSetFlash, InstanceConf.on_firmware. go_unfold. simpl. rewrite Ef.
      simpl. rewrite Ef. simpl. destruct (InstanceConf.props c); simpl in *. by subst. }
  rewrite (op_bind_run _ _ s () s).
  2: { rewrite (op_bind_run _ _ s o' s) by exact Hp.
       rewrite (op_bind_run _ _ s () s) by (apply Hx; by left). apply Hx. by right. }
  rewrite save_conf_run by exact Hn. done.
Qed.

(** an external kernel can not be changed in part: a request without an image
    fails and leaves the machine as it is, whatever else it sets. *)
Theorem ExternalKernelSet_partial vmname opts w :
  Strings.TrimSpace (ExtKernel.Image opts) = "" →
  is_ret (ExternalKernelSet users rand Written refuse vmname (Some opts) w).1 = false ∧
  (ExternalKernelSet users rand Written refuse vmname (Some opts) w).2 = w.
Proof.
  intros Hi. unfold ExternalKernelSet.
  assert (∃ e, (ExtKernel.Validate true opts).1 = Throw e) as [e He].
  { unfold ExtKernel.Validate. go_unfold. simpl. rewrite Hi. simpl. by eexists. }
  rewrite (op_bind_throw _ _ w e w); [done|]. unfold locally.
  destruct (ExtKernel.Validate true opts) as [[] ?]; simpl in *; congruence.
Qed.
End requests.

(** ** A sample of requests *)
#[local] Existing Instances sample_env sample_host.
#[local] Instance no_devices : PciBus := λ a, Throw (ErrMsg a).

Definition sample_uid : string → sys string := λ _, inl "1001".
Definition loaded : InstanceConf.InstanceConf :=
  {| InstanceConf.props := InstanceProperties.set_uid 1001 sample_conf; InstanceConf.confname := "config" |}.
Definition sample_fs : files := {["/etc/kvmrun/vm1/config" := Some (enc_conf sample_conf)]}.

Lemma sample_loads : GetInstanceConf sample_uid sample_fs "vm1" = Ret loaded.
Proof. vm_compute. reflexivity. Qed.
Lemma wf_set_uid u p : Conf.wf p → Conf.wf (InstanceProperties.set_uid u p).
Proof. intros []. by split. Qed.
Lemma loaded_wf : Conf.wf (InstanceConf.props loaded).
Proof. exact (wf_set_uid 1001 sample_conf sample_conf_wf). Qed.

(** A running side that answers from a configuration. *)
#[local] Instance sample_runtime : Runtime InstanceProperties.t := {|
  GetInstanceQemu _ _ m := match m with Some p => Ret p | None => Throw (ErrNotRunning "vm1") end;
  inst_props := id;
  inst_exec := exec;
|}.
Definition idle : world InstanceProperties.t := {| fs := sample_fs; mon := None |}.
Definition agree (_ : targets) : option goerr := None.
Definition calm : circumstances :=
  {| the_users := sample_uid; the_rand := inl (1, 2, 255); the_write := Written; the_refusal := agree;
     the_copy _ _ := Copied None; the_QemuRootDir := "/" |}.


Example MemorySetLimits_accepted_witness :
  (MemorySetLimits sample_uid (inl (1, 2, 255)) Written agree "vm1" 4096 8192 false idle).1 = Ret ().
Proof.
  apply (MemorySetLimits_accepted sample_uid (inl (1, 2, 255)) agree "vm1" 4096 8192 false idle loaded None).
  - exact sample_loads.
  - exact loaded_wf.
  - reflexivity.
  - reflexivity.
  - reflexivity.
  - reflexivity.
  - simpl. lia.
Defined.

Example DiskAttach_same_name_witness :
  let h := DiskAttach sample_uid (inl (1, 2, 255)) Written agree "vm1"
             (Some (sample_disk "/dev/lvm/root")) (-1) false idle in
  h.1 = Ret ().
Proof.
  destruct (NewDiskBackend "/dev/lvm/root") as [be| |] eqn:Hb; [|vm_compute in Hb; discriminate..].
  eapply (DiskAttach_same_name sample_uid (inl (1, 2, 255)) agree "vm1" (sample_disk "/dev/lvm/root")
    (sample_disk "/dev/lvm/root") be idle loaded None).
  - exact sample_loads.
  - exact loaded_wf.
  - reflexivity.
  - reflexivity.
  - reflexivity.
  - reflexivity.
  - exact Hb.
  - vm_compute in Hb. injection Hb as <-. by_compute.
Defined.

Example FirmwareSet_bios_witness :
  (FirmwareSet sample_uid (inl (1, 2, 255)) Written agree (λ _ _, Copied None) "/" "vm1"
     (Some {| Firmware.Image := "legacy"; Firmware.Flash := "" |}) "" idle).1 = Ret ().
Proof.
  apply (FirmwareSet_bios sample_uid (inl (1, 2, 255)) agree (λ _ _, Copied None) "/" "vm1" "legacy" "" idle loaded).
  - exact sample_loads.
  - reflexivity.
  - reflexivity.
  - reflexivity.
  - vm_compute. discriminate.
  - by right.
Defined.

Example ExternalKernelSet_partial_witness :
  (ExternalKernelSet sample_uid (inl (1, 2, 255)) Written agree "vm1"
     (Some {| ExtKernel.Image := ""; ExtKernel.Cmdline := "quiet"; ExtKernel.Initrd := "";
              ExtKernel.Modiso := "" |}) idle).2 = idle.
Proof. apply ExternalKernelSet_partial. reflexivity. Defined.

(** The same machine running, with 2048 of memory in place of the 128 that are
    configured. *)
#[local] Instance live_outside : Outside := {|
  answer _ a :=
    match a with
    | Run (qom_get_string "/machine" "type") => inl "pc-i440fx-4.2-machine"
    | Run (qom_get_int _ _) => inr DeviceNotFound
    | Run query_cpus_fast => inl [77]
    | Run query_pci => inl [QemuTheorems.scsi_bus]
    | ReadProcStatus _ => inl ["Name: qemu"; "Tgid: 77"]
    | a => inl (QemuTheorems.nothing a)
    end;
  Unmarshal_file s := inr (ErrHost s);
|}.
Definition started : InstanceProperties.t :=
  InstanceProperties.set_Memory_ {| Memory.Actual := 512; Memory.Total := 2048 |}
    (InstanceProperties.set_MachineType_ "pc" sample_conf).
Definition live_world : world InstanceQemu.t :=
  {| fs := sample_fs;
     mon := Some (InstanceQemu.fresh "vm1" 0
       {| chroot := {["/var/lib/kvmrun/chroot/vm1/run/startup_config" := TextFile (Some (enc_conf started))]};
          taps := ∅; trace := [] |}) |}.
#[local] Instance sample_live : Runtime InstanceQemu.t := live InstanceQemu.go_order.

Lemma live_running :
  match GetRunning sample_uid "vm1" true (mon live_world) with
  | Ret (Some r) => InstanceProperties.MemoryGetTotal (InstanceQemu.props r) = 2048
  | _ => False
  end.
Proof. vm_compute. reflexivity. Qed.

Example MemorySetLimits_live_witness :
  fs (MemorySetLimits sample_uid (inl (1, 2, 255)) Written agree "vm1" 1024 0 true live_world).2
  = <["/etc/kvmrun/vm1/config" := Some (enc_conf (memory 1024 2048 (InstanceConf.props loaded)))]> sample_fs.
Proof.
  pose proof live_running as Hl.
  destruct (GetRunning sample_uid "vm1" true (mon live_world)) as [[r|]| |] eqn:Hr; [|destruct Hl..].
  rewrite <- Hl.
  apply (MemorySetLimits_live InstanceQemu.go_order sample_uid (inl (1, 2, 255)) agree "vm1" 1024 0 live_world
    loaded r).
  - exact sample_loads.
  - exact loaded_wf.
  - reflexivity.
  - reflexivity.
  - exact Hr.
  - by left.
  - rewrite Hl. lia.
  - reflexivity.
Defined.
End ServerTheorems.
