(* ===== verification/Ip.v ===== *)
(** Ip: addresses and networks.  First [net.ParseIP].  An address is the number its 16 bytes make, an IPv4
    address the one of its IPv4-mapped form, so that [IP.Equal] is equality. *)

From S2P Require Import Prelude.
From S2P Require Import GoStd.

Open Scope Z_scope.

Module Ip.
Import Strings.

Definition v4_mapped (v : Z) : Z := Z.lor (Z.shiftl 65535 32) v.

(** A field of the dotted form: no leading zero, at most 255. *)
Definition octet (s : string) : option Z :=
  match s with
  | "" => None
  | String a rest =>
      if bool_decide (a = "0"%char ∧ rest ≠ "") then None
      else match Strconv.parse_digits 10 s 0 with
           | Some n => if n <=? 255 then Some n else None
           | None => None
           end
  end.

Definition parse_v4 (s : string) : option Z :=
  match map octet (Split s ".") with
  | [Some a; Some b; Some c; Some d] => Some (((a * 256 + b) * 256 + c) * 256 + d)
  | _ => None
  end.

(** The hexadecimal digits a text starts with, and the rest. *)
Fixpoint hex_prefix (s : string) : string * string :=
  match s with
  | "" => ("", "")
  | String a s' =>
      match Strconv.digit_val a with
      | Some _ => let '(h, t) := hex_prefix s' in (String a h, t)
      | None => ("", s)
      end
  end.

(** The loop over the groups of 16 bits: those read, and where [::] was. *)
Fixpoint groups (fuel : nat) (s : string) (acc : list Z) (ellipsis : option nat)
    : option (list Z * option nat) :=
  match fuel with
  | O => if bool_decide (s = "") then Some (acc, ellipsis) else None
  | S fuel =>
      let '(h, rest) := hex_prefix s in
      if bool_decide (h = "" ∨ (4 < String.length h)%nat) then None
      else if HasPrefix rest "." then
        if bool_decide ((ellipsis = None ∧ length acc ≠ 6%nat) ∨ (6 < length acc)%nat) then None
        else match parse_v4 s with
             | Some v => Some (acc ++ [Z.shiftr v 16; Z.land v 65535], ellipsis)
             | None => None
             end
      else
        let acc := acc ++ [default 0 (Strconv.parse_digits 16 h 0)] in
        match rest with
        | "" => Some (acc, ellipsis)
        | String c more =>
            if bool_decide (c ≠ ":"%char ∨ more = "") then None
            else match more with
                 | String ":" more' =>
                     match ellipsis with
                     | Some _ => None
                     | None =>
                         if bool_decide (more' = "") then Some (acc, Some (length acc))
                         else groups fuel more' acc (Some (length acc))
                     end
                 | _ => groups fuel more acc ellipsis
                 end
        end
  end.

Definition parse_v6 (s : string) : option Z :=
  let value l := foldl (λ n g, n * 65536 + g) 0 l in
  let r :=
    if HasPrefix s "::" then
      let s := TrimPrefix s "::" in
      if bool_decide (s = "") then Some ([], Some 0%nat) else groups 8 s [] (Some 0%nat)
    else groups 8 s [] None in
  match r with
  | Some (l, Some i) =>
      if (8 <=? length l)%nat then None
      else Some (value (take i l ++ replicate (8 - length l) 0 ++ drop i l))
  | Some (l, None) => if (length l =? 8)%nat then Some (value l) else None
  | None => None
  end.

Fixpoint first_of (l : list ascii) : option ascii :=
  match l with
  | [] => None
  | a :: l => if bool_decide (a = "."%char ∨ a = ":"%char ∨ a = "%"%char) then Some a else first_of l
  end.

Definition ParseIP (s : string) : option Z :=
  match first_of (to_list s) with
  | Some "." => v4_mapped <$> parse_v4 s
  | Some ":" => if mem "%" s then None else parse_v6 s
  | _ => None
  end%char.
End Ip.

Example ParseIP_1 : map Ip.ParseIP ["127.0.0.1"; "::ffff:127.0.0.1"; "::1"; "1::"; "::"; "fe80::1%eth0"; "1.2.3"; "01.2.3.4";
    "1:2:3:4:5:6:7:8"; "1:2:3:4:5:6:7::"; "::1:2:3:4:5:6:7:8"; "1::2::3"; "12345::"] =
  [Some 281472812449793; Some 281472812449793; Some 1; Some (Z.shiftl 1 112); Some 0; None; None; None;
   Some (((((((65536 * 1 + 2) * 65536 + 3) * 65536 + 4) * 65536 + 5) * 65536 + 6) * 65536 + 7) * 65536 + 8);
   Some (((((((65536 * 1 + 2) * 65536 + 3) * 65536 + 4) * 65536 + 5) * 65536 + 6) * 65536 + 7) * 65536);
   None; None; None].
Proof. reflexivity. Qed.

(** ** Networks

    Networks in the notation of [net.ParseCIDR], the text of addresses,
    [utils.ParseIPNet] and [internal/ipmath].  An address is the number its 16
    bytes make; a mask is its number of ones and its length in bits. *)

Module IpNet.
Import Strings Ip.

Record IPNet := { IP : Z; ones : Z; bits : Z }.
#[export] Instance IPNet_eq_dec : EqDecision IPNet.
Proof. solve_decision. Defined.

(** [IP.To4]: the four bytes of an IPv4 address. *)
Definition To4 (ip : Z) : option Z :=
  if Z.shiftr ip 32 =? 65535 then Some (Z.land ip (Z.ones 32)) else None.

(** ** Text *)

Definition octet_of (v : Z) (k : Z) : Z := Z.land (Z.shiftr v (8 * k)) 255.
Definition string_v4 (v : Z) : string :=
  Join (map (λ k, Strconv.Itoa (octet_of v k)) [3; 2; 1; 0]) ".".

(** The eight groups, first one first. *)
Definition group (v : Z) (i : nat) : Z := Z.land (Z.shiftr v (16 * (7 - Z.of_nat i))) 65535.
Definition groups_of (v : Z) : list Z := map (group v) (seq 0 8).

(** How many groups are zero from here on. *)
Fixpoint zero_run (l : list Z) : nat :=
  match l with 0 :: l => S (zero_run l) | _ => O end.

(** The longest run of at least two zero groups, the first of its length. *)
Fixpoint longest (i : nat) (l : list Z) (best : option (nat * nat)) : option (nat * nat) :=
  match l with
  | [] => best
  | _ :: l' =>
      let n := zero_run l in
      let best := if (2 <=? n)%nat && (match best with Some (_, m) => m | None => O end <? n)%nat
                  then Some (i, n) else best in
      longest (S i) l' best
  end.

Definition hex_groups (l : list Z) : string := Join (map (Strconv.format 16) l) ":".
Definition string_v6 (v : Z) : string :=
  let l := groups_of v in
  match longest 0 l None with
  | Some (i, n) => hex_groups (take i l) +:+ "::" +:+ hex_groups (drop (i + n) l)
  | None => hex_groups l
  end.

(** [IP.String] *)
Definition IP_String (ip : Z) : string :=
  match To4 ip with Some v => string_v4 v | None => string_v6 ip end.

(** [IPNet.String]: an IPv4 address under a mask of 16 bytes takes the last four
    of them. *)
Definition IPNet_String (n : IPNet) : string :=
  let l := match To4 (IP n) with
           | Some _ => if bits n =? 128 then Z.max 0 (ones n - 96) else ones n
           | None => ones n
           end in
  IP_String (IP n) +:+ "/" +:+ Strconv.Itoa l.

(** ** Parsing *)

(** [netip.ParseAddr] without a zone: the address and its length in bits. *)
Definition ParseAddr (s : string) : option (Z * Z) :=
  (λ ip, (ip, match first_of (to_list s) with Some "."%char => 32 | _ => 128 end)) <$> ParseIP s.

(** [ip.Mask(m)]; the mask of an IPv4 address covers its last four bytes. *)
Definition masked (n : IPNet) : Z :=
  let host := bits n - ones n in Z.shiftl (Z.shiftr (IP n) host) host.

Definition invalid_cidr (s : string) : goerr := ErrMsg ("invalid CIDR address: " +:+ s).

(** [net.ParseCIDR]: the address, and its network. *)
Definition ParseCIDR (s : string) : outcome (Z * IPNet) :=
  match cut s "/" with
  | None => Throw (invalid_cidr s)
  | Some (addr, mask) =>
      match ParseAddr addr, mask, Strconv.parse_digits 10 mask 0 with
      | Some (ip, len), String _ _, Some n =>
          if n <=? len then Ret (ip, {| IP := masked {| IP := ip; ones := n; bits := len |}; ones := n; bits := len |})
          else Throw (invalid_cidr s)
      | _, _, _ => Throw (invalid_cidr s)
      end
  end.

(** [netlink.ParseIPNet], and what its documentation says of it: the network of
    [net.ParseCIDR] with the address as it was written. *)
Class Netlink := netlink_ParseIPNet : string → outcome IPNet.
Definition with_address (r : Z * IPNet) : IPNet := {| IP := r.1; ones := ones r.2; bits := bits r.2 |}.
Class NetlinkLaws `{Netlink} : Prop :=
  netlink_ParseIPNet_law s : netlink_ParseIPNet s = with_address <$> ParseCIDR s.

(** [utils.ParseIPNet]: a lone address is a network of its own. *)
Definition ParseIPNet `{Netlink} (s : string) : outcome IPNet :=
  netlink_ParseIPNet
    (if mem "/" s then s
     else match ParseIP s ≫= To4 with Some _ => s +:+ "/32" | None => s +:+ "/128" end).

(** ** [internal/ipmath] *)

(** [1 << uint(k)] and [-x] on [w] bits: a negative count is a huge one. *)
Definition shl1 (w k : Z) : Z := let k := k mod 2 ^ 64 in if k <? w then 2 ^ k else 0.
Definition neg (w x : Z) : Z := (- x) mod 2 ^ w.
Definition not (w x : Z) : Z := Z.land (Z.lnot x) (Z.ones w).

Definition mask32 (nbits : Z) : Z := neg 32 (shl1 32 (32 - nbits)).
Definition mask64 (nbits : Z) : Z := neg 64 (shl1 64 (64 - nbits)).

Definition GetLastIPv4 (ipnet : IPNet) : outcome Z :=
  match To4 (IP ipnet) with
  | None => Throw (ErrMsg "not an IPv4 address")
  | Some v => Ret (Z.lor v (not 32 (mask32 (ones ipnet))))
  end.

Definition invmask (nbits : Z) : Z * Z :=
  if 64 <? nbits then (not 64 (mask64 64), not 64 (mask64 (nbits - 64)))
  else (not 64 (mask64 nbits), mask64 64).

Definition GetLastIPv6 (ipnet : IPNet) : outcome Z :=
  match To4 (IP ipnet) with
  | Some _ => Throw (ErrMsg "not an IPv6 address")
  | None =>
      let '(m0, m1) := invmask (ones ipnet) in
      let hi := Z.lor (Z.shiftr (IP ipnet) 64) m0 in
      let lo := Z.lor (Z.land (IP ipnet) (Z.ones 64)) m1 in
      Ret (Z.lor (Z.shiftl hi 64) lo)
  end.

(** An address is in a network: they agree above the host's bits. *)
Definition in_network (n : IPNet) (ip : Z) : Prop :=
  Z.shiftr ip (bits n - ones n) = Z.shiftr (IP n) (bits n - ones n).
End IpNet.

Section examples.
Import IpNet.
#[local] Instance documented : Netlink := λ s, with_address <$> ParseCIDR s.

Example strings_1 : map (λ s, default "" (IP_String <$> Ip.ParseIP s))
    ["127.0.0.1"; "::ffff:1.2.3.4"; "::1"; "1::"; "::"; "2001:DB8:0:0:1:0:0:1"; "1:0:0:2:0:0:0:3"; "1:2:3:4:5:6:7:0"] =
  ["127.0.0.1"; "1.2.3.4"; "::1"; "1::"; "::"; "2001:db8::1:0:0:1"; "1:0:0:2::3"; "1:2:3:4:5:6:7:0"].
Proof. reflexivity. Qed.

Example networks_1 : map (λ s, match ParseIPNet s with Ret n => IPNet_String n | _ => "-" end)
    ["10.0.0.1"; "10.0.0.1/024"; "fe80::1"; "2001:db8::1/64"; "::ffff:1.2.3.4/120"; "::ffff:1.2.3.4/64"; "10.0.0.1/33"; "10.0.0.1/"; "x"; "10.0.0.1/+1"] =
  ["10.0.0.1/32"; "10.0.0.1/24"; "fe80::1/128"; "2001:db8::1/64"; "1.2.3.4/24"; "1.2.3.4/0"; "-"; "-"; "-"; "-"].
Proof. reflexivity. Qed.

Example last_1 : map (λ s, match ParseIPNet s with
    | Ret n => match GetLastIPv4 n with Ret v => string_v4 v | _ => match GetLastIPv6 n with Ret v => IP_String v | _ => "" end end
    | _ => "" end) ["10.0.0.1/24"; "10.0.0.1/32"; "10.0.0.1/0"; "2001:db8::1/64"; "2001:db8::1/65"; "2001:db8::1/0"] =
  ["10.0.0.255"; "10.0.0.1"; "255.255.255.255"; "2001:db8::ffff:ffff:ffff:ffff"; "2001:db8::7fff:ffff:ffff:ffff"; "ffff:ffff:ffff:ffff:ffff:ffff:ffff:ffff"].
Proof. vm_compute. reflexivity. Qed.
End examples.
