(* ===== verification/IpFacts.v ===== *)
(** IpFacts: the texts of addresses and networks are read back as what they
    are, and [internal/ipmath] computes the last address of a network. *)

From S2P Require Import Prelude.
From S2P Require Import GoStd.
From S2P Require Import GoFacts.
From S2P Require Import Ip.

Open Scope Z_scope.
#[local] Set Warnings "-register-all".

Module IpFacts.
Import Strings Ip IpNet.

(** ** Addresses *)

Definition is_ip (ip : Z) : Prop := 0 ≤ ip < 2 ^ 128.
Definition is_v4 (v : Z) : Prop := 0 ≤ v < 2 ^ 32.

(** A word below the bits of another is added to it. *)
Lemma lor_add a b k : 0 ≤ k → 0 ≤ b < 2 ^ k → Z.lor (Z.shiftl a k) b = a * 2 ^ k + b.
Proof.
  intros Hk Hb. rewrite <- Z.shiftl_mul_pow2 by done.
  assert (Z.land (Z.shiftl a k) b = 0) as Hd.
  { apply Z.bits_inj'. intros n Hn. rewrite Z.land_spec, Z.bits_0.
    destruct (Z.ltb_spec n k); [by rewrite Z.shiftl_spec_low|].
    by rewrite <- (Z.mod_small b (2 ^ k)), Z.mod_pow2_bits_high, andb_false_r by lia. }
  by rewrite <- Z.lxor_lor, <- Z.add_nocarry_lxor.
Qed.

Lemma lor_ones v h : 0 ≤ h → Z.lor v (Z.ones h) = v / 2 ^ h * 2 ^ h + (2 ^ h - 1).
Proof.
  intros Hh. replace (2 ^ h - 1) with (Z.ones h) by (rewrite Z.ones_equiv; lia).
  rewrite <- (lor_add _ _ h) by (rewrite ?Z.ones_equiv; lia).
  apply Z.bits_inj'. intros n Hn. rewrite !Z.lor_spec.
  rewrite <- Z.shiftr_div_pow2 by done. destruct (Z.ltb_spec n h).
  - rewrite Z.ones_spec_low, Z.shiftl_spec_low by lia. by rewrite orb_true_r.
  - rewrite Z.ones_spec_high, Z.shiftl_spec, Z.shiftr_spec by lia. by replace (n - h + h) with n by lia.
Qed.

Lemma v4_mapped_add v : is_v4 v → v4_mapped v = 65535 * 2 ^ 32 + v.
Proof. intros Hv. by apply lor_add. Qed.

Lemma To4_Some ip v : 0 ≤ ip → To4 ip = Some v ↔ is_v4 v ∧ ip = v4_mapped v.
Proof.
  intros Hip. unfold To4. rewrite Z.land_ones, Z.shiftr_div_pow2 by done.
  pose proof (Z.mod_pos_bound ip (2 ^ 32) eq_refl) as Hm.
  pose proof (Z.div_mod ip (2 ^ 32) ltac:(done)) as Hd.
  split.
  - destruct (Z.eqb_spec (ip / 2 ^ 32) 65535); [|done]. intros [= <-]. split; [done|].
    rewrite v4_mapped_add by done. lia.
  - intros [Hv ->]. rewrite v4_mapped_add in * by done. unfold is_v4 in Hv.
    rewrite Z.div_add_l, Z.div_small by lia. cbn [Z.eqb Pos.eqb]. f_equal.
    rewrite Z.add_comm, Z.mod_add, Z.mod_small; lia.
Qed.

(** ** The last address of a network *)

(** The bits of the host: what is left when the mask is taken off. *)
Lemma host_bits w h : 0 < w ≤ 64 → 0 ≤ h ≤ w → not w (neg w (shl1 w h)) = Z.ones h.
Proof.
  intros Hw Hh. unfold not, neg, shl1. rewrite (Z.mod_small h) by (change (2 ^ 64) with 18446744073709551616; lia).
  rewrite Z.land_ones by lia. unfold Z.lnot. rewrite Z.ones_equiv.
  assert (0 < 2 ^ h ≤ 2 ^ w) as Hp by (split; [lia|apply Z.pow_le_mono_r; lia]).
  destruct (Z.ltb_spec h w).
  - assert (2 ^ h < 2 ^ w) by (apply Z.pow_lt_mono_r; lia).
    rewrite (Z.mod_opp_l_nz (2 ^ h)), (Z.mod_small (2 ^ h)) by (rewrite ?Z.mod_small; lia).
    symmetry. apply Z.mod_unique_pos with (-1); lia.
  - assert (h = w) as -> by lia. change (-0) with 0. rewrite Z.mod_0_l by lia.
    symmetry. apply Z.mod_unique_pos with (-1); lia.
Qed.

Lemma mask32_not k : 0 ≤ k ≤ 32 → not 32 (mask32 k) = Z.ones (32 - k).
Proof. intros. apply host_bits; lia. Qed.
Lemma mask64_not k : 0 ≤ k ≤ 64 → not 64 (mask64 k) = Z.ones (64 - k).
Proof. intros. apply host_bits; lia. Qed.

(** Above the host's bits the last address is the network's. *)
Lemma last_in v h : 0 ≤ h → Z.shiftr (Z.lor v (Z.ones h)) h = Z.shiftr v h.
Proof.
  intros Hh. rewrite Z.shiftr_lor. replace (Z.shiftr (Z.ones h) h) with 0; [by rewrite Z.lor_0_r|].
  rewrite Z.shiftr_div_pow2, Z.ones_equiv by done. symmetry. apply Z.div_small. lia.
Qed.
Lemma last_greatest v u h : 0 ≤ h → Z.shiftr u h = Z.shiftr v h → u ≤ Z.lor v (Z.ones h).
Proof.
  intros Hh. rewrite lor_ones, !Z.shiftr_div_pow2 by done. intros <-.
  assert (0 < 2 ^ h) by lia. pose proof (Z.div_mod u (2 ^ h) ltac:(lia)).
  pose proof (Z.mod_pos_bound u (2 ^ h) ltac:(lia)). lia.
Qed.

Lemma lor_mapped v h : is_v4 v → 0 ≤ h ≤ 32 → Z.lor (v4_mapped v) (Z.ones h) = v4_mapped (Z.lor v (Z.ones h)).
Proof. intros Hv Hh. unfold v4_mapped. by rewrite Z.lor_assoc. Qed.

Lemma lor_v4 v h : is_v4 v → 0 ≤ h ≤ 32 → is_v4 (Z.lor v (Z.ones h)).
Proof.
  intros Hv Hh. split; [apply Z.lor_nonneg; split; [apply Hv|rewrite Z.ones_equiv; lia]|].
  rewrite lor_ones by lia. unfold is_v4 in Hv.
  assert (2 ^ 32 = 2 ^ (32 - h) * 2 ^ h) as E by (rewrite <- Z.pow_add_r by lia; f_equal; lia).
  assert (v / 2 ^ h < 2 ^ (32 - h)) by (apply Z.div_lt_upper_bound; lia). nia.
Qed.

(** A network as [ParseCIDR] makes them. *)
Definition is_network (n : IPNet) : Prop :=
  is_ip (IP n) ∧ 0 ≤ ones n ≤ bits n ∧
  (bits n = 32 ∧ is_Some (To4 (IP n)) ∨ bits n = 128 ∧ To4 (IP n) = None).

Lemma GetLastIPv4_run n : is_network n → bits n = 32 →
  ∃ l, GetLastIPv4 n = Ret l ∧ v4_mapped l = Z.lor (IP n) (Z.ones (32 - ones n)).
Proof.
  intros (Hip & Ho & Hb) E. destruct Hb as [[_ [v Hv]]|[]]; [|lia]. unfold GetLastIPv4. rewrite Hv.
  rewrite mask32_not by lia. eexists. split; [done|].
  apply To4_Some in Hv as [Hv ->]; [|apply Hip]. symmetry. apply lor_mapped; [done|lia].
Qed.

Lemma halves_lor ip m0 m1 : 0 ≤ ip → 0 ≤ m1 < 2 ^ 64 →
  Z.lor (Z.shiftl (Z.lor (Z.shiftr ip 64) m0) 64) (Z.lor (Z.land ip (Z.ones 64)) m1) =
  Z.lor ip (Z.lor (Z.shiftl m0 64) m1).
Proof.
  intros Hip Hm. apply Z.bits_inj'. intros n Hn. rewrite !Z.lor_spec, Z.land_spec.
  destruct (Z.ltb_spec n 64).
  - rewrite !Z.shiftl_spec_low, Z.ones_spec_low by lia. by rewrite andb_true_r.
  - rewrite !Z.shiftl_spec, Z.lor_spec, Z.shiftr_spec, Z.ones_spec_high by lia.
    rewrite andb_false_r. replace (n - 64 + 64) with n by lia. cbn. by rewrite orb_assoc.
Qed.

Lemma ones_halves a : 0 ≤ a → Z.ones (64 + a) = Z.lor (Z.shiftl (Z.ones a) 64) (Z.ones 64).
Proof.
  intros Ha. rewrite lor_add by (rewrite ?Z.ones_equiv; lia). rewrite !Z.ones_equiv, Z.pow_add_r by lia. lia.
Qed.

Lemma GetLastIPv6_run n : is_network n → bits n = 128 → GetLastIPv6 n = Ret (Z.lor (IP n) (Z.ones (128 - ones n))).
Proof.
  intros (Hip & Ho & Hb) E. destruct Hb as [[? _]|[_ Hv]]; [lia|]. unfold GetLastIPv6. rewrite Hv. unfold invmask.
  destruct (Z.ltb_spec 64 (ones n)).
  - rewrite !mask64_not by lia. rewrite halves_lor by (rewrite ?Z.ones_equiv; unfold is_ip in Hip; try split; lia || (assert (2 ^ (64 - (ones n - 64)) ≤ 2 ^ 64) by (apply Z.pow_le_mono_r; lia); lia)).
    change (Z.ones (64 - 64)) with 0. rewrite Z.shiftl_0_l, Z.lor_0_l. do 3 f_equal. lia.
  - rewrite mask64_not by lia. change (mask64 64) with (Z.ones 64).
    rewrite halves_lor by (unfold is_ip in Hip; rewrite ?Z.ones_equiv; lia). rewrite <- ones_halves by lia. do 3 f_equal. lia.
Qed.

(** what [ipmath] calls the last address of a network is the greatest of the
    addresses that share the network's part. *)
Theorem GetLast_greatest n : is_network n →
  ∃ last, (if bits n =? 32 then v4_mapped <$> GetLastIPv4 n else GetLastIPv6 n) = Ret last ∧
    in_network n last ∧ ∀ ip, in_network n ip → ip ≤ last.
Proof.
  intros Hn. assert (0 ≤ bits n - ones n) as Hh by (destruct Hn as (_ & ? & _); lia).
  destruct (Z.eqb_spec (bits n) 32) as [E|E].
  - destruct (GetLastIPv4_run n Hn E) as (l & -> & Hl). eexists. split; [reflexivity|].
    rewrite Hl, <- E. split; [by apply last_in|intros ip; by apply last_greatest].
  - assert (bits n = 128) as E' by (destruct Hn as (_ & _ & [[]|[]]); lia).
    rewrite (GetLastIPv6_run n Hn E'). eexists. split; [reflexivity|].
    rewrite <- E'. split; [by apply last_in|intros ip; by apply last_greatest].
Qed.

(** ** IPv4 texts *)

Lemma octet_Itoa k : 0 ≤ k ≤ 255 → octet (Strconv.Itoa k) = Some k ∧ ("."%char ∉ to_list (Strconv.Itoa k)).
Proof.
  intros Hk. assert (k ∈ seqZ 0 256) as H by (apply elem_of_seqZ; lia).
  assert (forallb (λ k, bool_decide (octet (Strconv.Itoa k) = Some k ∧ ("."%char ∉ to_list (Strconv.Itoa k)))) (seqZ 0 256) = true)
    as Hall by (vm_compute; reflexivity).
  rewrite forallb_forall in Hall. apply list_elem_of_In in H. by apply Hall, bool_decide_eq_true in H.
Qed.

Lemma octet_range v k : 0 ≤ octet_of v k ≤ 255.
Proof.
  unfold octet_of. change 255 with (Z.ones 8) at 1 2. rewrite Z.land_ones by done.
  pose proof (Z.mod_pos_bound (Z.shiftr v (8 * k)) (2 ^ 8) eq_refl). lia.
Qed.

Lemma octets_value v : is_v4 v →
  ((octet_of v 3 * 256 + octet_of v 2) * 256 + octet_of v 1) * 256 + octet_of v 0 = v.
Proof.
  intros Hv. unfold octet_of, is_v4 in *. change 255 with (Z.ones 8). rewrite !Z.land_ones by done.
  rewrite !Z.shiftr_div_pow2 by done. Z.to_euclidean_division_equations; lia.
Qed.

Lemma parse_string_v4 v : is_v4 v → parse_v4 (string_v4 v) = Some v.
Proof.
  intros Hv. unfold parse_v4, string_v4. cbn [map Strings.Join].
  destruct (octet_Itoa _ (octet_range v 3)) as [E3 N3], (octet_Itoa _ (octet_range v 2)) as [E2 N2],
    (octet_Itoa _ (octet_range v 1)) as [E1 N1], (octet_Itoa _ (octet_range v 0)) as [E0 N0].
  rewrite !GoFacts.Split_app_sep by done. rewrite GoFacts.Split_none by done. cbn [map].
  rewrite E3, E2, E1, E0. f_equal. by apply octets_value.
Qed.

Definition separator (a : ascii) : Prop := a = "."%char ∨ a = ":"%char ∨ a = "%"%char.
Lemma first_of_app l c r : Forall (λ a, ¬ separator a) l → separator c → first_of (l ++ c :: r) = Some c.
Proof.
  intros Hl Hc. induction Hl as [|a l Ha _ IH]; cbn; [by rewrite bool_decide_true|].
  rewrite bool_decide_false by done. exact IH.
Qed.

Lemma digit_not_separator a : GoFacts.is_digit a = true → ¬ separator a.
Proof. intros Ha [->|[->| ->]]; by vm_compute in Ha. Qed.

Lemma octet_digits v k : Forall (λ a, GoFacts.is_digit a = true) (to_list (Strconv.Itoa (octet_of v k))).
Proof.
  unfold Strconv.Itoa. rewrite (proj2 (Z.ltb_ge _ _)) by apply octet_range.
  apply GoFacts.format_digits; [lia|apply octet_range].
Qed.

Lemma first_dot v : first_of (to_list (string_v4 v)) = Some "."%char.
Proof.
  unfold string_v4. cbn [map Strings.Join]. rewrite GoFacts.to_list_app. apply first_of_app; [|by left].
  eapply Forall_impl; [apply octet_digits|]. apply digit_not_separator.
Qed.

Lemma ParseIP_v4 v : is_v4 v → ParseIP (string_v4 v) = Some (v4_mapped v).
Proof. intros Hv. unfold ParseIP. by rewrite first_dot, parse_string_v4. Qed.

(** ** IPv6 texts *)

Definition is_group (g : Z) : Prop := 0 ≤ g < 65536.
Abbreviation H16 := (Strconv.format 16).

Lemma H16_facts g : is_group g →
  Forall (λ a, GoFacts.is_digit a = true) (to_list (H16 g)) ∧ H16 g ≠ "" ∧ (String.length (H16 g) ≤ 4)%nat ∧
  Strconv.parse_digits 16 (H16 g) 0 = Some g.
Proof.
  intros Hg. destruct (GoFacts.format_digits 16 g ltac:(lia)) as [Hd Hne]; [apply Hg|].
  split_and!; [done|done| |apply GoFacts.parse_format; [lia|apply Hg]].
  apply (GoFacts.format_go_length 16 _ g "" 3); [lia|]. exact Hg.
Qed.

Lemma hex_prefix_app h rest :
  Forall (λ a, GoFacts.is_digit a = true) (to_list h) →
  match rest with "" => True | String a _ => GoFacts.is_digit a = false end →
  hex_prefix (h +:+ rest) = (h, rest).
Proof.
  intros Hh Hr. induction h as [|a h IH].
  - change ("" +:+ rest) with rest. destruct rest as [|a rest]; [done|]. cbn.
    unfold GoFacts.is_digit in Hr. by destruct (Strconv.digit_val a).
  - apply Forall_cons in Hh as [Ha Hh]. change (String a h +:+ rest) with (String a (h +:+ rest)). cbn.
    unfold GoFacts.is_digit in Ha. destruct (Strconv.digit_val a); [|done]. by rewrite IH.
Qed.

(** A step of the loop over a group. *)
Lemma groups_step fuel g rest acc e : is_group g →
  match rest with "" => True | String a _ => a = ":"%char end →
  groups (S fuel) (H16 g +:+ rest) acc e =
  let acc := acc ++ [g] in
  match rest with
  | "" => Some (acc, e)
  | String c more =>
      if bool_decide (c ≠ ":"%char ∨ more = "") then None
      else match more with
           | String ":" more' =>
               match e with
               | Some _ => None
               | None => if bool_decide (more' = "") then Some (acc, Some (length acc))
                         else groups fuel more' acc (Some (length acc))
               end
           | _ => groups fuel more acc e
           end
  end.
Proof.
  intros Hg Hr. destruct (H16_facts g Hg) as (Hd & Hne & Hl & Hp). cbn [groups].
  rewrite hex_prefix_app; [|done|by destruct rest; [|subst]].
  rewrite bool_decide_false by (intros [?|?]; [done|lia]).
  assert (HasPrefix rest "." = false) as -> by (destruct rest; [done|by subst]).
  by rewrite Hp.
Qed.

(** The text of groups starts with a digit. *)
Lemma hex_groups_head g gs tail : is_group g →
  ∃ a s, hex_groups (g :: gs) +:+ tail = String a s ∧ GoFacts.is_digit a = true.
Proof.
  intros Hg. destruct (H16_facts g Hg) as (Hd & Hne & _).
  assert (∃ t, hex_groups (g :: gs) +:+ tail = H16 g +:+ t) as [t ->].
  { unfold hex_groups. destruct gs; cbn [map Strings.Join]; [by eexists|].
    rewrite <- !GoFacts.append_assoc. by eexists. }
  destruct (H16 g) as [|a h]; [done|]. apply Forall_cons in Hd as [Ha _]. by exists a, (h +:+ t).
Qed.
Lemma digit_not_colon a : GoFacts.is_digit a = true → a ≠ ":"%char.
Proof. intros Ha ->. by vm_compute in Ha. Qed.

Lemma hex_groups_cons g g' gs : hex_groups (g :: g' :: gs) = H16 g +:+ String ":" (hex_groups (g' :: gs)).
Proof. reflexivity. Qed.

Lemma groups_join g gs acc e fuel : Forall is_group (g :: gs) → (length (g :: gs) ≤ fuel)%nat →
  groups fuel (hex_groups (g :: gs)) acc e = Some (acc ++ g :: gs, e).
Proof.
  revert g acc fuel. induction gs as [|g' gs IH]; intros g acc fuel [Hg Hgs]%Forall_cons Hf.
  - destruct fuel as [|fuel]; [cbn in Hf; lia|].
    change (hex_groups [g]) with (H16 g). rewrite <- (GoFacts.append_nil_r (H16 g)). by rewrite groups_step.
  - destruct fuel as [|fuel]; [cbn in Hf; lia|]. rewrite hex_groups_cons.
    rewrite groups_step by done. cbn zeta iota.
    destruct (hex_groups_head g' gs "") as (a & s & Es & Ha); [by apply Forall_cons in Hgs as [? _]|].
    rewrite GoFacts.append_nil_r in Es. rewrite bool_decide_false by (rewrite Es; naive_solver).
    specialize (IH g' (acc ++ [g]) fuel Hgs ltac:(cbn in *; lia)). rewrite <- app_assoc in IH. refine (eq_trans _ IH).
    rewrite Es. apply digit_not_colon in Ha. destruct a as [[] [] [] [] [] [] [] []]; try reflexivity. done.
Qed.

Lemma groups_ellipsis g gs tail acc fuel : Forall is_group (g :: gs) → Forall is_group tail →
  (length (g :: gs) + length tail ≤ fuel)%nat →
  groups fuel (hex_groups (g :: gs) +:+ "::" +:+ hex_groups tail) acc None =
    Some (acc ++ (g :: gs) ++ tail, Some (length acc + length (g :: gs))%nat).
Proof.
  intros Hgs Ht. revert g acc fuel Hgs. induction gs as [|g' gs IH]; intros g acc fuel [Hg Hgs]%Forall_cons Hf.
  - destruct fuel as [|fuel]; [cbn in Hf; lia|]. change (hex_groups [g]) with (H16 g).
    change ("::" +:+ hex_groups tail) with (String ":" (String ":" (hex_groups tail))).
    rewrite groups_step by done. cbn zeta iota. rewrite bool_decide_false by naive_solver.
    rewrite length_app. destruct tail as [|t tail].
    + by rewrite bool_decide_true, app_nil_r by done.
    + destruct (hex_groups_head t tail "") as (a & s & Es & Ha); [by apply Forall_cons in Ht as [? _]|].
      rewrite GoFacts.append_nil_r in Es. rewrite bool_decide_false by (by rewrite Es).
      rewrite groups_join by (done || (cbn in *; lia)). by rewrite <- app_assoc.
  - destruct fuel as [|fuel]; [cbn in Hf; lia|]. rewrite hex_groups_cons, <- GoFacts.append_assoc.
    change (String ":" (hex_groups (g' :: gs)) +:+ ?r) with (String ":" (hex_groups (g' :: gs) +:+ r)).
    rewrite groups_step by done. cbn zeta iota.
    destruct (hex_groups_head g' gs ("::" +:+ hex_groups tail)) as (a & s & Es & Ha); [by apply Forall_cons in Hgs as [? _]|].
    rewrite bool_decide_false by (rewrite Es; naive_solver).
    specialize (IH g' (acc ++ [g]) fuel Hgs ltac:(cbn in *; lia)). rewrite <- app_assoc, length_app in IH.
    refine (eq_trans _ (eq_trans IH _)); [|do 3 f_equal; cbn; lia].
    rewrite Es. apply digit_not_colon in Ha. destruct a as [[] [] [] [] [] [] [] []]; try reflexivity. done.
Qed.

(** The run of zero groups that is left out. *)
Lemma zero_run_spec l : take (zero_run l) l = replicate (zero_run l) 0 ∧ (zero_run l ≤ length l)%nat.
Proof.
  induction l as [|x l [IH Hl]]; [done|]. destruct x; cbn; [|split; [done|lia]..]. rewrite IH. split; [done|lia].
Qed.
Lemma longest_spec l j best i n : longest j l best = Some (i, n) →
  best = Some (i, n) ∨ ∃ k, i = (j + k)%nat ∧ (2 ≤ n)%nat ∧ (k + n ≤ length l)%nat ∧ take n (drop k l) = replicate n 0.
Proof.
  revert j best. induction l as [|x l IH]; intros j best Hl; [by left|]. cbn [longest] in Hl.
  pose proof (zero_run_spec (x :: l)) as [Hz Hlen].
  apply IH in Hl as [Hl|(k & -> & Hn & Hk & Ht)].
  - destruct (_ && _) eqn:E in Hl; [|by left]. apply andb_true_iff in E as [E%Nat.leb_le _]. injection Hl as <- <-.
    right. exists 0%nat. split_and!; [lia|done|done|done].
  - right. exists (S k). split_and!; [lia|done|cbn; lia|done].
Qed.

Lemma groups_of_groups v : Forall is_group (groups_of v).
Proof.
  unfold groups_of. apply Forall_map, Forall_forall. intros i _. cbn. unfold group, is_group.
  change 65535 with (Z.ones 16). rewrite Z.land_ones by done. by apply Z.mod_pos_bound.
Qed.

Definition value (l : list Z) : Z := foldl (λ n g, n * 65536 + g) 0 l.

Lemma value_groups v : is_ip v → value (groups_of v) = v.
Proof.
  intros Hv. assert (∀ k, (k ≤ 8)%nat → value (map (group v) (seq 0 k)) = Z.shiftr v (16 * (8 - Z.of_nat k))) as Hk.
  { induction k as [|k IH]; intros Hk.
    - rewrite Z.shiftr_div_pow2 by lia. symmetry. by apply Z.div_small.
    - rewrite seq_S, map_app. unfold value in *. rewrite foldl_app, IH by lia. cbn [map foldl Nat.add].
      unfold group. change 65535 with (Z.ones 16). rewrite Z.land_ones by done.
      replace (16 * (8 - Z.of_nat k)) with (16 * (7 - Z.of_nat k) + 16) by lia.
      replace (16 * (8 - Z.of_nat (S k))) with (16 * (7 - Z.of_nat k)) by lia.
      rewrite <- Z.shiftr_shiftr by lia. rewrite (Z.shiftr_div_pow2 _ 16) by lia. change (2 ^ 16) with 65536.
      pose proof (Z.div_mod (Z.shiftr v (16 * (7 - Z.of_nat k))) 65536). lia. }
  unfold groups_of. rewrite (Hk 8%nat) by lia. apply Z.shiftr_0_r.
Qed.

Lemma HasPrefix_colons g gs tail : is_group g → HasPrefix (hex_groups (g :: gs) +:+ tail) "::" = false.
Proof.
  intros Hg. destruct (hex_groups_head g gs tail) as (a & s & -> & Ha); [done|].
  destruct a as [[] [] [] [] [] [] [] []]; try reflexivity. by vm_compute in Ha.
Qed.

(** The list with the zeros left out, and put back. *)
Lemma put_back (l : list Z) i n : take n (drop i l) = replicate n 0 → (i + n ≤ length l)%nat →
  let l' := take i l ++ drop (i + n) l in
  length l' = (length l - n)%nat ∧ take i l' ++ replicate (length l - length l') 0 ++ drop i l' = l.
Proof.
  intros Hz Hl l'. assert (length l' = (length l - n)%nat) as E.
  { unfold l'. rewrite length_app, length_take, length_drop. lia. }
  split; [done|]. rewrite E. replace (length l - (length l - n))%nat with n by lia.
  unfold l'. rewrite take_app_le, drop_app_ge by (rewrite length_take; lia).
  rewrite length_take, Nat.min_l, Nat.sub_diag, drop_0 by lia.
  rewrite take_take, Nat.min_id. rewrite <- Hz, <- drop_drop, take_drop. apply take_drop.
Qed.

Lemma parse_v6_string v : is_ip v → parse_v6 (string_v6 v) = Some v.
Proof.
  intros Hv. rewrite <- (value_groups v Hv) at 2. pose proof (groups_of_groups v) as Hg.
  assert (length (groups_of v) = 8%nat) as Hlen by done. unfold string_v6.
  destruct (longest 0 (groups_of v) None) as [[i n]|] eqn:Hl; cycle 1.
  { destruct (groups_of v) as [|g gs]; [done|]. unfold parse_v6.
    assert (Hp := HasPrefix_colons g gs "" ltac:(by apply Forall_cons in Hg as [? _])).
    rewrite GoFacts.append_nil_r in Hp. rewrite Hp.
    rewrite groups_join by (done || lia). rewrite app_nil_l. by rewrite Hlen. }
  apply longest_spec in Hl as [?|(k & -> & Hn & Hk & Hz)]; [done|]. rewrite Nat.add_0_l.
  destruct (put_back _ _ _ Hz Hk) as [Hl' Hback]. rewrite Hlen in *.
  assert (Forall is_group (take k (groups_of v))) as Ht by by apply Forall_take.
  assert (Forall is_group (drop (k + n) (groups_of v))) as Hd by by apply Forall_drop.
  set (front := take k (groups_of v)) in *. set (back := drop (k + n) (groups_of v)) in *.
  assert (length front = k) as Hfr by (unfold front; rewrite length_take; lia).
  rewrite length_app, Hfr in Hl'.
  unfold parse_v6. destruct front as [|g gs].
  - change (hex_groups [] +:+ "::" +:+ hex_groups back) with ("::" +:+ hex_groups back).
    rewrite GoFacts.HasPrefix_app, GoFacts.TrimPrefix_app. cbn in Hfr. subst k. destruct back as [|b back].
    + rewrite bool_decide_true by done. cbn [length Nat.leb app] in *. unfold value in Hback. by rewrite <- Hback.
    + destruct (hex_groups_head b back "") as (a & s & Es & _); [by apply Forall_cons in Hd as [? _]|].
      rewrite GoFacts.append_nil_r in Es. rewrite bool_decide_false by by rewrite Es.
      rewrite groups_join by (done || (cbn in *; lia)). rewrite app_nil_l in *.
      rewrite (proj2 (Nat.leb_gt 8 _)) by lia. f_equal. by rewrite <- Hback.
  - rewrite HasPrefix_colons by by apply Forall_cons in Ht as [? _].
    rewrite groups_ellipsis by (done || lia). rewrite app_nil_l, Nat.add_0_l, Hfr.
    rewrite (proj2 (Nat.leb_gt 8 _)) by (rewrite length_app; lia). f_equal. by rewrite <- Hback.
Qed.

(** The characters of a text: digits of any case below ten or sixteen, colons. *)
Definition ip_char (a : ascii) : bool := GoFacts.is_digit a || bool_decide (a = ":"%char) || bool_decide (a = "."%char).

Lemma hex_groups_chars l : Forall is_group l →
  Forall (λ a, GoFacts.is_digit a = true ∨ a = ":"%char) (to_list (hex_groups l)).
Proof.
  induction 1 as [|g gs Hg Hgs IH]; [constructor|]. destruct (H16_facts g Hg) as (Hd & _).
  assert (Forall (λ a, GoFacts.is_digit a = true ∨ a = ":"%char) (to_list (H16 g))) as Hh
    by (eapply Forall_impl; [exact Hd|by left]).
  destruct gs as [|g' gs]; [exact Hh|]. rewrite hex_groups_cons, GoFacts.to_list_app.
  apply Forall_app. split; [exact Hh|]. constructor; [by right|exact IH].
Qed.

Lemma string_v6_chars v : Forall (λ a, GoFacts.is_digit a = true ∨ a = ":"%char) (to_list (string_v6 v)).
Proof.
  unfold string_v6. pose proof (groups_of_groups v) as Hg. destruct (longest _ _ _) as [[i n]|].
  - rewrite !GoFacts.to_list_app, !Forall_app. split_and!; [by apply hex_groups_chars, Forall_take| |by apply hex_groups_chars, Forall_drop].
    by repeat constructor; right.
  - by apply hex_groups_chars.
Qed.

(** The first separator of such a text is the colon it has. *)
Lemma first_colon s : Forall (λ a, GoFacts.is_digit a = true ∨ a = ":"%char) (to_list s) → ":"%char ∈ to_list s →
  first_of (to_list s) = Some ":"%char ∧ mem "%" s = false.
Proof.
  intros Hs Hc. split.
  - induction (to_list s) as [|a l IH]; [by apply elem_of_nil in Hc|].
    apply Forall_cons in Hs as [Ha Hs]. cbn. case_bool_decide as Hb.
    + destruct Ha as [Ha| ->]; [|done]. destruct Hb as [->|[->| ->]]; by vm_compute in Ha.
    + apply IH; [done|]. apply elem_of_cons in Hc as [<-|Hc]; [|done]. destruct Hb. by right; left.
  - clear Hc. induction s as [|a s IH]; [done|]. apply Forall_cons in Hs as [Ha Hs]. cbn.
    rewrite decide_False; [by apply IH|]. intros ->. by destruct Ha as [Ha|].
Qed.

Lemma hex_groups_colon g g' gs : ":"%char ∈ to_list (hex_groups (g :: g' :: gs)).
Proof. rewrite hex_groups_cons, GoFacts.to_list_app. apply elem_of_app. right. by left. Qed.

Lemma string_v6_colon v : ":"%char ∈ to_list (string_v6 v).
Proof.
  unfold string_v6. destruct (longest _ _ _) as [[i n]|]; [|apply hex_groups_colon].
  rewrite !GoFacts.to_list_app, !elem_of_app. right; left. by left.
Qed.

Lemma ParseIP_v6 v : is_ip v → ParseIP (string_v6 v) = Some v.
Proof.
  intros Hv. unfold ParseIP. destruct (first_colon _ (string_v6_chars v) (string_v6_colon v)) as [-> ->].
  by apply parse_v6_string.
Qed.

(** an address is read back from its text. *)
Theorem ParseIP_String ip : is_ip ip → ParseIP (IP_String ip) = Some ip.
Proof.
  intros Hip. unfold IP_String. destruct (To4 ip) as [v|] eqn:Hv.
  - apply To4_Some in Hv as [Hv ->]; [|apply Hip]. by apply ParseIP_v4.
  - by apply ParseIP_v6.
Qed.

(** A text has no capital letters and no spaces. *)
Lemma IP_String_lower ip : Forall (λ a, GoFacts.lower a = true) (to_list (IP_String ip)).
Proof.
  unfold IP_String. destruct (To4 ip) as [v|].
  - unfold string_v4. cbn [map Strings.Join].
    assert (∀ k, Forall (λ a, GoFacts.lower a = true) (to_list (Strconv.Itoa (octet_of v k)))) as Hk.
    { intros k. unfold Strconv.Itoa. rewrite (proj2 (Z.ltb_ge _ _)) by apply octet_range.
      apply GoFacts.format_lower; [lia|apply octet_range]. }
    rewrite !GoFacts.to_list_app, !Forall_app. split_and!; try apply Hk; by repeat constructor.
  - pose proof (groups_of_groups ip) as Hg.
    assert (∀ l, Forall is_group l → Forall (λ a, GoFacts.lower a = true) (to_list (hex_groups l))) as Hl.
    { induction 1 as [|g gs Hx Hgs IH]; [constructor|].
      assert (Forall (λ a, GoFacts.lower a = true) (to_list (H16 g))) as Hh by (apply GoFacts.format_lower; [lia|apply Hx]).
      destruct gs as [|g' gs]; [exact Hh|]. rewrite hex_groups_cons, GoFacts.to_list_app, Forall_app. split; [exact Hh|].
      constructor; [done|exact IH]. }
    unfold string_v6. destruct (longest _ _ _) as [[i n]|]; [|by apply Hl].
    rewrite !GoFacts.to_list_app, !Forall_app.
    split_and!; [by apply Hl, Forall_take|by repeat constructor|by apply Hl, Forall_drop].
Qed.

(** *** What is read is an address *)

Lemma parse_digits_bound base s acc n : 2 ≤ base → 0 ≤ acc →
  Strconv.parse_digits base s acc = Some n → 0 ≤ n < (acc + 1) * base ^ Z.of_nat (String.length s).
Proof.
  intros Hb. revert acc. induction s as [|a s IH]; intros acc Ha; cbn [Strconv.parse_digits].
  - intros [= <-]. cbn. lia.
  - destruct (Strconv.digit_val a) as [d|] eqn:Hd; [|done]. destruct (Z.ltb_spec d base) as [Hlt|]; [|done].
    intros Hn. assert (0 ≤ d).
    { unfold Strconv.digit_val in Hd. repeat case_match; simplify_eq; rewrite ?andb_true_iff, ?Z.leb_le in *; lia. }
    apply IH in Hn; [|lia]. cbn [String.length]. rewrite Nat2Z.inj_succ, Z.pow_succ_r by lia.
    assert (0 < base ^ Z.of_nat (String.length s)) by lia. nia.
Qed.

Lemma octet_bound s n : octet s = Some n → 0 ≤ n ≤ 255.
Proof.
  unfold octet. destruct s as [|a s]; [done|]. case_bool_decide; [done|].
  destruct (Strconv.parse_digits 10 (String a s) 0) as [m|] eqn:Hm; [|done]. destruct (Z.leb_spec m 255); [|done].
  intros [= <-]. apply parse_digits_bound in Hm; lia.
Qed.
Lemma parse_v4_bound s v : parse_v4 s = Some v → is_v4 v.
Proof.
  unfold parse_v4. destruct (map octet (Split s ".")) as [|[a|] [|[b|] [|[c|] [|[d|] []]]]] eqn:E; try done.
  intros [= <-]. assert (∀ x, Some x ∈ map octet (Split s ".") → 0 ≤ x ≤ 255) as Hx.
  { intros x (f & Hf & _)%list_elem_of_fmap. by eapply octet_bound. }
  rewrite E in Hx. pose proof (Hx a ltac:(set_solver)). pose proof (Hx b ltac:(set_solver)).
  pose proof (Hx c ltac:(set_solver)). pose proof (Hx d ltac:(set_solver)). unfold is_v4. lia.
Qed.

Lemma groups_bound fuel s acc e l e' : Forall is_group acc → groups fuel s acc e = Some (l, e') → Forall is_group l.
Proof.
  revert s acc e. induction fuel as [|fuel IH]; intros s acc e Ha; cbn [groups].
  { case_bool_decide; [|done]. by intros [= <- <-]. }
  destruct (hex_prefix s) as [h rest]. case_bool_decide as Hh; [done|]. apply Decidable.not_or in Hh as [_ Hh].
  destruct (HasPrefix rest ".").
  { case_bool_decide; [done|]. destruct (parse_v4 s) as [v|] eqn:Hv; [|done]. intros [= <- <-].
    apply parse_v4_bound in Hv. apply Forall_app. split; [done|]. unfold is_v4, is_group in *. change 65535 with (Z.ones 16).
    repeat constructor; rewrite ?Z.land_ones, ?Z.shiftr_div_pow2 by done; Z.to_euclidean_division_equations; lia. }
  assert (is_group (default 0 (Strconv.parse_digits 16 h 0))) as Hg.
  { destruct (Strconv.parse_digits 16 h 0) as [n|] eqn:Hn; [|done]. cbn. apply parse_digits_bound in Hn; [|lia..].
    assert (16 ^ Z.of_nat (String.length h) ≤ 16 ^ 4) by (apply Z.pow_le_mono_r; lia). unfold is_group. lia. }
  assert (Forall is_group (acc ++ [default 0 (Strconv.parse_digits 16 h 0)])) as Ha' by (apply Forall_app; auto).
  intros Hl. repeat (case_match; simplify_eq/=; eauto).
Qed.

Lemma value_bound l : Forall is_group l → 0 ≤ value l < 2 ^ (16 * Z.of_nat (length l)).
Proof.
  unfold value. induction l as [|g l IH] using rev_ind; intros Hl; [cbn; lia|].
  apply Forall_app in Hl as [Hl [Hg _]%Forall_cons]. specialize (IH Hl). rewrite foldl_app, length_app. cbn [foldl length].
  replace (16 * Z.of_nat (length l + 1)) with (16 * Z.of_nat (length l) + 16) by lia.
  rewrite Z.pow_add_r by lia. change (2 ^ 16) with 65536. unfold is_group in Hg. lia.
Qed.

Lemma ParseIP_bound s ip : ParseIP s = Some ip → is_ip ip.
Proof.
  unfold ParseIP. repeat case_match; try done.
  - intros Hv. apply fmap_Some in Hv as (v & Hv & ->). apply parse_v4_bound in Hv.
    rewrite v4_mapped_add by done. unfold is_v4, is_ip in *. lia.
  - unfold parse_v6.
    set (r := if HasPrefix s "::" then _ else _).
    assert (∀ l e, r = Some (l, e) → Forall is_group l) as Hr.
    { intros l e. unfold r. repeat case_match; try (intros Hg; eapply groups_bound; [|exact Hg]; constructor).
      intros [= <- _]. constructor. }
    assert (∀ l, Forall is_group l → length l = 8%nat → is_ip (value l)) as Height.
    { intros l Hl E. apply value_bound in Hl. by rewrite E in Hl. }
    destruct r as [[l [i|]]|]; [| |done]; (specialize (Hr _ _ eq_refl)).
    + destruct (Nat.leb_spec 8 (length l)); [done|]. intros [= <-]. apply Height.
      * rewrite !Forall_app. split_and!; [by apply Forall_take|by apply Forall_replicate|by apply Forall_drop].
      * pose proof (take_drop i l) as E. apply (f_equal length) in E. rewrite !length_app, length_replicate in *. lia.
    + destruct (Nat.eqb_spec (length l) 8); [|done]. intros [= <-]. by apply Height.
Qed.

(** *** Networks *)

Definition is_cidr (n : IPNet) : Prop :=
  is_ip (IP n) ∧ 0 ≤ ones n ≤ bits n ∧ (bits n = 32 ∧ is_Some (To4 (IP n)) ∨ bits n = 128).

Lemma ParseCIDR_cidr s r : ParseCIDR s = Ret r → is_cidr (with_address r).
Proof.
  unfold ParseCIDR, ParseAddr. destruct (cut s "/") as [[addr mask]|]; [|done].
  destruct (ParseIP addr) as [ip|] eqn:Hip; [|done]. cbn [fmap option_fmap option_map].
  destruct mask as [|a mask]; [done|]. destruct (Strconv.parse_digits 10 _ 0) as [k|] eqn:Hk; [|done].
  apply parse_digits_bound in Hk as [Hk _]; [|lia..].
  set (len := match first_of (to_list addr) with Some "."%char => 32 | _ => 128 end).
  assert (len = 32 ∧ is_Some (To4 ip) ∨ len = 128) as Hlen.
  { unfold len. destruct (first_of (to_list addr)) as [c|] eqn:Hc; [|by right].
    destruct (decide (c = "."%char)) as [->|Hne];
      [|right; destruct c as [[] [] [] [] [] [] [] []]; try reflexivity; by destruct Hne].
    left. split; [done|]. pose proof (ParseIP_bound _ _ Hip) as Hb. unfold ParseIP in Hip. rewrite Hc in Hip.
    apply fmap_Some in Hip as (v & Hv & ->). exists v. apply To4_Some; [apply Hb|]. split; [by eapply parse_v4_bound|done]. }
  clearbody len. destruct (Z.leb_spec k len); [|done]. intros [= <-]. unfold is_cidr. cbn.
  split; [by eapply ParseIP_bound|]. split; [lia|done].
Qed.

Section networks.
Context `{NetlinkLaws}.

Lemma ParseIPNet_cidr s n : ParseIPNet s = Ret n → is_cidr n.
Proof.
  unfold ParseIPNet. rewrite netlink_ParseIPNet_law. destruct (ParseCIDR _) as [r|e|p] eqn:Hr; [|done..].
  intros [= <-]. by eapply ParseCIDR_cidr.
Qed.

(** The network the text of a network denotes. *)
Definition normal (n : IPNet) : IPNet :=
  match To4 (IP n) with
  | Some _ => {| IP := IP n; ones := if bits n =? 128 then Z.max 0 (ones n - 96) else ones n; bits := 32 |}
  | None => n
  end.

Lemma normal_network n : is_cidr n → is_network (normal n).
Proof.
  intros (Hip & Ho & Hb). unfold is_network, normal. destruct (To4 (IP n)) as [v|] eqn:Hv; cbn.
  - split; [done|]. split; [|left; split; [done|by exists v]]. destruct (Z.eqb_spec (bits n) 128); lia.
  - split; [done|]. split; [done|]. right. destruct Hb as [[_ [? ?]]|]; [done|]. done.
Qed.
Lemma normal_String n : is_cidr n → IPNet_String (normal n) = IPNet_String n.
Proof. intros Hn. unfold IPNet_String, normal. destruct (To4 (IP n)) eqn:Hv; cbn; by rewrite Hv. Qed.

Lemma IP_String_chars ip : is_ip ip →
  ("/"%char ∉ to_list (IP_String ip)) ∧
  ParseAddr (IP_String ip) = Some (ip, match To4 ip with Some _ => 32 | None => 128 end).
Proof.
  intros Hip. unfold ParseAddr. rewrite ParseIP_String by done. cbn [fmap option_fmap option_map].
  unfold IP_String. destruct (To4 ip) as [v|] eqn:Hv.
  - split.
    + unfold string_v4. cbn [map Strings.Join].
      assert (∀ k, "/"%char ∉ to_list (Strconv.Itoa (octet_of v k))) as Hk.
      { intros k Hin. pose proof (octet_digits v k) as Hd. rewrite Forall_forall in Hd. by specialize (Hd _ Hin). }
      rewrite !GoFacts.to_list_app. rewrite !not_elem_of_app. split_and!; try apply Hk; by apply (bool_decide_unpack _); vm_compute.
    + by rewrite first_dot.
  - pose proof (string_v6_chars ip) as Hc. destruct (first_colon _ Hc (string_v6_colon ip)) as [-> _]. split; [|done].
    intros Hin. rewrite Forall_forall in Hc. by destruct (Hc _ Hin).
Qed.

Lemma ParseIPNet_String n : is_cidr n → ParseIPNet (IPNet_String n) = Ret (normal n).
Proof.
  intros Hn. rewrite <- (normal_String n Hn). destruct (normal_network n Hn) as (Hip & Ho & Hb).
  set (m := normal n) in *. clearbody m. clear n Hn.
  assert (∃ l, IPNet_String m = IP_String (IP m) +:+ "/" +:+ Strconv.Itoa l ∧ l = ones m) as (l & -> & ->).
  { eexists. split; [reflexivity|]. destruct Hb as [[E [v Hv]]|[E Hv]]; rewrite Hv; [|done]. by rewrite E. }
  destruct (IP_String_chars (IP m) Hip) as [Hs Ha]. unfold ParseIPNet.
  assert (∀ s t, mem "/" (s +:+ "/" +:+ t) = true) as ->.
  { intros s t. induction s as [|a s IH]; [done|]. change (String a s +:+ ?r) with (String a (s +:+ r)). cbn. by case_decide. }
  rewrite netlink_ParseIPNet_law. unfold ParseCIDR. rewrite GoFacts.cut_app by done. rewrite Ha.
  assert (0 ≤ ones m) as Hm by lia. unfold Strconv.Itoa. rewrite (proj2 (Z.ltb_ge _ _)) by done.
  pose proof (GoFacts.parse_format 10 (ones m) ltac:(lia) Hm) as Hp.
  destruct (GoFacts.format_digits 10 (ones m) ltac:(lia) Hm) as [_ Hne].
  destruct (Strconv.format 10 (ones m)) as [|a t]; [done|]. rewrite Hp.
  assert (match To4 (IP m) with Some _ => 32 | None => 128 end = bits m) as ->.
  { destruct Hb as [[-> [v ->]]|[-> ->]]; done. }
  rewrite (proj2 (Z.leb_le _ _)) by lia. by destruct m.
Qed.
End networks.
End IpFacts.
