(* ===== verification/Dotenv.v ===== *)
(** Dotenv: the parser of files of variables ([internal/dotenv]).  Bytes are
    [ascii]s; the functions of [unicode/utf8], [bytes] and [regexp] that the
    parser calls are written out on lists of bytes. *)

From S2P Require Import Prelude.
From S2P Require Import GoStd.
From S2P Require Import Backend.

Open Scope Z_scope.
#[local] Set Warnings "-register-all".

(** ** Runes *)

Module Utf8.
Definition byte (a : ascii) : Z := Z.of_N (N_of_ascii a).
Definition within (lo hi : Z) (b : Z) : bool := (lo <=? b) && (b <=? hi).

Definition RuneError : Z := 65533.

(** How many bytes follow the first one, and the range of the second. *)
Definition leading (b : Z) : option (nat * Z * Z) :=
  if within 194 223 b then Some (1%nat, 128, 191)
  else if b =? 224 then Some (2%nat, 160, 191)
  else if b =? 237 then Some (2%nat, 128, 159)
  else if within 225 239 b then Some (2%nat, 128, 191)
  else if b =? 240 then Some (3%nat, 144, 191)
  else if b =? 244 then Some (3%nat, 128, 143)
  else if within 241 243 b then Some (3%nat, 128, 191)
  else None.

(** The bytes that follow, six bits each. *)
Fixpoint continue (n : nat) (lo hi : Z) (acc : Z) (l : list ascii) : option Z :=
  match n, l with
  | O, _ => Some acc
  | S n, a :: l => if within lo hi (byte a) then continue n 128 191 (acc * 64 + Z.land (byte a) 63) l else None
  | S _, [] => None
  end.

(** [utf8.DecodeRune] of a string that is not empty: the rune and its width. *)
Definition DecodeRune (a : ascii) (l : list ascii) : Z * nat :=
  if byte a <? 128 then (byte a, 1%nat)
  else match leading (byte a) with
       | None => (RuneError, 1%nat)
       | Some (n, lo, hi) =>
           match continue n lo hi (Z.land (byte a) (Z.shiftr 63 (Z.of_nat n))) l with
           | Some r => (r, S n)
           | None => (RuneError, 1%nat)
           end
       end.

Definition RuneStart (a : ascii) : bool := negb (Z.land (byte a) 192 =? 128).

(** [utf8.DecodeLastRune], given the bytes from the last one on. *)
Definition DecodeLastRune (a : ascii) (back : list ascii) : Z * nat :=
  if byte a <? 128 then (byte a, 1%nat)
  else match list_find (λ b, RuneStart b = true) (take 3 back) with
       | None => (RuneError, 1%nat)
       | Some (i, b) =>
           let '(r, w) := DecodeRune b (rev (a :: take i back)) in
           if (w =? S (S i))%nat then (r, w) else (RuneError, 1%nat)
       end.

(** [[]rune(string(l))] and back. *)
Fixpoint runes_go (fuel : nat) (l : list ascii) : list Z :=
  match fuel, l with
  | S fuel, a :: l' => let '(r, w) := DecodeRune a l' in r :: runes_go fuel (drop w l)
  | _, _ => []
  end.
Definition runes (l : list ascii) : list Z := runes_go (length l) l.

Definition encode (r : Z) : list ascii :=
  map (λ b, char (Z.to_N b))
    (if r <? 128 then [r]
     else if r <? 2048 then [192 + Z.shiftr r 6; 128 + Z.land r 63]
     else if r <? 65536 then [224 + Z.shiftr r 12; 128 + Z.land (Z.shiftr r 6) 63; 128 + Z.land r 63]
     else [240 + Z.shiftr r 18; 128 + Z.land (Z.shiftr r 12) 63; 128 + Z.land (Z.shiftr r 6) 63; 128 + Z.land r 63]).
Definition of_runes (l : list Z) : list ascii := concat (map encode l).
End Utf8.

Module Dotenv.
Import Strings Utf8.

(** [unicode.IsSpace] *)
Definition IsSpace (r : Z) : bool :=
  within 9 13 r || within 8192 8202 r ||
  bool_decide (r ∈ [32; 133; 160; 5760; 8232; 8233; 8239; 8287; 12288]).

(** [unicode.IsLetter] and [unicode.IsNumber] of a rune below 256. *)
Definition IsLetter (r : Z) : bool :=
  within 65 90 r || within 97 122 r || within 192 214 r || within 216 246 r || within 248 255 r ||
  bool_decide (r ∈ [170; 181; 186]).
Definition IsNumber (r : Z) : bool := within 48 57 r || within 188 190 r || bool_decide (r ∈ [178; 179; 185]).

(** [bytes.IndexFunc] *)
Fixpoint index_go (f : Z → bool) (fuel pos : nat) (l : list ascii) : option nat :=
  match fuel, l with
  | S fuel, a :: l' =>
      let '(r, w) := DecodeRune a l' in
      if f r then Some pos else index_go f fuel (pos + w) (drop w l)
  | _, _ => None
  end.
Definition IndexFunc (f : Z → bool) (l : list ascii) : option nat := index_go f (length l) 0 l.

(** [TrimLeftFunc], [TrimRightFunc] and [TrimFunc] *)
Fixpoint trim_left_go (f : Z → bool) (fuel : nat) (l : list ascii) : list ascii :=
  match fuel, l with
  | S fuel, a :: l' => let '(r, w) := DecodeRune a l' in if f r then trim_left_go f fuel (drop w l) else l
  | _, _ => l
  end.
Definition TrimLeftFunc (f : Z → bool) (l : list ascii) : list ascii := trim_left_go f (length l) l.
Fixpoint trim_right_go (f : Z → bool) (fuel : nat) (back : list ascii) : list ascii :=
  match fuel, back with
  | S fuel, a :: back' =>
      let '(r, w) := DecodeLastRune a back' in if f r then trim_right_go f fuel (drop w back) else back
  | _, _ => back
  end.
Definition TrimRightFunc (f : Z → bool) (l : list ascii) : list ascii := rev (trim_right_go f (length l) (rev l)).
Definition TrimFunc (f : Z → bool) (l : list ascii) : list ascii := TrimRightFunc f (TrimLeftFunc f l).

(** [bytes.Replace(src, "\r\n", "\n", -1)] *)
Fixpoint unix_lines (l : list ascii) : list ascii :=
  match l with
  | [] => []
  | a :: l =>
      match l with
      | b :: l' => if bool_decide (a = "013"%char ∧ b = "010"%char) then b :: unix_lines l' else a :: unix_lines l
      | [] => [a]
      end
  end.

(** ** Variables in values *)

Definition isSpace (r : Z) : bool := bool_decide (r ∈ [9; 11; 12; 13; 32; 133; 160]).
Definition isLineEnd (r : Z) : bool := bool_decide (r = 10 ∨ r = 13).
Definition isCharFunc (char v : Z) : bool := v =? char.

Definition name_byte (a : ascii) : bool :=
  within 65 90 (byte a) || within 48 57 (byte a) || bool_decide (a = "_"%char).

(** A byte that may be there. *)
Definition optional (c : ascii) (l : list ascii) : list ascii * list ascii :=
  match l with a :: l' => if bool_decide (a = c) then ([a], l') else ([], l) | [] => ([], []) end.
Fixpoint name_bytes (l : list ascii) : list ascii * list ascii :=
  match l with
  | a :: l' => if name_byte a then let '(n, r) := name_bytes l' in (a :: n, r) else ([], l)
  | [] => ([], [])
  end.

(** A match of [expandVarRegex] after the dollar: its text, the name and what follows. *)
Definition var_match (l : list ascii) : list ascii * list ascii * list ascii :=
  let '(paren, l) := optional "(" l in
  let '(brace, l) := optional "{" l in
  let '(name, l) := name_bytes l in
  let '(close, l) := optional "}" l in
  (paren ++ brace ++ name ++ close, name, l).

Section dotenv.
(** [os.LookupEnv] *)
Context (LookupEnv : string → option string).

(** The value of a name: of the file, or of the environment. *)
Definition lookup_var (vars : gmap string string) (name : string) : string :=
  match vars !! name with
  | Some v => v
  | None => default "" (LookupEnv name)
  end.

Fixpoint expand_go (vars : gmap string string) (fuel : nat) (l : list ascii) : list ascii :=
  match fuel, l with
  | S fuel, a :: l' =>
      if bool_decide (a = "\"%char) then
        match l' with
        | b :: l'' =>
            if bool_decide (b = "$"%char) then
              let '(text, _, rest) := var_match l'' in "$"%char :: text ++ expand_go vars fuel rest
            else a :: expand_go vars fuel l'
        | [] => [a]
        end
      else if bool_decide (a = "$"%char) then
        let '(text, name, rest) := var_match l' in
        (match name with [] => a :: text | _ => to_list (lookup_var vars (of_list name)) end)
        ++ expand_go vars fuel rest
      else a :: expand_go vars fuel l'
  | _, _ => []
  end.
Definition expandVariables (v : list ascii) (vars : gmap string string) : list ascii := expand_go vars (length v) v.

(** [escapeRegex], then [unescapeCharsRegex]. *)
Fixpoint escapes (fuel : nat) (l : list ascii) : list ascii :=
  match fuel, l with
  | S fuel, a :: l' =>
      match l' with
      | b :: l'' =>
          if bool_decide (a = "\"%char ∧ b ≠ "010"%char) then
            (if bool_decide (b = "n"%char) then ["010"%char] else if bool_decide (b = "r"%char) then ["013"%char] else [a; b])
            ++ escapes fuel l''
          else a :: escapes fuel l'
      | [] => [a]
      end
  | _, _ => []
  end.
Fixpoint unescape (fuel : nat) (l : list ascii) : list ascii :=
  match fuel, l with
  | S fuel, a :: l' =>
      match l' with
      | b :: l'' => if bool_decide (a = "\"%char ∧ b ≠ "$"%char) then b :: unescape fuel l'' else a :: unescape fuel l'
      | [] => [a]
      end
  | _, _ => []
  end.
Definition expandEscapes (str : list ascii) : list ascii :=
  let out := escapes (length str) str in unescape (length out) out.

(** ** Statements *)

(** The rest from the next statement on, empty at the end of the file. *)
Fixpoint statement_go (fuel : nat) (src : list ascii) : list ascii :=
  match fuel with
  | O => []
  | S fuel =>
      match IndexFunc (λ r, negb (IsSpace r)) src with
      | None => []
      | Some pos =>
          let src := drop pos src in
          match src with
          | a :: _ =>
              if bool_decide (a = "#"%char) then
                match IndexFunc (isCharFunc 10) src with None => [] | Some pos => statement_go fuel (drop pos src) end
              else src
          | [] => []
          end
      end
  end.
Definition getStatementStart (src : list ascii) : list ascii := statement_go (S (length src)) src.

(** The loop over the bytes of a name: where it ends, if it does. *)
Fixpoint key_end (l : list ascii) (i : nat) : outcome (option nat) :=
  match l with
  | [] => Ret None
  | a :: l =>
      if isSpace (byte a) then key_end l (S i)
      else if bool_decide (a = "="%char ∨ a = ":"%char) then Ret (Some i)
      else if bool_decide (a = "_"%char ∨ a = "."%char) || IsLetter (byte a) || IsNumber (byte a) then key_end l (S i)
      else Throw (ErrMsg "unexpected character in variable name")
  end.

Definition strip_export (src : list ascii) : list ascii :=
  match strip (to_list "export") src with
  | Some trimmed => if bool_decide (IndexFunc isSpace trimmed = Some 0%nat) then TrimLeftFunc isSpace trimmed else src
  | None => src
  end.

Definition locateKeyName (src : list ascii) : outcome (string * list ascii) :=
  let src := strip_export (TrimLeftFunc isSpace src) in
  e ← key_end src 0;
  match src with
  | [] => Throw (ErrMsg "zero length string")
  | _ =>
      let '(key, offset) := match e with Some i => (take i src, S i) | None => ([], 0%nat) end in
      Ret (of_list (TrimRightFunc IsSpace key), TrimLeftFunc isSpace (drop offset src))
  end.

(** A comment starts at a hash after a space; the byte before the first one of
    a line is out of range. *)
Fixpoint end_of_var (prev : option Z) (line : list Z) (i : nat) : outcome (option nat) :=
  match line with
  | [] => Ret None
  | r :: line =>
      if r =? 35 then
        match prev with
        | None => Panic IndexOutOfRange
        | Some p => if isSpace p then Ret (Some i) else end_of_var (Some r) line (S i)
        end
      else end_of_var (Some r) line (S i)
  end.

(** The end of a quoted value: a quote that no backslash precedes. *)
Fixpoint closing (quote : ascii) (prev : ascii) (l : list ascii) (i : nat) : option nat :=
  match l with
  | [] => None
  | a :: l => if bool_decide (a = quote ∧ prev ≠ "\"%char) then Some i else closing quote a l (S i)
  end.

Definition extractVarValue (src : list ascii) (vars : gmap string string) : outcome (string * list ascii) :=
  match src with
  | quote :: l =>
      if bool_decide (quote = "'"%char ∨ quote = char 34) then
        match closing quote quote l 1 with
        | Some i =>
            let value := TrimLeftFunc (isCharFunc (byte quote)) (TrimRightFunc (isCharFunc (byte quote)) (take i src)) in
            Ret (of_list (if bool_decide (quote = char 34) then expandVariables (expandEscapes value) vars else value),
                 drop (S i) src)
        | None => Throw (ErrMsg "unterminated quoted value")
        end
      else
        let endOfLine := default (length src) (IndexFunc isLineEnd src) in
        let line := runes (take endOfLine src) in
        match line with
        | [] => Ret ("", drop endOfLine src)
        | _ =>
            e ← end_of_var None line 0;
            let endOfVar := default (length line) e in
            let trimmed := TrimFunc isSpace (of_runes (take endOfVar line)) in
            Ret (of_list (expandVariables trimmed vars), drop endOfLine src)
        end
  | [] => Ret ("", [])
  end.

(** The loop of [parseBytes]; [None] when there is no fuel left. *)
Fixpoint parse_go (fuel : nat) (cutset : list ascii) (out : gmap string string) : option (outcome (gmap string string)) :=
  match fuel with
  | O => None
  | S fuel =>
      match getStatementStart cutset with
      | [] => Some (Ret out)
      | cutset =>
          match (kl ← locateKeyName cutset; vl ← extractVarValue kl.2 out; Ret (kl.1, vl.1, vl.2)) with
          | Ret (key, value, rest) => parse_go fuel rest (<[key := value]> out)
          | Throw e => Some (Throw e)
          | Panic p => Some (Panic p)
          end
      end
  end.

Definition parseBytes (src : list ascii) (out : gmap string string) : option (outcome (gmap string string)) :=
  let src := unix_lines src in parse_go (S (length src)) src out.

(** [Parse] of what a reader delivers. *)
Definition Parse (content : sys string) : option (outcome (gmap string string)) :=
  match content with
  | inl s => parseBytes (to_list s) ∅
  | inr e => Some (Throw e)
  end.

(** [Read] of several files: the last one that sets a variable wins. *)
Fixpoint read_files (open : string → sys string) (fnames : list string) (envs : gmap string string)
    : option (outcome (gmap string string)) :=
  match fnames with
  | [] => Some (Ret envs)
  | fname :: fnames =>
      match Parse (open fname) with
      | Some (Ret m) => read_files open fnames (m ∪ envs)
      | r => r
      end
  end.
Definition Read (open : string → sys string) (fnames : list string) : option (outcome (gmap string string)) :=
  read_files open (match fnames with [] => [".env"] | _ => fnames end) ∅.
End dotenv.
End Dotenv.

(** ** At work *)

Module DotenvExamples.
Import Dotenv.
Definition newline : string := String (char 10) "".
Definition quote : string := String (char 34) "".
Definition read (s : string) : option (outcome (list (string * string))) :=
  match parseBytes (λ _, None) (to_list s) ∅ with
  | Some (Ret m) => Some (Ret (map_to_list m))
  | Some (Throw e) => Some (Throw e)
  | Some (Panic p) => Some (Panic p)
  | None => None
  end.
Example expands : read ("A=1" +:+ newline +:+ "# x" +:+ newline +:+ "export B: 'x y' " +:+ newline +:+ "C=${A}z # foo") =
  Some (Ret [("C", "1z"); ("A", "1"); ("B", "x y")]).
Proof. reflexivity. Qed.
Example comment_panics : read "A= # c" = Some (Panic IndexOutOfRange).
Proof. reflexivity. Qed.
Example no_equals : read "FOO" = Some (Ret [("", "FOO")]).
Proof. reflexivity. Qed.
Example escaped_quote_lost : read ("A=" +:+ quote +:+ "x\" +:+ quote +:+ quote) = Some (Ret [("A", "x\")]).
Proof. reflexivity. Qed.
Example not_a_command : read "A=$(A)" = Some (Ret [("A", ")")]).
Proof. reflexivity. Qed.
End DotenvExamples.
