(* ===== verification/DotenvFacts.v ===== *)
(** DotenvFacts: the parser of files of variables comes to an end, which is a panic
    only for a value that begins with a hash, reads back
    what was quoted, and does not survive an empty value with a comment. *)

From S2P Require Import Prelude.
From S2P Require Import GoStd.
From S2P Require Import GoFacts.
From S2P Require Import Dotenv.

Open Scope Z_scope.
#[local] Set Warnings "-register-all".

Module DotenvFacts.
Import Strings Utf8 Dotenv.

(** ** Runes *)

Lemma byte_range a : 0 ≤ byte a < 256.
Proof. unfold byte. pose proof (N_ascii_bounded a). lia. Qed.
Lemma byte_inj a b : byte a = byte b → a = b.
Proof. unfold byte. intros Hab. rewrite <- (ascii_N_embedding a), <- (ascii_N_embedding b). f_equal. lia. Qed.

Lemma within_iff lo hi b : within lo hi b = true ↔ lo ≤ b ≤ hi.
Proof. unfold within. rewrite andb_true_iff, !Z.leb_le. done. Qed.

(** Bytes that follow add six bits each. *)
Lemma continue_lower n lo hi acc l r :
  0 ≤ acc → continue n lo hi acc l = Some r → acc * 64 ^ Z.of_nat n ≤ r.
Proof.
  revert lo hi acc l. induction n as [|n IH]; intros lo hi acc l Hacc; cbn [continue]; [intros [= <-]; lia|].
  destruct l as [|a l]; [done|]. destruct (within _ _ _); [|done]. intros Hr.
  assert (0 ≤ Z.land (byte a) 63) by (apply Z.land_nonneg; lia).
  apply IH in Hr; [|lia]. rewrite Nat2Z.inj_succ, Z.pow_succ_r by lia.
  assert (0 < 64 ^ Z.of_nat n) by (apply Z.pow_pos_nonneg; lia). nia.
Qed.
Lemma continue_second n lo hi acc l r :
  0 ≤ acc → 128 ≤ lo → hi ≤ 191 → continue (S n) lo hi acc l = Some r → (acc * 64 + (lo - 128)) * 64 ^ Z.of_nat n ≤ r.
Proof.
  intros Hacc Hlo Hhi. cbn [continue]. destruct l as [|a l]; [done|]. destruct (within _ _ _) eqn:Hw; [|done].
  apply within_iff in Hw. intros Hr%continue_lower; [|assert (0 ≤ Z.land (byte a) 63) by (apply Z.land_nonneg; lia); lia].
  assert (Z.land (byte a) 63 = byte a - 128) as Hl.
  { change 63 with (Z.ones 6). rewrite Z.land_ones by lia. change (2 ^ 6) with 64. Z.to_euclidean_division_equations; lia. }
  rewrite Hl in Hr. etransitivity; [|exact Hr]. apply Z.mul_le_mono_nonneg_r; [apply Z.pow_nonneg; lia|lia].
Qed.

Definition leading_ok (b : Z) : bool :=
  match leading b with
  | Some (S n, lo, hi) =>
      (128 <=? lo) && (hi <=? 191) &&
      (128 <=? (Z.land b (Z.shiftr 63 (Z.of_nat (S n))) * 64 + (lo - 128)) * 64 ^ Z.of_nat n)
  | Some (O, _, _) => false
  | None => true
  end.
Lemma leading_fine b : 0 ≤ b < 256 → leading_ok b = true.
Proof.
  intros Hb. assert (forallb leading_ok (seqZ 0 256) = true) as Hall by (vm_compute; reflexivity).
  rewrite forallb_forall in Hall. apply Hall, list_elem_of_In, elem_of_seqZ. lia.
Qed.

(** A rune of several bytes is not an ASCII character. *)
Lemma DecodeRune_wide a l : 128 ≤ byte a → 128 ≤ (DecodeRune a l).1.
Proof.
  intros Ha. unfold DecodeRune. rewrite (proj2 (Z.ltb_ge _ _)) by done.
  pose proof (leading_fine (byte a) (byte_range a)) as Hok. unfold leading_ok in Hok.
  destruct (leading (byte a)) as [[[[|n] lo] hi]|]; [done| |done].
  destruct (continue (S n) _ _ _ _) as [r|] eqn:Hr; [|done]. cbn [fst].
  rewrite !andb_true_iff, !Z.leb_le in Hok. destruct Hok as [[Hlo Hhi] Hr'].
  apply continue_second in Hr; [lia|apply Z.land_nonneg; lia|done..].
Qed.
Lemma DecodeRune_ascii a l : byte a < 128 → DecodeRune a l = (byte a, 1%nat).
Proof. intros Ha. unfold DecodeRune. by rewrite (proj2 (Z.ltb_lt _ _)). Qed.
Lemma DecodeRune_width a l : (1 ≤ (DecodeRune a l).2)%nat.
Proof.
  unfold DecodeRune. destruct (_ <? _); [done|]. destruct (leading _) as [[[n lo] hi]|]; [|done].
  destruct (continue _ _ _ _ _); cbn; lia.
Qed.

(** An ASCII character stands for itself only. *)
Lemma DecodeRune_char a l c : c < 128 → (DecodeRune a l).1 = c ↔ byte a = c.
Proof.
  intros Hc. destruct (Z.lt_ge_cases (byte a) 128) as [Ha|Ha]; [by rewrite DecodeRune_ascii|].
  pose proof (DecodeRune_wide a l Ha). lia.
Qed.
Lemma RuneStart_wide a : RuneStart a = true → 128 ≤ byte a ∨ byte a < 128.
Proof. lia. Qed.
Lemma DecodeLastRune_char a back c : c < 128 → (DecodeLastRune a back).1 = c ↔ byte a = c.
Proof.
  intros Hc. unfold DecodeLastRune. destruct (Z.ltb_spec (byte a) 128) as [Ha|Ha]; [done|].
  enough (128 ≤ (match list_find (λ b, RuneStart b = true) (take 3 back) with
       | None => (RuneError, 1%nat)
       | Some (i, b) =>
           let '(r, w) := DecodeRune b (rev (a :: take i back)) in
           if (w =? S (S i))%nat then (r, w) else (RuneError, 1%nat)
       end).1) by lia.
  destruct (list_find _ _) as [[i b]|]; [|done].
  destruct (DecodeRune b _) as [r w] eqn:E. destruct (Nat.eqb_spec w (S (S i))) as [->|]; [|done]. cbn.
  destruct (Z.lt_ge_cases (byte b) 128) as [Hb|Hb]; [by rewrite DecodeRune_ascii in E|].
  pose proof (DecodeRune_wide b (rev (a :: take i back)) Hb) as Hw. by rewrite E in Hw.
Qed.
Lemma DecodeLastRune_ascii a back : byte a < 128 → DecodeLastRune a back = (byte a, 1%nat).
Proof. intros Ha. unfold DecodeLastRune. by rewrite (proj2 (Z.ltb_lt _ _)). Qed.

(** ** Searching and trimming *)

Lemma index_go_range f fuel pos l p : index_go f fuel pos l = Some p → (pos ≤ p < pos + length l)%nat.
Proof.
  revert pos l. induction fuel as [|fuel IH]; intros pos l; cbn [index_go]; [done|]. destruct l as [|a l]; [done|].
  pose proof (DecodeRune_width a l). destruct (DecodeRune a l) as [r w]. cbn in *. destruct (f r); [intros [= <-]; lia|].
  intros Hp%IH. rewrite length_drop in Hp. cbn in Hp. lia.
Qed.
Lemma IndexFunc_range f l p : IndexFunc f l = Some p → (p < length l)%nat.
Proof. intros Hp%index_go_range. lia. Qed.
Lemma IndexFunc_first f a l : f (DecodeRune a l).1 = true → IndexFunc f (a :: l) = Some 0%nat.
Proof. unfold IndexFunc. cbn [length index_go]. destruct (DecodeRune a l) as [r w]. cbn. by intros ->. Qed.
Lemma IndexFunc_positive f a l : f (DecodeRune a l).1 = false → IndexFunc f (a :: l) ≠ Some 0%nat.
Proof.
  unfold IndexFunc. cbn [length index_go]. pose proof (DecodeRune_width a l). destruct (DecodeRune a l) as [r w]. cbn in *.
  intros -> Hp%index_go_range. lia.
Qed.
(** What is found is what was looked for. *)
Lemma index_go_found f fuel pos l p :
  index_go f fuel pos l = Some p → ∃ a r, drop (p - pos) l = a :: r ∧ f (DecodeRune a r).1 = true.
Proof.
  revert pos l. induction fuel as [|fuel IH]; intros pos l; cbn [index_go]; [done|]. destruct l as [|a l]; [done|].
  destruct (DecodeRune a l) as [r w] eqn:E. destruct (f r) eqn:Hf.
  - intros [= <-]. rewrite Nat.sub_diag. exists a, l. by rewrite E.
  - intros Hp. pose proof (index_go_range _ _ _ _ _ Hp) as Hr. apply IH in Hp. rewrite drop_drop in Hp.
    by replace (w + (p - (pos + w)))%nat with (p - pos)%nat in Hp by lia.
Qed.
Lemma IndexFunc_found f l p : IndexFunc f l = Some p → ∃ a r, drop p l = a :: r ∧ f (DecodeRune a r).1 = true.
Proof. intros Hp%index_go_found. by rewrite Nat.sub_0_r in Hp. Qed.

Lemma trim_left_drops f fuel l : ∃ k, trim_left_go f fuel l = drop k l.
Proof.
  revert l. induction fuel as [|fuel IH]; intros l; cbn [trim_left_go]; [by exists 0%nat|].
  destruct l as [|a l]; [by exists 0%nat|]. destruct (DecodeRune a l) as [r w]. destruct (f r); [|by exists 0%nat].
  destruct (IH (drop w (a :: l))) as [k ->]. exists (w + k)%nat. by rewrite drop_drop.
Qed.
Lemma TrimLeftFunc_suffix f l : ∃ k, TrimLeftFunc f l = drop k l.
Proof. apply trim_left_drops. Qed.
Lemma TrimLeftFunc_length f l : (length (TrimLeftFunc f l) ≤ length l)%nat.
Proof. destruct (TrimLeftFunc_suffix f l) as [k ->]. rewrite length_drop. lia. Qed.
Lemma trim_left_head f fuel l a r :
  (length l ≤ fuel)%nat → trim_left_go f fuel l = a :: r → f (DecodeRune a r).1 = false.
Proof.
  revert l. induction fuel as [|fuel IH]; intros l Hl; cbn [trim_left_go]; [by destruct l; cbn in Hl; [|lia]|].
  destruct l as [|b l]; [done|]. pose proof (DecodeRune_width b l) as Hw.
  destruct (DecodeRune b l) as [r' w] eqn:E. destruct (f r') eqn:Hf.
  - apply IH. cbn in *. rewrite length_drop. cbn. lia.
  - intros [= <- <-]. by rewrite E.
Qed.
Lemma TrimLeftFunc_head f l a r : TrimLeftFunc f l = a :: r → f (DecodeRune a r).1 = false.
Proof. by apply trim_left_head. Qed.
Lemma TrimLeftFunc_none f a l : f (DecodeRune a l).1 = false → TrimLeftFunc f (a :: l) = a :: l.
Proof. unfold TrimLeftFunc. cbn [length trim_left_go]. destruct (DecodeRune a l) as [r w]. cbn. by intros ->. Qed.
Lemma TrimRightFunc_none f l a : f (DecodeLastRune a (rev l)).1 = false → TrimRightFunc f (l ++ [a]) = l ++ [a].
Proof.
  unfold TrimRightFunc. rewrite rev_app_distr, length_app, Nat.add_comm. cbn [rev app length trim_right_go Nat.add].
  destruct (DecodeLastRune a (rev l)) as [r w]. cbn. intros ->. cbn. by rewrite rev_involutive.
Qed.

(** ** The end of the file is reached *)

Lemma statement_length fuel src : (length (statement_go fuel src) ≤ length src)%nat.
Proof.
  revert src. induction fuel as [|fuel IH]; intros src; cbn [statement_go]; [cbn; lia|].
  destruct (IndexFunc _ src) as [pos|]; [|cbn; lia]. pose proof (length_drop src pos) as Hd.
  destruct (drop pos src) as [|a l] eqn:E; [cbn; lia|]. case_bool_decide; [|lia].
  destruct (IndexFunc _ (a :: l)) as [p|]; [|cbn; lia]. etransitivity; [apply IH|]. rewrite length_drop. lia.
Qed.

Lemma key_end_range l i j : key_end l i = Ret (Some j) → (i ≤ j < i + length l)%nat.
Proof.
  revert i. induction l as [|a l IH]; intros i; cbn [key_end length]; [done|].
  destruct (isSpace _); [intros Hj%IH; lia|]. case_bool_decide; [intros [= <-]; lia|].
  destruct (_ || _); [intros Hj%IH; lia|done].
Qed.
(** A name that does not end has no line end in it. *)
Lemma key_end_None l i : key_end l i = Ret None → Forall (λ a, byte a ≠ 10) l.
Proof.
  revert i. induction l as [|a l IH]; intros i; cbn [key_end]; [constructor|]. intros Hk.
  assert (byte a ≠ 10 ∧ ∃ i', key_end l i' = Ret None) as [Ha [i' Hi']]; [|constructor; by eauto].
  destruct (isSpace (byte a)) eqn:Hs; [split; [intros E; by rewrite E in Hs|by eexists]|].
  case_bool_decide; [done|]. destruct (_ || _) eqn:Hn; [|done]. split; [|by eexists]. intros E.
  rewrite E in Hn. rewrite orb_false_r in Hn. apply orb_true_iff in Hn as [Hn|Hn]; [|done].
  apply bool_decide_eq_true in Hn as [-> | ->]; done.
Qed.

Lemma strip_export_length src : (length (strip_export src) ≤ length src)%nat.
Proof.
  unfold strip_export. destruct (strip _ src) as [t|] eqn:E; [|done]. case_bool_decide; [|done].
  etransitivity; [apply TrimLeftFunc_length|]. revert E. generalize (to_list "export"). intros e. revert src.
  induction e as [|a e IH]; intros src; cbn [strip]; [by intros [= ->]|]. destruct src as [|b src]; [done|].
  case_decide; [|done]. intros Hs%IH. cbn. lia.
Qed.

(** Reading a name takes something away, or leaves a value to be read. *)
Lemma locateKeyName_rest src key rest : locateKeyName src = Ret (key, rest) →
  (length rest < length src)%nat ∨
  (length rest ≤ length src)%nat ∧ ∃ a r, rest = a :: r ∧ isLineEnd (DecodeRune a r).1 = false.
Proof.
  unfold locateKeyName. pose proof (TrimLeftFunc_length isSpace src) as Ht.
  pose proof (strip_export_length (TrimLeftFunc isSpace src)) as Hs.
  set (src1 := strip_export _) in *. clearbody src1. intros Hk. apply outcome_bind_Ret in Hk as (e & He & Hk).
  assert (0 < length src1)%nat as Hpos by (destruct src1; [by cbn in Hk|cbn; lia]).
  assert (∃ o, rest = TrimLeftFunc isSpace (drop o src1) ∧ match e with Some i => o = S i | None => o = 0%nat end) as (o & -> & Ho).
  { destruct src1; [done|]. destruct e as [i|]; injection Hk as _ <-; [by exists (S i)|by exists 0%nat]. }
  pose proof (TrimLeftFunc_length isSpace (drop o src1)) as Hl. rewrite length_drop in Hl.
  destruct e as [i|]; subst o; [apply key_end_range in He; left; lia|].
  destruct (TrimLeftFunc isSpace (drop 0 src1)) as [|a r] eqn:Er; [left; cbn; lia|right; split; [lia|]].
  exists a, r. split; [done|]. pose proof (TrimLeftFunc_head _ _ _ _ Er) as Hh.
  apply key_end_None in He. destruct (TrimLeftFunc_suffix isSpace (drop 0 src1)) as [k Hk'].
  rewrite Er, drop_drop in Hk'. assert (byte a ≠ 10) as Ha.
  { apply (Forall_drop _ (0 + k)) in He. rewrite <- Hk' in He. by apply Forall_cons in He as [He _]. }
  unfold isLineEnd. apply bool_decide_eq_false. intros [E|E]; [by apply DecodeRune_char in E|].
  by rewrite E in Hh.
Qed.

Lemma closing_range q p l i j : closing q p l i = Some j → (i ≤ j)%nat.
Proof.
  revert p i. induction l as [|a l IH]; intros p i; cbn [closing]; [done|]. case_bool_decide; [intros [= <-]; lia|].
  intros Hj%IH. lia.
Qed.

Lemma extractVarValue_rest getenv src vars v rest : extractVarValue getenv src vars = Ret (v, rest) →
  (length rest ≤ length src)%nat ∧
  ∀ a r, src = a :: r → isLineEnd (DecodeRune a r).1 = false → (length rest < length src)%nat.
Proof.
  unfold extractVarValue. destruct src as [|q l]; [by intros [= _ <-]|]. case_bool_decide.
  - destruct (closing q q l 1) as [i|]; [|done]. intros [= _ <-]. rewrite length_drop. cbn. split; [lia|].
    intros a r [= <- <-] _. lia.
  - intros Hv. assert (rest = drop (default (length (q :: l)) (IndexFunc isLineEnd (q :: l))) (q :: l)) as ->.
    { destruct (runes _); [by injection Hv as _ <-|]. apply outcome_bind_Ret in Hv as (e & _ & [= _ <-]). done. }
    clear Hv. rewrite length_drop. split; [lia|]. intros a r [= <- <-] Hh.
    pose proof (IndexFunc_positive isLineEnd q l Hh). destruct (IndexFunc _ _) as [[|p]|]; cbn [default length] in *; [done|cbn; lia..].
Qed.

(** What a statement leaves is an end of the file. *)
Lemma drop_suffix {A} (l l' : list A) k : l `suffix_of` l' → drop k l `suffix_of` l'.
Proof. intros Hl. etrans; [|exact Hl]. exists (take k l). by rewrite take_drop. Qed.
Lemma statement_suffix fuel src : statement_go fuel src `suffix_of` src.
Proof.
  revert src. induction fuel as [|fuel IH]; intros src; cbn [statement_go]; [apply suffix_nil|].
  destruct (IndexFunc _ src) as [pos|]; [|apply suffix_nil]. pose proof (drop_suffix src src pos ltac:(done)) as Hd.
  destruct (drop pos src) as [|a l] eqn:E; [apply suffix_nil|]. case_bool_decide; [|done].
  destruct (IndexFunc _ (a :: l)) as [p|]; [|apply suffix_nil]. etrans; [apply IH|]. by apply drop_suffix.
Qed.
Lemma TrimLeft_suffix f l l' : l `suffix_of` l' → TrimLeftFunc f l `suffix_of` l'.
Proof. destruct (TrimLeftFunc_suffix f l) as [k ->]. apply drop_suffix. Qed.
Lemma strip_suffix e l t : strip e l = Some t → t `suffix_of` l.
Proof.
  revert l. induction e as [|a e IH]; intros l; cbn [strip]; [by intros [= ->]|]. destruct l as [|b l]; [done|].
  case_decide; [|done]. intros Hs%IH. by apply suffix_cons_r.
Qed.
Lemma locateKeyName_suffix src key rest : locateKeyName src = Ret (key, rest) → rest `suffix_of` src.
Proof.
  unfold locateKeyName. intros (e & _ & Hk)%outcome_bind_Ret.
  assert (strip_export (TrimLeftFunc isSpace src) `suffix_of` src) as Hs.
  { unfold strip_export. destruct (strip _ _) as [t|] eqn:E; [|by apply TrimLeft_suffix].
    case_bool_decide; [|by apply TrimLeft_suffix]. apply TrimLeft_suffix. etrans; [by eapply strip_suffix|by apply TrimLeft_suffix]. }
  destruct (strip_export _) as [|a l]; [done|]. destruct e as [i|]; injection Hk as _ <-; apply TrimLeft_suffix; [|done]. exact (drop_suffix (a :: l) src (S i) Hs).
Qed.
Lemma extractVarValue_suffix getenv src vars v rest : extractVarValue getenv src vars = Ret (v, rest) → rest `suffix_of` src.
Proof.
  unfold extractVarValue. destruct src as [|q l]; [by intros [= _ <-]|]. case_bool_decide.
  - destruct (closing q q l 1) as [i|]; [|done]. intros [= _ <-]. exact (drop_suffix (q :: l) (q :: l) (S i) (reflexivity _)).
  - destruct (runes _); [intros [= _ <-]; by apply drop_suffix|].
    intros (e & _ & [= _ <-])%outcome_bind_Ret. by apply drop_suffix.
Qed.

(** Panics come of a value that begins with a hash, and of nothing else. *)
Lemma key_end_panic l i p : key_end l i ≠ Panic p.
Proof. revert i. induction l as [|a l IH]; intros i; cbn [key_end]; [done|]. by repeat case_match. Qed.
Lemma locateKeyName_panic src p : locateKeyName src ≠ Panic p.
Proof.
  unfold locateKeyName. pose proof (key_end_panic (strip_export (TrimLeftFunc isSpace src)) 0 p) as Hp.
  destruct (key_end _ 0) as [e|er|q]; cbn [mbind outcome_bind]; [|done|intros [= ->]; by destruct Hp].
  destruct (strip_export _); [done|]. by destruct e.
Qed.
Lemma end_of_var_panic prev line i p : end_of_var prev line i = Panic p →
  p = IndexOutOfRange ∧ prev = None ∧ ∃ l, line = 35 :: l.
Proof.
  revert prev i. induction line as [|r line IH]; intros prev i; cbn [end_of_var]; [done|].
  destruct (Z.eqb_spec r 35) as [->|].
  - destruct prev as [q|]; [|intros [= <-]; by eauto]. destruct (isSpace q); [done|]. by intros (_ & ? & _)%IH.
  - by intros (_ & ? & _)%IH.
Qed.
Lemma runes_hash l rs : runes l = 35 :: rs → ∃ l', l = "#"%char :: l'.
Proof.
  unfold runes. destruct l as [|a l]; [done|]. cbn [length runes_go].
  pose proof (DecodeRune_char a l 35 ltac:(lia)) as [Hc _]. destruct (DecodeRune a l) as [r w]. intros [= -> _].
  exists l. f_equal. apply byte_inj. by apply Hc.
Qed.
Lemma extractVarValue_panic getenv src vars p : extractVarValue getenv src vars = Panic p →
  p = IndexOutOfRange ∧ ∃ l, src = "#"%char :: l.
Proof.
  unfold extractVarValue. destruct src as [|q l]; [done|]. case_bool_decide; [by destruct (closing _ _ _ _)|].
  destruct (runes _) as [|r rs] eqn:Er; [done|].
  destruct (end_of_var None (r :: rs) 0) as [e|er|p'] eqn:Ee; cbn [mbind outcome_bind]; [done..|]. intros [= <-].
  apply end_of_var_panic in Ee as (-> & _ & l' & [= -> ->]). split; [done|]. apply runes_hash in Er as [l'' Hl].
  destruct (default _ _); [done|]. injection Hl as -> _. by eexists.
Qed.

(** The file has a statement whose value, as it stands, begins with a hash. *)
Definition hash_value (src : list ascii) : Prop :=
  ∃ statement name l, statement `suffix_of` src ∧ locateKeyName statement = Ret (name, "#"%char :: l).

Lemma parse_go_ends getenv fuel cutset out : (length cutset < fuel)%nat →
  ∃ o, parse_go getenv fuel cutset out = Some o ∧ ∀ p, o = Panic p → p = IndexOutOfRange ∧ hash_value cutset.
Proof.
  revert cutset out. induction fuel as [|fuel IH]; intros cutset out Hl; [lia|]. cbn [parse_go].
  pose proof (statement_length (S (length cutset)) cutset) as Hs. fold (getStatementStart cutset) in Hs.
  pose proof (statement_suffix (S (length cutset)) cutset) as Hx. fold (getStatementStart cutset) in Hx.
  destruct (getStatementStart cutset) as [|a l]; [by eexists|].
  destruct (locateKeyName (a :: l)) as [[key kr]|e|p] eqn:Ek; cbn [mbind outcome_bind fst snd];
    [|by eexists|by destruct (locateKeyName_panic (a :: l) p)].
  destruct (extractVarValue getenv kr out) as [[v rest]|e|p] eqn:Ev; cbn [mbind outcome_bind fst snd]; [|by eexists|].
  - destruct (IH rest (<[key := v]> out)) as (o & -> & Ho).
    { pose proof (locateKeyName_rest _ _ _ Ek) as Hk. apply extractVarValue_rest in Ev as [Hv Hv'].
      destruct Hk as [Hk|[Hk (b & r & -> & Hb)]]; [lia|]. specialize (Hv' b r eq_refl Hb). lia. }
    exists o. split; [done|]. intros p [-> (st & name & l' & Hst & Hn)]%Ho. split; [done|]. exists st, name, l'. split; [|done].
    etrans; [exact Hst|]. etrans; [by eapply extractVarValue_suffix|]. etrans; [by eapply locateKeyName_suffix|done].
  - exists (Panic p). split; [done|]. intros p' [= <-]. apply extractVarValue_panic in Ev as [-> [l' ->]].
    split; [done|]. by exists (a :: l), key, l'.
Qed.

(** C22: the parser always comes to an end, since every statement takes something
    of the file away: as many steps as the file has bytes, and one, are enough.
    It ends with a result, an error, or a panic, an index out of range that only
    a value that begins with a hash can cause. *)
Theorem parse_ends getenv src out :
  ∃ o, parseBytes getenv src out = Some o ∧
    ∀ p, o = Panic p → p = IndexOutOfRange ∧ hash_value (unix_lines src).
Proof. unfold parseBytes. apply parse_go_ends. lia. Qed.

(** ** Names *)

Definition key_byte (a : ascii) : bool :=
  within 65 90 (byte a) || within 97 122 (byte a) || within 48 57 (byte a) || bool_decide (a = "_"%char ∨ a = "."%char).
Definition good_key (k : list ascii) : Prop := k ≠ [] ∧ Forall (λ a, key_byte a = true) k.

Lemma key_byte_plain a : key_byte a = true →
  byte a < 128 ∧ isSpace (byte a) = false ∧ IsSpace (byte a) = false ∧ (a ≠ "#"%char ∧ a ≠ "="%char ∧ a ≠ ":"%char) ∧
  bool_decide (a = "_"%char ∨ a = "."%char) || IsLetter (byte a) || IsNumber (byte a) = true.
Proof. destruct a as [[] [] [] [] [] [] [] []]; vm_compute; intros Ha; try discriminate Ha; repeat split; congruence. Qed.

Lemma statement_first fuel a l :
  byte a < 128 → IsSpace (byte a) = false → a ≠ "#"%char → statement_go (S fuel) (a :: l) = a :: l.
Proof.
  intros Ha Hs Hh. cbn [statement_go]. rewrite IndexFunc_first by (rewrite DecodeRune_ascii by done; cbn; by rewrite Hs).
  cbn [drop]. by rewrite bool_decide_false.
Qed.
Lemma statement_key k l : good_key k → getStatementStart (k ++ l) = k ++ l.
Proof.
  intros [Hk Hf]. destruct k as [|a k]; [done|]. apply Forall_cons in Hf as [Ha%key_byte_plain _].
  apply statement_first; tauto.
Qed.

(** Nothing else is skipped before the line of a name. *)
Lemma index_go_shift f fuel pos l : index_go f fuel (S pos) l = S <$> index_go f fuel pos l.
Proof.
  revert pos l. induction fuel as [|fuel IH]; intros pos l; cbn [index_go]; [done|]. destruct l as [|a l]; [done|].
  destruct (DecodeRune a l) as [r w]. destruct (f r); [done|]. apply IH.
Qed.
Lemma IndexFunc_cons f a l : byte a < 128 → f (byte a) = false → IndexFunc f (a :: l) = S <$> IndexFunc f l.
Proof.
  intros Ha Hf. unfold IndexFunc. cbn [length index_go]. rewrite DecodeRune_ascii by done. rewrite Hf. cbn [drop Nat.add].
  apply index_go_shift.
Qed.
Lemma statement_newline k l : good_key k → getStatementStart ("010"%char :: k ++ l) = k ++ l.
Proof.
  intros [Hk Hf]. destruct k as [|a k]; [done|]. apply Forall_cons in Hf as [(Ha & _ & Hs & (Hh & _) & _)%key_byte_plain _].
  unfold getStatementStart. cbn [statement_go app length]. rewrite IndexFunc_cons by done.
  rewrite IndexFunc_first by (rewrite DecodeRune_ascii by done; cbn; by rewrite Hs). cbn [fmap option_fmap option_map drop].
  by rewrite bool_decide_false.
Qed.

Lemma strip_app e k l t : strip e (k ++ l) = Some t → k ≠ [] →
  (∃ k', k' ≠ [] ∧ t = k' ++ l ∧ k = e ++ k') ∨ (∃ e', e = k ++ e' ∧ strip e' l = Some t).
Proof.
  revert k. induction e as [|a e IH]; intros k; cbn [strip]; [intros [= <-] Hk; left; by exists k|].
  destruct k as [|b k]; [done|]. cbn [app]. case_decide as Hab; [|done]. subst b. intros Hs _.
  destruct k as [|c k].
  - right. exists e. split; [done|exact Hs].
  - destruct (IH (c :: k) Hs) as [(k' & Hk' & -> & ->)|(e' & -> & He)]; [done|left; by exists k'|right; by exists e'].
Qed.

(** A name that begins with export is a name all the same. *)
Lemma strip_export_key k t : good_key k → strip_export (k ++ "="%char :: t) = k ++ "="%char :: t.
Proof.
  intros [Hk Hf]. unfold strip_export. destruct (strip _ _) as [r|] eqn:E; [|done].
  rewrite bool_decide_false; [done|]. apply strip_app in E as [(k' & Hk' & -> & ->)|(e' & He & E)]; [..|done].
  - destruct k' as [|a k']; [done|]. apply Forall_app in Hf as [_ [Ha%key_byte_plain _]%Forall_cons].
    apply IndexFunc_positive. rewrite DecodeRune_ascii by tauto. tauto.
  - destruct e' as [|a e']; cbn [strip] in E.
    + injection E as <-. apply IndexFunc_positive. by rewrite DecodeRune_ascii.
    + case_decide as Ha; [|done]. subst a. exfalso. assert ("="%char ∈ to_list "export") as Hin.
      { rewrite He. apply elem_of_app. right. left. }
      vm_compute in Hin. set_solver.
Qed.

Lemma key_end_key k t i : Forall (λ a, key_byte a = true) k → key_end (k ++ "="%char :: t) i = Ret (Some (i + length k)%nat).
Proof.
  intros Hf. revert i. induction Hf as [|a k Ha Hf IH]; intros i; cbn [app key_end length].
  - by rewrite Nat.add_0_r.
  - apply key_byte_plain in Ha as (_ & -> & _ & (_ & He & Hc) & Hn). rewrite bool_decide_false by tauto.
    rewrite Hn, IH. do 2 f_equal. lia.
Qed.

Lemma locateKeyName_key k t : good_key k →
  locateKeyName (k ++ "="%char :: t) = Ret (of_list k, TrimLeftFunc isSpace t).
Proof.
  intros Hg. pose proof Hg as [Hk Hf]. unfold locateKeyName.
  assert (TrimLeftFunc isSpace (k ++ "="%char :: t) = k ++ "="%char :: t) as ->.
  { destruct k as [|a k]; [done|]. apply Forall_cons in Hf as [(Ha & Hs & _)%key_byte_plain _].
    apply TrimLeftFunc_none. by rewrite DecodeRune_ascii. }
  rewrite strip_export_key by done. rewrite key_end_key by done. cbn [mbind outcome_bind Nat.add].
  destruct (k ++ "="%char :: t) as [|b l] eqn:E; [by destruct k|]. rewrite <- E.
  rewrite take_app_length. replace (drop (S (length k)) (k ++ "="%char :: t)) with t
    by (rewrite <- Nat.add_1_r, drop_app_add; done).
  do 2 f_equal. f_equal. destruct k as [|a k] using rev_ind; [done|].
  apply TrimRightFunc_none. apply Forall_app in Hf as [_ [(Ha & _ & Hs & _)%key_byte_plain _]%Forall_cons].
  by rewrite DecodeLastRune_ascii.
Qed.

(** ** Comments *)

Lemma runes_first a l : byte a < 128 → ∃ rs, runes (a :: l) = byte a :: rs.
Proof. intros Ha. unfold runes. cbn [length runes_go]. rewrite DecodeRune_ascii by done. by eexists. Qed.

Lemma extract_comment getenv l vars : extractVarValue getenv ("#"%char :: l) vars = Panic IndexOutOfRange.
Proof.
  unfold extractVarValue. rewrite bool_decide_false by (by intros [|]).
  destruct (default _ (IndexFunc isLineEnd ("#"%char :: l))) as [|n] eqn:E.
  - pose proof (IndexFunc_positive isLineEnd "#" l) as Hp. rewrite DecodeRune_ascii in Hp by done.
    destruct (IndexFunc _ _) as [[|p]|]; [by specialize (Hp eq_refl)|done..].
  - cbn [take]. destruct (runes_first "#" (take n l)) as [rs ->]; [done|]. reflexivity.
Qed.

Lemma unix_lines_plain k l : Forall (λ a, a ≠ "013"%char) k → unix_lines (k ++ l) = k ++ unix_lines l.
Proof.
  induction 1 as [|a k Ha Hf IH]; [done|]. cbn [app unix_lines]. rewrite <- IH.
  destruct (k ++ l); [done|]. by rewrite bool_decide_false by tauto.
Qed.

Lemma TrimLeftFunc_spaces sp a l : Forall (λ a, a = " "%char ∨ a = "009"%char) sp →
  byte a < 128 → isSpace (byte a) = false → TrimLeftFunc isSpace (sp ++ a :: l) = a :: l.
Proof.
  intros Hsp Ha Hs. induction Hsp as [|b sp Hb Hsp IH]; [apply TrimLeftFunc_none; by rewrite DecodeRune_ascii|].
  unfold TrimLeftFunc in *. cbn [app length trim_left_go].
  assert (byte b < 128 ∧ isSpace (byte b) = true) as [Hb1 Hb2] by (by destruct Hb as [-> | ->]).
  rewrite DecodeRune_ascii by done. rewrite Hb2. exact IH.
Qed.

Lemma good_key_cr k : good_key k → Forall (λ a, a ≠ "013"%char) k.
Proof. intros [_ Hf]. eapply Forall_impl; [exact Hf|]. by intros a (_ & Hs & _)%key_byte_plain ->. Qed.

(** an empty value with a comment ends the daemon: a line that has nothing
    but spaces and a comment after the sign is read as a value whose first
    character is looked at with the one before it, whatever the name and
    whatever the comment. *)
Theorem empty_value_panics getenv out k sp l :
  good_key k → Forall (λ a, a = " "%char ∨ a = "009"%char) sp →
  parseBytes getenv (k ++ "="%char :: sp ++ "#"%char :: l) out = Some (Panic IndexOutOfRange).
Proof.
  intros Hk Hsp. unfold parseBytes.
  assert (unix_lines (k ++ "="%char :: sp ++ "#"%char :: l) = k ++ "="%char :: sp ++ "#"%char :: unix_lines l) as ->.
  { change (k ++ "="%char :: sp ++ "#"%char :: l) with (k ++ ["="%char] ++ sp ++ ["#"%char] ++ l).
    rewrite !unix_lines_plain; [done|by repeat constructor| |by repeat constructor|by apply good_key_cr].
    eapply Forall_impl; [exact Hsp|]. by intros a [-> | ->]. }
  cbn [parse_go]. rewrite statement_key by done. destruct (k ++ _) as [|b r] eqn:E; [by destruct k|]. rewrite <- E.
  rewrite locateKeyName_key by done. cbn [mbind outcome_bind fst snd]. rewrite TrimLeftFunc_spaces by done.
  by rewrite extract_comment.
Qed.

(** ** Quoted values *)

Definition quoted_byte (a : ascii) : Prop := a ≠ "'"%char ∧ a ≠ "013"%char.
Definition good_value (v : list ascii) : Prop := Forall quoted_byte v ∧ last v ≠ Some "\"%char.

Lemma closing_plain p v t i :
  Forall quoted_byte v → last (p :: v) ≠ Some "\"%char → closing "'" p (v ++ "'"%char :: t) i = Some (i + length v)%nat.
Proof.
  intros Hv. revert p i. induction Hv as [|a v Ha Hv IH]; intros p i Hl; cbn [app closing length].
  - rewrite bool_decide_true, Nat.add_0_r; [done|]. split; [done|]. intros ->. by apply Hl.
  - rewrite bool_decide_false by (intros [-> _]; by apply (proj1 Ha)). rewrite IH by done. f_equal. lia.
Qed.

Lemma quote_rune a : a ≠ "'"%char → byte a ≠ 39.
Proof. intros Ha E. by apply Ha, byte_inj. Qed.

Lemma trim_quotes v : Forall quoted_byte v →
  TrimLeftFunc (isCharFunc 39) (TrimRightFunc (isCharFunc 39) ("'"%char :: v)) = v.
Proof.
  intros Hv. destruct v as [|b v' _] using rev_ind; [done|].
  change ("'"%char :: v' ++ [b]) with (("'"%char :: v') ++ [b]). rewrite TrimRightFunc_none.
  - unfold TrimLeftFunc. cbn [app length trim_left_go]. rewrite DecodeRune_ascii by done. cbn [drop isCharFunc].
    change (isCharFunc 39 (byte "'")) with true. cbv iota. fold (TrimLeftFunc (isCharFunc 39) (v' ++ [b])).
    destruct (v' ++ [b]) as [|a r]; [by destruct v'|]. apply TrimLeftFunc_none.
    apply Forall_cons in Hv as [[Ha%quote_rune _] _]. apply Z.eqb_neq. by rewrite DecodeRune_char.
  - apply Forall_app in Hv as [_ [[Hb%quote_rune _] _]%Forall_cons]. apply Z.eqb_neq. by rewrite DecodeLastRune_char.
Qed.

Lemma extract_quoted getenv v t vars : good_value v →
  extractVarValue getenv ("'"%char :: v ++ "'"%char :: t) vars = Ret (of_list v, t).
Proof.
  intros [Hv Hl]. unfold extractVarValue. rewrite bool_decide_true by by left.
  rewrite closing_plain; [|done|destruct v; [done|exact Hl]].
  change (take (1 + length v) ("'"%char :: v ++ "'"%char :: t)) with ("'"%char :: take (length v) (v ++ "'"%char :: t)).
  rewrite take_app_length. change (byte "'") with 39. rewrite trim_quotes by done. do 2 f_equal.
  change (S (1 + length v)) with (S (S (length v))). cbn [drop].
  by rewrite <- Nat.add_1_r, drop_app_add.
Qed.

(** A file of lines with quoted values. *)
Definition assignment (kv : list ascii * list ascii) : list ascii := kv.1 ++ "="%char :: "'"%char :: kv.2 ++ ["'"%char; "010"%char].
Definition render (l : list (list ascii * list ascii)) : list ascii := concat (map assignment l).
Definition good (kv : list ascii * list ascii) : Prop := good_key kv.1 ∧ good_value kv.2.

Lemma render_cr l : Forall good l → Forall (λ a, a ≠ "013"%char) (render l).
Proof.
  induction 1 as [|[k v] l [Hk [Hv _]] Hl IH]; [constructor|]. apply Forall_app. split; [|exact IH].
  apply Forall_app. split; [by apply good_key_cr|]. do 2 (constructor; [done|]). apply Forall_app. split; [|by repeat constructor].
  eapply Forall_impl; [exact Hv|]. by intros a [_ Ha].
Qed.

Definition set_all (l : list (list ascii * list ascii)) (out : gmap string string) : gmap string string :=
  foldl (λ m kv, <[of_list kv.1 := of_list kv.2]> m) out l.

Lemma parse_render getenv l nl fuel out : Forall good l → nl = [] ∨ nl = ["010"%char] →
  (length (nl ++ render l) < fuel)%nat → parse_go getenv fuel (nl ++ render l) out = Some (Ret (set_all l out)).
Proof.
  intros Hl. revert nl fuel out. induction Hl as [|[k v] l [Hk Hv] Hl IH]; intros nl fuel out Hnl Hf.
  - destruct fuel; [lia|]. by destruct Hnl as [-> | ->].
  - destruct fuel as [|fuel]; [lia|]. cbn [fst snd] in *.
    assert (render ((k, v) :: l) = k ++ "="%char :: "'"%char :: v ++ "'"%char :: "010"%char :: render l) as Hr.
    { unfold render. cbn [map concat]. unfold assignment. cbn [fst snd]. by rewrite <- !app_assoc, <- !app_comm_cons, <- app_assoc. }
    rewrite Hr in *. cbn [parse_go].
    assert (getStatementStart (nl ++ k ++ "="%char :: "'"%char :: v ++ "'"%char :: "010"%char :: render l) =
      k ++ "="%char :: "'"%char :: v ++ "'"%char :: "010"%char :: render l) as ->.
    { destruct Hnl as [-> | ->]; [by apply (statement_key k)|by apply (statement_newline k)]. }
    destruct (k ++ _) as [|b r] eqn:E; [by destruct k|]. rewrite <- E.
    rewrite locateKeyName_key by done. cbn [mbind outcome_bind fst snd].
    rewrite TrimLeftFunc_none by by rewrite DecodeRune_ascii. rewrite extract_quoted by done.
    cbn [mbind outcome_bind fst snd]. apply (IH ["010"%char]); [by right|].
    rewrite <- E, !length_app in Hf. cbn [length] in Hf. rewrite length_app in Hf. cbn [length app] in *. lia.
Qed.

(** C23: what is quoted is read back: a file of lines KEY='value' sets exactly
    these variables, the last line of a name last, when names are letters,
    digits, underlines and dots, and values have no single quote, no carriage
    return and no backslash at the end; nothing in them is expanded. *)
Theorem render_parse getenv l out : Forall good l →
  parseBytes getenv (render l) out = Some (Ret (set_all l out)).
Proof.
  intros Hl. unfold parseBytes. rewrite <- (app_nil_r (render l)), unix_lines_plain by by apply render_cr.
  cbn [unix_lines]. rewrite app_nil_r. apply (parse_render getenv l []); [done|by left|cbn; lia].
Qed.

(** ** At work *)

Definition empty_with_comment : list ascii := to_list "KEY= # none".
Example empty_value_panics_witness : parseBytes (λ _, None) empty_with_comment ∅ = Some (Panic IndexOutOfRange).
Proof.
  apply (empty_value_panics (λ _, None) ∅ (to_list "KEY") (to_list " ") (to_list " none")).
  - by split; [|repeat constructor].
  - repeat constructor.
Defined.
Example render_parse_witness :
  parseBytes (λ _, None) (render [(to_list "A", to_list "x # $y"); (to_list "export.B", [])]) ∅ =
  Some (Ret {["A" := "x # $y"; "export.B" := ""]}).
Proof.
  rewrite render_parse; [vm_compute; reflexivity|].
  repeat constructor; vm_compute; try done; by intros [=].
Defined.
End DotenvFacts.
