(* ===== verification/PciIds.v ===== *)
(** PciIds: the reader of the PCI ID file ([internal/pci/idsdb]: [parse], [Load],
    [lookFor]).

    Lines become lists of runes.  Classes, subclasses, vendors and products are
    pointed to from several places and completed after they have been entered:
    they are kept in tables, and a pointer is a position.  The capacity of a rune
    slice is not modelled: a line that is too short panics when the rest of it is
    taken for a name. *)

From S2P Require Import Prelude.
From S2P Require Import GoStd.
From S2P Require Import Backend.
From S2P Require Import PciDevice.
From S2P Require Import Dotenv.

Open Scope Z_scope.
#[local] Set Warnings "-register-all".

Module PciIds.
Import Strings Utf8.

Abbreviation Named := IdsDb.Named.
Record Subclass := { subclass : Named; ProgrammingInterfaces : list Named }.
Record Class_ := { class : Named; Subclasses : list nat }.
(** Subsystems are products without subsystems of their own. *)
Record Product := { VendorID : string; product : Named; Subsystems : list (string * Named) }.
Record Vendor := { vendor : Named; Products : list nat }.

Definition set_ProgrammingInterfaces (l : list Named) (s : Subclass) : Subclass :=
  {| subclass := subclass s; ProgrammingInterfaces := l |}.
Definition set_Subclasses (l : list nat) (c : Class_) : Class_ := {| class := class c; Subclasses := l |}.
Definition set_Subsystems (l : list (string * Named)) (p : Product) : Product :=
  {| VendorID := VendorID p; product := product p; Subsystems := l |}.
Definition set_Products (l : list nat) (v : Vendor) : Vendor := {| vendor := vendor v; Products := l |}.

(** The variables that class blocks use, and those of vendor blocks. *)
Record class_vars := {
  db_Classes : gmap string nat; all_classes : list Class_; all_subclasses : list Subclass;
  subclasses : list nat; progIfaces : list Named; curClass : option nat; curSubclass : option nat;
}.
Record vendor_vars := {
  db_Vendors : gmap string nat; db_Products : gmap string nat; all_vendors : list Vendor; all_products : list Product;
  vendorProducts : list nat; productSubsystems : list (string * Named); curVendor : option nat; curProduct : option nat;
}.
Record state := { cls : class_vars; ven : vendor_vars; inClassBlock : bool }.
Definition start : state :=
  {| cls := {| db_Classes := ∅; all_classes := []; all_subclasses := []; subclasses := []; progIfaces := [];
               curClass := None; curSubclass := None |};
     ven := {| db_Vendors := ∅; db_Products := ∅; all_vendors := []; all_products := [];
               vendorProducts := []; productSubsystems := []; curVendor := None; curProduct := None |};
     inClassBlock := false |}.

(** [string(r[i:j])] and [string(r[i:])] *)
Definition text (r : list Z) : string := of_list (of_runes r).
Definition part (i j : nat) (r : list Z) : string := text (take (j - i) (drop i r)).
Definition from (i : nat) (r : list Z) : outcome string :=
  if (length r <? i)%nat then Panic IndexOutOfRange else Ret (text (drop i r)).
Definition named (id : string) (name : string) : Named := {| IdsDb.ID := id; IdsDb.Name := name |}.

(** What was collected is given to the one it belongs to, and collecting begins
    anew; without one it goes on. *)
Definition finalize {A B} (set : list B → A → A) (cur : option nat) (table : list A) (collected : list B)
    : list A * list B :=
  match cur with Some p => (alter (set collected) p table, []) | None => (table, collected) end.

Definition new_class (r : list Z) (c : class_vars) : outcome class_vars :=
  let '(classes, subs) := finalize set_Subclasses (curClass c) (all_classes c) (subclasses c) in
  name ← from 6 r;
  Ret {| db_Classes := <[part 2 4 r := length classes]> (db_Classes c);
         all_classes := classes ++ [{| class := named (part 2 4 r) name; Subclasses := subs |}];
         all_subclasses := all_subclasses c; subclasses := subs; progIfaces := progIfaces c;
         curClass := Some (length classes); curSubclass := curSubclass c |}.

Definition new_subclass (r : list Z) (c : class_vars) : outcome class_vars :=
  let '(subs, ifaces) := finalize set_ProgrammingInterfaces (curSubclass c) (all_subclasses c) (progIfaces c) in
  name ← from 5 r;
  Ret {| db_Classes := db_Classes c; all_classes := all_classes c;
         all_subclasses := subs ++ [{| subclass := named (part 1 3 r) name; ProgrammingInterfaces := ifaces |}];
         subclasses := subclasses c ++ [length subs]; progIfaces := ifaces;
         curClass := curClass c; curSubclass := Some (length subs) |}.

Definition new_iface (r : list Z) (c : class_vars) : outcome class_vars :=
  name ← from 6 r;
  Ret {| db_Classes := db_Classes c; all_classes := all_classes c; all_subclasses := all_subclasses c;
         subclasses := subclasses c; progIfaces := progIfaces c ++ [named (part 2 4 r) name];
         curClass := curClass c; curSubclass := curSubclass c |}.

Definition new_vendor (r : list Z) (v : vendor_vars) : outcome vendor_vars :=
  let '(vendors, products) := finalize set_Products (curVendor v) (all_vendors v) (vendorProducts v) in
  name ← from 6 r;
  Ret {| db_Vendors := <[part 0 4 r := length vendors]> (db_Vendors v); db_Products := db_Products v;
         all_vendors := vendors ++ [{| vendor := named (part 0 4 r) name; Products := products |}];
         all_products := all_products v; vendorProducts := products; productSubsystems := productSubsystems v;
         curVendor := Some (length vendors); curProduct := curProduct v |}.

Definition new_product (r : list Z) (v : vendor_vars) : outcome vendor_vars :=
  let '(products, subsystems) := finalize set_Subsystems (curProduct v) (all_products v) (productSubsystems v) in
  match curVendor v ≫= (all_vendors v !!.) with
  | None => Panic NilDereference
  | Some cur =>
      let productID := part 1 5 r in
      let productKey := IdsDb.ID (vendor cur) +:+ productID in
      name ← from 7 r;
      Ret {| db_Vendors := db_Vendors v; db_Products := <[productKey := length products]> (db_Products v);
             all_vendors := all_vendors v;
             all_products := products ++ [{| VendorID := IdsDb.ID (vendor cur); product := named productID name; Subsystems := [] |}];
             vendorProducts := vendorProducts v ++ [length products]; productSubsystems := subsystems;
             curVendor := curVendor v; curProduct := Some (length products) |}
  end.

Definition new_subsystem (r : list Z) (v : vendor_vars) : outcome vendor_vars :=
  name ← from 13 r;
  Ret {| db_Vendors := db_Vendors v; db_Products := db_Products v; all_vendors := all_vendors v;
         all_products := all_products v; vendorProducts := vendorProducts v;
         productSubsystems := productSubsystems v ++ [(part 2 6 r, named (part 7 11 r) name)];
         curVendor := curVendor v; curProduct := curProduct v |}.

Definition on_cls (block : bool) (f : class_vars → outcome class_vars) (s : state) : outcome state :=
  c ← f (cls s); Ret {| cls := c; ven := ven s; inClassBlock := block |}.
Definition on_ven (f : vendor_vars → outcome vendor_vars) (s : state) : outcome state :=
  v ← f (ven s); Ret {| cls := cls s; ven := v; inClassBlock := false |}.

(** A line: [67] is 'C', [9] a tab. *)
Definition parse_line (line : string) (s : state) : outcome state :=
  if bool_decide (line = "") || HasPrefix line "#" then Ret s
  else
    let r := runes (to_list line) in
    if bool_decide (head r = Some 67) then on_cls true (new_class r) s
    else if negb (bool_decide (head r = Some 9)) then on_ven (new_vendor r) s
    else if (1 <? length r)%nat && negb (bool_decide (r !! 1%nat = Some 9)) then
      if inClassBlock s then on_cls true (new_subclass r) s else on_ven (new_product r) s
    else
      if inClassBlock s then on_cls true (new_iface r) s else on_ven (new_subsystem r) s.
Fixpoint parse_lines (lines : list string) (s : state) : outcome state :=
  match lines with [] => Ret s | l :: lines => s ← parse_line l s; parse_lines lines s end.

(** The database: what its pointers lead to. *)
Definition class_at (s : state) (p : nat) : option IdsDb.Class_ :=
  c ← all_classes (cls s) !! p;
  Some {| IdsDb.class := class c;
          IdsDb.Subclasses := omap (λ q, u ← all_subclasses (cls s) !! q;
            Some {| IdsDb.subclass := subclass u; IdsDb.ProgrammingInterfaces := ProgrammingInterfaces u |}) (Subclasses c) |}.
Definition vendor_at (s : state) (p : nat) : option Named := vendor <$> all_vendors (ven s) !! p.
Definition product_at (s : state) (p : nat) : option IdsDb.Product :=
  (λ u, {| IdsDb.VendorID := VendorID u; IdsDb.product := product u |}) <$> all_products (ven s) !! p.
Definition db_of (s : state) : IdsDb.DB :=
  {| IdsDb.Classes := Some (omap (class_at s) (db_Classes (cls s)));
     IdsDb.Vendors := Some (omap (vendor_at s) (db_Vendors (ven s)));
     IdsDb.Products := Some (omap (product_at s) (db_Products (ven s))) |}.

(** A scanner's lines and the error it ends with. *)
Definition parse (lines : list string * option goerr) : outcome IdsDb.DB :=
  s ← parse_lines (fst lines) start;
  match snd lines with Some e => Throw e | None => Ret (db_of s) end.

(** ** [Load] *)

(** The file system: whether a file is there, and its lines; the embedded file. *)
Class IdsFiles := {
  ids_stat : string → sys ();
  ids_lines : string → sys (list string * option goerr);
  embedded : list string * option goerr;
}.

Section load.
Context `{IdsFiles}.

Fixpoint look_in (dirs : list string) (fname : string) (err : option goerr) : sys string :=
  match dirs with
  | [] => match err with Some e => inr e | None => inl "" end
  | d :: dirs =>
      match ids_stat (Filepath.Join [d; fname]) with
      | inl _ => inl d
      | inr (ErrNotExist p) => look_in dirs fname (Some (ErrNotExist p))
      | inr e => inr e
      end
  end.
Definition lookFor (fname : string) : sys string := look_in ["."; "/usr/share/hwdata"; "/usr/share/misc"] fname None.

Definition Load (use_embedded : string) : outcome IdsDb.DB :=
  lines ← (if bool_decide (use_embedded = "1") then Ret embedded
           else match lookFor "pci.ids" with
                | inl v => call (ids_lines (Filepath.Join [v; "pci.ids"]))
                | inr _ => Ret embedded
                end);
  match parse lines with
  | Throw _ => Throw (ErrMsg "failed to parse")
  | r => r
  end.
End load.
End PciIds.
