(* ===== verification/PciIdsFacts.v ===== *)
(** PciIdsFacts: the vendors and products of a PCI ID file are found. *)

From S2P Require Import Prelude.
From S2P Require Import GoStd.
From S2P Require Import GoFacts.
From S2P Require Import PciDevice.
From S2P Require Import Dotenv.
From S2P Require Import DotenvFacts.
From S2P Require Import PciIds.

Open Scope Z_scope.
#[local] Set Warnings "-register-all".

Module PciIdsFacts.
Import Strings Utf8 DotenvFacts PciIds.

(** ** ASCII lines *)

Definition ascii_only (s : string) : Prop := Forall (λ a, byte a < 128) (to_list s).

Lemma runes_ascii l : Forall (λ a, byte a < 128) l → runes l = map byte l.
Proof.
  induction 1 as [|a l Ha _ IH]; [done|]. unfold runes in *. cbn [length runes_go map].
  rewrite DecodeRune_ascii by done. cbn [drop]. by rewrite drop_0, IH.
Qed.
Lemma encode_ascii a : byte a < 128 → encode (byte a) = [a].
Proof.
  intros Ha. unfold encode. rewrite (proj2 (Z.ltb_lt _ _) Ha). cbn [map]. unfold byte, char.
  by rewrite N2Z.id, ascii_N_embedding.
Qed.
Lemma text_ascii l : Forall (λ a, byte a < 128) l → text (map byte l) = of_list l.
Proof.
  intros Hl. unfold text, of_runes. f_equal. induction Hl as [|a l Ha _ IH]; [done|].
  cbn [map concat]. by rewrite encode_ascii, IH.
Qed.
Lemma ascii_app s t : ascii_only s → ascii_only t → ascii_only (s +:+ t).
Proof. unfold ascii_only. rewrite to_list_app. apply Forall_app_2. Qed.

(** A line in three pieces, the second of which is an identifier. *)
Lemma part_piece pre id post i j : ascii_only id → String.length pre = i → (i + String.length id = j)%nat →
  part i j (map byte (to_list (pre +:+ id +:+ post))) = id.
Proof.
  intros Ha Hi Hj. unfold part. rewrite length_to_list in Hi, Hj. rewrite !to_list_app, !map_app.
  rewrite drop_app_length' by (rewrite length_map; lia). rewrite take_app_length' by (rewrite length_map; lia).
  rewrite text_ascii by done. apply of_to_list.
Qed.
Lemma from_piece pre name i : ascii_only name → String.length pre = i →
  from i (map byte (to_list (pre +:+ name))) = Ret name.
Proof.
  intros Ha Hi. unfold from. rewrite length_to_list in Hi. rewrite to_list_app, length_map, length_app.
  rewrite (proj2 (Nat.ltb_ge _ i)) by lia. rewrite map_app, drop_app_length' by (rewrite length_map; lia).
  rewrite text_ascii by done. by rewrite of_to_list.
Qed.

(** ** Files *)

Definition tab : string := String "009" "".
Definition subsys : Type := (string * string * string)%type.
Record prod := { pid : string; pname : string; psubs : list subsys }.
Record vend := { vid : string; vname : string; prods : list prod }.

Definition subsys_line (u : subsys) : string := let '(v, d, n) := u in tab +:+ tab +:+ v +:+ " " +:+ d +:+ "  " +:+ n.
Definition prod_line (p : prod) : string := tab +:+ pid p +:+ "  " +:+ pname p.
Definition vend_line (v : vend) : string := vid v +:+ "  " +:+ vname v.
Definition prod_lines (p : prod) : list string := prod_line p :: map subsys_line (psubs p).
Definition vend_lines (v : vend) : list string := vend_line v :: (prods v ≫= prod_lines).

Definition id4 (s : string) : Prop :=
  ascii_only s ∧ ∃ a b c d, s = String a (String b (String c (String d ""))) ∧ a ≠ "#"%char ∧ byte a ≠ 67 ∧ byte a ≠ 9.
Definition prod_ok (p : prod) : Prop :=
  id4 (pid p) ∧ ascii_only (pname p) ∧ Forall (λ u : subsys, id4 u.1.1 ∧ id4 u.1.2 ∧ ascii_only u.2) (psubs p).
Definition vend_ok (v : vend) : Prop := id4 (vid v) ∧ ascii_only (vname v) ∧ Forall prod_ok (prods v).

(** What such a file holds; a later entry takes the place of an earlier one. *)
Definition prod_entry (v : string) (p : prod) : IdsDb.Product :=
  {| IdsDb.VendorID := v; IdsDb.product := named (pid p) (pname p) |}.
Definition vendors_of (vs : list vend) : gmap string IdsDb.Named :=
  foldl (λ m v, <[vid v := named (vid v) (vname v)]> m) ∅ vs.
Definition products_of (vs : list vend) : gmap string IdsDb.Product :=
  foldl (λ m v, foldl (λ m p, <[vid v +:+ pid p := prod_entry (vid v) p]> m) m (prods v)) ∅ vs.

(** ** Tables *)

Definition points {A} (m : gmap string nat) (t : list A) : Prop := map_Forall (λ _ p, (p < length t)%nat) m.

(** An entry at the end of a table whose others are only completed. *)
Lemma view_append {A B} (f : A → B) m (t t' : list A) k x : f <$> t' = f <$> t → points m t →
  points (<[k := length t']> m) (t' ++ [x]) ∧
  omap (λ p, f <$> (t' ++ [x]) !! p) (<[k := length t']> m) = <[k := f x]> (omap (λ p, f <$> t !! p) m).
Proof.
  intros Ht Hp. assert (length t' = length t) as Hl by (by rewrite <- (length_fmap f t'), Ht, length_fmap). split.
  - apply map_Forall_insert_2; [rewrite length_app; cbn; lia|]. eapply map_Forall_impl; [exact Hp|].
    intros i p Hlt. cbn in *. rewrite length_app. cbn. lia.
  - apply map_eq. intros i. rewrite lookup_omap. destruct (decide (i = k)) as [-> | Hn].
    + rewrite !lookup_insert_eq. cbn. by rewrite list_lookup_middle.
    + rewrite !lookup_insert_ne, lookup_omap by done. destruct (m !! i) as [p|] eqn:E; [|done]. cbn.
      rewrite lookup_app_l by (specialize (Hp i p E); cbn in Hp; lia). by rewrite <- !list_lookup_fmap, Ht.
Qed.
Lemma finalize_fst {A B C} (f : A → C) (set : list B → A → A) cur table collected :
  (∀ l x, f (set l x) = f x) → f <$> (finalize set cur table collected).1 = f <$> table.
Proof.
  intros Hf. destruct cur as [p|]; [|done]. cbn. apply list_eq. intros i. rewrite !list_lookup_fmap.
  destruct (decide (i = p)) as [-> | Hn]; [rewrite list_lookup_alter_eq|by rewrite list_lookup_alter_ne by done].
  destruct (table !! p); [|done]. cbn. by rewrite Hf.
Qed.

(** ** Vendor blocks *)

(** The tables say what has been read. *)
Definition read_so_far (mv : gmap string IdsDb.Named) (mp : gmap string IdsDb.Product) (s : state) : Prop :=
  points (db_Vendors (ven s)) (all_vendors (ven s)) ∧ points (db_Products (ven s)) (all_products (ven s)) ∧
  omap (vendor_at s) (db_Vendors (ven s)) = mv ∧ omap (product_at s) (db_Products (ven s)) = mp.
(** The vendor whose block it is. *)
Definition within_block (id : string) (s : state) : Prop :=
  inClassBlock s = false ∧ ∃ p v, curVendor (ven s) = Some p ∧ all_vendors (ven s) !! p = Some v ∧ IdsDb.ID (vendor v) = id.

Lemma parse_line_ascii a line s : ascii_only (String a line) → a ≠ "#"%char →
  parse_line (String a line) s =
    let r := map byte (to_list (String a line)) in
    if bool_decide (head r = Some 67) then on_cls true (new_class r) s
    else if negb (bool_decide (head r = Some 9)) then on_ven (new_vendor r) s
    else if (1 <? length r)%nat && negb (bool_decide (r !! 1%nat = Some 9)) then
      if inClassBlock s then on_cls true (new_subclass r) s else on_ven (new_product r) s
    else
      if inClassBlock s then on_cls true (new_iface r) s else on_ven (new_subsystem r) s.
Proof.
  intros Ha Hn. unfold parse_line. rewrite bool_decide_eq_false_2 by done.
  replace (HasPrefix (String a line) "#") with false; [by rewrite runes_ascii|].
  unfold HasPrefix. cbn [String.prefix]. destruct (ascii_dec _ a) as [<-|]; done.
Qed.

Lemma vend_step v mv mp s : id4 (vid v) → ascii_only (vname v) → read_so_far mv mp s →
  ∃ s', parse_line (vend_line v) s = Ret s' ∧
    read_so_far (<[vid v := named (vid v) (vname v)]> mv) mp s' ∧ within_block (vid v) s'.
Proof.
  intros [Ha (a & b & c & d & Hv & Hh & HC & Ht)] Hn (Pv & Pp & Vv & Vp). unfold vend_line.
  assert (ascii_only (vid v +:+ "  " +:+ vname v)) as Hal by (repeat apply ascii_app; try done; by repeat constructor).
  pose proof (part_piece "" (vid v) ("  " +:+ vname v) 0 4 Ha eq_refl ltac:(by rewrite Hv)) as Hid.
  pose proof (from_piece (vid v +:+ "  ") (vname v) 6 Hn ltac:(by rewrite Hv)) as Hname.
  replace ((vid v +:+ "  ") +:+ vname v) with (vid v +:+ "  " +:+ vname v) in Hname by (by rewrite Hv).
  change ("" +:+ vid v +:+ "  " +:+ vname v) with (vid v +:+ "  " +:+ vname v) in Hid.
  assert (∃ l, vid v +:+ "  " +:+ vname v = String a l) as [l Hl] by (rewrite Hv; by eexists).
  rewrite Hl in *. rewrite parse_line_ascii by done. cbv zeta.
  rewrite bool_decide_eq_false_2 by (cbn; congruence). rewrite bool_decide_eq_false_2 by (cbn; congruence). cbn [negb].
  unfold on_ven, new_vendor.
  pose proof (finalize_fst vendor set_Products (curVendor (ven s)) (all_vendors (ven s)) (vendorProducts (ven s)) ltac:(done)) as Hf.
  destruct (finalize _ _ _ _) as [vendors products]. cbn [fst] in Hf. rewrite Hname. cbn [mbind outcome_bind].
  eexists. split; [reflexivity|]. rewrite Hid.
  destruct (view_append vendor _ _ vendors (vid v) {| vendor := named (vid v) (vname v); Products := products |} Hf Pv) as [Pv' Vv'].
  split.
  - split; [exact Pv'|]. split; [exact Pp|]. split; [|exact Vp]. etransitivity; [exact Vv'|]. by f_equal.
  - split; [done|]. eexists _, _. cbn. split; [done|]. by rewrite list_lookup_middle.
Qed.

Lemma prod_step id p mv mp s : id4 (pid p) → ascii_only (pname p) → read_so_far mv mp s → within_block id s →
  ∃ s', parse_line (prod_line p) s = Ret s' ∧
    read_so_far mv (<[id +:+ pid p := prod_entry id p]> mp) s' ∧ within_block id s'.
Proof.
  intros [Ha (a & b & c & d & Hv & Hh & HC & Ht)] Hn (Pv & Pp & Vv & Vp) (Hb & q & v & Hq & Hv' & Hid'). unfold prod_line.
  assert (ascii_only (tab +:+ pid p +:+ "  " +:+ pname p)) as Hal by (repeat apply ascii_app; try done; by repeat constructor).
  pose proof (part_piece tab (pid p) ("  " +:+ pname p) 1 5 Ha eq_refl ltac:(by rewrite Hv)) as Hid.
  pose proof (from_piece (tab +:+ pid p +:+ "  ") (pname p) 7 Hn ltac:(by rewrite Hv)) as Hname.
  replace ((tab +:+ pid p +:+ "  ") +:+ pname p) with (tab +:+ pid p +:+ "  " +:+ pname p) in Hname by (by rewrite Hv).
  assert (∃ l, tab +:+ pid p +:+ "  " +:+ pname p = String "009" (String a l)) as [l Hl] by (rewrite Hv; by eexists).
  rewrite Hl in *. rewrite parse_line_ascii by done. cbv zeta.
  rewrite bool_decide_eq_false_2 by done. rewrite bool_decide_eq_true_2 by done.
  rewrite (bool_decide_eq_false_2 (_ !! _ = _)) by (cbn; congruence). cbn [negb length map Nat.ltb Nat.leb andb to_list].
  change (byte "009" :: map byte (String.list_ascii_of_string (String a l))) with (map byte (to_list (String "009" (String a l)))).
  rewrite Hb. unfold on_ven, new_product.
  set (g := λ u, {| IdsDb.VendorID := VendorID u; IdsDb.product := product u |}).
  pose proof (finalize_fst g set_Subsystems (curProduct (ven s)) (all_products (ven s)) (productSubsystems (ven s)) ltac:(done)) as Hf.
  destruct (finalize _ _ _ _) as [products subsystems]. cbn [fst] in Hf. rewrite Hq. cbn [mbind option_bind]. rewrite Hv'.
  unfold to_list in *. cbn [map] in *. rewrite Hname. cbn [mbind outcome_bind].
  eexists. split; [reflexivity|]. rewrite Hid, Hid'.
  destruct (view_append g _ _ products (id +:+ pid p) {| VendorID := id; product := named (pid p) (pname p); Subsystems := [] |} Hf Pp) as [Pp' Vp'].
  split.
  - split; [exact Pv|]. split; [exact Pp'|]. split; [exact Vv|]. etransitivity; [exact Vp'|]. by f_equal.
  - split; [done|]. exists q, v. by split.
Qed.

Lemma subsys_step id u mv mp s : id4 u.1.1 → id4 u.1.2 → ascii_only u.2 → read_so_far mv mp s → within_block id s →
  ∃ s', parse_line (subsys_line u) s = Ret s' ∧ read_so_far mv mp s' ∧ within_block id s'.
Proof.
  destruct u as [[v d] n]. intros [Hv (v1 & v2 & v3 & v4 & Ev & _)] [Hd (d1 & d2 & d3 & d4 & Ed & _)] Hn Hr [Hb Hc].
  unfold subsys_line. cbn [fst snd] in *.
  assert (ascii_only (tab +:+ tab +:+ v +:+ " " +:+ d +:+ "  " +:+ n)) as Hal
    by (repeat apply ascii_app; try done; by repeat constructor).
  pose proof (from_piece (tab +:+ tab +:+ v +:+ " " +:+ d +:+ "  ") n 13 Hn ltac:(by rewrite Ev, Ed)) as Hname.
  replace ((tab +:+ tab +:+ v +:+ " " +:+ d +:+ "  ") +:+ n) with (tab +:+ tab +:+ v +:+ " " +:+ d +:+ "  " +:+ n) in Hname
    by (by rewrite Ev, Ed).
  assert (∃ l, tab +:+ tab +:+ v +:+ " " +:+ d +:+ "  " +:+ n = String "009" (String "009" l)) as [l Hl] by (by eexists).
  rewrite Hl in *. rewrite parse_line_ascii by done. cbv zeta.
  rewrite bool_decide_eq_false_2 by done. rewrite bool_decide_eq_true_2 by done. rewrite (bool_decide_eq_true_2 (_ !! _ = _)) by done.
  cbn [negb]. rewrite andb_false_r, Hb. unfold on_ven, new_subsystem. rewrite Hname. cbn [mbind outcome_bind].
  eexists. split; [reflexivity|]. split; [exact Hr|]. by split.
Qed.

Lemma parse_lines_app l l' s : parse_lines (l ++ l') s = s' ← parse_lines l s; parse_lines l' s'.
Proof.
  revert s. induction l as [|x l IH]; intros s; [done|]. cbn [parse_lines app].
  destruct (parse_line x s); cbn [mbind outcome_bind]; [apply IH|done|done].
Qed.

Lemma subsys_steps id us mv mp s : Forall (λ u : subsys, id4 u.1.1 ∧ id4 u.1.2 ∧ ascii_only u.2) us →
  read_so_far mv mp s → within_block id s →
  ∃ s', parse_lines (map subsys_line us) s = Ret s' ∧ read_so_far mv mp s' ∧ within_block id s'.
Proof.
  intros Hu. revert s. induction Hu as [|u us (Hv & Hd & Hn) _ IH]; intros s Hr Hb; [by exists s|].
  destruct (subsys_step id u mv mp s Hv Hd Hn Hr Hb) as (s1 & E & Hr1 & Hb1). cbn [map parse_lines]. rewrite E. by apply IH.
Qed.
Lemma prod_steps id ps mv mp s : Forall prod_ok ps → read_so_far mv mp s → within_block id s →
  ∃ s', parse_lines (ps ≫= prod_lines) s = Ret s' ∧
    read_so_far mv (foldl (λ m p, <[id +:+ pid p := prod_entry id p]> m) mp ps) s' ∧ within_block id s'.
Proof.
  intros Hp. revert mp s. induction Hp as [|p ps (Hi & Hn & Hs) _ IH]; intros mp s Hr Hb; [by exists s|].
  destruct (prod_step id p mv mp s Hi Hn Hr Hb) as (s1 & E1 & Hr1 & Hb1).
  destruct (subsys_steps id _ _ _ s1 Hs Hr1 Hb1) as (s2 & E2 & Hr2 & Hb2).
  destruct (IH _ s2 Hr2 Hb2) as (s3 & E3 & Hr3). exists s3. split; [|exact Hr3].
  cbn [mbind list_bind prod_lines app parse_lines]. rewrite E1. cbn [mbind outcome_bind].
  rewrite parse_lines_app, E2. exact E3.
Qed.
Lemma vend_steps vs mv mp s : Forall vend_ok vs → read_so_far mv mp s →
  ∃ s', parse_lines (vs ≫= vend_lines) s = Ret s' ∧
    read_so_far (foldl (λ m v, <[vid v := named (vid v) (vname v)]> m) mv vs)
      (foldl (λ m v, foldl (λ m p, <[vid v +:+ pid p := prod_entry (vid v) p]> m) m (prods v)) mp vs) s'.
Proof.
  intros Hv. revert mv mp s. induction Hv as [|v vs (Hi & Hn & Hp) _ IH]; intros mv mp s Hr; [by exists s|].
  destruct (vend_step v mv mp s Hi Hn Hr) as (s1 & E1 & Hr1 & Hb1).
  destruct (prod_steps (vid v) _ _ _ s1 Hp Hr1 Hb1) as (s2 & E2 & Hr2 & _).
  destruct (IH _ _ s2 Hr2) as (s3 & E3 & Hr3). exists s3. split; [|exact Hr3].
  cbn [mbind list_bind vend_lines app parse_lines]. rewrite E1. cbn [mbind outcome_bind].
  rewrite parse_lines_app, E2. exact E3.
Qed.

(** ** Class blocks *)

(** A line that belongs to a class block: a comment, a class, or indented. *)
Definition class_line (l : string) : Prop :=
  l = "" ∨ HasPrefix l "#" = true ∨ head (runes (to_list l)) = Some 67 ∨ head (runes (to_list l)) = Some 9.
Definition class_section (lines : list string) : Prop :=
  Forall class_line lines ∧ ∀ l, head lines = Some l → head (runes (to_list l)) = Some 67.

Lemma on_cls_ven f s s' : on_cls true f s = Ret s' → ven s' = ven s ∧ inClassBlock s' = true.
Proof. unfold on_cls. by intros (c & _ & [= <-])%outcome_bind_Ret. Qed.
Lemma class_line_ven l s s' : class_line l → inClassBlock s = true ∨ head (runes (to_list l)) = Some 67 →
  parse_line l s = Ret s' → ven s' = ven s ∧ (inClassBlock s = true → inClassBlock s' = true) ∧
    (l ≠ "" → HasPrefix l "#" = false → inClassBlock s' = true).
Proof.
  intros Hl Hb. unfold parse_line. case_bool_decide as He; [by intros [= <-]|]. destruct (HasPrefix l "#") eqn:Hp; [by intros [= <-]|].
  cbn [orb]. cbv zeta. case_bool_decide as HC; [intros []%on_cls_ven; naive_solver|].
  destruct Hl as [? | [? | [? | Ht]]]; [congruence..|]. rewrite (bool_decide_eq_true_2 _ Ht). cbn [negb].
  destruct Hb as [Hb|?]; [rewrite Hb|done]. case_match; intros []%on_cls_ven; naive_solver.
Qed.
Lemma class_lines_ven lines s s' : Forall class_line lines → inClassBlock s = true → parse_lines lines s = Ret s' → ven s' = ven s.
Proof.
  intros Hl. revert s. induction Hl as [|l lines Hl _ IH]; intros s Hb; cbn [parse_lines]; [by intros [= <-]|].
  intros (s1 & E & Hr)%outcome_bind_Ret. apply class_line_ven in E as (Hv & Hb' & _); [|done|by left].
  rewrite <- Hv. apply IH; auto.
Qed.
Lemma class_section_ven lines s s' : class_section lines → parse_lines lines s = Ret s' → ven s' = ven s.
Proof.
  intros [Hl Hh]. destruct Hl as [|l lines Hl Hr]; cbn [parse_lines]; [by intros [= <-]|].
  intros (s1 & E & Hs)%outcome_bind_Ret. specialize (Hh l eq_refl).
  assert (l ≠ "" ∧ HasPrefix l "#" = false) as [Hn Hp].
  { split; [by intros ->|]. unfold HasPrefix. destruct l as [|a l]; [done|]. cbn [String.prefix].
    destruct (ascii_dec _ a) as [<-|]; [|done]. destruct (runes_first "#" (to_list l)) as [rs Hrs]; [done|].
    change (to_list (String "#" l)) with ("#"%char :: to_list l) in Hh. by rewrite Hrs in Hh. }
  apply class_line_ven in E as (Hv & _ & Hb); [|done|by right]. rewrite <- Hv. eapply class_lines_ven; [done| |done]. by apply Hb.
Qed.

(** of a file of vendor blocks and class blocks, the database that is read
    holds each vendor and each product of the file, under its identifiers, with
    its name. *)
Theorem parse_products vs lines : Forall vend_ok vs → class_section lines →
  ∃ s, parse_lines (vs ≫= vend_lines) start = Ret s ∧
    ∀ db, parse ((vs ≫= vend_lines) ++ lines, None) = Ret db →
      IdsDb.Vendors db = Some (vendors_of vs) ∧ IdsDb.Products db = Some (products_of vs).
Proof.
  intros Hv Hl. destruct (vend_steps vs ∅ ∅ start Hv) as (s & E & _ & _ & Vv & Vp).
  { by repeat split; try apply map_Forall_empty. }
  exists s. split; [exact E|]. intros db. unfold parse. cbn [fst snd]. rewrite parse_lines_app, E. cbn [mbind outcome_bind].
  intros (s' & Hs%class_section_ven & [= <-])%outcome_bind_Ret; [|done]. unfold db_of. cbn [IdsDb.Vendors IdsDb.Products].
  unfold vendors_of, products_of. rewrite <- Vv, <- Vp. unfold vendor_at, product_at. by rewrite Hs.
Qed.

Definition intel : vend :=
  {| vid := "8086"; vname := "Intel Corporation";
     prods := [{| pid := "1237"; pname := "440FX"; psubs := [("1af4", "1100", "Virtual Machine")] |}; {| pid := "7000"; pname := "PIIX3"; psubs := [] |}] |}.
Definition classes : list string := ["C 02  Network controller"; tab +:+ "00  Ethernet controller"].
Definition database : IdsDb.DB :=
  match parse (([intel] ≫= vend_lines) ++ classes, None) with Ret db => db | _ => IdsDb.Build_DB None None None end.
Example parse_products_witness :
  IdsDb.FindProduct (Some database) "0x8086" "0x7000" =
    Ret (Some {| IdsDb.VendorID := "8086"; IdsDb.product := named "7000" "PIIX3" |}) ∧
  IdsDb.Vendors database = Some (vendors_of [intel]) ∧ IdsDb.Products database = Some (products_of [intel]).
Proof.
  destruct (parse_products [intel] classes) as (s & _ & Hdb).
  - repeat constructor; cbn; try done; try (by eexists _, _, _, _).
  - split; [repeat (constructor; [vm_compute; tauto|]); constructor|]. by intros l [= <-].
  - destruct (Hdb database) as [Hv Hp]; [vm_compute; reflexivity|]. split; [vm_compute; reflexivity|]. by split.
Defined.

(** The last class has no subclasses, whatever follows it. *)
Example last_class_empty :
  IdsDb.FindClass (Some database) "0x020000" =
    Ret (Some {| IdsDb.class := named "02" "Network controller"; IdsDb.Subclasses := [] |}).
Proof. vm_compute. reflexivity. Qed.
End PciIdsFacts.
