(* ===== verification/OsUser.v ===== *)
(** OsUser: the system users of the machines ([internal/osuser/osuser.go]).

    The password file is its lines.  [getVacantUid] collects the user ids from
    [MIN_UID] on, sorts them and looks for the first gap; it is shown to give
    the least id that is not in use, and to fail exactly when there is none. *)

From S2P Require Import Prelude.
From S2P Require Import GoStd.
From S2P Require Import GoFacts.
From S2P Require Import Backend.
From Stdlib Require Import Sorted.

Open Scope Z_scope.

Module OsUser.
Import Strings.

Definition MIN_UID : Z := 1024.
Definition MAX_UID : Z := 65534.

Definition ErrEmptyPasswd : goerr := ErrMsg "empty passwd file".
Definition ErrNoAvailableUids : goerr := ErrMsg "no available UIDs in passwd file".

Fixpoint contains (uids : list Z) (x : Z) : bool :=
  match uids with
  | [] => false
  | i :: uids => if i =? x then true else contains uids x
  end.

(** [strings.Split(line, ":")[2]], as a number. *)
Definition line_uid (line : string) : outcome Z :=
  match Split line ":" !! 2%nat with
  | None => Panic IndexOutOfRange
  | Some s => Strconv.Atoi s
  end.

(** The loop over the lines. *)
Fixpoint collect (lines : list string) (uids : list Z) : outcome (list Z) :=
  match lines with
  | [] => Ret uids
  | line :: lines =>
      uid ← line_uid line;
      collect lines (if (MIN_UID <=? uid) && negb (contains uids uid) then uids ++ [uid] else uids)
  end.

(** The loop over the sorted ids, with what follows it. *)
Fixpoint first_gap (uids : list Z) : outcome Z :=
  match uids with
  | [] => Panic IndexOutOfRange
  | u :: rest =>
      match rest with
      | [] => if MAX_UID <=? u then Throw ErrNoAvailableUids else Ret (wrap64 (u + 1))
      | v :: _ =>
          if MAX_UID <? wrap64 (u + 1) then Throw ErrNoAvailableUids
          else if negb (wrap64 (u + 1) =? v) then Ret (wrap64 (u + 1))
          else first_gap rest
      end
  end.

(** The lines of the file, and the error the scanner stopped at. *)
Definition getVacantUid (passwd : sys (list string * option goerr)) : outcome Z :=
  '(lines, err) ← call passwd;
  uids ← collect lines [MIN_UID - 1];
  match err with
  | Some e => Throw e
  | None =>
      match Sort.Ints uids with
      | [] => Throw ErrEmptyPasswd
      | [u] => Ret (wrap64 (u + 1))
      | uids => first_gap uids
      end
  end.

(** ** The reference *)

(** The least id of the range that is not taken. *)
Definition vacant (taken : list Z) : option Z :=
  head (filter (λ u, u ∉ taken) (seqZ MIN_UID (MAX_UID - MIN_UID + 1))).
End OsUser.

(** ** Lemmas *)
Module OsUserFacts.
Import OsUser Sort.

Lemma contains_elem uids x : contains uids x = bool_decide (x ∈ uids).
Proof.
  induction uids as [|u uids IH]; [by rewrite bool_decide_false by set_solver|]. cbn [contains].
  destruct (Z.eqb_spec u x) as [->|Hn]; [by rewrite bool_decide_true by set_solver|].
  rewrite IH. apply bool_decide_ext. set_solver.
Qed.

(** Insertion of new elements keeps a list strictly sorted. *)
Lemma elem_of_insert (x y : Z) l : y ∈ insert_by Z.ltb x l ↔ y = x ∨ y ∈ l.
Proof.
  induction l as [|z l IH]; simpl; [set_solver|].
  destruct (x <? z); [|rewrite elem_of_cons, IH]; set_solver.
Qed.

Lemma insert_sorted (x : Z) l :
  StronglySorted Z.lt l → x ∉ l → StronglySorted Z.lt (insert_by Z.ltb x l).
Proof.
  induction 1 as [|z l Hl IH Hz]; intros Hx; simpl; [repeat constructor|].
  apply not_elem_of_cons in Hx as [Hxz Hx]. destruct (Z.ltb_spec x z).
  - constructor; [by constructor|]. constructor; [done|].
    eapply Forall_impl; [exact Hz|]. simpl. lia.
  - constructor; [by apply IH|]. apply Forall_forall. intros y [->|Hy]%elem_of_insert; [lia|].
    rewrite Forall_forall in Hz. by apply Hz.
Qed.

Lemma Ints_spec l :
  NoDup l → StronglySorted Z.lt (Ints l) ∧ ∀ x, x ∈ Ints l ↔ x ∈ l.
Proof.
  unfold Ints, SliceStable. intros Hl.
  enough (∀ l acc, NoDup l → StronglySorted Z.lt acc → (∀ x, x ∈ l → x ∉ acc) →
    StronglySorted Z.lt (foldl (λ a x, insert_by Z.ltb x a) acc l) ∧
    ∀ x, x ∈ foldl (λ a x, insert_by Z.ltb x a) acc l ↔ x ∈ acc ∨ x ∈ l) as H.
  { destruct (H l [] Hl) as [? Hx]; [constructor|set_solver|].
    split; [done|]. intros x. rewrite Hx. set_solver. }
  clear l Hl. induction l as [|y l IH]; intros acc Hl Ha Hd; simpl.
  { split; [done|]. set_solver. }
  inversion_clear Hl. destruct (IH (insert_by Z.ltb y acc)) as [Hs Hx]; [done| | |].
  - apply insert_sorted; [done|]. apply Hd. by left.
  - intros x Hxl. rewrite elem_of_insert. intros [->|]; [done|]. apply (Hd x); [by right|done].
  - split; [done|]. intros x. rewrite Hx, elem_of_insert. set_solver.
Qed.

(** The collected ids: those of the file from [MIN_UID] on, once each. *)
Lemma collect_spec lines uids :
  NoDup uids →
  match mapM line_uid lines with
  | Ret taken => ∃ l, collect lines uids = Ret (uids ++ l) ∧ NoDup (uids ++ l) ∧
                   ∀ x, x ∈ uids ++ l ↔ x ∈ uids ∨ (MIN_UID ≤ x ∧ x ∈ taken)
  | Throw e => collect lines uids = Throw e
  | Panic p => collect lines uids = Panic p
  end.
Proof.
  revert uids. induction lines as [|line lines IH]; intros uids Hu; simpl.
  { exists []. rewrite app_nil_r. split_and!; [done..|]. set_solver. }
  destruct (line_uid line) as [u|e|p]; [|done..]. simpl.
  set (uids' := if _ : bool then _ else _).
  assert (∃ k, uids' = uids ++ k ∧ NoDup (uids ++ k) ∧
    ∀ x, x ∈ uids ++ k ↔ x ∈ uids ∨ (MIN_UID ≤ x ∧ x = u)) as (k & Hk & Hn & Hx).
  { unfold uids'. rewrite contains_elem. destruct (Z.leb_spec MIN_UID u); simpl.
    - case_bool_decide as Hin; simpl; [exists []; rewrite app_nil_r|exists [u]];
        split_and!; try done; [set_solver| |set_solver].
      apply NoDup_app. split_and!; [done|set_solver|]. apply NoDup_singleton.
    - exists []. rewrite app_nil_r. split_and!; [done..|]. intros x. split; [by left|].
      intros [|[? ->]]; [done|lia]. }
  rewrite Hk. specialize (IH _ Hn). destruct (mapM line_uid lines) as [taken|e|p]; [|done..].
  destruct IH as (l & Hl & Hnl & Hxl). simpl. exists (k ++ l). rewrite Hl, app_assoc.
  split_and!; [done..|]. intros x. rewrite Hxl, Hx. set_solver.
Qed.

(** The least element of a range outside a list, from its start on. *)
Lemma head_filter_seqZ (P : Z → Prop) `{!∀ x, Decision (P x)} a n :
  head (filter P (seqZ a n)) =
    if decide (0 < n) then if decide (P a) then Some a else head (filter P (seqZ (a + 1) (n - 1))) else None.
Proof.
  destruct (decide (0 < n)).
  - rewrite seqZ_cons by lia. rewrite filter_cons. replace (Z.succ a) with (a + 1) by lia.
    replace (Z.pred n) with (n - 1) by lia. by destruct (decide (P a)).
  - by rewrite seqZ_nil by lia.
Qed.

Lemma first_gap_cons u v l :
  first_gap (u :: v :: l) =
    if MAX_UID <? wrap64 (u + 1) then Throw ErrNoAvailableUids
    else if negb (wrap64 (u + 1) =? v) then Ret (wrap64 (u + 1)) else first_gap (v :: l).
Proof. done. Qed.

(** The scan of a strictly sorted list finds the least number above its head
    that it lacks. *)
Lemma first_gap_spec u l (taken : list Z) :
  StronglySorted Z.lt (u :: l) → int_min ≤ u → u ≤ MAX_UID →
  (∀ x, u < x → (x ∈ taken) ↔ x ∈ l) →
  first_gap (u :: l) =
    match head (filter (λ x, x ∉ taken) (seqZ (u + 1) (MAX_UID - u))) with
    | Some v => Ret v
    | None => Throw ErrNoAvailableUids
    end.
Proof.
  unfold MAX_UID. revert u. induction l as [|v l IH]; intros u Hs Hmin Hmax Ht;
    rewrite head_filter_seqZ.
  - cbn [first_gap]. unfold MAX_UID. assert (wrap64 (u + 1) = u + 1) as Hw.
    { apply wrap64_id. unfold is_int, int_max, int_min in *. apply andb_true_iff. split; lia. }
    destruct (Z.leb_spec 65534 u); [by rewrite decide_False by lia|].
    rewrite decide_True by lia. rewrite decide_True; [by rewrite Hw|].
    rewrite Ht by lia. set_solver.
  - assert (wrap64 (u + 1) = u + 1) as Hw.
    { apply wrap64_id. unfold is_int, int_max, int_min in *. apply andb_true_iff. split; lia. }
    rewrite first_gap_cons, Hw. unfold MAX_UID. inversion_clear Hs as [|? ? Hsl Hall]. inversion_clear Hall as [|? ? Huv Hul].
    destruct (Z.ltb_spec 65534 (u + 1)); [by rewrite decide_False by lia|].
    rewrite decide_True by lia. destruct (Z.eqb_spec (u + 1) v) as [E|Hne]; cbn [negb].
    + subst v. rewrite decide_False by (rewrite Ht by lia; set_solver).
      rewrite IH; [|done|lia|lia|].
      * by replace (65534 - (u + 1)) with (65534 - u - 1) by lia.
      * intros x Hx. rewrite Ht by lia. rewrite elem_of_cons. split; [intros [->|]; [lia|done]|by right].
    + rewrite decide_True; [done|]. rewrite Ht by lia. rewrite elem_of_cons. intros [|Hin]; [done|].
      inversion_clear Hsl as [|? ? _ Hv]. rewrite Forall_forall in Hv. specialize (Hv _ Hin). lia.
Qed.
End OsUserFacts.

(** C38: the id given to a new user is the least one from 1024 to 65534 that no
    line of the password file has, and there is none to give exactly when all of
    them are taken; a line without an id stops the search. *)
Theorem getVacantUid_least lines :
  OsUser.getVacantUid (inl (lines, None)) =
    (taken ← mapM OsUser.line_uid lines;
     match OsUser.vacant taken with
     | Some u => Ret u
     | None => Throw OsUser.ErrNoAvailableUids
     end).
Proof.
  unfold OsUser.getVacantUid. simpl.
  pose proof (OsUserFacts.collect_spec lines [OsUser.MIN_UID - 1] (NoDup_singleton _)) as H.
  destruct (mapM OsUser.line_uid lines) as [taken|e|p]; [|by rewrite H..].
  destruct H as (l & -> & Hn & Hx). simpl.
  destruct (OsUserFacts.Ints_spec _ Hn) as [Hs Hin].
  set (uids := Sort.Ints _) in *.
  assert (∃ k, uids = 1023 :: k ∧ ∀ x, 1023 < x → (x ∈ taken) ↔ x ∈ k) as (k & Hk & Ht).
  { assert (1023 ∈ uids) as H0 by (apply Hin, Hx; left; set_solver).
    assert (∀ x, x ∈ uids → 1023 ≤ x) as Hle.
    { intros x [->%list_elem_of_singleton|[? _]]%Hin%Hx; unfold OsUser.MIN_UID in *; lia. }
    destruct uids as [|u k]; [set_solver|]. inversion_clear Hs as [|? ? _ Hall].
    assert (u = 1023) as ->.
    { apply elem_of_cons in H0 as [<-|H0]; [done|]. rewrite Forall_forall in Hall.
      specialize (Hall _ H0). specialize (Hle u ltac:(left)). lia. }
    exists k. split; [done|]. intros x Hlt. specialize (Hin x). specialize (Hx x).
    unfold OsUser.MIN_UID in *. rewrite elem_of_cons in Hin. rewrite list_elem_of_singleton in Hx.
    split; intros Hm.
    - destruct Hin as [_ Hin]. destruct Hin as [->|]; [|lia|done]. apply Hx. right. split; [lia|done].
    - destruct Hin as [Hin _]. destruct Hx as [Hx _]. destruct Hx as [->|[_ ?]]; [by apply Hin; right|lia|done]. }
  transitivity (OsUser.first_gap uids).
  { rewrite Hk. by destruct k. }
  rewrite Hk in Hs |- *.
  by rewrite (OsUserFacts.first_gap_spec 1023 k taken).
Qed.

Example getVacantUid_1 : OsUser.getVacantUid (inl (["root:x:0:0:root:/root:/bin/bash"; "vm2:x:1025:65534::/home/vm2:/bin/false";
  "vm1:x:1024:65534::/home/vm1:/bin/false"; "nobody:x:65534:65534::/:/bin/false"], None)) = Ret 1026.
Proof. reflexivity. Qed.
