(* ===== verification/Services.v ===== *)
(** Services: what the daemon asks of the host besides QEMU and the disks: the
    directory of the machines, the system users and systemd
    ([internal/osuser], [internal/systemd/manager.go], [server/systemd.go],
    the file calls of [os]).

    The answers come from a strategy that sees everything asked before, so any
    call may fail at any time.  The files below [CONFDIR] and the lines of the
    password file are kept as state: a call that succeeds changes them, one that
    fails may leave part of its work. *)

From S2P Require Import Prelude.
From S2P Require Import GoStd.
From S2P Require Import GoFacts.
From S2P Require Import Backend.
From S2P Require Import Version.
From S2P Require Import Json.
From S2P Require Import InstanceProperties.
From S2P Require Import InstanceConf.
From S2P Require Import ConfJson.
From S2P Require Import OsUser.

Open Scope Z_scope.

(** The system calls of user management: [user.Lookup] reads the password file,
    [useradd] and [userdel] rewrite it. *)
Class Accounts := {
  user_Lookup : list string → string → sys string;
  useradd : string → Z → list string → list string;
  userdel : string → list string → list string;
}.

(** What their manuals say of a user with an ordinary name. *)
Class AccountsLaws `{Accounts} := {
  useradd_Lookup name uid l other : ValidateMachineName name = Ret () →
    user_Lookup (useradd name uid l) other =
      if bool_decide (other = name) then inl (Strconv.Itoa uid) else user_Lookup l other;
  userdel_Lookup name l : ValidateMachineName name = Ret () →
    ∃ e, user_Lookup (userdel name l) name = inr e;
  userdel_other name l other : ValidateMachineName name = Ret () → other ≠ name →
    user_Lookup (userdel name l) other = user_Lookup l other;
}.

Module Services.
Import ConfJson.

(** ** systemd *)

(** [systemd.UnitStatus], and what the loops of the manager read of
    [systemd.UnitProperties]. *)
Record UnitStatus := { ActiveState : string; SubState : string }.
Inductive ExecCode := CodeUndefined | CodeExited | CodeKilled | CodeDumped.
Record ExecCommandState := { Code : ExecCode; ExecStatus : Z; Arguments : list string }.
Record UnitProperties := {
  unit_ActiveState : string;
  unit_SubState : string;
  StateChangeTime : Z;
  ExecStart : list ExecCommandState;
  ExecStartPre : list ExecCommandState;
  ExecStopPost : list ExecCommandState;
}.
#[export] Instance ExecCode_eq_dec : EqDecision ExecCode.
Proof. solve_decision. Defined.

Inductive signal := SIGKILL | SIGTERM.

(** ** The monitor and the rest *)

(** What the migration tasks ask QEMU. *)
Inductive mon_command :=
  | query_migrate_status
  | nbd_server_start (host port : string)
  | nbd_server_add (device : string) (writable : bool)
  | nbd_server_stop
  | cont
  | quit
  | block_job_cancel (device : string) (force : bool)
  | migrate_cancel.

(** An entry of the table of TCP sockets. *)
Record SockTableEntry := { Established : bool; LocalIP : Z; LocalPort : Z }.

(** What the daemons of two servers say to each other: the request to receive a
    machine, the ports and the process it is received with, and the state of a
    machine there. *)
Record incoming_request := {
  req_Name : string;
  req_Manifest : json;
  req_ListenAddr : string;
  req_Disks : list (string * Z);
  req_CreateDisks : bool;
  req_ExtraFiles : list (string * option json);
  req_TurnOffAfter : bool;
}.
Record requisites_reply := { reply_IncomingPort : Z; reply_NBDPort : Z; reply_PID : Z }.
Inductive remote_state := REMOTE_RUNNING | REMOTE_INACTIVE | REMOTE_SHUTDOWN | REMOTE_OTHER.
#[export] Instance remote_state_eq_dec : EqDecision remote_state.
Proof. solve_decision. Defined.

(** ** Requests *)

(** [Ticks unit t]: what [GetUnitProperties] gives at the ticks of a ticker that
    are served before a timeout of [t] seconds is.  [Statuses] and [Sockets] are
    the answers to [query-status] and the socket tables at the ticks before a
    task is cancelled; [Cancelled] is whether it is by now. *)
Inductive service :=
  | Stat (path : string)
  | MkdirAll (path : string)
  | WriteFile_ (path : string)
  | Remove (path : string)
  | RemoveAll (path : string)
  | NewLocker
  | Acquire
  | OpenPasswd
  | Useradd (name : string) (uid : Z)
  | Userdel (name : string)
  | EnableUnitFiles (unit : string)
  | DisableUnitFiles (unit : string)
  | ResetFailedUnit (unit : string)
  | KillUnit (unit : string) (sig : signal)
  | StartUnit (unit : string)
  | StopUnit (unit : string)
  | RestartUnit (unit : string)
  | ListUnitsByNames (unit : string)
  | Ticks (unit : string) (timeout : Z)
  | StatVolume (path : string)
  | Lvcreate (vgname lvname : string) (size : Z)
  | Lvremove (path : string)
  | MonRun (vmname : string) (c : mon_command)
  | Statuses (vmname : string)
  | Sockets
  | Cancelled
  | ReadPid (path : string)
  | DotenvRead (path : string)
  | StatRoot (path : string)
  | GetVersion (rootdir binary : string)
  | LookupIP (server : string)
  | ReadDir (path : string)
  | ReadFile (path : string)
  | StartIncoming (server : string) (req : incoming_request)
  | RemoteGet (server vmname : string)
  | RemoteCancel (server key : string).

(** [RemoveAll] that fails leaves the files it did not get to. *)
Inductive removal := Removed | Stuck (e : goerr) (rest : string → bool).

Definition reply (a : service) : Type :=
  match a with
  | Stat _ => option goerr  (* an error other than that there is no file *)
  | WriteFile_ _ => write_result
  | RemoveAll _ => removal
  | ListUnitsByNames _ => sys (list UnitStatus)
  | Ticks _ _ => list (sys UnitProperties)
  | KillUnit _ _ | ResetFailedUnit _ => ()
  | StatVolume _ => sys bool  (* a block device *)
  | MonRun _ query_migrate_status => sys string
  | Statuses _ => list (sys string)
  | Sockets => list (sys (list SockTableEntry))
  | Cancelled => bool
  | ReadPid _ => sys string
  | DotenvRead _ => sys (gmap string string)
  | StatRoot _ => sys ()
  | GetVersion _ _ => sys Version.t
  | LookupIP _ => sys (list string)
  | StartIncoming _ _ => sys requisites_reply
  | RemoteGet _ _ => sys (Z * remote_state)
  | _ => sys ()
  end.

Class Services := answer : list service → ∀ a : service, reply a.

Record host := { files_ : files; passwd : list string; log : list service }.
Definition set_files (v : files) (h : host) : host :=
  {| files_ := v; passwd := passwd h; log := log h |}.
Definition set_passwd (v : list string) (h : host) : host :=
  {| files_ := files_ h; passwd := v; log := log h |}.

(** [p] is [dir] or below it. *)
Definition under (dir p : string) : bool :=
  bool_decide (p = dir) || Strings.HasPrefix p (dir +:+ "/").

Section calls.
Context `{Accounts, Services}.
Abbreviation call := (op host).

Definition ask (a : service) : call (reply a) := λ h,
  (Ret (answer (log h) a),
   {| files_ := files_ h; passwd := passwd h; log := log h ++ [a] |}).

Definition done (r : sys ()) : call () := lift (Backend.call r).

(** *** Files *)
Definition mkdir_all (path : string) : call () := r ← ask (MkdirAll path); done r.

(** [os.Stat]: whether there is such a file. *)
Definition stat (path : string) : call bool :=
  r ← ask (Stat path);
  match r with
  | Some e => throw e
  | None => h ← get; mret (bool_decide (is_Some (files_ h !! path)))
  end.

(** [m] writes a file, with the result the host gives. *)
Definition writing (path : string) (m : write_result → op files ()) : call () :=
  r ← ask (WriteFile_ path); zoom files_ set_files (m r).

(** A file of any contents. *)
Definition write_file (path : string) (content : option json) : call () :=
  writing path (λ w, match w with
    | Written => modify <[path := content]>
    | Failed e remains => modify (partial_alter (λ _, remains) path);; throw e
    end).

Definition remove (path : string) : call () :=
  h ← get;
  fail_if (bool_decide (files_ h !! path = None)) (ErrNotExist path);;
  r ← ask (Remove path); done r;;
  modify (λ h, set_files (delete path (files_ h)) h).

Definition remove_all (path : string) : call () :=
  r ← ask (RemoveAll path);
  match r with
  | Removed => modify (λ h, set_files (filter (λ kv, under path kv.1 = false) (files_ h)) h)
  | Stuck e rest =>
      modify (λ h, set_files (filter (λ kv, under path kv.1 = false ∨ rest kv.1 = true) (files_ h)) h);;
      throw e
  end.

(** *** Users *)

(** [osuser.CreateUser] *)
Definition CreateUser (name : string) : call Z :=
  r ← ask NewLocker; done r;;
  r ← ask Acquire; done r;;
  r ← ask OpenPasswd; done r;;
  h ← get;
  uid ← lift (OsUser.getVacantUid (inl (passwd h, None)));
  r ← ask (Useradd name uid);
  map_err (λ _, ErrMsg "useradd") (done r);;
  modify (λ h, set_passwd (useradd name uid (passwd h)) h);;
  mret uid.

(** [osuser.RemoveUser] *)
Definition RemoveUser (name : string) : call () :=
  r ← ask (Userdel name);
  map_err (λ _, ErrMsg "userdel") (done r);;
  modify (λ h, set_passwd (userdel name (passwd h)) h).

(** *** Units *)

Definition machineUnitFile (vmname : string) : string := "kvmrun@" +:+ vmname +:+ ".service".

(** A call whose result nobody looks at. *)
Definition dropped (a : service) : call () := _ ← ask a; mret ().

(** The methods of [systemd.Manager]. *)
Definition Enable (unitname : string) : call () := r ← ask (EnableUnitFiles unitname); done r.
Definition Disable (unitname : string) : call () :=
  r ← ask (DisableUnitFiles unitname); done r;; dropped (ResetFailedUnit unitname).
Definition Kill (unitname : string) (sig : signal) : call () := dropped (KillUnit unitname sig).
Definition Start (unitname : string) : call () := r ← ask (StartUnit unitname); done r.
Definition Stop (unitname : string) : call () := r ← ask (StopUnit unitname); done r.
Definition Restart (unitname : string) : call () := r ← ask (RestartUnit unitname); done r.

Definition GetUnit (unitname : string) : call UnitStatus :=
  r ← ask (ListUnitsByNames unitname);
  match r with
  | inl [u] => mret u
  | inl _ => throw (ErrMsg ("unit not found: " +:+ unitname))
  | inr e => throw e
  end.

(** The commands of a failed unit: the first one that shows why it failed. *)
Definition start_failure (u : UnitProperties) : option goerr :=
  match list_find (λ c, Code c ≠ CodeUndefined ∧ Code c ≠ CodeExited) (ExecStartPre u) with
  | Some (_, c) =>
      Some (ErrMsg ("pre-start command failed (exit code = " +:+ Strconv.Itoa (ExecStatus c)
        +:+ "): " +:+ Strings.Join (Arguments c) " "))
  | None =>
      match list_find (λ c, Code c ≠ CodeUndefined) (ExecStart u) with
      | Some (_, c) => Some (ErrMsg ("launcher failed (exit code = " +:+ Strconv.Itoa (ExecStatus c) +:+ ")"))
      | None => None
      end
  end.

(** [waitActivation]: the time of the last change once the unit runs. *)
Fixpoint waitActivation (ticks : list (sys UnitProperties)) : outcome Z :=
  match ticks with
  | [] => Throw (ErrMsg "activation timeout: not ready after 5m0s")
  | inr e :: _ => Throw e
  | inl u :: ticks =>
      if bool_decide (unit_ActiveState u = "active") then
        if bool_decide (unit_SubState u = "running") then Ret (StateChangeTime u)
        else waitActivation ticks
      else if bool_decide (unit_ActiveState u = "failed") then
        match start_failure u with Some e => Throw e | None => waitActivation ticks end
      else waitActivation ticks
  end.

(** [test]: the unit stays as it is. *)
Fixpoint stays (since : Z) (ticks : list (sys UnitProperties)) : outcome () :=
  match ticks with
  | [] => Ret ()
  | inr e :: _ => Throw e
  | inl u :: ticks =>
      if since =? StateChangeTime u then stays since ticks
      else Throw (ErrMsg "the main process is crashed")
  end.

Definition StartAndTest (unitname : string) (interval : Z) : call () :=
  r ← ask (StartUnit unitname); done r;;
  ticks ← ask (Ticks unitname 300);
  since ← lift (waitActivation ticks);
  ticks ← ask (Ticks unitname interval);
  lift (stays since ticks).

Definition allExecFinished (l : list ExecCommandState) : bool :=
  forallb (λ c, bool_decide (Code c ≠ CodeUndefined)) l.

Fixpoint waitDeactivation (ticks : list (sys UnitProperties)) : outcome () :=
  match ticks with
  | [] => Throw (ErrMsg "deactivation timeout")
  | inr e :: _ => Throw e
  | inl u :: ticks =>
      if bool_decide (unit_ActiveState u = "inactive") then Ret ()
      else if bool_decide (unit_ActiveState u = "failed") && allExecFinished (ExecStopPost u) then Ret ()
      else waitDeactivation ticks
  end.

Definition StopAndWait (unitname : string) (interval : Z) : call () :=
  r ← ask (StopUnit unitname); done r;;
  ticks ← ask (Ticks unitname interval);
  lift (waitDeactivation ticks).

(** The methods of [server.Server], with times in seconds. *)
Definition SystemdGetUnit (vmname : string) : call UnitStatus := GetUnit (machineUnitFile vmname).
Definition SystemdEnableService (vmname : string) : call () := Enable (machineUnitFile vmname).
Definition SystemdDisableService (vmname : string) : call () := Disable (machineUnitFile vmname).
Definition SystemdStartService (vmname : string) (interval : Z) : call () :=
  if interval =? 0 then Start (machineUnitFile vmname)
  else StartAndTest (machineUnitFile vmname) interval.
Definition SystemdRestartService (vmname : string) : call () := Restart (machineUnitFile vmname).
Definition SystemdStopService (vmname : string) (interval : Z) : call () :=
  if interval =? 0 then Stop (machineUnitFile vmname)
  else StopAndWait (machineUnitFile vmname) interval.
Definition SystemdSendSIGTERM (vmname : string) : call () := Kill (machineUnitFile vmname) SIGTERM.
Definition SystemdSendSIGKILL (vmname : string) : call () := Kill (machineUnitFile vmname) SIGKILL.
End calls.
End Services.
