(* ===== verification/HostNet.v ===== *)
(** HostNet: the interfaces of the machines on the host ([internal/hostnet],
    [internal/utils/network.go]).  What the kernel and the tools [ip] and [tc]
    are asked is recorded; their answers are a parameter ([Network]).  A link
    names the object the netlink library returns for it. *)

From S2P Require Import Prelude.
From S2P Require Import GoStd.
From S2P Require Import Ip.
From S2P Require Import Backend.
From S2P Require Import Json.
From S2P Require Import ConfJson.
From S2P Require Import Monitor.
From S2P Require Import InstanceQemu.
From S2P Require Import Server.
From S2P Require Import Services.

Open Scope Z_scope.
#[local] Set Warnings "-register-all".

Module HostNet.
Import Strings Services Server Ip IpNet.

(** ** Requests *)

(** The types of the netlink library the code tells apart. *)
Inductive kind := Bridge | Vxlan (id : Z) | Vlan | Tuntap | OtherKind.
Record link := { Name : string; Index : Z; Kind : kind; MasterIndex : Z }.
#[export] Instance kind_eq_dec : EqDecision kind.
Proof. solve_decision. Defined.
#[export] Instance link_eq_dec : EqDecision link.
Proof. solve_decision. Defined.

Record route := { LinkIndex : Z; Table : Z; Dst : option IPNet }.
Record rule := { IifName : string; rule_Table : Z; Src : option IPNet; Family : Z }.

Definition FAMILY_ALL : Z := 0.
Definition FAMILY_V4 : Z := 2.
Definition FAMILY_V6 : Z := 10.

(** [CommandExitCode] of the error of a command: the code, unless the command
    was not even started. *)
Inductive command_result := Succeeded | CommandFailed (code : option Z) (out : string).
Inductive link_result := Found (l : link) | LinkNotFound | LinkFailed (e : goerr).

(** [UntilRefused argv]: the command is run again and again as long as it
    succeeds; how often that was, and how it failed then. *)
Inductive net_call :=
  | LinkByName (name : string)
  | LinkList
  | LinkAdd (l : link) (src : option Z)
  | LinkDel (name : string)
  | LinkSetUp (name : string)
  | LinkSetMTU (name : string) (mtu : Z)
  | LinkSetMaster (name master : string)
  | LinkSetNoMaster (name : string)
  | AddrAdd (name : string) (addr : IPNet)
  | AddrList (name : string)
  | AddrDel (name : string) (addr : IPNet)
  | RouteReplace (r : route)
  | RouteList (name : string)
  | RouteDel (r : route)
  | RuleAdd (r : rule)
  | RuleList (family : Z)
  | RuleDel (r : rule)
  | Interfaces
  | Addrs (name : string)
  | Command (argv : list string)
  | UntilRefused (argv : list string)
  | RtTables
  | SetNetClassID (pid classid : Z)
  | Announce (link gateway : string).

Definition net_reply (c : net_call) : Type :=
  match c with
  | LinkByName _ => link_result
  | LinkList => sys (list link)
  | AddrList _ => sys (list IPNet)
  | RouteList _ => sys (list route)
  | RuleList _ => sys (list rule)
  | Interfaces => sys (list string)
  | Addrs _ => sys (list (option IPNet))   (* an address of another type *)
  | Command _ => command_result
  | UntilRefused _ => nat * command_result
  | RtTables => sys (list string * option goerr)
  | Announce _ _ => ()
  | _ => sys ()
  end.

Class Network := net_answer : list net_call → ∀ c : net_call, net_reply c.

(** The JSON text of the attributes of a link has its index. *)
Class LinkJson := link_json : link → json.
Definition index_fields : list (string * Json.decoder Z) := [("index", Json.dec_int)].
Class LinkJsonLaws `{LinkJson} : Prop :=
  link_json_index l : is_int (Index l) = true → Json.dec_struct index_fields (link_json l) 0 = Ret (Index l).

(** The order in which [range] visits a map. *)
Class MapOrder := map_order : ∀ A : Type, gmap string A → list (string * A).
Class MapOrderLaws `{MapOrder} : Prop := map_order_law A m : map_order A m ≡ₚ map_to_list m.

Record net := { on : host; calls : list net_call }.
Definition set_on (h : host) (n : net) : net := {| on := h; calls := calls n |}.

(** ** Helpers *)

(** [strings.Fields] *)
Fixpoint fields_go (fuel : nat) (l cur : list ascii) : list (list ascii) :=
  match fuel with
  | O => []
  | S fuel =>
      let flush k := match cur with [] => k | _ => cur :: k end in
      match l with
      | [] => flush []
      | a :: l' =>
          match strip_any spaces l with
          | Some rest => flush (fields_go fuel rest [])
          | None => fields_go fuel l' (cur ++ [a])
          end
      end
  end.
Definition Fields (s : string) : list string :=
  map of_list (fields_go (S (String.length s)) (to_list s) []).

(** [IP.IsLinkLocalUnicast] and [IP.IsLinkLocalMulticast] *)
Definition IsLinkLocalUnicast (ip : Z) : bool :=
  match To4 ip with
  | Some v => Z.shiftr v 16 =? 43518
  | None => Z.shiftr ip 118 =? 1018
  end.
Definition IsLinkLocalMulticast (ip : Z) : bool :=
  match To4 ip with
  | Some v => Z.shiftr v 8 =? 14680064
  | None => (Z.shiftr ip 120 =? 255) && (Z.land (Z.shiftr ip 112) 15 =? 2)
  end.

(** [GetRouteTableIndex], given the lines of the file. *)
Fixpoint find_table (table : string) (lines : list string) : option (outcome Z) :=
  match lines with
  | [] => None
  | line :: lines =>
      let line := TrimSpace line in
      if HasPrefix line "#" then find_table table lines
      else match Fields line with
           | [num; name] => if bool_decide (ToLower name = table) then Some (Strconv.Atoi num) else find_table table lines
           | _ => find_table table lines
           end
  end.

(** [GetLinkID]: a number from 200 to 64999. *)
Definition GetLinkID (linkname : string) (linkindex : Z) : Z :=
  Md5.sum (linkname +:+ ":" +:+ Strconv.Itoa linkindex) mod 64800 + 200.

Section hostnet.
Context `{Services, Network, Netlink, MapOrder, LinkJson}.
Abbreviation call := (op net).

Definition request (c : net_call) : call (net_reply c) := λ n,
  (Ret (net_answer (calls n) c), {| on := on n; calls := calls n ++ [c] |}).
Definition at_host {A} (m : op host A) : call A := zoom on set_on m.

(** [if err := r; err != nil { return f(err) }] *)
Definition done {A} (r : sys A) : call A := lift (Backend.call r).
Definition netlink {A} (r : sys A) : call A := map_err (λ _, ErrMsg "netlink") (done r).
Definition dropped (c : net_call) : call () := _ ← request c; mret ().

(** [exec.Command(argv...)]; [tolerated] tells the exit codes that are no
    errors. *)
Definition run (tolerated : Z → bool) (what : string) (argv : list string) : call () :=
  r ← request (Command argv);
  match r with
  | Succeeded => mret ()
  | CommandFailed (Some code) out =>
      if tolerated code then mret () else throw (ErrMsg (what +:+ ": " +:+ TrimSpace out))
  | CommandFailed None out => throw (ErrMsg (what +:+ ": " +:+ TrimSpace out))
  end.
Definition exactly (argv : list string) (what : string) : call () := run (λ _, false) what argv.

Definition link_by_name (name : string) : call link :=
  r ← request (LinkByName name);
  match r with
  | Found l => mret l
  | LinkNotFound => throw (ErrMsg "netlink: Link not found")
  | LinkFailed _ => throw (ErrMsg "netlink")
  end.

Definition GetRouteTableIndex (table : string) : call Z :=
  r ← request RtTables;
  match r with
  | inr e => throw e
  | inl (lines, err) =>
      match find_table table lines with
      | Some r => lift r
      | None => match err with Some e => throw e | None => throw (ErrMsg ("table not found: " +:+ table)) end
      end
  end.

(** ** Links *)

Definition RemoveLinkIfExist (linkname : string) : call () :=
  r ← request (LinkByName linkname);
  match r with
  | LinkNotFound => mret ()
  | LinkFailed e => throw e
  | Found l =>
      match Kind l with
      | Vlan | Vxlan _ | Tuntap => r ← request (LinkDel linkname); netlink r
      | _ => throw (ErrMsg ("unsupported device type: " +:+ linkname))
      end
  end.

(** [LinkSetMTU] when the size is one; the text of the error has the link. *)
Definition set_mtu (mtu : Z) (name : string) : call () :=
  r ← request (LinkSetMTU name mtu); map_err (λ _, ErrMsg ("netlink: " +:+ name)) (done r).

Definition CreateBridgeIfNotExist (linkname : string) : call () :=
  r ← request (LinkByName linkname);
  match r with
  | Found l =>
      fail_if (negb (bool_decide (Kind l = Bridge))) (ErrMsg ("device already exists but is not a bridge: " +:+ linkname))
  | LinkNotFound =>
      r ← request (LinkAdd {| Name := linkname; Index := 0; Kind := Bridge; MasterIndex := 0 |} None); netlink r
  | LinkFailed _ => throw (ErrMsg "netlink")
  end;;
  r ← request (LinkSetUp linkname); netlink r.

Definition CreateVxlanIfNotExist (linkname : string) (vni srcIP : Z) : call () :=
  r ← request (LinkByName linkname);
  match r with
  | Found l =>
      match Kind l with
      | Vxlan id => fail_if (negb (id mod 2 ^ 32 =? vni))
          (ErrMsg ("vxlan device already exists, but with a different vni (" +:+ Strconv.Itoa id +:+ "): " +:+ linkname))
      | _ => throw (ErrMsg ("device already exists but is not a vxlan device: " +:+ linkname))
      end
  | LinkNotFound =>
      r ← request (LinkAdd {| Name := linkname; Index := 0; Kind := Vxlan vni; MasterIndex := 0 |} (Some srcIP)); netlink r
  | LinkFailed _ => throw (ErrMsg "netlink")
  end;;
  r ← request (LinkSetUp linkname); netlink r.

(** ** Bridges *)

Definition BridgePortConfigure (linkname BridgeName : string) (MTU : Z) (secondStage : bool) : call () :=
  if secondStage then mret ()
  else
    r ← request (LinkByName BridgeName);
    match r with
    | Found l => fail_if (negb (bool_decide (Kind l = Bridge))) (ErrMsg ("not a bridge device: " +:+ BridgeName))
    | LinkNotFound => throw (ErrMsg ("bridge does not exist: " +:+ BridgeName))
    | LinkFailed _ => throw (ErrMsg "netlink")
    end;;
    _ ← link_by_name linkname;
    r ← request (LinkSetMaster linkname BridgeName); netlink r;;
    r ← request (LinkSetUp linkname); netlink r;;
    if 68 <=? MTU then set_mtu MTU linkname else mret ().

Definition BridgePortDeconfigure (linkname : string) : call () :=
  r ← request (LinkByName linkname);
  match r with
  | LinkNotFound => mret ()
  | LinkFailed _ => throw (ErrMsg "netlink")
  | Found _ => r ← request (LinkSetNoMaster linkname); netlink r
  end.

(** ** VxLANs *)

Definition vxName (vni : Z) : string := "vxlan_" +:+ Strconv.Itoa vni.
Definition brName (vni : Z) : string := "xbr_" +:+ Strconv.Itoa vni.

Fixpoint set_mtus (mtu : Z) (names : list string) : call () :=
  match names with [] => mret () | name :: names => set_mtu mtu name;; set_mtus mtu names end.

Definition VxlanPortConfigure (linkname : string) (VNI MTU Local : Z) (secondStage : bool) : call () :=
  if secondStage then mret ()
  else
    CreateBridgeIfNotExist (brName VNI);;
    CreateVxlanIfNotExist (vxName VNI) VNI Local;;
    r ← request (LinkSetMaster (vxName VNI) (brName VNI)); netlink r;;
    _ ← link_by_name linkname;
    r ← request (LinkSetMaster linkname (brName VNI)); netlink r;;
    r ← request (LinkSetUp linkname); netlink r;;
    if 68 <=? MTU then set_mtus MTU [brName VNI; vxName VNI; linkname] else mret ().

Definition VxlanPortDeconfigure (linkname : string) (vni : Z) : call () :=
  RemoveLinkIfExist linkname;;
  r ← request (LinkByName (brName vni));
  match r with
  | LinkNotFound => RemoveLinkIfExist (vxName vni)
  | LinkFailed e => throw e
  | Found br =>
      r ← request LinkList;
      links ← netlink r;
      if existsb (λ l, (MasterIndex l =? Index br) && negb (bool_decide (Name l = vxName vni))) links then mret ()
      else
        RemoveLinkIfExist (vxName vni);;
        r ← request (LinkDel (brName vni)); netlink r
  end.

(** ** VLANs: nothing is done. *)
Definition VlanPortConfigure (linkname : string) (secondStage : bool) : call () := mret ().
Definition VlanPortDeconfigure (linkname : string) (vlan_id : Z) : call () := mret ().

(** ** Virtual routers *)

Record VirtualRouterAttrs := {
  attr_Addrs : list string; MTU : Z; BindInterface : string; Gateway4 : string; Gateway6 : string;
  InLimit : Z; OutLimit : Z; ProcessID : Z;
}.

Definition ErrCgroupBinding : goerr := ErrHost "failed to configure cgroup".

Fixpoint blackhole_rules (linkname : string) (families : list string) : call () :=
  match families with
  | [] => mret ()
  | f :: families =>
      exactly ["ip"; "-family"; f; "rule"; "add"; "iif"; linkname; "blackhole"]
        ("failed to create blackhole rule for " +:+ linkname +:+ " (family = " +:+ f +:+ ")");;
      blackhole_rules linkname families
  end.
Definition routerCreateBlackholeRules (linkname : string) : call () := blackhole_rules linkname ["inet"; "inet6"].

Definition mbit (rate : Z) : string := Strconv.Itoa rate +:+ "mbit".

Definition routerSetInboundLimits (linkname : string) (rate : Z) : call () :=
  dropped (Command ["tc"; "qdisc"; "del"; "dev"; linkname; "root"]);;
  if rate =? 0 then mret ()
  else
    run (λ code, code =? 2) ("failed to create qdisc rule for " +:+ linkname)
      ["tc"; "qdisc"; "replace"; "dev"; linkname; "root"; "handle"; "1"; "htb"; "default"; "1"];;
    exactly ["tc"; "class"; "replace"; "dev"; linkname; "parent"; "1:"; "classid"; "1:1"; "htb"; "rate"; mbit rate]
      ("failed to create class rule for " +:+ linkname).
Definition RouterSetInboundLimits := routerSetInboundLimits.

Definition classid (linkID : Z) : string := "1:0x" +:+ Strconv.format 16 linkID.

Definition routerSetOutboundLimits (linkname : string) (linkID pid rate : Z) (bindInterface : string) : call () :=
  dropped (Command ["tc"; "class"; "del"; "dev"; bindInterface; "classid"; classid linkID]);;
  if rate =? 0 then mret ()
  else
    run (λ code, code =? 2) ("failed to create qdisc rule for " +:+ bindInterface)
      ["tc"; "qdisc"; "add"; "dev"; bindInterface; "root"; "handle"; "1"; "htb"];;
    exactly ["tc"; "filter"; "replace"; "dev"; bindInterface; "parent"; "1:"; "protocol"; "all"; "prio"; "10";
             "handle"; "1:"; "cgroup"]
      ("failed to create filter rule for " +:+ bindInterface);;
    exactly ["tc"; "class"; "add"; "dev"; bindInterface; "parent"; "1:"; "classid"; classid linkID; "htb"; "rate"; mbit rate]
      ("failed to create class rule for " +:+ bindInterface);;
    if 0 <? pid then
      r ← request (SetNetClassID pid (65536 + linkID)); map_err (λ _, ErrCgroupBinding) (done r)
    else mret ().

Definition RouterSetOutboundLimits (linkname : string) (rate : Z) (bindInterface : string) (pid : Z) : call () :=
  l ← link_by_name linkname;
  _ ← link_by_name bindInterface;
  routerSetOutboundLimits linkname (GetLinkID linkname (Index l)) pid rate bindInterface.

Definition link_file (linkname : string) : string := Filepath.Join ["/run/kvm-network"; linkname].

Definition RouterConfigureInterface (linkname : string) (attrs : VirtualRouterAttrs) : call () :=
  fail_if ((0 <? OutLimit attrs) && bool_decide (BindInterface attrs = ""))
    (ErrMsg "can not setup outbound limit: bind_interface is not set");;
  l ← link_by_name linkname;
  r ← request (LinkSetUp linkname); netlink r;;
  (if 68 <=? MTU attrs then set_mtu (MTU attrs) linkname else mret ());;
  routerCreateBlackholeRules linkname;;
  routerSetInboundLimits linkname (InLimit attrs);;
  if bool_decide (BindInterface attrs = "") then mret ()
  else
    routerSetOutboundLimits linkname (GetLinkID linkname (Index l)) (ProcessID attrs) (OutLimit attrs) (BindInterface attrs);;
    at_host (write_file (link_file linkname) (Some (link_json l))).

(** [netip.MustParseAddr(lastIP.String()).Prev()] as an address; the text of an
    IPv4 address is read back as it was. *)
Definition prev_v4 (last : Z) : option Z := ParseIP (string_v4 (last - 1)).

Definition routerAddRoute (l : link) (addr table : string) : call () :=
  tableNum ← GetRouteTableIndex table;
  ip ← lift (ParseIPNet addr);
  match To4 (IP ip) with
  | Some _ =>
      if ones ip <=? 30 then
        last ← lift (GetLastIPv4 ip);
        r ← request (AddrAdd (Name l) {| IP := default 0 (prev_v4 last); ones := ones ip; bits := bits ip |}); done r
      else mret ()
  | None =>
      if ones ip <=? 64 then
        last ← lift (GetLastIPv6 ip);
        r ← request (AddrAdd (Name l) {| IP := last; ones := ones ip; bits := bits ip |}); done r
      else throw (ErrMsg "too small ipv6 netmask")
  end;;
  dst ← lift (ParseCIDR addr);
  r ← request (RouteReplace {| LinkIndex := Index l; Table := tableNum; Dst := Some dst.2 |}); netlink r.

Definition routerAddRule (l : link) (addr table : string) : call () :=
  tableNum ← GetRouteTableIndex table;
  ip ← lift (ParseIPNet addr);
  r ← request (RuleAdd {| IifName := Name l; rule_Table := tableNum; Src := Some ip;
                          Family := match To4 (IP ip) with Some _ => FAMILY_V4 | None => FAMILY_V6 end |});
  done r.

Fixpoint add_addrs (l : link) (addrs : list string) : call () :=
  match addrs with
  | [] => mret ()
  | addr :: addrs => routerAddRoute l addr "main";; routerAddRule l addr "main";; add_addrs l addrs
  end.

(** Each gateway is announced once. *)
Fixpoint announce (l : link) (gateway4 : string) (gws : list string) (addrs : list string) : call () :=
  match addrs with
  | [] => mret ()
  | addr :: addrs =>
      ip ← lift (ParseIPNet addr);
      match To4 (IP ip) with
      | None => announce l gateway4 gws addrs
      | Some _ =>
          gw ← (if ones ip <=? 30 then last ← lift (GetLastIPv4 ip); mret (string_v4 (last - 1)) else mret gateway4);
          if bool_decide (gw ∈ gws ∨ gw = "") then announce l gateway4 gws addrs
          else dropped (Announce (Name l) gw);; announce l gateway4 (gw :: gws) addrs
      end
  end.
Definition routerAnnounceGateways (l : link) (addrs : list string) (gateway4 : string) : call () :=
  announce l gateway4 [] addrs.

Definition RouterConfigureAddrs (linkname : string) (addrs : list string) (gateway4 : string) : call () :=
  l ← link_by_name linkname;
  add_addrs l addrs;;
  routerAnnounceGateways l addrs gateway4.

Definition RouterConfigure (linkname : string) (attrs : VirtualRouterAttrs) (secondStage : bool) : call () :=
  if secondStage then RouterConfigureAddrs linkname (attr_Addrs attrs) (Gateway4 attrs)
  else RouterConfigureInterface linkname attrs.

(** *** Deconfiguration, which mostly goes on whatever happens *)

Fixpoint each_of {A} (f : A → call ()) (l : list A) : call () :=
  match l with [] => mret () | x :: l => f x;; each_of f l end.

Definition delete_rules (linkname : string) : call () :=
  r ← request (RuleList FAMILY_ALL);
  match r with
  | inl rules => each_of (λ r, if bool_decide (IifName r = linkname) then dropped (RuleDel r) else mret ()) rules
  | inr _ => mret ()
  end.

Definition link_local (ip : Z) : bool := IsLinkLocalUnicast ip || IsLinkLocalMulticast ip.

Definition delete_addrs (linkname : string) : call () :=
  r ← request (AddrList linkname);
  match r with
  | inl addrs => each_of (λ a, if link_local (IP a) then mret () else dropped (AddrDel linkname a)) addrs
  | inr _ => mret ()
  end.

(** A route without a destination is a nil pointer. *)
Definition delete_routes (linkname : string) : call () :=
  r ← request (RouteList linkname);
  match r with
  | inl routes =>
      each_of (λ r, match Dst r with
                    | None => lift (Panic NilDereference)
                    | Some dst => if link_local (IP dst) then mret () else dropped (RouteDel r)
                    end) routes
  | inr _ => mret ()
  end.

(** Its error is not looked at by the only caller. *)
Definition routerRemoveBlackholeRulesV6 (linkname : string) : call () :=
  dropped (UntilRefused ["ip"; "-family"; "inet6"; "rule"; "del"; "from"; "all"; "iif"; linkname; "blackhole"]).

(** [json.Unmarshal] of a file into a struct with an index. *)
Definition file_index (content : option json) : outcome Z :=
  match content with
  | None => Throw (ErrMsg "invalid character")
  | Some j => Json.dec_struct index_fields j 0
  end.

Definition RouterDeconfigure (linkname bindInterface : string) : call () :=
  delete_rules linkname;;
  routerRemoveBlackholeRulesV6 linkname;;
  r ← request (LinkByName linkname);
  match r with
  | Found l => delete_addrs linkname;; delete_routes linkname
  | _ => mret ()
  end;;
  ignored (routerSetInboundLimits linkname 0);;
  if bool_decide (bindInterface = "") then mret ()
  else
    r ← at_host (ask (ReadFile (link_file linkname)));
    done r;;
    n ← get;
    match files_ (on n) !! link_file linkname with
    | None => mret ()
    | Some content =>
        index ← lift (file_index content);
        ignored (routerSetOutboundLimits linkname (GetLinkID linkname index) 0 0 bindInterface);;
        ignored (at_host (remove (link_file linkname)))
    end.

(** ** [ParseBindings] *)

Fixpoint iface_addrs (addrs : list (option IPNet)) (m : gmap string Z) : gmap string Z :=
  match addrs with
  | [] => m
  | a :: addrs =>
      iface_addrs addrs
        (match a with
         | Some a => if IsLinkLocalUnicast (IP a) then m else <[IP_String (IP a) := IP a]> m
         | None => m
         end)
  end.

Fixpoint bindings (ifaces : list string) (l : list string) (m : gmap string Z) : call (gmap string Z) :=
  match l with
  | [] => mret m
  | v :: l =>
      if bool_decide (v ∈ ifaces) then
        r ← request (Addrs v);
        addrs ← done r;
        bindings ifaces l (iface_addrs addrs m)
      else
        bindings ifaces l
          (match ParseIP v with
           | Some ip => match m !! IP_String ip with Some _ => m | None => <[IP_String ip := ip]> m end
           | None => m
           end)
  end.

Definition ParseBindings (l : list string) : call (list Z) :=
  r ← request Interfaces;
  ifaces ← done r;
  m ← bindings ifaces l ∅;
  mret (map snd (map_order _ m)).
End hostnet.
End HostNet.
