(* ===== verification/Netstat.v ===== *)
(** Netstat: the table of TCP sockets and the processes that have them
    ([internal/netstat]).

    The files of [/proc] are those of one moment: what a path holds does not
    depend on what was read before. *)

From S2P Require Import Prelude.
From S2P Require Import GoStd.
From S2P Require Import Backend.
From S2P Require Import HostNet.

Open Scope Z_scope.
#[local] Set Warnings "-register-all".

(** The lines of a file and the error the scanner ends with; names and kinds in a
    directory; links and whole files. *)
Class ProcFs := {
  proc_lines : string → sys (list string * option goerr);
  proc_dir : string → sys (list (string * bool));
  proc_link : string → sys string;
  proc_read : string → sys string;
}.

Module Netstat.
Import Strings.

Record SockAddr := { IP : list Z; Port : Z }.
Record ProcessInfo := { Pid : Z; ProcName : string }.
Record SockTableEntry := {
  Inode : string; LocalAddr : SockAddr; RemoteAddr : SockAddr;
  State : Z; UID : Z; Process_ : option ProcessInfo;
}.
Definition set_Process (p : ProcessInfo) (e : SockTableEntry) : SockTableEntry :=
  {| Inode := Inode e; LocalAddr := LocalAddr e; RemoteAddr := RemoteAddr e; State := State e; UID := UID e;
     Process_ := Some p |}.
Definition Established : Z := 1.
Definition Listen : Z := 10.

(** ** Addresses *)

(** [binary.LittleEndian.PutUint32] *)
Definition PutUint32 (v : Z) : list Z := Md5.le_bytes 4 v.

Definition parseIPv4 (s : string) : outcome (list Z) :=
  v ← Strconv.ParseUint s 16 32; Ret (PutUint32 v).

(** Four groups of eight digits; a shorter rest is out of range. *)
Fixpoint parse_groups (fuel : nat) (s : string) : outcome (list Z) :=
  match fuel, s with
  | _, "" => Ret []
  | O, _ => Panic IndexOutOfRange
  | S fuel, _ =>
      if (String.length s <? 8)%nat then Panic IndexOutOfRange
      else
        v ← Strconv.ParseUint (String.substring 0 8 s) 16 32;
        rest ← parse_groups fuel (String.substring 8 (String.length s - 8) s);
        Ret (PutUint32 v ++ rest)
  end.
Definition parseIPv6 (s : string) : outcome (list Z) :=
  ip ← parse_groups 4 s; Ret (ip ++ replicate (16 - length ip) 0).

Definition parseAddr (s : string) : outcome SockAddr :=
  match Split s ":" with
  | f0 :: f1 :: _ =>
      ip ← (if (String.length f0 =? 8)%nat then parseIPv4 f0
            else if (String.length f0 =? 32)%nat then parseIPv6 f0
            else Throw (ErrMsg ("invalid ip:port string: " +:+ f0)));
      port ← Strconv.ParseUint f1 16 16;
      Ret {| IP := ip; Port := port |}
  | _ => Throw (ErrMsg ("netstat: not enough fields: " +:+ s))
  end.

(** ** The table *)

Definition parse_entry (line : string) : outcome SockTableEntry :=
  match HostNet.Fields line with
  | _ :: f1 :: f2 :: f3 :: _ :: _ :: _ :: f7 :: _ :: f9 :: _ :: _ :: _ =>
      laddr ← parseAddr f1;
      raddr ← parseAddr f2;
      state ← Strconv.ParseUint f3 16 8;
      uid ← Strconv.ParseUint f7 10 32;
      Ret {| Inode := f9; LocalAddr := laddr; RemoteAddr := raddr; State := state; UID := uid; Process_ := None |}
  | _ => Throw (ErrMsg "not enough fields")
  end.

Fixpoint parse_lines (ok : SockTableEntry → bool) (lines : list string) : outcome (list SockTableEntry) :=
  match lines with
  | [] => Ret []
  | l :: lines =>
      if HasPrefix l "#" then parse_lines ok lines
      else
        e ← parse_entry l;
        es ← parse_lines ok lines;
        Ret (if ok e then e :: es else es)
  end.

Section procfs.
Context `{ProcFs}.

(** The first line is a title. *)
Definition parseSockTable (statfile : string) (ok : SockTableEntry → bool) : outcome (list SockTableEntry) :=
  c ← call (proc_lines statfile);
  es ← parse_lines ok (tail (fst c));
  match snd c with Some e => Throw e | None => Ret es end.

(** ** Processes *)

Definition socket_link (e : SockTableEntry) : string := "socket:[" +:+ Inode e +:+ "]".

(** The entries a link belongs to, up to one whose process has no name. *)
Fixpoint own (pid : Z) (lname : string) (es : list SockTableEntry) : outcome () * list SockTableEntry :=
  match es with
  | [] => (Ret (), [])
  | e :: es =>
      if bool_decide (lname = socket_link e) && bool_decide (Process_ e = None) then
        match proc_read (Filepath.Join ["/proc"; Strconv.Itoa pid; "comm"]) with
        | inl b =>
            let '(r, es) := own pid lname es in (r, set_Process {| Pid := pid; ProcName := TrimSpace b |} e :: es)
        | inr err => (Throw err, e :: es)
        end
      else let '(r, es) := own pid lname es in (r, e :: es)
  end.

Fixpoint own_links (pid : Z) (fds : list (string * bool)) : op (list SockTableEntry) () :=
  match fds with
  | [] => mret ()
  | (fd, _) :: fds =>
      (match proc_link (Filepath.Join ["/proc"; Strconv.Itoa pid; "fd"; fd]) with
       | inl lname => if HasPrefix lname "socket:[" then own pid lname else mret ()
       | inr _ => mret ()
       end);;
      own_links pid fds
  end.

Definition handle (pid : Z) : op (list SockTableEntry) () :=
  fds ← lift (call (proc_dir (Filepath.Join ["/proc"; Strconv.Itoa pid; "fd"])));
  own_links pid fds.

(** A process that has gone meanwhile is passed over. *)
Definition handled (pid : Z) : op (list SockTableEntry) () := λ es,
  match handle pid es with
  | (Throw (ErrNotExist _), es) => (Ret (), es)
  | r => r
  end.

Fixpoint each_process (files : list (string * bool)) : op (list SockTableEntry) () :=
  match files with
  | [] => mret ()
  | (name, dir) :: files =>
      (match dir, Strconv.Atoi name with true, Ret pid => handled pid | _, _ => mret () end);;
      each_process files
  end.

Definition setProcessInfo : op (list SockTableEntry) () :=
  files ← lift (call (proc_dir "/proc")); each_process files.

Definition getStat (statfile : string) (fn : SockTableEntry → bool) : outcome (list SockTableEntry) :=
  entries ← parseSockTable statfile fn;
  match setProcessInfo entries with
  | (Ret _, entries) => Ret entries
  | (Throw e, _) => Throw e
  | (Panic q, _) => Panic q
  end.

Definition tcpSocks4 : (SockTableEntry → bool) → outcome (list SockTableEntry) := getStat "/proc/net/tcp".
Definition tcpSocks6 : (SockTableEntry → bool) → outcome (list SockTableEntry) := getStat "/proc/net/tcp6".
Definition tcpSocks (fn : SockTableEntry → bool) : outcome (list SockTableEntry) :=
  e4 ← tcpSocks4 fn; e6 ← tcpSocks6 fn; Ret (e4 ++ e6).
Definition TCPSocks := tcpSocks.
End procfs.
End Netstat.

(** A line of the kernel. *)
Example entry_1 :
  Netstat.parse_entry "   0: 0100007F:0277 00000000:0000 0A 00000000:00000000 00:00000000 00000000     0        0 16741 1 ffff 100 0 0 10 0" =
  Ret {| Netstat.Inode := "16741"; Netstat.LocalAddr := {| Netstat.IP := [127; 0; 0; 1]; Netstat.Port := 631 |};
         Netstat.RemoteAddr := {| Netstat.IP := [0; 0; 0; 0]; Netstat.Port := 0 |};
         Netstat.State := Netstat.Listen; Netstat.UID := 0; Netstat.Process_ := None |}.
Proof. vm_compute. reflexivity. Qed.
