(* ===== verification/Cgroups.v ===== *)
(** Cgroups: the control groups of a process and the limits set through them
    ([internal/cgroups]).

    The files below the mount points are state, which the kernel changes when one
    is written; [/proc] is that of one moment.  The order in which a map is
    visited is a parameter. *)

From S2P Require Import Prelude.
From S2P Require Import GoStd.
From S2P Require Import Backend.
From S2P Require Import HostNet.
From S2P Require Import Netstat.

Open Scope Z_scope.
#[local] Set Warnings "-register-all".

(** Reading and writing a file of a group. *)
Class CgroupFs (K : Type) := {
  cg_read : string → K → sys string;
  cg_write : string → string → K → outcome () * K;
}.

Module Cgroups.
Import Strings.

(** ** Values *)

Inductive unit_ := UString (s : string) | UInt (n : Z).
Abbreviation Value := (list unit_).

Definition unit_AsString (u : unit_) : string := match u with UString s => s | UInt n => Strconv.Itoa n end.
(** [strconv.ParseInt] of a string. *)
Definition AsInt64 (u : unit_) : outcome Z := match u with UString s => Strconv.Atoi s | UInt n => Ret n end.

Definition ParseValue (a : string) : Value := map UString (HostNet.Fields a).
Definition AsString (v : Value) : string := Join (map unit_AsString v) " ".

Abbreviation Config := (gmap string Value).

(** ** Groups *)

Inductive controller := CPU | NETCLS.
Record group := { ctrl : controller; path : string; version : Z }.

Definition ErrUnknownParameter (param : string) : goerr := ErrMsg ("unknown cgroup parameter: " +:+ param).
Definition ErrCfsNotSupported : goerr := ErrMsg "make sure that CONFIG_CFS_BANDWIDTH option is enabled in your kernel".
Definition ErrRtNotSupported : goerr := ErrMsg "make sure that CONFIG_RT_GROUP_SCHED option is enabled in your kernel".
Definition ErrNotMounted (what : string) : goerr := ErrMsg ("controller not mounted: " +:+ what).
Definition ErrNetCls2 : goerr := ErrMsg "net_cls controller is not supported in cgroups version 2".

Definition cpu_params (version : Z) : list string :=
  if version =? 1 then ["cpu.cfs_period_us"; "cpu.cfs_quota_us"; "cpu.rt_period_us"; "cpu.rt_runtime_us"]
  else ["cpu.max"].

Section cgroups.
Context {K : Type} `{CgroupFs K, HostNet.MapOrder}.
Abbreviation call := (op K).

Definition writeValue (dir fname : string) (v : Value) : call () := cg_write (Filepath.Join [dir; fname]) (AsString v).
Definition readValue (dir fname : string) : call Value := λ k,
  (match cg_read (Filepath.Join [dir; fname]) k with inl b => Ret (ParseValue b) | inr e => Throw e end, k).

(** *** [Group_CPU] *)

Definition not_supported (param : string) (e : goerr) : goerr :=
  match e with
  | ErrNotExist _ =>
      if bool_decide (param ∈ ["cpu.cfs_period_us"; "cpu.cfs_quota_us"]) then ErrCfsNotSupported
      else if bool_decide (param ∈ ["cpu.rt_period_us"; "cpu.rt_runtime_us"]) then ErrRtNotSupported
      else e
  | e => e
  end.
Fixpoint cpu_set (g : group) (c : list (string * Value)) : call () :=
  match c with
  | [] => mret ()
  | (param, v) :: c =>
      (if bool_decide (param ∈ cpu_params (version g)) then map_err (not_supported param) (writeValue (path g) param v)
       else throw (ErrUnknownParameter param));;
      cpu_set g c
  end.
Fixpoint cpu_get (g : group) (params : list string) (c : Config) : call Config := λ k,
  match params with
  | [] => (Ret c, k)
  | param :: params =>
      match readValue (path g) param k with
      | (Ret v, k) => cpu_get g params (<[param := v]> c) k
      | (Throw (ErrNotExist _), k) => cpu_get g params c k
      | (Throw e, k) => (Throw e, k)
      | (Panic q, k) => (Panic q, k)
      end
  end.

(** *** [Group_NETCLS]: only the first parameter is looked at. *)

Definition netcls_set (g : group) (c : list (string * Value)) : call () :=
  if version g =? 2 then throw ErrNetCls2
  else match c with
       | [] => mret ()
       | (param, v) :: _ =>
           if bool_decide (param = "net_cls.classid") then writeValue (path g) param v
           else throw (ErrUnknownParameter param)
       end.
Definition netcls_get (g : group) (c : Config) : call Config :=
  if version g =? 2 then throw ErrNetCls2
  else v ← readValue (path g) "net_cls.classid"; mret (<["net_cls.classid" := v]> c).

Definition Set_ (g : group) (c : Config) : call () :=
  match ctrl g with CPU => cpu_set g (HostNet.map_order _ c) | NETCLS => netcls_set g (HostNet.map_order _ c) end.
Definition Get (g : group) (c : Config) : call Config :=
  match ctrl g with CPU => cpu_get g (cpu_params (version g)) c | NETCLS => netcls_get g c end.

(** [Stat]: the lines with two fields. *)
Fixpoint stat_lines (lines : list string) (m : gmap string unit_) : gmap string unit_ :=
  match lines with
  | [] => m
  | l :: lines =>
      stat_lines lines (match ParseValue l with [p; v] => <[unit_AsString p := v]> m | _ => m end)
  end.
Definition Stat (g : group) (m : gmap string unit_) : call (gmap string unit_) := λ k,
  match ctrl g with
  | NETCLS => (Ret m, k)
  | CPU =>
      match cg_read (Filepath.Join [path g; "cpu.stat"]) k with
      | inl b => (Ret (stat_lines (Split b "010") m), k)
      | inr (ErrNotExist _) => (Ret m, k)
      | inr e => (Throw e, k)
      end
  end.

(** ** [Manager] *)

Abbreviation manager := (gmap string group).

Fixpoint all_set (gs : list (string * group)) (c : Config) : call () :=
  match gs with [] => mret () | (_, g) :: gs => Set_ g c;; all_set gs c end.
Definition Manager_Set (m : manager) (c : Config) : call () := all_set (HostNet.map_order _ m) c.
Fixpoint all_get (gs : list (string * group)) (c : Config) : call Config :=
  match gs with [] => mret c | (_, g) :: gs => c ← Get g c; all_get gs c end.
Definition Manager_Get (m : manager) : call Config := all_get (HostNet.map_order _ m) ∅.
Fixpoint all_stat (gs : list (string * group)) (s : gmap string unit_) : call (gmap string unit_) :=
  match gs with [] => mret s | (_, g) :: gs => s ← Stat g s; all_stat gs s end.
Definition Manager_Stat (m : manager) : call (gmap string unit_) := all_stat (HostNet.map_order _ m) ∅.

Definition mounted (m : manager) (what : string) : call group :=
  match m !! what with Some g => mret g | None => throw (ErrNotMounted what) end.

Definition GetNetClassID (m : manager) : call Z :=
  g ← mounted m "net_cls";
  cfg ← Get g ∅;
  match cfg !! "net_cls.classid" with
  | Some [v] => lift (AsInt64 v)
  | _ => mret 0
  end.
Definition SetNetClassID (m : manager) (classID : Z) : call () :=
  g ← mounted m "net_cls"; Set_ g {["net_cls.classid" := [UInt classID]]}.

(** One unit of one parameter. *)
Definition single (cfg : Config) (param : string) : outcome Z :=
  match cfg !! param with Some [v] => AsInt64 v | _ => Throw ErrCfsNotSupported end.

(** The quota and the period. *)
Definition cpu_max (cfg : Config) : outcome (Z * Z) :=
  match cfg !! "cpu.max" with
  | Some [q; p] =>
      match AsInt64 q with
      | Ret quota => period ← AsInt64 p; Ret (quota, period)
      | _ => if bool_decide (ToLower (unit_AsString q) = "max") then Ret (0, 0)
             else Throw (ErrMsg "invalid value of cpu.max, time_quota")
      end
  | _ => Throw ErrCfsNotSupported
  end.

Definition GetCpuQuota (m : manager) : call Z :=
  g ← mounted m "cpu";
  cfg ← Get g ∅;
  qp ← lift (if version g =? 1 then
               q ← single cfg "cpu.cfs_quota_us";
               p ← single cfg "cpu.cfs_period_us";
               Ret (if q =? -1 then 0 else q, p)
             else cpu_max cfg);
  let '(timeQuota, period) := qp in
  if (timeQuota =? 0) || (period =? 0) then mret 0
  else mret (Z.quot (wrap64 (timeQuota * 100)) period).

Definition SetCpuQuota (m : manager) (quota : Z) : call () :=
  g ← mounted m "cpu";
  cur ← Get g ∅;
  new ← (if version g =? 1 then
           if quota =? 0 then mret {["cpu.cfs_quota_us" := [UInt (-1)]]}
           else
             period ← lift (single cur "cpu.cfs_period_us");
             mret {["cpu.cfs_quota_us" := [UInt (Z.quot (wrap64 (period * quota)) 100)]]}
         else
           if quota =? 0 then mret {["cpu.max" := [UString "max"]]}
           else
             period ← lift (match cur !! "cpu.max" with Some [_; p] => AsInt64 p | _ => Throw ErrCfsNotSupported end);
             mret {["cpu.max" := [UInt (Z.quot (wrap64 (period * quota)) 100)]]});
  Set_ g (new : Config).
End cgroups.

(** ** The groups of a process *)

Section proc.
Context {K : Type} `{CgroupFs K, ProcFs}.

(** A line of [mountinfo]. *)
Definition mount_point (m : gmap string string) (line : string) : outcome (gmap string string) :=
  let ff := Split line " " in
  match ff !! (length ff - 3)%nat, ff !! 4%nat, last ff with
  | Some fstype, Some mp, Some opts =>
      if (length ff <? 10)%nat then Throw (ErrMsg "cannot parsing: unknown format")
      else if bool_decide (fstype = "cgroup2") then Ret (<["v2unified" := mp]> m)
      else if bool_decide (fstype = "cgroup") then
        Ret (foldl (λ m part, if bool_decide (part = "rw" ∨ is_Some (m !! part)) then m else <[part := mp]> m) m (Split opts ","))
      else Ret m
  | _, _, _ => Throw (ErrMsg "cannot parsing: unknown format")
  end.
Fixpoint mount_points (lines : list string) (m : gmap string string) : outcome (gmap string string) :=
  match lines with [] => Ret m | l :: lines => m ← mount_point m l; mount_points lines m end.

Definition new_group (c fullpath : string) (version : Z) : option group :=
  if bool_decide (c = "cpu") then Some {| ctrl := CPU; path := fullpath; version := version |}
  else if bool_decide (c = "net_cls") then Some {| ctrl := NETCLS; path := fullpath; version := version |}
  else None.
Definition add_group (c fullpath : string) (version : Z) (m : gmap string group) : gmap string group :=
  match new_group c fullpath version with Some g => <[c := g]> m | None => m end.

(** A line of the process's [cgroup]: the path of version 2, and the groups. *)
Definition cgroup_line (mpoints : gmap string string) (st : string * gmap string group) (line : string)
    : outcome (string * gmap string group) :=
  match cut line ":" with
  | Some (id, rest) =>
      match cut rest ":" with
      | Some (ctrls, p) =>
          if bool_decide (id = "0") then Ret (p, st.2)
          else
            Ret (st.1, foldl (λ m c, match mpoints !! c with
                                     | Some mp => add_group c (Filepath.Join [mp; p]) 1 m
                                     | None => m
                                     end) st.2 (Split ctrls ","))
      | None => Throw (ErrMsg "cannot parsing: unknown format")
      end
  | None => Throw (ErrMsg "cannot parsing: unknown format")
  end.
Fixpoint cgroup_lines (mpoints : gmap string string) (lines : list string) (st : string * gmap string group)
    : outcome (string * gmap string group) :=
  match lines with [] => Ret st | l :: lines => st ← cgroup_line mpoints st l; cgroup_lines mpoints lines st end.

(** A scanner's lines, up to its error. *)
Definition scanned {A} (file : string) (f : list string → outcome A) : outcome A :=
  c ← Backend.call (proc_lines file);
  a ← f (fst c);
  match snd c with Some e => Throw e | None => Ret a end.

(** The groups of version 2 are those version 1 does not have. *)
Definition GetProcessGroups (pid : Z) : op K (gmap string group) :=
  mpoints ← lift (scanned "/proc/self/mountinfo" (λ l, mount_points l ∅));
  st ← lift (scanned (Filepath.Join ["/proc"; Strconv.Itoa pid; "cgroup"]) (λ l, cgroup_lines mpoints l ("", ∅)));
  let '(v2, groups) := (st : string * gmap string group) in
  match mpoints !! "v2unified" with
  | Some mp =>
      if bool_decide (v2 = "") then mret groups
      else
        k ← get;
        b ← lift (Backend.call (cg_read (Filepath.Join [mp; "cgroup.subtree_control"]) k));
        mret (foldl (λ m c, match m !! c with Some _ => m | None => add_group c (Filepath.Join [mp; v2]) 2 m end)
                groups (HostNet.Fields b))
  | None => mret groups
  end.
Definition LoadManager (pid : Z) : op K (gmap string group) := GetProcessGroups pid.
End proc.
End Cgroups.
