(* ===== verification/Lifecycle.v ===== *)
(** Lifecycle: how machines come to be, are turned on and off, and go
    ([Create] and [Delete] of [server/machine/configuration.go],
    [server/machine/power_control.go], [server/machine.go]). *)

From S2P Require Import Prelude.
From S2P Require Import GoStd.
From S2P Require Import GoFacts.
From S2P Require Import Backend.
From S2P Require Import Resources.
From S2P Require Import Peripherals.
From S2P Require Import InstanceProperties.
From S2P Require Import InstanceConf.
From S2P Require Import ConfJson.
From S2P Require Import Monitor.
From S2P Require Import InstanceQemu.
From S2P Require Import Server.
From S2P Require Import OsUser.
From S2P Require Import Services.

Open Scope Z_scope.
#[local] Set Warnings "-register-all".

Module Lifecycle.
Import Services Server ConfJson.

Section lifecycle.
Context `{Env} {hst : Host} `{Accounts, Services}.
Context (refuse : targets → option goerr)
        (fsutil_Copy : string → string → copied)
        (appconf_QemuRootDir : string).
Abbreviation call := (op host).

(** [TaskRunFunc]: the task manager refuses the task, or runs it. *)
Definition task {A} (tgt : targets) (fn : call A) : call A :=
  match refuse tgt with Some e => throw e | None => fn end.

Definition get_conf (vmname : string) : call InstanceConf.InstanceConf :=
  h ← get; lift (GetInstanceConf (user_Lookup (passwd h)) (files_ h) vmname).

Definition save (c : InstanceConf.InstanceConf) : call () :=
  lift (ValidateMachineName (InstanceProperties.Name (InstanceConf.props c)));;
  writing (InstanceConf.config c) (λ w, Save w c).

Definition vmdir (vmname : string) : string := Filepath.Join [CONFDIR; vmname].

(** ** Create *)

(** The setters, whose errors [Create] does not look at. *)
Definition set_resources (opts : InstanceProperties.t) : op InstanceProperties.t () :=
  ignored (InstanceConf.MemorySetTotal (Memory.Total (InstanceProperties.Memory_ opts)));;
  ignored (InstanceConf.MemorySetActual (Memory.Actual (InstanceProperties.Memory_ opts)));;
  ignored (InstanceConf.CPUSetTotal (VirtCPU.Total (InstanceProperties.CPU opts)));;
  ignored (InstanceConf.CPUSetActual (VirtCPU.Actual (InstanceProperties.CPU opts)));;
  ignored (InstanceConf.CPUSetQuota (VirtCPU.Quota (InstanceProperties.CPU opts)));;
  ignored (InstanceConf.CPUSetModel (VirtCPU.Model (InstanceProperties.CPU opts))).

Definition set_firmware (fw : option Firmware.Properties) : op InstanceProperties.t () :=
  match fw with
  | None => mret ()
  | Some fw =>
      ignored (InstanceConf.FirmwareSetImage (Firmware.Image fw));;
      ignored (InstanceConf.FirmwareSetFlash (Firmware.Flash fw))
  end.

Definition new_conf (vmname : string) (opts : InstanceProperties.t)
    (fw : option Firmware.Properties) : call InstanceConf.InstanceConf :=
  p ← locally (set_resources opts;; set_firmware fw)
        (InstanceConf.props (InstanceConf.newInstanceConf vmname));
  mret {| InstanceConf.props := p; InstanceConf.confname := "config" |}.

(** Up to [success = true]. *)
Definition create_files (vmname : string) (opts : InstanceProperties.t) (qemuRootDir : string)
    : call () :=
  mkdir_all (vmdir vmname);;
  on_failure (ignored (remove_all (vmdir vmname))) (
    fw ← (match InstanceProperties.Firmware_ opts with
          | None => mret None
          | Some fw =>
              fw ← zoom files_ set_files (prepare_firmware fsutil_Copy vmname
                     (root_dir appconf_QemuRootDir qemuRootDir) (Firmware.props fw));
              mret (Some fw)
          end);
    _ ← CreateUser vmname;
    on_failure (ignored (RemoveUser vmname)) (
      vmc ← new_conf vmname opts fw;
      save vmc)).

Definition Create (vmname : string) (opts : option InstanceProperties.t) (qemuRootDir : string)
    : call InstanceConf.InstanceConf :=
  lift (ValidateMachineName vmname);;
  match opts with
  | None => throw (ErrMsg "empty machine opts")
  | Some opts =>
      opts ← locally (InstanceProperties.Validate true) opts;
      wrap "cannot create new machine" (task (BlockAnyOperations vmname []) (
        exists_ ← stat (Filepath.Join [vmdir vmname; "config"]);
        fail_if exists_ (ErrAlreadyExists vmname);;
        create_files vmname opts qemuRootDir;;
        SystemdEnableService vmname));;
      get_conf vmname
  end.

(** ** Delete *)
Definition Delete (vmname : string) (force : bool) : call () :=
  wrap "cannot delete machine" (task (BlockAnyOperations vmname []) (
    _ ← get_conf vmname;
    (if force then SystemdSendSIGKILL vmname else mret ());;
    ignored (SystemdStopService vmname 30);;
    SystemdDisableService vmname;;
    ignored (RemoveUser vmname);;
    remove_all (vmdir vmname))).

(** ** Power control *)

Definition machineDownFile (vmname : string) : string := Filepath.Join [CONFDIR; vmname; "down"].

(** An empty file, which is not a JSON text. *)
Definition MachineCreateDownFile (vmname : string) : call () :=
  let vmname := Strings.TrimSpace vmname in
  if bool_decide (vmname = "") then throw (ErrMsg "empty machine name")
  else writing (machineDownFile vmname) (λ w,
    match w with
    | Written => modify (<[machineDownFile vmname := None]>)
    | Failed e remains => modify (partial_alter (λ _, remains) (machineDownFile vmname));; throw e
    end).

Definition MachineRemoveDownFile (vmname : string) : call () :=
  let vmname := Strings.TrimSpace vmname in
  if bool_decide (vmname = "") then throw (ErrMsg "empty machine name")
  else remove (machineDownFile vmname).

Definition power (vmname : string) (fn : call ()) : call () :=
  _ ← get_conf vmname; task (BlockAnyOperations vmname []) fn.

Definition StartMachine (vmname : string) (waitTime : Z) : call () :=
  power vmname (ignored (MachineRemoveDownFile vmname);; SystemdStartService vmname waitTime).

Definition StopMachine (vmname : string) (wait force : bool) : call () :=
  power vmname (
    MachineCreateDownFile vmname;;
    (if force then SystemdSendSIGTERM vmname else mret ());;
    SystemdStopService vmname (if wait then 60 else 0)).

Definition RestartMachine (vmname : string) (wait : bool) : call () :=
  power vmname (
    ignored (MachineRemoveDownFile vmname);;
    if wait then SystemdStopService vmname 60;; SystemdStartService vmname 0
    else SystemdRestartService vmname).

Definition ResetMachine (vmname : string) : call () :=
  power vmname (
    ignored (MachineRemoveDownFile vmname);;
    SystemdSendSIGKILL vmname;;
    ignored (SystemdStopService vmname 30);;
    SystemdStartService vmname 0).

(** ** What there is *)

(** What [MachineGetStatus] makes of a unit. *)
Definition unit_state (u : UnitStatus) : InstanceState :=
  let active s := bool_decide (ActiveState u = s) in
  if active "active" then
    if bool_decide (SubState u = "running") then StateRunning else StateNoState
  else if active "inactive" then StateInactive
  else if active "activating" then StateStarting
  else if active "deactivating" then StateShutdown
  else if active "failed" then StateCrashed
  else StateNoState.

(** [runtime] is what the running instance says of itself, if there is one; the
    configuration says [StateInactive]. *)
Definition MachineGetStatus (vmname : string) (runtime : option (outcome InstanceState))
    : call InstanceState :=
  st ← lift (default (Ret StateInactive) runtime);
  match st with
  | StatePaused | StateIncoming | StateMigrating | StateMigrated => mret st
  | _ =>
      u ← map_err (λ _, ErrMsg "systemd dbus request failed") (SystemdGetUnit vmname);
      mret (unit_state u)
  end.

(** The name of the entry of [CONFDIR] a file is in. *)
Definition entry (path : string) : option string :=
  let p := Strings.TrimPrefix path (CONFDIR +:+ "/") in
  if bool_decide (p = path) then None else default (Some p) (Some ∘ fst <$> Strings.cut p "/").

Definition has_config (fs : files) (name : string) : bool :=
  bool_decide (is_Some (fs !! Filepath.Join [CONFDIR; name; "config"])).

(** [os.ReadDir] lists the entries by name. *)
Definition entries (fs : files) : list string :=
  Sort.SliceStable String.ltb (remove_dups (omap entry (elements (dom fs)))).

Definition MachineGetNames (names : list string) : call (list string) :=
  h ← get;
  let allNames := filter (λ n, has_config (files_ h) n = true) (entries (files_ h)) in
  mret (match names with [] => allNames | _ => filter (λ n, n ∈ allNames) names end).
End lifecycle.
End Lifecycle.
