(* ===== verification/Network.v ===== *)
(** Network: the network schemes of the machines ([server/network]).  A scheme
    is a dictionary of values of any type, kept as JSON in the file
    config_network of the machine; it is read back as the dictionary the JSON
    decoder makes, in which every number is a float64.  The texts of schemes, names of
    interfaces and addresses, are taken to be UTF-8. *)

From S2P Require Import Prelude.
From S2P Require Import GoStd.
From S2P Require Import Ip.
From S2P Require Import Backend.
From S2P Require Import NetIfaces.
From S2P Require Import Json.
From S2P Require Import InstanceConf.
From S2P Require Import ConfJson.
From S2P Require Import Monitor.
From S2P Require Import InstanceQemu.
From S2P Require Import Server.
From S2P Require Import OsUser.
From S2P Require Import Services.
From S2P Require Import HostNet.
From S2P Require Import Lifecycle.

Open Scope Z_scope.
#[local] Set Warnings "-register-all".

Module Network.
Import Strings Services Ip IpNet.

(** ** Schemes *)

Inductive SchemeType :=
  | Scheme_UNKNOWN | Scheme_MANUAL | Scheme_ROUTED | Scheme_BRIDGE | Scheme_VXLAN | Scheme_VLAN.
#[export] Instance SchemeType_eq_dec : EqDecision SchemeType.
Proof. solve_decision. Defined.

Definition SchemeType_String (t : SchemeType) : string :=
  match t with
  | Scheme_MANUAL => "manual"
  | Scheme_ROUTED => "routed"
  | Scheme_BRIDGE => "bridge"
  | Scheme_VXLAN => "vxlan"
  | Scheme_VLAN => "vlan"
  | Scheme_UNKNOWN => "UNKNOWN"
  end.
Definition SchemeType_code (t : SchemeType) : Z :=
  match t with
  | Scheme_UNKNOWN => 0 | Scheme_MANUAL => 1 | Scheme_ROUTED => 2
  | Scheme_BRIDGE => 3 | Scheme_VXLAN => 4 | Scheme_VLAN => 5
  end.

Definition SchemeTypeValue (s : string) : SchemeType :=
  let s := ToLower s in
  if bool_decide (s = "manual") then Scheme_MANUAL
  else if bool_decide (s = "routed") then Scheme_ROUTED
  else if bool_decide (s = "bridge") then Scheme_BRIDGE
  else if bool_decide (s ∈ ["vxlan"; "bridge-vxlan"]) then Scheme_VXLAN
  else if bool_decide (s ∈ ["vlan"; "bridge-vlan"]) then Scheme_VLAN
  else Scheme_UNKNOWN.

Inductive AddrUpdateAction := AddrUpdate_UNKNOWN | AddrUpdate_APPEND | AddrUpdate_REMOVE.
Definition AddrUpdateAction_code (a : AddrUpdateAction) : Z :=
  match a with AddrUpdate_UNKNOWN => 0 | AddrUpdate_APPEND => 1 | AddrUpdate_REMOVE => 2 end.
Record AddrUpdate := { Action : AddrUpdateAction; Prefix : string }.

(** The values of a [map[string]interface{}]. *)
Inductive value :=
  | VString (s : string)
  | VUint32 (n : Z)
  | VFloat64 (n : Z)
  | VStrings (l : list string)
  | VScheme (t : SchemeType)
  | VUpdates (l : list AddrUpdate)
  | VJson (j : json)
  | VNil.

Record SchemeProperties := { SchemeType_ : SchemeType; Ifname : string; attrs : gmap string value }.
Definition with_type (t : SchemeType) (p : SchemeProperties) : SchemeProperties :=
  {| SchemeType_ := t; Ifname := Ifname p; attrs := attrs p |}.
Definition with_ifname (s : string) (p : SchemeProperties) : SchemeProperties :=
  {| SchemeType_ := SchemeType_ p; Ifname := s; attrs := attrs p |}.
Definition with_attr (key : string) (v : value) (p : SchemeProperties) : SchemeProperties :=
  {| SchemeType_ := SchemeType_ p; Ifname := Ifname p; attrs := <[key := v]> (attrs p) |}.

Section schemes.
Context `{Netlink, HostNet.MapOrder}.

(** The addresses kept as a set of their texts. *)
Fixpoint known_addrs (l : list string) (m : gmap string unit) : gmap string unit :=
  match l with
  | [] => m
  | addr :: l =>
      known_addrs l (match ParseIPNet addr with Ret n => <[IPNet_String n := ()]> m | _ => m end)
  end.
Fixpoint update_addrs (l : list AddrUpdate) (m : gmap string unit) : outcome (gmap string unit) :=
  match l with
  | [] => Ret m
  | u :: l =>
      match ParseIPNet (Prefix u) with
      | Ret n =>
          update_addrs l
            (match Action u with
             | AddrUpdate_APPEND => <[IPNet_String n := ()]> m
             | AddrUpdate_REMOVE => delete (IPNet_String n) m
             | AddrUpdate_UNKNOWN => m
             end)
      | _ => Throw (ErrMsg ("invalid IP address: " +:+ Prefix u))
      end
  end.
Definition patchAddrs (orig : list string) (updates : list AddrUpdate) : outcome (list string) :=
  m ← update_addrs updates (known_addrs orig ∅);
  Ret (map fst (HostNet.map_order _ m)).

Definition Set_ (key : string) (v : value) : op SchemeProperties () :=
  (if bool_decide (key = "scheme") then
     match v with
     | VString s => modify (with_type (SchemeTypeValue s))
     | VScheme t => modify (with_type t)
     | _ => throw (ErrMsg "incompatible scheme value type")
     end
   else if bool_decide (key = "ifname") then
     match v with
     | VString s => modify (with_ifname s)
     | _ => throw (ErrMsg "not a string value")
     end
   else mret ());;
  match v with
  | VUpdates updates =>
      if bool_decide (key = "addrs") then
        p ← get;
        let orig := match attrs p !! key with Some (VStrings l) => l | _ => [] end in
        l ← map_err (λ _, ErrMsg "failed to patch original 'addrs' property") (lift (patchAddrs orig updates));
        modify (with_attr key (VStrings l))
      else modify (with_attr key v)
  | _ => modify (with_attr key v)
  end.

(** *** Values by type *)

(** [ValueAs] into a variable of a type, and [ErrAttributeNotFound]. *)
Inductive lookup_result (A : Type) := Got (a : A) | NotFound | Mismatch (e : goerr).
#[local] Arguments Got {A} _.
#[local] Arguments NotFound {A}.
#[local] Arguments Mismatch {A} _.

Definition as_string (v : value) : option string := match v with VString s => Some s | _ => None end.
Definition as_uint32 (v : value) : option Z := match v with VUint32 n => Some n | _ => None end.
Definition as_strings (v : value) : option (list string) := match v with VStrings l => Some l | _ => None end.

Definition valueAs {A} (key : string) (cast : value → option A) (p : SchemeProperties) : lookup_result A :=
  match attrs p !! key with
  | None => NotFound
  | Some v =>
      let v := if bool_decide (key = "scheme") then VScheme (SchemeType_ p)
               else if bool_decide (key = "ifname" ∧ Ifname p ≠ "") then VString (Ifname p)
               else v in
      match v with
      | VNil => Mismatch (ErrMsg ("value is nil (no type information): key = " +:+ key))
      | _ => match cast v with Some a => Got a | None => Mismatch (ErrMsg "type mismatch") end
      end
  end.

Definition ErrAttributeNotFound (key : string) : goerr := ErrMsg ("attribute not found: " +:+ key).
Definition required {A} (key : string) (cast : value → option A) (p : SchemeProperties) : outcome A :=
  match valueAs key cast p with
  | Got a => Ret a
  | NotFound => Throw (ErrAttributeNotFound key)
  | Mismatch e => Throw e
  end.
Definition optional {A} (key : string) (cast : value → option A) (old : A) (p : SchemeProperties) : outcome A :=
  match valueAs key cast p with Got a => Ret a | NotFound => Ret old | Mismatch e => Throw e end.

(** *** JSON *)

Definition value_of_json (j : json) : value :=
  match j with
  | JStr s => VString s
  | JNum n => VFloat64 n
  | JNull => VNil
  | _ => VJson j
  end.
Definition attrs_of_json (kvs : list (string * json)) : gmap string value :=
  foldl (λ m kv, <[kv.1 := value_of_json kv.2]> m) ∅ kvs.

(** The strings among the elements, each one once. *)
Definition addrs_of (v : value) : gmap string unit :=
  match v with
  | VJson (JArr l) => foldl (λ m j, match j with JStr s => <[s := ()]> m | _ => m end) ∅ l
  | _ => ∅
  end.

Definition UnmarshalJSON (j : json) : outcome SchemeProperties :=
  match j with
  | JObj kvs =>
      let a := attrs_of_json kvs in
      t ← match a !! "scheme" with
          | None => Ret Scheme_UNKNOWN
          | Some (VString s) => Ret (SchemeTypeValue s)
          | Some _ => Throw (ErrMsg "incompatible scheme value type")
          end;
      let a := match a !! "addrs" with
               | None => a
               | Some v => <["addrs" := VStrings (map fst (HostNet.map_order _ (addrs_of v)))]> a
               end in
      let p := {| SchemeType_ := t; Ifname := ""; attrs := a |} in
      name ← required "ifname" as_string p;
      Ret (with_ifname name p)
  | _ => Throw Json.type_error
  end.

Definition enc_value (v : value) : json :=
  match v with
  | VString s => JStr s
  | VUint32 n | VFloat64 n => JNum n
  | VStrings l => JArr (map JStr l)
  | VScheme t => JNum (SchemeType_code t)
  | VUpdates l => JArr (map (λ u, JObj [("Action", JNum (AddrUpdateAction_code (Action u))); ("Prefix", JStr (Prefix u))]) l)
  | VJson j => j
  | VNil => JNull
  end.

(** The keys of a map are printed in order. *)
Definition by_key (x y : string * json) : bool := String.ltb x.1 y.1.
Definition MarshalJSON (p : SchemeProperties) : json :=
  let a := <["ifname" := VString (Ifname p)]> (<["scheme" := VString (SchemeType_String (SchemeType_ p))]> (attrs p)) in
  JObj (Sort.SliceStable by_key (map_to_list (enc_value <$> a))).

(** A slice of pointers. *)
Fixpoint dec_schemes (l : list json) : outcome (list (option SchemeProperties)) :=
  match l with
  | [] => Ret []
  | j :: l =>
      p ← match j with JNull => Ret None | _ => p ← UnmarshalJSON j; Ret (Some p) end;
      ps ← dec_schemes l;
      Ret (p :: ps)
  end.
Definition schemes_of_json (j : json) : outcome (list (option SchemeProperties)) :=
  match j with
  | JNull => Ret []
  | JArr l => dec_schemes l
  | _ => Throw Json.type_error
  end.
Definition json_of_schemes (l : list (option SchemeProperties)) : json :=
  JArr (map (λ p, match p with Some p => MarshalJSON p | None => JNull end) l).

(** ** Attributes *)

Record commonAttrs := {
  attr_Ifname : string; MTU : Z; Addrs : list string; Gateway4 : string; Gateway6 : string;
}.
Inductive NetworkSchemeAttrs :=
  | Manual (c : commonAttrs)
  | Routed (c : commonAttrs) (BindInterface : string) (InLimit OutLimit : Z)
  | Bridge (c : commonAttrs) (BridgeInterface : string)
  | VxLAN (c : commonAttrs) (VNI : Z) (BindInterface : string)
  | VLAN (c : commonAttrs) (VlanID : Z) (ParentInterface : string).

Fixpoint normal_addrs (l : list string) : outcome (list string) :=
  match l with
  | [] => Ret []
  | addr :: l =>
      match ParseIPNet addr with
      | Ret n => rest ← normal_addrs l; Ret (IPNet_String n :: rest)
      | _ => Throw (ErrMsg "invalid IP address format")
      end
  end.

(** A gateway is [auto], or an address of the family. *)
Definition normal_gateway (v4 : bool) (s : string) : outcome string :=
  let s := TrimSpace (ToLower s) in
  if bool_decide (s = "" ∨ s = "auto") then Ret s
  else
    let what := if v4 then "gateway4" else "gateway6" in
    match ParseIP s with
    | None => Throw (ErrMsg ("invalid router." +:+ what +:+ " format: " +:+ s))
    | Some ip =>
        if bool_decide (is_Some (To4 ip) ↔ v4 = true) then Ret (IP_String ip)
        else Throw (ErrMsg ("invalid router." +:+ what +:+ ": not " +:+ (if v4 then "IPv4" else "IPv6") +:+ ": " +:+ IP_String ip))
    end.

Definition common_Validate (x : commonAttrs) : outcome commonAttrs :=
  let name := TrimSpace (attr_Ifname x) in
  ValidateLinkName name;;
  addrs ← normal_addrs (Addrs x);
  gw4 ← normal_gateway true (Gateway4 x);
  gw6 ← normal_gateway false (Gateway6 x);
  if (0 <? MTU x) && (MTU x <? 1280) then Throw (ErrMsg "invalid MTU value: minimum size is 1280")
  else Ret {| attr_Ifname := name; MTU := MTU x; Addrs := addrs; Gateway4 := gw4; Gateway6 := gw6 |}.

Definition maxVNI : Z := 2 ^ 24 - 1.
Definition maxVLAN : Z := 2 ^ 12 - 2.

(** A name of an interface that may not be empty. *)
Definition interface (what s : string) : outcome string :=
  let s := TrimSpace s in
  if bool_decide (s = "") then Throw (ErrMsg ("empty " +:+ what +:+ " value")) else Ret s.

Definition Manual_Validate (c : commonAttrs) : outcome NetworkSchemeAttrs := c ← common_Validate c; Ret (Manual c).
Definition Routed_Validate (c : commonAttrs) (bind : string) (i o : Z) : outcome NetworkSchemeAttrs :=
  c ← common_Validate c;
  bind ← interface "router.bind_interface" bind;
  Ret (Routed c bind i o).
Definition Bridge_Validate (c : commonAttrs) (br : string) : outcome NetworkSchemeAttrs :=
  c ← common_Validate c;
  br ← interface "bridge.bridge_interface" br;
  Ret (Bridge c br).
Definition VxLAN_Validate (c : commonAttrs) (vni : Z) (bind : string) : outcome NetworkSchemeAttrs :=
  c ← common_Validate c;
  bind ← interface "vxlan.bind_interface" bind;
  if (0 <? vni) && (vni <? maxVNI) then Ret (VxLAN c vni bind)
  else Throw (ErrMsg ("invalid vxlan.vni value: must be greater than 0 and less or equal " +:+ Strconv.Itoa maxVNI)).
Definition VLAN_Validate (c : commonAttrs) (id : Z) (parent : string) : outcome NetworkSchemeAttrs :=
  c ← common_Validate c;
  parent ← interface "vlan.parent_interface" parent;
  if (0 <? id) && (id <? maxVLAN) then Ret (VLAN c id parent)
  else Throw (ErrMsg ("invalid vlan.vlan_id value: must be greater than 0 and less or equal " +:+ Strconv.Itoa maxVLAN)).

(** The method of the interface. *)
Definition Validate (x : NetworkSchemeAttrs) : outcome NetworkSchemeAttrs :=
  match x with
  | Manual c => Manual_Validate c
  | Routed c bind i o => Routed_Validate c bind i o
  | Bridge c br => Bridge_Validate c br
  | VxLAN c vni bind => VxLAN_Validate c vni bind
  | VLAN c id parent => VLAN_Validate c id parent
  end.

(** [Set] of a value that is no list of updates, under a key of its own. *)
Definition put (key : string) (v : value) (p : SchemeProperties) : SchemeProperties := (Set_ key v p).2.
Definition put_if (cond : bool) (key : string) (v : value) (p : SchemeProperties) : SchemeProperties :=
  if cond then put key v p else p.

Definition common_Properties (x : commonAttrs) : SchemeProperties :=
  let p := {| SchemeType_ := Scheme_UNKNOWN; Ifname := attr_Ifname x; attrs := ∅ |} in
  let p := put_if (0 <? MTU x) "mtu" (VUint32 (MTU x)) p in
  let p := put_if (negb (bool_decide (Addrs x = []))) "addrs" (VStrings (Addrs x)) p in
  let p := put_if (negb (bool_decide (Gateway4 x = ""))) "gateway4" (VString (Gateway4 x)) p in
  put_if (negb (bool_decide (Gateway6 x = ""))) "gateway6" (VString (Gateway6 x)) p.

Definition Manual_Properties (c : commonAttrs) : SchemeProperties := with_type Scheme_MANUAL (common_Properties c).
Definition Routed_Properties (c : commonAttrs) (bind : string) (i o : Z) : SchemeProperties :=
  put "out_limit" (VUint32 o) (put "in_limit" (VUint32 i) (put "bind_interface" (VString bind)
    (with_type Scheme_ROUTED (common_Properties c)))).
Definition Bridge_Properties (c : commonAttrs) (br : string) : SchemeProperties :=
  put "bridge_interface" (VString br) (with_type Scheme_BRIDGE (common_Properties c)).
Definition VxLAN_Properties (c : commonAttrs) (vni : Z) (bind : string) : SchemeProperties :=
  put "bind_interface" (VString bind) (put "vni" (VUint32 vni) (with_type Scheme_VXLAN (common_Properties c))).
Definition VLAN_Properties (c : commonAttrs) (id : Z) (parent : string) : SchemeProperties :=
  put "parent_interface" (VString parent) (put "vlan_id" (VUint32 id) (with_type Scheme_VLAN (common_Properties c))).

Definition Properties (x : NetworkSchemeAttrs) : SchemeProperties :=
  match x with
  | Manual c => Manual_Properties c
  | Routed c bind i o => Routed_Properties c bind i o
  | Bridge c br => Bridge_Properties c br
  | VxLAN c vni bind => VxLAN_Properties c vni bind
  | VLAN c id parent => VLAN_Properties c id parent
  end.

Definition extractCommonAttrs (p : SchemeProperties) : outcome commonAttrs :=
  mtu ← optional "mtu" as_uint32 0 p;
  addrs ← optional "addrs" as_strings [] p;
  gw4 ← optional "gateway4" as_string "" p;
  gw6 ← optional "gateway6" as_string "" p;
  Ret {| attr_Ifname := Ifname p; MTU := mtu; Addrs := addrs; Gateway4 := gw4; Gateway6 := gw6 |}.

Definition ExtractAttrs_Routed (p : SchemeProperties) : outcome NetworkSchemeAttrs :=
  c ← extractCommonAttrs p;
  bind ← required "bind_interface" as_string p;
  i ← optional "in_limit" as_uint32 0 p;
  o ← optional "out_limit" as_uint32 0 p;
  Ret (Routed c bind i o).
Definition ExtractAttrs_Bridge (p : SchemeProperties) : outcome NetworkSchemeAttrs :=
  c ← extractCommonAttrs p;
  br ← required "bridge_interface" as_string p;
  Ret (Bridge c br).
Definition ExtractAttrs_VxLAN (p : SchemeProperties) : outcome NetworkSchemeAttrs :=
  c ← extractCommonAttrs p;
  bind ← required "bind_interface" as_string p;
  vni ← required "vni" as_uint32 p;
  Ret (VxLAN c vni bind).
Definition ExtractAttrs_VLAN (p : SchemeProperties) : outcome NetworkSchemeAttrs :=
  c ← extractCommonAttrs p;
  parent ← required "parent_interface" as_string p;
  id ← required "vlan_id" as_uint32 p;
  Ret (VLAN c id parent).
End schemes.
End Network.
