(* ===== verification/NetworkServer.v ===== *)
(** NetworkServer: keeping network schemes and configuring the host by them
    ([server/network/configuration.go], [hostnet_configure.go],
    [hostnet_deconfigure.go], the file functions of [scheme_properties.go], and
    the requests of [services/network]). *)

From S2P Require Import Prelude.
From S2P Require Import GoStd.
From S2P Require Import Ip.
From S2P Require Import Backend.
From S2P Require Import NetIfaces.
From S2P Require Import Json.
From S2P Require Import InstanceConf.
From S2P Require Import ConfJson.
From S2P Require Import Monitor.
From S2P Require Import InstanceQemu.
From S2P Require Import Server.
From S2P Require Import OsUser.
From S2P Require Import Services.
From S2P Require Import HostNet.
From S2P Require Import Lifecycle.
From S2P Require Import Network.

Open Scope Z_scope.
#[local] Set Warnings "-register-all".

Module NetworkServer.
Import Strings Services Server Ip IpNet HostNet Network.

(** ** Requests *)

Inductive SchemeUpdateProperty :=
  | SchemeUpdate_UNKNOWN | SchemeUpdate_IN_LIMIT | SchemeUpdate_OUT_LIMIT | SchemeUpdate_MTU
  | SchemeUpdate_ADDRS | SchemeUpdate_GATEWAY4 | SchemeUpdate_GATEWAY6.
#[export] Instance SchemeUpdateProperty_eq_dec : EqDecision SchemeUpdateProperty.
Proof. solve_decision. Defined.
Definition property_String (p : SchemeUpdateProperty) : string :=
  match p with
  | SchemeUpdate_IN_LIMIT => "in_limit"
  | SchemeUpdate_OUT_LIMIT => "out_limit"
  | SchemeUpdate_MTU => "mtu"
  | SchemeUpdate_ADDRS => "addrs"
  | SchemeUpdate_GATEWAY4 => "gateway4"
  | SchemeUpdate_GATEWAY6 => "gateway6"
  | SchemeUpdate_UNKNOWN => "UNKNOWN"
  end.
Record NetworkSchemeUpdate := { Property : SchemeUpdateProperty; Value : value }.

(** The messages of the service; a field that is a message of its own may be
    missing. *)
Inductive NetworkSchemeOpts_Attrs :=
  | Opts_Vlan (VlanID : Z) (ParentInterface : string)
  | Opts_Vxlan (VNI : Z) (BindInterface : string)
  | Opts_Router (BindInterface : string) (InLimit OutLimit : Z)
  | Opts_Bridge (BridgeName : string)
  | Opts_None.
Record NetworkSchemeOpts := { common : commonAttrs; Attrs : NetworkSchemeOpts_Attrs }.
Record UpdateConfRequest := {
  req_InLimit : option Z; req_OutLimit : option Z; req_MTU : option Z;
  req_Gateway4 : option string; req_Gateway6 : option string; req_Addrs : list AddrUpdate;
}.

Definition attrsFromNetworkSchemeOpts (opts : NetworkSchemeOpts) : NetworkSchemeAttrs :=
  match Attrs opts with
  | Opts_Vlan id parent => VLAN (common opts) id parent
  | Opts_Vxlan vni bind => VxLAN (common opts) vni bind
  | Opts_Router bind i o => Routed (common opts) bind i o
  | Opts_Bridge br => Bridge (common opts) br
  | Opts_None => Manual (common opts)
  end.

Definition update_of {A} (p : SchemeUpdateProperty) (v : A → value) (x : option A) : list NetworkSchemeUpdate :=
  match x with Some x => [{| Property := p; Value := v x |}] | None => [] end.
Definition setFromUpdateConfRequest (r : UpdateConfRequest) : list NetworkSchemeUpdate :=
  update_of SchemeUpdate_IN_LIMIT VUint32 (req_InLimit r) ++
  update_of SchemeUpdate_OUT_LIMIT VUint32 (req_OutLimit r) ++
  update_of SchemeUpdate_MTU VUint32 (req_MTU r) ++
  update_of SchemeUpdate_GATEWAY4 VString (req_Gateway4 r) ++
  update_of SchemeUpdate_GATEWAY6 VString (req_Gateway6 r) ++
  match req_Addrs r with [] => [] | l => [{| Property := SchemeUpdate_ADDRS; Value := VUpdates l |}] end.

(** The requests of the service that may change something. *)
Inductive service_request :=
  | CreateConfRequest (vmname : string) (opts : option NetworkSchemeOpts) (configure : bool)
  | UpdateConfRequest_ (vmname ifname : string) (apply : bool) (r : UpdateConfRequest)
  | DeleteConfRequest (vmname ifname : string) (deconf : bool)
  | ConfigureRequest (vmname ifname : string) (SecondStage : bool)
  | DeconfigureRequest (vmname ifname : string).
Definition req_vmname (r : service_request) : string :=
  match r with
  | CreateConfRequest vm _ _ | UpdateConfRequest_ vm _ _ _ | DeleteConfRequest vm _ _
  | ConfigureRequest vm _ _ | DeconfigureRequest vm _ => vm
  end.
Definition req_ifname (r : service_request) : string :=
  match r with
  | CreateConfRequest _ opts _ => match opts with Some o => attr_Ifname (common o) | None => "" end
  | UpdateConfRequest_ _ i _ _ | DeleteConfRequest _ i _ | ConfigureRequest _ i _ | DeconfigureRequest _ i => i
  end.

Inductive HostNetworkStage := ConfigureStage_ALL | ConfifureStage_FIRST | ConfifureStage_SECOND.

Section server.
Context `{Env} {hst : Host} `{Accounts, Services, HostNet.Network, Netlink, MapOrder, LinkJson}.
(** The task manager: it is told the targets of a task and its unique label. *)
Context (refuse : targets → option string → option goerr).
Abbreviation call := (op net).

(** [TaskRunFunc] *)
Definition task {A} (tgt : targets) (label : option string) (fn : call A) : call A :=
  match refuse tgt label with Some e => throw e | None => fn end.

(** ** Files *)

Definition config_network (vmname : string) : string := Filepath.Join [CONFDIR; vmname; "config_network"].

(** [os.ReadFile] *)
Definition read_file (path : string) : op host (option json) :=
  r ← ask (ReadFile path);
  Services.done r;;
  h ← get;
  match files_ h !! path with None => throw (ErrNotExist path) | Some c => mret c end.

(** The schemes asked for, of all or of some interfaces. *)
Fixpoint select (ifnames : list string) (l : list (option SchemeProperties)) : outcome (list (option SchemeProperties)) :=
  match l with
  | [] => Ret []
  | None :: _ => Panic NilDereference
  | Some p :: l =>
      rest ← select ifnames l;
      Ret (if bool_decide (Ifname p ∈ ifnames) then Some p :: rest else rest)
  end.

Definition GetNetworkSchemes (vmname : string) (ifnames : list string) : call (list (option SchemeProperties)) :=
  _ ← at_host (Lifecycle.get_conf vmname);
  c ← at_host (read_file (config_network vmname));
  schemes ← match c with
            | None => throw (ErrMsg "invalid character")
            | Some j => lift (schemes_of_json j)
            end;
  match ifnames with [] => mret schemes | _ => lift (select ifnames schemes) end.

Definition WriteNetworkSchemes (vmname : string) (schemes : list (option SchemeProperties)) : call () :=
  _ ← at_host (Lifecycle.get_conf vmname);
  at_host (write_file (config_network vmname) (Some (json_of_schemes schemes))).

(** The loops that look for the scheme of an interface. *)
Fixpoint find_scheme (ifname : string) (l : list (option SchemeProperties)) : outcome (option (nat * SchemeProperties)) :=
  match l with
  | [] => Ret None
  | None :: _ => Panic NilDereference
  | Some p :: l =>
      if bool_decide (Ifname p = ifname) then Ret (Some (0%nat, p))
      else r ← find_scheme ifname l; Ret (match r with Some (i, q) => Some (S i, q) | None => None end)
  end.

(** [slices.DeleteFunc] *)
Fixpoint delete_scheme (ifname : string) (l : list (option SchemeProperties)) : outcome (list (option SchemeProperties)) :=
  match l with
  | [] => Ret []
  | None :: _ => Panic NilDereference
  | Some p :: l =>
      rest ← delete_scheme ifname l;
      Ret (if bool_decide (Ifname p = ifname) then rest else Some p :: rest)
  end.

Definition the_scheme (ifname : string) (schemes : list (option SchemeProperties)) : call (nat * SchemeProperties) :=
  r ← lift (find_scheme ifname schemes);
  match r with None => throw (ErrNotFound ("ifname = " +:+ ifname)) | Some x => mret x end.

Definition ReadPid_ (vmname : string) : call (sys string) :=
  at_host (ask (ReadPid (Filepath.Join [CHROOTDIR; vmname; "pid"]))).

(** ** Configuration of the host *)

(** The first IPv4 address among the bindings. *)
Definition first_v4 (ips : list Z) : option Z := snd <$> list_find (λ ip, is_Some (To4 ip)) ips.

(** [configureFn] for the scheme. *)
Definition configureFn (vmname ifname : string) (scheme : SchemeProperties) : call (bool → call ()) :=
  match SchemeType_ scheme with
  | Scheme_ROUTED =>
      a ← lift (ExtractAttrs_Routed scheme);
      a ← lift (Validate a);
      match a with
      | Routed c bind i o =>
          r ← ReadPid_ vmname;
          b ← match r with
              | inl b => mret b
              | inr (ErrNotExist _) => throw (ErrNotRunning vmname)
              | inr e => throw e
              end;
          pid ← lift (Strconv.ParseUint b 10 32);
          mret (λ secondStage, λ n,
            match RouterConfigure ifname
                    {| attr_Addrs := Addrs c; HostNet.MTU := MTU c; BindInterface := bind; HostNet.Gateway4 := Gateway4 c;
                       HostNet.Gateway6 := Gateway6 c; InLimit := i; OutLimit := o; ProcessID := pid |} secondStage n with
            | (Throw e, n') => if bool_decide (e = ErrCgroupBinding) then (Ret (), n') else (Throw e, n')
            | r => r
            end)
      | _ => throw (ErrMsg "unknown network scheme")
      end
  | Scheme_BRIDGE =>
      a ← lift (ExtractAttrs_Bridge scheme);
      a ← lift (Validate a);
      match a with
      | Bridge c br => mret (BridgePortConfigure ifname br (MTU c))
      | _ => throw (ErrMsg "unknown network scheme")
      end
  | Scheme_VXLAN =>
      a ← lift (ExtractAttrs_VxLAN scheme);
      a ← lift (Validate a);
      match a with
      | VxLAN c vni bind =>
          ips ← ParseBindings [bind];
          match first_v4 ips with
          | None => throw (ErrMsg ("no IPv4 addresses found on interface " +:+ bind))
          | Some ip4 => mret (VxlanPortConfigure ifname vni (MTU c) ip4)
          end
      | _ => throw (ErrMsg "unknown network scheme")
      end
  | Scheme_VLAN =>
      a ← lift (ExtractAttrs_VLAN scheme);
      _ ← lift (Validate a);
      mret (VlanPortConfigure ifname)
  | Scheme_MANUAL => throw (ErrMsg "a manual scheme must be configured by your custom scripts")
  | Scheme_UNKNOWN => throw (ErrMsg "unknown network scheme")
  end.

Definition run_stages (stage : HostNetworkStage) (fn : bool → call ()) : call () :=
  match stage with
  | ConfifureStage_FIRST => fn false
  | ConfifureStage_SECOND => fn true
  | ConfigureStage_ALL => fn false;; fn true
  end.

Definition hostnet_task {A} (ifname : string) (fn : call A) : call A :=
  task (BlockAnyOperations (ifname +:+ "/hostnet") []) (Some (ifname +:+ "/hostnet")) fn.

Definition ConfigureHostNetwork (vmname ifname : string) (stage : HostNetworkStage) : call () :=
  let ifname := TrimSpace ifname in
  lift (ValidateLinkName ifname);;
  wrap "cannot configure hostnet backend" (hostnet_task ifname (
    schemes ← GetNetworkSchemes vmname [];
    x ← the_scheme ifname schemes;
    fn ← configureFn vmname ifname x.2;
    run_stages stage fn)).

Definition deconfigure (ifname : string) (scheme : SchemeProperties) : call () :=
  match SchemeType_ scheme with
  | Scheme_ROUTED =>
      a ← lift (ExtractAttrs_Routed scheme);
      a ← lift (Validate a);
      match a with Routed _ bind _ _ => RouterDeconfigure ifname bind | _ => mret () end
  | Scheme_BRIDGE =>
      a ← lift (ExtractAttrs_Bridge scheme);
      _ ← lift (Validate a);
      BridgePortDeconfigure ifname
  | Scheme_VXLAN =>
      a ← lift (ExtractAttrs_VxLAN scheme);
      a ← lift (Validate a);
      match a with VxLAN _ vni _ => VxlanPortDeconfigure ifname vni | _ => mret () end
  | Scheme_VLAN =>
      a ← lift (ExtractAttrs_VLAN scheme);
      a ← lift (Validate a);
      match a with VLAN _ id _ => VlanPortDeconfigure ifname id | _ => mret () end
  | Scheme_MANUAL => throw (ErrMsg "a manual scheme must be deconfigured by your custom scripts")
  | Scheme_UNKNOWN => throw (ErrMsg "unknown network scheme")
  end.

Definition DeconfigureHostNetwork (vmname ifname : string) : call () :=
  let ifname := TrimSpace ifname in
  lift (ValidateLinkName ifname);;
  wrap "cannot deconfigure hostnet backend" (hostnet_task ifname (
    schemes ← GetNetworkSchemes vmname [];
    x ← the_scheme ifname schemes;
    deconfigure ifname x.2)).

(** ** Keeping schemes *)

Definition conf_task {A} (vmname ifname : string) (fn : call A) : call A :=
  task (BlockAnyOperations vmname [ifname +:+ "/hostnet"]) None fn.

Definition CreateConf (vmname ifname : string) (opts : option NetworkSchemeAttrs) (configure : bool) : call () :=
  let ifname := TrimSpace ifname in
  lift (ValidateLinkName ifname);;
  match opts with
  | None => throw (ErrMsg "empty network scheme opts")
  | Some opts =>
      opts ← lift (Validate opts);
      wrap "cannot create network scheme" (conf_task vmname ifname (
        schemes ← GetNetworkSchemes vmname [];
        r ← lift (find_scheme ifname schemes);
        fail_if (bool_decide (is_Some r)) (ErrAlreadyExists ("ifname = " +:+ ifname));;
        WriteNetworkSchemes vmname (schemes ++ [Some (Properties opts)])));;
      if configure then ConfigureHostNetwork vmname ifname ConfigureStage_ALL else mret ()
  end.

(** [scheme.Set] of every update, whose errors are not looked at. *)
Definition set_update (u : NetworkSchemeUpdate) (p : SchemeProperties) : SchemeProperties :=
  match Property u with
  | SchemeUpdate_UNKNOWN => p
  | prop => (Set_ (property_String prop) (Value u) p).2
  end.

(** What is applied of the updates of a routed scheme.  An update that ends the
    closure ends it without an error. *)
Fixpoint apply_updates (vmname ifname : string) (c : commonAttrs) (bind : string) (i o : Z) (l : list NetworkSchemeUpdate)
    : call () :=
  match l with
  | [] => mret ()
  | u :: l =>
      let rest := apply_updates vmname ifname c bind i o l in
      match Property u with
      | SchemeUpdate_IN_LIMIT => RouterSetInboundLimits ifname i;; rest
      | SchemeUpdate_OUT_LIMIT =>
          r ← ReadPid_ vmname;
          match (b ← Backend.call r; Strconv.ParseUint b 10 32) with
          | Throw _ => RouterSetOutboundLimits ifname o bind 0;; rest
          | _ => mret ()
          end
      | SchemeUpdate_ADDRS => RouterConfigureAddrs ifname (Addrs c) (Gateway4 c);; rest
      | _ => rest
      end
  end.

Definition UpdateConf (vmname ifname : string) (apply : bool) (updates : list NetworkSchemeUpdate) : call () :=
  let ifname := TrimSpace ifname in
  lift (ValidateLinkName ifname);;
  wrap "cannot update network scheme" (conf_task vmname ifname (
    schemes ← GetNetworkSchemes vmname [];
    x ← the_scheme ifname schemes;
    let scheme := foldl (λ p u, set_update u p) x.2 updates in
    WriteNetworkSchemes vmname (<[x.1 := Some scheme]> schemes);;
    if apply && bool_decide (SchemeType_ scheme = Scheme_ROUTED) then
      a ← lift (ExtractAttrs_Routed scheme);
      match a with Routed c bind i o => apply_updates vmname ifname c bind i o updates | _ => mret () end
    else mret ())).

Definition RemoveConf (vmname ifname : string) (deconf : bool) : call () :=
  let ifname := TrimSpace ifname in
  lift (ValidateLinkName ifname);;
  (if deconf then DeconfigureHostNetwork vmname ifname else mret ());;
  wrap "cannot remove network scheme" (conf_task vmname ifname (
    schemes ← GetNetworkSchemes vmname [];
    left ← lift (delete_scheme ifname schemes);
    if bool_decide (length left = length schemes) then mret () else WriteNetworkSchemes vmname left)).

(** ** The service *)

Definition service_CreateConf (vmname : string) (opts : option NetworkSchemeOpts) (configure : bool) : call () :=
  match opts with
  | None => throw (ErrMsg "grpc: empty network attributes")
  | Some opts => CreateConf vmname (attr_Ifname (common opts)) (Some (attrsFromNetworkSchemeOpts opts)) configure
  end.
Definition service_UpdateConf (vmname ifname : string) (apply : bool) (r : UpdateConfRequest) : call () :=
  UpdateConf vmname ifname apply (setFromUpdateConfRequest r).
Definition service_DeleteConf := RemoveConf.
Definition service_Configure (vmname ifname : string) (SecondStage : bool) : call () :=
  ConfigureHostNetwork vmname ifname (if SecondStage then ConfifureStage_SECOND else ConfifureStage_FIRST).
Definition service_Deconfigure := DeconfigureHostNetwork.
Definition serve (r : service_request) : call () :=
  match r with
  | CreateConfRequest vm opts configure => service_CreateConf vm opts configure
  | UpdateConfRequest_ vm ifname apply r => service_UpdateConf vm ifname apply r
  | DeleteConfRequest vm ifname deconf => service_DeleteConf vm ifname deconf
  | ConfigureRequest vm ifname second => service_Configure vm ifname second
  | DeconfigureRequest vm ifname => service_Deconfigure vm ifname
  end.
End server.
End NetworkServer.
