(* ===== verification/NetstatFacts.v ===== *)
(** NetstatFacts: a table in the kernel's format, padded as it may be, is read as it was
    written, and a
    process that is named has the socket. *)

From S2P Require Import Prelude.
From S2P Require Import GoStd.
From S2P Require Import GoFacts.
From S2P Require Import PciAddress.
From S2P Require Import Backend.
From S2P Require Import HostNet.
From S2P Require Import Netstat.

Open Scope Z_scope.
#[local] Set Warnings "-register-all".

Module NetstatFacts.
Import Strings Netstat.

(** ** Fields *)

(** A field: visible ASCII bytes, at least one. *)
Definition word (s : string) : Prop := s ≠ "" ∧ Forall (λ a, graphic a = true) (to_list s).

Lemma fields_go_word fuel l cur rest :
  (length l ≤ fuel)%nat → Forall (λ a, graphic a = true) l →
  HostNet.fields_go fuel (l ++ rest) cur = HostNet.fields_go (fuel - length l) rest (cur ++ l).
Proof.
  revert fuel cur. induction l as [|a l IH]; intros fuel cur Hf Hl.
  { by rewrite app_nil_r, Nat.sub_0_r. }
  apply Forall_cons in Hl as [Ha Hl]. destruct fuel as [|fuel]; [cbn in Hf; lia|].
  cbn [HostNet.fields_go app length]. rewrite strip_any_head; [|intros; apply spaces_head; by left|done].
  rewrite IH by (done || (cbn in Hf; lia)). by rewrite <- app_assoc.
Qed.

Lemma space_stripped l : strip_any spaces (" "%char :: l) = Some l.
Proof. reflexivity. Qed.

Lemma append_nil s : s +:+ "" = s.
Proof. induction s as [|a s IH]; [done|]. change (String a (s +:+ "") = String a s). by rewrite IH. Qed.

(** A line may end with a newline. *)
Definition line_end (tl : string) : Prop := tl = "" ∨ tl = String "010" "".

Lemma fields_go_words fuel ws tl : Forall word ws → line_end tl →
  (length (to_list (Join ws " ") ++ to_list tl) < fuel)%nat →
  HostNet.fields_go fuel (to_list (Join ws " ") ++ to_list tl) [] = map to_list ws.
Proof.
  intros Hw Htl. revert fuel. induction ws as [|w ws IH]; intros fuel Hf.
  { destruct fuel as [|[|fuel]]; destruct Htl as [-> | ->]; done || (cbn in Hf; lia). }
  apply Forall_cons in Hw as [[Hne Hg] Hws].
  assert (to_list w ≠ []) as Hw0 by (destruct w; done).
  destruct ws as [|w' ws].
  - cbn [Join] in *. rewrite length_app in Hf. rewrite fields_go_word by (done || lia).
    destruct (fuel - length (to_list w))%nat as [|k] eqn:E; [lia|].
    assert (length (to_list tl) ≤ k)%nat as Hk by lia. clear E Hf.
    destruct Htl as [-> | ->]; cbn in *; destruct (to_list w); try done. destruct k; [lia|done].
  - assert (to_list (Join (w :: w' :: ws) " ") = to_list w ++ " "%char :: to_list (Join (w' :: ws) " ")) as Hj.
    { change (Join (w :: w' :: ws) " ") with (w +:+ " " +:+ Join (w' :: ws) " "). by rewrite !to_list_app. }
    rewrite Hj, <- app_assoc in *. rewrite length_app in Hf. cbn [length app] in Hf.
    rewrite fields_go_word by (done || lia). destruct (fuel - length (to_list w))%nat as [|k] eqn:E; [lia|].
    cbn [HostNet.fields_go app]. rewrite space_stripped. rewrite IH by (done || lia).
    cbn [map]. by destruct (to_list w).
Qed.

(** Fields that are joined with spaces are the fields. *)
Lemma Fields_line ws tl : Forall word ws → line_end tl → HostNet.Fields (Join ws " " +:+ tl) = ws.
Proof.
  intros Hw Ht. unfold HostNet.Fields. rewrite length_to_list, to_list_app, fields_go_words by (done || lia).
  rewrite map_map. rewrite <- (map_id ws) at 2. apply map_ext. intros s. apply of_to_list.
Qed.

(** The kernel pads its lines: any number of spaces before the first field and
    after the last one, at least one between two; [gaps] are the numbers before
    the fields, one where there are none left. *)
Definition pad (n : nat) : string := of_list (replicate n " "%char).
Fixpoint spread (gaps : list nat) (ws : list string) (trail : nat) : string :=
  match ws with
  | [] => pad trail
  | w :: ws => pad (hd 1%nat gaps) +:+ w +:+ spread (tail gaps) ws trail
  end.
Definition between (gaps : list nat) : Prop := Forall (λ n, 1 ≤ n)%nat (tail gaps).

Lemma fields_go_pad fuel n rest : (n ≤ fuel)%nat →
  HostNet.fields_go fuel (replicate n " "%char ++ rest) [] = HostNet.fields_go (fuel - n) rest [].
Proof.
  revert fuel. induction n as [|n IH]; intros fuel Hf; [by rewrite Nat.sub_0_r|].
  destruct fuel as [|fuel]; [lia|]. cbn [replicate app HostNet.fields_go]. rewrite space_stripped. apply IH. lia.
Qed.
(** The end of a field: the end of the line, or a space. *)
Lemma fields_go_end fuel s cur : cur ≠ [] → s = [] ∨ (∃ s', s = " "%char :: s') → (length s < fuel)%nat →
  HostNet.fields_go fuel s cur = cur :: HostNet.fields_go fuel s [].
Proof.
  intros Hc Hs Hf. destruct fuel as [|fuel]; [lia|]. destruct Hs as [->|[s' ->]]; cbn [HostNet.fields_go].
  - by destruct cur.
  - rewrite space_stripped. by destruct cur.
Qed.
Lemma spread_begins gaps ws trail : Forall (λ n, 1 ≤ n)%nat gaps →
  to_list (spread gaps ws trail) = [] ∨ ∃ s, to_list (spread gaps ws trail) = " "%char :: s.
Proof.
  intros Hg. destruct ws as [|w ws]; cbn [spread].
  - unfold pad. rewrite to_of_list. destruct trail; [by left|right; by eexists].
  - right. destruct gaps as [|[|n] gaps]; [by eexists|apply Forall_cons in Hg; lia|by eexists].
Qed.

Lemma Fields_spread gaps ws trail : Forall word ws → between gaps → HostNet.Fields (spread gaps ws trail) = ws.
Proof.
  intros Hw Hg. unfold HostNet.Fields. rewrite length_to_list.
  enough (∀ fuel, (length (to_list (spread gaps ws trail)) < fuel)%nat →
    HostNet.fields_go fuel (to_list (spread gaps ws trail)) [] = map to_list ws) as ->; [|lia|].
  { rewrite map_map. rewrite <- (map_id ws) at 2. apply map_ext. intros s. apply of_to_list. }
  revert gaps Hg. induction Hw as [|w ws [Hne Hw] _ IH]; intros gaps Hg fuel Hf; cbn [spread] in *.
  { unfold pad in *. rewrite to_of_list, length_replicate in *. rewrite <- (app_nil_r (replicate _ _)), fields_go_pad by lia.
    by destruct (fuel - trail)%nat. }
  rewrite !to_list_app, !length_app in *. unfold pad in *. rewrite to_of_list, length_replicate in *.
  rewrite fields_go_pad by lia. rewrite fields_go_word by (done || lia). rewrite app_nil_l.
  rewrite fields_go_end; [|by destruct w|by apply spread_begins|lia]. cbn [map]. f_equal.
  apply IH; [|lia]. unfold between. destruct gaps as [|n gaps]; [constructor|]. cbn in *. by apply Forall_tail.
Qed.

(** ** Upper-case hexadecimal *)

Definition upper_byte (a : ascii) : ascii :=
  let n := Z.of_N (N_of_ascii a) in if (97 <=? n) && (n <=? 122) then char (Z.to_N (n - 32)) else a.
Definition upper (s : string) : string := of_list (map upper_byte (to_list s)).

(** [%.wX] *)
Definition hexX (w : nat) (n : Z) : string := upper (Strconv.hex w n).

Lemma digit_val_upper a : Strconv.digit_val (upper_byte a) = Strconv.digit_val a ∨ Strconv.digit_val a = None.
Proof. destruct a as [[] [] [] [] [] [] [] []]; vm_compute; auto. Qed.
Lemma parse_digits_upper base s acc n : Strconv.parse_digits base s acc = Some n →
  Strconv.parse_digits base (upper s) acc = Some n.
Proof.
  revert acc. induction s as [|a s IH]; intros acc; [done|].
  change (upper (String a s)) with (String (upper_byte a) (upper s)). cbn [Strconv.parse_digits].
  destruct (digit_val_upper a) as [-> | ->]; [|done]. destruct (Strconv.digit_val a); [|done].
  destruct (_ <? base); [by apply IH|done].
Qed.
Lemma ParseUint_upper s base bits n : Strconv.ParseUint s base bits = Ret n → Strconv.ParseUint (upper s) base bits = Ret n.
Proof.
  unfold Strconv.ParseUint. destruct s as [|a s]; [done|].
  destruct (Strconv.parse_digits base (String a s) 0) as [m|] eqn:E; [|done].
  pose proof (parse_digits_upper _ _ _ _ E) as E'. change (upper (String a s)) with (String (upper_byte a) (upper s)) in *.
  rewrite E'. by destruct (m <? _).
Qed.
Lemma ParseUint_hexX w n bits : 0 ≤ n < 2 ^ bits → Strconv.ParseUint (hexX w n) 16 bits = Ret n.
Proof. intros Hn. by apply ParseUint_upper, ParseUint_hex. Qed.
Lemma hexX_length w n : 0 ≤ n < 16 ^ Z.of_nat (S w) → String.length (hexX (S w) n) = S w.
Proof.
  intros Hn. unfold hexX, upper. by rewrite length_to_list, to_of_list, length_map, <- length_to_list, hex_length.
Qed.
Lemma upper_graphic a : is_digit a = true → graphic (upper_byte a) = true ∧ upper_byte a ≠ ":"%char.
Proof. destruct a as [[] [] [] [] [] [] [] []]; vm_compute; intuition congruence. Qed.
Lemma hexX_chars w n : 0 ≤ n → Forall (λ a, graphic a = true ∧ a ≠ ":"%char) (to_list (hexX w n)).
Proof.
  intros Hn. unfold hexX, upper. rewrite to_of_list. apply List.Forall_map. eapply Forall_impl; [apply hex_digits, Hn|].
  intros a. apply upper_graphic.
Qed.

(** ** Addresses *)

Definition bytes4 (g : list Z) : Prop := length g = 4%nat ∧ Forall (λ b, 0 ≤ b < 256) g.

Lemma word_of g : bytes4 g → 0 ≤ Md5.le_word g < 2 ^ 32 ∧ PutUint32 (Md5.le_word g) = g.
Proof.
  intros [Hl Hb]. destruct g as [|a [|b [|c [|d []]]]]; try done. repeat apply Forall_cons in Hb as [? Hb].
  unfold Md5.le_word. cbn [foldr]. split; [lia|]. unfold PutUint32. cbn [Md5.le_bytes].
  repeat f_equal; Z.div_mod_to_equations; lia.
Qed.

(** The kernel writes the words of an address as the machine has them. *)
Definition group_text (g : list Z) : string := hexX 8 (Md5.le_word g).
Fixpoint groups_text (gs : list (list Z)) : string :=
  match gs with [] => "" | g :: gs => group_text g +:+ groups_text gs end.
Definition addr_text (gs : list (list Z)) (port : Z) : string :=
  groups_text gs +:+ String ":" "" +:+ hexX 4 port.

Lemma group_length g : bytes4 g → String.length (group_text g) = 8%nat.
Proof. intros Hg. apply hexX_length. apply word_of in Hg as [Hg _]. done. Qed.
Lemma parse_group g : bytes4 g → Strconv.ParseUint (group_text g) 16 32 = Ret (Md5.le_word g).
Proof. intros Hg. apply ParseUint_hexX. by apply word_of. Qed.

Lemma substring_head s t : String.substring 0 (String.length s) (s +:+ t) = s.
Proof. induction s as [|a s IH]; [by destruct t|].
  change (String a (String.substring 0 (String.length s) (s +:+ t)) = String a s). by rewrite IH.
Qed.
Lemma substring_all s : String.substring 0 (String.length s) s = s.
Proof. rewrite <- (append_nil s) at 2. apply substring_head. Qed.
Lemma substring_tail s t : String.substring (String.length s) (String.length t) (s +:+ t) = t.
Proof. induction s as [|a s IH]; [apply substring_all|]. exact IH. Qed.
Lemma string_length_app s t : String.length (s +:+ t) = (String.length s + String.length t)%nat.
Proof. induction s as [|a s IH]; [done|]. change (S (String.length (s +:+ t)) = S (String.length s + String.length t)). by rewrite IH. Qed.

Lemma groups_length gs : Forall bytes4 gs → String.length (groups_text gs) = (8 * length gs)%nat.
Proof.
  induction 1 as [|g gs Hg _ IH]; [done|]. cbn [groups_text length]. rewrite string_length_app, IH, group_length by done. lia.
Qed.
Lemma parse_groups_step fuel g rest : String.length g = 8%nat →
  parse_groups (S fuel) (g +:+ rest) =
    v ← Strconv.ParseUint g 16 32; r ← parse_groups fuel rest; Ret (PutUint32 v ++ r).
Proof.
  intros Hl. assert (String.length (g +:+ rest) = (8 + String.length rest)%nat) as Ht by (by rewrite string_length_app, Hl).
  assert (String.substring 0 8 (g +:+ rest) = g) as H0 by (rewrite <- Hl; apply substring_head).
  assert (String.substring 8 (String.length (g +:+ rest) - 8) (g +:+ rest) = rest) as H1.
  { replace (String.length (g +:+ rest) - 8)%nat with (String.length rest) by lia. rewrite <- Hl at 1. apply substring_tail. }
  destruct g as [|a g]; [done|]. change (String a g +:+ rest) with (String a (g +:+ rest)) in *.
  cbn [parse_groups]. rewrite H0, H1. by rewrite (proj2 (Nat.ltb_ge _ 8)) by lia.
Qed.
Lemma parse_groups_text fuel gs : Forall bytes4 gs → (length gs ≤ fuel)%nat →
  parse_groups fuel (groups_text gs) = Ret (concat gs).
Proof.
  intros Hg. revert fuel. induction Hg as [|g gs Hg Hgs IH]; intros fuel Hf; [by destruct fuel|].
  destruct fuel as [|fuel]; [cbn in Hf; lia|]. cbn [groups_text concat].
  rewrite parse_groups_step, parse_group by (done || by apply group_length). cbn [mbind outcome_bind].
  rewrite IH by (cbn in Hf; lia). cbn [mbind outcome_bind]. by rewrite (proj2 (word_of g Hg)).
Qed.

Lemma groups_chars gs : Forall bytes4 gs → Forall (λ a, graphic a = true ∧ a ≠ ":"%char) (to_list (groups_text gs)).
Proof.
  induction 1 as [|g gs Hg _ IH]; [constructor|]. cbn [groups_text]. rewrite to_list_app. apply Forall_app. split; [|done].
  apply hexX_chars. by apply word_of.
Qed.

(** An address: one group or four. *)
Definition kernel_addr (gs : list (list Z)) (port : Z) : Prop :=
  (length gs = 1%nat ∨ length gs = 4%nat) ∧ Forall bytes4 gs ∧ 0 ≤ port < 2 ^ 16.

Lemma concat_length gs : Forall bytes4 gs → length (concat gs) = (4 * length gs)%nat.
Proof. induction 1 as [|g gs [Hg _] _ IH]; [done|]. cbn [concat length]. rewrite length_app, Hg, IH. lia. Qed.

Lemma parseAddr_text gs port : kernel_addr gs port →
  parseAddr (addr_text gs port) = Ret {| IP := concat gs; Port := port |}.
Proof.
  intros (Hn & Hg & Hp). unfold parseAddr, addr_text. rewrite Split_app_sep.
  2: { intros Hi. pose proof (groups_chars gs Hg) as Hc. rewrite Forall_forall in Hc. by destruct (Hc _ Hi). }
  rewrite Split_none.
  2: { intros Hi. pose proof (hexX_chars 4 port ltac:(lia)) as Hc. rewrite Forall_forall in Hc. by destruct (Hc _ Hi). }
  rewrite (groups_length gs Hg).
  assert ((if (8 * length gs =? 8)%nat then parseIPv4 (groups_text gs)
           else if (8 * length gs =? 32)%nat then parseIPv6 (groups_text gs)
           else Throw (ErrMsg ("invalid ip:port string: " +:+ groups_text gs))) = Ret (concat gs)) as ->.
  { destruct Hn as [Hn|Hn]; rewrite Hn; cbn [Nat.mul Nat.add Nat.eqb].
    - destruct gs as [|g []]; try done. apply Forall_cons in Hg as [Hg _]. cbn [groups_text concat].
      unfold parseIPv4. rewrite append_nil, app_nil_r, parse_group by done. cbn [mbind outcome_bind]. by rewrite (proj2 (word_of g Hg)).
    - unfold parseIPv6. rewrite parse_groups_text by (done || lia). cbn [mbind outcome_bind].
      by rewrite concat_length, Hn, app_nil_r. }
  cbn [mbind outcome_bind]. by rewrite ParseUint_hexX.
Qed.

(** ** Lines *)

(** A row of the kernel: the addresses, the fields that are read, the others, and
    the spaces it is padded with. *)
Record row := {
  gaps : list nat; slot : string; local : list (list Z) * Z; remote : list (list Z) * Z; st : Z;
  queues : string; timer : string; retransmits : string; uid : Z; timeout : string; inode : string; more : list string;
  trail : nat;
}.
Definition row_ok (r : row) : Prop :=
  kernel_addr (local r).1 (local r).2 ∧ kernel_addr (remote r).1 (remote r).2 ∧
  0 ≤ st r < 2 ^ 8 ∧ 0 ≤ uid r < 2 ^ 32 ∧ (2 ≤ length (more r))%nat ∧ HasPrefix (slot r) "#" = false ∧ between (gaps r) ∧
  Forall word (slot r :: queues r :: timer r :: retransmits r :: timeout r :: inode r :: more r).
Definition row_text (r : row) : string :=
  spread (gaps r) (slot r :: addr_text (local r).1 (local r).2 :: addr_text (remote r).1 (remote r).2 :: hexX 2 (st r) ::
        queues r :: timer r :: retransmits r :: Strconv.Itoa (uid r) :: timeout r :: inode r :: more r) (trail r).
Definition row_entry (r : row) : SockTableEntry :=
  {| Inode := inode r; LocalAddr := {| IP := concat (local r).1; Port := (local r).2 |};
     RemoteAddr := {| IP := concat (remote r).1; Port := (remote r).2 |}; State := st r; UID := uid r; Process_ := None |}.

Lemma addr_text_word gs port : kernel_addr gs port → word (addr_text gs port).
Proof.
  intros (Hn & Hg & Hp). split.
  - unfold addr_text. by destruct (groups_text gs).
  - unfold addr_text. rewrite !to_list_app. apply Forall_app. split.
    { eapply Forall_impl; [by apply groups_chars|]. by intros a []. }
    apply Forall_cons. split; [done|]. eapply Forall_impl; [apply hexX_chars; lia|]. by intros a [].
Qed.
Lemma hexX_word w n : 0 ≤ n → word (hexX w n).
Proof.
  intros Hn. split.
  - intros He. destruct (hex_digits w n Hn) as [_ Hne]. unfold hexX, upper in He. by destruct (Strconv.hex w n).
  - eapply Forall_impl; [by apply hexX_chars|]. by intros a [].
Qed.

Lemma ParseUint_Itoa n bits : 0 ≤ n < 2 ^ bits → Strconv.ParseUint (Strconv.Itoa n) 10 bits = Ret n.
Proof.
  intros Hn. unfold Strconv.Itoa. rewrite (proj2 (Z.ltb_ge n 0)) by lia. unfold Strconv.ParseUint.
  destruct (format_digits 10 n ltac:(lia) ltac:(lia)) as [_ Hne]. rewrite parse_format by lia.
  destruct (Strconv.format 10 n); [done|]. by rewrite (proj2 (Z.ltb_lt n (2 ^ bits))) by lia.
Qed.
Lemma Itoa_word n : word (Strconv.Itoa n).
Proof.
  split.
  - unfold Strconv.Itoa. destruct (Z.ltb_spec n 0); [done|]. by apply format_digits.
  - eapply Forall_impl; [apply Itoa_chars|]. intros a [Ha| ->]; [|done]. by destruct a as [[] [] [] [] [] [] [] []].
Qed.

Lemma parse_entry_text r : row_ok r → parse_entry (row_text r) = Ret (row_entry r).
Proof.
  intros (Hl & Hr & Hs & Hu & Hm & _ & Hg & Hw).
  repeat apply Forall_cons in Hw as [? Hw].
  unfold parse_entry, row_text. rewrite Fields_spread; [| |done].
  - destruct (more r) as [|m1 [|m2 ms]]; cbn in Hm; [lia..|].
    rewrite !parseAddr_text by done. cbn [mbind outcome_bind]. rewrite ParseUint_hexX by done. cbn [mbind outcome_bind].
    by rewrite ParseUint_Itoa.
  - repeat (apply Forall_cons; split); try done; (by apply addr_text_word) || (by apply hexX_word; lia) || apply Itoa_word.
Qed.

Lemma prefix_head a x y : HasPrefix (String a x) "#" = HasPrefix (String a y) "#".
Proof. unfold HasPrefix. cbn [String.prefix]. destruct (ascii_dec _ a); [by destruct x, y|done]. Qed.
Lemma row_text_title r : row_ok r → HasPrefix (row_text r) "#" = false.
Proof.
  intros (_ & _ & _ & _ & _ & Hp & _ & [[Hne _] _]%Forall_cons). unfold row_text.
  match goal with |- context [spread _ (_ :: ?l) _] => generalize l end. intros ws. cbn [spread].
  destruct (hd 1%nat (gaps r)) as [|n]; [|done].
  destruct (slot r) as [|a s]; [done|]. etransitivity; [apply prefix_head|exact Hp].
Qed.

Lemma parse_lines_text ok rows : Forall row_ok rows →
  parse_lines ok (map row_text rows) = Ret (filter (λ e, ok e = true) (map row_entry rows)).
Proof.
  induction 1 as [|r rows Hr _ IH]; [done|]. cbn [map parse_lines]. rewrite row_text_title, parse_entry_text by done.
  cbn [mbind outcome_bind]. rewrite IH. cbn [mbind outcome_bind]. rewrite filter_cons. by destruct (ok (row_entry r)).
Qed.

(** ** Processes *)

Section procfs.
Context `{ProcFs}.

(** A process has a socket, and is called so. *)
Definition holds (e : SockTableEntry) (p : ProcessInfo) : Prop :=
  let base f := Filepath.Join ["/proc"; Strconv.Itoa (Pid p); f] in
  ∃ fds fd d b, proc_dir (base "fd") = inl fds ∧ (fd, d) ∈ fds ∧
    proc_link (Filepath.Join ["/proc"; Strconv.Itoa (Pid p); "fd"; fd]) = inl (socket_link e) ∧
    proc_read (base "comm") = inl b ∧ ProcName p = TrimSpace b.
Definition owned (e : SockTableEntry) : Prop := ∀ p, Process_ e = Some p → holds e p.

Lemma own_owned pid fds fd d lname : proc_dir (Filepath.Join ["/proc"; Strconv.Itoa pid; "fd"]) = inl fds → (fd, d) ∈ fds →
  proc_link (Filepath.Join ["/proc"; Strconv.Itoa pid; "fd"; fd]) = inl lname →
  preserves (Forall owned) (own pid lname).
Proof.
  intros Hd Hin Hl es. induction 1 as [|e es He Hes IH]; [constructor|]. cbn [own].
  case_bool_decide as Hn; [case_bool_decide as Hp|]; cbn [andb].
  - destruct (proc_read _) as [b|err] eqn:Hb; [|by constructor]. destruct (own pid lname es) as [r es'].
    constructor; [|exact IH]. intros p [= <-]. exists fds, fd, d, b.
    split_and!; [exact Hd|exact Hin|exact (eq_trans Hl (f_equal inl Hn))|exact Hb|done].
  - destruct (own pid lname es) as [r es']. by constructor.
  - destruct (own pid lname es) as [r es']. by constructor.
Qed.
Lemma own_links_owned pid fds l : proc_dir (Filepath.Join ["/proc"; Strconv.Itoa pid; "fd"]) = inl fds → l ⊆ fds →
  preserves (Forall owned) (own_links pid l).
Proof.
  intros Hd. induction l as [|[fd d] l IH]; intros Hl; cbn [own_links]; [apply preserves_ret|].
  apply preserves_bind; [|intros _; apply IH; set_solver]. destruct (proc_link _) as [lname|e] eqn:E; [|apply preserves_ret].
  case_match; [|apply preserves_ret]. eapply own_owned; [done| |done]. apply Hl. left.
Qed.
Lemma setProcessInfo_owned : preserves (Forall owned) setProcessInfo.
Proof.
  unfold setProcessInfo. apply preserves_bind; [apply preserves_lift|]. intros files.
  induction files as [|[name dir] files IH]; cbn [each_process]; [apply preserves_ret|].
  apply preserves_bind; [|intros _; exact IH]. destruct dir; [|apply preserves_ret].
  destruct (Strconv.Atoi name) as [pid|e|q]; [|apply preserves_ret..].
  assert (preserves (Forall owned) (handle pid)) as Hh.
  { unfold handle. intros es Hes. unfold mbind, op_bind, lift.
    destruct (proc_dir _) as [fds|e] eqn:E; [|done]. cbn. by apply (own_links_owned pid fds fds E). }
  intros es Hes. specialize (Hh es Hes). unfold handled. destruct (handle pid es) as [[u|e|q] es']; [done| |done]. by destruct e.
Qed.

(** Naming processes changes nothing else. *)
Definition socket (e : SockTableEntry) := (LocalAddr e, RemoteAddr e, State e, UID e, Inode e).
Section same.
Context (ss : list (SockAddr * SockAddr * Z * Z * string)).
Abbreviation same := (λ es, map socket es = ss).
Lemma own_same pid lname es : map socket (own pid lname es).2 = map socket es.
Proof.
  induction es as [|e es IH]; [done|]. cbn [own]. case_match.
  - destruct (proc_read _); [|done]. destruct (own pid lname es) as [r es']. cbn in *. by rewrite IH.
  - destruct (own pid lname es) as [r es']. cbn in *. by rewrite IH.
Qed.
Lemma own_links_same pid l : preserves same (own_links pid l).
Proof.
  induction l as [|[fd d] l IH]; cbn [own_links]; [apply preserves_ret|]. apply preserves_bind; [|by intros _].
  repeat case_match; try apply preserves_ret. intros es Hes. by rewrite own_same.
Qed.
Lemma setProcessInfo_same : preserves same setProcessInfo.
Proof.
  unfold setProcessInfo. apply preserves_bind; [apply preserves_lift|]. intros files.
  induction files as [|[name dir] files IH]; cbn [each_process]; [apply preserves_ret|].
  apply preserves_bind; [|intros _; exact IH]. repeat case_match; try apply preserves_ret. intros es Hes. unfold handled.
  assert (same (handle a es).2) as Hh.
  { unfold handle. apply preserves_bind; [apply preserves_lift|intros ?; apply own_links_same|done]. }
  destruct (handle a es) as [[u|e|q] es']; [done| |done]. by destruct e.
Qed.
End same.

(** C29: the sockets of a table in the kernel's format, its lines padded with any
    spaces, are those that were written, with their addresses, ports and states,
    and a process that is named with one has it open. *)
Theorem getStat_sockets statfile title rows ok es : Forall row_ok rows →
  proc_lines statfile = inl (title :: map row_text rows, None) → getStat statfile ok = Ret es →
  map socket es = map socket (filter (λ e, ok e = true) (map row_entry rows)) ∧ Forall owned es.
Proof.
  intros Hr Hl. unfold getStat, parseSockTable. rewrite Hl. cbn [call mbind outcome_bind fst snd tail].
  rewrite parse_lines_text by done. cbn [mbind outcome_bind].
  set (es0 := filter _ _). assert (Forall owned es0) as Ho.
  { apply Forall_forall. intros e (_ & (r & -> & _)%list_elem_of_fmap)%list_elem_of_filter. by intros p. }
  pose proof (setProcessInfo_owned es0 Ho) as Ho'. pose proof (setProcessInfo_same _ es0 eq_refl) as Hs.
  destruct (setProcessInfo es0) as [[u|e|q] es']; try done. by intros [= <-].
Qed.
End procfs.

(** ** A socket of the loopback, and its process *)

Definition tcp_title : string :=
  "  sl  local_address rem_address   st tx_queue rx_queue tr tm->when retrnsmt   uid  timeout inode".
#[local] Instance one_process : ProcFs := {|
  proc_lines _ := inl ([tcp_title;
    "   0: 0100007F:0277 00000000:0000 0A 00000000:00000000 00:00000000 00000000     0        0 16741 1 ffff 100 0 0 10 0                 "],
    None);
  proc_dir d := if bool_decide (d = "/proc") then inl [("77", true); ("net", true)] else inl [("3", false)];
  proc_link _ := inl "socket:[16741]";
  proc_read _ := inl "sshd ";
|}.
Definition loopback : row :=
  {| gaps := [3; 1; 1; 1; 1; 1; 1; 5; 8]%nat; slot := "0:"; local := ([[127; 0; 0; 1]], 631); remote := ([[0; 0; 0; 0]], 0); st := 10;
     queues := "00000000:00000000"; timer := "00:00000000"; retransmits := "00000000"; uid := 0; timeout := "0"; inode := "16741";
     more := ["1"; "ffff"; "100"; "0"; "0"; "10"; "0"]; trail := 17 |}.
Definition sockets : list SockTableEntry := match getStat "/proc/net/tcp" (λ _, true) with Ret es => es | _ => [] end.
Example getStat_sockets_witness :
  map socket sockets = [({| IP := [127; 0; 0; 1]; Port := 631 |}, {| IP := [0; 0; 0; 0]; Port := 0 |}, 10, 0, "16741")] ∧
  map Process_ sockets = [Some {| Pid := 77; ProcName := "sshd" |}] ∧ Forall owned sockets.
Proof.
  destruct (getStat_sockets "/proc/net/tcp" tcp_title [loopback] (λ _, true) sockets) as [Hs Ho].
  - repeat constructor; try done; try lia; try (by vm_compute); by repeat constructor.
  - vm_compute. reflexivity.
  - vm_compute. reflexivity.
  - split; [exact Hs|]. split; [vm_compute; reflexivity|exact Ho].
Defined.
End NetstatFacts.
