(* ===== verification/CgroupsFacts.v ===== *)
(** CgroupsFacts: the CPU quota that is read is the one that was set. *)

From S2P Require Import Prelude.
From S2P Require Import GoStd.
From S2P Require Import GoFacts.
From S2P Require Import Backend.
From S2P Require Import HostNet.
From S2P Require Import Netstat.
From S2P Require Import NetstatFacts.
From S2P Require Import Cgroups.

Open Scope Z_scope.
#[local] Set Warnings "-register-all".

Module CgroupsFacts.
Import Strings NetstatFacts Cgroups.

(** ** Values *)

Definition line (ws : list string) : string := Join ws " " +:+ String "010" "".

Lemma ParseValue_line ws : Forall word ws → ParseValue (line ws) = map UString ws.
Proof. intros Hw. unfold ParseValue, line. by rewrite Fields_line by (done || by right). Qed.

(** [quota] hundredths of a period, and back. *)
Lemma quota_bounds p q : 0 < p → 0 ≤ q →
  let r := Z.quot (Z.quot (p * q) 100 * 100) p in
  0 ≤ r ≤ q ∧ (q - r) * p < p + 100 ∧ ((100 | p) → r = q).
Proof.
  intros Hp Hq. assert (0 ≤ p * q) as Hpq by nia. cbn. rewrite (Z.quot_div_nonneg (p * q)) by lia.
  set (t := p * q / 100). assert (0 ≤ t ∧ 100 * t ≤ p * q < 100 * t + 100) as [Ht Hb].
  { subst t. Z.div_mod_to_equations. lia. }
  rewrite Z.quot_div_nonneg by lia. assert (t * 100 / p * p ≤ t * 100 < t * 100 / p * p + p) as Hr.
  { Z.div_mod_to_equations. nia. }
  split_and!; [by apply Z.div_pos; lia|nia|nia|].
  intros [c Hc]. assert (t * 100 = q * p) as ->.
  { assert (p * q = c * q * 100) as He by (subst p; ring). subst t. rewrite He, Z.div_mul by done. lia. }
  apply Z.div_mul. lia.
Qed.

Section cgroups.
Context {K : Type} `{CgroupFs K, HostNet.MapOrder, !HostNet.MapOrderLaws}.

(** ** The files of a group of the controller *)

Definition file (g : group) (name : string) : string := Filepath.Join [path g; name].
Definition quota_file (g : group) : string := file g (if version g =? 1 then "cpu.cfs_quota_us" else "cpu.max").
Definition limit_text (g : group) (lim : option Z) : string :=
  match lim with Some t => Strconv.Itoa t | None => if version g =? 1 then "-1" else "max" end.

(** The kernel shows the limit [lim] and the period [p]; the files of the
    real-time scheduler may be missing. *)
Definition shows (g : group) (lim : option Z) (p : Z) (k : K) : Prop :=
  if version g =? 1 then
    cg_read (file g "cpu.cfs_quota_us") k = inl (line [limit_text g lim]) ∧
    cg_read (file g "cpu.cfs_period_us") k = inl (line [Strconv.Itoa p]) ∧
    ∀ name, name ∈ ["cpu.rt_period_us"; "cpu.rt_runtime_us"] →
      (∃ b, cg_read (file g name) k = inl b) ∨ (∃ b, cg_read (file g name) k = inr (ErrNotExist b))
  else cg_read (file g "cpu.max") k = inl (line [limit_text g lim; Strconv.Itoa p]).

(** A limit the kernel takes is the one it shows; the period stays. *)
Class KernelCpu (g : group) : Prop :=
  kernel_cpu k k' lim lim' p : shows g lim p k →
    cg_write (quota_file g) (limit_text g lim') k = (Ret (), k') → shows g lim' p k'.

Lemma limit_word g lim : word (limit_text g lim).
Proof. destruct lim as [t|]; [apply Itoa_word|]. cbn. destruct (version g =? 1); by split; [|repeat constructor]. Qed.

Definition units (g : group) (lim : option Z) (p : Z) (c : Config) : Prop :=
  if version g =? 1 then
    c !! "cpu.cfs_quota_us" = Some [UString (limit_text g lim)] ∧ c !! "cpu.cfs_period_us" = Some [UString (Strconv.Itoa p)]
  else c !! "cpu.max" = Some [UString (limit_text g lim); UString (Strconv.Itoa p)].

Lemma read_shown g name ws k : Forall word ws → cg_read (file g name) k = inl (line ws) →
  readValue (path g) name k = (Ret (map UString ws), k).
Proof. intros Hw Hr. unfold readValue. unfold file in Hr. by rewrite Hr, ParseValue_line. Qed.

(** Getting the parameters changes nothing and finds what is shown. *)
Lemma Get_shown g lim p k c : ctrl g = CPU → shows g lim p k → ∃ c', Get g c k = (Ret c', k) ∧ units g lim p c'.
Proof.
  intros Hc Hs. unfold Get. rewrite Hc. unfold shows, units, cpu_params in *. pose proof (limit_word g lim) as Hl.
  pose proof (Itoa_word p) as Hp. destruct (version g =? 1).
  - destruct Hs as (Hq & Hpd & Hrt). cbn [cpu_get].
    rewrite (read_shown g "cpu.cfs_period_us" [Strconv.Itoa p]) by (done || by apply Forall_singleton).
    rewrite (read_shown g "cpu.cfs_quota_us" [limit_text g lim]) by (done || by apply Forall_singleton).
    assert (∀ name, name ∈ ["cpu.rt_period_us"; "cpu.rt_runtime_us"] →
      (∃ v, readValue (path g) name k = (Ret v, k)) ∨ (∃ e, readValue (path g) name k = (Throw (ErrNotExist e), k))) as Hrd.
    { intros name Hn. unfold readValue. unfold file in Hrt. destruct (Hrt name Hn) as [[b ->]|[b ->]]; eauto. }
    destruct (Hrd "cpu.rt_period_us" ltac:(set_solver)) as [[v1 ->]|[e1 ->]];
      destruct (Hrd "cpu.rt_runtime_us" ltac:(set_solver)) as [[v2 ->]|[e2 ->]];
      (eexists; split; [reflexivity|by split; simplify_map_eq]).
  - cbn [cpu_get]. rewrite (read_shown g "cpu.max" [limit_text g lim; Strconv.Itoa p]) by (done || by rewrite !Forall_cons).
    eexists. split; [reflexivity|]. by simplify_map_eq.
Qed.

(** What is written: the limit the quota asks for. *)
Definition wanted (p quota : Z) : option Z := if quota =? 0 then None else Some (Z.quot (wrap64 (p * quota)) 100).

Lemma Set_single g name v k k' : ctrl g = CPU → name ∈ cpu_params (version g) →
  cg_write (file g name) (AsString v) k = (Ret (), k') → Set_ g {[name := v]} k = (Ret (), k').
Proof.
  intros Hc Hn Hw. unfold Set_. rewrite Hc.
  assert (HostNet.map_order _ {[name := v]} = [(name, v)]) as ->.
  { apply Permutation_singleton_r. etransitivity; [apply HostNet.map_order_law|]. by rewrite map_to_list_singleton. }
  cbn [cpu_set]. rewrite bool_decide_eq_true_2 by done. unfold mbind, op_bind, map_err, writeValue.
  unfold file in Hw. by rewrite Hw.
Qed.

Lemma SetCpuQuota_run m g lim p quota k k' : m !! "cpu" = Some g → ctrl g = CPU →
  shows g lim p k → is_int p = true →
  cg_write (quota_file g) (limit_text g (wanted p quota)) k = (Ret (), k') → SetCpuQuota m quota k = (Ret (), k').
Proof.
  intros Hm Hc Hs Hp Hw. destruct (Get_shown g lim p k ∅ Hc Hs) as (c & Hg & Hu).
  unfold SetCpuQuota, mounted. rewrite Hm. unfold mbind, op_bind at 1. cbn [mret op_ret]. unfold op_bind at 1. rewrite Hg.
  unfold units, quota_file, wanted in *. destruct (version g =? 1) eqn:Hv.
  - destruct Hu as [_ Hu]. destruct (quota =? 0).
    + apply Set_single; [done| |]. { unfold cpu_params. rewrite Hv. set_solver. }
      rewrite <- Hw. unfold limit_text. by rewrite Hv.
    + unfold single. rewrite Hu. cbn [AsInt64]. rewrite Atoi_Itoa by done. cbn.
      apply Set_single; [done| |exact Hw]. unfold cpu_params. rewrite Hv. set_solver.
  - destruct (quota =? 0).
    + apply Set_single; [done| |]. { unfold cpu_params. rewrite Hv. set_solver. }
      rewrite <- Hw. unfold limit_text. by rewrite Hv.
    + rewrite Hu. cbn [AsInt64]. rewrite Atoi_Itoa by done. cbn.
      apply Set_single; [done| |exact Hw]. unfold cpu_params. rewrite Hv. set_solver.
Qed.

(** What is read: no limit is 0. *)
Definition quota_of (lim : option Z) (p : Z) : Z :=
  match lim with Some t => Z.quot (wrap64 (t * 100)) p | None => 0 end.

Lemma GetCpuQuota_run m g lim p k : m !! "cpu" = Some g → ctrl g = CPU → shows g lim p k →
  0 < p → is_int p = true → (∀ t, lim = Some t → 0 ≤ t ∧ is_int t = true) →
  GetCpuQuota m k = (Ret (quota_of lim p), k).
Proof.
  intros Hm Hc Hs Hp0 Hp Hl. destruct (Get_shown g lim p k ∅ Hc Hs) as (c & Hg & Hu).
  unfold GetCpuQuota, mounted. rewrite Hm. unfold mbind, op_bind at 1. cbn [mret op_ret]. unfold op_bind at 1. rewrite Hg.
  assert (∀ t, 0 ≤ t → (if (t =? 0) || (p =? 0) then mret 0 else mret (Z.quot (wrap64 (t * 100)) p) : op K Z) k =
    (Ret (Z.quot (wrap64 (t * 100)) p), k)) as Ht.
  { intros t Ht. destruct (Z.eqb_spec t 0) as [-> | Hn]; [by rewrite Z.quot_0_l by lia|].
    by rewrite (proj2 (Z.eqb_neq p 0)) by lia. }
  unfold units, single, cpu_max in *. destruct lim as [t|]; cbn [limit_text quota_of] in *.
  - destruct (Hl t eq_refl) as [Ht0 Hti]. destruct (version g =? 1).
    + destruct Hu as [-> ->]. cbn [AsInt64]. rewrite !Atoi_Itoa by done. cbn.
      rewrite (proj2 (Z.eqb_neq t (-1))) by lia. by apply Ht.
    + rewrite Hu. cbn [AsInt64]. rewrite !Atoi_Itoa by done. cbn. by apply Ht.
  - destruct (version g =? 1).
    + destruct Hu as [-> ->]. cbn [AsInt64]. by rewrite Atoi_Itoa.
    + by rewrite Hu.
Qed.

(** C27: a quota the kernel takes is set, and read back as it was, but for what
    less than a hundredth of the period makes; a quota of 0 takes the limit away. *)
Theorem SetCpuQuota_GetCpuQuota m g lim p quota k k' : KernelCpu g →
  m !! "cpu" = Some g → ctrl g = CPU → shows g lim p k →
  0 < p → 0 ≤ quota → is_int (p * quota) = true → is_int p = true →
  cg_write (quota_file g) (limit_text g (wanted p quota)) k = (Ret (), k') →
  SetCpuQuota m quota k = (Ret (), k') ∧
  ∃ r, GetCpuQuota m k' = (Ret r, k') ∧ 0 ≤ r ≤ quota ∧ (quota - r) * p < p + 100 ∧ ((100 | p) → r = quota).
Proof.
  intros HK Hm Hc Hs Hp0 Hq Hpq Hp Hw. split; [by eapply SetCpuQuota_run|].
  pose proof (kernel_cpu _ _ _ _ _ Hs Hw) as Hs'. exists (quota_of (wanted p quota) p). unfold wanted in *.
  assert (0 ≤ Z.quot (p * quota) 100 * 100 ≤ p * quota) as Ht.
  { rewrite Z.quot_div_nonneg by nia. Z.div_mod_to_equations. nia. }
  rewrite wrap64_id in * by done. unfold is_int, int_min, int_max in Hpq. split.
  - apply (GetCpuQuota_run m g); try done. intros t. destruct (quota =? 0); [done|]. intros [= <-].
    unfold is_int, int_min, int_max. lia.
  - destruct (Z.eqb_spec quota 0) as [-> | Hn]; [cbn; lia|]. cbn [quota_of]. rewrite wrap64_id.
    + by apply quota_bounds.
    + unfold is_int, int_min, int_max. lia.
Qed.
End cgroups.

(** ** A group of version 2 with the usual period *)

#[local] Instance one_group : CgroupFs (option Z) := {|
  cg_read name k :=
    if bool_decide (name = "/sys/fs/cgroup/vm0/cpu.max")
    then inl (line [match k with Some t => Strconv.Itoa t | None => "max" end; "100000"]) else inr (ErrNotExist name);
  cg_write name s k :=
    if bool_decide (s = "max") then (Ret (), None)
    else match Strconv.Atoi s with Ret t => (Ret (), Some t) | Throw e => (Throw e, k) | Panic q => (Panic q, k) end;
|}.
#[local] Instance any_order : HostNet.MapOrder := λ A m, map_to_list m.
#[local] Instance any_order_laws : HostNet.MapOrderLaws.
Proof. by intros A m. Qed.
Definition vm0 : group := {| ctrl := CPU; path := "/sys/fs/cgroup/vm0"; version := 2 |}.

Lemma max_file : quota_file vm0 = "/sys/fs/cgroup/vm0/cpu.max".
Proof. vm_compute. reflexivity. Qed.
#[local] Instance kernel_vm0 : KernelCpu vm0.
Proof.
  intros k k' lim lim' p Hs Hw. change (cg_read (quota_file vm0) k = inl (line [limit_text vm0 lim; Strconv.Itoa p])) in Hs.
  change (cg_read (quota_file vm0) k' = inl (line [limit_text vm0 lim'; Strconv.Itoa p])). rewrite max_file in *.
  cbn [cg_read one_group] in *. rewrite bool_decide_eq_true_2 in * by done.
  assert (Strconv.Itoa p = "100000") as ->.
  { injection Hs as Hl%(f_equal ParseValue). rewrite !ParseValue_line in Hl.
    - by injection Hl.
    - rewrite !Forall_cons. split; [apply (limit_word vm0 lim)|]. split; [apply Itoa_word|done].
    - rewrite !Forall_cons. split; [apply (limit_word vm0 k)|]. split; [apply (Itoa_word 100000)|done]. }
  cbn [cg_write one_group] in Hw. destruct lim' as [t|]; cbn in Hw |- *; [|by injection Hw as <-].
  case_bool_decide as Hm.
  - exfalso. pose proof (Atoi_Itoa_cases t) as Ha. rewrite Hm in Ha. vm_compute (Strconv.Atoi _) in Ha.
    destruct (is_int t) eqn:Ht; [done|]. pose proof (Itoa_chars t) as Hc. rewrite Hm in Hc.
    apply Forall_cons in Hc as [[Hc|Hc] _]; done.
  - rewrite Atoi_Itoa_cases in Hw. destruct (is_int t); [|done]. by injection Hw as <-.
Qed.

Example SetCpuQuota_GetCpuQuota_witness :
  SetCpuQuota {["cpu" := vm0]} 150 None = (Ret (), Some 150000) ∧
  ∃ r, GetCpuQuota {["cpu" := vm0]} (Some 150000) = (Ret r, Some 150000) ∧ r = 150.
Proof.
  destruct (SetCpuQuota_GetCpuQuota {["cpu" := vm0]} vm0 None 100000 150 None (Some 150000)) as [Hs (r & Hr & _ & _ & He)].
  - exact kernel_vm0.
  - reflexivity.
  - reflexivity.
  - vm_compute. reflexivity.
  - lia.
  - lia.
  - reflexivity.
  - reflexivity.
  - vm_compute. reflexivity.
  - split; [exact Hs|]. exists r. split; [exact Hr|]. apply He. exists 1000. reflexivity.
Defined.
End CgroupsFacts.
