(* ===== verification/Listing.v ===== *)
(** Listing: the lists that several goroutines gather: the PCI devices of the
    host ([internal/pci/device.go] [DeviceList], [server/hardware/hardware.go]) and
    the machines ([server/machine/machines.go]).

    [fire] makes one goroutine take its next step.  A step is a channel
    operation, a call, or an access to what is shared; channels without a buffer
    hand over at once. *)

From S2P Require Import Prelude.
From S2P Require Import GoStd.
From S2P Require Import PciAddress.
From S2P Require Import Backend.
From S2P Require Import PciDevice.
From S2P Require Import HostDevices.
From S2P Require Import InstanceProperties.
From S2P Require Import InstanceConf.
From S2P Require Import InstanceQemu.

#[local] Set Warnings "-register-all".

(** ** [DeviceList] *)

Module Devices.
Import PciDevice.

(** A goroutine that looks a device up and hands it over with its subdevices: it
    is [Sending] one under the name [key], or [Storing] that name, and goes on
    with the others. *)
Inductive worker :=
  | Looking (hexaddr : string)
  | Sending (d : Device) (key : string) (subs : list Device)
  | Storing (key : string) (subs : list Device)
  | Checking (subs : list Device)
  | Left (e : option goerr).

(** The goroutine that goes through the names; it waits for a free place. *)
Inductive lister := Going | Spawning (hexaddr : string) | Listed.

Record state := {
  names : list (string * bool);     (* the rest of them; is it a link? *)
  listing : lister;
  workers : list worker;
  syncMap : gset string;
  held : option Device;             (* received, not yet appended *)
  devices : list Device;
  group_error : option goerr;
  returned : option (outcome (list Device));
}.
Definition begin (files : list (string * bool)) : state :=
  {| names := files; listing := Going; workers := []; syncMap := ∅; held := None; devices := [];
     group_error := None; returned := None |}.
Definition set_listing (l : lister) (rest : list (string * bool)) (s : state) : state :=
  {| names := rest; listing := l; workers := workers s; syncMap := syncMap s; held := held s; devices := devices s;
     group_error := group_error s; returned := returned s |}.
Definition spawn (h : string) (s : state) : state :=
  {| names := names s; listing := Going; workers := workers s ++ [Looking h]; syncMap := syncMap s; held := held s;
     devices := devices s; group_error := group_error s; returned := returned s |}.
Definition set_worker (i : nat) (w : worker) (s : state) : state :=
  {| names := names s; listing := listing s; workers := <[i := w]> (workers s); syncMap := syncMap s; held := held s;
     devices := devices s; group_error := group_error s; returned := returned s |}.
Definition store (key : string) (s : state) : state :=
  {| names := names s; listing := listing s; workers := workers s; syncMap := {[key]} ∪ syncMap s; held := held s;
     devices := devices s; group_error := group_error s; returned := returned s |}.
Definition receive (d : Device) (s : state) : state :=
  {| names := names s; listing := listing s; workers := workers s; syncMap := syncMap s; held := Some d;
     devices := devices s; group_error := group_error s; returned := returned s |}.
Definition append (d : Device) (s : state) : state :=
  {| names := names s; listing := listing s; workers := workers s; syncMap := syncMap s; held := None;
     devices := devices s ++ [d]; group_error := group_error s; returned := returned s |}.
Definition report (e : goerr) (s : state) : state :=
  {| names := names s; listing := listing s; workers := workers s; syncMap := syncMap s; held := held s;
     devices := devices s; group_error := Some (default e (group_error s)); returned := returned s |}.
Definition return_ (r : outcome (list Device)) (s : state) : state :=
  {| names := names s; listing := listing s; workers := workers s; syncMap := syncMap s; held := held s;
     devices := devices s; group_error := group_error s; returned := Some r |}.

(** Places taken in the group. *)
Definition active (w : worker) : bool := match w with Left _ => false | _ => true end.
Definition running (s : state) : nat :=
  (match listing s with Listed => 0 | _ => 1 end + length (filter (λ w, active w = true) (workers s)))%nat.

Definition by_addr (d d' : Device) : bool := String.ltb (to_string d) (to_string d').

Section list.
Context `{Sysfs} (DB : option IdsDb.DB) (fuel : nat) (limit : nat).

Definition list_step (s : state) : option state :=
  match listing s with
  | Listed => None
  | Spawning h => if (running s <? limit)%nat then Some (spawn h s) else None
  | Going =>
      match names s with
      | [] => Some (set_listing Listed [] s)
      | (h, link) :: rest =>
          Some (if bool_decide (group_error s ≠ None) then set_listing Listed (names s) s
                else if negb link then set_listing Going rest s
                else if bool_decide (h ∈ syncMap s) then set_listing Going rest s
                else set_listing (Spawning h) rest s)
      end
  end.

(** [ErrDeviceNotFound] is what [LookupDevice] makes of a file that is not there;
    [lookup] never returns it. *)
Definition worker_step (i : nat) (w : worker) (s : state) : option state :=
  match w with
  | Looking h =>
      r ← lookup DB fuel h [];
      match r with
      | Ret d => Some (set_worker i (Sending d h (subdevices d)) s)
      | Throw (ErrNotFound _) => Some (set_worker i (Left None) s)
      | Throw e => Some (report e (set_worker i (Left (Some e)) s))
      | Panic _ => None
      end
  | Sending d key subs =>
      match held s with None => Some (receive d (set_worker i (Storing key subs) s)) | Some _ => None end
  | Storing key subs => Some (store key (set_worker i (Checking subs) s))
  | Checking [] => Some (set_worker i (Left None) s)
  | Checking (sub :: subs) =>
      Some (if bool_decide (to_string sub ∈ syncMap s) then set_worker i (Checking subs) s
            else set_worker i (Sending sub (to_string sub) subs) s)
  | Left _ => None
  end.

(** The function itself waits for the group, and sorts what has been appended. *)
Definition main_step (s : state) : option state :=
  if (running s =? 0)%nat && bool_decide (returned s = None) then
    Some (return_ (match group_error s with Some e => Throw e | None => Ret (Sort.SliceStable by_addr (devices s)) end) s)
  else None.

Inductive label := Lister | Worker (i : nat) | Receiver | Main.
Definition fire (l : label) (s : state) : option state :=
  match l with
  | Lister => list_step s
  | Worker i => w ← workers s !! i; worker_step i w s
  | Receiver => d ← held s; Some (append d s)
  | Main => main_step s
  end.
Definition step (s s' : state) : Prop := ∃ l, fire l s = Some s'.
Definition reachable (files : list (string * bool)) : state → Prop := rtc step (begin files).
Fixpoint go (ls : list label) (s : state) : option state :=
  match ls with [] => Some s | l :: ls => s ← fire l s; go ls s end.
End list.
End Devices.

(** ** [GetPCIDeviceList] *)

Module Hardware.

Record PCIDeviceInfo := { device : PciDevice.Device; Reserved : bool; Holder : string }.

(** The machines that have a device, by address; a machine without a readable
    configuration is passed over. *)
Definition holders (conf_of : string → outcome InstanceConf.InstanceConf) (vmnames : list string) : gmap string string :=
  foldl (λ m vmname,
    match conf_of vmname with
    | Ret c =>
        foldl (λ m dev, match HostDevice.BackendAddr dev with Some a => <[Pci.to_string a := vmname]> m | None => m end)
          m (InstanceProperties.HostDeviceGetList [] (InstanceConf.props c))
    | _ => m
    end) ∅ vmnames.
Definition info (m : gmap string string) (d : PciDevice.Device) : PCIDeviceInfo :=
  match m !! PciDevice.to_string d with
  | Some vmname => {| device := d; Reserved := true; Holder := vmname |}
  | None => {| device := d; Reserved := false; Holder := "" |}
  end.
Definition GetPCIDeviceList (pcidevs : outcome (list PciDevice.Device)) (vmnames : outcome (list string))
    (conf_of : string → outcome InstanceConf.InstanceConf) : outcome (list PCIDeviceInfo) :=
  devs ← pcidevs;
  names ← vmnames;
  Ret (map (info (holders conf_of names)) devs).
End Hardware.

(** ** [GetList] *)

Module Machines.

Record MachineInfo (M : Type) := { Name : string; M_ : option M; State : InstanceState; LifeTime : Z }.
Arguments Name {M}. Arguments M_ {M}. Arguments State {M}. Arguments LifeTime {M}.

Section list.
Context {M : Type} (MachineGet : string → outcome M) (MachineGetStatus : M → outcome InstanceState)
  (MachineGetLifeTime : M → outcome Z).

(** What is told of a machine; one that can not be read has only its name.  An
    error is none of the list, a panic is. *)
Definition get (name : string) : outcome (MachineInfo M) :=
  let broken st := Ret {| Name := name; M_ := None; State := st; LifeTime := 0 |} in
  match MachineGet name with
  | Ret vm =>
      match MachineGetStatus vm with
      | Ret vmstate =>
          match MachineGetLifeTime vm with
          | Ret t => Ret {| Name := name; M_ := Some vm; State := vmstate; LifeTime := t |}
          | Throw _ => broken StateCrashed
          | Panic p => Panic p
          end
      | Throw _ => broken StateCrashed
      | Panic p => Panic p
      end
  | Throw _ => broken StateNoState
  | Panic p => Panic p
  end.

(** The names not yet given out, what each worker has, the buffered channel of
    results, and what is collected; a panic of a goroutine ends the daemon. *)
Record state := {
  jobs : list string;
  workers : list (option string);
  results : list (MachineInfo M);
  vmlist : list (MachineInfo M);
  crashed : option panic;
}.
Definition begin (cpus : nat) (names : list string) : state :=
  {| jobs := names; workers := replicate cpus None; results := []; vmlist := []; crashed := None |}.

Inductive label := Take (i : nat) | Put (i : nat) | Collect.
Definition fire (l : label) (s : state) : option state :=
  if decide (is_Some (crashed s)) then None
  else match l with
  | Take i =>
      match workers s !! i, jobs s with
      | Some None, name :: rest =>
          Some {| jobs := rest; workers := <[i := Some name]> (workers s); results := results s; vmlist := vmlist s; crashed := None |}
      | _, _ => None
      end
  | Put i =>
      match workers s !! i with
      | Some (Some name) =>
          match get name with
          | Ret info =>
              if (length (results s) <? length (workers s))%nat then
                Some {| jobs := jobs s; workers := <[i := None]> (workers s); results := results s ++ [info];
                        vmlist := vmlist s; crashed := None |}
              else None
          | Panic p =>
              Some {| jobs := jobs s; workers := workers s; results := results s; vmlist := vmlist s; crashed := Some p |}
          | Throw _ => None
          end
      | _ => None
      end
  | Collect =>
      match results s with
      | r :: rest => Some {| jobs := jobs s; workers := workers s; results := rest; vmlist := vmlist s ++ [r]; crashed := None |}
      | [] => None
      end
  end.
Definition step (s s' : state) : Prop := ∃ l, fire l s = Some s'.
Definition reachable (cpus : nat) (names : list string) : state → Prop := rtc step (begin cpus names).

Definition by_name (a b : MachineInfo M) : bool := String.ltb (Name a) (Name b).
(** What is returned, once as many results are there as names. *)
Definition GetList (names : list string) (s : state) : option (list (MachineInfo M)) :=
  if (length (vmlist s) =? length names)%nat then Some (Sort.SliceStable by_name (vmlist s)) else None.
End list.
End Machines.
