(* ===== verification/ListingFacts.v ===== *)
(** ListingFacts: what the lists of devices and machines hold, however the
    goroutines that gather them are scheduled. *)

From S2P Require Import Prelude.
From S2P Require Import GoStd.
From S2P Require Import PciAddress.
From S2P Require Import Backend.
From S2P Require Import PciDevice.
From S2P Require Import InstanceQemu.
From S2P Require Import Listing.
From Stdlib Require Import OrderedTypeEx.

#[local] Set Warnings "-register-all".

(** ** Sorting by a string *)

Module SortFacts.
Import Sort.

Lemma ltb_lt x y : String.ltb x y = true ↔ String_as_OT.lt x y.
Proof.
  rewrite <- String_as_OT.cmp_lt. unfold String.ltb, String_as_OT.cmp. by destruct (String.compare x y).
Qed.
Lemma ltb_trans x y z : String.ltb x y = true → String.ltb y z = true → String.ltb x z = true.
Proof. rewrite !ltb_lt. apply String_as_OT.lt_trans. Qed.
Lemma ltb_asym x y : String.ltb x y = true → String.ltb y x = false.
Proof.
  unfold String.ltb. pose proof (String_as_OT.cmp_antisym x y) as H. unfold String_as_OT.cmp in H. rewrite H.
  by destruct (String.compare y x).
Qed.
Lemma ltb_connected x y : x ≠ y → String.ltb x y = true ∨ String.ltb y x = true.
Proof.
  intros Hn. unfold String.ltb. pose proof (String_as_OT.cmp_antisym x y) as Ha. unfold String_as_OT.cmp in Ha.
  destruct (String.compare x y) eqn:E; [|by left|right; by destruct (String.compare y x)].
  by apply String_as_OT.cmp_eq in E.
Qed.

Section sort.
Context {A : Type} (key : A → string).
Abbreviation less := (λ x y, String.ltb (key x) (key y)).

Lemma insert_perm (f : A → A → bool) x l : insert_by f x l ≡ₚ x :: l.
Proof.
  induction l as [|y l IH]; [done|]. cbn. destruct (f x y); [done|]. rewrite IH. by constructor.
Qed.
Lemma sort_perm_go (f : A → A → bool) l acc : foldl (λ acc x, insert_by f x acc) acc l ≡ₚ acc ++ l.
Proof.
  revert acc. induction l as [|x l IH]; intros acc; [by rewrite app_nil_r|]. cbn [foldl].
  rewrite IH, insert_perm. cbn. by rewrite Permutation_middle.
Qed.
Lemma SliceStable_perm (f : A → A → bool) l : SliceStable f l ≡ₚ l.
Proof. apply (sort_perm_go f l []). Qed.

Lemma insert_comm x y l : key x ≠ key y → insert_by less x (insert_by less y l) = insert_by less y (insert_by less x l).
Proof.
  intros Hn. destruct (ltb_connected _ _ Hn) as [Hxy|Hxy]; pose proof (ltb_asym _ _ Hxy) as Hyx; induction l as [|z l IH]; cbn;
    rewrite ?Hxy, ?Hyx; try done;
    destruct (String.ltb (key x) (key z)) eqn:Hx, (String.ltb (key y) (key z)) eqn:Hy; cbn; rewrite ?Hxy, ?Hyx, ?Hx, ?Hy;
    try done; try (by f_equal).
  - by rewrite (ltb_trans _ _ _ Hxy Hy) in Hx.
  - by rewrite (ltb_trans _ _ _ Hxy Hx) in Hy.
Qed.
(** Sorting elements with keys of their own does not depend on their order. *)
Lemma SliceStable_unique l l' : NoDup (map key l) → l ≡ₚ l' → SliceStable less l = SliceStable less l'.
Proof.
  intros Hd Hp. unfold SliceStable. generalize (@nil A) as acc. revert Hd. induction Hp as [|x l l' Hp IH|x y l|l l' l'' Hp IH Hp' IH'];
    intros Hd acc; cbn in *.
  - done.
  - apply IH. by apply NoDup_cons in Hd as [_ Hd].
  - rewrite insert_comm; [done|]. apply NoDup_cons in Hd as [Hn _]. intros He. apply Hn. rewrite He. by left.
  - rewrite IH by done. apply IH'. by rewrite <- Hp.
Qed.

(** The keys are sorted as the elements are. *)
Lemma insert_key x l : map key (insert_by less x l) = insert_by String.ltb (key x) (map key l).
Proof. induction l as [|y l IH]; [done|]. cbn. destruct (String.ltb _ _); [done|]. cbn. by rewrite IH. Qed.
Lemma SliceStable_key l : map key (SliceStable less l) = SliceStable String.ltb (map key l).
Proof.
  unfold SliceStable. change (@nil string) with (map key []). generalize (@nil A) as acc.
  induction l as [|x l IH]; intros acc; [done|]. cbn [foldl map]. by rewrite IH, insert_key.
Qed.
End sort.
End SortFacts.

(** ** The machines *)

Module MachinesFacts.
Import SortFacts Machines.

Section list.
Context {M : Type} (MachineGet : string → outcome M) (MachineGetStatus : M → outcome InstanceState)
  (MachineGetLifeTime : M → outcome Z).
Abbreviation get := (get MachineGet MachineGetStatus MachineGetLifeTime).
Abbreviation step := (step MachineGet MachineGetStatus MachineGetLifeTime).
Abbreviation reachable := (reachable MachineGet MachineGetStatus MachineGetLifeTime).
Abbreviation state := (@state M).

(** Every name is in one place; an entry is what there is to be told of its
    machine; a panic is that of some machine's. *)
Record gathered (names : list string) (cpus : nat) (s : state) : Prop := {
  gathered_workers : length (workers s) = cpus;
  gathered_names : map Name (vmlist s ++ results s) ++ omap id (workers s) ++ jobs s ≡ₚ names;
  gathered_infos : Forall (λ i, get (Name i) = Ret i) (vmlist s ++ results s);
  gathered_panic : ∀ p, crashed s = Some p → ∃ name, name ∈ names ∧ get name = Panic p ∧ omap id (workers s) ≠ [];
}.

Lemma get_name name i : get name = Ret i → Name i = name.
Proof. unfold Machines.get. by repeat case_match; intros [= <-]. Qed.
Lemma get_error name e : get name ≠ Throw e.
Proof. unfold Machines.get. by repeat case_match. Qed.

Lemma omap_insert_None (ws : list (option string)) i name : ws !! i = Some None → omap id (<[i := Some name]> ws) ≡ₚ name :: omap id ws.
Proof.
  revert i. induction ws as [|w ws IH]; intros [|i]; cbn; try done; [by intros [= ->]|]. intros Hi.
  destruct w as [w|]; cbn; rewrite (IH i Hi); [apply Permutation_swap|done].
Qed.
Lemma omap_insert_Some (ws : list (option string)) i name : ws !! i = Some (Some name) → name :: omap id (<[i := None]> ws) ≡ₚ omap id ws.
Proof.
  revert i. induction ws as [|w ws IH]; intros [|i]; cbn; try done; [by intros [= ->]|]. intros Hi.
  destruct w as [w|]; cbn; rewrite <- (IH i Hi); [apply Permutation_swap|done].
Qed.

Lemma holds_elem (ws : list (option string)) i name : ws !! i = Some (Some name) → name ∈ omap id ws.
Proof. intros Hi. apply list_elem_of_omap. exists (Some name). split; [|done]. by eapply list_elem_of_lookup_2. Qed.
Lemma holds_lookup (ws : list (option string)) : omap id ws ≠ [] → ∃ i name, ws !! i = Some (Some name).
Proof.
  intros He. destruct (omap id ws) as [|x l] eqn:E; [done|]. assert (x ∈ omap id ws) as Hx by (rewrite E; left).
  apply list_elem_of_omap in Hx as (w & Hw & Hx). cbn in Hx. subst w. apply list_elem_of_lookup in Hw as [i Hi]. by exists i, x.
Qed.

Lemma gathered_step names cpus s s' : gathered names cpus s → step s s' → gathered names cpus s'.
Proof.
  intros [Hw Hp Hi Hc] [l Hf]. unfold fire in Hf. destruct (decide _); [done|]. destruct l as [i|i|].
  - destruct (workers s !! i) as [[w|]|] eqn:Hx; try done. destruct (jobs s) as [|name rest] eqn:Hj; [done|].
    injection Hf as <-. split; cbn; [by rewrite length_insert| |done|done]. rewrite <- Hp. f_equiv.
    rewrite (omap_insert_None _ _ _ Hx). cbn. apply Permutation_middle.
  - destruct (workers s !! i) as [[name|]|] eqn:Hx; try done. destruct (get name) as [info|e|p] eqn:Hg; [|done|].
    + destruct (_ <? _)%nat; [|done]. injection Hf as <-. split; cbn; [by rewrite length_insert| | |done]; rewrite (app_assoc (vmlist s)).
      * rewrite <- Hp, <- (omap_insert_Some _ _ _ Hx), (map_app _ _ [info]), <- (assoc_L (++) (map _ _)). cbn [map app].
        by rewrite (get_name _ _ Hg).
      * apply Forall_app. split; [done|]. constructor; [|done]. by rewrite (get_name _ _ Hg).
    + injection Hf as <-. pose proof (holds_elem _ _ _ Hx) as Hn. split; cbn; [done..|]. intros p' [= <-].
      exists name. split_and!; [|done|by intros E; rewrite E in Hn; apply elem_of_nil in Hn].
      rewrite <- Hp. apply elem_of_app. right. apply elem_of_app. by left.
  - destruct (results s) as [|r rest] eqn:Hr; [done|]. injection Hf as <-.
    split; cbn; [done|by rewrite <- (assoc_L (++) (vmlist s))|by rewrite <- (assoc_L (++) (vmlist s))|done].
Qed.
Lemma gathered_reachable names cpus s : reachable cpus names s → gathered names cpus s.
Proof.
  intros Hr. assert (gathered names cpus (begin cpus names)) as Hb.
  { clear Hr. split; [apply length_replicate| |constructor|done]. cbn. assert (omap id (replicate cpus (@None string)) = []) as ->; [|done].
    induction cpus as [|n IH]; [done|]. exact IH. }
  revert Hb. induction Hr; [done|]. intros Hb. apply IHHr. by eapply gathered_step.
Qed.

(** Steps that are left. *)
Definition left (s : state) : nat :=
  match crashed s with
  | Some _ => 0
  | None => 3 * length (jobs s) + 2 * length (omap id (workers s)) + length (results s)
  end%nat.

Lemma counted names cpus s : gathered names cpus s →
  (length (vmlist s) + length (results s) + length (omap id (workers s)) + length (jobs s) = length names)%nat.
Proof. intros [_ Hp _ _]. apply Permutation_length in Hp. rewrite !length_app, length_map, length_app in Hp. lia. Qed.

(** Some goroutine can go on. *)
Lemma goes_on names cpus s : (0 < cpus)%nat → gathered names cpus s → crashed s = None → length (vmlist s) ≠ length names →
  ∃ s', step s s'.
Proof.
  intros Hc Hg Hcr Hne. pose proof (counted _ _ _ Hg) as Hlen. destruct Hg as [Hw _ _ _].
  assert (∀ l s', (fire MachineGet MachineGetStatus MachineGetLifeTime l s = Some s') → ∃ s', step s s') as Hf by (intros l s' Hl; exists s'; by exists l).
  unfold fire in Hf. rewrite Hcr in Hf. destruct (results s) as [|r rest] eqn:Hres; [|by eapply (Hf Collect)].
  destruct (decide (omap id (workers s) = [])) as [He|(i & name & Hi)%holds_lookup].
  - destruct (jobs s) as [|name rest] eqn:Hj; [rewrite He in Hlen; cbn in Hlen; lia|].
    destruct (workers s) as [|w ws] eqn:Hws; [cbn in Hw; lia|]. destruct w as [w|]; [done|]. by eapply (Hf (Take 0)).
  - specialize (Hf (Put i)). rewrite decide_False in Hf by (intros [? [=]]). rewrite Hi in Hf. destruct (get name) as [info|e|p] eqn:Hg; [|by apply get_error in Hg|by eapply Hf].
    change (length []) with 0%nat in Hf. rewrite (proj2 (Nat.ltb_lt 0 _)) in Hf by lia. by eapply Hf.
Qed.

Lemma left_step s s' : step s s' → (left s' < left s)%nat.
Proof.
  intros [l Hf]. unfold fire in Hf. unfold left. destruct (crashed s) as [q|] eqn:Hcr; [by rewrite decide_True in Hf|].
  destruct (decide _); [done|]. destruct l as [i|i|].
  - destruct (workers s !! i) as [[w|]|] eqn:Hi; try done. destruct (jobs s) as [|name rest] eqn:Hj; [done|].
    injection Hf as <-. cbn. rewrite (Permutation_length (omap_insert_None _ _ name Hi)). cbn. lia.
  - destruct (workers s !! i) as [[name|]|] eqn:Hi; try done. pose proof (Permutation_length (omap_insert_Some _ _ name Hi)) as Hl. cbn in Hl.
    destruct (get name); [destruct (_ <? _)%nat; [|done]|done|]; injection Hf as <-; cbn; rewrite ?length_app; cbn; lia.
  - destruct (results s) as [|r rest]; [done|]. injection Hf as <-. cbn. lia.
Qed.

(** C25: however the workers are scheduled, the list of machines is complete unless
    asking for a machine panics, which ends the daemon: as long as the list is not
    there some goroutine can go on, there are at most three steps for each
    machine, and it has one entry for each of the names, which are different, in
    their order, with what there is to be told of that machine. *)
Theorem GetList_complete cpus names s : (0 < cpus)%nat → NoDup names → reachable cpus names s →
  (GetList names s = None → crashed s = None → ∃ s', step s s') ∧
  (∀ s', step s s' → (left s' < left s ≤ 3 * length names)%nat) ∧
  (∀ r, GetList names s = Some r → map Name r = Sort.SliceStable String.ltb names ∧
     Forall (λ i, get (Name i) = Ret i) r ∧ ∀ s', ¬ step s s') ∧
  (∀ p, crashed s = Some p → GetList names s = None ∧ ∃ name, name ∈ names ∧ get name = Panic p).
Proof.
  intros Hc Hn Hr. pose proof (gathered_reachable _ _ _ Hr) as Hg. pose proof (counted _ _ _ Hg) as Hlen.
  unfold GetList. split_and!.
  - destruct (Nat.eqb_spec (length (vmlist s)) (length names)); [done|]. intros _ Hcr. by eapply goes_on.
  - intros s' Hs. split; [by apply left_step|]. unfold left. destruct (crashed s); lia.
  - destruct (Nat.eqb_spec (length (vmlist s)) (length names)) as [He|]; [|done]. intros r [= <-].
    assert (results s = [] ∧ omap id (workers s) = [] ∧ jobs s = []) as (Hres & Hom & Hj) by (split_and!; apply length_zero_iff_nil; lia).
    destruct Hg as [_ Hp Hi _]. rewrite Hres, Hom, Hj in *. rewrite !app_nil_r in *. split_and!.
    + unfold by_name. rewrite SliceStable_key. by apply (SliceStable_unique id); [rewrite map_id, Hp|].
    + by rewrite SliceStable_perm.
    + intros s' [l Hf]. unfold fire in Hf. destruct (decide _); [done|]. destruct l as [i|i|]; rewrite ?Hj, ?Hres in Hf; [by repeat case_match| |done].
      destruct (workers s !! i) as [[name|]|] eqn:Hx; try done. apply holds_elem in Hx. rewrite Hom in Hx. by apply elem_of_nil in Hx.
  - intros p Hcr. destruct (gathered_panic _ _ _ Hg p Hcr) as (name & Hin & Hp & Hom). split; [|by exists name].
    destruct (Nat.eqb_spec (length (vmlist s)) (length names)) as [He|]; [|done]. destruct Hom. apply length_zero_iff_nil. lia.
Qed.
End list.
End MachinesFacts.

(** Two machines and two workers, the second of which is the faster. *)
Module MachinesExample.
Import Machines MachinesFacts.

Definition known (name : string) : outcome string := if decide (name = "gone") then Throw (ErrNotFound name) else Ret name.
Definition up (_ : string) : outcome InstanceState := Ret StateRunning.
Definition age (_ : string) : outcome Z := Ret 5%Z.

Fixpoint go (ls : list label) (s : @state string) : option state :=
  match ls with [] => Some s | l :: ls => s ← fire known up age l s; go ls s end.
Lemma machines_go_reachable cpus names ls s : go ls (begin cpus names) = Some s → reachable known up age cpus names s.
Proof.
  unfold reachable. generalize (@begin string cpus names). induction ls as [|l ls IH]; intros s0; cbn; [by intros [= ->]|].
  destruct (fire known up age l s0) as [s1|] eqn:E; [|done]. intros Hg. eapply rtc_l; [by exists l|by apply IH].
Qed.
Definition schedule : list label := [Take 0; Take 1; Put 1; Collect; Put 0; Collect].
Definition end_state : @state string := default (begin 2 []) (go schedule (begin 2 ["vm0"; "gone"])).
Example GetList_complete_witness :
  ∃ r, GetList ["vm0"; "gone"] end_state = Some r ∧ map Name r = ["gone"; "vm0"] ∧ map State r = [StateNoState; StateRunning].
Proof.
  destruct (GetList_complete known up age 2 ["vm0"; "gone"] end_state) as (_ & _ & Hr & _).
  - lia.
  - apply NoDup_cons. split; [set_solver|]. apply NoDup_singleton.
  - apply (machines_go_reachable _ _ schedule). vm_compute. reflexivity.
  - destruct (GetList ["vm0"; "gone"] end_state) as [r|] eqn:E; [|vm_compute in E; discriminate].
    exists r. split; [reflexivity|]. destruct (Hr r eq_refl) as [Hnames _]. split; [rewrite Hnames; vm_compute; reflexivity|].
    vm_compute in E. injection E as <-. reflexivity.
Defined.
End MachinesExample.

(** ** The devices *)

Module DevicesFacts.
Import SortFacts PciDevice Devices.

Section list.
Context `{Sysfs} (DB : option IdsDb.DB) (fuel limit : nat) (files : list (string * bool)).
Abbreviation lookup h := (lookup DB fuel h []).
Abbreviation fire := (fire DB fuel limit).
Abbreviation reachable := (reachable DB fuel limit files).

(** A device of a name in the directory, or one of its subdevices. *)
Definition genuine (d : Device) : Prop :=
  ∃ h, (h, true) ∈ files ∧ (lookup h = Some (Ret d) ∨ ∃ p, lookup h = Some (Ret p) ∧ d ∈ subdevices p).
(** The device of a name. *)
Definition covers (h : string) (d : Device) : Prop := lookup h = Some (Ret d) ∨ to_string d = h.
Definition gone (h : string) : Prop := ∃ x, lookup h = Some (Throw (ErrNotFound x)).

Definition listed (s : state) : list Device := devices s ++ option_list (held s).
Definition covered (l : list Device) (h : string) : Prop := ∃ d, d ∈ l ∧ covers h d.

Definition worker_ok (l : list Device) (err : option goerr) (w : worker) : Prop :=
  match w with
  | Looking h => (h, true) ∈ files
  | Sending d key subs => genuine d ∧ Forall genuine subs ∧ covers key d
  | Storing key subs => Forall genuine subs ∧ covered l key
  | Checking subs => Forall genuine subs
  | Left (Some _) => err ≠ None
  | Left None => True
  end.
Definition serving (h : string) (w : worker) : Prop :=
  match w with Looking k | Sending _ k _ | Storing k _ => k = h | _ => False end.
(** A name is not forgotten. *)
Definition handled (h : string) (s : state) : Prop :=
  group_error s ≠ None ∨ gone h ∨ (h, true) ∈ names s ∨ listing s = Spawning h ∨ h ∈ syncMap s ∨ Exists (serving h) (workers s).

Record inv (s : state) : Prop := {
  inv_names : names s ⊆ files ∧ ∀ h, listing s = Spawning h → (h, true) ∈ files;
  inv_end : listing s = Listed → names s = [] ∨ group_error s ≠ None;
  inv_workers : Forall (worker_ok (listed s) (group_error s)) (workers s);
  inv_genuine : Forall genuine (listed s);
  inv_seen : ∀ h, h ∈ syncMap s → covered (listed s) h;
  inv_handled : ∀ h, (h, true) ∈ files → handled h s;
  inv_returned : ∀ ds, returned s = Some (Ret ds) →
    running s = 0%nat ∧ group_error s = None ∧ ∃ rest, ds ++ rest ≡ₚ listed s ∧ (length rest ≤ 1)%nat;
}.

Lemma devices_inv_begin : inv (begin files).
Proof. split; try done. intros h Hh. do 2 right. by left. Qed.

(** A worker that moves on. *)
Lemma exists_insert {A} (P : A → Prop) l i x y : l !! i = Some x → Exists P l → P x ∨ Exists P (<[i := y]> l).
Proof.
  intros Hi (z & Hz & HP)%Exists_exists. apply list_elem_of_lookup in Hz as [j Hj].
  destruct (decide (i = j)) as [-> | Hn]; [left; by simplify_eq|right].
  apply Exists_exists. exists z. split; [|done]. apply list_elem_of_lookup. exists j. by rewrite list_lookup_insert_ne.
Qed.
Lemma exists_inserted {A} (P : A → Prop) l i x y : l !! i = Some x → P y → Exists P (<[i := y]> l).
Proof.
  intros Hi HP. apply Exists_exists. exists y. split; [|done]. apply list_elem_of_lookup. exists i.
  apply list_lookup_insert_eq. by eapply lookup_lt_Some.
Qed.
Lemma not_running s : running s = 0%nat → listing s = Listed ∧ ∀ w, w ∈ workers s → ∃ e, w = Left e.
Proof.
  unfold running. intros Hr. split; [by destruct (listing s)|]. intros w Hw.
  destruct (active w) eqn:E; [|destruct w; try done; by eexists].
  assert (w ∈ filter (λ w, active w = true) (workers s)) as Hf by (by apply list_elem_of_filter).
  destruct (filter _ _); [by apply elem_of_nil in Hf|]. cbn in Hr. destruct (listing s); lia.
Qed.

(** What the group knows only grows. *)
Lemma worker_ok_mono l l' err err' w : l ⊆ l' → (err ≠ None → err' ≠ None) → worker_ok l err w → worker_ok l' err' w.
Proof.
  intros Hl He. destruct w as [h|d key subs|key subs|subs|[e|]]; cbn; try done; try tauto.
  intros [? (d & Hd & Hc)]. split; [done|]. exists d. split; [by apply Hl|done].
Qed.

(** A step of the goroutine that goes through the names. *)
Lemma lister_inv s s' : inv s → listing s ≠ Listed →
  names s' ⊆ names s → (∀ h, listing s' = Spawning h → (h, true) ∈ files) →
  (listing s' = Listed → names s' = [] ∨ group_error s' ≠ None) →
  Forall (worker_ok (listed s') (group_error s')) (workers s') →
  listed s' = listed s → group_error s' = group_error s → syncMap s' = syncMap s → returned s' = returned s →
  (∀ h, handled h s → handled h s') → inv s'.
Proof.
  intros [[Hn Hsp] He Hw Hg Hs Hh Hr] Hl Hn' Hsp' He' Hw' El Eg Em Er Hh'. split.
  - split; [by etransitivity|done].
  - done.
  - done.
  - by rewrite El.
  - by rewrite El, Em.
  - auto.
  - intros ds E. rewrite Er in E. destruct (Hr ds E) as [Hrun _]. by apply not_running in Hrun as [? _].
Qed.

Lemma list_step_inv s s' : inv s → list_step limit s = Some s' → inv s'.
Proof.
  intros Hinv. pose proof Hinv as [[Hn Hsp] _ Hw _ _ _ _]. unfold list_step. destruct (listing s) as [|h|] eqn:El; [| |done].
  - destruct (names s) as [|[h link] rest] eqn:En; intros [= <-].
    { apply (lister_inv s); rewrite ?El, ?En; try done; [by left|]. unfold handled. cbn. rewrite En, El. naive_solver. }
    case_bool_decide as Hge.
    { apply (lister_inv s); rewrite ?El, ?En; try done; [by right|]. intros h' _. by left. }
    assert (∀ l, (l = Going ∧ (link = false ∨ h ∈ syncMap s) ∨ l = Spawning h ∧ link = true) → inv (set_listing l rest s)) as Hmove.
    { intros l Hl. apply (lister_inv s); rewrite ?El; try done; cbn.
      - rewrite En. set_solver.
      - intros h' ->. destruct Hl as [[] | [[= <-] ->]]; [done|]. apply Hn. left.
      - by destruct Hl as [[-> _]|[-> _]].
      - unfold handled. cbn. rewrite En, El. intros h' [?|[?|[Hin|[?|[?|?]]]]]; [by auto|by auto| |done|by auto 8|by auto 8].
        apply elem_of_cons in Hin as [[= -> <-]|Hin]; [|by auto]. destruct Hl as [[-> [?|?]]|[-> _]]; [done|by auto 8|by auto]. }
    destruct link; cbn [negb]; [case_bool_decide|]; apply Hmove; auto.
  - case_match; [|done]. intros [= <-]. apply (lister_inv s); rewrite ?El; try done; cbn.
    + apply Forall_app. split; [done|]. apply Forall_singleton. by apply Hsp.
    + unfold handled. cbn. rewrite El.
      intros h' [?|[?|[?|[[= ->]|[?|?]]]]]; auto 8; do 5 right; apply Exists_app; [right; by apply Exists_cons; left|by left].
Qed.

(** A worker's step: its place changes, and what it leaves behind is known. *)
Lemma move_inv s i w w' s' : inv s → workers s !! i = Some w → (∀ e, w ≠ Left e) →
  workers s' = <[i := w']> (workers s) → names s' = names s → listing s' = listing s → returned s' = returned s →
  syncMap s ⊆ syncMap s' → (∀ h, h ∈ syncMap s' → covered (listed s') h) →
  listed s ⊆ listed s' → Forall genuine (listed s') →
  (group_error s ≠ None → group_error s' ≠ None) → worker_ok (listed s') (group_error s') w' →
  (∀ h, serving h w → group_error s' ≠ None ∨ gone h ∨ h ∈ syncMap s' ∨ serving h w') → inv s'.
Proof.
  intros [[Hn Hsp] He Hw Hg Hs Hh Hr] Hi Ha Ew En El Er Hss Hs' Hl Hg' Hge Hw' Hserve. split.
  - by rewrite En, El.
  - rewrite El, En. intros E. destruct (He E); auto.
  - rewrite Ew. apply Forall_insert; [|done]. eapply Forall_impl; [exact Hw|]. intros x. by apply worker_ok_mono.
  - done.
  - done.
  - intros h Hh'. specialize (Hh h Hh'). unfold handled in *. rewrite En, El, Ew.
    destruct Hh as [?|[?|[?|[?|[?|Hx]]]]]; auto 8. destruct (exists_insert _ _ i w w' Hi Hx) as [Hx'|Hx']; [|by auto 8].
    destruct (Hserve h Hx') as [?|[?|[?|?]]]; auto 8. do 5 right. by eapply exists_inserted.
  - intros ds E. rewrite Er in E. destruct (Hr ds E) as [Hrun _]. apply not_running in Hrun as [_ Hx].
    destruct (Hx w) as [e ->]; [by eapply list_elem_of_lookup_2|]. by destruct (Ha e).
Qed.

Lemma worker_step_inv s i w s' : inv s → workers s !! i = Some w → worker_step DB fuel i w s = Some s' → inv s'.
Proof.
  intros Hinv Hi. pose proof Hinv as [_ _ Hw Hg Hs _ _]. pose proof (Forall_lookup_1 _ _ _ _ Hw Hi) as Hok.
  destruct w as [h|d key subs|key subs|[|sub subs]|e]; cbn [worker_step]; cbn in Hok.
  - destruct (lookup h) as [r|] eqn:E; [|done]. cbn. destruct r as [d|e|q]; [| |done].
    + intros [= <-]. eapply (move_inv s i _ (Sending d h (subdevices d))); try done; cbn.
      * split_and!; [by exists h; auto| |by left]. apply Forall_forall. intros u Hu. exists h. split; [done|]. right. by exists d.
      * auto.
    + assert (∀ s', s' = report e (set_worker i (Left (Some e)) s) → inv s') as Herr.
      { intros s1 ->. eapply (move_inv s i _ (Left (Some e))); try done; cbn; auto. }
      destruct e; intros [= <-]; try (by apply Herr). eapply (move_inv s i _ (Left None)); try done; cbn.
      intros h' <-. right. left. by eexists.
  - destruct Hok as (Hd & Hsubs & Hc). destruct (held s) eqn:Eh; [done|]. intros [= <-].
    assert (listed s ⊆ listed (receive d (set_worker i (Storing key subs) s))) as Hl.
    { unfold listed. cbn. rewrite Eh. set_solver. }
    eapply (move_inv s i _ (Storing key subs)); try done; cbn.
    + intros h Hh. destruct (Hs h Hh) as (d' & Hd' & Hc'). exists d'. split; [by apply Hl|done].
    + unfold listed in *. cbn. rewrite Eh in Hg. cbn in Hg. rewrite app_nil_r in Hg. apply Forall_app. split; [done|by apply Forall_singleton].
    + split; [done|]. exists d. split; [|done]. unfold listed. cbn. set_solver.
    + auto.
  - destruct Hok as [Hsubs Hc]. intros [= <-]. eapply (move_inv s i _ (Checking subs)); try done; cbn.
    + set_solver.
    + intros h [->%elem_of_singleton|Hh]%elem_of_union; [done|by apply Hs].
    + intros h <-. right. right. left. set_solver.
  - intros [= <-]. by eapply (move_inv s i _ (Left None)).
  - apply Forall_cons in Hok as [Hsub Hsubs]. intros [= <-]. case_bool_decide.
    + by eapply (move_inv s i _ (Checking subs)).
    + eapply (move_inv s i _ (Sending sub (to_string sub) subs)); try done. split_and!; [done|done|by right].
  - done.
Qed.

Lemma receiver_inv s d : inv s → held s = Some d → inv (append d s).
Proof.
  intros [[Hn Hsp] He Hw Hg Hs Hh Hr] Hd. assert (listed (append d s) = listed s) as El.
  { unfold listed. cbn. rewrite Hd. by rewrite app_nil_r. }
  split; rewrite ?El; try done.
Qed.

Lemma devices_main_step_inv s s' : inv s → main_step s = Some s' → inv s'.
Proof.
  intros [[Hn Hsp] He Hw Hg Hs Hh Hr]. unfold main_step. destruct (Nat.eqb_spec (running s) 0) as [E|]; [|done].
  cbn [andb]. case_bool_decide; [|done]. intros [= <-]. split; try done. intros ds [= Hds].
  destruct (group_error s) eqn:Ge; [done|]. injection Hds as <-. split_and!; [done|done|].
  exists (option_list (held s)). split; [|by destruct (held s); cbn; lia]. unfold listed. cbn. by rewrite SliceStable_perm.
Qed.

Lemma devices_reachable_inv s : reachable s → inv s.
Proof.
  unfold reachable. generalize devices_inv_begin. generalize (begin files). intros s0 H0 Hr. induction Hr as [|s1 s2 s3 [l Hf] _ IH]; [done|].
  apply IH. destruct l as [|i| |]; cbn in Hf.
  - by eapply list_step_inv.
  - destruct (workers s1 !! i) as [w|] eqn:E; [|done]. by eapply worker_step_inv.
  - destruct (held s1) as [d|] eqn:E; [|done]. injection Hf as <-. by apply receiver_inv.
  - by eapply devices_main_step_inv.
Qed.

(** a list of the devices that is returned holds devices of the bus only, and,
    but for one that may still be on its way, each name of the directory, or a
    subdevice of that address. *)
Theorem DeviceList_but_one s ds : reachable s → returned s = Some (Ret ds) →
  Forall genuine ds ∧ ∃ rest, (length rest ≤ 1)%nat ∧
    ∀ h, (h, true) ∈ files → gone h ∨ ∃ d, d ∈ ds ++ rest ∧ covers h d.
Proof.
  intros Hr%devices_reachable_inv E. destruct Hr as [_ He Hw Hg Hs Hh Hret]. destruct (Hret ds E) as (Hrun & Hge & rest & Hp & Hl).
  apply not_running in Hrun as [El Hleft]. split.
  { rewrite <- Hp in Hg. by apply Forall_app in Hg as [? _]. }
  exists rest. split; [done|]. intros h Hin. destruct (Hh h Hin) as [?|[?|[Hx|[?|[Hx|Hx]]]]]; [done|by left| |congruence| |].
  - destruct (He El) as [En|?]; [|done]. rewrite En in Hx. by apply elem_of_nil in Hx.
  - right. destruct (Hs h Hx) as (d & Hd & Hc). exists d. split; [by rewrite Hp|done].
  - apply Exists_exists in Hx as (w & Hw' & Hx). by destruct (Hleft w Hw') as [e ->].
Qed.

(** With a single place, which the goroutine that goes through the names has. *)
Definition waiting (h : string) (s : state) : Prop :=
  workers s = [] ∧ group_error s = None ∧ held s = None ∧ syncMap s = ∅ ∧ returned s = None ∧
  ((∃ k, listing s = Spawning k) ∨ listing s = Going ∧ (h, true) ∈ names s).

(** C26: on a host with a single CPU the list of the devices is never returned. *)
Theorem DeviceList_blocks h s : limit = 1%nat → (h, true) ∈ files → reachable s → returned s = None.
Proof.
  intros Hlim Hh Hr. enough (waiting h s) as (_ & _ & _ & _ & ? & _) by done.
  assert (waiting h (begin files)) as H0 by (repeat split; by right).
  revert H0. unfold reachable in Hr. induction Hr as [|s1 s2 s3 [l Hf] _ IH]; [done|].
  intros (Hw & Hg & Hd & Hm & Ht & Hl). apply IH. destruct l as [|i| |]; cbn in Hf.
  - unfold list_step in Hf. destruct Hl as [[k El]|[El Hin]]; rewrite El in Hf.
    + unfold running in Hf. rewrite El, Hw, Hlim in Hf. done.
    + destruct (names s1) as [|[k link] rest]; [by apply elem_of_nil in Hin|]. rewrite Hg, Hm in Hf.
      rewrite bool_decide_eq_false_2 in Hf by tauto. rewrite (bool_decide_eq_false_2 (k ∈ ∅)) in Hf by set_solver.
      destruct link; cbn in Hf; injection Hf as <-; repeat split; cbn; try done.
      * left. by eexists.
      * right. split; [done|]. by apply elem_of_cons in Hin as [[=]|].
  - by rewrite Hw in Hf.
  - by rewrite Hd in Hf.
  - unfold main_step, running in Hf. rewrite Hw in Hf. by destruct Hl as [[k El]|[El _]]; rewrite El in Hf.
Qed.

Lemma devices_go_reachable ls s : go DB fuel limit ls (begin files) = Some s → reachable s.
Proof.
  unfold reachable. generalize (begin files). induction ls as [|l ls IH]; intros s0; cbn; [by intros [= ->]|].
  destruct (fire l s0) as [s1|] eqn:E; [|done]. intros Hg. eapply rtc_l; [by exists l|by apply IH].
Qed.
End list.
End DevicesFacts.

(** A display and its audio function. *)
Module DevicesExample.
Import PciSample PciDevice Devices DevicesFacts.

Definition bus : list (string * bool) := [("0000:01:00.0", true); ("0000:01:00.1", true)].
(** The first worker hands both over before the second name is looked at. *)
Definition all : list label := [Lister; Lister; Worker 0; Worker 0; Receiver; Worker 0; Worker 0; Worker 0; Receiver; Worker 0; Worker 0; Lister; Lister; Main].
(** The function is faster than the one that receives. *)
Definition hasty : list label := [Lister; Lister; Worker 0; Worker 0; Receiver; Worker 0; Worker 0; Worker 0; Worker 0; Worker 0; Lister; Lister; Main].
Definition run (limit : nat) (ls : list label) : state := default (begin bus) (go (Some DB) 3 limit ls (begin bus)).
Definition addresses (s : state) : option (outcome (list string)) :=
  match returned s with Some (Ret ds) => Some (Ret (map to_string ds)) | Some (Throw e) => Some (Throw e) | _ => None end.

Example DeviceList_but_one_witness :
  addresses (run 4 all) = Some (Ret ["0000:01:00.0"; "0000:01:00.1"]) ∧
  ∃ ds, returned (run 4 all) = Some (Ret ds) ∧ Forall (genuine (Some DB) 3 bus) ds.
Proof.
  split; [vm_compute; reflexivity|].
  destruct (returned (run 4 all)) as [[ds|e|q]|] eqn:E; [|vm_compute in E; discriminate..].
  exists ds. split; [reflexivity|].
  apply (DeviceList_but_one (Some DB) 3 4 bus (run 4 all) ds); [|exact E].
  apply (devices_go_reachable (Some DB) 3 4 bus all). vm_compute. reflexivity.
Defined.

(** The one on its way may be missing. *)
Example DeviceList_loses : addresses (run 4 hasty) = Some (Ret ["0000:01:00.0"]).
Proof. vm_compute. reflexivity. Qed.

Example DeviceList_blocks_witness : returned (run 1 [Lister]) = None ∧ listing (run 1 [Lister]) = Spawning "0000:01:00.0".
Proof.
  split; [|vm_compute; reflexivity]. apply (DeviceList_blocks (Some DB) 3 1 bus "0000:01:00.0"); [reflexivity|left|].
  apply (devices_go_reachable (Some DB) 3 1 bus [Lister]). vm_compute. reflexivity.
Defined.
End DevicesExample.
