(* ===== verification/CloudInit.v ===== *)
(** CloudInit: the image with the data of cloud-init ([internal/cloudinit],
    [server/cloudinit]).

    [gopkg.in/yaml.v3] is a parameter.  [GenImage] asks the host for a directory,
    for files and for a program; what is asked is a log, and the answers are those
    of a strategy. *)

From S2P Require Import Prelude.
From S2P Require Import GoStd.
From S2P Require Import Backend.
From S2P Require Import Json.
From S2P Require Import InstanceConf.
From S2P Require Import ConfJson.
From S2P Require Import Ip.

Open Scope Z_scope.
#[local] Set Warnings "-register-all".

Record MetadataConfig := {
  DSMode : string; InstanceID : string; LocalHostname : string; Platform : string;
  Subplatform : string; Cloudname : string; Region : string; AvailabilityZone : string;
}.
Record EthernetConfig := { MacAddress : string; Addresses : list string; Gateway4 : string; Gateway6 : string }.
(** What is written of it: the address is there under two names. *)
Record EthernetYaml := {
  macaddress : string; mac_address : string; addresses : list string; gateway4 : string; gateway6 : string;
}.
Definition MarshalYAML (c : EthernetConfig) : EthernetYaml :=
  {| macaddress := MacAddress c; mac_address := MacAddress c; addresses := Addresses c;
     gateway4 := Gateway4 c; gateway6 := Gateway6 c |}.
Record NetworkConfig := { Version : Z; Ethernets : gmap string EthernetConfig }.

(** The YAML package: its values, reading and writing. *)
Class Yaml (Y : Type) := {
  y_string : string → Y;
  y_bool : bool → Y;
  yaml_Check : string → sys ();
  yaml_Unmarshal : string → option (gmap string Y) → sys (option (gmap string Y));
  yaml_Marshal : gmap string Y → sys string;
  yaml_Metadata : MetadataConfig → sys string;
  yaml_Network : Z → gmap string EthernetYaml → sys string;
}.

(** What is asked of the host. *)
Inductive iso_call :=
  | LookPath (file : string)
  | MkdirTemp (dir pattern : string)
  | WriteFile (path content : string)
  | Run (program : string) (args : list string)
  | Rename (oldpath newpath : string)
  | RemoveAll (path : string).
Class IsoHost := iso_answer : list iso_call → iso_call → sys string.
#[export] Instance iso_call_eq_dec : EqDecision iso_call.
Proof. solve_decision. Defined.

(** ** [internal/cloudinit] *)

Module Image.
Import Strings.

Section image.
Context {Y : Type} `{Yaml Y, IsoHost}.
Abbreviation call := (op (list iso_call)).

Record Data := {
  Meta : MetadataConfig; Network : NetworkConfig; Hostname : string; Domain : string; Timezone : string;
  Vendor : option (gmap string Y); User : option (gmap string Y);
}.

Definition ask (c : iso_call) : call string := λ log, (Backend.call (iso_answer log c), log ++ [c]).

Definition or_default (s d : string) : string := if bool_decide (TrimSpace s = "") then d else s.

(** A key that the vendor's data does not have. *)
Definition unless_there (key : string) (cond : bool) (add : gmap string Y → gmap string Y) (m : gmap string Y) : gmap string Y :=
  if bool_decide (m !! key = None) && cond then add m else m.
Definition nonempty (s : string) : bool := negb (bool_decide (s = "")).

Definition vendor_data (hostname domain timezone : string) (m : gmap string Y) : gmap string Y :=
  unless_there "timezone" (nonempty timezone) (λ m, <["timezone" := y_string timezone]> m)
    (unless_there "hostname" (nonempty hostname) (λ m,
       <["manage_etc_hosts" := y_string "localhost"]>
       (<["fqdn" := y_string (hostname +:+ "." +:+ domain)]>
        (<["create_hostname_file" := y_bool true]> (<["hostname" := y_string hostname]> m)))) m).

(** The data as it is used. *)
Definition completed (data : Data) : Data :=
  let hostname := TrimSpace (Hostname data) in
  let domain := if bool_decide (TrimSpace (Domain data) = "") then "localdomain" else TrimSpace (Domain data) in
  let timezone := TrimSpace (Timezone data) in
  {| Meta := {| DSMode := or_default (DSMode (Meta data)) "local"; InstanceID := InstanceID (Meta data);
                LocalHostname := LocalHostname (Meta data); Platform := or_default (Platform (Meta data)) "nocloud";
                Subplatform := Subplatform (Meta data); Cloudname := Cloudname (Meta data);
                Region := Region (Meta data); AvailabilityZone := AvailabilityZone (Meta data) |};
     Network := Network data; Hostname := hostname; Domain := domain; Timezone := timezone;
     Vendor := Some (vendor_data hostname domain timezone (default ∅ (Vendor data)));
     User := Some (default ∅ (User data)) |}.

Definition header : string := "#cloud-config" +:+ String "010" "".
Definition cloud_config (m : gmap string Y) : outcome string :=
  if bool_decide (m = ∅) then Ret header else b ← Backend.call (yaml_Marshal m); Ret (header +:+ b).

Definition write (path : string) (content : outcome string) : call () :=
  b ← lift content; _ ← ask (WriteFile path b); mret ().

(** What is done in the temporary directory. *)
Definition build (genisoimage outfile tmpdir : string) (data : Data) : call () :=
  let imageFile := Filepath.Join [tmpdir; "image"] in
  let userFile := Filepath.Join [tmpdir; "user-data"] in
  let metaFile := Filepath.Join [tmpdir; "meta-data"] in
  let vendorFile := Filepath.Join [tmpdir; "vendor-data"] in
  let netFile := Filepath.Join [tmpdir; "network-config"] in
  write vendorFile (cloud_config (default ∅ (Vendor data)));;
  write userFile (cloud_config (default ∅ (User data)));;
  write metaFile (Backend.call (yaml_Metadata (Meta data)));;
  write netFile (Backend.call (yaml_Network (Version (Network data)) (MarshalYAML <$> Ethernets (Network data))));;
  map_err (λ _, ErrMsg "genisoimage failed")
    (ask (Run genisoimage ["-output"; imageFile; "-volid"; "cidata"; "-joliet"; "-rock"; userFile; metaFile; vendorFile; netFile]));;
  _ ← ask (Rename imageFile outfile); mret ().

(** [defer os.RemoveAll(tmpdir)], whose error is not looked at. *)
Definition then_remove {A} (tmpdir : string) (m : call A) : call A := λ log,
  let '(r, log) := m log in (r, (ask (RemoveAll tmpdir) log).2).

Definition GenImage (data : Data) (outfile : string) : call () :=
  fail_if (bool_decide (Filepath.Base outfile = "")) (ErrMsg "output file must be set");;
  genisoimage ← ask (LookPath "genisoimage");
  fail_if (bool_decide (InstanceID (Meta data) = "")) (ErrMsg "instance-id key must be defined");;
  tmpdir ← ask (MkdirTemp (Filepath.Dir outfile) ".cidata-*");
  then_remove tmpdir (build genisoimage outfile tmpdir (completed data)).
End image.
End Image.

(** ** [server/cloudinit] *)

Module CloudInit.
Import Strings Json Ip IpNet Image.

Record CloudInitOptions := {
  opt_Platform : string; opt_Subplatform : string; opt_Cloudname : string; opt_Region : string; opt_AvailabilityZone : string;
  opt_Hostname : string; opt_Domain : string; opt_Timezone : string; VendorConfig : string; UserConfig : string;
}.

(** The last address of the network, but for the smallest networks. *)
Definition AutoDefaultRoute (addr : IPNet) : option Z :=
  let odd := (ones addr =? 0) && (bits addr =? 0) in
  match To4 (IP addr) with
  | Some _ =>
      if (30 <? ones addr) || odd then ParseIP "10.11.11.11"
      else match GetLastIPv4 addr with Ret last => Some (v4_mapped last) | _ => None end
  | None =>
      if (64 <? ones addr) || odd then None
      else match GetLastIPv6 addr with Ret last => Some last | _ => None end
  end.

(** *** The files *)

Record netif := { Name : string; Hwaddr : string }.
Record scheme := {
  sch_ID : string; sch_Name : string; sch_Scheme : string; sch_Addrs : list string; sch_Gateway4 : string; sch_Gateway6 : string;
  sch_DefaultGateway : string;
}.
Definition netif_fields : list (string * decoder netif) :=
  [("ifname", on Name (λ v n, {| Name := v; Hwaddr := Hwaddr n |}) dec_string);
   ("hwaddr", on Hwaddr (λ v n, {| Name := Name n; Hwaddr := v |}) dec_string)].
(** A slice of values: [null] leaves the zero value. *)
Definition dec_values {T} (zero : T) (d : decoder T) : decoder (list T) := λ j _,
  l ← dec_slice zero d j; Ret (map (default zero) l).
Definition set_scheme (id name sch : string) (addrs : list string) (g4 g6 dg : string) : scheme :=
  {| sch_ID := id; sch_Name := name; sch_Scheme := sch; sch_Addrs := addrs; sch_Gateway4 := g4; sch_Gateway6 := g6;
     sch_DefaultGateway := dg |}.
Definition scheme_fields : list (string * decoder scheme) :=
  [("id", on sch_ID (λ v s, set_scheme v (sch_Name s) (sch_Scheme s) (sch_Addrs s) (sch_Gateway4 s) (sch_Gateway6 s) (sch_DefaultGateway s)) dec_string);
   ("ifname", on sch_Name (λ v s, set_scheme (sch_ID s) v (sch_Scheme s) (sch_Addrs s) (sch_Gateway4 s) (sch_Gateway6 s) (sch_DefaultGateway s)) dec_string);
   ("scheme", on sch_Scheme (λ v s, set_scheme (sch_ID s) (sch_Name s) v (sch_Addrs s) (sch_Gateway4 s) (sch_Gateway6 s) (sch_DefaultGateway s)) dec_string);
   ("ips", on sch_Addrs (λ v s, set_scheme (sch_ID s) (sch_Name s) (sch_Scheme s) v (sch_Gateway4 s) (sch_Gateway6 s) (sch_DefaultGateway s)) (dec_values "" dec_string));
   ("gateway4", on sch_Gateway4 (λ v s, set_scheme (sch_ID s) (sch_Name s) (sch_Scheme s) (sch_Addrs s) v (sch_Gateway6 s) (sch_DefaultGateway s)) dec_string);
   ("gateway6", on sch_Gateway6 (λ v s, set_scheme (sch_ID s) (sch_Name s) (sch_Scheme s) (sch_Addrs s) (sch_Gateway4 s) v (sch_DefaultGateway s)) dec_string);
   ("default_gateway", on sch_DefaultGateway (λ v s, set_scheme (sch_ID s) (sch_Name s) (sch_Scheme s) (sch_Addrs s) (sch_Gateway4 s) (sch_Gateway6 s) v) dec_string)].
Definition netif_zero : netif := {| Name := ""; Hwaddr := "" |}.
Definition scheme_zero : scheme := set_scheme "" "" "" [] "" "" "".

(** A file that is JSON. *)
Definition read_json (fs : ConfJson.files) (path : string) : outcome json :=
  match fs !! path with
  | None => Throw (ErrNotExist path)
  | Some None => Throw (ErrMsg "invalid character")
  | Some (Some j) => Ret j
  end.

Definition macaddrs (fs : ConfJson.files) (vmdir : string) : outcome (gmap string string) :=
  j ← read_json fs (Filepath.Join [vmdir; "config"]);
  l ← dec_struct [("network", dec_values netif_zero (dec_struct netif_fields))] j [];
  Ret (foldl (λ m n, <[Name n := Hwaddr n]> m) ∅ l).

Section server.
Context {Y : Type} `{Yaml Y, IsoHost, Netlink}.

(** The addresses of a scheme, those of version 4 first. *)
Fixpoint networks (ips : list string) : outcome (list IPNet * list IPNet) :=
  match ips with
  | [] => Ret ([], [])
  | s :: ips =>
      n ← ParseIPNet s;
      r ← networks ips;
      Ret (match To4 (IP n) with Some _ => (n :: r.1, r.2) | None => (r.1, n :: r.2) end)
  end.
Definition gateway (nets : list IPNet) (text : string) : option Z :=
  match nets with
  | [] => None
  | n :: _ => if bool_decide (text = "") then None else if bool_decide (text = "auto") then AutoDefaultRoute n else ParseIP text
  end.
Definition gateway_text (g : option Z) : string := match g with Some ip => IP_String ip | None => "" end.

Definition ethernet (mac : string) (s : scheme) : outcome (string * EthernetConfig) :=
  let id := TrimSpace (sch_ID s) in
  let g4 := if bool_decide (sch_Gateway4 s = "") && nonempty (sch_DefaultGateway s) then sch_DefaultGateway s else sch_Gateway4 s in
  nets ← networks (sch_Addrs s);
  Ret (if bool_decide (id = "") then "net-" +:+ sch_Name s else id,
       {| MacAddress := mac; Addresses := sch_Addrs s; Gateway4 := gateway_text (gateway nets.1 (TrimSpace g4));
          Gateway6 := gateway_text (gateway nets.2 (TrimSpace (sch_Gateway6 s))) |}).

Fixpoint ethernets (macs : gmap string string) (l : list scheme) (m : gmap string EthernetConfig)
    : outcome (gmap string EthernetConfig) :=
  match l with
  | [] => Ret m
  | s :: l =>
      match macs !! sch_Name s, sch_Addrs s with
      | Some mac, _ :: _ => e ← ethernet mac s; ethernets macs l (<[e.1 := e.2]> m)
      | _, _ => ethernets macs l m
      end
  end.

Definition buildEthernetsConfig (fs : ConfJson.files) (vmdir : string) : outcome (gmap string EthernetConfig) :=
  macs ← macaddrs fs vmdir;
  j ← read_json fs (Filepath.Join [vmdir; "config_network"]);
  l ← dec_values scheme_zero (dec_struct scheme_fields) j [];
  ethernets macs l ∅.

(** [Validate], with what it makes of the options. *)
Definition Validate (o : CloudInitOptions) (strict : bool) : outcome CloudInitOptions :=
  let o := {| opt_Platform := opt_Platform o; opt_Subplatform := opt_Subplatform o; opt_Cloudname := opt_Cloudname o;
              opt_Region := opt_Region o; opt_AvailabilityZone := opt_AvailabilityZone o;
              opt_Hostname := TrimSpace (opt_Hostname o); opt_Domain := TrimSpace (opt_Domain o);
              opt_Timezone := TrimSpace (opt_Timezone o); VendorConfig := VendorConfig o; UserConfig := UserConfig o |} in
  if strict then
    match yaml_Check (VendorConfig o) with
    | inr _ => Throw (ErrMsg "invalid vendor-data struct")
    | inl _ => match yaml_Check (UserConfig o) with inr _ => Throw (ErrMsg "invalid user-data struct") | inl _ => Ret o end
    end
  else Ret o.

(** A document, when there is one. *)
Definition document (s : string) : outcome (option (gmap string Y)) :=
  if nonempty s then Backend.call (yaml_Unmarshal s None) else Ret None.

(** [conf] is what [GetInstanceConf] gives. *)
Definition BuildImage (conf : outcome InstanceConf.InstanceConf) (fs : ConfJson.files) (vmname : string)
    (opts : option CloudInitOptions) (outfile : string) : op (list iso_call) string :=
  let vmdir := Filepath.Join [CONFDIR; vmname] in
  let out := if bool_decide (TrimSpace outfile = "") then Filepath.Join [CONFDIR; vmname; "config_cidata"] else TrimSpace outfile in
  map_err (λ _, ErrMsg "cannot build cloudinit image") (
    _ ← lift conf;
    o ← lift (match opts with None => Throw (ErrMsg "empty cloudinit opts") | Some o => Validate o true end);
    vendor ← lift (document (VendorConfig o));
    user ← lift (document (UserConfig o));
    eths ← lift (buildEthernetsConfig fs vmdir);
    GenImage {| Meta := {| DSMode := "local"; InstanceID := "i-" +:+ vmname; LocalHostname := replace "_" "-" vmname;
                           Platform := opt_Platform o; Subplatform := opt_Subplatform o; Cloudname := opt_Cloudname o;
                           Region := opt_Region o; AvailabilityZone := opt_AvailabilityZone o |};
                Network := {| Version := 2; Ethernets := eths |};
                Hostname := opt_Hostname o; Domain := opt_Domain o; Timezone := opt_Timezone o;
                Vendor := vendor; User := user |} out;;
    mret out).
End server.
End CloudInit.
