(* ===== verification/CloudInitFacts.v ===== *)
(** CloudInitFacts: the image takes the place of the old one only when it is
    complete, the directory it was made in is removed, and its network data is
    that of the machine. *)

From S2P Require Import Prelude.
From S2P Require Import GoStd.
From S2P Require Import Backend.
From S2P Require Import Json.
From S2P Require Import InstanceConf.
From S2P Require Import ConfJson.
From S2P Require Import Ip.
From S2P Require Import IpFacts.
From S2P Require Import CloudInit.

Open Scope Z_scope.
#[local] Set Warnings "-register-all".

Module CloudInitFacts.
Import IpNet IpFacts.IpFacts Image CloudInit.

Section image.
Context {Y : Type} `{Yaml Y, IsoHost}.

(** ** What is asked for an image *)

Definition before (outfile : string) : list iso_call := [LookPath "genisoimage"; MkdirTemp (Filepath.Dir outfile) ".cidata-*"].
(** The four files, the program, and the new name. *)
Definition plan (genisoimage tmpdir outfile : string) (vendor user meta net : string) : list iso_call :=
  let p f := Filepath.Join [tmpdir; f] in
  [WriteFile (p "vendor-data") vendor; WriteFile (p "user-data") user; WriteFile (p "meta-data") meta;
   WriteFile (p "network-config") net;
   Run genisoimage ["-output"; p "image"; "-volid"; "cidata"; "-joliet"; "-rock"; p "user-data"; p "meta-data"; p "vendor-data"; p "network-config"];
   Rename (p "image") outfile].
(** The text that is written, when there is one. *)
Definition text_of (content : outcome string) : string := match content with Ret t => t | _ => "" end.
Definition vendor_text (data : @Data Y) : outcome string := cloud_config (default ∅ (Vendor data)).
Definition user_text (data : @Data Y) : outcome string := cloud_config (default ∅ (User data)).
Definition meta_text (data : @Data Y) : outcome string := Backend.call (yaml_Metadata (Meta data)).
Definition net_text (data : @Data Y) : outcome string :=
  Backend.call (yaml_Network (Version (Network data)) (MarshalYAML <$> Ethernets (Network data))).
Definition plan_of (genisoimage tmpdir outfile : string) (data : @Data Y) : list iso_call :=
  plan genisoimage tmpdir outfile (text_of (vendor_text data)) (text_of (user_text data)) (text_of (meta_text data)) (text_of (net_text data)).
Definition is_Ret {A} (o : outcome A) : Prop := ∃ a, o = Ret a.
(** Every text is there. *)
Definition written (data : @Data Y) : Prop :=
  is_Ret (vendor_text data) ∧ is_Ret (user_text data) ∧ is_Ret (meta_text data) ∧ is_Ret (net_text data).

(** As much of a plan as was carried out; after a success it is all of it, and
    when all of it was, [P] holds. *)
Definition carried {A} (l : list iso_call) (P : Prop) (log : list iso_call) (res : outcome A * list iso_call) : Prop :=
  ∃ new, res.2 = log ++ new ∧ new `prefix_of` l ∧ (new = l → P) ∧ ∀ a, res.1 = Ret a → new = l.

Lemma carried_ask {A} c l P log (f : goerr → goerr) (k : string → op (list iso_call) A) :
  (∀ s, iso_answer log c = inl s → carried l P (log ++ [c]) (k s (log ++ [c]))) → l ≠ [] →
  carried (c :: l) ((∃ s, iso_answer log c = inl s) ∧ P) log ((s ← map_err f (ask c); k s) log).
Proof.
  intros Hk Hl. unfold mbind, op_bind, map_err, ask. destruct (iso_answer log c) as [s|e]; cbn.
  - destruct (Hk s eq_refl) as (new & Hn & Hp & HP & Hr). exists (c :: new). split_and!.
    + by rewrite Hn, <- app_assoc.
    + by apply prefix_cons.
    + intros [= E]. split; [by eexists|auto].
    + intros a Ha. by rewrite (Hr a Ha).
  - exists [c]. split_and!; [done|by apply prefix_cons, prefix_nil| |done]. by intros [= <-].
Qed.
Lemma carried_write {A} path content l P log (k : op (list iso_call) A) :
  (let log := log ++ [WriteFile path (text_of content)] in carried l P log (k log)) → l ≠ [] →
  carried (WriteFile path (text_of content) :: l) (is_Ret content ∧ P) log ((write path content;; k) log).
Proof.
  intros Hk Hl. destruct content as [t|e|q]; cbn [text_of] in *.
  - assert ((write path (Ret t);; k) log = (_ ← map_err id (ask (WriteFile path t)); k) log) as ->.
    { unfold write, mbind, op_bind, map_err, lift, ask. by destruct (iso_answer log _). }
    edestruct (carried_ask (WriteFile path t) l P log id (λ _, k)) as (new & Hn & Hp & HP & Hr); [by intros|done|].
    exists new. split_and!; try done. intros E. destruct (HP E) as [_ ?]. split; [by eexists|done].
  - exists []. rewrite app_nil_r. by split_and!; [|apply prefix_nil| |].
  - exists []. rewrite app_nil_r. by split_and!; [|apply prefix_nil| |].
Qed.
Lemma carried_last c log : carried [c] True log ((_ ← ask c; mret ()) log).
Proof. exists [c]. unfold mbind, op_bind, ask. destruct (iso_answer log c); by split_and!. Qed.

(** The program succeeded, after the files were written. *)
Definition made (genisoimage tmpdir outfile : string) (data : @Data Y) (log : list iso_call) : Prop :=
  let l := plan_of genisoimage tmpdir outfile data in
  ∃ run s, l !! 4%nat = Some run ∧ iso_answer (log ++ take 4 l) run = inl s.

Lemma build_carried genisoimage outfile tmpdir data log :
  carried (plan_of genisoimage tmpdir outfile data) (written data ∧ made genisoimage tmpdir outfile data log) log
    (build genisoimage outfile tmpdir data log).
Proof.
  unfold build, plan_of at 1, plan, written. cbv zeta.
  assert (∀ l (P Q : Prop) (r : outcome () * _), (P → Q) → carried l P log r → carried l Q log r) as Hmono.
  { intros l P Q r HPQ (new & ? & ? & HP & ?). exists new. split_and!; auto. }
  eapply Hmono; [|do 4 (apply carried_write; [|done]); apply carried_ask; [|done]; intros s _; apply carried_last].
  cbn. intros (Hv & Hu & Hm & Hn & (s & Hs) & _). split; [done|]. eexists _, s. split; [reflexivity|].
  rewrite <- !app_assoc in Hs. exact Hs.
Qed.

(** C28: the image takes the place of an old one only when all its files have been
    written and the program has made it of them, and this is all that is done to
    files outside the temporary directory; once that directory is made its removal
    is the last thing asked for. *)
Theorem GenImage_outfile data outfile log r log' : GenImage data outfile log = (r, log') →
  (r ≠ Ret () ∧ ∃ new, log' = log ++ new ∧ new `prefix_of` before outfile) ∨
  ∃ genisoimage tmpdir new, let l := plan_of genisoimage tmpdir outfile (completed data) in
    log' = log ++ before outfile ++ new ++ [RemoveAll tmpdir] ∧ new `prefix_of` l ∧
    (r = Ret () ∨ (∃ a b, Rename a b ∈ new) →
       new = l ∧ written (completed data) ∧ made genisoimage tmpdir outfile (completed data) (log ++ before outfile)).
Proof.
  unfold GenImage, fail_if, mbind, op_bind, mret, op_ret, throw, ask.
  case_bool_decide; [intros [= <- <-]; left; split; [done|]; exists []; split; [by rewrite app_nil_r|apply prefix_nil]|].
  destruct (iso_answer log _) as [prog|e]; cbn [Backend.call];
    [|intros [= <- <-]; left; split; [done|]; eexists; split; [done|]; apply prefix_cons, prefix_nil].
  case_bool_decide; [intros [= <- <-]; left; split; [done|]; eexists; split; [done|]; apply prefix_cons, prefix_nil|].
  rewrite <- app_assoc. cbn [app].
  destruct (iso_answer (log ++ _) _) as [tmp|e]; cbn [Backend.call]; [|intros [= <- <-]; left; split; [done|]; by eexists].
  intros E. right. exists prog, tmp. unfold then_remove in E.
  pose proof (build_carried prog outfile tmp (completed data) (log ++ before outfile)) as (new & Hn & Hp & HP & Hr).
  unfold before in *. destruct (build prog outfile tmp (completed data) _) as [r' log1]. cbn in Hn, Hr. injection E as <- <-.
  exists new. cbv zeta. split; [by rewrite Hn, <- !app_assoc|]. split; [done|].
  intros Hc. assert (new = plan_of prog tmp outfile (completed data)) as ->; [|by split; [|apply HP]].
  destruct Hc as [-> | (a & b & Hin)]; [by apply (Hr ())|]. destruct Hp as [rest Hp]. unfold plan_of, plan in *.
  do 5 (destruct new as [|? new]; [by repeat (apply elem_of_cons in Hin as [?|Hin]; [simplify_eq|]); apply elem_of_nil in Hin|]; injection Hp as <- Hp).
  destruct new as [|? [|? new]]; [|by destruct rest; simplify_list_eq|by destruct new].
  by repeat (apply elem_of_cons in Hin as [?|Hin]; [simplify_eq|]); apply elem_of_nil in Hin.
Qed.
End image.

(** ** Networks *)

(** The gateway of a network: its greatest address, when it is large enough. *)
Theorem AutoDefaultRoute_last n : is_network n →
  match AutoDefaultRoute n with
  | Some g =>
      if (bits n =? 32) && (30 <? ones n) then IP_String g = "10.11.11.11"
      else in_network n g ∧ ∀ ip, in_network n ip → ip ≤ g
  | None => bits n = 128 ∧ 64 < ones n
  end.
Proof.
  intros Hn. unfold AutoDefaultRoute. pose proof Hn as (Hip & Ho & [[Hb [v Hv]]|[Hb Hv]]); rewrite Hv, Hb.
  - rewrite andb_false_r, orb_false_r. cbn [Z.eqb Pos.eqb andb].
    destruct (Z.ltb_spec 30 (ones n)); [vm_compute; reflexivity|].
    destruct (GetLastIPv4_run n Hn Hb) as (l & -> & Hl). rewrite Hl, <- Hb.
    split; [by apply last_in; lia|intros ip; by apply last_greatest; lia].
  - rewrite andb_false_r, orb_false_r. cbn [Z.eqb Pos.eqb andb].
    destruct (Z.ltb_spec 64 (ones n)); [done|].
    rewrite (GetLastIPv6_run n Hn Hb), <- Hb. split; [by apply last_in; lia|intros ip; by apply last_greatest; lia].
Qed.

Section ethernets.
Context `{NetlinkLaws}.

(** Every entry is that of a scheme with addresses, for an interface of the
    machine, under the hardware address of that interface. *)
Lemma ethernets_from macs l m m' : ethernets macs l m = Ret m' → ∀ id c, m' !! id = Some c →
  m !! id = Some c ∨ ∃ s mac, s ∈ l ∧ macs !! sch_Name s = Some mac ∧ sch_Addrs s ≠ [] ∧ ethernet mac s = Ret (id, c).
Proof.
  revert m. induction l as [|s l IH]; intros m; cbn [ethernets]; [intros [= <-]; by left|].
  assert (∀ m1, ethernets macs l m1 = Ret m' → (∀ id c, m1 !! id = Some c → m !! id = Some c ∨
    ∃ s' mac, s' ∈ s :: l ∧ macs !! sch_Name s' = Some mac ∧ sch_Addrs s' ≠ [] ∧ ethernet mac s' = Ret (id, c)) →
    ∀ id c, m' !! id = Some c → m !! id = Some c ∨
    ∃ s' mac, s' ∈ s :: l ∧ macs !! sch_Name s' = Some mac ∧ sch_Addrs s' ≠ [] ∧ ethernet mac s' = Ret (id, c)) as Hrest.
  { intros m1 E Hm id c Hc. destruct (IH m1 E id c Hc) as [?|(s' & mac & Hin & ?)]; [by apply Hm|].
    right. exists s', mac. split; [by right|done]. }
  destruct (macs !! sch_Name s) as [mac|] eqn:Hmac; [|intros E; apply (Hrest m E); by left].
  destruct (sch_Addrs s) as [|a addrs] eqn:Ha; [intros E; apply (Hrest m E); by left|].
  intros ([id' c'] & He & E)%outcome_bind_Ret. apply (Hrest _ E). intros id c. cbn [fst snd]. rewrite lookup_insert.
  case_decide; [|by left]. intros [= <-]. subst id'. right. exists s, mac. split_and!; [left|done|by rewrite Ha|done].
Qed.
End ethernets.

(** ** An image *)

#[local] Instance plain_yaml : Yaml string := {|
  y_string s := s; y_bool b := if b then "true" else "false"; yaml_Check _ := inl ();
  yaml_Unmarshal _ m := inl m; yaml_Marshal m := inl (Strings.Join (map fst (map_to_list m)) ",");
  yaml_Metadata m := inl (InstanceID m); yaml_Network _ m := inl (Strings.Join (map fst (map_to_list m)) ",");
|}.
#[local] Instance willing : IsoHost := λ _ c, match c with LookPath _ => inl "/usr/bin/genisoimage" | MkdirTemp _ _ => inl "/etc/kvmrun/vm0/.cidata-1" | _ => inl "" end.
Definition vm0_data : @Data string :=
  {| Meta := Build_MetadataConfig "local" "i-vm0" "vm0" "" "" "" "" ""; Network := {| Version := 2; Ethernets := ∅ |};
     Hostname := "vm0"; Domain := ""; Timezone := ""; Vendor := None; User := None |}.
Definition vm0_image : string := "/etc/kvmrun/vm0/config_cidata".
Example GenImage_outfile_witness :
  (GenImage vm0_data vm0_image []).1 = Ret () ∧
  ∃ tmpdir, last (GenImage vm0_data vm0_image []).2 = Some (RemoveAll tmpdir) ∧
    Rename (Filepath.Join [tmpdir; "image"]) vm0_image ∈ (GenImage vm0_data vm0_image []).2.
Proof.
  destruct (GenImage vm0_data vm0_image []) as [r log'] eqn:E.
  assert (r = Ret ()) as Hr by (vm_compute in E; congruence).
  destruct (GenImage_outfile vm0_data vm0_image [] r log' E) as [[Hn _]|(prog & tmp & new & Hl & _ & Hc)]; [destruct (Hn Hr)|].
  destruct (Hc (or_introl Hr)) as (-> & _). split; [exact Hr|]. exists tmp. cbn [snd]. split.
  - rewrite Hl, !app_assoc. apply last_snoc.
  - rewrite Hl. apply elem_of_app. right. apply elem_of_app. right. apply elem_of_app. left. unfold plan_of, plan. do 5 right. left.
Defined.

(** A network of two addresses has none of them for its gateway. *)
Example route_31 : (IP_String <$> (AutoDefaultRoute {| IP := Ip.v4_mapped 167772160; ones := 31; bits := 32 |})) = Some "10.11.11.11".
Proof. vm_compute. reflexivity. Qed.
End CloudInitFacts.
