(* ===== verification/NetworkFacts.v ===== *)
(** NetworkFacts: network schemes on their own: normal attributes, address
    updates, and what the JSON file makes of a scheme. *)

From S2P Require Import Prelude.
From S2P Require Import GoStd.
From S2P Require Import GoFacts.
From S2P Require Import Ip.
From S2P Require Import IpFacts.
From S2P Require Import NetIfaces.
From S2P Require Import Json.
From S2P Require Import HostNet.
From S2P Require Import Network.

Open Scope Z_scope.
#[local] Set Warnings "-register-all".

Module NetworkFacts.
Import Strings Ip IpNet Network.

(** Take a computation that returned apart. *)
Ltac returned H :=
  repeat match type of H with
         | (_ ≫= _) = Ret _ => let a := fresh "a" in let E := fresh "E" in
             apply outcome_bind_Ret in H as (a & E & H)
         end.

Section facts.
Context `{NetlinkLaws, HostNet.MapOrderLaws}.

(** ** Normal attributes *)

Lemma normal_addrs_idem l l' : normal_addrs l = Ret l' → normal_addrs l' = Ret l'.
Proof.
  revert l'. induction l as [|a l IH]; intros l'; cbn [normal_addrs]; [by intros [= <-]|].
  destruct (ParseIPNet a) as [n|e|p] eqn:Hn; [|done..]. intros Hl. returned Hl. injection Hl as <-.
  pose proof (IpFacts.ParseIPNet_cidr _ _ Hn) as Hc. cbn [normal_addrs].
  rewrite IpFacts.ParseIPNet_String by done. rewrite (IH _ E). cbn. by rewrite IpFacts.normal_String.
Qed.

Lemma normal_gateway_idem v4 s s' : normal_gateway v4 s = Ret s' → normal_gateway v4 s' = Ret s'.
Proof.
  unfold normal_gateway. case_bool_decide as Hs.
  - intros [= <-]. by destruct Hs as [-> | ->]; vm_compute.
  - destruct (ParseIP _) as [ip|] eqn:Hip; [|done]. case_bool_decide as Hv; [|done]. intros [= <-].
    pose proof (IpFacts.ParseIP_bound _ _ Hip) as Hb.
    rewrite GoFacts.ToLower_lower, GoFacts.TrimSpace_lower by apply IpFacts.IP_String_lower.
    rewrite IpFacts.ParseIP_String by done. rewrite (bool_decide_true _ Hv).
    by destruct (bool_decide (IP_String ip = "" ∨ IP_String ip = "auto")).
Qed.

Lemma interface_idem what s s' : interface what s = Ret s' → interface what s' = Ret s'.
Proof.
  unfold interface. case_bool_decide as Hs; [done|]. intros [= <-].
  by rewrite GoFacts.TrimSpace_idem, bool_decide_false.
Qed.

Lemma common_Validate_idem x y : common_Validate x = Ret y → common_Validate y = Ret y.
Proof.
  unfold common_Validate. intros Hx. returned Hx.
  destruct (_ && _) eqn:Hm; [done|]. injection Hx as <-. cbn.
  rewrite GoFacts.TrimSpace_idem, E. cbn. erewrite normal_addrs_idem by done. cbn.
  erewrite !normal_gateway_idem by done. cbn. by rewrite Hm.
Qed.

(** C31: validating attributes makes them normal: addresses as networks, gateways
    as addresses of their family, names without spaces, sizes in range; normal
    attributes are what they are. *)
Theorem Validate_idem x y : Validate x = Ret y → Validate y = Ret y.
Proof.
  intros Hx; destruct x; cbn [Validate] in Hx;
    unfold Manual_Validate, Routed_Validate, Bridge_Validate, VxLAN_Validate, VLAN_Validate in Hx; returned Hx; try (destruct (_ && _) eqn:Hr; [|done]); injection Hx as <-; cbn [Validate];
    unfold Manual_Validate, Routed_Validate, Bridge_Validate, VxLAN_Validate, VLAN_Validate;
    erewrite common_Validate_idem by done; cbn; try (erewrite interface_idem by done; cbn); by rewrite ?Hr.
Qed.

(** ** Address updates *)

Definition text_of (s : string) : option string :=
  match ParseIPNet s with Ret n => Some (IPNet_String n) | _ => None end.

(** Whether an address is there after an update, given whether it was before. *)
Definition verdict (a : string) (b : bool) (u : AddrUpdate) : bool :=
  if bool_decide (text_of (Prefix u) = Some a) then
    match Action u with AddrUpdate_APPEND => true | AddrUpdate_REMOVE => false | AddrUpdate_UNKNOWN => b end
  else b.

Lemma known_addrs_spec l m a :
  known_addrs l m !! a = Some () ↔ m !! a = Some () ∨ Some a ∈ map text_of l.
Proof.
  revert m. induction l as [|x l IH]; intros m; cbn [known_addrs map]; [rewrite elem_of_nil; tauto|].
  rewrite IH, elem_of_cons. assert (text_of x = match ParseIPNet x with Ret n => Some (IPNet_String n) | _ => None end) as -> by done.
  destruct (ParseIPNet x) as [n|e|p]; [|intuition congruence..].
  destruct (decide (IPNet_String n = a)) as [<-|Hne]; [rewrite lookup_insert_eq|rewrite lookup_insert_ne by done];
    intuition congruence.
Qed.

Lemma update_addrs_spec l m m' : update_addrs l m = Ret m' →
  ∀ a, bool_decide (m' !! a = Some ()) = foldl (verdict a) (bool_decide (m !! a = Some ())) l.
Proof.
  revert m. induction l as [|u l IH]; intros m; cbn [update_addrs foldl]; [by intros [= <-]|].
  destruct (ParseIPNet (Prefix u)) as [n|e|p] eqn:Hn; [|done..]. intros Hm a. rewrite (IH _ Hm a). f_equal.
  assert (text_of (Prefix u) = Some (IPNet_String n)) as Ht by (unfold text_of; by rewrite Hn).
  unfold verdict. rewrite Ht. destruct (decide (IPNet_String n = a)) as [<-|Hne].
  - rewrite (bool_decide_true (Some _ = _)) by done. destruct (Action u); [done| |].
    + by rewrite lookup_insert_eq, bool_decide_true.
    + by rewrite lookup_delete_eq, bool_decide_false.
  - rewrite (bool_decide_false (Some _ = _)) by congruence. destruct (Action u); [done| |].
    + by rewrite lookup_insert_ne.
    + by rewrite lookup_delete_ne.
Qed.

Lemma update_addrs_Ret l m : (∃ m', update_addrs l m = Ret m') ↔ Forall (λ u, is_Some (text_of (Prefix u))) l.
Proof.
  revert m. induction l as [|u l IH]; intros m; cbn [update_addrs]; [split; [constructor|eauto]|].
  rewrite Forall_cons. unfold text_of at 1. destruct (ParseIPNet (Prefix u)).
  - rewrite IH. naive_solver.
  - split; [by intros [? ?]|]. by intros [[? ?] _].
  - split; [by intros [? ?]|]. by intros [[? ?] _].
Qed.

Lemma range_keys (m : gmap string unit) a : a ∈ map fst (HostNet.map_order _ m) ↔ m !! a = Some ().
Proof.
  rewrite (HostNet.map_order_law _ m), list_elem_of_fmap. split.
  - intros ([k []] & -> & Hk). by apply elem_of_map_to_list in Hk.
  - intros Ha. exists (a, ()). split; [done|]. by apply elem_of_map_to_list.
Qed.
Lemma range_nodup (m : gmap string unit) : NoDup (map fst (HostNet.map_order _ m)).
Proof. rewrite (HostNet.map_order_law _ m). apply NoDup_fst_map_to_list. Qed.

(** C32: updating the addresses of a scheme: it fails exactly when an update is no
    address; otherwise the new list has every address once, in its normal text, and
    an address is in it when the last update that appends or removes it appends it,
    or when there is none and it was there before, however it was written. *)
Theorem patchAddrs_spec orig updates :
  ((∃ l, patchAddrs orig updates = Ret l) ↔ Forall (λ u, is_Some (text_of (Prefix u))) updates) ∧
  ∀ l, patchAddrs orig updates = Ret l →
    NoDup l ∧ ∀ a, a ∈ l ↔ foldl (verdict a) (bool_decide (Some a ∈ map text_of orig)) updates = true.
Proof.
  unfold patchAddrs. split.
  - rewrite <- (update_addrs_Ret updates (known_addrs orig ∅)). split.
    + intros [l Hl]. returned Hl. eauto.
    + intros [m Hm]. rewrite Hm. by eexists.
  - intros l Hl. returned Hl. injection Hl as <-. split; [apply range_nodup|]. intros x.
    rewrite range_keys. pose proof (update_addrs_spec _ _ _ E x) as Hx.
    rewrite (bool_decide_ext (known_addrs orig ∅ !! x = Some ()) (Some x ∈ map text_of orig)) in Hx
      by (rewrite known_addrs_spec, lookup_empty; intuition congruence).
    rewrite <- Hx. symmetry. apply bool_decide_eq_true.
Qed.

(** ** Schemes in a file *)

(** What the file makes of a value under another key than [addrs]. *)
Definition reload (v : value) : value := value_of_json (enc_value v).

Lemma insert_by_Permutation {A} (less : A → A → bool) x l : Sort.insert_by less x l ≡ₚ x :: l.
Proof.
  induction l as [|y l IH]; cbn; [done|]. destruct (less x y); [done|]. rewrite IH. apply Permutation_swap.
Qed.
Lemma SliceStable_Permutation {A} (less : A → A → bool) l : Sort.SliceStable less l ≡ₚ l.
Proof.
  unfold Sort.SliceStable. assert (∀ acc, foldl (λ acc x, Sort.insert_by less x acc) acc l ≡ₚ l ++ acc) as Hi.
  { induction l as [|x l IH]; intros acc; cbn; [done|]. rewrite IH, insert_by_Permutation.
    by rewrite Permutation_middle. }
  by rewrite Hi, app_nil_r.
Qed.

Lemma attrs_of_json_lookup (l : list (string * json)) k :
  NoDup (map fst l) → attrs_of_json l !! k = value_of_json <$> (list_to_map l : gmap string json) !! k.
Proof.
  unfold attrs_of_json. assert (∀ m : gmap string value, NoDup (map fst l) →
    foldl (λ m kv, <[kv.1:=value_of_json kv.2]> m) m l !! k =
    match (list_to_map l : gmap string json) !! k with Some j => Some (value_of_json j) | None => m !! k end) as Hi.
  { induction l as [|[k' j] l IH]; intros m Hnd; [done|]. apply NoDup_cons in Hnd as [Hk Hnd]. cbn [foldl list_to_map].
    rewrite IH by done. cbn [fst snd list_to_map foldr]. destruct (decide (k' = k)) as [->|Hne].
    - assert ((list_to_map l : gmap string json) !! k = None) as Hn by (apply not_elem_of_list_to_map_1; exact Hk).
      cbn [list_to_map foldr] in Hn. by rewrite Hn, !lookup_insert_eq.
    - rewrite !lookup_insert_ne by done. done. }
  intros Hnd. rewrite Hi by done. by destruct (list_to_map l !! k); rewrite ?lookup_empty.
Qed.

Lemma attrs_of_sorted (m : gmap string json) k :
  attrs_of_json (Sort.SliceStable by_key (map_to_list m)) !! k = value_of_json <$> m !! k.
Proof.
  rewrite attrs_of_json_lookup.
  - erewrite list_to_map_proper; [by rewrite list_to_map_to_list| |apply SliceStable_Permutation].
    rewrite SliceStable_Permutation. apply NoDup_fst_map_to_list.
  - rewrite SliceStable_Permutation. apply NoDup_fst_map_to_list.
Qed.

Lemma SchemeTypeValue_String t : SchemeTypeValue (SchemeType_String t) = t.
Proof. by destruct t. Qed.

(** A scheme survives the file, but for the numbers, which are float64. *)
Lemma UnmarshalJSON_Marshal p :
  ∃ p', UnmarshalJSON (MarshalJSON p) = Ret p' ∧ Ifname p' = Ifname p ∧ SchemeType_ p' = SchemeType_ p ∧
    (∀ k, k ∉ ["scheme"; "ifname"; "addrs"] → attrs p' !! k = reload <$> attrs p !! k) ∧
    (∀ k n, attrs p' !! k ≠ Some (VUint32 n)) ∧
    ∀ l, attrs p !! "addrs" = Some (VStrings l) →
      ∃ l', attrs p' !! "addrs" = Some (VStrings l') ∧ NoDup l' ∧ ∀ a, a ∈ l' ↔ a ∈ l.
Proof.
  unfold MarshalJSON, UnmarshalJSON.
  set (m := <["ifname" := _]> (<["scheme" := _]> (attrs p))).
  set (a := attrs_of_json _).
  assert (∀ k, a !! k = reload <$> m !! k) as Ha.
  { intros k. unfold a. rewrite attrs_of_sorted, lookup_fmap. by destruct (m !! k). }
  assert (a !! "scheme" = Some (VString (SchemeType_String (SchemeType_ p)))) as ->.
  { rewrite Ha. unfold m. by rewrite lookup_insert_ne, lookup_insert_eq by done. }
  cbn [mbind outcome_bind]. rewrite SchemeTypeValue_String.
  set (a' := match a !! "addrs" with None => a | Some v => _ end).
  assert (∀ k, k ≠ "addrs" → a' !! k = reload <$> m !! k) as Ha'.
  { intros k Hk. unfold a'. destruct (a !! "addrs"); [rewrite lookup_insert_ne by done|]; apply Ha. }
  unfold required, valueAs. cbn [attrs].
  assert (a' !! "ifname" = Some (VString (Ifname p))) as Hi.
  { rewrite Ha' by done. unfold m. by rewrite lookup_insert_eq. }
  rewrite Hi, bool_decide_false, bool_decide_false by (done || (intros [_ ?]; done)). cbn [as_string mbind outcome_bind].
  eexists. split; [reflexivity|]. cbn [Ifname SchemeType_ attrs with_ifname]. split_and!; [done|done| | |].
  - intros k Hk. rewrite !not_elem_of_cons in Hk. destruct Hk as (Hk1 & Hk2 & Hk3 & _). rewrite Ha' by done. unfold m.
    by rewrite !lookup_insert_ne by done.
  - intros k n. destruct (decide (k = "addrs")) as [->|Hk].
    + unfold a'. destruct (a !! "addrs") as [v|] eqn:E; [by rewrite lookup_insert_eq|by rewrite E].
    + rewrite Ha' by done. destruct (m !! k) as [v|]; [|done]. cbn. intros [= E]. destruct v; try done.
      unfold reload in E. cbn in E. by destruct j.
  - intros l Hl. unfold a'. assert (a !! "addrs" = Some (VJson (JArr (map JStr l)))) as ->.
    { rewrite Ha. unfold m. rewrite !lookup_insert_ne by done. by rewrite Hl. }
    rewrite lookup_insert_eq. eexists. split; [done|]. split; [apply range_nodup|]. intros x. rewrite range_keys.
    cbn [addrs_of]. assert (∀ m : gmap string unit, foldl (λ m j, match j with JStr s => <[s:=()]> m | _ => m end) m (map JStr l) !! x = Some ()
      ↔ m !! x = Some () ∨ x ∈ l) as Hf; [|rewrite Hf, lookup_empty; intuition congruence].
    clear. induction l as [|y l IH]; intros m; cbn [map foldl]; [rewrite elem_of_nil; tauto|].
    rewrite IH, elem_of_cons. destruct (decide (y = x)) as [->|Hne];
      [rewrite lookup_insert_eq|rewrite lookup_insert_ne by done]; intuition congruence.
Qed.
End facts.
End NetworkFacts.
