(* ===== verification/LifecycleFacts.v ===== *)
(** LifecycleFacts: what [Create] and [Delete] leave behind, when the host does
    all it is asked and when it does not. *)

From S2P Require Import Prelude.
From S2P Require Import GoStd.
From S2P Require Import GoFacts.
From S2P Require Import Backend.
From S2P Require Import Resources.
From S2P Require Import Peripherals.
From S2P Require Import Json.
From S2P Require Import InstanceProperties.
From S2P Require Import InstanceConf.
From S2P Require Import ConfInvariant.
From S2P Require Import ConfJson.
From S2P Require Import ConfJsonFacts.
From S2P Require Import Monitor.
From S2P Require Import InstanceQemuFacts.
From S2P Require Import Server.
From S2P Require Import ServerFacts.
From S2P Require Import OsUser.
From S2P Require Import Services.
From S2P Require Import Lifecycle.

Open Scope Z_scope.
#[local] Set Warnings "-register-all".

Module LifecycleFacts.
Import Services Server ConfJson JsonFacts Lifecycle.

(** ** Runs *)

(** [m] ends in [r], with these files and this password file. *)
Definition ends {A} (m : op host A) (h : host) (r : outcome A) (f : files) (p : list string) : Prop :=
  ∃ l, m h = (r, {| files_ := f; passwd := p; log := l |}).

Section runs.
Context `{Accounts, Services}.

Lemma ends_bind {A B} (m : op host A) (k : A → op host B) h a f p r f' p' :
  ends m h (Ret a) f p →
  (∀ l, ends (k a) {| files_ := f; passwd := p; log := l |} r f' p') →
  ends (m ≫= k) h r f' p'.
Proof. intros [l Hm] Hk. destruct (Hk l) as [l' Hl]. exists l'. by rewrite (op_bind_run _ _ _ _ _ Hm). Qed.

Lemma ends_throw {A B} (m : op host A) (k : A → op host B) h e f p :
  ends m h (Throw e) f p → ends (m ≫= k) h (Throw e) f p.
Proof. intros [l Hm]. exists l. by apply op_bind_throw. Qed.

Lemma ends_ret {A} (a : A) h : ends (mret a) h (Ret a) (files_ h) (passwd h).
Proof. exists (log h). by destruct h. Qed.

Lemma ends_lift {A} (o r : outcome A) h : o = r → ends (lift o) h r (files_ h) (passwd h).
Proof. intros ->. exists (log h). by destruct h. Qed.

Lemma ends_ask a h : ends (ask a) h (Ret (answer (log h) a)) (files_ h) (passwd h).
Proof. by eexists. Qed.

Lemma ends_modify g h : ends (modify g) h (Ret ()) (files_ (g h)) (passwd (g h)).
Proof. exists (log (g h)). unfold modify. by destruct (g h). Qed.

Lemma ends_map_err {A} e (m : op host A) h a f p :
  ends m h (Ret a) f p → ends (map_err e m) h (Ret a) f p.
Proof. intros [l Hm]. exists l. unfold map_err. by rewrite Hm. Qed.

Lemma ends_map_err_throw {A} e (m : op host A) h e' f p :
  ends m h (Throw e') f p → ends (map_err e m) h (Throw (e e')) f p.
Proof. intros [l Hm]. exists l. unfold map_err. by rewrite Hm. Qed.

Lemma ends_on_failure {A} (d : op host ()) (m : op host A) h a f p :
  ends m h (Ret a) f p → ends (on_failure d m) h (Ret a) f p.
Proof. intros [l Hm]. exists l. unfold on_failure. by rewrite Hm. Qed.

Lemma ends_unfailed {A} (d : op host ()) (m : op host A) h e f p r f' p' :
  ends m h (Throw e) f p → (∀ l, ends d {| files_ := f; passwd := p; log := l |} r f' p') →
  ends (on_failure d m) h (Throw e) f' p'.
Proof.
  intros [l Hm] Hd. destruct (Hd l) as [l' Hl]. exists l'. unfold on_failure. by rewrite Hm, Hl.
Qed.

Lemma ends_ignored (m : op host ()) h r f p :
  ends m h r f p → (∀ q, r ≠ Panic q) → ends (ignored m) h (Ret ()) f p.
Proof.
  intros [l Hm] Hr. exists l. unfold ignored, unless. rewrite Hm.
  by destruct r as [[]|e|q]; [| |destruct (Hr q)].
Qed.
End runs.

(** ** A host that does all it is asked *)

Definition granted (a : service) : reply a → Prop :=
  match a with
  | Stat _ => λ r, r = None
  | WriteFile_ _ => λ r, r = Written
  | RemoveAll _ => λ r, r = Removed
  | MkdirAll _ | Remove _ | NewLocker | Acquire | OpenPasswd | Useradd _ _ | Userdel _
  | EnableUnitFiles _ | DisableUnitFiles _ | StartUnit _ | StopUnit _ | RestartUnit _
  | Lvcreate _ _ _ | Lvremove _ => λ r, r = inl ()
  | _ => λ _, True
  end.

(** All it is asked, but for the requests [except] picks. *)
Definition obliging `{Services} (except : service → bool) : Prop :=
  ∀ l a, except a = false → granted a (answer l a).

(** A request that is granted, and the rest. *)
Lemma ends_done (r : sys ()) h f p :
  r = inl () → files_ h = f → passwd h = p → ends (done r) h (Ret ()) f p.
Proof. intros -> <- <-. by apply ends_lift. Qed.

Lemma ends_ask_then `{Services} except a {B} (k : reply a → op host B) h r f p :
  obliging except → except a = false →
  (∀ x l, granted a x → ends (k x) {| files_ := files_ h; passwd := passwd h; log := l |} r f p) →
  ends (ask a ≫= k) h r f p.
Proof.
  intros Hob Ha Hk. eapply ends_bind; [apply ends_ask|]. intros l. apply Hk. by apply Hob.
Qed.

(** The next request is granted. *)
Ltac granting :=
  lazymatch goal with
  | |- ends (mbind _ (ask ?a)) _ _ _ _ => eapply (ends_ask_then _ a); [eassumption| |intros ? ? ?Hg]
  end.

Section obliging.
Context `{Accounts, Services} (except : service → bool) (Hob : obliging except).

Lemma ends_mkdir_all path h : except (MkdirAll path) = false →
  ends (mkdir_all path) h (Ret ()) (files_ h) (passwd h).
Proof. intros He. unfold mkdir_all. granting; [done|]. by apply ends_done. Qed.

Lemma ends_stat path h : except (Stat path) = false →
  ends (stat path) h (Ret (bool_decide (is_Some (files_ h !! path)))) (files_ h) (passwd h).
Proof. intros He. unfold stat. granting; [done|]. simpl in Hg. subst. by eexists. Qed.

Lemma ends_save c h :
  ValidateMachineName (InstanceProperties.Name (InstanceConf.props c)) = Ret () →
  except (WriteFile_ (InstanceConf.config c)) = false →
  ends (save c) h (Ret ()) (<[InstanceConf.config c := Some (enc_conf (InstanceConf.props c))]> (files_ h))
    (passwd h).
Proof.
  intros Hn He. unfold save, writing.
  eapply ends_bind; [by apply ends_lift|]. intros l.
  granting; [done|]. simpl in Hg. subst.
  unfold Save, zoom. rewrite Hn. by eexists.
Qed.

Lemma ends_CreateUser name uid h :
  (∀ a, match a with NewLocker | Acquire | OpenPasswd => True | Useradd n u => n = name ∧ u = uid | _ => False end →
        except a = false) →
  OsUser.getVacantUid (inl (passwd h, None)) = Ret uid →
  ends (CreateUser name) h (Ret uid) (files_ h) (useradd name uid (passwd h)).
Proof.
  intros He Hu. unfold CreateUser.
  do 3 (granting; [by apply He|]; eapply ends_bind; [by apply ends_done|]; intros ?).
  eapply ends_bind; [by eexists|]. intros ?.
  eapply ends_bind; [by apply ends_lift|]. intros ?. granting; [by apply He|].
  eapply ends_bind; [by apply ends_map_err, ends_done|]. intros ?.
  eapply ends_bind; [apply ends_modify|]. intros ?. by eexists.
Qed.

Lemma ends_Enable vmname h :
  except (EnableUnitFiles (machineUnitFile vmname)) = false →
  ends (SystemdEnableService vmname) h (Ret ()) (files_ h) (passwd h).
Proof.
  intros He. unfold SystemdEnableService, Enable. granting; [done|]. by apply ends_done.
Qed.
End obliging.

(** ** The resources of a new machine *)

(** What a new machine gets: the amounts asked for, where the machine a new
    configuration starts from can be brought to them. *)
Definition created_props (vmname : string) (o : InstanceProperties.t) : InstanceProperties.t :=
  let mem := InstanceProperties.Memory_ o in
  let cpu := InstanceProperties.CPU o in
  InstanceProperties.set_Memory_
    {| Memory.Actual := if Memory.Actual mem =? 0 then 128 else Memory.Actual mem;
       Memory.Total := Z.max 128 (Memory.Total mem) |}
    (InstanceProperties.set_CPU
      {| VirtCPU.Actual := Z.max 1 (VirtCPU.Actual cpu); VirtCPU.Total := Z.max 1 (VirtCPU.Total cpu);
         VirtCPU.Sockets := 0; VirtCPU.Quota := if VirtCPU.Quota cpu <? 5 then 0 else VirtCPU.Quota cpu;
         VirtCPU.Model := Strings.TrimSpace (VirtCPU.Model cpu) |}
      (InstanceProperties.zero vmname 0)).

Lemma Validate_bounds o o' :
  InstanceProperties.Validate true o = (Ret (), o') →
  let mem := InstanceProperties.Memory_ o' in let cpu := InstanceProperties.CPU o' in
  0 ≤ Memory.Actual mem ≤ Memory.Total mem ∧ 0 ≤ VirtCPU.Actual cpu ≤ VirtCPU.Total cpu.
Proof.
  unfold InstanceProperties.Validate.
  intros (? & ? & _ & (? & ? & _ & (? & ? & _ & (? & ? & _ & (? & p & Hm & Hc)%op_bind_Ret)
    %op_bind_Ret)%op_bind_Ret)%op_bind_Ret)%op_bind_Ret.
  revert Hm Hc. generalize x6. intros q. unfold zoom, Memory.Validate, VirtCPU.Validate. go_unfold.
  destruct q as [? ? ? ? [ma mt] [ca ct cs cq cm]]. cbn.
  destruct (Z.ltb_spec ma 0), (Z.ltb_spec mt 0), (Z.ltb_spec mt ma); try done. cbn.
  intros [= _ <-]. cbn.
  destruct (Z.ltb_spec ca 0), (Z.ltb_spec ct 0), (Z.ltb_spec ct ca), (Z.ltb_spec cs 0), (Z.ltb_spec cq 0);
    try done. cbn. intros [= <-]. cbn. lia.
Qed.

Lemma ignored_zoom {S T} (g : S → T) (p : T → S → S) (m : op T ()) s t :
  ignored m (g s) = (Ret (), t) → ignored (zoom g p m) s = (Ret (), p t s).
Proof. unfold ignored, unless, zoom. by destruct (m (g s)) as [[[]|e|q] t']; intros [= ->]. Qed.

Ltac compare := repeat match goal with |- context [?a <? ?b] => destruct (Z.ltb_spec a b); try lia; cbn end.

(** The setters on the amounts a new configuration starts from. *)
Lemma SetTotal_new t : 0 ≤ t →
  ignored (Memory.SetTotal t) {| Memory.Actual := 128; Memory.Total := 128 |} =
    (Ret (), {| Memory.Actual := 128; Memory.Total := Z.max 128 t |}).
Proof.
  intros Ht. unfold ignored, unless, Memory.SetTotal, Memory.set_Total. go_unfold. compare; repeat f_equal; lia.
Qed.
Lemma SetActual_new a t : 0 ≤ a ≤ Z.max 128 t →
  ignored (Memory.SetActual a) {| Memory.Actual := 128; Memory.Total := Z.max 128 t |} =
    (Ret (), {| Memory.Actual := if a =? 0 then 128 else a; Memory.Total := Z.max 128 t |}).
Proof.
  intros Ha. unfold ignored, unless, Memory.SetActual, Memory.set_Actual. go_unfold.
  destruct (Z.eqb_spec a 0); compare; repeat f_equal; lia.
Qed.
Lemma CPUSetTotal_new t s q m : 0 ≤ t →
  let cpu a t := {| VirtCPU.Actual := a; VirtCPU.Total := t; VirtCPU.Sockets := s; VirtCPU.Quota := q; VirtCPU.Model := m |} in
  ignored (VirtCPU.SetTotal t) (cpu 1 1) = (Ret (), cpu 1 (Z.max 1 t)).
Proof.
  intros Ht cpu. unfold ignored, unless, VirtCPU.SetTotal, VirtCPU.set_Total. go_unfold. cbn.
  compare; unfold cpu; repeat f_equal; lia.
Qed.
Lemma CPUSetActual_new a t s q m : 0 ≤ a ≤ t →
  let cpu a t := {| VirtCPU.Actual := a; VirtCPU.Total := t; VirtCPU.Sockets := s; VirtCPU.Quota := q; VirtCPU.Model := m |} in
  ignored (VirtCPU.SetActual a) (cpu 1 (Z.max 1 t)) = (Ret (), cpu (Z.max 1 a) (Z.max 1 t)).
Proof.
  intros Ht cpu. unfold ignored, unless, VirtCPU.SetActual, VirtCPU.set_Actual. go_unfold. cbn.
  compare; unfold cpu; repeat f_equal; lia.
Qed.

Lemma set_resources_run vmname o o' :
  InstanceProperties.Validate true o = (Ret (), o') →
  set_resources o' (InstanceConf.props (InstanceConf.newInstanceConf vmname)) =
    (Ret (), created_props vmname o').
Proof.
  intros [Hm Hc]%Validate_bounds. destruct o' as [? ? ? ? [ma mt] [ca ct cs cq cm]]. cbn in Hm, Hc.
  unfold set_resources, InstanceConf.MemorySetTotal, InstanceConf.MemorySetActual, InstanceConf.CPUSetTotal,
    InstanceConf.CPUSetActual. set (s0 := InstanceConf.props _).
  rewrite (op_bind_run _ _ _ _ _ (ignored_zoom InstanceProperties.Memory_ InstanceProperties.set_Memory_ _ s0 _ (SetTotal_new mt ltac:(lia)))).
  set (s1 := InstanceProperties.set_Memory_ _ s0).
  rewrite (op_bind_run _ _ _ _ _ (ignored_zoom InstanceProperties.Memory_ InstanceProperties.set_Memory_ _ s1 _ (SetActual_new ma mt ltac:(lia)))).
  set (s2 := InstanceProperties.set_Memory_ _ s1).
  rewrite (op_bind_run _ _ _ _ _ (ignored_zoom InstanceProperties.CPU InstanceProperties.set_CPU _ s2 _ (CPUSetTotal_new ct 0 0 "" ltac:(lia)))).
  set (s3 := InstanceProperties.set_CPU _ s2).
  rewrite (op_bind_run _ _ _ _ _ (ignored_zoom InstanceProperties.CPU InstanceProperties.set_CPU _ s3 _ (CPUSetActual_new ca ct 0 0 "" ltac:(lia)))).
  unfold ignored, unless, InstanceConf.CPUSetQuota, InstanceConf.CPUSetModel, VirtCPU.SetQuota,
    VirtCPU.SetModel, zoom, fail_if, created_props. cbn. by destruct (cq <? 5).
Qed.

Record amounts_fit (o : InstanceProperties.t) : Prop := {
  fit_memory : is_int (Memory.Total (InstanceProperties.Memory_ o)) = true;
  fit_cpu : is_int (VirtCPU.Total (InstanceProperties.CPU o)) = true;
  fit_quota : is_int (VirtCPU.Quota (InstanceProperties.CPU o)) = true;
  fit_model : Json.utf8 (Strings.TrimSpace (VirtCPU.Model (InstanceProperties.CPU o)));
}.

Lemma created_wf `{Env} vmname o o' :
  InstanceProperties.Validate true o = (Ret (), o') → amounts_fit o' →
  Conf.wf (created_props vmname o') ∧ fits (created_props vmname o').
Proof.
  intros [Hm Hc]%Validate_bounds [F1 F2 F3 F4].
  destruct o' as [? ? ? ? [ma mt] [ca ct cs cq cm]]. cbn in *.
  unfold is_int, int_min, int_max in *. apply andb_true_iff in F1 as [? ?], F2 as [? ?], F3 as [? ?].
  split.
  - destruct (Conf.wf_new (F:=Firmware.ok) vmname). split; try done; cbn; unfold Memory.wf, VirtCPU.wf; cbn.
    + destruct (Z.eqb_spec ma 0); lia.
    + split_and!; [lia..|destruct (Z.ltb_spec cq 5); lia|apply GoFacts.TrimSpace_idem].
  - split; cbn; try done.
    + unfold is_int, int_min, int_max. destruct (Z.eqb_spec ma 0); lia.
    + unfold is_int, int_min, int_max. destruct (Z.ltb_spec cq 5); lia.
    + unfold conf_json. apply Json.plain_struct. do 3 (constructor; [by first [done|split]|]).
      constructor; [split; [done|]; apply Json.plain_struct|].
      * do 2 (constructor; [done|]). do 2 (constructor; [by apply Json.plain_opt_int|]).
        constructor; [by apply Json.plain_opt_string|constructor].
      * repeat (constructor; [by first [done|split]|]). constructor.
Qed.

(** ** Paths *)

Lemma plain_config : plain "config".
Proof. split_and!; [apply (bool_decide_unpack _); by vm_compute|done..]. Qed.

Lemma vmdir_path n : ValidateMachineName n = Ret () → vmdir n = "/etc/kvmrun/" +:+ n.
Proof. intros Hn. unfold vmdir. by rewrite conf_path. Qed.

Lemma vmdir_file n f :
  ValidateMachineName n = Ret () → Filepath.Join [vmdir n; f] = Filepath.Join [CONFDIR; n; f].
Proof. intros Hn. by rewrite vmdir_path. Qed.

Lemma under_vmdir n f :
  ValidateMachineName n = Ret () → plain f → under (vmdir n) (Filepath.Join [CONFDIR; n; f]) = true.
Proof.
  intros Hn Hf. rewrite vmdir_path, conf_path by (done || by constructor).
  unfold under. apply orb_true_iff. right.
  assert ("/etc/kvmrun/" +:+ Strings.Join [n; f] "/" = (("/etc/kvmrun/" +:+ n) +:+ "/") +:+ f) as ->.
  { cbn [Strings.Join]. by rewrite <- !append_assoc. }
  apply GoFacts.HasPrefix_app.
Qed.

(** The files and the user of a machine, on a host that grants what they take. *)
Lemma create_files_run `{Env} {hst : Host} `{Accounts, Services} except copy appconf vmname opts o root uid h :
  obliging except → (∀ a, match a with EnableUnitFiles _ => True | _ => except a = false end) →
  ValidateMachineName vmname = Ret () → InstanceProperties.Validate true opts = (Ret (), o) →
  InstanceProperties.Firmware_ o = None → OsUser.getVacantUid (inl (passwd h, None)) = Ret uid →
  ends (create_files copy appconf vmname o root) h (Ret ())
    (<[Filepath.Join [CONFDIR; vmname; "config"] := Some (enc_conf (created_props vmname o))]> (files_ h))
    (useradd vmname uid (passwd h)).
Proof.
  intros Hob Hex Hn Hv Hfw Hu. set (p := created_props vmname o).
  set (c0 := {| InstanceConf.props := p; InstanceConf.confname := "config" |}).
  unfold create_files. eapply ends_bind; [eapply ends_mkdir_all; [done|by apply (Hex (MkdirAll _))]|]. intros l8.
  apply ends_on_failure. rewrite Hfw. eapply ends_bind; [apply ends_ret|]. intros l9.
  eapply ends_bind; [eapply (ends_CreateUser except Hob _ uid); [|done];
                     intros a Ha; specialize (Hex a); by destruct a|]. intros l10. apply ends_on_failure.
  eapply (ends_bind _ _ _ c0 (files_ h) (useradd vmname uid (passwd h)));
    [|intros l11; eapply (ends_save except Hob c0 {| files_ := files_ h; passwd := _; log := l11 |});
      [done|by apply (Hex (WriteFile_ _))]].
  eapply (ends_bind _ _ _ p (files_ h) (useradd vmname uid (passwd h)));
    [|intros l12; by apply (ends_ret c0 {| files_ := files_ h; passwd := _; log := l12 |})].
  unfold locally. rewrite (op_bind_run _ _ _ () p) by (by apply (set_resources_run vmname opts)).
  by apply (ends_lift (Ret p)).
Qed.

(** What precedes them in [Create]. *)
Lemma create_task_run `{Env} {hst : Host} `{Accounts, Services} except refuse vmname h (m : op host ()) r f p :
  obliging except → except (Stat (Filepath.Join [vmdir vmname; "config"])) = false →
  refuse (BlockAnyOperations vmname []) = None → ValidateMachineName vmname = Ret () →
  has_config (files_ h) vmname = false →
  (∀ l, ends m {| files_ := files_ h; passwd := passwd h; log := l |} r f p) →
  ends (task refuse (BlockAnyOperations vmname []) (
          exists_ ← stat (Filepath.Join [vmdir vmname; "config"]);
          fail_if exists_ (ErrAlreadyExists vmname);; m)) h r f p.
Proof.
  intros Hob Hst Hrf Hn Hno Hm. unfold task. rewrite Hrf.
  eapply ends_bind; [by eapply ends_stat|]. intros l. rewrite vmdir_file by done. cbn [files_ passwd].
  unfold has_config in Hno. rewrite Hno. eapply ends_bind; [apply ends_ret|]. intros l'. apply Hm.
Qed.

(** C37: what it takes to make a machine, and what is made: on a host that does
    all it is asked, a request with a valid name, amounts within Go's integers, a
    model in UTF-8 and no firmware, for a machine that does not exist, gives the
    machine the memory, vCPUs, quota and model it asks for, except that it has the
    128 MB and the one vCPU a machine starts from where less is asked for, that a
    quota below 5 is none, and that the sockets asked for are not set
    ([created_props]); its configuration is saved and read back. *)
Theorem Create_conf `{Env} {hst : Host} `{AccountsLaws, Services} refuse copy appconf vmname opts o root uid h :
  obliging (λ _, false) → refuse (BlockAnyOperations vmname []) = None →
  ValidateMachineName vmname = Ret () → InstanceProperties.Validate true opts = (Ret (), o) →
  amounts_fit o → InstanceProperties.Firmware_ o = None →
  has_config (files_ h) vmname = false → OsUser.getVacantUid (inl (passwd h, None)) = Ret uid →
  is_int uid = true →
  let p := created_props vmname o in
  ∃ c, ends (Create refuse copy appconf vmname (Some opts) root) h (Ret c)
         (<[Filepath.Join [CONFDIR; vmname; "config"] := Some (enc_conf p)]> (files_ h))
         (useradd vmname uid (passwd h)) ∧
    same p (InstanceConf.props c) ∧ Conf.wf (InstanceConf.props c) ∧
    InstanceProperties.name (InstanceConf.props c) = vmname ∧
    InstanceProperties.uid (InstanceConf.props c) = uid.
Proof.
  intros Hob Hrf Hn Hv Hfit Hfw Hno Hu Hui p. destruct (created_wf vmname _ _ Hv Hfit) as [Hwf Hfits].
  set (path := Filepath.Join [CONFDIR; vmname; "config"]).
  set (f' := <[path := Some (enc_conf p)]> (files_ h)).
  set (c0 := {| InstanceConf.props := p; InstanceConf.confname := "config" |}).
  destruct (load_saved (user_Lookup (useradd vmname uid (passwd h))) f' p (Strconv.Itoa uid) uid)
    as (c & Hc & Hsame & Hwfc & Hnc & Huc & _); try done.
  { apply lookup_insert_eq. }
  { rewrite useradd_Lookup by done. by rewrite bool_decide_true. }
  { by apply GoFacts.Atoi_Itoa. }
  exists c. split_and!; try done.
  unfold Create. eapply ends_bind; [by apply ends_lift|]. intros l1.
  eapply ends_bind; [unfold locally; rewrite Hv; by apply (ends_lift (Ret o))|]. intros l2.
  eapply (ends_bind _ _ _ () f' (useradd vmname uid (passwd h)));
    [|intros l3; eapply ends_bind; [by eexists|intros l4; by eapply ends_lift]].
  unfold wrap. apply ends_map_err. eapply create_task_run; try done. intros l4.
  eapply (ends_bind _ _ _ () f' (useradd vmname uid (passwd h)));
    [|intros l7]. {
    apply (create_files_run (λ _, false) copy appconf vmname opts o root uid
             {| files_ := files_ h; passwd := passwd h; log := l4 |}); try done. by intros []. }
  by apply (ends_Enable (λ _, false) Hob vmname {| files_ := f'; passwd := _; log := l7 |}).
Qed.

(** a machine that is made but whose unit can not be enabled: the request
    fails, the machine stays, and no later request can make it. *)
Theorem Create_leftover `{Env} {hst : Host} `{AccountsLaws, Services} refuse copy appconf vmname opts o root uid h e :
  obliging (λ a, match a with EnableUnitFiles _ => true | _ => false end) →
  (∀ l, answer l (EnableUnitFiles (machineUnitFile vmname)) = inr e) →
  refuse (BlockAnyOperations vmname []) = None →
  ValidateMachineName vmname = Ret () → InstanceProperties.Validate true opts = (Ret (), o) →
  InstanceProperties.Firmware_ o = None → has_config (files_ h) vmname = false →
  OsUser.getVacantUid (inl (passwd h, None)) = Ret uid →
  ∃ e' h', Create refuse copy appconf vmname (Some opts) root h = (Throw e', h') ∧
    has_config (files_ h') vmname = true ∧ user_Lookup (passwd h') vmname = inl (Strconv.Itoa uid) ∧
    (Create refuse copy appconf vmname (Some opts) root h').1 = Throw (ErrAlreadyExists vmname).
Proof.
  intros Hob He Hrf Hn Hv Hfw Hno Hu.
  set (f' := <[Filepath.Join [CONFDIR; vmname; "config"] := Some (enc_conf (created_props vmname o))]> (files_ h)).
  set (p' := useradd vmname uid (passwd h)).
  assert (∀ k r f p, ends (wrap "cannot create new machine" (task refuse (BlockAnyOperations vmname []) (
            exists_ ← stat (Filepath.Join [vmdir vmname; "config"]);
            fail_if exists_ (ErrAlreadyExists vmname);;
            create_files copy appconf vmname o root;; SystemdEnableService vmname))) k (Throw r) f p →
          ends (Create refuse copy appconf vmname (Some opts) root) k (Throw r) f p) as Hcreate.
  { intros k r f p Hk. unfold Create.
    unfold ends. rewrite (op_bind_run _ _ k () k) by (unfold lift; by rewrite Hn).
    rewrite (op_bind_run _ _ k o k) by (unfold locally; by rewrite Hv). by apply ends_throw. }
  destruct (Hcreate h (match e with ErrMsg m => ErrMsg ("cannot create new machine: " +:+ m) | _ => e end) f' p')
    as [l Hl].
  { unfold wrap. refine (ends_map_err_throw _ _ _ e _ _ _). eapply create_task_run; try done. intros l4.
    eapply (ends_bind _ _ _ () f' p').
    - apply (create_files_run _ copy appconf vmname opts o root uid
               {| files_ := files_ h; passwd := passwd h; log := l4 |} Hob); try done. by intros [].
    - intros l7. unfold SystemdEnableService, Enable, ends, ask, mbind, op_bind. cbn [log files_ passwd].
      rewrite He. by eexists. }
  assert (has_config f' vmname = true) as Hhas
    by (apply bool_decide_true; unfold f'; rewrite lookup_insert_eq; by eexists).
  eexists _, _. split; [exact Hl|]. split_and!; [done| |].
  { cbn [passwd]. unfold p'. rewrite useradd_Lookup by done. by rewrite bool_decide_true. }
  edestruct (Hcreate {| files_ := f'; passwd := p'; log := l |} (ErrAlreadyExists vmname) f' p') as [l' Hl'];
    [|by rewrite Hl'].
  unfold wrap. refine (ends_map_err_throw _ _ _ (ErrAlreadyExists vmname) _ _ _). unfold task. rewrite Hrf.
  eapply ends_bind; [by eapply ends_stat|]. intros l4. rewrite vmdir_file by done. cbn [files_ passwd].
  unfold has_config in Hhas. rewrite Hhas. by eexists.
Qed.

(** ** A request that fails *)

(** The files beside those of a machine. *)
Definition beside (n : string) (f : files) : files := filter (λ kv, under (vmdir n) kv.1 = false) f.

Lemma beside_alter n g path f : under (vmdir n) path = true → beside n (partial_alter g path f) = beside n f.
Proof.
  intros Hu. apply map_eq. intros k. apply option_eq. intros x. unfold beside.
  rewrite !map_lookup_filter_Some. simpl.
  destruct (decide (k = path)) as [->|Hk]; [|by rewrite lookup_partial_alter_ne by done].
  split; intros [_ E]; congruence.
Qed.
Lemma beside_beside n f : beside n (beside n f) = beside n f.
Proof. unfold beside. rewrite map_filter_filter. apply map_filter_ext. naive_solver. Qed.

Section frames.
Context `{Accounts, Services}.

Lemma RemoveUser_outcome name h :
  (∀ l, answer l (Userdel name) = inl ()) →
  (RemoveUser name h).1 = Ret () ∧ files_ (RemoveUser name h).2 = files_ h ∧
  passwd (RemoveUser name h).2 = userdel name (passwd h).
Proof. intros Hr. unfold RemoveUser, mbind, op_bind, ask, map_err, done, lift. by rewrite Hr. Qed.

(** [CreateUser] fails before it has changed anything. *)
Lemma CreateUser_outcome name h :
  let '(r, h') := CreateUser name h in
  files_ h' = files_ h ∧
  match r with Ret uid => passwd h' = useradd name uid (passwd h) | _ => passwd h' = passwd h end.
Proof.
  unfold CreateUser, mbind, op_bind, ask, map_err, done, lift, get, modify. cbn [log passwd files_].
  repeat (match goal with |- context [Backend.call ?x] => destruct x as [[]|?]; simpl end; [|done]).
  destruct (OsUser.getVacantUid _) as [uid|e|p]; [|done..]. simpl.
  by destruct (answer _ (Useradd name uid)) as [[]|e].
Qed.

(** [save] writes one file, and leaves the configuration there if it returns. *)
Lemma save_outcome c h n :
  under (vmdir n) (InstanceConf.config c) = true →
  let '(r, h') := save c h in
  passwd h' = passwd h ∧ beside n (files_ h') = beside n (files_ h) ∧
  (is_ret r = true → is_Some (files_ h' !! InstanceConf.config c)).
Proof.
  intros Hu. unfold save, writing, Save, mbind, op_bind, ask, lift, zoom. cbn [log].
  destruct (ValidateMachineName _) as [[]|e|p]; [|done..]. simpl.
  destruct (answer (log h) (WriteFile_ (InstanceConf.config c))) as [|e rest]; simpl.
  - split_and!; [done|by apply beside_alter|]. intros _. rewrite lookup_insert_eq. by eexists.
  - split_and!; [done|by apply beside_alter|done].
Qed.

Lemma remove_all_outcome n h :
  (∀ l, answer l (RemoveAll (vmdir n)) = Removed) →
  (remove_all (vmdir n) h).1 = Ret () ∧ files_ (remove_all (vmdir n) h).2 = beside n (files_ h) ∧
  passwd (remove_all (vmdir n) h).2 = passwd h.
Proof. intros Hr. unfold remove_all, mbind, op_bind, ask. rewrite Hr. done. Qed.

(** The users are those of another password file. *)
Definition same_users (l l' : list string) : Prop :=
  ∀ name uid, user_Lookup l name = inl uid ↔ user_Lookup l' name = inl uid.
End frames.


(** The configuration [Create] makes has the machine's name. *)
Lemma new_conf_outcome `{Env} {hst : Host} n o fw h :
  let '(r, h') := new_conf n o fw h in
  files_ h' = files_ h ∧ passwd h' = passwd h ∧
  (∀ c, r = Ret c → InstanceConf.config c = Filepath.Join [CONFDIR; n; "config"]).
Proof.
  unfold new_conf, locally, mbind at 1, op_bind at 1.
  set (p0 := InstanceConf.props _).
  assert (InstanceProperties.name ((set_resources o;; set_firmware fw) p0).2 = n) as Hname.
  { assert (∀ c, preserves (λ p, InstanceProperties.name p = n)
      (ignored (exec (Build_call_at hst (inr ErrNotImplemented) c)))) as Hi.
    { intros c p Hp. pose proof (ServerFacts.preserves_exec_name n (Build_call_at hst (inr ErrNotImplemented) c) p Hp) as Hx.
      unfold ignored, unless. by destruct (exec _ p) as [[] ?]. }
    assert (preserves (λ p, InstanceProperties.name p = n) (set_resources o;; set_firmware fw)) as Hp; [|by apply Hp].
    unfold set_resources, set_firmware.
    repeat (apply preserves_bind; [|intros []]).
    - exact (Hi (ConfInvariant.MemorySetTotal _)).
    - exact (Hi (ConfInvariant.MemorySetActual _)).
    - exact (Hi (ConfInvariant.CPUSetTotal _)).
    - exact (Hi (ConfInvariant.CPUSetActual _)).
    - exact (Hi (ConfInvariant.CPUSetQuota _)).
    - exact (Hi (ConfInvariant.CPUSetModel _)).
    - destruct fw as [fw|]; [|apply preserves_ret].
      apply preserves_bind; [exact (Hi (ConfInvariant.FirmwareSetImage _))|intros []; exact (Hi (ConfInvariant.FirmwareSetFlash _))]. }
  destruct ((set_resources o;; set_firmware fw) p0) as [[[]|e|q] p]; [|done..]. simpl in Hname.
  split_and!; [done..|]. intros c [= <-]. unfold InstanceConf.config. cbn. by rewrite Hname.
Qed.

(** A request turned down before anything is done. *)
Ltac unchanged := cbn; intros _; split; [done|left; split; [done|by left]].

Section undone.
Context `{Env} {hst : Host} `{AccountsLaws, Services} (n : string).
Context (Hrm : ∀ l, answer l (RemoveAll (vmdir n)) = Removed)
        (Hud : ∀ l, answer l (Userdel n) = inl ())
        (Hn : ValidateMachineName n = Ret ()).

(** The images that are copied next to the configuration. *)
Lemma beside_alike f f' : ServerFacts.alike (ServerFacts.firmware_files n) f' f → beside n f' = beside n f.
Proof.
  intros Ha. apply map_filter_strong_ext. intros k x. cbn. split; intros [Hu Hx]; (split; [done|]).
  all: assert (f' !! k = f !! k) as He; [|congruence].
  all: apply Ha; intros Hin; revert Hu; unfold ServerFacts.firmware_files in Hin; fold (vmdir n) in Hin;
    rewrite !vmdir_file in Hin by done;
    apply elem_of_cons in Hin as [->|[->|[]%elem_of_nil]%elem_of_cons];
    rewrite under_vmdir by (done || (split_and!; [apply (bool_decide_unpack _); by vm_compute|done..])); done.
Qed.

(** The user made for a machine and taken back. *)
Lemma same_users_undone uid l : (∃ e, user_Lookup l n = inr e) → same_users (userdel n (useradd n uid l)) l.
Proof.
  intros [e He] m u. destruct (decide (m = n)) as [->|Hm].
  - destruct (userdel_Lookup n (useradd n uid l) Hn) as [e' ->]. rewrite He. naive_solver.
  - rewrite userdel_other, useradd_Lookup, bool_decide_false by done. done.
Qed.

(** A step that leaves the users alone, with the user taken back if it fails. *)
Lemma with_user_undone (m : op host ()) h F :
  (let '(r, h') := m h in
   beside n (files_ h') = F ∧ passwd h' = passwd h ∧ (is_ret r = true → has_config (files_ h') n = true)) →
  let '(r, h') := on_failure (ignored (RemoveUser n)) m h in
  beside n (files_ h') = F ∧
  (if is_ret r then has_config (files_ h') n = true ∧ passwd h' = passwd h
   else passwd h' = userdel n (passwd h)).
Proof.
  unfold on_failure, ignored, unless. destruct (m h) as [r h1]. intros (Hf & Hp & Hr).
  pose proof (RemoveUser_outcome n h1 Hud) as (_ & Hf2 & Hp2).
  destruct r as [[]|e|q]; [by split; [|split; [apply Hr|]]|..];
    simpl; destruct (RemoveUser n h1) as [[[]|?|?] h3]; simpl in *; by rewrite Hf2, Hp2, Hf, Hp.
Qed.

Lemma with_user_outcome o fw h :
  let '(r, h') := on_failure (ignored (RemoveUser n)) (vmc ← new_conf n o fw; save vmc) h in
  beside n (files_ h') = beside n (files_ h) ∧
  (if is_ret r then has_config (files_ h') n = true ∧ passwd h' = passwd h
   else passwd h' = userdel n (passwd h)).
Proof.
  apply with_user_undone. unfold mbind, op_bind.
  pose proof (new_conf_outcome n o fw h) as Hnc. destruct (new_conf n o fw h) as [[c|e|q] h1];
    destruct Hnc as (Hf1 & Hp1 & Hc); [|by rewrite Hf1, Hp1..].
  specialize (Hc c eq_refl). pose proof (save_outcome c h1 n) as Hs. rewrite Hc in Hs.
  specialize (Hs (under_vmdir n "config" Hn plain_config)). destruct (save c h1) as [r h2].
  destruct Hs as (Hp & Hf & Hx). rewrite <- Hf1, <- Hp1. split_and!; [done..|].
  intros Hr. by apply bool_decide_true, Hx.
Qed.

(** What is made below the directory of a machine goes with it. *)
Lemma with_dir_undone {A} (m : op host A) h F :
  (let '(r, h') := m h in beside n (files_ h') = F) →
  let '(r, h') := m h in
  on_failure (ignored (remove_all (vmdir n))) m h =
    (r, if is_ret r then h' else (remove_all (vmdir n) h').2) ∧
  (is_ret r = false → files_ (remove_all (vmdir n) h').2 = F ∧
     passwd (remove_all (vmdir n) h').2 = passwd h').
Proof.
  unfold on_failure, ignored, unless. destruct (m h) as [r h1]. intros Hf.
  destruct (remove_all_outcome n h1 Hrm) as (Hr & Hf1 & Hp1).
  destruct r as [a|e|q]; (split; [|try done; rewrite <- Hf; done]); [done|..];
    simpl in *; by destruct (remove_all (vmdir n) h1) as [[[]|?|?] h3].
Qed.

Lemma create_files_outcome copy appconf o root h :
  (∃ e, user_Lookup (passwd h) n = inr e) →
  let '(r, h') := create_files copy appconf n o root h in
  beside n (files_ h') = beside n (files_ h) ∧
  if is_ret r then has_config (files_ h') n = true ∧ ∃ uid, passwd h' = useradd n uid (passwd h)
  else same_users (passwd h') (passwd h) ∧ (files_ h' = files_ h ∨ files_ h' = beside n (files_ h)).
Proof.
  intros Hnew. assert (∀ l, same_users l l) as Hrefl by done.
  unfold create_files. unfold mbind at 1, op_bind at 1.
  assert (files_ (mkdir_all (vmdir n) h).2 = files_ h ∧ passwd (mkdir_all (vmdir n) h).2 = passwd h) as [Hf0 Hp0] by by split.
  destruct (mkdir_all (vmdir n) h) as [[[]|e|q] h0]; cbn [snd is_ret] in *; [|rewrite Hf0, Hp0; by auto..].
  set (m := mbind _ _). rewrite <- Hf0, <- Hp0. rewrite <- Hp0 in Hnew.
  assert (let '(r, h') := m h0 in beside n (files_ h') = beside n (files_ h0) ∧
    (if is_ret r then has_config (files_ h') n = true ∧ ∃ uid, passwd h' = useradd n uid (passwd h0)
     else same_users (passwd h') (passwd h0))) as Hm.
  { unfold m, mbind at 1, op_bind at 1.
    set (fw := match InstanceProperties.Firmware_ o with Some _ => _ | None => _ end).
    assert (beside n (files_ (fw h0).2) = beside n (files_ h0) ∧ passwd (fw h0).2 = passwd h0) as [Hfw Hpw].
    { unfold fw. destruct (InstanceProperties.Firmware_ o) as [fw'|]; [|done]. unfold zoom, mbind, op_bind.
      pose proof (ServerFacts.prepare_firmware_files copy n (root_dir appconf root) (Firmware.props fw') (files_ h0)) as Hpf.
      destruct (prepare_firmware _ _ _ _ _) as [[? | |] f]; by split; [apply beside_alike|]. }
    destruct (fw h0) as [[fw'|e|q] h00]; cbn [snd] in Hfw, Hpw; [|by rewrite Hpw..].
    rewrite <- Hfw, <- Hpw. rewrite <- Hpw in Hnew.
    unfold mbind at 1, op_bind at 1.
    pose proof (CreateUser_outcome n h00) as Hcu. destruct (CreateUser n h00) as [[uid|e|q] h1];
      destruct Hcu as [Hf1 Hp1]; [|by rewrite Hf1, Hp1..].
    pose proof (with_user_outcome o fw' h1) as Hw.
    destruct (on_failure _ _ h1) as [r h2]. rewrite Hf1, Hp1 in Hw. destruct Hw as [Hf2 Hw]. split; [done|].
    destruct (is_ret r); [destruct Hw; eauto|]. rewrite Hw. by apply same_users_undone. }
  pose proof (with_dir_undone m h0 (beside n (files_ h0))) as Hd.
  destruct (m h0) as [r h1]. destruct Hm as [Hb Hm]. destruct (Hd Hb) as [-> Hfail].
  destruct (is_ret r); [done|]. destruct (Hfail eq_refl) as [-> ->].
  by rewrite beside_beside; auto.
Qed.

(** a request to make a machine that fails has changed nothing but the files
    of that machine, and either the machine is as if it had not been asked for,
    with the files its directory may have had gone, or it is there after all,
    configuration and user. *)
Theorem Create_undone refuse copy appconf opts root h :
  (∃ e, user_Lookup (passwd h) n = inr e) →
  let '(r, h') := Create refuse copy appconf n opts root h in
  is_ret r = false →
  beside n (files_ h') = beside n (files_ h) ∧
  (same_users (passwd h') (passwd h) ∧ (files_ h' = files_ h ∨ files_ h' = beside n (files_ h)) ∨
   has_config (files_ h') n = true ∧ ∃ uid, user_Lookup (passwd h') n = inl (Strconv.Itoa uid)).
Proof.
  intros Hnew. assert (∀ l, same_users l l) as Hrefl by done.
  unfold Create. unfold mbind at 1, op_bind at 1, lift at 1. rewrite Hn.
  destruct opts as [opts|]; [|unchanged]. unfold mbind at 1, op_bind at 1, locally.
  destruct (InstanceProperties.Validate true opts) as [[[]|e|q] o]; [|unchanged..].
  unfold mbind at 1, op_bind at 1, wrap, map_err, task. destruct (refuse _); [unchanged|].
  unfold mbind at 1, op_bind at 1.
  set (st := stat _ h). assert (files_ st.2 = files_ h ∧ passwd st.2 = passwd h) as [Hf0 Hp0].
  { unfold st, stat, mbind, op_bind, ask. by destruct (answer _ _). }
  destruct st as [[ex|e|q] h0]; cbn [snd is_ret] in *; [|rewrite Hf0, Hp0; unchanged..].
  unfold mbind at 1, op_bind at 1, fail_if. destruct ex; [cbn; rewrite Hf0, Hp0; unchanged|].
  cbn [mret op_ret]. unfold mbind at 1, op_bind at 1. rewrite <- Hf0, <- Hp0. rewrite <- Hp0 in Hnew.
  pose proof (create_files_outcome copy appconf o root h0 Hnew) as Hc.
  destruct (create_files copy appconf n o root h0) as [[[]|e|q] h1]; cbn [is_ret] in Hc;
    [|by destruct Hc as (? & ? & ?); auto..].
  destruct Hc as (Hb & Hcfg & uid & Hp). set (en := SystemdEnableService n h1).
  assert (files_ en.2 = files_ h1 ∧ passwd en.2 = passwd h1) as [Hf2 Hp2] by done.
  assert (∀ h2, files_ h2 = files_ h1 → passwd h2 = passwd h1 →
    beside n (files_ h2) = beside n (files_ h0) ∧
    (same_users (passwd h2) (passwd h0) ∧ (files_ h2 = files_ h0 ∨ files_ h2 = beside n (files_ h0)) ∨
     has_config (files_ h2) n = true ∧ ∃ uid, user_Lookup (passwd h2) n = inl (Strconv.Itoa uid))) as Hthere.
  { intros h2 -> ->. split; [done|]. right. split; [done|]. exists uid. rewrite Hp, useradd_Lookup by done.
    by rewrite bool_decide_true. }
  destruct en as [[[]|e|q] h2]; cbn [snd] in *; [|by intros _; apply Hthere..].
  intros _. by apply Hthere.
Qed.
End undone.

(** ** Delete *)

(** A configuration that could be read can not be once its user is gone. *)
Lemma conf_without_user `{Env} users users' fs fs' n c e :
  ValidateMachineName n = Ret () → GetInstanceConf users fs n = Ret c →
  fs' !! Filepath.Join [CONFDIR; n; "config"] = fs !! Filepath.Join [CONFDIR; n; "config"] →
  users' n = inr e → GetInstanceConf users' fs' n = Throw e.
Proof.
  intros Hn Hc Hfs He. destruct (valid_name n Hn) as [Ht Hne]. revert Hc.
  unfold GetInstanceConf. rewrite Ht, bool_decide_false by done.
  unfold read_conf. change (InstanceConf.config (InstanceConf.newInstanceConf n)) with
    (Filepath.Join [CONFDIR; n; "config"]). rewrite Hfs.
  destruct (match fs !! _ with Some _ => _ | None => _ end) as [p|e'|q]; [|by destruct e'|done].
  cbn [mbind outcome_bind]. destruct (check_backends _) as [[]|?|?]; [|done..]. cbn [mbind outcome_bind].
  destruct (check_hostpci _) as [[]|?|?]; [|done..]. cbn [mbind outcome_bind].
  intros _. unfold lookup_uid. by rewrite He.
Qed.

Lemma stop_ignored `{Services} n t h :
  ∃ l, ignored (SystemdStopService n t) h = (Ret (), {| files_ := files_ h; passwd := passwd h; log := l |}).
Proof.
  assert (∃ r l, SystemdStopService n t h = (r, {| files_ := files_ h; passwd := passwd h; log := l |}) ∧
    ∀ q, r ≠ Panic q) as (r & l & Hr & Hq).
  { unfold SystemdStopService, Stop, StopAndWait, mbind, op_bind, ask, done, lift. cbn [log files_ passwd].
    destruct (t =? 0).
    - eexists _, _. split; [reflexivity|]. by destruct (answer _ (StopUnit _)).
    - destruct (answer _ (StopUnit _)) as [[]|e]; [|by eexists _, _]. cbn.
      eexists _, _. split; [reflexivity|]. intros q.
      generalize (answer (log h ++ [StopUnit (machineUnitFile n)]) (Ticks (machineUnitFile n) t)) as ticks.
      cbn. induction ticks as [|[u|e] ticks IH]; [done| |done]. simpl. by repeat case_match. }
  exists l. unfold ignored, unless. rewrite Hr. by destruct r as [[]|e|q]; [| |destruct (Hq q)].
Qed.

(** What [Delete] does up to the files. *)
Lemma delete_prefix_run `{Env} `{Accounts, Services} refuse n force h c :
  refuse (BlockAnyOperations n []) = None →
  GetInstanceConf (user_Lookup (passwd h)) (files_ h) n = Ret c →
  (∀ l, answer l (DisableUnitFiles (machineUnitFile n)) = inl ()) → (∀ l, answer l (Userdel n) = inl ()) →
  ∃ l, Delete refuse n force h =
    map_err (λ e, match e with ErrMsg m => ErrMsg ("cannot delete machine: " +:+ m) | _ => e end)
      (remove_all (vmdir n)) {| files_ := files_ h; passwd := userdel n (passwd h); log := l |}.
Proof.
  intros Hrf Hc Hdis Hud. unfold Delete, wrap, task. rewrite Hrf.
  enough (∃ l, (_ ← get_conf n; (if force then SystemdSendSIGKILL n else mret ());;
      ignored (SystemdStopService n 30);; SystemdDisableService n;; ignored (RemoveUser n);;
      remove_all (vmdir n)) h
    = remove_all (vmdir n) {| files_ := files_ h; passwd := userdel n (passwd h); log := l |}) as [l E].
  { exists l. unfold map_err. by rewrite E. }
  rewrite (op_bind_run _ _ h c h) by (unfold get_conf, mbind, op_bind, get, lift; by rewrite Hc).
  assert (∃ l, (if force then SystemdSendSIGKILL n else mret ()) h
    = (Ret (), {| files_ := files_ h; passwd := passwd h; log := l |})) as [l1 E1].
  { destruct force; [by eexists|]. exists (log h). by destruct h. }
  rewrite (op_bind_run _ _ _ _ _ E1).
  destruct (stop_ignored n 30 {| files_ := files_ h; passwd := passwd h; log := l1 |}) as [l2 E2].
  rewrite (op_bind_run _ _ _ _ _ E2). cbn [files_ passwd].
  assert (∃ l, SystemdDisableService n {| files_ := files_ h; passwd := passwd h; log := l2 |}
    = (Ret (), {| files_ := files_ h; passwd := passwd h; log := l |})) as [l3 E3].
  { unfold SystemdDisableService, Disable, mbind, op_bind, ask, done, lift. rewrite Hdis. by eexists. }
  rewrite (op_bind_run _ _ _ _ _ E3).
  assert (∃ l, ignored (RemoveUser n) {| files_ := files_ h; passwd := passwd h; log := l3 |}
    = (Ret (), {| files_ := files_ h; passwd := userdel n (passwd h); log := l |})) as [l4 E4].
  { unfold ignored, unless, RemoveUser, mbind, op_bind, ask, map_err, done, lift. rewrite Hud. by eexists. }
  rewrite (op_bind_run _ _ _ _ _ E4). by eexists.
Qed.

Lemma remove_all_stuck `{Services} dir h e rest path :
  (∀ l, answer l (RemoveAll dir) = Stuck e rest) → rest path = true →
  (remove_all dir h).1 = Throw e ∧ files_ (remove_all dir h).2 !! path = files_ h !! path ∧
  passwd (remove_all dir h).2 = passwd h.
Proof.
  intros Hr Hp. unfold remove_all, mbind, op_bind, ask. rewrite Hr. split_and!; [done| |done].
  apply option_eq. intros x. cbn. rewrite map_lookup_filter_Some. simpl. rewrite Hp. naive_solver.
Qed.

(** deleting a machine removes its user before its files, so when the files
    can not be removed the machine can never be deleted again: every later
    request fails at once and does nothing, whatever the host would do then. *)
Theorem Delete_stuck `{Env} `{AccountsLaws} (srv : Services) refuse n force h c e rest :
  ValidateMachineName n = Ret () → refuse (BlockAnyOperations n []) = None →
  GetInstanceConf (user_Lookup (passwd h)) (files_ h) n = Ret c →
  (∀ l, answer l (DisableUnitFiles (machineUnitFile n)) = inl ()) →
  (∀ l, answer l (Userdel n) = inl ()) →
  (∀ l, answer l (RemoveAll (vmdir n)) = Stuck e rest) →
  rest (Filepath.Join [CONFDIR; n; "config"]) = true →
  let h' := (Delete refuse n force h).2 in
  is_ret (Delete refuse n force h).1 = false ∧ has_config (files_ h') n = has_config (files_ h) n ∧
  ∀ (later : Services) force', is_ret (@Delete _ _ later refuse n force' h').1 = false ∧
    (@Delete _ _ later refuse n force' h').2 = h'.
Proof.
  intros Hn Hrf Hc Hdis Hud Hrm Hrest.
  destruct (delete_prefix_run refuse n force h c Hrf Hc Hdis Hud) as [l ->].
  unfold map_err. destruct (remove_all_stuck (vmdir n) {| files_ := files_ h; passwd := userdel n (passwd h); log := l |}
    e rest (Filepath.Join [CONFDIR; n; "config"]) Hrm Hrest) as (Hr & Hf & Hp).
  destruct (remove_all _ _) as [r h']. cbn [fst snd files_ passwd] in *. subst r. cbn [fst snd].
  split; [by destruct e|]. split; [unfold has_config; by rewrite Hf|].
  destruct (userdel_Lookup n (passwd h) Hn) as [e' He'].
  intros later force'. unfold Delete, wrap, task, map_err. rewrite Hrf.
  rewrite (op_bind_throw (get_conf n) _ h' e' h'); [by destruct e'|].
  unfold get_conf, mbind, op_bind, get, lift. rewrite Hp. by rewrite (conf_without_user _ _ _ _ _ _ e' Hn Hc).
Qed.

(** on a host that does all it is asked, deleting a machine removes its
    files and no other, and its user. *)
Theorem Delete_gone `{Env} `{AccountsLaws} `{Services} refuse n force h c :
  obliging (λ _, false) → ValidateMachineName n = Ret () → refuse (BlockAnyOperations n []) = None →
  GetInstanceConf (user_Lookup (passwd h)) (files_ h) n = Ret c →
  (Delete refuse n force h).1 = Ret () ∧ files_ (Delete refuse n force h).2 = beside n (files_ h) ∧
  (∃ e, user_Lookup (passwd (Delete refuse n force h).2) n = inr e) ∧
  ∀ other, other ≠ n → user_Lookup (passwd (Delete refuse n force h).2) other = user_Lookup (passwd h) other.
Proof.
  intros Hob Hn Hrf Hc.
  destruct (delete_prefix_run refuse n force h c Hrf Hc) as [l ->].
  { intros l. by apply (Hob l (DisableUnitFiles _)). }
  { intros l. by apply (Hob l (Userdel _)). }
  unfold map_err. destruct (remove_all_outcome n {| files_ := files_ h; passwd := userdel n (passwd h); log := l |})
    as (Hr & Hf & Hp); [intros l'; by apply (Hob l' (RemoveAll _))|].
  destruct (remove_all _ _) as [r h']. simpl in *. subst r. simpl. rewrite Hf, Hp.
  split_and!; [done|done|by apply userdel_Lookup|]. intros other Ho. by apply userdel_other.
Qed.
End LifecycleFacts.
