(* ===== verification/LifecycleTheorems.v ===== *)
(** LifecycleTheorems: the theorems on the life of machines at work on a host
    whose password file is read and written the plain way. *)

From S2P Require Import Prelude.
From S2P Require Import GoStd.
From S2P Require Import GoFacts.
From S2P Require Import Backend.
From S2P Require Import Resources.
From S2P Require Import Peripherals.
From S2P Require Import InstanceProperties.
From S2P Require Import InstanceConf.
From S2P Require Import ConfInvariant.
From S2P Require Import ConfTheorems.
From S2P Require Import ConfJson.
From S2P Require Import ConfJsonFacts.
From S2P Require Import Monitor.
From S2P Require Import Server.
From S2P Require Import OsUser.
From S2P Require Import Version.
From S2P Require Import Services.
From S2P Require Import Lifecycle.
From S2P Require Import LifecycleFacts.

Open Scope Z_scope.
#[local] Set Warnings "-register-all".

(** ** A password file *)
Module Passwd.
Import Strings.

Definition line_name (line : string) : string := default "" (Split line ":" !! 0%nat).
Definition line (name : string) (uid : Z) : string :=
  name +:+ ":" +:+ "x" +:+ ":" +:+ Strconv.Itoa uid +:+ ":" +:+ "65534::/:/bin/false".

Definition lookup (lines : list string) (name : string) : sys string :=
  match list_find (λ l, line_name l = name) lines with
  | Some (_, l) => inl (default "" (Split l ":" !! 2%nat))
  | None => inr (ErrHost "unknown user")
  end.

#[export] Instance plain_accounts : Accounts := {
  user_Lookup := lookup;
  useradd name uid lines := line name uid :: lines;
  userdel name lines := filter (λ l, line_name l ≠ name) lines;
}.

Lemma name_no_colon n : ValidateMachineName n = Ret () → ":"%char ∉ to_list n.
Proof. intros Hn Hi. by specialize (JsonFacts.machine_name_elem _ _ Hn Hi). Qed.

Lemma Split_line n uid : ValidateMachineName n = Ret () →
  Split (line n uid) ":" = [n; "x"; Strconv.Itoa uid; "65534"; ""; "/"; "/bin/false"].
Proof.
  intros Hn. unfold line. rewrite GoFacts.Split_app_sep by by apply name_no_colon.
  rewrite GoFacts.Split_app_sep by (apply (bool_decide_unpack _); by vm_compute).
  rewrite GoFacts.Split_app_sep; [done|]. intros Hi.
  pose proof (GoFacts.Itoa_chars uid) as Hc. rewrite Forall_forall in Hc. by destruct (Hc _ Hi) as [|].
Qed.

Lemma lookup_cons x l n :
  lookup (x :: l) n =
    if decide (line_name x = n) then inl (default "" (Split x ":" !! 2%nat)) else lookup l n.
Proof.
  unfold lookup. cbn [list_find]. case_decide; [done|]. by destruct (list_find _ l) as [[]|].
Qed.

#[export] Instance plain_laws : AccountsLaws.
Proof.
  split.
  - intros n uid l other Hn. change (lookup (line n uid :: l) other =
      if bool_decide (other = n) then inl (Strconv.Itoa uid) else lookup l other).
    rewrite lookup_cons. unfold line_name. rewrite Split_line by done. simpl.
    case_decide; [by rewrite bool_decide_true|by rewrite bool_decide_false].
  - intros n l Hn. exists (ErrHost "unknown user").
    change (lookup (filter (λ x, line_name x ≠ n) l) n = inr (ErrHost "unknown user")).
    induction l as [|x l IH]; [done|]. rewrite filter_cons. case_decide; [|done].
    by rewrite lookup_cons, decide_False.
  - intros n l other Hn Ho. change (lookup (filter (λ x, line_name x ≠ n) l) other = lookup l other).
    induction l as [|x l IH]; [done|]. rewrite filter_cons, lookup_cons. case_decide as Hx.
    + by rewrite lookup_cons, IH.
    + rewrite decide_False; [done|]. congruence.
Qed.
End Passwd.

(** ** Hosts *)
Module Sample.
Import Services Server ConfJson Lifecycle LifecycleFacts Passwd.
#[export] Existing Instances sample_env sample_host.

(** A host that grants every request. *)
Definition willing : Services := λ _ a,
  match a return reply a with
  | Stat _ => None
  | WriteFile_ _ => Written
  | RemoveAll _ => Removed
  | ListUnitsByNames _ => inl []
  | Ticks _ _ => []
  | KillUnit _ _ | ResetFailedUnit _ => ()
  | StatVolume _ => inl true
  | MonRun _ query_migrate_status => inl "completed"
  | Statuses _ | Sockets => []
  | Cancelled => false
  | ReadPid _ => inl "4711"
  | DotenvRead p => inr (ErrNotExist p)
  | GetVersion _ _ => inl {| Version.Major := 9; Version.Minor := 0; Version.Micro := 0 |}
  | LookupIP _ => inl ["10.0.0.1"]
  | StartIncoming _ _ => inl {| reply_IncomingPort := 31025; reply_NBDPort := 61025; reply_PID := 4711 |}
  | RemoteGet _ _ => inl (4711, REMOTE_RUNNING)
  | _ => inl ()
  end.

(** One that can not enable units, and one that can not remove directories. *)
Definition no_units : Services := λ l a,
  match a return reply a with EnableUnitFiles _ => inr (ErrHost "dbus") | _ => willing l _ end.
Definition no_removal : Services := λ l a,
  match a return reply a with RemoveAll _ => Stuck (ErrHost "EBUSY") (λ _, true) | _ => willing l _ end.

Definition passwd_lines : list string :=
  ["root:x:0:0:root:/root:/bin/bash"; "vm0:x:1024:65534::/:/bin/false"; "nobody:x:65534:65534::/:/bin/false"].
Definition empty_host : host := {| files_ := ∅; passwd := passwd_lines; log := [] |}.

Definition request : InstanceProperties.t :=
  InstanceProperties.set_Memory_ {| Memory.Actual := 64; Memory.Total := 2048 |}
    (InstanceProperties.set_CPU {| VirtCPU.Actual := 2; VirtCPU.Total := 4; VirtCPU.Sockets := 2;
       VirtCPU.Quota := 3; VirtCPU.Model := " host " |} (InstanceProperties.zero "" 0)).
Definition copy_fails : string → string → copied := λ _ _, CopyFailed (ErrHost "EIO") None.
Definition always : targets → option goerr := λ _, None.

Lemma willing_obliging except : @obliging willing except.
Proof. intros l a _. by destruct a. Qed.

Definition vm1_config : string := Filepath.Join [CONFDIR; "vm1"; "config"].

(** The machine asked for has 64 of 2048 MB and 2 of 4 vCPUs; the sockets and
    the quota are not kept. *)
Example Create_conf_witness :
  ∃ c, @ends _ (@Create sample_env sample_host plain_accounts willing always copy_fails "/" "vm1" (Some request) "")
         empty_host (Ret c)
         (<[vm1_config := Some (enc_conf (created_props "vm1" (InstanceProperties.set_CPU
            {| VirtCPU.Actual := 2; VirtCPU.Total := 4; VirtCPU.Sockets := 2; VirtCPU.Quota := 3;
               VirtCPU.Model := "host" |} request)))]> ∅)
         (line "vm1" 1025 :: passwd_lines) ∧
    InstanceProperties.uid (InstanceConf.props c) = 1025 ∧
    VirtCPU.Sockets (InstanceProperties.CPU (InstanceConf.props c)) = 0 ∧
    VirtCPU.Quota (InstanceProperties.CPU (InstanceConf.props c)) = 0.
Proof.
  destruct (@Create_conf sample_env sample_host plain_accounts plain_laws willing always copy_fails "/"
    "vm1" request (InstanceProperties.set_CPU
            {| VirtCPU.Actual := 2; VirtCPU.Total := 4; VirtCPU.Sockets := 2; VirtCPU.Quota := 3;
               VirtCPU.Model := "host" |} request) "" 1025 empty_host) as (c & Hc & Hs & _ & _ & Hu).
  - apply willing_obliging.
  - done.
  - reflexivity.
  - reflexivity.
  - by split.
  - done.
  - reflexivity.
  - by vm_compute.
  - done.
  - exists c. split; [exact Hc|]. split; [exact Hu|]. by rewrite (JsonFacts.same_cpu _ _ Hs).
Defined.

Example Create_leftover_witness :
  ∃ e h, @Create sample_env sample_host plain_accounts no_units always copy_fails "/" "vm1" (Some request) ""
           empty_host = (Throw e, h) ∧ has_config (files_ h) "vm1" = true.
Proof.
  destruct (@Create_leftover sample_env sample_host plain_accounts plain_laws no_units always copy_fails "/"
    "vm1" request (InstanceProperties.set_CPU
            {| VirtCPU.Actual := 2; VirtCPU.Total := 4; VirtCPU.Sockets := 2; VirtCPU.Quota := 3;
               VirtCPU.Model := "host" |} request) "" 1025 empty_host (ErrHost "dbus")) as (e & h & Hr & Hc & _).
  - intros l a Ha. by destruct a.
  - done.
  - done.
  - reflexivity.
  - reflexivity.
  - done.
  - reflexivity.
  - by vm_compute.
  - by exists e, h.
Defined.

(** A machine that exists, with a file of another program in its directory. *)
Definition vm0_config : string := Filepath.Join [CONFDIR; "vm0"; "config"].
Definition vm0_host : host :=
  {| files_ := <["/etc/kvmrun/vm0/notes" := None]>
       {[vm0_config := Some (enc_conf (created_props "vm0" request))]};
     passwd := passwd_lines; log := [] |}.

Lemma vm0_loads :
  is_ret (@GetInstanceConf sample_env (user_Lookup passwd_lines) (files_ vm0_host) "vm0") = true.
Proof. by vm_compute. Qed.

Example Delete_stuck_witness :
  is_ret (@Delete sample_env plain_accounts willing always "vm0" true
    (@Delete sample_env plain_accounts no_removal always "vm0" false vm0_host).2).1 = false.
Proof.
  pose proof vm0_loads as Hl. destruct (GetInstanceConf _ _ _) as [c|e|q] eqn:Hc; [|done..].
  destruct (@Delete_stuck sample_env plain_accounts plain_laws no_removal always "vm0" false vm0_host c
    (ErrHost "EBUSY") (λ _, true) eq_refl eq_refl Hc) as (_ & _ & H); [done..|].
  by destruct (H willing true).
Defined.

Example Delete_gone_witness :
  files_ (@Delete sample_env plain_accounts willing always "vm0" true vm0_host).2 = ∅.
Proof.
  pose proof vm0_loads as Hl. destruct (GetInstanceConf _ _ _) as [c|e|q] eqn:Hc; [|done..].
  destruct (@Delete_gone sample_env plain_accounts plain_laws willing always "vm0" true vm0_host c) as (_ & -> & _).
  - apply willing_obliging.
  - reflexivity.
  - done.
  - exact Hc.
  - by vm_compute.
Defined.

(** A host on which [useradd] fails: what was in the directory is gone, and no
    user is left. *)
Definition no_users : Services := λ l a,
  match a return reply a with Useradd _ _ => inr (ErrHost "exit status 9") | _ => willing l _ end.

Example Create_undone_witness :
  let h := {| files_ := {["/etc/kvmrun/vm1/notes" := None]}; passwd := passwd_lines; log := [] |} in
  let h' := (@Create sample_env sample_host plain_accounts no_users always copy_fails "/" "vm1" (Some request) "" h).2 in
  same_users (passwd h') (passwd h) ∧ files_ h' = ∅.
Proof.
  intros h h'.
  pose proof (@Create_undone sample_env sample_host plain_accounts plain_laws no_users "vm1" (λ _, eq_refl)
    (λ _, eq_refl) eq_refl always copy_fails "/" (Some request) "" h) as Hu.
  assert (∃ e, user_Lookup (passwd h) "vm1" = inr e) as Hn by (by eexists).
  specialize (Hu Hn). fold h' in Hu. unfold h' in *. clear h'.
  destruct (Create _ _ _ _ _ _ h) as [r h'] eqn:E. vm_compute in E. injection E as <- <-.
  destruct (Hu eq_refl) as (_ & [[Hs _]|[Hc _]]); [|by vm_compute in Hc].
  split; [done|]. by vm_compute.
Defined.
End Sample.
