(* ===== verification/Incoming.v ===== *)
(** Incoming: receiving a machine from another server
    ([server/system/incoming_migration.go]).

    A task object keeps what [BeforeStart] has done so far, for [OnFailure] to
    undo.  The maps of a request ([Disks], [ExtraFiles]) are association lists:
    a loop over a Go map visits them in some order, this one. *)

From S2P Require Import Prelude.
From S2P Require Import GoStd.
From S2P Require Import GoFacts.
From S2P Require Import Ip.
From S2P Require Import Version.
From S2P Require Import Backend.
From S2P Require Import Resources.
From S2P Require Import Peripherals.
From S2P Require Import Disks.
From S2P Require Import Json.
From S2P Require Import InstanceProperties.
From S2P Require Import InstanceConf.
From S2P Require Import ConfJson.
From S2P Require Import Monitor.
From S2P Require Import Server.
From S2P Require Import OsUser.
From S2P Require Import Services.
From S2P Require Import Lifecycle.

Open Scope Z_scope.
#[local] Set Warnings "-register-all".

Module Incoming.
Import Services Server ConfJson Lifecycle.

Definition FIRST_INCOMING_PORT : Z := 30000.
Definition FIRST_NBD_PORT : Z := 60000.
Definition QEMU_BINARY : string := "/usr/lib/kvmrun/qemu.wrapper".

(** ** The request *)

(** A text that may be empty, may not be JSON, or is this value. *)
Inductive text := NoBytes | NotJson | JsonText (j : json).

Record IncomingMigrationOptions := {
  Manifest : text;
  Disks_ : list (string * Z);
  ExtraFiles : list (string * option json);
  ListenAddr : string;
  CreateDisks : bool;
  TurnOffAfter : bool;
}.

Fixpoint validate_disks (disks : list (string * Z)) : outcome () :=
  match disks with
  | [] => Ret ()
  | (diskname, size) :: disks =>
      if bool_decide (Strings.TrimSpace diskname = "") then Throw (ErrMsg "empty diskname in 'disks' map")
      else if size =? 0 then
        Throw (ErrMsg ("invalid size of disk '" +:+ diskname +:+ "': got 0b, but must be greater than 0"))
      else validate_disks disks
  end.

Definition Validate (strict : bool) (o : IncomingMigrationOptions) : outcome () :=
  match Manifest o with
  | NoBytes => Throw (ErrMsg "empty machine manifest")
  | NotJson => if strict then Throw (ErrMsg "invalid manifest struct") else validate_disks (Disks_ o)
  | JsonText _ => validate_disks (Disks_ o)
  end.

Record IncomingRequisites := { IncomingPort : Z; NBDPort : Z; PID : Z }.

(** The task: the host, and the fields set along the way. *)
Record task := {
  on : host;
  requisites : option IncomingRequisites;
  hasFirmwareFlash : bool;
  createdDisks : list string;
}.
Definition set_on (v : host) (t : task) : task :=
  {| on := v; requisites := requisites t; hasFirmwareFlash := hasFirmwareFlash t;
     createdDisks := createdDisks t |}.
Definition set_requisites (v : option IncomingRequisites) (t : task) : task :=
  {| on := on t; requisites := v; hasFirmwareFlash := hasFirmwareFlash t; createdDisks := createdDisks t |}.
Definition set_hasFirmwareFlash (v : bool) (t : task) : task :=
  {| on := on t; requisites := requisites t; hasFirmwareFlash := v; createdDisks := createdDisks t |}.
Definition set_createdDisks (v : list string) (t : task) : task :=
  {| on := on t; requisites := requisites t; hasFirmwareFlash := hasFirmwareFlash t; createdDisks := v |}.

Definition NewMachineIncomingMigrationTask (h : host) : task :=
  {| on := h; requisites := None; hasFirmwareFlash := false; createdDisks := [] |}.

(** ** The manifest *)

(** [incomingMachine]: the two configurations of a machine; [null] and a
    missing [run] leave a nil one. *)
Record incomingMachine := {
  Name : string;
  C : option InstanceConf.InstanceConf;
  R : option InstanceConf.InstanceConf;
}.

(** [tmp], whose members are kept as they are. *)
Record raw_machine := { raw_name : string; raw_run : option json; raw_conf : option json }.
Definition raw_fields : list (string * Json.decoder raw_machine) :=
  [("name", Json.on raw_name (λ v m, {| raw_name := v; raw_run := raw_run m; raw_conf := raw_conf m |})
      Json.dec_string);
   ("run", Json.on raw_run (λ v m, {| raw_name := raw_name m; raw_run := v; raw_conf := raw_conf m |})
      (λ j _, Ret (Some j)));
   ("conf", Json.on raw_conf (λ v m, {| raw_name := raw_name m; raw_run := raw_run m; raw_conf := v |})
      (λ j _, Ret (Some j)))].

(** [json.Unmarshal] into an [Instance] variable: [null] makes it nil. *)
Definition dec_instance `{Env} (j : json) (c : InstanceConf.InstanceConf)
    : outcome (option InstanceConf.InstanceConf) :=
  match j with
  | JNull => Ret None
  | _ => p ← dec_conf j (InstanceConf.props c);
         Ret (Some {| InstanceConf.props := p; InstanceConf.confname := InstanceConf.confname c |})
  end.

Definition dec_machine `{Env} (j : json) : outcome incomingMachine :=
  tmp ← Json.dec_struct raw_fields j {| raw_name := ""; raw_run := None; raw_conf := None |};
  vmc ← match raw_conf tmp with
        | None => Throw (ErrMsg "unexpected end of JSON input")
        | Some j => dec_instance j (InstanceConf.newInstanceConf (raw_name tmp))
        end;
  vmr ← match raw_run tmp with
        | None => Ret None
        | Some j => dec_instance j (InstanceConf.NewIncomingConf (raw_name tmp))
        end;
  Ret {| Name := raw_name tmp; C := vmc; R := vmr |}.

(** [StartIncomingMigrationProcess]: the label the task is known by. *)
Definition unique_label (vmname : string) : string := vmname +:+ "/incoming-migration".

(** [defer func() { if err != nil { h } }()] *)
Definition on_error_do {S A} (h : op S ()) (m : op S A) : op S A := λ s,
  match m s with (Throw e, s') => (Throw e, (h s').2) | r => r end.

(** A method of a nil interface panics. *)
Definition deref {S A} (x : option A) : op S A :=
  match x with Some a => mret a | None => lift (Panic NilDereference) end.

Section incoming.
Context `{Env} {hst : Host} `{Accounts, Services}.
Context (appconf_QemuRootDir : string) (vmname : string) (opts : IncomingMigrationOptions).
Abbreviation call := (op task).

Definition at_host {A} (m : op host A) : call A := zoom on set_on m.
Definition asks (a : service) : call (reply a) := at_host (ask a).

Definition Mon_Run (c : mon_command) : call (reply (MonRun vmname c)) := asks (MonRun vmname c).

(** ** Disks *)

(** The disks are there, and the local ones large enough. *)
Fixpoint validateDisks (disks : list (string * Z)) : outcome () :=
  match disks with
  | [] => Ret ()
  | (diskPath, diskSize) :: disks =>
      d ← Disk.NewDisk diskPath;
      ok ← Disk.IsAvailable d;
      if (ok : bool) then
        local ← Disk.IsLocal d;
        _ ← (if (local : bool) then
               be ← Disk.with_backend id d;
               size ← Size be;
               if size <? diskSize then Throw (ErrMsg ("insufficient space on " +:+ diskPath)) else Ret ()
             else Ret ());
        validateDisks disks
      else Ret ()  (* [return err] of a nil error *)
  end.

(** [lvm.CreateVolume] *)
Definition CreateVolume (vgname lvname : string) (size : Z) : call () :=
  let devpath := "/dev/" +:+ vgname +:+ "/" +:+ lvname in
  st ← asks (StatVolume devpath);
  match st with
  | inl block => throw (if block : bool then ErrExist devpath
                        else ErrMsg ("path exists but is not a block device: " +:+ devpath))
  | inr (ErrNotExist _) =>
      r ← asks (Lvcreate vgname lvname size);
      map_err (λ _, ErrMsg "lvcreate failed") (lift (Backend.call r))
  | inr e => throw e
  end.

(** [lvm.RemoveVolume] *)
Definition RemoveVolume (devpath : string) : call () :=
  let devpath := if Strings.HasPrefix devpath "/dev/" then devpath
                 else Filepath.Join ["/dev/"; devpath] in
  st ← asks (StatVolume devpath);
  match st with
  | inl true =>
      r ← asks (Lvremove devpath);
      map_err (λ _, ErrMsg "lvremove failed") (lift (Backend.call r))
  | inl false => throw (ErrMsg ("path exists but is not a block device: " +:+ devpath))
  | inr e => throw e
  end.

(** [diskPath[1:]] panics on an empty path, which [Validate] does not let by. *)
Definition volume_of (diskPath : string) : outcome (string * string) :=
  match diskPath with
  | "" => Panic IndexOutOfRange
  | String _ rest =>
      match Strings.Split rest "/" with
      | [_; vg; lv] => Ret (vg, lv)
      | _ => Throw (ErrMsg ("no idea how to create a block device: " +:+ diskPath))
      end
  end.

Fixpoint createLocalDisks (disks : list (string * Z)) : call () :=
  match disks with
  | [] => mret ()
  | (diskPath, diskSize) :: disks =>
      d ← lift (Disk.NewDisk diskPath);
      match Disk.IsAvailable d with
      | Ret true => throw (ErrMsg ("disk already exists: " +:+ diskPath))
      | Ret false | Throw (ErrNotExist _) => mret ()
      | Throw e => throw e
      | Panic p => lift (Panic p)
      end;;
      local ← lift (Disk.IsLocal d);
      (if (local : bool) then
         v ← lift (volume_of diskPath);
         CreateVolume v.1 v.2 diskSize;;
         modify (λ t, set_createdDisks (createdDisks t ++ [diskPath]) t)
       else mret ());;
      createLocalDisks disks
  end.

(** ** The machine *)

(** The directory of QEMU may be set in a file sent along. *)
Definition getQemuVersion : call Version.t :=
  envs ← asks (DotenvRead (Filepath.Join [vmdir vmname; "config_envs"]));
  dir ← match envs with
        | inl m => match m !! "QEMU_ROOTDIR" with
                   | Some dir => lift (filepath_Abs dir)
                   | None => mret appconf_QemuRootDir
                   end
        | inr (ErrNotExist _) => mret appconf_QemuRootDir
        | inr e => throw e
        end;
  r ← asks (StatRoot dir);
  match r with
  | inl _ => mret ()
  | inr (ErrNotExist _) => throw (ErrMsg ("QEMU root directory does not exist: " +:+ dir))
  | inr _ => throw (ErrMsg "failed to check QEMU root directory")
  end;;
  v ← asks (GetVersion dir QEMU_BINARY);
  lift (Backend.call v).

Fixpoint write_extra (l : list (string * option json)) : call () :=
  match l with
  | [] => mret ()
  | (fname, content) :: l =>
      at_host (write_file (Filepath.Join [vmdir vmname; fname]) content);; write_extra l
  end.

Definition read_manifest : call incomingMachine :=
  match Manifest opts with
  | NoBytes => throw (ErrMsg "unexpected end of JSON input")
  | NotJson => throw (ErrMsg "invalid character")
  | JsonText j => lift (dec_machine j)
  end.

(** The machine type is left to the destination when it would be the default
    one there: [incvm.R.MachineTypeSet("")], whose error is dropped. *)
Definition adopt_type (qver : Version.t) (r : InstanceConf.InstanceConf) : InstanceConf.InstanceConf :=
  let p := InstanceConf.props r in
  if Qemu.IsDefaultMachineType (Version.to_string qver)
       (MachineType.to_string (InstanceProperties.MachineTypeGet p))
  then {| InstanceConf.props := (ignored (InstanceConf.MachineTypeSet "") p).2;
          InstanceConf.confname := InstanceConf.confname r |}
  else r.

(** What follows the configuration file, which is there by then. *)
Definition start_saved (incvm : incomingMachine) : call Z :=
  write_extra (ExtraFiles opts);;
  _ ← at_host (CreateUser vmname);
  qver ← getQemuVersion;
  lift (Qemu.VerifyVersion (Version.to_string qver));;
  r ← deref (R incvm);
  at_host (save (adopt_type qver r));;
  at_host (SystemdEnableService vmname);;
  at_host (SystemdStartService vmname 10);;
  b ← asks (ReadPid (Filepath.Join [CHROOTDIR; vmname; "pid"]));
  b ← lift (Backend.call b);
  pid ← lift (Strconv.Atoi b);
  mret (pid mod 2 ^ 32).

Definition startIncomingMachine : call Z :=
  incvm ← read_manifest;
  at_host (mkdir_all (vmdir vmname));;
  c ← deref (C incvm);
  at_host (save c);;
  start_saved incvm.

(** ** The NBD server *)

Definition export (device : string) : call () :=
  r ← Mon_Run (nbd_server_add device true);
  map_err (λ _, ErrMsg ("failed to export (" +:+ device +:+ ")")) (lift (Backend.call r)).

Fixpoint export_disks (disks : list (string * Z)) : call () :=
  match disks with
  | [] => mret ()
  | (diskPath, _) :: disks =>
      d ← lift (Disk.NewDisk diskPath);
      name ← lift (Disk.BaseName d);
      export name;; export_disks disks
  end.

Definition startNBDServer (port : Z) : call () :=
  r ← Mon_Run (nbd_server_start (ListenAddr opts) (Strconv.Itoa port));
  lift (Backend.call r);;
  t ← get;
  (if hasFirmwareFlash t then export "fwflash" else mret ());;
  export_disks (Disks_ opts).

Definition stopNBDServer : call () := r ← Mon_Run nbd_server_stop; lift (Backend.call r).

(** ** The task *)

Fixpoint remove_volumes (disks : list string) : call () :=
  match disks with
  | [] => mret ()
  | diskPath :: disks => ignored (RemoveVolume diskPath);; remove_volumes disks
  end.

Definition OnFailure : call () :=
  at_host (SystemdSendSIGTERM vmname);;
  ignored (at_host (SystemdStopService vmname 30));;
  ignored (at_host (SystemdDisableService vmname));;
  ignored (at_host (RemoveUser vmname));;
  ignored (at_host (remove_all (vmdir vmname)));;
  t ← get;
  remove_volumes (createdDisks t).

(** [MachineGet] of a machine that is not running: its configuration. *)
Definition no_such_machine : call () :=
  t ← get;
  match GetInstanceConf (user_Lookup (passwd (on t))) (files_ (on t)) vmname with
  | Ret _ => throw (ErrAlreadyExists vmname)
  | Throw (ErrNotFound _) => mret ()
  | Throw e => throw e
  | Panic p => lift (Panic p)
  end.

(** The last part of [BeforeStart]. *)
Definition open_ports (pid : Z) : call IncomingRequisites :=
  t ← get;
  vmconf ← lift (GetInstanceConf (user_Lookup (passwd (on t))) (files_ (on t)) vmname);
  let uid := InstanceProperties.uid (InstanceConf.props vmconf) in
  (if bool_decide (is_Some (InstanceProperties.FirmwareGetFlash (InstanceConf.props vmconf)))
   then modify (set_hasFirmwareFlash true) else mret ());;
  startNBDServer (FIRST_NBD_PORT + uid);;
  let r := {| IncomingPort := FIRST_INCOMING_PORT + uid; NBDPort := FIRST_NBD_PORT + uid; PID := pid |} in
  modify (set_requisites (Some r));;
  mret r.

Definition prepare : call IncomingRequisites :=
  (if CreateDisks opts then createLocalDisks (Disks_ opts) else lift (validateDisks (Disks_ opts)));;
  pid ← startIncomingMachine;
  open_ports pid.

Definition BeforeStart : call IncomingRequisites :=
  lift (Validate true opts);;
  no_such_machine;;
  on_error_do OnFailure prepare.

(** The sockets of the two data ports. *)
Definition data_sockets (req : IncomingRequisites) (listenAddr : Z) (l : list SockTableEntry)
    : list SockTableEntry :=
  filter (λ s, Established s = true ∧
    (LocalIP s = listenAddr ∨ LocalIP s = Ip.v4_mapped 0) ∧
    (LocalPort s = IncomingPort req ∨ LocalPort s = NBDPort req)) l.

Definition getEstablishedConnections (req : IncomingRequisites) (r : sys (list SockTableEntry))
    : outcome (list SockTableEntry) :=
  match Ip.ParseIP (ListenAddr opts) with
  | None => Throw (ErrMsg ("cannot parse listen addr: " +:+ ListenAddr opts))
  | Some a => l ← Backend.call r; Ret (data_sockets req a l)
  end.

Definition Canceled : goerr := ErrMsg "context canceled".

(** Until QEMU has left the states of an incoming migration. *)
Fixpoint wait_transfer (polls : list (sys string)) : outcome () :=
  match polls with
  | [] => Throw Canceled
  | inr e :: _ => Throw e
  | inl st :: polls =>
      if bool_decide (st ∈ ["inmigrate"; "finish-migrate"; "postmigrate"]) then wait_transfer polls
      else Ret ()
  end.

(** Until no connection is left. *)
Fixpoint wait_connections (req : IncomingRequisites) (polls : list (sys (list SockTableEntry)))
    : outcome () :=
  match polls with
  | [] => Throw Canceled
  | r :: polls =>
      match getEstablishedConnections req r with
      | Throw _ => Throw (ErrMsg "failed to check established connections")
      | Panic p => Panic p
      | Ret [] => Ret ()
      | Ret _ => wait_connections req polls
      end
  end.

Definition Main : call () :=
  t ← get;
  req ← deref (requisites t);
  sts ← asks (Statuses vmname);
  lift (wait_transfer sts);;
  socks ← asks Sockets;
  lift (wait_connections req socks);;
  mi ← Mon_Run query_migrate_status;
  let finish :=
    ignored stopNBDServer;;
    c ← asks Cancelled;
    if (c : bool) then throw Canceled else mret () in
  match mi with
  | inl st => if bool_decide (st = "completed") then finish else mret ()  (* [return err] of a nil error *)
  | inr _ => finish
  end.

Definition OnSuccess : call () :=
  if TurnOffAfter opts then
    ignored (at_host (MachineCreateDownFile vmname));;
    ignored (at_host (SystemdStopService vmname 60))
  else
    _ ← Mon_Run cont; mret ().

(** [monitorIncomingConnection]: whether it cancels the task, given the socket
    tables at its ticks before the task is over. *)
Fixpoint watch (req : IncomingRequisites) (failcnt : Z) (ticks : list (sys (list SockTableEntry))) : bool :=
  match ticks with
  | [] => false
  | r :: ticks =>
      if failcnt =? 12 then true
      else watch req
             (match getEstablishedConnections req r with
              | Ret [] => failcnt + 1
              | Ret _ => 0
              | _ => failcnt
              end) ticks
  end.
Definition monitorIncomingConnection (req : IncomingRequisites) (ticks : list (sys (list SockTableEntry)))
    : bool := watch req 0 ticks.
End incoming.
End Incoming.
