(* ===== verification/IncomingFacts.v ===== *)
(** IncomingFacts: what receiving a machine leaves behind, when the task ends
    well, when it fails and when it is cancelled. *)

From S2P Require Import Prelude.
From S2P Require Import GoStd.
From S2P Require Import GoFacts.
From S2P Require Import Ip.
From S2P Require Import Version.
From S2P Require Import Backend.
From S2P Require Import Resources.
From S2P Require Import Peripherals.
From S2P Require Import Disks.
From S2P Require Import Json.
From S2P Require Import InstanceProperties.
From S2P Require Import InstanceConf.
From S2P Require Import ConfInvariant.
From S2P Require Import ConfJson.
From S2P Require Import ConfJsonFacts.
From S2P Require Import Monitor.
From S2P Require Import InstanceQemuFacts.
From S2P Require Import Server.
From S2P Require Import OsUser.
From S2P Require Import Services.
From S2P Require Import Lifecycle.
From S2P Require Import LifecycleFacts.
From S2P Require Import Incoming.

Open Scope Z_scope.
#[local] Set Warnings "-register-all".

Module IncomingFacts.
Import Json Services Server ConfJson JsonFacts Lifecycle LifecycleFacts Incoming.

(** ** The manifest *)

Lemma dec_fields_keep {S T} (g : S → T) (fields : list (string * decoder S)) kvs s s' :
  Forall (λ f, ∀ j s s', f.2 j s = Ret s' → g s' = g s) fields →
  dec_fields fields kvs s = Ret s' → g s' = g s.
Proof.
  intros Hf. revert s. induction kvs as [|[k v] kvs IH]; intros s; [by intros [= ->]|].
  cbn [dec_fields]. unfold find_field.
  destruct (list_find _ fields) as [[i f]|] eqn:Hl; cbn; [|apply IH].
  apply list_find_Some in Hl as (Hl & _ & _).
  pose proof (Forall_lookup_1 _ _ _ _ Hf Hl) as Hk.
  destruct (f.2 v s) as [s1|e|p] eqn:Hv; cbn; [|done..].
  intros Hr. rewrite (IH _ Hr). by apply (Hk v).
Qed.

Lemma dec_struct_keep {S T} (g : S → T) (fields : list (string * decoder S)) j s s' :
  Forall (λ f, ∀ j s s', f.2 j s = Ret s' → g s' = g s) fields →
  dec_struct fields j s = Ret s' → g s' = g s.
Proof.
  intros Hf. destruct j; simpl; try done; [by intros [= ->]|]. by apply dec_fields_keep.
Qed.

Lemma on_keep {S T V} (k : S → V) (g : S → T) (p : T → S → S) (d : decoder T) :
  (∀ v s, k (p v s) = k s) → ∀ j s s', Json.on g p d j s = Ret s' → k s' = k s.
Proof.
  intros Hp j s s'. unfold Json.on, mbind, outcome_bind.
  destruct (d j (g s)); [|done..]. by intros [= <-].
Qed.

(** Decoding does not touch the name. *)
Lemma dec_conf_name `{Env} j p p' : dec_conf j p = Ret p' → InstanceProperties.name p' = InstanceProperties.name p.
Proof.
  apply dec_struct_keep. unfold conf_fields.
  repeat apply Forall_cons_2; try apply Forall_nil_2; by apply on_keep.
Qed.

Lemma dec_instance_name `{Env} j c c' :
  dec_instance j c = Ret (Some c') →
  InstanceProperties.name (InstanceConf.props c') = InstanceProperties.name (InstanceConf.props c) ∧
  InstanceConf.confname c' = InstanceConf.confname c.
Proof.
  unfold dec_instance, mbind, outcome_bind.
  destruct j; try done; (destruct (dec_conf _ _) as [p|e|q] eqn:E; [|done..]);
    intros [= <-]; split; try done; cbn; by eapply dec_conf_name.
Qed.

(** The configurations of a manifest are of the machine it names. *)
Lemma dec_machine_names `{Env} j m (role : bool) c :
  dec_machine j = Ret m → (if role then C m else R m) = Some c →
  InstanceProperties.name (InstanceConf.props c) = Name m ∧
  InstanceConf.confname c = (if role then "config" else "incoming_config").
Proof.
  unfold dec_machine, mbind, outcome_bind.
  destruct (dec_struct _ _ _) as [tmp|e|q]; [|done..].
  destruct (raw_conf tmp) as [jc|]; [|done].
  destruct (dec_instance jc _) as [vmc|e|q] eqn:Hc; [|done..].
  destruct (raw_run tmp) as [jr|].
  - destruct (dec_instance jr _) as [vmr|e|q] eqn:Hr; [|done..].
    intros [= <-]. destruct role; cbn; intros ->;
      [by apply dec_instance_name in Hc as [-> ->]|by apply dec_instance_name in Hr as [-> ->]].
  - intros [= <-]. destruct role; cbn; [|done]. intros ->. by apply dec_instance_name in Hc as [-> ->].
Qed.

(** ** Confinement *)

Create HintDb apart discriminated.

(** One step of an operation after the other, on every branch. *)
Ltac stepwise :=
  repeat first
    [ solve [auto with apart]
    | apply preserves_bind; [|intros ?]
    | apply preserves_map_err
    | case_match ].

Lemma on_error_do_preserves {S A} (I : S → Prop) (d : op S ()) (m : op S A) :
  preserves I d → preserves I m → preserves I (on_error_do d m).
Proof.
  intros Hd Hm t Ht. specialize (Hm t Ht). unfold on_error_do.
  destruct (m t) as [[a|e|p] t']; [done| |done]. by apply Hd.
Qed.

Lemma preserves_ignored {S} (I : S → Prop) (m : op S ()) : preserves I m → preserves I (ignored m).
Proof. intros Hm s Hs. specialize (Hm s Hs). unfold ignored, unless. by destruct (m s) as [[] ?]. Qed.

Section confined.
Context `{Env} {hst : Host} `{AccountsLaws, Services}.
Context (n : string) (Hn : ValidateMachineName n = Ret ()) (F : files) (P : list string).
Context (K : string → bool) (HK : ∀ path, under (vmdir n) path = true → K path = false).

(** The files [K] picks, none of the machine's, and the other users are these. *)
Definition apart (h : host) : Prop :=
  (∀ path, K path = true → files_ h !! path = F !! path) ∧
  ∀ other, other ≠ n → user_Lookup (passwd h) other = user_Lookup P other.

Lemma apart_ask a : preserves apart (ask a).
Proof. by intros h. Qed.
Lemma apart_done r : preserves apart (done r).
Proof. by intros h. Qed.
Hint Resolve preserves_ret preserves_throw preserves_lift preserves_get apart_done : apart.
Hint Extern 1 (preserves apart (ask _)) => apply apart_ask : apart.


Lemma apart_write path m :
  K path = false → (∀ w f, ∃ g, (m w f).2 = partial_alter g path f) → preserves apart (writing path m).
Proof.
  intros Hu Hm h [Hf Hp]. unfold writing, mbind, op_bind, ask, zoom. cbn.
  destruct (Hm (answer (log h) (WriteFile_ path)) (files_ h)) as [g Hg].
  destruct (m _ _) as [r f]. cbn in Hg. subst f. split; [|done]. intros p Hk. cbn.
  rewrite lookup_partial_alter_ne by congruence. by apply Hf.
Qed.

Lemma apart_save c : K (InstanceConf.config c) = false → preserves apart (save c).
Proof.
  intros Hu. unfold save. apply preserves_bind; [apply preserves_lift|intros _].
  apply apart_write; [done|]. intros w f. unfold Save.
  go_unfold. destruct (ValidateMachineName (InstanceProperties.Name _)) as [[]|e|p];
    [destruct w; by eexists|by exists (λ _, f !! InstanceConf.config c); rewrite partial_alter_self..].
Qed.

Lemma apart_write_file path j : K path = false → preserves apart (write_file path j).
Proof. intros Hu. apply apart_write; [done|]. intros [] f; by eexists. Qed.

Lemma apart_mkdir_all path : preserves apart (mkdir_all path).
Proof. unfold mkdir_all. stepwise. Qed.

Lemma apart_remove_all : preserves apart (remove_all (vmdir n)).
Proof.
  unfold remove_all. apply preserves_bind; [apply apart_ask|]. intros r h [Hf Hp].
  assert (∀ (Q : string * option json → Prop) `{∀ kv, Decision (Q kv)},
    (∀ kv, under (vmdir n) kv.1 = false → Q kv) →
    ∀ path, K path = true → filter Q (files_ h) !! path = F !! path) as Hb.
  { intros Q ? HQ path Hk. rewrite <- Hf by done. apply option_eq. intros x.
    rewrite map_lookup_filter_Some. split; [by intros [? _]|]. intros Hx. split; [done|].
    apply HQ. simpl. destruct (under _ _) eqn:E; [|done]. apply HK in E. congruence. }
  destruct r as [|e rest]; (split; [|done]); (refine (Hb _ _ _); naive_solver).
Qed.

Lemma apart_CreateUser : preserves apart (CreateUser n).
Proof.
  intros h [Hf Hp]. pose proof (CreateUser_outcome n h) as Ho.
  destruct (CreateUser n h) as [r h']. destruct Ho as [Hf' Hp'].
  change (apart h'). split; [intros path Hk; rewrite Hf'; by apply Hf|].
  intros other Hne. destruct r; rewrite Hp'; [|by apply Hp..].
  rewrite useradd_Lookup, bool_decide_false by done. by apply Hp.
Qed.

Lemma apart_RemoveUser : preserves apart (RemoveUser n).
Proof.
  unfold RemoveUser. apply preserves_bind; [apply apart_ask|]. intros r.
  apply preserves_bind; [apply preserves_map_err, apart_done|]. intros _ h [Hf Hp]. split; [done|].
  intros other Hne. cbn. rewrite userdel_other by done. by apply Hp.
Qed.

Lemma apart_Enable m : preserves apart (SystemdEnableService m).
Proof. unfold SystemdEnableService, Enable. stepwise. Qed.
Lemma apart_Disable m : preserves apart (SystemdDisableService m).
Proof. unfold SystemdDisableService, Disable, dropped. stepwise. Qed.
Lemma apart_Kill m : preserves apart (SystemdSendSIGTERM m).
Proof. unfold SystemdSendSIGTERM, Kill, dropped. stepwise. Qed.
Lemma apart_Start m i : preserves apart (SystemdStartService m i).
Proof. unfold SystemdStartService, Start, StartAndTest. stepwise. Qed.
Lemma apart_Stop m i : preserves apart (SystemdStopService m i).
Proof. unfold SystemdStopService, Stop, StopAndWait. stepwise. Qed.
Lemma apart_StopVia m i : preserves apart (ignored (SystemdStopService m i)).
Proof. apply preserves_ignored, apart_Stop. Qed.

(** ** The task *)

Context (appconf : string) (opts : IncomingMigrationOptions).
Context (Hextra : Forall (λ e, K (Filepath.Join [vmdir n; e.1]) = false) (ExtraFiles opts)).

Definition confined (t : Incoming.task) : Prop := apart (on t).

Lemma confined_at_host {A} (m : op host A) : preserves apart m → preserves confined (at_host m).
Proof. intros Hm. by apply (preserves_zoom _ _ _ apart). Qed.
Lemma confined_asks a : preserves confined (asks a).
Proof. apply confined_at_host. by intros h. Qed.
Lemma confined_modify g : (∀ t, on (g t) = on t) → preserves confined (modify g).
Proof. intros Hg t Ht. unfold confined. cbn. by rewrite Hg. Qed.
Lemma confined_deref {A} (x : option A) : preserves confined (deref x).
Proof. destruct x; by intros t. Qed.
Hint Resolve confined_deref : apart.
Hint Resolve preserves_lift preserves_throw preserves_ret preserves_get : apart.
Hint Extern 1 (preserves confined (asks _)) => apply confined_asks : apart.
Hint Extern 1 (preserves confined (Mon_Run _ _)) => apply confined_asks : apart.
Hint Extern 1 (preserves confined (modify _)) => apply confined_modify; by intros [] : apart.
Hint Extern 2 (preserves confined (at_host _)) => apply confined_at_host; auto with apart : apart.
Hint Resolve apart_mkdir_all apart_CreateUser apart_Enable apart_Start apart_Kill apart_StopVia
  apart_remove_all apart_RemoveUser : apart.

Lemma confined_createLocalDisks disks : preserves confined (createLocalDisks disks).
Proof.
  induction disks as [|[path size] disks IH]; cbn [createLocalDisks]; [apply preserves_ret|].
  unfold CreateVolume. stepwise.
Qed.

Lemma confined_write_extra l :
  Forall (λ e, K (Filepath.Join [vmdir n; e.1]) = false) l → preserves confined (write_extra n l).
Proof.
  induction 1 as [|[fname j] l Hf _ IH]; cbn [write_extra]; [apply preserves_ret|].
  apply preserves_bind; [|done]. by apply confined_at_host, apart_write_file.
Qed.

Lemma adopt_type_config qver r : InstanceConf.config (adopt_type qver r) = InstanceConf.config r.
Proof.
  unfold adopt_type. case_match; [|done]. unfold InstanceConf.config. cbn [InstanceConf.confname InstanceConf.props].
  assert (preserves (λ p, InstanceProperties.name p = InstanceProperties.name (InstanceConf.props r))
    (ignored (InstanceConf.MachineTypeSet ""))) as Hp.
  { intros p Hp. unfold ignored, unless, InstanceConf.MachineTypeSet. go_unfold. repeat case_match; simplify_eq/=; done. }
  by rewrite Hp.
Qed.

Lemma deref_some {A} (x : option A) : ensures confined (deref x) (λ a, x = Some a).
Proof. intros t Ht. destruct x; (split; [done|]); cbn; [by intros ? [= ->]|done]. Qed.

Lemma confined_start_saved m :
  (∀ r, R m = Some r → K (InstanceConf.config r) = false) →
  preserves confined (start_saved appconf n opts m).
Proof.
  intros Hm. unfold start_saved.
  apply preserves_bind; [by apply confined_write_extra|intros _].
  apply preserves_bind; [auto with apart|intros _].
  apply preserves_bind; [unfold getQemuVersion; stepwise|intros qver].
  apply preserves_bind; [auto with apart|intros _].
  apply (preserves_bind_ensures _ _ _ _ (deref_some _)). intros r Hr.
  apply preserves_bind; [apply confined_at_host, apart_save; rewrite adopt_type_config; by apply Hm|intros _].
  stepwise.
Qed.

(** The manifest is such that neither of its configurations is in [K]. *)
Definition harmless : Prop :=
  ∀ j m c, Manifest opts = JsonText j → dec_machine j = Ret m → C m = Some c ∨ R m = Some c →
    K (InstanceConf.config c) = false.

Lemma confined_startIncomingMachine : harmless → preserves confined (startIncomingMachine appconf n opts).
Proof.
  intros Hman. unfold startIncomingMachine.
  apply (preserves_bind_ensures _ _ _ (λ m, ∀ c, C m = Some c ∨ R m = Some c → K (InstanceConf.config c) = false)).
  { unfold read_manifest. intros t Ht. destruct (Manifest opts) as [| |j] eqn:Hm; [by split..|].
    split; [done|]. cbn. intros m Hd c. by apply (Hman j m c Hm Hd). }
  intros m Hm. apply preserves_bind; [auto with apart|intros _].
  apply (preserves_bind_ensures _ _ _ _ (deref_some _)). intros c Hc.
  apply preserves_bind; [by apply confined_at_host, apart_save, Hm; left|intros _].
  apply confined_start_saved. intros r Hr. by apply Hm; right.
Qed.

(** What follows the start of the machine. *)
Lemma confined_startNBDServer port : preserves confined (startNBDServer n opts port).
Proof.
  assert (∀ d, preserves confined (export n d)) as Hexport by (intros d; unfold export; stepwise).
  assert (∀ disks, preserves confined (export_disks n disks)) as Hexports.
  { intros disks. induction disks as [|[path size] disks IH]; cbn [export_disks]; stepwise; apply Hexport. }
  unfold startNBDServer. stepwise.
Qed.

Lemma confined_open_ports pid : preserves confined (open_ports n opts pid).
Proof. pose proof confined_startNBDServer as Hnbd. unfold open_ports. stepwise. Qed.

Lemma confined_prepare : harmless → preserves confined (prepare appconf n opts).
Proof.
  intros Hman. unfold prepare.
  apply preserves_bind; [case_match; [apply confined_createLocalDisks|apply preserves_lift]|intros _].
  apply preserves_bind; [by apply confined_startIncomingMachine|intros pid].
  apply confined_open_ports.
Qed.

Lemma confined_remove_volumes l : preserves confined (remove_volumes l).
Proof.
  induction l as [|path l IH]; cbn [remove_volumes]; [apply preserves_ret|].
  apply preserves_bind; [|done]. apply preserves_ignored. unfold RemoveVolume. stepwise.
Qed.

Lemma confined_OnFailure : preserves confined (OnFailure n).
Proof.
  unfold OnFailure. repeat (apply preserves_bind; [try apply preserves_ignored; auto with apart|intros ?]).
  - apply confined_at_host, apart_Stop.
  - apply confined_at_host, apart_Disable.
  - apply confined_remove_volumes.
Qed.

Lemma confined_BeforeStart : harmless → preserves confined (BeforeStart appconf n opts).
Proof.
  intros Hman. unfold BeforeStart. apply preserves_bind; [apply preserves_lift|intros _].
  apply preserves_bind; [apply preserves_bind; [apply preserves_get|intros t]|intros _].
  { destruct (GetInstanceConf _ _ _) as [|[]|]; by intros ? ?. }
  apply on_error_do_preserves; [by apply confined_OnFailure|by apply confined_prepare].
Qed.
End confined.

(** The machine's own manifest. *)
Lemma manifest_under `{Env} n j m c :
  ValidateMachineName n = Ret () → Name m = n → dec_machine j = Ret m → C m = Some c ∨ R m = Some c →
  under (vmdir n) (InstanceConf.config c) = true.
Proof.
  intros Hn Hm Hd Hc. unfold InstanceConf.config.
  assert (∃ role : bool, (if role then C m else R m) = Some c) as [role Hrole]
    by (destruct Hc; [by exists true|by exists false]).
  destruct (dec_machine_names _ _ _ _ Hd Hrole) as [-> ->]. rewrite Hm. apply under_vmdir; [done|].
  destruct role; (split_and!; [apply (bool_decide_unpack _); by vm_compute|done..]).
Qed.

(** ** Cleaning up *)

(** From a state in [I], [m] returns, in one in [J]. *)
Definition returns {S A} (I : S → Prop) (m : op S A) (J : S → Prop) : Prop :=
  ∀ s, I s → ∃ a s', m s = (Ret a, s') ∧ J s'.

Lemma returns_bind {S A B} (I J K : S → Prop) (m : op S A) (k : A → op S B) :
  returns I m J → (∀ a, returns J (k a) K) → returns I (m ≫= k) K.
Proof.
  intros Hm Hk s Hs. destruct (Hm s Hs) as (a & s' & E & Hs').
  rewrite (op_bind_run _ _ _ _ _ E). by apply Hk.
Qed.

Lemma returns_at_host {A} I J (m : op host A) :
  returns I m J → returns (λ t, I (on t)) (at_host m) (λ t, J (on t)).
Proof.
  intros Hm t Ht. destruct (Hm _ Ht) as (a & h & E & Hh). unfold at_host, zoom. rewrite E. by eexists _, _.
Qed.

Lemma returns_ignored {S} (I : S → Prop) (m : op S ()) :
  no_panic m → preserves I m → returns I (ignored m) I.
Proof.
  intros Hm HI s Hs. specialize (Hm s). specialize (HI s Hs). unfold ignored, unless.
  destruct (m s) as [[[]|e|p] s']; simpl in *; [by eexists _, _..|]. by destruct (Hm p).
Qed.

(** A request that was made, and its answer. *)
Section granted.
Context `{Services}.
Definition granted (a : service) (yes : reply a → Prop) (h : host) : Prop :=
  ∃ l, l ++ [a] `prefix_of` log h ∧ yes (answer l a).
Lemma granted_prefix a yes h h' : log h `prefix_of` log h' → granted a yes h → granted a yes h'.
Proof. intros Hp (l & Hl & Ha). exists l. split; [by etransitivity|done]. Qed.
Lemma granted_last a (yes : reply a → Prop) h h' : log h' = log h ++ [a] → yes (answer (log h) a) → granted a yes h'.
Proof. intros Hl Ha. exists (log h). by rewrite Hl. Qed.
End granted.

Section cleanup.
Context `{AccountsLaws, Services} (n : string) (Hn : ValidateMachineName n = Ret ()).

(** The user and the files are gone, or the host has refused to remove them. *)
Definition no_user (h : host) : Prop :=
  (∃ e, user_Lookup (passwd h) n = inr e) ∨ granted (Userdel n) (λ r, ∃ e, r = inr e) h.
Definition no_files (h : host) : Prop :=
  (∀ path, under (vmdir n) path = true → files_ h !! path = None) ∨
  granted (RemoveAll (vmdir n)) (λ r, ∃ e rest, r = Stuck e rest) h.
Definition no_trace (h : host) : Prop := no_user h ∧ no_files h.

Lemma no_user_asked h h' : passwd h' = passwd h → log h `prefix_of` log h' → no_user h → no_user h'.
Proof. intros Hp Hl [Hu|Hu]; [left; by rewrite Hp|right; by eapply granted_prefix]. Qed.
Lemma no_files_asked h h' : files_ h' = files_ h → log h `prefix_of` log h' → no_files h → no_files h'.
Proof. intros Hp Hl [Hu|Hu]; [left; by rewrite Hp|right; by eapply granted_prefix]. Qed.

Lemma asks_no_trace a : preserves (λ t, no_trace (on t)) (asks a).
Proof.
  intros t [Hu Hf]. assert (log (on t) `prefix_of` log (on (asks a t).2)) as Hl by (by exists [a]).
  split; [by eapply no_user_asked; [|exact Hl|exact Hu]|by eapply no_files_asked; [|exact Hl|exact Hf]].
Qed.
Lemma returns_volumes l : returns (λ t, no_trace (on t)) (remove_volumes l) (λ t, no_trace (on t)).
Proof.
  induction l as [|path l IH]; cbn [remove_volumes]; [intros t Ht; by eexists _, _|].
  eapply returns_bind; [|intros _; exact IH]. apply returns_ignored.
  - unfold RemoveVolume. assert (∀ a, no_panic (asks a)) as Ha by (intros a t p; done).
    apply no_panic_bind; [exact (Ha (StatVolume _))|intros [[]|e]]; [|by intros t p..].
    apply no_panic_bind; [exact (Ha (Lvremove _))|intros r']. apply no_panic_map_err, no_panic_lift. by destruct r'.
  - unfold RemoveVolume. apply preserves_bind; [apply (asks_no_trace (StatVolume _))|intros [[]|e]]; [|by intros t Ht..].
    apply preserves_bind; [apply (asks_no_trace (Lvremove _))|intros r']. apply preserves_map_err, preserves_lift.
Qed.

Lemma returns_RemoveUser : returns (λ _, True) (ignored (RemoveUser n)) no_user.
Proof.
  intros h _. unfold ignored, unless, RemoveUser, map_err, mbind, op_bind, ask, done, lift.
  destruct (answer (log h) (Userdel n)) as [[]|e] eqn:E; cbn; (eexists _, _; split; [reflexivity|]).
  - left. by apply userdel_Lookup, Hn.
  - right. eapply (granted_last (Userdel n) _ h); [done|]. rewrite E. by eexists.
Qed.
Lemma returns_remove_all : returns no_user (ignored (remove_all (vmdir n))) no_trace.
Proof.
  intros h Hu. unfold ignored, unless, remove_all, mbind, op_bind, ask, modify, throw, lift. cbn.
  destruct (answer (log h) (RemoveAll (vmdir n))) as [|e rest] eqn:E; cbn; (eexists _, _; split; [reflexivity|]).
  - split; [eapply no_user_asked; [..|exact Hu]; [done|by eexists]|]. left. intros path Hp. cbn.
    apply map_lookup_filter_None. right. intros x _. cbn. by rewrite Hp.
  - split; [eapply no_user_asked; [..|exact Hu]; [done|by eexists]|]. right.
    eapply (granted_last (RemoveAll (vmdir n)) _ h); [done|]. rewrite E. by eexists _, _.
Qed.

Lemma returns_OnFailure : returns (λ _, True) (OnFailure n) (λ t, no_trace (on t)).
Proof.
  assert (∀ I J (m : op host ()), returns I (ignored m) J →
    returns (λ t, I (on t)) (ignored (at_host m)) (λ t, J (on t))) as Hhost.
  { intros I J m Hm t Ht. destruct (Hm (on t) Ht) as ([] & h & E & Hh). unfold ignored, unless, at_host, zoom in *.
    destruct (m (on t)) as [[[]|e|p] h']; simplify_eq; by eexists _, _. }
  unfold OnFailure.
  apply (returns_bind _ (λ _, True)); [intros t _; by eexists _, _|intros _].
  apply (returns_bind _ (λ _, True)); [|intros _].
  { apply (Hhost (λ _, True) (λ _, True)). intros h _. destruct (stop_ignored n 30 h) as [l ->]. by eexists _, _. }
  apply (returns_bind _ (λ _, True)); [|intros _].
  { apply (returns_ignored (λ _, True)); [|by intros t _]. unfold at_host. apply no_panic_zoom.
    unfold SystemdDisableService, Disable, dropped.
    apply no_panic_bind; [by intros h p|intros r]. apply no_panic_bind; [|by intros _ h p].
    apply no_panic_lift. by destruct r. }
  apply (returns_bind _ (λ t, no_user (on t))); [apply (Hhost (λ _, True)), returns_RemoveUser|intros _].
  apply (returns_bind _ (λ t, no_trace (on t))); [apply Hhost, returns_remove_all|intros _].
  apply (returns_bind _ (λ t, no_trace (on t))); [intros t Ht; by eexists _, _|intros t].
  apply returns_volumes.
Qed.
End cleanup.

Lemma BeforeStart_apart `{Env} {hst : Host} `{AccountsLaws, Services} appconf n opts h :
  ValidateMachineName n = Ret () →
  (∀ j m, Manifest opts = JsonText j → dec_machine j = Ret m → Name m = n) →
  Forall (λ e, plain e.1) (ExtraFiles opts) →
  confined n (files_ h) (passwd h) (λ path, negb (under (vmdir n) path))
    (BeforeStart appconf n opts (NewMachineIncomingMigrationTask h)).2.
Proof.
  intros Hn Hman Hextra.
  assert (∀ path, under (vmdir n) path = true → negb (under (vmdir n) path) = false) as HK by (by intros path ->).
  apply (confined_BeforeStart n Hn _ _ _ HK); [| |by split].
  - eapply Forall_impl; [exact Hextra|]. intros [f j] Hpl. apply HK. cbn.
    rewrite vmdir_file by done. by apply under_vmdir.
  - intros j m c Hj Hd Hc. apply HK. eapply manifest_under; eauto.
Qed.

(** whatever the host answers, receiving a machine under a valid name
    touches no file outside the machine's directory and no other user, provided
    the manifest is the machine's own and the extra files have plain names. *)
Theorem BeforeStart_confined `{Env} {hst : Host} `{AccountsLaws, Services} appconf n opts h :
  ValidateMachineName n = Ret () →
  (∀ j m, Manifest opts = JsonText j → dec_machine j = Ret m → Name m = n) →
  Forall (λ e, plain e.1) (ExtraFiles opts) →
  let h' := on (BeforeStart appconf n opts (NewMachineIncomingMigrationTask h)).2 in
  (∀ path, under (vmdir n) path = false → files_ h' !! path = files_ h !! path) ∧
  ∀ other, other ≠ n → user_Lookup (passwd h') other = user_Lookup (passwd h) other.
Proof.
  intros Hn Hman Hextra h'. destruct (BeforeStart_apart appconf n opts h Hn Hman Hextra) as [Hf Hp].
  split; [|exact Hp]. intros path Hu. apply Hf. by rewrite Hu.
Qed.

(** C39: a machine that could not be received under a valid name leaves nothing:
    once its options are accepted and the name is known to be free, an error on the way removes what there is
    in the machine's directory and the user of that name, whoever made them; each
    of the two is gone then, or the host has refused to remove it.  A panic is no
    such error: nothing is cleaned up after it. *)
Theorem BeforeStart_undone `{Env} {hst : Host} `{AccountsLaws, Services} appconf n opts h :
  ValidateMachineName n = Ret () → Validate true opts = Ret () →
  GetInstanceConf (user_Lookup (passwd h)) (files_ h) n = Throw (ErrNotFound n) →
  let t := NewMachineIncomingMigrationTask h in
  let '(r, t') := BeforeStart appconf n opts t in
  match r with
  | Ret _ => True
  | Throw _ => no_user n (on t') ∧ no_files n (on t')
  | Panic _ => t' = (prepare appconf n opts t).2
  end.
Proof.
  intros Hn Hv Hno. cbv zeta. set (t := NewMachineIncomingMigrationTask h).
  unfold BeforeStart. rewrite (op_bind_run _ _ t () t) by (unfold lift; by rewrite Hv).
  rewrite (op_bind_run _ _ t () t)
    by (unfold no_such_machine, mbind, op_bind, get; cbn [on t NewMachineIncomingMigrationTask]; by rewrite Hno).
  unfold on_error_do. destruct (prepare appconf n opts t) as [[a|e1|p] t1]; cbn [fst snd]; [done| |done].
  by destruct (returns_OnFailure n Hn t1 I) as (a & t2 & -> & Ht).
Qed.

(** A machine's directory is not in another's. *)
Lemma under_other n other f :
  ValidateMachineName n = Ret () → ValidateMachineName other = Ret () → other ≠ n → plain f →
  under (vmdir n) (Filepath.Join [CONFDIR; other; f]) = false.
Proof.
  intros Hn Ho Hne Hf. rewrite vmdir_path, conf_path by (done || by constructor). unfold under.
  pose proof (machine_name_plain _ Ho) as [Hc _]. pose proof (machine_name_plain _ Hn) as [Hcn _].
  apply orb_false_iff. split.
  - apply bool_decide_false. intros E. apply (inj _) in E. cbn [Strings.Join] in E. apply Hcn.
    rewrite <- E, !GoFacts.to_list_app. apply elem_of_app. right. apply elem_of_app. left. by left.
  - destruct (Strings.HasPrefix _ _) eqn:E; [|done]. apply GoFacts.HasPrefix_Some in E as [t E].
    rewrite <- !append_assoc in E. apply (inj _) in E. cbn [Strings.Join] in E.
    apply (f_equal (λ s, head (Strings.Split s "/"))) in E.
    rewrite !GoFacts.Split_app_sep in E by done. simpl in E. congruence.
Qed.

Lemma op_bind_eq {S A B} (m : op S A) (k : A → op S B) s m' s' :
  m s = m' s' → (m ≫= k) s = (m' ≫= k) s'.
Proof. intros E. unfold mbind, op_bind. by rewrite E. Qed.

(** Up to the configuration file. *)
Lemma startIncomingMachine_saved `{Env} `{Accounts, Services} appconf n opts j m c t :
  Manifest opts = JsonText j → dec_machine j = Ret m → C m = Some c →
  ValidateMachineName (Name m) = Ret () →
  (∀ l, answer l (MkdirAll (vmdir n)) = inl ()) →
  (∀ l, answer l (WriteFile_ (InstanceConf.config c)) = Written) →
  ∃ t', startIncomingMachine appconf n opts t = start_saved appconf n opts m t' ∧
    files_ (on t') !! InstanceConf.config c = Some (Some (enc_conf (InstanceConf.props c))) ∧
    passwd (on t') = passwd (on t).
Proof.
  intros Hj Hd Hc Hv Hmk Hw. unfold startIncomingMachine.
  rewrite (op_bind_run _ _ t m t) by (unfold read_manifest; rewrite Hj; unfold lift; by rewrite Hd).
  assert (∃ l, at_host (mkdir_all (vmdir n)) t
    = (Ret (), set_on {| files_ := files_ (on t); passwd := passwd (on t); log := l |} t)) as [l E].
  { unfold at_host, zoom, mkdir_all, mbind, op_bind, ask, done, lift. rewrite Hmk. by eexists. }
  rewrite (op_bind_run _ _ _ _ _ E). set (t1 := set_on _ t).
  rewrite (op_bind_run _ _ t1 c t1) by (unfold deref; by rewrite Hc).
  pose proof (dec_machine_names j m true c Hd Hc) as [Hn _].
  assert (∃ l, at_host (save c) t1
    = (Ret (), set_on {| files_ := <[InstanceConf.config c := Some (enc_conf (InstanceConf.props c))]> (files_ (on t));
                         passwd := passwd (on t); log := l |} t1)) as [l2 E2].
  { unfold at_host, zoom, save, writing, mbind, op_bind, ask, lift, zoom, Save, InstanceProperties.Name.
    rewrite Hn, Hv. cbn [t1 on set_on log]. rewrite Hw. by eexists. }
  rewrite (op_bind_run _ _ _ _ _ E2). eexists. split; [reflexivity|]. split; [|done].
  cbn. by rewrite lookup_insert_eq.
Qed.

(** the name in a manifest is not compared with the machine being received:
    the manifest of another machine replaces that machine's configuration, and
    it stays replaced whether or not the task fails later. *)
Theorem BeforeStart_overwrites `{Env} {hst : Host} `{AccountsLaws, Services} appconf n opts h j m c :
  ValidateMachineName n = Ret () → ValidateMachineName (Name m) = Ret () → Name m ≠ n →
  Manifest opts = JsonText j → dec_machine j = Ret m → C m = Some c →
  Disks_ opts = [] → Forall (λ e, plain e.1) (ExtraFiles opts) →
  GetInstanceConf (user_Lookup (passwd h)) (files_ h) n = Throw (ErrNotFound n) →
  (∀ l, answer l (MkdirAll (vmdir n)) = inl ()) →
  (∀ l, answer l (WriteFile_ (InstanceConf.config c)) = Written) →
  files_ (on (BeforeStart appconf n opts (NewMachineIncomingMigrationTask h)).2)
    !! Filepath.Join [CONFDIR; Name m; "config"] = Some (Some (enc_conf (InstanceConf.props c))).
Proof.
  intros Hn Hm Hne Hj Hd Hc Hdisks Hextra Hno Hmk Hw. set (t := NewMachineIncomingMigrationTask h).
  assert (∀ (role : bool) c, (if role then C m else R m) = Some c → InstanceConf.config c =
    Filepath.Join [CONFDIR; Name m; if role then "config" else "incoming_config"]) as Hpath.
  { intros role c0 Hc0. unfold InstanceConf.config. by destruct (dec_machine_names _ _ _ _ Hd Hc0) as [-> ->]. }
  rewrite <- (Hpath true c Hc).
  destruct (startIncomingMachine_saved appconf n opts j m c t Hj Hd Hc Hm Hmk Hw) as (t' & Hst & Hf & Hp).
  set (K := λ path, bool_decide (path = InstanceConf.config c)).
  assert (∀ path, under (vmdir n) path = true → K path = false) as HK.
  { intros path Hu. apply bool_decide_false. intros ->. rewrite (Hpath true c Hc) in Hu.
    by rewrite under_other in Hu by (done || apply plain_config). }
  assert (Forall (λ e, K (Filepath.Join [vmdir n; e.1]) = false) (ExtraFiles opts)) as Hex.
  { eapply Forall_impl; [exact Hextra|]. intros [f x] Hpl. apply HK. cbn.
    rewrite vmdir_file by done. by apply under_vmdir. }
  assert (confined n (files_ (on t')) (passwd (on t)) K (BeforeStart appconf n opts t).2) as [Hfin _].
  2: { rewrite Hfin; [done|]. by apply bool_decide_true. }
  unfold BeforeStart. destruct (Validate true opts) as [[]|e|p] eqn:Hv.
  2, 3: unfold Validate in Hv; rewrite Hj, Hdisks in Hv; done.
  rewrite !(op_bind_run _ _ t () t)
    by first [done | unfold no_such_machine, mbind, op_bind, get; cbn [on t NewMachineIncomingMigrationTask]; by rewrite Hno].
  assert (confined n (files_ (on t')) (passwd (on t)) K (prepare appconf n opts t).2) as Hprep.
  { unfold prepare. rewrite Hdisks.
    rewrite (op_bind_run _ _ t () t) by by destruct (CreateDisks opts).
    rewrite (op_bind_eq _ _ _ _ _ Hst).
    apply preserves_bind; [apply confined_start_saved| |split; [done|by rewrite Hp]]; try done.
    - intros r Hr. apply bool_decide_false. rewrite (Hpath false r Hr), (Hpath true c Hc).
      rewrite !conf_path by (done || (constructor; [|done]; split_and!;
        [apply (bool_decide_unpack _); by vm_compute|done..])).
      intros E. apply (inj _) in E. cbn [Strings.Join] in E. apply (inj _), (inj _) in E. done.
    - intros pid. by apply confined_open_ports. }
  unfold on_error_do. destruct (prepare appconf n opts t) as [[a|e|p] t2]; [done| |done].
  by apply confined_OnFailure.
Qed.

(** ** A machine that is received *)

(** From [t] to [t'], questions were asked and nothing else happened. *)
Definition talks (t t' : Incoming.task) : Prop :=
  ∃ l, t' = set_on {| files_ := files_ (on t); passwd := passwd (on t); log := log (on t) ++ l |} t.

Lemma talks_refl t : talks t t.
Proof. exists []. rewrite app_nil_r. by destruct t as [[] ? ? ?]. Qed.
Lemma talks_trans t1 t2 t3 : talks t1 t2 → talks t2 t3 → talks t1 t3.
Proof. intros [l ->] [l' ->]. exists (l ++ l'). cbn. by rewrite app_assoc. Qed.
Lemma talks_granted `{Services} t t' a yes : talks t t' → granted a yes (on t) → granted a yes (on t').
Proof. intros [l ->]. apply granted_prefix. by exists l. Qed.

Section ready.
Context `{Env} {hst : Host} `{Accounts, Services} (appconf n : string) (opts : IncomingMigrationOptions).

Lemma asks_talks a t r t' : asks a t = (Ret r, t') → talks t t' ∧ granted a (λ x, x = r) (on t').
Proof. intros [= <- <-]. split; [by exists [a]|]. by eapply granted_last. Qed.
Lemma granted_done a (yes : reply a → Prop) (yes' : reply a → Prop) h : (∀ x, yes x → yes' x) → granted a yes h → granted a yes' h.
Proof. intros Hy (l & Hl & Ha). exists l. split; [done|by apply Hy]. Qed.
Lemma call_inl {A} (r : sys A) a : Backend.call r = Ret a → r = inl a.
Proof. destruct r; [by intros [= ->]|done]. Qed.

(** QEMU has done what it was told. *)
Definition obeyed (c : mon_command) (ok : reply (MonRun n c)) (t : Incoming.task) : Prop := granted (MonRun n c) (λ r, r = ok) (on t).

Lemma export_Ret d t t' :
  export n d t = (Ret (), t') → talks t t' ∧ obeyed (nbd_server_add d true) (inl ()) t'.
Proof.
  unfold export. intros (r & t1 & [Ht Hg]%(asks_talks (MonRun n (nbd_server_add d true))) & Hm)%op_bind_Ret.
  unfold map_err, lift in Hm. destruct (Backend.call r) as [[]| |] eqn:E; simplify_eq. apply call_inl in E. by subst.
Qed.

(** The disks are exported by their names. *)
Definition exported (t : Incoming.task) (path : string) : Prop :=
  ∃ d name, Disk.NewDisk path = Ret d ∧ Disk.BaseName d = Ret name ∧ obeyed (nbd_server_add name true) (inl ()) t.

Lemma export_disks_Ret disks t t' :
  export_disks n disks t = (Ret (), t') → talks t t' ∧ Forall (exported t') disks.*1.
Proof.
  revert t. induction disks as [|[path size] disks IH]; intros t; cbn [export_disks].
  { intros [= <-]. split; [apply talks_refl|done]. }
  intros (d & t1 & [= Hd ->] & (name & t2 & [= Hname ->] & ([] & t3 & He & Hr)%op_bind_Ret)%op_bind_Ret)%op_bind_Ret.
  apply export_Ret in He as [Ht Hl]. apply IH in Hr as [Ht' Hf]. split; [by eapply talks_trans|].
  constructor; [|done]. exists d, name. split_and!; [done..|]. by eapply talks_granted.
Qed.

Lemma startNBDServer_Ret port t t' :
  startNBDServer n opts port t = (Ret (), t') →
  talks t t' ∧ obeyed (nbd_server_start (ListenAddr opts) (Strconv.Itoa port)) (inl ()) t' ∧
  Forall (exported t') (Disks_ opts).*1 ∧
  (hasFirmwareFlash t = true → obeyed (nbd_server_add "fwflash" true) (inl ()) t').
Proof.
  unfold startNBDServer.
  intros (r & t1 & Ha & (u & t1' & [= Hr ->] & (x & t2 & [= -> ->] & ([] & t3 & Hfw & He)%op_bind_Ret)%op_bind_Ret)
    %op_bind_Ret)%op_bind_Ret.
  apply (asks_talks (MonRun n (nbd_server_start _ _))) in Ha as [Ht1 Hl1]. apply export_disks_Ret in He as [Ht3 Hf].
  destruct u. apply call_inl in Hr. subst r.
  assert (hasFirmwareFlash t2 = hasFirmwareFlash t) as Hh by by destruct Ht1 as [l ->].
  rewrite <- Hh. destruct (hasFirmwareFlash t2).
  - apply export_Ret in Hfw as [Ht2 Hl2]. split_and!; [|by eapply talks_granted, talks_granted|done|].
    + by do 2 (eapply talks_trans; [eassumption|]).
    + intros _. by eapply talks_granted.
  - injection Hfw as <-. split_and!; [by eapply talks_trans|by eapply talks_granted|done|done].
Qed.

(** systemd has started the unit, it came up, and was still up ten seconds later. *)
Definition came_up (h : host) : Prop :=
  let unit := machineUnitFile n in
  granted (StartUnit unit) (λ r, r = inl ()) h ∧
  ∃ since, granted (Ticks unit 300) (λ ticks, waitActivation ticks = Ret since) h ∧
           granted (Ticks unit 10) (λ ticks, stays since ticks = Ret ()) h.
Lemma came_up_prefix h h' : log h `prefix_of` log h' → came_up h → came_up h'.
Proof. intros Hl (Hs & since & Hup & Hst). split; [|exists since; split]; by eapply granted_prefix. Qed.

Lemma SystemdStartService_Ret h h' : SystemdStartService n 10 h = (Ret (), h') → came_up h'.
Proof.
  unfold SystemdStartService, StartAndTest. cbn [Z.eqb].
  intros (r & h1 & [= <- <-] & ([] & h2 & [= E2%call_inl <-] & (k & h3 & [= <- <-] & (z & h4 & [= E4 <-] & (k' & h5 & [= <- <-] & [= E6 <-])
    %op_bind_Ret)%op_bind_Ret)%op_bind_Ret)%op_bind_Ret)%op_bind_Ret.
  cbn [log] in *. split; [|exists z; split].
  - exists (log h). split; [|done]. cbn. rewrite <- app_assoc. by eexists.
  - exists (log h ++ [StartUnit (machineUnitFile n)]). split; [by eexists|done].
  - eexists. split; [cbn; reflexivity|done].
Qed.

Lemma startIncomingMachine_Ret t pid t' :
  startIncomingMachine appconf n opts t = (Ret pid, t') → 0 ≤ pid < 2 ^ 32 ∧ came_up (on t').
Proof.
  unfold startIncomingMachine, start_saved. intros Hrun.
  do 11 (apply op_bind_Ret in Hrun as (? & ? & _ & Hrun)).
  apply op_bind_Ret in Hrun as ([] & tc & Hstart & Hrun).
  apply op_bind_Ret in Hrun as (b & td & Hpid & Hrun).
  apply op_bind_Ret in Hrun as (b' & te & [= _ ->] & Hrun).
  apply op_bind_Ret in Hrun as (p & tf & [= _ ->] & [= <- <-]).
  split; [by apply Z.mod_pos_bound|]. apply (asks_talks (ReadPid _)) in Hpid as [[l ->] _].
  eapply (came_up_prefix (on tc)); [by exists l|].
  unfold at_host, zoom in Hstart. destruct (SystemdStartService n 10 _) as [r1 h1] eqn:E.
  injection Hstart as -> <-. cbn [on set_on]. by apply SystemdStartService_Ret in E.
Qed.
End ready.

(** The configuration of a manifest is the machine's own: it has its name, and no
    file sent along takes its place. *)
Definition own_manifest `{Env} (n : string) (opts : IncomingMigrationOptions) (cm : InstanceConf.InstanceConf) : Prop :=
  ValidateMachineName n = Ret () ∧ Forall (λ e, plain e.1 ∧ e.1 ≠ "config") (ExtraFiles opts) ∧
  ∃ j m, Manifest opts = JsonText j ∧ dec_machine j = Ret m ∧ Name m = n ∧ C m = Some cm.

Section adopted.
Context `{Env} {hst : Host} `{AccountsLaws, Services} (appconf n : string) (opts : IncomingMigrationOptions).

(** What was saved stays as it is. *)
Lemma startIncomingMachine_conf cm t pid t' :
  startIncomingMachine appconf n opts t = (Ret pid, t') → own_manifest n opts cm →
  files_ (on t') !! InstanceConf.config cm = Some (Some (enc_conf (InstanceConf.props cm))).
Proof.
  intros Hrun (Hn & Hextra & j & m & Hj & Hd & Hm & Hc). unfold startIncomingMachine in Hrun.
  rewrite (op_bind_run _ _ t m t) in Hrun by (unfold read_manifest; rewrite Hj; unfold lift; by rewrite Hd).
  apply op_bind_Ret in Hrun as ([] & t1 & _ & Hrun).
  rewrite (op_bind_run _ _ t1 cm t1) in Hrun by (unfold deref; by rewrite Hc).
  apply op_bind_Ret in Hrun as ([] & t2 & Hsave & Hrun).
  assert (files_ (on t2) !! InstanceConf.config cm = Some (Some (enc_conf (InstanceConf.props cm)))) as Hsaved.
  { revert Hsave. unfold at_host, zoom, save, writing, Save, ask. clear. go_unfold.
    destruct (ValidateMachineName (InstanceProperties.Name (InstanceConf.props cm))) as [[]|e|q]; [|by intros [=]..].
    destruct (answer _ _) as [|e rem]; cbn; [|by intros [=]]. intros [= <-]. cbn. apply lookup_insert_eq. }
  assert (∀ (role : bool) c, (if role then C m else R m) = Some c → InstanceConf.config c =
    Filepath.Join [CONFDIR; n; if role then "config" else "incoming_config"]) as Hpath.
  { intros role c0 Hc0. unfold InstanceConf.config. destruct (dec_machine_names _ _ _ _ Hd Hc0) as [-> ->]. by rewrite Hm. }
  assert (∀ f, plain f → f ≠ "config" → Filepath.Join [CONFDIR; n; f] ≠ InstanceConf.config cm) as Hother.
  { intros f Hf Hne E. rewrite (Hpath true cm Hc) in E. rewrite (conf_path n [f]), (conf_path n ["config"]) in E
      by (done || (constructor; [|done]); done || apply plain_config).
    apply (inj _) in E. cbn [Strings.Join] in E. by apply (inj _), (inj _) in E. }
  set (K := λ path, bool_decide (path = InstanceConf.config cm)).
  assert (confined n (files_ (on t2)) (passwd (on t2)) K (start_saved appconf n opts m t2).2) as [Hk _].
  { apply confined_start_saved; [exact Hn|..|by split].
    - eapply Forall_impl; [exact Hextra|]. intros [f x] [Hpl Hne]. apply bool_decide_false. cbn in *.
      rewrite vmdir_file by done. intros E. by apply (Hother f).
    - intros r Hr. apply bool_decide_false. rewrite (Hpath false r Hr). apply Hother; [|done].
      split_and!; [apply (bool_decide_unpack _); by vm_compute|done..]. }
  rewrite Hrun in Hk. cbn in Hk. rewrite Hk; [done|]. by apply bool_decide_true.
Qed.

Lemma GetInstanceConf_user users fs c : ValidateMachineName n = Ret () → GetInstanceConf users fs n = Ret c →
  ∃ u uid, users n = inl u ∧ Strconv.Atoi u = Ret uid.
Proof.
  intros Hn. destruct (valid_name n Hn) as [Ht Hne]. unfold GetInstanceConf. rewrite Ht, bool_decide_false by done.
  intros (p & _ & (? & _ & (? & _ & (uid & (u & Hu%call_inl & Ha)%outcome_bind_Ret & _)%outcome_bind_Ret)%outcome_bind_Ret)%outcome_bind_Ret)%outcome_bind_Ret.
  by exists u, uid.
Qed.

(** C40: a machine that is received is ready: systemd has started its unit, which came
    up and stayed up, QEMU has agreed to serve each of the disks under its name, and
    the firmware flash if it has one, at a port above 60000 that goes with its user
    id, which may be one that no socket has, and the caller is told the ports the
    task works with.  Its configuration is the one of the manifest, if that is the
    machine's own, well-formed, and such that a file keeps it. *)
Theorem BeforeStart_ready h r t' :
  BeforeStart appconf n opts (NewMachineIncomingMigrationTask h) = (Ret r, t') →
  requisites t' = Some r ∧ 0 ≤ PID r < 2 ^ 32 ∧ came_up n (on t') ∧ Forall (exported n t') (Disks_ opts).*1 ∧
  ∃ c, GetInstanceConf (user_Lookup (passwd (on t'))) (files_ (on t')) n = Ret c ∧
    (∀ cm, own_manifest n opts cm → let p := InstanceConf.props cm in Conf.wf p → fits p →
       same (InstanceProperties.set_MachineType_ (read_type p) p) (InstanceConf.props c)) ∧
    let uid := InstanceProperties.uid (InstanceConf.props c) in
    IncomingPort r = 30000 + uid ∧ NBDPort r = 60000 + uid ∧
    obeyed n (nbd_server_start (ListenAddr opts) (Strconv.Itoa (NBDPort r))) (inl ()) t' ∧
    (is_Some (InstanceProperties.FirmwareGetFlash (InstanceConf.props c)) →
     obeyed n (nbd_server_add "fwflash" true) (inl ()) t').
Proof.
  intros ([] & t1 & _ & ([] & t2 & _ & Hp)%op_bind_Ret)%op_bind_Ret.
  unfold on_error_do in Hp. destruct (prepare appconf n opts t2) as [[a|e|p] t3] eqn:E; simplify_eq.
  apply op_bind_Ret in E as ([] & t4 & _ & (pid & t5 & Hst & Hop)%op_bind_Ret).
  pose proof (λ cm, startIncomingMachine_conf cm _ _ _ Hst) as Hconf.
  apply startIncomingMachine_Ret in Hst as [Hpid Hunit].
  apply op_bind_Ret in Hop as (x & t6 & [= -> ->] & Hop).
  apply op_bind_Ret in Hop as (c & t7 & [= Hc ->] & Hop).
  apply op_bind_Ret in Hop as ([] & t8 & Hfw & Hop).
  apply op_bind_Ret in Hop as ([] & t9 & Hnbd & Hr).
  apply startNBDServer_Ret in Hnbd as (Ht & Hl & Hf & Hh). injection Hr as <- <-.
  assert (on t8 = on t7 ∧ (is_Some (InstanceProperties.FirmwareGetFlash (InstanceConf.props c)) → hasFirmwareFlash t8 = true))
    as [Hon Hflash] by (case_bool_decide; by injection Hfw as <-).
  assert (came_up n (on t9)) as Hu9.
  { destruct Ht as [l ->]. eapply came_up_prefix; [|exact Hunit]. rewrite <- Hon. by exists l. }
  split; [done|]. split; [exact Hpid|]. split; [exact Hu9|]. split; [exact Hf|].
  exists c. cbn [NBDPort IncomingPort]. destruct Ht as [l ->]. cbn [on set_on files_ passwd set_requisites] in *.
  rewrite Hon in *. split; [done|]. split; [|split; [done|]; split; [done|]; split; [exact Hl|]].
  - intros cm Hown Hw Hfit. set (p := InstanceConf.props cm) in *. specialize (Hconf cm Hown). destruct Hown as (Hn & _ & j & m & _ & Hd & Hm & Hcm).
    destruct (GetInstanceConf_user _ _ _ Hn Hc) as (u & uid & Hu & Huid).
    destruct (dec_machine_names _ _ true _ Hd Hcm) as [Hname Hcn]. rewrite Hm in Hname.
    assert (files_ (on t7) !! InstanceConf.config (InstanceConf.newInstanceConf (InstanceProperties.name p)) = Some (Some (enc_conf p))) as Hfile.
    { unfold InstanceConf.config in Hconf |- *. rewrite Hcn in Hconf. exact Hconf. }
    destruct (load_typed (user_Lookup (passwd (on t7))) (files_ (on t7)) p u uid Hw Hfit) as (c' & Hg & Hs & _); try done.
    all: try (change (InstanceProperties.name p) with (InstanceProperties.name (InstanceConf.props cm)); by rewrite Hname).
    change (InstanceProperties.name p) with (InstanceProperties.name (InstanceConf.props cm)) in Hg.
    rewrite Hname, Hc in Hg. by injection Hg as <-.
  - intros Hsome. by apply Hh, Hflash.
Qed.
End adopted.

(** ** The end of a transfer *)

(** the main part of the task takes any answer of [query-migrate] for a
    success: when QEMU says the migration has not completed, and even when the
    task has been cancelled by then, the NBD server is left running and the
    machine is resumed nevertheless. *)
Theorem Main_resumes `{Services} n opts req t st :
  requisites t = Some req → TurnOffAfter opts = false →
  wait_transfer (answer (log (on t)) (Statuses n)) = Ret () →
  wait_connections opts req (answer (log (on t) ++ [Statuses n]) Sockets) = Ret () →
  answer (log (on t) ++ [Statuses n; Sockets]) (MonRun n query_migrate_status) = inl st →
  st ≠ "completed" →
  (Main n opts;; OnSuccess n opts) t =
    (Ret (), set_on {| files_ := files_ (on t); passwd := passwd (on t);
                       log := log (on t) ++ [Statuses n; Sockets; MonRun n query_migrate_status; MonRun n cont] |} t).
Proof.
  intros Hreq Hoff Hst Hco Hmi Hne. unfold Main, OnSuccess. rewrite Hoff.
  unfold deref, Mon_Run, asks, at_host, zoom, ask. go_unfold. rewrite Hreq. cbn. rewrite Hst. cbn. rewrite Hco. cbn.
  rewrite <- !app_assoc. cbn. rewrite Hmi, bool_decide_false by done. cbn. by rewrite <- !app_assoc.
Qed.

(** *** The watchdog *)

Inductive observation := Connected | Empty | Unknown.
#[export] Instance observation_eq_dec : EqDecision observation.
Proof. solve_decision. Defined.

(** What one look at the socket table says. *)
Definition observe (opts : IncomingMigrationOptions) (req : IncomingRequisites)
    (r : sys (list SockTableEntry)) : observation :=
  match getEstablishedConnections opts req r with
  | Ret [] => Empty
  | Ret _ => Connected
  | _ => Unknown
  end.

Definition empties (opts : IncomingMigrationOptions) (req : IncomingRequisites)
    (l : list (sys (list SockTableEntry))) : nat :=
  length (filter (λ r, observe opts req r = Empty) l).

Definition quiet (opts : IncomingMigrationOptions) (req : IncomingRequisites)
    (l : list (sys (list SockTableEntry))) : Prop :=
  Forall (λ r, observe opts req r ≠ Connected) l.

Lemma watch_cons opts req k r ticks :
  watch opts req k (r :: ticks) =
    if k =? 12 then true
    else watch opts req (match observe opts req r with Empty => k + 1 | Connected => 0 | Unknown => k end) ticks.
Proof. cbn. unfold observe. by destruct (getEstablishedConnections opts req r) as [[]|e|p]. Qed.

(** There are at least [k] empty looks, none at a connection among them, and one more tick. *)
Definition silence (opts : IncomingMigrationOptions) (req : IncomingRequisites) (k : Z)
    (ticks : list (sys (list SockTableEntry))) : Prop :=
  ∃ mid r post, ticks = mid ++ r :: post ∧ quiet opts req mid ∧ k ≤ Z.of_nat (empties opts req mid).

Lemma empties_cons opts req r l :
  Z.of_nat (empties opts req (r :: l)) =
    (match observe opts req r with Empty => 1 | _ => 0 end) + Z.of_nat (empties opts req l).
Proof.
  unfold empties. rewrite filter_cons. destruct (observe opts req r) eqn:E; case_decide; try done; simpl; lia.
Qed.

Lemma silence_cons opts req k r ticks :
  observe opts req r ≠ Connected →
  silence opts req (match observe opts req r with Empty => k - 1 | _ => k end) ticks →
  silence opts req k (r :: ticks).
Proof.
  intros Hr (mid & r' & post & -> & Hq & Hk). exists (r :: mid), r', post.
  split; [done|]. split; [by constructor|]. rewrite empties_cons. by destruct (observe opts req r); lia || done.
Qed.

Lemma watch_silence opts req k ticks :
  0 ≤ k ≤ 12 →
  watch opts req k ticks = true ↔
    silence opts req (12 - k) ticks ∨ ∃ pre ticks', ticks = pre ++ ticks' ∧ silence opts req 12 ticks'.
Proof.
  revert k. induction ticks as [|r ticks IH]; intros k Hk.
  { split; [done|]. intros [(mid & r & post & E & _)|(pre & t & E & mid & r & post & -> & _)].
    - by destruct mid.
    - by destruct pre, mid. }
  rewrite watch_cons. destruct (Z.eqb_spec k 12) as [->|Hne].
  { split; [|done]. intros _. left. exists [], r, ticks. split; [done|]. split; [constructor|]. done. }
  rewrite IH by (destruct (observe opts req r); lia). split.
  - intros [Hs|(pre & t & -> & Ht)]; [|right; by exists (r :: pre), t].
    destruct (observe opts req r) eqn:E.
    + right. exists [r], ticks. by split.
    + left. apply silence_cons; rewrite E; [done|]. by replace (12 - k - 1) with (12 - (k + 1)) by lia.
    + left. apply silence_cons; by rewrite E.
  - assert (∀ j, 0 < j ≤ 12 → silence opts req j (r :: ticks) → observe opts req r ≠ Connected ∧
      silence opts req (match observe opts req r with Empty => j - 1 | _ => j end) ticks) as Hinv.
    { intros j Hj (mid & r' & post & E & Hq & Hc). destruct mid as [|x mid].
      - unfold empties in Hc. simpl in Hc. lia.
      - injection E as <- ->. inversion Hq as [|? ? Hx Hq']; subst. split; [done|].
        exists mid, r', post. split_and!; [done..|]. rewrite empties_cons in Hc. destruct (observe opts req r); lia. }
    assert (∀ i j, i ≤ j → silence opts req j ticks → silence opts req i ticks) as Hmono.
    { intros i j Hij (mid & r' & post & E & Hq & Hc). exists mid, r', post. split_and!; [done..|lia]. }
    intros [Hs|([|x pre] & t & E & Ht)].
    + apply Hinv in Hs as [Hx Hs]; [|lia]. left. eapply Hmono; [|exact Hs]. destruct (observe opts req r); lia || done.
    + simpl in E. subst t. apply Hinv in Ht as [Hx Ht]; [|lia]. left. eapply Hmono; [|exact Ht].
      destruct (observe opts req r); lia || done.
    + injection E as <- ->. right. by exists pre, t.
Qed.

(** a transfer that has gone dead is given up, and only such a one: the task
    is cancelled exactly if at some tick the last twelve looks at the socket
    table that worked found no connection on the data ports; looks that fail in
    between neither count nor start the count again. *)
Theorem monitor_cancels opts req ticks :
  monitorIncomingConnection opts req ticks = true ↔
    ∃ pre mid r post, ticks = pre ++ mid ++ r :: post ∧ quiet opts req mid ∧ (12 ≤ empties opts req mid)%nat.
Proof.
  unfold monitorIncomingConnection. rewrite watch_silence by lia. split.
  - intros [(mid & r & post & -> & Hq & Hk)|(pre & t & -> & mid & r & post & -> & Hq & Hk)].
    + exists [], mid, r, post. split_and!; [done..|lia].
    + exists pre, mid, r, post. split_and!; [done..|lia].
  - intros (pre & mid & r & post & -> & Hq & Hk). right. eexists pre, _. split; [done|].
    exists mid, r, post. split_and!; [done..|lia].
Qed.
End IncomingFacts.
