(* ===== verification/HostNetFacts.v ===== *)
(** HostNetFacts: what configuring the network of the host leaves alone. *)

From S2P Require Import Prelude.
From S2P Require Import GoStd.
From S2P Require Import Ip.
From S2P Require Import Backend.
From S2P Require Import Json.
From S2P Require Import Monitor.
From S2P Require Import InstanceQemu.
From S2P Require Import Server.
From S2P Require Import Services.
From S2P Require Import HostNet.
From S2P Require Import IncomingFacts.

Open Scope Z_scope.
#[local] Set Warnings "-register-all".

Module HostNetFacts.
Import Strings Services Server Ip IpNet HostNet IncomingFacts.

Create HintDb hostnet discriminated.

(** One step of an operation after the other, on every branch. *)
Ltac netwise :=
  repeat first
    [ solve [auto with hostnet]
    | apply preserves_bind; [|intros ?]
    | apply preserves_map_err
    | apply preserves_ignored
    | case_match ].

Section frame.
Context `{Services, Network, Netlink, MapOrder, LinkJson}.
(** What holds of the host whatever is asked of it and whatever is kept of an
    interface. *)
Context (J : host → Prop) (linkname : string).
Context (HJask : ∀ a, preserves J (ask a)) (HJwrite : ∀ c, preserves J (write_file (link_file linkname) c))
        (HJremove : preserves J (remove (link_file linkname))).

Definition kept (n : net) : Prop := J (on n).

Lemma kept_at_host {A} (m : op host A) : preserves J m → preserves kept (at_host m).
Proof. intros Hm. by apply (preserves_zoom _ _ _ J). Qed.
Lemma kept_ask a : preserves kept (at_host (ask a)).
Proof. by apply kept_at_host. Qed.
Lemma kept_write c : preserves kept (at_host (write_file (link_file linkname) c)).
Proof. by apply kept_at_host. Qed.
Lemma kept_remove : preserves kept (at_host (remove (link_file linkname))).
Proof. by apply kept_at_host. Qed.
Lemma kept_request c : preserves kept (request c).
Proof. by intros n. Qed.
Lemma kept_done {A} (r : sys A) : preserves kept (done r).
Proof. by intros n. Qed.
Lemma kept_netlink {A} (r : sys A) : preserves kept (netlink r).
Proof. apply preserves_map_err, kept_done. Qed.
#[local] Hint Resolve kept_write kept_remove kept_done kept_netlink : hostnet.
#[local] Hint Extern 1 (preserves kept (request _)) => apply kept_request : hostnet.
#[local] Hint Extern 1 (preserves kept (at_host (ask _))) => apply kept_ask : hostnet.
#[local] Hint Resolve preserves_ret preserves_throw preserves_lift preserves_get preserves_fail_if : hostnet.

Lemma kept_dropped c : preserves kept (dropped c).
Proof. unfold dropped. netwise. Qed.
Lemma kept_run t what argv : preserves kept (run t what argv).
Proof. unfold run. netwise. Qed.
Lemma kept_exactly argv what : preserves kept (exactly argv what).
Proof. apply kept_run. Qed.
Lemma kept_link_by_name name : preserves kept (link_by_name name).
Proof. unfold link_by_name. netwise. Qed.
Lemma kept_table table : preserves kept (GetRouteTableIndex table).
Proof. unfold GetRouteTableIndex. netwise. Qed.
Lemma kept_RemoveLink name : preserves kept (RemoveLinkIfExist name).
Proof. unfold RemoveLinkIfExist. netwise. Qed.
Lemma kept_set_mtu mtu name : preserves kept (set_mtu mtu name).
Proof. unfold set_mtu. netwise. Qed.
#[local] Hint Resolve kept_dropped kept_run kept_exactly kept_link_by_name kept_table kept_RemoveLink kept_set_mtu : hostnet.

Lemma kept_set_mtus mtu names : preserves kept (set_mtus mtu names).
Proof. induction names; cbn [set_mtus]; netwise. Qed.
Lemma kept_CreateBridge name : preserves kept (CreateBridgeIfNotExist name).
Proof. unfold CreateBridgeIfNotExist. netwise. Qed.
Lemma kept_CreateVxlan name vni src : preserves kept (CreateVxlanIfNotExist name vni src).
Proof. unfold CreateVxlanIfNotExist. netwise. Qed.
#[local] Hint Resolve kept_set_mtus kept_CreateBridge kept_CreateVxlan : hostnet.

Lemma kept_BridgePortConfigure br mtu s : preserves kept (BridgePortConfigure linkname br mtu s).
Proof. unfold BridgePortConfigure. netwise. Qed.
Lemma kept_BridgePortDeconfigure : preserves kept (BridgePortDeconfigure linkname).
Proof. unfold BridgePortDeconfigure. netwise. Qed.
Lemma kept_VxlanPortConfigure vni mtu l s : preserves kept (VxlanPortConfigure linkname vni mtu l s).
Proof. unfold VxlanPortConfigure. netwise. Qed.
Lemma kept_VxlanPortDeconfigure vni : preserves kept (VxlanPortDeconfigure linkname vni).
Proof. unfold VxlanPortDeconfigure. netwise. Qed.

Lemma kept_blackhole families : preserves kept (blackhole_rules linkname families).
Proof. induction families; cbn [blackhole_rules]; netwise. Qed.
Lemma kept_inbound rate : preserves kept (routerSetInboundLimits linkname rate).
Proof. unfold routerSetInboundLimits. netwise. Qed.
Lemma kept_outbound id pid rate bind : preserves kept (routerSetOutboundLimits linkname id pid rate bind).
Proof. unfold routerSetOutboundLimits. netwise. Qed.
#[local] Hint Resolve kept_blackhole kept_inbound kept_outbound : hostnet.
Lemma kept_RouterSetOutbound rate bind pid : preserves kept (RouterSetOutboundLimits linkname rate bind pid).
Proof. unfold RouterSetOutboundLimits. netwise. Qed.
Lemma kept_RouterSetInbound rate : preserves kept (RouterSetInboundLimits linkname rate).
Proof. apply kept_inbound. Qed.

Lemma kept_add_addrs l addrs : preserves kept (add_addrs l addrs).
Proof.
  induction addrs; cbn [add_addrs]; [apply preserves_ret|]. unfold routerAddRoute, routerAddRule. netwise.
Qed.
Lemma kept_announce l gw4 gws addrs : preserves kept (announce l gw4 gws addrs).
Proof. revert gws. induction addrs; intros gws; cbn [announce]; netwise. Qed.
#[local] Hint Resolve kept_add_addrs kept_announce : hostnet.
Lemma kept_RouterConfigureAddrs addrs gw4 : preserves kept (RouterConfigureAddrs linkname addrs gw4).
Proof. unfold RouterConfigureAddrs, routerAnnounceGateways. netwise. Qed.
Lemma kept_RouterConfigure attrs s : preserves kept (RouterConfigure linkname attrs s).
Proof.
  unfold RouterConfigure, RouterConfigureInterface, routerCreateBlackholeRules.
  destruct s; [apply kept_RouterConfigureAddrs|netwise].
Qed.

Lemma kept_each_of {A} (f : A → op net ()) l : (∀ x, preserves kept (f x)) → preserves kept (each_of f l).
Proof. intros Hf. induction l; cbn [each_of]; netwise. Qed.
Lemma kept_deconfigured (r : link_result) :
  preserves kept (match r with Found l => delete_addrs linkname;; delete_routes linkname | _ => mret () end).
Proof. unfold delete_addrs, delete_routes. netwise; apply kept_each_of; intros ?; netwise. Qed.
Lemma kept_delete_rules : preserves kept (delete_rules linkname).
Proof. unfold delete_rules. netwise; apply kept_each_of; intros ?; netwise. Qed.
#[local] Hint Resolve kept_deconfigured kept_delete_rules : hostnet.
Lemma kept_RouterDeconfigure bind : preserves kept (RouterDeconfigure linkname bind).
Proof.
  unfold RouterDeconfigure, routerRemoveBlackholeRulesV6. do 2 (apply preserves_bind; [netwise|intros []]).
  apply preserves_bind; [netwise|intros r]. apply preserves_bind; [apply kept_deconfigured|intros []]. netwise.
Qed.

Lemma kept_bindings ifaces l m : preserves kept (bindings ifaces l m).
Proof. revert m. induction l; intros m; cbn [bindings]; netwise. Qed.
#[local] Hint Resolve kept_bindings : hostnet.
Lemma kept_ParseBindings l : preserves kept (ParseBindings l).
Proof. unfold ParseBindings. netwise. Qed.

End frame.

(** ** The traffic class of an interface *)

Section class.
Context `{Services, Network, Netlink, LinkJsonLaws}.

Definition class_add (bind : string) (id rate : Z) : net_call :=
  Command ["tc"; "class"; "add"; "dev"; bind; "parent"; "1:"; "classid"; classid id; "htb"; "rate"; mbit rate].
Definition class_del (bind : string) (id : Z) : net_call :=
  Command ["tc"; "class"; "del"; "dev"; bind; "classid"; classid id].

Lemma exactly_Ret argv what n n' u :
  exactly argv what n = (Ret u, n') → calls n' = calls n ++ [Command argv] ∧ on n' = on n.
Proof.
  unfold exactly, run, mbind, op_bind, request. destruct (net_answer _ _) as [|[code|] out]; [|done..].
  by intros [= _ <-].
Qed.

Lemma routerSetOutboundLimits_Ret linkname id pid rate bind n n' :
  rate ≠ 0 → routerSetOutboundLimits linkname id pid rate bind n = (Ret (), n') →
  on n' = on n ∧ (class_add bind id rate ∈ calls n').
Proof.
  intros Hr Hm. pose proof (λ J HJ, kept_outbound J linkname id pid rate bind n HJ) as Hk.
  rewrite Hm in Hk. split; [by apply (Hk (λ h, h = on n))|]. clear Hk.
  unfold routerSetOutboundLimits in Hm. apply op_bind_Ret in Hm as ([] & n1 & _ & Hm).
  rewrite (proj2 (Z.eqb_neq _ _) Hr) in Hm. do 2 apply op_bind_Ret in Hm as ([] & ? & _ & Hm).
  apply op_bind_Ret in Hm as ([] & n2 & [Hc _]%exactly_Ret & Hm).
  assert (class_add bind id rate ∈ calls n2) as Hin by (rewrite Hc; set_solver).
  destruct (0 <? pid); [|by injection Hm as <-].
  apply op_bind_Ret in Hm as (r & n3 & [= <- <-] & Hm). unfold map_err, done, lift in Hm.
  destruct (Backend.call _); [|done..]. injection Hm as _ <-. cbn. set_solver.
Qed.

(** What configuring an interface with an outbound limit leaves. *)
Lemma RouterConfigureInterface_Ret linkname attrs n n' :
  OutLimit attrs ≠ 0 → BindInterface attrs ≠ "" →
  RouterConfigureInterface linkname attrs n = (Ret (), n') →
  ∃ l pre, net_answer pre (LinkByName linkname) = Found l ∧
    (class_add (BindInterface attrs) (GetLinkID linkname (Index l)) (OutLimit attrs) ∈ calls n') ∧
    files_ (on n') !! link_file linkname = Some (Some (link_json l)).
Proof.
  intros Ho Hb Hm. unfold RouterConfigureInterface in Hm. apply op_bind_Ret in Hm as ([] & n0 & _ & Hm).
  apply op_bind_Ret in Hm as (l & n1 & Hl & Hm). exists l, (calls n0).
  assert (net_answer (calls n0) (LinkByName linkname) = Found l) as ->.
  { unfold link_by_name, mbind, op_bind, request in Hl. destruct (net_answer _ _); [by injection Hl as -> _|done..]. }
  split; [done|]. do 5 apply op_bind_Ret in Hm as (? & ? & _ & Hm).
  rewrite bool_decide_false in Hm by done. apply op_bind_Ret in Hm as ([] & n2 & Hs & Hm).
  apply routerSetOutboundLimits_Ret in Hs as [_ Hin]; [|done].
  unfold at_host, zoom, write_file, writing, zoom, mbind, op_bind, ask in Hm.
  destruct (answer _ _) as [|e v]; [|done]. injection Hm as <-. split; [done|]. cbn. apply lookup_insert_eq.
Qed.

Lemma stays {A B} (I : net → Prop) (m : op net A) (k : A → op net B) n b n' :
  (m ≫= k) n = (Ret b, n') → preserves I m → I n → ∃ a n1, I n1 ∧ k a n1 = (Ret b, n').
Proof. intros (a & n1 & Hm & Hk)%op_bind_Ret HI Hn. exists a, n1. split; [|done]. specialize (HI n Hn). by rewrite Hm in HI. Qed.

(** Without a limit there is nothing but the removal of the class. *)
Lemma ignored_class_del linkname id pid bind n n' :
  ignored (routerSetOutboundLimits linkname id pid 0 bind) n = (Ret (), n') → class_del bind id ∈ calls n'.
Proof. intros [= <-]. cbn. set_solver. Qed.
Lemma ignored_remove path n n' : ignored (at_host (remove path)) n = (Ret (), n') → calls n' = calls n.
Proof.
  unfold ignored, unless, at_host, zoom. destruct (remove path (on n)) as [[[]|e|q] h]; by intros [= <-].
Qed.

(** the traffic class of an interface goes with it: when an interface was
    configured with an outbound limit, and is deconfigured later while what was
    kept of it is still there, the class that is deleted is the one that was
    added, although the interface may have gone and come back with another index
    in between. *)
Theorem class_deleted linkname attrs n n1 m m1 :
  OutLimit attrs ≠ 0 → BindInterface attrs ≠ "" →
  RouterConfigureInterface linkname attrs n = (Ret (), n1) →
  (∀ pre l, net_answer pre (LinkByName linkname) = Found l → is_int (Index l) = true) →
  files_ (on m) !! link_file linkname = files_ (on n1) !! link_file linkname →
  RouterDeconfigure linkname (BindInterface attrs) m = (Ret (), m1) →
  ∃ id, class_add (BindInterface attrs) id (OutLimit attrs) ∈ calls n1 ∧ class_del (BindInterface attrs) id ∈ calls m1.
Proof.
  intros Ho Hb Hn Hi Hf Hm. destruct (RouterConfigureInterface_Ret _ _ _ _ Ho Hb Hn) as (l & pre & Hl & Hin & Hlf).
  exists (GetLinkID linkname (Index l)). split; [done|]. rewrite Hlf in Hf. specialize (Hi pre l Hl). clear Hn Hin Hlf.
  unfold RouterDeconfigure in Hm.
  pose (J := λ h : host, files_ h !! link_file linkname = Some (Some (link_json l))).
  assert (kept J m) as Hk by exact Hf.
  apply (stays (kept J)) in Hm as ([] & m2 & Hk2 & Hm); [|apply kept_delete_rules|done].
  apply (stays (kept J)) in Hm as ([] & m3 & Hk3 & Hm); [|apply kept_dropped|done].
  apply (stays (kept J)) in Hm as (r & m4 & Hk4 & Hm); [|apply kept_request|done].
  apply (stays (kept J)) in Hm as ([] & m5 & Hk5 & Hm); [|apply kept_deconfigured|done].
  apply (stays (kept J)) in Hm as ([] & m6 & Hk6 & Hm); [|apply preserves_ignored, kept_inbound|done].
  rewrite bool_decide_false in Hm by done.
  apply (stays (kept J)) in Hm as (c & m7 & Hk7 & Hm); [|apply kept_at_host; by intros h|done].
  apply op_bind_Ret in Hm as (? & ? & [= _ <-] & Hm). apply op_bind_Ret in Hm as (? & ? & [= <- <-] & Hm).
  unfold kept, J in Hk7. rewrite Hk7 in Hm. unfold file_index in Hm. rewrite (link_json_index l Hi) in Hm.
  apply op_bind_Ret in Hm as (? & ? & [= <- <-] & Hm). apply op_bind_Ret in Hm as ([] & m8 & Hc & Hm).
  apply ignored_class_del in Hc. apply ignored_remove in Hm. by rewrite Hm.
Qed.
End class.

(** ** Bridges of VxLANs *)

Section vxlan.
Context `{Services, Network}.

(** The links an operation removes. *)
Definition removes {A} (m : op net A) (P : string → Prop) : Prop :=
  ∀ n, ∃ new, calls (m n).2 = calls n ++ new ∧ ∀ d, LinkDel d ∈ new → P d.

Lemma removes_bind {A B} (m : op net A) (k : A → op net B) P :
  removes m P → (∀ a, removes (k a) P) → removes (m ≫= k) P.
Proof.
  intros Hm Hk n. unfold mbind, op_bind. destruct (Hm n) as (new & Hc & Hd).
  destruct (m n) as [[a|e|q] n']; cbn in *; [|by exists new..].
  destruct (Hk a n') as (new' & -> & Hd'). exists (new ++ new'). rewrite Hc. split; [by rewrite app_assoc|].
  intros d [?|?]%elem_of_app; auto.
Qed.
Lemma removes_request c P : (∀ d, c = LinkDel d → P d) → removes (request c) P.
Proof. intros Hc n. exists [c]. split; [done|]. intros d Hd%list_elem_of_singleton. by apply Hc. Qed.
Lemma removes_none {A} (m : op net A) P : (∀ n, calls (m n).2 = calls n) → removes m P.
Proof. intros Hm n. exists []. rewrite Hm, app_nil_r. split; [done|]. by intros d Hd%elem_of_nil. Qed.
Lemma removes_netlink {A} (r : sys A) P : removes (netlink r) P.
Proof. apply removes_none. intros n. cbn. by destruct (Backend.call r). Qed.

Lemma RemoveLinkIfExist_removes name (P : string → Prop) : P name → removes (RemoveLinkIfExist name) P.
Proof.
  intros HP. unfold RemoveLinkIfExist. apply removes_bind; [by apply removes_request|]. intros r.
  repeat case_match; try (by apply removes_none); apply removes_bind; try (intros; apply removes_netlink);
    apply removes_request; by intros d [= <-].
Qed.

(** What happens once the interface is gone, given what the kernel knows as the bridge. *)
Lemma tail_removes vni r n :
  ∃ new, calls ((match r with
    | LinkNotFound => RemoveLinkIfExist (vxName vni)
    | LinkFailed e => throw e
    | Found br =>
        r ← request LinkList;
        links ← netlink r;
        if existsb (λ l, (MasterIndex l =? Index br) && negb (bool_decide (Name l = vxName vni))) links then mret ()
        else
          RemoveLinkIfExist (vxName vni);;
          r ← request (LinkDel (brName vni)); netlink r
    end : op net ()) n).2 = calls n ++ new ∧ (∀ d, LinkDel d ∈ new → d = vxName vni ∨ d = brName vni) ∧
  (LinkDel (brName vni) ∈ new → ∃ post br links, new = LinkList :: post ∧ r = Found br ∧
     net_answer (calls n) LinkList = inl links ∧ ∀ l, l ∈ links → MasterIndex l = Index br → Name l = vxName vni).
Proof.
  destruct r as [br| |e].
  2: { destruct (RemoveLinkIfExist_removes (vxName vni) (eq (vxName vni)) eq_refl n) as (new & Hc & Hd).
       exists new. split_and!; [done|intros d Hx%Hd; by left|by intros ?%Hd]. }
  2: exists []; rewrite app_nil_r; split_and!; [done|set_solver..].
  set (n2 := {| on := on n; calls := calls n ++ [LinkList] |}).
  rewrite (op_bind_run (request LinkList) _ n (net_answer (calls n) LinkList) n2 eq_refl).
  destruct (net_answer (calls n) LinkList) as [links|e].
  2: exists [LinkList]; split_and!; [done|intros d Hd; set_solver|set_solver].
  erewrite op_bind_run by reflexivity. destruct (existsb _ links) eqn:Hx.
  { exists [LinkList]. split_and!; [done|intros d Hd; set_solver|set_solver]. }
  edestruct (removes_bind (RemoveLinkIfExist (vxName vni)) (λ _, request (LinkDel (brName vni)) ≫= netlink)
    (λ d, d = vxName vni ∨ d = brName vni)) as (new & Hc & Hd).
  - apply RemoveLinkIfExist_removes. by left.
  - intros _. apply removes_bind; [apply removes_request; intros d [= <-]; by right|intros ?; apply removes_netlink].
  - exists (LinkList :: new). split_and!; [rewrite Hc; unfold n2; cbn; by rewrite <- app_assoc| |].
    + intros d [?|?]%elem_of_cons; [done|auto].
    + intros _. exists new, br, links. split_and!; [done..|]. intros l Hin Hm.
      rewrite <- not_true_iff_false, existsb_exists in Hx. destruct (decide (Name l = vxName vni)); [done|].
      destruct Hx. exists l. rewrite list_elem_of_In in Hin. split; [done|]. by rewrite Hm, Z.eqb_refl, bool_decide_false.
Qed.

(** the bridge of a VxLAN is removed with its last port: an interface that
    leaves takes nothing with it but itself, the VxLAN's device and the bridge,
    and the bridge only after a list of the links in which no other link is one of its
    ports. *)
Theorem VxlanPortDeconfigure_bridge linkname vni n :
  ∃ new, calls (VxlanPortDeconfigure linkname vni n).2 = calls n ++ new ∧
    (∀ d, LinkDel d ∈ new → d ∈ [linkname; vxName vni; brName vni]) ∧
    (linkname ≠ brName vni → LinkDel (brName vni) ∈ new →
     ∃ pre post br links, new = pre ++ LinkByName (brName vni) :: LinkList :: post ∧
       net_answer (calls n ++ pre) (LinkByName (brName vni)) = Found br ∧
       net_answer (calls n ++ pre ++ [LinkByName (brName vni)]) LinkList = inl links ∧
       ∀ l, l ∈ links → MasterIndex l = Index br → Name l = vxName vni).
Proof.
  unfold VxlanPortDeconfigure, mbind at 1, op_bind at 1.
  destruct (RemoveLinkIfExist_removes linkname (eq linkname) eq_refl n) as (new & Hc & Hd).
  destruct (RemoveLinkIfExist linkname n) as [[[]|e|q] n1]; cbn [fst snd] in Hc.
  2, 3: exists new; split_and!; [done|intros d <-%Hd; set_solver|by intros ? ?%Hd].
  set (n2 := {| on := on n1; calls := (calls n ++ new) ++ [LinkByName (brName vni)] |}).
  rewrite (op_bind_run (request (LinkByName (brName vni))) _ n1 (net_answer (calls n ++ new) (LinkByName (brName vni))) n2)
    by (unfold request; by rewrite Hc).
  destruct (tail_removes vni (net_answer (calls n ++ new) (LinkByName (brName vni))) n2) as (new2 & Hc2 & Hd2 & Hl).
  exists (new ++ LinkByName (brName vni) :: new2). split_and!.
  - rewrite Hc2. unfold n2. cbn. by rewrite <- !app_assoc.
  - intros d [<-%Hd|[Hd'|Hd']%elem_of_cons]%elem_of_app; [set_solver|done|]. apply Hd2 in Hd'. set_solver.
  - intros Hne [?%Hd|[?|Hb]%elem_of_cons]%elem_of_app; [done..|].
    destruct (Hl Hb) as (post & b & links & -> & Hb' & Hlinks & Hall).
    exists new, post, b, links. split_and!; [done..| |done]. rewrite <- Hlinks. f_equal. unfold n2. cbn. by rewrite <- !app_assoc.
Qed.
End vxlan.
End HostNetFacts.
