(* ===== verification/NetworkServerFacts.v ===== *)
(** NetworkServerFacts: network schemes from a request to the host. *)

From S2P Require Import Prelude.
From S2P Require Import GoStd.
From S2P Require Import GoFacts.
From S2P Require Import Backend.
From S2P Require Import NetIfaces.
From S2P Require Import Json.
From S2P Require Import InstanceConf.
From S2P Require Import ConfTheorems.
From S2P Require Import ConfJson.
From S2P Require Import Monitor.
From S2P Require Import InstanceQemu.
From S2P Require Import Server.
From S2P Require Import ServerTheorems.
From S2P Require Import Ip.
From S2P Require Import IpFacts.
From S2P Require Import OsUser.
From S2P Require Import Services.
From S2P Require Import HostNet.
From S2P Require Import Lifecycle.
From S2P Require Import Network.
From S2P Require Import NetworkServer.
From S2P Require Import NetworkFacts.
From S2P Require Import LifecycleFacts.
From S2P Require Import LifecycleTheorems.
From S2P Require Import Incoming.
From S2P Require Import IncomingFacts.
From S2P Require Import HostNetFacts.

Open Scope Z_scope.
#[local] Set Warnings "-register-all".

Module NetworkServerFacts.
Import Strings Services Server IpNet HostNet HostNetFacts Network NetworkServer NetworkFacts.

Section loaded.
Context `{NetlinkLaws, MapOrderLaws}.

(** What a scheme is when it is read back. *)
Definition reloaded (p p' : SchemeProperties) : Prop :=
  Ifname p' = Ifname p ∧ SchemeType_ p' = SchemeType_ p ∧
  (∀ k, k ∉ ["scheme"; "ifname"; "addrs"] → attrs p' !! k = reload <$> attrs p !! k) ∧
  (∀ k n, attrs p' !! k ≠ Some (VUint32 n)).

Lemma reloaded_schemes l :
  ∃ l', schemes_of_json (json_of_schemes l) = Ret l' ∧ Forall2 (option_Forall2 reloaded) l l'.
Proof.
  unfold json_of_schemes. cbn [schemes_of_json]. induction l as [|[p|] l (l' & Hl & Hf)]; [by exists []|..].
  - destruct (UnmarshalJSON_Marshal p) as (p' & Hp & Hn & Ht & Ha & Hu & _).
    cbn [map dec_schemes]. change (match MarshalJSON p with JNull => _ | _ => ?k end) with k.
    rewrite Hp. cbn [mbind outcome_bind]. rewrite Hl. eexists. split; [reflexivity|]. constructor; [|done].
    constructor. by split_and!.
  - cbn [map dec_schemes mbind outcome_bind]. rewrite Hl. eexists. split; [reflexivity|]. constructor; [constructor|done].
Qed.

Lemma find_reloaded ifname l l' : Forall2 (option_Forall2 reloaded) l l' →
  match find_scheme ifname l with
  | Ret None => find_scheme ifname l' = Ret None
  | Ret (Some (i, p)) => ∃ p', find_scheme ifname l' = Ret (Some (i, p')) ∧ reloaded p p'
  | _ => find_scheme ifname l' = Panic NilDereference
  end.
Proof.
  induction 1 as [|o o' l l' Ho Hl IH]; [done|]. destruct Ho as [p p' Hp|]; cbn [find_scheme]; [|done].
  destruct Hp as (Hn & Hp). rewrite Hn. case_bool_decide as E; [by exists p'|].
  destruct (find_scheme ifname l) as [[[i q]|]|e|q]; cbn [mbind outcome_bind].
  - destruct IH as (q' & -> & Hq). by exists q'.
  - by rewrite IH.
  - by rewrite IH.
  - by rewrite IH.
Qed.

Lemma find_snoc ifname l p : find_scheme ifname l = Ret None →
  find_scheme ifname (l ++ [Some p]) = if bool_decide (Ifname p = ifname) then Ret (Some (length l, p)) else Ret None.
Proof.
  induction l as [|[q|] l IH]; cbn [find_scheme app length]; [by case_bool_decide| |done].
  destruct (bool_decide (Ifname q = ifname)); [by intros [=]|]. intros Hl. destruct (find_scheme ifname l) as [[[i r]|]|e|r]; try done.
  rewrite IH by done. by case_bool_decide.
Qed.

(** *** No number of a file is a uint32 *)

Definition no_uint32 (p : SchemeProperties) : Prop := ∀ k n, attrs p !! k ≠ Some (VUint32 n).

Lemma valueAs_uint32 k p n : no_uint32 p → k ∉ ["scheme"; "ifname"] → valueAs k as_uint32 p ≠ Got _ n.
Proof.
  intros Hp Hk. rewrite !not_elem_of_cons in Hk. unfold valueAs. specialize (Hp k).
  destruct (attrs p !! k) as [v|]; [|done]. rewrite !bool_decide_false by tauto.
  destruct v; cbn; try done. intros _. by apply (Hp n0).
Qed.
Lemma required_uint32 k p : no_uint32 p → k ∉ ["scheme"; "ifname"] → ∃ e, required k as_uint32 p = Throw e.
Proof.
  intros Hp Hk. unfold required. destruct (valueAs k as_uint32 p) as [n| |e] eqn:E; [|by eexists..].
  by apply valueAs_uint32 in E.
Qed.
Lemma optional_uint32 k old p : no_uint32 p → k ∉ ["scheme"; "ifname"] →
  attrs p !! k = None ∨ ∃ e, optional k as_uint32 old p = Throw e.
Proof.
  intros Hp Hk. destruct (attrs p !! k) as [v|] eqn:Hv; [right|by left]. unfold optional.
  destruct (valueAs k as_uint32 p) as [n| |e] eqn:E; [|unfold valueAs in E; rewrite Hv in E; repeat case_match; done|by eexists].
  by apply valueAs_uint32 in E.
Qed.
Lemma optional_Ret {A} k (cast : value → option A) old p : (∃ e, optional k cast old p = Throw e) ∨ ∃ a, optional k cast old p = Ret a.
Proof. unfold optional. destruct (valueAs k cast p); eauto. Qed.
Lemma required_Ret {A} k (cast : value → option A) p : (∃ e, required k cast p = Throw e) ∨ ∃ a, required k cast p = Ret a.
Proof. unfold required. destruct (valueAs k cast p); eauto. Qed.

Lemma extractCommon p : no_uint32 p →
  (∃ e, extractCommonAttrs p = Throw e) ∨ attrs p !! "mtu" = None ∧ ∃ c, extractCommonAttrs p = Ret c.
Proof.
  intros Hp. unfold extractCommonAttrs.
  destruct (optional_uint32 "mtu" 0 p Hp) as [Hm|[e ->]]; [by apply (bool_decide_unpack _); vm_compute| |left; by eexists].
  destruct (optional_Ret "mtu" as_uint32 0 p) as [[e ->]|[mtu ->]]; [left; by eexists|].
  destruct (optional_Ret "addrs" as_strings [] p) as [[e ->]|[l ->]]; [left; by eexists|].
  destruct (optional_Ret "gateway4" as_string "" p) as [[e ->]|[g4 ->]]; [left; by eexists|].
  destruct (optional_Ret "gateway6" as_string "" p) as [[e ->]|[g6 ->]]; [left; by eexists|].
  right. split; [done|]. by eexists.
Qed.

Lemma extract_VxLAN p : no_uint32 p → ∃ e, ExtractAttrs_VxLAN p = Throw e.
Proof.
  intros Hp. unfold ExtractAttrs_VxLAN. destruct (extractCommon p Hp) as [[e ->]|[_ [c ->]]]; [by eexists|].
  cbn [mbind outcome_bind]. destruct (required_Ret "bind_interface" as_string p) as [[e ->]|[b ->]]; [by eexists|].
  destruct (required_uint32 "vni" p Hp) as [e ->]; [by apply (bool_decide_unpack _); vm_compute|]. by eexists.
Qed.
Lemma extract_VLAN p : no_uint32 p → ∃ e, ExtractAttrs_VLAN p = Throw e.
Proof.
  intros Hp. unfold ExtractAttrs_VLAN. destruct (extractCommon p Hp) as [[e ->]|[_ [c ->]]]; [by eexists|].
  cbn [mbind outcome_bind]. destruct (required_Ret "parent_interface" as_string p) as [[e ->]|[b ->]]; [by eexists|].
  destruct (required_uint32 "vlan_id" p Hp) as [e ->]; [by apply (bool_decide_unpack _); vm_compute|]. by eexists.
Qed.
Lemma extract_Routed p : no_uint32 p → attrs p !! "in_limit" ≠ None → ∃ e, ExtractAttrs_Routed p = Throw e.
Proof.
  intros Hp Hi. unfold ExtractAttrs_Routed. destruct (extractCommon p Hp) as [[e ->]|[_ [c ->]]]; [by eexists|].
  cbn [mbind outcome_bind]. destruct (required_Ret "bind_interface" as_string p) as [[e ->]|[b ->]]; [by eexists|].
  destruct (optional_uint32 "in_limit" 0 p Hp) as [?|[e ->]]; [by apply (bool_decide_unpack _); vm_compute|done|]. by eexists.
Qed.
Lemma extract_Bridge p : no_uint32 p → attrs p !! "mtu" ≠ None → ∃ e, ExtractAttrs_Bridge p = Throw e.
Proof.
  intros Hp Hm. unfold ExtractAttrs_Bridge. destruct (extractCommon p Hp) as [[e ->]|[? _]]; [by eexists|done].
Qed.
End loaded.

(** ** From a request to the host *)

Section server.
Context `{Env} {hst : Host} `{Accounts, Services, HostNet.Network, NetlinkLaws, MapOrderLaws, LinkJson}.
Context (refuse : targets → option string → option goerr).

(** A number that is stored is in the way of the scheme. *)
Definition hampered (p : SchemeProperties) : Prop :=
  match SchemeType_ p with
  | Scheme_ROUTED => attrs p !! "in_limit" ≠ None
  | Scheme_BRIDGE => attrs p !! "mtu" ≠ None
  | _ => True
  end.

Lemma configureFn_hampered vmname ifname p n : no_uint32 p → hampered p →
  ∃ e, configureFn vmname ifname p n = (Throw e, n).
Proof.
  intros Hp Hh. unfold configureFn, hampered in *. destruct (SchemeType_ p); try by eexists.
  - destruct (extract_Routed p Hp Hh) as [e ->]. by eexists.
  - destruct (extract_Bridge p Hp Hh) as [e ->]. by eexists.
  - destruct (extract_VxLAN p Hp) as [e ->]. by eexists.
  - destruct (extract_VLAN p Hp) as [e ->]. by eexists.
Qed.

Lemma reloaded_hampered p p' : reloaded p p' → hampered p → hampered p'.
Proof.
  intros (_ & Ht & Ha & _). unfold hampered. rewrite Ht. destruct (SchemeType_ p); try done;
    (rewrite Ha by (by apply (bool_decide_unpack _); vm_compute); by destruct (attrs p !! _)).
Qed.

(** Whose attributes are stored without a number. *)
Definition plain_bridge (x : NetworkSchemeAttrs) : Prop := ∃ c br, x = Bridge c br ∧ MTU c ≤ 0.

(** Attributes are put under their keys. *)
Lemma put_attr key v p : key ≠ "scheme" → key ≠ "ifname" → match v with VUpdates _ => False | _ => True end →
  put key v p = with_attr key v p.
Proof.
  intros Hs Hi Hv. unfold put, Set_. rewrite (bool_decide_false (key = "scheme")), (bool_decide_false (key = "ifname")) by done.
  by destruct v.
Qed.

Lemma Properties_hampered x y : Validate x = Ret y → ¬ plain_bridge x → hampered (Properties y).
Proof.
  intros Hv Hx. destruct x as [c|c bind i o|c br|c vni bind|c id parent]; cbn [Validate] in Hv;
    unfold Manual_Validate, Routed_Validate, Bridge_Validate, VxLAN_Validate, VLAN_Validate in Hv; returned Hv;
    try (destruct (_ && _) eqn:Hr; [|done]); injection Hv as <-; unfold hampered; cbn [Properties];
    unfold Manual_Properties, Routed_Properties, Bridge_Properties, VxLAN_Properties, VLAN_Properties;
    rewrite ?put_attr by done; cbn [with_attr with_type SchemeType_ attrs]; try done.
  { by rewrite lookup_insert_ne, lookup_insert_eq by done. }
  assert (0 < MTU a) as Hm.
  { unfold common_Validate in E. returned E. destruct (_ && _) eqn:Hm; [done|]. injection E as <-. cbn.
    destruct (Z.lt_ge_cases 0 (MTU c)); [done|]. destruct Hx. by exists c, br. }
  rewrite lookup_insert_ne by done. unfold common_Properties, put_if. rewrite (proj2 (Z.ltb_lt _ _) Hm), !put_attr by done.
  destruct (negb _), (negb _), (negb _); cbn [with_attr attrs];
    do 3 try rewrite lookup_insert_ne by done; by rewrite lookup_insert_eq.
Qed.

(** *** Reading and writing the file *)

Lemma get_conf_run vmname h : ∃ o, Lifecycle.get_conf vmname h = (o, h).
Proof. by eexists. Qed.

Lemma GetNetworkSchemes_run vmname n :
  let '(r, n') := GetNetworkSchemes vmname [] n in
  files_ (on n') = files_ (on n) ∧ passwd (on n') = passwd (on n) ∧ calls n' = calls n ∧
  ∀ l, r = Ret l → ∃ j, files_ (on n) !! config_network vmname = Some (Some j) ∧ schemes_of_json j = Ret l.
Proof.
  unfold GetNetworkSchemes, at_host, zoom, mbind, op_bind. destruct (get_conf_run vmname (on n)) as [[c|e|p] ->]; [|done..].
  unfold read_file, ask, mbind, op_bind, Services.done, lift. cbn [on set_on].
  destruct (Backend.call _) as [[]|e|p]; [|done..]. unfold get. cbn.
  destruct (files_ (on n) !! config_network vmname) as [[j|]|] eqn:Hj; cbn; [|done..].
  destruct (schemes_of_json j) as [l|e|p] eqn:Hl; cbn; [|done..]. split_and!; [done..|]. intros l' [= <-]. by exists j.
Qed.

Lemma WriteNetworkSchemes_run vmname l n :
  let '(r, n') := WriteNetworkSchemes vmname l n in
  (∃ v, files_ (on n') = partial_alter (λ _, v) (config_network vmname) (files_ (on n))) ∧
  passwd (on n') = passwd (on n) ∧ calls n' = calls n ∧
  (r = Ret () → files_ (on n') !! config_network vmname = Some (Some (json_of_schemes l))).
Proof.
  unfold WriteNetworkSchemes, at_host, zoom, mbind, op_bind. destruct (get_conf_run vmname (on n)) as [[c|e|p] ->].
  2, 3: split_and!; [exists (files_ (on n) !! config_network vmname); by rewrite partial_alter_self|done..].
  unfold write_file, writing, zoom, mbind, op_bind, ask. cbn [on set_on].
  destruct (answer _ _) as [|e v]; cbn.
  - split_and!; [by exists (Some (Some (json_of_schemes l)))|done..|intros _; apply lookup_insert_eq].
  - split_and!; [by exists v|done..].
Qed.

Lemma wrap_run {S A} what (m : op S A) s :
  (wrap what m s).2 = (m s).2 ∧ ∀ a, (wrap what m s).1 = Ret a ↔ (m s).1 = Ret a.
Proof. unfold wrap, map_err. destruct (m s) as [[a|e|p] s']; cbn; split; try done; by destruct e. Qed.

Lemma CreateConf_Ret vmname ifname x n n1 :
  CreateConf refuse vmname ifname (Some x) false n = (Ret (), n1) →
  ∃ y l, Validate x = Ret y ∧ find_scheme (TrimSpace ifname) l = Ret None ∧
    files_ (on n1) !! config_network vmname = Some (Some (json_of_schemes (l ++ [Some (Properties y)]))).
Proof.
  unfold CreateConf. intros Hc. apply op_bind_Ret in Hc as ([] & s1 & E1 & Hc).
  injection E1 as _ <-. apply op_bind_Ret in Hc as (y & s1 & E1 & Hc). injection E1 as Hy <-.
  apply op_bind_Ret in Hc as ([] & s1 & Hw & [= <-]).
  set (m := conf_task _ _ _ _) in Hw. destruct (wrap_run "cannot create network scheme" m n) as [W2 W1].
  rewrite Hw in W2, W1. cbn in W2, W1. assert (m n = (Ret (), s1)) as Hm.
  { rewrite (surjective_pairing (m n)). f_equal; [by apply W1|done]. }
  clear Hw W1 W2. unfold m, conf_task, task in Hm. destruct (refuse _ _); [done|].
  apply op_bind_Ret in Hm as (l & s2 & Hg & Hm). apply op_bind_Ret in Hm as (r & s3 & [= Hf <-] & Hm).
  apply op_bind_Ret in Hm as ([] & s3 & Hf' & Hm).
  destruct r as [x'|]; [by rewrite bool_decide_true in Hf' by eauto|].
  rewrite bool_decide_false in Hf' by by intros [? ?]. injection Hf' as <-.
  exists y, l. split; [done|]. split; [done|].
  pose proof (WriteNetworkSchemes_run vmname (l ++ [Some (Properties y)]) s2) as Hwr. rewrite Hm in Hwr. by apply Hwr.
Qed.

(** An operation that does not return and does not ask the kernel. *)
Definition idle {A} (m : op net A) (n : net) : Prop := is_ret (m n).1 = false ∧ calls (m n).2 = calls n.

Lemma idle_wrap {A} what (m : op net A) n : idle m n → idle (wrap what m) n.
Proof.
  unfold idle. intros [Hr Hc]. destruct (wrap_run what m n) as [W2 W1]. rewrite W2. split; [|done].
  destruct (wrap what m n) as [[a|e|p] n'] eqn:E; [|done..]. cbn in W1. by rewrite (proj1 (W1 a) eq_refl) in Hr.
Qed.
Lemma idle_bind {A B} (m : op net A) (k : A → op net B) n :
  calls (m n).2 = calls n → (∀ a n', m n = (Ret a, n') → idle (k a) n') → idle (m ≫= k) n.
Proof.
  unfold idle, mbind, op_bind. intros Hm Hk. destruct (m n) as [[a|e|p] n'] eqn:E; cbn in *; [|done..].
  destruct (Hk a n' eq_refl) as [Hr Hc]. by rewrite Hc.
Qed.
Lemma idle_lift {A B} (a : outcome A) (k : A → op net B) n : (∀ x, a = Ret x → idle (k x) n) → idle (lift a ≫= k) n.
Proof. intros Hk. apply idle_bind; [done|]. intros x n' [= Hx <-]. by apply Hk. Qed.

(** An interface without a scheme, or with one that has a number in its way, is not configured. *)
Lemma ConfigureHostNetwork_hampered vmname ifname stage n l :
  files_ (on n) !! config_network vmname = Some (Some (json_of_schemes l)) →
  (∀ i p, find_scheme (TrimSpace ifname) l = Ret (Some (i, p)) → hampered p) →
  idle (ConfigureHostNetwork refuse vmname ifname stage) n.
Proof.
  intros Hj Hf. unfold ConfigureHostNetwork. apply idle_lift. intros [] _. apply idle_wrap.
  unfold hostnet_task, task. destruct (refuse _ _); [done|].
  pose proof (GetNetworkSchemes_run vmname n) as Hg.
  destruct (GetNetworkSchemes vmname [] n) as [r n'] eqn:Eg. destruct Hg as (_ & _ & Hcalls & Hl).
  apply idle_bind; [by rewrite Eg|]. intros l' n1 E1. rewrite Eg in E1. injection E1 as -> ->.
  destruct (Hl _ eq_refl) as (j & Hj' & Hs). rewrite Hj in Hj'. injection Hj' as <-.
  destruct (reloaded_schemes l) as (l2 & Hs2 & Hr). rewrite Hs in Hs2. injection Hs2 as ->.
  pose proof (find_reloaded (TrimSpace ifname) l l2 Hr) as Hfr.
  unfold the_scheme, idle, mbind, op_bind, lift.
  destruct (find_scheme (TrimSpace ifname) l) as [[[i p]|]|e|q]; [|rewrite Hfr..]; [|done..].
  destruct Hfr as (p' & -> & Hp). cbn.
  destruct (configureFn_hampered vmname (TrimSpace ifname) p' n1) as [e ->]; [exact (proj2 (proj2 (proj2 Hp)))| |done].
  by eapply reloaded_hampered, Hf.
Qed.

(** *** Without a file *)

(** An operation that fails and leaves everything but the log alone. *)
Definition refused {A} (m : op net A) (n : net) : Prop :=
  is_ret (m n).1 = false ∧ files_ (on (m n).2) = files_ (on n) ∧ passwd (on (m n).2) = passwd (on n) ∧
  calls (m n).2 = calls n.

Lemma refused_wrap {A} what (m : op net A) n : refused m n → refused (wrap what m) n.
Proof.
  unfold refused. intros [Hr Hc]. destruct (wrap_run what m n) as [W2 W1]. rewrite W2. split; [|done].
  destruct (wrap what m n) as [[a|e|p] n'] eqn:E; [|done..]. cbn in W1. by rewrite (proj1 (W1 a) eq_refl) in Hr.
Qed.
Lemma refused_first {A B} (m : op net A) (k : A → op net B) n : refused m n → refused (m ≫= k) n.
Proof. unfold refused, mbind, op_bind. by destruct (m n) as [[a|e|p] n']; intros [? ?]. Qed.
Lemma refused_lift {A B} (a : outcome A) (k : A → op net B) n : (∀ x, a = Ret x → refused (k x) n) → refused (lift a ≫= k) n.
Proof. unfold refused, mbind, op_bind, lift. destruct a; [auto|done..]. Qed.
Lemma refused_task {A} tgt label (m : op net A) n : refused m n → refused (task refuse tgt label m) n.
Proof. unfold task. by destruct (refuse tgt label). Qed.

Lemma refused_schemes vmname n :
  files_ (on n) !! config_network vmname = None → refused (GetNetworkSchemes vmname []) n.
Proof.
  intros Hn. pose proof (GetNetworkSchemes_run vmname n) as Hg. unfold refused.
  destruct (GetNetworkSchemes vmname [] n) as [r n']. cbn [fst snd]. destruct Hg as (-> & -> & -> & Hl). split; [|done].
  destruct r as [l|e|p]; [|done..]. destruct (Hl l eq_refl) as (j & Hj & _). by rewrite Hn in Hj.
Qed.
Lemma refused_schemes_bind {B} vmname (k : _ → op net B) n :
  files_ (on n) !! config_network vmname = None → refused (GetNetworkSchemes vmname [] ≫= k) n.
Proof. intros Hn. by apply refused_first, refused_schemes. Qed.

Lemma refused_Deconfigure vmname ifname n :
  files_ (on n) !! config_network vmname = None → refused (DeconfigureHostNetwork refuse vmname ifname) n.
Proof.
  intros Hn. apply refused_lift. intros [] _. by apply refused_wrap, refused_task, refused_schemes_bind.
Qed.

(** the first scheme of a machine can not be made: as long as a machine has
    no file config_network, every request of the service that is about the
    machine fails, whatever the interface, and changes no file and no user and
    asks the kernel for nothing; so there never is a file. *)
Theorem no_first_scheme r n :
  files_ (on n) !! config_network (req_vmname r) = None → refused (serve refuse r) n.
Proof.
  destruct r as [vm opts configure|vm ifname apply r|vm ifname deconf|vm ifname second|vm ifname]; cbn [req_vmname serve]; intros Hn.
  - destruct opts as [opts|]; [|done]. apply refused_lift. intros [] _. apply refused_lift. intros x _.
    by apply refused_first, refused_wrap, refused_task, refused_schemes_bind.
  - apply refused_lift. intros [] _. by apply refused_wrap, refused_task, refused_schemes_bind.
  - apply refused_lift. intros [] _. destruct deconf; [by apply refused_first, refused_Deconfigure|].
    unfold refused. erewrite op_bind_run by reflexivity. by apply refused_wrap, refused_task, refused_schemes_bind.
  - apply refused_lift. intros [] _. by apply refused_wrap, refused_task, refused_schemes_bind.
  - by apply refused_Deconfigure.
Qed.

(** *** What a request may touch *)

Section confined.
Context (vmname ifname : string) (F : ConfJson.files) (P : list string).

(** Every file but the machine's schemes and what is kept of the interface, and
    the users. *)
Definition elsewhere (h : host) : Prop :=
  (∀ path, path ≠ config_network vmname → path ≠ link_file (TrimSpace ifname) → files_ h !! path = F !! path) ∧
  passwd h = P.

Lemma elsewhere_ask a : preserves elsewhere (ask a).
Proof. by intros h. Qed.
Lemma elsewhere_write path c :
  path = config_network vmname ∨ path = link_file (TrimSpace ifname) → preserves elsewhere (write_file path c).
Proof.
  intros Hp h [Hf HP]. unfold write_file, writing, mbind, op_bind, ask, zoom. destruct (answer _ _) as [|e v]; cbn;
    (split; [|done]); intros q Hq Hq'; cbn.
  - rewrite lookup_insert_ne by naive_solver. by apply Hf.
  - rewrite lookup_partial_alter_ne by naive_solver. by apply Hf.
Qed.
Lemma elsewhere_remove : preserves elsewhere (remove (link_file (TrimSpace ifname))).
Proof.
  unfold remove. apply preserves_bind; [apply preserves_get|]. intros h. apply preserves_bind; [apply preserves_fail_if|].
  intros []. apply preserves_bind; [apply elsewhere_ask|]. intros r. apply preserves_bind; [apply preserves_lift|]. intros [].
  apply preserves_modify. intros h' [Hf HP]. split; [|done]. intros q Hq Hq'. cbn. rewrite lookup_delete_ne by done. by apply Hf.
Qed.
Lemma elsewhere_link c : preserves elsewhere (write_file (link_file (TrimSpace ifname)) c).
Proof. apply elsewhere_write. by right. Qed.

Abbreviation safe := (preserves (kept elsewhere)).
#[local] Hint Resolve preserves_ret preserves_throw preserves_lift preserves_get preserves_fail_if : hostnet.
#[local] Hint Extern 1 (preserves elsewhere (ask _)) => apply elsewhere_ask : hostnet.
#[local] Hint Extern 1 (preserves (kept elsewhere) (request _)) => apply kept_request : hostnet.
#[local] Hint Resolve elsewhere_ask elsewhere_remove elsewhere_link : hostnet.
#[local] Hint Resolve kept_BridgePortConfigure kept_BridgePortDeconfigure kept_VxlanPortConfigure kept_VxlanPortDeconfigure
  kept_RouterConfigure kept_RouterDeconfigure kept_RouterConfigureAddrs kept_RouterSetInbound kept_RouterSetOutbound
  kept_ParseBindings : hostnet.

Lemma safe_GetNetworkSchemes names : safe (GetNetworkSchemes vmname names).
Proof.
  unfold GetNetworkSchemes. apply preserves_bind; [by intros n|]. intros _. apply preserves_bind; [|intros ?; netwise].
  apply kept_at_host. unfold read_file, Services.done. netwise.
Qed.
Lemma safe_WriteNetworkSchemes l : safe (WriteNetworkSchemes vmname l).
Proof.
  unfold WriteNetworkSchemes. apply preserves_bind; [by intros n|]. intros _. apply kept_at_host, elsewhere_write. by left.
Qed.
Lemma safe_the_scheme name l : safe (the_scheme name l).
Proof. unfold the_scheme. netwise. Qed.
Lemma safe_ReadPid : safe (ReadPid_ vmname).
Proof. by intros n. Qed.
Lemma safe_task {A} tgt label (m : op net A) : safe m → safe (task refuse tgt label m).
Proof. intros Hm. unfold task. destruct (refuse tgt label); [apply preserves_throw|exact Hm]. Qed.
#[local] Hint Resolve safe_GetNetworkSchemes safe_WriteNetworkSchemes safe_the_scheme safe_ReadPid : hostnet.

(** What is run for a scheme. *)
Lemma ensures_any {A B} (m : op net A) (k : A → op net B) Q :
  safe m → (∀ a, ensures (kept elsewhere) (k a) Q) → ensures (kept elsewhere) (m ≫= k) Q.
Proof. intros Hm Hk. eapply ensures_bind; [apply preserves_ensures, Hm|]. intros a _. apply Hk. Qed.

Lemma ensures_configureFn scheme :
  ensures (kept elsewhere) (configureFn vmname (TrimSpace ifname) scheme) (λ fn, ∀ b, safe (fn b)).
Proof.
  unfold configureFn.
  repeat first [ apply ensures_any; [netwise|intros ?] | case_match | by intros n ];
    intros n Hn; (split; [done|]); intros fn [= <-] second; auto with hostnet.
  intros n' Hn'. match goal with |- context [RouterConfigure ?l ?attrs ?s n'] =>
    pose proof (kept_RouterConfigure elsewhere l elsewhere_link attrs s n' Hn') as Hk end.
  destruct (RouterConfigure _ _ _ _) as [[u|e|q] n2]; cbn; [done| |done]. by case_bool_decide.
Qed.

Lemma safe_run_stages stage fn : (∀ b, safe (fn b)) → safe (run_stages stage fn).
Proof. intros Hfn. unfold run_stages. netwise. Qed.

(** A name is trimmed once more. *)
Lemma safe_Configure name stage :
  TrimSpace name = TrimSpace ifname → safe (ConfigureHostNetwork refuse vmname name stage).
Proof.
  intros Hi. unfold ConfigureHostNetwork, wrap. rewrite Hi. apply preserves_bind; [apply preserves_lift|]. intros [].
  apply preserves_map_err, safe_task. do 2 (apply preserves_bind; [auto with hostnet|intros ?]).
  eapply preserves_bind_ensures; [apply ensures_configureFn|]. intros fn. apply safe_run_stages.
Qed.
Lemma safe_Deconfigure name : TrimSpace name = TrimSpace ifname → safe (DeconfigureHostNetwork refuse vmname name).
Proof.
  intros Hi. unfold DeconfigureHostNetwork, wrap. rewrite Hi. apply preserves_bind; [apply preserves_lift|]. intros [].
  apply preserves_map_err, safe_task. unfold deconfigure. netwise.
Qed.

Lemma safe_apply_updates c bind i o l : safe (apply_updates vmname (TrimSpace ifname) c bind i o l).
Proof. induction l; cbn [apply_updates]; netwise. Qed.
#[local] Hint Resolve safe_apply_updates : hostnet.

Lemma safe_CreateConf opts configure : safe (CreateConf refuse vmname ifname opts configure).
Proof.
  unfold CreateConf, wrap. apply preserves_bind; [apply preserves_lift|]. intros [].
  destruct opts as [x|]; [|apply preserves_throw]. apply preserves_bind; [apply preserves_lift|]. intros y.
  apply preserves_bind; [apply preserves_map_err, safe_task; netwise|]. intros [].
  destruct configure; [apply safe_Configure, GoFacts.TrimSpace_idem|apply preserves_ret].
Qed.
Lemma safe_UpdateConf apply updates : safe (UpdateConf refuse vmname ifname apply updates).
Proof.
  unfold UpdateConf, wrap. apply preserves_bind; [apply preserves_lift|]. intros [].
  apply preserves_map_err, safe_task. netwise.
Qed.
Lemma safe_RemoveConf deconf : safe (RemoveConf refuse vmname ifname deconf).
Proof.
  unfold RemoveConf, wrap. apply preserves_bind; [apply preserves_lift|]. intros []. apply preserves_bind.
  - destruct deconf; [apply safe_Deconfigure, GoFacts.TrimSpace_idem|apply preserves_ret].
  - intros []. apply preserves_map_err, safe_task. netwise.
Qed.
End confined.

Lemma safe_serve r F P : preserves (kept (elsewhere (req_vmname r) (req_ifname r) F P)) (serve refuse r).
Proof.
  destruct r as [vm [opts|] configure|vm ifname apply r|vm ifname deconf|vm ifname second|vm ifname]; cbn [req_vmname req_ifname serve].
  - apply safe_CreateConf.
  - apply preserves_throw.
  - apply safe_UpdateConf.
  - apply safe_RemoveConf.
  - by apply safe_Configure.
  - by apply safe_Deconfigure.
Qed.

(** C30: a request of the network service touches no file but the schemes of the
    machine it names and what is kept of the interface it names, and no user,
    whatever the host answers. *)
Theorem network_confined r n path :
  path ≠ config_network (req_vmname r) → path ≠ link_file (TrimSpace (req_ifname r)) →
  files_ (on (serve refuse r n).2) !! path = files_ (on n) !! path ∧ passwd (on (serve refuse r n).2) = passwd (on n).
Proof.
  intros Hc Hl. pose proof (safe_serve r (files_ (on n)) (passwd (on n)) n) as Hs.
  destruct Hs as [Hf HP]; [by split|]. split; [by apply Hf|done].
Qed.

(** C24: only a bridge without an MTU works: whatever valid scheme a request
    stores for an interface, once it is stored the host can not be configured by
    it, nor is the kernel asked for anything, unless the scheme is a bridge
    whose MTU is left open; every other scheme has a number, which is a float64
    when it is read back. *)
Theorem Configure_only_bridges vmname ifname x n n1 n2 stage :
  CreateConf refuse vmname ifname (Some x) false n = (Ret (), n1) →
  files_ (on n2) !! config_network vmname = files_ (on n1) !! config_network vmname →
  ¬ plain_bridge x →
  is_ret (ConfigureHostNetwork refuse vmname ifname stage n2).1 = false ∧
  calls (ConfigureHostNetwork refuse vmname ifname stage n2).2 = calls n2.
Proof.
  intros Hc Hn2 Hx. destruct (CreateConf_Ret _ _ _ _ _ Hc) as (y & l & Hy & Hf & Hj). rewrite <- Hn2 in Hj.
  apply (ConfigureHostNetwork_hampered _ _ _ _ _ Hj). intros i p.
  rewrite (find_snoc _ _ _ Hf). case_bool_decide; [|done]. intros [= <- <-]. by eapply Properties_hampered.
Qed.
End server.
End NetworkServerFacts.

(** ** At work *)

Module Networking.
Import Json Services Server Ip IpNet IpFacts HostNet HostNetFacts Lifecycle Network NetworkServer NetworkFacts NetworkServerFacts Passwd Sample.

(** ** A host *)

#[export] Instance netlink_go : Netlink := λ s, with_address <$> ParseCIDR s.
#[export] Instance netlink_go_laws : NetlinkLaws.
Proof. by intros s. Qed.
#[export] Instance in_order : MapOrder := λ A m, map_to_list m.
#[export] Instance in_order_laws : MapOrderLaws.
Proof. by intros A m. Qed.
#[export] Instance index_json : LinkJson := λ l, JObj [("index", JNum (Index l))].
#[export] Instance index_json_laws : LinkJsonLaws.
Proof.
  intros l Hl. unfold link_json, index_json. cbn [dec_struct dec_fields].
  change (find_field index_fields "index") with (Some dec_int). cbn [mbind outcome_bind dec_int]. by rewrite Hl.
Qed.

(** One on which every link is a bridge, and nothing fails. *)
Definition bridges : HostNet.Network := λ _ c,
  match c return net_reply c with
  | LinkByName name => Found {| HostNet.Name := name; Index := 7; Kind := HostNet.Bridge; MasterIndex := 0 |}
  | LinkList | AddrList _ | RouteList _ | RuleList _ | Interfaces | HostNet.Addrs _ => inl []
  | Command _ => Succeeded
  | UntilRefused _ => (0%nat, CommandFailed (Some 2) "")
  | RtTables => inl (["254 main"], None)
  | Announce _ _ => ()
  | _ => inl ()
  end.

Definition open_gates : targets → option string → option goerr := λ _ _, None.

(** The machine vm0, with an empty list of schemes. *)
Definition vm0_net : net :=
  {| on := {| files_ := <[config_network "vm0" := Some (JArr [])]> (files_ vm0_host); passwd := passwd_lines; log := [] |};
     calls := [] |}.

Definition plain_attrs (mtu : Z) : commonAttrs :=
  {| attr_Ifname := "tap0"; MTU := mtu; Addrs := []; Gateway4 := ""; Gateway6 := "" |}.

#[local] Existing Instances sample_env sample_host plain_accounts willing bridges.

(** ** From a request to the host *)

Definition routed : NetworkSchemeAttrs := Routed (plain_attrs 0) "eth0" 0 0.
Definition after (x : NetworkSchemeAttrs) : outcome () * net := CreateConf open_gates "vm0" "tap0" (Some x) false vm0_net.

(** A routed scheme without any limit is stored, but the host can not be configured by it. *)
Example Configure_only_bridges_witness :
  (after routed).1 = Ret () ∧
  is_ret (ConfigureHostNetwork open_gates "vm0" "tap0" ConfigureStage_ALL (after routed).2).1 = false.
Proof.
  assert ((after routed).1 = Ret ()) as Hr by (vm_compute; reflexivity). split; [exact Hr|].
  eapply (Configure_only_bridges open_gates "vm0" "tap0" routed vm0_net (after routed).2).
  - rewrite <- Hr. apply surjective_pairing.
  - reflexivity.
  - by intros (c & br & [=] & _).
Defined.

(** A bridge works when its MTU is left open, and not otherwise. *)
Definition configured (x : NetworkSchemeAttrs) : outcome () :=
  (ConfigureHostNetwork open_gates "vm0" "tap0" ConfigureStage_ALL (after x).2).1.
Example bridges_work : configured (Bridge (plain_attrs 0) "br0") = Ret ().
Proof. vm_compute. reflexivity. Qed.
Example bridges_with_mtu : is_ret (configured (Bridge (plain_attrs 1500) "br0")) = false.
Proof. vm_compute. reflexivity. Qed.

Definition no_schemes : net := {| on := vm0_host; calls := [] |}.
Example no_first_scheme_witness :
  refused (serve open_gates (CreateConfRequest "vm0" (Some {| common := plain_attrs 0; Attrs := Opts_Bridge "br0" |}) true)) no_schemes.
Proof. apply no_first_scheme. vm_compute. reflexivity. Defined.

(** Deconfiguring the host leaves the machine's configuration alone. *)
Example network_confined_witness :
  files_ (on (serve open_gates (DeleteConfRequest "vm0" "tap0" true) vm0_net).2) !! vm0_config = files_ vm0_host !! vm0_config.
Proof.
  destruct (network_confined open_gates (DeleteConfRequest "vm0" "tap0" true) vm0_net vm0_config) as [Hf _].
  - by vm_compute.
  - by vm_compute.
  - rewrite Hf. vm_compute. reflexivity.
Defined.

(** The second port of a VxLAN stays, and so does the bridge. *)
Definition two_ports : HostNet.Network := λ _ c,
  match c return net_reply c with
  | LinkByName name => Found {| HostNet.Name := name; Index := 7; Kind := Tuntap; MasterIndex := 7 |}
  | LinkList => inl [{| HostNet.Name := "tap1"; Index := 8; Kind := Tuntap; MasterIndex := 7 |}]
  | c => bridges [] c
  end.

Example VxlanPortDeconfigure_bridge_witness :
  LinkDel "xbr_5" ∉ calls (@VxlanPortDeconfigure two_ports "tap0" 5 vm0_net).2.
Proof.
  destruct (@VxlanPortDeconfigure_bridge two_ports "tap0" 5 vm0_net) as (new & -> & _ & Hb).
  intros Hin. destruct Hb as (pre & post & br & links & _ & Hbr & Hl & Hall); [done|exact Hin|].
  injection Hbr as <-. injection Hl as <-. by specialize (Hall _ (list_elem_of_here _ _) eq_refl).
Defined.

Definition limited : VirtualRouterAttrs :=
  {| attr_Addrs := []; HostNet.MTU := 0; BindInterface := "eth0"; HostNet.Gateway4 := ""; HostNet.Gateway6 := "";
     InLimit := 0; OutLimit := 10; ProcessID := 0 |}.
Definition up : net := (RouterConfigureInterface "tap0" limited vm0_net).2.
Example class_deleted_witness :
  ∃ id, class_add "eth0" id 10 ∈ calls up ∧ class_del "eth0" id ∈ calls (RouterDeconfigure "tap0" "eth0" up).2.
Proof.
  apply (class_deleted "tap0" limited vm0_net up up (RouterDeconfigure "tap0" "eth0" up).2).
  - done.
  - done.
  - vm_compute. reflexivity.
  - by intros pre l [= <-].
  - done.
  - vm_compute. reflexivity.
Defined.

(** ** Attributes *)

Definition sloppy : commonAttrs :=
  {| attr_Ifname := " tap0 "; MTU := 1500; Addrs := ["10.0.0.1/24"; "2001:DB8::1"]; Gateway4 := " Auto "; Gateway6 := "FE80:0::1" |}.
Definition tidy : commonAttrs :=
  {| attr_Ifname := "tap0"; MTU := 1500; Addrs := ["10.0.0.1/24"; "2001:db8::1/128"]; Gateway4 := "auto"; Gateway6 := "fe80::1" |}.

Example Validate_idem_witness :
  Validate (Bridge sloppy " br0") = Ret (Bridge tidy "br0") ∧ Validate (Bridge tidy "br0") = Ret (Bridge tidy "br0").
Proof.
  assert (Validate (Bridge sloppy " br0") = Ret (Bridge tidy "br0")) as Hv by (vm_compute; reflexivity).
  split; [exact Hv|]. exact (Validate_idem _ _ Hv).
Defined.

Definition renumbering : list AddrUpdate :=
  [{| Action := AddrUpdate_REMOVE; Prefix := "10.0.0.1/32" |}; {| Action := AddrUpdate_APPEND; Prefix := "10.0.0.2/24" |}].
Example patchAddrs_spec_witness :
  ∃ l, patchAddrs ["10.0.0.1"] renumbering = Ret l ∧ ("10.0.0.2/24" ∈ l) ∧ ("10.0.0.1/32" ∉ l).
Proof.
  destruct (patchAddrs_spec ["10.0.0.1"] renumbering) as [Hr Hl].
  destruct (proj2 Hr) as [l E]; [unfold renumbering; repeat constructor; vm_compute; by eexists|].
  exists l. destruct (Hl l E) as [_ Hin]. split; [exact E|]. rewrite !Hin. split; vm_compute; congruence.
Defined.

(** ** Addresses *)

Example ParseIP_String_witness : ParseIP (IP_String (2 ^ 125 + 2 ^ 96)) = Some (2 ^ 125 + 2 ^ 96).
Proof. apply ParseIP_String. vm_compute. split; congruence. Defined.

Definition lan : IPNet := {| IP := v4_mapped 3232235776; ones := 24; bits := 32 |}.
Example GetLast_greatest_witness : ∃ last, v4_mapped <$> GetLastIPv4 lan = Ret last ∧ IP_String last = "192.168.1.255".
Proof.
  destruct (GetLast_greatest lan) as (last & Hl & _ & _); [split_and!; [by vm_compute..|left; vm_compute; eauto]|].
  exists last. split; [exact Hl|]. vm_compute in Hl. injection Hl as <-. vm_compute. reflexivity.
Defined.
End Networking.
