(* ===== verification/Migration.v ===== *)
(** Migration: sending a machine to another server
    ([server/machine/migration.go]): the options, what is sent, and both ends of
    the task.  What happens in between is in Transfer. *)

From S2P Require Import Prelude.
From S2P Require Import GoStd.
From S2P Require Import GoFacts.
From S2P Require Import Pool.
From S2P Require Import Version.
From S2P Require Import Backend.
From S2P Require Import Resources.
From S2P Require Import Peripherals.
From S2P Require Import Disks.
From S2P Require Import NetIfaces.
From S2P Require Import Json.
From S2P Require Import InstanceProperties.
From S2P Require Import InstanceConf.
From S2P Require Import ConfJson.
From S2P Require Import Monitor.
From S2P Require Import InstanceQemu.
From S2P Require Import Server.
From S2P Require Import OsUser.
From S2P Require Import Services.
From S2P Require Import Lifecycle.
From S2P Require Import Incoming.

Open Scope Z_scope.
#[local] Set Warnings "-register-all".

Module Migration.
Import Services Server ConfJson Lifecycle.

(** ** Options *)

Record MigrationOverrides := {
  Name : string;
  Disks_ : gmap string string;
  NetIfaces_ : gmap string string;
}.
Record MigrationOptions := {
  Disks : list string;
  Overrides : MigrationOverrides;
  CreateDisks : bool;
  RemoveAfter : bool;
}.
Definition set_Overrides (v : MigrationOverrides) (o : MigrationOptions) : MigrationOptions :=
  {| Disks := Disks o; Overrides := v; CreateDisks := CreateDisks o; RemoveAfter := RemoveAfter o |}.
Definition set_Disks_ (v : gmap string string) (o : MigrationOverrides) : MigrationOverrides :=
  {| Name := Name o; Disks_ := v; NetIfaces_ := NetIfaces_ o |}.

(** The two loops over a map. *)
Fixpoint no_blank (what : string) (l : list (string * string)) : outcome () :=
  match l with
  | [] => Ret ()
  | (key, value) :: l =>
      if bool_decide (Strings.TrimSpace key = "") then Throw (ErrMsg ("empty key in '" +:+ what +:+ "' map"))
      else if bool_decide (Strings.TrimSpace value = "") then
        Throw (ErrMsg ("empty value in '" +:+ what +:+ "' map"))
      else no_blank what l
  end.

Definition Overrides_Validate : op MigrationOverrides () :=
  modify (λ o, {| Name := Strings.TrimSpace (Name o); Disks_ := Disks_ o; NetIfaces_ := NetIfaces_ o |});;
  o ← get;
  lift (no_blank "disks" (map_to_list (Disks_ o)));;
  lift (no_blank "net_ifaces" (map_to_list (NetIfaces_ o))).

Fixpoint no_blank_names (idx : Z) (l : list string) : outcome () :=
  match l with
  | [] => Ret ()
  | dname :: l =>
      if bool_decide (Strings.TrimSpace dname = "") then
        Throw (ErrMsg ("disk #" +:+ Strconv.Itoa idx +:+ " has an empty name"))
      else no_blank_names (idx + 1) l
  end.

Definition Validate : op MigrationOptions () :=
  o ← get;
  lift (no_blank_names 0 (Disks o));;
  zoom Overrides set_Overrides Overrides_Validate.

(** ** Progress *)

Record DataTransferStat := {
  Total : Z; Remaining : Z; Transferred : Z; Progress : Z; Speed : Z;
}.
Record MachineMigrationStatDetails := {
  VMState : DataTransferStat;
  Disks_stat : gmap string DataTransferStat;
}.
Definition no_stat : DataTransferStat :=
  {| Total := 0; Remaining := 0; Transferred := 0; Progress := 0; Speed := 0 |}.
Definition of_total (total : Z) : DataTransferStat :=
  {| Total := total; Remaining := 0; Transferred := 0; Progress := 0; Speed := 0 |}.

(** Arithmetic of [uint64]. *)
Definition u64 (z : Z) : Z := z mod 2 ^ 64.
Definition percent (sent total : Z) : Z := wrap64 (u64 (sent * 100) / total).

Definition updateVMState (total remain sent speed : Z) (d : MachineMigrationStatDetails)
    : MachineMigrationStatDetails :=
  if 0 <? total then
    {| VMState := {| Total := total; Remaining := remain; Transferred := sent;
                     Progress := percent sent total; Speed := speed |};
       Disks_stat := Disks_stat d |}
  else d.

(** A disk without an entry is a nil pointer. *)
Definition updateDisk (name : string) (total remain sent : Z) (d : MachineMigrationStatDetails)
    : outcome MachineMigrationStatDetails :=
  if 0 <? total then
    match Disks_stat d !! name with
    | None => Panic NilDereference
    | Some old =>
        Ret {| VMState := VMState d;
               Disks_stat := <[name :=
                 {| Total := total; Remaining := remain; Transferred := sent; Progress := percent sent total;
                    Speed := wrap64 (Z.shiftr (u64 (u64 (sent - Transferred old) * 8)) 20) |}]> (Disks_stat d) |}
    end
  else Ret d.

(** The argument of [SetProgress]. *)
Definition overall (d : MachineMigrationStatDetails) : Z :=
  Z.quot (Progress (VMState d) + foldr Z.add 0 (map (Progress ∘ snd) (map_to_list (Disks_stat d))))
    (1 + Z.of_nat (size (Disks_stat d))).

(** ** What is sent *)

(** [^(extra|comment|cloudinit_drive|ci_drive|config_[[:alnum:]]*|[\.\_[:alnum:]]*_config)$] *)
Definition alnum (a : ascii) : bool :=
  let n := N_of_ascii a in
  ((48 <=? n) && (n <=? 57) || (65 <=? n) && (n <=? 90) || (97 <=? n) && (n <=? 122))%N.
Definition dot_alnum (a : ascii) : bool :=
  alnum a || bool_decide (a = "."%char) || bool_decide (a = "_"%char).
Definition extra_name (s : string) : bool :=
  bool_decide (s ∈ ["extra"; "comment"; "cloudinit_drive"; "ci_drive"]) ||
  (Strings.HasPrefix s "config_" && Strings.all alnum (Strings.TrimPrefix s "config_")) ||
  (Strings.HasSuffix s "_config" && Strings.all dot_alnum (String.substring 0 (String.length s - 7) s)).

(** The regular files right below a directory, by name. *)
Definition file_in (dir path : string) : option string :=
  let f := Strings.TrimPrefix path (dir +:+ "/") in
  if bool_decide (f = path) then None else match Strings.cut f "/" with None => Some f | Some _ => None end.
Definition dir_files (dir : string) (fs : files) : list string :=
  Sort.SliceStable String.ltb (omap (file_in dir) (elements (dom fs))).

(** [tmp], decoded from what [json.Marshal] makes of the machine. *)
Definition decoded `{Env} (p : InstanceProperties.t) : outcome InstanceProperties.t :=
  dec_conf (enc_conf p) (InstanceProperties.zero "" 0).

(** [for _, v := range p.Values() { f(v) }] *)
Definition each {V} (f : V → V) (p : Pool.t V) : Pool.t V := foldr (λ k, Pool.update k f) p (Pool.Keys p).

Definition override_disk (m : gmap string string) (d : Disk.t) : Disk.t :=
  match m !! Disk.Path (Disk.props d) with
  | None => d
  | Some ovrd =>
      let p := Disk.props d in
      {| Disk.props := {| Disk.Path := ovrd; Disk.Driver := Disk.Driver p; Disk.IopsRd := Disk.IopsRd p;
                          Disk.IopsWr := Disk.IopsWr p; Disk.Bootindex := Disk.Bootindex p |};
         Disk.driver := Disk.driver d; Disk.Backend := Disk.Backend d; Disk.QemuAddr := Disk.QemuAddr d;
         Disk.QemuVirtualSize := Disk.QemuVirtualSize d; Disk.HasBitmap := Disk.HasBitmap d |}
  end.
Definition override_iface (m : gmap string string) (n : NetIface.t) : NetIface.t :=
  match m !! NetIface.Ifname (NetIface.props n) with
  | None => n
  | Some ovrd =>
      let p := NetIface.props n in
      {| NetIface.props := {| NetIface.Ifname := ovrd; NetIface.Driver := NetIface.Driver p;
                              NetIface.HwAddr := NetIface.HwAddr p; NetIface.Queues := NetIface.Queues p;
                              NetIface.Bootindex := NetIface.Bootindex p; NetIface.Ifup := NetIface.Ifup p;
                              NetIface.Ifdown := NetIface.Ifdown p |};
         NetIface.driver := NetIface.driver n; NetIface.QemuAddr := NetIface.QemuAddr n |}
  end.

Definition overridden (o : MigrationOverrides) (p : InstanceProperties.t) : InstanceProperties.t :=
  InstanceProperties.set_Disks (each (override_disk (Disks_ o)) (InstanceProperties.Disks p))
    (InstanceProperties.set_NetIfaces (each (override_iface (NetIfaces_ o)) (InstanceProperties.NetIfaces p)) p).

(** [json.Marshal] of a machine or of [tmp]. *)
Definition machine_json (name : string) (c r : InstanceProperties.t) : json :=
  JObj [("name", JStr (Json.coerced name)); ("conf", enc_conf c); ("run", enc_conf r)].

Definition has_overrides (o : MigrationOverrides) : bool :=
  bool_decide (Name o ≠ "" ∨ Disks_ o ≠ ∅ ∨ NetIfaces_ o ≠ ∅).

Definition manifest `{Env} (o : MigrationOverrides) (vmname : string) (c r : InstanceProperties.t)
    : outcome json :=
  tc ← decoded c;
  tr ← decoded r;
  let name := if bool_decide (Name o = "") then vmname else Name o in
  Ret (if has_overrides o then machine_json name (overridden o tc) (overridden o tr)
       else machine_json vmname c r).

(** The keys of the overrides as full paths. *)
Fixpoint full_keys (m : gmap string string) (disks : list Disk.t) (valid : gmap string string)
    : outcome (gmap string string) :=
  match disks with
  | [] => Ret valid
  | d :: disks =>
      match m !! Disk.Path (Disk.props d) with
      | Some ovrd => full_keys m disks (<[Disk.Path (Disk.props d) := ovrd]> valid)
      | None =>
          b ← Disk.BaseName d;
          full_keys m disks (match m !! b with Some ovrd => <[Disk.Path (Disk.props d) := ovrd]> valid | None => valid end)
      end
  end.

Definition diskSizes (m : gmap string string) (disks : list Disk.t) : gmap string Z :=
  foldl (λ sizes d, let path := Disk.Path (Disk.props d) in
           <[default path (m !! path) := Disk.QemuVirtualSize d]> sizes) ∅ disks.

(** ** The task *)

Record task := {
  on : host;
  opts : MigrationOptions;
  vm : option (InstanceConf.InstanceConf * option InstanceQemu.t);
  movingDisks : list Disk.t;
  dstServerAddr : string;
  turnOffAfter : bool;
  requisites : option requisites_reply;
  details : option MachineMigrationStatDetails;
}.
Definition NewMachineMigrationTask (h : host) (o : MigrationOptions) : task :=
  {| on := h; opts := o; vm := None; movingDisks := []; dstServerAddr := ""; turnOffAfter := false;
     requisites := None; details := None |}.
Definition set_on (v : host) (t : task) : task :=
  {| on := v; opts := opts t; vm := vm t; movingDisks := movingDisks t; dstServerAddr := dstServerAddr t;
     turnOffAfter := turnOffAfter t; requisites := requisites t; details := details t |}.
Definition set_opts (v : MigrationOptions) (t : task) : task :=
  {| on := on t; opts := v; vm := vm t; movingDisks := movingDisks t; dstServerAddr := dstServerAddr t;
     turnOffAfter := turnOffAfter t; requisites := requisites t; details := details t |}.
Definition set_vm (v : option (InstanceConf.InstanceConf * option InstanceQemu.t)) (t : task) : task :=
  {| on := on t; opts := opts t; vm := v; movingDisks := movingDisks t; dstServerAddr := dstServerAddr t;
     turnOffAfter := turnOffAfter t; requisites := requisites t; details := details t |}.
Definition set_movingDisks (v : list Disk.t) (t : task) : task :=
  {| on := on t; opts := opts t; vm := vm t; movingDisks := v; dstServerAddr := dstServerAddr t;
     turnOffAfter := turnOffAfter t; requisites := requisites t; details := details t |}.
Definition set_dstServerAddr (v : string) (t : task) : task :=
  {| on := on t; opts := opts t; vm := vm t; movingDisks := movingDisks t; dstServerAddr := v;
     turnOffAfter := turnOffAfter t; requisites := requisites t; details := details t |}.
Definition set_turnOffAfter (v : bool) (t : task) : task :=
  {| on := on t; opts := opts t; vm := vm t; movingDisks := movingDisks t; dstServerAddr := dstServerAddr t;
     turnOffAfter := v; requisites := requisites t; details := details t |}.
Definition set_requisites (v : option requisites_reply) (t : task) : task :=
  {| on := on t; opts := opts t; vm := vm t; movingDisks := movingDisks t; dstServerAddr := dstServerAddr t;
     turnOffAfter := turnOffAfter t; requisites := v; details := details t |}.
Definition set_details (v : option MachineMigrationStatDetails) (t : task) : task :=
  {| on := on t; opts := opts t; vm := vm t; movingDisks := movingDisks t; dstServerAddr := dstServerAddr t;
     turnOffAfter := turnOffAfter t; requisites := requisites t; details := v |}.

Section migration.
Context `{Env} {hst : Host} `{Outside, Accounts, Services}.
Context (vmname dstServer : string).
(** What the inspection of the running machine gives. *)
Context (running : outcome (option InstanceQemu.t)).
Abbreviation call := (op task).

Definition at_host {A} (m : op host A) : call A := zoom on set_on m.
Definition asks (a : service) : call (reply a) := at_host (ask a).
Definition Mon_Run (c : mon_command) : call (reply (MonRun vmname c)) := asks (MonRun vmname c).

Fixpoint read_files (dir : string) (names : list string) : call (list (string * option json)) :=
  match names with
  | [] => mret []
  | f :: names =>
      if bool_decide (f = "config") || negb (extra_name f) then read_files dir names
      else
        r ← asks (ReadFile (Filepath.Join [dir; f]));
        lift (Backend.call r);;
        t ← get;
        rest ← read_files dir names;
        mret ((f, default None (files_ (on t) !! Filepath.Join [dir; f])) :: rest)
  end.

Definition extraFiles : call (list (string * option json)) :=
  let vmdir := vmdir vmname in
  r ← asks (ReadDir vmdir);
  lift (Backend.call r);;
  t ← get;
  read_files vmdir (dir_files vmdir (files_ (on t))).

Definition requestIncomingMigration : call requisites_reply :=
  t ← get;
  let o := Overrides (opts t) in
  cr ← (match vm t with Some (c, Some r) => mret (c, r) | _ => lift (Panic NilDereference) end);
  m ← lift (manifest o vmname (InstanceConf.props cr.1) (InstanceQemu.props cr.2));
  extra ← extraFiles;
  r ← asks (StartIncoming dstServer
    {| req_Name := if bool_decide (Name o = "") then vmname else Name o;
       req_Manifest := m;
       req_ListenAddr := dstServerAddr t;
       req_Disks := map_to_list (diskSizes (Disks_ o) (movingDisks t));
       req_CreateDisks := CreateDisks (opts t);
       req_ExtraFiles := extra;
       req_TurnOffAfter := turnOffAfter t |});
  lift (Backend.call r).

(** The disks asked for, as the running machine has them. *)
Fixpoint find_disks (p : InstanceProperties.t) (names : list string) : outcome (list Disk.t) :=
  match names with
  | [] => Ret []
  | dname :: names =>
      match InstanceProperties.DiskGet dname p with
      | None => Throw (NotConnectedError "instance_qemu" dname)
      | Some d => ds ← find_disks p names; Ret (d :: ds)
      end
  end.

(** The running machine. *)
Definition machine : call InstanceQemu.t :=
  c ← at_host (get_conf vmname);
  r ← lift running;
  modify (set_vm (Some (c, r)));;
  st ← at_host (MachineGetStatus vmname ((λ r, (InstanceQemu.Status r).1) <$> r));
  match st with
  | StatePaused => modify (set_turnOffAfter true)
  | StateRunning => mret ()
  | _ => throw (ErrMsg "incompatible machine state")
  end;;
  match r with
  | None => throw (ErrMsg "unexpected error: QEMU instance not found")
  | Some r => mret r
  end.

Definition BeforeStart : call () :=
  zoom opts set_opts Validate;;
  r ← machine;
  ips ← asks (LookupIP dstServer);
  ips ← lift (Backend.call ips);
  (match ips with [] => lift (Panic IndexOutOfRange) | ip :: _ => modify (set_dstServerAddr ip) end);;
  t ← get;
  ds ← lift (find_disks (InstanceQemu.props r) (Disks (opts t)));
  modify (set_movingDisks ds);;
  (if bool_decide (Disks_ (Overrides (opts t)) = ∅) then mret ()
   else
     valid ← lift (full_keys (Disks_ (Overrides (opts t))) ds ∅);
     modify (λ t, set_opts (set_Overrides (set_Disks_ valid (Overrides (opts t))) (opts t)) t));;
  req ← wrap "failed to request incoming migration" requestIncomingMigration;
  modify (set_requisites (Some req));;
  modify (set_details (Some
    {| VMState := no_stat;
       Disks_stat := foldl (λ m d, <[Disk.Path (Disk.props d) := of_total (Disk.QemuVirtualSize d)]> m) ∅ ds |})).

(** *** The ends *)

Definition testRemoteMachine : call () :=
  t ← get;
  r ← asks (RemoteGet dstServer vmname);
  r ← lift (Backend.call r);
  match requisites t with
  | None => lift (Panic NilDereference)
  | Some req =>
      fail_if (negb (reply_PID req =? r.1)) (ErrMsg "remote machine PID has changed since it was started")
  end;;
  if turnOffAfter t then
    match r.2 with
    | REMOTE_INACTIVE | REMOTE_SHUTDOWN => mret ()
    | _ => throw (ErrMsg "remote machine must be inactive")
    end
  else
    match r.2 with
    | REMOTE_RUNNING => mret ()
    | _ => throw (ErrMsg "remote machine is not running")
    end.

Definition remove_local : call () :=
  testRemoteMachine;; testRemoteMachine;; testRemoteMachine;;
  at_host (SystemdStopService vmname 30);;
  at_host (SystemdDisableService vmname);;
  ignored (at_host (RemoveUser vmname));;
  at_host (remove_all (vmdir vmname)).

Definition OnSuccess : call () :=
  ignored (at_host (MachineCreateDownFile vmname));;
  _ ← Mon_Run quit;
  t ← get;
  if RemoveAfter (opts t) then ignored remove_local else mret ().

Fixpoint cancel_jobs (disks : list Disk.t) : call () :=
  match disks with
  | [] => mret ()
  | d :: disks =>
      b ← lift (Disk.BaseName d);
      _ ← Mon_Run (block_job_cancel ("migr_" +:+ b) true);
      cancel_jobs disks
  end.

Definition OnFailure : call () :=
  t ← get;
  cancel_jobs (movingDisks t);;
  _ ← Mon_Run migrate_cancel;
  _ ← asks (RemoteCancel dstServer (vmname +:+ "/incoming-migration"));
  mret ().
End migration.

(** The other side's view of a request
    ([optsFromStartIncomingMigrationRequest]). *)
Definition options_of (r : incoming_request) : Incoming.IncomingMigrationOptions :=
  {| Incoming.Manifest := Incoming.JsonText (req_Manifest r);
     Incoming.Disks_ := req_Disks r;
     Incoming.ExtraFiles := req_ExtraFiles r;
     Incoming.ListenAddr := req_ListenAddr r;
     Incoming.CreateDisks := req_CreateDisks r;
     Incoming.TurnOffAfter := req_TurnOffAfter r |}.
End Migration.
