(* ===== verification/Said.v ===== *)
(** Said: operations that speak.  What is asked of the world is appended to a
    log; a claim about the requests of an operation is a claim about what it
    appends, on every outcome. *)

From S2P Require Import Prelude.
From S2P Require Import GoStd.
From S2P Require Import Backend.
From S2P Require Import Monitor.
From S2P Require Import Server.

Module Said.
Import Server.

Section says.
Context {S C : Type} (said : S → list C).

(** All that [m] appends satisfies [P]. *)
Definition says {A} (m : op S A) (P : C → Prop) : Prop :=
  ∀ s, ∃ new, said (m s).2 = said s ++ new ∧ Forall P new.

Lemma says_silent {A} (m : op S A) P : (∀ s, said (m s).2 = said s) → says m P.
Proof. intros Hm s. exists []. by rewrite Hm, app_nil_r. Qed.
Lemma says_ret {A} (a : A) P : says (mret a) P.
Proof. by apply says_silent. Qed.
Lemma says_lift {A} (a : outcome A) P : says (lift a) P.
Proof. by apply says_silent. Qed.
Lemma says_throw {A} e P : says (throw e : op S A) P.
Proof. by apply says_silent. Qed.
Lemma says_get P : says get P.
Proof. by apply says_silent. Qed.
Lemma says_modify f P : (∀ s, said (f s) = said s) → says (modify f) P.
Proof. intros Hf. by apply says_silent. Qed.
Lemma says_fail_if c e P : says (fail_if c e) P.
Proof. apply says_silent. by destruct c. Qed.
Lemma says_bind {A B} (m : op S A) (k : A → op S B) P :
  says m P → (∀ a, says (k a) P) → says (m ≫= k) P.
Proof.
  intros Hm Hk s. unfold mbind, op_bind. destruct (Hm s) as (new & Hs & Hn).
  destruct (m s) as [[a|e|q] s']; cbn in *; [|by exists new..].
  destruct (Hk a s') as (new' & -> & Hn'). exists (new ++ new'). rewrite Hs, app_assoc. split; [done|]. by apply Forall_app.
Qed.
Lemma says_map_err {A} f (m : op S A) P : says m P → says (map_err f m) P.
Proof. intros Hm s. destruct (Hm s) as (new & Hs & Hn). exists new. unfold map_err. by destruct (m s) as [[] ?]. Qed.
Lemma says_unless t (m : op S ()) P : says m P → says (unless t m) P.
Proof.
  intros Hm s. destruct (Hm s) as (new & Hs & Hn). exists new. unfold unless.
  destruct (m s) as [[u|e|q] s']; [done| |done]. by destruct (t e).
Qed.
Lemma says_try {A} (m : op S A) P : says m P → says (try m) P.
Proof. intros Hm s. destruct (Hm s) as (new & Hs & Hn). exists new. unfold try. by destruct (m s) as [[] ?]. Qed.
Lemma says_mono {A} (m : op S A) (P Q : C → Prop) : (∀ c, P c → Q c) → says m P → says m Q.
Proof. intros HPQ Hm s. destruct (Hm s) as (new & Hs & Hn). exists new. split; [done|]. by eapply Forall_impl. Qed.

(** The log only grows. *)
Lemma says_prefix {A} (m : op S A) P s r s' : says m P → m s = (r, s') → said s `prefix_of` said s'.
Proof. intros Hm E. destruct (Hm s) as (new & Hs & _). rewrite E in Hs. by exists new. Qed.

(** *** What comes before a request *)

Context (never : C → Prop).

(** Nothing of the kind has been said. *)
Definition unsaid (s : S) : Prop := Forall (λ c, ¬ never c) (said s).

Lemma says_unsaid {A} (m : op S A) s : says m (λ c, ¬ never c) → unsaid s → unsaid (m s).2.
Proof. intros Hm Hs. destruct (Hm s) as (new & Hn & Hf). unfold unsaid. rewrite Hn. by apply Forall_app. Qed.

Lemma unsaid_said s c : unsaid s → never c → c ∈ said s → False.
Proof. unfold unsaid. rewrite Forall_forall. intros Hu Hc Hin. by apply (Hu c). Qed.

(** An operation that does not say it has returned when it is said afterwards. *)
Lemma said_bind {A B} (m : op S A) (k : A → op S B) s c :
  says m (λ c, ¬ never c) → unsaid s → never c → c ∈ said ((m ≫= k) s).2 →
  ∃ x s1, m s = (Ret x, s1) ∧ unsaid s1 ∧ said s `prefix_of` said s1 ∧ (m ≫= k) s = k x s1 ∧ c ∈ said (k x s1).2.
Proof.
  intros Hm Hs Hc Hin. pose proof (says_unsaid m s Hm Hs) as Hu. destruct (Hm s) as (new & Hn & _). unfold mbind, op_bind in *.
  destruct (m s) as [[x|err|q] s1]; cbn in *; [exists x, s1; split_and!; try done; by exists new|exfalso; by eapply unsaid_said..].
Qed.
Lemma said_never {A} (m : op S A) s c : says m (λ c, ¬ never c) → unsaid s → never c → c ∈ said (m s).2 → False.
Proof. intros Hm Hs. by apply unsaid_said, says_unsaid. Qed.
End says.

(** ** What it costs to say *)

Section costs.
Context {S C : Type} (said : S → list C) (weight : C → nat).

Definition total (l : list C) : nat := sum_list_with weight l.

(** All that [m] appends weighs at most [n]. *)
Definition costs {A} (m : op S A) (n : nat) : Prop :=
  ∀ s, ∃ new, said (m s).2 = said s ++ new ∧ (total new ≤ n)%nat.

Lemma costs_silent {A} (m : op S A) n : (∀ s, said (m s).2 = said s) → costs m n.
Proof. intros Hm s. exists []. rewrite Hm, app_nil_r. split; [done|]. cbn. lia. Qed.
Lemma costs_mono {A} (m : op S A) n n' : (n ≤ n')%nat → costs m n → costs m n'.
Proof. intros Hn Hm s. destruct (Hm s) as (new & Hs & Ht). exists new. split; [done|lia]. Qed.
Lemma costs_bind {A B} (m : op S A) (k : A → op S B) a b :
  costs m a → (∀ x, costs (k x) b) → costs (m ≫= k) (a + b).
Proof.
  intros Hm Hk s. unfold mbind, op_bind. destruct (Hm s) as (new & Hs & Hn).
  destruct (m s) as [[x|e|q] s']; cbn in *; [|exists new; split; [done|lia]..].
  destruct (Hk x s') as (new' & -> & Hn'). exists (new ++ new'). rewrite Hs, app_assoc. split; [done|].
  unfold total in *. rewrite sum_list_with_app. lia.
Qed.
(** After something that weighs nothing. *)
Lemma costs_bind_0 {A B} (m : op S A) (k : A → op S B) n : costs m 0 → (∀ x, costs (k x) n) → costs (m ≫= k) n.
Proof. intros Hm Hk. by apply (costs_bind m k 0 n). Qed.
Lemma costs_try {A} (m : op S A) n : costs m n → costs (try m) n.
Proof. intros Hm s. destruct (Hm s) as (new & Hs & Hn). exists new. unfold try. by destruct (m s) as [[] ?]. Qed.
Lemma costs_map_err {A} f (m : op S A) n : costs m n → costs (map_err f m) n.
Proof. intros Hm s. destruct (Hm s) as (new & Hs & Hn). exists new. unfold map_err. by destruct (m s) as [[] ?]. Qed.
Lemma costs_unless t (m : op S ()) n : costs m n → costs (unless t m) n.
Proof.
  intros Hm s. destruct (Hm s) as (new & Hs & Hn). exists new. unfold unless.
  destruct (m s) as [[u|e|q] s']; [done| |done]. by destruct (t e).
Qed.
(** What never says anything with a weight. *)
Lemma costs_says {A} (m : op S A) : says said m (λ c, weight c = 0%nat) → costs m 0.
Proof.
  intros Hm s. destruct (Hm s) as (new & Hs & Hf). exists new. split; [done|]. unfold total.
  clear Hs. induction Hf as [|c l Hc Hl IH]; [done|]. cbn. lia.
Qed.
End costs.
End Said.
