(* ===== verification/Tasks.v ===== *)
(** Tasks: the background tasks of the daemon ([server/background_tasks.go])
    and the pool of QEMU monitors ([internal/monitor/monitor.go]).

    The pool of [go-task] is outside: whether it takes a task is one of its
    answers, like what QEMU says and what the processes of the host do.  The
    machines whose monitor is open are state. *)

From S2P Require Import Prelude.
From S2P Require Import GoStd.
From S2P Require Import Backend.
From S2P Require Import Json.
From S2P Require Import InstanceProperties.
From S2P Require Import InstanceConf.
From S2P Require Import CommandLine.
From S2P Require Import ConfJson.
From S2P Require Import Monitor.
From S2P Require Import Server.
From S2P Require Import OsUser.
From S2P Require Import Services.
From S2P Require Import Migration.

Open Scope Z_scope.
#[local] Set Warnings "-register-all".

Module Tasks.
Import Services Server ConfJson.

(** ** Requests *)

(** [task.TaskStat], as far as the daemon sets or reads it. *)
Inductive task_state := StateRunning_ | StateCompleted | StateFailed.
Record TaskStat := {
  ID : string; State : task_state; StateDesc : string;
  Details : option Migration.DataTransferStat;
}.

(** What the pool makes of a task. *)
Inductive admission :=
  | Accepted (tid : string)
  | ConcurrentRunning (objects : list string)
  | Refused (e : goerr).

Record DriveBackupOptions := {
  JobID : string; Device : string; Target : string; Sync : string; Bitmap : string;
}.
Inductive command :=
  | cont | system_powerdown | quit
  | balloon (value : Z)
  | block_job_cancel (device : string) (force : bool)
  | drive_backup (o : DriveBackupOptions)
  | block_dirty_bitmap_clear (node name : string)
  | block_dirty_bitmap_add (node name : string).
#[export] Instance DriveBackupOptions_eq_dec : EqDecision DriveBackupOptions.
Proof. solve_decision. Defined.
#[export] Instance command_eq_dec : EqDecision command.
Proof. solve_decision. Defined.
Record BlockJobInfo := { job_Device : string; Len : Z; Offset : Z }.

(** What is asked through the monitor of a machine; an event is found or not.
    [Powerdowns t] are the answers to [system_powerdown] at the ticks of [t]
    nanoseconds, up to the first that fails. *)
Inductive question :=
  | Run (c : command)
  | RunTransaction (cs : list command)
  | QueryBalloon
  | QueryStatus
  | QueryBlockJobs
  | WaitMachineResumeState
  | WaitJobStatusChange (job status : string)
  | FindBlockJobError (job : string)
  | FindBlockJobCompleted (job : string)
  | Powerdowns (timeout : Z).

Inductive tcall :=
  | StartTask (kind : string) (tgt : targets) (labels : list (string * string))
  | StatByLabel (labels : list string)
  | List_
  | Stat_ (tid : string)
  | CancelByLabel (label : string)
  | CtxDone
  | Sleep (seconds : Z)
  | Connect (socket : string)
  | Disconnect (vmname : string)
  | Ask (vmname : string) (q : question)
  | GetCmdline (pid : Z)
  | ExecStat (path : string)
  | Command (dir : string) (argv : list string)
  | Dir (path : string)
  | StatDir (path : string)
  | StatDev (path : string)
  | Mknod (path : string) (rdev : Z)
  | Chown (path : string) (uid : Z)
  | Unlink (path : string).

Definition heard_of (q : question) : Type :=
  match q with
  | QueryBalloon => sys Z
  | QueryStatus => sys bool  (* running *)
  | QueryBlockJobs => sys (list BlockJobInfo)
  | FindBlockJobError _ | FindBlockJobCompleted _ => sys bool
  | Powerdowns _ => option goerr
  | _ => sys ()
  end.
Definition treply (c : tcall) : Type :=
  match c with
  | StartTask _ _ _ => admission
  | StatByLabel _ => list (TaskStat * option string)  (* and the kind *)
  | List_ => list string
  | Stat_ _ => option TaskStat
  | CancelByLabel _ | Sleep _ | Disconnect _ => ()
  | CtxDone => option goerr
  | Ask _ q => heard_of q
  | GetCmdline _ => sys (list string)
  | ExecStat _ => sys (bool * bool)  (* a regular file, and executable *)
  | Dir _ => sys (list (string * bool))  (* names, and which are directories *)
  | StatDir _ => sys bool
  | StatDev _ => sys Z
  | _ => sys ()
  end.
Class Daemon := daemon_answer : list tcall → ∀ c : tcall, treply c.

(** How [encoding/json] treats a [TaskStat]; [None] is the null pointer. *)
Class StatJson := {
  enc_stat : string → TaskStat → json;
  dec_stat : json → outcome (option TaskStat);
}.

(** [uuid.Validate] *)
Class Uuid := valid_uuid : string → bool.

Record daemon := { on : host; monitors : gset string; said : list tcall }.
Definition set_on (h : host) (d : daemon) : daemon := {| on := h; monitors := monitors d; said := said d |}.
Definition set_monitors (m : gset string) (d : daemon) : daemon := {| on := on d; monitors := m; said := said d |}.

Section tasks.
Context `{Env} {hst : Host} `{Accounts, Services, Daemon, StatJson, Uuid}.
Abbreviation call := (op daemon).

Definition request (c : tcall) : call (treply c) := λ d,
  (Ret (daemon_answer (said d) c), {| on := on d; monitors := monitors d; said := said d ++ [c] |}).
Definition at_host {A} (m : op host A) : call A := zoom on set_on m.
Definition done {A} (r : sys A) : call A := lift (Backend.call r).

(** ** [monitor.Pool] *)

Definition NewMonitor (vmname : string) : call () :=
  r ← request (Connect (Filepath.Join [QMPMONDIR; vmname +:+ ".qmp0"])); done r;;
  modify (λ d, set_monitors ({[vmname]} ∪ monitors d) d).

Definition Exists (vmname : string) : call bool := d ← get; mret (bool_decide (vmname ∈ monitors d)).

Definition CloseMonitor (vmname : string) : call () :=
  found ← Exists vmname;
  if (found : bool) then
    request (Disconnect vmname);;
    modify (λ d, set_monitors (monitors d ∖ {[vmname]}) d)
  else mret ().

Definition getMonitor (vmname : string) : call () :=
  found ← Exists vmname; fail_if (negb found) NetOpError.

(** All methods that use a monitor. *)
Definition through {A} (vmname : string) (m : call A) : call A := getMonitor vmname;; m.
Definition Mon_Run (vmname : string) (c : command) : call () :=
  through vmname (r ← request (Ask vmname (Run c)); done r).
Definition Mon_RunTransaction (vmname : string) (cs : list command) : call () :=
  through vmname (r ← request (Ask vmname (RunTransaction cs)); done r).

(** ** Starting tasks *)

Definition longRunningTasks : gmap string goerr := list_to_map [
  ("MachineMigrationTask",
   ErrMsg "machine is locked because the migration process is currently in progress");
  ("MachineIncomingMigrationTask",
   ErrMsg "machine is locked because the incoming-migration process is currently in progress");
  ("DiskBackupTask",
   ErrMsg "resource is locked because the backup process is currently in progress")].

Definition concurrent : goerr := ErrMsg "concurrent task is running".

(** The description of the first long task on one of these, if it has one. *)
Definition locked_by (stats : list (TaskStat * option string)) : option goerr :=
  match stats with (_, Some kind) :: _ => longRunningTasks !! kind | _ => None end.

(** The loop, with the error of the attempt before. *)
Fixpoint attempts (n : nat) (fn : call admission) (last : goerr) : call string :=
  match n with
  | O => throw last
  | S n =>
      r ← fn;
      match r with
      | Accepted tid => mret tid
      | Refused e => throw e
      | ConcurrentRunning objects =>
          stats ← request (StatByLabel (map (λ o, o +:+ "/long-running") objects));
          match locked_by stats with
          | Some e => throw e
          | None => request (Sleep 1);; attempts n fn concurrent
          end
      end
  end.
Definition taskStart (fn : call admission) : call string := attempts 10 fn concurrent.

(** The options of a task: a classifier's name, and its label. *)
Definition WithUniqueLabel (label : string) : string * string := ("unique-labels", label).
Definition WithGroupLabel (label : string) : string * string := ("group-labels", label).
Definition WithHostnetGroupLabel : string * string := ("hostnet-group", "").

(** The pool takes a task, and its [BeforeStart] runs. *)
Definition TaskStart (kind : string) (tgt : targets) (labels : list (string * string)) (BeforeStart : call ()) : call string :=
  tid ← taskStart (request (StartTask kind tgt labels));
  BeforeStart;;
  mret tid.

(** ** What is known of tasks *)

Abbreviation stats := (gmap string TaskStat).
Definition record (st : TaskStat) (m : stats) : stats := <[ID st := st]> m.
(** A null pointer has no identifier. *)
Definition record_ptr (st : option TaskStat) (m : stats) : outcome stats :=
  match st with Some st => Ret (record st m) | None => Panic NilDereference end.

Definition read_file (path : string) : call json :=
  r ← at_host (ask (ReadFile path)); done r;;
  d ← get;
  match files_ (on d) !! path with
  | None => throw (ErrNotExist path)
  | Some None => throw (ErrMsg "invalid character")
  | Some (Some j) => mret j
  end.
Definition readStatFile (fname : string) : call (option TaskStat) := j ← read_file fname; lift (dec_stat j).

(** The file of the task with a label. *)
Definition stat_file (vmname label : string) : string :=
  Filepath.Join [Filepath.Join [CHROOTDIR; vmname]; ".tasks"; Strconv.hex 32 (Md5.sum label)].
Definition label_vm (label : string) : string :=
  Strings.TrimSpace (default label (fst <$> Strings.cut label "/")).
Definition readTaskStatFile (label : string) : call (option TaskStat) :=
  let vmname := label_vm label in
  if bool_decide (vmname = "") then throw (ErrNotExist "")
  else
    r ← request (StatDir (Filepath.Join [CHROOTDIR; vmname]));
    match r with
    | inl true => readStatFile (stat_file vmname label)
    | _ => throw (ErrNotExist "")
    end.

(** A file that is not there has nothing to tell. *)
Definition add_file (m : stats) (rd : call (option TaskStat)) : call stats :=
  r ← try rd;
  match r with
  | inl st => lift (record_ptr st m)
  | inr (ErrNotExist _) => mret m
  | inr e => throw e
  end.
Fixpoint add_files (m : stats) (rds : list (call (option TaskStat))) : call stats :=
  match rds with [] => mret m | rd :: rds => m ← add_file m rd; add_files m rds end.

Fixpoint add_tasks (m : stats) (tids : list string) : call stats :=
  match tids with
  | [] => mret m
  | tid :: tids => st ← request (Stat_ tid); add_tasks (match st with Some st => record st m | None => m end) tids
  end.

(** The directories of machines. *)
Fixpoint add_dirs (m : stats) (entries : list (string * bool)) : call stats :=
  match entries with
  | [] => mret m
  | (name, false) :: entries => add_dirs m entries
  | (name, true) :: entries =>
      let taskDir := Filepath.Join [CHROOTDIR; name; ".tasks"] in
      r ← request (Dir taskDir);
      match r with
      | inr (ErrNotExist _) => add_dirs m entries
      | inr e => throw e
      | inl files => m ← add_files m (map (λ f, readStatFile (Filepath.Join [taskDir; f.1])) files); add_dirs m entries
      end
  end.

(** The list is in the order of a map: what there is in it is given instead. *)
Definition TaskGetStats (labels : list string) : call stats :=
  sts ← request (StatByLabel labels);
  let m := foldl (λ m st, record st.1 m) ∅ sts in
  m ← (match labels with
       | [] =>
           tids ← request List_;
           m ← add_tasks m tids;
           r ← request (Dir CHROOTDIR);
           match r with
           | inl entries => add_dirs m entries
           | inr (ErrNotExist _) => mret m
           | inr e => throw e
           end
       | _ => add_tasks m (filter (λ l, valid_uuid l = true) labels)
       end);
  add_files m (map readTaskStatFile labels).

(** ** [utils.GetCmdline], [utils.ResolveExecutable] *)

Definition is_qemu (pline : list string) : bool :=
  match pline with [] => false | p :: _ => Strings.HasPrefix (Filepath.Base p) "qemu-system" end.

Definition ResolveExecutable (fname : string) : call string :=
  r ← request (ExecStat fname);
  st ← done r;
  fail_if (negb (fst st)) (ErrMsg ("not a file: " +:+ fname));;
  fail_if (negb (snd st)) (ErrMsg ("not executable by root: " +:+ fname));;
  lift (filepath_Abs fname).
End tasks.
End Tasks.
