(* ===== verification/Launcher.v ===== *)
(** Launcher: the process that becomes QEMU ([cmd/launcher], with
    [internal/fsutil/copy.go], [LookForFile] of [internal/utils/fs.go] and the
    driver functions of [internal/pci/device.go]).

    It runs on the machines' host, and has requests of its own, to the kernel and
    to the daemon, whose answers depend on everything asked before. *)

From S2P Require Import Prelude.
From S2P Require Import GoStd.
From S2P Require Import Version.
From S2P Require Import PciAddress.
From S2P Require Import Backend.
From S2P Require Import PciDevice.
From S2P Require Import Disks.
From S2P Require Import NetIfaces.
From S2P Require Import HostDevices.
From S2P Require Import Json.
From S2P Require Import InstanceProperties.
From S2P Require Import InstanceConf.
From S2P Require Import CommandLine.
From S2P Require Import ConfJson.
From S2P Require Import Monitor.
From S2P Require Import InstanceQemu.
From S2P Require Import Server.
From S2P Require Import OsUser.
From S2P Require Import Services.
From S2P Require Import HostNet.
From S2P Require Import Lifecycle.
From S2P Require Import Migration.

Open Scope Z_scope.
#[local] Set Warnings "-register-all".

Module Launcher.
Import Strings Services Server ConfJson Lifecycle.

(** ** Requests *)

Inductive entry := Symlink_ | Directory | Other.

(** [QemuInstanceRegisterRequest] *)
Record registration := { reg_Name : string; PID : Z; MemActual : Z }.

Inductive lcall :=
  | GetAppConf
  | QemuInstanceRegister (r : registration)
  | QemuInstanceDeregister (name : string)
  | Setenv (key value : string)
  | StatPath (path : string)
  | LstatPath (path : string)
  | Readlink (path : string)
  | ReadDirNames (path : string)
  | Create (path : string)
  | Chmod (path : string)
  | Open (path : string)
  | IoCopy (src dst : string)
  | Modprobe (name : string)
  | LookupDevice (hexaddr : string)
  | WriteSysfs (path text : string)
  | DriverLink (path : string)
  | StatDev (path : string)
  | Mknod (path : string) (block : bool) (rdev : Z)
  | Chown (path : string) (uid : Z)
  | Symlink (target path : string)
  | LookPath (name : string)
  | Ldd (binary lib : string)
  | LoadManager (pid : Z)
  | SetCpuQuota (quota : Z)
  | Ifdown (script ifname : string)
  | DelTap (ifname : string)
  | Exec (binary : string) (args : list string) (env : gmap string string).

Definition lreply (c : lcall) : Type :=
  match c with
  | GetAppConf => sys string
  | StatPath _ => sys bool  (* a directory *)
  | LstatPath _ => sys entry
  | Readlink _ | DriverLink _ | LookPath _ | Ldd _ _ => sys string
  | ReadDirNames _ => sys (list string)
  | LookupDevice _ => outcome PciDevice.Device
  | StatDev _ => sys Z
  | _ => sys ()
  end.
Class Launch := launch_answer : list lcall → ∀ c : lcall, lreply c.

Record process := { on : host; env : gmap string string; said : list lcall }.
Definition set_on (h : host) (p : process) : process := {| on := h; env := env p; said := said p |}.
Definition set_env (e : gmap string string) (p : process) : process := {| on := on p; env := e; said := said p |}.

(** How the process goes on. *)
Inductive ending := Exited (code : Z) | Returned | Replaced.

(** [filepath.Rel] *)
Definition elements_of (p : string) : list string :=
  match p with
  | "." | "/" => []
  | String a p' => if bool_decide (a = Filepath.slash) then Split p' Filepath.slash else Split p Filepath.slash
  | "" => []
  end.
Fixpoint strip_common (b t : list string) : list string * list string :=
  match b, t with
  | x :: b', y :: t' => if bool_decide (x = y) then strip_common b' t' else (b, t)
  | _, _ => (b, t)
  end.
Definition Rel (basepath targpath : string) : outcome string :=
  let base := Filepath.Clean basepath in
  let targ := Filepath.Clean targpath in
  if bool_decide (targ = base) then Ret "."
  else if negb (bool_decide (Filepath.IsAbs base = Filepath.IsAbs targ)) then
    Throw (ErrMsg ("Rel: can't make " +:+ targpath +:+ " relative to " +:+ basepath))
  else
    let '(b, t) := strip_common (elements_of base) (elements_of targ) in
    match b with
    | ".." :: _ => Throw (ErrMsg ("Rel: can't make " +:+ targpath +:+ " relative to " +:+ basepath))
    | _ => Ret (Strings.Join (map (λ _, "..") b ++ t) "/")
    end.

(** [strings.Contains] *)
Fixpoint Contains (s sub : string) : bool :=
  HasPrefix s sub || match s with String _ s => Contains s sub | "" => false end.

(** Machine-width: [uint32(mb) << 20]. *)
Definition mem_actual (mb : Z) : Z := (mb mod 2 ^ 32 * 2 ^ 20) mod 2 ^ 32.

Section launcher.
Context `{Env} {hst : Host} `{Process, PciBus, Accounts, Services, Launch}.
Context (vmname : string).
(** How deep the directories are that are copied. *)
Context (depth : nat).
Abbreviation call := (op process).

Definition request (c : lcall) : call (lreply c) := λ p,
  (Ret (launch_answer (said p) c), {| on := on p; env := env p; said := said p ++ [c] |}).
Definition at_host {A} (m : op host A) : call A := zoom on set_on m.
Definition done {A} (r : sys A) : call A := lift (Backend.call r).
Definition mkdir (path : string) : call () := at_host (mkdir_all path).
Definition chown (path : string) (uid : Z) : call () := r ← request (Chown path uid); done r.
Definition getenv (key : string) : call (option string) := p ← get; mret (env p !! key).
Definition setenv (key value : string) : call () :=
  r ← request (Setenv key value); done r;;
  modify (λ p, set_env (<[key := value]> (env p)) p).

(** ** [fsutil.Copy] *)

Definition fcopy (src dst : string) : call () :=
  mkdir (Filepath.Dir dst);;
  r ← request (Create dst); done r;;
  r ← request (Chmod dst); done r;;
  r ← request (Open src); done r;;
  r ← request (IoCopy src dst); done r.
Definition lcopy (src dst : string) : call () :=
  r ← request (Readlink src);
  target ← done r;
  r ← request (Symlink target dst); done r.

Section dcopy.
Context (copy : string → string → call ()).
Fixpoint each_content (src dst : string) (names : list string) : call () :=
  match names with
  | [] => mret ()
  | n :: names => copy (Filepath.Join [src; n]) (Filepath.Join [dst; n]);; each_content src dst names
  end.
Definition dcopy (src dst : string) : call () :=
  mkdir dst;;
  r ← request (ReadDirNames src);
  names ← done r;
  each_content src dst names.
End dcopy.

(** A tree of directories that deep. *)
Fixpoint Copy (depth : nat) (src dst : string) : call () :=
  r ← request (LstatPath src);
  e ← done r;
  match e, depth with
  | Symlink_, _ => lcopy src dst
  | Directory, S depth => dcopy (Copy depth) src dst
  | Directory, O => throw (ErrHost "too deep")
  | Other, _ => fcopy src dst
  end.
Definition copy_file : string → string → call () := Copy depth.

(** ** [utils.LookForFile] *)
Fixpoint LookForFile (basename : string) (dirs : list string) : call string :=
  match dirs with
  | [] => throw (ErrNotExist basename)
  | d :: dirs =>
      let fullname := Filepath.Join [d; basename] in
      r ← request (StatPath fullname);
      match r with
      | inl true => throw (ErrMsg ("not a file: " +:+ fullname))
      | inl false => mret (Filepath.Clean fullname)
      | inr (ErrNotExist _) => LookForFile basename dirs
      | inr e => throw e
      end
  end.

(** In the working directory, or in one of these. *)
Definition find_file (name : string) (dirs : list string) (missing : goerr) : call string :=
  r ← request (StatPath name);
  match r with
  | inl _ => mret name
  | inr _ => map_err (λ _, missing) (LookForFile name dirs)
  end.

(** ** Host devices *)

Definition loadVfioModule : call () :=
  r ← request (StatPath "/sys/bus/pci/drivers/vfio-pci");
  match r with
  | inl _ => mret ()
  | inr _ => r ← request (Modprobe "vfio-pci"); map_err (λ _, ErrMsg "could not load vfio-pci module") (done r)
  end.

Definition unbind (d : PciDevice.Device) : call () :=
  if bool_decide (PciDevice.driver d = "") then mret ()
  else
    r ← request (WriteSysfs (Filepath.Join [PciDevice.FullPath (PciDevice.addr d); "driver/unbind"]) (PciDevice.to_string d));
    map_err (λ _, ErrMsg "failed to unbind") (done r).
Definition UnbindDriver := unbind.

Definition AssignDriver (n : string) (d : PciDevice.Device) : call () :=
  let n := TrimSpace n in
  if bool_decide (n = "") then throw (ErrMsg "empty driver name")
  else if bool_decide (PciDevice.driver d = n) then mret ()
  else
    unbind d;;
    r ← request (WriteSysfs (Filepath.Join ["/sys/bus/pci/drivers"; n; "new_id"])
          (PciDevice.VendorHex (PciDevice.vendorID d) +:+ " " +:+ PciDevice.DeviceHex (PciDevice.deviceID d) +:+ of_list [char 10]));
    map_err (λ _, ErrMsg "failed to assign driver") (done r);;
    r ← request (DriverLink (Filepath.Join [PciDevice.FullPath (PciDevice.addr d); "driver"]));
    driver ← match r with
             | inl s => mret (Filepath.Base s)
             | inr (ErrNotExist _) => mret (PciDevice.driver d)
             | inr _ => throw (ErrMsg "cannot check the new driver")
             end;
    fail_if (negb (bool_decide (driver = n))) (ErrMsg "failed to assign driver: run 'dmesg' for more details").

Definition detach (d : PciDevice.Device) : call () :=
  map_err (λ _, ErrMsg ("failed to detach PCI device " +:+ PciDevice.to_string d)) (AssignDriver "vfio-pci" d).

Fixpoint detach_all (l : list PciDevice.Device) : call () :=
  match l with [] => mret () | d :: l => detach d;; detach_all l end.

Fixpoint detach_devices (l : list HostDevice.t) : call () :=
  match l with
  | [] => mret ()
  | hpci :: l =>
      a ← (match HostDevice.BackendAddr hpci with Some a => mret a | None => lift (Panic NilDereference) end);
      r ← request (LookupDevice (Pci.to_string a));
      d ← lift r;
      fail_if (PciDevice.enabled d && bool_decide (PciDevice.driver d = "vfio-pci"))
        (ErrMsg ("unable to work with open PCI device: " +:+ PciDevice.to_string d));;
      detach d;;
      detach_all (PciDevice.Subdevices d);;
      detach_devices l
  end.

(** ** The directory QEMU is locked in *)

Definition chroot : string := Filepath.Join [CHROOTDIR; vmname].
Definition inside (path : string) : string := Filepath.Join [chroot; path].

(** The node of a device, as it is outside. *)
Definition node (path dst : string) (block : bool) : call () :=
  r ← request (StatDev path);
  rdev ← map_err (λ _, ErrMsg ("stat " +:+ path)) (done r);
  r ← request (Mknod dst block rdev);
  map_err (λ _, ErrMsg ("mknod " +:+ path)) (done r).

Fixpoint disk_nodes (uid : Z) (disks : list Disk.t) : call () :=
  match disks with
  | [] => mret ()
  | d :: disks =>
      let path := Disk.Path (Disk.props d) in
      local ← lift (Disk.IsLocal d);
      (if (local : bool) then
        mkdir (inside (Filepath.Dir path));;
        node path (inside path) true;;
        chown (inside path) uid
      else mret ());;
      disk_nodes uid disks
  end.

Fixpoint device_nodes (devices : list string) : call () :=
  match devices with
  | [] => mret ()
  | d :: devices => node d (inside (TrimPrefix d "/")) false;; device_nodes devices
  end.

Fixpoint iface_files (l : list NetIface.t) : call () :=
  match l with
  | [] => mret ()
  | n :: l =>
      at_host (write_file (Filepath.Join [chroot; "run/net"; NetIface.Ifname (NetIface.props n)]) (Some (Json.marshalled (enc_netif n))));;
      iface_files l
  end.

Definition rom (qemuRootDir : string) : call () :=
  let romname := "efi-virtio.rom" in
  rompath ← find_file romname
    [Filepath.Join [qemuRootDir; "usr/share/qemu"]; Filepath.Join [qemuRootDir; "usr/lib/ipxe/qemu"];
     Filepath.Join [qemuRootDir; "usr/share/seabios"]; Filepath.Join [qemuRootDir; "usr/share/ipxe"]]
    (ErrMsg ("unable to find romfile: " +:+ romname));
  p ← lift (Rel qemuRootDir rompath);
  copy_file rompath (inside p).

(** The backend of a flash disk, inside. *)
Definition flash_backend (d : Disk.t) : option backend :=
  match Disk.Backend d with Some (FirmwareFlash b) => Some b | _ => None end.

Definition firmware (uid : Z) (incoming : bool) (flash : option Disk.t) : call () :=
  match flash with
  | None => mret ()
  | Some d =>
      let path := Disk.Path (Disk.props d) in
      mkdir (inside (Filepath.Dir path));;
      match flash_backend d with
      | None => mret ()
      | Some b =>
          match b with
          | BlockDevice _ => node path (inside path) true
          | FileDevice _ =>
              if incoming then copy_file path (inside path)
              else r ← request (Symlink "/dev/null" (inside path)); done r
          | _ => mret ()
          end;;
          chown (inside path) uid
      end
  end.

Fixpoint libraries (qemuRootDir : string) (lines : list string) : call () :=
  match lines with
  | [] => mret ()
  | line :: lines =>
      if negb (Contains line " => ") then libraries qemuRootDir lines
      else
        let parts := HostNet.Fields line in
        if Contains line "not found" then
          match parts with [] => lift (Panic IndexOutOfRange) | p :: _ => throw (ErrMsg ("unmet dependencies: " +:+ p)) end
        else
          match parts !! 2%nat with
          | None => lift (Panic IndexOutOfRange)
          | Some lib => copy_file (Filepath.Join [qemuRootDir; lib]) (inside lib);; libraries qemuRootDir lines
          end
  end.

Definition iscsi (qemuRootDir : string) : call () :=
  let libname := "block-iscsi.so" in
  libpath ← find_file libname [Filepath.Join [qemuRootDir; "usr/lib/x86_64-linux-gnu/qemu"]]
    (ErrMsg ("unable to find: " +:+ libname));
  p ← lift (Rel qemuRootDir libpath);
  copy_file libpath (inside p);;
  r ← request (LookPath "ldd");
  ldd ← done r;
  r ← request (Ldd ldd libpath);
  out ← done r;
  libraries qemuRootDir (Split out "010").

(** What it returns besides a fatal error: nothing, or an error that wraps
    [errNotFatal]. *)
Definition prepareChroot (c : InstanceConf.InstanceConf) (qemuRootDir : string) : call (() + goerr) :=
  let p := InstanceConf.props c in
  let uid := InstanceProperties.uid p in
  mkdir (inside "dev/net");;
  mkdir (inside "run/net");;
  mkdir (inside ".tasks");;
  at_host (write_file (inside "pid") (Some (JNum os_Getpid)));;
  mkdir (inside QMPMONDIR);;
  chown (inside QMPMONDIR) uid;;
  disks ← lift (InstanceProperties.DiskGetList [] p);
  disk_nodes uid disks;;
  device_nodes ["/dev/net/tun"; "/dev/vhost-net"; "/dev/vhost-vsock"; "/dev/null"];;
  iface_files (InstanceProperties.NetIfaceGetList [] p);;
  rom qemuRootDir;;
  firmware uid (bool_decide (InstanceConf.confname c = "incoming_config")) (InstanceProperties.FirmwareGetFlash p);;
  try (iscsi qemuRootDir).

(** ** [Start] *)

(** The configuration the machine came with, or its own. *)
Definition configuration : call InstanceConf.InstanceConf :=
  p ← get;
  match GetIncomingConf (user_Lookup (passwd (on p))) (files_ (on p)) vmname with
  | Ret c => mret c
  | Throw (ErrNotExist _) => at_host (get_conf vmname)
  | Throw _ => throw (ErrMsg "unable to parse incoming_config")
  | Panic q => lift (Panic q)
  end.

Definition features (e : gmap string string) : CommandLineFeatures :=
  {| NoReboot := negb (bool_decide (default "" (e !! "USE_NOREBOOT") = ""));
     feature_IncomingHost := default "" (e !! "INCOMING_HOST");
     feature_VNCHost := default "" (e !! "VNC_HOST") |}.

Definition is_set (key : string) : call bool := v ← getenv key; mret (negb (bool_decide (default "" v = ""))).

Definition root_dir : call string :=
  r ← request GetAppConf;
  dir ← map_err (λ _, ErrMsg "failed to request global Kvmrun configuration") (done r);
  v ← getenv "QEMU_ROOTDIR";
  dir ← match v with
        | Some d => lift (filepath_Abs d)
        | None => setenv "QEMU_ROOTDIR" dir;; mret dir
        end;
  r ← request (StatPath dir);
  match r with
  | inl _ => mret dir
  | inr (ErrNotExist _) => throw (ErrMsg ("QEMU root directory does not exist: " +:+ dir))
  | inr _ => throw (ErrMsg "failed to check QEMU root directory")
  end.

(** What is added to the command line, unless the version is not known. *)
Definition chroot_args (v : sys Version.t) : list string :=
  match v with
  | inl v => if 90000 <=? Version.Int v then ["-run-with"; "chroot=" +:+ chroot] else ["-chroot"; chroot]
  | inr _ => []
  end.

Definition save_startup (c : InstanceConf.InstanceConf) : call () :=
  at_host (lift (ValidateMachineName (InstanceProperties.Name (InstanceConf.props c)));;
    writing (InstanceConf.startup_config c) (λ w, SaveStartupConfig w c)).

(** A path below the working directory. *)
Definition here (f : string) : string := match filepath_Abs f with Ret p => p | _ => f end.

Definition set_quota (quota : Z) : call () :=
  if 0 <? quota then
    r ← request (LoadManager os_Getpid); done r;;
    r ← request (SetCpuQuota quota); done r
  else mret ().

(** From the command line on. *)
Definition launch (c : InstanceConf.InstanceConf) (args : list string) (qemuRootDir : string) : call ending :=
  let p := InstanceConf.props c in
  (match InstanceProperties.HostDeviceGetList [] p with
   | [] => mret ()
   | devs => loadVfioModule;; detach_devices devs
   end);;
  _ ← prepareChroot c qemuRootDir;
  set_quota (InstanceProperties.CPUGetQuota p);;
  at_host (remove_all (here "incoming_config"));;
  at_host (remove_all (here ".runtime/migration_stat"));;
  setenv "VMNAME" vmname;;
  r ← request (QemuInstanceRegister
        {| reg_Name := vmname; PID := os_Getpid mod 2 ^ 32; MemActual := mem_actual (InstanceProperties.MemoryGetActual p) |});
  done r;;
  save_startup c;;
  v ← getenv "QEMU_BINARY";
  s ← get;
  r ← request (Exec (default QEMU_BINARY v) args (env s));
  done r;;
  mret Replaced.

Definition Start : call ending :=
  down ← at_host (stat (Filepath.Join [CONFDIR; vmname; "down"]));
  if (down : bool) then mret (Exited 0)
  else
    mkdir (Filepath.Join [CONFDIR; vmname; ".runtime"]);;
    c ← configuration;
    s ← get;
    match CommandLine.GetCommandLine c (Some (features (env s))) with
    | Throw _ => mret (Exited 1)
    | Panic q => lift (Panic q)
    | Ret args =>
        debug ← is_set "_DEBUG";
        if (debug : bool) then mret Returned
        else
          qemuRootDir ← root_dir;
          v ← at_host (ask (GetVersion qemuRootDir QEMU_BINARY));
          let args := args ++ chroot_args v in
          debug ← is_set "DEBUG";
          if (debug : bool) then mret Returned else launch c args qemuRootDir
    end.

(** ** [Cleanup], which always goes on *)

Definition deconfigureIface (ifname : string) : call () :=
  let path := Filepath.Join [chroot; "run/net"; ifname] in
  r ← at_host (ask (ReadFile path)); done r;;
  p ← get;
  n ← match files_ (on p) !! path with
      | None => throw (ErrNotExist path)
      | Some None => throw (ErrMsg "invalid character")
      | Some (Some j) => lift (Json.dec_struct netif_fields j netif_zero)
      end;
  let name := NetIface.Ifname (NetIface.props n) in
  (if bool_decide (NetIface.Ifdown (NetIface.props n) = "") then mret ()
   else r ← request (Ifdown (NetIface.Ifdown (NetIface.props n)) name); map_err (λ _, ErrMsg "external script failed") (done r));;
  r ← request (DelTap name); done r.

Fixpoint deconfigure_ifaces (names : list string) : call () :=
  match names with
  | [] => mret ()
  | f :: names => ignored (deconfigureIface f);; deconfigure_ifaces names
  end.

(** The firmware's variables are taken back from the directory. *)
Definition save_flash : call () :=
  p ← get;
  c ← lift (GetStartupConf (files_ (on p)) vmname);
  match InstanceProperties.FirmwareGetFlash (InstanceConf.props c) with
  | None => throw (ErrNotExist "")
  | Some d =>
      match flash_backend d with
      | Some (FileDevice _) =>
          let path := Disk.Path (Disk.props d) in
          match File.regular {| File.Path := inside path |} with
          | Ret _ =>
              map_err (λ _, ErrMsg "failed to copy config_efivars") (copy_file (inside path) path);;
              chown path 0;;
              r ← request (Chmod path); done r
          | _ => throw (ErrNotExist "")
          end
      | _ => throw (ErrNotExist "")
      end
  end.

Fixpoint drop_sockets (exts : list string) : call () :=
  match exts with
  | [] => mret ()
  | ext :: exts => ignored (at_host (remove (Filepath.Join [QMPMONDIR; vmname +:+ ext])));; drop_sockets exts
  end.

Definition Cleanup : call () :=
  let dir := inside "run/net" in
  r ← at_host (ask (ReadDir dir));
  p ← get;
  (match r with inl _ => deconfigure_ifaces (Migration.dir_files dir (files_ (on p))) | inr _ => mret () end);;
  ignored save_flash;;
  ignored (at_host (remove_all chroot));;
  drop_sockets [".qga"; ".qmp0"; ".qmp1"; ".virtcon"];;
  r ← request (QemuInstanceDeregister vmname);
  mret ().
End launcher.
End Launcher.
