(* ===== verification/System.v ===== *)
(** System: what the daemon does when a machine's QEMU process starts, is to
    stop and has stopped ([server/system/instance_register.go],
    [instance_termination.go], [instance_deregister.go] and the requests of
    [services/system/qemu_instance.go]).

    The goroutines of a registration share nothing but the context they run in,
    whose state is an answer; each of them is an operation. *)

From S2P Require Import Prelude.
From S2P Require Import GoStd.
From S2P Require Import Backend.
From S2P Require Import NetIfaces.
From S2P Require Import InstanceProperties.
From S2P Require Import InstanceConf.
From S2P Require Import ConfJson.
From S2P Require Import Monitor.
From S2P Require Import Server.
From S2P Require Import OsUser.
From S2P Require Import Services.
From S2P Require Import Lifecycle.
From S2P Require Import Tasks.
From S2P Require Import Launcher.

Open Scope Z_scope.
#[local] Set Warnings "-register-all".

Module System.
Import Strings Services Server ConfJson Lifecycle Tasks.

Record InstanceRegistrationOptions := { MemActual : Z; PID : Z }.

Definition InstanceRegistrationOptions_Validate (o : InstanceRegistrationOptions) : outcome () :=
  if MemActual o =? 0 then Throw (ErrMsg "invalid actual memory value: must be greater than 0")
  else if PID o =? 0 then Throw (ErrMsg "invalid PID value: must be greater than 0")
  else Ret ().

(** The time is in nanoseconds. *)
Definition second : Z := 1000000000.
Record InstanceTerminationOptions := { GracefulTimeout : Z }.
Definition InstanceTerminationOptions_Validate (o : InstanceTerminationOptions) : outcome () :=
  if GracefulTimeout o <? 5 * second
  then Throw (ErrMsg "graceful shutdown timeout cannot be less than 5 seconds") else Ret ().

Definition validated {A O} (what : string) (validate : O → outcome A) (o : option O) : outcome A :=
  match o with None => Throw (ErrMsg ("empty instance " +:+ what +:+ " opts")) | Some o => validate o end.

(** What became of the process the registration watches. *)
Inductive watched := Watching | Left | CancelledTask.

Section system.
Context `{Env} {hst : Host} `{PciBus, Accounts, Services, Daemon, StatJson, Uuid}.
Context (IsSocketNotAvailable : goerr → bool).
Context (vmname : string).
Abbreviation call := (op daemon).

(** ** Registration *)

Definition register_targets : targets := BlockAnyOperations (vmname +:+ "/registration") [].

Definition InstanceRegistrationTask_BeforeStart (o : option InstanceRegistrationOptions) : call () :=
  lift (validated "registration" InstanceRegistrationOptions_Validate o).

Definition StartInstanceRegistration (o : option InstanceRegistrationOptions) : call string :=
  match o with
  | None => throw (ErrMsg "empty instance registration opts")
  | Some _ =>
      wrap "cannot start instance registration"
        (TaskStart "InstanceRegistrationTask" register_targets
           [WithUniqueLabel (vmname +:+ "/registration"); WithGroupLabel vmname]
           (InstanceRegistrationTask_BeforeStart o))
  end.

Definition optsFromQemuInstanceRegisterRequest (r : Launcher.registration) : InstanceRegistrationOptions :=
  {| MemActual := Launcher.MemActual r mod 2 ^ 32; PID := Launcher.PID r mod 2 ^ 32 |}.

Section registration.
Context (o : InstanceRegistrationOptions).

(** At each tick: no process is an error, another one is waited for. *)
Fixpoint waitForQemuSystem (ticks : nat) : call bool :=
  match ticks with
  | O => mret false
  | S ticks =>
      r ← request (GetCmdline (PID o));
      match r with
      | inl pline => if is_qemu pline then mret true else waitForQemuSystem ticks
      | inr (ErrNotExist _) => throw (ErrMsg "PID was changed")
      | inr e => throw e
      end
  end.

Fixpoint watchdog (ticks : nat) : call watched :=
  match ticks with
  | O => mret Watching
  | S ticks =>
      e ← request CtxDone;
      match e with
      | Some _ => mret Left
      | None =>
          r ← request (GetCmdline (PID o));
          match r with
          | inl pline => if is_qemu pline then watchdog ticks else mret CancelledTask
          | inr _ => mret CancelledTask
          end
      end
  end.

(** Whether the balloon has the size. *)
Definition set_balloon : call bool :=
  Mon_Run vmname (balloon (MemActual o));;
  actual ← through vmname (r ← request (Ask vmname QueryBalloon); done r);
  mret (bool_decide (MemActual o = actual mod 2 ^ 32)).

Fixpoint balloon_attempts (n : nat) (i timeout : Z) : call () :=
  match n with
  | O => throw (ErrMsg "backend is not responding")
  | S n =>
      e ← request CtxDone;
      match e with
      | Some e => throw e
      | None =>
          request (Sleep timeout);;
          let timeout := if i =? 60 then 10 else timeout in
          r ← try set_balloon;
          match r with
          | inl true => mret ()
          | inl false => balloon_attempts n (i + 1) timeout
          | inr e => if IsSocketNotAvailable e then balloon_attempts n (i + 1) timeout else throw e
          end
      end
  end.
Definition initBalloon : call () := ignored (balloon_attempts 180 0 3).

(** An interface's script, if it has one that knows a second stage. *)
Definition second_stage (n : NetIface.t) : call () :=
  let ifup := NetIface.Ifup (NetIface.props n) in
  if bool_decide (ifup = "") then mret ()
  else
    r ← try (ResolveExecutable ifup);
    match r with
    | inr _ => mret ()
    | inl _ =>
        supported ← request (Command "" [ifup; "--test-second-stage-feature"]);
        match supported with
        | inr _ => mret ()
        | inl _ =>
            _ ← request (Command (Filepath.Join [CONFDIR; vmname])
                  [ifup; "--second-stage"; NetIface.Ifname (NetIface.props n)]);
            mret ()
        end
    end.
Fixpoint second_stages (l : list NetIface.t) : call () :=
  match l with [] => mret () | n :: l => second_stage n;; second_stages l end.

Definition initNetworkSecondStage : call () :=
  running ← through vmname (r ← request (Ask vmname QueryStatus); done r);
  (if (running : bool) then mret ()
   else through vmname (r ← request (Ask vmname WaitMachineResumeState); done r));;
  c ← at_host (get_conf vmname);
  second_stages (InstanceProperties.NetIfaceGetList [] (InstanceConf.props c)).

(** [Main] up to the start of the goroutines; the error of the group is that of
    the network's. *)
Definition registration_begins (ticks : nat) : call bool :=
  started ← map_err (λ _, ErrMsg "qemu-system process start failed") (waitForQemuSystem ticks);
  if (started : bool) then NewMonitor vmname;; mret true else mret false.

(** The goroutines, one after the other: what each of them hears does not depend
    on the others, and the answers are arbitrary. *)
Definition InstanceRegistrationTask_Main (ticks watched : nat) : call () :=
  started ← registration_begins ticks;
  if (started : bool) then
    _ ← watchdog watched;
    (if 0 <? MemActual o then initBalloon else mret ());;
    initNetworkSecondStage
  else mret ().
End registration.

(** ** Deregistration *)

Definition InstanceDeregistrationTask_BeforeStart : call () := CloseMonitor vmname.
Definition StartInstanceDeregistration : call string :=
  wrap "cannot start instance deregistration"
    (TaskStart "InstanceDeregistrationTask" (BlockAnyOperations (vmname +:+ "/deregistration") [])
       [WithUniqueLabel (vmname +:+ "/deregistration")] InstanceDeregistrationTask_BeforeStart).

(** ** Termination *)

Definition InstanceTerminationTask_BeforeStart (o : option InstanceTerminationOptions) : call () :=
  lift (validated "termination" InstanceTerminationOptions_Validate o).
Definition StartInstanceTermination (o : option InstanceTerminationOptions) : call string :=
  match o with
  | None => throw (ErrMsg "empty instance termination opts")
  | Some _ =>
      wrap "cannot start instance termination"
        (TaskStart "InstanceTerminationTask" (BlockAnyOperations (vmname +:+ "/shutdown") [])
           [WithUniqueLabel (vmname +:+ "/shutdown")] (InstanceTerminationTask_BeforeStart o))
  end.
Definition optsFromStopQemuInstanceRequest (seconds : Z) : InstanceTerminationOptions :=
  {| GracefulTimeout := wrap64 (seconds * second) |}.

Definition is_net_error (e : goerr) : bool := match e with NetOpError => true | _ => false end.

(** [system_powerdown] every second until it fails, which is taken for the end
    of the machine, or the time is over. *)
Definition powered_down (timeout : Z) : call bool :=
  r ← try (getMonitor vmname);
  match r with
  | inr _ => mret true
  | inl _ => e ← request (Ask vmname (Powerdowns timeout)); mret (bool_decide (is_Some e))
  end.

Definition terminate (o : InstanceTerminationOptions) : call () :=
  Mon_Run vmname cont;;
  stopped ← powered_down (GracefulTimeout o);
  if (stopped : bool) then mret () else unless is_net_error (Mon_Run vmname quit).

Definition InstanceTerminationTask_Main (o : InstanceTerminationOptions) : call () :=
  request (CancelByLabel vmname);;
  terminate o.
End system.

(** ** The requests *)

Section requests.
Context `{Env} {hst : Host} `{PciBus, Accounts, Services, Daemon, StatJson, Uuid}.

Definition QemuInstanceRegister (r : Launcher.registration) : op daemon () :=
  _ ← StartInstanceRegistration (Launcher.reg_Name r) (Some (optsFromQemuInstanceRegisterRequest r));
  mret ().
Definition QemuInstanceDeregister (name : string) : op daemon () := _ ← StartInstanceDeregistration name; mret ().
Definition QemuInstanceStop (name : string) (seconds : Z) : op daemon () :=
  _ ← StartInstanceTermination name (Some (optsFromStopQemuInstanceRequest seconds)); mret ().
End requests.
End System.
