(* ===== verification/Backup.v ===== *)
(** Backup: copying a disk of a running machine ([server/machine/backup.go]). *)

From S2P Require Import Prelude.
From S2P Require Import GoStd.
From S2P Require Import Backend.
From S2P Require Import Disks.
From S2P Require Import InstanceProperties.
From S2P Require Import InstanceConf.
From S2P Require Import ConfJson.
From S2P Require Import Monitor.
From S2P Require Import InstanceQemu.
From S2P Require Import Server.
From S2P Require Import OsUser.
From S2P Require Import Services.
From S2P Require Import Lifecycle.
From S2P Require Import Migration.
From S2P Require Import Tasks.

Open Scope Z_scope.
#[local] Set Warnings "-register-all".

Module Backup.
Import Services Server ConfJson Lifecycle Tasks.

Record DiskBackupOptions := { DiskName : string; Target_ : string; Incremental : bool; ClearBitmap : bool }.
Definition set_DiskName (v : string) (o : DiskBackupOptions) : DiskBackupOptions :=
  {| DiskName := v; Target_ := Target_ o; Incremental := Incremental o; ClearBitmap := ClearBitmap o |}.
Definition set_Target (v : string) (o : DiskBackupOptions) : DiskBackupOptions :=
  {| DiskName := DiskName o; Target_ := v; Incremental := Incremental o; ClearBitmap := ClearBitmap o |}.

Definition Validate : op DiskBackupOptions () :=
  modify (λ o, set_DiskName (Strings.TrimSpace (DiskName o)) o);;
  o ← get;
  fail_if (bool_decide (DiskName o = "")) (ErrMsg "empty diskname");;
  modify (λ o, set_Target (Strings.TrimSpace (Target_ o)) o);;
  o ← get;
  fail_if (bool_decide (Target_ o = "")) (ErrMsg "empty target string").

Record task := {
  on : daemon;
  opts : DiskBackupOptions;
  vm : option InstanceConf.InstanceConf;
  srcSize : Z;
  srcDisk : option Disk.t;
  dstDisk : option Disk.t;
  details : option Migration.DataTransferStat;
  statfile : string;
}.
Definition set_daemon (v : daemon) (t : task) : task :=
  {| on := v; opts := opts t; vm := vm t; srcSize := srcSize t; srcDisk := srcDisk t; dstDisk := dstDisk t;
     details := details t; statfile := statfile t |}.
Definition set_opts (v : DiskBackupOptions) (t : task) : task :=
  {| on := on t; opts := v; vm := vm t; srcSize := srcSize t; srcDisk := srcDisk t; dstDisk := dstDisk t;
     details := details t; statfile := statfile t |}.
Definition set_vm (v : InstanceConf.InstanceConf) (t : task) : task :=
  {| on := on t; opts := opts t; vm := Some v; srcSize := srcSize t; srcDisk := srcDisk t; dstDisk := dstDisk t;
     details := details t; statfile := statfile t |}.
Definition set_disks (size : Z) (src dst : Disk.t) (t : task) : task :=
  {| on := on t; opts := opts t; vm := vm t; srcSize := size; srcDisk := Some src; dstDisk := Some dst;
     details := details t; statfile := statfile t |}.
Definition set_details (v : Migration.DataTransferStat) (t : task) : task :=
  {| on := on t; opts := opts t; vm := vm t; srcSize := srcSize t; srcDisk := srcDisk t; dstDisk := dstDisk t;
     details := Some v; statfile := statfile t |}.
Definition set_statfile (v : string) (t : task) : task :=
  {| on := on t; opts := opts t; vm := vm t; srcSize := srcSize t; srcDisk := srcDisk t; dstDisk := dstDisk t;
     details := details t; statfile := v |}.

Definition NewDiskBackupTask (d : daemon) (o : DiskBackupOptions) : task :=
  {| on := d; opts := o; vm := None; srcSize := 0; srcDisk := None; dstDisk := None; details := None; statfile := "" |}.

(** [defer]: whatever happens, [h] is next. *)
Definition deferred {S A} (h : outcome A → op S ()) (m : op S A) : op S A := λ s,
  let '(r, s1) := m s in
  let '(h', s2) := h r s1 in
  (match h' with Panic q => Panic q | _ => r end, s2).

Section backup.
Context `{Env} {hst : Host} `{Outside, Accounts, Services, Daemon, StatJson, Uuid}.
Context (vmname : string).
(** [GetInstanceQemu] of the machine; the part of its status that the pool keeps;
    [Error] of an error. *)
Context (running : outcome (option InstanceQemu.t)) (self : TaskStat) (text : goerr → string).
Abbreviation call := (op task).

Definition at_daemon {A} (m : op daemon A) : call A := zoom on set_daemon m.
Definition asks (c : tcall) : call (treply c) := at_daemon (request c).
Definition done {A} (r : sys A) : call A := lift (Backend.call r).

(** A pointer that may be null. *)
Definition deref {A} (v : option A) : call A := lift (match v with Some a => Ret a | None => Panic NilDereference end).

Definition backup_label (disk : string) : string := vmname +:+ "/disk-backup/" +:+ disk.

(** ** Preparation *)

Definition local_size (d : Disk.t) : outcome Z := b ← Disk.with_backend id d; Size b.

Definition running_machine : call InstanceQemu.t :=
  c ← at_daemon (Tasks.at_host (get_conf vmname));
  r ← lift running;
  modify (set_vm c);;
  st ← at_daemon (Tasks.at_host (MachineGetStatus vmname ((λ r, (InstanceQemu.Status r).1) <$> r)));
  match st with
  | StatePaused | StateRunning =>
      match r with
      | None => throw (ErrMsg "unexpected error: QEMU instance not found")
      | Some r => mret r
      end
  | _ => throw (ErrMsg "incompatible machine state")
  end.

(** A file that may be gone already. *)
Definition remove_statfile (path : string) : call () :=
  unless (λ e, match e with ErrNotExist _ => true | _ => false end)
    (at_daemon (Tasks.at_host (remove path))).

Definition BeforeStart : call () :=
  zoom opts set_opts Validate;;
  r ← running_machine;
  t ← get;
  src ← lift (match InstanceProperties.DiskGet (DiskName (opts t)) (InstanceQemu.props r) with
              | Some d => Ret d
              | None => Throw (NotConnectedError "instance_qemu" (DiskName (opts t)))
              end);
  fail_if (bool_decide (is_Some (InstanceProperties.DiskGet (Target_ (opts t)) (InstanceQemu.props r))))
    (ErrMsg ("target device is connected to the current machine: " +:+ Target_ (opts t)));;
  local ← lift (Disk.IsLocal src);
  size ← lift (if (local : bool) then local_size src else Ret (Disk.QemuVirtualSize src));
  dst ← lift (Disk.NewDisk (Target_ (opts t)));
  ok ← lift (Disk.IsAvailable dst);
  if negb ok then mret ()
  else
    dlocal ← lift (Disk.IsLocal dst);
    (if (dlocal : bool) then
      dstSize ← lift (local_size dst);
      fail_if (dstSize <? size) (ErrMsg "target size is smaller than source")
    else mret ());;
    modify (set_disks size src dst);;
    modify (set_details Migration.no_stat);;
    base ← lift (Disk.BaseName src);
    modify (set_statfile (stat_file vmname (backup_label base)));;
    t ← get;
    remove_statfile (statfile t).

(** ** The copy *)

Definition updateStat (total remain sent : Z) : call () :=
  if total =? 0 then mret ()
  else modify (set_details {| Migration.Total := total; Migration.Remaining := remain; Migration.Transferred := sent;
                              Migration.Progress := Migration.percent sent total; Migration.Speed := 0 |}).

Definition chroot_path (path : string) : string := Filepath.Join [Filepath.Join [CHROOTDIR; vmname]; path].

Definition mapDeviceToChroot (diskPath : string) : call () :=
  at_daemon (Tasks.at_host (mkdir_all (Filepath.Join [Filepath.Join [CHROOTDIR; vmname]; Filepath.Dir diskPath])));;
  r ← asks (StatDev diskPath);
  rdev ← map_err (λ _, ErrMsg ("stat " +:+ diskPath)) (done r);
  r ← asks (Mknod (chroot_path diskPath) rdev);
  map_err (λ _, ErrMsg ("mknod " +:+ diskPath)) (done r);;
  t ← get;
  c ← deref (vm t);
  r ← asks (Chown (chroot_path diskPath) (InstanceProperties.uid (InstanceConf.props c))); done r.

(** The job, with the bitmap the mode asks for. *)
Definition start_job (base : string) (src : Disk.t) (target : string) (o : DiskBackupOptions) : list command + command :=
  let full := {| JobID := "copy_" +:+ base; Device := base; Target := target; Sync := "full"; Bitmap := "" |} in
  let incremental := {| JobID := "copy_" +:+ base; Device := base; Target := target; Sync := "incremental";
                        Bitmap := "backup" |} in
  if Incremental o then
    if Disk.HasBitmap src then
      if ClearBitmap o then inl [block_dirty_bitmap_clear base "backup"; drive_backup full]
      else inr (drive_backup incremental)
    else inl [block_dirty_bitmap_add base "backup"; drive_backup full]
  else inr (drive_backup full).

Definition run_job (j : list command + command) : call () :=
  at_daemon (match j with inl cs => Mon_RunTransaction vmname cs | inr c => Mon_Run vmname c end).

Definition getJob (jobID : string) : call (option BlockJobInfo) :=
  at_daemon (through vmname (r ← request (Ask vmname QueryBlockJobs);
                             jobs ← Tasks.done r;
                             mret (find (λ j, bool_decide (job_Device j = jobID)) jobs))).

Definition FindError (jobID : string) : call bool :=
  map_err (λ _, ErrMsg "FindBlockJobErrorEvent failed")
    (at_daemon (through vmname (r ← request (Ask vmname (FindBlockJobError jobID)); Tasks.done r))).
Definition FindCompleted (jobID : string) : call bool :=
  map_err (λ _, ErrMsg "FindBlockJobCompletedEvent failed")
    (at_daemon (through vmname (r ← request (Ask vmname (FindBlockJobCompleted jobID)); Tasks.done r))).

(** The ticks: whether the job is completed by then. *)
Fixpoint poll (ticks : nat) (jobID : string) : call bool :=
  match ticks with
  | O => mret false
  | S ticks =>
      e ← asks CtxDone;
      match e with
      | Some e => throw e
      | None =>
          j ← getJob jobID;
          t ← get;
          match j with
          | Some j =>
              let rest := Migration.u64 (Len j - Offset j) in
              updateStat (srcSize t) rest (Migration.u64 (srcSize t - rest));;
              poll ticks jobID
          | None =>
              found ← FindError jobID;
              fail_if found (ErrMsg "errors detected during disk mirroring");;
              found ← FindCompleted jobID;
              fail_if (negb found) (ErrMsg "no completed event found");;
              updateStat (srcSize t) 0 (srcSize t);;
              mret true
          end
      end
  end.

Definition copy_job (ticks : nat) (src dst : Disk.t) : call bool :=
  base ← lift (Disk.BaseName src);
  t ← get;
  run_job (start_job base src (Disk.Path (Disk.props dst)) (opts t));;
  let jobID := "copy_" +:+ base in
  at_daemon (through vmname (r ← request (Ask vmname (WaitJobStatusChange jobID "running")); Tasks.done r));;
  poll ticks jobID.

(** The node of a local target is in the directory of the machine meanwhile. *)
Definition copy (ticks : nat) : call bool :=
  t ← get;
  dst ← deref (dstDisk t);
  local ← lift (Disk.IsLocal dst);
  let path := Disk.Path (Disk.props dst) in
  let body := t ← get; src ← deref (srcDisk t); copy_job ticks src dst in
  if (local : bool) then
    deferred (λ _, _ ← asks (Unlink (chroot_path path)); mret ()) (mapDeviceToChroot path;; body)
  else body.

(** ** The ends *)

Definition writeStatFile (taskErr : option goerr) : call () :=
  t ← get;
  src ← deref (srcDisk t);
  base ← lift (Disk.BaseName src);
  let st := {| ID := ID self;
               State := match taskErr with None => StateCompleted | Some _ => StateFailed end;
               StateDesc := match taskErr with None => StateDesc self | Some e => text e end;
               Details := details t |} in
  at_daemon (Tasks.at_host (write_file (statfile t) (Some (enc_stat (backup_label base) st)))).

Definition error_of {A} (r : outcome A) : option goerr := match r with Throw e => Some e | _ => None end.

Definition Main (ticks : nat) : call bool := deferred (λ r, writeStatFile (error_of r)) (copy ticks).

Definition OnFailure : call () :=
  t ← get;
  src ← deref (srcDisk t);
  base ← lift (Disk.BaseName src);
  ignored (at_daemon (Mon_Run vmname (block_job_cancel ("copy_" +:+ base) true))).

(** ** The request *)

Definition canonical (o : DiskBackupOptions) : DiskBackupOptions :=
  match Disk.NewDisk (DiskName o) with
  | Ret d => match Disk.BaseName d with Ret b => set_DiskName b o | _ => o end
  | _ => o
  end.
Definition StartDiskBackupProcess (o : option DiskBackupOptions) : op daemon string :=
  match o with
  | None => throw (ErrMsg "empty disk backup opts")
  | Some o =>
      let o := canonical o in
      wrap "cannot start disk backup"
        (TaskStart "DiskBackupTask" (BlockBackupOperations vmname (DiskName o))
           [WithUniqueLabel (backup_label (DiskName o)); WithGroupLabel vmname;
            WithGroupLabel (vmname +:+ "/long-running")]
           (λ d, let '(r, t) := BeforeStart (NewDiskBackupTask d o) in (r, on t)))
  end.
End backup.
End Backup.
