(* ===== verification/LauncherFacts.v ===== *)
(** LauncherFacts: what has happened when QEMU is executed, and what is left
    when it has gone. *)

From S2P Require Import Prelude.
From S2P Require Import GoStd.
From S2P Require Import Version.
From S2P Require Import PciAddress.
From S2P Require Import Backend.
From S2P Require Import PciDevice.
From S2P Require Import Disks.
From S2P Require Import HostDevices.
From S2P Require Import Json.
From S2P Require Import InstanceProperties.
From S2P Require Import InstanceConf.
From S2P Require Import CommandLine.
From S2P Require Import ConfJson.
From S2P Require Import Monitor.
From S2P Require Import InstanceQemu.
From S2P Require Import Server.
From S2P Require Import OsUser.
From S2P Require Import Services.
From S2P Require Import Lifecycle.
From S2P Require Import Launcher.
From S2P Require Import Said.

Open Scope Z_scope.
#[local] Set Warnings "-register-all".

Module LauncherFacts.
Import Strings Services Server ConfJson Lifecycle Launcher Said.

Create HintDb launcher discriminated.

(** One step of an operation after the other, on every branch. *)
Ltac sayings lem :=
  repeat first
    [ solve [auto with launcher]
    | apply lem; [|intros ?]
    | case_match ].

Section facts.
Context `{Env} {hst : Host} `{Process, PciBus, Accounts, Services, Launch}.
Context (vmname : string) (depth : nat).

(** ** What an operation says *)

Lemma says_done {A} (r : sys A) P : says said (done r) P.
Proof. apply says_lift. Qed.
Lemma says_at_host {A} (m : op host A) P : says said (at_host m) P.
Proof. apply says_silent. intros p. unfold at_host, zoom. by destruct (m (on p)). Qed.
Lemma says_request c (P : lcall → Prop) : P c → says said (request c) P.
Proof. intros Hc p. exists [c]. split; [done|]. by constructor. Qed.

(** *** Nothing but [launch] executes *)

Definition is_exec (c : lcall) : Prop := match c with Exec _ _ _ => True | _ => False end.
Abbreviation no_exec := (λ c, ¬ is_exec c).
Abbreviation quiet m := (says said m no_exec).

Lemma launch_quiet_bind {A B} (m : op process A) (k : A → op process B) : quiet m → (∀ a, quiet (k a)) → quiet (m ≫= k).
Proof. apply says_bind. Qed.
#[local] Hint Resolve @says_ret @says_lift @says_throw @says_get @says_fail_if says_done says_at_host : launcher.
#[local] Hint Extern 1 (quiet (request _)) => apply says_request; exact id : launcher.
#[local] Hint Extern 2 (quiet (map_err _ _)) => apply says_map_err : launcher.

Lemma quiet_mkdir path : quiet (mkdir path).
Proof. apply says_at_host. Qed.
Lemma quiet_chown path uid : quiet (chown path uid).
Proof. unfold chown. sayings @launch_quiet_bind. Qed.
Lemma quiet_getenv key : quiet (getenv key).
Proof. unfold getenv. sayings @launch_quiet_bind. Qed.
Lemma quiet_is_set key : quiet (is_set key).
Proof. unfold is_set. apply launch_quiet_bind; [apply quiet_getenv|]. intros ?. apply says_ret. Qed.
Lemma quiet_setenv key v : quiet (setenv key v).
Proof. unfold setenv. sayings @launch_quiet_bind. by apply says_silent. Qed.
#[local] Hint Resolve quiet_mkdir quiet_chown quiet_getenv quiet_is_set quiet_setenv : launcher.

Lemma quiet_each copy src dst names : (∀ a b, quiet (copy a b)) → quiet (each_content copy src dst names).
Proof. intros Hc. induction names; cbn [each_content]; sayings @launch_quiet_bind. Qed.
Lemma quiet_Copy n src dst : quiet (Copy n src dst).
Proof.
  revert src dst. induction n as [|n IH]; intros src dst; cbn [Copy]; unfold lcopy, fcopy, dcopy; sayings @launch_quiet_bind.
  by apply quiet_each.
Qed.
Lemma quiet_copy_file src dst : quiet (copy_file depth src dst).
Proof. apply quiet_Copy. Qed.
#[local] Hint Resolve quiet_copy_file : launcher.
Lemma quiet_LookForFile name dirs : quiet (LookForFile name dirs).
Proof. induction dirs; cbn [LookForFile]; sayings @launch_quiet_bind. Qed.
#[local] Hint Resolve quiet_LookForFile : launcher.
Lemma quiet_find_file name dirs e : quiet (find_file name dirs e).
Proof. unfold find_file. sayings @launch_quiet_bind. Qed.
#[local] Hint Resolve quiet_find_file : launcher.
Lemma quiet_loadVfioModule : quiet loadVfioModule.
Proof. unfold loadVfioModule. sayings @launch_quiet_bind. Qed.
Lemma quiet_AssignDriver n d : quiet (AssignDriver n d).
Proof. unfold AssignDriver, unbind. sayings @launch_quiet_bind. Qed.
Lemma quiet_detach d : quiet (detach d).
Proof. apply says_map_err, quiet_AssignDriver. Qed.
#[local] Hint Resolve quiet_loadVfioModule quiet_detach : launcher.
Lemma quiet_detach_all l : quiet (detach_all l).
Proof. induction l; cbn [detach_all]; sayings @launch_quiet_bind. Qed.
#[local] Hint Resolve quiet_detach_all : launcher.
Lemma quiet_detach_devices l : quiet (detach_devices l).
Proof. induction l; cbn [detach_devices]; sayings @launch_quiet_bind. Qed.
#[local] Hint Resolve quiet_detach_devices : launcher.
Lemma quiet_node path dst b : quiet (node path dst b).
Proof. unfold node. sayings @launch_quiet_bind. Qed.
#[local] Hint Resolve quiet_node : launcher.
Lemma quiet_disk_nodes uid l : quiet (disk_nodes vmname uid l).
Proof. induction l; cbn [disk_nodes]; sayings @launch_quiet_bind. Qed.
Lemma quiet_device_nodes l : quiet (device_nodes vmname l).
Proof. induction l; cbn [device_nodes]; sayings @launch_quiet_bind. Qed.
Lemma quiet_iface_files l : quiet (iface_files vmname l).
Proof. induction l; cbn [iface_files]; sayings @launch_quiet_bind. Qed.
Lemma quiet_rom dir : quiet (rom vmname depth dir).
Proof. unfold rom. sayings @launch_quiet_bind. Qed.
Lemma quiet_firmware uid i fl : quiet (firmware vmname depth uid i fl).
Proof. unfold firmware. sayings @launch_quiet_bind. Qed.
Lemma quiet_libraries dir l : quiet (libraries vmname depth dir l).
Proof. induction l; cbn [libraries]; sayings @launch_quiet_bind. Qed.
#[local] Hint Resolve quiet_disk_nodes quiet_device_nodes quiet_iface_files quiet_rom quiet_firmware quiet_libraries : launcher.
Lemma quiet_iscsi dir : quiet (iscsi vmname depth dir).
Proof. unfold iscsi. sayings @launch_quiet_bind. Qed.
Lemma quiet_prepareChroot c dir : quiet (prepareChroot vmname depth c dir).
Proof. unfold prepareChroot. sayings @launch_quiet_bind. apply says_try, quiet_iscsi. Qed.
Lemma quiet_set_quota q : quiet (set_quota q).
Proof. unfold set_quota. sayings @launch_quiet_bind. Qed.
Lemma quiet_configuration : quiet (configuration vmname).
Proof. unfold configuration. sayings @launch_quiet_bind. Qed.
Lemma quiet_root_dir : quiet root_dir.
Proof. unfold root_dir. sayings @launch_quiet_bind. Qed.
Lemma quiet_save_startup c : quiet (save_startup c).
Proof. apply says_at_host. Qed.
#[local] Hint Resolve quiet_prepareChroot quiet_set_quota quiet_configuration quiet_root_dir quiet_save_startup : launcher.

(** *** When QEMU is executed *)

Abbreviation clean p := (unsaid said is_exec p).
Definition executed (b : string) (args : list string) (e : gmap string string) (p : process) : Prop := Exec b args e ∈ said p.

(** What comes before an execution has returned. *)
Lemma exec_bind {A B} (m : op process A) (k : A → op process B) p b args e :
  quiet m → clean p → executed b args e ((m ≫= k) p).2 →
  ∃ x p1, m p = (Ret x, p1) ∧ clean p1 ∧ said p `prefix_of` said p1 ∧ (m ≫= k) p = k x p1 ∧ executed b args e (k x p1).2.
Proof. intros Hm Hp. by apply said_bind. Qed.
Lemma quiet_executes {A} (m : op process A) p b args e : quiet m → clean p → executed b args e (m p).2 → False.
Proof. intros Hm Hp. by apply (said_never said is_exec). Qed.
Lemma clean_executed b args e p : clean p → executed b args e p → False.
Proof. intros Hp. by apply (unsaid_said said is_exec). Qed.

(** The node of a disk, and its owner. *)
Definition has_node (uid : Z) (d : Disk.t) (p : process) : Prop :=
  ∃ rdev, Mknod (inside vmname (Disk.Path (Disk.props d))) true rdev ∈ said p ∧
          Chown (inside vmname (Disk.Path (Disk.props d))) uid ∈ said p.
Lemma has_node_prefix uid d p p' : said p `prefix_of` said p' → has_node uid d p → has_node uid d p'.
Proof. intros [l Hl] (rdev & Hm & Hc). exists rdev. rewrite Hl, !elem_of_app. tauto. Qed.

Lemma launch_request_Ret c p r p' : request c p = (Ret r, p') → r = launch_answer (said p) c ∧ said p' = said p ++ [c].
Proof. by intros [= <- <-]. Qed.

Lemma node_Ret path dst b p p' : node path dst b p = (Ret (), p') → ∃ rdev, Mknod dst b rdev ∈ said p'.
Proof.
  unfold node. intros Hn. apply op_bind_Ret in Hn as (r & p1 & _ & Hn). apply op_bind_Ret in Hn as (rdev & p2 & _ & Hn).
  apply op_bind_Ret in Hn as (r' & p3 & [_ Hs]%(launch_request_Ret (Mknod dst b rdev)) & Hn). exists rdev.
  unfold map_err, done, lift in Hn. destruct (Backend.call r'); [|done..]. injection Hn as _ <-. rewrite Hs. set_solver.
Qed.
Lemma chown_Ret path uid p p' : chown path uid p = (Ret (), p') → Chown path uid ∈ said p'.
Proof.
  unfold chown. intros Hn. apply op_bind_Ret in Hn as (r & p1 & [_ Hs]%(launch_request_Ret (Chown path uid)) & Hn). unfold done, lift in Hn.
  injection Hn as _ <-. rewrite Hs. set_solver.
Qed.

Lemma disk_nodes_Ret uid l p p' : disk_nodes vmname uid l p = (Ret (), p') →
  ∀ d, d ∈ l → Disk.IsLocal d = Ret true → has_node uid d p'.
Proof.
  revert p. induction l as [|d l IH]; intros p Hl d' Hd Hloc; [by apply elem_of_nil in Hd|].
  cbn [disk_nodes] in Hl. apply op_bind_Ret in Hl as (local & p1 & [= Hd1 <-] & Hl).
  apply op_bind_Ret in Hl as ([] & p2 & Hd2 & Hl). apply elem_of_cons in Hd as [->|Hd]; [|by eapply IH].
  rewrite Hloc in Hd1. injection Hd1 as <-. eapply has_node_prefix; [eapply says_prefix; [apply quiet_disk_nodes|exact Hl]|].
  apply op_bind_Ret in Hd2 as ([] & p3 & _ & Hd2). apply op_bind_Ret in Hd2 as ([] & p4 & Hn & Hc).
  apply node_Ret in Hn as [rdev Hn]. exists rdev. split; [|by apply chown_Ret in Hc].
  destruct (says_prefix _ _ _ _ _ _ (quiet_chown _ _) Hc) as [l' ->]. apply elem_of_app. by left.
Qed.

(** The directory has the nodes of all local disks, whatever else is not in it. *)
Lemma prepareChroot_Ret c dir p r p' : prepareChroot vmname depth c dir p = (Ret r, p') →
  ∀ l d, InstanceProperties.DiskGetList [] (InstanceConf.props c) = Ret l → d ∈ l → Disk.IsLocal d = Ret true →
    has_node (InstanceProperties.uid (InstanceConf.props c)) d p'.
Proof.
  unfold prepareChroot. intros Hp l d Hl Hd Hloc. do 6 apply op_bind_Ret in Hp as (? & ? & _ & Hp).
  apply op_bind_Ret in Hp as (disks & p1 & Hl' & Hp). unfold lift in Hl'. rewrite Hl in Hl'. injection Hl' as <- <-.
  apply op_bind_Ret in Hp as ([] & p2 & Hn & Hp). pose proof (disk_nodes_Ret _ _ _ _ Hn d Hd Hloc) as Hh.
  eapply has_node_prefix; [|exact Hh]. eapply says_prefix; [|exact Hp]. sayings @launch_quiet_bind. apply says_try, quiet_iscsi.
Qed.

(** The daemon has accepted the machine. *)
Definition registered (mem : Z) (p : process) : Prop :=
  ∃ log r, MemActual r = mem ∧ launch_answer log (QemuInstanceRegister r) = inl () ∧
    log ++ [QemuInstanceRegister r] `prefix_of` said p.

(** After an execution nothing is said any more. *)
Lemma last_said b args e p :
  said ((r ← request (Exec b args e); done (A:=()) r;; mret Replaced) p).2 = said p ++ [Exec b args e].
Proof.
  unfold done, lift, mbind, op_bind, request. cbn. by destruct (Backend.call _).
Qed.

Lemma registered_prefix mem p p' : said p `prefix_of` said p' → registered mem p → registered mem p'.
Proof. intros Hp (log & r & Hm & Ha & Hl). exists log, r. split_and!; [done..|]. by etransitivity. Qed.

Lemma done_Ret (r : sys ()) p p' : done r p = (Ret (), p') → r = inl ().
Proof. unfold done, lift. destruct r as [[]|e]; [done|by destruct e]. Qed.

Lemma register_Ret r p p1 p2 ok :
  request (QemuInstanceRegister r) p = (Ret ok, p1) → done ok p1 = (Ret (), p2) → registered (MemActual r) p2.
Proof.
  intros [-> Hs]%(launch_request_Ret (QemuInstanceRegister r)) Hd. exists (said p), r. split_and!; [done|by apply done_Ret in Hd|].
  rewrite <- Hs. unfold done in Hd. injection Hd as _ <-. done.
Qed.

Lemma launch_exec c args dir p b a e : clean p → executed b a e (launch vmname depth c args dir p).2 →
  a = args ∧
  registered (mem_actual (InstanceProperties.MemoryGetActual (InstanceConf.props c))) (launch vmname depth c args dir p).2 ∧
  ∀ l d, InstanceProperties.DiskGetList [] (InstanceConf.props c) = Ret l → d ∈ l → Disk.IsLocal d = Ret true →
    has_node (InstanceProperties.uid (InstanceConf.props c)) d (launch vmname depth c args dir p).2.
Proof.
  intros Hc He. unfold launch in *.
  apply exec_bind in He as ([] & p1 & _ & Hc1 & _ & -> & He); [|by sayings @launch_quiet_bind|done].
  apply exec_bind in He as (r & p2 & Hch & Hc2 & _ & -> & He); [|by auto with launcher|done].
  pose proof (prepareChroot_Ret _ _ _ _ _ Hch) as Hnodes. clear Hch Hc1.
  apply exec_bind in He as ([] & p3 & _ & Hc3 & Hp3 & -> & He); [|by auto with launcher|done].
  apply exec_bind in He as ([] & p4 & _ & Hc4 & Hp4 & -> & He); [|by auto with launcher|done].
  apply exec_bind in He as ([] & p5 & _ & Hc5 & Hp5 & -> & He); [|by auto with launcher|done].
  apply exec_bind in He as ([] & p6 & _ & Hc6 & Hp6 & -> & He); [|by auto with launcher|done].
  apply exec_bind in He as (ok & p7 & Hreg & Hc7 & Hp7 & -> & He); [|by auto with launcher|done].
  apply exec_bind in He as ([] & p8 & Hok & Hc8 & Hp8 & -> & He); [|by auto with launcher|done].
  pose proof (register_Ret _ _ _ _ _ Hreg Hok) as Hr. clear Hreg Hok.
  apply exec_bind in He as ([] & p9 & _ & Hc9 & Hp9 & -> & He); [|by auto with launcher|done].
  apply exec_bind in He as (bin & pa & _ & Hca & Hpa & -> & He); [|by auto with launcher|done].
  apply exec_bind in He as (st & pb & _ & Hcb & Hpb & -> & He); [|by auto with launcher|done].
  unfold executed in He. rewrite last_said in He.
  assert (said p8 `prefix_of` said pb ++ [Exec (default QEMU_BINARY bin) args (env st)]) as Hpre.
  { repeat (etransitivity; [eassumption|]). by eexists. }
  split_and!.
  - apply elem_of_app in He as [He|He]; [by eapply clean_executed in He|]. apply list_elem_of_singleton in He. by injection He.
  - eapply registered_prefix; [|exact Hr]. by rewrite last_said.
  - intros l d Hl Hd Hloc. eapply has_node_prefix; [|by eapply Hnodes]. rewrite last_said.
    etransitivity; [|exact Hpre]. clear Hpre Hp9. repeat (etransitivity; [eassumption|]). done.
Qed.

(** ** [Start] *)

Lemma says_ask (a : service) : quiet (at_host (ask a)).
Proof. apply says_at_host. Qed.
#[local] Hint Resolve says_ask : launcher.

(** The process when it comes to read the configuration: it has looked for the file
    [down] and made a directory, which changes no file. *)
Definition at_reading (p : process) : process :=
  ((down ← at_host (stat (Filepath.Join [CONFDIR; vmname; "down"])); mkdir (Filepath.Join [CONFDIR; vmname; ".runtime"])) p).2.
Lemma at_reading_files p : files_ (on (at_reading p)) = files_ (on p) ∧ passwd (on (at_reading p)) = passwd (on p).
Proof.
  unfold at_reading, mkdir, at_host, zoom, stat, mkdir_all, ask, Services.done. go_unfold. cbn.
  repeat first [case_match; simplify_eq/=|done].
Qed.

(** What it asks the version of. *)
Definition root : op process string := _ ← is_set "_DEBUG"; root_dir.

(** QEMU is executed by [launch] alone: for the configuration that was read,
    and with the command line made of it and of the version that was told. *)
Lemma Start_exec p b a e : clean p → executed b a e (Start vmname depth p).2 →
  ∃ c p2 args dir p3,
    configuration vmname (at_reading p) = (Ret c, p2) ∧
    CommandLine.GetCommandLine c (Some (features (env p2))) = Ret args ∧
    root p2 = (Ret dir, p3) ∧
    let v := answer (log (on p3)) (GetVersion dir QEMU_BINARY) in
    ∃ p5, clean p5 ∧ Start vmname depth p = launch vmname depth c (args ++ chroot_args vmname v) dir p5.
Proof.
  intros Hc He. unfold Start in *.
  apply exec_bind in He as (down & p1 & Hdown & Hc1 & _ & -> & He); [|by auto with launcher|done].
  destruct down; [by apply quiet_executes in He; [|apply says_ret|]|].
  apply exec_bind in He as ([] & p2 & Hmk & Hc2 & _ & -> & He); [|by auto with launcher|done].
  assert (at_reading p = p2) as Hat by (unfold at_reading; by rewrite (op_bind_run _ _ _ _ _ Hdown), Hmk).
  apply exec_bind in He as (c & p3 & Hconf & Hc3 & _ & -> & He); [|by auto with launcher|done].
  apply exec_bind in He as (s & p4 & Hs & Hc4 & _ & -> & He); [|by auto with launcher|done].
  injection Hs as <- <-.
  destruct (CommandLine.GetCommandLine c _) as [args|err|q] eqn:Hargs.
  2: by apply quiet_executes in He; [|apply says_ret|].
  2: by apply quiet_executes in He; [|apply says_lift|].
  apply exec_bind in He as (d & p5 & Hdebug & Hc5 & _ & -> & He); [|by auto with launcher|done].
  destruct d; [by apply quiet_executes in He; [|apply says_ret|]|].
  apply exec_bind in He as (dir & p6 & Hroot & Hc6 & _ & -> & He); [|by auto with launcher|done].
  apply exec_bind in He as (v & p7 & Hv & Hc7 & _ & -> & He); [|by auto with launcher|done].
  apply exec_bind in He as (d & p8 & _ & Hc8 & _ & -> & He); [|by auto with launcher|done].
  destruct d; [by apply quiet_executes in He; [|apply says_ret|]|].
  injection Hv as <- _. exists c, p3, args, dir, p6. rewrite Hat. split; [done|]. split; [done|]. split.
  { unfold root. by rewrite (op_bind_run _ _ _ _ _ Hdebug). }
  by exists p8.
Qed.
End facts.

(** ** The memory a machine is registered with *)

(** [uint32(mb) << 20] keeps twelve bits of the number of megabytes. *)
Lemma mem_actual_wraps mb : mem_actual mb = mb mod 4096 * 2 ^ 20.
Proof.
  unfold mem_actual. change (2 ^ 32) with (4096 * 2 ^ 20) at 2.
  rewrite Z.mul_mod_distr_r by done. f_equal.
  change (2 ^ 32) with (4096 * 1048576). rewrite Z.rem_mul_r by done.
  rewrite Z.mul_comm, Z.mod_add, Z.mod_mod; done.
Qed.
End LauncherFacts.
