(* ===== verification/TasksFacts.v ===== *)
(** TasksFacts: how often and how long the daemon tries to start a task, what it
    does for a machine that starts or stops, and what it tells of a task. *)

From S2P Require Import Prelude.
From S2P Require Import GoStd.
From S2P Require Import GoFacts.
From S2P Require Import Backend.
From S2P Require Import Json.
From S2P Require Import InstanceProperties.
From S2P Require Import InstanceConf.
From S2P Require Import ConfJson.
From S2P Require Import Monitor.
From S2P Require Import Server.
From S2P Require Import Services.
From S2P Require Import Lifecycle.
From S2P Require Import Said.
From S2P Require Import Tasks.
From S2P Require Import Launcher.
From S2P Require Import System.

Open Scope Z_scope.
#[local] Set Warnings "-register-all".

Module TasksFacts.
Import Services Server ConfJson Said Tasks System.

Create HintDb tasks discriminated.

Section speaking.
Context `{Env} {hst : Host} `{Accounts, Services, Daemon, StatJson, Uuid}.

(** ** What an operation of the daemon says *)

Lemma request_run c d : request c d = (Ret (daemon_answer (said d) c),
  {| on := on d; monitors := monitors d; said := said d ++ [c] |}).
Proof. done. Qed.
Lemma daemon_request_Ret c d r d' : request c d = (Ret r, d') →
  r = daemon_answer (said d) c ∧ said d' = said d ++ [c] ∧ monitors d' = monitors d ∧ on d' = on d.
Proof. by intros [= <- <-]. Qed.
Lemma daemon_says_request c (P : tcall → Prop) : P c → says said (request c) P.
Proof. intros Hc d. exists [c]. split; [done|]. by constructor. Qed.
Lemma daemon_says_at_host {A} (m : op host A) P : says said (Tasks.at_host m) P.
Proof. apply says_silent. intros d. unfold at_host, zoom. by destruct (m (on d)). Qed.
Lemma daemon_says_done {A} (r : sys A) P : says said (Tasks.done r) P.
Proof. apply says_lift. Qed.
Lemma says_through {A} vmname (m : op daemon A) P : says said m P → says said (through vmname m) P.
Proof.
  intros Hm. unfold through, getMonitor, Exists. apply says_bind; [|intros ?; exact Hm].
  apply says_bind; [|intros ?; apply says_fail_if]. apply says_bind; [apply says_get|intros ?; apply says_ret].
Qed.
Lemma says_ask_done {A} vmname q (f : heard_of q → sys A) (P : tcall → Prop) : P (Ask vmname q) →
  says said (through vmname (r ← request (Ask vmname q); Tasks.done (f r))) P.
Proof.
  intros Hc. apply says_through, says_bind; [by apply daemon_says_request|intros ?; apply daemon_says_done].
Qed.
Lemma says_Mon_Run vmname c (P : tcall → Prop) : P (Ask vmname (Run c)) → says said (Mon_Run vmname c) P.
Proof. apply (says_ask_done vmname (Run c) id). Qed.

Lemma costs_request w c n : (w c ≤ n)%nat → costs said w (request c) n.
Proof. intros Hc d. exists [c]. split; [done|]. unfold total. cbn. lia. Qed.

(** ** Attempts to start a task *)

Definition start_weight (c : tcall) : nat := match c with StartTask _ _ _ => 1 | _ => 0 end.
Definition sleep_weight (c : tcall) : nat := match c with Sleep n => Z.to_nat n | _ => 0 end.

Lemma attempts_costs w n kind tgt labels last a :
  (w (StartTask kind tgt labels) + w (Sleep 1) ≤ a)%nat → (∀ l, w (StatByLabel l) = 0%nat) →
  costs said w (attempts n (request (StartTask kind tgt labels)) last) (n * a).
Proof.
  intros Ha Hw. revert last. induction n as [|n IH]; intros last; cbn [attempts]; [by apply costs_silent|].
  eapply costs_mono; [|eapply (costs_bind said w _ _ (w (StartTask kind tgt labels)) (w (Sleep 1) + n * a)%nat)].
  - cbn. lia.
  - by apply costs_request.
  - intros [tid|objects|e]; [by apply costs_silent| |by apply costs_silent].
    apply costs_bind_0; [apply costs_request; by rewrite Hw|]. intros stats.
    destruct (locked_by stats); [by apply costs_silent|].
    apply costs_bind; [by apply costs_request|]. intros _. apply IH.
Qed.

(** however long others hold what a task needs, the daemon tries to start it
    at most ten times, and waits ten seconds at most. *)
Theorem taskStart_bounded kind tgt labels d :
  ∃ new, said (taskStart (request (StartTask kind tgt labels)) d).2 = said d ++ new ∧
    (total start_weight new ≤ 10)%nat ∧ (total sleep_weight new ≤ 10)%nat.
Proof.
  destruct (attempts_costs start_weight 10 kind tgt labels concurrent 1 (le_n _) (λ _, eq_refl) d) as (new & Hs & Hn).
  destruct (attempts_costs sleep_weight 10 kind tgt labels concurrent 1 (le_n _) (λ _, eq_refl) d) as (new' & Hs' & Hn').
  exists new. split_and!; [done|done|]. unfold taskStart in *. rewrite Hs in Hs'. by apply app_inv_head in Hs' as ->.
Qed.

(** A task that is started has been taken and has been prepared. *)
Lemma TaskStart_Ret kind tgt labels before d tid d' : TaskStart kind tgt labels before d = (Ret tid, d') →
  ∃ d1, taskStart (request (StartTask kind tgt labels)) d = (Ret tid, d1) ∧ before d1 = (Ret (), d').
Proof.
  unfold TaskStart. intros Ht. apply op_bind_Ret in Ht as (tid' & d1 & Hs & Ht).
  apply op_bind_Ret in Ht as ([] & d2 & Hb & [= <- <-]). by exists d1.
Qed.

(** ** Registration *)

Definition is_balloon (size : Z) (c : tcall) : Prop :=
  match c with Ask _ (Run (balloon v)) => v = size | _ => True end.

Context (unavailable : goerr → bool) (vmname : string).
#[local] Hint Resolve @says_ret @says_lift @says_throw @says_get @says_fail_if daemon_says_at_host daemon_says_done : tasks.
#[local] Hint Extern 1 (says _ (request _) _) => apply daemon_says_request; exact I : tasks.
#[local] Hint Extern 1 (says _ (request _) _) => apply daemon_says_request; reflexivity : tasks.
#[local] Hint Extern 1 (says _ (try _) _) => apply says_try : tasks.
#[local] Hint Extern 1 (says _ (through _ _) _) => apply says_through : tasks.

Ltac speaking :=
  repeat first
    [ solve [auto with tasks]
    | apply says_bind; [|intros ?]
    | apply says_try | apply says_through | apply says_map_err | apply says_unless
    | case_match ].

Lemma set_balloon_says o : says said (set_balloon vmname o) (is_balloon (MemActual o)).
Proof. unfold set_balloon, Mon_Run. speaking. Qed.
Lemma set_balloon_silent o : says said (set_balloon vmname o) (λ c, sleep_weight c = 0%nat).
Proof. unfold set_balloon, Mon_Run. speaking. Qed.

Lemma balloon_attempts_says o n i timeout :
  says said (balloon_attempts unavailable vmname o n i timeout) (is_balloon (MemActual o)).
Proof.
  revert i timeout. induction n as [|n IH]; intros i timeout; cbn [balloon_attempts]; [apply says_throw|].
  pose proof (set_balloon_says o). speaking.
Qed.

(** The time that [n] attempts take from attempt [i] on. *)
Fixpoint waits (n : nat) (i timeout : Z) : nat :=
  match n with
  | O => 0
  | S n => Z.to_nat timeout + waits n (i + 1) (if i =? 60 then 10 else timeout)
  end.
Lemma balloon_attempts_costs o n i timeout :
  costs said sleep_weight (balloon_attempts unavailable vmname o n i timeout) (waits n i timeout).
Proof.
  revert i timeout. induction n as [|n IH]; intros i timeout; cbn [balloon_attempts waits]; [by apply costs_silent|].
  apply costs_bind_0; [by apply costs_request|]. intros [e|]; [by apply costs_silent|].
  apply costs_bind; [by apply costs_request|]. intros _.
  apply costs_bind_0; [by apply costs_try, costs_says, set_balloon_silent|].
  intros [[]|e]; [by apply costs_silent|apply IH|]. destruct (unavailable e); [apply IH|by apply costs_silent].
Qed.

(** No request of a balloon goes wrong in another way than with an error. *)
Lemma no_panic_through {A} vm (m : op daemon A) : no_panic m → no_panic (through vm m).
Proof.
  intros Hm. unfold through, getMonitor, Exists. apply no_panic_bind; [|intros ?; exact Hm].
  intros d q. unfold mbind, op_bind, get, fail_if. cbn. by destruct (negb _).
Qed.
Lemma no_panic_asked {A} c (f : treply c → sys A) : no_panic (r ← request c; Tasks.done (f r)).
Proof.
  apply no_panic_bind; [done|]. intros r. apply no_panic_lift. intros q. by destruct (f r).
Qed.
Lemma daemon_no_panic_try {A} (m : op daemon A) : no_panic m → no_panic (try m).
Proof. intros Hm d q. unfold try. specialize (Hm d). destruct (m d) as [[|e|p] ?]; [done..|]. by destruct (Hm p). Qed.

Lemma set_balloon_no_panic o : no_panic (set_balloon vmname o).
Proof.
  unfold set_balloon, Mon_Run.
  apply no_panic_bind; [apply no_panic_through, (no_panic_asked (Ask vmname (Run _)) id)|]. intros _.
  apply no_panic_bind; [apply no_panic_through, (no_panic_asked (Ask vmname QueryBalloon) id)|]. intros ?. apply no_panic_ret.
Qed.
#[local] Hint Resolve @no_panic_ret @no_panic_throw set_balloon_no_panic : tasks.
#[local] Hint Resolve daemon_no_panic_try : tasks.
Lemma balloon_attempts_no_panic o n i timeout : no_panic (balloon_attempts unavailable vmname o n i timeout).
Proof.
  revert i timeout. induction n as [|n IH]; intros i timeout; cbn [balloon_attempts]; [auto with tasks|].
  repeat first [done | solve [auto with tasks] | apply no_panic_bind; [|intros ?] | case_match].
Qed.

Lemma initBalloon_spec o d :
  (initBalloon unavailable vmname o d).1 = Ret () ∧
  ∃ new, said (initBalloon unavailable vmname o d).2 = said d ++ new ∧
    Forall (is_balloon (MemActual o)) new ∧ (total sleep_weight new ≤ 1373)%nat.
Proof.
  split.
  - pose proof (balloon_attempts_no_panic o 180 0 3 d) as Hp. unfold initBalloon, ignored, unless.
    destruct (balloon_attempts _ _ _ _ _ _ d) as [[[]|e|q] d']; [done|done|by destruct (Hp q)].
  - destruct (says_unless said (λ _, true) _ _ (balloon_attempts_says o 180 0 3) d) as (new & Hs & Hb).
    destruct (costs_unless said sleep_weight (λ _, true) _ _ (balloon_attempts_costs o 180 0 3) d) as (new' & Hs' & Hn).
    exists new. split_and!; [exact Hs|done|]. rewrite Hs in Hs'. apply app_inv_head in Hs' as ->. exact Hn.
Qed.

(** setting the balloon of a registered machine asks QEMU for the registered
    size and no other, gives up after at most 1373 seconds of waiting, and never
    fails the registration. *)
Theorem initBalloon_bounded o d :
  (initBalloon unavailable vmname o d).1 = Ret () ∧
  ∃ new, said (initBalloon unavailable vmname o d).2 = said d ++ new ∧
    Forall (is_balloon (MemActual o)) new ∧ (total sleep_weight new ≤ 1373)%nat.
Proof. apply initBalloon_spec. Qed.

(** A request that is granted is valid. *)
Lemma QemuInstanceRegister_Ret r d : (System.QemuInstanceRegister r d).1 = Ret () →
  Launcher.MemActual r mod 2 ^ 32 ≠ 0 ∧ Launcher.PID r mod 2 ^ 32 ≠ 0.
Proof.
  destruct (System.QemuInstanceRegister r d) as [r' d'] eqn:Hr. unfold System.QemuInstanceRegister in Hr. intros Hr'. cbn in Hr'. subst r'.
  apply op_bind_Ret in Hr as (tid & d1 & Hs & _). unfold StartInstanceRegistration, wrap in Hs.
  unfold map_err in Hs. destruct (TaskStart _ _ _ _ _) as [[t| |] d2] eqn:Ht; [|done..].
  apply TaskStart_Ret in Ht as (d3 & _ & Hb). unfold InstanceRegistrationTask_BeforeStart, lift in Hb. injection Hb as Hv _.
  cbn in Hv. unfold InstanceRegistrationOptions_Validate, optsFromQemuInstanceRegisterRequest in Hv. cbn in Hv.
  repeat case_match; try done. lia.
Qed.

(** ** Termination *)

Lemma through_in {A} vm (m : op daemon A) d : vm ∈ monitors d → through vm m d = m d.
Proof.
  intros Hv. unfold through, getMonitor, Exists, mbind, op_bind, get, mret, op_ret, fail_if. cbn.
  by rewrite bool_decide_true.
Qed.
Lemma through_not_in {A} vm (m : op daemon A) d : vm ∉ monitors d → through vm m d = (Throw NetOpError, d).
Proof.
  intros Hv. unfold through, getMonitor, Exists, mbind, op_bind, get, mret, op_ret, fail_if. cbn.
  by rewrite bool_decide_false.
Qed.
Lemma Mon_Run_in vm c d : vm ∈ monitors d →
  Mon_Run vm c d = (Backend.call (daemon_answer (said d) (Ask vm (Run c)) : sys ()),
                    {| on := on d; monitors := monitors d; said := said d ++ [Ask vm (Run c)] |}).
Proof. intros Hv. unfold Mon_Run. rewrite through_in by done. done. Qed.

Definition heard (cs : list tcall) (d : daemon) : daemon :=
  {| on := on d; monitors := monitors d; said := said d ++ cs |}.

Lemma terminate_run o d : vmname ∈ monitors d →
  let log1 := said d ++ [Ask vmname (Run cont)] in
  let log2 := log1 ++ [Ask vmname (Powerdowns (GracefulTimeout o))] in
  terminate vmname o d =
    match daemon_answer (said d) (Ask vmname (Run cont)) : sys () with
    | inr e => (Throw e, heard [Ask vmname (Run cont)] d)
    | inl _ =>
        match daemon_answer log1 (Ask vmname (Powerdowns (GracefulTimeout o))) : option goerr with
        | Some _ => (Ret (), heard [Ask vmname (Run cont); Ask vmname (Powerdowns (GracefulTimeout o))] d)
        | None =>
            (match daemon_answer log2 (Ask vmname (Run quit)) : sys () with
             | inl _ | inr NetOpError => Ret ()
             | inr e => Throw e
             end,
             heard [Ask vmname (Run cont); Ask vmname (Powerdowns (GracefulTimeout o)); Ask vmname (Run quit)] d)
        end
    end.
Proof.
  intros Hv log1 log2. unfold terminate, powered_down. unfold mbind at 1, op_bind. rewrite Mon_Run_in by done.
  fold (heard [Ask vmname (Run cont)] d).
  destruct (daemon_answer (said d) (Ask vmname (Run cont))) as [[]|e]; cbn [Backend.call]; [|done].
  assert (Hg : getMonitor vmname (heard [Ask vmname (Run cont)] d) = (Ret (), heard [Ask vmname (Run cont)] d)).
  { unfold getMonitor, Exists, mbind, op_bind, get, mret, op_ret, fail_if. cbn. by rewrite bool_decide_true. }
  unfold try, mbind, op_bind. rewrite Hg. cbn. fold log1.
  destruct (daemon_answer log1 _) as [e|] eqn:Hp; cbn; [unfold log1, heard; by rewrite <- app_assoc|].
  unfold unless. rewrite Mon_Run_in by done. cbn. fold log1 log2.
  unfold heard. replace (log2 ++ _) with (said d ++ [Ask vmname (Run cont); Ask vmname (Powerdowns (GracefulTimeout o));
    Ask vmname (Run quit)]) by (unfold log2, log1; by rewrite <- !app_assoc).
  destruct (daemon_answer log2 (Ask vmname (Run quit))) as [[]|e]; cbn; [done|]. by destruct e.
Qed.

(** stopping a machine ends without an error exactly when QEMU resumes it and
    then either no longer answers a request to power down, before the timeout, or
    is told to quit after it, and does so or has gone. *)
Theorem terminate_stops o d : vmname ∈ monitors d →
  let log1 := said d ++ [Ask vmname (Run cont)] in
  let log2 := log1 ++ [Ask vmname (Powerdowns (GracefulTimeout o))] in
  (terminate vmname o d).1 = Ret () ↔
    daemon_answer (said d) (Ask vmname (Run cont)) = inl () ∧
    (is_Some (daemon_answer log1 (Ask vmname (Powerdowns (GracefulTimeout o))) : option goerr) ∨
     (Ask vmname (Run quit) ∈ said (terminate vmname o d).2 ∧
      daemon_answer log2 (Ask vmname (Run quit)) ∈ [inl (); inr NetOpError])).
Proof.
  clear unavailable. intros Hv log1 log2. rewrite (terminate_run o d Hv). fold log1 log2.
  destruct (daemon_answer (said d) (Ask vmname (Run cont))) as [[]|e]; cbn [fst snd]; [|naive_solver].
  destruct (daemon_answer log1 (Ask vmname (Powerdowns _))) as [e|]; cbn [fst snd].
  { split; [|done]. intros _. split; [done|]. left. by eexists. }
  assert (Hin : Ask vmname (Run quit) ∈ said (heard [Ask vmname (Run cont); Ask vmname (Powerdowns (GracefulTimeout o)); Ask vmname (Run quit)] d)).
  { apply elem_of_app. right. do 2 right. by left. }
  destruct (daemon_answer log2 (Ask vmname (Run quit))) as [[]|e].
  - split; [intros _|done]. split; [done|]. right. split; [done|by left].
  - split.
    + intros He. assert (e = NetOpError) as -> by (by destruct e). split; [done|]. right. split; [done|]. right. by left.
    + intros (_ & [[? ?]|(_ & [Hx|[Hx|Hx]%elem_of_cons]%elem_of_cons)]); [done|done| |by apply elem_of_nil in Hx].
      by injection Hx as ->.
Qed.
End speaking.
End TasksFacts.
