(* ===== verification/LauncherTheorems.v ===== *)
(** LauncherTheorems: what the launcher and the daemon make of a machine's start
    together, and a machine that starts. *)

From S2P Require Import Prelude.
From S2P Require Import GoStd.
From S2P Require Import Version.
From S2P Require Import Backend.
From S2P Require Import PciAddress.
From S2P Require Import PciDevice.
From S2P Require Import Disks.
From S2P Require Import Json.
From S2P Require Import InstanceProperties.
From S2P Require Import InstanceConf.
From S2P Require Import CommandLine.
From S2P Require Import ConfInvariant.
From S2P Require Import ConfTheorems.
From S2P Require Import CommandLineFacts.
From S2P Require Import ConfJson.
From S2P Require Import Monitor.
From S2P Require Import Server.
From S2P Require Import OsUser.
From S2P Require Import Services.
From S2P Require Import Lifecycle.
From S2P Require Import LifecycleFacts.
From S2P Require Import LifecycleTheorems.
From S2P Require Import Tasks.
From S2P Require Import Launcher.
From S2P Require Import System.
From S2P Require Import Said.
From S2P Require Import LauncherFacts.
From S2P Require Import TasksFacts.

Open Scope Z_scope.
#[local] Set Warnings "-register-all".

Module Starting.
Import Services Server ConfJson Lifecycle Launcher Said LauncherFacts.

Section starting.
Context `{Env} {hst : Host} `{Process, PciBus, Accounts, Services, Launch}.
Context (vmname : string) (depth : nat).


(** C20: QEMU is executed for no machine whose actual memory, in the configuration
    this start of the launcher has read, is a multiple of 4096 MB, when the daemon
    is what the launcher talks to; and the balloon of any other machine is set to
    that memory modulo 4096 MB. *)
Theorem executed_memory `{Tasks.Daemon} p b a e :
  (∀ log r, launch_answer log (QemuInstanceRegister r) = inl () → ∃ d, (System.QemuInstanceRegister r d).1 = Ret ()) →
  unsaid said is_exec p → executed b a e (Start vmname depth p).2 →
  ∃ c p2 args r, configuration vmname (at_reading vmname p) = (Ret c, p2) ∧
    CommandLine.GetCommandLine c (Some (features (env p2))) = Ret args ∧ args `prefix_of` a ∧
    InstanceProperties.MemoryGetActual (InstanceConf.props c) mod 4096 ≠ 0 ∧
    MemActual r = mem_actual (InstanceProperties.MemoryGetActual (InstanceConf.props c)) ∧
    QemuInstanceRegister r ∈ said (Start vmname depth p).2 ∧
    ∀ unavailable d, ∃ new,
      Tasks.said (System.initBalloon unavailable vmname (System.optsFromQemuInstanceRegisterRequest r) d).2 = Tasks.said d ++ new ∧
      Forall (TasksFacts.is_balloon (InstanceProperties.MemoryGetActual (InstanceConf.props c) mod 4096 * 2 ^ 20)) new.
Proof.
  intros Hd Hp He. destruct (Start_exec vmname depth p b a e Hp He) as (c & p2 & args & dir & p3 & Hc & Ha & _ & p5 & Hp5 & Hs).
  rewrite Hs in He |- *.
  destruct (launch_exec vmname depth c _ dir p5 b a e Hp5 He) as (Hargs & (log & r & Hm & Hr & Hl) & _).
  exists c, p2, args, r. rewrite <- mem_actual_wraps, <- Hm.
  assert (Hv : Launcher.MemActual r mod 2 ^ 32 = Launcher.MemActual r).
  { rewrite Hm. unfold mem_actual. by rewrite Z.mod_mod. }
  split_and!; [done|done|rewrite Hargs; by eexists| |done| |].
  - destruct (Hd log r Hr) as [d Hreg]. apply TasksFacts.QemuInstanceRegister_Ret in Hreg as [Hz _].
    intros Hmod. apply Hz. by rewrite Hv, Hm, mem_actual_wraps, Hmod.
  - destruct Hl as [l ->]. rewrite !elem_of_app. left. right. by left.
  - intros unavailable d. destruct (TasksFacts.initBalloon_spec unavailable vmname (System.optsFromQemuInstanceRegisterRequest r) d)
      as (_ & new & Hn & Hf & _). exists new. split; [done|]. cbn in Hf. by rewrite Hv in Hf.
Qed.
End starting.

(** ** A machine that starts *)

Import Sample.
#[local] Existing Instances sample_process sample_bus.

(** It has a local disk and 64 of 2048 MB. *)
Definition sda : Disk.Properties :=
  {| Disk.Path := "/dev/vg/root"; Disk.Driver := "virtio-blk-pci"; Disk.IopsRd := 0; Disk.IopsWr := 0; Disk.Bootindex := 0 |}.
Definition startable : InstanceProperties.t :=
  (InstanceConf.DiskAppend sda (LifecycleFacts.created_props "vm0" request)).2.
Definition startable_host : host :=
  {| files_ := {[vm0_config := Some (enc_conf startable)]}; passwd := passwd_lines; log := [] |}.

(** Whoever is asked agrees, if it is to something valid; there is nothing in the working directory. *)
Definition agreeing : Launch := λ _ c,
  match c return lreply c with
  | GetAppConf => inl "/opt/qemu"
  | LstatPath _ => inl Other
  | StatPath p => if Filepath.IsAbs p then inl false else inr (ErrNotExist p)
  | ReadDirNames _ => inl []
  | LookupDevice a => Throw (ErrNotExist a)
  | StatDev _ => inl 64768
  | QemuInstanceRegister r =>
      match System.InstanceRegistrationOptions_Validate (System.optsFromQemuInstanceRegisterRequest r) with
      | Ret _ => inl ()
      | _ => inr (ErrMsg "invalid")
      end
  | Readlink p | DriverLink p => inl p
  | LookPath p => inl ("/usr/bin/" +:+ p)
  | Ldd _ _ => inl ""
  | _ => inl ()
  end.
#[local] Existing Instances Passwd.plain_accounts willing agreeing.

Definition idle : process := {| on := startable_host; env := ∅; said := [] |}.
Definition started : process := (Start "vm0" 1 idle).2.

(** The last it does is to execute QEMU. *)
Definition execution : string * list string * gmap string string :=
  match last (said started) with Some (Exec b a e) => (b, a, e) | _ => ("", [], ∅) end.
Lemma execution_said : Exec execution.1.1 execution.1.2 execution.2 ∈ said started.
Proof. apply last_Some_elem_of. vm_compute. reflexivity. Qed.


(** The daemon takes every valid request. *)
Definition taking : Tasks.Daemon := λ _ c,
  match c return Tasks.treply c with
  | Tasks.StartTask _ _ _ => Tasks.Accepted "task"
  | Tasks.StatByLabel _ | Tasks.List_ => []
  | Tasks.Stat_ _ | Tasks.CtxDone => None
  | Tasks.CancelByLabel _ | Tasks.Sleep _ | Tasks.Disconnect _ => ()
  | Tasks.Ask _ q =>
      match q return Tasks.heard_of q with
      | Tasks.QueryBalloon => inl 67108864
      | Tasks.QueryStatus | Tasks.FindBlockJobCompleted _ => inl true
      | Tasks.FindBlockJobError _ => inl false
      | Tasks.QueryBlockJobs => inl []
      | Tasks.Powerdowns _ => None
      | _ => inl ()
      end
  | Tasks.GetCmdline _ => inl ["/usr/bin/qemu-system-x86_64"]
  | Tasks.ExecStat _ => inl (true, true)
  | Tasks.Dir _ => inl []
  | Tasks.StatDir _ => inl true
  | Tasks.StatDev _ => inl 64768
  | _ => inl ()
  end.
#[local] Existing Instance taking.
Definition resting : Tasks.daemon := {| Tasks.on := startable_host; Tasks.monitors := ∅; Tasks.said := [] |}.

Lemma taking_registers log r : launch_answer log (QemuInstanceRegister r) = inl () →
  (System.QemuInstanceRegister r resting).1 = Ret ().
Proof.
  unfold launch_answer, agreeing. cbn. unfold System.QemuInstanceRegister, System.StartInstanceRegistration,
    System.InstanceRegistrationTask_BeforeStart, Tasks.TaskStart, wrap, map_err, mbind, op_bind, lift. cbn.
  by destruct (System.InstanceRegistrationOptions_Validate _) as [[]|e|q].
Qed.

Example executed_memory_witness :
  ∃ c p2, configuration "vm0" (at_reading "vm0" idle) = (Ret c, p2) ∧ InstanceProperties.MemoryGetActual (InstanceConf.props c) mod 4096 ≠ 0.
Proof.
  destruct (executed_memory "vm0" 1 idle execution.1.1 execution.1.2 execution.2
    (λ log r Hr, ex_intro _ resting (taking_registers log r Hr)) (Forall_nil_2 _) execution_said)
    as (c & p2 & args & r & Hc & _ & _ & Hm & _).
  exists c, p2. exact (conj Hc Hm).
Defined.

(** ** A machine that is stopped *)

Definition connected : Tasks.daemon := {| Tasks.on := startable_host; Tasks.monitors := {["vm0"]}; Tasks.said := [] |}.

(** It does not power down, and is told to quit. *)
Example terminate_stops_witness :
  (System.terminate "vm0" {| System.GracefulTimeout := 30 * System.second |} connected).1 = Ret ().
Proof.
  apply (TasksFacts.terminate_stops "vm0" {| System.GracefulTimeout := 30 * System.second |} connected).
  - set_solver.
  - split; [done|]. right. split; [|by left]. do 2 right. by left.
Defined.
End Starting.
