(* ===== verification/BackupFacts.v ===== *)
(** BackupFacts: when a backup is complete, what it leaves behind, and what is
    told of it afterwards. *)

From S2P Require Import Prelude.
From S2P Require Import GoStd.
From S2P Require Import GoFacts.
From S2P Require Import Backend.
From S2P Require Import Disks.
From S2P Require Import Json.
From S2P Require Import InstanceProperties.
From S2P Require Import InstanceConf.
From S2P Require Import ConfInvariant.
From S2P Require Import ConfTheorems.
From S2P Require Import ConfJson.
From S2P Require Import ConfJsonFacts.
From S2P Require Import Monitor.
From S2P Require Import InstanceQemu.
From S2P Require Import InstanceQemuTheorems.
From S2P Require Import Server.
From S2P Require Import Services.
From S2P Require Import Lifecycle.
From S2P Require Import LifecycleFacts.
From S2P Require Import LifecycleTheorems.
From S2P Require Import Migration.
From S2P Require Import Said.
From S2P Require Import Tasks.
From S2P Require Import Backup.
From S2P Require Import TasksFacts.
From S2P Require Import LauncherTheorems.

Open Scope Z_scope.
#[local] Set Warnings "-register-all".

Module BackupFacts.
Import Services Server ConfJson Said Tasks TasksFacts Backup.

Create HintDb backup discriminated.
#[export] Hint Resolve @says_ret @says_lift @says_throw @says_get @says_fail_if @daemon_says_at_host
  @daemon_says_done : backup.

(** One step of an operation after the other, on every branch. *)
Ltac speaking :=
  repeat first
    [ solve [auto with backup]
    | apply says_bind; [|intros ?]
    | apply daemon_says_request; exact I
    | apply says_try | apply says_through | apply says_map_err | apply says_unless
    | case_match ].

Section facts.
Context `{Env} {hst : Host} `{Outside, Accounts, Services, Daemon, StatJson, Uuid}.
Context (vmname : string).

Definition told (t : Backup.task) : list tcall := said (on t).

Lemma says_at_daemon {A} (m : op daemon A) P : says said m P → says told (at_daemon m) P.
Proof.
  intros Hm t. destruct (Hm (on t)) as (new & Hs & Hn). exists new. unfold at_daemon, zoom, told.
  by destruct (m (on t)).
Qed.
Lemma at_daemon_Ret {A} (m : op daemon A) t r t' : at_daemon m t = (r, t') →
  ∃ d', m (on t) = (r, d') ∧ t' = set_daemon d' t.
Proof. unfold at_daemon, zoom. destruct (m (on t)) as [r' d'] eqn:E. intros [= <- <-]. by exists d'. Qed.

Abbreviation speaks m := (says told m (λ _, True)).

Lemma says_asks c (P : tcall → Prop) : P c → says told (asks c) P.
Proof. intros Hc. by apply says_at_daemon, daemon_says_request. Qed.
Lemma speaks_asks c : speaks (asks c).
Proof. by apply says_asks. Qed.
Lemma says_backup_done {A} (r : sys A) P : says told (Backup.done r) P.
Proof. apply says_lift. Qed.
Lemma says_deref {A} (v : option A) P : says told (deref v) P.
Proof. apply says_lift. Qed.
Lemma says_updateStat a b c P : says told (updateStat a b c) P.
Proof. unfold updateStat. case_match; [apply says_ret|]. by apply says_modify. Qed.
#[local] Hint Resolve speaks_asks @says_backup_done @says_deref says_updateStat : backup.
#[local] Hint Extern 3 (says told (at_daemon _) _) => apply says_at_daemon : backup.

Lemma speaks_run_job j : speaks (run_job vmname j).
Proof. apply says_at_daemon. destruct j; unfold Mon_RunTransaction, Mon_Run; speaking. Qed.
Lemma speaks_getJob job : speaks (getJob vmname job).
Proof. apply says_at_daemon. speaking. Qed.
Lemma speaks_FindError job : speaks (FindError vmname job).
Proof. apply says_map_err, says_at_daemon. speaking. Qed.
Lemma speaks_FindCompleted job : speaks (FindCompleted vmname job).
Proof. apply says_map_err, says_at_daemon. speaking. Qed.
#[local] Hint Resolve speaks_run_job speaks_getJob speaks_FindError speaks_FindCompleted : backup.
Lemma speaks_poll ticks job : speaks (poll vmname ticks job).
Proof.
  induction ticks as [|ticks IH]; cbn [poll]; [auto with backup|].
  apply says_bind; [apply (speaks_asks CtxDone)|intros ?]. speaking.
Qed.
#[local] Hint Resolve speaks_poll : backup.
Lemma speaks_copy_job ticks src dst : speaks (copy_job vmname ticks src dst).
Proof. unfold copy_job. speaking. apply says_at_daemon. speaking. Qed.
Lemma speaks_map path : speaks (mapDeviceToChroot vmname path).
Proof. unfold mapDeviceToChroot. speaking. all: try apply says_at_daemon; speaking. Qed.
#[local] Hint Resolve speaks_copy_job speaks_map : backup.

(** ** Preparation *)

Section preparation.
Context (running : outcome (option InstanceQemu.t)).

(** A backend that is not available has an error to say why. *)
Lemma backend_available (b : backend) r : IsAvailable b = Ret r → r = true.
Proof.
  induction b as [d|d|d|d|b IH]; intros Hr; [| |by injection Hr|by injection Hr|by apply IH].
  - change (Block.device_IsAvailable d = Ret r) in Hr. unfold Block.device_IsAvailable in Hr. repeat case_match; naive_solver.
  - change ((_ ← File.regular d; Ret true) = Ret r) in Hr. destruct (File.regular d); naive_solver.
Qed.
Lemma IsAvailable_true (d : Disk.t) b : Disk.IsAvailable d = Ret b → b = true.
Proof.
  unfold Disk.IsAvailable, Disk.with_backend. destruct (Disk.Backend d) as [be|]; [|done]. apply backend_available.
Qed.

Lemma remove_statfile_Ret path t r t' : remove_statfile path t = (r, t') → ∃ d, t' = set_daemon d t.
Proof.
  unfold remove_statfile, unless, at_daemon, zoom. destruct (Tasks.at_host (remove path) (on t)) as [[u|e|q] d'].
  - intros [= <- <-]. by eexists.
  - case_match; intros [= <- <-]; by eexists.
  - intros [= <- <-]. by eexists.
Qed.

Lemma Validate_Ret o o' : Backup.Validate o = (Ret (), o') →
  DiskName o' = Strings.TrimSpace (DiskName o) ∧ Target_ o' = Strings.TrimSpace (Target_ o).
Proof.
  unfold Backup.Validate, mbind, op_bind, modify, get, fail_if. cbn. case_bool_decide; [done|]. cbn.
  case_bool_decide; [done|]. by intros [= <-].
Qed.
Lemma running_machine_Ret t r t' : running_machine vmname running t = (Ret r, t') →
  running = Ret (Some r) ∧ opts t' = opts t.
Proof.
  unfold running_machine. intros Hr. apply op_bind_Ret in Hr as (c & t1 & (d1 & _ & ->)%at_daemon_Ret & Hr).
  apply op_bind_Ret in Hr as (r' & t2 & Hrun & Hr). unfold lift in Hrun. injection Hrun as Hrun <-.
  apply op_bind_Ret in Hr as ([] & t3 & [= <-] & Hr).
  apply op_bind_Ret in Hr as (st & t4 & (d2 & _ & ->)%at_daemon_Ret & Hr).
  destruct st; try done; destruct r' as [r'|]; try done; injection Hr as -> <-; done.
Qed.

(** a backup that may start copies a disk of the running machine to another
    device, which is none of the machine's disks and, when it is local, no
    smaller than the disk. *)
Theorem BeforeStart_target t t' : BeforeStart vmname running t = (Ret (), t') →
  ∃ r src dst, running = Ret (Some r) ∧
    srcDisk t' = Some src ∧ dstDisk t' = Some dst ∧
    InstanceProperties.DiskGet (Strings.TrimSpace (DiskName (opts t))) (InstanceQemu.props r) = Some src ∧
    InstanceProperties.DiskGet (Strings.TrimSpace (Target_ (opts t))) (InstanceQemu.props r) = None ∧
    Disk.NewDisk (Strings.TrimSpace (Target_ (opts t))) = Ret dst ∧
    (Disk.IsLocal dst = Ret true → ∃ size, local_size dst = Ret size ∧ srcSize t' <= size).
Proof.
  unfold BeforeStart. intros Hb. apply op_bind_Ret in Hb as ([] & t1 & Hv & Hb).
  assert (opts t1 = (Backup.Validate (opts t)).2 ∧ (Backup.Validate (opts t)).1 = Ret ()) as [Ho Hv1].
  { unfold zoom in Hv. destruct (Backup.Validate (opts t)). by injection Hv as -> <-. }
  destruct (Backup.Validate (opts t)) as [? o'] eqn:HV; cbn in Ho, Hv1; subst. apply Validate_Ret in HV as [Hn Ht].
  clear Hv. apply op_bind_Ret in Hb as (r & t2 & [Hrun Ho2]%running_machine_Ret & Hb).
  apply op_bind_Ret in Hb as (t2' & ? & [= <- <-] & Hb). rewrite Ho2, Hn, Ht in Hb.
  apply op_bind_Ret in Hb as (src & ? & Hsrc & Hb). unfold lift in Hsrc.
  destruct (InstanceProperties.DiskGet _ _) as [src'|] eqn:Hget; [|done]. injection Hsrc as -> <-.
  apply op_bind_Ret in Hb as ([] & ? & [Hnone ->]%fail_if_Ret & Hb).
  apply bool_decide_eq_false in Hnone. apply eq_None_not_Some in Hnone.
  apply op_bind_Ret in Hb as (local & ? & [= _ <-] & Hb). apply op_bind_Ret in Hb as (size & ? & [= _ <-] & Hb).
  apply op_bind_Ret in Hb as (dst & ? & Hdst & Hb). unfold lift in Hdst. injection Hdst as Hdst <-.
  apply op_bind_Ret in Hb as (ok & ? & Hok & Hb). unfold lift in Hok. injection Hok as Hok%IsAvailable_true <-. subst ok. cbn in Hb.
  apply op_bind_Ret in Hb as (dlocal & ? & Hdl & Hb). unfold lift in Hdl. injection Hdl as Hdl <-.
  apply op_bind_Ret in Hb as ([] & t3 & Hsize & Hb).
  assert (t3 = t2 ∧ (Disk.IsLocal dst = Ret true → ∃ s, local_size dst = Ret s ∧ size <= s)) as [-> Hs].
  { rewrite Hdl. destruct dlocal; [|by injection Hsize as <-]. apply op_bind_Ret in Hsize as (s & ? & Hls & Hsize).
    unfold lift in Hls. injection Hls as Hls <-. apply fail_if_Ret in Hsize as [Hlt%Z.ltb_ge ->]. eauto. }
  do 2 apply op_bind_Ret in Hb as ([] & ? & [= <-] & Hb). apply op_bind_Ret in Hb as (base & ? & [= _ <-] & Hb).
  apply op_bind_Ret in Hb as ([] & ? & [= <-] & Hb). apply op_bind_Ret in Hb as (? & ? & [= <- <-] & Hb).
  apply remove_statfile_Ret in Hb as [d ->]. exists r, src, dst. split_and!; [done..|exact Hs].
Qed.

End preparation.

(** ** The copy *)

Section copying.
Context (self : TaskStat) (text : goerr → string).

(** *** The node of the target *)

(** What is deferred comes last, unless it panics, on every outcome. *)
Lemma deferred_run {S A} (h : outcome A → op S ()) (m : op S A) s :
  (deferred h m s).2 = (h (m s).1 (m s).2).2.
Proof. unfold deferred. destruct (m s) as [r s1]. cbn. by destruct (h r s1). Qed.

Lemma at_host_told {A} (m : op host A) t : told (at_daemon (Tasks.at_host m) t).2 = told t.
Proof. unfold at_daemon, Tasks.at_host, zoom, told. by destruct (m _). Qed.
Lemma writeStatFile_told e t : told (writeStatFile vmname self text e t).2 = told t.
Proof.
  unfold writeStatFile, deref. unfold mbind, op_bind, get, lift. cbn.
  destruct (srcDisk t) as [src|]; [|done]. destruct (Disk.BaseName src) as [base|err|q]; [|done..]. apply at_host_told.
Qed.
Lemma Main_told ticks t : told (Main vmname self text ticks t).2 = told (copy vmname ticks t).2.
Proof. unfold Main. rewrite deferred_run. apply writeStatFile_told. Qed.

Lemma copy_run ticks t dst : dstDisk t = Some dst →
  copy vmname ticks t =
    let body := t ← get; src ← deref (srcDisk t); copy_job vmname ticks src dst in
    match Disk.IsLocal dst with
    | Ret true =>
        deferred (λ _, _ ← asks (Unlink (chroot_path vmname (Disk.Path (Disk.props dst)))); mret ())
          (mapDeviceToChroot vmname (Disk.Path (Disk.props dst));; body) t
    | Ret false => body t
    | Throw e => (Throw e, t)
    | Panic q => (Panic q, t)
    end.
Proof.
  intros Hd. unfold copy, deref. unfold mbind at 1 2 3, op_bind, get, lift. cbn. rewrite Hd.
  destruct (Disk.IsLocal dst) as [[]|e|q]; done.
Qed.

(** whatever becomes of a backup to a local device, the last thing it does in
    the machine's directory is to remove the node of that device. *)
Theorem Main_unlinks ticks t dst : dstDisk t = Some dst → Disk.IsLocal dst = Ret true →
  ∃ l, told (Main vmname self text ticks t).2 =
       told t ++ l ++ [Unlink (chroot_path vmname (Disk.Path (Disk.props dst)))].
Proof.
  intros Hd Hl. rewrite Main_told, (copy_run ticks t dst Hd), Hl. cbn zeta. rewrite deferred_run.
  set (m := (mapDeviceToChroot _ _;; _)). assert (speaks m) as Hm by (unfold m; speaking).
  destruct (Hm t) as (new & Hs & _). exists new. unfold asks, at_daemon, zoom, mbind, op_bind, told in *. cbn.
  by rewrite Hs, <- app_assoc.
Qed.

(** *** Completion *)

(** An answer that was given through the monitor. *)
Lemma through_asked {A} q (f : heard_of q → sys A) t r t' :
  at_daemon (through vmname (x ← request (Ask vmname q); Tasks.done (f x))) t = (Ret r, t') →
  f (daemon_answer (told t) (Ask vmname q)) = inl r ∧ told t' = told t ++ [Ask vmname q].
Proof.
  intros (d' & Hd & ->)%at_daemon_Ret. destruct (decide (vmname ∈ monitors (on t))) as [Hv|Hv].
  - rewrite through_in in Hd by done. unfold mbind, op_bind, request, Tasks.done, lift in Hd. unfold told.
    destruct (f _) as [a|e]; [|done]. cbn in Hd. injection Hd as <- <-. done.
  - by rewrite through_not_in in Hd.
Qed.

(** QEMU has said that the job is complete, and not that it has failed. *)
Definition completed (job : string) (l : list tcall) : Prop :=
  ∃ log, l = log ++ [Ask vmname (FindBlockJobError job); Ask vmname (FindBlockJobCompleted job)] ∧
    daemon_answer log (Ask vmname (FindBlockJobError job)) = inl false ∧
    daemon_answer (log ++ [Ask vmname (FindBlockJobError job)]) (Ask vmname (FindBlockJobCompleted job)) = inl true.

Lemma updateStat_Ret a b c t r t' : updateStat a b c t = (r, t') → told t' = told t.
Proof. unfold updateStat. by case_match; intros [= <- <-]. Qed.

Lemma poll_Ret ticks job t t' : poll vmname ticks job t = (Ret true, t') →
  completed job (told t') ∧ told t `prefix_of` told t'.
Proof.
  intros Hp. split; [|by eapply (says_prefix told); [apply (speaks_poll ticks job)|]].
  revert t Hp. induction ticks as [|ticks IH]; intros t Hp; cbn [poll] in Hp; [done|].
  apply op_bind_Ret in Hp as ([e|] & t1 & _ & Hp); [done|].
  apply op_bind_Ret in Hp as (j & t2 & _ & Hp). apply op_bind_Ret in Hp as (t2' & ? & [= <- <-] & Hp).
  destruct j as [j|]; [apply op_bind_Ret in Hp as ([] & t3 & _ & Hp); by eapply IH|].
  apply op_bind_Ret in Hp as (f1 & t3 & Hq1%map_err_Ret & Hp).
  apply (through_asked (FindBlockJobError job) id) in Hq1 as [Ha1 Ht1].
  apply op_bind_Ret in Hp as ([] & ? & [-> ->]%fail_if_Ret & Hp).
  apply op_bind_Ret in Hp as (f2 & t4 & Hq2%map_err_Ret & Hp).
  apply (through_asked (FindBlockJobCompleted job) id) in Hq2 as [Ha2 Ht2].
  apply op_bind_Ret in Hp as ([] & ? & [->%negb_false_iff ->]%fail_if_Ret & Hp).
  apply op_bind_Ret in Hp as ([] & t5 & Hu%updateStat_Ret & [= <-]).
  exists (told t2). rewrite Hu, Ht2, Ht1, <- app_assoc. split_and!; [done|exact Ha1|]. rewrite <- Ht1. exact Ha2.
Qed.

Lemma copy_job_Ret ticks src dst t t' : copy_job vmname ticks src dst t = (Ret true, t') →
  ∃ base, Disk.BaseName src = Ret base ∧ completed ("copy_" +:+ base) (told t').
Proof.
  unfold copy_job. intros Hc. apply op_bind_Ret in Hc as (base & t1 & Hb & Hc).
  exists base. split; [by injection Hb|]. do 3 apply op_bind_Ret in Hc as (? & ? & _ & Hc). by apply poll_Ret in Hc as [? _].
Qed.

Lemma preserves_at_daemon {A} (I : Backup.task → Prop) (m : op daemon A) :
  (∀ d t, I t → I (set_daemon d t)) → preserves I (at_daemon m).
Proof. intros HI t Ht. unfold at_daemon, zoom. destruct (m (on t)). by apply HI. Qed.

(** What neither a request nor a new statistic touches is kept. *)
Section keeps.
Context (I : Backup.task → Prop) (HI : ∀ d t, I t → I (set_daemon d t)) (HD : ∀ v t, I t → I (set_details v t)).
#[local] Hint Resolve preserves_at_daemon : golang.
Ltac keeping :=
  repeat first
    [ solve [auto with golang]
    | apply preserves_bind; [|intros ?]
    | apply preserves_map_err | apply preserves_lift
    | apply preserves_at_daemon; exact HI
    | case_match ].

Lemma map_keeps path : preserves I (mapDeviceToChroot vmname path).
Proof. unfold mapDeviceToChroot, asks, Backup.done, deref. keeping. Qed.
Lemma updateStat_keeps a b c : preserves I (updateStat a b c).
Proof. unfold updateStat. case_match; [apply preserves_ret|]. apply preserves_modify. intros ?. apply HD. Qed.
Lemma poll_keeps ticks job : preserves I (poll vmname ticks job).
Proof.
  pose proof updateStat_keeps. induction ticks as [|ticks IH]; cbn [poll]; unfold asks, getJob, FindError, FindCompleted; keeping.
Qed.
Lemma deferred_keeps {A} (h : outcome A → op Backup.task ()) m :
  preserves I m → (∀ r, preserves I (h r)) → preserves I (deferred h m).
Proof. intros Hm Hh t Ht. rewrite deferred_run. by apply Hh, Hm. Qed.
Lemma copy_keeps ticks : preserves I (copy vmname ticks).
Proof.
  unfold copy, deref, copy_job. apply preserves_bind; [apply preserves_get|intros t0]. apply preserves_bind; [apply preserves_lift|intros dst].
  apply preserves_bind; [apply preserves_lift|intros local]. cbn zeta.
  assert (preserves I (t ← get; src ← lift match srcDisk t with Some a => Ret a | None => Panic NilDereference end;
                       copy_job vmname ticks src dst)) as Hb.
  { unfold copy_job, run_job. pose proof (poll_keeps ticks). keeping. }
  destruct local; [|exact Hb]. apply deferred_keeps; [|intros r; unfold asks; keeping].
  apply preserves_bind; [apply map_keeps|by intros _].
Qed.
End keeps.

(** C21: a backup is over without an error only when QEMU, asked after the job had
    gone, has said that there was no error in it and that it was completed. *)
Theorem Main_completed ticks t t' src : srcDisk t = Some src →
  Main vmname self text ticks t = (Ret true, t') →
  ∃ base l rest, Disk.BaseName src = Ret base ∧ told t' = l ++ rest ∧ completed ("copy_" +:+ base) l ∧
    (rest = [] ∨ ∃ path, rest = [Unlink path]).
Proof.
  intros Hs HM. pose proof (Main_told ticks t) as Ht. rewrite HM in Ht. cbn in Ht. rewrite Ht. clear Ht.
  unfold Main, deferred in HM. destruct (copy vmname ticks t) as [r t1] eqn:Hc.
  destruct (writeStatFile _ _ _ _ t1) as [h t2]. assert (r = Ret true) as -> by (destruct h; congruence). clear HM. cbn.
  destruct (dstDisk t) as [dst|] eqn:Hd; [|unfold copy, deref, mbind, op_bind, get, lift in Hc; cbn in Hc; by rewrite Hd in Hc].
  rewrite (copy_run ticks t dst Hd) in Hc. cbn zeta in Hc.
  destruct (Disk.IsLocal dst) as [[]|e|q] eqn:Hl; [| |done..].
  - unfold deferred in Hc. destruct ((mapDeviceToChroot vmname _;; _) t) as [r1 t3] eqn:Hb.
    destruct ((_ ← asks _; mret ()) t3) as [h' t4] eqn:Hu.
    assert (r1 = Ret true) as -> by (destruct h'; congruence). injection Hc as _ <-.
    apply op_bind_Ret in Hb as ([] & t5 & Hm & Hb). apply op_bind_Ret in Hb as (t5' & ? & [= <- <-] & Hb).
    apply op_bind_Ret in Hb as (src' & ? & Hsrc & Hb).
    assert (srcDisk t5 = Some src) as Hs5 by (change t5 with ((Ret (A:=()) (), t5).2); rewrite <- Hm; by apply (map_keeps (λ t, srcDisk t = Some src))).
    unfold deref, lift in Hsrc. rewrite Hs5 in Hsrc. injection Hsrc as <- <-.
    apply copy_job_Ret in Hb as (base & Hbase & Hcomp). exists base, (told t3), [Unlink (chroot_path vmname (Disk.Path (Disk.props dst)))].
    split_and!; [done| |done|right; by eexists].
    unfold asks, at_daemon, zoom, mbind, op_bind, request in Hu. cbn in Hu. injection Hu as _ <-. done.
  - apply op_bind_Ret in Hc as (t5' & ? & [= <- <-] & Hb). apply op_bind_Ret in Hb as (src' & ? & Hsrc & Hb).
    unfold deref, lift in Hsrc. rewrite Hs in Hsrc. injection Hsrc as <- <-.
    apply copy_job_Ret in Hb as (base & Hbase & Hcomp). exists base, (told t1), []. rewrite app_nil_r. split_and!; auto.
Qed.

(** *** What is told of a backup *)

Lemma label_vm_backup base : ValidateMachineName vmname = Ret () → label_vm (backup_label vmname base) = vmname.
Proof.
  intros Hn. unfold label_vm, backup_label.
  change ("/disk-backup/" +:+ base) with (String "/" "" +:+ ("disk-backup/" +:+ base)).
  rewrite GoFacts.cut_app; [by apply JsonFacts.valid_name|].
  intros Hi. by pose proof (JsonFacts.machine_name_elem _ _ Hn Hi).
Qed.

(** The directory of the machine is there, and its files can be read and written. *)
Definition readable (path : string) : Prop :=
  (∀ log, answer log (WriteFile_ path) = Written) ∧ (∀ log, answer log (ReadFile path) = inl ()) ∧
  (∀ log, daemon_answer log (StatDir (Filepath.Join [CHROOTDIR; vmname])) = inl true).

(** What a status file says. *)
Definition verdict (taskErr : option goerr) (details : option Migration.DataTransferStat) : TaskStat :=
  {| ID := ID self;
     State := match taskErr with None => StateCompleted | Some _ => StateFailed end;
     StateDesc := match taskErr with None => StateDesc self | Some e => text e end;
     Details := details |}.

Lemma writeStatFile_run e t src base : srcDisk t = Some src → Disk.BaseName src = Ret base → readable (statfile t) →
  ∃ t', writeStatFile vmname self text e t = (Ret (), t') ∧
    files_ (Tasks.on (on t')) !! statfile t = Some (Some (enc_stat (backup_label vmname base) (verdict e (details t)))).
Proof.
  intros Hs Hb (Hw & _ & _). unfold writeStatFile, deref, mbind, op_bind, get, lift. cbn. rewrite Hs. cbn. rewrite Hb. cbn.
  unfold at_daemon, Tasks.at_host, zoom, write_file, writing, mbind, op_bind, ask, zoom. cbn. rewrite Hw. cbn.
  eexists. split; [done|]. cbn. by rewrite lookup_insert_eq.
Qed.

Lemma add_tasks_Ret m tids d : ∃ m' d', add_tasks m tids d = (Ret m', d') ∧ Tasks.on d' = Tasks.on d.
Proof.
  revert m d. induction tids as [|tid tids IH]; intros m d; cbn [add_tasks]; [by exists m, d|].
  unfold mbind, op_bind, request. cbn. destruct (IH (match daemon_answer (said d) (Stat_ tid) : option TaskStat with
    Some st => record st m | None => m end) {| Tasks.on := Tasks.on d; monitors := monitors d; said := said d ++ [Stat_ tid] |})
    as (m' & d' & -> & Ho). by exists m', d'.
Qed.

Lemma read_back base st d : ValidateMachineName vmname = Ret () →
  let path := stat_file vmname (backup_label vmname base) in
  readable path → files_ (Tasks.on d) !! path = Some (Some (enc_stat (backup_label vmname base) st)) →
  dec_stat (enc_stat (backup_label vmname base) st) = Ret (Some st) →
  ∃ d', readTaskStatFile (backup_label vmname base) d = (Ret (Some st), d').
Proof.
  intros Hn path (_ & Hr & Hd) Hf Hdec. unfold readTaskStatFile. rewrite label_vm_backup by done.
  rewrite bool_decide_false by (by apply JsonFacts.valid_name).
  unfold mbind at 1, op_bind, request. rewrite Hd. unfold readStatFile, read_file. fold path.
  unfold Tasks.at_host, zoom, ask, mbind, op_bind, Tasks.done, get, lift. cbn. rewrite Hr. cbn. rewrite Hf. cbn. rewrite Hdec.
  by eexists.
Qed.

Lemma stats_of_label base st d state : ValidateMachineName vmname = Ret () → ID st = ID self →
  let path := stat_file vmname (backup_label vmname base) in
  readable path → files_ (Tasks.on d) !! path = Some (Some (enc_stat (backup_label vmname base) st)) →
  dec_stat (enc_stat (backup_label vmname base) st) = Ret (Some st) → State st = state →
  ∃ m d' st', TaskGetStats [backup_label vmname base] d = (Ret m, d') ∧ m !! ID self = Some st' ∧ State st' = state.
Proof.
  intros Hn Hid path Hr Hf Hdec Hst. unfold TaskGetStats. unfold mbind at 1, op_bind, request.
  set (d1 := {| Tasks.on := Tasks.on d; monitors := monitors d; said := _ |}). unfold mbind at 1, op_bind.
  edestruct add_tasks_Ret as (m1 & d2 & -> & Ho). cbn [add_files map]. unfold mbind at 1, op_bind. unfold add_file.
  unfold mbind at 1, op_bind, try.
  destruct (read_back base st d2 Hn Hr) as (d3 & ->); [by rewrite Ho|done|]. cbn.
  eexists _, _, st. split; [done|]. split; [|done]. rewrite <- Hid. apply lookup_insert_eq.
Qed.

(** once a backup is over, the daemon that is asked for its label tells how it
    ended, as long as the machine's directory is there. *)
Theorem backup_reported ticks t t' r src base : ValidateMachineName vmname = Ret () →
  (∀ label st, dec_stat (enc_stat label st) = Ret (Some st)) →
  srcDisk t = Some src → Disk.BaseName src = Ret base → statfile t = stat_file vmname (backup_label vmname base) →
  readable (statfile t) → Main vmname self text ticks t = (r, t') → (∀ q, r ≠ Panic q) →
  ∃ m d' st, TaskGetStats [backup_label vmname base] (on t') = (Ret m, d') ∧ m !! ID self = Some st ∧
    State st = match r with Ret _ => StateCompleted | _ => StateFailed end.
Proof.
  intros Hn Hdec Hs Hb Hf Hr HM Hq.
  assert (srcDisk (copy vmname ticks t).2 = Some src ∧ statfile (copy vmname ticks t).2 = statfile t) as [Hs1 Hf1].
  { by apply (copy_keeps (λ t1, srcDisk t1 = Some src ∧ statfile t1 = statfile t)). }
  unfold Main, deferred in HM. destruct (copy vmname ticks t) as [r1 t1] eqn:Hc. cbn in Hs1, Hf1. rewrite <- Hf1 in Hr.
  destruct (writeStatFile_run (error_of r1) t1 src base Hs1 Hb Hr) as (t2 & Hw & Hfile). rewrite Hw in HM. injection HM as -> <-.
  set (st := verdict (error_of r) (details t1)) in *.
  rewrite Hf1, Hf in Hr, Hfile.
  apply (stats_of_label base st); [done|done|exact Hr|exact Hfile|by apply Hdec|]. by destruct r as [?|?|q]; [..|destruct (Hq q)].
Qed.
End copying.
End facts.
End BackupFacts.

(** ** At work

    A paused machine whose disk is copied to another device. *)

Module Saving.
Import Services Server ConfJson Lifecycle Tasks Backup BackupFacts.
#[local] Existing Instances sample_env Passwd.plain_accounts Sample.willing Starting.taking.

(** All devices are block devices of one size. *)
#[local] Instance blocks : Host := {|
  os_Stat s := inl (ModeBlockDevice, 0);
  os_Lstat s := inr (ErrNotExist s);
  BLKGETSIZE64 s := inl 1048576;
|}.
#[local] Instance pausing : Outside := {|
  Monitor.answer _ a := match a with Monitor.Run query_status => inl "paused" | a => inl (QemuTheorems.nothing a) end;
  Unmarshal_file s := inr (ErrHost s);
|}.

(** A way to write statistics down. *)
#[local] Instance plainly : StatJson := {|
  enc_stat _ st := JArr [JStr (ID st); JNum (match State st with StateRunning_ => 0 | StateCompleted => 1 | StateFailed => 2 end);
    JStr (StateDesc st);
    match Details st with
    | None => JNull
    | Some d => JArr (map JNum [Migration.Migration.Total d; Migration.Migration.Remaining d; Migration.Migration.Transferred d;
                                Migration.Migration.Progress d; Migration.Migration.Speed d])
    end];
  dec_stat j :=
    match j with
    | JArr [JStr i; JNum s; JStr t; d] =>
        Ret (Some {| ID := i; State := match s with 0 => StateRunning_ | 1 => StateCompleted | _ => StateFailed end; StateDesc := t;
          Details := match d with
                     | JArr [JNum a; JNum b; JNum c; JNum e; JNum f] =>
                         Some {| Migration.Migration.Total := a; Migration.Migration.Remaining := b; Migration.Migration.Transferred := c;
                                 Migration.Migration.Progress := e; Migration.Migration.Speed := f |}
                     | _ => None
                     end |})
    | _ => Ret None
    end;
|}.
Lemma plainly_law label st : dec_stat (enc_stat label st) = Ret (Some st).
Proof. by destruct st as [i [] t [[]|]]. Qed.
#[local] Instance no_uuid : Uuid := λ _, false.

Definition root : InstanceProperties.t := Starting.startable.
Definition paused : InstanceQemu.t :=
  InstanceQemu.set_props root (InstanceQemu.fresh "vm0" 4711 {| chroot := ∅; taps := ∅; trace := [] |}).
Definition the_daemon : daemon := {| Tasks.on := Starting.startable_host; monitors := {["vm0"]}; said := [] |}.
Definition asked : DiskBackupOptions :=
  {| DiskName := "/dev/vg/root"; Target_ := " /dev/vg/copy "; Incremental := true; ClearBitmap := false |}.
Definition me : TaskStat := {| ID := "7"; State := StateRunning_; StateDesc := ""; Details := None |}.
Definition prepared : outcome () * Backup.task := BeforeStart "vm0" (Ret (Some paused)) (NewDiskBackupTask the_daemon asked).

Example BeforeStart_target_witness :
  ∃ src dst, srcDisk prepared.2 = Some src ∧ dstDisk prepared.2 = Some dst ∧
    ∃ size, local_size dst = Ret size ∧ srcSize prepared.2 <= size.
Proof.
  destruct (BeforeStart_target "vm0" (Ret (Some paused)) (NewDiskBackupTask the_daemon asked) prepared.2)
    as (r & src & dst & _ & Hs & Hd & _ & _ & _ & Hl).
  - vm_compute. reflexivity.
  - exists src, dst. split; [exact Hs|]. split; [exact Hd|]. apply Hl. vm_compute in Hd. injection Hd as <-. reflexivity.
Defined.

(** The job is done at the first look. *)
Definition source : Disk.t := default disk_zero (srcDisk prepared.2).
Definition target : Disk.t := default disk_zero (dstDisk prepared.2).
Definition failing : goerr → string := λ _, "failed".
Definition finished : outcome bool * Backup.task := Main "vm0" me failing 3 prepared.2.

Example Main_unlinks_witness :
  ∃ l, told finished.2 = told prepared.2 ++ l ++ [Unlink "/var/lib/kvmrun/chroot/vm0/dev/vg/copy"].
Proof.
  apply (Main_unlinks "vm0" me failing 3 prepared.2 target); vm_compute; reflexivity.
Defined.

Example Main_completed_witness :
  ∃ base l rest, Disk.BaseName source = Ret base ∧ told finished.2 = l ++ rest ∧
    completed "vm0" ("copy_" +:+ base) l ∧ (rest = [] ∨ ∃ path, rest = [Unlink path]).
Proof.
  apply (Main_completed "vm0" me failing 3 prepared.2 finished.2 source); vm_compute; reflexivity.
Defined.

Example backup_reported_witness :
  ∃ m d' st, TaskGetStats ["vm0/disk-backup/root"] (on finished.2) = (Ret m, d') ∧ m !! "7" = Some st ∧
    State st = StateCompleted.
Proof.
  apply (backup_reported "vm0" me failing 3 prepared.2 finished.2 (Ret true) source "root").
  - vm_compute. reflexivity.
  - exact plainly_law.
  - vm_compute. reflexivity.
  - vm_compute. reflexivity.
  - vm_compute. reflexivity.
  - by split_and!.
  - vm_compute. reflexivity.
  - done.
Defined.
End Saving.
