(* ===== verification/Transfer.v ===== *)
(** Transfer: the main part of sending a machine ([Main], [mirrorDisks],
    [migrateMachineState] and the storage mirroring processor of
    [server/machine/migration.go]).

    Goroutines run at the same time and wait for one another on channels.  The
    state of all of them is a value, and [fire] makes one of them take its next
    step, with what it hears from QEMU or which ready case of a [select] it
    takes.  A step is a call or a channel operation with what follows it up to
    the next one; the [select]s that close a channel when [Main] returns are part
    of its last step.  A closed channel is a true flag. *)

From S2P Require Import Prelude.
From S2P Require Import GoStd.
From S2P Require Import GoFacts.
From S2P Require Import Version.
From S2P Require Import Backend.
From S2P Require Import Disks.
From S2P Require Import InstanceProperties.
From S2P Require Import InstanceConf.
From S2P Require Import InstanceQemu.
From S2P Require Import Services.
From S2P Require Import Incoming.
From S2P Require Import Migration.

Open Scope Z_scope.
#[local] Set Warnings "-register-all".

Module Transfer.
Import Services Migration.

(** ** What is transferred *)

(** A disk, and its name on the other side, which may be refused. *)
Record mirrored := { path : string; src : string; dst : outcome string; virtual_size : Z }.

Definition mirror_of `{Env} (m : gmap string string) (d : Disk.t) : outcome mirrored :=
  b ← Disk.BaseName d;
  let p := Disk.Path (Disk.props d) in
  Ret {| path := p; src := b;
         dst := match m !! p with
                | Some ovrd => d' ← Disk.NewDisk ovrd; Disk.BaseName d'
                | None => Ret b
                end;
         virtual_size := Disk.QemuVirtualSize d |}.

Definition job_of (d : mirrored) : string := "migr_" +:+ src d.

Record setup := {
  flash : option mirrored;
  moving : list mirrored;
  qemu_version : Z;
  addr : string;
  ports : requisites_reply;
}.

(** ** What is said and heard *)

Record BlockJobInfo := { Len : Z; Offset : Z; Ready : bool }.
Record MigrationInfo := { Status : string; Ram_Total : Z; Ram_Remaining : Z; Ram_Speed : Z; ErrDesc : string }.

Record DriveMirrorOptions := { JobID : string; Device : string; Target : string; CopyMode : string }.

(** [newMirrorOpts]; the format is [nbd], all of the disk is mirrored, to an
    existing one. *)
Definition newMirrorOpts (s : setup) (srcName dstName : string) : DriveMirrorOptions :=
  {| JobID := "migr_" +:+ srcName;
     Device := srcName;
     Target := "nbd:" +:+ addr s +:+ ":" +:+ Strconv.Itoa (reply_NBDPort (ports s)) +:+ ":exportname=" +:+ dstName;
     CopyMode := if 60000 <=? qemu_version s then "write-blocking" else "" |}.

(** The capabilities set before a migration. *)
Definition capabilities (version : Z) : list (string * bool) :=
  [("xbzrle", true); ("auto-converge", true); ("dirty-bitmaps", true)] ++
  (if version <? 90000 then [("compress", false); ("block", false)] else []).

Inductive command :=
  | drive_mirror (o : DriveMirrorOptions)
  | block_job_complete (job : string)
  | migrate_set_capabilities (caps : list (string * bool))
  | migrate_set_parameters (MaxBandwidth XbzrleCacheSize : Z)
  | migrate (uri : string).

(** Commands sent, and the news that matter. *)
Inductive event :=
  | Sent (c : command)
  | JobReady (job : string)
  | MigrationIs (status : string).

#[export] Instance DriveMirrorOptions_eq_dec : EqDecision DriveMirrorOptions.
Proof. solve_decision. Defined.
#[export] Instance command_eq_dec : EqDecision command.
Proof. solve_decision. Defined.
#[export] Instance event_eq_dec : EqDecision event.
Proof. solve_decision. Defined.

Inductive answer_ :=
  | Okay
  | Failed_ (e : goerr)
  | DoneCtx                          (* the case <-ctx.Done() *)
  | Job (j : option BlockJobInfo)
  | Jobs (l : list (sys (option BlockJobInfo)))
  | Mig (mi : MigrationInfo)
  | Gone (r : outcome ()).           (* no job; what its last events say *)

(** ** The goroutines *)

(** [waitForReady], before and after the job runs; [waitForCompleted]. *)
Inductive wait := Announced | Syncing | Draining | Finished.

(** [run] of the processor. *)
Inductive mirror_pc :=
  | Starting (n : nat)
  | Synchronizing
  | Synchronized
  | AwaitingState
  | Completing (n : nat)
  | Finishing
  | Returned (e : option goerr).

(** The goroutines of its current group, and the group's first error. *)
Record mirror := { m_pc : mirror_pc; waits : list wait; first_error : option goerr }.

(** [migrateMachineState]. *)
Inductive state_pc :=
  | SWait | SCapabilities | SParameters | SStart | SPoll | SQuery
  | SClosing (e : option goerr)
  | SClosed (e : option goerr)
  | SReturned (e : option goerr).

Inductive main_pc :=
  | MBegin | MWaitFlash | MStartMirror | MStartState | MWaitGroup | MLeft (e : option goerr).

Inductive which := Flash | Moving.
#[export] Instance which_eq_dec : EqDecision which.
Proof. solve_decision. Defined.

Record state := {
  cancelled : bool;
  group_error : option goerr;
  flash_ready : bool;
  disks_ready : bool;
  vmstate_migrated : bool;
  flash_mirror : option mirror;
  moving_mirror : option mirror;
  state_thread : option state_pc;
  main : main_pc;
  stat : MachineMigrationStatDetails;
  crashed : bool;
  trace : list event;
}.
Definition set_cancelled (s : state) : state :=
  {| cancelled := true; group_error := group_error s; flash_ready := flash_ready s; disks_ready := disks_ready s;
     vmstate_migrated := vmstate_migrated s; flash_mirror := flash_mirror s; moving_mirror := moving_mirror s;
     state_thread := state_thread s; main := main s; stat := stat s; crashed := crashed s; trace := trace s |}.
Definition set_flash_ready (s : state) : state :=
  {| cancelled := cancelled s; group_error := group_error s; flash_ready := true; disks_ready := disks_ready s;
     vmstate_migrated := vmstate_migrated s; flash_mirror := flash_mirror s; moving_mirror := moving_mirror s;
     state_thread := state_thread s; main := main s; stat := stat s; crashed := crashed s; trace := trace s |}.
Definition set_disks_ready (s : state) : state :=
  {| cancelled := cancelled s; group_error := group_error s; flash_ready := flash_ready s; disks_ready := true;
     vmstate_migrated := vmstate_migrated s; flash_mirror := flash_mirror s; moving_mirror := moving_mirror s;
     state_thread := state_thread s; main := main s; stat := stat s; crashed := crashed s; trace := trace s |}.
Definition set_vmstate_migrated (s : state) : state :=
  {| cancelled := cancelled s; group_error := group_error s; flash_ready := flash_ready s; disks_ready := disks_ready s;
     vmstate_migrated := true; flash_mirror := flash_mirror s; moving_mirror := moving_mirror s;
     state_thread := state_thread s; main := main s; stat := stat s; crashed := crashed s; trace := trace s |}.
Definition set_mirror (w : which) (m : mirror) (s : state) : state :=
  {| cancelled := cancelled s; group_error := group_error s; flash_ready := flash_ready s; disks_ready := disks_ready s;
     vmstate_migrated := vmstate_migrated s;
     flash_mirror := match w with Flash => Some m | Moving => flash_mirror s end;
     moving_mirror := match w with Moving => Some m | Flash => moving_mirror s end;
     state_thread := state_thread s; main := main s; stat := stat s; crashed := crashed s; trace := trace s |}.
Definition set_state_thread (p : state_pc) (s : state) : state :=
  {| cancelled := cancelled s; group_error := group_error s; flash_ready := flash_ready s; disks_ready := disks_ready s;
     vmstate_migrated := vmstate_migrated s; flash_mirror := flash_mirror s; moving_mirror := moving_mirror s;
     state_thread := Some p; main := main s; stat := stat s; crashed := crashed s; trace := trace s |}.
Definition set_main (p : main_pc) (s : state) : state :=
  {| cancelled := cancelled s; group_error := group_error s; flash_ready := flash_ready s; disks_ready := disks_ready s;
     vmstate_migrated := vmstate_migrated s; flash_mirror := flash_mirror s; moving_mirror := moving_mirror s;
     state_thread := state_thread s; main := p; stat := stat s; crashed := crashed s; trace := trace s |}.
Definition set_stat (d : MachineMigrationStatDetails) (s : state) : state :=
  {| cancelled := cancelled s; group_error := group_error s; flash_ready := flash_ready s; disks_ready := disks_ready s;
     vmstate_migrated := vmstate_migrated s; flash_mirror := flash_mirror s; moving_mirror := moving_mirror s;
     state_thread := state_thread s; main := main s; stat := d; crashed := crashed s; trace := trace s |}.
Definition crash (s : state) : state :=
  {| cancelled := cancelled s; group_error := group_error s; flash_ready := flash_ready s; disks_ready := disks_ready s;
     vmstate_migrated := vmstate_migrated s; flash_mirror := flash_mirror s; moving_mirror := moving_mirror s;
     state_thread := state_thread s; main := main s; stat := stat s; crashed := true; trace := trace s |}.
Definition note (e : event) (s : state) : state :=
  {| cancelled := cancelled s; group_error := group_error s; flash_ready := flash_ready s; disks_ready := disks_ready s;
     vmstate_migrated := vmstate_migrated s; flash_mirror := flash_mirror s; moving_mirror := moving_mirror s;
     state_thread := state_thread s; main := main s; stat := stat s; crashed := crashed s; trace := trace s ++ [e] |}.
(** [errgroup]: the first error is kept, and cancels the context. *)
Definition report (e : option goerr) (s : state) : state :=
  {| cancelled := cancelled s;
     group_error := match group_error s with Some e' => Some e' | None => e end;
     flash_ready := flash_ready s; disks_ready := disks_ready s;
     vmstate_migrated := vmstate_migrated s; flash_mirror := flash_mirror s; moving_mirror := moving_mirror s;
     state_thread := state_thread s; main := main s; stat := stat s; crashed := crashed s; trace := trace s |}.

Definition ctx_done (s : state) : bool := cancelled s || bool_decide (group_error s ≠ None).
(** The context of the current group of a mirror. *)
Definition group_done (m : mirror) (s : state) : bool := ctx_done s || bool_decide (first_error m ≠ None).

Definition the_mirror (w : which) (s : state) : option mirror :=
  match w with Flash => flash_mirror s | Moving => moving_mirror s end.
Definition ready_closed (w : which) (s : state) : bool :=
  match w with Flash => flash_ready s | Moving => disks_ready s end.
Definition close_ready (w : which) (s : state) : state :=
  if ready_closed w s then crash s
  else match w with Flash => set_flash_ready s | Moving => set_disks_ready s end.
Definition disks_of (w : which) (p : setup) : list mirrored :=
  match w with Flash => option_list (flash p) | Moving => moving p end.

(** What [updateStat] is told of a job. *)
Definition track (d : mirrored) (j : BlockJobInfo) (s : state) : state :=
  if bool_decide (src d = "fwflash") then s
  else
    let remain := u64 (Len j - Offset j) in
    match updateDisk (path d) (virtual_size d) remain (u64 (virtual_size d - remain)) (stat s) with
    | Ret st => set_stat st s
    | _ => crash s
    end.

(** *** The storage mirroring processor *)

Definition start_mirror : mirror := {| m_pc := Starting 0; waits := []; first_error := None |}.
Definition at_pc (pc : mirror_pc) (m : mirror) : mirror :=
  {| m_pc := pc; waits := waits m; first_error := first_error m |}.

(** [run] returns. *)
Definition leave (w : which) (e : option goerr) (m : mirror) (s : state) : state :=
  report e (set_mirror w (at_pc (Returned e) m) s).

Definition all_finished (m : mirror) : bool := forallb (λ x, match x with Finished => true | _ => false end) (waits m).

(** One look at all the jobs, while the machine's state migrates. *)
Fixpoint look (w : which) (m : mirror) (ds : list mirrored) (js : list (sys (option BlockJobInfo))) (s : state)
    : state :=
  match ds, js with
  | d :: ds, j :: js =>
      match j with
      | inr _ => leave w (Some (ErrMsg ("failed to get mirroring status (jobID=" +:+ job_of d +:+ ")"))) m s
      | inl None => leave w (Some (ErrMsg ("unable to get mirroring status: jobID = " +:+ job_of d))) m s
      | inl (Some j) => look w m ds js (track d j s)
      end
  | _, _ => s
  end.

Definition mirror_step (p : setup) (w : which) (a : answer_) (m : mirror) (s : state) : option state :=
  match m_pc m, a with
  | Starting n, _ =>
      match disks_of w p !! n with
      | None => Some (set_mirror w (at_pc Synchronizing m) s)
      | Some d =>
          match dst d with
          | Throw e => Some (leave w (Some e) m s)
          | Panic _ => Some (crash s)
          | Ret name =>
              let s := note (Sent (drive_mirror (newMirrorOpts p (src d) name))) s in
              match a with
              | Okay => Some (set_mirror w {| m_pc := Starting (S n); waits := waits m ++ [Announced];
                                              first_error := first_error m |} s)
              | Failed_ _ => Some (leave w (Some (ErrMsg ("failed to start mirroring (" +:+ src d +:+ ")"))) m s)
              | _ => None
              end
          end
      end
  | Synchronizing, _ =>
      if all_finished m then
        match first_error m with
        | None => Some (set_mirror w (at_pc Synchronized m) s)
        | Some e => Some (leave w (Some e) m s)
        end
      else None
  | Synchronized, _ => Some (close_ready w (set_mirror w (at_pc AwaitingState m) s))
  | AwaitingState, DoneCtx => if ctx_done s then Some (leave w (Some Incoming.Canceled) m s) else None
  | AwaitingState, Okay =>
      if vmstate_migrated s then
        Some (set_mirror w {| m_pc := Completing 0; waits := []; first_error := None |} s)
      else None
  | AwaitingState, Jobs js => if bool_decide (length js = length (disks_of w p)) then Some (look w m (disks_of w p) js s) else None
  | Completing n, _ =>
      match disks_of w p !! n with
      | None => Some (set_mirror w (at_pc Finishing m) s)
      | Some d =>
          let s := note (Sent (block_job_complete (job_of d))) s in
          let next x := Some (set_mirror w {| m_pc := Completing (S n); waits := waits m ++ [x];
                                              first_error := first_error m |} s) in
          match a with
          | Okay => next Draining
          | Failed_ _ => next Finished
          | _ => None
          end
      end
  | Finishing, _ =>
      if all_finished m then
        match first_error m with
        | Some e => Some (leave w (if bool_decide (e = Incoming.Canceled ∨ e = DeadlineExceeded) then Some e else None) m s)
        | None => Some (leave w None m s)
        end
      else None
  | _, _ => None
  end.

(** A goroutine of the group ends. *)
Definition finish (i : nat) (e : option goerr) (m : mirror) : mirror :=
  {| m_pc := m_pc m; waits := <[i := Finished]> (waits m);
     first_error := match first_error m with Some e' => Some e' | None => e end |}.

Definition wait_step (p : setup) (w : which) (i : nat) (a : answer_) (m : mirror) (s : state) : option state :=
  match waits m !! i, disks_of w p !! i with
  | Some x, Some d =>
      let ends e s := Some (set_mirror w (finish i e m) s) in
      let failed s := ends (Some (ErrMsg ("failed to get mirroring status (jobID=" +:+ job_of d +:+ ")"))) s in
      match x, a with
      | Announced, Okay => Some (set_mirror w {| m_pc := m_pc m; waits := <[i := Syncing]> (waits m);
                                                 first_error := first_error m |} s)
      | Announced, Failed_ e => ends (Some e) s
      | (Syncing | Draining), DoneCtx => if group_done m s then ends (Some Incoming.Canceled) s else None
      | (Syncing | Draining), Failed_ e => failed s
      | Syncing, Job None => failed s
      | Syncing, Job (Some j) =>
          let s := track d j s in
          if Ready j then ends None (note (JobReady (job_of d)) s) else Some s
      | Draining, Job (Some _) => Some s
      | Draining, Gone (Ret ()) => ends None s
      | Draining, Gone (Throw e) => ends (Some e) s
      | _, _ => None
      end
  | _, _ => None
  end.

(** *** [migrateMachineState] *)

Definition migration_uri (p : setup) : string :=
  "tcp:" +:+ addr p +:+ ":" +:+ Strconv.Itoa (reply_IncomingPort (ports p)).

Definition state_step (p : setup) (a : answer_) (pc : state_pc) (s : state) : option state :=
  let goto pc := set_state_thread pc in
  let sends c next :=
    let s := note (Sent c) s in
    match a with
    | Okay => Some (goto next s)
    | Failed_ e => Some (goto (SClosing (Some e)) s)
    | _ => None
    end in
  match pc, a with
  | SWait, DoneCtx => if ctx_done s then Some (goto (SClosing (Some Incoming.Canceled)) s) else None
  | SWait, Okay => if disks_ready s then Some (goto SCapabilities s) else None
  | SCapabilities, _ => sends (migrate_set_capabilities (capabilities (qemu_version p))) SParameters
  | SParameters, _ => sends (migrate_set_parameters 8589934592 536870912) SStart
  | SStart, _ => sends (migrate (migration_uri p)) SPoll
  | SPoll, _ => Some (goto (if ctx_done s then SClosing (Some Incoming.Canceled) else SQuery) s)
  | SQuery, Failed_ e => Some (goto (SClosing (Some e)) s)
  | SQuery, Mig mi =>
      let st := Status mi in
      let s := if bool_decide (st ∈ ["active"; "postcopy-active"; "completed"]) then
                 set_stat (updateVMState (Ram_Total mi) (Ram_Remaining mi) (u64 (Ram_Total mi - Ram_Remaining mi))
                             (Ram_Speed mi) (stat s)) s
               else s in
      let s := note (MigrationIs st) s in
      Some (goto (if bool_decide (st = "completed") then SClosing None
                  else if bool_decide (st = "failed") then SClosing (Some (ErrMsg ("QEMU migration failed: " +:+ ErrDesc mi)))
                  else if bool_decide (st = "cancelled") then SClosing (Some (ErrMsg "QEMU migration cancelled by QMP command"))
                  else SPoll) s)
  | SClosing e, _ => Some (goto (SClosed e) (set_vmstate_migrated s))
  | SClosed e, _ => Some (report e (goto (SReturned e) s))
  | _, _ => None
  end.

(** *** [Main] *)

(** Its deferred functions close what is still open. *)
Definition main_leaves (p : setup) (e : option goerr) (s : state) : state :=
  let s := match flash p with
           | Some _ => if flash_ready s then s else set_flash_ready s
           | None => s
           end in
  set_main (MLeft e) (if disks_ready s then s else set_disks_ready s).

Definition returned (m : option mirror) : bool :=
  match m with Some {| m_pc := Returned _ |} | None => true | _ => false end.

Definition main_step (p : setup) (a : answer_) (s : state) : option state :=
  match main s, a with
  | MBegin, _ =>
      Some (match flash p with
            | Some _ => set_main MWaitFlash (set_mirror Flash start_mirror s)
            | None => set_main MStartMirror s
            end)
  | MWaitFlash, DoneCtx => if ctx_done s then Some (main_leaves p (Some Incoming.Canceled) s) else None
  | MWaitFlash, Okay => if flash_ready s then Some (set_main MStartMirror s) else None
  | MStartMirror, _ =>
      Some (set_main MStartState
              (match moving p with [] => set_disks_ready s | _ => set_mirror Moving start_mirror s end))
  | MStartState, _ => Some (set_main MWaitGroup (set_state_thread SWait s))
  | MWaitGroup, _ =>
      if returned (flash_mirror s) && returned (moving_mirror s) &&
         match state_thread s with Some (SReturned _) => true | _ => false end
      then Some (main_leaves p (group_error s) s) else None
  | _, _ => None
  end.

(** ** Steps *)

Inductive label :=
  | LCancel
  | LMain (a : answer_)
  | LMirror (w : which) (a : answer_)
  | LWait (w : which) (i : nat) (a : answer_)
  | LState (a : answer_).

Definition fire (p : setup) (l : label) (s : state) : option state :=
  if crashed s then None
  else match l with
       | LCancel => Some (set_cancelled s)
       | LMain a => main_step p a s
       | LMirror w a => m ← the_mirror w s; mirror_step p w a m s
       | LWait w i a => m ← the_mirror w s; wait_step p w i a m s
       | LState a => pc ← state_thread s; state_step p a pc s
       end.

Definition begin (st : MachineMigrationStatDetails) : state :=
  {| cancelled := false; group_error := None; flash_ready := false; disks_ready := false; vmstate_migrated := false;
     flash_mirror := None; moving_mirror := None; state_thread := None; main := MBegin; stat := st;
     crashed := false; trace := [] |}.

Definition step (p : setup) (s s' : state) : Prop := ∃ l, fire p l s = Some s'.
Definition reachable (p : setup) (st : MachineMigrationStatDetails) : state → Prop := rtc (step p) (begin st).

(** A run, by its labels. *)
Fixpoint go (p : setup) (ls : list label) (s : state) : option state :=
  match ls with [] => Some s | l :: ls => s ← fire p l s; go p ls s end.
End Transfer.
