(* ===== verification/TransferFacts.v ===== *)
(** TransferFacts: what holds of a transfer whatever order its goroutines run
    in and whatever they hear from QEMU, by induction on the steps, and two runs
    that go wrong. *)

From S2P Require Import Prelude.
From S2P Require Import GoStd.
From S2P Require Import GoFacts.
From S2P Require Import Services.
From S2P Require Import Incoming.
From S2P Require Import Migration.
From S2P Require Import Transfer.

Open Scope Z_scope.
#[local] Set Warnings "-register-all".

Module TransferFacts.
Import Services Migration Transfer.

(** ** Growth *)

(** What only grows: the trace, the channels that are closed, and whether there
    is an error. *)
Record grows (s s' : state) : Prop := {
  grows_trace : ∃ l, trace s' = trace s ++ l;
  grows_migrated : vmstate_migrated s = true → vmstate_migrated s' = true;
  grows_error : group_error s ≠ None → group_error s' ≠ None;
}.
#[export] Instance grows_refl : Reflexive grows.
Proof. intros s. split; [exists []; by rewrite app_nil_r|done..]. Qed.
#[export] Instance grows_trans : Transitive grows.
Proof.
  intros s1 s2 s3 [[l1 H1] ? ?] [[l2 H2] ? ?]. split; [|auto..].
  exists (l1 ++ l2). by rewrite H2, H1, app_assoc.
Qed.
Lemma grows_elem s s' e : grows s s' → e ∈ trace s → e ∈ trace s'.
Proof. intros [[l ->] _ _] He. apply elem_of_app. by left. Qed.

(** A state with other statistics, which may have crashed. *)
Definition restat (st : MachineMigrationStatDetails) (c : bool) (s : state) : state :=
  {| cancelled := cancelled s; group_error := group_error s; flash_ready := flash_ready s; disks_ready := disks_ready s;
     vmstate_migrated := vmstate_migrated s; flash_mirror := flash_mirror s; moving_mirror := moving_mirror s;
     state_thread := state_thread s; main := main s; stat := st; crashed := c; trace := trace s |}.

Lemma track_restat d j s : ∃ st c, track d j s = restat st c s.
Proof.
  unfold track. case_bool_decide; [exists (stat s), (crashed s); by destruct s|].
  destruct (updateDisk _ _ _ _ _) as [st|e|q].
  - by exists st, (crashed s).
  - by exists (stat s), true.
  - by exists (stat s), true.
Qed.

Lemma look_restat w m ds js s :
  ∃ st c, look w m ds js s = restat st c s ∨ ∃ e, look w m ds js s = leave w (Some e) m (restat st c s).
Proof.
  revert js s. induction ds as [|d ds IH]; intros [|j js] s; cbn [look];
    try (exists (stat s), (crashed s); left; by destruct s).
  assert (s = restat (stat s) (crashed s) s) as Hs by by destruct s.
  destruct j as [[j|]|e].
  - destruct (track_restat d j s) as (st & c & ->).
    destruct (IH js (restat st c s)) as (st' & c' & [->|[e ->]]); exists st', c'; [by left|right; by exists e].
  - exists (stat s), (crashed s). right. rewrite <- Hs. by eexists.
  - exists (stat s), (crashed s). right. rewrite <- Hs. by eexists.
Qed.

(** ** Mirrors *)

Section facts.
Context (p : setup).

Definition synced (w : which) (s : state) : Prop :=
  ∀ d, d ∈ disks_of w p → JobReady (job_of d) ∈ trace s.
Definition completed (w : which) (n : nat) (s : state) : Prop :=
  ∀ i d, (i < n)%nat → disks_of w p !! i = Some d → Sent (block_job_complete (job_of d)) ∈ trace s.

(** The goroutines that wait for the disks to be ready. *)
Definition waiting (w : which) (m : mirror) (s : state) : Prop :=
  (Draining ∉ waits m) ∧
  ∀ i d, disks_of w p !! i = Some d → waits m !! i = Some Finished → first_error m = None →
    JobReady (job_of d) ∈ trace s.

Definition mirror_inv (w : which) (m : mirror) (s : state) : Prop :=
  match m_pc m with
  | Starting n => length (waits m) = n ∧ (n ≤ length (disks_of w p))%nat ∧ waiting w m s
  | Synchronizing => length (waits m) = length (disks_of w p) ∧ waiting w m s
  | Synchronized => synced w s
  | AwaitingState => synced w s
  | Completing n => synced w s ∧ vmstate_migrated s = true ∧ completed w n s
  | Finishing => synced w s ∧ vmstate_migrated s = true ∧ completed w (length (disks_of w p)) s
  | Returned None => synced w s ∧ vmstate_migrated s = true ∧ completed w (length (disks_of w p)) s
  | Returned (Some _) => group_error s ≠ None
  end.

Lemma mirror_inv_grows w m s s' : grows s s' → mirror_inv w m s → mirror_inv w m s'.
Proof.
  intros Hg. pose proof (grows_elem s s') as He. specialize (λ e, He e Hg). destruct Hg as [_ Hv Hx].
  unfold mirror_inv, synced, completed, waiting. destruct (m_pc m) as [n| | | |n| |[e|]]; naive_solver.
Qed.
(** What the steps of a mirror leave alone. *)
Record beside_mirror (w : which) (s s' : state) : Prop := {
  bm_grows : grows s s';
  bm_other : ∀ w', w' ≠ w → the_mirror w' s' = the_mirror w' s ∧ ready_closed w' s' = ready_closed w' s;
  bm_thread : state_thread s' = state_thread s;
  bm_main : main s' = main s;
  bm_migrated : vmstate_migrated s' = vmstate_migrated s;
  bm_migrate : ∀ u, Sent (migrate u) ∈ trace s' → Sent (migrate u) ∈ trace s;
  bm_complete : ∀ j, Sent (block_job_complete j) ∈ trace s' →
    Sent (block_job_complete j) ∈ trace s ∨ vmstate_migrated s' = true;
}.

#[local] Instance beside_trans w : Transitive (beside_mirror w).
Proof.
  intros s1 s2 s3 [G1 O1 T1 M1 V1 U1 C1] [G2 O2 T2 M2 V2 U2 C2].
  split; [by etrans| |congruence|congruence|congruence|naive_solver|].
  - intros w' Hw. destruct (O1 w' Hw) as [<- <-]. by apply O2.
  - intros j Hj. destruct (C2 j Hj) as [Hj'|]; [|by right]. destruct (C1 j Hj') as [|Hv]; [by left|].
    right. by apply (grows_migrated _ _ G2).
Qed.

Lemma same_trace s s' :
  trace s' = trace s → (vmstate_migrated s = true → vmstate_migrated s' = true) →
  (group_error s ≠ None → group_error s' ≠ None) → grows s s'.
Proof. intros Ht Hv He. split; [exists []; by rewrite app_nil_r|done..]. Qed.

Lemma beside_set_mirror w m s : beside_mirror w s (set_mirror w m s).
Proof. split; [by apply same_trace| |done|done|done|done|by left]. by intros [] Hw; destruct w. Qed.
Lemma beside_restat w st c s : beside_mirror w s (restat st c s).
Proof. split; [by apply same_trace| |done|done|done|done|by left]. by intros []. Qed.
Lemma beside_crash w s : beside_mirror w s (crash s).
Proof. split; [by apply same_trace| |done|done|done|done|by left]. by intros []. Qed.
Lemma beside_report w e s : beside_mirror w s (report e s).
Proof.
  split; [apply same_trace; [done..|]|by intros []|done|done|done|done|by left].
  cbn. by destruct (group_error s).
Qed.
Lemma beside_close_ready w s : beside_mirror w s (close_ready w s).
Proof.
  unfold close_ready. destruct (ready_closed w s); [apply beside_crash|].
  destruct w; (split; [by apply same_trace| |done|done|done|done|by left]); by intros [].
Qed.
Lemma beside_note w e s :
  (∀ u, e ≠ Sent (migrate u)) → (∀ j, e = Sent (block_job_complete j) → vmstate_migrated s = true) →
  beside_mirror w s (note e s).
Proof.
  intros Hm Hc. split; [split; [by exists [e]|done..]|by intros []|done|done|done| |].
  - intros u. cbn. rewrite elem_of_app, list_elem_of_singleton. intros [|<-]; [done|]. by destruct (Hm u).
  - intros j. cbn. rewrite elem_of_app, list_elem_of_singleton. intros [|<-]; [by left|]. right. by apply (Hc j).
Qed.
Lemma beside_leave w e m s : beside_mirror w s (leave w e m s).
Proof. etrans; [apply beside_set_mirror|apply beside_report]. Qed.

Lemma the_set_mirror w m s : the_mirror w (set_mirror w m s) = Some m.
Proof. by destruct w. Qed.
Lemma the_leave w e m s : the_mirror w (leave w e m s) = Some (at_pc (Returned e) m).
Proof. by destruct w. Qed.
Lemma the_close_ready w s : the_mirror w (close_ready w s) = the_mirror w s.
Proof. unfold close_ready. by destruct w; cbn; case_match. Qed.

(** A step of a mirror keeps its invariant, and only opens the way when all its
    disks are ready. *)
Definition mirror_kept (w : which) (s s' : state) : Prop :=
  beside_mirror w s s' ∧
  (crashed s' = true ∨
   (∃ m', the_mirror w s' = Some m' ∧ mirror_inv w m' s') ∧
   (ready_closed w s' = true → ready_closed w s = true ∨ synced w s')).

Lemma kept_leave w e m s s1 :
  beside_mirror w s s1 → ready_closed w s1 = ready_closed w s →
  (e = None → synced w s1 ∧ vmstate_migrated s1 = true ∧ completed w (length (disks_of w p)) s1) →
  mirror_kept w s (leave w e m s1).
Proof.
  intros Hb Hr He. split; [etrans; [done|apply beside_leave]|]. right. split.
  - exists (at_pc (Returned e) m). split; [apply the_leave|]. unfold mirror_inv. cbn.
    destruct e as [e|]; [by destruct (group_error s1)|]. by apply He.
  - intros Hc. left. rewrite <- Hr. by destruct w.
Qed.

Lemma inv_set w m s s1 :
  beside_mirror w s s1 → ready_closed w s1 = ready_closed w s → mirror_inv w m s1 →
  mirror_kept w s (set_mirror w m s1).
Proof.
  intros Hb Hr Hm. split; [etrans; [done|apply beside_set_mirror]|]. right. split.
  - exists m. split; [apply the_set_mirror|]. eapply mirror_inv_grows; [|exact Hm]. by apply same_trace.
  - intros Hc. left. rewrite <- Hr. by destruct w.
Qed.

Lemma beside_refl w s : beside_mirror w s s.
Proof. split; [reflexivity|done..|by left]. Qed.

Lemma waiting_all w m s :
  waiting w m s → length (waits m) = length (disks_of w p) → all_finished m = true → first_error m = None → synced w s.
Proof.
  intros [_ Hw] Hl Ha He d Hd. apply list_elem_of_lookup in Hd as [i Hi].
  assert (is_Some (waits m !! i)) as [x Hx] by (apply lookup_lt_is_Some; rewrite Hl; by eapply lookup_lt_Some).
  apply (Hw i d Hi); [|done]. unfold all_finished in Ha. rewrite forallb_forall in Ha.
  assert (In x (waits m)) as Hin by (apply list_elem_of_In; by eapply list_elem_of_lookup_2).
  specialize (Ha x Hin). by destruct x.
Qed.

Lemma starting_kept w n a m s s' :
  m_pc m = Starting n → mirror_inv w m s → mirror_step p w a m s = Some s' → mirror_kept w s s'.
Proof.
  intros Hpc Hi. unfold mirror_inv, mirror_step in *. rewrite Hpc in *. destruct Hi as (Hl & Hn & Hw).
  destruct (disks_of w p !! n) as [d|] eqn:Hd.
  2: { intros [= <-]. apply inv_set; [apply beside_refl|done|]. unfold mirror_inv. cbn. split; [|done].
       apply lookup_ge_None in Hd. lia. }
  destruct (dst d) as [name|e|q].
  - set (s1 := note _ s). assert (beside_mirror w s s1) as Hb by by apply beside_note.
    destruct a; try done; intros [= <-].
    + apply inv_set; [done|by destruct w|]. unfold mirror_inv. cbn. split_and!.
      * rewrite length_app. cbn. lia.
      * apply lookup_lt_Some in Hd. lia.
      * destruct Hw as [Hdr Hw]. split; cbn; [intros [|Hx%list_elem_of_singleton]%elem_of_app; done|].
        intros i d' Hd' Hx He. apply lookup_app_Some in Hx as [Hx|[_ Hx]].
        -- apply elem_of_app. left. by apply (Hw i).
        -- destruct (_ - _)%nat as [|[]]; by inversion Hx.
    + apply kept_leave; [done|by destruct w|done].
  - intros [= <-]. apply kept_leave; [apply beside_refl|done|done].
  - intros [= <-]. split; [apply beside_crash|by left].
Qed.

Lemma completing_kept w n a m s s' :
  m_pc m = Completing n → mirror_inv w m s → mirror_step p w a m s = Some s' → mirror_kept w s s'.
Proof.
  intros Hpc Hi. unfold mirror_inv, mirror_step in *. rewrite Hpc in *. destruct Hi as (Hs & Hv & Hc).
  destruct (disks_of w p !! n) as [d|] eqn:Hd.
  2: { intros [= <-]. apply inv_set; [apply beside_refl|done|]. unfold mirror_inv. cbn. split_and!; [done..|].
       intros i d Hi Hd'. apply (Hc i d); [|done]. apply lookup_ge_None in Hd. lia. }
  set (s1 := note _ s). assert (beside_mirror w s s1) as Hb by by apply beside_note.
  assert (∀ x, mirror_kept w s (set_mirror w
    {| m_pc := Completing (S n); waits := waits m ++ [x]; first_error := first_error m |} s1)) as Hk.
  { intros x. apply inv_set; [done|by destruct w|]. unfold mirror_inv. cbn. split_and!; [|done|].
    - intros d' Hd'. apply elem_of_app. left. by apply Hs.
    - intros i d' Hi Hd'. cbn. apply elem_of_app. destruct (decide (i = n)) as [->|Hne].
      + right. rewrite Hd in Hd'. injection Hd' as <-. by left.
      + left. apply (Hc i d'); [lia|done]. }
  destruct a; try done; intros [= <-]; apply Hk.
Qed.

Lemma mirror_step_kept w a m s s' :
  the_mirror w s = Some m → mirror_inv w m s → mirror_step p w a m s = Some s' → mirror_kept w s s'.
Proof.
  intros Hm Hi Hs. destruct (m_pc m) as [n| | | |n| |e] eqn:Hpc.
  - by eapply starting_kept.
  - unfold mirror_inv, mirror_step in *. rewrite Hpc in *. destruct Hi as [Hl Hw].
    destruct (all_finished m) eqn:Ha; [|done]. destruct (first_error m) as [e|] eqn:He; simplify_eq.
    + by apply kept_leave; [apply beside_refl|..].
    + apply inv_set; [apply beside_refl|done|]. unfold mirror_inv. cbn. by eapply waiting_all.
  - unfold mirror_inv, mirror_step in *. rewrite Hpc in *. injection Hs as <-.
    split; [etrans; [apply beside_set_mirror|apply beside_close_ready]|]. right. split.
    + exists (at_pc AwaitingState m). rewrite the_close_ready, the_set_mirror. split; [done|].
      unfold mirror_inv. cbn. intros d Hd. eapply grows_elem; [apply (bm_grows w), beside_close_ready|]. by apply Hi.
    + intros _. right. intros d Hd. eapply grows_elem; [apply (bm_grows w), beside_close_ready|]. by apply Hi.
  - unfold mirror_inv, mirror_step in *. rewrite Hpc in *. destruct a as [| | | |js| |]; try done.
    + destruct (vmstate_migrated s) eqn:Hv; [|done]. injection Hs as <-.
      apply inv_set; [apply beside_refl|done|]. unfold mirror_inv. cbn. split_and!; [done..|]. intros i d Hi'. lia.
    + destruct (ctx_done s); [|done]. injection Hs as <-. by apply kept_leave; [apply beside_refl|..].
    + case_bool_decide; [|done]. injection Hs as <-.
      destruct (look_restat w m (disks_of w p) js s) as (st & c & [->|[e ->]]).
      * split; [apply beside_restat|]. right. split; [exists m; split; [by destruct w|]|].
        -- unfold mirror_inv. by rewrite Hpc.
        -- intros Hr. left. by destruct w.
      * by apply kept_leave; [apply beside_restat|destruct w|].
  - by eapply completing_kept.
  - unfold mirror_inv, mirror_step in *. rewrite Hpc in *.
    destruct (all_finished m); [|done]. destruct (first_error m) as [e|]; simplify_eq;
      (apply kept_leave; [apply beside_refl|done|]); by intros _.
  - unfold mirror_step in Hs. by rewrite Hpc in Hs.
Qed.

(** A goroutine of a mirror's group. *)
Lemma kept_wait w i x e m s s1 :
  beside_mirror w s s1 → ready_closed w s1 = ready_closed w s → mirror_inv w m s → x ≠ Draining →
  (waits m !! i ≠ Some Draining → x = Finished → first_error m = None → e = None →
   ∀ d, disks_of w p !! i = Some d → JobReady (job_of d) ∈ trace s1) →
  mirror_kept w s (set_mirror w
    {| m_pc := m_pc m; waits := <[i := x]> (waits m);
       first_error := match first_error m with Some e' => Some e' | None => e end |} s1).
Proof.
  intros Hb Hr Hi Hx Hready. apply inv_set; [done..|].
  apply (mirror_inv_grows _ _ _ s1) in Hi; [|apply Hb].
  assert (waiting w m s1 → waiting w {| m_pc := m_pc m; waits := <[i := x]> (waits m);
       first_error := match first_error m with Some e' => Some e' | None => e end |} s1) as Hwait.
  { intros [Hdr Hw]. split; cbn.
    - intros Hd. apply list_elem_of_lookup in Hd as [j Hj]. apply list_lookup_insert_Some in Hj as [(-> & -> & _)|[_ Hj]]; [done|].
      by apply Hdr, list_elem_of_lookup_2 with j.
    - intros j d Hd Hj He. destruct (first_error m) as [e'|] eqn:Hfe; [done|].
      apply list_lookup_insert_Some in Hj as [(-> & -> & _)|[_ Hj]]; [|by apply (Hw j)].
      apply Hready; try done. intros Hw'. by apply Hdr, list_elem_of_lookup_2 with j. }
  unfold mirror_inv in *. cbn. destruct (m_pc m); try done.
  - rewrite length_insert. naive_solver.
  - rewrite length_insert. naive_solver.
Qed.

Lemma wait_step_kept w i a m s s' :
  the_mirror w s = Some m → mirror_inv w m s → wait_step p w i a m s = Some s' → mirror_kept w s s'.
Proof.
  intros Hm Hi Hs. unfold wait_step in Hs.
  destruct (waits m !! i) as [x|] eqn:Hx; [|done]. destruct (disks_of w p !! i) as [d|] eqn:Hd; [|done].
  assert (∀ e, waits m !! i = Some Draining ∨ e ≠ None → mirror_kept w s (set_mirror w (finish i e m) s)) as Hfin.
  { intros e He. apply kept_wait; [apply beside_refl|done|done|done|]. naive_solver. }
  destruct x, a as [|e| |[j|]| | |[[]|e|q]]; try done; simplify_eq; try (apply Hfin; first [by left|by right]).
  - pose proof (kept_wait w i Syncing None m s s (beside_refl w s) eq_refl Hi) as Hk.
    destruct (first_error m); by apply Hk.
  - destruct (group_done m s); [|done]. injection Hs as <-. apply Hfin. by right.
  - destruct (track_restat d j s) as (st & c & E). rewrite E in Hs. set (s1 := restat st c s) in *.
    destruct (Ready j); injection Hs as <-.
    + apply kept_wait; [|by destruct w|done|done|].
      * etrans; [apply beside_restat|by apply beside_note].
      * intros _ _ _ _ d' Hd'. rewrite Hd in Hd'. injection Hd' as <-. cbn. apply elem_of_app. right. by left.
    + split; [apply beside_restat|]. right. split; [exists m; split; [by destruct w|done]|].
      intros Hr. left. by destruct w.
  - destruct (group_done m s); [|done]. injection Hs as <-. apply Hfin. by right.
  - split; [apply beside_refl|]. right. split; [by exists m|]. by left.
Qed.

(** ** All of them *)

Definition has_left (s : state) : Prop := ∃ e, main s = MLeft e.

Definition thread_inv (s : state) (pc : state_pc) : Prop :=
  match pc with
  | SWait | SClosing (Some _) | SClosed (Some _) => True
  | SCapabilities | SParameters | SStart | SPoll | SQuery => synced Moving s
  | SClosing None | SClosed None | SReturned None => synced Moving s ∧ MigrationIs "completed" ∈ trace s
  | SReturned (Some _) => group_error s ≠ None
  end.
Definition ended (pc : state_pc) : bool := match pc with SClosed _ | SReturned _ => true | _ => false end.

Record core (s : state) : Prop := {
  core_mirror : ∀ w m, the_mirror w s = Some m → mirror_inv w m s;
  core_ready : ¬ has_left s → ∀ w, ready_closed w s = true → synced w s;
  core_flash : main s ∈ [MStartMirror; MStartState; MWaitGroup] → synced Flash s;
  core_threads : state_thread s = None → vmstate_migrated s = false;
  core_thread : ∀ pc, state_thread s = Some pc →
    synced Flash s ∧ thread_inv s pc ∧ (main s = MWaitGroup ∨ has_left s ∧ ∃ e, pc = SReturned e) ∧
    (vmstate_migrated s = true → ended pc = true);
  core_started : ∀ w, disks_of w p ≠ [] →
    main s ∈ (match w with Flash => [MWaitFlash; MStartMirror; MStartState; MWaitGroup; MLeft None]
              | Moving => [MStartState; MWaitGroup; MLeft None] end) → the_mirror w s ≠ None;
  core_success : main s = MLeft None → state_thread s = Some (SReturned None) ∧
    ∀ w m, the_mirror w s = Some m → m_pc m = Returned None;
}.

(** Every start of the migration comes after all disks were found ready. *)
Definition in_order (t : list event) : Prop :=
  ∀ t1 u t2, t = t1 ++ Sent (migrate u) :: t2 → ∀ w d, d ∈ disks_of w p → JobReady (job_of d) ∈ t1.

Record inv (s : state) : Prop := {
  inv_order : in_order (trace s);
  inv_complete : ∀ j, Sent (block_job_complete j) ∈ trace s → vmstate_migrated s = true;
  inv_core : crashed s = true ∨ core s;
}.

Lemma in_order_grows s s' :
  grows s s' → (∀ u, Sent (migrate u) ∈ trace s' → Sent (migrate u) ∈ trace s) →
  in_order (trace s) → in_order (trace s').
Proof.
  intros [[l Ht] _ _] Hm Ho t1 u t2 E w d Hd.
  assert (Sent (migrate u) ∈ trace s) as Hu.
  { apply Hm. rewrite E. apply elem_of_app. right. by left. }
  apply list_elem_of_split in Hu as (x1 & x2 & Hx).
  pose proof (Ho _ _ _ Hx w d Hd) as Hj. rewrite Ht, Hx in E.
  assert (x1 `prefix_of` t1 ∨ ∃ y, x1 = t1 ++ Sent (migrate u) :: y) as [[y ->]|[y ->]].
  { clear -E. rewrite <- app_assoc in E. apply app_eq_inv in E as [(y & -> & E)|(y & -> & E)].
    - destruct y as [|e y]; [left; exists []; by rewrite !app_nil_r|].
      injection E as <- _. right. by exists y.
    - left. by exists y. }
  - apply elem_of_app. by left.
  - eapply (Ho t1 u (y ++ Sent (migrate u) :: x2) _ w d), Hd.
    Unshelve. rewrite Hx. by rewrite <- app_assoc.
Qed.

Lemma synced_grows w s s' : grows s s' → synced w s → synced w s'.
Proof. intros Hg Hs d Hd. eapply grows_elem; [done|]. by apply Hs. Qed.
Lemma thread_inv_grows pc s s' : grows s s' → thread_inv s pc → thread_inv s' pc.
Proof.
  intros Hg. pose proof (synced_grows Moving _ _ Hg) as Hs.
  pose proof (λ e, grows_elem _ _ e Hg) as He. pose proof (grows_error _ _ Hg) as Hx.
  destruct pc as [| | | | | |[]|[]|[]]; cbn; naive_solver.
Qed.

Lemma inv_mirror_kept w s s' m :
  mirror_kept w s s' → core s → inv s → the_mirror w s = Some m →
  (∀ m' e, the_mirror w s' = Some m' → m_pc m = Returned e → m_pc m' = Returned e) → inv s'.
Proof.
  intros [Hb Hk] Hc [Ho Hcp _] Hsome Hpc. pose proof (bm_grows _ _ _ Hb) as Hg. split.
  - eapply in_order_grows; [done|apply Hb|done].
  - intros j Hj. destruct (bm_complete _ _ _ Hb j Hj) as [Hj'|]; [|done]. apply (grows_migrated _ _ Hg). by eapply Hcp.
  - destruct Hk as [|[(m' & Hm' & Hi') Hr]]; [by left|right].
    pose proof (bm_main _ _ _ Hb) as Hmain. pose proof (bm_thread _ _ _ Hb) as Hth.
    pose proof (bm_migrated _ _ _ Hb) as Hv.
    assert (∀ w', w' ≠ w → the_mirror w' s' = the_mirror w' s) as Hoth by (intros w' Hne; by apply (bm_other _ _ _ Hb)).
    destruct Hc as [Cm Cr Cf Cn Ct Cs Cw]. unfold has_left in *. split; unfold has_left in *; rewrite ?Hmain, ?Hth, ?Hv.
    + intros w' m1 Hm. destruct (decide (w' = w)) as [->|Hne]; [by rewrite Hm' in Hm; injection Hm as <-|].
      eapply mirror_inv_grows; [done|]. apply Cm. by rewrite <- (Hoth w' Hne).
    + intros Hl w' Hw'. destruct (decide (w' = w)) as [->|Hne].
      * destruct (Hr Hw') as [Hw|]; [|done]. eapply synced_grows; [done|]. by apply Cr.
      * eapply synced_grows; [done|]. apply Cr; [done|]. by rewrite <- (proj2 (bm_other _ _ _ Hb w' Hne)).
    + intros Hf. eapply synced_grows; [done|]. by apply Cf.
    + done.
    + intros pc Hpc'. destruct (Ct pc Hpc') as (Hf & Ht & Hl & Hv').
      split_and!; [by eapply synced_grows|by eapply thread_inv_grows|done|done].
    + intros w' Hd Hmn. destruct (decide (w' = w)) as [->|Hne]; [by rewrite Hm'|]. rewrite Hoth by done. by apply Cs.
    + intros Hl. destruct (Cw Hl) as [Hst Hret]. split; [done|]. intros w' m1 Hm1.
      destruct (decide (w' = w)) as [->|Hne]; [|rewrite Hoth in Hm1 by done; by eapply Hret].
      eapply Hpc; [done|]. by apply (Hret w).
Qed.

Lemma wait_step_pc w i a m s s' m' :
  the_mirror w s = Some m → wait_step p w i a m s = Some s' → the_mirror w s' = Some m' → m_pc m' = m_pc m.
Proof.
  intros Hm Hs. unfold wait_step in Hs.
  destruct (waits m !! i) as [x|]; [|done]. destruct (disks_of w p !! i) as [d|]; [|done].
  assert (∀ m1 s1, m_pc m1 = m_pc m → the_mirror w (set_mirror w m1 s1) = Some m' → m_pc m' = m_pc m) as Hset.
  { intros m1 s1 Hpc E. rewrite the_set_mirror in E. by injection E as <-. }
  destruct x, a as [|e| |[j|]| | |[[]|e|q]]; try done; simplify_eq; try (by apply Hset).
  - destruct (group_done m s); [|done]. injection Hs as <-. by apply Hset.
  - destruct (track_restat d j s) as (st & c & E). rewrite E in Hs.
    destruct (Ready j); injection Hs as <-; [by apply Hset|]. intros Hm'.
    assert (the_mirror w (restat st c s) = the_mirror w s) as Hr by by destruct w. congruence.
  - destruct (group_done m s); [|done]. injection Hs as <-. by apply Hset.
  - congruence.
Qed.

(** ** The thread of the machine's state *)

Lemma core_thread_step pc pc' s s' :
  core s → state_thread s = Some pc → main s = MWaitGroup → grows s s' →
  (∀ w, the_mirror w s' = the_mirror w s ∧ ready_closed w s' = ready_closed w s) → main s' = main s →
  state_thread s' = Some pc' → thread_inv s' pc' → (vmstate_migrated s' = true → ended pc' = true) → core s'.
Proof.
  intros [Cm Cr Cf Cn Ct Cs Cw] Hth Hmain Hg Hm Hm' Hth' Hi Hv. destruct (Ct _ Hth) as (Hf & _ & _ & _).
  split; unfold has_left in *; rewrite ?Hm', ?Hth'.
  - intros w m E. eapply mirror_inv_grows; [done|]. apply Cm. by rewrite <- (proj1 (Hm w)).
  - intros Hl w E. eapply synced_grows; [done|]. apply Cr; [done|]. by rewrite <- (proj2 (Hm w)).
  - intros Hx. eapply synced_grows; [done|]. by apply Cf.
  - done.
  - intros pc1 [= <-]. split_and!; [by eapply synced_grows|done|by left|done].
  - intros w Hd E. rewrite (proj1 (Hm w)). by apply Cs.
  - rewrite Hmain. done.
Qed.

Lemma in_order_snoc t e :
  in_order t → (∀ u, e = Sent (migrate u) → ∀ w d, d ∈ disks_of w p → JobReady (job_of d) ∈ t) →
  in_order (t ++ [e]).
Proof.
  intros Ho He t1 u t2 E w d Hd. destruct (decide (t2 = [])) as [->|Hne].
  - apply app_inj_2 in E as [-> [= ->]]; [|done]. by eapply He.
  - destruct t2 as [|x t2 _] using rev_ind; [done|].
    change (t ++ [e] = t1 ++ (Sent (migrate u) :: t2) ++ [x]) in E. rewrite app_assoc in E.
    apply app_inj_2 in E as [E _]; [|done]. by apply (Ho _ _ _ E w).
Qed.

Lemma note_grows e s : grows s (note e s).
Proof. split; [by exists [e]|done..]. Qed.

Lemma state_step_inv a pc s s' :
  core s → inv s → state_thread s = Some pc → state_step p a pc s = Some s' → inv s'.
Proof.
  intros Hc Hi Hth Hs. destruct (core_thread s Hc pc Hth) as (Hf & Hti & Hmn & Hv).
  assert (main s = MWaitGroup) as Hmain.
  { destruct Hmn as [|[_ [e ->]]]; [done|]. by destruct a. }
  destruct Hi as [Ho Hcp _].
  (* a step that moves the thread on after saying or hearing something *)
  assert (∀ (e : option event) pc' st,
    (∀ u, e = Some (Sent (migrate u)) → synced Moving s) → (∀ j, e ≠ Some (Sent (block_job_complete j))) →
    (∀ s1, trace s1 = trace s ++ option_list e → grows s s1 → thread_inv s1 pc') →
    (vmstate_migrated s = true → ended pc' = true) →
    inv {| cancelled := cancelled s; group_error := group_error s; flash_ready := flash_ready s;
           disks_ready := disks_ready s; vmstate_migrated := vmstate_migrated s; flash_mirror := flash_mirror s;
           moving_mirror := moving_mirror s; state_thread := Some pc'; main := main s; stat := st;
           crashed := crashed s; trace := trace s ++ option_list e |}) as Hmove.
  { intros e pc' st Hmig Hcom Hti' Hv'. set (s1 := {| cancelled := cancelled s; group_error := _ |}).
    assert (grows s s1) as Hg by (split; [by exists (option_list e)|done..]). split.
    - cbn. destruct e as [e|]; cbn; [|by rewrite app_nil_r]. apply in_order_snoc; [done|].
      intros u -> [] d Hd; [by apply Hf|by apply (Hmig u)].
    - cbn. intros j [Hj|Hj]%elem_of_app; [by eapply Hcp|].
      destruct e as [e|]; [|by inversion Hj]. apply list_elem_of_singleton in Hj as <-. by destruct (Hcom j).
    - right. eapply (core_thread_step pc pc' s s1); try done. by apply Hti'. }
  assert (∀ pc', ended pc = false → thread_inv s pc' → inv (set_state_thread pc' s)) as Hquiet.
  { intros pc' He Hti'. specialize (Hmove None pc' (stat s)). cbn in Hmove. rewrite app_nil_r in Hmove.
    apply Hmove; [done..| |intros Hx; apply Hv in Hx; congruence]. intros s1 _ Hg. by eapply thread_inv_grows. }
  assert (∀ c pc', ended pc = false → (∀ u, c = migrate u → synced Moving s) → (∀ j, c ≠ block_job_complete j) →
    (synced Moving s → thread_inv s pc') → synced Moving s →
    ∀ s1, (match a with Okay => Some (set_state_thread pc' (note (Sent c) s))
           | Failed_ e => Some (set_state_thread (SClosing (Some e)) (note (Sent c) s)) | _ => None end) = Some s1 → inv s1)
    as Hsends.
  { intros c pc' He Hmig Hcom Hpc' Hsy s1. specialize (Hmove (Some (Sent c))).
    destruct a; try done; intros [= <-]; (apply Hmove; [intros u [= ->]; by eapply Hmig|intros j0 [= ->]; by eapply Hcom|
      intros s1 _ Hg; eapply thread_inv_grows; [done|]; first [by apply Hpc'|done]|intros Hx; apply Hv in Hx; congruence]). }
  unfold state_step in Hs.
  destruct pc as [| | | | | |oe|oe|oe]; cbn in Hti.
  - destruct a; try done.
    + destruct (disks_ready s) eqn:Hr; [|done]. injection Hs as <-. apply Hquiet; [done|].
      apply (core_ready s Hc); [|done]. intros [e E]. by rewrite Hmain in E.
    + destruct (ctx_done s); [|done]. injection Hs as <-. by apply Hquiet.
  - by eapply (Hsends (migrate_set_capabilities (capabilities (qemu_version p))) SParameters).
  - by eapply (Hsends (migrate_set_parameters 8589934592 536870912) SStart).
  - by eapply (Hsends (migrate (migration_uri p)) SPoll).
  - injection Hs as <-. apply Hquiet; [done|]. by destruct (ctx_done s).
  - destruct a as [|e| | | |mi|]; try done; injection Hs as <-; [by apply Hquiet|].
    specialize (Hmove (Some (MigrationIs (Status mi)))).
    assert (∀ s1 pc', trace s1 = trace s ++ [MigrationIs (Status mi)] → grows s s1 →
      (pc' = SClosing None → Status mi = "completed") →
      (pc' = SClosing None ∨ (∃ e, pc' = SClosing (Some e)) ∨ pc' = SPoll) → thread_inv s1 pc') as Hpc'.
    { intros s1 pc' Ht Hg He Hpc'. destruct Hpc' as [->|[[e ->]| ->]]; cbn; try done.
      - split; [by eapply synced_grows|]. rewrite Ht, (He eq_refl). apply elem_of_app. right. by left.
      - by eapply synced_grows. }
    assert (∀ P Q R : bool, (P = true → Status mi = "completed") →
      let pc' := if P then SClosing None else if Q then SClosing (Some (ErrMsg ("QEMU migration failed: " +:+ ErrDesc mi)))
         else if R then SClosing (Some (ErrMsg "QEMU migration cancelled by QMP command")) else SPoll in
      (pc' = SClosing None → Status mi = "completed") ∧
      (pc' = SClosing None ∨ (∃ e, pc' = SClosing (Some e)) ∨ pc' = SPoll)) as Hif.
    { intros [] [] []; naive_solver. }
    edestruct (Hif (bool_decide (Status mi = "completed")) (bool_decide (Status mi = "failed"))
      (bool_decide (Status mi = "cancelled"))) as [Hdone Hin]; [by intros Hx%bool_decide_eq_true|].
    destruct (bool_decide (Status mi ∈ _)); apply Hmove; try done;
      first [intros s1 Ht Hg; by eapply Hpc' | intros Hx; by apply Hv in Hx].
  - injection Hs as <-. split.
    + by apply Ho.
    + done.
    + right. eapply (core_thread_step (SClosing oe) (SClosed oe) s); try done. by apply same_trace.
  - injection Hs as <-. split.
    + by apply Ho.
    + by apply Hcp.
    + right. eapply (core_thread_step (SClosed oe) (SReturned oe) s); try done.
      * apply same_trace; [done..|]. cbn. by destruct (group_error s).
      * destruct oe; cbn; [by destruct (group_error s)|done].
  - done.
Qed.

(** ** The main function *)

Lemma core_unstarted s : core s → main s ≠ MWaitGroup → ¬ has_left s → state_thread s = None.
Proof.
  intros Hc Hm Hl. destruct (state_thread s) as [pc|] eqn:E; [|done].
  destruct (core_thread s Hc pc E) as (_ & _ & [?|[? _]] & _); done.
Qed.

Lemma start_mirror_inv w s : mirror_inv w start_mirror s.
Proof.
  unfold mirror_inv. cbn. split_and!; [done|lia|]. split; cbn; [by intros Hx%elem_of_nil|]. intros i d _ Hx. by rewrite lookup_nil in Hx.
Qed.

Lemma no_disks w s : disks_of w p = [] → synced w s.
Proof. intros E d. rewrite E. by intros Hx%elem_of_nil. Qed.

Lemma core_main s s' :
  core s → state_thread s = None → ¬ has_left s' → main s' ≠ MWaitGroup → grows s s' →
  vmstate_migrated s' = vmstate_migrated s → state_thread s' = None →
  (∀ w m, the_mirror w s' = Some m → the_mirror w s = Some m ∨ m = start_mirror) →
  (∀ w, ready_closed w s' = true → synced w s') →
  (main s' ∈ [MStartMirror; MStartState; MWaitGroup] → synced Flash s') →
  (∀ w, disks_of w p ≠ [] → main s' ∈ (match w with Flash => [MWaitFlash; MStartMirror; MStartState]
                                       | Moving => [MStartState] end) → the_mirror w s' ≠ None) → core s'.
Proof.
  intros Hc Hn Hl Hw Hg Hv Hn' Hm Hr Hf Hs. split; rewrite ?Hn'; try done.
  - intros w m E. destruct (Hm w m E) as [E'| ->]; [|apply start_mirror_inv].
    eapply mirror_inv_grows; [done|]. by apply (core_mirror s Hc).
  - intros _. rewrite Hv. by apply (core_threads s Hc).
  - intros w Hd Hx. apply (Hs w Hd). destruct w; set_unfold; unfold has_left in Hl; naive_solver.
  - intros E. destruct Hl. by eexists.
Qed.

Lemma core_leaves s s' e :
  core s → grows s s' → vmstate_migrated s' = vmstate_migrated s → state_thread s' = state_thread s → main s' = MLeft e →
  (∀ w, the_mirror w s' = the_mirror w s) →
  (∀ pc, state_thread s = Some pc → ∃ e, pc = SReturned e) →
  (e = None → (∀ w, disks_of w p ≠ [] → the_mirror w s ≠ None) ∧ state_thread s = Some (SReturned None) ∧
     ∀ w m, the_mirror w s = Some m → m_pc m = Returned None) → core s'.
Proof.
  intros Hc Hg Hv Hth Hmain Hm Hret He. split; unfold has_left; rewrite ?Hmain, ?Hth, ?Hv.
  - intros w m E. rewrite Hm in E. eapply mirror_inv_grows; [done|]. by apply (core_mirror s Hc).
  - intros Hl. destruct Hl. by eexists.
  - intros Hx. set_unfold in Hx. naive_solver.
  - apply (core_threads s Hc).
  - intros pc E. destruct (core_thread s Hc pc E) as (Hf & Ht & _ & Hx). destruct (Hret pc E) as [e' ->].
    split_and!; [by eapply synced_grows|by eapply thread_inv_grows|right; by eauto|done].
  - intros w Hd Hx. rewrite Hm. assert (e = None) as -> by (destruct w; set_unfold in Hx; naive_solver). by apply (proj1 (He eq_refl)).
  - intros [= ->]. destruct (He eq_refl) as (_ & Hs & Hr). split; [done|]. intros w m E. rewrite Hm in E. by eapply Hr.
Qed.

Lemma main_leaves_frame e s :
  let s' := main_leaves p e s in
  grows s s' ∧ vmstate_migrated s' = vmstate_migrated s ∧ state_thread s' = state_thread s ∧ main s' = MLeft e ∧
  trace s' = trace s ∧ ∀ w, the_mirror w s' = the_mirror w s.
Proof.
  unfold main_leaves. repeat case_match;
    (split; [by apply same_trace|]); (split_and!; try done; by intros []).
Qed.

Lemma main_step_inv a s s' : core s → inv s → main_step p a s = Some s' → inv s'.
Proof.
  intros Hc [Ho Hcp _] Hs. unfold main_step in Hs. destruct (main s) eqn:Hmain.
  - assert (¬ has_left s) as Hl by (intros [e E]; congruence).
    assert (state_thread s = None) as Hn by (apply core_unstarted; [done|congruence|done]).
    injection Hs as <-. destruct (flash p) as [f|] eqn:Hfl; (split; [done|done|right]).
    + eapply (core_main s); try done; cbn.
      * intros [e [=]].
      * by apply same_trace.
      * intros [] m; cbn; [intros [= <-]; by right|by left].
      * intros w Hw. eapply synced_grows; [|by apply (core_ready s Hc)]. by apply same_trace.
      * intros Hx. set_unfold. naive_solver.
      * intros [] Hd Hx; [done|]. set_unfold. naive_solver.
    + eapply (core_main s); try done; cbn.
      * intros [e [=]].
      * by apply same_trace.
      * intros [] m; by left.
      * intros w Hw. eapply synced_grows; [|by apply (core_ready s Hc)]. by apply same_trace.
      * intros _. apply no_disks. cbn. by rewrite Hfl.
      * intros [] Hd Hx; [|by set_unfold; naive_solver]. cbn in Hd. by rewrite Hfl in Hd.
  - assert (¬ has_left s) as Hl by (intros [e E]; congruence).
    assert (state_thread s = None) as Hn by (apply core_unstarted; [done|congruence|done]).
    destruct a; try done.
    + destruct (flash_ready s) eqn:Hr; [|done]. injection Hs as <-. split; [done|done|right].
      eapply (core_main s); try done; cbn.
      * intros [e [=]].
      * by apply same_trace.
      * intros [] m; by left.
      * intros w Hw. eapply synced_grows; [|by apply (core_ready s Hc)]. by apply same_trace.
      * intros _. eapply synced_grows; [|by apply (core_ready s Hc Hl Flash)]. by apply same_trace.
      * intros [] Hd Hx; [|by set_unfold; naive_solver].
        apply (core_started s Hc Flash Hd). rewrite Hmain. by left.
    + destruct (ctx_done s); [|done]. injection Hs as <-.
      destruct (main_leaves_frame (Some Incoming.Canceled) s) as (Hg & Hv & Hth & Hm & Ht & Hmi).
      split; [by rewrite Ht|intros j; rewrite Ht, Hv; apply Hcp|right].
      eapply core_leaves; try done. by rewrite Hn.
  - assert (¬ has_left s) as Hl by (intros [e E]; congruence).
    assert (state_thread s = None) as Hn by (apply core_unstarted; [done|congruence|done]).
    injection Hs as <-. destruct (moving p) as [|d ds] eqn:Hmv; (split; [done|done|right]).
    + eapply (core_main s); try done; cbn.
      * intros [e [=]].
      * by apply same_trace.
      * intros [] m; by left.
      * intros [] Hw; [|by apply no_disks]. eapply synced_grows; [|by apply (core_ready s Hc Hl Flash)]. by apply same_trace.
      * intros _. eapply synced_grows; [|apply (core_flash s Hc); rewrite Hmain; by left]. by apply same_trace.
      * intros [] Hd Hx; [|cbn in Hd; by rewrite Hmv in Hd].
        apply (core_started s Hc Flash Hd). rewrite Hmain. by right; left.
    + eapply (core_main s); try done; cbn.
      * intros [e [=]].
      * by apply same_trace.
      * intros [] m; cbn; [by left|intros [= <-]; by right].
      * intros w Hw. eapply synced_grows; [|apply (core_ready s Hc Hl w); by destruct w]. by apply same_trace.
      * intros _. eapply synced_grows; [|apply (core_flash s Hc); rewrite Hmain; by left]. by apply same_trace.
      * intros [] Hd Hx; [|done]. apply (core_started s Hc Flash Hd). rewrite Hmain. by right; left.
  - assert (¬ has_left s) as Hl by (intros [e E]; congruence).
    assert (state_thread s = None) as Hn by (apply core_unstarted; [done|congruence|done]).
    injection Hs as <-. split; [done|done|right].
    assert (grows s (set_main MWaitGroup (set_state_thread SWait s))) as Hg by by apply same_trace.
    assert (synced Flash s) as Hfl by (apply (core_flash s Hc); rewrite Hmain; by right; left).
    split; unfold has_left; cbn.
    + intros w m E. eapply mirror_inv_grows; [done|]. apply (core_mirror s Hc). by destruct w.
    + intros _ w E. eapply synced_grows; [done|]. apply (core_ready s Hc Hl). by destruct w.
    + intros _. by eapply synced_grows.
    + done.
    + intros pc [= <-]. split_and!; [by eapply synced_grows|done|by left|].
      intros Hv. by rewrite (core_threads s Hc Hn) in Hv.
    + intros w Hd Hx. assert (the_mirror w s ≠ None) as Hx'; [|by destruct w].
      apply (core_started s Hc w Hd). rewrite Hmain. destruct w; set_unfold; naive_solver.
    + done.
  - destruct (returned (flash_mirror s)) eqn:R1; [|done]. destruct (returned (moving_mirror s)) eqn:R2; [|done].
    destruct (state_thread s) as [pc|] eqn:Hth; [|done]. destruct pc as [| | | | | | | |e]; try done.
    injection Hs as <-.
    destruct (main_leaves_frame (group_error s) s) as (Hg & Hv & Hth' & Hm & Ht & Hmi).
    split; [by rewrite Ht|intros j; rewrite Ht, Hv; apply Hcp|right].
    eapply core_leaves; try done; [by rewrite Hth; intros ? [= <-]; eexists|]. intros Hge. split_and!.
    + intros w Hd. apply (core_started s Hc w Hd). rewrite Hmain. destruct w; set_unfold; naive_solver.
    + destruct (core_thread s Hc _ Hth) as (_ & Hti & _). destruct e; [|done]. by destruct Hti.
    + intros w m E. pose proof (core_mirror s Hc w m E) as Hi. unfold mirror_inv in Hi.
      assert (∃ e, m_pc m = Returned e) as [e' He'].
      { destruct w; cbn in E; [rewrite E in R1; clear -R1|rewrite E in R2; clear -R2]; destruct m as [[] ? ?]; try done; by eexists. }
      rewrite He' in *. destruct e'; [|done]. by destruct Hi.
  - by destruct a.
Qed.

(** ** Reachable states *)

Lemma inv_begin st : inv (begin st).
Proof.
  split; [|by intros j Hx%elem_of_nil|].
  - intros t1 u t2 E. by destruct t1.
  - right. split; cbn; try done; try (by intros []); try (by intros _ []).
    + intros Hx. set_unfold in Hx. naive_solver.
    + intros [] Hd Hx; set_unfold in Hx; naive_solver.
Qed.

Lemma fire_inv l s s' : inv s → fire p l s = Some s' → inv s'.
Proof.
  intros Hi Hs. unfold fire in Hs. destruct (crashed s) eqn:Hcr; [done|].
  assert (core s) as Hc by (destruct (inv_core s Hi); [congruence|done]).
  destruct l as [|a|w a|w i a|a]; cbn in Hs.
  - injection Hs as <-. assert (grows s (set_cancelled s)) as Hg by by apply same_trace.
    destruct Hi as [Ho Hcp _]. split; [done|done|right].
    destruct Hc as [Cm Cr Cf Cn Ct Cs Cw]. by split.
  - by eapply main_step_inv.
  - destruct (the_mirror w s) as [m|] eqn:Hm; [|done]. cbn in Hs.
    eapply inv_mirror_kept; [by eapply mirror_step_kept; [|apply (core_mirror s Hc)|]|done..|].
    intros m' e Hm' Hpc. unfold mirror_step in Hs. by rewrite Hpc in Hs.
  - destruct (the_mirror w s) as [m|] eqn:Hm; [|done]. cbn in Hs.
    eapply inv_mirror_kept; [by eapply wait_step_kept; [|apply (core_mirror s Hc)|]|done..|].
    intros m' e Hm' Hpc. by rewrite (wait_step_pc _ _ _ _ _ _ _ Hm Hs Hm').
  - destruct (state_thread s) as [pc|] eqn:Hth; [|done]. cbn in Hs. by eapply state_step_inv.
Qed.

Lemma reachable_inv st s : reachable p st s → inv s.
Proof.
  unfold reachable. generalize (inv_begin st). generalize (begin st). intros s0 H0 Hr.
  induction Hr as [|s1 s2 s3 [l Hl] _ IH]; [done|]. apply IH. by eapply fire_inv.
Qed.

(** C18: the state of the machine starts to move only when all its disks are on
    the other side: in every run, each disk that is moved and the firmware flash
    were found ready before the command to migrate was sent. *)
Theorem migrate_after_disks st s t1 u t2 :
  reachable p st s → trace s = t1 ++ Sent (migrate u) :: t2 →
  ∀ d, d ∈ moving p ∨ flash p = Some d → JobReady (job_of d) ∈ t1.
Proof.
  intros Hr E d Hd. pose proof (inv_order _ (reachable_inv _ _ Hr) _ _ _ E) as Ho.
  destruct Hd as [Hd|Hd]; [by apply (Ho Moving)|apply (Ho Flash)]. cbn. rewrite Hd. by left.
Qed.

(** when the task succeeds QEMU has said that the machine's state has moved
    completely, and each of the disks was found ready and told to switch over. *)
Theorem success_complete st s :
  reachable p st s → main s = MLeft None → crashed s = false →
  MigrationIs "completed" ∈ trace s ∧
  ∀ d, d ∈ moving p ∨ flash p = Some d →
    JobReady (job_of d) ∈ trace s ∧ Sent (block_job_complete (job_of d)) ∈ trace s.
Proof.
  intros Hr Hm Hcr. destruct (reachable_inv _ _ Hr) as [_ _ [?|Hc]]; [congruence|].
  destruct (core_success s Hc Hm) as [Hth Hret].
  destruct (core_thread s Hc _ Hth) as (Hf & [Hmv Hcomp] & _). split; [done|]. intros d Hd.
  assert (∃ w, d ∈ disks_of w p) as [w Hw].
  { destruct Hd as [Hd|Hd]; [by exists Moving|exists Flash]. cbn. rewrite Hd. by left. }
  split; [by destruct w; auto|].
  assert (the_mirror w s ≠ None) as Hms.
  { apply (core_started s Hc w); [by destruct (disks_of w p); [inversion Hw|]|]. rewrite Hm. destruct w; set_solver. }
  destruct (the_mirror w s) as [m|] eqn:E; [|done]. pose proof (core_mirror s Hc w m E) as Hi.
  unfold mirror_inv in Hi. rewrite (Hret w m E) in Hi. destruct Hi as (_ & _ & Hall).
  apply list_elem_of_lookup in Hw as [i Hi]. apply (Hall i d); [by eapply lookup_lt_Some|done].
Qed.

(** no disk is told to switch over before the goroutine that moves the
    machine's state has ended, well or not. *)
Theorem complete_after_state st s j :
  reachable p st s → crashed s = false → Sent (block_job_complete j) ∈ trace s →
  ∃ e, state_thread s = Some (SClosed e) ∨ state_thread s = Some (SReturned e).
Proof.
  intros Hr Hcr Hj. destruct (reachable_inv _ _ Hr) as [_ Hcp [?|Hc]]; [congruence|].
  pose proof (Hcp j Hj) as Hv. destruct (state_thread s) as [pc|] eqn:Hth.
  - destruct (core_thread s Hc pc Hth) as (_ & _ & _ & He). specialize (He Hv).
    destruct pc as [| | | | | | |e|e]; try done; exists e; [by left|by right].
  - by rewrite (core_threads s Hc Hth) in Hv.
Qed.
End facts.

Lemma go_reachable p st ls s : go p ls (begin st) = Some s → reachable p st s.
Proof.
  unfold reachable. generalize (begin st). induction ls as [|l ls IH]; intros s0; cbn; [by intros [= ->]|].
  destruct (fire p l s0) as [s1|] eqn:E; [|done]. cbn. intros Hg. eapply rtc_l; [by exists l|]. by apply IH.
Qed.

(** ** Two runs that go wrong *)


Definition a_disk : mirrored :=
  {| path := "/dev/vg/root"; src := "root"; dst := Ret "root"; virtual_size := 1000 |}.
Definition a_flash : mirrored :=
  {| path := "/etc/kvmrun/vm1/config_efivars"; src := "config_efivars"; dst := Ret "config_efivars"; virtual_size := 0 |}.
Definition no_stats : MachineMigrationStatDetails :=
  {| VMState := no_stat; Disks_stat := {["/dev/vg/root" := of_total 1000]} |}.

Definition sample_ports : requisites_reply := {| reply_IncomingPort := 31025; reply_NBDPort := 61025; reply_PID := 4711 |}.

Definition is_ready : answer_ := Job (Some {| Len := 1000; Offset := 1000; Ready := true |}).
(** A mirror until its disk is ready and it is about to say so. *)
Definition synchronize (w : which) : list label :=
  [LMirror w Okay; LMirror w Okay; LWait w 0 Okay; LWait w 0 is_ready; LMirror w Okay].

Definition one_disk : setup :=
  {| flash := None; moving := [a_disk]; qemu_version := 90000; addr := "10.0.0.2"; ports := sample_ports |}.
Definition with_flash : setup :=
  {| flash := Some a_flash; moving := [a_disk]; qemu_version := 90000; addr := "10.0.0.2"; ports := sample_ports |}.

Definition failed_run : list label :=
  [LMain Okay; LMain Okay; LMain Okay] ++ synchronize Moving ++ [LMirror Moving Okay] ++
  [LState Okay; LState Okay; LState Okay; LState Okay; LState Okay;
   LState (Mig {| Status := "failed"; Ram_Total := 0; Ram_Remaining := 0; Ram_Speed := 0; ErrDesc := "EIO" |});
   LState Okay; LMirror Moving Okay; LMirror Moving Okay].

(** a migration that QEMU reports as failed can still switch the disks over
    to the other server: the goroutine that learns of it closes the channel the
    disks wait on before the error cancels them. *)
Theorem complete_after_failure :
  ∃ s t, reachable one_disk no_stats s ∧
    trace s = t ++ [MigrationIs "failed"; Sent (block_job_complete "migr_root")] ∧ group_error s = None.
Proof.
  destruct (go one_disk failed_run (begin no_stats)) as [s|] eqn:E; [|by vm_compute in E].
  pose proof (go_reachable _ _ _ _ E) as Hr. exists s. clear -E Hr. vm_compute in E. injection E as Es.
  eexists [_; _; _; _; _]. split; [exact Hr|]. by rewrite <- Es.
Qed.

(** a task that is cancelled while the firmware flash is mirrored can take
    the daemon down, where QEMU takes the flash's device: the main function closes the
    channel the mirror is about to close. *)
Theorem cancel_crashes :
  ∃ s, reachable with_flash no_stats s ∧ crashed s = true ∧ main s = MLeft (Some Incoming.Canceled).
Proof.
  destruct (go with_flash ([LMain Okay] ++ synchronize Flash ++ [LCancel; LMain DoneCtx; LMirror Flash Okay]) (begin no_stats))
    as [s|] eqn:E; [|by vm_compute in E].
  pose proof (go_reachable _ _ _ _ E) as Hr. exists s. split; [exact Hr|].
  clear Hr. vm_compute in E. by injection E as <-.
Qed.

(** A transfer that works. *)
Definition good_run : list label :=
  [LMain Okay; LMain Okay; LMain Okay] ++ synchronize Moving ++ [LMirror Moving Okay] ++
  [LState Okay; LState Okay; LState Okay; LState Okay; LState Okay;
   LState (Mig {| Status := "completed"; Ram_Total := 1024; Ram_Remaining := 0; Ram_Speed := 8; ErrDesc := "" |});
   LState Okay; LState Okay; LMirror Moving Okay; LMirror Moving Okay; LMirror Moving Okay;
   LWait Moving 0 (Gone (Ret ())); LMirror Moving Okay; LMain Okay].

Definition good_end : state := default (begin no_stats) (go one_disk good_run (begin no_stats)).

Lemma good_reachable : reachable one_disk no_stats good_end.
Proof.
  unfold good_end. destruct (go one_disk good_run (begin no_stats)) as [s|] eqn:E; [by eapply go_reachable|].
  clear -E. by vm_compute in E.
Qed.

Example migrate_after_disks_witness :
  ∃ t1 t2, trace good_end = t1 ++ Sent (migrate "tcp:10.0.0.2:31025") :: t2 ∧ JobReady "migr_root" ∈ t1.
Proof.
  assert (trace good_end = take 4 (trace good_end) ++ Sent (migrate "tcp:10.0.0.2:31025") :: drop 5 (trace good_end)) as E
    by (by vm_compute).
  exists (take 4 (trace good_end)), (drop 5 (trace good_end)). split; [exact E|].
  apply (migrate_after_disks one_disk no_stats good_end _ _ _ good_reachable E a_disk). left. by left.
Defined.

Example success_complete_witness :
  MigrationIs "completed" ∈ trace good_end ∧ Sent (block_job_complete "migr_root") ∈ trace good_end.
Proof.
  destruct (success_complete one_disk no_stats good_end good_reachable) as [Hc Hd]; [by vm_compute..|].
  split; [exact Hc|]. apply (Hd a_disk). left. by left.
Defined.

Example complete_after_state_witness :
  ∃ e, state_thread good_end = Some (SClosed e) ∨ state_thread good_end = Some (SReturned e).
Proof.
  apply (complete_after_state one_disk no_stats good_end "migr_root" good_reachable); [by vm_compute|].
  apply (bool_decide_unpack _). by vm_compute.
Defined.
End TransferFacts.
