(* ===== verification/MigrationFacts.v ===== *)
(** MigrationFacts: what is sent, what the other side makes of it, and what is
    left when the task ends. *)

From S2P Require Import Prelude.
From S2P Require Import GoStd.
From S2P Require Import GoFacts.
From S2P Require Import Pool.
From S2P Require Import Version.
From S2P Require Import Backend.
From S2P Require Import Resources.
From S2P Require Import Peripherals.
From S2P Require Import Disks.
From S2P Require Import Cdroms.
From S2P Require Import NetIfaces.
From S2P Require Import HostDevices.
From S2P Require Import Json.
From S2P Require Import InstanceProperties.
From S2P Require Import InstanceConf.
From S2P Require Import ConfInvariant.
From S2P Require Import ConfJson.
From S2P Require Import ConfJsonFacts.
From S2P Require Import Monitor.
From S2P Require Import InstanceQemu.
From S2P Require Import Server.
From S2P Require Import OsUser.
From S2P Require Import Services.
From S2P Require Import Lifecycle.
From S2P Require Import LifecycleFacts.
From S2P Require Import Incoming.
From S2P Require Import IncomingFacts.
From S2P Require Import Migration.

Open Scope Z_scope.
#[local] Set Warnings "-register-all".

Module MigrationFacts.
Import Json Services Server ConfJson JsonFacts Lifecycle LifecycleFacts IncomingFacts Migration.

(** ** Progress *)

Definition is_percent (z : Z) : Prop := 0 ≤ z ≤ 100.
Definition sane (d : MachineMigrationStatDetails) : Prop :=
  is_percent (Progress (VMState d)) ∧ map_Forall (λ _ s, is_percent (Progress s)) (Disks_stat d).

Lemma percent_bounds sent total :
  0 < total → 0 ≤ sent ≤ total → total * 100 < 2 ^ 64 → is_percent (percent sent total).
Proof.
  intros Ht Hs Hb. unfold percent, u64, is_percent. rewrite Z.mod_small by lia.
  assert (0 ≤ sent * 100 / total ≤ 100) as Hd.
  { split; [apply Z.div_pos; lia|]. apply Z.div_le_upper_bound; lia. }
  rewrite wrap64_id; [done|]. unfold is_int, int_min, int_max. apply andb_true_iff. split; apply Z.leb_le; lia.
Qed.

Lemma u64_left total remain : 0 ≤ remain ≤ total → total < 2 ^ 64 → u64 (total - remain) = total - remain.
Proof. intros. unfold u64. apply Z.mod_small. lia. Qed.

Lemma sum_bounds (l : list Z) : Forall is_percent l → 0 ≤ foldr Z.add 0 l ≤ 100 * Z.of_nat (length l).
Proof. induction 1 as [|x l [Hx Hx'] _ IH]; cbn -[Z.of_nat Z.mul]; lia. Qed.

(** the progress of a migration is a percentage: as long as no job has more
    left than there is, every figure and their mean stay from 0 to 100; one byte
    more than there is gives a figure that is none. *)
Theorem progress_bounds d : sane d →
  is_percent (overall d) ∧
  (∀ total remain speed, 0 ≤ remain ≤ total → total * 100 < 2 ^ 64 →
     sane (updateVMState total remain (u64 (total - remain)) speed d)) ∧
  (∀ name total remain d', 0 ≤ remain ≤ total → total * 100 < 2 ^ 64 →
     updateDisk name total remain (u64 (total - remain)) d = Ret d' → sane d') ∧
  ¬ is_percent (percent (u64 (1000 - 1001)) 1000).
Proof.
  intros [Hv Hd]. split_and!.
  - unfold overall, is_percent in *.
    assert (0 ≤ foldr Z.add 0 (map (Progress ∘ snd) (map_to_list (Disks_stat d))) ≤ 100 * Z.of_nat (size (Disks_stat d))) as Hs.
    { rewrite <- length_map_to_list, <- (length_map (Progress ∘ snd)). apply sum_bounds, Forall_map, Forall_forall.
      intros [k x] Hk. cbn. by apply elem_of_map_to_list, Hd in Hk. }
    split; [apply Z.quot_pos; lia|]. apply Z.quot_le_upper_bound; lia.
  - intros total remain speed Hr Hb. unfold updateVMState. destruct (Z.ltb_spec 0 total) as [Ht|]; [|by split].
    split; [|done]. cbn. rewrite u64_left by lia. apply percent_bounds; lia.
  - intros name total remain d' Hr Hb. unfold updateDisk. destruct (Z.ltb_spec 0 total) as [Ht|]; [|intros [= <-]; by split].
    destruct (Disks_stat d !! name); [|done]. intros [= <-]. split; [done|]. cbn.
    apply map_Forall_insert_2; [|done]. cbn. rewrite u64_left by lia. apply percent_bounds; lia.
  - unfold is_percent. vm_compute. intros [_ H]. by apply H.
Qed.

(** ** The request *)

Section request.
Context `{Env, Accounts, Services} (vmname dstServer : string).

Lemma insert_by_elem {A} (less : A → A → bool) x y l : y ∈ Sort.insert_by less x l → y = x ∨ y ∈ l.
Proof.
  induction l as [|z l IH]; cbn; [set_solver|]. destruct (less x z); set_solver.
Qed.
Lemma SliceStable_elem {A} (less : A → A → bool) y l : y ∈ Sort.SliceStable less l → y ∈ l.
Proof.
  unfold Sort.SliceStable. rewrite <- (app_nil_l l) at 2. generalize (@nil A). induction l as [|x l IH]; intros acc; cbn.
  - by rewrite app_nil_r.
  - intros Hy%IH. apply elem_of_app in Hy as [[->|Hy]%insert_by_elem|Hy]; set_solver.
Qed.

Lemma dir_files_plain dir fs f : f ∈ dir_files dir fs → extra_name f = true → plain f.
Proof.
  intros Hf%SliceStable_elem He. apply list_elem_of_omap in Hf as (path & _ & Hp). unfold file_in in Hp.
  case_bool_decide; [done|]. destruct (Strings.cut _ _) eqn:Hc; [done|]. injection Hp as <-.
  apply GoFacts.cut_None_inv in Hc. split_and!; [done|..]; intros E; rewrite E in He; by vm_compute in He.
Qed.

(** Reading files asks for them, and nothing else. *)
Lemma read_files_outcome dir names t :
  (∀ f, f ∈ names → extra_name f = true → plain f) →
  let '(r, t') := read_files dir names t in
  (∃ l, log (on t') = log (on t) ++ l ∧ ∀ d q, StartIncoming d q ∉ l) ∧
  ∀ l, r = Ret l → Forall (λ e, plain e.1) l.
Proof.
  revert t. induction names as [|f names IH]; intros t Hpl; cbn [read_files].
  { split; [|by intros l [= <-]]. exists []. rewrite app_nil_r. split; [done|]. intros d q Hx%elem_of_nil. done. }
  assert (∀ f, f ∈ names → extra_name f = true → plain f) as Hpl' by (intros f' Hf'; apply Hpl; by right).
  destruct (bool_decide (f = "config") || negb (extra_name f)) eqn:E; [by apply IH|].
  apply orb_false_iff in E as [_ E%negb_false_iff].
  unfold mbind, op_bind, asks, at_host, zoom, ask, lift, get, mret, op_ret. cbn.
  set (t1 := set_on _ t). assert (log (on t1) = log (on t) ++ [ReadFile (Filepath.Join [dir; f])]) as Hl by done.
  destruct (Backend.call _) as [[]|e|q].
  - specialize (IH t1 Hpl'). destruct (read_files dir names t1) as [[rest|e|q] t2]; destruct IH as [(l & Hl2 & Hn) Hr];
      (split; [exists (ReadFile (Filepath.Join [dir; f]) :: l); split;
        [by rewrite Hl2, Hl, <- app_assoc|intros d q' [Hx|Hx]%elem_of_cons; [done|by eapply Hn]]|]); try done.
    intros l' [= <-]. constructor; [by apply Hpl; [left|]|by apply Hr].
  - split; [|done]. eexists. split; [exact Hl|]. intros d q' Hx%list_elem_of_singleton. done.
  - split; [|done]. eexists. split; [exact Hl|]. intros d q' Hx%list_elem_of_singleton. done.
Qed.

Lemma extraFiles_outcome t :
  let '(r, t') := extraFiles vmname t in
  (∃ l, log (on t') = log (on t) ++ l ∧ ∀ d q, StartIncoming d q ∉ l) ∧
  ∀ l, r = Ret l → Forall (λ e, plain e.1) l.
Proof.
  unfold extraFiles. unfold mbind, op_bind, asks at 1, at_host, zoom, ask, lift, get. cbn [fst snd].
  set (t1 := set_on _ t). assert (log (on t1) = log (on t) ++ [ReadDir (vmdir vmname)]) as Hl by done.
  destruct (Backend.call _) as [[]|e|q].
  2, 3: split; [|done]; eexists; split; [exact Hl|]; intros d q' Hx%list_elem_of_singleton; done.
  pose proof (read_files_outcome (vmdir vmname) (dir_files (vmdir vmname) (files_ (on t1))) t1
    (λ f, dir_files_plain _ _ f)) as Hr.
  destruct (read_files _ _ t1) as [r t2]. destruct Hr as [(l & Hl2 & Hn) Hr]. split; [|exact Hr].
  exists (ReadDir (vmdir vmname) :: l). split; [by rewrite Hl2, Hl, <- app_assoc|].
  intros d q' [Hx|Hx]%elem_of_cons; [done|by eapply Hn].
Qed.

Definition sent_name (o : MigrationOverrides) : string := if bool_decide (Name o = "") then vmname else Name o.

(** What a request holds. *)
Lemma request_outcome t d q :
  StartIncoming d q ∈ log (on (requestIncomingMigration vmname dstServer t).2) → StartIncoming d q ∉ log (on t) →
  d = dstServer ∧ req_Name q = sent_name (Overrides (opts t)) ∧ Forall (λ e, plain e.1) (req_ExtraFiles q) ∧
  ∃ c r, vm t = Some (c, Some r) ∧
    manifest (Overrides (opts t)) vmname (InstanceConf.props c) (InstanceQemu.props r) = Ret (req_Manifest q).
Proof.
  intros Hin Hout. unfold requestIncomingMigration in Hin.
  rewrite (op_bind_run _ _ t t t) in Hin by done.
  destruct (vm t) as [[c [r|]]|]; [|by destruct Hout..].
  rewrite (op_bind_run _ _ t (c, r) t) in Hin by done. cbn [fst snd] in Hin.
  destruct (manifest _ _ _ _) as [m|e|p] eqn:Hm; [|by destruct Hout..].
  rewrite (op_bind_run _ _ t m t) in Hin by done.
  pose proof (extraFiles_outcome t) as Hx.
  unfold mbind, op_bind in Hin. destruct (extraFiles vmname t) as [[extra|e|p] t1];
    destruct Hx as [(l & Hl & Hn) Hr].
  2, 3: cbn in Hin; rewrite Hl in Hin; apply elem_of_app in Hin as [Hin|Hin]; [done|by destruct (Hn _ _ Hin)].
  cbn in Hin. rewrite Hl in Hin. rewrite !elem_of_app in Hin. destruct Hin as [[Hin|Hin]|Hin];
    [done|by destruct (Hn _ _ Hin)|].
  apply list_elem_of_singleton in Hin. injection Hin as -> ->. cbn. split_and!; [done|done|by apply Hr|].
  by exists c, r.
Qed.

(** The members of a manifest. *)
Lemma dec_raw name jc jr :
  dec_struct Incoming.raw_fields (JObj [("name", JStr name); ("conf", jc); ("run", jr)])
    {| Incoming.raw_name := ""; Incoming.raw_run := None; Incoming.raw_conf := None |} =
  Ret {| Incoming.raw_name := name; Incoming.raw_run := Some jr; Incoming.raw_conf := Some jc |}.
Proof. reflexivity. Qed.

Lemma dec_machine_json name c r m :
  Incoming.dec_machine (machine_json name c r) = Ret m → Incoming.Name m = coerced name.
Proof.
  unfold Incoming.dec_machine, machine_json. rewrite dec_raw. cbn -[Incoming.dec_instance enc_conf].
  unfold mbind, outcome_bind.
  destruct (Incoming.dec_instance (enc_conf c) _); [|done..].
  destruct (Incoming.dec_instance (enc_conf r) _); [|done..]. by intros [= <-].
Qed.

Lemma manifest_name o c r j m :
  manifest o vmname c r = Ret j → Incoming.dec_machine j = Ret m → Incoming.Name m = coerced (sent_name o).
Proof.
  unfold manifest, mbind, outcome_bind, sent_name.
  destruct (decoded c) as [tc|e|q]; [|done..]. destruct (decoded r) as [tr|e|q]; [|done..].
  unfold has_overrides. intros [= <-].
  destruct (bool_decide (Name o ≠ "" ∨ _)) eqn:Hb; intros ->%dec_machine_json; [done|].
  apply bool_decide_eq_false in Hb. rewrite bool_decide_true; [done|]. destruct (decide (Name o = "")); [done|].
  destruct Hb. by left.
Qed.
End request.

(** A machine name is ASCII. *)
Lemma machine_name_utf8 n : ValidateMachineName n = Ret () → utf8 n.
Proof.
  intros Hn. apply utf8_ascii, Forall_forall. intros a Ha%(machine_name_elem n a Hn). revert Ha.
  by destruct a as [[] [] [] [] [] [] [] []].
Qed.

(** C33: what this server sends is safe to receive as long as the name asked for
    is a machine name ([ValidateMachineName], which neither side checks): on any
    server that receives a request of this one, under any answers of that
    server's host, no file outside the directory of the machine it names and no
    other user is touched. *)
Theorem sent_confined `{Env, Accounts, Services} vmname dstServer t d q :
  StartIncoming d q ∈ log (on (requestIncomingMigration vmname dstServer t).2) → StartIncoming d q ∉ log (on t) →
  ∀ (hst : Host) (acc : Accounts) (laws : AccountsLaws) (srv : Services) appconf h,
    let n := req_Name q in
    let h' := Incoming.on (@Incoming.BeforeStart _ hst acc srv appconf n (options_of q)
                            (Incoming.NewMachineIncomingMigrationTask h)).2 in
    ValidateMachineName n = Ret () →
    (∀ path, under (vmdir n) path = false → files_ h' !! path = files_ h !! path) ∧
    ∀ other, other ≠ n → user_Lookup (passwd h') other = user_Lookup (passwd h) other.
Proof.
  intros Hin Hout hst acc laws srv appconf h n h' Hn.
  destruct (request_outcome _ _ _ _ _ Hin Hout) as (_ & Hname & Hextra & c & r & _ & Hman).
  destruct (IncomingFacts.BeforeStart_apart appconf n (options_of q) h Hn) as [Hf Hp]; [|done|].
  - intros j m [= <-] Hd. rewrite (manifest_name _ _ _ _ _ _ Hman Hd). unfold n in *. rewrite <- Hname.
    by apply machine_name_utf8.
  - split; [|exact Hp]. intros path Hu. apply Hf. by rewrite Hu.
Qed.

(** Another name is only trimmed: one that is no machine name may stand for a
    directory above the machines'. *)
Example name_above : vmdir ".." = "/etc" ∧ under (vmdir "..") "/etc/passwd" = true ∧
  is_ret (ValidateMachineName "..") = false ∧
  (Overrides_Validate {| Name := " .. "; Disks_ := ∅; NetIfaces_ := ∅ |}).1 = Ret ().
Proof. by vm_compute. Qed.

(** ** The manifest at the other end *)

Lemma each_id {V} (f : V → V) (p : Pool.t V) : (∀ v, f v = v) → each f p = p.
Proof.
  intros Hf. unfold each. induction (Pool.Keys p) as [|k ks IH]; [done|]. cbn. rewrite IH.
  destruct p as [[m|] keys]; unfold Pool.update; cbn; [|done]. f_equal. f_equal. apply map_eq. intros i.
  destruct (decide (i = k)) as [->|Hne]; [|by rewrite lookup_alter_ne by done].
  rewrite lookup_alter_eq. destruct (m !! k); cbn; [by rewrite Hf|done].
Qed.

Lemma overridden_none o p : Disks_ o = ∅ → NetIfaces_ o = ∅ → overridden o p = p.
Proof.
  intros Hd Hn. unfold overridden. rewrite Hd, Hn, !each_id; [by destruct p|..].
  - intros n. unfold override_iface. by rewrite lookup_empty.
  - intros d. unfold override_disk. by rewrite lookup_empty.
Qed.

Lemma lookup_same {V} Pk Pk' (p p' : Pool.t V) k :
  Pool.wf Pk p → Pool.wf Pk' p' → Pool.entries p' = Pool.entries p → Pool.lookup k p' = Pool.lookup k p.
Proof.
  intros Hp Hp' E. rewrite <- (PoolFacts.PoolSpec_get_lookup Pk k p Hp).
  by rewrite <- (PoolFacts.PoolSpec_get_lookup Pk' k p' Hp'), E.
Qed.

(** The text of a pool depends on its entries only. *)
Lemma enc_pool_entries {V} (Pk : string → V → Prop) (enc : V → json) (p p' : Pool.t V) :
  Pool.wf Pk p → Pool.wf Pk p' → Pool.entries p' = Pool.entries p → enc_pool enc p' = enc_pool enc p.
Proof.
  intros Hp Hp' E. unfold enc_pool, Pool.MarshalJSON.
  change (Pool.values ?q []) with (Pool.Values q []).
  by rewrite (PoolFacts.Values_entries Pk p Hp), (PoolFacts.Values_entries Pk p' Hp'), E.
Qed.

Lemma same_json `{Env} c c' : Conf.wf c → Conf.wf c' → same c c' → conf_json c' = conf_json c.
Proof.
  intros Hc Hc' []. unfold conf_json.
  rewrite (enc_pool_entries PeripheralFacts.input_ok enc_input (InstanceProperties.InputDevices c) (InstanceProperties.InputDevices c')),
    (enc_pool_entries CdromFacts.ok enc_cdrom (InstanceProperties.Cdroms c) (InstanceProperties.Cdroms c')),
    (enc_pool_entries DiskFacts.ok enc_disk (InstanceProperties.Disks c) (InstanceProperties.Disks c')),
    (enc_pool_entries NetIfaceFacts.ok enc_netif (InstanceProperties.NetIfaces c) (InstanceProperties.NetIfaces c')),
    (enc_pool_entries HostDeviceFacts.ok enc_hostdev (InstanceProperties.HostDevices c) (InstanceProperties.HostDevices c'))
    by (done || apply Hc || apply Hc').
  congruence.
Qed.

Lemma fits_same `{Env} c c' : Conf.wf c → Conf.wf c' → same c c' → fits c → fits c'.
Proof.
  intros Hc Hc' Hs. pose proof (same_json c c' Hc Hc' Hs) as Ht. destruct Hs. intros []. split; try congruence.
  - intros k d. erewrite lookup_same; [|apply Hc|apply Hc'|done]. eauto.
  - intros k d. erewrite lookup_same; [|apply Hc|apply Hc'|done]. eauto.
  - intros k d. erewrite lookup_same; [|apply Hc|apply Hc'|done]. eauto.
  - intros v Hv. rewrite same_vsock0 in Hv. eauto.
Qed.

Lemma same_trans c1 c2 c3 : same c1 c2 → same c2 c3 → same c1 c3.
Proof. intros [] []. split; congruence. Qed.

(** A configuration sent under its own or another name. *)
Lemma sent_conf `{Env} n m a t c0 c :
  Conf.wf c0 → fits c0 → decoded c0 = Ret c ∨ c = c0 →
  ∃ c', dec_conf (enc_conf c) (blank n m a t) = Ret c' ∧ same c0 c'.
Proof.
  intros Hw Hf Hc. assert (same c0 c ∧ Conf.wf c ∧ fits c) as (Hs & Hwc & Hfc).
  { destruct Hc as [Hd|E]; [|rewrite E; split; [by split|by split]].
    destruct (dec_enc_blank "" {| Memory.Actual := 0; Memory.Total := 0 |} 0 0 c0 Hw Hf) as (c1 & Hd1 & Hs & Hw1 & _).
    unfold decoded in Hd. change (InstanceProperties.zero "" 0) with
      (blank "" {| Memory.Actual := 0; Memory.Total := 0 |} 0 0) in Hd.
    rewrite Hd1 in Hd. injection Hd as <-. split; [done|]. split; [done|]. by apply (fits_same c0). }
  destruct (dec_enc_blank n m a t c Hwc Hfc) as (c' & Hd' & Hs' & _). exists c'. split; [done|]. by eapply same_trans.
Qed.

Lemma dec_sent `{Env} p c :
  Incoming.dec_instance (enc_conf p) c =
  q ← dec_conf (enc_conf p) (InstanceConf.props c);
  Ret (Some {| InstanceConf.props := q; InstanceConf.confname := InstanceConf.confname c |}).
Proof. reflexivity. Qed.

(** A stored configuration of the machine that runs: what only a running machine
    has of a disk, its size in QEMU and whether it has a bitmap, is not part of
    one. *)
Definition settled_disk (d : Disk.t) : Disk.t :=
  {| Disk.props := Disk.props d; Disk.driver := Disk.driver d; Disk.Backend := Disk.Backend d;
     Disk.QemuAddr := Disk.QemuAddr d; Disk.QemuVirtualSize := 0; Disk.HasBitmap := false |}.
Definition settled (r : InstanceProperties.t) : InstanceProperties.t :=
  InstanceProperties.set_Disks (each settled_disk (InstanceProperties.Disks r)) r.

Lemma enc_pool_update {V} (enc : V → json) (f : V → V) k (p : Pool.t V) :
  (∀ v, enc (f v) = enc v) → enc_pool enc (Pool.update k f p) = enc_pool enc p.
Proof.
  intros Hf. unfold enc_pool, Pool.MarshalJSON, Pool.values. change (Pool.keys (Pool.update k f p)) with (Pool.keys p).
  f_equal. generalize (Pool.keys p). intros ks. cbn [app]. rewrite !map_map. apply map_ext. intros k'.
  rewrite PoolFacts.lookup_update.
  case_decide; [|done]. subst. destruct (Pool.lookup k' p); cbn; by rewrite ?Hf.
Qed.
Lemma enc_pool_each {V} (enc : V → json) (f : V → V) (p : Pool.t V) :
  (∀ v, enc (f v) = enc v) → enc_pool enc (each f p) = enc_pool enc p.
Proof.
  intros Hf. unfold each. induction (Pool.Keys p) as [|k ks IH]; [done|]. cbn.
  by rewrite enc_pool_update, IH.
Qed.
Lemma enc_settled r : enc_conf (settled r) = enc_conf r.
Proof.
  unfold enc_conf, conf_json. cbn [settled InstanceProperties.Disks InstanceProperties.set_Disks].
  by rewrite enc_pool_each.
Qed.
Lemma manifest_settled `{Env} o n c r : manifest o n c (settled r) = manifest o n c r.
Proof. unfold manifest, decoded, machine_json. by rewrite enc_settled. Qed.

Lemma manifest_stored `{Env} o vmname c r :
  Conf.wf c → fits c → Conf.wf r → fits r → Disks_ o = ∅ → NetIfaces_ o = ∅ → utf8 (sent_name vmname o) →
  ∃ j m c' r', manifest o vmname c r = Ret j ∧ Incoming.dec_machine j = Ret m ∧
    Incoming.Name m = sent_name vmname o ∧ Incoming.C m = Some c' ∧ Incoming.R m = Some r' ∧
    same c (InstanceConf.props c') ∧ same r (InstanceConf.props r').
Proof.
  intros Hwc Hfc Hwr Hfr Hd Hn Hu.
  destruct (dec_enc_blank "" {| Memory.Actual := 0; Memory.Total := 0 |} 0 0 c Hwc Hfc) as (tc & Htc & _).
  destruct (dec_enc_blank "" {| Memory.Actual := 0; Memory.Total := 0 |} 0 0 r Hwr Hfr) as (tr & Htr & _).
  assert (∃ sc sr, manifest o vmname c r = Ret (machine_json (sent_name vmname o) sc sr) ∧
    (decoded c = Ret sc ∨ sc = c) ∧ (decoded r = Ret sr ∨ sr = r)) as (sc & sr & Hm & Hsc & Hsr).
  { unfold manifest, decoded. change (InstanceProperties.zero "" 0) with
      (blank "" {| Memory.Actual := 0; Memory.Total := 0 |} 0 0). rewrite Htc, Htr. cbn [mbind outcome_bind].
    unfold has_overrides, sent_name. rewrite !overridden_none by done. rewrite Hd, Hn.
    destruct (decide (Name o = "")) as [E|E].
    - exists c, r. rewrite bool_decide_false by naive_solver. rewrite bool_decide_true by done.
      split_and!; [done|by right..].
    - exists tc, tr. rewrite bool_decide_true by naive_solver. rewrite bool_decide_false by done.
      split_and!; [done|by left..]. }
  destruct (sent_conf (sent_name vmname o) {| Memory.Actual := 128; Memory.Total := 128 |} 1 1 c sc Hwc Hfc Hsc) as (c' & Hc' & Hcs).
  destruct (sent_conf (sent_name vmname o) {| Memory.Actual := 0; Memory.Total := 0 |} 0 0 r sr Hwr Hfr Hsr) as (r' & Hr' & Hrs).
  eexists _, _, _, _. split; [exact Hm|]. split.
  { unfold Incoming.dec_machine, machine_json. rewrite dec_raw, Hu.
    cbn [mbind outcome_bind Incoming.raw_conf Incoming.raw_run Incoming.raw_name].
    rewrite !dec_sent.
    change (InstanceConf.props (InstanceConf.newInstanceConf ?n)) with
      (blank n {| Memory.Actual := 128; Memory.Total := 128 |} 1 1).
    change (InstanceConf.props (InstanceConf.NewIncomingConf ?n)) with
      (blank n {| Memory.Actual := 0; Memory.Total := 0 |} 0 0).
    rewrite Hc', Hr'. reflexivity. }
  by split_and!.
Qed.

(** C34: a machine arrives as it was: without overrides of its disks and
    interfaces, the other side reads out of the manifest, under the name asked
    for, the stored configuration and the one that runs as they are here; of the
    disks that run, their sizes in QEMU and their bitmaps are not sent. *)
Theorem manifest_received `{Env} o vmname c r :
  Conf.wf c → fits c → Conf.wf (settled r) → fits (settled r) → Disks_ o = ∅ → NetIfaces_ o = ∅ →
  utf8 (sent_name vmname o) →
  ∃ j m c' r', manifest o vmname c r = Ret j ∧ Incoming.dec_machine j = Ret m ∧
    Incoming.Name m = sent_name vmname o ∧ Incoming.C m = Some c' ∧ Incoming.R m = Some r' ∧
    same c (InstanceConf.props c') ∧ same (settled r) (InstanceConf.props r').
Proof. intros Hwc Hfc Hwr Hfr Hd Hn Hu. rewrite <- manifest_settled. by apply manifest_stored. Qed.

(** ** The ends of the task *)

Section ends.
Context `{Env, Accounts, Services} (vmname dstServer : string).

(** What was asked before stays asked. *)
Definition asked (l : list service) (h : host) : Prop := l `prefix_of` log h.

Lemma asked_ask l a : preserves (asked l) (ask a).
Proof. intros h Hl. by apply prefix_app_r. Qed.
Lemma asked_modify l g : (∀ h, log (g h) = log h) → preserves (asked l) (modify g).
Proof. intros Hg h Hl. unfold asked. cbn. by rewrite Hg. Qed.
Lemma asked_done l r : preserves (asked l) (done r).
Proof. by intros h. Qed.
Hint Resolve preserves_ret preserves_throw preserves_lift preserves_get asked_done : apart.
Hint Extern 1 (preserves (asked _) (ask _)) => apply asked_ask : apart.
Hint Extern 1 (preserves (asked _) (modify _)) => by apply asked_modify : apart.

Lemma at_host_preserves {A} (I : host → Prop) (m : op host A) :
  preserves I m → preserves (λ t, I (on t)) (at_host m).
Proof. intros Hm t Ht. specialize (Hm (on t) Ht). unfold at_host, zoom. by destruct (m (on t)). Qed.

(** What removes the machine here asks, and takes nothing back. *)
Definition removal_steps : op task () :=
  at_host (SystemdStopService vmname 30);;
  at_host (SystemdDisableService vmname);;
  ignored (at_host (RemoveUser vmname));;
  at_host (remove_all (vmdir vmname)).

Lemma removal_asked l : preserves (λ t, asked l (on t)) removal_steps.
Proof.
  unfold removal_steps.
  repeat first [apply preserves_bind; [|intros _] | apply preserves_ignored | apply at_host_preserves].
  - unfold SystemdStopService, Stop, StopAndWait. stepwise.
  - unfold SystemdDisableService, Disable, dropped. stepwise.
  - unfold RemoveUser. stepwise.
  - unfold remove_all. stepwise.
Qed.

(** The other side has the process it was given, in the state it is to be in. *)
Definition vouches (t : task) (r : sys (Z * remote_state)) : Prop :=
  ∃ req state, requisites t = Some req ∧ r = inl (reply_PID req, state) ∧
    if turnOffAfter t then state = REMOTE_INACTIVE ∨ state = REMOTE_SHUTDOWN else state = REMOTE_RUNNING.

Definition hears (a : service) (t : task) : task :=
  set_on {| files_ := files_ (on t); passwd := passwd (on t); log := log (on t) ++ [a] |} t.

Lemma test_run t :
  ∃ o, testRemoteMachine vmname dstServer t = (o, hears (RemoteGet dstServer vmname) t) ∧
    (o = Ret () → vouches t (answer (log (on t)) (RemoteGet dstServer vmname))).
Proof.
  unfold testRemoteMachine, vouches, hears. go_unfold. cbn.
  destruct (answer _ _) as [[pid state]|e]; cbn; [|by eexists].
  destruct (requisites t) as [req|]; cbn; [|by eexists].
  destruct (Z.eqb_spec (reply_PID req) pid) as [<-|]; cbn; [|by eexists].
  destruct (turnOffAfter t), state; cbn; (eexists; split; [reflexivity|]); try done; intros _; eauto 10.
Qed.

(** The three checks, and then the removal. *)
Lemma remove_local_run t :
  let g := RemoteGet dstServer vmname in
  let l := log (on t) in
  (∃ o, (remove_local vmname dstServer t).1 = o ∧ files_ (on (remove_local vmname dstServer t).2) = files_ (on t) ∧
     passwd (on (remove_local vmname dstServer t).2) = passwd (on t)) ∨
  (vouches t (answer l g) ∧ vouches t (answer (l ++ [g]) g) ∧ vouches t (answer ((l ++ [g]) ++ [g]) g) ∧
     remove_local vmname dstServer t = removal_steps (hears g (hears g (hears g t)))).
Proof.
  intros g l. unfold remove_local, mbind, op_bind. subst g. set (g := hears _).
  destruct (test_run t) as ([[]|e|p] & E1 & Hv1); fold g in E1; rewrite E1; clear E1; [|left; by eexists..].
  destruct (test_run (g t)) as ([[]|e|p] & E1 & Hv2); fold g in E1; rewrite E1; clear E1; [|left; by eexists..].
  destruct (test_run (g (g t))) as ([[]|e|p] & E1 & Hv3); fold g in E1; rewrite E1; clear E1; [|left; by eexists..].
  right. split; [by apply Hv1|]. split; [by apply Hv2|]. split; [by apply Hv3|]. reflexivity.
Qed.

(** Marking it to stay down. *)
Lemma down_run h :
  let '(o, h') := MachineCreateDownFile vmname h in
  (∀ p, o ≠ Panic p) ∧ passwd h' = passwd h ∧
  ∀ path, path ≠ machineDownFile (Strings.TrimSpace vmname) → files_ h' !! path = files_ h !! path.
Proof.
  unfold MachineCreateDownFile. case_bool_decide; [done|].
  unfold writing, mbind, op_bind, ask, zoom. cbn. destruct (answer _ _) as [|e remains]; cbn;
    (split_and!; [done..|intros path Hne; cbn]).
  - by rewrite lookup_insert_ne.
  - by rewrite lookup_partial_alter_ne.
Qed.
End ends.

(** C35: the machine is not thrown away here before it is known to be there: the
    end of a successful migration touches no file but the mark that the machine
    is to stay down, and no user, unless removal was asked for and the other
    side has shown three times in a row the process it reported, in the state
    it is to end up in. *)
Theorem OnSuccess_keeps `{Env, Accounts, Services} vmname dstServer t :
  let t' := (OnSuccess vmname dstServer t).2 in
  let g := RemoteGet dstServer vmname in
  (passwd (on t') = passwd (on t) ∧
   ∀ path, path ≠ machineDownFile (Strings.TrimSpace vmname) → files_ (on t') !! path = files_ (on t) !! path) ∨
  (RemoveAfter (opts t) = true ∧ ∃ l,
     l ++ [g; g; g] `prefix_of` log (on t') ∧
     vouches t (answer l g) ∧ vouches t (answer (l ++ [g]) g) ∧ vouches t (answer ((l ++ [g]) ++ [g]) g)).
Proof.
  intros t' g. pose proof (down_run vmname (on t)) as Hdown.
  destruct (MachineCreateDownFile vmname (on t)) as [o h1] eqn:Eo. destruct Hdown as (Hp & Hpw & Hf).
  assert (t' = let t2 := hears (MonRun vmname quit) (set_on h1 t) in
    if RemoveAfter (opts t) then (ignored (remove_local vmname dstServer) t2).2 else t2) as E.
  { subst t'. unfold OnSuccess. rewrite (op_bind_run _ _ t () (set_on h1 t)).
    - unfold mbind, op_bind, Mon_Run, asks, at_host, zoom, ask, get, hears. cbn. by destruct (RemoveAfter _).
    - unfold ignored, unless, at_host, zoom. rewrite Eo. destruct o as [[]|e|p]; [done..|by destruct (Hp p)]. }
  clearbody t'. subst t'. cbn zeta. set (t2 := hears _ _).
  destruct (RemoveAfter (opts t)) eqn:Hr; [|by left].
  destruct (remove_local_run vmname dstServer t2) as [(o' & _ & Hf' & Hp')|(V1 & V2 & V3 & E)].
  - left. unfold ignored, unless. destruct (remove_local _ _ t2) as [[] t3]; cbn in *; rewrite Hp'; split; try done;
      intros path Hne; rewrite Hf'; by apply Hf.
  - right. split; [done|]. exists (log (on t2)). split; [|done].
    unfold ignored, unless. rewrite E.
    assert (asked (log (on t2) ++ [g; g; g]) (on (removal_steps vmname (hears g (hears g (hears g t2)))).2)) as Ha.
    { apply removal_asked. unfold asked. cbn. rewrite <- !app_assoc. done. }
    by destruct (removal_steps _ _) as [[] t3].
Qed.

(** what a failed migration takes back: the mirror job of every disk it was
    to move, the migration of the machine, and the task of the other side -- but
    the latter under the name the machine has here: when it was sent under
    another one, the task that receives it goes on. *)
Theorem OnFailure_cancels `{Env, Accounts, Services} vmname dstServer t names :
  map Disk.BaseName (movingDisks t) = map Ret names →
  let sent := Incoming.unique_label (sent_name vmname (Overrides (opts t))) in
  let '(r, t') := OnFailure vmname dstServer t in
  let l := map (λ b, MonRun vmname (block_job_cancel ("migr_" +:+ b) true)) names
           ++ [MonRun vmname migrate_cancel; RemoteCancel dstServer (Incoming.unique_label vmname)] in
  r = Ret () ∧ files_ (on t') = files_ (on t) ∧ passwd (on t') = passwd (on t) ∧ log (on t') = log (on t) ++ l ∧
  (RemoteCancel dstServer sent ∈ l ↔ Name (Overrides (opts t)) = "" ∨ Name (Overrides (opts t)) = vmname).
Proof.
  intros Hn sent. unfold OnFailure.
  assert (∀ disks names t, map Disk.BaseName disks = map Ret names →
    cancel_jobs vmname disks t = (Ret (), set_on {| files_ := files_ (on t); passwd := passwd (on t);
      log := log (on t) ++ map (λ b, MonRun vmname (block_job_cancel ("migr_" +:+ b) true)) names |} t)) as Hc.
  { clear. induction disks as [|d disks IH]; intros [|b names] t Hb; try done; cbn [cancel_jobs map].
    - rewrite app_nil_r. by destruct t as [[]].
    - cbn in Hb. injection Hb as Hd Hb. rewrite Hd. unfold mbind, op_bind, lift, Mon_Run, asks, at_host, zoom, ask. cbn.
      rewrite (IH names _ Hb). cbn. by rewrite <- app_assoc. }
  unfold mbind, op_bind, get. rewrite (Hc _ names t Hn). unfold Mon_Run, asks, at_host, zoom, ask, mret, op_ret. cbn.
  split_and!; [done..|by rewrite <- !app_assoc|].
  rewrite elem_of_app, !elem_of_cons, elem_of_nil. unfold sent, sent_name, Incoming.unique_label. split.
  - intros [(b & Hb & _)%list_elem_of_fmap|[Hb|[Hb|[]]]]; [done..|].
    injection Hb as Hb. case_bool_decide as E; [by left|right].
    apply (f_equal to_list) in Hb. rewrite !GoFacts.to_list_app in Hb.
    apply app_inv_tail in Hb. rewrite <- (GoFacts.of_to_list (Name _)), Hb. apply GoFacts.of_to_list.
  - intros E. right; right; left. f_equal. f_equal. case_bool_decide; naive_solver.
Qed.
End MigrationFacts.
