(* ===== verification/MigrationTheorems.v ===== *)
(** MigrationTheorems: the theorems on receiving and sending machines at work. *)

From S2P Require Import Prelude.
From S2P Require Import GoStd.
From S2P Require Import GoFacts.
From S2P Require Import Pool.
From S2P Require Import Version.
From S2P Require Import Backend.
From S2P Require Import Resources.
From S2P Require Import Disks.
From S2P Require Import Peripherals.
From S2P Require Import Json.
From S2P Require Import InstanceProperties.
From S2P Require Import InstanceConf.
From S2P Require Import ConfInvariant.
From S2P Require Import ConfTheorems.
From S2P Require Import ConfJson.
From S2P Require Import ConfJsonFacts.
From S2P Require Import Monitor.
From S2P Require Import InstanceQemu.
From S2P Require Import InstanceQemuFacts.
From S2P Require Import Server.
From S2P Require Import Ip.
From S2P Require Import OsUser.
From S2P Require Import Services.
From S2P Require Import Lifecycle.
From S2P Require Import LifecycleFacts.
From S2P Require Import LifecycleTheorems.
From S2P Require Import Incoming.
From S2P Require Import IncomingFacts.
From S2P Require Import Migration.
From S2P Require Import MigrationFacts.

Open Scope Z_scope.
#[local] Set Warnings "-register-all".

(** ** Receiving *)

Module Receiving.
Import Json Services Server ConfJson Lifecycle LifecycleFacts Incoming IncomingFacts Passwd Sample.

(** The manifest of a machine, with what runs of it. *)
Definition manifest (name : string) (running : bool) : json :=
  JObj ([("name", JStr name); ("conf", enc_conf (created_props name request))] ++
        if running then [("run", enc_conf (created_props name request))] else []).

Definition sent (name : string) (running : bool) (disks : list (string * Z)) : IncomingMigrationOptions :=
  {| Manifest := JsonText (manifest name running); Disks_ := disks; ExtraFiles := [("extra", None)];
     ListenAddr := "10.0.0.1"; CreateDisks := false; TurnOffAfter := false |}.

(** A host on which units come up at once. *)
Definition active : UnitProperties :=
  {| unit_ActiveState := "active"; unit_SubState := "running"; StateChangeTime := 0;
     ExecStart := []; ExecStartPre := []; ExecStopPost := [] |}.
Definition able : Services := λ l a,
  match a return reply a with
  | Ticks _ t => if t =? 300 then [inl active] else []
  | _ => willing l _
  end.

(** ... and that has the disk. *)
Definition disk_host : Host :=
  {| os_Stat s := if bool_decide (s = "/dev/vg/root") then inl (ModeBlockDevice, 0) else inr (ErrNotExist s);
     os_Lstat s := inr (ErrNotExist s);
     BLKGETSIZE64 s := inl 10 |}.

Definition receive (srv : Services) (opts : IncomingMigrationOptions) : outcome IncomingRequisites * task :=
  @BeforeStart sample_env disk_host plain_accounts srv "/" "vm1" opts (NewMachineIncomingMigrationTask vm0_host).

(** The extra file name and the machine's own manifest. *)
Lemma plain_extra : Forall (λ e : string * option json, plain e.1) [("extra", None)].
Proof. constructor; [|constructor]. split_and!; [apply (bool_decide_unpack _); by vm_compute|done..]. Qed.

Lemma free_name : @GetInstanceConf sample_env (user_Lookup passwd_lines) (files_ vm0_host) "vm1" = Throw (ErrNotFound "vm1").
Proof. by vm_compute. Qed.

Example BeforeStart_ready_witness :
  ∃ r t', receive able (sent "vm1" true [("/dev/vg/root", 5)]) = (Ret r, t') ∧ requisites t' = Some r ∧
    @came_up able "vm1" (on t') ∧ @exported sample_env able "vm1" t' "/dev/vg/root".
Proof.
  destruct (receive able (sent "vm1" true [("/dev/vg/root", 5)])) as [[r|e|p] t'] eqn:E.
  2, 3: by vm_compute in E.
  destruct (@BeforeStart_ready sample_env disk_host plain_accounts plain_laws able "/" "vm1" (sent "vm1" true [("/dev/vg/root", 5)])
    vm0_host r t' E) as (Hr & _ & Hup & Hd & _).
  clear E. exists r, t'. apply Forall_cons in Hd as [Hd _]. by split_and!.
Defined.

(** Nothing happens to the machine that is there already. *)
Example BeforeStart_confined_witness :
  files_ (on (receive no_units (sent "vm1" true [])).2) !! vm0_config = files_ vm0_host !! vm0_config.
Proof.
  destruct (@BeforeStart_confined sample_env disk_host plain_accounts plain_laws no_units "/" "vm1" (sent "vm1" true [])
    vm0_host) as [Hf _].
  - done.
  - intros j m [= <-] Hd. vm_compute in Hd. by injection Hd as <-.
  - apply plain_extra.
  - apply Hf. by vm_compute.
Defined.

Example BeforeStart_undone_witness :
  let '(r, t') := receive no_units (sent "vm1" true []) in
  r = Throw (ErrHost "dbus") ∧ @no_user plain_accounts no_units "vm1" (on t') ∧ @no_files no_units "vm1" (on t').
Proof.
  pose proof (@BeforeStart_undone sample_env disk_host plain_accounts plain_laws no_units "/" "vm1" (sent "vm1" true [])
    vm0_host ltac:(reflexivity) ltac:(reflexivity) free_name) as Hu.
  assert ((receive no_units (sent "vm1" true [])).1 = Throw (ErrHost "dbus")) as Hr by by vm_compute.
  unfold receive in *. destruct (BeforeStart _ _ _ _) as [r t']. cbn [fst] in Hr. subst r. by split.
Defined.

(** The task fails, and the machine has lost its configuration. *)
Example BeforeStart_overwrites_witness :
  (receive no_units (sent "vm0" true [])).1 = Throw (ErrHost "dbus") ∧
  files_ vm0_host !! vm0_config ≠ None ∧ passwd_lines ≠ [] ∧
  ∃ c, files_ (on (receive no_units (sent "vm0" true [])).2) !! vm0_config = Some (Some (enc_conf c)) ∧
    InstanceProperties.name c = "vm0".
Proof.
  split; [by vm_compute|]. split; [done|]. split; [done|].
  destruct (@dec_machine sample_env (manifest "vm0" true)) as [m|e|p] eqn:Hd.
  2, 3: by vm_compute in Hd.
  destruct (C m) as [c|] eqn:Hc; [|vm_compute in Hd; by injection Hd as <-].
  destruct (dec_machine_names _ _ true _ Hd Hc) as [Hn _].
  assert (Name m = "vm0") as Hm by (vm_compute in Hd; by injection Hd as <-).
  exists (InstanceConf.props c). split; [|by rewrite Hn].
  unfold receive, vm0_config. rewrite <- Hm.
  apply (@BeforeStart_overwrites sample_env disk_host plain_accounts plain_laws no_units "/" "vm1" (sent (Name m) true [])
    vm0_host (manifest "vm0" true) m c); rewrite ?Hm; try done; apply plain_extra.
Defined.

(** A manifest without a running instance: the daemon panics, with the user and
    the configuration made. *)
Example norun_panics :
  (receive able (sent "vm1" false [])).1 = Panic NilDereference ∧
  has_config (files_ (on (receive able (sent "vm1" false [])).2)) "vm1" = true ∧
  head (passwd (on (receive able (sent "vm1" false [])).2)) = Some (line "vm1" 1025).
Proof. by vm_compute. Qed.

(** A migration that failed at the last moment. *)
Definition failed_migration : Services := λ l a,
  match a return reply a with
  | Statuses _ => [inl "inmigrate"; inl "paused"]
  | Sockets => [inl []]
  | MonRun _ query_migrate_status => inl "failed"
  | Cancelled => true
  | _ => willing l _
  end.
Definition started : task :=
  set_requisites (Some {| IncomingPort := 31025; NBDPort := 61025; PID := 1 |}) (NewMachineIncomingMigrationTask vm0_host).

Example Main_resumes_witness :
  log (on ((@Main failed_migration "vm1" (sent "vm1" true []);; @OnSuccess failed_migration "vm1" (sent "vm1" true []))
    started).2) = [Statuses "vm1"; Sockets; MonRun "vm1" query_migrate_status; MonRun "vm1" cont].
Proof.
  by rewrite (@Main_resumes failed_migration "vm1" (sent "vm1" true [])
    {| IncomingPort := 31025; NBDPort := 61025; PID := 1 |} started "failed").
Defined.
End Receiving.

Module Sending.
Import Json Services Server ConfJson JsonFacts Lifecycle LifecycleFacts Migration MigrationFacts Passwd Sample.

Definition half_way : MachineMigrationStatDetails :=
  {| VMState := {| Total := 1000; Remaining := 500; Transferred := 500; Progress := 50; Speed := 1 |};
     Disks_stat := {["/dev/vg/root" := of_total 10]} |}.

Example progress_bounds_witness : overall half_way = 25 ∧ is_percent (overall half_way).
Proof.
  destruct (progress_bounds half_way) as [Hp _].
  - unfold sane, half_way. cbn [VMState Disks_stat Progress].
    split; [by split|]. rewrite map_Forall_singleton. by split.
  - split; [by vm_compute|exact Hp].
Defined.

Definition own_name : MigrationOverrides := {| Name := ""; Disks_ := ∅; NetIfaces_ := ∅ |}.
Definition new_name : MigrationOverrides := {| Name := "vm1"; Disks_ := ∅; NetIfaces_ := ∅ |}.

(** What runs of the sample: QEMU knows how large its disks are, and they have
    bitmaps. *)
Definition running_disk (d : Disk.t) : Disk.t :=
  {| Disk.props := Disk.props d; Disk.driver := Disk.driver d; Disk.Backend := Disk.Backend d;
     Disk.QemuAddr := Disk.QemuAddr d; Disk.QemuVirtualSize := 10737418240; Disk.HasBitmap := true |}.
Definition running_conf : InstanceProperties.t :=
  InstanceProperties.set_Disks (each running_disk (InstanceProperties.Disks sample_conf)) sample_conf.
Lemma settled_running : settled running_conf = sample_conf.
Proof. vm_compute. reflexivity. Qed.

Example manifest_received_witness :
  map Disk.QemuVirtualSize (omap id (Pool.Values (InstanceProperties.Disks running_conf) [])) = [10737418240; 10737418240] ∧
  ∃ j m r, @manifest sample_env new_name "vm0" sample_conf running_conf = Ret j ∧
    @Incoming.dec_machine sample_env j = Ret m ∧
    Incoming.Name m = "vm1" ∧ Incoming.R m = Some r ∧ same sample_conf (InstanceConf.props r).
Proof.
  split; [vm_compute; reflexivity|].
  destruct (@manifest_received sample_env new_name "vm0" sample_conf running_conf) as (j & m & c & r & Hj & Hm & Hn & _ & Hr & _ & Hs).
  - apply sample_conf_wf.
  - apply sample_conf_fits.
  - rewrite settled_running. apply sample_conf_wf.
  - rewrite settled_running. apply sample_conf_fits.
  - reflexivity.
  - reflexivity.
  - vm_compute. reflexivity.
  - exists j, m, r. rewrite settled_running in Hs. exact (conj Hj (conj Hm (conj Hn (conj Hr Hs)))).
Defined.

(** A machine that runs here, with a file of its own beside its configuration. *)
Definition vm0 : InstanceProperties.t := created_props "vm0" request.
Definition vm0_running : InstanceQemu.t :=
  InstanceQemu.set_props vm0 (InstanceQemu.fresh "vm0" 4711 {| chroot := ∅; taps := ∅; trace := [] |}).
Definition source_host : host :=
  {| files_ := <["/etc/kvmrun/vm0/comment" := Some (JStr "x")]> (files_ vm0_host); passwd := passwd_lines; log := [] |}.
Definition leaving (o : MigrationOverrides) (disks : list Disk.t) : task :=
  set_movingDisks disks (set_vm (Some ({| InstanceConf.props := vm0; InstanceConf.confname := "config" |}, Some vm0_running))
    (NewMachineMigrationTask source_host
       {| Disks := []; Overrides := o; CreateDisks := false; RemoveAfter := true |})).

Definition request_sent (l : list service) : option incoming_request :=
  match last l with Some (StartIncoming _ q) => Some q | _ => None end.

(** The machine of this name that the other side has already is none of its
    business. *)
Example sent_confined_witness :
  ∃ q, request_sent (log (on (@requestIncomingMigration sample_env willing "vm0" "srv2" (leaving new_name [])).2)) = Some q ∧
    map fst (req_ExtraFiles q) = ["comment"] ∧
    files_ (Incoming.on (@Incoming.BeforeStart sample_env Receiving.disk_host plain_accounts Receiving.able "/" "vm1" (options_of q)
      (Incoming.NewMachineIncomingMigrationTask vm0_host)).2) !! vm0_config = files_ vm0_host !! vm0_config.
Proof.
  set (l := log _).
  assert (∃ d q, last l = Some (StartIncoming d q) ∧ req_Name q = "vm1" ∧ map fst (req_ExtraFiles q) = ["comment"])
    as (d & q & Hl & Hn & Hx) by (eexists _, _; split; [vm_compute; reflexivity|by split]).
  exists q. split; [unfold request_sent; by rewrite Hl|]. split; [done|].
  rewrite <- Hn.
  apply (@sent_confined sample_env plain_accounts willing "vm0" "srv2" (leaving new_name []) d q).
  - by apply last_Some_elem_of.
  - by intros ?%elem_of_nil.
  - apply plain_laws.
  - by rewrite Hn.
  - rewrite Hn. by vm_compute.
Defined.

(** A migration under another name that failed: the task on the other side is
    still there. *)
Definition root_disk : Disk.t :=
  match @Disk.NewDisk sample_env "/dev/vg/root" with Ret d => d | _ => disk_zero end.

Example OnFailure_cancels_witness :
  RemoteCancel "srv2" (Incoming.unique_label "vm1") ∉
    log (on (@OnFailure willing "vm0" "srv2" (leaving new_name [root_disk])).2).
Proof.
  pose proof (@OnFailure_cancels sample_env plain_accounts willing "vm0" "srv2" (leaving new_name [root_disk]) ["root"]
    ltac:(by vm_compute)) as Hf.
  destruct (OnFailure _ _ _) as [r t']. destruct Hf as (_ & _ & _ & Hl & Hc).
  cbn [snd]. rewrite Hl. cbn [log leaving set_movingDisks set_vm NewMachineMigrationTask on source_host app].
  intros Hin. apply Hc in Hin. by destruct Hin.
Defined.
End Sending.
