(* ===== verification/Api.v ===== *)
(** Api: the machine service ([services/machines/*.go], its conversions in
    [service_protoconv.go]), [server/machine/vnc.go], and the statuses that errors
    are answered with ([services/interceptors/err_mapping.go]); then the task service.

    The messages are those of [api/types/v2] and [api/services/machines/v2].  An
    enumerator is its number, and may be one without a name; unsigned fields of 32
    bits are numbers below 2^32. *)

From S2P Require Import Prelude.
From S2P Require Import GoStd.
From S2P Require Import PciAddress.
From S2P Require Import Pool.
From S2P Require Import Backend.
From S2P Require Import PciDevice.
From S2P Require Import Resources.
From S2P Require Import Drivers.
From S2P Require Import Disks.
From S2P Require Import Cdroms.
From S2P Require Import NetIfaces.
From S2P Require Import HostDevices.
From S2P Require Import Peripherals.
From S2P Require Import InstanceProperties.
From S2P Require Import InstanceConf.
From S2P Require Import ConfInvariant.
From S2P Require Import ConfJson.
From S2P Require Import Monitor.
From S2P Require Import InstanceQemu.
From S2P Require Import Server.
From S2P Require Import Services.
From S2P Require Import Lifecycle.
From S2P Require Import Listing.
From S2P Require Import Migration.
From S2P Require Import Tasks.
From S2P Require Import Backup.

Open Scope Z_scope.
#[local] Set Warnings "-register-all".

(** ** Enumerations *)

Module Enums.
Import Strings.

Definition NetIfaceDriver : list string := ["UNDEFINED_NET_DRIVER"; "VIRTIO_NET_PCI"; "RTL8139"; "E1000"].
Definition DiskDriver : list string := ["UNDEFINED_DISK_DRIVER"; "VIRTIO_BLK_PCI"; "SCSI_HD"; "IDE_HD"].
Definition CdromDriver : list string := ["UNDEFINED_CDROM_DRIVER"; "SCSI_CD"; "IDE_CD"].
Definition CloudInitDriver : list string := ["UNDEFINED_CLOUDINIT_DRIVER"; "CI_IDE_CD"; "CI_FLOPPY"].
Definition InputDeviceType : list string := ["UNDEFINED_INPUT_TYPE"; "USB_TABLET"].

(** [String]: the name, or the number of an enumerator without one. *)
Definition to_string (names : list string) (n : Z) : string :=
  if n <? 0 then Strconv.Itoa n else default (Strconv.Itoa n) (names !! Z.to_nat n).

(** [strings.ReplaceAll(strings.ToLower(s), "_", "-")] *)
Definition dashed (names : list string) (n : Z) : string := replace "_" "-" (ToLower (to_string names n)).

(** The casts of numbers to the types of the core. *)
Definition link_state (n : Z) : NetLinkState :=
  let n := n mod 2 ^ 16 in
  if n =? 1 then NetLinkState_UP else if n =? 2 then NetLinkState_DOWN else NetLinkState_UNKNOWN.
Definition state_number (s : InstanceState) : Z :=
  match s with
  | StateNoState => 0 | StateStarting => 1 | StateRunning => 2 | StatePaused => 3 | StateShutdown => 4
  | StateInactive => 5 | StateCrashed => 6 | StateIncoming => 7 | StateMigrating => 8 | StateMigrated => 9
  end.
Definition uint32 (n : Z) : Z := n mod 2 ^ 32.
End Enums.

(** ** The description of a machine *)

Module MachineOpts.
Record Firmware_ := { fw_Image : string; fw_Flash : string }.
Record Memory_ := { mem_Actual : Z; mem_Total : Z }.
Record CPU_ := { cpu_Actual : Z; cpu_Total : Z; cpu_Sockets : Z; cpu_Model : string; cpu_Quota : Z }.
Record Cdrom_ := { cd_Name : string; cd_Media : string; cd_Driver : string; cd_Readonly : bool; cd_Bootindex : Z; cd_Addr : string }.
Record Disk_ := { d_Path : string; d_Driver : string; d_IopsRd : Z; d_IopsWr : Z; d_Bootindex : Z; d_Addr : string }.
Record NetIface_ := {
  n_Ifname : string; n_Driver : string; n_HwAddr : string; n_Queues : Z; n_Ifup : string; n_Ifdown : string; n_Addr : string;
}.
Record ChannelVSock_ := { vs_ContextID : Z; vs_Addr : string }.
Record CloudInit_ := { ci_Path : string; ci_Driver : string }.
Record Kernel_ := { k_Image : string; k_Initrd : string; k_Modiso : string; k_Cmdline : string }.
Record HostDevice_ := { h_PCIAddr : string; h_Multifunction : bool; h_PrimaryGPU : bool }.
Record t := {
  MachineType_ : string; Firmware : option Firmware_; Memory : option Memory_; CPU : option CPU_;
  Inputs : list string; Cdrom : list Cdrom_; Storage : list Disk_; Network : list NetIface_;
  VsockDevice : option ChannelVSock_; CloudInitDrive : option CloudInit_; Kernel : option Kernel_;
  HostPCI : list HostDevice_;
}.
End MachineOpts.

(** [types.Machine], with [Persistent] always set. *)
Record Machine := {
  m_Name : string; Config : option MachineOpts.t; Runtime_ : option MachineOpts.t; m_State : Z; PID : Z; m_LifeTime : Z;
}.

Module Conv.
Import Enums MachineOpts Strings.

Section conv.
Context `{Env}.

(** *** [machineToProto] *)

Definition cdrom (d : Cdrom.t) : Cdrom_ :=
  {| cd_Name := Cdrom.Name (Cdrom.props d); cd_Media := Cdrom.Media (Cdrom.props d);
     cd_Driver := driver_String (Cdrom.driver d); cd_Readonly := Cdrom.Readonly (Cdrom.props d);
     cd_Bootindex := uint32 (Cdrom.Bootindex (Cdrom.props d)); cd_Addr := Cdrom.QemuAddr d |}.
Definition disk (d : Disk.t) : Disk_ :=
  {| d_Path := Disk.Path (Disk.props d); d_Driver := driver_String (Disk.driver d);
     d_IopsRd := uint32 (Disk.IopsRd (Disk.props d)); d_IopsWr := uint32 (Disk.IopsWr (Disk.props d));
     d_Bootindex := uint32 (Disk.Bootindex (Disk.props d)); d_Addr := Disk.QemuAddr d |}.
Definition netif (n : NetIface.t) : NetIface_ :=
  let p := NetIface.props n in
  {| n_Ifname := NetIface.Ifname p; n_Driver := driver_String (NetIface.driver n); n_HwAddr := NetIface.HwAddr p;
     n_Queues := uint32 (NetIface.Queues p); n_Ifup := NetIface.Ifup p; n_Ifdown := NetIface.Ifdown p;
     n_Addr := NetIface.QemuAddr n |}.
(** The address of a device that has none is dereferenced. *)
Fixpoint hostdevs (l : list HostDevice.t) : outcome (list HostDevice_) :=
  match l with
  | [] => Ret []
  | d :: l =>
      match HostDevice.BackendAddr d with
      | None => Panic NilDereference
      | Some a =>
          r ← hostdevs l;
          Ret ({| h_PCIAddr := Pci.to_string a; h_Multifunction := HostDevice.Multifunction (HostDevice.props d);
                  h_PrimaryGPU := HostDevice.PrimaryGPU (HostDevice.props d) |} :: r)
      end
  end.

Definition conv (p : InstanceProperties.t) : outcome t :=
  disks ← InstanceProperties.DiskGetList [] p;
  hosts ← hostdevs (InstanceProperties.HostDeviceGetList [] p);
  Ret {|
    MachineType_ := MachineType.to_string (InstanceProperties.MachineTypeGet p);
    Memory := Some {| mem_Actual := uint32 (InstanceProperties.MemoryGetActual p);
                      mem_Total := uint32 (InstanceProperties.MemoryGetTotal p) |};
    CPU := Some {| cpu_Actual := uint32 (InstanceProperties.CPUGetActual p);
                   cpu_Total := uint32 (InstanceProperties.CPUGetTotal p);
                   cpu_Sockets := uint32 (InstanceProperties.CPUGetSockets p);
                   cpu_Model := InstanceProperties.CPUGetModel p;
                   cpu_Quota := uint32 (InstanceProperties.CPUGetQuota p) |};
    Inputs := map (λ d, InputDevice.Type_ (InputDevice.props d)) (InstanceProperties.InputDeviceGetList [] p);
    Cdrom := map cdrom (InstanceProperties.CdromGetList [] p);
    Storage := map disk disks;
    Network := map netif (InstanceProperties.NetIfaceGetList [] p);
    Kernel := if bool_decide (InstanceProperties.KernelGetImage p = "") then None
              else Some {| k_Image := InstanceProperties.KernelGetImage p; k_Initrd := InstanceProperties.KernelGetInitrd p;
                           k_Modiso := InstanceProperties.KernelGetModiso p; k_Cmdline := InstanceProperties.KernelGetCmdline p |};
    Firmware := if bool_decide (InstanceProperties.FirmwareGetImage p = "") then None
                else Some {| fw_Image := InstanceProperties.FirmwareGetImage p;
                             fw_Flash := match InstanceProperties.FirmwareGetFlash p with
                                         | Some d => Disk.Path (Disk.props d) | None => "" end |};
    VsockDevice := (λ v, {| vs_ContextID := ChannelVSock.ContextID (ChannelVSock.props v); vs_Addr := ChannelVSock.QemuAddr v |})
                     <$> InstanceProperties.VSockDeviceGet p;
    CloudInitDrive := (λ d, {| ci_Path := CloudInitDrive.Media (CloudInitDrive.props d);
                               ci_Driver := driver_String (CloudInitDrive.driver d) |})
                        <$> InstanceProperties.CloudInitGetDrive p;
    HostPCI := hosts;
  |}.

(** An optional instance. *)
Definition conv_opt (p : option InstanceProperties.t) : outcome (option t) :=
  match p with None => Ret None | Some p => Some <$> conv p end.
Definition machineToProto (name : string) (C : option InstanceProperties.t) (R : option (InstanceProperties.t * Z))
    (state : InstanceState) (life : Z) : outcome Machine :=
  config ← conv_opt C;
  runtime ← conv_opt (fst <$> R);
  Ret {| m_Name := name; Config := config; Runtime_ := runtime; m_State := state_number state;
         PID := match R with Some (_, pid) => uint32 pid | None => 0 end; m_LifeTime := life mod 2 ^ 64 |}.

(** *** [propertiesFromMachineOpts], which looks at no error *)

Definition each {A} (add : A → op InstanceProperties.t ()) : list A → op InstanceProperties.t () :=
  fix go l := match l with [] => mret () | a :: l => Server.ignored (add a);; go l end.
Definition input_of (ty : string) : InputDevice.t := {| InputDevice.props := {| InputDevice.Type_ := ty |} |}.
Definition cdrom_of (v : Cdrom_) : Cdrom.t :=
  Cdrom.make {| Cdrom.Name := cd_Name v; Cdrom.Media := cd_Media v; Cdrom.Driver := cd_Driver v; Cdrom.Bootindex := 0;
                Cdrom.Readonly := cd_Readonly v |} DriverType_UNKNOWN None.
Definition disk_of (v : Disk_) : Disk.t :=
  Disk.make {| Disk.Path := d_Path v; Disk.Driver := d_Driver v; Disk.IopsRd := d_IopsRd v; Disk.IopsWr := d_IopsWr v;
               Disk.Bootindex := 0 |} DriverType_UNKNOWN None.
Definition netif_of (v : NetIface_) : NetIface.t :=
  NetIface.make {| NetIface.Ifname := n_Ifname v; NetIface.Driver := n_Driver v; NetIface.HwAddr := n_HwAddr v;
                   NetIface.Queues := n_Queues v; NetIface.Bootindex := 0; NetIface.Ifup := n_Ifup v;
                   NetIface.Ifdown := n_Ifdown v |} DriverType_UNKNOWN.
Definition hostdev_of (v : HostDevice_) : HostDevice.t :=
  {| HostDevice.props := {| HostDevice.PCIAddr := h_PCIAddr v; HostDevice.PrimaryGPU := h_PrimaryGPU v;
                            HostDevice.Multifunction := h_Multifunction v |};
     HostDevice.BackendAddr := None |}.

(** What is set by plain assignments. *)
Definition plain (o : t) : InstanceProperties.t :=
  let p := InstanceProperties.set_MachineType_ (MachineType_ o) (InstanceProperties.zero "" 0) in
  let p := InstanceProperties.set_Firmware_
             ((λ f, {| Firmware.props := {| Firmware.Image := fw_Image f; Firmware.Flash := fw_Flash f |};
                       Firmware.flashDisk := None |}) <$> Firmware o) p in
  let p := match Memory o with
           | Some m => InstanceProperties.set_Memory_ {| Memory.Actual := mem_Actual m; Memory.Total := mem_Total m |} p
           | None => p end in
  let p := match CPU o with
           | Some c => InstanceProperties.set_CPU {| VirtCPU.Actual := cpu_Actual c; VirtCPU.Total := cpu_Total c;
                         VirtCPU.Sockets := cpu_Sockets c; VirtCPU.Quota := cpu_Quota c; VirtCPU.Model := cpu_Model c |} p
           | None => p end in
  let p := InstanceProperties.set_VSockDevice
             ((λ v, {| ChannelVSock.props := {| ChannelVSock.ContextID := vs_ContextID v |};
                       ChannelVSock.QemuAddr := "" |}) <$> VsockDevice o) p in
  let p := InstanceProperties.set_CloudInitDrive_
             ((λ c, {| CloudInitDrive.props := {| CloudInitDrive.Media := ci_Path c; CloudInitDrive.Driver := ci_Driver c |};
                       CloudInitDrive.driver := CloudInitDriverType_UNKNOWN; CloudInitDrive.Backend := None |})
                <$> CloudInitDrive o) p in
  match Kernel o with
  | Some k => InstanceProperties.set_Kernel {| ExtKernel.Image := k_Image k; ExtKernel.Cmdline := k_Cmdline k;
                ExtKernel.Initrd := k_Initrd k; ExtKernel.Modiso := k_Modiso k |} p
  | None => p
  end.
Definition append_devices (o : t) : op InstanceProperties.t () :=
  let on {T} (get : InstanceProperties.t → T) set (m : op T ()) := zoom get set m in
  each (λ ty, on InstanceProperties.InputDevices InstanceProperties.set_InputDevices (InputDevicePool.Append (input_of ty))) (Inputs o);;
  each (λ v, on InstanceProperties.Cdroms InstanceProperties.set_Cdroms (CdromPool.Append (cdrom_of v))) (Cdrom o);;
  each (λ v, on InstanceProperties.Disks InstanceProperties.set_Disks (DiskPool.Append (disk_of v))) (Storage o);;
  each (λ v, on InstanceProperties.NetIfaces InstanceProperties.set_NetIfaces (NetIfacePool.Append (netif_of v))) (Network o);;
  each (λ v, on InstanceProperties.HostDevices InstanceProperties.set_HostDevices (HostDevicePool.Append (hostdev_of v))) (HostPCI o).

(** Options that are missing are dereferenced. *)
Definition propertiesFromMachineOpts (o : option t) : outcome InstanceProperties.t :=
  match o with
  | None => Panic NilDereference
  | Some o => match append_devices o (plain o) with (Panic q, _) => Panic q | (_, p) => Ret p end
  end.
End conv.
End Conv.

(** ** The requests that change a configuration *)

Module MachineService.
Import Enums Strings Server ConfJson.

Record NetIfaceAttachRequest := {
  ni_Name : string; ni_Ifname : string; ni_Driver : Z; ni_HwAddr : string; ni_IfupScript : string; ni_IfdownScript : string;
  ni_Queues : Z; ni_Live : bool;
}.
Record HostDeviceAttachRequest := {
  hd_Name : string; hd_PCIAddr : string; hd_Multifunction : bool; hd_PrimaryGPU : bool; hd_StrictMode : bool;
}.
Record DiskAttachRequest := {
  da_Name : string; da_DiskPath : string; da_Driver : Z; da_IopsRd : Z; da_IopsWr : Z; da_Bootindex : Z; da_Position : Z;
  da_Live : bool;
}.
Record CdromAttachRequest := {
  ca_Name : string; ca_DeviceName : string; ca_DeviceMedia : string; ca_Driver : Z; ca_Readonly : bool; ca_Bootindex : Z;
  ca_Position : Z; ca_Live : bool;
}.
Record CloudInitDriveAttachRequest := { cda_Name : string; cda_Media : string; cda_Driver : Z }.
Record FirmwareSetRequest := { fs_Name : string; fs_Image : string; fs_Flash : string; fs_QemuRootdir : string }.
Record ExternalKernelSetRequest := {
  ek_Name : string; ek_Image : string; ek_Initrd : string; ek_Cmdline : string; ek_Modiso : string;
}.
(** [oneof channel] *)
Inductive channel := Vsock (ContextID : Z) | SerialPort.

Definition optsFromNetIfaceAttachRequest (req : NetIfaceAttachRequest) : NetIface.Properties :=
  {| NetIface.Ifname := ni_Ifname req; NetIface.Driver := dashed NetIfaceDriver (ni_Driver req);
     NetIface.HwAddr := ni_HwAddr req; NetIface.Queues := ni_Queues req; NetIface.Bootindex := 0;
     NetIface.Ifup := ni_IfupScript req; NetIface.Ifdown := ni_IfdownScript req |}.
Definition optsFromHostDeviceAttachRequest (req : HostDeviceAttachRequest) : HostDevice.Properties :=
  {| HostDevice.PCIAddr := hd_PCIAddr req; HostDevice.PrimaryGPU := hd_PrimaryGPU req;
     HostDevice.Multifunction := hd_Multifunction req |}.
Definition device_type (ty : Z) : string := dashed InputDeviceType ty.
Definition optsFromInputDeviceAttachRequest (ty : Z) : InputDevice.Properties := {| InputDevice.Type_ := device_type ty |}.
Definition optsFromDiskAttachRequest (req : DiskAttachRequest) : Disk.Properties :=
  {| Disk.Path := da_DiskPath req; Disk.Driver := dashed DiskDriver (da_Driver req); Disk.IopsRd := da_IopsRd req;
     Disk.IopsWr := da_IopsWr req; Disk.Bootindex := da_Bootindex req |}.
Definition optsFromCdromAttachRequest (req : CdromAttachRequest) : Cdrom.Properties :=
  {| Cdrom.Name := ca_DeviceName req; Cdrom.Media := ca_DeviceMedia req; Cdrom.Driver := dashed CdromDriver (ca_Driver req);
     Cdrom.Bootindex := ca_Bootindex req; Cdrom.Readonly := ca_Readonly req |}.
Definition cloudinit_driver (n : Z) : string := TrimPrefix (dashed CloudInitDriver n) "ci-".
Definition optsFromCloudInitDriveAttachRequest (req : CloudInitDriveAttachRequest) : CloudInitDrive.Properties :=
  {| CloudInitDrive.Media := cda_Media req; CloudInitDrive.Driver := cloudinit_driver (cda_Driver req) |}.
Definition optsFromFirmwareSetRequest (req : FirmwareSetRequest) : Firmware.Properties :=
  {| Firmware.Image := fs_Image req; Firmware.Flash := fs_Flash req |}.
Definition optsFromExternalKernelSetRequest (req : ExternalKernelSetRequest) : ExtKernel.t :=
  {| ExtKernel.Image := ek_Image req; ExtKernel.Cmdline := ek_Cmdline req; ExtKernel.Initrd := ek_Initrd req;
     ExtKernel.Modiso := ek_Modiso req |}.

(** What a handler of the service calls: the machine, and a request of the server. *)
Abbreviation called := (prod string (option request)).

Module Handlers.
Definition DiskAttach (req : DiskAttachRequest) : called :=
  (da_Name req, Some (ReqDiskAttach (Some (optsFromDiskAttachRequest req)) (da_Position req) (da_Live req))).
Definition DiskDetach (Name DiskName : string) (Live : bool) : called := (Name, Some (ReqDiskDetach DiskName Live)).
Definition DiskSetReadLimit (Name DiskName : string) (Iops : Z) (Live : bool) : called :=
  (Name, Some (ReqDiskSetReadLimit DiskName Iops Live)).
Definition DiskSetWriteLimit (Name DiskName : string) (Iops : Z) (Live : bool) : called :=
  (Name, Some (ReqDiskSetWriteLimit DiskName Iops Live)).
Definition DiskRemoveQemuBitmap (Name DiskName : string) : called := (Name, Some (ReqDiskRemoveQemuBitmap DiskName)).
Definition DiskResizeQemuBlockdev (Name DiskName : string) : called := (Name, Some (ReqDiskResizeQemuBlockdev DiskName)).
Definition MemorySetLimits (Name : string) (Actual Total : Z) (Live : bool) : called :=
  (Name, Some (ReqMemorySetLimits Actual Total Live)).
Definition CPUSetLimits (Name : string) (Actual Total : Z) (Live : bool) : called :=
  (Name, Some (ReqCPUSetLimits Actual Total Live)).
Definition CPUSetSockets (Name : string) (Sockets : Z) : called := (Name, Some (ReqCPUSetSockets Sockets)).
Definition CPUSetQuota (Name : string) (Quota : Z) (Live : bool) : called := (Name, Some (ReqCPUSetQuota Quota Live)).
Definition CPUSetModel (Name Model : string) : called := (Name, Some (ReqCPUSetModel Model)).
Definition CdromAttach (req : CdromAttachRequest) : called :=
  (ca_Name req, Some (ReqCdromAttach (Some (optsFromCdromAttachRequest req)) (ca_Position req) (ca_Live req))).
Definition CdromDetach (Name DeviceName : string) (Live : bool) : called := (Name, Some (ReqCdromDetach DeviceName Live)).
Definition CdromChangeMedia (Name DeviceName DeviceMedia : string) (Live : bool) : called :=
  (Name, Some (ReqCdromChangeMedia DeviceName DeviceMedia Live)).
Definition CdromRemoveMedia (Name DeviceName : string) (Live : bool) : called :=
  (Name, Some (ReqCdromRemoveMedia DeviceName Live)).
Definition NetIfaceAttach (req : NetIfaceAttachRequest) : called :=
  (ni_Name req, Some (ReqNetIfaceAttach (Some (optsFromNetIfaceAttachRequest req)) (ni_Live req))).
Definition NetIfaceDetach (Name Ifname : string) (Live : bool) : called := (Name, Some (ReqNetIfaceDetach Ifname Live)).
Definition NetIfaceSetLinkState (Name Ifname : string) (State : Z) : called :=
  (Name, Some (ReqNetIfaceSetLinkState Ifname (link_state State))).
Definition NetIfaceSetUpScript (Name Ifname Path : string) : called := (Name, Some (ReqNetIfaceSetUpScript Ifname Path)).
Definition NetIfaceSetDownScript (Name Ifname Path : string) : called := (Name, Some (ReqNetIfaceSetDownScript Ifname Path)).
Definition NetIfaceSetQueues (Name Ifname : string) (Queues : Z) : called :=
  (Name, Some (ReqNetIfaceSetQueues Ifname Queues)).
Definition ChannelAttach (Name : string) (Channel : option channel) (Live : bool) : called :=
  match Channel with
  | Some (Vsock cid) => (Name, Some (ReqChannelAttach_VSock (Some {| ChannelVSock.ContextID := cid |}) Live))
  | Some SerialPort => (Name, Some ReqChannelAttach_SerialPort)
  | None => (Name, None)
  end.
Definition ChannelDetach (Name : string) (Channel : option channel) (Live : bool) : called :=
  match Channel with
  | Some (Vsock _) => (Name, Some (ReqChannelDetach_VSock Live))
  | Some SerialPort => (Name, Some ReqChannelDetach_SerialPort)
  | None => (Name, None)
  end.
Definition HostDeviceAttach (req : HostDeviceAttachRequest) : called :=
  (hd_Name req, Some (ReqHostDeviceAttach (Some (optsFromHostDeviceAttachRequest req)))).
Definition HostDeviceDetach (Name PCIAddr : string) : called := (Name, Some (ReqHostDeviceDetach PCIAddr)).
Definition HostDeviceSetMultifunctionOption (Name PCIAddr : string) (Enabled : bool) : called :=
  (Name, Some (ReqHostDeviceSetMultifunctionOption PCIAddr Enabled)).
Definition HostDeviceSetPrimaryGPUOption (Name PCIAddr : string) (Enabled : bool) : called :=
  (Name, Some (ReqHostDeviceSetPrimaryGpuOption PCIAddr Enabled)).
Definition InputDeviceAttach (Name : string) (Type_ : Z) : called :=
  (Name, Some (ReqInputDeviceAttach (Some (optsFromInputDeviceAttachRequest Type_)))).
Definition InputDeviceDetach (Name : string) (Type_ : Z) : called := (Name, Some (ReqInputDeviceDetach (device_type Type_))).
Definition CloudInitDriveAttach (req : CloudInitDriveAttachRequest) : called :=
  (cda_Name req, Some (ReqCloudInitDriveAttach (Some (optsFromCloudInitDriveAttachRequest req)))).
Definition CloudInitDriveDetach (Name : string) : called := (Name, Some ReqCloudInitDriveDetach).
Definition CloudInitDriveChangeMedia (Name Media : string) (Live : bool) : called :=
  (Name, Some (ReqCloudInitDriveChangeMedia Media Live)).
Definition FirmwareSet (req : FirmwareSetRequest) : called :=
  (fs_Name req, Some (ReqFirmwareSet (Some (optsFromFirmwareSetRequest req)) (fs_QemuRootdir req))).
Definition FirmwareRemove (Name : string) : called := (Name, Some ReqFirmwareRemove).
Definition ExternalKernelSet (req : ExternalKernelSetRequest) : called :=
  (ek_Name req, Some (ReqExternalKernelSet (Some (optsFromExternalKernelSetRequest req)))).
Definition ExternalKernelRemove (Name : string) : called := (Name, Some ReqExternalKernelRemove).
End Handlers.

(** A call of the service: the message, whose first field is the name of the
    machine. *)
Inductive rpc :=
  | DiskAttach (req : DiskAttachRequest)
  | DiskDetach (Name DiskName : string) (Live : bool)
  | DiskSetReadLimit (Name DiskName : string) (Iops : Z) (Live : bool)
  | DiskSetWriteLimit (Name DiskName : string) (Iops : Z) (Live : bool)
  | DiskRemoveQemuBitmap (Name DiskName : string)
  | DiskResizeQemuBlockdev (Name DiskName : string)
  | MemorySetLimits (Name : string) (Actual Total : Z) (Live : bool)
  | CPUSetLimits (Name : string) (Actual Total : Z) (Live : bool)
  | CPUSetSockets (Name : string) (Sockets : Z)
  | CPUSetQuota (Name : string) (Quota : Z) (Live : bool)
  | CPUSetModel (Name Model : string)
  | CdromAttach (req : CdromAttachRequest)
  | CdromDetach (Name DeviceName : string) (Live : bool)
  | CdromChangeMedia (Name DeviceName DeviceMedia : string) (Live : bool)
  | CdromRemoveMedia (Name DeviceName : string) (Live : bool)
  | NetIfaceAttach (req : NetIfaceAttachRequest)
  | NetIfaceDetach (Name Ifname : string) (Live : bool)
  | NetIfaceSetLinkState (Name Ifname : string) (State : Z)
  | NetIfaceSetUpScript (Name Ifname Path : string)
  | NetIfaceSetDownScript (Name Ifname Path : string)
  | NetIfaceSetQueues (Name Ifname : string) (Queues : Z)
  | ChannelAttach (Name : string) (Channel : option channel) (Live : bool)
  | ChannelDetach (Name : string) (Channel : option channel) (Live : bool)
  | HostDeviceAttach (req : HostDeviceAttachRequest)
  | HostDeviceDetach (Name PCIAddr : string)
  | HostDeviceSetMultifunctionOption (Name PCIAddr : string) (Enabled : bool)
  | HostDeviceSetPrimaryGPUOption (Name PCIAddr : string) (Enabled : bool)
  | InputDeviceAttach (Name : string) (Type_ : Z)
  | InputDeviceDetach (Name : string) (Type_ : Z)
  | CloudInitDriveAttach (req : CloudInitDriveAttachRequest)
  | CloudInitDriveDetach (Name : string)
  | CloudInitDriveChangeMedia (Name Media : string) (Live : bool)
  | FirmwareSet (req : FirmwareSetRequest)
  | FirmwareRemove (Name : string)
  | ExternalKernelSet (req : ExternalKernelSetRequest)
  | ExternalKernelRemove (Name : string).

(** The handler of a call; a channel of no kind is not looked at. *)
Definition forwarded (q : rpc) : called :=
  match q with
  | DiskAttach req => Handlers.DiskAttach req
  | DiskDetach Name DiskName Live => Handlers.DiskDetach Name DiskName Live
  | DiskSetReadLimit Name DiskName Iops Live => Handlers.DiskSetReadLimit Name DiskName Iops Live
  | DiskSetWriteLimit Name DiskName Iops Live => Handlers.DiskSetWriteLimit Name DiskName Iops Live
  | DiskRemoveQemuBitmap Name DiskName => Handlers.DiskRemoveQemuBitmap Name DiskName
  | DiskResizeQemuBlockdev Name DiskName => Handlers.DiskResizeQemuBlockdev Name DiskName
  | MemorySetLimits Name Actual Total Live => Handlers.MemorySetLimits Name Actual Total Live
  | CPUSetLimits Name Actual Total Live => Handlers.CPUSetLimits Name Actual Total Live
  | CPUSetSockets Name Sockets => Handlers.CPUSetSockets Name Sockets
  | CPUSetQuota Name Quota Live => Handlers.CPUSetQuota Name Quota Live
  | CPUSetModel Name Model => Handlers.CPUSetModel Name Model
  | CdromAttach req => Handlers.CdromAttach req
  | CdromDetach Name DeviceName Live => Handlers.CdromDetach Name DeviceName Live
  | CdromChangeMedia Name DeviceName DeviceMedia Live => Handlers.CdromChangeMedia Name DeviceName DeviceMedia Live
  | CdromRemoveMedia Name DeviceName Live => Handlers.CdromRemoveMedia Name DeviceName Live
  | NetIfaceAttach req => Handlers.NetIfaceAttach req
  | NetIfaceDetach Name Ifname Live => Handlers.NetIfaceDetach Name Ifname Live
  | NetIfaceSetLinkState Name Ifname State => Handlers.NetIfaceSetLinkState Name Ifname State
  | NetIfaceSetUpScript Name Ifname Path => Handlers.NetIfaceSetUpScript Name Ifname Path
  | NetIfaceSetDownScript Name Ifname Path => Handlers.NetIfaceSetDownScript Name Ifname Path
  | NetIfaceSetQueues Name Ifname Queues => Handlers.NetIfaceSetQueues Name Ifname Queues
  | ChannelAttach Name Channel Live => Handlers.ChannelAttach Name Channel Live
  | ChannelDetach Name Channel Live => Handlers.ChannelDetach Name Channel Live
  | HostDeviceAttach req => Handlers.HostDeviceAttach req
  | HostDeviceDetach Name PCIAddr => Handlers.HostDeviceDetach Name PCIAddr
  | HostDeviceSetMultifunctionOption Name PCIAddr Enabled => Handlers.HostDeviceSetMultifunctionOption Name PCIAddr Enabled
  | HostDeviceSetPrimaryGPUOption Name PCIAddr Enabled => Handlers.HostDeviceSetPrimaryGPUOption Name PCIAddr Enabled
  | InputDeviceAttach Name Type_ => Handlers.InputDeviceAttach Name Type_
  | InputDeviceDetach Name Type_ => Handlers.InputDeviceDetach Name Type_
  | CloudInitDriveAttach req => Handlers.CloudInitDriveAttach req
  | CloudInitDriveDetach Name => Handlers.CloudInitDriveDetach Name
  | CloudInitDriveChangeMedia Name Media Live => Handlers.CloudInitDriveChangeMedia Name Media Live
  | FirmwareSet req => Handlers.FirmwareSet req
  | FirmwareRemove Name => Handlers.FirmwareRemove Name
  | ExternalKernelSet req => Handlers.ExternalKernelSet req
  | ExternalKernelRemove Name => Handlers.ExternalKernelRemove Name
  end.

(** *** Statuses *)

Inductive code := OK | AlreadyExists | NotFound | FailedPrecondition | Internal.
#[export] Instance code_eq_dec : EqDecision code.
Proof. solve_decision. Defined.
(** The errors here are none of [grpc]. *)
Definition status_of (e : goerr) : code :=
  match e with
  | ErrAlreadyExists _ => AlreadyExists
  | ErrNotFound _ => NotFound
  | ErrNotRunning _ => FailedPrecondition
  | _ => Internal
  end.
Definition MapErrors {A} (r : outcome A) : outcome (code * option A) :=
  match r with
  | Ret a => Ret (OK, Some a)
  | Throw e => Ret (status_of e, None)
  | Panic q => Panic q
  end.

Section service.
Context {P : Type} `{Env} {hst : Host} `{PciBus, Runtime P} (e : circumstances).
Abbreviation call := (op (world P)).

Definition handle (q : rpc) : call () :=
  match forwarded q with
  | (n, Some r) => serve e n r
  | (_, None) => mret ()
  end.
(** The answer to a client. *)
Definition answered (q : rpc) : world P → outcome (code * option ()) * world P := λ w,
  let '(r, w) := handle q w in (MapErrors r, w).

(** *** Questions *)

Context (pid_of : P → Z).

(** [MachineGet] *)
Definition machine (name : string) (runtime : bool) (w : world P) : outcome (InstanceConf.InstanceConf * option P) :=
  c ← GetInstanceConf (the_users e) (fs w) name;
  r ← GetRunning (the_users e) name runtime (mon w);
  Ret (c, r).
Definition to_proto (name : string) (m : InstanceConf.InstanceConf * option P) (state : InstanceState) (life : Z) : outcome Machine :=
  Conv.machineToProto name (Some (InstanceConf.props m.1)) ((λ p, (inst_props p, pid_of p)) <$> m.2) state life.

(** [status] is what [MachineGetStatus] says of the machine. *)
Definition Get (status : option P → outcome InstanceState) (name : string) : call Machine := λ w,
  (m ← machine name true w;
   st ← status m.2;
   to_proto name m st 0, w).

(** A machine that could not be read has neither configuration nor process. *)
Definition list_entry (i : Machines.MachineInfo (InstanceConf.InstanceConf * option P)) : outcome Machine :=
  match Machines.M_ i with
  | Some m => to_proto (Machines.Name i) m (Machines.State i) (Machines.LifeTime i)
  | None => Conv.machineToProto (Machines.Name i) None None (Machines.State i) (Machines.LifeTime i)
  end.
Fixpoint list_entries (l : list (Machines.MachineInfo (InstanceConf.InstanceConf * option P))) : outcome (list Machine) :=
  match l with [] => Ret [] | i :: l => m ← list_entry i; ms ← list_entries l; Ret (m :: ms) end.
(** [vms] is what [GetList] returns. *)
Definition List_ (vms : outcome (list (Machines.MachineInfo (InstanceConf.InstanceConf * option P)))) : outcome (list Machine) :=
  l ← vms; list_entries l.

(** *** Events: those found, or none when the monitor's socket fails. *)

Record Event := { ev_Type : string; ev_Data : string; ev_Seconds : Z; ev_Microseconds : Z }.
Definition MachineGetEvents (FindEvents : string → outcome (list Event * bool)) (vmname : string) : outcome (list Event) :=
  let vmname := TrimSpace vmname in
  if bool_decide (vmname = "") then Throw (ErrMsg "empty machine name")
  else match FindEvents vmname with
       | Ret (events, true) => Ret events
       | Ret (_, false) => Ret []
       | Throw NetOpError => Ret []
       | Throw er => Throw er
       | Panic q => Panic q
       end.

(** *** [server/machine/vnc.go] *)

Record VNCRequisites := { Password : string; Display : Z; Port : Z; WSPort : Z }.
Definition FIRST_WS_PORT : Z := 10700.
Definition requisites (password : string) (uid : Z) : VNCRequisites :=
  {| Password := password; Display := uid; Port := uid + 5900; WSPort := uid + FIRST_WS_PORT |}.

(** [random] is the password that is made up. *)
Definition VNCActivate (random vmname password : string) : call VNCRequisites := λ w,
  let password := if bool_decide (password = "") then random else password in
  let body := s ← get; match R s with
                       | None => throw (ErrMsg ("not running: " +:+ vmname))
                       | Some _ => on_R (the_rand e) (ConfInvariant.VNCSetPassword password)
                       end in
  match wrap "cannot activate VNC" (TaskRunFunc (the_refusal e) (NoBlockOperations vmname)
               (with_machine (the_users e) vmname true body)) w with
  | (Ret _, w') =>
      match machine vmname true w with
      | Ret (_, Some p) => (Ret (requisites password (InstanceProperties.UID (inst_props p))), w')
      | _ => (Ret (requisites password 0), w')
      end
  | (Throw er, w') => (Throw er, w')
  | (Panic q, w') => (Panic q, w')
  end.
Definition vncRequisitesToProto (r : VNCRequisites) : VNCRequisites :=
  {| Password := Password r; Display := uint32 (Display r); Port := uint32 (Port r); WSPort := uint32 (WSPort r) |}.
End service.
End MachineService.

(** ** The requests that make, remove and start machines *)

Module LifecycleService.
Import Services Lifecycle.

Section service.
Context `{Env} {hst : Host} `{Accounts, Services}.
Context (refuse : targets → option goerr) (fsutil_Copy : string → string → copied) (appconf_QemuRootDir : string).
Abbreviation call := (op host).

(** A machine that does not run, or is told of without its monitor. *)
Definition inactive (name : string) (c : InstanceConf.InstanceConf) : outcome Machine :=
  Conv.machineToProto name (Some (InstanceConf.props c)) None StateInactive 0.

Definition Create (Name : string) (Options : option MachineOpts.t) (QemuRootdir : string) : call Machine :=
  opts ← lift (Conv.propertiesFromMachineOpts Options);
  vm ← Lifecycle.Create refuse fsutil_Copy appconf_QemuRootDir Name (Some opts) QemuRootdir;
  lift (inactive Name vm).
Definition Delete (Name : string) (Force : bool) : call Machine :=
  vm ← get_conf Name;
  Lifecycle.Delete refuse Name Force;;
  lift (inactive Name vm).
Definition Start (Name : string) (WaitInterval : Z) : call () := StartMachine refuse Name WaitInterval.
Definition Stop (Name : string) (Wait Force : bool) : call () := StopMachine refuse Name Wait Force.
Definition Restart (Name : string) (Wait : bool) : call () := RestartMachine refuse Name Wait.
Definition Reset (Name : string) : call () := ResetMachine refuse Name.
Definition ListNames (Names : list string) : call (list string) := MachineGetNames Names.
End service.

(** *** Processes *)

Record StartDiskBackupRequest := {
  sb_Name : string; sb_DiskName : string; sb_Target : string; sb_Incremental : bool; sb_ClearBitmap : bool;
}.
Definition optsFromStartDiskBackupRequest (req : StartDiskBackupRequest) : Backup.DiskBackupOptions :=
  {| Backup.DiskName := sb_DiskName req; Backup.Target_ := sb_Target req; Backup.Incremental := sb_Incremental req;
     Backup.ClearBitmap := sb_ClearBitmap req |}.
Record MigrationOverrides := { ov_Name : string; ov_Disks : gmap string string; ov_NetIfaces : gmap string string }.
Record StartMigrationRequest := {
  sm_Name : string; sm_DstServer : string; sm_Disks : list string; sm_Overrides : option MigrationOverrides;
  sm_CreateDisks : bool; sm_RemoveAfter : bool;
}.
Definition optsFromStartMigrationRequest (req : StartMigrationRequest) : Migration.MigrationOptions :=
  {| Migration.Disks := sm_Disks req; Migration.CreateDisks := sm_CreateDisks req; Migration.RemoveAfter := sm_RemoveAfter req;
     Migration.Overrides :=
       match sm_Overrides req with
       | Some o => {| Migration.Name := ov_Name o; Migration.Disks_ := ov_Disks o; Migration.NetIfaces_ := ov_NetIfaces o |}
       | None => {| Migration.Name := ""; Migration.Disks_ := ∅; Migration.NetIfaces_ := ∅ |}
       end |}.
Definition StartDiskBackupProcess `{Env} {hst : Host} `{Outside, Accounts, Services, Tasks.Daemon}
    (running : outcome (option InstanceQemu.t)) (req : StartDiskBackupRequest) : op Tasks.daemon string :=
  Backup.StartDiskBackupProcess (sb_Name req) running (Some (optsFromStartDiskBackupRequest req)).
End LifecycleService.

(** ** Tasks

    The task service ([services/tasks/tasks.go] and
    [service_protoconv.go]).  The tasks are those of [TaskGetStats], a parameter; of
    the details of a task only those of a migration are looked at. *)

Module TaskService.
Import Enums.

(** [types.TaskInfo]; its state is [1] while it runs. *)
Record Stat := { Total : Z; Remaining : Z; Transferred : Z; Progress : Z; Speed : Z }.
Record MigrationInfo := { DstServer : string; Qemu : option Stat; Disks : gmap string Stat }.
Record TaskInfo := {
  TaskID : string; State : Z; StateDesc : string; ti_Progress : Z; Migration : option MigrationInfo;
}.
Definition TaskInfo_COMPLETED : Z := 2.
Definition TaskInfo_FAILED : Z := 3.

(** [task.TaskStat]; a pointer to the details of a migration may be nil, and so may
    its transfer of the memory. *)
Record MachineMigrationStatDetails := {
  d_DstServer : string; VMState : option Migration.DataTransferStat; d_Disks : gmap string Migration.DataTransferStat;
}.
Inductive details := MigrationDetails (d : option MachineMigrationStatDetails) | OtherDetails.
Record TaskStat := { ID : string; st_State : Z; st_StateDesc : string; st_Progress : Z; Details : details }.

Definition stat_proto (d : Migration.DataTransferStat) : Stat :=
  {| Total := Migration.Total d; Remaining := Migration.Remaining d; Transferred := Migration.Transferred d;
     Progress := uint32 (Migration.Progress d); Speed := uint32 (Migration.Speed d) |}.
Definition taskStatToProto (st : TaskStat) : TaskInfo :=
  {| TaskID := ID st; State := st_State st; StateDesc := st_StateDesc st; ti_Progress := uint32 (st_Progress st);
     Migration := match Details st with
                  | MigrationDetails (Some d) =>
                      Some {| DstServer := d_DstServer d; Qemu := stat_proto <$> VMState d; Disks := stat_proto <$> d_Disks d |}
                  | _ => None
                  end |}.

Section service.
Context (TaskGetStats : list string → outcome (list TaskStat)).
Definition Get (key : string) : outcome TaskInfo :=
  stats ← TaskGetStats [key];
  match stats with
  | [] => Throw (ErrNotFound key)
  | st :: _ => Ret (taskStatToProto st)
  end.
Definition List_ (keys : list string) : outcome (list TaskInfo) :=
  stats ← TaskGetStats keys;
  Ret (map taskStatToProto stats).
End service.
End TaskService.
