(* ===== verification/ApiFacts.v ===== *)
(** ApiFacts: the names of drivers in the messages, requests for machines that are
    not there, and what is told of a machine after a request. *)

From S2P Require Import Prelude.
From S2P Require Import GoStd.
From S2P Require Import GoFacts.
From S2P Require Import Pool.
From S2P Require Import PciAddress.
From S2P Require Import Backend.
From S2P Require Import PciDevice.
From S2P Require Import Resources.
From S2P Require Import Drivers.
From S2P Require Import Disks.
From S2P Require Import Cdroms.
From S2P Require Import NetIfaces.
From S2P Require Import HostDevices.
From S2P Require Import Peripherals.
From S2P Require Import Json.
From S2P Require Import InstanceProperties.
From S2P Require Import InstanceConf.
From S2P Require Import ConfInvariant.
From S2P Require Import ConfTheorems.
From S2P Require Import ConfJson.
From S2P Require Import ConfJsonFacts.
From S2P Require Import Server.
From S2P Require Import ServerFacts.
From S2P Require Import ServerTheorems.
From S2P Require Import MigrationFacts.
From S2P Require Import Api.

Open Scope Z_scope.
#[local] Set Warnings "-register-all".

(** ** Names of drivers *)

Module EnumFacts.
Import Enums MachineService.

(** The bytes of a decimal number. *)
Definition decimal (a : ascii) : bool := bool_decide (a ∈ to_list "-0123456789").
Lemma digit_decimal d : 0 ≤ d < 10 → decimal (Strconv.digit_char d) = true.
Proof.
  intros Hd. assert (Forall (λ d, decimal (Strconv.digit_char d) = true) (seqZ 0 10)) as Hf by (by repeat constructor).
  rewrite Forall_forall in Hf. apply Hf, elem_of_seqZ. lia.
Qed.
Lemma format_go_decimal fuel n acc : 0 ≤ n → Forall (λ a, decimal a = true) (to_list acc) →
  Forall (λ a, decimal a = true) (to_list (Strconv.format_go 10 fuel n acc)).
Proof.
  revert n acc. induction fuel as [|fuel IH]; intros n acc Hn Ha; cbn [Strconv.format_go];
    pose proof (digit_decimal (n mod 10) ltac:(apply Z.mod_pos_bound; lia)); [by constructor|].
  destruct (n <? 10); [by constructor|]. apply IH; [apply Z.div_pos; lia|by constructor].
Qed.
Lemma Itoa_decimal n : Forall (λ a, decimal a = true) (to_list (Strconv.Itoa n)).
Proof.
  unfold Strconv.Itoa. destruct (Z.ltb_spec n 0); [constructor; [done|]|]; apply format_go_decimal; (lia || constructor).
Qed.
Lemma decimal_lower a : decimal a = true → lower a = true ∧ a ≠ "_"%char.
Proof.
  unfold decimal. rewrite bool_decide_eq_true. revert a.
  apply (proj1 (Forall_forall (λ a, lower a = true ∧ a ≠ "_"%char) _)). by repeat constructor.
Qed.
Lemma Itoa_lower n : Forall (λ a, lower a = true ∧ a ≠ "_"%char) (to_list (Strconv.Itoa n)).
Proof. eapply Forall_impl; [apply Itoa_decimal|]. apply decimal_lower. Qed.
Lemma replace_absent a b s : Forall (λ x, x ≠ a) (to_list s) → Strings.replace a b s = s.
Proof.
  induction s as [|x s IH]; [done|]. intros [Hx Hs]%Forall_cons. cbn. by rewrite decide_False, IH by done.
Qed.
Lemma dashed_Itoa n : Strings.replace "_" "-" (Strings.ToLower (Strconv.Itoa n)) = Strconv.Itoa n.
Proof.
  rewrite ToLower_lower by (eapply Forall_impl; [apply Itoa_lower|]; by intros ? []).
  apply replace_absent. eapply Forall_impl; [apply Itoa_lower|]; by intros ? [].
Qed.
Lemma ToLower_Itoa n : Strings.ToLower (Strconv.Itoa n) = Strconv.Itoa n.
Proof. apply ToLower_lower. eapply Forall_impl; [apply Itoa_lower|]; by intros ? []. Qed.
(** A name that begins with a letter is no number. *)
Lemma Itoa_not_name n a s : decimal a = false → Strconv.Itoa n ≠ String a s.
Proof. intros Ha E. pose proof (Itoa_decimal n) as Hf. rewrite E in Hf. apply Forall_cons in Hf as [? _]. congruence. Qed.

(** A number without a name is written out. *)
Lemma to_string_unnamed names n : ¬ 0 ≤ n < Z.of_nat (length names) → to_string names n = Strconv.Itoa n.
Proof.
  intros Hn. unfold to_string. destruct (Z.ltb_spec n 0); [done|]. by rewrite lookup_ge_None_2 by lia.
Qed.
Lemma dashed_unnamed names n : ¬ 0 ≤ n < Z.of_nat (length names) → dashed names n = Strconv.Itoa n.
Proof. intros Hn. unfold dashed. by rewrite to_string_unnamed, dashed_Itoa. Qed.
Lemma cloudinit_unnamed n : ¬ 0 ≤ n < 3 → cloudinit_driver n = Strconv.Itoa n.
Proof.
  intros Hn. unfold cloudinit_driver. rewrite dashed_unnamed by done. unfold Strings.TrimPrefix.
  destruct (to_list (Strconv.Itoa n)) as [|a l] eqn:E; [done|].
  change (to_list "ci-") with ("c"%char :: to_list "i-"). cbn [Strings.strip].
  pose proof (Itoa_decimal n) as Hf. rewrite E in Hf. apply Forall_cons in Hf as [Ha _].
  by rewrite decide_False by (by intros <-).
Qed.

(** The drivers are named by the enumerators but the first, each by one. *)
Definition names_drivers (D : Type) `{DriverType D} (name : Z → string) (count : Z) : Prop :=
  (∀ n, (DriverTypeValue (name n) : D) ≠ DriverType_UNKNOWN ↔ 1 ≤ n < count) ∧
  (∀ d : D, d ≠ DriverType_UNKNOWN → ∃ n, DriverTypeValue (name n) = d ∧ ∀ n', DriverTypeValue (name n') = d → n' = n).

Lemma names_drivers_by {D} `{DriverType D} (name : Z → string) (count : Z) (number : D → Z) :
  (∀ n, ¬ 1 ≤ n < count → DriverTypeValue (name n) = (DriverType_UNKNOWN : D)) →
  (∀ n, 1 ≤ n < count → number (DriverTypeValue (name n)) = n ∧ (DriverTypeValue (name n) : D) ≠ DriverType_UNKNOWN) →
  (∀ d : D, d ≠ DriverType_UNKNOWN → DriverTypeValue (name (number d)) = d) →
  names_drivers D name count.
Proof.
  intros Hno Hyes Hall. split.
  - intros n. split; [|by apply Hyes]. intros Hn. destruct (decide (1 ≤ n < count)); [done|]. by rewrite Hno in Hn.
  - intros d Hd. exists (number d). split; [by apply Hall|]. intros n Hn.
    destruct (decide (1 ≤ n < count)) as [Hc|Hc]; [|by rewrite Hno in Hn].
    rewrite <- Hn. symmetry. by apply Hyes.
Qed.

Ltac unnamed :=
  match goal with |- context [Strconv.Itoa ?n] =>
    cbn [DriverTypeValue DiskDriverType_driver CdromDriverType_driver NetDriverType_driver CloudInitDriverType_driver];
    unfold DiskDriver.Value, CdromDriver.Value, NetDriver.Value, CloudInitDriver.Value;
    rewrite ToLower_Itoa; repeat rewrite (bool_decide_eq_false_2 (Strconv.Itoa n = _)) by (by apply Itoa_not_name); done
  end.

(** the numbers of drivers in the messages stand for the drivers of the core:
    each driver has exactly one, and 0 and the numbers without a name have none. *)
Theorem api_drivers :
  names_drivers DiskDriverType (dashed DiskDriver) 4 ∧ names_drivers CdromDriverType (dashed CdromDriver) 3 ∧
  names_drivers NetDriverType (dashed NetIfaceDriver) 4 ∧ names_drivers CloudInitDriverType cloudinit_driver 3.
Proof.
  split_and!.
  - apply (names_drivers_by _ _ (λ d, match d with DiskDriverType_VIRTIO_BLK_PCI => 1 | DiskDriverType_SCSI_HD => 2
      | DiskDriverType_IDE_HD => 3 | _ => 0 end)); [|intros n Hn; assert (n = 1 ∨ n = 2 ∨ n = 3) as [-> |[-> | ->]] by lia; done|by intros []].
    intros n Hn. destruct (decide (n = 0)) as [->|]; [done|]. rewrite dashed_unnamed by (cbn; lia). unnamed.
  - apply (names_drivers_by _ _ (λ d, match d with CdromDriverType_SCSI_CD => 1 | CdromDriverType_IDE_CD => 2 | _ => 0 end));
      [|intros n Hn; assert (n = 1 ∨ n = 2) as [-> | ->] by lia; done|by intros []].
    intros n Hn. destruct (decide (n = 0)) as [->|]; [done|]. rewrite dashed_unnamed by (cbn; lia). unnamed.
  - apply (names_drivers_by _ _ (λ d, match d with NetDriverType_VIRTIO_NET_PCI => 1 | NetDriverType_RTL8139 => 2
      | NetDriverType_E1000 => 3 | _ => 0 end)); [|intros n Hn; assert (n = 1 ∨ n = 2 ∨ n = 3) as [-> |[-> | ->]] by lia; done|by intros []].
    intros n Hn. destruct (decide (n = 0)) as [->|]; [done|]. rewrite dashed_unnamed by (cbn; lia). unnamed.
  - apply (names_drivers_by _ _ (λ d, match d with CloudInitDriverType_IDE_CD => 1 | CloudInitDriverType_FLOPPY => 2 | _ => 0 end));
      [|intros n Hn; assert (n = 1 ∨ n = 2) as [-> | ->] by lia; done|by intros []].
    intros n Hn. destruct (decide (n = 0)) as [->|]; [done|]. rewrite cloudinit_unnamed by lia. unnamed.
Qed.
End EnumFacts.

(** ** Machines that are not there *)

Module MissingFacts.
Import Server ConfJson.

Section missing.
Context {P : Type} `{Env} {hst : Host} `{PciBus, Runtime P} (e : circumstances).
Abbreviation users := (the_users e).
Abbreviation missing n w := (GetInstanceConf users (fs w) n = Throw (ErrNotFound (Strings.TrimSpace n))).

(** A handler that fails before it asks for the machine, in the same way for all
    of them, or says that there is none. *)
Definition needs {A} (n : string) (h : op (world P) A) : Prop :=
  (∃ o, is_ret o = false ∧ ∀ w, h w = (o, w)) ∨
  (∀ w, missing n w → h w = (Throw (ErrNotFound (Strings.TrimSpace n)), w)).

Lemma needs_throw {A} n er : needs n (throw er : op (world P) A).
Proof. left. by exists (Throw er). Qed.
Lemma needs_machine n m runtime : needs n (with_machine users n runtime m).
Proof. right. intros w Hw. unfold with_machine. by rewrite Hw. Qed.
Lemma needs_task n refuse tgt h : needs n h → needs n (TaskRunFunc refuse tgt h).
Proof. intros Hh. unfold TaskRunFunc. destruct (refuse tgt); [apply needs_throw|done]. Qed.
Lemma needs_wrap {A} n what (h : op (world P) A) : needs n h → needs n (wrap what h).
Proof.
  unfold wrap, map_err. intros [(o & Ho & Hh)|Hh]; [left|right].
  - destruct o as [a|er|q]; [done| |]; eexists; (split; [|intros w; by rewrite Hh]); done.
  - intros w Hw. by rewrite (Hh w Hw).
Qed.
Lemma needs_lift {A B} n (o : outcome A) (k : A → op (world P) B) : (∀ a, needs n (k a)) → needs n (lift o ≫= k).
Proof.
  intros Hk. destruct o as [a|er|q]; [|left; by exists (Throw er)|left; by exists (Panic q)].
  destruct (Hk a) as [(o & Ho & Hh)|Hh]; [left; exists o; split; [done|]|right]; intros w; apply Hh.
Qed.
Lemma needs_nonempty {B} n what name (k : string → op (world P) B) :
  (∀ a, needs n (k a)) → needs n (nonempty what name ≫= k).
Proof.
  intros Hk. unfold nonempty. case_bool_decide; [left; by eexists (Throw _)|].
  destruct (Hk (Strings.TrimSpace name)) as [(o & Ho & Hh)|Hh]; [left; exists o; split; [done|]|right]; intros w; apply Hh.
Qed.
Lemma needs_locally {T B} n (m : op T ()) t (k : T → op (world P) B) :
  (∀ a, needs n (k a)) → needs n (locally m t ≫= k).
Proof.
  intros Hk. unfold locally. destruct (m t) as [[u|er|q] t']; [|left; by exists (Throw er)|left; by exists (Panic q)].
  destruct (Hk t') as [(o & Ho & Hh)|Hh]; [left; exists o; split; [done|]|right]; intros w; apply Hh.
Qed.

Ltac needing :=
  repeat lazymatch goal with
    | |- needs _ (throw _) => apply needs_throw
    | |- needs _ (wrap _ _) => apply needs_wrap
    | |- needs _ (TaskRunFunc _ _ _) => apply needs_task
    | |- needs _ (mbind _ (lift _)) => apply needs_lift; intros ?
    | |- needs _ (mbind _ (locally _ _)) => apply needs_locally; intros ?
    | |- needs _ (mbind _ (nonempty _ _)) => apply needs_nonempty; intros ?
    | |- needs _ (with_machine _ _ _ _) => apply needs_machine
    | |- needs _ (match ?x with _ => _ end) => destruct x
    end.
Lemma serve_needs n q : needs n (serve e n q).
Proof.
  destruct q; unfold serve; unfold
    DiskAttach, DiskDetach, DiskSetReadLimit, DiskSetWriteLimit, DiskRemoveQemuBitmap,
    DiskResizeQemuBlockdev,  MemorySetLimits, CPUSetLimits, conf_task,
    CPUSetSockets, CPUSetQuota, CPUSetModel, CdromAttach, CdromDetach, CdromChangeMedia,
    CdromRemoveMedia, NetIfaceAttach, NetIfaceDetach, NetIfaceSetLinkState,
    NetIfaceSetUpScript, NetIfaceSetDownScript, NetIfaceSetQueues, ChannelAttach_VSock,
    ChannelDetach_VSock, ChannelAttach_SerialPort, ChannelDetach_SerialPort,
    HostDeviceAttach, HostDeviceDetach, HostDeviceSetMultifunctionOption,
    HostDeviceSetPrimaryGpuOption, InputDeviceAttach, InputDeviceDetach,
    CloudInitDriveAttach, CloudInitDriveDetach, CloudInitDriveChangeMedia, FirmwareSet,
    FirmwareRemove, ExternalKernelSet, ExternalKernelRemove;
    unfold conf_task, SetLimits; cbv zeta; needing.
Qed.

Import MachineService.

(** C7: a request that reconfigures a machine that is not there - one of those for
    its memory, processors, devices, firmware and kernel ([forwarded]) - changes
    nothing and is answered with NotFound, unless it is one that fails in the same
    way whatever the machines are; of these requests only a channel of no kind is
    attached and detached with success. *)
Theorem missing_answered q w : missing (forwarded q).1 w →
  (answered e q w).2 = w ∧
  ((answered e q w).1 = Ret (NotFound, None) ∨
   (∃ o, is_ret o = false ∧ ∀ w', handle e q w' = (o, w')) ∨
   (∃ n live, q = ChannelAttach n None live ∨ q = ChannelDetach n None live) ∧ (answered e q w).1 = Ret (OK, Some ())).
Proof.
  intros Hm. unfold answered, handle. destruct (forwarded q) as [n [r|]] eqn:Hf; cbn [fst] in Hm.
  - destruct (serve_needs n r) as [(o & Ho & Hh)|Hh].
    + rewrite Hh. split; [done|]. right. left. by exists o.
    + rewrite (Hh w Hm). split; [done|]. by left.
  - split; [done|]. right. right. split; [|done].
    destruct q; try done; cbn in Hf; destruct Channel as [[]|]; try done; do 2 eexists; by first [by left|by right].
Qed.
End missing.
End MissingFacts.

(** ** What is told of a disk that was attached *)

Module DiskTold.
Import Server ConfJson ServerFacts ServerTheorems.

Definition place (position : Z) (n : nat) : nat := if position <? 0 then n else Z.to_nat position.
Definition insert_at {A} (i : nat) (x : A) (l : list A) : list A := take i l ++ x :: drop i l.
Lemma fmap_insert_at {A B} (f : A → B) i x l : f <$> insert_at i x l = insert_at i (f x) (f <$> l).
Proof. unfold insert_at. by rewrite fmap_app, fmap_cons, fmap_take, fmap_drop. Qed.

Section attach.
Context {P : Type} `{Env} {hst : Host} `{PciBus, Runtime P}.
Context (users : string → sys string) (rand : sys (Z * Z * Z)) (refuse : targets → option goerr).
Context (o : Disk.Properties) (be : backend).
Context (Hv : Disk.Validate true o = Ret o) (Hb : NewDiskBackend (Disk.Path o) = Ret be).
Implicit Types s : session P.
Abbreviation confs s := (InstanceConf.props (C s)).
Abbreviation disks c := (InstanceProperties.Disks c).
Abbreviation name := (BaseName be).

(** The disk that the options make, and a list with the limits of an old one. *)
Definition new_disk : Disk.t := Disk.make o (DriverTypeValue (Disk.Driver o)) (Some be).
Definition limited (ds : Pool.t Disk.t) : Pool.t Disk.t :=
  Pool.update name (Disk.set_IopsWr (Disk.IopsWr o)) (Pool.update name (Disk.set_IopsRd (Disk.IopsRd o)) ds).
(** A negative position is the end; a position beyond the end is the end, too. *)
Definition attached (position : Z) (ds ds' : Pool.t Disk.t) : Prop :=
  Pool.entries ds' = insert_at (place position (length (Pool.entries ds))) (name, new_disk) (Pool.entries ds) ∨
  is_Some (Pool.lookup name ds) ∧ ds' = limited ds.

Lemma zoomed_Insert d i c : Conf.wf c → DiskPool.diskname d = name → name ≠ "" → 0 ≤ i →
  zoom InstanceProperties.Disks InstanceProperties.set_Disks (DiskPool.Insert d i) c =
  if bool_decide (name ∈ Pool.keys (disks c)) then (Throw (PoolAlreadyExists name), c)
  else (Ret (), InstanceProperties.set_Disks
         (PoolFacts.put name d (insert_at (Z.to_nat i) name (Pool.keys (disks c))) (disks c)) c).
Proof.
  intros Hc Hn Hne Hi. unfold zoom, DiskPool.Insert. fold (DiskPool.diskname d). rewrite Hn.
  rewrite (PoolFacts.Insert_run DiskFacts.ok) by apply Hc. rewrite bool_decide_false by done.
  rewrite (PoolFacts.Exists_keys DiskFacts.ok) by apply Hc. case_bool_decide; [by destruct c|done].
Qed.
Lemma zoomed_Append d c : Conf.wf c → DiskPool.diskname d = name → name ≠ "" →
  zoom InstanceProperties.Disks InstanceProperties.set_Disks (DiskPool.Append d) c =
  if bool_decide (name ∈ Pool.keys (disks c)) then (Throw (PoolAlreadyExists name), c)
  else (Ret (), InstanceProperties.set_Disks
         (PoolFacts.put name d (Pool.keys (disks c) ++ [name]) (disks c)) c).
Proof.
  intros Hc Hn Hne. unfold zoom, DiskPool.Append. fold (DiskPool.diskname d). rewrite Hn.
  rewrite (PoolFacts.Append_run DiskFacts.ok) by apply Hc. rewrite bool_decide_false by done.
  rewrite (PoolFacts.Exists_keys DiskFacts.ok) by apply Hc. case_bool_decide; [by destruct c|done].
Qed.
Lemma entries_put_at i k (v : Disk.t) ds : Pool.wf DiskFacts.ok ds → k ∉ Pool.keys ds →
  Pool.entries (PoolFacts.put k v (insert_at i k (Pool.keys ds)) ds) = insert_at i (k, v) (Pool.entries ds).
Proof.
  intros Hp Hk. unfold insert_at. rewrite <- (take_drop i (Pool.keys ds)) in Hk. apply not_elem_of_app in Hk as [? ?].
  rewrite PoolFacts.entries_put by done. by destruct (PoolFacts.omap_take_drop DiskFacts.ok i ds Hp) as [-> ->].
Qed.

(** Appended or inserted, the disk is at its place, or one of its name is there. *)
Definition add_disk position : op InstanceProperties.t () :=
  if 0 <=? position then InstanceConf.DiskInsert o position else InstanceConf.DiskAppend o.
Lemma add_outcome position c (r : outcome ()) p : Conf.wf c → add_disk position c = (r, p) →
  match r with
  | Ret _ => p = InstanceProperties.set_Disks (disks p) c ∧
      Pool.entries (disks p) = insert_at (place position (length (Pool.entries (disks c)))) (name, new_disk) (Pool.entries (disks c))
  | Throw (AlreadyConnectedError _ _) => p = c ∧ is_Some (Pool.lookup name (disks c))
  | _ => True
  end.
Proof.
  intros Hc. unfold add_disk, InstanceConf.DiskInsert, InstanceConf.DiskAppend.
  assert (InstanceConf.new_disk o = Ret new_disk) as -> by (unfold InstanceConf.new_disk; rewrite Hv; cbn; by rewrite Hb).
  pose proof (Pool.wf_dom _ _ (Conf.wf_disks _ Hc) name) as Hdom. unfold place.
  destruct (decide (name = "")) as [He|He].
  { assert (DiskPool.diskname new_disk = "") as Hn by exact He.
    destruct (0 <=? position); unfold mbind, op_bind, lift, map_err, zoom, DiskPool.Insert, DiskPool.Append;
      rewrite Hn; by intros [= <- <-]. }
  destruct (Z.leb_spec 0 position) as [Hpos|Hpos]; cbn [mbind op_bind lift]; unfold mbind, op_bind, lift, map_err;
    [rewrite zoomed_Insert by done|rewrite zoomed_Append by done]; case_bool_decide as Hin; intros [= <- <-].
  1, 3: by split; [|apply Hdom].
  - split; [done|]. cbn [InstanceProperties.Disks InstanceProperties.set_Disks].
    rewrite (proj2 (Z.ltb_ge position 0)) by done. by rewrite entries_put_at by (done || apply Hc).
  - split; [done|]. cbn [InstanceProperties.Disks InstanceProperties.set_Disks].
    rewrite (proj2 (Z.ltb_lt position 0)) by done. unfold insert_at. rewrite firstn_all, skipn_all.
    by rewrite PoolFacts.entries_put by (done || apply not_elem_of_nil).
Qed.

(** The part of the handler that works on the configuration. *)
Lemma add_or_limit position s s' u : Conf.wf (confs s) →
  on_error IsAlreadyConnectedError (if 0 <=? position then on_C rand (DiskInsert o position) else on_C rand (DiskAppend o))
    (on_C rand (DiskSetReadIops (Disk.Path o) (Disk.IopsRd o));; on_C rand (DiskSetWriteIops (Disk.Path o) (Disk.IopsWr o))) s
  = (Ret u, s') →
  ∃ ds', s' = with_C (InstanceProperties.set_Disks ds' (confs s)) s ∧ attached position (disks (confs s)) ds' ∧
    Conf.wf (InstanceProperties.set_Disks ds' (confs s)).
Proof.
  intros Hc. destruct (DiskFacts.disk_Validate_ok _ _ _ Hv) as ([_ _ [Hio1 Hio2] _] & _ & _).
  unfold on_error. destruct (add_disk position (confs s)) as [r p] eqn:E.
  assert ((if 0 <=? position then on_C rand (DiskInsert o position) else on_C rand (DiskAppend o)) s = (r, with_C p s)) as ->.
  { unfold add_disk in E. destruct (0 <=? position); by apply on_C_run. }
  pose proof (add_outcome _ _ _ _ Hc E) as Ho.
  destruct r as [[]|er|q]; [|destruct er; try done|done]; cbn [IsAlreadyConnectedError].
  - destruct Ho as [Hp He]. intros [= _ <-]. exists (disks p). split_and!; [by rewrite Hp at 1|by left|].
    assert (Conf.wf (add_disk position (confs s)).2) as Hw.
    { unfold add_disk. destruct (0 <=? position); [by apply Conf.preserves_DiskInsert|by apply Conf.preserves_DiskAppend]. }
    rewrite E in Hw. cbn in Hw. by rewrite Hp in Hw.
  - destruct Ho as [-> Hl]. set (p1 := InstanceProperties.set_Disks (Pool.update name (Disk.set_IopsRd (Disk.IopsRd o)) (disks (confs s))) (confs s)).
    assert (on_C rand (DiskSetReadIops (Disk.Path o) (Disk.IopsRd o)) (with_C (confs s) s) = (Ret (), with_C p1 (with_C (confs s) s))) as E2.
    { apply on_C_run. by apply (DiskSetIops_known o be Hb (confs s)); auto. }
    rewrite (op_bind_run _ _ _ _ _ E2).
    assert (Conf.wf p1) as Hc1.
    { apply (Conf.preserves_update_disk name (Disk.set_IopsRd (Disk.IopsRd o))); [|done]. intros d. by apply DiskFacts.ok_set_IopsRd. }
    assert (is_Some (Pool.lookup name (disks p1))) as Hl1
      by (cbn; rewrite PoolFacts.lookup_update, decide_True by done; by apply fmap_is_Some).
    rewrite (on_C_run rand (DiskSetWriteIops (Disk.Path o) (Disk.IopsWr o)) (with_C p1 _) (Ret ())
               (InstanceProperties.set_Disks (limited (disks (confs s))) (confs s))).
    + intros [= _ <-]. eexists. split_and!; [reflexivity|by right|].
      apply (Conf.preserves_update_disk name (Disk.set_IopsWr (Disk.IopsWr o))) in Hc1; [exact Hc1|]. intros d. by apply DiskFacts.ok_set_IopsWr.
    + change (exec _ _) with (InstanceConf.DiskSetWriteIops (Disk.Path o) (Disk.IopsWr o) p1).
      by rewrite (DiskSetIops_known o be Hb p1 InstanceConf.DiskSetWriteIops Disk.set_IopsWr) by auto.
Qed.

(** The running side leaves the configuration as it is. *)
Lemma live_part_quiet X (I : InstanceProperties.t → Prop) live position :
  quiet X I (if_live live (
    fail_if (0 <=? position) (ErrMsg ("unable to insert at the '" +:+ Strconv.Itoa position
      +:+ "' position while the machine is running"));;
    on_error IsAlreadyConnectedError (on_R (P := P) rand (DiskAppend o))
      (on_R rand (DiskSetReadIops (Disk.Path o) (Disk.IopsRd o));; on_R rand (DiskSetWriteIops (Disk.Path o) (Disk.IopsWr o))))).
Proof.
  apply quiet_if_live, quiet_bind; [apply quiet_fail_if|intros _]. apply quiet_on_error; [apply quiet_on_R|].
  apply quiet_bind; [apply quiet_on_R|intros _; apply quiet_on_R].
Qed.

Lemma attach_stored n opts position live (w w' : world P) c u :
  GetInstanceConf users (fs w) n = Ret c → Conf.wf (InstanceConf.props c) →
  Disk.Validate true opts = Ret o →
  DiskAttach users rand Written refuse n (Some opts) position live w = (Ret u, w') →
  ∃ ds', attached position (disks (InstanceConf.props c)) ds' ∧ Conf.wf (InstanceProperties.set_Disks ds' (InstanceConf.props c)) ∧
    fs w' = <[InstanceConf.config c := Some (enc_conf (InstanceProperties.set_Disks ds' (InstanceConf.props c)))]> (fs w).
Proof.
  intros Hg Hc Ho. unfold DiskAttach. rewrite (op_bind_run _ _ w o w) by (unfold lift; by rewrite Ho).
  unfold wrap. intros E%map_err_Ret. unfold TaskRunFunc in E. destruct (refuse _); [done|].
  unfold with_machine in E. rewrite Hg in E. cbn [mbind outcome_bind] in E.
  destruct (GetRunning users n true (mon w)) as [r|er|q]; [|done..]. cbn [mbind outcome_bind] in E.
  match type of E with context [?fn (Build_session (fs w) c r)] => destruct (fn (Build_session (fs w) c r)) as [res s'] eqn:Ef end.
  injection E as -> <-. apply op_bind_Ret in Ef as (u1 & s1 & E1 & Ef).
  assert (s_fs s1 = fs w ∧ confs s1 = InstanceConf.props c ∧ InstanceConf.confname (C s1) = InstanceConf.confname c) as (Hf1 & Hp1 & Hn1).
  { pose proof (live_part_quiet [] (λ p, p = InstanceConf.props c) live position (Build_session (fs w) c r) eq_refl) as Hq.
    rewrite E1 in Hq. destruct Hq as (Hal & Hp & Hn). split; [|by split].
    apply map_eq. intros path. apply Hal, not_elem_of_nil. }
  apply op_bind_Ret in Ef as (u2 & s2 & E2 & E3).
  apply (add_or_limit position) in E2 as (ds' & -> & Hatt & Hwf); [|by rewrite Hp1]. rewrite Hp1 in Hatt, Hwf. exists ds'. do 2 (split; [done|]).
  revert E3. unfold save_conf, Save, lift. go_unfold. destruct (ValidateMachineName _) as [[]| |]; [|done..].
  intros [= _ <-]. cbn. rewrite Hf1, Hp1. unfold InstanceConf.config. cbn. by rewrite Hn1.
Qed.
End attach.

(** ** What a configuration shows of its disks *)
Section told.
Context `{Env}.

Lemma hostdevs_told l : (∀ d, d ∈ l → is_Some (HostDevice.BackendAddr d)) → ∃ hs, Conv.hostdevs l = Ret hs.
Proof.
  induction l as [|d l IH]; intros Hl; [by eexists|]. cbn.
  destruct (Hl d) as [a ->]; [by left|]. destruct IH as [hs ->]; [intros ? ?; apply Hl; by right|]. by eexists.
Qed.

(** What is told of a configuration is told of the disks one by one, and of the
    rest without them. *)
Definition with_Storage (l : list MachineOpts.Disk_) (m : MachineOpts.t) : MachineOpts.t :=
  {| MachineOpts.MachineType_ := MachineOpts.MachineType_ m; MachineOpts.Firmware := MachineOpts.Firmware m;
     MachineOpts.Memory := MachineOpts.Memory m; MachineOpts.CPU := MachineOpts.CPU m;
     MachineOpts.Inputs := MachineOpts.Inputs m; MachineOpts.Cdrom := MachineOpts.Cdrom m; MachineOpts.Storage := l;
     MachineOpts.Network := MachineOpts.Network m; MachineOpts.VsockDevice := MachineOpts.VsockDevice m;
     MachineOpts.CloudInitDrive := MachineOpts.CloudInitDrive m; MachineOpts.Kernel := MachineOpts.Kernel m;
     MachineOpts.HostPCI := MachineOpts.HostPCI m |}.
Abbreviation told ds := ((λ kd : string * Disk.t, Conv.disk (Disk.Copy kd.2)) <$> Pool.entries ds).

Lemma told_disks (p : InstanceProperties.t) : Pool.wf DiskFacts.ok (InstanceProperties.Disks p) →
  ∃ ds, InstanceProperties.DiskGetList [] p = Ret ds ∧ map Conv.disk ds = told (InstanceProperties.Disks p).
Proof.
  intros Hp. unfold InstanceProperties.DiskGetList, DiskPool.Values. cbn [fmap outcome_fmap mbind outcome_bind].
  eexists. split; [reflexivity|]. rewrite (PoolFacts.Values_entries DiskFacts.ok) by done.
  generalize (Pool.entries (InstanceProperties.Disks p)) as l. intros l. induction l as [|kd l IH]; [done|]. cbn. by f_equal.
Qed.

Lemma conv_told p : Conf.wf p → ∃ m, Conv.conv p = Ret m ∧ MachineOpts.Storage m = told (InstanceProperties.Disks p).
Proof.
  intros Hp. destruct (told_disks p) as (ds & Hds & Hm); [apply Hp|]. unfold Conv.conv. rewrite Hds. cbn [mbind outcome_bind].
  destruct (hostdevs_told (InstanceProperties.HostDeviceGetList [] p)) as [hs ->].
  { unfold InstanceProperties.HostDeviceGetList, HostDevicePool.Values. cbn [omap list_omap].
    intros d (d0 & -> & Hd)%list_elem_of_fmap. apply (PoolFacts.Values_ok HostDeviceFacts.ok) in Hd as [k [(a & Ha & _)]]; [|apply Hp].
    cbn. rewrite Ha. by eexists. }
  cbn [mbind outcome_bind]. eexists. split; [reflexivity|]. exact Hm.
Qed.

Lemma Values_same {V} (Pk : string → V → Prop) (p p' : Pool.t V) : Pool.wf Pk p → Pool.wf Pk p' →
  Pool.entries p' = Pool.entries p → Pool.Values p' [] = Pool.Values p [].
Proof. intros Hp Hp' E. by rewrite (PoolFacts.Values_entries Pk p' Hp'), (PoolFacts.Values_entries Pk p Hp), E. Qed.

(** Reading the configuration back and changing its disks changes nothing else. *)
Lemma conv_changed p ds p' m m' : Conf.wf p → Conf.wf p' → JsonFacts.same (InstanceProperties.set_Disks ds p) p' →
  Conv.conv p = Ret m → Conv.conv p' = Ret m' → m' = with_Storage (MachineOpts.Storage m') m.
Proof.
  intros Hp Hp' [S1 S2 S3 S4 S5 S6 S7 S8 S9 S10 S11 S12].
  cbn [InstanceProperties.set_Disks InstanceProperties.MachineType_ InstanceProperties.Firmware_ InstanceProperties.Memory_
    InstanceProperties.CPU InstanceProperties.InputDevices InstanceProperties.Cdroms InstanceProperties.NetIfaces
    InstanceProperties.VSockDevice InstanceProperties.CloudInitDrive_ InstanceProperties.Kernel InstanceProperties.HostDevices] in *.
  assert (InstanceProperties.HostDeviceGetList [] p' = InstanceProperties.HostDeviceGetList [] p) as Hh.
  { unfold InstanceProperties.HostDeviceGetList, HostDevicePool.Values.
    by rewrite (Values_same HostDeviceFacts.ok (InstanceProperties.HostDevices p)) by (done || apply Hp || apply Hp'). }
  assert (InstanceProperties.CdromGetList [] p' = InstanceProperties.CdromGetList [] p) as Hc.
  { unfold InstanceProperties.CdromGetList, CdromPool.Values.
    by rewrite (Values_same CdromFacts.ok (InstanceProperties.Cdroms p)) by (done || apply Hp || apply Hp'). }
  assert (InstanceProperties.NetIfaceGetList [] p' = InstanceProperties.NetIfaceGetList [] p) as Hn.
  { unfold InstanceProperties.NetIfaceGetList, NetIfacePool.Values.
    by rewrite (Values_same NetIfaceFacts.ok (InstanceProperties.NetIfaces p)) by (done || apply Hp || apply Hp'). }
  assert (InstanceProperties.InputDeviceGetList [] p' = InstanceProperties.InputDeviceGetList [] p) as Hi.
  { unfold InstanceProperties.InputDeviceGetList, InputDevicePool.Values.
    by rewrite (Values_same PeripheralFacts.input_ok (InstanceProperties.InputDevices p)) by (done || apply Hp || apply Hp'). }
  unfold Conv.conv. rewrite Hh, Hc, Hn, Hi.
  intros (ds1 & _ & (hs & Hhs & [= <-])%outcome_bind_Ret)%outcome_bind_Ret.
  intros (ds2 & _ & (hs' & Hhs' & [= <-])%outcome_bind_Ret)%outcome_bind_Ret.
  rewrite Hhs in Hhs'. injection Hhs' as <-. unfold with_Storage. cbn.
  unfold InstanceProperties.MachineTypeGet, InstanceProperties.MemoryGetActual, InstanceProperties.MemoryGetTotal,
    InstanceProperties.CPUGetActual, InstanceProperties.CPUGetTotal, InstanceProperties.CPUGetSockets, InstanceProperties.CPUGetModel,
    InstanceProperties.CPUGetQuota, InstanceProperties.KernelGetImage, InstanceProperties.KernelGetInitrd,
    InstanceProperties.KernelGetModiso, InstanceProperties.KernelGetCmdline, InstanceProperties.FirmwareGetImage,
    InstanceProperties.FirmwareGetFlash, InstanceProperties.VSockDeviceGet, InstanceProperties.CloudInitGetDrive.
  by rewrite S1, S2, S3, S4, S9, S10, S11.
Qed.

Lemma entries_update {V} k (f : V → V) (p : Pool.t V) :
  Pool.entries (Pool.update k f p) = (λ kv, (kv.1, if decide (kv.1 = k) then f kv.2 else kv.2)) <$> Pool.entries p.
Proof.
  unfold Pool.entries. change (Pool.keys (Pool.update k f p)) with (Pool.keys p).
  induction (Pool.keys p) as [|k' ks IH]; [done|]. csimpl. rewrite IH, PoolFacts.lookup_update.
  destruct (Pool.lookup k' p) as [v|] eqn:E; cbn; [|by case_decide].
  destruct (decide (k = k')) as [->|Hn]; cbn; [by rewrite decide_True|by rewrite decide_False by congruence].
Qed.
Lemma change_one {V} (k : string) (f : V → V) l i v : NoDup l.*1 → l !! i = Some (k, v) →
  (λ kv, (kv.1, if decide (kv.1 = k) then f kv.2 else kv.2)) <$> l = <[i := (k, f v)]> l.
Proof.
  revert i. induction l as [|[k' v'] l IH]; intros i; [done|]. cbn. intros [Hk Hl]%NoDup_cons.
  destruct i as [|i]; cbn.
  - intros [= -> ->]. rewrite decide_True by done. f_equal. clear IH Hl. induction l as [|[k' v'] l IH]; [done|]. cbn in *.
    apply not_elem_of_cons in Hk as [? ?]. rewrite decide_False by done. f_equal. by apply IH.
  - intros Hi. assert (k ∈ l.*1) by (apply list_elem_of_fmap; exists (k, v); split; [done|]; by eapply list_elem_of_lookup_2).
    rewrite decide_False by congruence. f_equal. by apply IH.
Qed.
Lemma entries_lookup {V} Pk (ds : Pool.t V) k d : Pool.wf Pk ds →
  (k, d) ∈ Pool.entries ds ↔ Pool.lookup k ds = Some d.
Proof.
  intros Hp. unfold Pool.entries. rewrite list_elem_of_omap. split.
  - intros (k' & _ & Hl). destruct (Pool.lookup k' ds) eqn:E; [|done]. by injection Hl as -> ->.
  - intros Hl. exists k. rewrite Hl. split; [|done]. apply Hp. by eexists.
Qed.

Lemma dashed_known n : let s := Strings.TrimSpace (Enums.dashed Enums.DiskDriver n) in
  (DriverTypeValue s : DiskDriverType) ≠ DriverType_UNKNOWN →
  driver_String (DriverTypeValue s : DiskDriverType) = Enums.dashed Enums.DiskDriver n.
Proof.
  intros s. destruct (decide (0 ≤ n < 4)) as [Hn|Hn].
  - assert (n = 0 ∨ n = 1 ∨ n = 2 ∨ n = 3) as [-> |[-> |[-> | ->]]] by lia; subst s; by vm_compute.
  - subst s. rewrite EnumFacts.dashed_unnamed by done.
    rewrite TrimSpace_lower by (eapply Forall_impl; [apply EnumFacts.Itoa_lower|]; by intros ? []).
    intros Hu. destruct Hu. cbn [DriverTypeValue DiskDriverType_driver]. unfold DiskDriver.Value.
    rewrite EnumFacts.ToLower_Itoa. repeat rewrite (bool_decide_eq_false_2 (Strconv.Itoa n = _)) by (by apply EnumFacts.Itoa_not_name). done.
Qed.
Lemma uint32_small n : 0 ≤ n < 2 ^ 32 → Enums.uint32 n = n.
Proof. apply Z.mod_small. Qed.

(** The disk that is shown of new options, or of an old disk with new limits. *)
Lemma shown_new o be : 0 ≤ Disk.IopsRd o < 2 ^ 32 → 0 ≤ Disk.IopsWr o < 2 ^ 32 →
  let d := Conv.disk (Disk.Copy (new_disk o be)) in
  MachineOpts.d_IopsRd d = Disk.IopsRd o ∧ MachineOpts.d_IopsWr d = Disk.IopsWr o ∧ MachineOpts.d_Path d = Disk.Path o ∧
  MachineOpts.d_Driver d = driver_String (DriverTypeValue (Disk.Driver o) : DiskDriverType).
Proof. intros ? ?. cbn. by rewrite !uint32_small. Qed.
Definition limits (o : Disk.Properties) (d : Disk.t) : Disk.t := Disk.set_IopsWr (Disk.IopsWr o) (Disk.set_IopsRd (Disk.IopsRd o) d).
Lemma shown_limits o d0 : 0 ≤ Disk.IopsRd o < 2 ^ 32 → 0 ≤ Disk.IopsWr o < 2 ^ 32 →
  let d := Conv.disk (Disk.Copy (limits o d0)) in let d0 := Conv.disk (Disk.Copy d0) in
  MachineOpts.d_IopsRd d = Disk.IopsRd o ∧ MachineOpts.d_IopsWr d = Disk.IopsWr o ∧
  MachineOpts.d_Path d = MachineOpts.d_Path d0 ∧ MachineOpts.d_Driver d = MachineOpts.d_Driver d0.
Proof. intros ? ?. cbn. by rewrite !uint32_small. Qed.
Lemma entries_limited o be ds i d0 : Pool.wf DiskFacts.ok ds → Pool.entries ds !! i = Some (BaseName be, d0) →
  Pool.entries (limited o be ds) = <[i := (BaseName be, limits o d0)]> (Pool.entries ds).
Proof.
  intros Hp Hi. assert (NoDup (Pool.entries ds).*1) as Hnd by (rewrite (PoolFacts.entries_keys DiskFacts.ok) by done; apply Hp).
  unfold limited. rewrite !entries_update. rewrite (change_one _ _ (Pool.entries ds) i d0) by done.
  rewrite (change_one _ _ _ i (Disk.set_IopsRd (Disk.IopsRd o) d0)).
  - by rewrite list_insert_insert_eq.
  - rewrite list_fmap_insert, list_insert_id; [exact Hnd|]. rewrite list_lookup_fmap, Hi. reflexivity.
  - rewrite list_lookup_insert_eq; [done|]. by eapply lookup_lt_Some.
Qed.
End told.

(** The texts of a pool are those of its values; of a disk, its path, its driver
    and its address. *)
Lemma plain_pool {V} Pk (enc : V → json) (ds : Pool.t V) : Pool.wf Pk ds →
  Json.plain_text (enc_pool enc ds) ↔ Forall (λ kv, Json.plain_text (enc kv.2)) (Pool.entries ds).
Proof.
  intros Hp. unfold enc_pool, Pool.MarshalJSON. change (Pool.values ?q []) with (Pool.Values q []).
  rewrite (PoolFacts.Values_entries Pk) by done. rewrite Json.plain_array.
  generalize (Pool.entries ds) as l. intros l. induction l as [|kv l IH]; [done|]. csimpl. by rewrite !Forall_cons, IH.
Qed.
Lemma plain_disk d : Json.plain_text (enc_disk d) ↔
  Json.utf8 (Disk.Path (Disk.props d)) ∧ Json.utf8 (Disk.Driver (Disk.props d)) ∧ Json.utf8 (Disk.QemuAddr d).
Proof.
  unfold enc_disk. rewrite Json.plain_struct, !Forall_cons, Forall_nil.
  pose proof (Json.plain_opt_int "bootindex" (Disk.Bootindex (Disk.props d)) eq_refl) as Hb.
  assert (Json.plain_field (Json.opt_string "addr" (Disk.QemuAddr d)) ↔ Json.utf8 (Disk.QemuAddr d)) as ->.
  { unfold Json.opt_string. case_bool_decide as E; [by rewrite E|]. cbn [Json.plain_field]. rewrite Json.plain_string.
    split; [by intros []|by split]. }
  cbn [Json.plain_field Json.field]. rewrite !Json.plain_string. split; [naive_solver|]. intros (? & ? & ?). by split_and!.
Qed.
Lemma plain_conf `{Env} p ds : Pool.wf DiskFacts.ok (InstanceProperties.Disks p) → Pool.wf DiskFacts.ok ds →
  Json.plain_text (conf_json p) → Forall (λ kv, Json.plain_text (enc_disk kv.2)) (Pool.entries ds) →
  Json.plain_text (conf_json (InstanceProperties.set_Disks ds p)).
Proof.
  intros Hp Hds. unfold conf_json. rewrite !Json.plain_struct, !Forall_cons. intros (H1 & H2 & H3 & H4 & H5 & H6 & _ & Hr) Hf.
  do 6 (split; [done|]). split; [|done]. split; [done|]. by apply (plain_pool DiskFacts.ok).
Qed.

Lemma Forall_insert_at {A} (P : A → Prop) i x l : P x → Forall P l → Forall P (insert_at i x l).
Proof. intros Hx Hl. apply Forall_app. split; [by apply Forall_take|]. constructor; [done|by apply Forall_drop]. Qed.
Lemma attached_all `{Env} o be position ds ds' (Q : Disk.t → Prop) : Pool.wf DiskFacts.ok ds →
  attached o be position ds ds' → Forall (λ kv, Q kv.2) (Pool.entries ds) → Q (new_disk o be) →
  (∀ d, Q d → Q (limits o d)) → Forall (λ kv, Q kv.2) (Pool.entries ds').
Proof.
  intros Hp Ha Hf Hn Hl. destruct Ha as [->|[_ ->]]; [by apply Forall_insert_at|].
  unfold limited. rewrite !entries_update, <- list_fmap_compose, Forall_fmap. eapply Forall_impl; [exact Hf|].
  intros [k d] Hd. cbn in *. by case_decide; [apply Hl|].
Qed.

Lemma fits_attached `{Env} o be position (p : InstanceProperties.t) ds' : Conf.wf p → Conf.wf (InstanceProperties.set_Disks ds' p) →
  JsonFacts.fits p → attached o be position (InstanceProperties.Disks p) ds' →
  is_int (Disk.IopsRd o) = true → is_int (Disk.IopsWr o) = true → is_int (Disk.Bootindex o) = true →
  Json.utf8 (Disk.Path o) → Json.utf8 (Disk.Driver o) →
  JsonFacts.fits (InstanceProperties.set_Disks ds' p).
Proof.
  intros Hp Hp' Hf Ha Hr Hw Hb Hup Hud. destruct Hf as [Hm Hc Hd ? ? ? Ht].
  assert (Pool.wf DiskFacts.ok (InstanceProperties.Disks p)) as Hwd by apply Hp.
  assert (Pool.wf DiskFacts.ok ds') as Hwd' by apply Hp'. split; try done.
  - set (Q d := let p := Disk.props d in
      is_int (Disk.IopsRd p) = true ∧ is_int (Disk.IopsWr p) = true ∧ is_int (Disk.Bootindex p) = true).
    assert (Forall (λ kv, Q kv.2) (Pool.entries ds')) as HQ.
    { eapply attached_all; [exact Hwd|exact Ha| |by split_and!|].
      - apply Forall_forall. intros [k d] Hin%(entries_lookup DiskFacts.ok); [|done]. exact (Hd k d Hin).
      - intros d (_ & _ & ?). by split_and!. }
    intros k d Hl. cbn in Hl. apply (entries_lookup DiskFacts.ok) in Hl; [|done].
    exact (proj1 (Forall_forall _ _) HQ (k, d) Hl).
  - apply plain_conf; try done. eapply (attached_all _ _ _ _ _ (λ d, Json.plain_text (enc_disk d))); [exact Hwd|exact Ha| | |].
    + unfold conf_json in Ht. rewrite !Json.plain_struct, !Forall_cons in Ht. destruct Ht as (_ & _ & _ & _ & _ & _ & [_ Ht] & _).
      by apply (plain_pool DiskFacts.ok).
    + by apply plain_disk.
    + intros d. rewrite !plain_disk. done.
Qed.

(** A machine whose configuration is in its file. *)
Record at_hand `{Env} (users : string → sys string) (n : string) (fs : files) (c : InstanceConf.InstanceConf) : Prop := {
  hand_loads : GetInstanceConf users fs n = Ret c;
  hand_wf : Conf.wf (InstanceConf.props c);
  hand_fits : JsonFacts.fits (InstanceConf.props c);
  hand_name : InstanceProperties.name (InstanceConf.props c) = n ∧ InstanceConf.confname c = "config" ∧ ValidateMachineName n = Ret ();
  hand_type : let t := InstanceProperties.MachineType_ (InstanceConf.props c) in Strings.TrimSpace (Strings.ToLower t) = t;
  hand_uid : ∃ u uid, users n = inl u ∧ Strconv.Atoi u = Ret uid;
}.

Section api.
Context {P : Type} `{Env} {hst : Host} `{PciBus, Runtime P} (e : circumstances).
Import MachineService MachineOpts.

(** What success says of the request, and of its options. *)
Lemma attach_answered req (w w' : world P) : the_write e = Written →
  answered e (DiskAttach req) w = (Ret (OK, Some ()), w') →
  ∃ o, Disk.Validate true (optsFromDiskAttachRequest req) = Ret o ∧
    Server.DiskAttach (the_users e) (the_rand e) Written (the_refusal e) (da_Name req) (Some (optsFromDiskAttachRequest req))
      (da_Position req) (da_Live req) w = (Ret (), w').
Proof.
  intros Hw Ha. unfold answered, handle in Ha. cbn [forwarded Handlers.DiskAttach serve] in Ha. rewrite Hw in Ha.
  destruct (Server.DiskAttach _ _ _ _ _ _ _ _ w) as [[[]|er|q] w1] eqn:Hh; cbn in Ha; [|done..]. injection Ha as <-.
  destruct (Disk.Validate true (optsFromDiskAttachRequest req)) as [o| |] eqn:Ho; [by exists o|..].
  all: unfold Server.DiskAttach in Hh; rewrite Ho in Hh; done.
Qed.
Lemma request_options req o : Disk.Validate true (optsFromDiskAttachRequest req) = Ret o →
  Disk.Path o = Strings.TrimSpace (da_DiskPath req) ∧ Disk.IopsRd o = da_IopsRd req ∧ Disk.IopsWr o = da_IopsWr req ∧
  Disk.Bootindex o = da_Bootindex req ∧ Disk.Driver o = Strings.TrimSpace (Enums.dashed Enums.DiskDriver (da_Driver req)) ∧
  (DriverTypeValue (Disk.Driver o) : DiskDriverType) ≠ DriverType_UNKNOWN.
Proof.
  intros Ho. destruct (DiskFacts.disk_Validate_ok _ _ _ Ho) as (_ & Hpath & Hdrv). split; [done|].
  specialize (Hdrv eq_refl). revert Ho. unfold Disk.Validate. case_bool_decide; [done|]. intros (drv & Hd & Ho)%outcome_bind_Ret.
  apply validate_driver_strict in Hd as [-> _]. destruct (_ || _); [done|]. destruct (_ <? 0); [done|].
  injection Ho as <-. by split_and!.
Qed.
Lemma utf8_driver n : let s := Strings.TrimSpace (Enums.dashed Enums.DiskDriver n) in
  Json.utf8 s.
Proof.
  intros s. destruct (decide (0 ≤ n < 4)) as [Hn|Hn].
  - assert (n = 0 ∨ n = 1 ∨ n = 2 ∨ n = 3) as [-> |[-> |[-> | ->]]] by lia; subst s; by vm_compute.
  - subst s. rewrite EnumFacts.dashed_unnamed by done.
    rewrite TrimSpace_lower by (eapply Forall_impl; [apply EnumFacts.Itoa_lower|]; by intros ? []).
    apply Json.utf8_ascii. eapply Forall_impl; [apply EnumFacts.Itoa_decimal|]. by intros [[] [] [] [] [] [] [] []].
Qed.

(** A configuration that was stored with other disks is at hand. *)
Lemma attach_loads users n (f : files) c (p := InstanceConf.props c) ds' fs' u uid :
  Conf.wf p → Conf.wf (InstanceProperties.set_Disks ds' p) → JsonFacts.fits (InstanceProperties.set_Disks ds' p) →
  InstanceProperties.name p = n → InstanceConf.confname c = "config" → ValidateMachineName n = Ret () →
  (let t := InstanceProperties.MachineType_ p in Strings.TrimSpace (Strings.ToLower t) = t) →
  users n = inl u → Strconv.Atoi u = Ret uid →
  fs' = <[InstanceConf.config c := Some (enc_conf (InstanceProperties.set_Disks ds' p))]> f →
  ∃ c', at_hand users n fs' c' ∧ JsonFacts.same (InstanceProperties.set_Disks ds' p) (InstanceConf.props c').
Proof.
  intros Hwf Hwf' Hfit Hn Hcn Hvn Ht Hu Huid Hfs. set (p' := InstanceProperties.set_Disks ds' p).
  destruct (JsonFacts.load_saved users fs' p' u uid) as (c' & Hg' & Hs & Hwf2 & Hn' & Hu' & Hc'); try done.
  { cbn. by rewrite Hn. }
  { rewrite Hfs. replace (InstanceConf.config (InstanceConf.newInstanceConf _)) with (InstanceConf.config c)
      by (unfold InstanceConf.config; by rewrite Hcn). apply lookup_insert_eq. }
  { cbn. by rewrite Hn. }
  exists c'. split; [|done]. cbn in Hn', Hg'. rewrite Hn in Hn', Hg'. split; try done.
  - by apply (MigrationFacts.fits_same p').
  - by rewrite (JsonFacts.same_machine _ _ Hs).
  - by exists u, uid.
Qed.

(** C6: once the attachment of a disk has been answered with success, what is told
    of the stored configuration of the machine is what was told before and, at
    the position asked for, the disk of the request, under its path, with the
    driver and the limits asked for; or, when a disk of that name was there,
    that disk with these limits.  Nothing else that is told has changed. *)
Theorem disk_told req be c (w w' : world P) :
  the_write e = Written → at_hand (the_users e) (da_Name req) (fs w) c →
  NewDiskBackend (Strings.TrimSpace (da_DiskPath req)) = Ret be → Json.utf8 (Strings.TrimSpace (da_DiskPath req)) →
  0 ≤ da_IopsRd req < 2 ^ 32 → 0 ≤ da_IopsWr req < 2 ^ 32 → - 2 ^ 31 ≤ da_Bootindex req < 2 ^ 31 →
  answered e (DiskAttach req) w = (Ret (OK, Some ()), w') →
  ∃ c' m0 m d, at_hand (the_users e) (da_Name req) (fs w') c' ∧
    Conv.conv (InstanceConf.props c) = Ret m0 ∧ Conv.conv (InstanceConf.props c') = Ret m ∧
    m = with_Storage (Storage m) m0 ∧
    d_IopsRd d = da_IopsRd req ∧ d_IopsWr d = da_IopsWr req ∧
    (Storage m = insert_at (place (da_Position req) (length (Storage m0))) d (Storage m0) ∧
       d_Path d = Strings.TrimSpace (da_DiskPath req) ∧ d_Driver d = Enums.dashed Enums.DiskDriver (da_Driver req) ∨
     ∃ i d0, Storage m0 !! i = Some d0 ∧ Storage m = <[i := d]> (Storage m0) ∧ d_Path d = d_Path d0 ∧ d_Driver d = d_Driver d0).
Proof.
  intros Hw [Hg Hwf Hfit (Hn & Hcn & Hvn) Ht (u & uid & Hu & Huid)] Hb Hutf Hr Hwr Hbi Ha.
  apply attach_answered in Ha as (o & Ho & Hh); [|done]. cbn [fs] in Hh.
  destruct (request_options _ _ Ho) as (Hpath & Er & Ew & Eb & Ed & Hdrv).
  assert (Disk.Validate true o = Ret o) as Hv by (by eapply disk_Validate_again).
  rewrite <- Hpath in Hb, Hutf.
  destruct (attach_stored _ _ _ o be Hv Hb _ _ _ _ w w' c () Hg Hwf Ho Hh) as (ds' & Hatt & Hwf' & Hfs).
  destruct (λ Hf, attach_loads (the_users e) (da_Name req) (fs w) c ds' (fs w') u uid Hwf Hwf' Hf Hn Hcn Hvn Ht Hu Huid Hfs)
    as (c' & Hhand & Hs).
  { eapply fits_attached; try done; [unfold is_int, int_min, int_max; lia..|]. rewrite Ed. apply utf8_driver. }
  assert (Conf.wf (InstanceConf.props c')) as Hwf2 by apply Hhand.
  destruct (conv_told (InstanceConf.props c) Hwf) as (m0 & Em0 & Es0). destruct (conv_told (InstanceConf.props c') Hwf2) as (m & Em & Es).
  pose proof (conv_changed _ _ _ _ _ Hwf Hwf2 Hs Em0 Em) as Hrest.
  rewrite (JsonFacts.same_disks _ _ Hs) in Es. cbn [InstanceProperties.Disks InstanceProperties.set_Disks] in Es.
  exists c', m0, m. rewrite <- Er, <- Ew. clear Hh Hfs Hs.
  destruct Hatt as [Hentries|[[d0 Hl] Hlim]].
  - destruct (shown_new o be) as (S1 & S2 & S3 & S4); [lia..|]. exists (Conv.disk (Disk.Copy (new_disk o be))).
    rewrite Hpath in S3. split_and!; [done..|]. left. split_and!; [|done|].
    + rewrite Es, Hentries, fmap_insert_at, Es0, length_fmap. done.
    + rewrite S4, Ed. apply dashed_known. by rewrite <- Ed.
  - destruct (shown_limits o d0) as (S1 & S2 & S3 & S4); [lia..|]. exists (Conv.disk (Disk.Copy (limits o d0))).
    split_and!; [done..|]. right.
    apply (entries_lookup DiskFacts.ok) in Hl; [|apply Hwf]. apply list_elem_of_lookup_1 in Hl as [i Hi].
    exists i, (Conv.disk (Disk.Copy d0)). split_and!; [by rewrite Es0, list_lookup_fmap, Hi| |done|done].
    rewrite Es, Hlim, (entries_limited o be _ i d0), list_fmap_insert, Es0; [done|apply Hwf|done].
Qed.
End api.
End DiskTold.

(** ** A machine made like another one *)

Module OptionsFacts.
Import Conv MachineOpts.

Section options.
Context `{Env}.
Abbreviation conf := InstanceProperties.t.

(** Appending devices, whose errors are not looked at, never panics. *)
Definition calm_on (I : conf → Prop) (m : op conf ()) : Prop := ∀ p, I p → I (m p).2 ∧ ∀ q, (m p).1 ≠ Panic q.
Lemma calm_bind I m k : calm_on I m → (∀ u, calm_on I (k u)) → calm_on I (m ≫= k).
Proof.
  intros Hm Hk p Hp. go_unfold. destruct (Hm p Hp) as [Hi Hq]. destruct (m p) as [[u|e|q] p1]; cbn in *; [by apply Hk|by split|].
  by destruct (Hq q).
Qed.
Lemma calm_each {A} I (add : A → op conf ()) l : (∀ a, calm_on I (add a)) → calm_on I (each add l).
Proof.
  intros Ha. induction l as [|a l IH]; [by intros p Hp|]. apply calm_bind; [|by intros _].
  intros p Hp. destruct (Ha a p Hp) as [Hi Hq]. unfold Server.ignored, Server.unless.
  destruct (add a p) as [[u|e|q] p1]; cbn in *; [by split..|by destruct (Hq q)].
Qed.
Lemma calm_zoom {T} I (get : conf → T) set (m : op T ()) :
  (∀ t p, I p → I (set t p)) → (∀ t q, (m t).1 ≠ Panic q) → calm_on I (zoom get set m).
Proof. intros Hs Hq p Hp. unfold zoom. specialize (Hq (get p)). destruct (m (get p)) as [r t]. split; [by apply Hs|done]. Qed.

(** What no device changes. *)
Definition rest (m : Memory.t) (c : VirtCPU.t) (k : ExtKernel.t) (h : Pool.t HostDevice.t) (p : conf) : Prop :=
  InstanceProperties.Memory_ p = m ∧ InstanceProperties.CPU p = c ∧ InstanceProperties.Kernel p = k ∧ InstanceProperties.HostDevices p = h.
Lemma calm_devices o m c k h : calm_on (rest m c k h) (append_devices o).
Proof.
  unfold append_devices. cbv zeta. repeat (apply calm_bind; [apply calm_each; intros v|intros _]); [..|apply calm_each; intros v].
  1-4: apply calm_zoom; [done|]; intros t q.
  - apply PoolFacts.Append_panic.
  - unfold CdromPool.Append. apply PoolFacts.Append_panic.
  - unfold DiskPool.Append. apply PoolFacts.Append_panic.
  - unfold NetIfacePool.Append. apply PoolFacts.Append_panic.
  - intros p Hp. unfold zoom. cbn. destruct p. by split.
Qed.

Lemma cpu_eta c : {| VirtCPU.Actual := VirtCPU.Actual c; VirtCPU.Total := VirtCPU.Total c; VirtCPU.Sockets := VirtCPU.Sockets c;
  VirtCPU.Quota := VirtCPU.Quota c; VirtCPU.Model := VirtCPU.Model c |} = c.
Proof. by destruct c. Qed.

(** A new machine with the options that are told of another has its memory, its
    vCPUs and its kernel, but none of its host devices. *)
Theorem options_told p m : let c := InstanceProperties.CPU p in let k := InstanceProperties.Memory_ p in
  Forall (λ n, 0 ≤ n < 2 ^ 32) [Memory.Actual k; Memory.Total k; VirtCPU.Actual c; VirtCPU.Total c; VirtCPU.Sockets c; VirtCPU.Quota c] →
  conv p = Ret m →
  ∃ p', propertiesFromMachineOpts (Some m) = Ret p' ∧ InstanceProperties.Memory_ p' = k ∧ InstanceProperties.CPU p' = c ∧
    (ExtKernel.Image (InstanceProperties.Kernel p) ≠ "" → InstanceProperties.Kernel p' = InstanceProperties.Kernel p) ∧
    InstanceProperties.HostDevices p' = Pool.zero.
Proof.
  intros c k Hf Hm. unfold conv in Hm. apply outcome_bind_Ret in Hm as (ds & _ & Hm). apply outcome_bind_Ret in Hm as (hs & _ & [= Hm]).
  assert (InstanceProperties.Memory_ (plain m) = k ∧ InstanceProperties.CPU (plain m) = c ∧
    (ExtKernel.Image (InstanceProperties.Kernel p) ≠ "" → InstanceProperties.Kernel (plain m) = InstanceProperties.Kernel p) ∧
    InstanceProperties.HostDevices (plain m) = Pool.zero) as (P1 & P2 & P3 & P4).
  { repeat (apply Forall_cons in Hf as [? Hf]). subst m. unfold plain. cbn. case_bool_decide as Hk; cbn.
    all: unfold InstanceProperties.MemoryGetActual, InstanceProperties.MemoryGetTotal, InstanceProperties.CPUGetActual,
      InstanceProperties.CPUGetTotal, InstanceProperties.CPUGetSockets, InstanceProperties.CPUGetQuota, Enums.uint32.
    all: fold c k; rewrite !Z.mod_small by done; split_and!; [by destruct k|by apply cpu_eta|intros Hi|done].
    - by destruct (Hi Hk).
    - unfold InstanceProperties.KernelGetImage, InstanceProperties.KernelGetCmdline, InstanceProperties.KernelGetInitrd,
        InstanceProperties.KernelGetModiso. by destruct (InstanceProperties.Kernel p). }
  unfold propertiesFromMachineOpts.
  destruct (calm_devices m k c (InstanceProperties.Kernel (plain m)) Pool.zero (plain m)) as [Hr Hq]; [by split_and!|].
  destruct (append_devices m (plain m)) as [[u|er|q] p'] eqn:E; cbn in Hr, Hq; [| |by destruct (Hq q)]; destruct Hr as (R1 & R2 & R3 & R4);
    (exists p'; split_and!; [done..|intros Hk; rewrite R3; by apply P3|done]).
Qed.
End options.
End OptionsFacts.

(** ** Two requests *)

Module ApiExample.
Import Server ConfJson ServerTheorems MachineService DiskTold MissingFacts.
#[local] Existing Instances sample_env sample_host no_devices sample_runtime.

Example missing_answered_witness : (answered calm (MemorySetLimits "vm2" 512 1024 false) idle).2 = idle.
Proof. apply (missing_answered calm (MemorySetLimits "vm2" 512 1024 false) idle). vm_compute. reflexivity. Defined.

Definition data_disk : DiskAttachRequest :=
  {| da_Name := "vm1"; da_DiskPath := " /dev/lvm/data "; da_Driver := 2; da_IopsRd := 100; da_IopsWr := 200; da_Bootindex := 0;
     da_Position := 0; da_Live := false |}.
Lemma fits_set_uid u p : JsonFacts.fits p → JsonFacts.fits (InstanceProperties.set_uid u p).
Proof. intros []. by split. Qed.
Lemma loaded_fits : JsonFacts.fits (InstanceConf.props loaded).
Proof. exact (fits_set_uid 1001 sample_conf sample_conf_fits). Qed.
Lemma vm1_at_hand : at_hand (the_users calm) "vm1" (fs idle) loaded.
Proof.
  split; [exact sample_loads|exact loaded_wf|exact loaded_fits|split; [reflexivity|split; reflexivity]|vm_compute; reflexivity|].
  exists "1001", 1001. by split.
Qed.
Example disk_told_witness : ∃ w', answered calm (DiskAttach data_disk) idle = (Ret (OK, Some ()), w') ∧
  ∃ c', at_hand (the_users calm) "vm1" (fs w') c'.
Proof.
  destruct (answered calm (DiskAttach data_disk) idle) as [r w'] eqn:E.
  assert (r = Ret (OK, Some ())) as Hr by (vm_compute in E; congruence). exists w'. rewrite Hr. split; [reflexivity|].
  destruct (NewDiskBackend (Strings.TrimSpace (da_DiskPath data_disk))) as [be| |] eqn:Hb; [|vm_compute in Hb; discriminate..].
  rewrite Hr in E.
  destruct (disk_told calm data_disk be loaded idle w') as (c' & m0 & m & d & Hc & _).
  - reflexivity.
  - exact vm1_at_hand.
  - exact Hb.
  - reflexivity.
  - split; [discriminate|reflexivity].
  - split; [discriminate|reflexivity].
  - split; [discriminate|reflexivity].
  - exact E.
  - exists c'. exact Hc.
Defined.
End ApiExample.
