(* ===== verification/Flags.v ===== *)
(** Flags: the values of the command line ([client/flag_types/*.go]).  [Set_] is
    called once for each time a flag is written, on the value the flag has by then;
    [Get] is what a command is told. *)

From S2P Require Import Prelude.
From S2P Require Import GoStd.
From S2P Require Import GoFacts.
From S2P Require Import PciAddress.
From S2P Require Import Drivers.
From S2P Require Import Network.
From S2P Require Import Api.

Open Scope Z_scope.
#[local] Set Warnings "-register-all".

(** ** Of the standard library *)

Module Upper.
Definition upper_byte (a : ascii) : ascii :=
  let n := N_of_ascii a in
  if ((97 <=? n) && (n <=? 122))%N then char (n - 32) else a.
(** [strings.ToUpper] on ASCII letters and on the two other runes whose upper case
    is one (U+0131 and U+017F); exact wherever the result is compared with ASCII. *)
Fixpoint to_upper (l : list ascii) : list ascii :=
  match l with
  | [] => []
  | a :: l1 =>
      match l1 with
      | b :: l2 =>
          if bool_decide (a = char 196 ∧ b = char 177) then char 73 :: to_upper l2
          else if bool_decide (a = char 197 ∧ b = char 191) then char 83 :: to_upper l2
          else upper_byte a :: to_upper l1
      | [] => [upper_byte a]
      end
  end.
Definition ToUpper (s : string) : string := of_list (to_upper (to_list s)).
End Upper.

Module Mac.
Definition byte_of (a b : ascii) : option Z :=
  match Strconv.digit_val a, Strconv.digit_val b with
  | Some x, Some y => Some (16 * x + y)
  | _, _ => None
  end.
Fixpoint pairs (sep : ascii) (l : list ascii) : option (list Z) :=
  match l with
  | [a; b] => x ← byte_of a b; Some [x]
  | a :: b :: c :: l => if decide (c = sep) then x ← byte_of a b; r ← pairs sep l; Some (x :: r) else None
  | _ => None
  end.
Fixpoint quads (l : list ascii) : option (list Z) :=
  match l with
  | [a; b; c; d] => x ← byte_of a b; y ← byte_of c d; Some [x; y]
  | a :: b :: c :: d :: e :: l =>
      if decide (e = "."%char) then x ← byte_of a b; y ← byte_of c d; r ← quads l; Some (x :: y :: r) else None
  | _ => None
  end.
(** [net.ParseMAC]: the octets of an EUI-48, an EUI-64 or a 20-octet address. *)
Definition Parse (s : string) : option (list Z) :=
  let l := to_list s in
  let sized r := match r with
                 | Some bs => if bool_decide (length bs = 6 ∨ length bs = 8 ∨ length bs = 20)%nat then Some bs else None
                 | None => None end in
  match l !! 2%nat, l !! 4%nat with
  | Some c, Some d =>
      if bool_decide (c = ":"%char ∨ c = "-"%char) then sized (pairs c l)
      else if bool_decide (d = "."%char) then sized (quads l)
      else None
  | _, _ => None
  end.
(** [HardwareAddr.String] *)
Definition octet (b : Z) : string := Strconv.hex 2 b.
Definition String_ (hw : list Z) : string := Strings.Join (map octet hw) ":".
End Mac.

(** ** Flags whose values are enumerators of the messages *)

Module EnumFlag.
Import Strings Upper.

(** [X_value[name]] *)
Definition value_of (names : list string) (name : string) : option Z :=
  Z.of_nat ∘ fst <$> list_find (λ x, x = name) names.
(** [strings.ReplaceAll(strings.ToUpper(value), "-", "_")] *)
Definition enumerator (value : string) : string := replace "-" "_" (ToUpper value).
Definition set (names : list string) (prefix what value : string) : op Z () :=
  match value_of names (prefix +:+ enumerator value) with
  | Some v => modify (λ _, v)
  | None => throw (ErrMsg ("unknown " +:+ what +:+ ": " +:+ value))
  end.

Definition DiskDriver_Set : string → op Z () := set Enums.DiskDriver "" "disk driver name".
Definition DiskDriver_String (t : Z) : string := Enums.dashed Enums.DiskDriver t.
Definition DefaultDiskDriver : Z := 1.
Definition CdromDriver_Set : string → op Z () := set Enums.CdromDriver "" "cdrom driver name".
Definition CdromDriver_String (t : Z) : string := Enums.dashed Enums.CdromDriver t.
Definition DefaultCdromDriver : Z := 2.
Definition NetIfaceDriver_Set : string → op Z () := set Enums.NetIfaceDriver "" "net interface driver name".
Definition NetIfaceDriver_String (t : Z) : string := Enums.dashed Enums.NetIfaceDriver t.
Definition DefaultNetIfaceDriver : Z := 1.
Definition InputDeviceType_Set : string → op Z () := set Enums.InputDeviceType "" "device type".
Definition InputDeviceType_String (t : Z) : string := Enums.dashed Enums.InputDeviceType t.
Definition DefaultInputDeviceType : Z := 1.
Definition CloudInitDriver_Set : string → op Z () := set Enums.CloudInitDriver "CI_" "cloud-init driver name".
Definition CloudInitDriver_String (t : Z) : string :=
  replace "_" "-" (TrimPrefix (ToLower (Enums.to_string Enums.CloudInitDriver t)) "ci_").
Definition DefaultCloudInitDriver : Z := 1.
End EnumFlag.

(** ** The other flags *)

Module IntRange.
Import Strings.
Record t := { Min : Z; Max : Z }.
#[global] Instance t_eq_dec : EqDecision t.
Proof. solve_decision. Defined.

(** The error of a bound that is not a number is replaced. *)
Definition parseIntRange (s : string) : outcome (prod Z Z) :=
  let bounds := match cut s "-" with
                | None => n ← Strconv.Atoi s; Ret (n, n)
                | Some (l, r) => a ← Strconv.Atoi l; b ← Strconv.Atoi r; Ret (a, b)
                end in
  match bounds with
  | Ret (min, max) => if max <? min then Throw (ErrMsg ("incorrect range: " +:+ s)) else Ret (min, max)
  | Throw _ => Throw (ErrMsg ("incorrect range: " +:+ s))
  | Panic p => Panic p
  end.
(** The bounds are assigned whatever the error. *)
Definition Set_ (value : string) : op t () :=
  match parseIntRange value with
  | Ret (min, max) =>
      modify (λ _, {| Min := min; Max := max |});;
      fail_if (min =? 0) (ErrMsg "min value cannot be equal to 0");;
      fail_if (max <? min) (ErrMsg "max value cannot be less than min")
  | Throw e => modify (λ _, {| Min := 0; Max := 0 |});; throw e
  | Panic p => lift (Panic p)
  end.
Definition String_ (t : t) : string := Strconv.Itoa (Min t) +:+ "-" +:+ Strconv.Itoa (Max t).
End IntRange.

Module StringMap.
Import Strings.
(** With a separator of one byte. *)
Section map.
Context (sep : ascii).
Definition Set_ (value : string) : op (gmap string string) () :=
  match Split value sep with
  | [k; v] =>
      fail_if (bool_decide (k = "" ∨ v = ""))
        (ErrMsg ("a map value should be specified as 'valueA" +:+ String sep "valueB'"));;
      m ← get;
      fail_if (bool_decide (is_Some (m !! k))) (ErrMsg ("it's a duplicate: " +:+ value));;
      modify (<[k := v]>)
  | _ => throw (ErrMsg ("a map value should be specified as 'valueA" +:+ String sep "valueB'"))
  end.
End map.
End StringMap.

Module StringBool.
Import Strings.
Definition Set_ (s : string) : op bool () :=
  let v := ToLower (TrimSpace s) in
  if bool_decide (v ∈ ["1"; "on"; "yes"; "true"]) then modify (λ _, true)
  else if bool_decide (v ∈ ["0"; "off"; "no"; "false"]) then modify (λ _, false)
  else throw (ErrMsg ("incorrect value: " +:+ s)).
Definition String_ (t : bool) : string := if t then "on" else "off".
End StringBool.

Module NetFlags.
Import Strings Network.
Definition NetIfaceHwAddr_Set (value : string) : op (list Z) () :=
  match Mac.Parse value with
  | Some hw => modify (λ _, hw)
  | None => throw (ErrMsg ("address " +:+ value +:+ ": invalid MAC address"))
  end.
Definition NetIfaceLinkState_Set (value : string) : op Z () :=
  let v := ToLower (TrimSpace value) in
  if bool_decide (v = "up") then modify (λ _, 1)
  else if bool_decide (v = "down") then modify (λ _, 2)
  else throw (ErrMsg ("unknown link state value: " +:+ value)).
Definition NetIfaceLinkState_String (t : Z) : string := if t =? 1 then "UP" else "DOWN".
Definition NetworkSchemeType_Set (value : string) : op SchemeType () :=
  let value := TrimSpace (ToLower value) in
  let v := SchemeTypeValue value in
  if bool_decide (v = Scheme_UNKNOWN) then throw (ErrMsg ("unknown network scheme type: " +:+ value))
  else modify (λ _, v).
End NetFlags.

(** What [Get] returns: a value of an interface type, with its dynamic type. *)
Inductive any :=
  | AnyDiskDriver (n : Z) | AnyCdromDriver (n : Z) | AnyNetIfaceDriver (n : Z) | AnyCloudInitDriver (n : Z)
  | AnyInputDeviceType (n : Z) | AnyIntRange (r : IntRange.t) | AnyIntRangePointer (r : IntRange.t) | AnyHwAddr (hw : list Z)
  | AnyUint16 (n : Z) | AnyBool (b : bool) | AnySchemeType (t : Network.SchemeType) | AnyStringMap (m : gmap string string).

Module Get.
Definition CdromDriver : Z → any := AnyCdromDriver.
Definition CloudInitDriver : Z → any := AnyCloudInitDriver.
Definition DiskDriver : Z → any := AnyDiskDriver.
Definition InputDeviceType : Z → any := AnyInputDeviceType.
(** The receiver is a copy of the range. *)
Definition IntRange : IntRange.t → any := AnyIntRange.
Definition NetIfaceHwAddr : list Z → any := AnyHwAddr.
Definition NetIfaceDriver : Z → any := AnyNetIfaceDriver.
Definition NetIfaceLinkState : Z → any := AnyUint16.
Definition NetworkSchemeType : Network.SchemeType → any := AnySchemeType.
Definition StringBool : bool → any := AnyBool.
Definition StringMap : gmap string string → any := AnyStringMap.
End Get.

(** A flag that is written several times. *)
Fixpoint set_all {T} (Set_ : string → op T ()) (values : list string) : op T () :=
  match values with
  | [] => mret ()
  | v :: values => Set_ v;; set_all Set_ values
  end.

Example disk_flag_1 : map (λ s, EnumFlag.DiskDriver_Set s EnumFlag.DefaultDiskDriver) ["Scsi-Hd"; "ide_hd"; "nvme"] =
  [(Ret (), 2); (Ret (), 3); (Throw (ErrMsg "unknown disk driver name: nvme"), 1)].
Proof. reflexivity. Qed.
Example ci_flag_1 : map (λ s, EnumFlag.CloudInitDriver_Set s 1) ["floppy"; "ci-floppy"] =
  [(Ret (), 2); (Throw (ErrMsg "unknown cloud-init driver name: ci-floppy"), 1)].
Proof. reflexivity. Qed.
Example range_flag_1 : map (λ s, IntRange.Set_ s {| IntRange.Min := 128; IntRange.Max := 128 |}) ["256-512"; "7"; "0"; "5-1"; "-3"] =
  [(Ret (), {| IntRange.Min := 256; IntRange.Max := 512 |}); (Ret (), {| IntRange.Min := 7; IntRange.Max := 7 |});
   (Throw (ErrMsg "min value cannot be equal to 0"), {| IntRange.Min := 0; IntRange.Max := 0 |});
   (Throw (ErrMsg "incorrect range: 5-1"), {| IntRange.Min := 0; IntRange.Max := 0 |});
   (Throw (ErrMsg "incorrect range: -3"), {| IntRange.Min := 0; IntRange.Max := 0 |})].
Proof. reflexivity. Qed.
Example mac_flag_1 : Mac.String_ <$> Mac.Parse "5452.00AA.bb0c" = Some "54:52:00:aa:bb:0c".
Proof. reflexivity. Qed.

(** ** Which values the flags accept, and what becomes of them *)

(** ** Ranges *)

Module RangeFacts.
Import Strings IntRange.

(** A number without a minus. *)
Lemma Atoi_unsigned s n : "-"%char ∉ to_list s → Strconv.Atoi s = Ret n → 0 ≤ n ∧ is_int n = true.
Proof.
  intros Hs. unfold Strconv.Atoi. destruct s as [|a r]; [done|].
  apply not_elem_of_cons in Hs as [Ha _]. rewrite decide_False by done.
  repeat case_match; intros; simplify_eq; (split; [|done]);
    eapply (Pci.parse_digits_nonneg 10 _ 0); try eassumption; lia.
Qed.
Lemma cut_head s c h t : cut s c = Some (h, t) → c ∉ to_list h.
Proof.
  revert h t. induction s as [|a s IH]; intros h t; cbn [cut]; [done|].
  case_decide as Ha; [intros [= <- <-]; apply not_elem_of_nil|].
  destruct (cut s c) as [[h' t']|] eqn:E; [|done]. intros [= <- <-].
  apply not_elem_of_cons. split; [done|by eapply IH].
Qed.
Lemma Itoa_no_minus n : 0 ≤ n → "-"%char ∉ to_list (Strconv.Itoa n).
Proof.
  intros Hn. unfold Strconv.Itoa. destruct (Z.ltb_spec n 0); [lia|].
  apply digits_no_sep; [apply format_digits; lia|done].
Qed.
Lemma parse_range s a b : parseIntRange s = Ret (a, b) → 0 ≤ a ≤ b ∧ is_int b = true.
Proof.
  unfold parseIntRange. destruct (cut s "-") as [[l r]|] eqn:Ec; unfold mbind, outcome_bind.
  - destruct (Strconv.Atoi l) as [x| |] eqn:El; [|done..]. destruct (Strconv.Atoi r) as [y| |] eqn:Er; [|done..].
    destruct (Z.ltb_spec y x); [done|]. intros [= <- <-].
    apply Atoi_unsigned in El as [? _]; [|by eapply cut_head]. split; [lia|].
    unfold Strconv.Atoi in Er. repeat case_match; by simplify_eq.
  - destruct (Strconv.Atoi s) as [x| |] eqn:El; [|done..]. rewrite Z.ltb_irrefl. intros [= <- <-].
    apply Atoi_unsigned in El as [? ?]; [|by apply cut_None_inv]. split; [lia|done].
Qed.
Lemma range_no_panic s p : parseIntRange s ≠ Panic p.
Proof.
  assert (∀ t q, Strconv.Atoi t ≠ Panic q) as Ha.
  { intros t q. unfold Strconv.Atoi.
    match goal with |- match ?x with _ => _ end ≠ _ => destruct x as [z|] end; [by destruct (is_int z)|done]. }
  unfold parseIntRange, mbind, outcome_bind. destruct (cut s "-") as [[l r]|].
  - destruct (Strconv.Atoi l) eqn:E1; [|done|by destruct (Ha _ _ E1)].
    destruct (Strconv.Atoi r) eqn:E2; [by case_match|done|by destruct (Ha _ _ E2)].
  - destruct (Strconv.Atoi s) eqn:E1; [by case_match|done|by destruct (Ha _ _ E1)].
Qed.
Lemma range_String a b : 0 ≤ a ≤ b → is_int b = true → parseIntRange (String_ {| Min := a; Max := b |}) = Ret (a, b).
Proof.
  intros Hab Hb. unfold parseIntRange, String_. cbn [Min Max]. rewrite cut_app by (apply Itoa_no_minus; lia).
  unfold mbind, outcome_bind. rewrite !Atoi_Itoa; [|done|unfold is_int, int_min, int_max in *; lia].
  destruct (Z.ltb_spec b a); [lia|done].
Qed.

(** a range that is accepted starts at 1 or above and does not end before it starts;
    written out and read again it is the same range.  A range that is refused leaves
    the bounds 0 or what the user wrote, not the default. *)
Theorem range_flag s t r t' : Set_ s t = (r, t') →
  (r = Ret () → 1 ≤ Min t' ≤ Max t' ∧ is_int (Max t') = true ∧ ∀ u, Set_ (String_ t') u = (Ret (), t')) ∧
  (r ≠ Ret () → Min t' = 0).
Proof.
  unfold Set_. destruct (parseIntRange s) as [[a b]|e|p] eqn:E; cbn.
  - apply parse_range in E as [Hab Hb]. destruct (Z.eqb_spec a 0) as [->|Ha]; cbn; [by intros [= <- <-]|].
    destruct (Z.ltb_spec b a); [lia|]. cbn. intros [= <- <-]. split; [|done]. intros _. cbn [Min Max].
    split; [lia|split; [done|]]. intros u. rewrite range_String by (done || lia). cbn.
    destruct (Z.eqb_spec a 0); [done|]. cbn. destruct (Z.ltb_spec b a); [lia|done].
  - by intros [= <- <-].
  - by destruct (range_no_panic s p).
Qed.
Example range_flag_witness : Set_ "256-512" {| Min := 128; Max := 128 |} = (Ret (), {| Min := 256; Max := 512 |}) ∧ 1 ≤ 256 ≤ 512.
Proof.
  split; [reflexivity|].
  exact (proj1 (proj1 (range_flag "256-512" {| Min := 128; Max := 128 |} (Ret ()) {| Min := 256; Max := 512 |} eq_refl) eq_refl)).
Defined.
End RangeFacts.

(** ** Addresses of interfaces *)

Module MacFacts.
Import Mac.

Definition octets (bs : list Z) : Prop := Forall (λ b, 0 ≤ b < 256) bs.

Lemma byte_of_range a b x : byte_of a b = Some x → 0 ≤ x < 256.
Proof.
  assert (∀ c y, Strconv.digit_val c = Some y → 0 ≤ y < 16) as Hd.
  { intros c y. unfold Strconv.digit_val. repeat case_match; intros; simplify_eq; lia. }
  unfold byte_of. destruct (Strconv.digit_val a) as [u|] eqn:Ea, (Strconv.digit_val b) as [v|] eqn:Eb; try done.
  intros [= <-]. apply Hd in Ea, Eb. lia.
Qed.
Lemma hex_byte_of a b : Net.hex_byte a b = bool_decide (is_Some (byte_of a b)).
Proof. unfold Net.hex_byte, byte_of. by destruct (Strconv.digit_val a), (Strconv.digit_val b). Qed.

(** An octet is two digits. *)
Definition digits_of (b : Z) : bool :=
  match to_list (octet b) with
  | [x; y] => bool_decide (byte_of x y = Some b ∧ x ≠ ":"%char ∧ y ≠ ":"%char)
  | _ => false
  end.
Lemma octet_byte_of b : 0 ≤ b < 256 → ∃ x y, to_list (octet b) = [x; y] ∧ byte_of x y = Some b ∧ x ≠ ":"%char ∧ y ≠ ":"%char.
Proof.
  intros Hb.
  assert (forallb digits_of (map Z.of_nat (seq 0 256)) = true) as Hf by (by vm_compute).
  rewrite forallb_forall in Hf. specialize (Hf b). unfold digits_of in Hf.
  assert (In b (map Z.of_nat (seq 0 256))) as Hin by (apply in_map_iff; exists (Z.to_nat b); rewrite in_seq; lia).
  specialize (Hf Hin). destruct (to_list (octet b)) as [|x [|y [|? ?]]]; try done. exists x, y.
  split; [done|]. by apply bool_decide_eq_true in Hf.
Qed.
(** The list of an address, written out. *)
Fixpoint written (bs : list Z) : list ascii :=
  match bs with
  | [] => []
  | [b] => to_list (octet b)
  | b :: bs => to_list (octet b) ++ ":"%char :: written bs
  end.
Lemma String_written bs : to_list (String_ bs) = written bs.
Proof.
  unfold String_. induction bs as [|b [|b' bs] IH]; [done..|].
  change (Strings.Join (map octet (b :: b' :: bs)) ":") with (octet b +:+ ":" +:+ Strings.Join (map octet (b' :: bs)) ":").
  rewrite !to_list_app, IH. done.
Qed.
Lemma pairs_cons sep a b c l :
  pairs sep (a :: b :: c :: l) = if decide (c = sep) then x ← byte_of a b; r ← pairs sep l; Some (x :: r) else None.
Proof. done. Qed.
Lemma mac_pairs_cons sep a b c l :
  Net.mac_pairs sep (a :: b :: c :: l) = if Net.hex_byte a b && bool_decide (c = sep) then S <$> Net.mac_pairs sep l else None.
Proof. done. Qed.
Lemma quads_cons a b c d e l :
  quads (a :: b :: c :: d :: e :: l) =
  if decide (e = "."%char) then x ← byte_of a b; y ← byte_of c d; r ← quads l; Some (x :: y :: r) else None.
Proof. done. Qed.
Lemma mac_quads_cons a b c d e l :
  Net.mac_quads (a :: b :: c :: d :: e :: l) =
  if Net.hex_byte a b && Net.hex_byte c d && bool_decide (e = "."%char) then (λ n, S (S n)) <$> Net.mac_quads l else None.
Proof. done. Qed.
Lemma pairs_written bs : octets bs → bs ≠ [] → pairs ":" (written bs) = Some bs.
Proof.
  induction bs as [|b [|b' bs] IH]; intros Hb Hne; [done|..].
  - apply Forall_cons in Hb as [Hb _]. destruct (octet_byte_of b Hb) as (x & y & Hw & Hx & _). cbn [written].
    rewrite Hw. cbn [pairs]. by rewrite Hx.
  - apply Forall_cons in Hb as [Hb Hbs]. destruct (octet_byte_of b Hb) as (x & y & Hw & Hx & _).
    change (written (b :: b' :: bs)) with (to_list (octet b) ++ ":"%char :: written (b' :: bs)). rewrite Hw.
    specialize (IH Hbs ltac:(done)). cbn [app]. rewrite pairs_cons, decide_True, Hx, IH by done. done.
Qed.

Lemma byte_of_bytes sep l : Net.mac_pairs sep l = length <$> pairs sep l.
Proof.
  induction l as [l IH] using (induction_ltof1 _ length). unfold ltof in IH.
  destruct l as [|a [|b [|c l]]]; [done..| |].
  - cbn [Net.mac_pairs pairs]. rewrite hex_byte_of. by destruct (byte_of a b).
  - rewrite pairs_cons, mac_pairs_cons, IH, hex_byte_of by (cbn; lia).
    destruct (byte_of a b); cbn; [|by case_decide]. case_decide as Hc.
    + rewrite bool_decide_eq_true_2 by done. by destruct (pairs sep l).
    + by rewrite bool_decide_eq_false_2.
Qed.
Lemma quads_length l : Net.mac_quads l = length <$> quads l.
Proof.
  induction l as [l IH] using (induction_ltof1 _ length). unfold ltof in IH.
  destruct l as [|a [|b [|c [|d [|e l]]]]]; [done..| |].
  - cbn [Net.mac_quads quads]. rewrite !hex_byte_of. by destruct (byte_of a b), (byte_of c d).
  - rewrite quads_cons, mac_quads_cons, IH, !hex_byte_of by (cbn; lia).
    destruct (byte_of a b), (byte_of c d); cbn; try by case_decide. case_decide as Hc.
    + rewrite bool_decide_eq_true_2 by done. cbn. by destruct (quads l).
    + by rewrite bool_decide_eq_false_2.
Qed.
Lemma Parse_accepted s : Net.ParseMAC s = bool_decide (is_Some (Parse s)).
Proof.
  unfold Net.ParseMAC, Parse. destruct (to_list s !! 2%nat) as [c|], (to_list s !! 4%nat) as [d|]; try done.
  rewrite byte_of_bytes, quads_length.
  destruct (bool_decide (c = ":"%char ∨ c = "-"%char)); [|destruct (bool_decide (d = "."%char)); [|done]].
  - destruct (pairs c (to_list s)) as [bs|]; [|done]. cbn [fmap option_fmap option_map]. by destruct (bool_decide (_ ∨ _)).
  - destruct (quads (to_list s)) as [bs|]; [|done]. cbn [fmap option_fmap option_map]. by destruct (bool_decide (_ ∨ _)).
Qed.
Lemma pairs_octets sep l bs : pairs sep l = Some bs → octets bs.
Proof.
  revert bs. induction l as [l IH] using (induction_ltof1 _ length). unfold ltof in IH. intros bs.
  destruct l as [|a [|b [|c l]]]; [done..| |].
  - cbn [pairs]. destruct (byte_of a b) eqn:E; [|done]. intros [= <-]. constructor; [by eapply byte_of_range|constructor].
  - rewrite pairs_cons. case_decide; [|done]. destruct (byte_of a b) eqn:E; [|done]. cbn [mbind option_bind].
    destruct (pairs sep l) eqn:El; [|done]. intros [= <-]. constructor; [by eapply byte_of_range|].
    eapply (IH l); [cbn; lia|done].
Qed.
Lemma quads_octets l bs : quads l = Some bs → octets bs.
Proof.
  revert bs. induction l as [l IH] using (induction_ltof1 _ length). unfold ltof in IH. intros bs.
  destruct l as [|a [|b [|c [|d [|e l]]]]]; [done..| |].
  - cbn [quads]. destruct (byte_of a b) eqn:E, (byte_of c d) eqn:E'; try done. intros [= <-].
    repeat constructor; by eapply byte_of_range.
  - rewrite quads_cons. case_decide; [|done]. destruct (byte_of a b) eqn:E, (byte_of c d) eqn:E'; try done. cbn [mbind option_bind].
    destruct (quads l) eqn:El; [|done]. intros [= <-].
    constructor; [by eapply byte_of_range|constructor; [by eapply byte_of_range|]]. eapply (IH l); [cbn; lia|done].
Qed.
Definition sized (bs : list Z) : Prop := length bs = 6%nat ∨ length bs = 8%nat ∨ length bs = 20%nat.
Lemma Parse_octets s bs : Parse s = Some bs → octets bs ∧ sized bs.
Proof.
  unfold Parse. destruct (to_list s !! 2%nat) as [c|], (to_list s !! 4%nat) as [d|]; try done.
  destruct (bool_decide (c = _ ∨ _)); [|destruct (bool_decide (d = _)); [|done]].
  - destruct (pairs c (to_list s)) as [r|] eqn:E; [|done]. case_bool_decide; [|done]. intros [= <-].
    split; [by eapply pairs_octets|done].
  - destruct (quads (to_list s)) as [r|] eqn:E; [|done]. case_bool_decide; [|done]. intros [= <-].
    split; [by eapply quads_octets|done].
Qed.
Lemma Parse_String bs : octets bs → sized bs → Parse (String_ bs) = Some bs.
Proof.
  intros Hb Hl. unfold Parse. rewrite String_written.
  destruct bs as [|a [|b bs]]; [destruct Hl as [|[|]]; done..|].
  pose proof Hb as Hb'. apply Forall_cons in Hb' as [Ha Hb']. apply Forall_cons in Hb' as [Hb1 _].
  destruct (octet_byte_of a Ha) as (x & y & Hw & _), (octet_byte_of b Hb1) as (x' & y' & Hw' & _).
  pose proof (pairs_written (a :: b :: bs) Hb ltac:(done)) as Hp.
  destruct (written (a :: b :: bs)) as [|c0 [|c1 [|c2 [|c3 [|c4 l]]]]] eqn:E;
    change (written (a :: b :: bs)) with (to_list (octet a) ++ ":"%char :: written (b :: bs)) in E; rewrite Hw in E;
    destruct bs as [|b' bs]; cbn [written] in E; rewrite Hw' in E; cbn [app] in E; simplify_eq; cbn [lookup list_lookup].
  all: rewrite bool_decide_eq_true_2 by (by left); rewrite Hp; by rewrite bool_decide_eq_true_2.
Qed.

(** a hardware address that is accepted on the command line is written to the daemon
    as one that its own check accepts, and that reads as the same octets. *)
Theorem hwaddr_flag s hw hw0 : NetFlags.NetIfaceHwAddr_Set s hw0 = (Ret (), hw) →
  Net.ParseMAC s = true ∧ Net.ParseMAC (String_ hw) = true ∧ Parse (String_ hw) = Some hw ∧ octets hw ∧ sized hw.
Proof.
  unfold NetFlags.NetIfaceHwAddr_Set. destruct (Parse s) as [bs|] eqn:E; [|done]. intros [= <-].
  apply Parse_octets in E as Ho. destruct Ho as [Ho Hz]. rewrite !Parse_accepted, E, Parse_String by done.
  by repeat split.
Qed.
Example hwaddr_flag_witness :
  NetFlags.NetIfaceHwAddr_Set "5452.00AA.bb0c" [] = (Ret (), [84; 82; 0; 170; 187; 12]) ∧
  Net.ParseMAC (String_ [84; 82; 0; 170; 187; 12]) = true.
Proof. split; [reflexivity|]. apply (hwaddr_flag "5452.00AA.bb0c" [84; 82; 0; 170; 187; 12] []). reflexivity. Defined.
End MacFacts.

(** ** Overrides *)

Module MapFacts.
Import Strings StringMap RangeFacts.

Lemma Split_one s sep : sep ∉ to_list s → Split s sep = [s].
Proof. apply Split_none. Qed.
(** What one value does. *)
Lemma Set_run sep s m r m' : Set_ sep s m = (r, m') →
  (r = Ret () → ∃ k v, s = k +:+ (String sep v) ∧ k ≠ "" ∧ v ≠ "" ∧ (sep ∉ to_list k) ∧ (sep ∉ to_list v) ∧ m !! k = None ∧ m' = <[k := v]> m) ∧
  (r ≠ Ret () → m' = m).
Proof.
  unfold Set_. destruct (Split s sep) as [|k [|v [|? ?]]] eqn:E; try by intros [= <- <-].
  assert ((sep ∉ to_list k) ∧ (sep ∉ to_list v)) as [Hk Hv].
  { split; apply (Split_elem s); rewrite E; [left|right; left]. }
  assert (s = k +:+ (String sep v)) as Hs.
  { clear Hk Hv. revert k v E. induction s as [|a s IH]; intros k v E; cbn [Split] in E; [done|].
    case_decide as Ha.
    - injection E as <- E. subst a. destruct s as [|b s']; [by injection E as <-|].
      destruct (cut (String b s') sep) as [[h t]|] eqn:Ec.
      + apply cut_head in Ec as Hh. apply cut_Some in Ec. rewrite Ec, Split_app in E by done.
        injection E as <- E. by destruct (Split_nonempty t sep).
      + apply cut_None_inv, Split_none in Ec. rewrite Ec in E. by simplify_eq.
    - revert E. destruct (Split s sep) as [|h t] eqn:Es; [done|]. intros Hk. simplify_eq. change (String a s = String a (h +:+ String sep v)). f_equal. by apply IH. }
  cbv [mbind op_bind fail_if]. case_bool_decide as Hne; [by intros [= <- <-]|]. cbn.
  case_bool_decide as Hm; cbn; [by intros [= <- <-]|]. intros [= <- <-]. split; [|done]. intros _.
  exists k, v. apply eq_None_not_Some in Hm. apply Decidable.not_or in Hne as [? ?]. done.
Qed.
Lemma app_inj_sep (sep : ascii) k v k' v' : (sep ∉ to_list k) → (sep ∉ to_list k') →
  k +:+ (String sep v) = k' +:+ (String sep v') → k = k' ∧ v = v'.
Proof.
  intros Hk Hk' He. pose proof (cut_app k v sep Hk) as H1. pose proof (cut_app k' v' sep Hk') as H2.
  change (String sep "" +:+ v) with (String sep v) in H1. change (String sep "" +:+ v') with (String sep v') in H2.
  rewrite He in H1. rewrite H1 in H2. by simplify_eq.
Qed.

Lemma set_all_run sep vs m0 m : set_all (Set_ sep) vs m0 = (Ret (), m) →
  size m = (size m0 + length vs)%nat ∧ m0 ⊆ m ∧
  (∀ s, s ∈ vs → ∃ k v, s = k +:+ (String sep v) ∧ k ≠ "" ∧ v ≠ "" ∧ (sep ∉ to_list k) ∧ (sep ∉ to_list v) ∧ m !! k = Some v) ∧
  (∀ k v, m !! k = Some v → m0 !! k = Some v ∨ (k +:+ (String sep v)) ∈ vs).
Proof.
  revert m0. induction vs as [|s vs IH]; intros m0; cbn [set_all].
  { intros [= <-]. split_and!; [cbn; lia|done|by intros ? ?%elem_of_nil|intros; by left]. }
  intros Hr. apply op_bind_Ret in Hr as ([] & m1 & H1 & H2).
  apply Set_run in H1 as [H1 _]. destruct (H1 eq_refl) as (k & v & -> & Hk & Hv & Hsk & Hsv & Hm & ->).
  apply IH in H2 as (Hsz & Hsub & Hin & Hout). rewrite map_size_insert_None in Hsz by done.
  assert (m !! k = Some v) as Hkv by (eapply lookup_weaken; [apply lookup_insert_eq|done]).
  split_and!.
  - cbn. lia.
  - etrans; [by apply insert_subseteq|done].
  - intros s [->|Hs]%elem_of_cons; [by exists k, v|by apply Hin].
  - intros k' v' Hkv'. destruct (Hout k' v' Hkv') as [Hi|Hi]; [|right; by right].
    apply lookup_insert_Some in Hi as [[<- <-]|[_ Hi]]; [right; by left|by left].
Qed.

(** a flag of overrides that is accepted holds just the pairs that were written, as
    many as there are values: no value is lost, and no pair has a name, or a new name,
    with the separator in it.  A remote disk's address cannot be written. *)
Theorem overrides_flag sep vs m : set_all (Set_ sep) vs ∅ = (Ret (), m) →
  size m = length vs ∧
  (∀ s, s ∈ vs → ∃ k v, s = k +:+ (String sep v) ∧ m !! k = Some v) ∧
  (∀ k v, m !! k = Some v → (k +:+ (String sep v)) ∈ vs ∧ (sep ∉ to_list k) ∧ (sep ∉ to_list v)).
Proof.
  intros (Hsz & _ & Hin & Hout)%set_all_run. split_and!.
  - by rewrite Hsz, map_size_empty.
  - intros s Hs. apply Hin in Hs as (k & v & ? & _ & _ & _ & _ & ?). by exists k, v.
  - intros k v Hkv. destruct (Hout k v Hkv) as [Hn|Hs]; [by rewrite lookup_empty in Hn|]. split; [done|].
    destruct (Hin _ Hs) as (k' & v' & He & _ & _ & Hk & Hv & Hm).
    destruct (decide (sep ∈ to_list k)) as [Hc|Hc].
    { exfalso. apply Hv. clear -He Hk Hc. revert k' Hk He. induction k as [|a k IH]; intros k' Hk He; [by apply elem_of_nil in Hc|].
      destruct k' as [|b k']; cbn in He; injection He as Hab He.
      - subst. rewrite to_list_app. apply elem_of_app. right. left.
      - apply not_elem_of_cons in Hk as [Hb Hk]. apply elem_of_cons in Hc as [->|Hc]; [congruence|].
        by eapply IH. }
    apply app_inj_sep in He as [<- <-]; done.
Qed.
Definition sample_overrides : gmap string string := {["vda" := "/dev/vg/new"; "vdb" := "x"]}.
Example overrides_flag_witness :
  set_all (Set_ ":") ["vda:/dev/vg/new"; "vdb:x"] ∅ = (Ret (), sample_overrides) ∧ size sample_overrides = 2%nat.
Proof.
  assert (set_all (Set_ ":") ["vda:/dev/vg/new"; "vdb:x"] ∅ = (Ret (), sample_overrides)) as Hs by (vm_compute; reflexivity).
  split; [exact Hs|]. exact (proj1 (overrides_flag ":" ["vda:/dev/vg/new"; "vdb:x"] sample_overrides Hs)).
Defined.
Example overrides_flag_iscsi : (Set_ ":" "vda:iscsi://10.0.0.1/iqn.2020:a/1" ∅).1 ≠ Ret ().
Proof. done. Qed.
End MapFacts.

(** ** Drivers *)

Module DriverFlags.
Import Strings Upper EnumFlag Enums MachineService.

Definition ascii7 (a : ascii) : bool := (N_of_ascii a <? 128)%N.
Lemma to_lower_ascii l : Forall (λ a, ascii7 a = true) l → to_lower l = map lower_byte l.
Proof.
  induction l as [|a l IH]; intros Hl; [done|]. apply Forall_cons in Hl as [Ha Hl]. specialize (IH Hl).
  destruct l as [|b [|c l]]; [done|..].
  - change (to_lower [a; b]) with (if bool_decide (a = char 196 ∧ b = char 176) then [char 105] else lower_byte a :: to_lower [b]).
    rewrite bool_decide_eq_false_2 by (by intros [-> _]). by rewrite IH.
  - change (to_lower (a :: b :: c :: l)) with
      (if bool_decide (a = char 196 ∧ b = char 176) then char 105 :: to_lower (c :: l)
       else if bool_decide (a = char 226 ∧ b = char 132 ∧ c = char 170) then char 107 :: to_lower l
       else lower_byte a :: to_lower (b :: c :: l)).
    rewrite !bool_decide_eq_false_2 by (by intros [-> _]). by rewrite IH.
Qed.
Lemma to_upper_ascii l : Forall (λ a, ascii7 a = true) l → to_upper l = map upper_byte l.
Proof.
  induction l as [|a l IH]; intros Hl; [done|]. apply Forall_cons in Hl as [Ha Hl]. specialize (IH Hl).
  destruct l as [|b l]; [done|].
  change (to_upper (a :: b :: l)) with
    (if bool_decide (a = char 196 ∧ b = char 177) then char 73 :: to_upper l
     else if bool_decide (a = char 197 ∧ b = char 191) then char 83 :: to_upper l
     else upper_byte a :: to_upper (b :: l)).
  rewrite !bool_decide_eq_false_2 by (by intros [-> _]). by rewrite IH.
Qed.
Lemma upper_lower a : upper_byte (lower_byte a) = upper_byte a.
Proof. by destruct a as [[] [] [] [] [] [] [] []]. Qed.
Lemma lower_ascii a : ascii7 a = true → ascii7 (lower_byte a) = true.
Proof. by destruct a as [[] [] [] [] [] [] [] []]. Qed.

Definition plain (s : string) : Prop := Forall (λ a, ascii7 a = true) (to_list s).
(** Capital or not, a plain name is that of the same enumerator. *)
Lemma enumerator_lower s : plain s → enumerator (ToLower s) = enumerator s.
Proof.
  intros Hs. unfold enumerator, ToUpper, ToLower. rewrite to_of_list, to_lower_ascii, to_upper_ascii, to_upper_ascii.
  - rewrite map_map. do 2 f_equal. apply map_ext, upper_lower.
  - done.
  - rewrite List.Forall_map. eapply Forall_impl; [exact Hs|apply lower_ascii].
  - done.
Qed.

(** What a flag for a driver promises: a plain name that the core knows is accepted, and
    the number sent stands for the same driver; a name that is accepted is the one of
    number 0, or the core knows it. *)
Definition driver_flag (D : Type) `{DriverType D} (set : string → op Z ()) (name : Z → string) : Prop :=
  (∀ s n0, plain s → (DriverTypeValue s : D) ≠ DriverType_UNKNOWN →
     ∃ n, set s n0 = (Ret (), n) ∧ DriverTypeValue (name n) = (DriverTypeValue s : D)) ∧
  (∀ s n0 n, set s n0 = (Ret (), n) → n = 0 ∨ (DriverTypeValue (name n) : D) ≠ DriverType_UNKNOWN).

Lemma driver_flag_by D `{DriverTypeLaws D} names prefix what (name : Z → string) :
  (∀ d : D, d ≠ DriverType_UNKNOWN → ∃ n, value_of names (prefix +:+ enumerator (driver_String d)) = Some n ∧
     DriverTypeValue (name n) = d) →
  Forall (λ n, n = 0 ∨ (DriverTypeValue (name n) : D) ≠ DriverType_UNKNOWN) (map Z.of_nat (seq 0 (length names))) →
  driver_flag D (set names prefix what) name.
Proof.
  intros Hall Hnum. split.
  - intros s n0 Hs Hd. destruct (Hall _ Hd) as (n & Hn & Hd'). exists n. split; [|done].
    unfold set. rewrite <- (enumerator_lower s), <- DriverTypeValue_lower by done. by rewrite Hn.
  - intros s n0 n. unfold set. destruct (value_of _ _) as [v|] eqn:Ev; [|done]. intros [= <-].
    rewrite Forall_forall in Hnum. apply Hnum. unfold value_of in Ev.
    apply fmap_Some in Ev as ([i x] & Hf & ->). apply list_find_Some in Hf as (Hi & _ & _).
    apply lookup_lt_Some in Hi. apply list_elem_of_In, in_map_iff. exists i. rewrite in_seq. cbn. split; [done|lia].
Qed.

(** C8: the flags for drivers of disks, cdroms, interfaces and cloud-init drives speak of
    the core's drivers: see [driver_flag]. *)
Theorem driver_flags :
  driver_flag DiskDriverType DiskDriver_Set (dashed DiskDriver) ∧ driver_flag CdromDriverType CdromDriver_Set (dashed CdromDriver) ∧
  driver_flag NetDriverType NetIfaceDriver_Set (dashed NetIfaceDriver) ∧
  driver_flag CloudInitDriverType CloudInitDriver_Set cloudinit_driver.
Proof.
  split_and!; (apply driver_flag_by; [exact _|intros []; try done; intros _; eexists; by split|]).
  all: cbn [length seq map]; repeat (apply Forall_cons_2; [first [by left|by right]|]); constructor.
Qed.
End DriverFlags.
