(* ===== verification/Client.v ===== *)
(** Client: the commands [vmm] and [vnetctl] ([client/*.go], [client/grpcclient],
    [client/ifupdown], [cmd/vmm], [cmd/vnetctl]).

    A command is told its arguments and flags by a parser that is not in the
    repository: [Command] holds whatever it says.  A command calls the services of
    the daemon and, rarely, its own host; [Kvmrund] answers, with what may depend on
    the calls before.  A refused call comes with a status.  What is printed is left
    out, but for what a watched task's progress is shown as. *)

From S2P Require Import Prelude.
From S2P Require Import GoStd.
From S2P Require Import PciAddress.
From S2P Require Import InstanceProperties.
From S2P Require Import InstanceConf.
From S2P Require Import CommandLine.
From S2P Require Import HostNet.
From S2P Require Import Network.
From S2P Require Import NetworkServer.
From S2P Require Import CloudInit.
From S2P Require Import Api.
From S2P Require Import Flags.

Open Scope Z_scope.
#[local] Set Warnings "-register-all".

(** ** Calls *)

Module Rpc.
Import MachineService LifecycleService TaskService.

Inductive call :=
  | Configure (q : rpc)
  | Create (Name : string) (Options : MachineOpts.t) (QemuRootdir : string)
  | Delete (Name : string) (Force : bool)
  | Get (Name : string)
  | GetEvents (Name : string)
  | List_ (Names : list string)
  | ListNames (Names : list string)
  | Start (Name : string) (WaitInterval : Z)
  | Stop (Name : string) (Wait Force : bool)
  | Restart (Name : string) (Wait : bool)
  | Reset (Name : string)
  | VNCActivate (Name Password : string)
  | StartDiskBackup (req : StartDiskBackupRequest)
  | StartMigration (req : StartMigrationRequest)
  | Network (q : NetworkServer.service_request)
  | GetTask (Key : string)
  | ListTasks (Keys : list string)
  | CancelTask (Key : string)
  | BuildImage (MachineName : string) (o : CloudInit.CloudInitOptions) (OutputFile : string)
  | ListPCI
  | Tick
  | Show (name : string) (p : Z)
  | LookPath (file : string)
  | LinkByName (ifname : string)
  | StatFile (path : string)
  | Exec (argv : list string).
Definition reply (c : call) : Type :=
  match c with
  | Create _ _ _ | Delete _ _ | Get _ => Machine
  | GetEvents _ => list Event
  | List_ _ => list Machine
  | ListNames _ => list string
  | VNCActivate _ _ => VNCRequisites
  | GetTask _ => TaskInfo
  | ListTasks _ => list TaskInfo
  | BuildImage _ _ _ | LookPath _ => string
  | _ => ()
  end.

(** [grpc/codes] *)
Definition NotFound : Z := 5.
Definition AlreadyExists : Z := 6.
Definition Unimplemented : Z := 12.
Definition code_number (c : MachineService.code) : Z :=
  match c with
  | MachineService.OK => 0 | MachineService.AlreadyExists => AlreadyExists | MachineService.NotFound => NotFound
  | MachineService.FailedPrecondition => 9 | MachineService.Internal => 13
  end.

(** An error has a status, or none.  [Unfinished]: the seconds given to a command that
    watches a task were not enough. *)
Inductive failure := Status (code : Z) (msg : string) | Local (e : goerr).
Inductive ended (A : Type) := Done (a : A) | Failed (f : failure) | Crashed (p : panic) | Exited (n : Z) | Unfinished.
Arguments Done {A} _.
Arguments Failed {A} _.
Arguments Crashed {A} _.
Arguments Exited {A} _.
Arguments Unfinished {A}.

Class Kvmrund := answers : list call → ∀ c : call, reply c + failure.

(** The calls made so far. *)
Definition act (A : Type) : Type := list call → ended A * list call.
#[global] Instance act_ret : MRet act := λ A a s, (Done a, s).
#[global] Instance act_bind : MBind act := λ A B f m s,
  match m s with
  | (Done a, s) => f a s
  | (Failed e, s) => (Failed e, s)
  | (Crashed p, s) => (Crashed p, s)
  | (Exited n, s) => (Exited n, s)
  | (Unfinished, s) => (Unfinished, s)
  end.
Definition fail {A} (f : failure) : act A := λ s, (Failed f, s).
Definition crash {A} (p : panic) : act A := λ s, (Crashed p, s).
Definition of_outcome {A} (o : outcome A) : act A := λ s,
  (match o with Ret a => Done a | Throw e => Failed (Local e) | Panic p => Crashed p end, s).
Definition of_sys {A} (o : A + goerr) : act A := λ s, (match o with inl a => Done a | inr e => Failed (Local e) end, s).
Definition unfinished {A} : act A := λ s, (Unfinished, s).
Definition ask `{Kvmrund} (c : call) : act (reply c) := λ s,
  (match answers s c with inl a => Done a | inr f => Failed f end, s ++ [c]).
(** [resp, err := m] *)
Definition caught {A} (m : act A) : act (A + failure) := λ s,
  match m s with
  | (Done a, s) => (Done (inl a), s)
  | (Failed f, s) => (Done (inr f), s)
  | (Crashed p, s) => (Crashed p, s)
  | (Exited n, s) => (Exited n, s)
  | (Unfinished, s) => (Unfinished, s)
  end.
(** A call whose answer is not looked at. *)
Definition call_ `{Kvmrund} (c : call) : act () := ask c;; mret ().
(** [update(name, p)] of the progress bar. *)
Definition show (name : string) (p : Z) : act () := λ s, (Done (), s ++ [Show name p]).
(** The next tick of a second. *)
Definition tick : act () := λ s, (Done (), s ++ [Tick]).
(** [if c { m }] *)
Definition when (c : bool) (m : act ()) : act () := if c then m else mret ().

(** [exitWithError]; a command that ends well exits with 0. *)
Definition exit_code {A} (r : ended A) : option Z :=
  match r with
  | Done _ => Some 0
  | Failed (Status c _) =>
      Some (if (c =? AlreadyExists) || (c =? NotFound) then 2 else if c =? Unimplemented then 3 else 5)
  | Failed (Local _) => Some 1
  | Crashed _ => Some 2
  | Exited n => Some n
  | Unfinished => None
  end.
End Rpc.

(** ** What a command is told *)

Record Command := {
  ArgsUsage : string; Args : list string;
  Int : string → Z; Uint : string → Z; Uint32 : string → Z; Str : string → string; Bool : string → bool;
  StringSlice : string → list string; IsSet : string → bool; Value : string → option any;
}.
(** The host a command runs on; [connection] is how the daemon is reached, which
    starts by reading the configuration of the program. *)
Class Shell := {
  Getwd : string + goerr;
  QEMU_ROOTDIR : option string;
  ReadFile : string → string + goerr;
  connection : () + goerr;
}.

Module Client.
Import Strings MachineService LifecycleService Rpc.

Section commands.
Context `{Kvmrund, Shell, HostNet.MapOrder}.
Abbreviation fn := (string → Command → act ()).

(** [filepath.Abs] *)
Definition Abs (p : string) : outcome string :=
  if Filepath.IsAbs p then Ret (Filepath.Clean p)
  else match Getwd with inl wd => Ret (Filepath.Join [wd; p]) | inr e => Throw e end.
(** [if p := strings.TrimSpace(s); len(p) > 0 { filepath.Abs(p) }] *)
Definition abs_opt (s : string) : outcome string :=
  let p := TrimSpace s in if bool_decide (p = "") then Ret "" else Abs p.

(** [c.Args().Tail()] *)
Definition Tail (c : Command) : list string := tail (Args c).
Definition nth_arg (i : nat) (c : Command) : act string :=
  match Tail c !! i with Some a => mret a | None => crash IndexOutOfRange end.
Definition First (c : Command) : string := default "" (head (Args c)).

(** [int32(n)] *)
Definition int32 (n : Z) : Z := (n + 2 ^ 31) mod 2 ^ 32 - 2 ^ 31.
Definition uint32 : Z → Z := Enums.uint32.

(** ** Disks *)

Definition DiskDriver_of (c : Command) : Z := match Value c "driver" with Some (AnyDiskDriver v) => v | _ => 0 end.
Definition MachineDiskAttach : fn := λ vmname c,
  path ← nth_arg 0 c;
  call_ (Configure (DiskAttach {|
    da_Name := vmname; da_DiskPath := path; da_Driver := DiskDriver_of c; da_IopsRd := uint32 (Int c "iops-rd");
    da_IopsWr := uint32 (Int c "iops-wr"); da_Bootindex := int32 (Int c "bootindex"); da_Position := int32 (Int c "position");
    da_Live := Bool c "live" |})).
Definition MachineDiskDetach : fn := λ vmname c,
  d ← nth_arg 0 c; call_ (Configure (DiskDetach vmname d (Bool c "live"))).
Definition MachineDiskRemoveQemuBitmap : fn := λ vmname c,
  when (IsSet c "remove-bitmap" && Bool c "remove-bitmap")
    (d ← nth_arg 0 c; call_ (Configure (DiskRemoveQemuBitmap vmname d))).
Definition MachineDiskSetReadLimit : fn := λ vmname c,
  when (IsSet c "iops-rd")
    (d ← nth_arg 0 c; call_ (Configure (DiskSetReadLimit vmname d (uint32 (Int c "iops-rd")) (Bool c "live")))).
Definition MachineDiskSetWriteLimit : fn := λ vmname c,
  when (IsSet c "iops-wr")
    (d ← nth_arg 0 c; call_ (Configure (DiskSetWriteLimit vmname d (uint32 (Int c "iops-wr")) (Bool c "live")))).
Definition MachineDiskResizeQemuBlockdev : fn := λ vmname c,
  d ← nth_arg 0 c; call_ (Configure (DiskResizeQemuBlockdev vmname d)).

(** ** Cdroms *)

Definition CdromDriver_of (c : Command) : Z := match Value c "driver" with Some (AnyCdromDriver v) => v | _ => 0 end.
Definition MachineCdromAttach : fn := λ vmname c,
  d ← nth_arg 0 c;
  call_ (Configure (CdromAttach {|
    ca_Name := vmname; ca_DeviceName := d; ca_DeviceMedia := Str c "media"; ca_Driver := CdromDriver_of c;
    ca_Readonly := Bool c "read-only"; ca_Bootindex := int32 (Int c "bootindex"); ca_Position := int32 (Int c "position");
    ca_Live := Bool c "live" |})).
Definition MachineCdromDetach : fn := λ vmname c,
  d ← nth_arg 0 c; call_ (Configure (CdromDetach vmname d (Bool c "live"))).
Definition MachineCdromChangeMedia : fn := λ vmname c,
  when (IsSet c "media") (d ← nth_arg 0 c; call_ (Configure (CdromChangeMedia vmname d (Str c "media") (Bool c "live")))).
(** The request is made without [Live]. *)
Definition MachineCdromRemoveMedia : fn := λ vmname c,
  when (IsSet c "remove-media" && Bool c "remove-media")
    (d ← nth_arg 0 c; call_ (Configure (CdromRemoveMedia vmname d false))).

(** ** Network interfaces *)

Definition NetIfaceDriver_of (c : Command) : Z := match Value c "driver" with Some (AnyNetIfaceDriver v) => v | _ => 0 end.
Definition HwAddr_of (c : Command) : string := match Value c "hwaddr" with Some (AnyHwAddr v) => Mac.String_ v | _ => "" end.
Definition MachineNetIfaceAttach : fn := λ vmname c,
  i ← nth_arg 0 c;
  call_ (Configure (NetIfaceAttach {|
    ni_Name := vmname; ni_Ifname := i; ni_Driver := NetIfaceDriver_of c; ni_HwAddr := HwAddr_of c;
    ni_IfupScript := Str c "ifup-script"; ni_IfdownScript := Str c "ifdown-script"; ni_Queues := uint32 (Uint c "queues");
    ni_Live := Bool c "live" |})).
Definition MachineNetIfaceDetach : fn := λ vmname c,
  i ← nth_arg 0 c; call_ (Configure (NetIfaceDetach vmname i (Bool c "live"))).
Definition MachineNetIfaceSetParameters : fn := λ vmname c,
  when (IsSet c "queues") (i ← nth_arg 0 c; call_ (Configure (NetIfaceSetQueues vmname i (uint32 (Uint c "queues")))));;
  when (IsSet c "ifup-script")
    (i ← nth_arg 0 c; p ← of_outcome (abs_opt (Str c "ifup-script")); call_ (Configure (NetIfaceSetUpScript vmname i p)));;
  when (IsSet c "ifdown-script")
    (i ← nth_arg 0 c; p ← of_outcome (abs_opt (Str c "ifdown-script")); call_ (Configure (NetIfaceSetDownScript vmname i p)));;
  when (IsSet c "link-state")
    (i ← nth_arg 0 c;
     call_ (Configure (NetIfaceSetLinkState vmname i match Value c "link-state" with Some (AnyUint16 v) => v | _ => 0 end))).

(** ** Channels, memory, processors *)

Definition MachineChannelAttach_VSock : fn := λ vmname c,
  call_ (Configure (ChannelAttach vmname (Some (Vsock (uint32 (Uint c "cid")))) (Bool c "live"))).
Definition MachineChannelDetach_VSock : fn := λ vmname c,
  call_ (Configure (ChannelDetach vmname (Some (Vsock 0)) (Bool c "live"))).
Definition MachineMemorySetParameters : fn := λ vmname c,
  call_ (Configure (MemorySetLimits vmname (uint32 (Int c "actual")) (uint32 (Int c "total")) (Bool c "live"))).
Definition MachineCPUSetParameters : fn := λ vmname c,
  when (IsSet c "actual" || IsSet c "total")
    (call_ (Configure (CPUSetLimits vmname (uint32 (Int c "actual")) (uint32 (Int c "total")) (Bool c "live"))));;
  when (IsSet c "sockets") (call_ (Configure (CPUSetSockets vmname (uint32 (Int c "sockets")))));;
  when (IsSet c "quota") (call_ (Configure (CPUSetQuota vmname (uint32 (Int c "quota")) (Bool c "live"))));;
  when (IsSet c "model") (call_ (Configure (CPUSetModel vmname (Str c "model")))).

(** ** Input devices, host devices *)

Definition InputDeviceType_of (c : Command) : Z := match Value c "type" with Some (AnyInputDeviceType v) => v | _ => 0 end.
Definition MachineInputDeviceAttach : fn := λ vmname c, call_ (Configure (InputDeviceAttach vmname (InputDeviceType_of c))).
Definition MachineInputDeviceDetach : fn := λ vmname c, call_ (Configure (InputDeviceDetach vmname (InputDeviceType_of c))).

Definition bool_of (name : string) (c : Command) : bool := match Value c name with Some (AnyBool v) => v | _ => false end.
Definition pci_arg (c : Command) : act string :=
  a ← nth_arg 0 c; addr ← of_outcome (Pci.AddressFromHex a); mret (Pci.to_string addr).
Definition MachineHostDeviceAttach : fn := λ vmname c,
  addr ← pci_arg c;
  call_ (Configure (HostDeviceAttach {|
    hd_Name := vmname; hd_PCIAddr := addr; hd_Multifunction := bool_of "multifunction" c; hd_PrimaryGPU := bool_of "primary-gpu" c;
    hd_StrictMode := negb (Bool c "no-check-device") |})).
Definition MachineHostDeviceDetach : fn := λ vmname c,
  addr ← pci_arg c; call_ (Configure (HostDeviceDetach vmname addr)).
Definition MachineHostDeviceSetOptions : fn := λ vmname c,
  addr ← pci_arg c;
  when (IsSet c "multifunction")
    (call_ (Configure (HostDeviceSetMultifunctionOption vmname addr (bool_of "multifunction" c))));;
  when (IsSet c "primary-gpu")
    (call_ (Configure (HostDeviceSetPrimaryGPUOption vmname addr (bool_of "primary-gpu" c)))).

(** ** Booting *)

Definition qemu_rootdir : outcome string :=
  match QEMU_ROOTDIR with Some v => abs_opt v | None => Ret "" end.
Definition BootParametersSet : fn := λ vmname c,
  if IsSet c "remove-conf" && Bool c "remove-conf" then call_ (Configure (FirmwareRemove vmname))
  else
    let image := TrimSpace (Str c "firmware") in
    when (bool_decide (image ≠ ""))
      (img ← of_outcome (if bool_decide (image ∈ ["efi"; "uefi"; "ovmf"; "bios"; "legacy"]) then Ret image else Abs image);
       flash ← of_outcome (abs_opt (Str c "flash-device"));
       root ← of_outcome qemu_rootdir;
       call_ (Configure (FirmwareSet {| fs_Name := vmname; fs_Image := img; fs_Flash := flash; fs_QemuRootdir := root |}))).
(** File names are sent as they were written. *)
Definition MachineExternalKernelSetParameters : fn := λ vmname c,
  if IsSet c "remove-conf" && Bool c "remove-conf" then call_ (Configure (ExternalKernelRemove vmname))
  else call_ (Configure (ExternalKernelSet {|
         ek_Name := vmname; ek_Image := Str c "image"; ek_Initrd := Str c "initrd"; ek_Cmdline := Str c "cmdline";
         ek_Modiso := Str c "modiso" |})).

(** ** cloud-init *)

Definition CloudInitDriver_of (c : Command) : Z := match Value c "driver" with Some (AnyCloudInitDriver v) => v | _ => 0 end.
Definition MachineCloudInitDriveAttach : fn := λ vmname c,
  a ← nth_arg 0 c; media ← of_outcome (Abs a);
  call_ (Configure (CloudInitDriveAttach {| cda_Name := vmname; cda_Media := media; cda_Driver := CloudInitDriver_of c |})).
Definition MachineCloudInitDriveDetach : fn := λ vmname c, call_ (Configure (CloudInitDriveDetach vmname)).
Definition MachineCloudInitDriveChangeMedia : fn := λ vmname c,
  a ← nth_arg 0 c; media ← of_outcome (Abs a);
  call_ (Configure (CloudInitDriveChangeMedia vmname media (Bool c "live"))).
(** The contents of a file that is named, or none. *)
Definition contents (fname : string) : outcome string :=
  let fname := TrimSpace fname in if bool_decide (fname = "") then Ret "" else match ReadFile fname with inl b => Ret b | inr e => Throw e end.
Definition MachineCloudInitDriveBuildImage : fn := λ vmname c,
  outputFile ← of_outcome (match Tail c with a :: _ => Abs a | [] => Ret (Filepath.Join [CONFDIR; vmname; "config_cidata"]) end);
  vendor ← of_outcome (contents (Str c "vendor-config"));
  user ← of_outcome (contents (Str c "user-config"));
  call_ (BuildImage vmname {|
    CloudInit.opt_Platform := Str c "platform"; CloudInit.opt_Subplatform := Str c "subplatform";
    CloudInit.opt_Cloudname := Str c "cloudname"; CloudInit.opt_Region := Str c "region";
    CloudInit.opt_AvailabilityZone := Str c "zone"; CloudInit.opt_Hostname := Str c "hostname";
    CloudInit.opt_Domain := Str c "domain"; CloudInit.opt_Timezone := Str c "timezone";
    CloudInit.VendorConfig := vendor; CloudInit.UserConfig := user |} outputFile).

(** ** Making and removing machines *)

(** A range is looked for behind a pointer. *)
Definition range_of (name : string) (c : Command) : Z * Z :=
  match Value c name with
  | Some (AnyIntRangePointer v) => (uint32 (IntRange.Min v), uint32 (IntRange.Max v))
  | _ => (0, 0)
  end.
Definition firmware_of (c : Command) : outcome (option MachineOpts.Firmware_) :=
  let image := TrimSpace (Str c "firmware") in
  if IsSet c "firmware" && bool_decide (image ≠ "") then
    img ← (if bool_decide (image ∈ ["efi"; "uefi"; "ovmf"]) then Ret image else Abs image);
    flash ← abs_opt (Str c "flash-device");
    Ret (Some {| MachineOpts.fw_Image := img; MachineOpts.fw_Flash := flash |})
  else Ret None.
Definition create_opts (c : Command) (fw : option MachineOpts.Firmware_) : MachineOpts.t := {|
  MachineOpts.MachineType_ := ""; MachineOpts.Firmware := fw;
  MachineOpts.Memory := Some {| MachineOpts.mem_Actual := (range_of "mem" c).1; MachineOpts.mem_Total := (range_of "mem" c).2 |};
  MachineOpts.CPU := Some {| MachineOpts.cpu_Actual := (range_of "cpu" c).1; MachineOpts.cpu_Total := (range_of "cpu" c).2;
                             MachineOpts.cpu_Sockets := 0; MachineOpts.cpu_Model := Str c "cpu-model";
                             MachineOpts.cpu_Quota := uint32 (Int c "cpu-quota") |};
  MachineOpts.Inputs := []; MachineOpts.Cdrom := []; MachineOpts.Storage := []; MachineOpts.Network := [];
  MachineOpts.VsockDevice := None; MachineOpts.CloudInitDrive := None; MachineOpts.Kernel := None; MachineOpts.HostPCI := [] |}.
Definition MachineCreateConf : fn := λ vmname c,
  fw ← of_outcome (firmware_of c);
  root ← of_outcome qemu_rootdir;
  call_ (Create vmname (create_opts c fw) root).
Definition MachineRemoveConf : fn := λ vmname c, call_ (Delete vmname true).
Definition MachineInspect : fn := λ vmname c, call_ (Get vmname).
Definition MachineListEvents : fn := λ vmname c, call_ (GetEvents vmname).
Definition MachineList : fn := λ vmname c, call_ (List_ (Args c)).
Definition MachineListNames : fn := λ vmname c, call_ (ListNames (Args c)).

(** ** Control *)

Definition MachineStart : fn := λ vmname c, call_ (Start vmname (uint32 (Uint c "wait"))).
Definition MachineStop : fn := λ vmname c, call_ (Stop vmname (Bool c "wait") (Bool c "force")).
Definition MachineRestart : fn := λ vmname c, call_ (Restart vmname (Bool c "wait")).
Definition MachineReset : fn := λ vmname c, call_ (Reset vmname).
Definition MachineActivateVNC : fn := λ vmname c, call_ (VNCActivate vmname (Str c "p")).
(** The console of a machine that runs or migrates replaces the program. *)
Definition MachineConsoleConnect : fn := λ vmname _,
  m ← ask (Get vmname);
  if (m_State m =? 2) || (m_State m =? 8) then
    socatBinary ← ask (LookPath "socat");
    let sockPath := Filepath.Join [QMPMONDIR; vmname +:+ ".virtcon"] in
    r ← caught (ask (Exec ["/usr/bin/socat"; "-lp"; "kvmrun"; "-L"; sockPath +:+ ".lock"; "-,raw,echo=0,escape=0x0f";
                           "UNIX-CONNECT:" +:+ sockPath]));
    match r with
    | inl _ => mret ()
    | inr _ => fail (Local (ErrMsg ("failed to run socat binary: " +:+ socatBinary)))
    end
  else fail (Local (ErrMsg ("machine is not running: " +:+ vmname))).
Definition TaskPrintList : fn := λ vmname c, call_ (ListTasks []).
Definition PCI_PrintList : fn := λ vmname c, call_ ListPCI.

(** ** Migration *)

Definition code_of (f : failure) : Z := match f with Status c _ => c | Local _ => 2 end.
Definition map_of (name : string) (c : Command) : gmap string string :=
  match Value c name with Some (AnyStringMap m) => m | _ => ∅ end.
Definition disks_of (vmname : string) (c : Command) : act (list string) :=
  if Bool c "with-local-disks" then
    m ← ask (Get vmname);
    if (m_State m =? 3) || (m_State m =? 2) then
      match Runtime_ m with
      | Some r => mret (map MachineOpts.d_Path (MachineOpts.Storage r))
      | None => crash NilDereference
      end
    else fail (Local (ErrMsg ("unable to start migration process: machine is not running: " +:+ vmname)))
  else mret (StringSlice c "with-disk").
Definition migration_request (vmname dst : string) (disks : list string) (c : Command) : StartMigrationRequest := {|
  sm_Name := vmname; sm_DstServer := dst; sm_Disks := disks;
  sm_Overrides := Some {| ov_Name := if IsSet c "override-name" then Str c "override-name" else "";
                          ov_Disks := map_of "override-disk" c; ov_NetIfaces := map_of "override-net" c |};
  sm_CreateDisks := Bool c "create-disks"; sm_RemoveAfter := false |}.

(** The bars of what has its own progress, in the order given. *)
Fixpoint show_all (bars : list (string * Z)) : act () :=
  match bars with
  | [] => mret ()
  | (name, p) :: bars => show name p;; show_all bars
  end.
Definition disk_progress (d : TaskService.MigrationInfo) : list (string * Z) :=
  map (λ '(name, st), (name, TaskService.Progress st)) (HostNet.map_order _ (TaskService.Disks d)).
(** A look at the task each second, for at most [fuel] seconds. *)
Fixpoint migration_collect (vmname : string) (barNames : list string) (key : string) (fuel : nat) : act () :=
  match fuel with
  | O => unfinished
  | S fuel =>
      r ← caught (ask (GetTask key));
      let failed f := show_all (map (λ name, (name, -1)) barNames);; fail f in
      match r with
      | inl t =>
          (match TaskService.Migration t with
           | Some d =>
               match TaskService.Qemu d with
               | Some q => show_all ((vmname, TaskService.Progress q) :: disk_progress d)
               | None => crash NilDereference
               end
           | None => mret ()
           end : act ());;
          if TaskService.State t =? TaskService.TaskInfo_COMPLETED then mret ()
          else if TaskService.State t =? TaskService.TaskInfo_FAILED then failed (Local (ErrMsg (TaskService.StateDesc t)))
          else tick;; migration_collect vmname barNames key fuel
      | inr f => failed (if code_of f =? NotFound then Local (ErrMsg "unexpected: task not found") else f)
      end
  end.
Definition bar_names (vmname : string) (d : TaskService.MigrationInfo) : list string :=
  map fst (HostNet.map_order _ (TaskService.Disks d)) ++ [vmname].
Definition MigrationProcessShowStatus (fuel : nat) : fn := λ vmname c,
  r ← caught (ask (GetTask (vmname +:+ "/migration")));
  match r with
  | inl t =>
      match TaskService.Migration t with
      | None => fail (Local (ErrMsg "unexpected: incorrect stat structure"))
      | Some d => if Bool c "json" then mret () else migration_collect vmname (bar_names vmname d) (TaskService.TaskID t) fuel
      end
  | inr f => if code_of f =? NotFound then mret () else fail f
  end.
Definition MigrationProcessStart (fuel : nat) : fn := λ vmname c,
  dst ← nth_arg 0 c;
  disks ← disks_of vmname c;
  call_ (StartMigration (migration_request vmname dst disks c));;
  if Bool c "watch" then MigrationProcessShowStatus fuel vmname c else mret ().
Definition MigrationProcessCancel : fn := λ vmname c, call_ (CancelTask (vmname +:+ "/migration")).

(** ** Backup *)

(** What is left to watch, and the errors by disk. *)
Record watching := { discontinued : gset string; terrs : gmap string failure }.
Definition discontinue (label : string) (w : watching) : watching :=
  {| discontinued := {[label]} ∪ discontinued w; terrs := terrs w |}.
Definition failed_disk (disk : string) (f : failure) (w : watching) : watching :=
  {| discontinued := discontinued w; terrs := <[disk := f]> (terrs w) |}.
Definition watched (w : watching) (disk label : string) (r : TaskService.TaskInfo + failure) : watching :=
  match r with
  | inr f => discontinue label (if code_of f =? NotFound then w else failed_disk disk f w)
  | inl t =>
      if TaskService.State t =? TaskService.TaskInfo_COMPLETED then discontinue label w
      else if TaskService.State t =? TaskService.TaskInfo_FAILED
      then failed_disk disk (Local (ErrMsg (TaskService.StateDesc t))) (discontinue label w)
      else w
  end.
Definition progress_of (r : TaskService.TaskInfo + failure) : Z :=
  match r with
  | inl t => if TaskService.State t =? TaskService.TaskInfo_FAILED then -1 else TaskService.ti_Progress t
  | inr _ => -1
  end.
Fixpoint watch_round (labels : list (string * string)) (w : watching) : act watching :=
  match labels with
  | [] => mret w
  | (disk, label) :: labels =>
      if decide (label ∈ discontinued w) then watch_round labels w
      else r ← caught (ask (GetTask label)); show disk (progress_of r);; tick;; watch_round labels (watched w disk label r)
  end.
Fixpoint backup_collect (labels : list (string * string)) (w : watching) (fuel : nat) : act watching :=
  match fuel with
  | O => unfinished
  | S fuel =>
      w ← watch_round labels w;
      if decide (size (discontinued w) = length labels) then mret w else backup_collect labels w fuel
  end.
Definition reported (w : watching) : act () :=
  match map_to_list (terrs w) with
  | [] => mret ()
  | [(_, f)] => fail f
  | _ => fail (Local (ErrMsg "Some tasks completed with errors"))
  end.
Definition labels_of (vmname : string) (disks : list MachineOpts.Disk_) : list (string * string) :=
  map (λ d, let b := Filepath.Base (MachineOpts.d_Path d) in (b, vmname +:+ "/disk-backup/" +:+ b)) disks.
Definition BackupProcessShowStatus (fuel : nat) : fn := λ vmname c,
  m ← ask (Get vmname);
  match Runtime_ m with
  | None => mret ()
  | Some r =>
      let labels := labels_of vmname (MachineOpts.Storage r) in
      tasks ← ask (ListTasks (map snd labels));
      if Bool c "json" then mret ()
      else match tasks with
           | [] => mret ()
           | _ => w ← backup_collect labels {| discontinued := ∅; terrs := ∅ |} fuel; reported w
           end
  end.
Definition BackupProcessStart (fuel : nat) : fn := λ vmname c,
  (match Tail c with
   | disk :: target :: _ =>
       call_ (StartDiskBackup {| sb_Name := vmname; sb_DiskName := disk; sb_Target := target;
                                 sb_Incremental := Bool c "incremental"; sb_ClearBitmap := Bool c "clear-bitmap" |})
   | _ => fail (Local (ErrMsg "machine backup is not implemented"))
   end : act ());;
  if Bool c "watch" then BackupProcessShowStatus fuel vmname c else mret ().
Definition BackupProcessCancel : fn := λ vmname c,
  match Tail c with
  | disk :: _ => call_ (CancelTask (vmname +:+ "/disk-backup/" +:+ disk))
  | [] => fail (Local (ErrMsg "method is not implemented"))
  end.

(** ** Networks *)

Definition scheme_of (c : Command) : Network.SchemeType :=
  match Value c "type" with Some (AnySchemeType v) => v | _ => Network.Scheme_UNKNOWN end.
Definition scheme_attrs (c : Command) : outcome NetworkServer.NetworkSchemeOpts_Attrs :=
  match scheme_of c with
  | Network.Scheme_ROUTED => Ret (NetworkServer.Opts_Router (Str c "parent-interface") (Uint32 c "in-limit") (Uint32 c "out-limit"))
  | Network.Scheme_BRIDGE => Ret (NetworkServer.Opts_Bridge (Str c "bridge-name"))
  | Network.Scheme_VXLAN => Ret (NetworkServer.Opts_Vxlan (Uint32 c "vni") (Str c "parent-interface"))
  | Network.Scheme_VLAN => Ret (NetworkServer.Opts_Vlan (Uint32 c "vlan-id") (Str c "parent-interface"))
  | Network.Scheme_MANUAL => Ret NetworkServer.Opts_None
  | t => Throw (ErrMsg ("unknown network scheme: " +:+ Network.SchemeType_String t))
  end.
Definition NetworkSchemeCreateConf : fn := λ vmname c,
  ifname ← nth_arg 0 c;
  attrs ← of_outcome (scheme_attrs c);
  call_ (Network (NetworkServer.CreateConfRequest vmname (Some {|
    NetworkServer.common := {| Network.attr_Ifname := ifname; Network.MTU := if IsSet c "mtu" then Uint32 c "mtu" else 0;
                               Network.Addrs := if IsSet c "ip" then StringSlice c "ip" else [];
                               Network.Gateway4 := Str c "gateway4"; Network.Gateway6 := Str c "gateway6" |};
    NetworkServer.Attrs := attrs |}) false)).
Definition set_flag {A} (c : Command) (name : string) (v : A) : option A := if IsSet c name then Some v else None.
(** Addresses are removed before others are added. *)
Definition addr_updates (c : Command) : list Network.AddrUpdate :=
  if IsSet c "del-ip" || IsSet c "add-ip" then
    map (λ ip, {| Network.Action := Network.AddrUpdate_REMOVE; Network.Prefix := ip |}) (StringSlice c "del-ip") ++
    map (λ ip, {| Network.Action := Network.AddrUpdate_APPEND; Network.Prefix := ip |}) (StringSlice c "add-ip")
  else [].
Definition NetworkSchemeUpdateConf : fn := λ vmname c,
  ifname ← nth_arg 0 c;
  call_ (Network (NetworkServer.UpdateConfRequest_ vmname ifname false {|
    NetworkServer.req_InLimit := set_flag c "in-limit" (Uint32 c "in-limit");
    NetworkServer.req_OutLimit := set_flag c "out-limit" (Uint32 c "out-limit");
    NetworkServer.req_MTU := set_flag c "mtu" (Uint32 c "mtu");
    NetworkServer.req_Gateway4 := set_flag c "gateway4" (Str c "gateway4");
    NetworkServer.req_Gateway6 := set_flag c "gateway6" (Str c "gateway6");
    NetworkServer.req_Addrs := addr_updates c |})).
Definition NetworkSchemeRemoveConf : fn := λ vmname c,
  ifname ← nth_arg 0 c; call_ (Network (NetworkServer.DeleteConfRequest vmname ifname false)).

(** ** Running a command *)

Definition executeGRPC {A} (m : act A) : act A := of_sys connection;; m.
Definition requiredArgs (usage : string) : nat :=
  length (filter (λ v, HasPrefix v "[" = false) (HostNet.Fields usage)).
Fixpoint in_turn (fns : list fn) (vmname : string) (c : Command) : act () :=
  match fns with
  | [] => mret ()
  | f :: fns => f vmname c;; in_turn fns vmname c
  end.
(** Too few arguments: the help is shown. *)
Definition CommandGRPC (c : Command) (fns : list fn) : act () :=
  if (length (Args c) <? requiredArgs (ArgsUsage c))%nat then λ s, (Exited 1, s)
  else executeGRPC (in_turn fns (First c) c).

(** *** [ifup] and [ifdown] *)

Definition InterfaceUp (ifname : string) (secondStage : bool) : act () :=
  r ← caught (ask (LinkByName ifname));
  match r with
  | inr _ => fail (Local (ErrMsg ("netlink: link not found: " +:+ ifname)))
  | inl _ =>
      vmname ← of_sys Getwd;
      of_outcome (ValidateMachineName vmname);;
      executeGRPC (call_ (Network (NetworkServer.ConfigureRequest vmname ifname secondStage)))
  end.
Definition InterfaceDown (ifname : string) : act () :=
  ask (StatFile "./config_network");;
  vmname ← of_sys Getwd;
  of_outcome (ValidateMachineName vmname);;
  executeGRPC (call_ (Network (NetworkServer.DeconfigureRequest vmname ifname))).
Definition ifupdownMain (progname : string) (c : Command) : act () :=
  if IsSet c "test-second-stage-feature" then mret ()
  else
    let ifname := TrimSpace (First c) in
    if bool_decide (progname = "ifup") then InterfaceUp ifname (Bool c "second-stage")
    else if bool_decide (progname = "ifdown") then InterfaceDown ifname
    else mret ().

(** ** The commands *)

(** A flag with the value it has when it is not written. *)
Inductive flag :=
  | IntFlag (name : string) (v : Z) | UintFlag (name : string) (v : Z) | Uint32Flag (name : string) (v : Z)
  | StringFlag (name v : string) | BoolFlag (name : string) | StringSliceFlag (name : string)
  | GenericFlag (name : string) (v : any).
Record entry := { Usage : string; Flags : list flag; Action : Command → list fn }.
Definition always (fns : list fn) : Command → list fn := λ _, fns.

Definition CommandDiskAttach : entry := {| Usage := "VMNAME DISK";
  Flags := [GenericFlag "driver" (Get.DiskDriver EnumFlag.DefaultDiskDriver); IntFlag "iops-rd" 0; IntFlag "iops-wr" 0;
  IntFlag "position" (-1); IntFlag "bootindex" 0; BoolFlag "live"];
  Action := always [MachineDiskAttach] |}.
Definition CommandDiskDetach : entry := {| Usage := "VMNAME DISK"; Flags := [BoolFlag "live"]; Action := always [MachineDiskDetach] |}.
Definition CommandDiskSetParameters : entry := {| Usage := "VMNAME DISK";
  Flags := [IntFlag "iops-rd" (-1); IntFlag "iops-wr" (-1); BoolFlag "remove-bitmap"; BoolFlag "live"];
  Action := always [MachineDiskRemoveQemuBitmap; MachineDiskSetReadLimit; MachineDiskSetWriteLimit] |}.
Definition CommandDiskResizeQemuBlockdev : entry := {| Usage := "VMNAME DISK"; Flags := []; Action := always [MachineDiskResizeQemuBlockdev] |}.
Definition disk_commands : list (list string * entry) := [
  (["storage"; "attach"], CommandDiskAttach);
  (["storage"; "detach"], CommandDiskDetach);
  (["storage"; "set"], CommandDiskSetParameters);
  (["storage"; "resize"], CommandDiskResizeQemuBlockdev)].
Definition CommandCdromAttach : entry := {| Usage := "VMNAME CDROM";
  Flags := [GenericFlag "driver" (Get.CdromDriver EnumFlag.DefaultCdromDriver); IntFlag "position" (-1); IntFlag "bootindex" 0;
  StringFlag "media" ""; BoolFlag "read-only"; BoolFlag "live"];
  Action := always [MachineCdromAttach] |}.
Definition CommandCdromDetach : entry := {| Usage := "VMNAME CDROM"; Flags := [BoolFlag "live"]; Action := always [MachineCdromDetach] |}.
Definition CommandCdromSetParameters : entry := {| Usage := "VMNAME CDROM"; Flags := [StringFlag "media" ""; BoolFlag "remove-media"; BoolFlag "live"];
  Action := always [MachineCdromRemoveMedia; MachineCdromChangeMedia] |}.
Definition cdrom_commands : list (list string * entry) := [
  (["cdrom"; "attach"], CommandCdromAttach);
  (["cdrom"; "detach"], CommandCdromDetach);
  (["cdrom"; "set"], CommandCdromSetParameters)].
Definition CommandNetIfaceAttach : entry := {| Usage := "VMNAME IFNAME";
  Flags := [GenericFlag "driver" (Get.NetIfaceDriver EnumFlag.DefaultNetIfaceDriver); GenericFlag "hwaddr" (Get.NetIfaceHwAddr []);
  UintFlag "queues" 0; StringFlag "ifup-script" ""; StringFlag "ifdown-script" ""; BoolFlag "live"];
  Action := always [MachineNetIfaceAttach] |}.
Definition CommandNetIfaceDetach : entry := {| Usage := "VMNAME IFNAME"; Flags := [BoolFlag "live"]; Action := always [MachineNetIfaceDetach] |}.
Definition CommandNetIfaceSetParameters : entry := {| Usage := "VMNAME IFNAME";
  Flags := [UintFlag "queues" 0; StringFlag "ifup-script" ""; StringFlag "ifdown-script" "";
  GenericFlag "link-state" (Get.NetIfaceLinkState 0)];
  Action := always [MachineNetIfaceSetParameters] |}.
Definition network_commands : list (list string * entry) := [
  (["network"; "attach"], CommandNetIfaceAttach);
  (["network"; "detach"], CommandNetIfaceDetach);
  (["network"; "set"], CommandNetIfaceSetParameters)].
Definition CommandChannelAttach_VSock : entry := {| Usage := "VMNAME"; Flags := [UintFlag "cid" 0; BoolFlag "live"];
  Action := always [MachineChannelAttach_VSock] |}.
Definition CommandChannelDetach_VSock : entry := {| Usage := "VMNAME"; Flags := [BoolFlag "live"]; Action := always [MachineChannelDetach_VSock] |}.
Definition CommandInputDeviceAttach : entry := {| Usage := "VMNAME"; Flags := [GenericFlag "type" (Get.InputDeviceType EnumFlag.DefaultInputDeviceType)];
  Action := always [MachineInputDeviceAttach] |}.
Definition CommandInputDeviceDetach : entry := {| Usage := "VMNAME"; Flags := [GenericFlag "type" (Get.InputDeviceType EnumFlag.DefaultInputDeviceType)];
  Action := always [MachineInputDeviceDetach] |}.
Definition CommandHostDeviceAttach : entry := {| Usage := "VMNAME PCIADDR";
  Flags := [GenericFlag "multifunction" (Get.StringBool false); GenericFlag "primary-gpu" (Get.StringBool false);
  BoolFlag "no-check-device"];
  Action := always [MachineHostDeviceAttach] |}.
Definition CommandDeviceDetach : entry := {| Usage := "VMNAME PCIADDR"; Flags := []; Action := always [MachineHostDeviceDetach] |}.
Definition CommandDeviceSetOptions : entry := {| Usage := "VMNAME PCIADDR";
  Flags := [GenericFlag "multifunction" (Get.StringBool false); GenericFlag "primary-gpu" (Get.StringBool false)];
  Action := always [MachineHostDeviceSetOptions] |}.
Definition device_commands : list (list string * entry) := [
  (["channels"; "attach-vsock"], CommandChannelAttach_VSock);
  (["channels"; "detach-vsock"], CommandChannelDetach_VSock);
  (["inputs"; "attach"], CommandInputDeviceAttach);
  (["inputs"; "detach"], CommandInputDeviceDetach);
  (["hostpci"; "attach"], CommandHostDeviceAttach);
  (["hostpci"; "detach"], CommandDeviceDetach);
  (["hostpci"; "set"], CommandDeviceSetOptions)].
Definition CommandMemorySetParameters : entry := {| Usage := "VMNAME"; Flags := [IntFlag "actual" 0; IntFlag "total" 0; BoolFlag "live"];
  Action := always [MachineMemorySetParameters] |}.
Definition CommandCPUSetParameters : entry := {| Usage := "VMNAME";
  Flags := [IntFlag "actual" 0; IntFlag "total" 0; IntFlag "sockets" 0; IntFlag "quota" 0; StringFlag "model" ""; BoolFlag "live"];
  Action := always [MachineCPUSetParameters] |}.
Definition CommandBootSetParameters : entry := {| Usage := "VMNAME"; Flags := [StringFlag "firmware" ""; StringFlag "flash-device" ""; BoolFlag "remove-conf"];
  Action := always [BootParametersSet] |}.
Definition CommandExternalKernelSetParameters : entry := {| Usage := "VMNAME";
  Flags := [StringFlag "image" ""; StringFlag "initrd" ""; StringFlag "cmdline" ""; StringFlag "modiso" ""; BoolFlag "remove-conf"];
  Action := always [MachineExternalKernelSetParameters] |}.
Definition resource_commands : list (list string * entry) := [
  (["mem-limits"; "set"], CommandMemorySetParameters);
  (["cpu-limits"; "set"], CommandCPUSetParameters);
  (["boot"; "set"], CommandBootSetParameters);
  (["kernel"; "set"], CommandExternalKernelSetParameters)].
Definition CommandCloudInitDriveAttach : entry := {| Usage := "VMNAME ISO-IMAGE-FILE";
  Flags := [GenericFlag "driver" (Get.CloudInitDriver EnumFlag.DefaultCloudInitDriver)];
  Action := always [MachineCloudInitDriveAttach] |}.
Definition CommandCloudInitDriveDetach : entry := {| Usage := "VMNAME"; Flags := []; Action := always [MachineCloudInitDriveDetach] |}.
Definition CommandCloudInitDriveChangeMedia : entry := {| Usage := "VMNAME ISO-IMAGE-FILE"; Flags := [BoolFlag "live"];
  Action := always [MachineCloudInitDriveChangeMedia] |}.
Definition CommandCloudInitDriveBuildImage : entry := {| Usage := "VMNAME [OUTPUT-FILE]";
  Flags := map (λ n, StringFlag n "") ["user-config"; "vendor-config"; "platform"; "subplatform"; "cloudname"; "region"; "zone";
  "hostname"; "domain"; "timezone"];
  Action := always [MachineCloudInitDriveBuildImage] |}.
Definition cloudinit_commands : list (list string * entry) := [
  (["cloudinit"; "attach"], CommandCloudInitDriveAttach);
  (["cloudinit"; "detach"], CommandCloudInitDriveDetach);
  (["cloudinit"; "change-medium"], CommandCloudInitDriveChangeMedia);
  (["cloudinit"; "build"], CommandCloudInitDriveBuildImage)].
Definition CommandCreateConf : entry := {| Usage := "VMNAME";
  Flags := [GenericFlag "mem" (Get.IntRange {| IntRange.Min := 128; IntRange.Max := 128 |});
            GenericFlag "cpu" (Get.IntRange {| IntRange.Min := 1; IntRange.Max := 1 |}); IntFlag "cpu-quota" 0;
            StringFlag "cpu-model" ""; StringFlag "firmware" ""; StringFlag "flash-device" ""];
  Action := always [MachineCreateConf] |}.
Definition CommandRemoveConf : entry := {| Usage := "VMNAME"; Flags := []; Action := always [MachineRemoveConf] |}.
Definition CommandInspect : entry := {| Usage := "VMNAME"; Flags := [BoolFlag "events"];
  Action := λ c, if Bool c "events" then [MachineListEvents] else [MachineInspect] |}.
Definition CommandPrintList : entry := {| Usage := ""; Flags := [BoolFlag "short"];
  Action := λ c, if Bool c "short" then [MachineListNames] else [MachineList] |}.
Definition cmdVNCActivate : entry := {| Usage := "VMNAME"; Flags := [StringFlag "password" ""]; Action := always [MachineActivateVNC] |}.
Definition CommandConsole : entry := {| Usage := "VMNAME"; Flags := []; Action := always [MachineConsoleConnect] |}.
Definition machine_commands : list (list string * entry) := [
  (["create-conf"], CommandCreateConf);
  (["remove-conf"], CommandRemoveConf);
  (["inspect"], CommandInspect);
  (["list"], CommandPrintList);
  (["vnc"; "activate"], cmdVNCActivate);
  (["console"], CommandConsole)].
Definition CommandStart : entry := {| Usage := "VMNAME"; Flags := [UintFlag "wait" 0]; Action := always [MachineStart] |}.
Definition CommandStop : entry := {| Usage := "VMNAME"; Flags := [BoolFlag "wait"; BoolFlag "force"]; Action := always [MachineStop] |}.
Definition CommandRestart : entry := {| Usage := "VMNAME"; Flags := [BoolFlag "wait"]; Action := always [MachineRestart] |}.
Definition CommandReset : entry := {| Usage := "VMNAME"; Flags := []; Action := always [MachineReset] |}.
Definition control_commands : list (list string * entry) := [
  (["start"], CommandStart);
  (["stop"], CommandStop);
  (["restart"], CommandRestart);
  (["reset"], CommandReset)].
Definition CommandBackupProcessStart (fuel : nat) : entry := {| Usage := "VMNAME [DISKNAME] TARGET"; Flags := [BoolFlag "watch"; BoolFlag "incremental"; BoolFlag "clear-bitmap"];
  Action := always [BackupProcessStart fuel] |}.
Definition CommandBackupProcessShowStatus (fuel : nat) : entry := {| Usage := "VMNAME"; Flags := []; Action := always [BackupProcessShowStatus fuel] |}.
Definition CommandBackupProcessCancel : entry := {| Usage := "VMNAME [DISKNAME]"; Flags := []; Action := always [BackupProcessCancel] |}.
Definition CommandMigrationProcessStart (fuel : nat) : entry := {| Usage := "VMNAME DSTSERVER";
  Flags := [BoolFlag "watch"; BoolFlag "with-local-disks"; StringSliceFlag "with-disk"; StringFlag "override-name" "";
  GenericFlag "override-disk" (Get.StringMap ∅); GenericFlag "override-net" (Get.StringMap ∅); BoolFlag "create-disks"];
  Action := always [MigrationProcessStart fuel] |}.
Definition CommandMigrationProcessShowStatus (fuel : nat) : entry := {| Usage := "VMNAME"; Flags := []; Action := always [MigrationProcessShowStatus fuel] |}.
Definition CommandMigrationProcessCancel : entry := {| Usage := "VMNAME"; Flags := []; Action := always [MigrationProcessCancel] |}.
Definition process_commands (fuel : nat) : list (list string * entry) := [
  (["backup"; "start"], CommandBackupProcessStart fuel);
  (["backup"; "status"], CommandBackupProcessShowStatus fuel);
  (["backup"; "cancel"], CommandBackupProcessCancel);
  (["migration"; "start"], CommandMigrationProcessStart fuel);
  (["migration"; "status"], CommandMigrationProcessShowStatus fuel);
  (["migration"; "cancel"], CommandMigrationProcessCancel)].
Definition CommandPrintTasks : entry := {| Usage := ""; Flags := []; Action := always [TaskPrintList] |}.
Definition CommandPrintPCI : entry := {| Usage := ""; Flags := []; Action := always [PCI_PrintList] |}.
Definition system_commands : list (list string * entry) := [
  (["system"; "tasks"], CommandPrintTasks);
  (["system"; "pci-devices"], CommandPrintPCI)].
(** [vmm] *)
Definition vmm (fuel : nat) : list (list string * entry) :=
  machine_commands ++ resource_commands ++ device_commands ++ cdrom_commands ++ disk_commands ++ network_commands ++
  cloudinit_commands ++ control_commands ++ process_commands fuel ++ system_commands.
(** [vnetctl] *)
Definition CommandNetworkCreateConf : entry := {| Usage := "VMNAME IFNAME";
  Flags := [GenericFlag "type" (Get.NetworkSchemeType Network.Scheme_MANUAL); Uint32Flag "mtu" 0; StringSliceFlag "ip";
            StringFlag "gateway4" "auto"; StringFlag "gateway6" "auto"; Uint32Flag "in-limit" 0; Uint32Flag "out-limit" 0;
            StringFlag "parent-interface" ""; Uint32Flag "vni" 0; Uint32Flag "vlan-id" 0; StringFlag "bridge-name" ""];
  Action := always [NetworkSchemeCreateConf] |}.
Definition CommandNetworkUpdateConf : entry := {| Usage := "VMNAME IFNAME";
  Flags := [Uint32Flag "mtu" 0; StringSliceFlag "add-ip"; StringSliceFlag "del-ip"; StringFlag "gateway4" "auto";
            StringFlag "gateway6" "auto"; Uint32Flag "in-limit" 0; Uint32Flag "out-limit" 0];
  Action := always [NetworkSchemeUpdateConf] |}.
Definition CommandNetworkRemoveConf : entry := {| Usage := "VMNAME IFNAME"; Flags := []; Action := always [NetworkSchemeRemoveConf] |}.
Definition vnetctl : list (list string * entry) := [
  (["create-conf"], CommandNetworkCreateConf); (["update-conf"], CommandNetworkUpdateConf);
  (["remove-conf"], CommandNetworkRemoveConf)].

(** What the parser gives to a command. *)
Definition flag_of (c : Command) (f : flag) : Prop :=
  match f with
  | IntFlag n v => IsSet c n = false → Int c n = v
  | UintFlag n v => IsSet c n = false → Uint c n = v
  | Uint32Flag n v => IsSet c n = false → Uint32 c n = v
  | StringFlag n v => IsSet c n = false → Str c n = v
  | BoolFlag n => IsSet c n = false → Bool c n = false
  | StringSliceFlag n => IsSet c n = false → StringSlice c n = []
  | GenericFlag n v => IsSet c n = false → Value c n = Some v
  end.
Definition parsed (e : entry) (c : Command) : Prop := ArgsUsage c = Usage e ∧ Forall (flag_of c) (Flags e).
Definition run_entry (e : entry) (c : Command) : act () := CommandGRPC c (Action e c).
End commands.
End Client.
