(* ===== verification/ClientFacts.v ===== *)
(** ClientFacts: flags and what they accept, what the commands ask the daemon for, and
    how they end. *)

From S2P Require Import Prelude.
From S2P Require Import GoStd.
From S2P Require Import GoFacts.
From S2P Require Import PciAddress.
From S2P Require Import Backend.
From S2P Require Import Resources.
From S2P Require Import Drivers.
From S2P Require Import Disks.
From S2P Require Import InstanceProperties.
From S2P Require Import InstanceConf.
From S2P Require Import Server.
From S2P Require Import Services.
From S2P Require Import HostNet.
From S2P Require Import Lifecycle.
From S2P Require Import Network.
From S2P Require Import NetworkServer.
From S2P Require Import CloudInit.
From S2P Require Import LifecycleFacts.
From S2P Require Import Migration.
From S2P Require Import Api.
From S2P Require Import ApiFacts.
From S2P Require Import Flags.
From S2P Require Import Client.

Open Scope Z_scope.
#[local] Set Warnings "-register-all".

(** ** Arguments *)

Module ArgFacts.
Import Rpc Client.

Section args.
Context `{Kvmrund, Shell}.

(** Ends without looking for an argument that is not there. *)
Definition in_range {A} (m : act A) : Prop := ∀ log, (m log).1 ≠ Crashed IndexOutOfRange.

Lemma in_range_ret {A} (a : A) : in_range (mret a).
Proof. intros log. done. Qed.
Lemma in_range_bind {A B} (m : act A) (k : A → act B) : in_range m → (∀ a, in_range (k a)) → in_range (m ≫= k).
Proof.
  intros Hm Hk log. specialize (Hm log). unfold mbind, act_bind.
  destruct (m log) as [[a|f|p|n|] log']; cbn in *; [apply Hk|congruence..].
Qed.
Lemma in_range_ask q : in_range (ask q).
Proof. intros log. cbn. by destruct (answers log q). Qed.
Lemma in_range_call q : in_range (call_ q).
Proof. apply in_range_bind; [apply in_range_ask|intros; apply in_range_ret]. Qed.
Lemma in_range_caught {A} (m : act A) : in_range m → in_range (caught m).
Proof. intros Hm log. specialize (Hm log). unfold caught. by destruct (m log) as [[]]; cbn in *; [..|congruence| |]. Qed.
Lemma in_range_fail {A} f : in_range (@fail A f).
Proof. intros log. done. Qed.
Lemma in_range_nil {A} : in_range (@crash A NilDereference).
Proof. intros log. done. Qed.
Lemma in_range_sys {A} (o : A + goerr) : in_range (of_sys o).
Proof. intros log. by destruct o. Qed.
Lemma in_range_outcome {A} (o : outcome A) : (∀ p, o ≠ Panic p) → in_range (of_outcome o).
Proof. intros Ho log. destruct o; cbn; [done..|by destruct (Ho p)]. Qed.
Lemma in_range_when c m : in_range m → in_range (when c m).
Proof. intros Hm. destruct c; [done|apply in_range_ret]. Qed.
Lemma in_range_unfinished {A} : in_range (@unfinished A).
Proof. intros log. done. Qed.
Lemma in_range_tick : in_range tick.
Proof. intros log. done. Qed.
Lemma in_range_show name p : in_range (show name p).
Proof. intros log. done. Qed.
Lemma in_range_execute {A} (m : act A) : in_range m → in_range (executeGRPC m).
Proof. intros Hm. apply in_range_bind; [apply in_range_sys|done]. Qed.
Lemma in_range_arg c : (2 ≤ length (Args c))%nat → in_range (nth_arg 0 c).
Proof. intros Hl log. unfold nth_arg, Tail. by destruct (Args c) as [|a [|b l]]; cbn in *; [lia|lia|]. Qed.

Lemma Abs_no_panic p q : Abs p ≠ Panic q.
Proof. unfold Abs. by destruct (Filepath.IsAbs p), Getwd. Qed.
Lemma abs_opt_no_panic p q : abs_opt p ≠ Panic q.
Proof. unfold abs_opt. case_bool_decide; [done|apply Abs_no_panic]. Qed.
Lemma rootdir_no_panic q : qemu_rootdir ≠ Panic q.
Proof. unfold qemu_rootdir. destruct QEMU_ROOTDIR; [apply abs_opt_no_panic|done]. Qed.
Lemma contents_no_panic f q : contents f ≠ Panic q.
Proof. unfold contents. case_bool_decide; [done|]. by destruct (ReadFile _). Qed.
Lemma firmware_no_panic c q : firmware_of c ≠ Panic q.
Proof.
  unfold firmware_of, mbind, outcome_bind. destruct (_ && _); [|done]. destruct (bool_decide _).
  - destruct (abs_opt _) eqn:E; [done..|by destruct (abs_opt_no_panic _ _ E)].
  - destruct (Abs _) eqn:E1; [|done|by destruct (Abs_no_panic _ _ E1)].
    destruct (abs_opt _) eqn:E; [done..|by destruct (abs_opt_no_panic _ _ E)].
Qed.
Lemma attrs_no_panic c q : scheme_attrs c ≠ Panic q.
Proof. unfold scheme_attrs. by destruct (scheme_of c). Qed.
Lemma name_no_panic n q : ValidateMachineName n ≠ Panic q.
Proof. unfold ValidateMachineName. by destruct (_ && _). Qed.
End args.

Create HintDb client.
#[export] Hint Resolve in_range_ret in_range_ask in_range_call in_range_fail in_range_nil in_range_sys in_range_unfinished
  in_range_tick in_range_show in_range_arg : client.
#[export] Hint Resolve Abs_no_panic abs_opt_no_panic rootdir_no_panic contents_no_panic firmware_no_panic attrs_no_panic
  name_no_panic Pci.AddressFromHex_panic : client.

(** Split a command into its calls. *)
Ltac in_range :=
  repeat match goal with
         | |- in_range (mbind _ _) => apply in_range_bind; [|intros]
         | |- in_range (when _ _) => apply in_range_when
         | |- in_range (caught _) => apply in_range_caught
         | |- in_range (executeGRPC _) => apply in_range_execute
         | |- in_range (of_outcome _) => apply in_range_outcome; intros ?
         | |- in_range (ask ?q) => exact (in_range_ask q)
         | |- in_range (match ?x with _ => _ end) => destruct x
         | |- in_range _ => solve [auto with client]
         | |- match ?x with _ => _ end ≠ Panic _ => destruct x
         | |- Ret _ ≠ Panic _ => discriminate
         | |- _ => solve [eauto with client]
         end.

Section commands.
Context `{Kvmrund, Shell, HostNet.MapOrder}.

Lemma in_range_show_all bars : in_range (show_all bars).
Proof. induction bars as [|[name p] bars IH]; cbn [show_all]; in_range; done. Qed.
Hint Resolve in_range_show_all : client.
Lemma in_range_migration_collect vm names key fuel : in_range (migration_collect vm names key fuel).
Proof. induction fuel; cbn [migration_collect]; in_range; done. Qed.
Lemma in_range_round labels w : in_range (watch_round labels w).
Proof. revert w. induction labels as [|[d l] labels IH]; intros w; cbn [watch_round]; in_range; apply IH. Qed.
Lemma in_range_backup_collect labels w fuel : in_range (backup_collect labels w fuel).
Proof. revert w. induction fuel; intros w; cbn [backup_collect]; in_range; apply in_range_round. Qed.
Lemma in_range_migration_status fuel n c : in_range (MigrationProcessShowStatus fuel n c).
Proof. unfold MigrationProcessShowStatus. in_range. apply in_range_migration_collect. Qed.
Lemma in_range_backup_status fuel n c : in_range (BackupProcessShowStatus fuel n c).
Proof.
  unfold BackupProcessShowStatus, reported. in_range; apply in_range_backup_collect.
Qed.
Hint Resolve in_range_migration_status in_range_backup_status : client.

(** Every command asks for no more arguments than its usage tells of. *)
Definition sound (e : entry) : Prop :=
  ∀ n c f, f ∈ Action e c → (requiredArgs (Usage e) ≤ length (Args c))%nat → in_range (f n c).

Lemma in_range_turn fns n c : (∀ f, f ∈ fns → in_range (f n c)) → in_range (in_turn fns n c).
Proof.
  induction fns as [|f fns IH]; intros Hf; cbn [in_turn]; [apply in_range_ret|].
  apply in_range_bind; [apply Hf; left|intros _; apply IH; intros; apply Hf; by right].
Qed.
Lemma in_range_entry e c : sound e → ArgsUsage c = Usage e → in_range (run_entry e c).
Proof.
  intros He Hu. unfold run_entry, CommandGRPC. rewrite Hu. destruct (Nat.ltb_spec (length (Args c)) (requiredArgs (Usage e))); [by intros log|].
  apply in_range_execute, in_range_turn. intros f Hf. by apply He.
Qed.

(** The functions of an entry, one at a time. *)
Ltac head_of t := match t with ?f _ => head_of f | _ => t end.
Ltac one_entry :=
  intros n c f Hf Hl;
  match type of Hf with _ ∈ Action ?e _ => let h := head_of e in unfold h in Hf, Hl end;
  unfold always in Hf; cbn [Action Usage] in Hf, Hl;
  match type of Hl with (requiredArgs ?u ≤ _)%nat =>
    let k := eval vm_compute in (requiredArgs u) in change (k ≤ length (Args c))%nat in Hl end;
  repeat case_match;
  repeat (apply elem_of_cons in Hf as [-> | Hf]; [|]); try (by apply elem_of_nil in Hf);
  try (first [apply in_range_migration_status | apply in_range_backup_status]);
  match goal with |- in_range ?t => let f := head_of t in unfold f end;
  unfold pci_arg, disks_of; in_range.

Lemma sound_vmm fuel e : e ∈ map snd (vmm fuel ++ vnetctl) → sound e.
Proof.
  revert e. apply Forall_forall. unfold vmm, vnetctl. cbn.
  repeat (apply Forall_cons_2; [one_entry|]). constructor.
Qed.

(** no command line makes a command of [vmm] or [vnetctl] look for an argument that
    was not given: where the usage asks for more, the help is shown instead. *)
Theorem commands_in_range fuel e c log : e ∈ map snd (vmm fuel ++ vnetctl) → ArgsUsage c = Usage e →
  (run_entry e c log).1 ≠ Crashed IndexOutOfRange.
Proof. intros He Hc. by apply in_range_entry; [apply sound_vmm in He|]. Qed.
End commands.
End ArgFacts.

(** ** What the daemon is asked for *)

Module AskFacts.
Import Rpc Client MachineService.

Section asks.
Context `{Kvmrund, Shell}.

(** [m] makes the calls [wanted] one after another, up to the first that is refused,
    and ends as that one did. *)
Definition sends (wanted : list call) (m : act ()) : Prop := ∀ log, ∃ made rest,
  wanted = made ++ rest ∧ (m log).2 = log ++ made ∧
  ((m log).1 = Done () ∧ rest = [] ∨
   ∃ before q f, made = before ++ [q] ∧ answers (log ++ before) q = inr f ∧ (m log).1 = Failed f).

Lemma sends_nil : sends [] (mret ()).
Proof. intros log. exists [], []. rewrite !app_nil_r. split_and!; [done..|by left]. Qed.
Lemma sends_call q : sends [q] (call_ q).
Proof.
  intros log. exists [q], []. split; [done|].
  unfold call_, mbind, act_bind, ask. destruct (answers log q) as [a|f] eqn:E; cbn; (split; [done|]).
  - by left.
  - right. exists [], q, f. by rewrite app_nil_r.
Qed.
Lemma sends_bind w1 w2 m1 m2 : sends w1 m1 → sends w2 m2 → sends (w1 ++ w2) (m1;; m2).
Proof.
  intros H1 H2 log. destruct (H1 log) as (k1 & r1 & -> & Hl & Hr). unfold mbind, act_bind.
  destruct (m1 log) as [e log1]; cbn in *; subst log1. destruct Hr as [[-> ->]|(b & q & f & -> & Hf & ->)].
  - destruct (H2 (log ++ k1)) as (k2 & r2 & -> & Hl2 & Hr2). exists (k1 ++ k2), r2.
    rewrite app_nil_r, Hl2. split_and!; [by rewrite app_assoc|by rewrite app_assoc|].
    destruct Hr2 as [[Hd ->]|(b & q & f & -> & Hf & Hd)]; [by left|right].
    exists (k1 ++ b), q, f. split_and!; [by rewrite app_assoc|by rewrite app_assoc|done].
  - exists (b ++ [q]), (r1 ++ w2). rewrite <- !app_assoc. split; [done|]. split; [by rewrite app_assoc|]. right. by exists b, q, f.
Qed.
Lemma sends_when (b : bool) w m : sends w m → sends (if b then w else []) (when b m).
Proof. intros Hm. destruct b; [done|apply sends_nil]. Qed.
Lemma sends_turn_one w (f : string → Command → act ()) n c : sends w (f n c) → sends w (in_turn [f] n c).
Proof. intros Hf. cbn [in_turn]. rewrite <- (app_nil_r w). by apply sends_bind; [|apply sends_nil]. Qed.
Lemma sends_turn w w' (f : string → Command → act ()) fns n c :
  sends w (f n c) → sends w' (in_turn fns n c) → sends (w ++ w') (in_turn (f :: fns) n c).
Proof. apply sends_bind. Qed.
Lemma sends_arg n d rest c w (k : string → act ()) : Args c = n :: d :: rest → sends w (k d) → sends w (d ← nth_arg 0 c; k d).
Proof. intros Ha Hk log. unfold nth_arg, Tail. rewrite Ha. apply Hk. Qed.
Lemma sends_entry e c w : connection = inl () → ArgsUsage c = Usage e → (requiredArgs (Usage e) ≤ length (Args c))%nat →
  sends w (in_turn (Action e c) (First c) c) → sends w (run_entry e c).
Proof.
  intros Hc Hu Hl Hs log. unfold run_entry, CommandGRPC, executeGRPC. rewrite Hu.
  destruct (Nat.ltb_spec (length (Args c)) (requiredArgs (Usage e))); [lia|].
  unfold of_sys, mbind, act_bind. rewrite Hc. apply Hs.
Qed.

(** What the commands that set several things ask for. *)
Definition if_set {A} (c : Command) (name : string) (q : A) : list A := if IsSet c name then [q] else [].
Definition disk_settings (vm d : string) (c : Command) : list call :=
  (if IsSet c "remove-bitmap" && Bool c "remove-bitmap" then [Configure (DiskRemoveQemuBitmap vm d)] else []) ++
  if_set c "iops-rd" (Configure (DiskSetReadLimit vm d (uint32 (Int c "iops-rd")) (Bool c "live"))) ++
  if_set c "iops-wr" (Configure (DiskSetWriteLimit vm d (uint32 (Int c "iops-wr")) (Bool c "live"))).
Definition cdrom_settings (vm d : string) (c : Command) : list call :=
  (if IsSet c "remove-media" && Bool c "remove-media" then [Configure (CdromRemoveMedia vm d false)] else []) ++
  if_set c "media" (Configure (CdromChangeMedia vm d (Str c "media") (Bool c "live"))).
Definition cpu_settings (vm : string) (c : Command) : list call :=
  (if IsSet c "actual" || IsSet c "total"
   then [Configure (CPUSetLimits vm (uint32 (Int c "actual")) (uint32 (Int c "total")) (Bool c "live"))] else []) ++
  if_set c "sockets" (Configure (CPUSetSockets vm (uint32 (Int c "sockets")))) ++
  if_set c "quota" (Configure (CPUSetQuota vm (uint32 (Int c "quota")) (Bool c "live"))) ++
  if_set c "model" (Configure (CPUSetModel vm (Str c "model"))).

Lemma at_least (n : nat) m k : (n <=? m)%nat = true → (n ≤ m + k)%nat.
Proof. intros ?%Nat.leb_le. lia. Qed.

(** C9: the commands that set several things of a disk, a cdrom or the processors ask the
    daemon for those that were written and for nothing else, in one order; the first
    that is refused ends the command, and the ones after it are not asked for.
    Numbers are asked for modulo 2^32, and --live is passed on where the command
    does so: not with the number of sockets, the model, a bitmap and the removal
    of a medium. *)
Theorem settings_in_order vm rest c : connection = inl () → Args c = vm :: rest →
  (∀ d rest', rest = d :: rest' → ArgsUsage c = Usage CommandDiskSetParameters →
     sends (disk_settings vm d c) (run_entry CommandDiskSetParameters c)) ∧
  (∀ d rest', rest = d :: rest' → ArgsUsage c = Usage CommandCdromSetParameters →
     sends (cdrom_settings vm d c) (run_entry CommandCdromSetParameters c)) ∧
  (ArgsUsage c = Usage CommandCPUSetParameters → sends (cpu_settings vm c) (run_entry CommandCPUSetParameters c)).
Proof.
  intros Hc Ha.
  assert (First c = vm) as Hf by (unfold First; by rewrite Ha).
  split_and!; [intros d rest' -> Hu|intros d rest' -> Hu|intros Hu];
    (apply sends_entry; [done|done|rewrite Ha; cbn [Usage length]; (apply (at_least _ 2) || apply (at_least _ 1)); vm_compute; reflexivity|]);
    rewrite Hf; cbn [Action].
  - unfold disk_settings. repeat (apply sends_turn || apply sends_turn_one); apply sends_when; eapply sends_arg, sends_call; done.
  - unfold cdrom_settings. repeat (apply sends_turn || apply sends_turn_one); apply sends_when; eapply sends_arg, sends_call; done.
  - unfold cpu_settings. apply sends_turn_one. repeat apply sends_bind; apply sends_when, sends_call.
Qed.
End asks.
End AskFacts.

(** ** A machine that is made *)

Module CreateFacts.
Import Rpc Client MachineService.

Section create.
Context `{Kvmrund, Shell}.

Lemma no_devices `{Env} o : MachineOpts.Inputs o = [] → MachineOpts.Cdrom o = [] → MachineOpts.Storage o = [] →
  MachineOpts.Network o = [] → MachineOpts.HostPCI o = [] → Conv.propertiesFromMachineOpts (Some o) = Ret (Conv.plain o).
Proof.
  intros E1 E2 E3 E4 E5. unfold Conv.propertiesFromMachineOpts, Conv.append_devices. rewrite E1, E2, E3, E4, E5. done.
Qed.
Definition nothing (p : InstanceProperties.t) : Prop :=
  InstanceProperties.Memory_ p = {| Memory.Actual := 0; Memory.Total := 0 |} ∧
  VirtCPU.Actual (InstanceProperties.CPU p) = 0 ∧ VirtCPU.Total (InstanceProperties.CPU p) = 0.
Lemma validate_nothing p q m : InstanceProperties.MachineType_ p = "" → 0 ≤ q →
  InstanceProperties.Memory_ p = {| Memory.Actual := 0; Memory.Total := 0 |} →
  InstanceProperties.CPU p = {| VirtCPU.Actual := 0; VirtCPU.Total := 0; VirtCPU.Sockets := 0; VirtCPU.Quota := q; VirtCPU.Model := m |} →
  ∃ p', InstanceProperties.Validate true p = (Ret (), p') ∧ nothing p'.
Proof.
  destruct p. cbn. intros -> Hq -> ->. unfold InstanceProperties.Validate, zoom, Memory.Validate, VirtCPU.Validate. go_unfold. cbn.
  destruct (Z.ltb_spec q 0); [lia|]. cbn. eexists. by repeat split.
Qed.
(** A command whose arguments are enough. *)
Lemma run_one e c f log : connection = inl () → ArgsUsage c = Usage e → (requiredArgs (Usage e) ≤ length (Args c))%nat →
  Action e c = [f] → (run_entry e c log).2 = (f (First c) c log).2.
Proof.
  intros Hc Hu Hl Hf. unfold run_entry, CommandGRPC, executeGRPC. rewrite Hu, Hf.
  destruct (Nat.ltb_spec (length (Args c)) (requiredArgs (Usage e))); [lia|].
  unfold of_sys, mbind, act_bind. rewrite Hc. cbn [in_turn]. unfold mbind, act_bind.
  by destruct (f (First c) c log) as [[] ?].
Qed.
Lemma call_log q log : (call_ q log).2 = log ++ [q].
Proof. unfold call_, ask, mbind, act_bind. by destruct (answers log q). Qed.

(** C11: the ranges of memory and processors of [vmm create-conf] are not sent.  The flags
    hold ranges, and the command looks for pointers to ranges: if a flag is told as its
    [Get] returns it (as it must be for any driver to be told), the daemon is asked for a
    machine with no memory and no processor, and makes one of 128 MiB with one processor,
    whatever was written. *)
Theorem create_conf_ranges `{Env} c vm fw root mem cpu log :
  connection = inl () → ArgsUsage c = Usage CommandCreateConf → Args c = [vm] →
  Value c "mem" = Some (Get.IntRange mem) → Value c "cpu" = Some (Get.IntRange cpu) →
  firmware_of c = Ret fw → qemu_rootdir = Ret root →
  let opts := create_opts c fw in
  (run_entry CommandCreateConf c log).2 = log ++ [Create vm opts root] ∧
  ∃ p p', Conv.propertiesFromMachineOpts (Some opts) = Ret p ∧ InstanceProperties.Validate true p = (Ret (), p') ∧
    let made := (Lifecycle.set_resources p' (InstanceConf.props (InstanceConf.newInstanceConf vm))).2 in
    InstanceProperties.Memory_ made = {| Memory.Actual := 128; Memory.Total := 128 |} ∧
    VirtCPU.Actual (InstanceProperties.CPU made) = 1 ∧ VirtCPU.Total (InstanceProperties.CPU made) = 1.
Proof.
  intros Hc Hu Ha Hm Hp Hfw Hr opts. split.
  - rewrite (run_one _ _ MachineCreateConf) by (done || (rewrite Ha; apply Nat.leb_le; vm_compute; reflexivity)).
    unfold First. rewrite Ha. unfold MachineCreateConf, of_outcome. unfold mbind at 1 2, act_bind.
    rewrite Hfw, Hr. apply call_log.
  - assert (range_of "mem" c = (0, 0) ∧ range_of "cpu" c = (0, 0)) as [Hm0 Hp0] by (unfold range_of; by rewrite Hm, Hp).
    assert (∃ p', InstanceProperties.Validate true (Conv.plain opts) = (Ret (), p') ∧ nothing p') as (p' & Hv & Hpm & Hpa & Hpt).
    { apply (validate_nothing _ (uint32 (Int c "cpu-quota")) (Str c "cpu-model")); [done|apply Z.mod_pos_bound; lia|..];
        unfold opts, create_opts; by rewrite ?Hm0, ?Hp0. }
    exists (Conv.plain opts), p'. split; [by apply no_devices|split; [done|]].
    rewrite (LifecycleFacts.set_resources_run vm _ _ Hv). cbn. rewrite Hpm, Hpa, Hpt.
    done.
Qed.
End create.
End CreateFacts.

(** ** Interfaces going up and down *)

Module IfupFacts.
Import Rpc Client.

Lemma absolute_no_name p : Filepath.IsAbs p = true → ValidateMachineName p ≠ Ret ().
Proof. intros (t & ->)%HasPrefix_Some. unfold ValidateMachineName. done. Qed.

Section ifup.
Context `{Kvmrund, Shell}.

(** [ifup] and [ifdown] never reach the daemon.  They take the path of the working
    directory for the name of the machine, and a path that starts at the root is no name:
    both end with an error and exit with 1, whatever the interface. *)
Theorem ifupdown_refused p progname c log :
  Getwd = inl p → Filepath.IsAbs p = true → IsSet c "test-second-stage-feature" = false →
  progname = "ifup" ∨ progname = "ifdown" → (∀ i, ∃ r, answers log (LinkByName i) = inl r) →
  (∃ r, answers log (StatFile "./config_network") = inl r) →
  let r := ifupdownMain progname c log in
  exit_code r.1 = Some 1 ∧ ∀ q, Network q ∉ drop (length log) r.2.
Proof.
  intros Hwd Hp Hset Hprog Hl Hs. unfold ifupdownMain. rewrite Hset.
  pose proof (absolute_no_name p Hp) as Hn.
  assert (∃ e, ValidateMachineName p = Throw e) as [e He].
  { revert Hn. unfold ValidateMachineName. destruct (_ && _); [done|by eexists]. }
  destruct Hprog as [-> | ->].
  - destruct (Hl (Strings.TrimSpace (First c))) as [[] Hi]. rewrite bool_decide_eq_true_2 by done.
    unfold InterfaceUp, caught, of_sys, of_outcome, mbind, act_bind, ask. rewrite Hi, Hwd, He. cbn.
    split; [done|]. intros q. rewrite drop_app_length. by intros ?%list_elem_of_singleton.
  - destruct Hs as [[] Hi]. rewrite bool_decide_eq_false_2, bool_decide_eq_true_2 by done.
    unfold InterfaceDown, of_sys, of_outcome, mbind, act_bind, ask. rewrite Hi, Hwd, He. cbn.
    split; [done|]. intros q. rewrite drop_app_length. by intros ?%list_elem_of_singleton.
Qed.
End ifup.
End IfupFacts.

(** ** Disks *)

Module DiskAsks.
Import Rpc Client CreateFacts MachineService.

(** What the parser says of a command line without flags. *)
Definition no_flags (c : Command) : Prop := ∀ n, IsSet c n = false.
Lemma uint32_id n : uint32 n = n ↔ 0 ≤ n < 2 ^ 32.
Proof.
  unfold uint32, Enums.uint32. split; [|by apply Z.mod_small].
  pose proof (Z.mod_pos_bound n (2 ^ 32) ltac:(lia)). lia.
Qed.
Lemma int32_id n : int32 n = n ↔ - 2 ^ 31 ≤ n < 2 ^ 31.
Proof.
  unfold int32. split.
  - pose proof (Z.mod_pos_bound (n + 2 ^ 31) (2 ^ 32) ltac:(lia)). lia.
  - intros ?. rewrite Z.mod_small; lia.
Qed.

Section disks.
Context `{Kvmrund, Shell}.

(** What the service makes of the only call of a command. *)
Definition told (m : act ()) (log : list call) : option (string * option Server.request) :=
  match drop (length log) (m log).2 with
  | [Configure q] => Some (forwarded q)
  | _ => None
  end.

(** C10: [vmm storage attach VM DISK] hands the core the path and the driver that were
    written, and the limits, the boot index and the position if they fit in 32 bits: no
    limit, no boot index and the end of the list when they were not written.  A limit
    that does not fit, a negative one among them, is another limit for the core. *)
Theorem disk_attach_told vm path rest c n log : connection = inl () → parsed CommandDiskAttach c → Args c = vm :: path :: rest →
  Value c "driver" = Some (Get.DiskDriver n) →
  ∃ o pos, told (run_entry CommandDiskAttach c) log = Some (vm, Some (Server.ReqDiskAttach (Some o) pos (Bool c "live"))) ∧
    Disk.Path o = path ∧ Disk.Driver o = Enums.dashed Enums.DiskDriver n ∧
    (Disk.IopsRd o = Int c "iops-rd" ↔ 0 ≤ Int c "iops-rd" < 2 ^ 32) ∧
    (Disk.IopsWr o = Int c "iops-wr" ↔ 0 ≤ Int c "iops-wr" < 2 ^ 32) ∧
    (Disk.Bootindex o = Int c "bootindex" ↔ - 2 ^ 31 ≤ Int c "bootindex" < 2 ^ 31) ∧
    (pos = Int c "position" ↔ - 2 ^ 31 ≤ Int c "position" < 2 ^ 31) ∧
    (no_flags c → Disk.IopsRd o = 0 ∧ Disk.IopsWr o = 0 ∧ Disk.Bootindex o = 0 ∧ pos = -1 ∧ Bool c "live" = false ∧
       DriverTypeValue (Disk.Driver o) = DiskDriverType_VIRTIO_BLK_PCI).
Proof.
  intros Hc [Hu Hp] Ha Hd.
  eexists _, _. unfold told. rewrite (run_one _ _ MachineDiskAttach) by (done || (rewrite Ha; apply Nat.leb_le; vm_compute; reflexivity)).
  unfold First. rewrite Ha. unfold MachineDiskAttach, nth_arg, Tail, DiskDriver_of. rewrite Ha, Hd. cbn [tail lookup list_lookup head default].
  unfold mbind at 1, act_bind at 1, mret, act_ret. rewrite call_log, drop_app_length. cbn [forwarded].
  split; [reflexivity|]. cbn [Disk.Path Disk.Driver Disk.IopsRd Disk.IopsWr Disk.Bootindex optsFromDiskAttachRequest
    da_DiskPath da_Driver da_IopsRd da_IopsWr da_Bootindex da_Position].
  split_and!; [done|done|apply uint32_id..|apply int32_id|apply int32_id|].
  intros Hno. cbn [Flags CommandDiskAttach] in Hp. rewrite !Forall_cons in Hp. unfold flag_of in Hp.
  destruct Hp as (H1 & H2 & H3 & H4 & H5 & H6 & _). rewrite H2, H3, H4, H5, H6 by apply Hno.
  rewrite H1 in Hd by apply Hno. by injection Hd as <-.
Qed.
End disks.
End DiskAsks.

(** ** Examples *)

Module ClientExample.
Import Rpc Client ArgFacts AskFacts CreateFacts IfupFacts DiskAsks MachineService.

Definition at_root : Shell :=
  {| Getwd := inl "/root"; QEMU_ROOTDIR := None; ReadFile := λ p, inr (ErrNotExist p); connection := inl () |}.
#[local] Instance any_map : HostNet.MapOrder := λ A m, map_to_list m.
(** A daemon that does whatever it is asked, and knows no machine. *)
Definition obliging : Kvmrund := λ log q,
  match q return reply q + failure with
  | Configure _ | Start _ _ | Stop _ _ _ | Restart _ _ | Reset _ | StartDiskBackup _ | StartMigration _ | Network _ | CancelTask _
  | ListPCI | Tick | Show _ _ | LinkByName _ | StatFile _ | Exec _ => inl ()
  | _ => inr (Status Rpc.NotFound "")
  end.
#[local] Existing Instances at_root obliging.
(** A command line without flags, by its arguments, and with some flags. *)
Definition line (usage : string) (args set : list string) (int : string → Z) (value : string → option any) : Command := {|
  ArgsUsage := usage; Args := args; Int := int; Uint := λ _, 0; Uint32 := λ _, 0; Str := λ _, ""; Bool := λ _, false;
  StringSlice := λ _, []; IsSet := λ n, bool_decide (n ∈ set); Value := value |}.
Definition told_of (args : list string) : Command := line "VMNAME" args [] (λ _, 0) (λ _, None).

Example commands_in_range_witness :
  (run_entry CommandDiskAttach (line "VMNAME DISK" ["vm1"] [] (λ _, 0) (λ _, None)) []).1 ≠ Crashed IndexOutOfRange.
Proof.
  apply (commands_in_range 0 CommandDiskAttach (line "VMNAME DISK" ["vm1"] [] (λ _, 0) (λ _, None)) []);
    [|reflexivity].
  apply (list_elem_of_lookup_2 _ 20). reflexivity.
Defined.

Definition cpus : Command := line "VMNAME" ["vm1"] ["quota"; "sockets"] (λ n, if bool_decide (n = "quota") then 150 else 2) (λ _, None).
Example settings_in_order_witness :
  sends [Configure (CPUSetSockets "vm1" 2); Configure (CPUSetQuota "vm1" 150 false)]
    (run_entry CommandCPUSetParameters cpus).
Proof. exact (proj2 (proj2 (settings_in_order "vm1" [] cpus eq_refl eq_refl)) eq_refl). Defined.

Definition plain_env : Env := {| os_Getwd := inl "/root"; url_Parse := λ s, inr (ErrMsg s) |}.
#[local] Existing Instance plain_env.
Definition big : Command := line "VMNAME" ["vm1"] ["mem"; "cpu"] (λ _, 0) (λ n,
  if bool_decide (n = "mem") then Some (Get.IntRange {| IntRange.Min := 4096; IntRange.Max := 8192 |})
  else if bool_decide (n = "cpu") then Some (Get.IntRange {| IntRange.Min := 4; IntRange.Max := 8 |}) else None).
Example create_conf_ranges_witness :
  (run_entry CommandCreateConf big []).2 = [Create "vm1" (create_opts big None) ""].
Proof.
  exact (proj1 (create_conf_ranges big "vm1" None "" _ _ [] eq_refl eq_refl eq_refl eq_refl eq_refl eq_refl eq_refl)).
Defined.
Example ifupdown_refused_witness :
  exit_code (ifupdownMain "ifup" (line "" ["vm1_0"] [] (λ _, 0) (λ _, None)) []).1 = Some 1.
Proof.
  apply (ifupdown_refused "/root" "ifup" (line "" ["vm1_0"] [] (λ _, 0) (λ _, None)) []); try reflexivity.
  - by left.
  - intros i. by exists ().
  - by exists ().
Defined.

Definition attach : Command := line "VMNAME DISK" ["vm1"; "/dev/vg/a"] []
  (λ n, if bool_decide (n = "position") then -1 else 0) (λ _, Some (Get.DiskDriver EnumFlag.DefaultDiskDriver)).
Example disk_attach_told_witness : ∃ o,
  told (run_entry CommandDiskAttach attach) [] = Some ("vm1", Some (Server.ReqDiskAttach (Some o) (-1) false)) ∧
  Disk.Path o = "/dev/vg/a".
Proof.
  destruct (@disk_attach_told obliging at_root "vm1" "/dev/vg/a" [] attach 1 [] eq_refl) as (o & pos & Ht & Hp & _ & _ & _ & _ & _ & Hno).
  - split; [reflexivity|]. repeat constructor.
  - reflexivity.
  - reflexivity.
  - exists o. split; [|exact Hp]. rewrite Ht. destruct (Hno (λ n, eq_refl)) as (_ & _ & _ & -> & _). reflexivity.
Defined.
End ClientExample.

(** ** The commands that watch a task *)

(** ** Watching tasks *)

Module WatchFacts.
Import Rpc Client.

Section watch.
Context `{Kvmrund, Shell, HostNet.MapOrder}.

(** A task that has ended, or cannot be asked about. *)
Definition over (r : TaskService.TaskInfo + failure) : Prop :=
  match r with
  | inl t => TaskService.State t = TaskService.TaskInfo_COMPLETED ∨ TaskService.State t = TaskService.TaskInfo_FAILED
  | inr _ => True
  end.
(** From the [N]th call on, the tasks of these labels are over. *)
Definition over_after (N : nat) (labels : list string) : Prop :=
  ∀ log label, (N ≤ length log)%nat → label ∈ labels → over (answers log (GetTask label)).

Lemma watched_disc w disk label r :
  discontinued (watched w disk label r) = discontinued w ∨ discontinued (watched w disk label r) = {[label]} ∪ discontinued w.
Proof. destruct r as [t|f]; cbn; repeat case_match; auto. Qed.
Lemma watched_over w disk label r : over r → discontinued (watched w disk label r) = {[label]} ∪ discontinued w.
Proof.
  destruct r as [t|f]; cbn; [|by case_match].
  destruct (Z.eqb_spec (TaskService.State t) TaskService.TaskInfo_COMPLETED); [done|].
  destruct (Z.eqb_spec (TaskService.State t) TaskService.TaskInfo_FAILED); [done|]. tauto.
Qed.

(** A question, what is shown, and the tick after it. *)
Lemma watch_step disk label labels w log : label ∉ discontinued w →
  watch_round ((disk, label) :: labels) w log =
  watch_round labels (watched w disk label (answers log (GetTask label))) (log ++ [GetTask label; Show disk (progress_of (answers log (GetTask label))); Tick]).
Proof.
  intros Hl. cbn [watch_round]. rewrite decide_False by done.
  unfold caught, ask, show, tick, mbind, act_bind, mret, act_ret.
  destruct (answers log (GetTask label)); by rewrite <- !app_assoc.
Qed.
Lemma watch_skip disk label labels w log : label ∈ discontinued w →
  watch_round ((disk, label) :: labels) w log = watch_round labels w log.
Proof. intros Hl. cbn [watch_round]. by rewrite decide_True. Qed.

Definition names (labels : list (string * string)) : gset string := list_to_set labels.*2.
Lemma names_cons d l labels : names ((d, l) :: labels) = {[l]} ∪ names labels.
Proof. done. Qed.

(** What a round leaves. *)
Lemma round_run labels : ∀ w log, ∃ w' log', watch_round labels w log = (Done w', log') ∧
  discontinued w ⊆ discontinued w' ∧ discontinued w' ⊆ discontinued w ∪ names labels ∧
  (length log ≤ length log')%nat ∧
  (¬ names labels ⊆ discontinued w' → (length log < length log')%nat) ∧
  (∀ N, over_after N labels.*2 → (N ≤ length log)%nat → names labels ⊆ discontinued w').
Proof.
  induction labels as [|[d l] labels IH]; intros w log.
  { exists w, log. change (names []) with (∅ : gset string). split_and!; [done|done|set_solver|lia|set_solver|set_solver]. }
  destruct (decide (l ∈ discontinued w)) as [Hl|Hl].
  - rewrite watch_skip by done. destruct (IH w log) as (w' & log' & -> & Hin & Hout & Hlen & Hmore & Hover).
    exists w', log'. rewrite names_cons. split_and!; [done|done|set_solver|done| |].
    + intros Hn. apply Hmore. set_solver.
    + intros N HN Hle. assert (names labels ⊆ discontinued w'); [|set_solver].
      apply (Hover N); [|done]. intros log0 l0 ? ?. apply HN; [done|]. cbn. by right.
  - rewrite watch_step by done. set (w1 := watched _ _ _ _). set (log1 := log ++ _).
    assert (length log < length log1)%nat as Hlog by (unfold log1; rewrite length_app; cbn; lia).
    destruct (IH w1 log1) as (w' & log' & -> & Hin & Hout & Hlen & _ & Hover).
    exists w', log'. rewrite names_cons. pose proof (watched_disc w d l (answers log (GetTask l))) as Hw. fold w1 in Hw.
    split_and!; [done|destruct Hw as [<-|Hw]; [done|set_solver]|destruct Hw as [Hw|Hw]; rewrite Hw in Hout; set_solver|lia|intros _; lia|].
    intros N HN Hle. assert (names labels ⊆ discontinued w').
    { apply (Hover N); [|lia]. intros log0 l0 ? ?. apply HN; [done|]. cbn. by right. }
    assert (l ∈ discontinued w'); [|set_solver]. apply Hin. unfold w1. rewrite watched_over; [set_solver|].
    apply HN; [done|]. cbn. left.
Qed.

Lemma names_size labels : NoDup labels.*2 → size (names labels) = length labels.
Proof. intros Hnd. unfold names. rewrite size_list_to_set by done. by rewrite length_fmap. Qed.
Lemma names_le labels : (size (names labels) ≤ length labels)%nat.
Proof.
  induction labels as [|[d l] labels IH]; [done|]. rewrite names_cons. cbn [length].
  destruct (decide (l ∈ names labels)).
  - by rewrite subseteq_union_1_L by set_solver; lia.
  - rewrite size_union, size_singleton by set_solver. lia.
Qed.
Lemma names_small labels : ¬ NoDup labels.*2 → (size (names labels) < length labels)%nat.
Proof.
  induction labels as [|[d l] labels IH]; intros Hn; [by destruct Hn; constructor|].
  rewrite names_cons. cbn [length]. destruct (decide (l ∈ names labels)) as [Hl|Hl].
  - pose proof (names_le labels). rewrite subseteq_union_1_L by set_solver. lia.
  - assert (¬ NoDup labels.*2) as Hnd.
    { intros ?. apply Hn. constructor; [|done]. intros Hin. apply Hl. by apply elem_of_list_to_set. }
    specialize (IH Hnd). rewrite size_union, size_singleton by set_solver. lia.
Qed.

Definition fresh : watching := {| discontinued := ∅; terrs := ∅ |}.

Lemma collect_ends labels N fuel : NoDup labels.*2 → over_after N labels.*2 → ∀ w log,
  (N ≤ fuel + length log)%nat → discontinued w ⊆ names labels →
  ∃ w' log', backup_collect labels w (S fuel) log = (Done w', log').
Proof.
  intros Hnd HN. induction fuel as [|fuel IH]; intros w log Hlen Hw.
  all: destruct (round_run labels w log) as (w' & log' & Hr & _ & Hout & Hlog & Hmore & Hover).
  all: assert (discontinued w' ⊆ names labels) as Hw' by set_solver.
  all: cbn [backup_collect]; unfold mbind, act_bind; rewrite Hr.
  - rewrite decide_True; [by eexists _, _|]. assert (names labels ⊆ discontinued w') by (by apply (Hover N); [|lia]).
    replace (discontinued w') with (names labels) by set_solver. by apply names_size.
  - case_decide as Hs; [by eexists _, _|]. apply IH; [|done].
    assert (length log < length log')%nat; [|lia]. apply Hmore. intros Hsub. apply Hs.
    replace (discontinued w') with (names labels) by set_solver. by apply names_size.
Qed.
Lemma collect_stuck labels fuel : ¬ NoDup labels.*2 → ∀ w log, discontinued w ⊆ names labels →
  (backup_collect labels w fuel log).1 = Unfinished.
Proof.
  intros Hnd. induction fuel as [|fuel IH]; intros w log Hw; [done|].
  destruct (round_run labels w log) as (w' & log' & Hr & _ & Hout & _).
  cbn [backup_collect]. unfold mbind, act_bind. rewrite Hr.
  assert (discontinued w' ⊆ names labels) as Hw' by set_solver.
  pose proof (names_small labels Hnd). pose proof (subseteq_size _ _ Hw').
  rewrite decide_False by lia. by apply IH.
Qed.
Lemma labels_NoDup vm disks : NoDup (labels_of vm disks).*2 ↔ NoDup (map (Filepath.Base ∘ MachineOpts.d_Path) disks).
Proof.
  unfold labels_of. rewrite <- list_fmap_compose.
  replace (list_fmap _ _ _ disks) with ((λ b, vm +:+ "/disk-backup/" +:+ b) <$> map (Filepath.Base ∘ MachineOpts.d_Path) disks).
  2:{ by rewrite <- list_fmap_compose. }
  split; [apply NoDup_fmap_1|]. apply NoDup_fmap_2. intros x y Hxy.
  by do 2 apply (inj (String.append _)) in Hxy.
Qed.

(** C12: [vmm backup status] ends when every task it watches has ended, or is unknown, if
    the paths of the disks end in different names: [N] seconds are enough when that is so
    after [N] calls.  If two paths end in the same name it never does, even when every
    task has: it goes on without a pause. *)
Theorem backup_watch vm c log m r t ts N : Bool c "json" = false → answers log (Get vm) = inl m → Runtime_ m = Some r →
  let disks := MachineOpts.Storage r in let labels := labels_of vm disks in
  answers (log ++ [Get vm]) (ListTasks labels.*2) = inl (t :: ts) → over_after N labels.*2 →
  if decide (NoDup (map (Filepath.Base ∘ MachineOpts.d_Path) disks))
  then (BackupProcessShowStatus (S N) vm c log).1 ≠ Unfinished
  else ∀ fuel, (BackupProcessShowStatus fuel vm c log).1 = Unfinished.
Proof.
  intros Hj Hm Hr disks labels Hts HN.
  assert (∀ fuel, BackupProcessShowStatus fuel vm c log =
    (w ← backup_collect labels fresh fuel; reported w) ((log ++ [Get vm]) ++ [ListTasks labels.*2])) as Hs.
  { intros fuel. unfold BackupProcessShowStatus, ask. unfold mbind at 1 2, act_bind at 1 2. rewrite Hm, Hr.
    change (map snd (labels_of vm (MachineOpts.Storage r))) with labels.*2. rewrite Hts, Hj. done. }
  case_decide as Hd.
  - destruct (collect_ends labels N N (proj2 (labels_NoDup vm disks) Hd) HN fresh ((log ++ [Get vm]) ++ [ListTasks labels.*2]))
      as (w & log' & He); [lia|apply empty_subseteq|].
    rewrite Hs. unfold mbind, act_bind. rewrite He. unfold reported. by destruct (map_to_list (terrs w)) as [|[? ?] [|? ?]].
  - intros fuel. rewrite Hs. unfold mbind, act_bind.
    pose proof (collect_stuck labels fuel (λ Hx, Hd (proj1 (labels_NoDup vm disks) Hx)) fresh ((log ++ [Get vm]) ++ [ListTasks labels.*2])
      ltac:(apply empty_subseteq)) as Hu.
    destruct (backup_collect _ _ _ _) as [e log']. cbn in Hu. by subst e.
Qed.

(** Every answer about a migration tells of the memory. *)
Definition tells_memory (key : string) : Prop :=
  ∀ log t d, answers log (GetTask key) = inl t → TaskService.Migration t = Some d → TaskService.Qemu d ≠ None.
(** The end of a command, by the last answer. *)
Definition as_task (r : ended ()) (a : TaskService.TaskInfo + failure) : Prop :=
  match a with
  | inl t => if TaskService.State t =? TaskService.TaskInfo_COMPLETED then r = Done ()
             else TaskService.State t = TaskService.TaskInfo_FAILED ∧ ∃ f, r = Failed f
  | inr _ => ∃ f, r = Failed f
  end.

Lemma act_run {A B} (m : act A) (k : A → act B) log a log' : m log = (Done a, log') → (m ≫= k) log = k a log'.
Proof. intros Hm. unfold mbind, act_bind. by rewrite Hm. Qed.
Definition shows : list (string * Z) → list call := map (λ '(name, p), Show name p).
Lemma show_all_run bars log : show_all bars log = (Done (), log ++ shows bars).
Proof.
  revert log. induction bars as [|[name p] bars IH]; intros log; cbn; [by rewrite app_nil_r|].
  unfold show, mbind, act_bind. rewrite IH, <- app_assoc. done.
Qed.
Lemma failing_run bars f log : (show_all bars;; (fail f : act ())) log = (Failed f, log ++ shows bars).
Proof. by rewrite (act_run _ _ _ _ _ (show_all_run bars log)). Qed.
(** What an answer makes the bars show. *)
Definition told (vm : string) (t : TaskService.TaskInfo) : list (string * Z) :=
  match TaskService.Migration t with
  | Some d => match TaskService.Qemu d with Some q => (vm, TaskService.Progress q) :: disk_progress d | None => [] end
  | None => []
  end.
Definition tells (t : TaskService.TaskInfo) : Prop := ∀ d, TaskService.Migration t = Some d → TaskService.Qemu d ≠ None.

Section migration.
Context (vm : string) (names : list string) (key : string).
Abbreviation collect := (migration_collect vm names key).
Definition failures : list (string * Z) := map (λ name, (name, -1)) names.
Lemma migration_refused fuel log f : answers log (GetTask key) = inr f →
  collect (S fuel) log = (Failed (if code_of f =? NotFound then Local (ErrMsg "unexpected: task not found") else f),
                          log ++ [GetTask key] ++ shows failures).
Proof.
  intros Ha. cbn [migration_collect]. unfold caught, ask. unfold mbind at 1, act_bind at 1. rewrite Ha.
  rewrite failing_run. by rewrite <- app_assoc.
Qed.
Lemma migration_answered t fuel log : answers log (GetTask key) = inl t → tells t →
  let log' := log ++ GetTask key :: shows (told vm t) in
  collect (S fuel) log =
    if TaskService.State t =? TaskService.TaskInfo_COMPLETED then (Done (), log')
    else if TaskService.State t =? TaskService.TaskInfo_FAILED
    then (Failed (Local (ErrMsg (TaskService.StateDesc t))), log' ++ shows failures)
    else collect fuel (log' ++ [Tick]).
Proof.
  intros Ha Ht. cbn zeta. cbn [migration_collect]. unfold caught, ask. unfold mbind at 1, act_bind at 1. rewrite Ha.
  erewrite (act_run _ _ _ () (log ++ GetTask key :: shows (told vm t))).
  - destruct (_ =? _); [done|]. destruct (_ =? _); [apply failing_run|done].
  - unfold tells in Ht. unfold told. destruct (TaskService.Migration t) as [d|]; [|done].
    specialize (Ht d eq_refl). destruct (TaskService.Qemu d) as [q|]; [|done]. rewrite show_all_run. by rewrite <- app_assoc.
Qed.
End migration.

(** [vmm migration status] ends as the task does, when that has ended after [N] calls
    and [N] more seconds are given: with success if it has completed, with an error if it
    has failed, is gone, or cannot be asked about.  It does not crash when the daemon
    tells of the memory in every answer. *)
Theorem migration_watch vm names key N log : over_after N [key] → tells_memory key →
  ∃ before, as_task (migration_collect vm names key (S N) log).1 (answers before (GetTask key)).
Proof.
  intros HN Hq. assert (∀ fuel log, (N ≤ fuel + length log)%nat →
    ∃ before, as_task (migration_collect vm names key (S fuel) log).1 (answers before (GetTask key))) as Hc; [|apply Hc; lia].
  clear log. induction fuel as [|fuel IH]; intros log Hlen.
  all: destruct (answers log (GetTask key)) as [t|f] eqn:E;
    [|exists log; rewrite E; rewrite (migration_refused _ _ _ _ _ _ E); by eexists].
  all: rewrite (migration_answered _ _ _ _ _ _ E) by (intros d Hd; by apply (Hq log t)).
  - specialize (HN log key ltac:(lia) ltac:(left)). rewrite E in HN. exists log. rewrite E. cbn [as_task over] in *.
    destruct (Z.eqb_spec (TaskService.State t) TaskService.TaskInfo_COMPLETED); [done|]. destruct HN as [?|HN]; [done|].
    rewrite HN. split; [done|by eexists].
  - destruct (TaskService.State t =? TaskService.TaskInfo_COMPLETED) eqn:EC; [exists log; rewrite E; cbn; by rewrite EC|].
    destruct (Z.eqb_spec (TaskService.State t) TaskService.TaskInfo_FAILED) as [HF|HF].
    + exists log. rewrite E. cbn. rewrite EC. split; [done|by eexists].
    + apply IH. rewrite !length_app. cbn. lia.
Qed.
End watch.
End WatchFacts.

(** ** Examples *)

Module WatchExample.
Import Rpc Client ClientExample WatchFacts.

Definition iscsi_disk (iqn : string) : MachineOpts.Disk_ := {|
  MachineOpts.d_Path := "iscsi://10.0.0.1/iqn.2020-01.org:" +:+ iqn +:+ "/1"; MachineOpts.d_Driver := "virtio-blk-pci";
  MachineOpts.d_IopsRd := 0; MachineOpts.d_IopsWr := 0; MachineOpts.d_Bootindex := 0; MachineOpts.d_Addr := "" |}.
Definition runs_with (disks : list MachineOpts.Disk_) : MachineOpts.t := {|
  MachineOpts.MachineType_ := ""; MachineOpts.Firmware := None; MachineOpts.Memory := None; MachineOpts.CPU := None;
  MachineOpts.Inputs := []; MachineOpts.Cdrom := []; MachineOpts.Storage := disks; MachineOpts.Network := [];
  MachineOpts.VsockDevice := None; MachineOpts.CloudInitDrive := None; MachineOpts.Kernel := None; MachineOpts.HostPCI := [] |}.
Definition machine_with (disks : list MachineOpts.Disk_) : Machine := {|
  m_Name := "vm1"; Config := Some (runs_with disks); Runtime_ := Some (runs_with disks); m_State := 2; PID := 7; m_LifeTime := 0 |}.
Definition a_task (state : Z) (qemu : option TaskService.Stat) : TaskService.TaskInfo := {|
  TaskService.TaskID := "id"; TaskService.State := state; TaskService.StateDesc := ""; TaskService.ti_Progress := 0;
  TaskService.Migration := Some {| TaskService.DstServer := "h"; TaskService.Qemu := qemu; TaskService.Disks := ∅ |} |}.
Definition half : TaskService.Stat := {|
  TaskService.Total := 2; TaskService.Remaining := 1; TaskService.Transferred := 1; TaskService.Progress := 50; TaskService.Speed := 0 |}.
(** A daemon where a migration ends after its second question, and backups are done. *)
Definition ending (disks : list MachineOpts.Disk_) : Kvmrund := λ log q,
  match q return reply q + failure with
  | Get _ => inl (machine_with disks)
  | ListTasks _ => inl [a_task 2 (Some half)]
  | GetTask _ => inl (a_task (if (length log <? 3)%nat then 1 else 2) (Some half))
  | Configure _ | Start _ _ | Stop _ _ _ | Restart _ _ | Reset _ | StartDiskBackup _ | StartMigration _ | Network _ | CancelTask _
  | ListPCI | Tick | Show _ _ | LinkByName _ | StatFile _ | Exec _ => inl ()
  | _ => inr (Status 13 "")
  end.

Lemma ending_over disks labels : over_after (H := ending disks) 3 labels.
Proof.
  intros log label Hl _. unfold answers, ending. destruct (Nat.ltb_spec (length log) 3); [lia|]. by left.
Qed.

(** Two disks of one server: each path ends in the number of its unit. *)
Example backup_watch_witness :
  (@BackupProcessShowStatus (ending [iscsi_disk "a"; iscsi_disk "b"]) 3600 "vm1" (told_of ["vm1"]) []).1 = Unfinished.
Proof.
  pose proof (backup_watch (H := ending [iscsi_disk "a"; iscsi_disk "b"]) "vm1" (told_of ["vm1"]) []
    (machine_with [iscsi_disk "a"; iscsi_disk "b"]) (runs_with [iscsi_disk "a"; iscsi_disk "b"]) (a_task 2 (Some half)) [] 3
    eq_refl eq_refl eq_refl eq_refl (ending_over _ _)) as Hw.
  rewrite decide_False in Hw by (intros Hd; apply NoDup_cons in Hd as [Hd _]; apply Hd; left). exact (Hw 3600%nat).
Defined.
Example migration_watch_witness :
  ∃ before, as_task (@migration_collect (ending []) any_map "vm1" ["vm1"] "vm1/migration" 4 []).1 (@answers (ending []) before (GetTask "vm1/migration")).
Proof.
  apply (migration_watch (H := ending []) (H1 := any_map) "vm1" ["vm1"] "vm1/migration" 3 []); [apply ending_over|].
  intros log t d. cbn. intros [= <-] [= <-]. done.
Defined.
End WatchExample.
