(* ===== verification/Progress.v ===== *)
(** Progress: the progress bars of a watched task ([client/progress_bar]).  What polls
    the task and what draws each bar are goroutines that meet on unbuffered channels,
    one for each name; a bar that is told of a failure is drawn no more. *)

From S2P Require Import Prelude.
From stdpp Require Import gmultiset relations.
From S2P Require Import GoStd.
From S2P Require Import HostNet.
From S2P Require Import Api.
From S2P Require Import Client.
From S2P Require Import ClientFacts.

Open Scope Z_scope.
#[local] Set Warnings "-register-all".

Module ProgressBar.

(** What the poller has still to tell, the bars that are still to be started, those
    that are drawn, by name, and whether the poller has ended and closed the channels. *)
Record state := { updates : list (string * Z); unstarted : list string; drawn : gmultiset string; closed : bool }.

Section bars.
Context (barNames : list string).

(** [Show], when the poller tells [us]. *)
Definition init (us : list (string * Z)) : state := {| updates := us; unstarted := barNames; drawn := ∅; closed := false |}.
(** [renderer] returns after a failure. *)
Definition after_update (p : Z) (name : string) (d : gmultiset string) : gmultiset string := if p =? -1 then d ∖ {[+ name +]} else d.

Inductive step : state → state → Prop :=
  | start name r us d c : step (Build_state us (name :: r) d c) (Build_state us r ({[+ name +]} ⊎ d) c)
  | update_nothing name p us r d : name ∉ barNames → step (Build_state ((name, p) :: us) r d false) (Build_state us r d false)
  | update name p us r d : name ∈ barNames → name ∈ d →
      step (Build_state ((name, p) :: us) r d false) (Build_state us r (after_update p name d) false)
  | poller_ends r d : step (Build_state [] r d false) (Build_state [] r d true)
  | renderer_ends name us r d : name ∈ d → step (Build_state us r d true) (Build_state us r (d ∖ {[+ name +]}) true).

(** Both goroutines of [Show] have ended. *)
Definition ended (s : state) : Prop := updates s = [] ∧ unstarted s = [] ∧ drawn s = ∅ ∧ closed s = true.

(** ** When a bar blocks the poller *)

Definition failed (name : string) (us : list (string * Z)) : nat := length (filter (λ u, u = (name, -1)) us).
Definition count (name : string) (l : list string) : nat := length (filter (λ n, n = name) l).
(** Each update finds a bar of its name that has not failed. *)
Definition served (us : list (string * Z)) : Prop :=
  ∀ before name p after, us = before ++ (name, p) :: after → name ∈ barNames → (failed name before < count name barNames)%nat.

Lemma failed_app name us us' : failed name (us ++ us') = (failed name us + failed name us')%nat.
Proof. unfold failed. by rewrite filter_app, length_app. Qed.
Lemma failed_one name n p : failed name [(n, p)] = if decide (n = name ∧ p = -1) then 1%nat else 0%nat.
Proof. unfold failed. cbn. repeat case_decide; naive_solver. Qed.
Lemma served_prefix us us' : served (us ++ us') → served us.
Proof. intros Hs before name p after -> Hn. apply (Hs before name p (after ++ us')); [by rewrite <- app_assoc|done]. Qed.
Lemma served_snoc us name p : served us → (name ∈ barNames → failed name us < count name barNames)%nat → served (us ++ [(name, p)]).
Proof.
  intros Hs Hn before n q after He Hb. destruct (decide (after = [])) as [->|Ha].
  - apply app_inj_tail in He as [-> [= -> ->]]. auto.
  - destruct (exists_last Ha) as (after' & x & ->). rewrite app_comm_cons, app_assoc in He.
    apply app_inj_tail in He as [-> _]. by apply (Hs before n q after').
Qed.
Lemma served_nil : served [].
Proof. by intros [|? ?] ? ? ?. Qed.

Lemma count_name_cons name n l : count name (n :: l) = ((if decide (n = name) then 1 else 0) + count name l)%nat.
Proof. unfold count. rewrite filter_cons. by case_decide. Qed.
Lemma count_pos name l : name ∈ l ↔ (0 < count name l)%nat.
Proof.
  unfold count. split.
  - intros Hn. assert (name ∈ filter (λ n, n = name) l) as Hf by (by apply list_elem_of_filter).
    destruct (filter _ l); [by apply not_elem_of_nil in Hf|cbn; lia].
  - destruct (filter (λ n, n = name) l) as [|x r] eqn:E; cbn; [lia|]. intros _.
    assert (x ∈ filter (λ n, n = name) l) as Hx by (rewrite E; left). by apply list_elem_of_filter in Hx as [-> Hx].
Qed.
Lemma drawn_add (name n : string) d : multiplicity name ({[+ n +]} ⊎ d) = ((if decide (n = name) then 1 else 0) + multiplicity name d)%nat.
Proof.
  rewrite multiplicity_disj_union, multiplicity_singleton. repeat case_decide; congruence.
Qed.
Lemma drawn_told name n p d : n ∈ d → (multiplicity name (after_update p n d) + failed name [(n, p)] = multiplicity name d)%nat.
Proof.
  intros Hn. rewrite failed_one. unfold after_update. destruct (Z.eqb_spec p (-1)) as [->|Hp].
  - rewrite multiplicity_difference, multiplicity_singleton. rewrite elem_of_multiplicity in Hn.
    destruct (decide (name = n)) as [->|]; [rewrite !decide_True by done|rewrite !decide_False by naive_solver]; lia.
  - rewrite decide_False by naive_solver. lia.
Qed.

(** What has been told so far was served, and each bar is to come, is drawn, or has failed. *)
Definition inv (us : list (string * Z)) (s : state) : Prop :=
  ∃ before, us = before ++ updates s ∧ served before ∧
    if closed s then updates s = []
    else ∀ name, name ∈ barNames →
           (multiplicity name (drawn s) + count name (unstarted s) + failed name before = count name barNames)%nat.
Lemma inv_init us : inv us (init us).
Proof. exists []. split_and!; [done|apply served_nil|]. intros name _. cbn -[count]. rewrite multiplicity_empty. lia. Qed.
Ltac fields := cbn [updates unstarted drawn closed] in *.
Lemma inv_step us s s' : step s s' → inv us s → inv us s'.
Proof.
  intros [name r us' d []|name p us' r d Hn|name p us' r d Hn Hd|r d|name us' r d Hd] (before & -> & Hs & Hc); fields.
  - by exists before.
  - exists before. split_and!; [done..|]. fields. intros n Hn. rewrite drawn_add. specialize (Hc n Hn).
    rewrite count_name_cons in Hc. lia.
  - exists (before ++ [(name, p)]). split_and!; [by rewrite <- app_assoc|by apply served_snoc|]. fields. intros n Hb.
    rewrite failed_app, failed_one, decide_False by naive_solver. specialize (Hc n Hb). lia.
  - exists (before ++ [(name, p)]). split_and!; [by rewrite <- app_assoc| |].
    + apply served_snoc; [done|]. intros _. specialize (Hc name Hn). rewrite elem_of_multiplicity in Hd. lia.
    + fields. intros n Hb. rewrite failed_app. specialize (Hc n Hb). pose proof (drawn_told n name p d Hd). lia.
  - by exists before.
  - exists before. by split_and!.
Qed.
Lemma inv_reached us s : rtc step (init us) s → inv us s.
Proof. intros Hr. eapply rtc_ind_r; [apply inv_init| |exact Hr]. intros x y _ Hs Hi. by eapply inv_step. Qed.

Lemma served_moves us s : served us → inv us s → ended s ∨ ∃ s', step s s'.
Proof.
  intros Hus (before & -> & _ & Hc). destruct s as [u [|name r] d c]; cbn in *; [|right; eexists; constructor].
  destruct c; cbn in Hc.
  - subst u. destruct (decide (d = ∅)) as [->|Hd]; [by left|right].
    apply gmultiset_choose in Hd as [name Hd]. eexists. by eapply renderer_ends.
  - right. destruct u as [|[name p] u]; [eexists; constructor|].
    destruct (decide (name ∈ barNames)) as [Hn|Hn]; [|eexists; by constructor].
    eexists. apply update; [done|]. rewrite elem_of_multiplicity. specialize (Hc name Hn).
    specialize (Hus before name p u eq_refl Hn). cbn in Hc. lia.
Qed.

(** Each step uses up some of this. *)
Definition left_over (s : state) : nat :=
  length (updates s) + 2 * length (unstarted s) + size (drawn s) + if closed s then 0 else 1.
Lemma step_left s s' : step s s' → (left_over s' < left_over s)%nat.
Proof.
  unfold left_over. intros [name r us d c|name p us r d Hn|name p us r d Hn Hd|r d|name us r d Hd]; cbn [updates unstarted drawn closed length].
  - rewrite gmultiset_size_disj_union, gmultiset_size_singleton. destruct c; lia.
  - lia.
  - unfold after_update. case_match; [|lia]. pose proof (gmultiset_size_difference d {[+ name +]} ltac:(multiset_solver)). lia.
  - lia.
  - pose proof (gmultiset_size_difference d {[+ name +]} ltac:(multiset_solver)) as Hs.
    assert (size ({[+ name +]} : gmultiset string) ≤ size d)%nat by (apply gmultiset_subseteq_size; multiset_solver).
    rewrite gmultiset_size_singleton in *. lia.
Qed.
Lemma steps_left k s s' : nsteps step k s s' → (k + left_over s' ≤ left_over s)%nat.
Proof. induction 1 as [|k s s1 s' Hs _ IH]; [lia|]. apply step_left in Hs. lia. Qed.
Lemma run_ends s : (∀ s', rtc step s s' → ended s' ∨ ∃ s2, step s' s2) → ∃ s', rtc step s s' ∧ ended s'.
Proof.
  remember (left_over s) as n eqn:En. revert s En. induction n as [n IH] using lt_wf_ind. intros s -> Hm.
  destruct (Hm s ltac:(done)) as [He|[s2 Hs]]; [by exists s|].
  destruct (IH (left_over s2) ltac:(by apply step_left) s2 eq_refl) as (s' & Hr & He).
  - intros s' Hr. apply Hm. by eapply rtc_l.
  - exists s'. split; [by eapply rtc_l|done].
Qed.

(** C13: the display of a watched task.  Whatever the goroutines' order, it comes to a stop
    after a bounded number of steps; it is never blocked, and so ends with the poller,
    exactly when each update whose name has a bar comes before all the bars of that name
    have been told of a failure. *)
Theorem display_ends us :
  (∀ k s, nsteps step k (init us) s → (k ≤ length us + 2 * length barNames + 1)%nat) ∧
  ((∀ s, rtc step (init us) s → ended s ∨ ∃ s', step s s') ↔ served us).
Proof.
  split; [|split].
  - intros k s Hk. apply steps_left in Hk.
    assert (left_over (init us) = length us + 2 * length barNames + 1)%nat as Hi; [|lia].
    assert (size (drawn (init us)) = 0)%nat as Hz by apply gmultiset_size_empty. unfold left_over. rewrite Hz. cbn. lia.
  - intros Hm. apply run_ends in Hm as (s & Hr & Hu & _). destruct (inv_reached _ _ Hr) as (before & -> & Hs & _).
    by rewrite Hu, app_nil_r.
  - intros Hs s Hr. by apply (served_moves us), inv_reached.
Qed.
End bars.
End ProgressBar.

(** ** What the commands tell the bars *)

Module Watching.
Import Rpc Client ClientFacts.WatchFacts ProgressBar.

Definition shown : list call → list (string * Z) := omap (λ q, match q with Show name p => Some (name, p) | _ => None end).
Lemma shown_app log log' : shown (log ++ log') = shown log ++ shown log'.
Proof. apply omap_app. Qed.
Lemma shown_shows bars : shown (shows bars) = bars.
Proof. induction bars as [|[name p] bars IH]; cbn; [done|]. by f_equal. Qed.

Section watching.
Context `{Kvmrund, Shell, HostNet.MapOrder}.

(** The display of what [m] shows is never blocked. *)
Definition displayed {A} (bars : list string) (m : act A) (log : list call) : Prop :=
  ∃ made, (m log).2 = log ++ made ∧
    ∀ s, rtc (step bars) (init bars (shown made)) s → ended s ∨ ∃ s', step bars s s'.
Lemma displayed_served {A} bars (m : act A) log made : (m log).2 = log ++ made → served bars (shown made) → displayed bars m log.
Proof. intros Hm Hs. exists made. split; [done|]. intros s Hr. by apply (served_moves _ (shown made)), inv_reached. Qed.

(** Progress is told as an unsigned number. *)
Definition unsigned : Prop := ∀ log key t, answers log (GetTask key) = inl t →
  0 ≤ TaskService.ti_Progress t ∧
  ∀ d, TaskService.Migration t = Some d → (∀ q, TaskService.Qemu d = Some q → 0 ≤ TaskService.Progress q) ∧
                                          Forall (λ u, 0 ≤ u.2) (disk_progress d).

Section backup.
Context (labels : list (string * string)).
Hypothesis (one_label : ∀ d l l', (d, l) ∈ labels → (d, l') ∈ labels → l = l').
Hypothesis (numbers : unsigned).

(** A disk that has failed is watched no more. *)
Definition kept (told : list (string * Z)) (w : watching) : Prop :=
  served labels.*1 told ∧
  ∀ d l, (d, l) ∈ labels → (failed d told ≤ if decide (l ∈ discontinued w) then 1 else 0)%nat.
Lemma failed_discontinued w d l log : progress_of (answers log (GetTask l)) = -1 →
  l ∈ discontinued (watched w d l (answers log (GetTask l))).
Proof.
  pose proof (numbers log l) as Hn. destruct (answers log (GetTask l)) as [t|f]; cbn.
  - destruct (Z.eqb_spec (TaskService.State t) TaskService.TaskInfo_FAILED) as [->|].
    + intros _. cbn. set_solver.
    + intros Hp. destruct (Hn t eq_refl). lia.
  - intros _. case_match; set_solver.
Qed.
Lemma kept_step told w d l log : (d, l) ∈ labels → l ∉ discontinued w → kept told w →
  kept (told ++ [(d, progress_of (answers log (GetTask l)))]) (watched w d l (answers log (GetTask l))).
Proof.
  intros Hd Hl [Hs Hk]. split.
  - apply served_snoc; [done|]. intros Hb. specialize (Hk d l Hd). rewrite decide_False in Hk by done.
    apply count_pos in Hb. lia.
  - intros d' l' Hd'. specialize (Hk d' l' Hd'). rewrite failed_app, failed_one.
    pose proof (watched_disc w d l (answers log (GetTask l))) as Hw.
    destruct (decide (d = d' ∧ _)) as [[-> Hp]|_].
    + rewrite <- (one_label _ _ _ Hd Hd') in *. rewrite decide_False in Hk by done.
      rewrite decide_True by (by apply failed_discontinued). lia.
    + repeat case_decide; try lia. set_solver.
Qed.
Lemma kept_round rest : (∀ x, x ∈ rest → x ∈ labels) → ∀ told w log, kept told w →
  ∃ w' made, watch_round rest w log = (Done w', log ++ made) ∧ kept (told ++ shown made) w'.
Proof.
  induction rest as [|[d l] rest IH]; intros Hr told w log Hk.
  - exists w, []. by rewrite !app_nil_r.
  - specialize (IH ltac:(set_solver)). destruct (decide (l ∈ discontinued w)) as [Hl|Hl].
    + rewrite watch_skip by done. by apply IH.
    + rewrite watch_step by done. destruct (IH _ _ (log ++ [GetTask l; Show d (progress_of (answers log (GetTask l))); Tick])
        (kept_step told w d l log (Hr (d, l) ltac:(left)) Hl Hk)) as (w' & made & He & Hk').
      rewrite He, <- app_assoc. eexists w', _. split; [done|]. rewrite shown_app, app_assoc. done.
Qed.
Lemma kept_collect fuel : ∀ told w log, kept told w →
  ∃ made, (backup_collect labels w fuel log).2 = log ++ made ∧ served labels.*1 (told ++ shown made).
Proof.
  induction fuel as [|fuel IH]; intros told w log Hk.
  - exists []. rewrite !app_nil_r. split; [done|apply Hk].
  - destruct (kept_round labels ltac:(done) told w log Hk) as (w' & made & He & Hk'). cbn [backup_collect].
    rewrite (act_run _ _ _ _ _ He). case_decide.
    + exists made. split; [done|apply Hk'].
    + destruct (IH _ _ (log ++ made) Hk') as (made' & He' & Hs). rewrite He', <- app_assoc.
      eexists. split; [done|]. by rewrite shown_app, app_assoc.
Qed.
End backup.

(** ** Backups *)

Lemma one_label_of vm disks d l l' : (d, l) ∈ labels_of vm disks → (d, l') ∈ labels_of vm disks → l = l'.
Proof. unfold labels_of. intros (x & Hx & _)%list_elem_of_fmap (y & Hy & _)%list_elem_of_fmap. congruence. Qed.
Lemma kept_fresh labels : kept labels [] {| discontinued := ∅; terrs := ∅ |}.
Proof. split; [apply served_nil|]. intros d l _. cbn. case_decide; lia. Qed.
Lemma reported_log w log : (reported w log).2 = log.
Proof. unfold reported. by destruct (map_to_list _) as [|[? ?] [|? ?]]. Qed.
Lemma bind_log {A B} (m : act A) (k : A → act B) log : (∀ a log', (k a log').2 = log') → ((m ≫= k) log).2 = (m log).2.
Proof. intros Hk. unfold mbind, act_bind. destruct (m log) as [[a| | | |] log']; cbn; auto. Qed.
Lemma backup_served vm c fuel log m r : unsigned → answers log (Get vm) = inl m → Runtime_ m = Some r →
  ∃ made, (BackupProcessShowStatus fuel vm c log).2 = log ++ made ∧
          served (labels_of vm (MachineOpts.Storage r)).*1 (shown made).
Proof.
  intros Hu Hm Hr. set (labels := labels_of vm (MachineOpts.Storage r)). pose (asked := [Get vm; ListTasks (map snd labels)]).
  assert (served labels.*1 (shown asked)) as Hq by apply served_nil.
  unfold BackupProcessShowStatus. unfold mbind at 1, act_bind at 1, ask at 1. rewrite Hm, Hr. fold labels.
  unfold mbind at 1, act_bind at 1, ask at 1.
  destruct (answers (log ++ [Get vm]) (ListTasks (map snd labels))) as [[|t ts]|f];
    [exists asked; rewrite <- app_assoc; by destruct (Bool c "json")| |exists asked; by rewrite <- app_assoc].
  destruct (Bool c "json"); [exists asked; by rewrite <- app_assoc|].
  rewrite bind_log by apply reported_log. rewrite <- app_assoc.
  destruct (kept_collect labels (one_label_of _ _) Hu fuel [] _ (log ++ asked) (kept_fresh labels)) as (made & He & Hs).
  exists (asked ++ made). split; [etransitivity; [exact He|by rewrite app_assoc]|]. by rewrite shown_app.
Qed.

(** ** Migrations *)

Lemma failed_plain name us : Forall (λ u, 0 ≤ u.2) us → failed name us = 0%nat.
Proof.
  induction 1 as [|[n p] us Hp _ IH]; [done|]. change ((n, p) :: us) with ([(n, p)] ++ us).
  rewrite failed_app, failed_one, IH, decide_False; [done|]. cbn in Hp. lia.
Qed.
Lemma served_plain bars us : Forall (λ u, 0 ≤ u.2) us → served bars us.
Proof.
  intros Hu before n p after -> Hn. apply Forall_app in Hu as [Hu _]. rewrite failed_plain by done. by apply count_pos.
Qed.
Lemma failed_failures name l : failed name (failures l) = count name l.
Proof.
  induction l as [|n l IH]; [done|]. change (failures (n :: l)) with ([(n, -1)] ++ failures l).
  rewrite failed_app, failed_one, count_name_cons, IH. repeat case_decide; naive_solver.
Qed.
Lemma served_failures bars us : Forall (λ u, 0 ≤ u.2) us → served bars (us ++ failures bars).
Proof.
  intros Hu. assert (∀ l l', bars = l ++ l' → served bars (us ++ failures l)) as Hl; [|apply (Hl bars []); by rewrite app_nil_r].
  induction l as [|n l IH] using rev_ind; intros l' He.
  - rewrite app_nil_r. by apply served_plain.
  - unfold failures. rewrite map_app, app_assoc. apply served_snoc; [apply (IH (n :: l')); by rewrite He, <- app_assoc|].
    intros _. rewrite failed_app, failed_plain by done. change (map _ l) with (failures l). rewrite failed_failures, He.
    unfold count. rewrite !filter_app, !length_app, filter_cons_True by done. cbn. lia.
Qed.

Lemma told_plain key vm t log : unsigned → answers log (GetTask key) = inl t → Forall (λ u, 0 ≤ u.2) (told vm t).
Proof.
  intros Hu Ha. destruct (Hu _ _ _ Ha) as [_ Ht]. unfold told. destruct (TaskService.Migration t) as [d|]; [|constructor].
  destruct (Ht d eq_refl) as [Hq Hd]. destruct (TaskService.Qemu d) as [q|]; [|constructor].
  constructor; [by apply Hq|done].
Qed.
Lemma migration_crash vm names key t fuel log : answers log (GetTask key) = inl t → ¬ tells t →
  migration_collect vm names key (S fuel) log = (Crashed NilDereference, log ++ [GetTask key]).
Proof.
  intros Ha Ht. cbn [migration_collect]. unfold caught, ask. unfold mbind at 1, act_bind at 1. rewrite Ha.
  unfold tells in Ht. destruct (TaskService.Migration t) as [d|]; [|by destruct Ht].
  destruct (TaskService.Qemu d) as [q|] eqn:E; [|done]. destruct Ht. by intros d' [= <-]; rewrite E.
Qed.
Lemma migration_shown vm names key fuel : unsigned → ∀ log,
  ∃ made us, (migration_collect vm names key fuel log).2 = log ++ made ∧ Forall (λ u, 0 ≤ u.2) us ∧
             (shown made = us ∨ shown made = us ++ failures names).
Proof.
  intros Hu. induction fuel as [|fuel IH]; intros log.
  - exists [], []. rewrite app_nil_r. auto.
  - destruct (answers log (GetTask key)) as [t|f] eqn:E.
    2: { rewrite (migration_refused _ _ _ _ _ _ E). eexists _, []. split; [done|]. split; [done|]. right.
         by rewrite shown_app, shown_shows. }
    assert (tells t ∨ ¬ tells t) as [Ht|Ht].
    { unfold tells. destruct (TaskService.Migration t) as [d|]; [|by left].
      destruct (TaskService.Qemu d) eqn:Eq; [left; by intros d' [= <-]; rewrite Eq|right]. intros Hd. by apply (Hd d). }
    2: { rewrite (migration_crash _ _ _ _ _ _ E Ht). by eexists _, []; auto. }
    pose proof (told_plain key vm t log Hu E) as Hp. rewrite (migration_answered _ _ _ _ _ _ E Ht).
    destruct (_ =? _); [|destruct (_ =? _)].
    + eexists _, _. split; [done|]. split; [exact Hp|]. left. apply shown_shows.
    + eexists _, _. cbn [snd]. rewrite <- app_assoc. split; [done|]. split; [exact Hp|]. right.
      change (shown ((GetTask key :: ?l) ++ ?r)) with (shown (l ++ r)). by rewrite shown_app, !shown_shows.
    + destruct (IH ((log ++ GetTask key :: shows (told vm t)) ++ [Tick])) as (made & us & He & Hf & Hs). rewrite He, <- !app_assoc.
      eexists _, (told vm t ++ us). split; [done|]. split; [by apply Forall_app|].
      change (shown ((GetTask key :: ?l) ++ ?r)) with (shown (l ++ r)). rewrite shown_app, shown_shows.
      change (shown ([Tick] ++ made)) with (shown made). rewrite <- app_assoc. by destruct Hs as [->| ->]; [left|right].
Qed.
Lemma migration_served vm c fuel log t d : unsigned → answers log (GetTask (vm +:+ "/migration")) = inl t →
  TaskService.Migration t = Some d →
  ∃ made, (MigrationProcessShowStatus fuel vm c log).2 = log ++ made ∧ served (bar_names vm d) (shown made).
Proof.
  intros Hu Ha Hd. unfold MigrationProcessShowStatus, caught, ask. unfold mbind at 1, act_bind at 1. rewrite Ha, Hd.
  destruct (Bool c "json"); [eexists; split; [done|apply served_nil]|].
  destruct (migration_shown vm (bar_names vm d) (TaskService.TaskID t) fuel Hu (log ++ [GetTask (vm +:+ "/migration")]))
    as (made & us & He & Hf & Hs). rewrite He, <- app_assoc. eexists. split; [done|].
  change (shown ([GetTask ?k] ++ made)) with (shown made). destruct Hs as [->| ->]; [by apply served_plain|by apply served_failures].
Qed.

(** the bars of [vmm backup status] and of [vmm migration status] never block what
    watches the task, whatever the daemon answers and whatever the names of the disks: a
    disk that has failed is told of no more. *)
Theorem watch_displayed vm c fuel log : unsigned →
  (∀ m r, answers log (Get vm) = inl m → Runtime_ m = Some r →
     displayed (labels_of vm (MachineOpts.Storage r)).*1 (BackupProcessShowStatus fuel vm c) log) ∧
  (∀ t d, answers log (GetTask (vm +:+ "/migration")) = inl t → TaskService.Migration t = Some d →
     displayed (bar_names vm d) (MigrationProcessShowStatus fuel vm c) log).
Proof.
  intros Hu. split.
  - intros m r Hm Hr. destruct (backup_served vm c fuel log m r Hu Hm Hr) as (made & He & Hs). by eapply displayed_served.
  - intros t d Ha Hd. destruct (migration_served vm c fuel log t d Hu Ha Hd) as (made & He & Hs). by eapply displayed_served.
Qed.
End watching.
End Watching.

(** ** Examples *)

Module ProgressExample.
Import Rpc Client ClientExample WatchFacts WatchExample ProgressBar Watching.

(** Two failures of one bar. *)
Example twice_failed : ¬ served ["vda"] [("vda", 7); ("vda", -1); ("vda", -1)].
Proof. intros Hs. specialize (Hs [("vda", 7); ("vda", -1)] "vda" (-1) [] eq_refl ltac:(left)). cbv in Hs. lia. Qed.
Lemma ending_unsigned disks : unsigned (H := ending disks) (H1 := any_map).
Proof.
  intros log key t. cbn. intros [= <-]. cbn. split; [lia|]. intros d [= <-]. split.
  - intros q [= <-]. cbn. lia.
  - unfold disk_progress, HostNet.map_order, any_map. cbn. rewrite map_to_list_empty. constructor.
Qed.
Example watch_displayed_witness :
  displayed ["1"; "1"]
    (BackupProcessShowStatus (H := ending [iscsi_disk "a"; iscsi_disk "b"]) 60 "vm1" (told_of ["vm1"])) [].
Proof.
  refine (proj1 (watch_displayed (H := ending [iscsi_disk "a"; iscsi_disk "b"]) (H1 := any_map) "vm1" (told_of ["vm1"]) 60 []
    (ending_unsigned _)) (machine_with [iscsi_disk "a"; iscsi_disk "b"]) (runs_with [iscsi_disk "a"; iscsi_disk "b"]) _ _); reflexivity.
Defined.
End ProgressExample.
