(* ===== verification/Tools.v ===== *)
(** Tools: small parts that ask their host for little: the kind of the host's system
    ([internal/osprober]), the update of the package ([internal/updater]), the version
    of QEMU ([internal/qemu/qemu.go]), gratuitous ARP ([internal/garp]) and the set-up of
    an interface ([cmd/netinit]).

    What is asked is a log; the answers are those of a strategy. *)

From S2P Require Import Prelude.
From S2P Require Import GoStd.
From S2P Require Import GoFacts.
From S2P Require Import Version.
From S2P Require Import Backend.
From S2P Require Import NetIfaces.
From S2P Require Import Json.
From S2P Require Import InstanceConf.
From S2P Require Import ConfJson.
From S2P Require Import Ip.
From S2P Require Import HostNet.
From S2P Require Import Launcher.
From S2P Require Import ApiFacts.

Open Scope Z_scope.
#[local] Set Warnings "-register-all".

(** ** The host *)

Inductive request :=
  | ReadFile (path : string)
  | ScanFile (path : string)
  | ReadJson (path : string)
  | MkdirTemp (pattern : string)
  | Getpid
  | Create (path : string)
  | HttpGet (url : string)
  | FetchInto (path : string)
  | RemoveAll (path : string)
  | Exec (program : string) (args : list string) (env : list (string * string))
  | Dial (address : string)
  | SystemdConnect
  | GracefulShutdown
  | StartAndTest (unit : string) (seconds : Z)
  | InterfaceByName (ifname : string)
  | ArpSocket (protocol : Z)
  | BindToDevice (ifname : string)
  | BindTo (protocol ifindex hatype halen : Z) (addr : list Z)
  | NextTick
  | SendTo (message : list Z).
(** [Exec] answers with what the program has written and how it has ended; the answer to
    [HttpGet] is its status; [NextTick] says whether the context is still open. *)
Record interface := { Index : Z; HardwareAddr : list Z }.
Definition reply (q : request) : Type :=
  match q with
  | ReadFile _ | MkdirTemp _ => sys string
  | ScanFile _ => sys (list string * option goerr)
  | ReadJson _ => sys json
  | Getpid => Z
  | HttpGet _ => sys Z
  | Exec _ _ _ => string * option goerr
  | InterfaceByName _ => sys interface
  | NextTick => bool
  | _ => sys ()
  end.
Class ToolHost := tool_answer : list request → ∀ q, reply q.

Section ask.
Context `{ToolHost}.
Definition ask (q : request) : op (list request) (reply q) := λ l, (Ret (tool_answer l q), l ++ [q]).
(** [if err != nil { return err }] *)
Definition done {A} (r : sys A) : op (list request) A := lift (Backend.call r).
End ask.
Abbreviation act := (op (list request)).

(** ** The kind of a system *)

Module OsProber.
Import Strings.

Record OSReleaseInfo := {
  Source : string; Family : string; Distrib : string; Version : string; CodeName : string; Name : string; PrettyName : string;
}.
Definition from (source family distrib name : string) : OSReleaseInfo :=
  {| Source := source; Family := family; Distrib := distrib; Version := ""; CodeName := ""; Name := name; PrettyName := "" |}.
Definition set_version (v : string) (i : OSReleaseInfo) : OSReleaseInfo :=
  {| Source := Source i; Family := Family i; Distrib := Distrib i; Version := v; CodeName := CodeName i; Name := Name i;
     PrettyName := PrettyName i |}.
Definition set_code (v : string) (i : OSReleaseInfo) : OSReleaseInfo :=
  {| Source := Source i; Family := Family i; Distrib := Distrib i; Version := Version i; CodeName := v; Name := Name i;
     PrettyName := PrettyName i |}.
Definition set_pretty (v : string) (i : OSReleaseInfo) : OSReleaseInfo :=
  {| Source := Source i; Family := Family i; Distrib := Distrib i; Version := Version i; CodeName := CodeName i; Name := Name i;
     PrettyName := v |}.
Definition set_name (v : string) (i : OSReleaseInfo) : OSReleaseInfo :=
  {| Source := Source i; Family := Family i; Distrib := Distrib i; Version := Version i; CodeName := CodeName i; Name := v;
     PrettyName := PrettyName i |}.
Definition set_distrib (v : string) (i : OSReleaseInfo) : OSReleaseInfo :=
  {| Source := Source i; Family := Family i; Distrib := v; Version := Version i; CodeName := CodeName i; Name := Name i;
     PrettyName := PrettyName i |}.
Definition set_family (v : string) (i : OSReleaseInfo) : OSReleaseInfo :=
  {| Source := Source i; Family := v; Distrib := Distrib i; Version := Version i; CodeName := CodeName i; Name := Name i;
     PrettyName := PrettyName i |}.

Definition DEBIAN_CODES : gmap string string := list_to_map
  [("4", "Etch"); ("5", "Lenny"); ("6", "Squeeze"); ("7", "Wheezy"); ("8", "Jessie"); ("9", "Stretch"); ("10", "Buster")].
Definition UBUNTU_CODES : gmap string string := list_to_map
  [("4.10", "Warty Warthog"); ("5.04", "Hoary Hedgehog"); ("5.10", "Breezy Badger"); ("6.06", "Dapper Drake");
   ("6.10", "Edgy Eft"); ("7.04", "Feisty Fawn"); ("7.10", "Gutsy Gibbon"); ("8.04", "Hardy Heron");
   ("8.10", "Intrepid Ibex"); ("9.04", "Jaunty Jackalope"); ("9.10", "Karmic Koala"); ("10.04", "Lucid Lynx");
   ("10.10", "Maverick Meerkat"); ("11.04", "Natty Narwhal"); ("11.10", "Oneiric Ocelot"); ("12.04", "Precise Pangolin");
   ("12.10", "Quantal Quetzal"); ("13.04", "Raring Ringtail"); ("13.10", "Saucy Salamander"); ("14.04", "Trusty Tahr");
   ("14.10", "Utopic Unicorn"); ("15.04", "Vivid Vervet"); ("15.10", "Wily Werewolf"); ("16.04", "Xenial Xerus");
   ("16.10", "Yakkety Yak"); ("17.04", "Zesty Zapus"); ("17.10", "Artful Aardvark"); ("18.04", "Bionic Beaver");
   ("18.10", "Cosmic Cuttlefish"); ("19.04", "Disco Dingo"); ("19.10", "Eoan Ermine"); ("20.04", "Focal Fossa");
   ("20.10", "Groovy Gorilla")].

Section prober.
Context `{ToolHost, HostNet.MapOrder}.

(** The first key in the order of the map's walk. *)
Definition VerByCode (m : gmap string string) (code : string) : string :=
  default "" (fst ∘ snd <$> list_find (λ kv, kv.2 = code) (HostNet.map_order _ m)).

(** A line of the form [KEY=value], with a key that is looked for and a value that does
    not start with a space. *)
Definition is_space (a : ascii) : bool := bool_decide (N_of_ascii a ∈ [9; 10; 12; 13; 32]%N).
Definition key_value (line : string) : option (string * string) :=
  match cut line "=" with
  | Some (k, String a v) =>
      if bool_decide (k ∈ ["NAME"; "ID"; "VERSION_ID"; "VERSION_CODENAME"; "PRETTY_NAME"]) && negb (is_space a)
      then Some (k, String a v) else None
  | _ => None
  end.
Definition quote : string := String (char 34) "".
Definition assign (k v : string) : OSReleaseInfo → OSReleaseInfo :=
  if decide (k = "NAME") then set_name v
  else if decide (k = "PRETTY_NAME") then set_pretty v
  else if decide (k = "ID") then set_distrib (ToLower v)
  else if decide (k = "VERSION_ID") then set_version (ToLower v)
  else if decide (k = "VERSION_CODENAME") then set_code (ToLower v)
  else id.
Fixpoint read_lines (lines : list string) (i : OSReleaseInfo) : OSReleaseInfo :=
  match lines with
  | [] => i
  | l :: lines =>
      read_lines lines match key_value l with Some (k, v) => assign k (Trim v quote) i | None => i end
  end.
Definition family_of (distrib : string) : string :=
  if decide (distrib = "opensuse-leap") then "opensuse" else if decide (distrib = "sangoma") then "centos" else distrib.
Definition code_name (i : OSReleaseInfo) : string :=
  let parts := Split (Version i) "." in
  if decide (Family i = "debian") then default "" (DEBIAN_CODES !! Version i)
  else if decide (Family i = "ubuntu") then
    if (2 <=? length parts)%nat then default "" (UBUNTU_CODES !! Join (take 2 parts) ".") else ""
  else if decide (Family i = "opensuse") then
    if (1 <? length parts)%nat then default "" (head parts) else ""
  else "".
Definition OsReleaseProber_of (lines : list string) : OSReleaseInfo :=
  let i := read_lines lines (from "os-release" "" "" "") in
  let i := set_family (family_of (Distrib i)) i in
  if bool_decide (CodeName i = "") then set_code (code_name i) i else i.
Definition OsReleaseProber_Probe (rootdir : string) : act (option OSReleaseInfo) :=
  r ← ask (ScanFile (Filepath.Join [rootdir; "etc/os-release"]));
  '(lines, err) ← done r;
  match err with Some e => throw e | None => mret (Some (OsReleaseProber_of lines)) end.

Definition DebianVersionProber_of (b : string) : OSReleaseInfo :=
  let verstr := ToLower (TrimSpace b) in
  let v := if mem "/" verstr then default "" (head (Split verstr "/"))
           else let v := default "" (head (Split verstr ".")) in
                match Strconv.Atoi v with Ret _ => v | _ => VerByCode DEBIAN_CODES v end in
  let i := set_version v (from "debian_version" "debian" "debian" "Debian GNU/Linux") in
  let i := set_code (default "" (DEBIAN_CODES !! v)) i in
  set_pretty ("Debian GNU/Linux " +:+ Version i +:+ " (" +:+ CodeName i +:+ ")") i.
Definition DebianVersionProber_Probe (rootdir : string) : act (option OSReleaseInfo) :=
  r ← ask (ReadFile (Filepath.Join [rootdir; "etc/debian_version"]));
  b ← done r;
  mret (Some (DebianVersionProber_of b)).

Definition CentosReleaseProber_of (b : string) : OSReleaseInfo :=
  let verstr := ToLower (TrimSpace b) in
  let parts := HostNet.Fields verstr in
  let v := if (3 <=? length parts)%nat then default "" (parts !! (length parts - 2)%nat ≫= (λ p, head (Split p "."))) else "" in
  set_pretty verstr (set_version v (from "centos-release" "centos" "centos" "CentOS Linux")).
Definition CentosReleaseProber_Probe (rootdir : string) : act (option OSReleaseInfo) :=
  r ← ask (ReadFile (Filepath.Join [rootdir; "etc/centos-release"]));
  b ← done r;
  mret (Some (CentosReleaseProber_of b)).
Definition DefaultProber_Probe (_ : string) : act (option OSReleaseInfo) := mret None.

Definition PROBERS : list (string → act (option OSReleaseInfo)) :=
  [OsReleaseProber_Probe; DebianVersionProber_Probe; CentosReleaseProber_Probe; DefaultProber_Probe].
Fixpoint probe_with (probers : list (string → act (option OSReleaseInfo))) (rootdir : string) : act (option OSReleaseInfo) :=
  match probers with
  | [] => mret None
  | p :: probers => λ l,
      match p rootdir l with
      | (Throw (ErrNotExist _), l) => probe_with probers rootdir l
      | r => r
      end
  end.
Definition Probe : string → act (option OSReleaseInfo) := probe_with PROBERS.
End prober.
End OsProber.

(** ** The version of QEMU *)

Module QemuBinary.
Import Strings.

(** The lines of a text for a scanner: each without its end, and the error of one that
    does not fit in the buffer. *)
Definition maxTokenSize : Z := 65536.
Definition trim_cr (l : string) : string := if HasSuffix l (String (char 13) "") then String.substring 0 (String.length l - 1) l else l.
Fixpoint scan (lines : list string) : list string * option goerr :=
  match lines with
  | [] | [""] => ([], None)
  | l :: lines =>
      if maxTokenSize <=? Z.of_nat (String.length l) then ([], Some (ErrMsg "bufio.Scanner: token too long"))
      else let '(r, e) := scan lines in (trim_cr l :: r, e)
  end.
Definition newline : ascii := char 10.

(** [^qemu\semulator\sversion\s([0-9\.]{3,})] *)
Fixpoint after (p : list (ascii → bool)) (s : string) : option string :=
  match p, s with
  | [], _ => Some s
  | f :: p, String a s => if f a then after p s else None
  | _, _ => None
  end.
Definition letters (w : string) : list (ascii → bool) := map (λ a b, bool_decide (a = b)) (to_list w).
Definition banner : list (ascii → bool) :=
  letters "qemu" ++ [OsProber.is_space] ++ letters "emulator" ++ [OsProber.is_space] ++ letters "version" ++ [OsProber.is_space].
Definition numeric (a : ascii) : bool := bool_decide (48 ≤ N_of_ascii a ≤ 57)%N || bool_decide (a = "."%char).
Fixpoint take_while (f : ascii → bool) (s : string) : string :=
  match s with
  | String a s => if f a then String a (take_while f s) else ""
  | EmptyString => ""
  end.
Definition version_of (line : string) : option string :=
  s ← after banner line;
  let v := take_while numeric s in
  if (3 <=? String.length v)%nat then Some v else None.
Fixpoint first_version (lines : list string) : option string :=
  match lines with
  | [] => None
  | l :: lines =>
      match version_of (ToLower (TrimSpace l)) with Some v => Some v | None => first_version lines end
  end.
Definition read_version (out : string) : outcome Version.t :=
  let '(lines, err) := scan (Split out newline) in
  match first_version lines, err with
  | Some v, _ => Version.Parse (Version.AString v)
  | None, Some e => Throw e
  | None, None => Throw (ErrMsg "could not determine QEMU version: bad output")
  end.
Section binary.
Context `{ToolHost}.
Definition GetVersion (rootdir binary : string) : act Version.t :=
  '(out, err) ← ask (Exec binary ["-version"] [("QEMU_ROOTDIR", rootdir)]);
  match err with
  | Some _ => throw (ErrMsg ("QEMU binary failed: " +:+ TrimSpace out))
  | None => lift (read_version out)
  end.
End binary.
End QemuBinary.

(** ** Updating the package *)

Module Updater.
Section updater.
Context `{ToolHost, HostNet.MapOrder, Env}.
Context (url_String : url → string).

Record updater_DEB := { u_url : url; installOnly : bool }.
Definition New (urlstr : string) (installOnly : bool) : act updater_DEB :=
  u ← done (url_Parse urlstr);
  fail_if (bool_decide (url_Path u = "")) (ErrMsg "no URL to package file specified");;
  fail_if (negb (bool_decide (url_Scheme u ∈ ["http"; "https"; ""]))) (ErrMsg ("unknown URL scheme: " +:+ url_Scheme u));;
  osinfo ← OsProber.Probe "/";
  match osinfo with
  | None => throw (ErrMsg "unable to determine type of host OS")
  | Some i =>
      if bool_decide (OsProber.Family i = "debian") then mret {| u_url := u; installOnly := installOnly |}
      else throw (ErrMsg "unsupported type of host OS")
  end.

Definition StatusOK : Z := 200.
Definition download (urlstr filepath : string) : act () :=
  r ← ask (Create filepath); done r;;
  r ← ask (HttpGet urlstr); code ← done r;
  fail_if (negb (code =? StatusOK)) (ErrMsg ("fetch error: http code = " +:+ Strconv.Itoa code));;
  r ← ask (FetchInto filepath); done r.
Definition dpkg (args : list string) : act string :=
  '(out, err) ← ask (Exec "/usr/bin/dpkg" args []);
  match err with Some e => throw e | None => mret (Strings.TrimSpace out) end.
Definition validate (debfile : string) : act string := dpkg ["-f"; debfile; "Version"].
Definition install (debfile : string) : act () := dpkg ["-i"; "--force-confold"; debfile];; mret ().
Definition GracefulRestart : act () :=
  r ← ask (Dial "unix:@/run/kvmrund.sock"); done r;;
  r ← ask SystemdConnect; done r;;
  r ← ask GracefulShutdown; done r;;
  r ← ask (StartAndTest "kvmrund.service" 5); done r.
(** What follows once the package is there. *)
Definition put (u : updater_DEB) (debfile : string) : act () :=
  validate debfile;;
  install debfile;;
  if installOnly u then mret () else GracefulRestart.
(** [defer os.RemoveAll(tmpdir)] *)
Definition deferred {A} (m : act A) (tmpdir : string) : act A := λ l,
  let '(r, l) := m l in (r, (ask (RemoveAll tmpdir) l).2).
Definition Run (u : updater_DEB) : act () :=
  if bool_decide (url_Scheme (u_url u) = "") then put u (url_Path (u_url u))
  else
    r ← ask (MkdirTemp ".kvmrun_updater-*"); tmpdir ← done r;
    deferred
      (pid ← ask Getpid;
       let debfile := Filepath.Join [tmpdir; "kvmrun." +:+ Strconv.Itoa pid +:+ ".deb"] in
       download (url_String (u_url u)) debfile;;
       put u debfile) tmpdir.
(** [update-kvmrun-package] *)
Definition run (arg : string) (installOnly : bool) : act () := u ← New arg installOnly; Run u.
End updater.
End Updater.

(** ** Gratuitous ARP *)

Module Garp.
Record arpHeader := {
  HardwareType : Z; ProtocolType : Z; HardwareAddrLength : Z; ProtocolAddrLength : Z; Operation : Z;
}.
Record arpMessage := {
  header : arpHeader; SenderHardwareAddr : list Z; SenderProtocolAddr : list Z; TargetHardwareAddr : list Z;
  TargetProtocolAddr : list Z;
}.
Definition ARPHRD_ETHER : Z := 1.
Definition ETH_TYPE_IPV4 : Z := 2048.
Definition ARPOP_REPLY : Z := 2.
Definition ETH_P_ARP : Z := 2054.
Definition ethernetBroadcast : list Z := replicate 6 255.
(** The 16 bytes of [net.IPv4bcast]. *)
Definition IPv4bcast : list Z := replicate 10 0 ++ replicate 6 255.
Fixpoint big_endian (n : nat) (x : Z) : list Z :=
  match n with
  | O => []
  | S n => Z.land (Z.shiftr x (8 * Z.of_nat n)) 255 :: big_endian n x
  end.

Definition newMessage (ip : Z) (hwaddr : list Z) : outcome arpMessage :=
  match IpNet.To4 ip with
  | None => Throw (ErrMsg "not an IPv4 address")
  | Some v =>
      if negb (length hwaddr =? 6)%nat then Throw (ErrMsg "not an Ethernet MAC-address")
      else Ret {| header := {| HardwareType := ARPHRD_ETHER; ProtocolType := ETH_TYPE_IPV4;
                               HardwareAddrLength := Z.land (Z.of_nat (length hwaddr)) 255; ProtocolAddrLength := 4;
                               Operation := ARPOP_REPLY |};
                  SenderHardwareAddr := hwaddr; SenderProtocolAddr := big_endian 4 v;
                  TargetHardwareAddr := ethernetBroadcast; TargetProtocolAddr := IPv4bcast |}
  end.
Definition header_bytes (h : arpHeader) : list Z :=
  big_endian 2 (HardwareType h) ++ big_endian 2 (ProtocolType h) ++ big_endian 1 (HardwareAddrLength h) ++
  big_endian 1 (ProtocolAddrLength h) ++ big_endian 2 (Operation h).
Definition Bytes (m : arpMessage) : list Z :=
  header_bytes (header m) ++ SenderHardwareAddr m ++ SenderProtocolAddr m ++ TargetHardwareAddr m ++ TargetProtocolAddr m.
(** The bytes of a little-endian number read as a big-endian one. *)
Definition htons (i : Z) : Z := Z.lor (Z.shiftl (Z.land i 255) 8) (Z.land (Z.shiftr i 8) 255).

Section send.
Context `{ToolHost}.
(** [count] times, until the context is closed. *)
Fixpoint repeat_send (count : nat) (b : list Z) : act () :=
  match count with
  | O => mret ()
  | S count =>
      going ← ask NextTick;
      if (going : bool) then r ← ask (SendTo b); done r;; repeat_send count b else mret ()
  end.
(** [ll.Addr] has 8 bytes. *)
Definition send (iface : interface) (ifname : string) (m : arpMessage) (count interval : Z) : act () :=
  r ← ask (ArpSocket (htons ETH_P_ARP)); done r;;
  r ← ask (BindToDevice ifname); done r;;
  let addr := take 8 (TargetHardwareAddr m ++ replicate 8 0) in
  r ← ask (BindTo (htons ETH_P_ARP) (Index iface) (HardwareType (header m)) (HardwareAddrLength (header m)) addr); done r;;
  if wrap64 (interval * 10 ^ 9) <=? 0 then lift (Panic NonPositiveInterval)
  else repeat_send (Z.to_nat (wrap64 count)) (Bytes m).
Definition Send (ifname ipstr : string) (count interval : Z) : act () :=
  r ← ask (InterfaceByName ifname); iface ← done r;
  match Ip.ParseIP ipstr with
  | None => throw (ErrMsg ("invalid IP address: " +:+ ipstr))
  | Some ip => m ← lift (newMessage ip (HardwareAddr iface)); send iface ifname m count interval
  end.
End send.
End Garp.

(** ** Setting up an interface *)

Module NetInit.
Section netinit.
Context `{ToolHost, Env}.
Definition configure (ifname : string) : act () :=
  cwd ← done os_Getwd;
  let vmname := Filepath.Base cwd in
  r ← ask (ReadJson (Filepath.Join [CHROOTDIR; vmname; "run/net"; ifname])); j ← done r;
  iface ← lift (Json.dec_struct ConfJson.netif_fields j ConfJson.netif_zero);
  let up := NetIface.Ifup (NetIface.props iface) in
  if bool_decide (up = "") then mret ()
  else '(_, err) ← ask (Exec up [ifname] []); match err with Some e => throw e | None => mret () end.
(** [main]: the status it exits with. *)
Definition main (args : list string) : act Z := λ l,
  match args with
  | [ifname] =>
      match configure ifname l with
      | (Ret _, l) => (Ret 0, l)
      | (Throw _, l) => (Ret 1, l)
      | (Panic p, l) => (Panic p, l)
      end
  | _ => (Ret 2, l)
  end.
End netinit.
End NetInit.

(** ** What the parts do *)

Module QemuBinaryFacts.
Import Strings QemuBinary ApiFacts.EnumFacts.

Definition ascii_only (a : ascii) : bool := (N_of_ascii a <? 128)%N.
Lemma ToLower_ascii l : Forall (λ a, ascii_only a = true) l → to_lower l = map lower_byte l.
Proof.
  induction l as [|a l IH]; [done|]. intros [Ha Hl]%Forall_cons. specialize (IH Hl).
  assert (a ≠ char 196 ∧ a ≠ char 226) as [H1 H2] by (by split; intros ->).
  cbn [to_lower map]. destruct l as [|b l]; [done|]. rewrite bool_decide_false by tauto.
  destruct l as [|c l]; [by rewrite IH|]. rewrite bool_decide_false by tauto. by rewrite IH.
Qed.
Lemma TrimSpace_ends a l b : graphic a = true → graphic b = true →
  TrimSpace (of_list (a :: l ++ [b])) = of_list (a :: l ++ [b]).
Proof.
  intros Ha Hb. unfold TrimSpace. rewrite to_of_list, trim_left_id.
  - rewrite trim_right_id; [done|]. rewrite app_comm_cons, rev_app_distr.
    apply strip_any_head; [|done]. intros e He. apply spaces_head. by right.
  - apply strip_any_head; [|done]. intros e He. apply spaces_head. by left.
Qed.

(** The text of a number that is not negative. *)
Lemma Itoa_numeric n : 0 ≤ n → Forall (λ a, numeric a = true) (to_list (Strconv.Itoa n)).
Proof.
  intros Hn. pose proof (Itoa_decimal n) as Hd. unfold Strconv.Itoa in *. rewrite (proj2 (Z.ltb_ge _ _)) in * by done.
  pose proof (proj1 (format_digits 10 n ltac:(lia) Hn)) as Hg. rewrite Forall_forall in *. intros a Ha.
  specialize (Hd a Ha). specialize (Hg a Ha). clear Ha. by destruct a as [[] [] [] [] [] [] [] []].
Qed.
Lemma Itoa_length n : 0 ≤ n → is_int n = true → (1 ≤ String.length (Strconv.Itoa n) ≤ 19)%nat.
Proof.
  intros Hn Hi. unfold Strconv.Itoa. rewrite (proj2 (Z.ltb_ge _ _)) by done. split.
  - pose proof (proj2 (format_digits 10 n ltac:(lia) Hn)). destruct (Strconv.format 10 n); [done|cbn; lia].
  - unfold is_int, int_max in Hi. apply andb_true_iff in Hi as [_ Hi%Z.leb_le].
    pose proof (format_go_length 10 (Z.to_nat (Z.log2 n)) n "" 18 ltac:(lia)) as Hl. cbn in Hl. unfold Strconv.format. lia.
Qed.

Definition released (v : Version.t) : Prop :=
  Version.is_version v ∧ 0 ≤ Version.Major v ∧ 0 ≤ Version.Minor v ∧ 0 ≤ Version.Micro v.
Lemma version_numeric v : released v → Forall (λ a, numeric a = true) (to_list (Version.to_string v)).
Proof.
  intros (_ & ? & ? & ?). unfold Version.to_string. rewrite !to_list_app.
  repeat (apply Forall_app; split); try (by apply Itoa_numeric); by repeat constructor.
Qed.
Lemma version_length v : released v → (5 ≤ String.length (Version.to_string v) ≤ 59)%nat.
Proof.
  intros ((H1 & H2 & H3) & Ha & Hb & Hc). unfold Version.to_string. rewrite !length_to_list, !to_list_app, !length_app.
  rewrite <- !length_to_list. cbn [String.length].
  pose proof (Itoa_length _ Ha H1). pose proof (Itoa_length _ Hb H2). pose proof (Itoa_length _ Hc H3).
  lia.
Qed.
Lemma take_while_all f s : Forall (λ a, f a = true) (to_list s) → take_while f s = s.
Proof. induction s as [|a s IH]; [done|]. intros [Ha Hs]%Forall_cons. cbn. by rewrite Ha, IH. Qed.
Lemma numeric_fine a : numeric a = true → graphic a = true ∧ ascii_only a = true ∧ lower_byte a = a ∧ a ≠ newline ∧ a ≠ char 13.
Proof. by destruct a as [[] [] [] [] [] [] [] []]. Qed.

(** The first line of what QEMU writes. *)
Definition banner_line (v : Version.t) : string := "QEMU emulator version " +:+ Version.to_string v.
Section line.
Context (v : Version.t) (Hv : released v).

Lemma line_ends : ∃ l b, to_list (banner_line v) = "Q"%char :: l ++ [b] ∧ numeric b = true.
Proof.
  pose proof (version_numeric v Hv) as Hn. pose proof (version_length v Hv) as Hl. rewrite length_to_list in Hl.
  unfold banner_line. rewrite to_list_app. destruct (to_list (Version.to_string v)) as [|c t _] eqn:E using rev_ind; [cbn in Hl; lia|].
  apply Forall_app in Hn as [_ [Hn _]%Forall_cons]. exists (to_list "EMU emulator version " ++ t), c.
  split; [by rewrite <- (app_assoc _ t [c])|done].
Qed.
Lemma line_trimmed : TrimSpace (banner_line v) = banner_line v.
Proof.
  destruct line_ends as (l & b & He & Hb). rewrite <- (of_to_list (banner_line v)), He.
  apply TrimSpace_ends; [done|]. by apply numeric_fine.
Qed.
Lemma line_lower : ToLower (banner_line v) = "qemu emulator version " +:+ Version.to_string v.
Proof.
  pose proof (version_numeric v Hv) as Hn. unfold ToLower, banner_line. rewrite to_list_app, ToLower_ascii.
  - rewrite map_app. replace (map lower_byte (to_list (Version.to_string v))) with (to_list (Version.to_string v)).
    + rewrite <- (of_to_list ("qemu emulator version " +:+ _)). by rewrite to_list_app.
    + induction Hn as [|a l Ha _ IH]; [done|]. cbn. rewrite <- IH. f_equal. symmetry. by apply numeric_fine.
  - apply Forall_app. split; [by repeat constructor|]. eapply Forall_impl; [exact Hn|]. intros a Ha. by apply numeric_fine.
Qed.
Lemma line_version : version_of (ToLower (TrimSpace (banner_line v))) = Some (Version.to_string v).
Proof.
  rewrite line_trimmed, line_lower. unfold version_of.
  change (after banner ("qemu emulator version " +:+ Version.to_string v)) with (Some (Version.to_string v)).
  cbn [mbind option_bind]. rewrite take_while_all by (by apply version_numeric).
  rewrite (proj2 (Nat.leb_le _ _)); [done|]. pose proof (version_length v Hv). lia.
Qed.
Lemma line_scanned more : ∃ r e, scan (Split (banner_line v +:+ String newline more) newline) = (banner_line v :: r, e).
Proof.
  pose proof (version_numeric v Hv) as Hn. destruct line_ends as (l & b & He & Hb). rewrite Split_app.
  - pose proof (Split_nonempty more newline) as Hm. destruct (Split more newline) as [|x rest]; [done|].
    assert (scan (banner_line v :: x :: rest) = let '(r, e) := scan (x :: rest) in (banner_line v :: r, e)) as ->; [|by destruct (scan _) as [r e]; exists r, e].
    change (scan (banner_line v :: x :: rest)) with
      (if maxTokenSize <=? Z.of_nat (String.length (banner_line v)) then ([], Some (ErrMsg "bufio.Scanner: token too long"))
       else let '(r, e) := scan (x :: rest) in (trim_cr (banner_line v) :: r, e)).
    rewrite (proj2 (Z.leb_gt _ _)).
    + unfold trim_cr, HasSuffix. rewrite He, app_comm_cons, rev_app_distr. cbn [to_list String.list_ascii_of_string rev app strip].
      rewrite decide_False; [done|]. intros Hc. apply numeric_fine in Hb. naive_solver.
    + pose proof (version_length v Hv). unfold banner_line. rewrite length_to_list, to_list_app, length_app, <- !length_to_list.
      change (String.length "QEMU emulator version ") with 22%nat. unfold maxTokenSize. lia.
  - unfold banner_line. rewrite to_list_app. intros [Hin|Hin]%elem_of_app; [revert Hin; change (newline ∉ to_list "QEMU emulator version "); by_compute|].
    rewrite Forall_forall in Hn. apply Hn, numeric_fine in Hin. naive_solver.
Qed.
End line.

(** what QEMU writes about itself is read as its version, whatever follows the first
    line. *)
Theorem GetVersion_banner v more : released v → read_version (banner_line v +:+ String newline more) = Ret v.
Proof.
  intros Hv. unfold read_version. destruct (line_scanned v Hv more) as (r & e & ->). cbn [first_version].
  rewrite line_version by done. apply Version.parse_to_string, Hv.
Qed.
Example GetVersion_banner_witness :
  read_version (banner_line {| Version.Major := 8; Version.Minor := 2; Version.Micro := 0 |} +:+ String newline "Copyright (c) 2003-2023") =
  Ret {| Version.Major := 8; Version.Minor := 2; Version.Micro := 0 |}.
Proof. apply (GetVersion_banner {| Version.Major := 8; Version.Minor := 2; Version.Micro := 0 |}). repeat split; done. Defined.
End QemuBinaryFacts.

Module OsProberFacts.
Import Strings OsProber.

Definition capital (a : ascii) : bool := bool_decide (65 ≤ N_of_ascii a ≤ 90)%N.
Lemma lower_byte_small a : capital (lower_byte a) = false.
Proof. by destruct a as [[] [] [] [] [] [] [] []]. Qed.
Lemma to_lower_small l : Forall (λ a, capital a = false) (to_lower l).
Proof.
  induction l as [l IH] using (induction_ltof1 _ length). unfold ltof in IH.
  destruct l as [|a [|b l]]; [constructor|constructor; [apply lower_byte_small|constructor]|]. cbn [to_lower].
  case_bool_decide; [constructor; [done|apply IH; cbn; lia]|].
  destruct l as [|c l]; [constructor; [apply lower_byte_small|apply (IH [b]); cbn; lia]|].
  case_bool_decide; [constructor; [done|apply IH; cbn; lia]|].
  constructor; [apply lower_byte_small|apply (IH (b :: c :: l)); cbn; lia].
Qed.
Lemma ToLower_small s : Forall (λ a, capital a = false) (to_list (ToLower s)).
Proof. unfold ToLower. rewrite to_of_list. apply to_lower_small. Qed.
Lemma Split_part s c (P : ascii → Prop) e : e ∈ Split s c → Forall P (to_list s) → Forall P (to_list e).
Proof.
  revert e. induction s as [|a s IH]; intros e; cbn [Split].
  - intros ->%list_elem_of_singleton. done.
  - intros He [Ha Hs]%Forall_cons. destruct (decide (a = c)).
    + apply elem_of_cons in He as [->|He]; [constructor|by apply IH].
    + pose proof (Split_nonempty s c). destruct (Split s c) as [|h t]; [done|].
      apply elem_of_cons in He as [->|He]; [|by apply IH; [right|]].
      constructor; [done|]. apply IH; [left|done].
Qed.

Section facts.
Context `{ToolHost, HostNet.MapOrder, !HostNet.MapOrderLaws}.

Lemma VerByCode_capital m code : Forall (λ a, capital a = false) (to_list code) →
  map_Forall (λ _ v, match to_list v with a :: _ => capital a = true | [] => False end) m → VerByCode m code = "".
Proof.
  intros Hc Hm. unfold VerByCode. destruct (list_find _ _) as [[i [k v]]|] eqn:E; [|done].
  apply list_find_Some in E as (Hi & Hv & _). cbn in Hv. subst v.
  apply list_elem_of_lookup_2 in Hi. rewrite HostNet.map_order_law, elem_of_map_to_list in Hi. apply Hm in Hi.
  destruct (to_list code) as [|a l]; [done|]. apply Forall_cons in Hc as [Hc _]. congruence.
Qed.
Lemma debian_capital : map_Forall (λ _ v, match to_list v with a :: _ => capital a = true | [] => False end) DEBIAN_CODES.
Proof. apply map_Forall_to_list. by repeat constructor. Qed.

(** /etc/debian_version with a code name instead of a number: the name is not
    recognised, and the version and its code name are empty. *)
Theorem debian_code_lost b : let v := default "" (head (Split (ToLower (TrimSpace b)) ".")) in
  mem "/" (ToLower (TrimSpace b)) = false → (∀ n, Strconv.Atoi v ≠ Ret n) →
  let i := DebianVersionProber_of b in Version i = "" ∧ CodeName i = "" ∧ PrettyName i = "Debian GNU/Linux  ()".
Proof.
  intros v Hs Hn. unfold DebianVersionProber_of. rewrite Hs. fold v.
  assert (match Strconv.Atoi v with Ret _ => v | _ => VerByCode DEBIAN_CODES v end = "") as ->; [|done].
  pose proof (Split_nonempty (ToLower (TrimSpace b)) ".") as Hp.
  assert (VerByCode DEBIAN_CODES v = "") as Hv.
  { apply VerByCode_capital; [|apply debian_capital]. subst v.
    destruct (Split (ToLower (TrimSpace b)) ".") as [|e r] eqn:E; [done|]. cbn.
    apply (Split_part (ToLower (TrimSpace b)) "."); [rewrite E; left|apply ToLower_small]. }
  destruct (Strconv.Atoi v) eqn:E; [by destruct (Hn a)|done..].
Qed.
End facts.

#[local] Instance silent : ToolHost := λ _ q,
  match q return reply q with
  | Getpid => 1 | NextTick => true | Exec _ _ _ => ("", None)
  | ReadFile p | MkdirTemp p => inr (ErrNotExist p)
  | ScanFile p => inr (ErrNotExist p) | ReadJson p => inr (ErrNotExist p) | HttpGet p => inr (ErrHost p)
  | InterfaceByName p => inr (ErrHost p)
  | _ => inl ()
  end.
#[local] Instance some_order : HostNet.MapOrder := λ A m, map_to_list m.
#[local] Instance some_order_laws : HostNet.MapOrderLaws.
Proof. by intros A m. Qed.
Example debian_code_lost_witness : Version (DebianVersionProber_of "buster") = "" ∧
  PrettyName (DebianVersionProber_of "buster") = "Debian GNU/Linux  ()".
Proof. destruct (debian_code_lost "buster" eq_refl ltac:(intros n; vm_compute; discriminate)) as (Hv & _ & Hp). exact (conj Hv Hp). Defined.
End OsProberFacts.

Module UpdaterFacts.
Import Updater.

Section facts.
Context `{ToolHost, HostNet.MapOrder, Env} (url_String : url → string).

(** [m] makes these requests one after another, up to the first that fails. *)
Definition asks {A} (wanted : list request) (m : act A) : Prop := ∀ l, ∃ made rest,
  wanted = made ++ rest ∧ (m l).2 = l ++ made ∧ (is_ret (m l).1 = true → rest = []).
Lemma asks_nil {A} (o : outcome A) : asks [] (lift o).
Proof. intros l. exists [], []. split_and!; [done|by rewrite app_nil_r|done]. Qed.
Lemma asks_bind {A B} w1 w2 (m : act A) (k : A → act B) : asks w1 m → (∀ a, asks w2 (k a)) → asks (w1 ++ w2) (m ≫= k).
Proof.
  intros Hm Hk l. destruct (Hm l) as (k1 & r1 & -> & Hl & Hr). unfold mbind, op_bind.
  destruct (m l) as [[a|e|p] l1]; cbn in *; subst l1.
  - rewrite (Hr eq_refl), app_nil_r. destruct (Hk a (l ++ k1)) as (k2 & r2 & -> & Hl2 & Hr2).
    exists (k1 ++ k2), r2. rewrite Hl2. by rewrite !app_assoc.
  - exists k1, (r1 ++ w2). by rewrite app_assoc.
  - exists k1, (r1 ++ w2). by rewrite app_assoc.
Qed.
Lemma asks_ask q : asks [q] (ask q).
Proof. intros l. exists [q], []. done. Qed.
Lemma asks_then {A} q w (k : reply q → act A) : (∀ a, asks w (k a)) → asks (q :: w) (r ← ask q; k r).
Proof. intros Hk. apply (asks_bind [q] w); [apply asks_ask|done]. Qed.
Lemma asks_done {A B} w (r : sys A) (k : A → act B) : (∀ a, asks w (k a)) → asks w (a ← done r; k a).
Proof. intros Hk. apply (asks_bind [] w); [apply asks_nil|done]. Qed.
Lemma asks_fail {A} w c e (m : act A) : asks w m → asks w (fail_if c e;; m).
Proof. intros Hm. apply (asks_bind [] w); [destruct c; [apply (asks_nil (Throw e))|apply (asks_nil (Ret ()))]|done]. Qed.
Lemma asks_ret {A} (a : A) : asks [] (mret a : act A).
Proof. apply (asks_nil (Ret a)). Qed.
Lemma asks_dpkg args : asks [Exec "/usr/bin/dpkg" args []] (dpkg args).
Proof. apply asks_then. intros [out [e|]]; [apply (asks_nil (Throw e))|apply asks_ret]. Qed.

Definition fetching (u : updater_DEB) (f : string) : list request := [Create f; HttpGet (url_String (u_url u)); FetchInto f].
Definition installing (u : updater_DEB) (f : string) : list request :=
  [Exec "/usr/bin/dpkg" ["-f"; f; "Version"] []; Exec "/usr/bin/dpkg" ["-i"; "--force-confold"; f] []] ++
  if installOnly u then []
  else [Dial "unix:@/run/kvmrund.sock"; SystemdConnect; GracefulShutdown; StartAndTest "kvmrund.service" 5].
Lemma asks_download u f : asks (fetching u f) (download (url_String (u_url u)) f).
Proof.
  apply asks_then. intros r. apply asks_done. intros _. apply asks_then. intros c. apply asks_done. intros code.
  apply asks_fail, asks_then. intros r'. apply asks_nil.
Qed.
Lemma asks_put u f : asks (installing u f) (put u f).
Proof.
  apply (asks_bind [_]); [apply asks_dpkg|intros _]. apply (asks_bind [_]).
  - apply (asks_bind [_] []); [apply asks_dpkg|intros _; apply asks_ret].
  - intros _. destruct (installOnly u); [apply asks_ret|]. unfold GracefulRestart.
    do 3 (apply asks_then; intros ?; apply asks_done; intros _). apply asks_then. intros r. apply asks_nil.
Qed.

Lemma ask_bind {A} q (k : reply q → act A) l : (r ← ask q; k r) l = k (tool_answer l q) (l ++ [q]).
Proof. done. Qed.
Lemma done_bind {A B} (a : A) (k : A → act B) l : (a ← done (inl a); k a) l = k a l.
Proof. done. Qed.
Definition tempdir : request := MkdirTemp ".kvmrun_updater-*".
Lemma Run_fetched u l dir : url_Scheme (u_url u) ≠ "" → tool_answer l tempdir = inl dir →
  let l1 := l ++ [tempdir] in
  let f := Filepath.Join [dir; "kvmrun." +:+ Strconv.Itoa (tool_answer l1 Getpid) +:+ ".deb"] in
  let run := (download (url_String (u_url u)) f;; put u f) (l1 ++ [Getpid]) in
  Updater.Run url_String u l = (run.1, run.2 ++ [RemoveAll dir]).
Proof.
  intros Hs Hd l1 f run. unfold Updater.Run. rewrite bool_decide_false by done.
  refine (eq_trans (ask_bind tempdir _ l) _). rewrite Hd. refine (eq_trans (done_bind _ _ _) _). unfold deferred.
  assert (∀ p : outcome () * list request,
    (let '(r, l') := p in (r, (ask (RemoveAll dir) l').2)) = (p.1, p.2 ++ [RemoveAll dir])) as Hp by (by intros []).
  exact (Hp run).
Qed.

(** an update asks dpkg what the package is before it installs it, and the daemon is
    asked to end only once the package is installed, and never under --install-only; what
    was downloaded is removed however the update ends. *)
Theorem update_order u l :
  if decide (url_Scheme (u_url u) = "") then
    ∃ made rest, installing u (url_Path (u_url u)) = made ++ rest ∧ (Updater.Run url_String u l).2 = l ++ made ∧
                 (is_ret (Updater.Run url_String u l).1 = true → rest = [])
  else ∀ dir, tool_answer l tempdir = inl dir →
    let f := Filepath.Join [dir; "kvmrun." +:+ Strconv.Itoa (tool_answer (l ++ [tempdir]) Getpid) +:+ ".deb"] in
    ∃ made rest, fetching u f ++ installing u f = made ++ rest ∧
                 (Updater.Run url_String u l).2 = l ++ [tempdir; Getpid] ++ made ++ [RemoveAll dir] ∧
                 (is_ret (Updater.Run url_String u l).1 = true → rest = []).
Proof.
  unfold Updater.Run. case_decide as Hs; [rewrite bool_decide_true by done; apply asks_put|].
  rewrite bool_decide_false by done. intros dir Hd. set (f := Filepath.Join _).
  assert (asks (fetching u f ++ installing u f) (download (url_String (u_url u)) f;; put u f)) as Ha
    by (apply asks_bind; [apply asks_download|intros _; apply asks_put]).
  destruct (Ha (l ++ [tempdir; Getpid])) as (made & rest & He & Hl & Hr).
  exists made, rest. split; [done|]. pose proof (Run_fetched u l dir Hs Hd) as Hrun. cbn zeta in Hrun.
  rewrite <- app_assoc in Hrun. fold f in Hrun.
  change ([tempdir] ++ [Getpid]) with [tempdir; Getpid] in Hrun.
  unfold Updater.Run in Hrun. rewrite bool_decide_false in Hrun by done. rewrite Hrun. cbn [fst snd]. rewrite Hl.
  split; [by rewrite <- !app_assoc|done].
Qed.
End facts.
End UpdaterFacts.

Module GarpFacts.
Import Garp.

Definition word (l : list Z) : Z := foldl (λ acc b, acc * 256 + b) 0 l.
(** How RFC 826 reads a message: lengths of addresses, operation, the four addresses and
    what is left. *)
Definition arp_read (b : list Z) : option (Z * (list Z * list Z) * (list Z * list Z) * list Z) :=
  match b with
  | _ :: _ :: _ :: _ :: hln :: pln :: o1 :: o2 :: r =>
      let h := Z.to_nat hln in let p := Z.to_nat pln in
      Some (word [o1; o2], (take h r, take p (drop h r)), (take h (drop (h + p) r), take p (drop (h + p + h) r)), drop (h + p + h + p) r)
  | _ => None
  end.

(** the message of a gratuitous ARP reply has the sender's addresses, but the address
    it is for is read as 0.0.0.0: the broadcast address is written with its 16 bytes, of
    which twelve are left over. *)
Theorem garp_target ip hw m : newMessage ip hw = Ret m →
  ∃ v, IpNet.To4 ip = Some v ∧
    arp_read (Bytes m) = Some (ARPOP_REPLY, (hw, big_endian 4 v), (ethernetBroadcast, [0; 0; 0; 0]), replicate 6 0 ++ replicate 6 255).
Proof.
  unfold newMessage. destruct (IpNet.To4 ip) as [v|]; [|done]. destruct (Nat.eqb_spec (length hw) 6) as [Hl|]; [|done].
  intros [= <-]. exists v. split; [done|]. destruct hw as [|? [|? [|? [|? [|? [|? [|? ?]]]]]]]; try done.
Qed.
Example garp_target_witness :
  arp_read (match newMessage (65535 * 2 ^ 32 + 167772161) [84; 82; 0; 1; 2; 3] with Ret m => Bytes m | _ => [] end) =
  Some (2, ([84; 82; 0; 1; 2; 3], [10; 0; 0; 1]), (replicate 6 255, [0; 0; 0; 0]), replicate 6 0 ++ replicate 6 255).
Proof.
  destruct (garp_target (65535 * 2 ^ 32 + 167772161) [84; 82; 0; 1; 2; 3] _ eq_refl) as (v & Hv & Hr).
  change (Some 167772161 = Some v) in Hv. injection Hv as <-. exact Hr.
Defined.
End GarpFacts.
