(* ===== verification/Daemon.v ===== *)
(** Daemon: how the daemon starts ([internal/appconf], [server/server.go]), what it is
    told of systemd's units ([internal/systemd/manager.go], [properties.go]), what it
    tells of the host's devices and of itself ([services/hardware], [GetAppConfig]),
    [cmd/printpci], and how long a machine runs ([internal/utils/process.go]).

    gcfg, crypto/tls, the D-Bus connection and the formats of times are parameters. *)

From S2P Require Import Prelude.
From S2P Require Import GoStd.
From S2P Require Import GoFacts.
From S2P Require Import PciAddress.
From S2P Require Import Backend.
From S2P Require Import PciDevice.
From S2P Require Import Json.
From S2P Require Import InstanceConf.
From S2P Require Import Monitor.
From S2P Require Import Services.
From S2P Require Import Listing.
From S2P Require Import HostNet.
From S2P Require Import Netstat.
From S2P Require Import NetstatFacts.
From S2P Require Import Api.

Open Scope Z_scope.
#[local] Set Warnings "-register-all".

(** ** The configuration of the program *)

Module AppConf.
Import Strings.

Record KvmrunConfig := { QemuRootDir : string; CertDir : string }.
(** [tls.Config]: the certificate with its chain, and the authority. *)
Record tls := { Certificates : list string; RootCA : string }.
Record ServerConfig := { Port : Z; GatewayPort : Z; GRPCSocketPath : string; srv_TLSConfig : option tls }.
Record Config := {
  Kvmrun : KvmrunConfig; Server : ServerConfig; TLSConfig : option tls;
  ServerCrt : string; ServerKey : string; ClientCrt : string; ClientKey : string;
}.

(** [gcfg] overwrites what the file has; a key pair is read with its whole chain. *)
Class Files := {
  ReadFileInto : KvmrunConfig * ServerConfig → string → sys (KvmrunConfig * ServerConfig);
  LoadX509KeyPair : string → string → sys (list string);
  ParseCertificate : string → sys string;
}.

Section conf.
Context `{Files, Env}.

Definition tlsConfig (certFile keyFile : string) : outcome tls :=
  cert ← call (LoadX509KeyPair certFile keyFile);
  match cert with
  | [_; ca] => ca ← call (ParseCertificate ca); Ret {| Certificates := cert; RootCA := ca |}
  | _ => Throw (ErrMsg "certificate should have 2 concatenated certificates: cert + CA")
  end.
(** A pair that is not there is no error. *)
Definition optional_tls (certFile keyFile : string) (old : option tls) : outcome (option tls) :=
  match tlsConfig certFile keyFile with
  | Ret v => Ret (Some v)
  | Throw (ErrNotExist _) => Ret old
  | Throw e => Throw e
  | Panic p => Panic p
  end.
Definition defaults : KvmrunConfig * ServerConfig :=
  ({| QemuRootDir := "/"; CertDir := "/usr/share/kvmrun/tls" |},
   {| Port := 9393; GatewayPort := 9898; GRPCSocketPath := "/run/kvmrund.sock"; srv_TLSConfig := None |}).
Definition newConfig (p : string) : outcome Config :=
  '(k, s) ← call (ReadFileInto defaults p);
  let crt := Filepath.Join [CertDir k; "client.crt"] in
  let key := Filepath.Join [CertDir k; "client.key"] in
  tls ← optional_tls crt key None;
  let v := TrimSpace (QemuRootDir k) in
  root ← (if bool_decide (v = "") then Ret "/" else filepath_Abs v);
  Ret {| Kvmrun := {| QemuRootDir := root; CertDir := CertDir k |}; Server := s; TLSConfig := tls;
         ServerCrt := ""; ServerKey := ""; ClientCrt := crt; ClientKey := key |}.
Definition NewServerConfig (p : string) : outcome Config :=
  cfg ← newConfig p;
  let crt := Filepath.Join [CertDir (Kvmrun cfg); "server.crt"] in
  let key := Filepath.Join [CertDir (Kvmrun cfg); "server.key"] in
  let s := Server cfg in
  tls ← optional_tls crt key (srv_TLSConfig s);
  Ret {| Kvmrun := Kvmrun cfg;
         Server := {| Port := Port s; GatewayPort := GatewayPort s; GRPCSocketPath := GRPCSocketPath s; srv_TLSConfig := tls |};
         TLSConfig := TLSConfig cfg; ServerCrt := crt; ServerKey := key; ClientCrt := ClientCrt cfg; ClientKey := ClientKey cfg |}.
Definition NewClientConfig : string → outcome Config := newConfig.
End conf.
End AppConf.

(** ** Units *)

(** [strings.TrimSuffix] *)
Definition TrimSuffix (s suffix : string) : string :=
  if Strings.HasSuffix s suffix then String.substring 0 (String.length s - String.length suffix) s else s.

Module Systemd.
Import Json.

Inductive dbus := DInt64 (n : Z) | DUint64 (n : Z) | DValue (j : json).
Record ExecCommandState := {
  Path : string; Arguments : list string; Fail : bool; EnterTime : option Z; EnterTimeMono : Z;
  ExitTime : option Z; ExitTimeMono : Z; ExecPID : Z; ExecCode : Z; ExecStatus : Z;
}.
Definition no_command : ExecCommandState :=
  {| Path := ""; Arguments := []; Fail := false; EnterTime := None; EnterTimeMono := 0; ExitTime := None; ExitTimeMono := 0;
     ExecPID := 0; ExecCode := 0; ExecStatus := 0 |}.
(** The values of the array, in its order. *)
Record positions := {
  p_Path : string; p_Arguments : list string; p_Fail : bool; p_EnterTime : Z; p_EnterTimeMono : Z; p_ExitTime : Z;
  p_ExitTimeMono : Z; p_ExecPID : Z; p_ExecCode : Z; p_ExecStatus : Z;
}.
Definition no_positions : positions := Build_positions "" [] false 0 0 0 0 0 0 0.
Definition dec_strings : decoder (list string) := λ j old,
  match j with
  | JNull => Ret old
  | _ => l ← dec_slice "" dec_string j; Ret (map (default "") l)
  end.
Fixpoint dec_array {S} (ds : list (decoder S)) (l : list json) (s : S) : outcome S :=
  match ds, l with
  | d :: ds, j :: l => s ← d j s; dec_array ds l s
  | _, _ => Ret s
  end.
Definition position_decoders : list (decoder positions) := [
  on p_Path (λ v s, Build_positions v (p_Arguments s) (p_Fail s) (p_EnterTime s) (p_EnterTimeMono s) (p_ExitTime s) (p_ExitTimeMono s) (p_ExecPID s) (p_ExecCode s) (p_ExecStatus s)) dec_string;
  on p_Arguments (λ v s, Build_positions (p_Path s) v (p_Fail s) (p_EnterTime s) (p_EnterTimeMono s) (p_ExitTime s) (p_ExitTimeMono s) (p_ExecPID s) (p_ExecCode s) (p_ExecStatus s)) dec_strings;
  on p_Fail (λ v s, Build_positions (p_Path s) (p_Arguments s) v (p_EnterTime s) (p_EnterTimeMono s) (p_ExitTime s) (p_ExitTimeMono s) (p_ExecPID s) (p_ExecCode s) (p_ExecStatus s)) dec_bool;
  on p_EnterTime (λ v s, Build_positions (p_Path s) (p_Arguments s) (p_Fail s) v (p_EnterTimeMono s) (p_ExitTime s) (p_ExitTimeMono s) (p_ExecPID s) (p_ExecCode s) (p_ExecStatus s)) dec_int;
  on p_EnterTimeMono (λ v s, Build_positions (p_Path s) (p_Arguments s) (p_Fail s) (p_EnterTime s) v (p_ExitTime s) (p_ExitTimeMono s) (p_ExecPID s) (p_ExecCode s) (p_ExecStatus s)) dec_int;
  on p_ExitTime (λ v s, Build_positions (p_Path s) (p_Arguments s) (p_Fail s) (p_EnterTime s) (p_EnterTimeMono s) v (p_ExitTimeMono s) (p_ExecPID s) (p_ExecCode s) (p_ExecStatus s)) dec_int;
  on p_ExitTimeMono (λ v s, Build_positions (p_Path s) (p_Arguments s) (p_Fail s) (p_EnterTime s) (p_EnterTimeMono s) (p_ExitTime s) v (p_ExecPID s) (p_ExecCode s) (p_ExecStatus s)) dec_int;
  on p_ExecPID (λ v s, Build_positions (p_Path s) (p_Arguments s) (p_Fail s) (p_EnterTime s) (p_EnterTimeMono s) (p_ExitTime s) (p_ExitTimeMono s) v (p_ExecCode s) (p_ExecStatus s)) dec_int;
  on p_ExecCode (λ v s, Build_positions (p_Path s) (p_Arguments s) (p_Fail s) (p_EnterTime s) (p_EnterTimeMono s) (p_ExitTime s) (p_ExitTimeMono s) (p_ExecPID s) v (p_ExecStatus s)) dec_int;
  on p_ExecStatus (λ v s, Build_positions (p_Path s) (p_Arguments s) (p_Fail s) (p_EnterTime s) (p_EnterTimeMono s) (p_ExitTime s) (p_ExitTimeMono s) (p_ExecPID s) (p_ExecCode s) v) dec_int].
(** [UnmarshalJSON]: three of the values are not kept. *)
Definition UnmarshalJSON : decoder ExecCommandState := λ j s,
  match j with
  | JNull => Ret s
  | JArr l =>
      dst ← dec_array position_decoders l no_positions;
      Ret {| Path := p_Path dst; Arguments := p_Arguments dst; Fail := Fail s;
             EnterTime := Some (wrap64 (p_EnterTime dst * 1000)); EnterTimeMono := EnterTimeMono s;
             ExitTime := Some (wrap64 (p_ExitTime dst * 1000)); ExitTimeMono := ExitTimeMono s;
             ExecPID := p_ExecPID dst; ExecCode := p_ExecCode dst; ExecStatus := p_ExecStatus dst |}
  | _ => Throw type_error
  end.

(** [systemd.UnitProperties]; a time is in nanoseconds, or the zero time. *)
Record UnitProperties := {
  Name : string; LoadState : string; ActiveState : string; SubState : string; ExecMainPID : Z;
  ActiveEnterTime : option Z; ActiveExitTime : option Z; StateChangeTime : option Z;
  ExecStart : list ExecCommandState; ExecStartPost : list ExecCommandState; ExecStartPre : list ExecCommandState;
  ExecStop : list ExecCommandState; ExecStopPost : list ExecCommandState;
}.
Definition of_unit (name : string) : UnitProperties := Build_UnitProperties name "" "" "" 0 None None None [] [] [] [] [].
(** [time.Time.String], and how the decoder reads a time. *)
Class TimeText := { time_String : Z → string; dec_time : decoder (option Z) }.

Section properties.
Context `{TimeText}.

Definition dec_commands : decoder (list ExecCommandState) := λ j old,
  match j with
  | JNull => Ret []
  | _ => l ← dec_slice no_command UnmarshalJSON j; Ret (map (default no_command) l)
  end.
Definition property_fields : list (string * decoder UnitProperties) := [
  ("LoadState", on LoadState (λ v s, Build_UnitProperties (Name s) v (ActiveState s) (SubState s) (ExecMainPID s) (ActiveEnterTime s) (ActiveExitTime s) (StateChangeTime s) (ExecStart s) (ExecStartPost s) (ExecStartPre s) (ExecStop s) (ExecStopPost s)) dec_string);
  ("ActiveState", on ActiveState (λ v s, Build_UnitProperties (Name s) (LoadState s) v (SubState s) (ExecMainPID s) (ActiveEnterTime s) (ActiveExitTime s) (StateChangeTime s) (ExecStart s) (ExecStartPost s) (ExecStartPre s) (ExecStop s) (ExecStopPost s)) dec_string);
  ("SubState", on SubState (λ v s, Build_UnitProperties (Name s) (LoadState s) (ActiveState s) v (ExecMainPID s) (ActiveEnterTime s) (ActiveExitTime s) (StateChangeTime s) (ExecStart s) (ExecStartPost s) (ExecStartPre s) (ExecStop s) (ExecStopPost s)) dec_string);
  ("ExecMainPID", on ExecMainPID (λ v s, Build_UnitProperties (Name s) (LoadState s) (ActiveState s) (SubState s) v (ActiveEnterTime s) (ActiveExitTime s) (StateChangeTime s) (ExecStart s) (ExecStartPost s) (ExecStartPre s) (ExecStop s) (ExecStopPost s)) dec_int);
  ("ActiveEnterTime", on ActiveEnterTime (λ v s, Build_UnitProperties (Name s) (LoadState s) (ActiveState s) (SubState s) (ExecMainPID s) v (ActiveExitTime s) (StateChangeTime s) (ExecStart s) (ExecStartPost s) (ExecStartPre s) (ExecStop s) (ExecStopPost s)) dec_time);
  ("ActiveExitTime", on ActiveExitTime (λ v s, Build_UnitProperties (Name s) (LoadState s) (ActiveState s) (SubState s) (ExecMainPID s) (ActiveEnterTime s) v (StateChangeTime s) (ExecStart s) (ExecStartPost s) (ExecStartPre s) (ExecStop s) (ExecStopPost s)) dec_time);
  ("StateChangeTime", on StateChangeTime (λ v s, Build_UnitProperties (Name s) (LoadState s) (ActiveState s) (SubState s) (ExecMainPID s) (ActiveEnterTime s) (ActiveExitTime s) v (ExecStart s) (ExecStartPost s) (ExecStartPre s) (ExecStop s) (ExecStopPost s)) dec_time);
  ("ExecStart", on ExecStart (λ v s, Build_UnitProperties (Name s) (LoadState s) (ActiveState s) (SubState s) (ExecMainPID s) (ActiveEnterTime s) (ActiveExitTime s) (StateChangeTime s) v (ExecStartPost s) (ExecStartPre s) (ExecStop s) (ExecStopPost s)) dec_commands);
  ("ExecStartPost", on ExecStartPost (λ v s, Build_UnitProperties (Name s) (LoadState s) (ActiveState s) (SubState s) (ExecMainPID s) (ActiveEnterTime s) (ActiveExitTime s) (StateChangeTime s) (ExecStart s) v (ExecStartPre s) (ExecStop s) (ExecStopPost s)) dec_commands);
  ("ExecStartPre", on ExecStartPre (λ v s, Build_UnitProperties (Name s) (LoadState s) (ActiveState s) (SubState s) (ExecMainPID s) (ActiveEnterTime s) (ActiveExitTime s) (StateChangeTime s) (ExecStart s) (ExecStartPost s) v (ExecStop s) (ExecStopPost s)) dec_commands);
  ("ExecStop", on ExecStop (λ v s, Build_UnitProperties (Name s) (LoadState s) (ActiveState s) (SubState s) (ExecMainPID s) (ActiveEnterTime s) (ActiveExitTime s) (StateChangeTime s) (ExecStart s) (ExecStartPost s) (ExecStartPre s) v (ExecStopPost s)) dec_commands);
  ("ExecStopPost", on ExecStopPost (λ v s, Build_UnitProperties (Name s) (LoadState s) (ActiveState s) (SubState s) (ExecMainPID s) (ActiveEnterTime s) (ActiveExitTime s) (StateChangeTime s) (ExecStart s) (ExecStartPost s) (ExecStartPre s) (ExecStop s) v) dec_commands)].

Definition to_json (v : dbus) : json := match v with DInt64 n | DUint64 n => JNum n | DValue j => j end.
(** The timestamps that are signed numbers, as texts under shorter names. *)
Definition stamped (raw : list (string * dbus)) : list (string * json) :=
  omap (λ key,
    match list_find (λ kv, kv.1 = key) raw with
    | Some (_, (_, DInt64 v)) =>
        Some (TrimSuffix key "stamp", JStr (time_String (wrap64 (v * 1000))))
    | _ => None
    end) ["ActiveEnterTimestamp"; "ActiveExitTimestamp"; "StateChangeTimestamp"].
Definition GetUnitProperties (get : string → sys (list (string * dbus))) (unitname : string) : outcome UnitProperties :=
  raw ← call (get unitname);
  dec_struct property_fields (JObj (map (λ kv, (kv.1, to_json kv.2)) raw ++ stamped raw)) (of_unit unitname).
End properties.

Record UnitStatus := { us_Name : string; us_LoadState : string; us_ActiveState : string; us_SubState : string }.
Definition GetAllUnits (list_units : string → sys (list UnitStatus)) (pattern : string) : outcome (list UnitStatus) :=
  raw ← call (list_units pattern);
  Ret (map (λ u, {| us_Name := us_Name u; us_LoadState := us_LoadState u; us_ActiveState := us_ActiveState u;
                    us_SubState := us_SubState u |}) raw).
End Systemd.

(** ** Starting *)

Module ServerStart.
Import Strings AppConf.

(** What the start asks for, besides the file system. *)
Class Startup := {
  NewManager : sys ();
  RegisterClassifier : string → sys ();
  ListUnits : string → sys (list Systemd.UnitStatus);
  NewMonitor : string → sys ();
}.
Record server := { appConf : Config; monitors : list string }.
Definition unit2vm (unitname : string) : string := TrimSuffix (TrimPrefix unitname "kvmrun@") ".service".

Section start.
Context `{Startup} {hst : Host}.

Definition running (u : Systemd.UnitStatus) : bool :=
  bool_decide (Systemd.us_ActiveState u = "active") && bool_decide (Systemd.us_SubState u = "running").
(** The machines connected to; one that refuses is passed over. *)
Definition monitorReConnect : outcome (list string) :=
  units ← Systemd.GetAllUnits ListUnits "kvmrun@*.service";
  Ret (filter (λ vm, match NewMonitor vm with inl _ => true | inr _ => false end = true)
         (map (λ u, unit2vm (Systemd.us_Name u)) (filter (λ u, running u = true) units))).
Fixpoint register (names : list string) : outcome () :=
  match names with
  | [] => Ret ()
  | n :: names => call (RegisterClassifier n);; register names
  end.
Definition NewServer (appConf : option Config) : outcome server :=
  match appConf with
  | None => Throw (ErrMsg "empty application config")
  | Some c =>
      match TLSConfig c, srv_TLSConfig (Server c) with
      | Some _, Some _ =>
          let root := QemuRootDir (Kvmrun c) in
          match os_Stat root with
          | inr (ErrNotExist _) => Throw (ErrMsg ("QEMU root directory does not exist: " +:+ root))
          | inr e => Throw e
          | inl _ =>
              call NewManager;;
              register ["unique-labels"; "group-labels"; "hostnet-group"];;
              n ← monitorReConnect;
              Ret {| appConf := c; monitors := n |}
          end
      | _, _ => Throw (ErrMsg "both server and client TLS certificates must exist")
      end
  end.
(** What [GetAppConfig] tells, as the service passes it on. *)
Definition GetAppConfig (s : server) : KvmrunConfig :=
  {| QemuRootDir := QemuRootDir (Kvmrun (appConf s)); CertDir := CertDir (Kvmrun (appConf s)) |}.
End start.
End ServerStart.

(** ** The devices of the host *)

Module HardwareService.
Import Hardware.

(** [types.PCIDevice] *)
Record PCIDevice := {
  Addr : string; Driver : string; Enabled : bool; Multifunction : bool; Class_ : Z; Vendor : Z; Device : Z;
  ClassName : string; SubclassName : string; VendorName : string; DeviceName : string;
  pb_Reserved : bool; pb_Holder : string;
}.
Definition of_device (d : PciDevice.Device) : PCIDevice :=
  {| Addr := PciDevice.to_string d; Driver := PciDevice.driver d; Enabled := PciDevice.enabled d;
     Multifunction := PciDevice.HasMultifunctionFeature d; Class_ := PciDevice.classID d;
     Vendor := Enums.uint32 (PciDevice.vendorID d); Device := Enums.uint32 (PciDevice.deviceID d);
     ClassName := PciDevice.className d; SubclassName := PciDevice.subclassName d; VendorName := PciDevice.vendorName d;
     DeviceName := PciDevice.deviceName d; pb_Reserved := false; pb_Holder := "" |}.
(** Who holds the device is not passed on. *)
Definition pciDeviceToProto (dev : PCIDeviceInfo) : PCIDevice := of_device (device dev).
Definition pciDeviceListToProto : list PCIDeviceInfo → list PCIDevice := map pciDeviceToProto.
Definition ListPCI (devices : outcome (list PCIDeviceInfo)) : outcome (list PCIDevice) :=
  l ← devices; Ret (pciDeviceListToProto l).
End HardwareService.

Module PrintPci.
Import HardwareService.

(** The directories of the machines that have a file [config]. *)
Definition getMachineNames `{hst : Host} (files : sys (list string)) : outcome (list string) :=
  l ← call files;
  Ret (filter (λ f, match os_Stat (Filepath.Join [CONFDIR; f; "config"]) with inl _ => true | inr _ => false end = true) l).
Definition reserve (holders : gmap string string) (d : PCIDevice) : PCIDevice :=
  match holders !! Addr d with
  | Some vmname =>
      {| Addr := Addr d; Driver := Driver d; Enabled := Enabled d; Multifunction := Multifunction d; Class_ := Class_ d;
         Vendor := Vendor d; Device := Device d; ClassName := ClassName d; SubclassName := SubclassName d;
         VendorName := VendorName d; DeviceName := DeviceName d; pb_Reserved := true; pb_Holder := vmname |}
  | None => d
  end.
(** The list that is printed; a directory of machines that is not there is empty. *)
Definition run `{hst : Host} (pcidevs : outcome (list PciDevice.Device)) (files : sys (list string))
    (conf_of : string → outcome InstanceConf.InstanceConf) : outcome (list PCIDevice) :=
  devs ← pcidevs;
  names ← match getMachineNames files with Throw (ErrNotExist _) => Ret [] | r => r end;
  Ret (map (reserve (Hardware.holders conf_of names)) (map of_device devs)).
End PrintPci.

(** ** The life time of a machine *)

Module LifeTime.

Definition SC_CLK_TCK : Z := 100.
(** [utils.GetProcessLifeTime], in nanoseconds: what the system says of itself, and the
    file [stat] of the process. *)
Definition GetProcessLifeTime (uptime : sys Z) (stat : sys string) : outcome Z :=
  up ← call uptime;
  c ← call stat;
  match HostNet.Fields c !! 21%nat with
  | None => Panic IndexOutOfRange
  | Some f => ticks ← Strconv.Atoi f; Ret (wrap64 ((up - Z.quot ticks SC_CLK_TCK) * 10 ^ 9))
  end.
(** A machine is given with the process of its running instance. *)
Definition MachineGetLifeTime (uptime : sys Z) (stat : Z → sys string) (vm : option (option Z)) : outcome Z :=
  match vm with
  | None => Throw (ErrMsg "empty machine instance")
  | Some None => Ret 0
  | Some (Some pid) => GetProcessLifeTime uptime (stat pid)
  end.
End LifeTime.

(** ** What the daemon is told and tells *)

Module SystemdFacts.
Import Json Systemd.

Class TimeTextLaws `{TimeText} : Prop := time_not_json n old t : dec_time (JStr (time_String n)) old ≠ Ret t.

Section facts.
Context `{TimeTextLaws}.

Lemma dec_fields_Ret {S} (fields : list (string * decoder S)) kvs s s' (P : S → Prop) : P s →
  (∀ k v d s1 s2, (k, v) ∈ kvs → find_field fields k = Some d → P s1 → d v s1 = Ret s2 → P s2) →
  dec_fields fields kvs s = Ret s' → P s'.
Proof.
  revert s. induction kvs as [|[k v] kvs IH]; intros s Hs Hd; [by intros [= <-]|]. cbn [dec_fields].
  assert (∀ k v d s1 s2, (k, v) ∈ kvs → find_field fields k = Some d → P s1 → d v s1 = Ret s2 → P s2) as Hd'
    by (intros; eapply Hd; [by right|done..]).
  destruct (find_field fields k) as [d|] eqn:Ef; [|by apply IH].
  destruct (d v s) as [s1| |] eqn:E; cbn; try done. apply IH; [|done]. eapply Hd; [left|done..].
Qed.
Lemma field_name {S} (fields : list (string * decoder S)) k d : find_field fields k = Some d →
  ∃ name, (name, d) ∈ fields ∧ Strings.ToLower name = Strings.ToLower k.
Proof.
  unfold find_field. destruct (list_find _ fields) as [[i [name d']]|] eqn:E; [|done]. cbn. intros [= <-].
  apply list_find_Some in E as (Hi & Hn & _). exists name. split; [by eapply list_elem_of_lookup_2|done].
Qed.
Lemma on_keeps {T} (g : UnitProperties → T) q (dec : decoder T) v s s' : (∀ x, StateChangeTime (q x s) = StateChangeTime s) →
  on g q dec v s = Ret s' → StateChangeTime s' = StateChangeTime s.
Proof. intros Hq. unfold on. cbn. destruct (dec v (g s)); cbn; intros; simplify_eq/=. apply Hq. Qed.
(** Only the field of its own name writes the time of the last change. *)
Lemma other_fields name d v s s' : (name, d) ∈ property_fields → name ≠ "StateChangeTime" → d v s = Ret s' →
  StateChangeTime s' = StateChangeTime s.
Proof.
  intros Hin Hn. unfold property_fields in Hin.
  repeat (apply elem_of_cons in Hin as [Heq|Hin]; [injection Heq as -> ->; first [done|by apply on_keeps]|]).
  by apply not_elem_of_nil in Hin.
Qed.
Lemma own_field d v s s' : ("StateChangeTime", d) ∈ property_fields → d v s = Ret s' → ∃ t, dec_time v (StateChangeTime s) = Ret t.
Proof.
  intros Hin. unfold property_fields in Hin.
  repeat (apply elem_of_cons in Hin as [Heq|Hin];
    [first [discriminate Heq|injection Heq as ->; unfold on; cbn; destruct (dec_time v (StateChangeTime s)); [by eexists|done..]]|]).
  by apply not_elem_of_nil in Hin.
Qed.
Lemma stamped_texts raw k v : (k, v) ∈ stamped raw → ∃ n, v = JStr (time_String n).
Proof.
  unfold stamped. rewrite list_elem_of_omap. intros (key & _ & Hk).
  destruct (list_find _ raw) as [[i [? [n|n|j]]]|]; simplify_eq/=. by eexists.
Qed.

(** C14: the time of a unit's last change is never known.  systemd's timestamp is not a
    signed number; if it were, its text would not be read as a time. *)
Theorem change_never_known get unitname p :
  (∀ raw k v, get unitname = inl raw → (k, v) ∈ raw → Strings.ToLower k ≠ Strings.ToLower "StateChangeTime") →
  GetUnitProperties get unitname = Ret p → StateChangeTime p = None.
Proof.
  intros Hk. unfold GetUnitProperties. destruct (get unitname) as [raw|e] eqn:Eg; [|done]. cbn [Backend.call mbind outcome_bind dec_struct].
  apply (dec_fields_Ret _ _ _ _ (λ p, StateChangeTime p = None)); [done|].
  intros k v d s1 s2 Hin Hf Hs Hd. destruct (field_name _ _ _ Hf) as (name & Hn & Hl).
  destruct (decide (name = "StateChangeTime")) as [->|Hne]; [|by rewrite (other_fields _ _ _ _ _ Hn Hne Hd)].
  destruct (own_field _ _ _ _ Hn Hd) as (t & Ht). apply elem_of_app in Hin as [Hin|Hin].
  - apply list_elem_of_fmap in Hin as ([k' v'] & [= -> ->] & Hin). by destruct (Hk raw k' v' eq_refl Hin).
  - destruct (stamped_texts _ _ _ Hin) as (n & ->). by destruct (time_not_json n (StateChangeTime s1) t).
Qed.
End facts.

(** A decoder of times that takes none of these texts. *)
#[local] Instance texts : TimeText :=
  {| time_String := λ n, "2024-01-02 03:04:05 +0000 UTC"; dec_time := λ j old, match j with JNull => Ret old | _ => Throw type_error end |}.
#[local] Instance texts_laws : TimeTextLaws.
Proof. by intros n old t. Qed.
Definition of_dbus : list (string * dbus) :=
  [("ActiveState", DValue (JStr "active")); ("StateChangeTimestamp", DUint64 1700000000000000)].
Example change_never_known_witness : ∃ p, GetUnitProperties (λ _, inl of_dbus) "kvmrun@vm1.service" = Ret p ∧
  ActiveState p = "active" ∧ StateChangeTime p = None.
Proof.
  eexists. split; [reflexivity|]. split; [reflexivity|].
  apply (change_never_known (λ _, inl of_dbus) "kvmrun@vm1.service"); [|reflexivity].
  intros raw k v [= <-] Hin. unfold of_dbus in Hin.
  repeat (apply elem_of_cons in Hin as [[= -> ->]|Hin]; [by vm_compute|]). by apply not_elem_of_nil in Hin.
Defined.
End SystemdFacts.

Module StartFacts.
Import AppConf ServerStart.

Lemma substring_app s t : String.substring 0 (String.length s) (s +:+ t) = s.
Proof.
  induction s as [|a s IH]; [by destruct t|].
  change (String a (String.substring 0 (String.length s) (s +:+ t)) = String a s). by rewrite IH.
Qed.
Lemma TrimSuffix_app s suffix : TrimSuffix (s +:+ suffix) suffix = s.
Proof.
  unfold TrimSuffix, Strings.HasSuffix. rewrite to_list_app, rev_app_distr.
  assert (Strings.strip (rev (to_list suffix)) (rev (to_list suffix) ++ rev (to_list s)) = Some (rev (to_list s))) as ->
    by (by apply strip_Some).
  replace (String.length (s +:+ suffix) - String.length suffix)%nat with (String.length s); [apply substring_app|].
  rewrite !length_to_list, to_list_app, length_app. lia.
Qed.
Lemma unit2vm_unit vm : unit2vm (Services.machineUnitFile vm) = vm.
Proof. unfold unit2vm, Services.machineUnitFile. rewrite TrimPrefix_app. apply TrimSuffix_app. Qed.

Section start.
Context `{Startup} {hst : Host}.

(** the daemon starts with a monitor for exactly the machines whose unit is active and
    running and whose QEMU answers, under their names, whatever these names are. *)
Theorem monitors_reconnected (l : list (string * (string * string))) :
  ListUnits "kvmrun@*.service" = inl (map (λ '(vm, (act, sub)), Systemd.Build_UnitStatus (Services.machineUnitFile vm) "loaded" act sub) l) →
  monitorReConnect = Ret (filter (λ vm, match NewMonitor vm with inl _ => true | inr _ => false end = true)
                            (map fst (filter (λ x, x.2 = ("active", "running")) l))).
Proof.
  intros Hl. unfold monitorReConnect, Systemd.GetAllUnits. rewrite Hl. cbn [Backend.call mbind outcome_bind]. do 2 f_equal.
  clear Hl. induction l as [|[vm [act sub]] l IH]; [done|]. cbn [map]. rewrite !filter_cons. cbn [Systemd.us_Name Systemd.us_ActiveState Systemd.us_SubState].
  unfold running at 1. cbn [Systemd.us_ActiveState Systemd.us_SubState snd].
  destruct (decide ((act, sub) = ("active", "running"))) as [[= -> ->]|Hn].
  - rewrite decide_True by done. cbn [map fst Systemd.us_Name]. by rewrite unit2vm_unit, IH.
  - rewrite decide_False; [done|]. intros [Ha%bool_decide_eq_true Hs%bool_decide_eq_true]%andb_true_iff. cbn in Ha, Hs. subst. by destruct Hn.
Qed.

Context `{Files, Env} (wd : string) (Hwd : os_Getwd = inl wd) (Hroot : Filepath.IsAbs wd = true).
Lemma Clean_abs p : Filepath.IsAbs p = true → Filepath.IsAbs (Filepath.Clean p) = true.
Proof. intros Hp. unfold Filepath.Clean. rewrite Hp. apply (HasPrefix_app "/"). Qed.
Lemma filepath_Abs_abs p q : filepath_Abs p = Ret q → Filepath.IsAbs q = true.
Proof.
  unfold filepath_Abs. destruct (Filepath.IsAbs p) eqn:E.
  - intros [= <-]. by apply Clean_abs.
  - rewrite Hwd. intros [= <-]. unfold Filepath.Join. destruct wd as [|a w]; [done|]. cbn [list_find].
    rewrite decide_True by done. apply Clean_abs. apply HasPrefix_Some in Hroot as (t & ->).
    cbn [fst drop Strings.Join]. rewrite <- append_assoc. apply HasPrefix_app.
Qed.

(** a daemon that starts from a configuration file has both key pairs, each with its
    authority, and a root directory for QEMU that is an absolute path and is there. *)
Theorem started_with p c s : NewServerConfig p = Ret c → NewServer (Some c) = Ret s →
  Filepath.IsAbs (QemuRootDir (GetAppConfig s)) = true ∧ (∃ st, os_Stat (QemuRootDir (GetAppConfig s)) = inl st) ∧
  is_Some (TLSConfig (appConf s)) ∧ is_Some (srv_TLSConfig (Server (appConf s))).
Proof.
  intros Hc Hs. unfold NewServer in Hs. destruct (TLSConfig c) as [t|] eqn:Et; [|done].
  destruct (srv_TLSConfig (Server c)) as [t'|] eqn:Et'; [|done].
  destruct (os_Stat (QemuRootDir (Kvmrun c))) as [st|[]] eqn:Est; try done.
  assert (appConf s = c) as Ha.
  { revert Hs. destruct NewManager; [|done]. cbn [Backend.call mbind outcome_bind].
    destruct (register _) as [| |]; [|done..]. cbn. destruct monitorReConnect; [|done..]. by intros [= <-]. }
  unfold GetAppConfig. rewrite Ha, Et, Et'. split_and!; [|by eexists|done..]. cbn [QemuRootDir].
  unfold NewServerConfig in Hc. destruct (newConfig p) as [c0| |] eqn:En; [|done..]. cbn [mbind outcome_bind] in Hc.
  destruct (optional_tls _ _ _); [|done..]. cbn in Hc. injection Hc as <-. cbn [Kvmrun].
  unfold newConfig in En. destruct (ReadFileInto _ _) as [[k sv]|]; [|done]. cbn [Backend.call mbind outcome_bind] in En.
  destruct (optional_tls _ _ _); [|done..]. cbn in En. case_bool_decide; [by injection En as <-|].
  destruct (filepath_Abs _) eqn:Ef; [|done..]. injection En as <-. cbn. by eapply filepath_Abs_abs.
Qed.
End start.
End StartFacts.

Module HolderFacts.
Import Hardware HardwareService PrintPci.

(** the list the daemon answers [vmm system pci-devices] with says of no device who
    holds it, although the daemon has looked that up; [printpci] tells the same devices
    with what the daemon has found. *)
Theorem holders_told `{hst : Host} devs files names conf_of l : getMachineNames files = Ret names →
  GetPCIDeviceList (Ret devs) (Ret names) conf_of = Ret l →
  ListPCI (Ret l) = Ret (map of_device devs) ∧
  PrintPci.run (Ret devs) files conf_of =
    Ret (map (λ i, reserve (if Reserved i then {[PciDevice.to_string (device i) := Holder i]} else ∅) (pciDeviceToProto i)) l).
Proof.
  intros Hn. unfold GetPCIDeviceList. cbn [mbind outcome_bind]. intros [= <-]. split.
  - unfold ListPCI, pciDeviceListToProto. cbn [mbind outcome_bind]. f_equal. rewrite map_map. apply map_ext. intros d.
    unfold pciDeviceToProto, info. by case_match.
  - unfold PrintPci.run. rewrite Hn. cbn [mbind outcome_bind]. f_equal. rewrite !map_map. apply map_ext. intros d.
    unfold reserve, pciDeviceToProto, info. cbn [Addr of_device].
    destruct (holders conf_of names !! PciDevice.to_string d) eqn:E; cbn [device Reserved Holder of_device Addr].
    + by rewrite lookup_singleton_eq.
    + by rewrite lookup_empty.
Qed.
End HolderFacts.

Module LifeTimeFacts.
Import LifeTime NetstatFacts.

(** the life time of a machine is what has passed since its process has started, for a
    process whose name has no space: the 22nd of the words of its file is the time of its
    start, in hundredths of a second. *)
Theorem life_time up stat pid ws ticks : stat pid = inl (Strings.Join ws " " +:+ String (char 10) "") →
  Forall word ws → ws !! 21%nat = Some (Strconv.Itoa ticks) → 0 ≤ ticks / 100 ≤ up → up < 2 ^ 33 →
  MachineGetLifeTime (inl up) stat (Some (Some pid)) = Ret ((up - ticks / 100) * 10 ^ 9).
Proof.
  intros Hs Hw Ht Hu Hb. unfold MachineGetLifeTime, GetProcessLifeTime. rewrite Hs. cbn [Backend.call mbind outcome_bind].
  assert (ticks = 100 * (ticks / 100) + ticks mod 100 ∧ 0 ≤ ticks mod 100 < 100) as [Hd Hm]
    by (split; [by apply Z.div_mod|by apply Z.mod_pos_bound]).
  rewrite Fields_line by (done || by right). rewrite Ht, Atoi_Itoa by (unfold is_int, int_min, int_max; lia). cbn [mbind outcome_bind].
  unfold SC_CLK_TCK. rewrite Z.quot_div_nonneg by lia. rewrite wrap64_id; [done|]. unfold is_int, int_min, int_max. lia.
Qed.
Definition stat_words : list string :=
  ["4711"; "(qemu.kvm)"; "S"; "1"; "4711"; "4711"; "0"; "-1"; "4194304"; "100"; "0"; "0"; "0"; "55"; "66"; "0"; "0"; "20"; "0";
   "4"; "0"; "36000"; "1048576"].
Example life_time_witness : MachineGetLifeTime (inl 1000) (λ _, inl (Strings.Join stat_words " " +:+ String (char 10) "")) (Some (Some 4711)) =
  Ret (640 * 10 ^ 9).
Proof.
  apply (life_time 1000 (λ _, inl (Strings.Join stat_words " " +:+ String (char 10) "")) 4711 stat_words 36000);
    [reflexivity|repeat (constructor; [split; [discriminate|by_compute]|]); constructor|reflexivity|by vm_compute|by vm_compute].
Defined.
End LifeTimeFacts.
